(* ===== verification/_CoqProject ===== *)
-Q . S2P
Prelude.v
GoTime.v
Resource.v
GoStrings.v
GoJson.v
StoreData.v
StoreSQL.v
StoreOps.v
StoreInv.v
StoreFrame.v
StoreLease.v
StoreReport.v
StoreRecovery.v
StoreLifecycle.v
StoreStage.v
StoreQueries.v
GoJsonLaws.v
GoSha256.v
Fingerprint.v
GoJsonStruct.v
Variables.v
Expression.v
Functions.v
Resolver.v
ResolverRel.v
ResolverTyping.v
Scopes.v
Redaction.v
ExpressionLaws.v
StepOutputs.v
OutputText.v
Dependency.v
DependencyLaws.v
VariableCodec.v
VariableLaws.v
SubmissionContext.v
Stages.v
DependencyStore.v
DependencyRefinement.v
DependencyFailure.v
WorkItem.v
FanOut.v
FanOutLaws.v
Compile.v
GoPath.v
GoInstant.v
GoHttp.v
Auth.v
AuthLaws.v
WorkerCapacity.v
Caretaker.v
Logs.v
LogReadLaws.v
Lifecycle.v
GoFmt.v
WorkItemCodec.v
Dependents.v
DataNames.v
DataCollections.v
DataAssets.v
DataProviders.v
DataDefinitions.v
DataLaws.v
DataCodec.v
DataInstances.v
ExplicitData.v
Hydration.v
CollectionManifests.v
StageQueue.v
StageActivation.v
WorkService.v
RepoSource.v
RepoSourceLaws.v
Admission.v
AdmissionLaws.v
Documents.v
DocumentLaws.v
