(* ===== verification/Prelude.v ===== *)
(** * GOET: a verification library for the go-etl controller

    GOET (module [goetl]) is a distributed orchestration runtime.  A controller
    compiles workflows into work items, keeps them in a durable queue, leases them
    to worker sessions and records the outcome of every attempt; configuration and
    work are parameterised by variables, which a resolver evaluates.  This library
    translates the core of the Go sources into executable Rocq functions and proves
    the properties that make it correct.

    ** How the code is modelled

    - A Go function that returns (value, error) is a function to [result]; errors
      keep their wrapping structure ([GoError]), so that [errors.Is] and [errors.As]
      can be modelled.  Error texts are the code's, without the parts printed by
      [%T] or produced by the standard library or the database driver.
    - A database is a record of tables; each SQL statement is a function on it that
      enforces the CHECK, UNIQUE and FOREIGN KEY constraints of the schema; a
      transaction is a function to [result] whose effect is dropped on error.
      Foreign keys are a switch per operation (the pragma is set on one pooled
      connection only), and the invariants do not rely on it.
    - 64-bit integers are [Z] with their range, timestamps are the texts the code
      stores and compares, strings are byte strings, maps are [gmap] or, where Go's
      iteration order can matter, association lists over all of whose orders the
      theorems quantify.

    ** The parts

    Shared: this file (results, loops, orderings, 64-bit integers), [GoTime]
    ([time.Parse] and [Format] for RFC 3339), [GoStrings] ([strings] and [strconv]),
    [GoJson] and [GoJsonLaws] ([json.Valid], UTF-8, JSON values, reading and quoting of
    JSON text), [GoJsonStruct] (how [encoding/json] fills and writes structs),
    [GoSha256] (SHA-256 and its hexadecimal text), [GoPath] ([filepath.Join] and
    [Clean]), [GoInstant] (instants, durations and their texts), [GoHttp] (requests,
    header values and answers).

    The durable store ([src/internal/persistence/store.go], schema and queries in
    [db_adapter_sqlite.go]), with the admission check of
    [src/internal/model/resource_constraint.go]:
    - [Resource]: operators, checked addition, admission.
    - [StoreData]: records, tables and request validation.
    - [StoreSQL]: the statements: inserts with constraints, scans, listings.
    - [StoreOps]: one definition per operation of [Store] that changes state, with
      the transaction body ([tx_...]) it runs.
    - [StoreQueries]: the read-only operations.
    - [StoreInv], [StoreFrame]: a step relation over all operations ([op], [run_op],
      [reachable]), the invariant and its preservation; the class [Respects] lifts a
      relation every operation respects to sequences of operations.
    - [StoreLease]: claiming work: earliest admitted item first, exact effect,
      capacity, when a claim is served, and how a running head blocks the queue.
    - [StoreReport]: completing and failing: the reachable-state invariant, fencing
      of lost leases, ownership, finality of completed attempts.
    - [StoreRecovery]: recovery of expired sessions: what exactly it ends and
      requeues, the retry ceiling, and the witness that expiry compares texts rather
      than instants.
    - [StoreLifecycle]: over whole histories, an item finishes at most once and is
      abandoned a bounded number of times.
    - [StoreStage]: stages of a run: completion exactly when all work is done,
      finality, and the round trip of a stage plan.

    Variables ([src/internal/variable]):
    - [Variables]: namespaces, names, references, types, expressions, values,
      protected references, sensitivity marks, redacted JSON, scopes and sets.
    - [Expression]: interpolation tokens, accessors, validation, literals,
      constructors.  [Functions]: the list functions and the registry.
    - [Resolver]: the resolver with its typed readers and the environment cache.
    - [ResolverRel]: one relational induction over the resolver, for any relation on
      values with the laws of the class [ValueRelation] and any registry that
      respects it ([RegistryRespects]); the default registry respects them all.
    - [ResolverTyping]: values are well formed and of the declared type, raising the
      depth limit changes no value, what resolves starts no cycle.
    - [Redaction]: what is shown does not depend on sensitive scalars, and the
      limit of that guarantee for composites.
    - [Scopes]: the last scope wins; references read and print.
    - [ExpressionLaws]: tokens are where the scanner says, accessors compose, the
      crossproduct, the stability of the environment cache.
    - [VariableCodec], [VariableLaws]: the JSON of variables, expressions and
      protected references; what is written reads back.

    Outputs and fingerprints:
    - [Fingerprint] ([src/internal/fingerprint/canonical_json.go]): canonical JSON,
      exactly one text per value.
    - [StepOutputs], [OutputText] ([src/cmd/controller/workflow_outputs.go]): output
      documents to values, canonical texts and escaped expressions; an output is
      never expanded as a reference, and its canonical text is stable.

    Dependency plans ([src/internal/model/workflow_dependency.go],
    [src/cmd/controller/workflow_dependency_store.go]):
    - [Dependency], [DependencyLaws]: plans of stages, steps and work items, their
      validation and update; updating for one item agrees with deriving all states.
    - [SubmissionContext]: the context a run is stored with,
      as JSON, and its round trip.
    - [DependencyStore]: the controller's operations, which rebuild a plan from the
      store and write back what the tables do not say; an operation is a function of
      the controller's state (store, clock, log sink) to a result and a state.
    - [DependencyRefinement]: the rebuilt plan says of a run exactly what its rows
      say.  [DependencyFailure]: recording a failure changes nothing or is final, and
      after the report of a worker it changes nothing and leaves no reason.

    Compilation ([src/internal/workflow], [src/internal/model/work_item.go]):
    - [Stages]: grouping of steps into stages, exactly.
    - [WorkItem]: work items, their validation and the execution
      envelope that separates public values from protected references.
    - [FanOut], [FanOutLaws]: one work item per value of a list: templates, tokens,
      parameters, constraints; exactness, constraints the store accepts, and the
      sensitivity that a rendered parameter loses.
    - [Compile]: steps, workflows and stages; compiling at once and by
      stages agree.

    Data assets ([src/internal/model], [src/internal/workflow]):
    - [GoFmt] ([fmt] of values), [DataNames] (names, paths, locations, archives),
      [DataCollections] (dimensions, ranges and path templates), [DataAssets] (bound
      assets, manifests, publish targets), [DataProviders] (templates and their
      binding), [DataDefinitions] (inputs and outputs as workflows declare them).
    - [DataLaws]: a bound asset stays below its root; rendering is substitution, and
      when it depends on the order of a map; the cardinality of a collection, and the
      range whose expansion never ends.
    - [WorkItemCodec], [DataCodec]: the JSON of work items, of their payloads and of the
      data structures, written and read.
    - [DataInstances] ([data_instance.go], [asset_materialize_plan.go]): instances,
      their keys, resource constraints.  [ExplicitData]
      ([data_collection.go], [explicit_*.go]): plans of collections and the operators
      that materialise, commit and read data; a plan has exactly the members of the
      product of its dimensions.

    The controller ([src/cmd/controller], [src/internal/controllerauth]):
    - [Auth], [AuthLaws] ([controllerauth], [auth_middleware.go]): configuration,
      loading of credentials, the route policy and the middleware; who reaches a
      handler, exactly, and that errors of loading say nothing of the tokens.
    - [WorkerCapacity] ([worker_execution.go]): the demand for
      workers, the patterns that plan starts, reservations; when a worker is started,
      exactly, and the race that starts one too many.
    - [Caretaker] ([caretaker.go]): reconciliation and the wake-up
      loop, as a step relation over its channel and timer; the loop always wakes.
    - [Logs], [LogReadLaws] ([log_observation_endpoint.go], [log_sink.go],
      [log_read.go]): log files as a map from paths to lines; where observations are
      written, that they read back in the order of their times, and the limits of both.
    - [Lifecycle] ([worker_lifecycle.go]): the handlers by which
      workers register, send heartbeats and stop, from the request to the answer.
    - [Dependents] ([asset_materialize_dependencies.go]): reading stored work items, and
      queueing or failing the items that wait for another.
    - [Hydration] ([asset_materialize_hydration.go]): what a claimed
      item gets from completed ones: which assets a step gets, exactly, and the keys
      under which it finds them.
    - [CollectionManifests] ([workflow_outputs.go]): the
      outputs of the members of a collection as one manifest that locates each.
    - [StageQueue], [StageActivation] ([workflow_stage_queue.go],
      [workflow_stage_activation.go]): the records of a compiled stage, exactly, and
      the activation of the next stage.
    - [WorkService] ([main.go]): the handlers of raw
      work, of the next work item and of reports; a refused request changes nothing, and
      an item that cannot be made ready for its worker keeps it busy.
    - [RepoSource], [RepoSourceLaws] ([src/internal/reposource]): paths, manifests and
      the cache of repository files, a map from paths to contents; where files are
      placed and that they read back.
    - [Admission], [AdmissionLaws] ([main.go], [python_workitem.go],
      [source_reload.go]): admission of a workflow and reload of its sources; example
      runs through all handlers, and the steps of materialisations that block a workflow.

    Source documents ([src/internal/document]):
    - [Documents]: values of JSON and YAML documents, their variables, canonical
      workflows, strict documents and the overlay of data definitions.
    - [DocumentLaws]: an overlay has at each path what the last layer says, and when
      layers cannot be overlaid, exactly.

    ** Bounds and fuel

    The resolver recurses on the remaining depth [MaxDepth - depth]: the code's own
    limit, so no evaluation is cut short that the code would do.  The scanners of
    interpolation tokens, templates and accessors, and white-space trimming, take the
    length of the text as fuel and consume a byte per round ([accessor_parts_fuel]
    shows more fuel changes nothing).  The JSON reader, and the reader of JSON
    documents, take two rounds per chunk of
    the text ([parse_value_fuel]: any more fuel reads the same); the decoder of
    expressions takes the depth of the tree.  Stage activation takes as many rounds as
    the plan has stages: a round moves to the next stage or ends.  The expansion of a
    range takes as many rounds as it has integers; [DataLaws]
    shows that no number of rounds is enough when that one is not.  All other loops are
    structural.

    ** Parameters

    SQLite's [json_valid] and the foreign-key switch of a connection ([Engine]); the
    readings of the clock and random bytes; the controller environment; the operating
    system's environment variables and files ([OS]), from which credentials are read;
    the class [WorkerLauncher], which starts worker processes, and the class
    [CareTakerStateSource] of what the caretaker observes; the classes
    [Unicode] (letters and digits beyond Latin-1), [Formats] and [JsonFloats] (texts of
    floating-point numbers and of times under [fmt]) and [Urls] ([net/url]); the class
    [Providers] of source repositories; the classes [Yaml], the nodes that the YAML parser
    gives for a text, and [MediaTypes] ([mime.ParseMediaType]); [SourceDocuments], which
    decodes submitted documents.  Interfaces between components: [DataOperators], the data templates of
    the fan-out, with the instances [no_data] and [ExplicitData.data_operators];
    [CollectionOutputs] of the output aggregation, with the instance
    [CollectionManifests.collection_outputs]; [RunSources] of the activation, with the
    instance [Admission.cached_sources].  Theorems hold for every instance.

    ** What is not modelled

    Opening and migrating the database, process start-up and configuration files, the
    submission status and shutdown handlers, SSH and Slurm transport, the worker process
    and its plugins, the ledger, geospatial processing and the command-line clients:
    they are input and output around the modelled core.  The
    operations of the store are atomic, as the transactions are; the environment cache
    is a sequence of lookups, as its mutex makes it.  A key repeated in one JSON object
    is read as its last value.  A loop over a Go map that can fail reports the error of
    one order of iteration; no theorem depends on which.  Memory is unbounded: an
    allocation never fails.  Of documents, the positions of errors and the decoding of
    data definitions are left out.  Writing a file succeeds unless
    a file is where a directory is needed or the other way round. *)

From Stdlib Require Export Ascii.
From stdpp Require Export base tactics numbers pretty sorting gmap strings list.

(** ** Go errors and results *)

(** [error] values.  [Errorf] is [fmt.Errorf] without [%w] or [errors.New] used
    in place, [Wrapf] is [fmt.Errorf("...: %w", err)], [Sentinel] is a
    package-level error variable compared by identity, [Located] is the
    resolver's [locatedError], [SqlConstraint] is the error a database
    constraint raises (its text belongs to the driver). *)
Inductive GoError :=
  | Errorf (msg : string)
  | Wrapf (msg : string) (cause : GoError)
  | Sentinel (msg : string)
  | Located (path : string) (cause : GoError)
  | SqlConstraint (what : string).

#[export] Instance GoError_eq_dec : EqDecision GoError.
Proof. solve_decision. Defined.

(** The pair (value, error) a Go function returns: a value or a non-nil error. *)
Inductive result (A : Type) :=
  | Ok (a : A)
  | Err (e : GoError).
Arguments Ok {A} a.
Arguments Err {A} e.

#[export] Instance result_eq_dec `{EqDecision A} : EqDecision (result A).
Proof. solve_decision. Defined.
#[export] Instance result_ret : MRet result := λ A a, Ok a.
#[export] Instance result_bind : MBind result := λ A B k c,
  match c with Ok a => k a | Err e => Err e end.
#[export] Instance result_fmap : FMap result := λ A B f c,
  match c with Ok a => Ok (f a) | Err e => Err e end.

(** [if cond { return err }] *)
Definition fail_if (b : bool) (e : GoError) : result unit :=
  if b then Err e else Ok tt.

(** [if err != nil { return fmt.Errorf("msg: %w", err) }] *)
Definition wrap_err {A} (msg : string) (c : result A) : result A :=
  match c with Ok a => Ok a | Err e => Err (Wrapf msg e) end.

(** A [for range] loop that returns at the first error. *)
Fixpoint foldM {S A} (f : S → A → result S) (s : S) (l : list A) : result S :=
  match l with
  | [] => Ok s
  | a :: l' => s' ← f s a; foldM f s' l'
  end.

(** Loops that build a list, over the fields of a map and over an indexed list;
    they too return at the first error. *)
Section traverse.
Context {A B : Type}.

Section fields.
Context (f : string → A → result B).
Fixpoint traverse_fields (l : list (string * A)) : result (list (string * B)) :=
  match l with
  | [] => Ok []
  | (k, a) :: l' => b ← f k a; rest ← traverse_fields l'; Ok ((k, b) :: rest)
  end.
End fields.

Section items.
Context (f : nat → A → result B).
Fixpoint traverse_items (index : nat) (l : list A) : result (list B) :=
  match l with
  | [] => Ok []
  | a :: l' => b ← f index a; rest ← traverse_items (S index) l'; Ok (b :: rest)
  end.
End items.
End traverse.

Definition is_Ok {A} (c : result A) : bool :=
  match c with Ok _ => true | Err _ => false end.

Section result_lemmas.
Context {A B : Type}.
Implicit Types (c : result A) (k : A → result B).

Lemma bind_Ok c k b : c ≫= k = Ok b ↔ ∃ a, c = Ok a ∧ k a = Ok b.
Proof. destruct c; naive_solver. Qed.

Lemma bind_Err c k e :
  c ≫= k = Err e ↔ c = Err e ∨ ∃ a, c = Ok a ∧ k a = Err e.
Proof. destruct c; naive_solver. Qed.

Lemma fmap_Ok (f : A → B) c b : f <$> c = Ok b ↔ ∃ a, c = Ok a ∧ b = f a.
Proof. destruct c; naive_solver. Qed.

Lemma wrap_err_Ok msg c a : wrap_err msg c = Ok a ↔ c = Ok a.
Proof. destruct c; naive_solver. Qed.

Lemma is_Ok_exists c : negb (is_Ok c) = false → ∃ a, c = Ok a.
Proof. destruct c; [eauto|done]. Qed.

Lemma fail_if_Ok b e u : fail_if b e = Ok u ↔ b = false.
Proof. destruct b, u; naive_solver. Qed.
End result_lemmas.

Lemma foldM_cons {S A} (f : S → A → result S) s a l :
  foldM f s (a :: l) = f s a ≫= λ s', foldM f s' l.
Proof. done. Qed.

(** Invariant rule for loops. *)
Lemma foldM_inv {S A} (P : S → Prop) (f : S → A → result S) l s s' :
  (∀ s a s', a ∈ l → P s → f s a = Ok s' → P s') →
  P s → foldM f s l = Ok s' → P s'.
Proof.
  revert s. induction l as [|a l IH]; intros s Hstep Hs; simpl.
  - by intros [= ->].
  - intros (s1 & H1 & H2)%bind_Ok. eapply IH; [|by eapply Hstep; [left|..]|done].
    intros ??? Hin. apply Hstep. by right.
Qed.

(** A reflexive and transitive relation that every iteration respects relates
    the states before and after a loop. *)
Lemma foldM_rel {S A} (R : relation S) `{!PreOrder R} (f : S → A → result S) l s s' :
  (∀ s a s', f s a = Ok s' → R s s') → foldM f s l = Ok s' → R s s'.
Proof.
  intros Hstep Hf.
  refine (foldM_inv (λ t, R s t) f l s s' _ (reflexivity _) Hf).
  intros ? ? ? _ ? ?%Hstep. by etrans.
Qed.

(** Break a successful computation into the successful steps it is made of. *)
Ltac result_step :=
  match goal with
  | H : mbind _ _ = Ok _ |- _ => apply bind_Ok in H as (? & ? & H)
  | H : wrap_err _ _ = Ok _ |- _ => rewrite wrap_err_Ok in H
  | H : fail_if _ _ = Ok _ |- _ => rewrite fail_if_Ok in H
  | H : fmap _ _ = Ok _ |- _ => apply fmap_Ok in H as (? & ? & H)
  | H : Ok _ = Ok _ |- _ => injection H as H
  | H : Err _ = Ok _ |- _ => discriminate H
  | H : mret _ = Ok _ |- _ => unfold mret, result_ret in H
  | u : unit |- _ => destruct u
  end.
Ltac result_inv := repeat (result_step; simplify_eq/=).

Create HintDb goet discriminated.

(** Tests over a list. *)
Lemma existsb_elem {A} (f : A → bool) l : existsb f l = true ↔ ∃ x, x ∈ l ∧ f x = true.
Proof. rewrite existsb_exists. by setoid_rewrite list_elem_of_In. Qed.
Lemma forallb_elem {A} (f : A → bool) l : forallb f l = true ↔ ∀ x, x ∈ l → f x = true.
Proof. rewrite forallb_forall. by setoid_rewrite list_elem_of_In. Qed.

(** ** Machine integers *)

Definition MaxInt64 : Z := 9223372036854775807%Z.
Definition MinInt64 : Z := (-9223372036854775808)%Z.

Definition int64 (z : Z) : Prop := (MinInt64 ≤ z ≤ MaxInt64)%Z.
#[export] Instance int64_dec z : Decision (int64 z).
Proof. unfold int64. apply _. Defined.

(** Two's-complement wrap-around of a Go [int64] (or 64-bit [int]) result. *)
Definition wrap64 (z : Z) : Z := ((z + 2 ^ 63) mod 2 ^ 64 - 2 ^ 63)%Z.

Lemma wrap64_id z : int64 z → wrap64 z = z.
Proof.
  unfold int64, wrap64, MinInt64, MaxInt64. intros.
  rewrite Z.mod_small; lia.
Qed.

(** ** Byte-wise string order (Go's [<] on strings, SQLite's BINARY collation) *)

Definition str_leb (a b : string) : bool := String.leb a b.
Definition str_ltb (a b : string) : bool := String.ltb a b.
Definition is_empty (s : string) : bool := bool_decide (s = "").

Lemma str_ltb_leb a b : str_ltb a b = negb (str_leb b a).
Proof.
  unfold str_ltb, str_leb, String.ltb, String.leb. rewrite (String.compare_antisym a b).
  by destruct (String.compare b a).
Qed.

Lemma str_leb_refl a : str_leb a a = true.
Proof. pose proof (reflexivity (R := String.le) a) as H. by apply Is_true_true. Qed.
Lemma str_leb_trans a b c : str_leb a b = true → str_leb b c = true → str_leb a c = true.
Proof.
  rewrite <- !Is_true_true. apply (transitivity (R := String.le)).
Qed.
#[export] Hint Resolve str_leb_refl str_leb_trans : goet.
Lemma str_leb_total a b : str_leb a b = true ∨ str_leb b a = true.
Proof. rewrite <- !Is_true_true. apply (total String.le). Qed.
Lemma str_leb_antisym a b : str_leb a b = true → str_leb b a = true → a = b.
Proof. rewrite <- !Is_true_true. apply (anti_symm String.le). Qed.

(** ** ORDER BY

    [order_by leb l] is the rows of [l] in the order of a comparison.  A
    comparison on text columns compares byte-wise, column by column. *)

Definition order_by {A} (leb : A → A → bool) (l : list A) : list A :=
  merge_sort (λ x y, Is_true (leb x y)) l.

(** ORDER BY [f], [g] *)
Definition by_text2 {A} (f g : A → string) (x y : A) : bool :=
  if decide (f x = f y) then str_leb (g x) (g y) else str_leb (f x) (f y).

(** ORDER BY an integer column *)
Definition by_int {A} (f : A → Z) (x y : A) : bool := (f x <=? f y)%Z.

Class LinearComparison {A} (leb : A → A → bool) : Prop := {
  lc_total : ∀ x y, leb x y = true ∨ leb y x = true;
  lc_trans : ∀ x y z, leb x y = true → leb y z = true → leb x z = true;
}.

#[export] Instance by_text2_linear {A} (f g : A → string) :
  LinearComparison (by_text2 f g).
Proof.
  split.
  - intros x y. unfold by_text2. repeat case_decide; try congruence; apply str_leb_total.
  - intros x y z. unfold by_text2.
    destruct (decide (f x = f y)) as [E1|N1], (decide (f y = f z)) as [E2|N2],
      (decide (f x = f z)) as [E3|N3]; try congruence; eauto with goet.
    rewrite <- E3. intros Hxy Hyx. destruct N1. by apply str_leb_antisym.
Qed.

#[export] Instance by_int_linear {A} (f : A → Z) : LinearComparison (by_int f).
Proof. split; unfold by_int; intros; lia. Qed.

Section order_by.
Context {A} (leb : A → A → bool) `{!LinearComparison leb}.

Lemma order_by_perm l : order_by leb l ≡ₚ l.
Proof. apply merge_sort_Permutation. Qed.

Lemma elem_of_order_by x l : x ∈ order_by leb l ↔ x ∈ l.
Proof. by rewrite order_by_perm. Qed.

Lemma order_by_sorted l : StronglySorted (λ x y, Is_true (leb x y)) (order_by leb l).
Proof.
  apply StronglySorted_merge_sort.
  - intros x y z. rewrite !Is_true_true. apply lc_trans.
  - intros x y. rewrite !Is_true_true. apply lc_total.
Qed.

(** Whatever precedes a row in the listing compares below it. *)
Lemma order_by_before l l1 x l2 y :
  order_by leb l = l1 ++ x :: l2 → y ∈ l1 → leb y x = true.
Proof.
  intros Heq Hy. pose proof (order_by_sorted l) as Hs. rewrite Heq in Hs. clear Heq.
  induction l1 as [|z l1 IH]; [by apply elem_of_nil in Hy|].
  apply StronglySorted_inv in Hs as [Hs Hz]. apply elem_of_cons in Hy as [->|Hy]; [|by auto].
  rewrite Forall_forall in Hz. apply Is_true_true, Hz, elem_of_app. right. left.
Qed.
End order_by.
