(* ===== verification/GoTime.v ===== *)
(** * Go's [time.Parse] and [Time.Format] for RFC 3339

    [time.Parse(time.RFC3339, s)] and [time.Parse(time.RFC3339Nano, s)] accept
    the same texts: four-digit year, two-digit month, day, minute and second, a
    one- or two-digit hour, an optional fraction introduced by a period or a
    comma, and a zone that is [Z] or a signed hh:mm offset (hours up to 24 and
    minutes up to 60).  [parse_rfc3339] is that parser; [format_rfc3339] is
    [Time.Format(time.RFC3339)] of the result.  [instant] is the point in time a
    parsed text denotes, in nanoseconds, and serves to say when two texts are
    chronologically ordered. *)

From S2P Require Import Prelude.
Local Open Scope Z_scope.

Record Time := mkTime {
  t_year : Z; t_month : Z; t_day : Z;
  t_hour : Z; t_min : Z; t_sec : Z; t_nsec : Z;
  t_offset : Z  (* zone offset east of UTC, in seconds *)
}.

#[export] Instance Time_eq_dec : EqDecision Time.
Proof. solve_decision. Defined.

Definition digit_val (c : ascii) : option Z :=
  let n := Z.of_N (Ascii.N_of_ascii c) in
  if bool_decide (48 ≤ n ∧ n ≤ 57) then Some (n - 48) else None.

(** Go's [getnum]: two digits, or one when [fixed] is false. *)
Definition getnum (fixed : bool) (s : string) : option (Z * string) :=
  match s with
  | String c s1 =>
      a ← digit_val c;
      match s1 with
      | String d s2 =>
          match digit_val d with
          | Some b => Some (10 * a + b, s2)
          | None => if fixed then None else Some (a, s1)
          end
      | EmptyString => if fixed then None else Some (a, s1)
      end
  | EmptyString => None
  end.

Definition getyear (s : string) : option (Z * string) :=
  '(hi, s1) ← getnum true s; '(lo, s2) ← getnum true s1; Some (100 * hi + lo, s2).

Definition skip_byte (c : ascii) (s : string) : option string :=
  match s with
  | String d s' => if bool_decide (c = d) then Some s' else None
  | EmptyString => None
  end.

(** The digits of a fraction: nine of them count, the rest are skipped.
    [n] is the number of digits still to count and [acc] their value so far. *)
Fixpoint fraction_digits (n : nat) (acc : Z) (s : string) : Z * string :=
  match s with
  | String c s' =>
      match digit_val c with
      | Some d =>
          match n with
          | O => fraction_digits O acc s'
          | S n' => fraction_digits n' (10 * acc + d) s'
          end
      | None => (acc * 10 ^ Z.of_nat n, s)
      end
  | EmptyString => (acc * 10 ^ Z.of_nat n, s)
  end.

Definition getfraction (s : string) : Z * string :=
  match s with
  | String c (String d s' as s1) =>
      if bool_decide (c = "."%char ∨ c = ","%char) then
        match digit_val d with
        | Some _ => fraction_digits 9 0 s1
        | None => (0, s)
        end
      else (0, s)
  | _ => (0, s)
  end.

Definition getzone (s : string) : option (Z * string) :=
  match s with
  | String "Z" s' => Some (0, s')
  | String sign s1 =>
      '(hr, s2) ← getnum true s1;
      s3 ← skip_byte ":" s2;
      '(mm, s4) ← getnum true s3;
      if bool_decide (hr > 24 ∨ mm > 60) then None else
      if bool_decide (sign = "+"%char) then Some ((hr * 60 + mm) * 60, s4)
      else if bool_decide (sign = "-"%char) then Some (- ((hr * 60 + mm) * 60), s4)
      else None
  | EmptyString => None
  end.

Definition is_leap (y : Z) : bool :=
  bool_decide (y mod 4 = 0 ∧ (y mod 100 ≠ 0 ∨ y mod 400 = 0)).

Definition days_in (m y : Z) : Z :=
  if bool_decide (m = 2) then (if is_leap y then 29 else 28)
  else if bool_decide (m = 4 ∨ m = 6 ∨ m = 9 ∨ m = 11) then 30 else 31.

(** [time.Parse(time.RFC3339Nano, s)], as accepted or rejected. *)
Definition parse_rfc3339 (s : string) : option Time :=
  '(y, s) ← getyear s;
  s ← skip_byte "-" s;
  '(mo, s) ← getnum true s;
  if bool_decide (mo ≤ 0 ∨ 12 < mo) then None else
  s ← skip_byte "-" s;
  '(d, s) ← getnum true s;
  s ← skip_byte "T" s;
  '(h, s) ← getnum false s;
  if bool_decide (24 ≤ h) then None else
  s ← skip_byte ":" s;
  '(mi, s) ← getnum true s;
  if bool_decide (60 ≤ mi) then None else
  s ← skip_byte ":" s;
  '(se, s) ← getnum true s;
  if bool_decide (60 ≤ se) then None else
  let '(ns, s) := getfraction s in
  '(off, s) ← getzone s;
  if bool_decide (s ≠ "") then None else
  if bool_decide (d < 1 ∨ days_in mo y < d) then None else
  Some (mkTime y mo d h mi se ns off).

(** Go's [appendInt]: a sign when negative, then at least [w] digits. *)
Definition pad (w : nat) (z : Z) : string :=
  let t := pretty (Z.abs z) in
  (if bool_decide (z < 0) then "-" else "")
  +:+ String.concat "" (replicate (w - String.length t) "0") +:+ t.

Definition format_zone (off : Z) : string :=
  if bool_decide (off = 0) then "Z" else
  let m := Z.abs off / 60 in
  (if bool_decide (off < 0) then "-" else "+") +:+ pad 2 (m / 60) +:+ ":" +:+ pad 2 (m mod 60).

(** [t.Format(time.RFC3339)]: the fraction is dropped. *)
Definition format_rfc3339 (t : Time) : string :=
  pad 4 (t_year t) +:+ "-" +:+ pad 2 (t_month t) +:+ "-" +:+ pad 2 (t_day t)
  +:+ "T" +:+ pad 2 (t_hour t) +:+ ":" +:+ pad 2 (t_min t) +:+ ":" +:+ pad 2 (t_sec t)
  +:+ format_zone (t_offset t).

(** [Time.Format(time.RFC3339Nano)]: the fraction without its trailing zeros, and
    no fraction at all on a whole second. *)
Fixpoint strip_trailing_zeros (s : string) : string :=
  match s with
  | EmptyString => EmptyString
  | String c s' =>
      match strip_trailing_zeros s' with
      | EmptyString => if decide (c = "0"%char) then EmptyString else String c EmptyString
      | t => String c t
      end
  end.
Definition format_frac (nsec : Z) : string :=
  if decide (nsec = 0) then "" else "." +:+ strip_trailing_zeros (pad 9 nsec).
Definition format_rfc3339nano (t : Time) : string :=
  pad 4 (t_year t) +:+ "-" +:+ pad 2 (t_month t) +:+ "-" +:+ pad 2 (t_day t)
  +:+ "T" +:+ pad 2 (t_hour t) +:+ ":" +:+ pad 2 (t_min t) +:+ ":" +:+ pad 2 (t_sec t)
  +:+ format_frac (t_nsec t) +:+ format_zone (t_offset t).

(** Days since 1970-01-01 of a civil date (proleptic Gregorian calendar). *)
Definition days_from_civil (y m d : Z) : Z :=
  let y' := if bool_decide (m ≤ 2) then y - 1 else y in
  let era := y' / 400 in
  let yoe := y' - era * 400 in
  let doy := (153 * ((m + 9) mod 12) + 2) / 5 + d - 1 in
  let doe := yoe * 365 + yoe / 4 - yoe / 100 + doy in
  era * 146097 + doe - 719468.

(** The civil date of a number of days since 1970-01-01. *)
Definition civil_from_days (days : Z) : Z * Z * Z :=
  let z := days + 719468 in
  let era := z / 146097 in
  let doe := z - era * 146097 in
  let yoe := (doe - doe / 1460 + doe / 36524 - doe / 146096) / 365 in
  let doy := doe - (365 * yoe + yoe / 4 - yoe / 100) in
  let mp := (5 * doy + 2) / 153 in
  let m := if bool_decide (mp < 10) then mp + 3 else mp - 9 in
  (yoe + era * 400 + (if bool_decide (m ≤ 2) then 1 else 0), m, doy - (153 * mp + 2) / 5 + 1).

(** [t.UTC()]: the same instant in the zone of offset zero. *)
Definition UTC (t : Time) : Time :=
  let secs := days_from_civil (t_year t) (t_month t) (t_day t) * 86400
              + t_hour t * 3600 + t_min t * 60 + t_sec t - t_offset t in
  let '(y, m, d) := civil_from_days (secs / 86400) in
  let rest := secs mod 86400 in
  mkTime y m d (rest / 3600) (rest mod 3600 / 60) (rest mod 60) (t_nsec t) 0.

Definition instant (t : Time) : Z :=
  (days_from_civil (t_year t) (t_month t) (t_day t) * 86400
   + t_hour t * 3600 + t_min t * 60 + t_sec t - t_offset t) * 1000000000 + t_nsec t.

Definition valid_timestamp (s : string) : bool :=
  match parse_rfc3339 s with Some _ => true | None => false end.

Example rfc3339_nano :
  parse_rfc3339 "2026-07-12T08:05:09.25-07:00" =
    Some (mkTime 2026 7 12 8 5 9 250000000 (-25200)).
Proof. reflexivity. Qed.
Example rfc3339_lenient_hour :
  format_rfc3339 <$> parse_rfc3339 "2026-07-12T8:05:09,5+00:00" = Some "2026-07-12T08:05:09Z".
Proof. reflexivity. Qed.
Example rfc3339nano_frac :
  format_rfc3339nano <$> parse_rfc3339 "2026-07-12T08:05:09.050Z" = Some "2026-07-12T08:05:09.05Z".
Proof. reflexivity. Qed.
Example rfc3339_bad_day : parse_rfc3339 "2026-02-29T00:00:00Z" = None.
Proof. reflexivity. Qed.
Example instant_epoch : instant <$> parse_rfc3339 "1970-01-02T00:00:01Z" = Some 86401000000000.
Proof. reflexivity. Qed.
Example utc_across_year :
  format_rfc3339 ∘ UTC <$> parse_rfc3339 "2024-02-28T23:30:00-01:30" = Some "2024-02-29T01:00:00Z" ∧
  format_rfc3339 ∘ UTC <$> parse_rfc3339 "2027-01-01T00:30:00+01:00" = Some "2026-12-31T23:30:00Z".
Proof. split; reflexivity. Qed.
