(* ===== verification/Resource.v ===== *)
(** * Resource constraints ([internal/model/resource_constraint.go])

    A queued work item may carry constraints "the units running on this resource
    plus the units I request must be <op> a target".  This file models the check
    the store runs before it leases an item: a checked 64-bit addition and a
    comparison chosen by the operator text. *)

From S2P Require Import Prelude.
Local Open Scope Z_scope.

Definition ResourceOperator : Type := string.
Definition ResourceOperatorEqual : ResourceOperator := "=".
Definition ResourceOperatorNotEqual : ResourceOperator := "!=".
Definition ResourceOperatorLessThan : ResourceOperator := "<".
Definition ResourceOperatorGreaterThan : ResourceOperator := ">".
Definition ResourceOperatorLessThanOrEqual : ResourceOperator := "<=".
Definition ResourceOperatorGreaterThanOrEqual : ResourceOperator := ">=".

Record ResourceConstraintCheck := mkCheck {
  TotalUnits : Z;
  RequestedUnits : Z;
  Operator : ResourceOperator;
  TargetUnits : Z
}.

(** [left + right] on [int64], or an error when the sum does not fit. *)
Definition checkedAdd (left right : Z) : result Z :=
  if ((right >? 0) && (left >? MaxInt64 - right)) || ((right <? 0) && (left <? MinInt64 - right))
  then Err (Errorf ("resource units overflow: " +:+ pretty left +:+ " + " +:+ pretty right))
  else Ok (wrap64 (left + right)).

Definition ResourceConstraintAllows (totalUnits requestedUnits : Z)
    (operator : ResourceOperator) (targetUnits : Z) : result bool :=
  candidateTotal ← checkedAdd totalUnits requestedUnits;
  if decide (operator = ResourceOperatorEqual) then Ok (candidateTotal =? targetUnits) else
  if decide (operator = ResourceOperatorNotEqual) then Ok (negb (candidateTotal =? targetUnits)) else
  if decide (operator = ResourceOperatorLessThan) then Ok (candidateTotal <? targetUnits) else
  if decide (operator = ResourceOperatorGreaterThan) then Ok (candidateTotal >? targetUnits) else
  if decide (operator = ResourceOperatorLessThanOrEqual) then Ok (candidateTotal <=? targetUnits) else
  if decide (operator = ResourceOperatorGreaterThanOrEqual) then Ok (candidateTotal >=? targetUnits) else
  Err (Errorf ("unsupported resource operator " +:+ operator)).

(** The loop of [ResourceConstraintChecksAllow], with the index it reports. *)
Fixpoint checks_allow_from (index : Z) (checks : list ResourceConstraintCheck) : result bool :=
  match checks with
  | [] => Ok true
  | check :: checks' =>
      allowed ← wrap_err ("resource constraint check " +:+ pretty index)
        (ResourceConstraintAllows (TotalUnits check) (RequestedUnits check)
           (Operator check) (TargetUnits check));
      if negb allowed then Ok false else checks_allow_from (index + 1) checks'
  end.

Definition ResourceConstraintChecksAllow (checks : list ResourceConstraintCheck) : result bool :=
  checks_allow_from 0 checks.

(** ** Meaning of the operators *)

Definition op_holds (op : ResourceOperator) (x target : Z) : Prop :=
  (op = "=" ∧ x = target) ∨ (op = "!=" ∧ x ≠ target) ∨
  (op = "<" ∧ x < target) ∨ (op = ">" ∧ target < x) ∨
  (op = "<=" ∧ x ≤ target) ∨ (op = ">=" ∧ target ≤ x).

Lemma op_holds_le x target : op_holds "<=" x target → x ≤ target.
Proof. unfold op_holds. intros H. naive_solver lia. Qed.

Definition supported_op (op : ResourceOperator) : Prop :=
  op ∈ ["="; "!="; "<"; ">"; "<="; ">="].

Lemma checkedAdd_exact left right :
  int64 left → int64 right →
  checkedAdd left right =
    if decide (int64 (left + right)) then Ok (left + right)
    else Err (Errorf ("resource units overflow: " +:+ pretty left +:+ " + " +:+ pretty right)).
Proof.
  intros Hl Hr. unfold checkedAdd.
  destruct (decide (int64 (left + right))) as [Hs|Hs].
  - rewrite wrap64_id by done.
    replace (_ || _) with false; [done|]. unfold int64, MaxInt64, MinInt64 in *. lia.
  - replace (_ || _) with true; [done|]. unfold int64, MaxInt64, MinInt64 in *. lia.
Qed.

Lemma checkedAdd_Ok left right s :
  int64 left → int64 right → checkedAdd left right = Ok s → s = left + right ∧ int64 s.
Proof. intros. rewrite checkedAdd_exact in * by done. case_decide; naive_solver. Qed.

Ltac op_cases :=
  unfold ResourceOperatorEqual, ResourceOperatorNotEqual, ResourceOperatorLessThan,
    ResourceOperatorGreaterThan, ResourceOperatorLessThanOrEqual,
    ResourceOperatorGreaterThanOrEqual in *; repeat case_decide; subst.

Lemma Allows_true total requested op target :
  int64 total → int64 requested →
  ResourceConstraintAllows total requested op target = Ok true ↔
    int64 (total + requested) ∧ op_holds op (total + requested) target.
Proof.
  intros Ht Hr. unfold ResourceConstraintAllows, op_holds.
  rewrite checkedAdd_exact by done. destruct (decide (int64 _)) as [Hs|Hs]; simpl;
    [|split; [done|by intros [? _]]].
  op_cases; (split; [intros [= H']|intros [_ Hop]]).
  all: try (split; [done|]; naive_solver lia).
  all: try (f_equal; naive_solver lia).
  all: naive_solver.
Qed.

Lemma checks_allow_from_true index checks :
  (∀ c, c ∈ checks → int64 (TotalUnits c) ∧ int64 (RequestedUnits c)) →
  checks_allow_from index checks = Ok true ↔
    ∀ c, c ∈ checks →
      int64 (TotalUnits c + RequestedUnits c) ∧
      op_holds (Operator c) (TotalUnits c + RequestedUnits c) (TargetUnits c).
Proof.
  revert index. induction checks as [|c checks IH]; intros index Hbound; simpl.
  - split; [|done]. intros _ c Hc. by apply elem_of_nil in Hc.
  - destruct (Hbound c) as [Ht Hr]; [left|].
    assert (IH' := IH (index + 1) (λ c' H, Hbound c' (list_elem_of_further _ _ _ H))).
    pose proof (Allows_true (TotalUnits c) (RequestedUnits c) (Operator c) (TargetUnits c) Ht Hr) as HA.
    destruct (ResourceConstraintAllows _ _ _ _) as [[]|e]; simpl.
    + rewrite IH'. split; [|intros H c' Hc'; apply H; by right].
      intros H c' [->|Hc']%elem_of_cons; [by apply HA|by apply H].
    + split; [done|]. intros H. by specialize (proj2 HA (H c (list_elem_of_here _ _))).
    + split; [done|]. intros H. by specialize (proj2 HA (H c (list_elem_of_here _ _))).
Qed.

(** ** Properties *)

(** The admission check is exact.  On 64-bit inputs it answers "allowed"
    precisely when, for every constraint, the mathematical sum of the running
    and the requested units fits in 64 bits and stands in the operator's
    relation to the target; no wrapped-around sum is ever compared. *)
Theorem ResourceConstraintChecksAllow_exact checks :
  (∀ c, c ∈ checks → int64 (TotalUnits c) ∧ int64 (RequestedUnits c)) →
  ResourceConstraintChecksAllow checks = Ok true ↔
    ∀ c, c ∈ checks →
      int64 (TotalUnits c + RequestedUnits c) ∧
      op_holds (Operator c) (TotalUnits c + RequestedUnits c) (TargetUnits c).
Proof. apply checks_allow_from_true. Qed.

Lemma ResourceConstraintChecksAllow_exact_witness :
  ResourceConstraintChecksAllow [mkCheck 2 1 "<=" 3] = Ok true ∧
  op_holds "<=" 3 3.
Proof.
  split; [reflexivity|].
  refine (proj2 (proj1 (ResourceConstraintChecksAllow_exact [mkCheck 2 1 "<=" 3] _) eq_refl
    (mkCheck 2 1 "<=" 3) (list_elem_of_here _ _))).
  intros c [->|H]%elem_of_cons; [|by apply elem_of_nil in H].
  split; apply (bool_decide_unpack _); vm_compute; exact I.
Defined.

(** The errors are exactly an overflowing sum and an unknown operator:
    with a supported operator the answer is a boolean whenever the sum fits. *)
Theorem ResourceConstraintAllows_total total requested op target :
  int64 total → int64 requested →
  (∃ b, ResourceConstraintAllows total requested op target = Ok b) ↔
    int64 (total + requested) ∧ supported_op op.
Proof.
  intros Ht Hr. unfold ResourceConstraintAllows, supported_op.
  rewrite checkedAdd_exact by done. destruct (decide (int64 _)); simpl;
    [|split; [by intros [? ?]|by intros [? _]]].
  op_cases;
    try (split; [intros _; split; [done|by apply (bool_decide_unpack _)]|by eauto]).
  split; [by intros [? ?]|]. intros [_ Hop]. exfalso.
  repeat (apply elem_of_cons in Hop as [?|Hop]; [done|]). by apply elem_of_nil in Hop.
Qed.

Lemma ResourceConstraintAllows_total_witness :
  ∃ b, ResourceConstraintAllows 5 7 ">=" 12 = Ok b.
Proof.
  apply ResourceConstraintAllows_total.
  - apply (bool_decide_unpack _). vm_compute. exact I.
  - apply (bool_decide_unpack _). vm_compute. exact I.
  - split; apply (bool_decide_unpack _); vm_compute; exact I.
Defined.
