(* ===== verification/GoStrings.v ===== *)
(** * Go's string functions

    The parts of [strings] and [strconv] the variable language uses, on byte
    strings: splitting, searching, trimming white space (Unicode spaces by their
    UTF-8 encodings), replacing, and decimal conversion of a 64-bit [int]. *)

From S2P Require Import Prelude.
Local Open Scope nat_scope.

Notation slen := String.length.

Fixpoint str_take (n : nat) (s : string) : string :=
  match n, s with
  | S n', String c s' => String c (str_take n' s')
  | _, _ => ""
  end.
Fixpoint str_drop (n : nat) (s : string) : string :=
  match n, s with
  | S n', String _ s' => str_drop n' s'
  | _, _ => s
  end.

(** [strings.HasPrefix] *)
Fixpoint has_prefix (p s : string) : bool :=
  match p, s with
  | EmptyString, _ => true
  | String a p', String b s' => bool_decide (a = b) && has_prefix p' s'
  | String _ _, EmptyString => false
  end.
(** [strings.TrimPrefix] *)
Definition trim_prefix (p s : string) : string :=
  if has_prefix p s then str_drop (slen p) s else s.
(** [strings.HasSuffix] and [strings.TrimSuffix] *)
Definition has_suffix (p s : string) : bool :=
  bool_decide (slen p ≤ slen s) && bool_decide (str_drop (slen s - slen p) s = p).
Definition trim_suffix (p s : string) : string :=
  if has_suffix p s then str_take (slen s - slen p) s else s.

(** The first position whose byte satisfies [f]: [IndexByte], [IndexAny]. *)
Fixpoint index_where (f : ascii → bool) (s : string) : option nat :=
  match s with
  | EmptyString => None
  | String c s' => if f c then Some 0 else S <$> index_where f s'
  end.
Definition is_char (c : ascii) (x : ascii) : bool := bool_decide (x = c).
Fixpoint any_of (chars : string) (x : ascii) : bool :=
  match chars with
  | EmptyString => false
  | String c chars' => bool_decide (x = c) || any_of chars' x
  end.
Definition index_byte (c : ascii) (s : string) : option nat := index_where (is_char c) s.
Definition index_any (chars : string) (s : string) : option nat := index_where (any_of chars) s.
(** [strings.ContainsAny] and [strings.Contains] *)
Definition contains_any (chars : string) (s : string) : bool :=
  bool_decide (is_Some (index_any chars s)).
Fixpoint contains (p s : string) : bool :=
  has_prefix p s || match s with EmptyString => false | String _ s' => contains p s' end.

(** [strings.Split] on a one-byte separator; never empty. *)
Fixpoint split_byte (sep : ascii) (s : string) : list string :=
  match s with
  | EmptyString => [""]
  | String c s' =>
      if decide (c = sep) then "" :: split_byte sep s' else
      match split_byte sep s' with
      | [] => [String c ""]
      | p :: ps => String c p :: ps
      end
  end.

(** [strings.Join] *)
Fixpoint str_join (sep : string) (l : list string) : string :=
  match l with
  | [] => ""
  | [s] => s
  | s :: l' => s +:+ sep +:+ str_join sep l'
  end.

(** The UTF-8 encodings of the white space of [unicode.IsSpace]. *)
Definition byte (n : N) : ascii := Ascii.ascii_of_N n.
Definition bytes (l : list N) : string := foldr (λ n s, String (byte n) s) "" l.
Definition space_encodings : list string :=
  bytes <$>
    ([ [9]; [10]; [11]; [12]; [13]; [32]; [194; 133]; [194; 160]; [225; 154; 128];
       [226; 128; 128]; [226; 128; 129]; [226; 128; 130]; [226; 128; 131]; [226; 128; 132];
       [226; 128; 133]; [226; 128; 134]; [226; 128; 135]; [226; 128; 136]; [226; 128; 137];
       [226; 128; 138]; [226; 128; 168]; [226; 128; 169]; [226; 128; 175]; [226; 129; 159];
       [227; 128; 128] ]%N).

Fixpoint str_rev_onto (s acc : string) : string :=
  match s with
  | EmptyString => acc
  | String c s' => str_rev_onto s' (String c acc)
  end.
Definition str_rev (s : string) : string := str_rev_onto s "".

Fixpoint trim_front (encodings : list string) (fuel : nat) (s : string) : string :=
  match fuel with
  | O => s
  | S fuel' =>
      match List.find (λ e, has_prefix e s) encodings with
      | Some e => trim_front encodings fuel' (str_drop (slen e) s)
      | None => s
      end
  end.
(** [strings.TrimSpace]; every round drops a byte, so the length is enough fuel. *)
Definition TrimSpace (s : string) : string :=
  let front := trim_front space_encodings (slen s) s in
  str_rev (trim_front (str_rev <$> space_encodings) (slen front) (str_rev front)).

(** [strings.ReplaceAll] of one byte by a string. *)
Fixpoint replace_byte (c : ascii) (by_ : string) (s : string) : string :=
  match s with
  | EmptyString => ""
  | String x s' => (if decide (x = c) then by_ else String x "") +:+ replace_byte c by_ s'
  end.

(** [strconv.Atoi]: an optional sign and decimal digits, in the range of int64. *)
Fixpoint digits_value (acc : Z) (s : string) : option Z :=
  match s with
  | EmptyString => Some acc
  | String c s' =>
      let n := Z.of_N (Ascii.N_of_ascii c) in
      if bool_decide (48 ≤ n ∧ n ≤ 57)%Z then digits_value (acc * 10 + (n - 48))%Z s' else None
  end.
Definition Atoi (s : string) : option Z :=
  let value (neg : bool) (digits : string) :=
    match digits with
    | EmptyString => None
    | _ => n ← digits_value 0 digits;
           let z := if neg then (- n)%Z else n in
           if decide (int64 z) then Some z else None
    end in
  match s with
  | String "-"%char s' => value true s'
  | String "+"%char s' => value false s'
  | _ => value false s
  end.

(** ** Lemmas *)

Lemma str_app_nil_r s : s +:+ "" = s.
Proof. induction s as [|c s IH]; [done|]. change (String c (s +:+ "") = String c s). by rewrite IH. Qed.

Lemma str_app_assoc s1 s2 s3 : (s1 +:+ s2) +:+ s3 = s1 +:+ s2 +:+ s3.
Proof.
  induction s1 as [|c s IH]; [done|].
  change (String c ((s +:+ s2) +:+ s3) = String c (s +:+ s2 +:+ s3)). by rewrite IH.
Qed.

Lemma slen_app s1 s2 : slen (s1 +:+ s2) = slen s1 + slen s2.
Proof. induction s1 as [|c s IH]; [done|]. change (S (slen (s +:+ s2)) = S (slen s + slen s2)). lia. Qed.

#[export] Hint Rewrite str_app_assoc slen_app : goet_str.
(** Arithmetic on the lengths of concatenations. *)
Ltac str_lia := autorewrite with goet_str; simpl; lia.

Lemma take_drop_str n s : str_take n s +:+ str_drop n s = s.
Proof.
  revert s. induction n as [|n IH]; intros [|c s]; try done.
  change (String c (str_take n s +:+ str_drop n s) = String c s). by rewrite IH.
Qed.

Lemma drop_app_str s1 s2 : str_drop (slen s1) (s1 +:+ s2) = s2.
Proof. induction s1 as [|c s IH]; [by destruct s2|]. exact IH. Qed.

Lemma has_prefix_spec p s : has_prefix p s = true ↔ ∃ t, s = p +:+ t.
Proof.
  revert s. induction p as [|a p IH]; intros s.
  - split; [by exists s|done].
  - destruct s as [|b s]; simpl.
    + split; [done|]. intros (t & Ht). discriminate Ht.
    + rewrite andb_true_iff, bool_decide_eq_true, IH. split.
      * intros [-> (t & ->)]. by exists t.
      * intros (t & Ht). injection Ht as -> ->. eauto.
Qed.

Lemma trim_prefix_app p s : trim_prefix p (p +:+ s) = s.
Proof.
  unfold trim_prefix. rewrite (proj2 (has_prefix_spec p (p +:+ s))) by eauto. apply drop_app_str.
Qed.

Lemma index_where_Some f s n :
  index_where f s = Some n →
  ∃ c, s = str_take n s +:+ String c (str_drop (S n) s) ∧ f c = true ∧ n < slen s ∧
    slen (str_take n s) = n.
Proof.
  revert n. induction s as [|x s IH]; intros n; simpl; [done|].
  destruct (f x) eqn:Hf.
  - intros [= <-]. exists x. split_and!; try done. lia.
  - intros (m & Hm & ->)%fmap_Some. destruct (IH m Hm) as (c & Heq & Hc & Hlt & Hlen).
    exists c. simpl. split_and!; [|done|lia|congruence].
    change (String x s = String x (str_take m s +:+ String c (str_drop (S m) s))). by rewrite <- Heq.
Qed.

(** Splitting on a byte. *)
Fixpoint has_byte (c : ascii) (s : string) : bool :=
  match s with
  | EmptyString => false
  | String x s' => bool_decide (x = c) || has_byte c s'
  end.

Lemma split_byte_none sep s : has_byte sep s = false → split_byte sep s = [s].
Proof.
  induction s as [|c s IH]; simpl; [done|]. rewrite orb_false_iff, bool_decide_eq_false.
  intros [Hc Hs]. rewrite decide_False by done. by rewrite IH.
Qed.

Lemma split_byte_nonempty sep s : split_byte sep s ≠ [].
Proof. destruct s; simpl; [done|]. case_decide; [done|]. by destruct (split_byte sep s). Qed.

Lemma split_byte_app sep s t :
  has_byte sep s = false → split_byte sep (s +:+ String sep t) = s :: split_byte sep t.
Proof.
  induction s as [|c s IH]; intros Hs.
  - simpl. by rewrite decide_True.
  - simpl in Hs. rewrite orb_false_iff, bool_decide_eq_false in Hs. destruct Hs as [Hc Hs].
    change (split_byte sep (String c (s +:+ String sep t)) = String c s :: split_byte sep t).
    simpl. rewrite decide_False by done. by rewrite IH.
Qed.

Lemma split_byte_parts sep s p : p ∈ split_byte sep s → has_byte sep p = false.
Proof.
  revert p. induction s as [|c s IH]; intros p; simpl.
  - intros ->%list_elem_of_singleton. done.
  - case_decide as Hc.
    + intros [->|Hin]%elem_of_cons; [done|by apply IH].
    + destruct (split_byte sep s) as [|q qs] eqn:E; [by destruct (split_byte_nonempty sep s)|].
      intros [->|Hin]%elem_of_cons; [|apply IH; by right].
      simpl. rewrite bool_decide_false by done. apply IH. left.
Qed.

(** Joining the parts gives the text back. *)
Lemma join_split_byte sep s : str_join (String sep "") (split_byte sep s) = s.
Proof.
  induction s as [|c s IH]; simpl; [done|].
  destruct (split_byte sep s) as [|q qs] eqn:E; [by destruct (split_byte_nonempty sep s)|].
  case_decide as Hc.
  - rewrite Hc. change (String sep (str_join (String sep "") (q :: qs)) = String sep s). by rewrite IH.
  - destruct qs as [|q' qs']; simpl in *.
    + by rewrite IH.
    + rewrite <- IH. done.
Qed.

Example trim_ex : TrimSpace (bytes [32; 194; 160] +:+ "a b" +:+ bytes [226; 128; 137; 10])%N = "a b".
Proof. reflexivity. Qed.
Example split_ex : split_byte "."%char "a..b" = ["a"; ""; "b"].
Proof. reflexivity. Qed.
Example atoi_ex : Atoi "-042" = Some (-42)%Z ∧ Atoi "9223372036854775808" = None ∧ Atoi "+" = None.
Proof. done. Qed.

(** * Laws of Go's string functions

    Suffixes, searching and splitting as concatenation says, shared by the
    components that read paths, routes and tokens. *)
Local Open Scope nat_scope.

Lemma str_app_inj_l s t1 t2 : s +:+ t1 = s +:+ t2 → t1 = t2.
Proof. induction s as [|c s IH]; simpl; [done|]. intros H. apply IH. by injection H. Qed.

Lemma str_app_inj_r s1 s2 t : s1 +:+ t = s2 +:+ t → s1 = s2.
Proof.
  revert s2. induction s1 as [|c s1 IH]; intros [|d s2] H; simpl in H; [done| | |].
  - exfalso. apply (f_equal slen) in H. revert H. str_lia.
  - exfalso. apply (f_equal slen) in H. revert H. str_lia.
  - injection H as -> H. f_equal. by apply IH.
Qed.

Lemma drop_all_str n s : slen s ≤ n → str_drop n s = "".
Proof.
  revert n. induction s as [|c s IH]; intros [|n] Hn; simpl in *; try done; [lia|apply IH; lia].
Qed.
Lemma drop_app_len n s1 s2 : n = slen s1 → str_drop n (s1 +:+ s2) = s2.
Proof. intros ->. apply drop_app_str. Qed.
Lemma take_app_len n s1 s2 : n = slen s1 → str_take n (s1 +:+ s2) = s1.
Proof.
  intros ->. induction s1 as [|c s1 IH]; simpl; [by destruct s2|]. by f_equal.
Qed.

Lemma has_suffix_spec p s : has_suffix p s = true ↔ ∃ t, s = t +:+ p.
Proof.
  unfold has_suffix. rewrite andb_true_iff, !bool_decide_eq_true. split.
  - intros [_ H]. exists (str_take (slen s - slen p) s). rewrite <- H at 2. by rewrite take_drop_str.
  - intros [t ->]. rewrite slen_app. split; [lia|]. apply drop_app_len. lia.
Qed.
Lemma trim_suffix_app s p : trim_suffix p (s +:+ p) = s.
Proof.
  unfold trim_suffix. replace (has_suffix p (s +:+ p)) with true
    by (symmetry; apply has_suffix_spec; eauto).
  apply take_app_len. rewrite slen_app. lia.
Qed.

(** Searching for one byte. *)
Lemma contains_byte c s : contains (String c "") s = has_byte c s.
Proof.
  induction s as [|d s IH]; cbn [contains has_byte has_prefix]; [done|].
  rewrite IH. destruct (decide (c = d)) as [->|Hne].
  - by rewrite !bool_decide_eq_true_2.
  - by rewrite !bool_decide_eq_false_2 by congruence.
Qed.
Lemma has_byte_app c s t : has_byte c (s +:+ t) = has_byte c s || has_byte c t.
Proof. induction s as [|d s IH]; simpl; [done|]. by rewrite IH, orb_assoc. Qed.

Lemma any_of_spec chars x : any_of chars x = has_byte x chars.
Proof.
  induction chars as [|c chars IH]; cbn [any_of has_byte]; [done|]. rewrite IH. f_equal.
  by apply bool_decide_ext; split; intros.
Qed.
Lemma index_where_None f s : index_where f s = None ↔ ∀ c, f c = true → has_byte c s = false.
Proof.
  induction s as [|d s IH]; cbn [index_where has_byte]; [done|]. destruct (f d) eqn:Hd.
  - split; [done|]. intros H. specialize (H d Hd). by rewrite bool_decide_eq_true_2 in H.
  - rewrite fmap_None, IH. split; intros H c Hc; specialize (H c Hc).
    + rewrite H, bool_decide_eq_false_2; [done|congruence].
    + by apply orb_false_iff in H as [_ H].
Qed.
(** [ContainsAny] fails exactly when none of the bytes occurs. *)
Lemma contains_any_false chars s :
  contains_any chars s = false ↔ ∀ c, has_byte c chars = true → has_byte c s = false.
Proof.
  unfold contains_any, index_any. rewrite bool_decide_eq_false, <- eq_None_not_Some, index_where_None.
  by setoid_rewrite any_of_spec.
Qed.
