(* ===== verification/GoJson.v ===== *)
(** * Go's [json.Valid], and JSON texts

    [encoding/json] decides validity with a byte-at-a-time scanner: a step
    function and a stack of enclosing objects and arrays.  [scan_step] is that
    scanner, one constructor of [scan_state] per step function of
    [encoding/json/scanner.go]; [json_Valid] runs it over a text. *)

From S2P Require Import Prelude.
From S2P Require Import GoStrings.
Local Open Scope char_scope.

(** What the innermost enclosing value expects. *)
Inductive parse_state := parseObjectKey | parseObjectValue | parseArrayValue.

Inductive scan_state :=
  | stBeginValue | stBeginValueOrEmpty | stBeginString | stBeginStringOrEmpty
  | stEndValue | stEndTop
  | stInString | stInStringEsc | stEscU (remaining : nat)
  | stNeg | st1 | st0 | stDot | stDot0 | stE | stESign | stE0
  | stLiteral (rest : list ascii).

(** State and stack; [None] is the scanner's error state. *)
Definition scan_conf : Type := scan_state * list parse_state.

Definition byte_N (c : ascii) : N := Ascii.N_of_ascii c.
Definition is_space (c : ascii) : bool :=
  bool_decide (c = " " ∨ c = "009" ∨ c = "010" ∨ c = "013").
Definition is_digit (c : ascii) : bool := (48 <=? byte_N c)%N && (byte_N c <=? 57)%N.
Definition is_digit19 (c : ascii) : bool := (49 <=? byte_N c)%N && (byte_N c <=? 57)%N.
Definition is_hex (c : ascii) : bool :=
  is_digit c || ((97 <=? byte_N c)%N && (byte_N c <=? 102)%N)
  || ((65 <=? byte_N c)%N && (byte_N c <=? 70)%N).

(** The nesting limit of the scanner. *)
Definition maxNestingDepth : N := 10000%N.

Definition push (st : scan_state) (p : parse_state) (stack : list parse_state) :
    option scan_conf :=
  if (N.of_nat (length stack) <? maxNestingDepth)%N then Some (st, p :: stack) else None.

Definition pop (stack : list parse_state) : option scan_conf :=
  match stack with
  | [] | [_] => Some (stEndTop, [])
  | _ :: stack' => Some (stEndValue, stack')
  end.

Definition step_end_value (stack : list parse_state) (c : ascii) : option scan_conf :=
  match stack with
  | [] => if is_space c then Some (stEndTop, []) else None
  | p :: stack' =>
      if is_space c then Some (stEndValue, stack) else
      match p with
      | parseObjectKey =>
          if bool_decide (c = ":") then Some (stBeginValue, parseObjectValue :: stack') else None
      | parseObjectValue =>
          if bool_decide (c = ",") then Some (stBeginString, parseObjectKey :: stack')
          else if bool_decide (c = "}") then pop stack else None
      | parseArrayValue =>
          if bool_decide (c = ",") then Some (stBeginValue, stack)
          else if bool_decide (c = "]") then pop stack else None
      end
  end.

Definition step_begin_value (stack : list parse_state) (c : ascii) : option scan_conf :=
  if is_space c then Some (stBeginValue, stack) else
  if bool_decide (c = "{") then push stBeginStringOrEmpty parseObjectKey stack else
  if bool_decide (c = "[") then push stBeginValueOrEmpty parseArrayValue stack else
  if bool_decide (c = "034") then Some (stInString, stack) else
  if bool_decide (c = "-") then Some (stNeg, stack) else
  if bool_decide (c = "0") then Some (st0, stack) else
  if bool_decide (c = "t") then Some (stLiteral ["r"; "u"; "e"], stack) else
  if bool_decide (c = "f") then Some (stLiteral ["a"; "l"; "s"; "e"], stack) else
  if bool_decide (c = "n") then Some (stLiteral ["u"; "l"; "l"], stack) else
  if is_digit19 c then Some (st1, stack) else None.

Definition step_begin_string (stack : list parse_state) (c : ascii) : option scan_conf :=
  if is_space c then Some (stBeginString, stack) else
  if bool_decide (c = "034") then Some (stInString, stack) else None.

Definition step_0 (stack : list parse_state) (c : ascii) : option scan_conf :=
  if bool_decide (c = ".") then Some (stDot, stack) else
  if bool_decide (c = "e" ∨ c = "E") then Some (stE, stack) else step_end_value stack c.

Definition step_esign (stack : list parse_state) (c : ascii) : option scan_conf :=
  if is_digit c then Some (stE0, stack) else None.

Definition scan_step (conf : scan_conf) (c : ascii) : option scan_conf :=
  let '(st, stack) := conf in
  match st with
  | stBeginValue => step_begin_value stack c
  | stBeginValueOrEmpty =>
      if is_space c then Some (st, stack) else
      if bool_decide (c = "]") then step_end_value stack c else step_begin_value stack c
  | stBeginString => step_begin_string stack c
  | stBeginStringOrEmpty =>
      if is_space c then Some (st, stack) else
      if bool_decide (c = "}") then step_end_value (parseObjectValue :: tail stack) c
      else step_begin_string stack c
  | stEndValue => step_end_value stack c
  | stEndTop => if is_space c then Some (stEndTop, stack) else None
  | stInString =>
      if bool_decide (c = "034") then Some (stEndValue, stack) else
      if bool_decide (c = "\") then Some (stInStringEsc, stack) else
      if (byte_N c <? 32)%N then None else Some (stInString, stack)
  | stInStringEsc =>
      if bool_decide (c ∈ ["b"; "f"; "n"; "r"; "t"; "\"; "/"; "034"]) then Some (stInString, stack)
      else if bool_decide (c = "u") then Some (stEscU 3, stack) else None
  | stEscU n =>
      if is_hex c then Some (match n with O => stInString | S m => stEscU m end, stack) else None
  | stNeg =>
      if bool_decide (c = "0") then Some (st0, stack) else
      if is_digit19 c then Some (st1, stack) else None
  | st1 => if is_digit c then Some (st1, stack) else step_0 stack c
  | st0 => step_0 stack c
  | stDot => if is_digit c then Some (stDot0, stack) else None
  | stDot0 =>
      if is_digit c then Some (stDot0, stack) else
      if bool_decide (c = "e" ∨ c = "E") then Some (stE, stack) else step_end_value stack c
  | stE =>
      if bool_decide (c = "+" ∨ c = "-") then Some (stESign, stack) else step_esign stack c
  | stESign => step_esign stack c
  | stE0 => if is_digit c then Some (stE0, stack) else step_end_value stack c
  | stLiteral l =>
      match l with
      | [] => step_end_value stack c
      | [d] => if bool_decide (c = d) then Some (stEndValue, stack) else None
      | d :: l' => if bool_decide (c = d) then Some (stLiteral l', stack) else None
      end
  end.

Fixpoint scan (conf : scan_conf) (s : string) : option scan_conf :=
  match s with
  | EmptyString => Some conf
  | String c s' => conf' ← scan_step conf c; scan conf' s'
  end.

(** End of input: the scanner is given one more space and must then be at the
    top level with a complete value. *)
Definition scan_eof (conf : scan_conf) : bool :=
  match scan_step conf " " with
  | Some (stEndTop, _) => true
  | _ => false
  end.

(** [json.Valid([]byte(s))] *)
Definition json_Valid (s : string) : bool :=
  match scan (stBeginValue, []) s with
  | Some conf => scan_eof conf
  | None => false
  end.

Example json_object : json_Valid "{}" = true.
Proof. reflexivity. Qed.
Example json_mixed : json_Valid " [1, -2.5e+3, true, null, {}, [ ] ] " = true.
Proof. reflexivity. Qed.
Example json_top_number : json_Valid "12" = true.
Proof. reflexivity. Qed.
Example json_empty : json_Valid "" = false.
Proof. reflexivity. Qed.
Example json_leading_zero : json_Valid "[01]" = false.
Proof. reflexivity. Qed.
Example json_trailing : json_Valid "{} x" = false.
Proof. reflexivity. Qed.
Example json_open : json_Valid "[1," = false.
Proof. reflexivity. Qed.

(** * JSON text: UTF-8, [json.Marshal] of strings and [json.Decoder]

    The parts of [unicode/utf8] and [encoding/json] (Go 1.26) that the controller
    uses to read and write JSON documents.  [JSON] is Go's decoded [any], with
    numbers kept as text ([Decoder.UseNumber]); an object is a Go map, written as
    an association list whose order has no meaning.

    A text is read as the loop [for _, r := range s] reads it: a sequence of
    [chunk]s, each an ASCII byte, the encoding of another rune, or a byte that
    starts no valid encoding.  All of JSON's own syntax is ASCII. *)
Local Close Scope char_scope.
Local Open Scope nat_scope.

Inductive JSON :=
  | JNull
  | JBool (b : bool)
  | JNumber (text : string)
  | JString (s : string)
  | JArray (items : list JSON)
  | JObject (fields : list (string * JSON)).

Section JSON_induction.
Context (P : JSON → Prop).
Context (Harray : ∀ items, Forall P items → P (JArray items)).
Context (Hobject : ∀ fields, Forall (λ f, P f.2) fields → P (JObject fields)).
Context (Hleaf : ∀ j, (∀ l, j ≠ JArray l) → (∀ l, j ≠ JObject l) → P j).

Lemma JSON_ind' : ∀ j, P j.
Proof using Harray Hobject Hleaf.
  fix IH 1. intros j. destruct j as [| | | |items|fields]; try (apply Hleaf; intros; discriminate).
  - apply Harray. induction items as [|child l IHl]; constructor; [apply IH|exact IHl].
  - apply Hobject. induction fields as [|[k child] fs IHfs]; constructor; [apply IH|exact IHfs].
Qed.
End JSON_induction.

(** ** UTF-8 *)

Definition in_range (lo hi : N) (c : ascii) : bool := (lo <=? byte_N c)%N && (byte_N c <=? hi)%N.
Definition is_ascii (c : ascii) : bool := (byte_N c <? 128)%N.
Definition continuation : ascii → bool := in_range 128 191.

(** The accepted encodings of two, three and four bytes (no overlong forms, no
    surrogates, nothing above U+10FFFF). *)
Definition rune2 (a b : ascii) : bool := in_range 194 223 a && continuation b.
Definition rune3 (a b c : ascii) : bool :=
  ((in_range 224 224 a && in_range 160 191 b) || (in_range 225 236 a && continuation b)
   || (in_range 237 237 a && in_range 128 159 b) || (in_range 238 239 a && continuation b))
  && continuation c.
Definition rune4 (a b c d : ascii) : bool :=
  ((in_range 240 240 a && in_range 144 191 b) || (in_range 241 243 a && continuation b)
   || (in_range 244 244 a && in_range 128 143 b)) && continuation c && continuation d.

Inductive chunk :=
  | Asc (c : ascii)
  | Rune (encoding : string)
  | Bad (c : ascii).
#[export] Instance chunk_eq_dec : EqDecision chunk.
Proof. solve_decision. Defined.

(** [for _, r := range s] *)
Fixpoint chunks (s : string) : list chunk :=
  match s with
  | EmptyString => []
  | String a r1 =>
      if is_ascii a then Asc a :: chunks r1 else
      match r1 with
      | String b r2 =>
          if rune2 a b then Rune (String a (String b "")) :: chunks r2 else
          match r2 with
          | String c r3 =>
              if rune3 a b c then Rune (String a (String b (String c ""))) :: chunks r3 else
              match r3 with
              | String d r4 =>
                  if rune4 a b c d
                  then Rune (String a (String b (String c (String d "")))) :: chunks r4
                  else Bad a :: chunks r1
              | EmptyString => Bad a :: chunks r1
              end
          | EmptyString => Bad a :: chunks r1
          end
      | EmptyString => Bad a :: chunks r1
      end
  end.

Definition chunk_bytes (c : chunk) : string :=
  match c with Asc a | Bad a => String a "" | Rune e => e end.
Definition chunk_valid (c : chunk) : bool := match c with Bad _ => false | _ => true end.
Fixpoint concat_str (l : list string) : string :=
  match l with [] => "" | s :: l' => s +:+ concat_str l' end.

(** [utf8.ValidString] *)
Definition valid_utf8 (s : string) : bool := forallb chunk_valid (chunks s).

(** [utf8.AppendRune] on a code point that is no surrogate. *)
Definition AppendRune (r : N) : string :=
  (if r <? 128 then bytes [r]
   else if r <? 2048 then bytes [192 + r / 64; 128 + r mod 64]
   else if r <? 65536 then bytes [224 + r / 4096; 128 + (r / 64) mod 64; 128 + r mod 64]
   else bytes [240 + r / 262144; 128 + (r / 4096) mod 64; 128 + (r / 64) mod 64; 128 + r mod 64])%N.
Definition ReplacementChar : string := bytes [239; 191; 189]%N.

(** ** Writing strings: [json.Marshal] of a string, with HTML escaping *)

Definition hex_digit (n : N) : ascii := byte (if n <? 10 then 48 + n else 87 + n)%N.
Definition quote_byte : ascii := "034"%char.
Definition quote_ascii (c : ascii) : string :=
  let n := byte_N c in
  if bool_decide (c = "\"%char ∨ c = quote_byte) then String "\" (String c "")
  else if bool_decide (c = "008"%char) then "\b"
  else if bool_decide (c = "012"%char) then "\f"
  else if bool_decide (c = "010"%char) then "\n"
  else if bool_decide (c = "013"%char) then "\r"
  else if bool_decide (c = "009"%char) then "\t"
  else if (n <? 32)%N || bool_decide (c = "<"%char ∨ c = ">"%char ∨ c = "&"%char)
  then "\u00" +:+ String (hex_digit (n / 16)) (String (hex_digit (n mod 16)) "")
  else String c "".
(** U+2028 and U+2029 are escaped too; an invalid byte becomes U+FFFD. *)
Definition quote_chunk (c : chunk) : string :=
  match c with
  | Asc a => quote_ascii a
  | Rune e =>
      if bool_decide (e = bytes [226; 128; 168]%N) then "\u2028"
      else if bool_decide (e = bytes [226; 128; 169]%N) then "\u2029" else e
  | Bad _ => "\ufffd"
  end.
Definition quote_body (s : string) : string := concat_str (quote_chunk <$> chunks s).
Definition marshal_string (s : string) : string :=
  String quote_byte (quote_body s +:+ String quote_byte "").

(** ** Reading documents *)

Definition hex_value (c : ascii) : option N :=
  if is_digit c then Some (byte_N c - 48)%N
  else if in_range 97 102 c then Some (byte_N c - 87)%N
  else if in_range 65 70 c then Some (byte_N c - 55)%N else None.
Definition hex4 (a b c d : ascii) : option N :=
  a' ← hex_value a; b' ← hex_value b; c' ← hex_value c; d' ← hex_value d;
  Some (((a' * 16 + b') * 16 + c') * 16 + d')%N.
(** [utf16.DecodeRune], when the two units form a pair. *)
Definition surrogate_pair (r1 r2 : N) : option N :=
  if ((55296 <=? r1) && (r1 <? 56320) && (56320 <=? r2) && (r2 <? 57344))%N
  then Some ((r1 - 55296) * 1024 + (r2 - 56320) + 65536)%N else None.
Definition is_surrogate (r : N) : bool := ((55296 <=? r) && (r <? 57344))%N.
Definition simple_escape (c : ascii) : option string :=
  if bool_decide (c = quote_byte ∨ c = "\"%char ∨ c = "/"%char) then Some (String c "")
  else if bool_decide (c = "b"%char) then Some (String "008" "")
  else if bool_decide (c = "f"%char) then Some (String "012" "")
  else if bool_decide (c = "n"%char) then Some (String "010" "")
  else if bool_decide (c = "r"%char) then Some (String "013" "")
  else if bool_decide (c = "t"%char) then Some (String "009" "") else None.

Definition prepend {A} (s : string) (r : option (string * A)) : option (string * A) :=
  '(t, rest) ← r; Some (s +:+ t, rest).

(** The text of a string literal after its opening quote, and what follows. *)
Fixpoint parse_string (s : list chunk) : option (string * list chunk) :=
  match s with
  | [] => None
  | Rune e :: r => prepend e (parse_string r)
  | Bad _ :: r => prepend ReplacementChar (parse_string r)
  | Asc c :: r =>
      if bool_decide (c = quote_byte) then Some ("", r)
      else if bool_decide (c = "\"%char) then
        match r with
        | Asc e :: r1 =>
            if bool_decide (e = "u"%char) then
              match r1 with
              | Asc a :: Asc b :: Asc c :: Asc d :: r2 =>
                  u ← hex4 a b c d;
                  if is_surrogate u then
                    match r2 with
                    | Asc x :: Asc y :: Asc a' :: Asc b' :: Asc c' :: Asc d' :: r3 =>
                        match (if bool_decide (x = "\"%char ∧ y = "u"%char)
                               then u' ← hex4 a' b' c' d'; surrogate_pair u u' else None) with
                        | Some rune => prepend (AppendRune rune) (parse_string r3)
                        | None => prepend ReplacementChar (parse_string r2)
                        end
                    | _ => prepend ReplacementChar (parse_string r2)
                    end
                  else prepend (AppendRune u) (parse_string r2)
              | _ => None
              end
            else t ← simple_escape e; prepend t (parse_string r1)
        | _ => None
        end
      else if (byte_N c <? 32)%N then None
      else prepend (String c "") (parse_string r)
  end.

Fixpoint skip_space (s : list chunk) : list chunk :=
  match s with
  | Asc c :: r => if is_space c then skip_space r else s
  | _ => s
  end.

(** The longest run of digits. *)
Fixpoint take_digits (s : list chunk) : string * list chunk :=
  match s with
  | Asc c :: r =>
      if is_digit c then let '(t, rest) := take_digits r in (String c t, rest) else ("", s)
  | _ => ("", s)
  end.
Definition some_digits (s : list chunk) : option (string * list chunk) :=
  match take_digits s with (EmptyString, _) => None | r => Some r end.

Definition lex_exponent (s : list chunk) : option (string * list chunk) :=
  match s with
  | Asc c :: r =>
      if bool_decide (c = "e"%char ∨ c = "E"%char) then
        prepend (String c "")
          match r with
          | Asc x :: r' =>
              if bool_decide (x = "+"%char ∨ x = "-"%char)
              then prepend (String x "") (some_digits r') else some_digits r
          | _ => some_digits r
          end
      else Some ("", s)
  | _ => Some ("", s)
  end.
Definition lex_fraction (s : list chunk) : option (string * list chunk) :=
  match s with
  | Asc c :: r =>
      if bool_decide (c = "."%char) then
        '(t, rest) ← some_digits r; prepend (String c t) (lex_exponent rest)
      else lex_exponent s
  | _ => lex_exponent s
  end.
Definition lex_integer (s : list chunk) : option (string * list chunk) :=
  match s with
  | Asc c :: r =>
      if bool_decide (c = "0"%char) then prepend (String c "") (lex_fraction r)
      else '(t, rest) ← some_digits s; prepend t (lex_fraction rest)
  | _ => None
  end.
Definition lex_number (s : list chunk) : option (string * list chunk) :=
  match s with
  | Asc c :: r =>
      if bool_decide (c = "-"%char) then prepend (String c "") (lex_integer r) else lex_integer s
  | _ => None
  end.

Fixpoint expect (l : string) (s : list chunk) : option (list chunk) :=
  match l with
  | EmptyString => Some s
  | String c l' =>
      match s with
      | Asc c' :: r => if bool_decide (c' = c) then expect l' r else None
      | _ => None
      end
  end.

(** [m[key] = value] in the map an object is decoded into: the last one wins. *)
Definition set_field (key : string) (value : JSON) (fields : list (string * JSON)) :
    list (string * JSON) :=
  if bool_decide (key ∈ fields.*1) then fields else (key, value) :: fields.

(** One value, after any white space; [depth] values enclose it.  The members of
    an object are read before they are put into the map, from the last to the
    first, so that a later duplicate hides an earlier one. *)
Fixpoint parse_value (fuel : nat) (depth : N) (s : list chunk) {struct fuel} :
    option (JSON * list chunk) :=
  match fuel with
  | O => None
  | S fuel' =>
      match skip_space s with
      | Asc c :: r =>
          if bool_decide (c = "{"%char) then
            if (depth <? maxNestingDepth)%N then
              match skip_space r with
              | Asc x :: r' =>
                  if bool_decide (x = "}"%char) then Some (JObject [], r')
                  else '(fs, rest) ← parse_members fuel' (depth + 1) r; Some (JObject fs, rest)
              | _ => None
              end
            else None
          else if bool_decide (c = "["%char) then
            if (depth <? maxNestingDepth)%N then
              match skip_space r with
              | Asc x :: r' =>
                  if bool_decide (x = "]"%char) then Some (JArray [], r')
                  else '(vs, rest) ← parse_items fuel' (depth + 1) r; Some (JArray vs, rest)
              | _ => None
              end
            else None
          else if bool_decide (c = quote_byte) then
            '(t, rest) ← parse_string r; Some (JString t, rest)
          else if bool_decide (c = "t"%char) then
            rest ← expect "rue" r; Some (JBool true, rest)
          else if bool_decide (c = "f"%char) then
            rest ← expect "alse" r; Some (JBool false, rest)
          else if bool_decide (c = "n"%char) then
            rest ← expect "ull" r; Some (JNull, rest)
          else '(t, rest) ← lex_number (Asc c :: r); Some (JNumber t, rest)
      | _ => None
      end
  end
with parse_items (fuel : nat) (depth : N) (s : list chunk) {struct fuel} :
    option (list JSON * list chunk) :=
  match fuel with
  | O => None
  | S fuel' =>
      '(v, s1) ← parse_value fuel' depth s;
      match skip_space s1 with
      | Asc c :: r =>
          if bool_decide (c = ","%char) then
            '(vs, rest) ← parse_items fuel' depth r; Some (v :: vs, rest)
          else if bool_decide (c = "]"%char) then Some ([v], r) else None
      | _ => None
      end
  end
with parse_members (fuel : nat) (depth : N) (s : list chunk) {struct fuel} :
    option (list (string * JSON) * list chunk) :=
  match fuel with
  | O => None
  | S fuel' =>
      match skip_space s with
      | Asc q :: r =>
          if bool_decide (q = quote_byte) then
            '(key, s1) ← parse_string r;
            match skip_space s1 with
            | Asc colon :: r1 =>
                if bool_decide (colon = ":"%char) then
                  '(v, s2) ← parse_value fuel' depth r1;
                  match skip_space s2 with
                  | Asc c :: r2 =>
                      if bool_decide (c = ","%char) then
                        '(fs, rest) ← parse_members fuel' depth r2;
                        Some (set_field key v fs, rest)
                      else if bool_decide (c = "}"%char) then Some ([(key, v)], r2) else None
                  | _ => None
                  end
                else None
            | _ => None
            end
          else None
      | _ => None
      end
  end.

(** Two rounds per chunk are enough: a value and the list it is in. *)
Definition parse_fuel (s : list chunk) : nat := S (2 * length s).

(** [decoder.Decode(&decoded)] followed by [decoder.Decode(&extra)], which must
    report the end of the input. *)
Inductive decoded := Malformed | Trailing | Document (v : JSON).
Definition decode_document (text : string) : decoded :=
  let s := chunks text in
  match parse_value (parse_fuel s) 0 s with
  | None => Malformed
  | Some (v, rest) => match skip_space rest with [] => Document v | _ => Trailing end
  end.
