(* ===== verification/StoreData.v ===== *)
(** * The workflow store: records, tables and request validation

    ([internal/persistence/store.go], [internal/persistence/db_adapter_sqlite.go])

    The store keeps workflows, runs, stages, work items, worker sessions and
    attempts in an SQLite database.  A table is a finite map from its primary key
    to its row; a nullable column has type [option string] (Go writes it through
    [nullString] and reads it through [sql.NullString] or [COALESCE]).  Request and
    record types keep the fields of the Go structs, with a short prefix.
    The [validate_*] functions are the [validate] methods of the requests. *)

From S2P Require Import Prelude GoTime GoJson.
Local Open Scope Z_scope.

(** ** Constants *)

Definition SupportedSchemaVersion : Z := 6.
Definition expiredSessionRequeueLimit : Z := 3.
Definition ExecutorTypeWorker : string := "worker".
Definition ExecutorTypeController : string := "controller".
Definition WorkerSessionStatusActive : string := "active".
Definition WorkerSessionStatusStopped : string := "stopped".
Definition WorkerSessionStatusDead : string := "dead".
Definition ErrWorkerSessionNotActive : GoError := Sentinel "worker session is not active".
Definition ErrWorkerSessionBusy : GoError := Sentinel "worker session already owns running work".
Definition ErrAssignmentNoLongerOwned : GoError := Sentinel "assignment no longer owned".

(** ** Nullable columns *)

Definition nullString (value : string) : option string :=
  if is_empty value then None else Some value.
Definition from_null (value : option string) : string := default "" value.

Lemma from_null_nullString s : from_null (nullString s) = s.
Proof. unfold nullString, is_empty. by case_bool_decide. Qed.

(** ** Rows and records *)

Record ProjectRecord := mkProject {
  pr_ID : string; pr_Name : string; pr_RepositoryIdentity : string;
  pr_SourceRevisionID : option string; pr_ConfigPath : string;
  pr_SourceObjectID : string; pr_ConfigSHA256 : string; pr_CreatedAt : string }.

Record WorkflowRecord := mkWorkflow {
  wf_ID : string; wf_ProjectID : string; wf_Name : string;
  wf_RepositoryIdentity : string; wf_SourceRevisionID : option string;
  wf_WorkflowPath : string; wf_SourceObjectID : string;
  wf_WorkflowSHA256 : string; wf_CreatedAt : string }.

Record WorkflowRunRecord := mkRun {
  run_ID : string; run_ProjectID : string; run_WorkflowID : string;
  run_SubmissionContextJSON : string; run_CreatedAt : string }.

Record WorkflowStageRecord := mkStage {
  st_RunID : string; st_StageIndex : Z; st_StepID : string;
  st_StageSourceReference : string; st_State : string; st_CreatedAt : string;
  st_ReadyAt : string; st_StartedAt : string; st_CompletedAt : string;
  st_FailedAt : string; st_OutputJSON : string; st_OutputJSONSHA256 : string }.

(** A row of [workflow_stages], keyed by (run_id, stage_index). *)
Record stage_row := mkStageRow {
  str_step_id : string; str_stage_source_reference : string; str_state : string;
  str_created_at : string; str_ready_at : option string; str_started_at : option string;
  str_completed_at : option string; str_failed_at : option string;
  str_output_json : option string; str_output_json_sha256 : option string }.

Record WorkflowDependencyStepRecord := mkDepStep {
  ds_RunID : string; ds_StageIndex : Z; ds_StepIndex : Z; ds_StepID : string;
  ds_ParallelWith : string; ds_CreatedAt : string }.

Record WorkflowDependencyWorkItemRecord := mkDepItem {
  di_RunID : string; di_StageIndex : Z; di_StepIndex : Z; di_WorkItemID : string;
  di_WorkItemIndex : Z; di_CreatedAt : string }.

Record WorkflowStepOutputFactRecord := mkFact {
  of_RunID : string; of_StepIndex : Z; of_OutputJSON : string;
  of_OutputJSONSHA256 : string; of_OutputJSONBytes : Z; of_OutputJSONPruned : bool;
  of_OutputKind : string; of_CreatedAt : string; of_UpdatedAt : string }.

(** A row of [workflow_step_output_facts], keyed by (run_id, step_index). *)
Record output_fact_row := mkFactRow {
  ofr_output_json : option string; ofr_output_json_sha256 : string;
  ofr_output_json_bytes : Z; ofr_output_json_pruned : bool; ofr_output_kind : string;
  ofr_created_at : string; ofr_updated_at : string }.

Record WorkItemRecord := mkWorkItem {
  wi_ID : string; wi_RunID : string; wi_StageIndex : Z; wi_WorkItemIndex : Z;
  wi_WorkerPayloadJSON : string; wi_ResolvedInputsSHA256 : string; wi_CreatedAt : string }.

Record WorkItemResourceConstraintRecord := mkConstraint {
  rc_WorkItemID : string; rc_ConstraintIndex : Z; rc_ResourceKey : string;
  rc_RequestedUnits : Z; rc_Operator : string; rc_TargetUnits : Z; rc_CreatedAt : string }.

Record QueuedWorkRecord := mkQueued { qw_WorkItem : WorkItemRecord; qw_QueuedAt : string }.

(** A row of [workers]. *)
Record worker_row := mkWorkerRow {
  wr_execution_handle : option string; wr_created_at : string }.

Record WorkerSessionRecord := mkSession {
  ws_ID : string; ws_WorkerID : string; ws_Status : string; ws_RegisteredAt : string;
  ws_LastHeartbeatAt : string; ws_EndedAt : string; ws_EndReason : string;
  ws_ExecutionHandle : string }.

(** A row of [worker_sessions], keyed by worker_session_id. *)
Record session_row := mkSessionRow {
  sr_worker_id : string; sr_status : string; sr_registered_at : string;
  sr_last_heartbeat_at : string; sr_ended_at : option string;
  sr_end_reason : option string; sr_execution_handle : option string }.

(** A row of [work_item_attempts], keyed by attempt_id. *)
Record attempt_row := mkAttemptRow {
  at_work_item_id : string; at_worker_id : option string;
  at_worker_session_id : option string; at_executor_type : string; at_started_at : string }.

(** A row of [running_work], keyed by attempt_id. *)
Record running_row := mkRunningRow {
  rr_work_item_id : string; rr_worker_id : option string;
  rr_worker_session_id : option string; rr_queued_at : string; rr_started_at : string }.

(** [runningWorkRecord]: the row with its key and [COALESCE(.., '')] applied. *)
Record runningWorkRecord := mkRunning {
  rw_attemptID : string; rw_workItemID : string; rw_workerID : string;
  rw_workerSessionID : string; rw_queuedAt : string; rw_startedAt : string }.

Record AbandonedWorkRecord := mkAbandoned {
  ab_AttemptID : string; ab_WorkItemID : string; ab_WorkerID : string;
  ab_WorkerSessionID : string; ab_QueuedAt : string; ab_StartedAt : string;
  ab_AbandonedAt : string; ab_Reason : string }.

Record CompletedWorkRecord := mkCompleted {
  cw_AttemptID : string; cw_WorkItemID : string; cw_SkippedParentID : string;
  cw_OutputJSON : string; cw_OutputJSONSHA256 : string; cw_PreStateSHA256 : string;
  cw_PostStateSHA256 : string; cw_QueuedAt : string; cw_StartedAt : string;
  cw_CompletedAt : string }.

Record FailedWorkRecord := mkFailed {
  fw_AttemptID : string; fw_WorkItemID : string; fw_Error : string;
  fw_QueuedAt : string; fw_StartedAt : string; fw_FailedAt : string }.

Record ClaimedWorkRecord := mkClaimed {
  cl_AttemptID : string; cl_WorkItem : WorkItemRecord; cl_WorkerID : string;
  cl_WorkerSessionID : string; cl_ExecutorType : string; cl_QueuedAt : string;
  cl_StartedAt : string }.

#[export] Instance ProjectRecord_eq_dec : EqDecision ProjectRecord.
Proof. solve_decision. Defined.
#[export] Instance WorkflowRecord_eq_dec : EqDecision WorkflowRecord.
Proof. solve_decision. Defined.
#[export] Instance WorkflowRunRecord_eq_dec : EqDecision WorkflowRunRecord.
Proof. solve_decision. Defined.
#[export] Instance WorkflowStageRecord_eq_dec : EqDecision WorkflowStageRecord.
Proof. solve_decision. Defined.
#[export] Instance WorkflowDependencyStepRecord_eq_dec : EqDecision WorkflowDependencyStepRecord.
Proof. solve_decision. Defined.
#[export] Instance WorkflowDependencyWorkItemRecord_eq_dec :
  EqDecision WorkflowDependencyWorkItemRecord.
Proof. solve_decision. Defined.
#[export] Instance WorkItemRecord_eq_dec : EqDecision WorkItemRecord.
Proof. solve_decision. Defined.
#[export] Instance WorkItemResourceConstraintRecord_eq_dec :
  EqDecision WorkItemResourceConstraintRecord.
Proof. solve_decision. Defined.

(** ** Requests *)

Record RegisterWorkerSessionRequest := mkRegister {
  reg_WorkerID : string; reg_SessionID : string; reg_RegisteredAt : string;
  reg_ExecutionHandle : string }.
Record HeartbeatWorkerSessionRequest := mkHeartbeat {
  hb_WorkerID : string; hb_SessionID : string; hb_HeartbeatAt : string }.
Record EndWorkerSessionRequest := mkEnd {
  en_WorkerID : string; en_SessionID : string; en_Status : string;
  en_EndedAt : string; en_Reason : string }.
Record StopWorkerSessionAndRecoverWorkRequest := mkStop {
  sp_WorkerID : string; sp_SessionID : string; sp_StoppedAt : string; sp_Reason : string }.
Record RecoverExpiredWorkerSessionsRequest := mkRecover {
  rv_Cutoff : string; rv_RecoveredAt : string; rv_Reason : string }.
Record QueueWorkItemsRequest := mkQueueReq {
  qr_WorkItems : list WorkItemRecord;
  qr_ResourceConstraints : list WorkItemResourceConstraintRecord;
  qr_QueuedWork : list QueuedWorkRecord }.
Record ClaimWorkRequest := mkClaim {
  cr_AttemptID : string; cr_WorkerID : string; cr_WorkerSessionID : string;
  cr_ExecutorType : string; cr_StartedAt : string; cr_LiveSessionCutoff : string }.
Record CompleteAttemptRequest := mkCompleteReq {
  ca_AttemptID : string; ca_WorkerID : string; ca_WorkerSessionID : string;
  ca_LiveSessionCutoff : string; ca_SkippedParentID : string; ca_OutputJSON : string;
  ca_OutputJSONSHA256 : string; ca_PreStateSHA256 : string; ca_PostStateSHA256 : string;
  ca_CompletedAt : string }.
Record FailAttemptRequest := mkFailReq {
  fa_AttemptID : string; fa_WorkerID : string; fa_WorkerSessionID : string;
  fa_LiveSessionCutoff : string; fa_Error : string; fa_FailedAt : string }.
Record CompleteStageRequest := mkStageReq {
  cs_RunID : string; cs_StageIndex : Z; cs_OutputJSON : string;
  cs_OutputJSONSHA256 : string; cs_CompletedAt : string;
  cs_ReadyWorkItems : list WorkItemRecord;
  cs_ReadyResourceConstraints : list WorkItemResourceConstraintRecord;
  cs_ReadyQueuedWork : list QueuedWorkRecord }.

Record StopWorkerSessionAndRecoverWorkResult := mkStopResult {
  spr_Changed : bool; spr_AbandonedAttempts : Z; spr_RequeuedWorkItems : Z }.
Record RecoverExpiredWorkerSessionsResult := mkRecoverResult {
  rvr_ExpiredSessions : Z; rvr_AbandonedAttempts : Z; rvr_RequeuedWorkItems : Z }.
Record CompleteStageResult := mkStageResult {
  csr_Stage : option WorkflowStageRecord; csr_Found : bool; csr_Completed : bool }.

(** ** The database *)

(** What was submitted: projects, workflows, runs and their plans. *)
Record Catalog := mkCatalog {
  projects : gmap string ProjectRecord;
  workflows : gmap string WorkflowRecord;
  workflow_instances : gmap string WorkflowRunRecord;
  workflow_stages : gmap (string * Z) stage_row;
  workflow_dependency_steps : gmap (string * Z) WorkflowDependencyStepRecord;
  workflow_dependency_work_items : gmap (string * string) WorkflowDependencyWorkItemRecord;
  workflow_step_output_facts : gmap (string * Z) output_fact_row }.

(** What executes: work items, the queue, sessions, attempts and outcomes. *)
Record Exec := mkExec {
  work_items : gmap string WorkItemRecord;
  workers : gmap string worker_row;
  worker_sessions : gmap string session_row;
  work_item_attempts : gmap string attempt_row;
  queued_work : gmap string string;
  work_item_resource_constraints : gmap (string * Z) WorkItemResourceConstraintRecord;
  running_work : gmap string running_row;
  abandoned_work : gmap string AbandonedWorkRecord;
  completed_work : gmap string CompletedWorkRecord;
  failed_work : gmap string FailedWorkRecord }.

Record DB := mkDB { catalog : Catalog; exec : Exec }.

Definition emptyDB : DB := mkDB (mkCatalog ∅ ∅ ∅ ∅ ∅ ∅ ∅) (mkExec ∅ ∅ ∅ ∅ ∅ ∅ ∅ ∅ ∅ ∅).

(** Updates of one table. *)
Definition set_projects t r :=
  mkCatalog t (workflows r) (workflow_instances r) (workflow_stages r) (workflow_dependency_steps r) (workflow_dependency_work_items r) (workflow_step_output_facts r).
Definition set_workflows t r :=
  mkCatalog (projects r) t (workflow_instances r) (workflow_stages r) (workflow_dependency_steps r) (workflow_dependency_work_items r) (workflow_step_output_facts r).
Definition set_workflow_instances t r :=
  mkCatalog (projects r) (workflows r) t (workflow_stages r) (workflow_dependency_steps r) (workflow_dependency_work_items r) (workflow_step_output_facts r).
Definition set_workflow_stages t r :=
  mkCatalog (projects r) (workflows r) (workflow_instances r) t (workflow_dependency_steps r) (workflow_dependency_work_items r) (workflow_step_output_facts r).
Definition set_workflow_dependency_steps t r :=
  mkCatalog (projects r) (workflows r) (workflow_instances r) (workflow_stages r) t (workflow_dependency_work_items r) (workflow_step_output_facts r).
Definition set_workflow_dependency_work_items t r :=
  mkCatalog (projects r) (workflows r) (workflow_instances r) (workflow_stages r) (workflow_dependency_steps r) t (workflow_step_output_facts r).
Definition set_workflow_step_output_facts t r :=
  mkCatalog (projects r) (workflows r) (workflow_instances r) (workflow_stages r) (workflow_dependency_steps r) (workflow_dependency_work_items r) t.
Definition set_work_items t r :=
  mkExec t (workers r) (worker_sessions r) (work_item_attempts r) (queued_work r) (work_item_resource_constraints r) (running_work r) (abandoned_work r) (completed_work r) (failed_work r).
Definition set_workers t r :=
  mkExec (work_items r) t (worker_sessions r) (work_item_attempts r) (queued_work r) (work_item_resource_constraints r) (running_work r) (abandoned_work r) (completed_work r) (failed_work r).
Definition set_worker_sessions t r :=
  mkExec (work_items r) (workers r) t (work_item_attempts r) (queued_work r) (work_item_resource_constraints r) (running_work r) (abandoned_work r) (completed_work r) (failed_work r).
Definition set_work_item_attempts t r :=
  mkExec (work_items r) (workers r) (worker_sessions r) t (queued_work r) (work_item_resource_constraints r) (running_work r) (abandoned_work r) (completed_work r) (failed_work r).
Definition set_queued_work t r :=
  mkExec (work_items r) (workers r) (worker_sessions r) (work_item_attempts r) t (work_item_resource_constraints r) (running_work r) (abandoned_work r) (completed_work r) (failed_work r).
Definition set_work_item_resource_constraints t r :=
  mkExec (work_items r) (workers r) (worker_sessions r) (work_item_attempts r) (queued_work r) t (running_work r) (abandoned_work r) (completed_work r) (failed_work r).
Definition set_running_work t r :=
  mkExec (work_items r) (workers r) (worker_sessions r) (work_item_attempts r) (queued_work r) (work_item_resource_constraints r) t (abandoned_work r) (completed_work r) (failed_work r).
Definition set_abandoned_work t r :=
  mkExec (work_items r) (workers r) (worker_sessions r) (work_item_attempts r) (queued_work r) (work_item_resource_constraints r) (running_work r) t (completed_work r) (failed_work r).
Definition set_completed_work t r :=
  mkExec (work_items r) (workers r) (worker_sessions r) (work_item_attempts r) (queued_work r) (work_item_resource_constraints r) (running_work r) (abandoned_work r) t (failed_work r).
Definition set_failed_work t r :=
  mkExec (work_items r) (workers r) (worker_sessions r) (work_item_attempts r) (queued_work r) (work_item_resource_constraints r) (running_work r) (abandoned_work r) (completed_work r) t.

Definition on_catalog (f : Catalog → Catalog) (db : DB) : DB := mkDB (f (catalog db)) (exec db).
Definition on_exec (f : Exec → Exec) (db : DB) : DB := mkDB (catalog db) (f (exec db)).

(** The connection a statement runs on: SQLite's [json_valid] function, and
    whether the connection has [PRAGMA foreign_keys] on (the pragma is per
    connection, and [sql.DB] is a pool of connections). *)
Record Engine := mkEngine { json_valid : string → bool; foreign_keys : bool }.

(** ** Request validation *)

Definition required (value msg : string) : result unit :=
  fail_if (is_empty value) (Errorf msg).
Definition non_negative (z : Z) (msg : string) : result unit :=
  fail_if (z <? 0) (Errorf msg).
Definition must_be_json (value msg : string) : result unit :=
  fail_if (negb (json_Valid value)) (Errorf msg).

Definition validateTimestamp (name value : string) : result unit :=
  fail_if (negb (valid_timestamp value)) (Errorf (name +:+ " must be RFC3339/RFC3339Nano")).

Definition validStageState (state : string) : bool :=
  bool_decide (state ∈ ["ready"; "running"; "completed"; "failed"; "skipped"; "blocked"]).
Definition validExecutorType (executorType : string) : bool :=
  bool_decide (executorType ∈ [ExecutorTypeWorker; ExecutorTypeController]).
Definition validResourceConstraintOperator (operator : string) : bool :=
  bool_decide (operator ∈ ["="; "!="; "<"; ">"; "<="; ">="]).
Definition validWorkflowStepOutputKind (outputKind : string) : bool :=
  bool_decide (outputKind ∈ ["aggregate"; "empty_fanout"; "skipped"]).

(** [for index, item := range items { if err := item.validate() ... }] *)
Fixpoint validate_each {A} (what : string) (validate : A → result unit)
    (index : Z) (items : list A) : result unit :=
  match items with
  | [] => Ok tt
  | item :: items' =>
      wrap_err (what +:+ " " +:+ pretty index) (validate item);;
      validate_each what validate (index + 1) items'
  end.

Definition validate_all {A} (missing what : string) (validate : A → result unit)
    (items : list A) : result unit :=
  match items with
  | [] => Err (Errorf missing)
  | _ => validate_each what validate 0 items
  end.

Definition validate_project (p : ProjectRecord) : result unit :=
  required (pr_ID p) "project id is required";;
  required (pr_RepositoryIdentity p) "project repository identity is required";;
  required (pr_ConfigPath p) "project config path is required";;
  required (pr_ConfigSHA256 p) "project config sha256 is required";;
  required (pr_CreatedAt p) "project created at is required".

Definition validate_workflow (w : WorkflowRecord) : result unit :=
  required (wf_ID w) "workflow id is required";;
  required (wf_ProjectID w) "workflow project id is required";;
  required (wf_RepositoryIdentity w) "workflow repository identity is required";;
  required (wf_WorkflowPath w) "workflow path is required";;
  required (wf_WorkflowSHA256 w) "workflow sha256 is required";;
  required (wf_CreatedAt w) "workflow created at is required".

Definition validate_run (r : WorkflowRunRecord) : result unit :=
  required (run_ID r) "run id is required";;
  required (run_ProjectID r) "run project id is required";;
  required (run_WorkflowID r) "run workflow id is required";;
  required (run_SubmissionContextJSON r) "run submission context json is required";;
  must_be_json (run_SubmissionContextJSON r) "run submission context json must be valid JSON";;
  required (run_CreatedAt r) "run created at is required".

Definition validate_stage (s : WorkflowStageRecord) : result unit :=
  required (st_RunID s) "stage run id is required";;
  non_negative (st_StageIndex s) "stage index must be non-negative";;
  required (st_StepID s) "stage step id is required";;
  required (st_StageSourceReference s) "stage source reference is required";;
  fail_if (negb (validStageState (st_State s)))
    (Errorf ("unsupported stage state: " +:+ st_State s));;
  required (st_CreatedAt s) "stage created at is required";;
  fail_if (negb (is_empty (st_OutputJSON s)) && negb (json_Valid (st_OutputJSON s)))
    (Errorf "stage output json must be valid JSON").

Definition validate_work_item (w : WorkItemRecord) : result unit :=
  required (wi_ID w) "work item id is required";;
  required (wi_RunID w) "work item run id is required";;
  non_negative (wi_StageIndex w) "work item stage index must be non-negative";;
  non_negative (wi_WorkItemIndex w) "work item index must be non-negative";;
  required (wi_WorkerPayloadJSON w) "work item worker payload json is required";;
  must_be_json (wi_WorkerPayloadJSON w) "work item worker payload json must be valid JSON";;
  required (wi_ResolvedInputsSHA256 w) "work item resolved inputs sha256 is required";;
  required (wi_CreatedAt w) "work item created at is required".

Definition validate_constraint (r : WorkItemResourceConstraintRecord) : result unit :=
  required (rc_WorkItemID r) "resource constraint work item id is required";;
  non_negative (rc_ConstraintIndex r) "resource constraint index must be non-negative";;
  required (rc_ResourceKey r) "resource constraint key is required";;
  fail_if (rc_RequestedUnits r <=? 0)
    (Errorf "resource constraint requested units must be positive");;
  fail_if (negb (validResourceConstraintOperator (rc_Operator r)))
    (Errorf ("unsupported resource constraint operator: " +:+ rc_Operator r));;
  non_negative (rc_TargetUnits r) "resource constraint target units must be non-negative";;
  required (rc_CreatedAt r) "resource constraint created at is required".

Definition validate_dependency_step (s : WorkflowDependencyStepRecord) : result unit :=
  required (ds_RunID s) "dependency step run id is required";;
  non_negative (ds_StageIndex s) "dependency step stage index must be non-negative";;
  non_negative (ds_StepIndex s) "dependency step index must be non-negative";;
  required (ds_StepID s) "dependency step id is required";;
  required (ds_CreatedAt s) "dependency step created at is required".

Definition validate_dependency_work_item (r : WorkflowDependencyWorkItemRecord) : result unit :=
  required (di_RunID r) "dependency work item run id is required";;
  required (di_WorkItemID r) "dependency work item id is required";;
  non_negative (di_WorkItemIndex r) "dependency work item index must be non-negative";;
  non_negative (di_StageIndex r) "dependency stage index must be non-negative";;
  non_negative (di_StepIndex r) "dependency step index must be non-negative";;
  required (di_CreatedAt r) "dependency work item created at is required".

Definition validate_output_fact (r : WorkflowStepOutputFactRecord) : result unit :=
  required (of_RunID r) "workflow step output fact run id is required";;
  non_negative (of_StepIndex r) "workflow step output fact step index must be non-negative";;
  fail_if (negb (is_empty (of_OutputJSON r)) && negb (json_Valid (of_OutputJSON r)))
    (Errorf "workflow step output fact output json must be valid JSON");;
  required (of_OutputJSONSHA256 r) "workflow step output fact output json sha256 is required";;
  non_negative (of_OutputJSONBytes r)
    "workflow step output fact output json bytes must be non-negative";;
  fail_if (negb (validWorkflowStepOutputKind (of_OutputKind r)))
    (Errorf ("unsupported workflow step output kind: " +:+ of_OutputKind r));;
  required (of_CreatedAt r) "workflow step output fact created at is required";;
  required (of_UpdatedAt r) "workflow step output fact updated at is required".

Definition validateWorkItems : list WorkItemRecord → result unit :=
  validate_all "work items are required" "work item" validate_work_item.
Definition validateWorkItemResourceConstraints :
    list WorkItemResourceConstraintRecord → result unit :=
  validate_all "resource constraints are required" "resource constraint" validate_constraint.
Definition validateWorkflowDependencySteps : list WorkflowDependencyStepRecord → result unit :=
  validate_all "dependency steps are required" "dependency step" validate_dependency_step.
Definition validateWorkflowDependencyWorkItemRecords :
    list WorkflowDependencyWorkItemRecord → result unit :=
  validate_all "dependency work items are required" "dependency work item"
    validate_dependency_work_item.

Fixpoint validate_queued_from (index : Z) (items : list QueuedWorkRecord) : result unit :=
  match items with
  | [] => Ok tt
  | item :: items' =>
      required (wi_ID (qw_WorkItem item))
        ("queued work item " +:+ pretty index +:+ " id is required");;
      required (qw_QueuedAt item)
        ("queued work item " +:+ pretty index +:+ " queued at is required");;
      validate_queued_from (index + 1) items'
  end.
Definition validateQueuedWorkItems (items : list QueuedWorkRecord) : result unit :=
  match items with
  | [] => Err (Errorf "queued work items are required")
  | _ => validate_queued_from 0 items
  end.

(** [if len(items) != 0 { ... }] *)
Definition if_any {A} (items : list A) (c : result unit) : result unit :=
  match items with [] => Ok tt | _ => c end.

Definition validate_queue_request (r : QueueWorkItemsRequest) : result unit :=
  validateWorkItems (qr_WorkItems r);;
  validateQueuedWorkItems (qr_QueuedWork r);;
  if_any (qr_ResourceConstraints r)
    (validateWorkItemResourceConstraints (qr_ResourceConstraints r)).

Definition validate_complete_stage (r : CompleteStageRequest) : result unit :=
  required (cs_RunID r) "stage run id is required";;
  non_negative (cs_StageIndex r) "stage index must be non-negative";;
  required (cs_OutputJSON r) "stage output json is required";;
  must_be_json (cs_OutputJSON r) "stage output json must be valid JSON";;
  required (cs_OutputJSONSHA256 r) "stage output json sha256 is required";;
  required (cs_CompletedAt r) "stage completed at is required";;
  if_any (cs_ReadyWorkItems r)
    (wrap_err "ready work" (validateWorkItems (cs_ReadyWorkItems r)));;
  if_any (cs_ReadyResourceConstraints r)
    (wrap_err "ready resource constraints"
       (validateWorkItemResourceConstraints (cs_ReadyResourceConstraints r)));;
  if_any (cs_ReadyQueuedWork r)
    (wrap_err "ready queue" (validateQueuedWorkItems (cs_ReadyQueuedWork r))).

(** An optional timestamp is checked when it is given. *)
Definition optional_timestamp (name value : string) : result unit :=
  if is_empty value then Ok tt else validateTimestamp name value.

Definition validate_claim (r : ClaimWorkRequest) : result unit :=
  required (cr_AttemptID r) "claim attempt id is required";;
  fail_if (negb (validExecutorType (cr_ExecutorType r)))
    (Errorf ("unsupported claim executor type: " +:+ cr_ExecutorType r));;
  (if decide (cr_ExecutorType r = ExecutorTypeWorker) then
     required (cr_WorkerID r) "claim worker id is required for worker executor";;
     required (cr_WorkerSessionID r) "claim worker session id is required for worker executor"
   else if decide (cr_ExecutorType r = ExecutorTypeController) then
     fail_if (negb (is_empty (cr_WorkerID r)))
       (Errorf "claim worker id must be empty for controller executor");;
     fail_if (negb (is_empty (cr_WorkerSessionID r)))
       (Errorf "claim worker session id must be empty for controller executor")
   else Ok tt);;
  required (cr_StartedAt r) "claim started at is required";;
  validateTimestamp "claim started at" (cr_StartedAt r);;
  optional_timestamp "claim live session cutoff" (cr_LiveSessionCutoff r).

Definition validate_register (r : RegisterWorkerSessionRequest) : result unit :=
  required (reg_WorkerID r) "worker id is required";;
  required (reg_SessionID r) "worker session id is required";;
  required (reg_RegisteredAt r) "worker session registered at is required";;
  validateTimestamp "worker session registered at" (reg_RegisteredAt r).

Definition validate_heartbeat (r : HeartbeatWorkerSessionRequest) : result unit :=
  required (hb_WorkerID r) "worker id is required";;
  required (hb_SessionID r) "worker session id is required";;
  required (hb_HeartbeatAt r) "worker session heartbeat at is required";;
  validateTimestamp "worker session heartbeat at" (hb_HeartbeatAt r).

Definition validate_end (r : EndWorkerSessionRequest) : result unit :=
  required (en_WorkerID r) "worker id is required";;
  required (en_SessionID r) "worker session id is required";;
  fail_if (bool_decide (en_Status r ≠ WorkerSessionStatusStopped ∧
                        en_Status r ≠ WorkerSessionStatusDead))
    (Errorf "worker session terminal status must be stopped or dead");;
  required (en_EndedAt r) "worker session ended at is required";;
  validateTimestamp "worker session ended at" (en_EndedAt r);;
  required (en_Reason r) "worker session end reason is required".

Definition validate_stop (r : StopWorkerSessionAndRecoverWorkRequest) : result unit :=
  required (sp_WorkerID r) "worker id is required";;
  required (sp_SessionID r) "worker session id is required";;
  required (sp_StoppedAt r) "worker session stopped at is required";;
  validateTimestamp "worker session stopped at" (sp_StoppedAt r);;
  required (sp_Reason r) "worker session stop reason is required".

Definition validate_recover (r : RecoverExpiredWorkerSessionsRequest) : result unit :=
  required (rv_Cutoff r) "recover expired worker sessions cutoff is required";;
  validateTimestamp "recover expired worker sessions cutoff" (rv_Cutoff r);;
  required (rv_RecoveredAt r) "recover expired worker sessions recovered at is required";;
  validateTimestamp "recover expired worker sessions recovered at" (rv_RecoveredAt r);;
  required (rv_Reason r) "recover expired worker sessions reason is required".

(** [(r.WorkerID == "") != (r.WorkerSessionID == "")] *)
Definition half_identity (worker session : string) : bool :=
  xorb (is_empty worker) (is_empty session).

Definition validate_complete (r : CompleteAttemptRequest) : result unit :=
  required (ca_AttemptID r) "complete attempt id is required";;
  fail_if (half_identity (ca_WorkerID r) (ca_WorkerSessionID r))
    (Errorf "complete worker id and worker session id must be provided together");;
  optional_timestamp "complete live session cutoff" (ca_LiveSessionCutoff r);;
  required (ca_OutputJSON r) "complete output json is required";;
  must_be_json (ca_OutputJSON r) "complete output json must be valid JSON";;
  required (ca_OutputJSONSHA256 r) "complete output json sha256 is required";;
  required (ca_PreStateSHA256 r) "complete pre state sha256 is required";;
  required (ca_PostStateSHA256 r) "complete post state sha256 is required";;
  required (ca_CompletedAt r) "complete completed at is required".

Definition validate_fail (r : FailAttemptRequest) : result unit :=
  required (fa_AttemptID r) "fail attempt id is required";;
  fail_if (half_identity (fa_WorkerID r) (fa_WorkerSessionID r))
    (Errorf "fail worker id and worker session id must be provided together");;
  optional_timestamp "fail live session cutoff" (fa_LiveSessionCutoff r);;
  required (fa_Error r) "fail error is required";;
  required (fa_FailedAt r) "fail failed at is required".
