(* ===== verification/StoreSQL.v ===== *)
(** * The workflow store: statements

    The SQL statements of [internal/persistence/store.go] over the tables of
    [StoreData], with the constraints the schema of
    [internal/persistence/db_adapter_sqlite.go] declares: CHECK clauses, primary
    keys and UNIQUE clauses, and, when the connection enforces them, foreign keys.
    Queries that list rows keep their ORDER BY. *)

From S2P Require Import Prelude Resource StoreData.
Local Open Scope Z_scope.

(** ** Rows of a table *)

Lemma filter_perm {A} (p : A → bool) l1 l2 : l1 ≡ₚ l2 → List.filter p l1 ≡ₚ List.filter p l2.
Proof.
  induction 1 as [|x l1 l2 _ IH|x y l|l1 l2 l3 _ IH1 _ IH2]; simpl.
  - done.
  - destruct (p x); [by constructor|done].
  - destruct (p x), (p y); try done. constructor.
  - by etrans.
Qed.

Section tables.
Context {K V : Type} `{Countable K}.
Implicit Types (m : gmap K V) (f : K → V → bool).

Definition table_rows f m : list (K * V) :=
  List.filter (λ kv, f kv.1 kv.2) (map_to_list m).
(** EXISTS (SELECT 1 FROM m WHERE f) *)
Definition table_has f m : bool := negb (bool_decide (table_rows f m = [])).
(** SELECT COUNT( * ) FROM m WHERE f *)
Definition table_count f m : Z := Z.of_nat (length (table_rows f m)).

Lemma elem_of_table_rows f m k v :
  (k, v) ∈ table_rows f m ↔ m !! k = Some v ∧ f k v = true.
Proof.
  unfold table_rows. rewrite list_elem_of_In, filter_In, <- list_elem_of_In.
  by rewrite elem_of_map_to_list.
Qed.

Lemma table_rows_NoDup f m : NoDup (table_rows f m).*1.
Proof.
  unfold table_rows. pose proof (NoDup_fst_map_to_list m) as Hnd.
  induction (map_to_list m) as [|[k v] l IH]; simpl in *; [constructor|].
  apply NoDup_cons in Hnd as [Hni Hnd]. destruct (f k v); [|by auto].
  simpl. apply NoDup_cons. split; [|by auto]. intros Hin. apply Hni.
  apply list_elem_of_fmap in Hin as (kv & -> & Hin). apply list_elem_of_fmap.
  exists kv. split; [done|]. apply list_elem_of_In, filter_In in Hin as [? _].
  by apply list_elem_of_In.
Qed.

Lemma table_has_true f m :
  table_has f m = true ↔ ∃ k v, m !! k = Some v ∧ f k v = true.
Proof.
  unfold table_has. rewrite negb_true_iff, bool_decide_eq_false. split.
  - intros Hne. destruct (table_rows f m) as [|[k v] l] eqn:E; [done|].
    exists k, v. apply elem_of_table_rows. rewrite E. left.
  - intros (k & v & Hkv) Hnil. apply elem_of_table_rows in Hkv.
    rewrite Hnil in Hkv. by apply elem_of_nil in Hkv.
Qed.

Lemma table_has_false f m :
  table_has f m = false ↔ ∀ k v, m !! k = Some v → f k v = false.
Proof.
  rewrite <- not_true_iff_false, table_has_true. split.
  - intros Hn k v Hk. apply not_true_iff_false. intros Hf. apply Hn. eauto.
  - intros Hn (k & v & Hk & Hf). apply Hn in Hk. congruence.
Qed.

Lemma table_count_0 f m :
  table_count f m = 0 ↔ ∀ k v, m !! k = Some v → f k v = false.
Proof.
  unfold table_count. rewrite <- table_has_false. unfold table_has.
  rewrite negb_false_iff, bool_decide_eq_true. destruct (table_rows f m); naive_solver lia.
Qed.

Lemma table_count_nonneg f m : 0 ≤ table_count f m.
Proof. unfold table_count. lia. Qed.

(** Adding a fresh row changes a count by at most one. *)
Lemma table_count_insert f m k v :
  m !! k = None →
  table_count f (<[k:=v]> m) = table_count f m + (if f k v then 1 else 0).
Proof.
  intros Hk. unfold table_count, table_rows.
  assert (Hq : List.filter (λ kv, f kv.1 kv.2) (map_to_list (<[k:=v]> m)) ≡ₚ
               List.filter (λ kv, f kv.1 kv.2) ((k, v) :: map_to_list m)).
  { apply filter_perm. by apply map_to_list_insert. }
  rewrite Hq. simpl. destruct (f k v); simpl; lia.
Qed.
End tables.

Definition has_key {K V} `{Countable K} (m : gmap K V) (k : K) : bool :=
  bool_decide (is_Some (m !! k)).
(** A nullable foreign key: NULL refers to nothing. *)
Definition has_ref {V} (m : gmap string V) (k : option string) : bool :=
  match k with None => true | Some k => has_key m k end.

(** The checks of one INSERT: CHECK clauses, unique keys, foreign keys. *)
Definition checked (eng : Engine) (what : string) (check unique fk : bool) : result unit :=
  fail_if (negb check) (SqlConstraint ("CHECK " +:+ what));;
  fail_if (negb unique) (SqlConstraint ("UNIQUE " +:+ what));;
  fail_if (foreign_keys eng && negb fk) (SqlConstraint ("FOREIGN KEY " +:+ what)).

Lemma checked_Ok eng what c u fk r :
  checked eng what c u fk = Ok r →
  c = true ∧ u = true ∧ (foreign_keys eng = true → fk = true).
Proof.
  unfold checked. intros H. result_inv.
  destruct c, u, fk, (foreign_keys eng); naive_solver.
Qed.

Lemma checked_pass eng what c u fk :
  c = true → u = true → (foreign_keys eng = true → fk = true) → checked eng what c u fk = Ok tt.
Proof.
  intros -> -> Hfk. unfold checked. simpl. destruct (foreign_keys eng); [by rewrite Hfk|done].
Qed.

(** ** Workers and sessions *)

Definition scanWorkerSession (id : string) (r : session_row) : WorkerSessionRecord :=
  mkSession id (sr_worker_id r) (sr_status r) (sr_registered_at r) (sr_last_heartbeat_at r)
    (from_null (sr_ended_at r)) (from_null (sr_end_reason r)) (from_null (sr_execution_handle r)).

Definition getWorkerSession (e : Exec) (workerID sessionID : string) : option WorkerSessionRecord :=
  match worker_sessions e !! sessionID with
  | Some r => if decide (sr_worker_id r = workerID) then Some (scanWorkerSession sessionID r) else None
  | None => None
  end.

Definition getWorkerSessionByID (e : Exec) (sessionID : string) : option WorkerSessionRecord :=
  scanWorkerSession sessionID <$> worker_sessions e !! sessionID.

(** INSERT INTO workers .. ON CONFLICT(worker_id) DO NOTHING *)
Definition insert_worker_if_absent (id : string) (r : worker_row) (e : Exec) : Exec :=
  match workers e !! id with
  | Some _ => e
  | None => set_workers (<[id:=r]> (workers e)) e
  end.

(** CHECK of [worker_sessions]: the status is known, and exactly the active
    sessions have no end time. *)
Definition session_check (r : session_row) : bool :=
  bool_decide ((sr_status r = WorkerSessionStatusActive ∧ sr_ended_at r = None) ∨
               ((sr_status r = WorkerSessionStatusStopped ∨ sr_status r = WorkerSessionStatusDead)
                ∧ sr_ended_at r ≠ None)).

Definition insert_worker_session (eng : Engine) (id : string) (r : session_row) (e : Exec) :
    result Exec :=
  checked eng "worker_sessions" (session_check r)
    (negb (has_key (worker_sessions e) id)) (has_key (workers e) (sr_worker_id r));;
  Ok (set_worker_sessions (<[id:=r]> (worker_sessions e)) e).

(** UPDATE worker_sessions SET last_heartbeat_at = .. WHERE .. AND status = 'active';
    the flag says whether a row changed. *)
Definition update_heartbeat (request : HeartbeatWorkerSessionRequest) (e : Exec) : bool * Exec :=
  match worker_sessions e !! hb_SessionID request with
  | Some r =>
      if decide (sr_worker_id r = hb_WorkerID request ∧ sr_status r = WorkerSessionStatusActive)
      then (true, set_worker_sessions
              (<[hb_SessionID request :=
                 mkSessionRow (sr_worker_id r) (sr_status r) (sr_registered_at r)
                   (hb_HeartbeatAt request) (sr_ended_at r) (sr_end_reason r)
                   (sr_execution_handle r)]> (worker_sessions e)) e)
      else (false, e)
  | None => (false, e)
  end.

(** UPDATE worker_sessions SET status = .., ended_at = .., end_reason = ..
    WHERE worker_session_id = .. AND worker_id = .. AND status = 'active' [AND extra]. *)
Definition end_session_where (extra : session_row → bool) (sessionID workerID status endedAt reason : string)
    (e : Exec) : bool * Exec :=
  match worker_sessions e !! sessionID with
  | Some r =>
      if bool_decide (sr_worker_id r = workerID ∧ sr_status r = WorkerSessionStatusActive) && extra r
      then (true, set_worker_sessions
              (<[sessionID := mkSessionRow (sr_worker_id r) status (sr_registered_at r)
                 (sr_last_heartbeat_at r) (Some endedAt) (Some reason) (sr_execution_handle r)]>
                 (worker_sessions e)) e)
      else (false, e)
  | None => (false, e)
  end.

Definition markWorkerSessionDeadIfExpired (session : WorkerSessionRecord)
    (request : RecoverExpiredWorkerSessionsRequest) (e : Exec) : bool * Exec :=
  end_session_where (λ r, str_ltb (sr_last_heartbeat_at r) (rv_Cutoff request))
    (ws_ID session) (ws_WorkerID session) WorkerSessionStatusDead
    (rv_RecoveredAt request) (rv_Reason request) e.

Definition markWorkerSessionStopped (request : StopWorkerSessionAndRecoverWorkRequest)
    (e : Exec) : bool * Exec :=
  end_session_where (λ _, true) (sp_SessionID request) (sp_WorkerID request)
    WorkerSessionStatusStopped (sp_StoppedAt request) (sp_Reason request) e.

(** Active sessions whose last heartbeat is before the cutoff. *)
Definition listExpiredActiveWorkerSessions (e : Exec) (cutoff : string) : list WorkerSessionRecord :=
  order_by (by_text2 ws_LastHeartbeatAt ws_ID)
    ((λ kv, scanWorkerSession kv.1 kv.2) <$>
     table_rows (λ _ r, bool_decide (sr_status r = WorkerSessionStatusActive) &&
                        str_ltb (sr_last_heartbeat_at r) cutoff) (worker_sessions e)).

(** [listWorkerSessionsByHeartbeat] with operator [>=] ([live]) or [<]. *)
Definition listWorkerSessionsByHeartbeat (e : Exec) (live : bool) (cutoff : string) :
    list WorkerSessionRecord :=
  order_by (by_text2 ws_LastHeartbeatAt ws_ID)
    ((λ kv, scanWorkerSession kv.1 kv.2) <$>
     table_rows (λ _ r, bool_decide (sr_status r = WorkerSessionStatusActive) &&
                        (if live then str_leb cutoff (sr_last_heartbeat_at r)
                         else str_ltb (sr_last_heartbeat_at r) cutoff)) (worker_sessions e)).

(** ** Attempts and running work *)

(** Foreign key (worker_id, worker_session_id) into [worker_sessions]. *)
Definition session_pair_ref (e : Exec) (worker session : option string) : bool :=
  match worker, session with
  | Some w, Some s =>
      match worker_sessions e !! s with
      | Some r => bool_decide (sr_worker_id r = w)
      | None => false
      end
  | _, _ => true
  end.

Definition attempt_check (r : attempt_row) : bool :=
  bool_decide ((at_executor_type r = ExecutorTypeWorker ∧
                is_Some (at_worker_id r) ∧ is_Some (at_worker_session_id r)) ∨
               (at_executor_type r = ExecutorTypeController ∧
                at_worker_id r = None ∧ at_worker_session_id r = None)).

Definition insert_work_item_attempt (eng : Engine) (id : string) (r : attempt_row) (e : Exec) :
    result Exec :=
  checked eng "work_item_attempts" (attempt_check r)
    (negb (has_key (work_item_attempts e) id))
    (has_key (work_items e) (at_work_item_id r) && has_ref (workers e) (at_worker_id r)
     && has_ref (worker_sessions e) (at_worker_session_id r)
     && session_pair_ref e (at_worker_id r) (at_worker_session_id r));;
  Ok (set_work_item_attempts (<[id:=r]> (work_item_attempts e)) e).

(** Is work running for this session? *)
Definition runs_session (s : option string) (r : running_row) : bool :=
  match s with
  | Some s => bool_decide (rr_worker_session_id r = Some s)
  | None => false
  end.

Definition insert_running_work (eng : Engine) (id : string) (r : running_row) (e : Exec) :
    result Exec :=
  checked eng "running_work" true
    (negb (has_key (running_work e) id)
     && negb (table_has (λ _ r', bool_decide (rr_work_item_id r' = rr_work_item_id r)) (running_work e))
     && negb (table_has (λ _ r', runs_session (rr_worker_session_id r) r') (running_work e)))
    (has_key (work_item_attempts e) id && has_key (work_items e) (rr_work_item_id r)
     && has_ref (workers e) (rr_worker_id r) && has_ref (worker_sessions e) (rr_worker_session_id r)
     && session_pair_ref e (rr_worker_id r) (rr_worker_session_id r));;
  Ok (set_running_work (<[id:=r]> (running_work e)) e).

Definition scanRunning (id : string) (r : running_row) : runningWorkRecord :=
  mkRunning id (rr_work_item_id r) (from_null (rr_worker_id r))
    (from_null (rr_worker_session_id r)) (rr_queued_at r) (rr_started_at r).

Definition getRunningWork (e : Exec) (attemptID : string) : option runningWorkRecord :=
  scanRunning attemptID <$> running_work e !! attemptID.

Definition listRunningWorkForSession (e : Exec) (sessionID : string) : list runningWorkRecord :=
  order_by (by_text2 rw_startedAt rw_attemptID)
    ((λ kv, scanRunning kv.1 kv.2) <$>
     table_rows (λ _ r, runs_session (Some sessionID) r) (running_work e)).

(** SELECT COUNT( * ) FROM running_work WHERE worker_session_id = .. *)
Definition count_running_for_session (e : Exec) (sessionID : string) : Z :=
  table_count (λ _ r, runs_session (Some sessionID) r) (running_work e).

Definition deleteRunningWork (attemptID : string) (e : Exec) : result Exec :=
  match running_work e !! attemptID with
  | Some _ => Ok (set_running_work (delete attemptID (running_work e)) e)
  | None => Err (Errorf ("delete running work " +:+ attemptID +:+ ": no row deleted"))
  end.

(** ** Outcomes *)

Definition insert_completed_work (eng : Engine) (c : CompletedWorkRecord) (e : Exec) : result Exec :=
  let completed' := <[cw_AttemptID c := c]> (completed_work e) in
  checked eng "completed_work" (json_valid eng (cw_OutputJSON c))
    (negb (has_key (completed_work e) (cw_AttemptID c)))
    (has_key (work_item_attempts e) (cw_AttemptID c) && has_key (work_items e) (cw_WorkItemID c)
     && has_ref completed' (nullString (cw_SkippedParentID c)));;
  Ok (set_completed_work completed' e).

Definition insert_failed_work (eng : Engine) (f : FailedWorkRecord) (e : Exec) : result Exec :=
  checked eng "failed_work" true (negb (has_key (failed_work e) (fw_AttemptID f)))
    (has_key (work_item_attempts e) (fw_AttemptID f) && has_key (work_items e) (fw_WorkItemID f));;
  Ok (set_failed_work (<[fw_AttemptID f := f]> (failed_work e)) e).

Definition insert_abandoned_work (eng : Engine) (a : AbandonedWorkRecord) (e : Exec) : result Exec :=
  checked eng "abandoned_work" true (negb (has_key (abandoned_work e) (ab_AttemptID a)))
    (has_key (work_item_attempts e) (ab_AttemptID a) && has_key (work_items e) (ab_WorkItemID a)
     && has_key (workers e) (ab_WorkerID a) && has_key (worker_sessions e) (ab_WorkerSessionID a));;
  Ok (set_abandoned_work (<[ab_AttemptID a := a]> (abandoned_work e)) e).

Definition getCompletedWork (e : Exec) (attemptID : string) : option CompletedWorkRecord :=
  completed_work e !! attemptID.
Definition getFailedWork (e : Exec) (attemptID : string) : option FailedWorkRecord :=
  failed_work e !! attemptID.
Definition hasAbandonedWork (e : Exec) (attemptID : string) : bool :=
  has_key (abandoned_work e) attemptID.

(** ** Work items, queue and resource constraints *)

Definition getWorkItem (e : Exec) (id : string) : result (option WorkItemRecord) :=
  required id "work item id is required";; Ok (work_items e !! id).

Definition insert_work_item (eng : Engine) (item : WorkItemRecord) (db : DB) : result DB :=
  let e := exec db in
  checked eng "work_items" (json_valid eng (wi_WorkerPayloadJSON item))
    (negb (has_key (work_items e) (wi_ID item))
     && negb (table_has (λ _ w, bool_decide (wi_RunID w = wi_RunID item ∧
          wi_StageIndex w = wi_StageIndex item ∧ wi_WorkItemIndex w = wi_WorkItemIndex item))
          (work_items e)))
    (has_key (workflow_stages (catalog db)) (wi_RunID item, wi_StageIndex item));;
  Ok (on_exec (set_work_items (<[wi_ID item := item]> (work_items e))) db).

Definition getQueuedWork (e : Exec) (id : string) : result (option string) :=
  required id "work item id is required";; Ok (queued_work e !! id).

Definition insert_queued_work (eng : Engine) (id queuedAt : string) (e : Exec) : result Exec :=
  checked eng "queued_work" true (negb (has_key (queued_work e) id)) (has_key (work_items e) id);;
  Ok (set_queued_work (<[id := queuedAt]> (queued_work e)) e).

Definition constraint_check (c : WorkItemResourceConstraintRecord) : bool :=
  validResourceConstraintOperator (rc_Operator c) &&
  bool_decide (0 ≤ rc_ConstraintIndex c ∧ rc_ResourceKey c ≠ "" ∧
               0 < rc_RequestedUnits c ∧ 0 ≤ rc_TargetUnits c).

Definition constraint_key (c : WorkItemResourceConstraintRecord) : string * Z :=
  (rc_WorkItemID c, rc_ConstraintIndex c).

Definition getWorkItemResourceConstraint (e : Exec) (id : string) (index : Z) :
    result (option WorkItemResourceConstraintRecord) :=
  required id "work item id is required";;
  non_negative index "constraint index must be non-negative";;
  Ok (work_item_resource_constraints e !! (id, index)).

Definition insert_resource_constraint (eng : Engine) (c : WorkItemResourceConstraintRecord)
    (e : Exec) : result Exec :=
  checked eng "work_item_resource_constraints" (constraint_check c)
    (negb (has_key (work_item_resource_constraints e) (constraint_key c))
     && negb (table_has (λ _ c', bool_decide (rc_WorkItemID c' = rc_WorkItemID c ∧
          rc_ResourceKey c' = rc_ResourceKey c)) (work_item_resource_constraints e)))
    (has_key (work_items e) (rc_WorkItemID c));;
  Ok (set_work_item_resource_constraints
        (<[constraint_key c := c]> (work_item_resource_constraints e)) e).

(** Queued items joined with their work item, oldest first. *)
Definition listQueuedWorkForClaim (e : Exec) : list QueuedWorkRecord :=
  order_by (by_text2 qw_QueuedAt (λ q, wi_ID (qw_WorkItem q)))
    (omap (λ kv, (λ item, mkQueued item kv.2) <$> work_items e !! kv.1)
       (map_to_list (queued_work e))).

(** SELECT SUM(r.requested_units) FROM running_work rw JOIN
    work_item_resource_constraints r ON r.work_item_id = rw.work_item_id
    WHERE r.resource_key = key: the units in use on a resource. *)
Definition item_units (e : Exec) (key item : string) : Z :=
  foldr (λ kv acc, rc_RequestedUnits kv.2 + acc) 0
    (table_rows (λ _ c, bool_decide (rc_WorkItemID c = item ∧ rc_ResourceKey c = key))
       (work_item_resource_constraints e)).
Definition running_units (e : Exec) (key : string) : Z :=
  foldr (λ kv acc, item_units e key (rr_work_item_id kv.2) + acc) 0
    (map_to_list (running_work e)).

(** SQLite's [SUM] of integers raises an error when the total leaves int64. *)
Definition total_units (e : Exec) (key : string) : result Z :=
  let total := running_units e key in
  if decide (int64 total) then Ok total else Err (SqlConstraint "integer overflow").

(** Rows of the view [queued_resource_constraint_checks] for one work item. *)
Definition append_check (e : Exec) (checks : list ResourceConstraintCheck)
    (c : WorkItemResourceConstraintRecord) : result (list ResourceConstraintCheck) :=
  total ← total_units e (rc_ResourceKey c);
  Ok (checks ++ [mkCheck total (rc_RequestedUnits c) (rc_Operator c) (rc_TargetUnits c)]).

Definition listQueuedResourceConstraintChecksForWorkItem (e : Exec) (id : string) :
    result (list ResourceConstraintCheck) :=
  match queued_work e !! id with
  | None => Ok []
  | Some _ =>
      foldM (append_check e) []
        (order_by (by_int rc_ConstraintIndex)
           (snd <$> table_rows (λ _ c, bool_decide (rc_WorkItemID c = id))
              (work_item_resource_constraints e)))
  end.

Definition queuedResourceConstraintsAllow (e : Exec) (id : string) : result bool :=
  checks ← wrap_err ("list queued resource constraint checks for work item " +:+ id)
    (listQueuedResourceConstraintChecksForWorkItem e id);
  ResourceConstraintChecksAllow checks.

(** ** Stages *)

Definition scanWorkflowStage (key : string * Z) (r : stage_row) : WorkflowStageRecord :=
  mkStage key.1 key.2 (str_step_id r) (str_stage_source_reference r) (str_state r)
    (str_created_at r) (from_null (str_ready_at r)) (from_null (str_started_at r))
    (from_null (str_completed_at r)) (from_null (str_failed_at r))
    (from_null (str_output_json r)) (from_null (str_output_json_sha256 r)).

Definition getWorkflowStage (c : Catalog) (runID : string) (stageIndex : Z) :
    result (option WorkflowStageRecord) :=
  required runID "run id is required";;
  non_negative stageIndex "stage index must be non-negative";;
  Ok (scanWorkflowStage (runID, stageIndex) <$> workflow_stages c !! (runID, stageIndex)).

Definition listStagesForRun (c : Catalog) (runID : string) : list WorkflowStageRecord :=
  order_by (by_int st_StageIndex)
    ((λ kv, scanWorkflowStage kv.1 kv.2) <$>
     table_rows (λ k _, bool_decide (k.1 = runID)) (workflow_stages c)).

Definition stage_row_of (s : WorkflowStageRecord) : stage_row :=
  mkStageRow (st_StepID s) (st_StageSourceReference s) (st_State s) (st_CreatedAt s)
    (nullString (st_ReadyAt s)) (nullString (st_StartedAt s)) (nullString (st_CompletedAt s))
    (nullString (st_FailedAt s)) (nullString (st_OutputJSON s)) (nullString (st_OutputJSONSHA256 s)).

Definition null_or_json (eng : Engine) (o : option string) : bool :=
  match o with None => true | Some j => json_valid eng j end.

Definition insert_workflow_stage (eng : Engine) (s : WorkflowStageRecord) (c : Catalog) :
    result Catalog :=
  let r := stage_row_of s in
  checked eng "workflow_stages" (validStageState (str_state r) && null_or_json eng (str_output_json r))
    (negb (has_key (workflow_stages c) (st_RunID s, st_StageIndex s)))
    (has_key (workflow_instances c) (st_RunID s));;
  Ok (set_workflow_stages (<[(st_RunID s, st_StageIndex s) := r]> (workflow_stages c)) c).

(** Work items of a stage, and how many of a stage's items a table mentions. *)
Definition in_stage (runID : string) (stageIndex : Z) (w : WorkItemRecord) : bool :=
  bool_decide (wi_RunID w = runID ∧ wi_StageIndex w = stageIndex).
Definition item_in_stage (e : Exec) (runID : string) (stageIndex : Z) (id : string) : bool :=
  match work_items e !! id with
  | Some w => in_stage runID stageIndex w
  | None => false
  end.

Definition stageWorkComplete (e : Exec) (runID : string) (stageIndex : Z) : bool :=
  let here := item_in_stage e runID stageIndex in
  let total := table_count (λ _ w, in_stage runID stageIndex w) (work_items e) in
  let completed := Z.of_nat (length (remove_dups
    ((λ kv, cw_WorkItemID kv.2) <$> table_rows (λ _ c, here (cw_WorkItemID c)) (completed_work e)))) in
  let queued := table_count (λ id _, here id) (queued_work e) in
  let running := table_count (λ _ r, here (rr_work_item_id r)) (running_work e) in
  let failed := table_count (λ _ f, here (fw_WorkItemID f)) (failed_work e) in
  (total >? 0) && (completed =? total) && (queued =? 0) && (running =? 0) && (failed =? 0).
