(* ===== verification/StoreOps.v ===== *)
(** * The workflow store: operations

    The exported methods of [Store] in [internal/persistence/store.go].  Each
    checks that the store is open, validates its request and runs one
    transaction; [transact] is that frame, with [defer tx.Rollback()]: a
    transaction that fails leaves the database as it was.  The transaction bodies
    are the [tx_*] definitions. *)

From S2P Require Import Prelude GoJson StoreData StoreSQL.
Local Open Scope Z_scope.

(** A [*Store]: [None] is a nil store or one without a database. *)
Definition Store : Type := option DB.

Definition transact {A} (s : Store) (validated : result unit) (body : DB → result (A * DB)) :
    result A * Store :=
  match s with
  | None => (Err (Errorf "store is not open"), None)
  | Some db =>
      match validated with
      | Err err => (Err err, s)
      | Ok _ =>
          match body db with
          | Err err => (Err err, s)
          | Ok (a, db') => (Ok a, Some db')
          end
      end
  end.

(** A transaction body over the execution tables only. *)
Definition on_exec_tx {A} (body : Exec → result (A * Exec)) (db : DB) : result (A * DB) :=
  '(a, e') ← body (exec db); Ok (a, mkDB (catalog db) e').
Definition on_catalog_tx {A} (body : Catalog → result (A * Catalog)) (db : DB) : result (A * DB) :=
  '(a, c') ← body (catalog db); Ok (a, mkDB c' (exec db)).

Section operations.
Context (eng : Engine).

(** ** Worker sessions *)

Definition workerSessionMatchesRegistration (session : WorkerSessionRecord)
    (request : RegisterWorkerSessionRequest) : bool :=
  bool_decide (ws_ID session = reg_SessionID request ∧
    ws_WorkerID session = reg_WorkerID request ∧
    ws_Status session = WorkerSessionStatusActive ∧
    ws_RegisteredAt session = reg_RegisteredAt request ∧
    ws_LastHeartbeatAt session = reg_RegisteredAt request ∧
    ws_EndedAt session = "" ∧ ws_EndReason session = "" ∧
    ws_ExecutionHandle session = reg_ExecutionHandle request).

Definition tx_register (request : RegisterWorkerSessionRequest) (e : Exec) :
    result (WorkerSessionRecord * Exec) :=
  match getWorkerSessionByID e (reg_SessionID request) with
  | Some existing =>
      fail_if (negb (workerSessionMatchesRegistration existing request))
        (Errorf ("worker session " +:+ reg_SessionID request +:+
                 " already exists with different values"));;
      Ok (existing, e)
  | None =>
      let e1 := insert_worker_if_absent (reg_WorkerID request)
        (mkWorkerRow (nullString (reg_ExecutionHandle request)) (reg_RegisteredAt request)) e in
      let row := mkSessionRow (reg_WorkerID request) WorkerSessionStatusActive
        (reg_RegisteredAt request) (reg_RegisteredAt request) None None
        (nullString (reg_ExecutionHandle request)) in
      e2 ← wrap_err ("insert worker session " +:+ reg_SessionID request)
        (insert_worker_session eng (reg_SessionID request) row e1);
      Ok (mkSession (reg_SessionID request) (reg_WorkerID request) WorkerSessionStatusActive
            (reg_RegisteredAt request) (reg_RegisteredAt request) "" ""
            (reg_ExecutionHandle request), e2)
  end.

Definition RegisterWorkerSession (request : RegisterWorkerSessionRequest) (s : Store) :
    result WorkerSessionRecord * Store :=
  transact s (validate_register request) (on_exec_tx (tx_register request)).

Definition HeartbeatWorkerSession (request : HeartbeatWorkerSessionRequest) (s : Store) :
    result bool * Store :=
  transact s (validate_heartbeat request) (on_exec_tx (λ e, Ok (update_heartbeat request e))).

(** Move one running assignment to [abandoned_work]. *)
Definition abandonRunningWork (assignment : runningWorkRecord) (abandonedAt reason : string)
    (e : Exec) : result Exec :=
  e1 ← wrap_err ("insert abandoned work " +:+ rw_attemptID assignment)
    (insert_abandoned_work eng
       (mkAbandoned (rw_attemptID assignment) (rw_workItemID assignment) (rw_workerID assignment)
          (rw_workerSessionID assignment) (rw_queuedAt assignment) (rw_startedAt assignment)
          abandonedAt reason) e);
  deleteRunningWork (rw_attemptID assignment) e1.

(** INSERT INTO queued_work .. ON CONFLICT(work_item_id) DO NOTHING *)
Definition requeueAbandonedWork (workItemID queuedAt : string) (e : Exec) : result (bool * Exec) :=
  match queued_work e !! workItemID with
  | Some _ => Ok (false, e)
  | None =>
      e1 ← wrap_err ("requeue abandoned work " +:+ workItemID)
        (insert_queued_work eng workItemID queuedAt e);
      Ok (true, e1)
  end.

(** SELECT COUNT( * ) FROM abandoned_work WHERE work_item_id = .. AND reason = .. *)
Definition abandonments (e : Exec) (workItemID reason : string) : Z :=
  table_count (λ _ a, bool_decide (ab_WorkItemID a = workItemID ∧ ab_Reason a = reason))
    (abandoned_work e).

Definition requeueExpiredSessionWork (assignment : runningWorkRecord) (queuedAt reason : string)
    (e : Exec) : result (bool * Exec) :=
  if abandonments e (rw_workItemID assignment) reason <=? expiredSessionRequeueLimit
  then requeueAbandonedWork (rw_workItemID assignment) queuedAt e
  else
    e1 ← wrap_err ("fail retry-exhausted work " +:+ rw_workItemID assignment)
      (insert_failed_work eng
         (mkFailed (rw_attemptID assignment) (rw_workItemID assignment)
            ("expired-session retry ceiling reached after " +:+
             pretty expiredSessionRequeueLimit +:+ " requeues: " +:+ reason)
            (rw_queuedAt assignment) (rw_startedAt assignment) queuedAt) e);
    Ok (false, e1).

(** One assignment of an expired session. *)
Definition recover_assignment (request : RecoverExpiredWorkerSessionsRequest)
    (acc : RecoverExpiredWorkerSessionsResult * Exec) (assignment : runningWorkRecord) :
    result (RecoverExpiredWorkerSessionsResult * Exec) :=
  let '(res, e) := acc in
  e1 ← abandonRunningWork assignment (rv_RecoveredAt request) (rv_Reason request) e;
  '(requeued, e2) ← requeueExpiredSessionWork assignment (rv_RecoveredAt request) (rv_Reason request) e1;
  Ok (mkRecoverResult (rvr_ExpiredSessions res) (rvr_AbandonedAttempts res + 1)
        (rvr_RequeuedWorkItems res + if (requeued : bool) then 1 else 0), e2).

(** One expired session. *)
Definition recover_session (request : RecoverExpiredWorkerSessionsRequest)
    (acc : RecoverExpiredWorkerSessionsResult * Exec) (session : WorkerSessionRecord) :
    result (RecoverExpiredWorkerSessionsResult * Exec) :=
  let '(res, e) := acc in
  let '(changed, e1) := markWorkerSessionDeadIfExpired session request e in
  if negb changed then Ok (res, e1) else
  foldM (recover_assignment request)
    (mkRecoverResult (rvr_ExpiredSessions res + 1) (rvr_AbandonedAttempts res)
       (rvr_RequeuedWorkItems res), e1)
    (listRunningWorkForSession e1 (ws_ID session)).

Definition tx_recover (request : RecoverExpiredWorkerSessionsRequest) (e : Exec) :
    result (RecoverExpiredWorkerSessionsResult * Exec) :=
  foldM (recover_session request) (mkRecoverResult 0 0 0, e)
    (listExpiredActiveWorkerSessions e (rv_Cutoff request)).

Definition RecoverExpiredWorkerSessions (request : RecoverExpiredWorkerSessionsRequest) (s : Store) :
    result RecoverExpiredWorkerSessionsResult * Store :=
  transact s (validate_recover request) (on_exec_tx (tx_recover request)).

(** One assignment of a stopping session. *)
Definition stop_assignment (request : StopWorkerSessionAndRecoverWorkRequest)
    (acc : StopWorkerSessionAndRecoverWorkResult * Exec) (assignment : runningWorkRecord) :
    result (StopWorkerSessionAndRecoverWorkResult * Exec) :=
  let '(res, e) := acc in
  e1 ← abandonRunningWork assignment (sp_StoppedAt request) "worker_stopped" e;
  '(requeued, e2) ← requeueAbandonedWork (rw_workItemID assignment) (sp_StoppedAt request) e1;
  Ok (mkStopResult (spr_Changed res) (spr_AbandonedAttempts res + 1)
        (spr_RequeuedWorkItems res + if (requeued : bool) then 1 else 0), e2).

Definition tx_stop (request : StopWorkerSessionAndRecoverWorkRequest) (e : Exec) :
    result (StopWorkerSessionAndRecoverWorkResult * Exec) :=
  match getWorkerSession e (sp_WorkerID request) (sp_SessionID request) with
  | None => Ok (mkStopResult false 0 0, e)
  | Some session =>
      if decide (ws_Status session ≠ WorkerSessionStatusActive) then Ok (mkStopResult false 0 0, e) else
      let '(changed, e1) := markWorkerSessionStopped request e in
      if negb changed then Ok (mkStopResult false 0 0, e1) else
      foldM (stop_assignment request) (mkStopResult true 0 0, e1)
        (listRunningWorkForSession e1 (sp_SessionID request))
  end.

Definition StopWorkerSessionAndRecoverWork (request : StopWorkerSessionAndRecoverWorkRequest)
    (s : Store) : result StopWorkerSessionAndRecoverWorkResult * Store :=
  transact s (validate_stop request) (on_exec_tx (tx_stop request)).

Definition tx_end (request : EndWorkerSessionRequest) (e : Exec) : result (bool * Exec) :=
  match getWorkerSession e (en_WorkerID request) (en_SessionID request) with
  | None => Ok (false, e)
  | Some session =>
      if decide (ws_Status session ≠ WorkerSessionStatusActive) then Ok (false, e) else
      fail_if (negb (count_running_for_session e (en_SessionID request) =? 0))
        (Errorf ("worker session " +:+ en_SessionID request +:+ " has running assignments"));;
      Ok (end_session_where (λ _, true) (en_SessionID request) (en_WorkerID request)
            (en_Status request) (en_EndedAt request) (en_Reason request) e)
  end.

Definition EndWorkerSession (request : EndWorkerSessionRequest) (s : Store) : result bool * Store :=
  transact s (validate_end request) (on_exec_tx (tx_end request)).

(** ** Work items and the queue *)

Definition insert_or_match_work_item (db : DB) (item : WorkItemRecord) : result DB :=
  existing ← getWorkItem (exec db) (wi_ID item);
  match existing with
  | Some w =>
      fail_if (bool_decide (w ≠ item))
        (Errorf ("work item " +:+ wi_ID item +:+ " already exists with different values"));;
      Ok db
  | None => wrap_err ("insert work item " +:+ wi_ID item) (insert_work_item eng item db)
  end.
Definition insertWorkItems (items : list WorkItemRecord) (db : DB) : result DB :=
  foldM insert_or_match_work_item db items.

Definition enqueue_or_match (e : Exec) (item : QueuedWorkRecord) : result Exec :=
  let id := wi_ID (qw_WorkItem item) in
  existing ← getQueuedWork e id;
  match existing with
  | Some queuedAt =>
      fail_if (bool_decide (queuedAt ≠ qw_QueuedAt item))
        (Errorf ("queued work item " +:+ id +:+ " already exists with different queued_at"));;
      Ok e
  | None => wrap_err ("enqueue work item " +:+ id) (insert_queued_work eng id (qw_QueuedAt item) e)
  end.
Definition enqueueWorkItems (items : list QueuedWorkRecord) (e : Exec) : result Exec :=
  foldM enqueue_or_match e items.

Definition insert_or_match_constraint (e : Exec) (c : WorkItemResourceConstraintRecord) : result Exec :=
  existing ← getWorkItemResourceConstraint e (rc_WorkItemID c) (rc_ConstraintIndex c);
  match existing with
  | Some c' =>
      fail_if (bool_decide (c' ≠ c))
        (Errorf ("work item resource constraint " +:+ rc_WorkItemID c +:+ "/" +:+
                 pretty (rc_ConstraintIndex c) +:+ " already exists with different values"));;
      Ok e
  | None =>
      wrap_err ("insert work item resource constraint " +:+ rc_WorkItemID c +:+ "/" +:+
                pretty (rc_ConstraintIndex c)) (insert_resource_constraint eng c e)
  end.
Definition insertWorkItemResourceConstraints (cs : list WorkItemResourceConstraintRecord) (e : Exec) :
    result Exec :=
  foldM insert_or_match_constraint e cs.

Definition lift_exec (f : Exec → result Exec) (db : DB) : result DB :=
  e' ← f (exec db); Ok (mkDB (catalog db) e').

Definition InsertWorkItems (items : list WorkItemRecord) (s : Store) : result unit * Store :=
  transact s (validateWorkItems items) (λ db, db' ← insertWorkItems items db; Ok (tt, db')).

Definition tx_queue (items : list WorkItemRecord) (cs : list WorkItemResourceConstraintRecord)
    (queued : list QueuedWorkRecord) (db : DB) : result DB :=
  db1 ← insertWorkItems items db;
  db2 ← lift_exec (insertWorkItemResourceConstraints cs) db1;
  lift_exec (enqueueWorkItems queued) db2.

Definition QueueWorkItems (request : QueueWorkItemsRequest) (s : Store) : result unit * Store :=
  transact s (validate_queue_request request)
    (λ db, db' ← tx_queue (qr_WorkItems request) (qr_ResourceConstraints request)
                  (qr_QueuedWork request) db; Ok (tt, db')).

Definition EnqueueWorkItems (items : list QueuedWorkRecord) (s : Store) : result unit * Store :=
  transact s (validateQueuedWorkItems items)
    (λ db, db' ← lift_exec (enqueueWorkItems items) db; Ok (tt, db')).

(** ** Leasing work *)

Definition validateWorkerSessionCanClaim (request : ClaimWorkRequest) (e : Exec) : result unit :=
  match getWorkerSession e (cr_WorkerID request) (cr_WorkerSessionID request) with
  | None => Err ErrWorkerSessionNotActive
  | Some session =>
      fail_if (bool_decide (ws_Status session ≠ WorkerSessionStatusActive)) ErrWorkerSessionNotActive;;
      fail_if (negb (is_empty (cr_LiveSessionCutoff request)) &&
               str_ltb (ws_LastHeartbeatAt session) (cr_LiveSessionCutoff request))
        ErrWorkerSessionNotActive;;
      fail_if (negb (count_running_for_session e (cr_WorkerSessionID request) =? 0))
        ErrWorkerSessionBusy
  end.

Definition claimQueuedWork (request : ClaimWorkRequest) (queued : QueuedWorkRecord) (e : Exec) :
    result (option ClaimedWorkRecord * Exec) :=
  let id := wi_ID (qw_WorkItem queued) in
  e1 ← wrap_err ("insert work item attempt " +:+ cr_AttemptID request)
    (insert_work_item_attempt eng (cr_AttemptID request)
       (mkAttemptRow id (nullString (cr_WorkerID request)) (nullString (cr_WorkerSessionID request))
          (cr_ExecutorType request) (cr_StartedAt request)) e);
  e2 ← wrap_err ("insert running work " +:+ cr_AttemptID request)
    (insert_running_work eng (cr_AttemptID request)
       (mkRunningRow id (nullString (cr_WorkerID request)) (nullString (cr_WorkerSessionID request))
          (qw_QueuedAt queued) (cr_StartedAt request)) e1);
  fail_if (negb (has_key (queued_work e2) id))
    (Errorf ("delete queued work " +:+ id +:+ ": no row deleted"));;
  Ok (Some (mkClaimed (cr_AttemptID request) (qw_WorkItem queued) (cr_WorkerID request)
              (cr_WorkerSessionID request) (cr_ExecutorType request) (qw_QueuedAt queued)
              (cr_StartedAt request)),
      set_queued_work (delete id (queued_work e2)) e2).

(** The loop over the queue: the first item its constraints admit is leased. *)
Fixpoint claim_first (request : ClaimWorkRequest) (queue : list QueuedWorkRecord) (e : Exec) :
    result (option ClaimedWorkRecord * Exec) :=
  match queue with
  | [] => Ok (None, e)
  | queued :: queue' =>
      allowed ← wrap_err ("claim queued work " +:+ wi_ID (qw_WorkItem queued))
        (queuedResourceConstraintsAllow e (wi_ID (qw_WorkItem queued)));
      if negb allowed then claim_first request queue' e else claimQueuedWork request queued e
  end.

Definition tx_claim (request : ClaimWorkRequest) (e : Exec) :
    result (option ClaimedWorkRecord * Exec) :=
  (if decide (cr_ExecutorType request = ExecutorTypeWorker)
   then validateWorkerSessionCanClaim request e else Ok tt);;
  claim_first request (listQueuedWorkForClaim e) e.

Definition ClaimNextWork (request : ClaimWorkRequest) (s : Store) :
    result (option ClaimedWorkRecord) * Store :=
  transact s (validate_claim request) (on_exec_tx (tx_claim request)).

(** ** Reporting outcomes *)

Definition validateRunningAssignmentOwner (running : runningWorkRecord)
    (workerID sessionID cutoff : string) (e : Exec) : result unit :=
  if is_empty workerID && is_empty sessionID then Ok tt else
  fail_if (is_empty workerID || is_empty sessionID) ErrAssignmentNoLongerOwned;;
  fail_if (bool_decide (rw_workerID running ≠ workerID ∨ rw_workerSessionID running ≠ sessionID))
    ErrAssignmentNoLongerOwned;;
  match getWorkerSession e workerID sessionID with
  | None => Err ErrAssignmentNoLongerOwned
  | Some session =>
      fail_if (bool_decide (ws_Status session ≠ WorkerSessionStatusActive)) ErrAssignmentNoLongerOwned;;
      fail_if (negb (is_empty cutoff) && str_ltb (ws_LastHeartbeatAt session) cutoff)
        ErrAssignmentNoLongerOwned
  end.

Definition completedWorkMatchesRequest (completed : CompletedWorkRecord)
    (request : CompleteAttemptRequest) : bool :=
  bool_decide (cw_AttemptID completed = ca_AttemptID request ∧
    cw_SkippedParentID completed = ca_SkippedParentID request ∧
    cw_OutputJSON completed = ca_OutputJSON request ∧
    cw_OutputJSONSHA256 completed = ca_OutputJSONSHA256 request ∧
    cw_PreStateSHA256 completed = ca_PreStateSHA256 request ∧
    cw_PostStateSHA256 completed = ca_PostStateSHA256 request).

Definition failedWorkMatchesRequest (failed : FailedWorkRecord) (request : FailAttemptRequest) : bool :=
  bool_decide (fw_AttemptID failed = fa_AttemptID request ∧
    fw_Error failed = fa_Error request ∧ fw_FailedAt failed = fa_FailedAt request).

Definition tx_complete (request : CompleteAttemptRequest) (e : Exec) :
    result (option CompletedWorkRecord * Exec) :=
  let id := ca_AttemptID request in
  match getRunningWork e id with
  | None =>
      match getCompletedWork e id with
      | Some existing =>
          fail_if (negb (completedWorkMatchesRequest existing request))
            (Errorf ("complete attempt " +:+ id +:+ " conflicts with existing completed work"));;
          Ok (Some existing, e)
      | None =>
          match getFailedWork e id with
          | Some _ => Err (Errorf ("complete attempt " +:+ id +:+ " conflicts with existing failed work"))
          | None =>
              fail_if (negb (is_empty (ca_WorkerID request)) && hasAbandonedWork e id)
                ErrAssignmentNoLongerOwned;;
              Ok (None, e)
          end
      end
  | Some running =>
      validateRunningAssignmentOwner running (ca_WorkerID request) (ca_WorkerSessionID request)
        (ca_LiveSessionCutoff request) e;;
      let completed := mkCompleted id (rw_workItemID running) (ca_SkippedParentID request)
        (ca_OutputJSON request) (ca_OutputJSONSHA256 request) (ca_PreStateSHA256 request)
        (ca_PostStateSHA256 request) (rw_queuedAt running) (rw_startedAt running)
        (ca_CompletedAt request) in
      e1 ← wrap_err ("insert completed work " +:+ id) (insert_completed_work eng completed e);
      e2 ← deleteRunningWork id e1;
      Ok (Some completed, e2)
  end.

Definition CompleteAttempt (request : CompleteAttemptRequest) (s : Store) :
    result (option CompletedWorkRecord) * Store :=
  transact s (validate_complete request) (on_exec_tx (tx_complete request)).

Definition tx_fail (request : FailAttemptRequest) (e : Exec) :
    result (option FailedWorkRecord * Exec) :=
  let id := fa_AttemptID request in
  match getRunningWork e id with
  | None =>
      match getFailedWork e id with
      | Some existing =>
          fail_if (negb (failedWorkMatchesRequest existing request))
            (Errorf ("fail attempt " +:+ id +:+ " conflicts with existing failed work"));;
          Ok (Some existing, e)
      | None =>
          match getCompletedWork e id with
          | Some _ => Err (Errorf ("fail attempt " +:+ id +:+ " conflicts with existing completed work"))
          | None =>
              fail_if (negb (is_empty (fa_WorkerID request)) && hasAbandonedWork e id)
                ErrAssignmentNoLongerOwned;;
              Ok (None, e)
          end
      end
  | Some running =>
      validateRunningAssignmentOwner running (fa_WorkerID request) (fa_WorkerSessionID request)
        (fa_LiveSessionCutoff request) e;;
      let failed := mkFailed id (rw_workItemID running) (fa_Error request)
        (rw_queuedAt running) (rw_startedAt running) (fa_FailedAt request) in
      e1 ← wrap_err ("insert failed work " +:+ id) (insert_failed_work eng failed e);
      e2 ← deleteRunningWork id e1;
      Ok (Some failed, e2)
  end.

Definition FailAttempt (request : FailAttemptRequest) (s : Store) :
    result (option FailedWorkRecord) * Store :=
  transact s (validate_fail request) (on_exec_tx (tx_fail request)).

(** ** Projects, workflows and runs *)

Definition getProject (c : Catalog) (id : string) : result (option ProjectRecord) :=
  required id "project id is required";; Ok (projects c !! id).
Definition getWorkflow (c : Catalog) (id : string) : result (option WorkflowRecord) :=
  required id "workflow id is required";; Ok (workflows c !! id).
Definition getWorkflowRun (c : Catalog) (id : string) : result (option WorkflowRunRecord) :=
  required id "run id is required";; Ok (workflow_instances c !! id).

(** [sameProjectRecord] and [sameWorkflowRecord] compare every field, the
    optional revision by value. *)
Definition sameProjectRecord (l r : ProjectRecord) : bool := bool_decide (l = r).
Definition sameWorkflowRecord (l r : WorkflowRecord) : bool := bool_decide (l = r).

Definition tx_upsert_project (project : ProjectRecord) (c : Catalog) : result (unit * Catalog) :=
  existing ← getProject c (pr_ID project);
  match existing with
  | Some p =>
      fail_if (negb (sameProjectRecord p project))
        (Errorf ("project " +:+ pr_ID project +:+ " already exists with different values"));;
      Ok (tt, c)
  | None => Ok (tt, set_projects (<[pr_ID project := project]> (projects c)) c)
  end.
Definition UpsertProject (project : ProjectRecord) (s : Store) : result unit * Store :=
  transact s (validate_project project) (on_catalog_tx (tx_upsert_project project)).

Definition tx_delete_project (id : string) (c : Catalog) : result (bool * Catalog) :=
  if negb (table_count (λ _ w, bool_decide (wf_ProjectID w = id)) (workflows c) =? 0)
  then Ok (false, c) else
  match projects c !! id with
  | None => Ok (false, c)
  | Some _ =>
      wrap_err ("delete project " +:+ id)
        (checked eng "projects" true true
           (negb (table_has (λ _ r, bool_decide (run_ProjectID r = id)) (workflow_instances c))));;
      Ok (true, set_projects (delete id (projects c)) c)
  end.
Definition DeleteProjectIfUnused (id : string) (s : Store) : result bool * Store :=
  transact s (required id "project id is required") (on_catalog_tx (tx_delete_project id)).

Definition tx_upsert_workflow (workflow : WorkflowRecord) (c : Catalog) : result (unit * Catalog) :=
  existing ← getWorkflow c (wf_ID workflow);
  match existing with
  | Some w =>
      fail_if (negb (sameWorkflowRecord w workflow))
        (Errorf ("workflow " +:+ wf_ID workflow +:+ " already exists with different values"));;
      Ok (tt, c)
  | None =>
      wrap_err ("insert workflow " +:+ wf_ID workflow)
        (checked eng "workflows" true true (has_key (projects c) (wf_ProjectID workflow)));;
      Ok (tt, set_workflows (<[wf_ID workflow := workflow]> (workflows c)) c)
  end.
Definition UpsertWorkflow (workflow : WorkflowRecord) (s : Store) : result unit * Store :=
  transact s (validate_workflow workflow) (on_catalog_tx (tx_upsert_workflow workflow)).

Definition tx_delete_workflow (id : string) (c : Catalog) : result (bool * Catalog) :=
  if negb (table_count (λ _ r, bool_decide (run_WorkflowID r = id)) (workflow_instances c) =? 0)
  then Ok (false, c) else
  match workflows c !! id with
  | None => Ok (false, c)
  | Some _ => Ok (true, set_workflows (delete id (workflows c)) c)
  end.
Definition DeleteWorkflowIfUnused (id : string) (s : Store) : result bool * Store :=
  transact s (required id "workflow id is required") (on_catalog_tx (tx_delete_workflow id)).

Definition tx_create_run (run : WorkflowRunRecord) (c : Catalog) : result (unit * Catalog) :=
  existing ← getWorkflowRun c (run_ID run);
  match existing with
  | Some r =>
      fail_if (bool_decide (r ≠ run))
        (Errorf ("workflow run " +:+ run_ID run +:+ " already exists with different values"));;
      Ok (tt, c)
  | None =>
      wrap_err ("insert workflow run " +:+ run_ID run)
        (checked eng "workflow_instances" (json_valid eng (run_SubmissionContextJSON run)) true
           (has_key (projects c) (run_ProjectID run) && has_key (workflows c) (run_WorkflowID run)));;
      Ok (tt, set_workflow_instances (<[run_ID run := run]> (workflow_instances c)) c)
  end.
Definition CreateWorkflowRun (run : WorkflowRunRecord) (s : Store) : result unit * Store :=
  transact s (validate_run run) (on_catalog_tx (tx_create_run run)).

Definition tx_update_submission_context (runID json : string) (c : Catalog) : result (unit * Catalog) :=
  match workflow_instances c !! runID with
  | None => Err (Errorf ("workflow run " +:+ runID +:+ " not found"))
  | Some r =>
      wrap_err ("update workflow run " +:+ runID +:+ " submission context")
        (checked eng "workflow_instances" (json_valid eng json) true true);;
      Ok (tt, set_workflow_instances
                (<[runID := mkRun (run_ID r) (run_ProjectID r) (run_WorkflowID r) json
                              (run_CreatedAt r)]> (workflow_instances c)) c)
  end.
Definition UpdateWorkflowRunSubmissionContext (runID json : string) (s : Store) : result unit * Store :=
  transact s
    (required runID "run id is required";;
     must_be_json json ("run " +:+ runID +:+ " submission context json must be valid"))
    (on_catalog_tx (tx_update_submission_context runID json)).

(** ** Stage plans and dependency metadata *)

Definition validate_stage_plan (runID : string) (stages : list WorkflowStageRecord) : result unit :=
  required runID "run id is required";;
  match stages with
  | [] => Err (Errorf "stage plan is required")
  | _ =>
      foldM (λ index stage,
          wrap_err ("stage " +:+ pretty index) (validate_stage stage);;
          fail_if (bool_decide (st_RunID stage ≠ runID))
            (Errorf ("stage " +:+ pretty index +:+ " run id " +:+ st_RunID stage +:+
                     " does not match " +:+ runID));;
          Ok (index + 1)) 0 stages;;
      Ok tt
  end.

Definition tx_insert_stage_plan (runID : string) (stages : list WorkflowStageRecord) (c : Catalog) :
    result (unit * Catalog) :=
  match listStagesForRun c runID with
  | [] =>
      c' ← foldM (λ c stage,
              wrap_err ("insert workflow stage " +:+ st_RunID stage +:+ "/" +:+
                        pretty (st_StageIndex stage)) (insert_workflow_stage eng stage c)) c stages;
      Ok (tt, c')
  | existing =>
      fail_if (bool_decide (existing ≠ stages))
        (Errorf ("stage plan for run " +:+ runID +:+ " already exists with different values"));;
      Ok (tt, c)
  end.
Definition InsertStagePlan (runID : string) (stages : list WorkflowStageRecord) (s : Store) :
    result unit * Store :=
  transact s (validate_stage_plan runID stages) (on_catalog_tx (tx_insert_stage_plan runID stages)).

(** Stage index, then step index. *)
Definition by_stage_step (x y : WorkflowDependencyStepRecord) : bool :=
  if decide (ds_StageIndex x = ds_StageIndex y) then ds_StepIndex x <=? ds_StepIndex y
  else ds_StageIndex x <=? ds_StageIndex y.

Definition listWorkflowDependencyStepsForRun (c : Catalog) (runID : string) :
    list WorkflowDependencyStepRecord :=
  order_by by_stage_step
    (snd <$> table_rows (λ _ s, bool_decide (ds_RunID s = runID)) (workflow_dependency_steps c)).

Definition insert_dependency_step (c : Catalog) (s : WorkflowDependencyStepRecord) : result Catalog :=
  wrap_err ("insert workflow dependency step " +:+ ds_RunID s +:+ "/" +:+ pretty (ds_StageIndex s)
            +:+ "/" +:+ pretty (ds_StepIndex s))
    (checked eng "workflow_dependency_steps" true
       (negb (has_key (workflow_dependency_steps c) (ds_RunID s, ds_StepIndex s))
        && negb (table_has (λ _ s', bool_decide (ds_RunID s' = ds_RunID s ∧
             ds_StageIndex s' = ds_StageIndex s ∧ ds_StepID s' = ds_StepID s))
             (workflow_dependency_steps c)))
       (has_key (workflow_instances c) (ds_RunID s)));;
  Ok (set_workflow_dependency_steps
        (<[(ds_RunID s, ds_StepIndex s) := s]> (workflow_dependency_steps c)) c).

(** The steps are sorted before they are compared and inserted; two steps with
    the same stage and step index, whose order [sort.Slice] leaves open, keep
    their order here. *)
Definition tx_insert_dependency_steps (input : list WorkflowDependencyStepRecord) (c : Catalog) :
    result (unit * Catalog) :=
  let steps := order_by by_stage_step input in
  match steps with
  | [] => Ok (tt, c)
  | first :: _ =>
      match listWorkflowDependencyStepsForRun c (ds_RunID first) with
      | [] => c' ← foldM insert_dependency_step c steps; Ok (tt, c')
      | existing =>
          fail_if (bool_decide (existing ≠ steps))
            (Errorf ("dependency steps for run " +:+ ds_RunID first +:+
                     " already exists with different values"));;
          Ok (tt, c)
      end
  end.
Definition InsertWorkflowDependencySteps (steps : list WorkflowDependencyStepRecord) (s : Store) :
    result unit * Store :=
  transact s (validateWorkflowDependencySteps steps) (on_catalog_tx (tx_insert_dependency_steps steps)).

Definition insert_dependency_membership (c : Catalog) (item : WorkflowDependencyWorkItemRecord) :
    result Catalog :=
  required (di_RunID item) "run id is required";;
  required (di_WorkItemID item) "work item id is required";;
  match workflow_dependency_work_items c !! (di_RunID item, di_WorkItemID item) with
  | Some existing =>
      fail_if (bool_decide (existing ≠ item))
        (Errorf ("dependency work item membership " +:+ di_WorkItemID item +:+
                 " already exists with different values"));;
      Ok c
  | None =>
      wrap_err ("insert dependency work item membership " +:+ di_WorkItemID item +:+ " for step "
                +:+ di_RunID item +:+ "/" +:+ pretty (di_StepIndex item))
        (checked eng "workflow_dependency_work_items" true
           (negb (table_has (λ _ i, bool_decide (di_RunID i = di_RunID item ∧
              di_StepIndex i = di_StepIndex item ∧ di_WorkItemIndex i = di_WorkItemIndex item))
              (workflow_dependency_work_items c)))
           (has_key (workflow_dependency_steps c) (di_RunID item, di_StepIndex item)));;
      Ok (set_workflow_dependency_work_items
            (<[(di_RunID item, di_WorkItemID item) := item]> (workflow_dependency_work_items c)) c)
  end.
Definition InsertWorkflowDependencyWorkItemMembership (items : list WorkflowDependencyWorkItemRecord)
    (s : Store) : result unit * Store :=
  transact s (validateWorkflowDependencyWorkItemRecords items)
    (on_catalog_tx (λ c, c' ← foldM insert_dependency_membership c items; Ok (tt, c'))).

(** INSERT .. ON CONFLICT (run_id, step_index) DO UPDATE: a later fact replaces
    everything but the creation time. *)
Definition tx_upsert_output_fact (fact : WorkflowStepOutputFactRecord) (c : Catalog) :
    result (unit * Catalog) :=
  let key := (of_RunID fact, of_StepIndex fact) in
  wrap_err ("upsert workflow step output fact " +:+ of_RunID fact +:+ "/" +:+ pretty (of_StepIndex fact))
    (checked eng "workflow_step_output_facts"
       (null_or_json eng (nullString (of_OutputJSON fact)) &&
        validWorkflowStepOutputKind (of_OutputKind fact)) true
       (has_key (workflow_dependency_steps c) key));;
  let created := match workflow_step_output_facts c !! key with
                 | Some r => ofr_created_at r
                 | None => of_CreatedAt fact
                 end in
  Ok (tt, set_workflow_step_output_facts
            (<[key := mkFactRow (nullString (of_OutputJSON fact)) (of_OutputJSONSHA256 fact)
                 (of_OutputJSONBytes fact) (of_OutputJSONPruned fact) (of_OutputKind fact)
                 created (of_UpdatedAt fact)]> (workflow_step_output_facts c)) c).
Definition UpsertWorkflowStepOutputFact (fact : WorkflowStepOutputFactRecord) (s : Store) :
    result unit * Store :=
  transact s (validate_output_fact fact) (on_catalog_tx (tx_upsert_output_fact fact)).

(** ** Completing a stage *)

Definition stageMatchesCompletionRequest (stage : WorkflowStageRecord) (request : CompleteStageRequest) : bool :=
  bool_decide (st_RunID stage = cs_RunID request ∧ st_StageIndex stage = cs_StageIndex request ∧
    st_CompletedAt stage = cs_CompletedAt request ∧ st_OutputJSON stage = cs_OutputJSON request ∧
    st_OutputJSONSHA256 stage = cs_OutputJSONSHA256 request).

(** UPDATE workflow_stages SET state = 'completed', completed_at, output_json, output_json_sha256 *)
Definition mark_stage_completed (request : CompleteStageRequest) (c : Catalog) : result Catalog :=
  checked eng "workflow_stages" (json_valid eng (cs_OutputJSON request)) true true;;
  Ok (set_workflow_stages
        (alter (λ r, mkStageRow (str_step_id r) (str_stage_source_reference r) "completed"
                  (str_created_at r) (str_ready_at r) (str_started_at r)
                  (Some (cs_CompletedAt request)) (str_failed_at r)
                  (Some (cs_OutputJSON request)) (Some (cs_OutputJSONSHA256 request)))
           (cs_RunID request, cs_StageIndex request) (workflow_stages c)) c).

Definition completed_stage (request : CompleteStageRequest) (stage : WorkflowStageRecord) :
    WorkflowStageRecord :=
  mkStage (st_RunID stage) (st_StageIndex stage) (st_StepID stage) (st_StageSourceReference stage)
    "completed" (st_CreatedAt stage) (st_ReadyAt stage) (st_StartedAt stage)
    (cs_CompletedAt request) (st_FailedAt stage) (cs_OutputJSON request)
    (cs_OutputJSONSHA256 request).

Definition stage_name (request : CompleteStageRequest) : string :=
  "stage " +:+ cs_RunID request +:+ "/" +:+ pretty (cs_StageIndex request).

Definition tx_complete_stage (request : CompleteStageRequest) (db : DB) :
    result (CompleteStageResult * DB) :=
  found ← getWorkflowStage (catalog db) (cs_RunID request) (cs_StageIndex request);
  match found with
  | None => Ok (mkStageResult None false false, db)
  | Some stage =>
      if decide (st_State stage = "completed") then
        fail_if (negb (stageMatchesCompletionRequest stage request))
          (Errorf (stage_name request +:+ " already completed with different values"));;
        Ok (mkStageResult (Some stage) true true, db)
      else
      fail_if (bool_decide (st_State stage ∈ ["failed"; "skipped"; "blocked"]))
        (Errorf (stage_name request +:+ " is " +:+ st_State stage +:+ " and cannot be completed"));;
      if negb (stageWorkComplete (exec db) (cs_RunID request) (cs_StageIndex request))
      then Ok (mkStageResult (Some stage) true false, db)
      else
      c' ← wrap_err ("complete " +:+ stage_name request) (mark_stage_completed request (catalog db));
      db' ← tx_queue (cs_ReadyWorkItems request) (cs_ReadyResourceConstraints request)
              (cs_ReadyQueuedWork request) (mkDB c' (exec db));
      Ok (mkStageResult (Some (completed_stage request stage)) true true, db')
  end.

Definition CompleteStageIfReady (request : CompleteStageRequest) (s : Store) :
    result CompleteStageResult * Store :=
  transact s (validate_complete_stage request) (tx_complete_stage request).

End operations.
