(* ===== verification/StoreInv.v ===== *)
(** * The workflow store: reachable states and their invariant

    [op] lists the state-changing operations of the store and [run_op] runs one;
    [reachable] is the set of databases any sequence of them can produce, on
    connections with or without foreign keys.  [exec_inv] is what holds of all of
    them: every attempt is accounted for by exactly one kind of outcome, a work
    item and a worker session have at most one running attempt, and running work
    belongs to an active session. *)

From S2P Require Import Prelude StoreData StoreSQL StoreOps.
Local Open Scope Z_scope.

Inductive op :=
  | OpRegister (r : RegisterWorkerSessionRequest)
  | OpHeartbeat (r : HeartbeatWorkerSessionRequest)
  | OpEnd (r : EndWorkerSessionRequest)
  | OpStop (r : StopWorkerSessionAndRecoverWorkRequest)
  | OpRecover (r : RecoverExpiredWorkerSessionsRequest)
  | OpInsertWorkItems (items : list WorkItemRecord)
  | OpQueueWorkItems (r : QueueWorkItemsRequest)
  | OpEnqueueWorkItems (items : list QueuedWorkRecord)
  | OpClaim (r : ClaimWorkRequest)
  | OpComplete (r : CompleteAttemptRequest)
  | OpFail (r : FailAttemptRequest)
  | OpCompleteStage (r : CompleteStageRequest)
  | OpUpsertProject (p : ProjectRecord)
  | OpDeleteProject (id : string)
  | OpUpsertWorkflow (w : WorkflowRecord)
  | OpDeleteWorkflow (id : string)
  | OpCreateRun (r : WorkflowRunRecord)
  | OpUpdateContext (id json : string)
  | OpInsertStagePlan (id : string) (stages : list WorkflowStageRecord)
  | OpInsertDependencySteps (steps : list WorkflowDependencyStepRecord)
  | OpInsertMembership (items : list WorkflowDependencyWorkItemRecord)
  | OpUpsertFact (f : WorkflowStepOutputFactRecord).

Definition run_store_op (eng : Engine) (o : op) (s : Store) : Store :=
  match o with
  | OpRegister r => (RegisterWorkerSession eng r s).2
  | OpHeartbeat r => (HeartbeatWorkerSession r s).2
  | OpEnd r => (EndWorkerSession r s).2
  | OpStop r => (StopWorkerSessionAndRecoverWork eng r s).2
  | OpRecover r => (RecoverExpiredWorkerSessions eng r s).2
  | OpInsertWorkItems items => (InsertWorkItems eng items s).2
  | OpQueueWorkItems r => (QueueWorkItems eng r s).2
  | OpEnqueueWorkItems items => (EnqueueWorkItems eng items s).2
  | OpClaim r => (ClaimNextWork eng r s).2
  | OpComplete r => (CompleteAttempt eng r s).2
  | OpFail r => (FailAttempt eng r s).2
  | OpCompleteStage r => (CompleteStageIfReady eng r s).2
  | OpUpsertProject p => (UpsertProject p s).2
  | OpDeleteProject id => (DeleteProjectIfUnused eng id s).2
  | OpUpsertWorkflow w => (UpsertWorkflow eng w s).2
  | OpDeleteWorkflow id => (DeleteWorkflowIfUnused id s).2
  | OpCreateRun r => (CreateWorkflowRun eng r s).2
  | OpUpdateContext id json => (UpdateWorkflowRunSubmissionContext eng id json s).2
  | OpInsertStagePlan id stages => (InsertStagePlan eng id stages s).2
  | OpInsertDependencySteps steps => (InsertWorkflowDependencySteps eng steps s).2
  | OpInsertMembership items => (InsertWorkflowDependencyWorkItemMembership eng items s).2
  | OpUpsertFact f => (UpsertWorkflowStepOutputFact eng f s).2
  end.

Definition run_op (eng : Engine) (o : op) (db : DB) : DB :=
  default db (run_store_op eng o (Some db)).

Inductive reachable : DB → Prop :=
  | reachable_empty : reachable emptyDB
  | reachable_op db eng o : reachable db → reachable (run_op eng o db).

(** Run a list of operations, for witnesses. *)
Definition run_ops (eng : Engine) (os : list op) (db : DB) : DB :=
  foldl (λ db o, run_op eng o db) db os.

Lemma reachable_run_ops eng os db : reachable db → reachable (run_ops eng os db).
Proof.
  revert db. induction os as [|o os IH]; simpl; intros db Hdb; [done|].
  apply IH. by apply reachable_op.
Qed.

(** ** The invariant *)

(** Everything but the activity of owners, which lapses inside a recovery. *)
Record exec_base (e : Exec) : Prop := {
  inv_item_key k w : work_items e !! k = Some w → wi_ID w = k;
  inv_session s row :
    worker_sessions e !! s = Some row →
    session_check row = true ∧ is_Some (workers e !! sr_worker_id row);
  inv_attempt a t :
    work_item_attempts e !! a = Some t →
    attempt_check t = true ∧ is_Some (work_items e !! at_work_item_id t);
  inv_running_attempt a r :
    running_work e !! a = Some r →
    ∃ t, work_item_attempts e !! a = Some t ∧ at_work_item_id t = rr_work_item_id r ∧
         at_worker_id t = rr_worker_id r ∧ at_worker_session_id t = rr_worker_session_id r;
  inv_one_per_item a1 a2 r1 r2 :
    running_work e !! a1 = Some r1 → running_work e !! a2 = Some r2 →
    rr_work_item_id r1 = rr_work_item_id r2 → a1 = a2;
  inv_one_per_session a1 a2 r1 r2 s :
    running_work e !! a1 = Some r1 → running_work e !! a2 = Some r2 →
    rr_worker_session_id r1 = Some s → rr_worker_session_id r2 = Some s → a1 = a2;
  inv_running_session a r s :
    running_work e !! a = Some r → rr_worker_session_id r = Some s →
    ∃ row, worker_sessions e !! s = Some row ∧ rr_worker_id r = Some (sr_worker_id row);
  inv_completed a c :
    completed_work e !! a = Some c →
    cw_AttemptID c = a ∧ ∃ t, work_item_attempts e !! a = Some t ∧ at_work_item_id t = cw_WorkItemID c;
  inv_failed a f :
    failed_work e !! a = Some f →
    fw_AttemptID f = a ∧ ∃ t, work_item_attempts e !! a = Some t ∧ at_work_item_id t = fw_WorkItemID f;
  inv_abandoned a b :
    abandoned_work e !! a = Some b →
    ab_AttemptID b = a ∧ ∃ t, work_item_attempts e !! a = Some t ∧ at_work_item_id t = ab_WorkItemID b;
  inv_running_open a r :
    running_work e !! a = Some r →
    completed_work e !! a = None ∧ failed_work e !! a = None ∧ abandoned_work e !! a = None;
  inv_completed_only a c :
    completed_work e !! a = Some c → failed_work e !! a = None ∧ abandoned_work e !! a = None;
  inv_accounted a t :
    work_item_attempts e !! a = Some t →
    is_Some (running_work e !! a) ∨ is_Some (completed_work e !! a) ∨
    is_Some (failed_work e !! a) ∨ is_Some (abandoned_work e !! a)
}.

Definition owners_active (e : Exec) : Prop :=
  ∀ a r s, running_work e !! a = Some r → rr_worker_session_id r = Some s →
    ∃ row, worker_sessions e !! s = Some row ∧ sr_status row = WorkerSessionStatusActive.

Definition exec_inv (e : Exec) : Prop := exec_base e ∧ owners_active e.

(** The tables the invariant speaks of. *)
Definition same_core (e e' : Exec) : Prop :=
  work_items e' = work_items e ∧ workers e' = workers e ∧
  worker_sessions e' = worker_sessions e ∧ work_item_attempts e' = work_item_attempts e ∧
  running_work e' = running_work e ∧ abandoned_work e' = abandoned_work e ∧
  completed_work e' = completed_work e ∧ failed_work e' = failed_work e.

#[export] Instance same_core_preorder : PreOrder same_core.
Proof.
  split; [by intros e|]. unfold same_core. intros e1 e2 e3 H1 H2.
  destruct_and!. repeat split; congruence.
Qed.

Lemma same_core_base e e' : same_core e e' → exec_base e → exec_base e'.
Proof.
  intros (H1 & H2 & H3 & H4 & H5 & H6 & H7 & H8) Hb.
  constructor; rewrite ?H1, ?H2, ?H3, ?H4, ?H5, ?H6, ?H7, ?H8; apply Hb.
Qed.

Lemma same_core_inv e e' : same_core e e' → exec_inv e → exec_inv e'.
Proof.
  intros Hs [Hb Ho]. split; [by eapply same_core_base|].
  destruct Hs as (_ & _ & H3 & _ & H5 & _). unfold owners_active. by rewrite H3, H5.
Qed.

(** Case analysis on lookups in updated tables. *)
Ltac map_cases :=
  repeat match goal with
  | H : <[_:=_]> _ !! _ = Some _ |- _ => apply lookup_insert_Some in H as [[? ?]|[? ?]]
  | H : delete _ _ !! _ = Some _ |- _ => apply lookup_delete_Some in H as [? ?]
  | H : is_Some _ |- _ => destruct H
  end; simplify_eq/=.

Lemma empty_inv : exec_inv (exec emptyDB).
Proof.
  split; [constructor|]; repeat intro; simpl in *;
    repeat match goal with H : context [(∅ : gmap _ _) !! _] |- _ => rewrite lookup_empty in H end;
    done.
Qed.

(** ** Statements preserve the invariant *)

Lemma has_key_true {K V} `{Countable K} (m : gmap K V) k : has_key m k = true ↔ is_Some (m !! k).
Proof. apply bool_decide_eq_true. Qed.
Lemma has_key_false {K V} `{Countable K} (m : gmap K V) k : has_key m k = false ↔ m !! k = None.
Proof. unfold has_key. by rewrite bool_decide_eq_false, eq_None_not_Some. Qed.

(** Read off what a passed [checked] guarantees. *)
Ltac sql_inv :=
  repeat match goal with
  | H : checked _ _ _ _ _ = Ok _ |- _ => apply checked_Ok in H as (? & ? & ?)
  | H : _ && _ = true |- _ => apply andb_true_iff in H as [? ?]
  | H : negb _ = true |- _ => apply negb_true_iff in H
  | H : negb _ = false |- _ => apply negb_false_iff in H
  | H : has_key _ _ = false |- _ => apply has_key_false in H
  | H : has_key _ _ = true |- _ => apply has_key_true in H
  end.

Section preservation.
Context (eng : Engine).

Lemma insert_work_item_inv item db db' :
  insert_work_item eng item db = Ok db' → exec_inv (exec db) → exec_inv (exec db').
Proof.
  unfold insert_work_item. intros H [Hb Ho]. result_inv. sql_inv.
  split; [|exact Ho]. destruct Hb. constructor; simpl; try done.
  - intros k w Hk. map_cases; eauto.
  - intros a t Ht. apply inv_attempt0 in Ht as [? ?]. split; [done|].
    by apply lookup_insert_is_Some'; right.
Qed.

Lemma insert_queued_work_core id q e e' :
  insert_queued_work eng id q e = Ok e' → same_core e e'.
Proof. unfold insert_queued_work. intros H. result_inv. done. Qed.

Lemma insert_resource_constraint_core c e e' :
  insert_resource_constraint eng c e = Ok e' → same_core e e'.
Proof. unfold insert_resource_constraint. intros H. result_inv. done. Qed.

Lemma insert_worker_if_absent_inv id r e :
  exec_inv e → exec_inv (insert_worker_if_absent id r e).
Proof.
  unfold insert_worker_if_absent. intros [Hb Ho]. destruct (workers e !! id) eqn:E; [done|].
  split; [|exact Ho]. destruct Hb. constructor; simpl; try done.
  intros s row Hs. apply inv_session0 in Hs as [? ?]. split; [done|].
  by apply lookup_insert_is_Some'; right.
Qed.

Lemma insert_worker_if_absent_has id r e : is_Some (workers (insert_worker_if_absent id r e) !! id).
Proof.
  unfold insert_worker_if_absent. destruct (workers e !! id) eqn:E; [by rewrite E|].
  simpl. by rewrite lookup_insert_eq.
Qed.

Lemma insert_worker_session_inv id r e e' :
  is_Some (workers e !! sr_worker_id r) →
  insert_worker_session eng id r e = Ok e' → exec_inv e → exec_inv e'.
Proof.
  unfold insert_worker_session. intros Hw H [Hb Ho]. result_inv. sql_inv.
  split.
  - destruct Hb. constructor; simpl; try done.
    + intros s row Hs. map_cases; eauto.
    + intros a r' s Ha Hs. destruct (inv_running_session0 _ _ _ Ha Hs) as (row & ? & ?).
      exists row. split; [|done]. rewrite lookup_insert_ne; [done|]. intros ->. congruence.
  - intros a r' s Ha Hs. destruct (Ho _ _ _ Ha Hs) as (row & ? & ?).
    exists row. split; [|done]. simpl. rewrite lookup_insert_ne; [done|]. intros ->. congruence.
Qed.

Lemma update_heartbeat_inv r e : exec_inv e → exec_inv (update_heartbeat r e).2.
Proof.
  unfold update_heartbeat. intros [Hb Ho].
  destruct (worker_sessions e !! hb_SessionID r) as [row|] eqn:E; [|done].
  case_decide as Hd; [|done]. destruct Hd as [Hw Hst]. split.
  - destruct Hb. constructor; simpl; try done.
    + intros s row' Hs. map_cases; [|by eauto]. by destruct (inv_session0 _ _ E).
    + intros a r' s Ha Hs. destruct (inv_running_session0 _ _ _ Ha Hs) as (row' & ? & ?).
      destruct (decide (s = hb_SessionID r)) as [->|]; simplify_map_eq; eauto.
  - intros a r' s Ha Hs. destruct (Ho _ _ _ Ha Hs) as (row' & ? & ?). simpl.
    destruct (decide (s = hb_SessionID r)) as [->|]; simplify_map_eq; eauto.
Qed.

(** Ending a session: the base invariant always survives, the activity of
    owners for every other session. *)
Lemma end_session_base extra sid wid status at_ reason e :
  status = WorkerSessionStatusStopped ∨ status = WorkerSessionStatusDead →
  exec_base e → exec_base (end_session_where extra sid wid status at_ reason e).2.
Proof.
  unfold end_session_where. intros Hst Hb.
  destruct (worker_sessions e !! sid) as [row|] eqn:E; [|done].
  destruct (bool_decide _ && _); [|done]. destruct Hb. constructor; simpl; try done.
  - intros s row' Hs. map_cases; [|by eauto]. destruct (inv_session0 _ _ E) as [_ ?].
    split; [|done]. unfold session_check. apply bool_decide_eq_true. simpl. right. by split.
  - intros a r' s Ha Hs. destruct (inv_running_session0 _ _ _ Ha Hs) as (row' & ? & ?).
    destruct (decide (s = sid)) as [->|]; simplify_map_eq; eauto.
Qed.

Lemma end_session_running extra sid wid status at_ reason e :
  running_work (end_session_where extra sid wid status at_ reason e).2 = running_work e.
Proof. unfold end_session_where. by repeat case_match. Qed.

Lemma end_session_other extra sid wid status at_ reason e s :
  s ≠ sid →
  worker_sessions (end_session_where extra sid wid status at_ reason e).2 !! s =
  worker_sessions e !! s.
Proof.
  intros Hs. unfold end_session_where. repeat case_match; simpl; try done.
  by rewrite lookup_insert_ne.
Qed.

Lemma end_session_unchanged extra sid wid status at_ reason e e' :
  end_session_where extra sid wid status at_ reason e = (false, e') → e' = e.
Proof. unfold end_session_where. repeat case_match; naive_solver. Qed.

(** Owners are active except possibly those of session [sid]. *)
Definition owners_active_but (sid : string) (e : Exec) : Prop :=
  ∀ a r s, running_work e !! a = Some r → rr_worker_session_id r = Some s → s ≠ sid →
    ∃ row, worker_sessions e !! s = Some row ∧ sr_status row = WorkerSessionStatusActive.

Lemma end_session_owners extra sid wid status at_ reason e :
  owners_active e → owners_active_but sid (end_session_where extra sid wid status at_ reason e).2.
Proof.
  intros Ho a r s. rewrite end_session_running. intros Ha Hs Hne.
  rewrite end_session_other by done. by eapply Ho.
Qed.

Lemma owners_active_but_none sid e :
  owners_active_but sid e →
  (∀ a r, running_work e !! a = Some r → rr_worker_session_id r ≠ Some sid) → owners_active e.
Proof.
  intros Hb Hn a r s Ha Hs. eapply Hb; [done..|]. intros ->. by eapply Hn.
Qed.

Lemma end_session_inv extra sid wid status at_ reason e changed e1 :
  end_session_where extra sid wid status at_ reason e = (changed, e1) →
  status = WorkerSessionStatusStopped ∨ status = WorkerSessionStatusDead →
  exec_inv e → exec_base e1 ∧ owners_active_but sid e1.
Proof.
  intros H Hst [Hb Ho]. replace e1 with (end_session_where extra sid wid status at_ reason e).2
    by by rewrite H.
  split; [by apply end_session_base|by apply end_session_owners].
Qed.

(** Fewer running rows and the same sessions keep the activity of owners. *)
Lemma owners_active_but_sub sid e e' :
  running_work e' ⊆ running_work e → worker_sessions e' = worker_sessions e →
  owners_active_but sid e → owners_active_but sid e'.
Proof.
  intros Hsub Hs Hb a r s Ha ??. rewrite Hs. eapply Hb; [|done..].
  by eapply lookup_weaken.
Qed.
End preservation.

(** ** Moving an attempt to its outcome *)

Section outcomes.
Context (eng : Engine).

(** The record read from [running_work] for an attempt. *)
Definition running_as (e : Exec) (asg : runningWorkRecord) : Prop :=
  ∃ r, running_work e !! rw_attemptID asg = Some r ∧ asg = scanRunning (rw_attemptID asg) r.

Lemma deleteRunningWork_Ok a e e' :
  deleteRunningWork a e = Ok e' →
  is_Some (running_work e !! a) ∧ e' = set_running_work (delete a (running_work e)) e.
Proof. unfold deleteRunningWork. intros H. case_match; result_inv. naive_solver. Qed.

Lemma abandonRunningWork_Ok asg at_ reason e e' :
  abandonRunningWork eng asg at_ reason e = Ok e' →
  abandoned_work e !! rw_attemptID asg = None ∧
  is_Some (running_work e !! rw_attemptID asg) ∧
  e' = set_running_work (delete (rw_attemptID asg) (running_work e))
         (set_abandoned_work
            (<[rw_attemptID asg :=
               mkAbandoned (rw_attemptID asg) (rw_workItemID asg) (rw_workerID asg)
                 (rw_workerSessionID asg) (rw_queuedAt asg) (rw_startedAt asg) at_ reason]>
               (abandoned_work e)) e).
Proof.
  unfold abandonRunningWork, insert_abandoned_work. intros H. result_inv. sql_inv.
  apply deleteRunningWork_Ok in H as [? ->]. done.
Qed.

Lemma abandon_base asg at_ reason e e' :
  running_as e asg → abandonRunningWork eng asg at_ reason e = Ok e' →
  exec_base e → exec_base e'.
Proof.
  intros (r & Hr & Hasg) H Hb.
  apply abandonRunningWork_Ok in H as (Hab & _ & ->).
  destruct (inv_running_attempt _ Hb _ _ Hr) as (t & Ht & Hti & _).
  destruct (inv_running_open _ Hb _ _ Hr) as (Hc & Hf & _).
  destruct Hb. constructor; simpl; try done.
  all: intros; map_cases; eauto.
  - split; [done|]. exists t. split; [done|]. by rewrite Hti, Hasg.
  - edestruct inv_running_open0 as (? & ? & ?); [done|]. by rewrite lookup_insert_ne.
  - edestruct inv_completed_only0 as (? & ?); [done|]. rewrite lookup_insert_ne; [done|].
    intros <-. congruence.
  - rename a into b. destruct (decide (b = rw_attemptID asg)) as [->|Hne].
    + rewrite lookup_insert_eq. eauto.
    + rewrite lookup_delete_ne, lookup_insert_ne by done. eauto.
Qed.

Lemma insert_failed_work_Ok f e e' :
  insert_failed_work eng f e = Ok e' →
  failed_work e !! fw_AttemptID f = None ∧
  e' = set_failed_work (<[fw_AttemptID f := f]> (failed_work e)) e.
Proof. unfold insert_failed_work. intros H. result_inv. by sql_inv. Qed.

(** Failing an attempt that is neither running nor completed. *)
Lemma insert_failed_base f e e' t :
  work_item_attempts e !! fw_AttemptID f = Some t → at_work_item_id t = fw_WorkItemID f →
  running_work e !! fw_AttemptID f = None → completed_work e !! fw_AttemptID f = None →
  insert_failed_work eng f e = Ok e' → exec_base e → exec_base e'.
Proof.
  intros Ht Hti Hr Hc H Hb. apply insert_failed_work_Ok in H as (Hf & ->).
  destruct Hb. constructor; simpl; try done; intros; map_cases; eauto.
  - edestruct inv_running_open0 as (? & ? & ?); [done|]. rewrite lookup_insert_ne; [done|].
    intros <-. congruence.
  - edestruct inv_completed_only0 as (? & ?); [done|]. rewrite lookup_insert_ne; [done|].
    intros <-. congruence.
  - edestruct inv_accounted0 as [?|[?|[[f' ?]|?]]]; [done|..]; eauto.
    right; right; left. apply lookup_insert_is_Some'. eauto.
Qed.

(** Failing a running attempt. *)
Lemma fail_running_base f r e e1 e2 :
  running_work e !! fw_AttemptID f = Some r → fw_WorkItemID f = rr_work_item_id r →
  insert_failed_work eng f e = Ok e1 → deleteRunningWork (fw_AttemptID f) e1 = Ok e2 →
  exec_base e → exec_base e2.
Proof.
  intros Hr Hi H1 H2 Hb. apply insert_failed_work_Ok in H1 as (Hf & ->).
  apply deleteRunningWork_Ok in H2 as (_ & ->). simpl in *.
  destruct (inv_running_attempt _ Hb _ _ Hr) as (t & Ht & Hti & _).
  destruct (inv_running_open _ Hb _ _ Hr) as (Hc & _ & _).
  destruct Hb. constructor; simpl; try done; intros; map_cases; eauto.
  - split; [done|]. exists t. split; [done|]. congruence.
  - edestruct inv_running_open0 as (? & ? & ?); [done|]. by rewrite lookup_insert_ne.
  - edestruct inv_completed_only0 as (? & ?); [done|]. rewrite lookup_insert_ne; [done|].
    intros <-. congruence.
  - destruct (decide (a = fw_AttemptID f)) as [->|Hne].
    + rewrite lookup_insert_eq. eauto.
    + rewrite lookup_delete_ne, lookup_insert_ne by done. eauto.
Qed.

Lemma insert_completed_work_Ok c e e' :
  insert_completed_work eng c e = Ok e' →
  completed_work e !! cw_AttemptID c = None ∧
  e' = set_completed_work (<[cw_AttemptID c := c]> (completed_work e)) e.
Proof. unfold insert_completed_work. intros H. result_inv. by sql_inv. Qed.

(** Completing a running attempt. *)
Lemma complete_running_base c r e e1 e2 :
  running_work e !! cw_AttemptID c = Some r → cw_WorkItemID c = rr_work_item_id r →
  insert_completed_work eng c e = Ok e1 → deleteRunningWork (cw_AttemptID c) e1 = Ok e2 →
  exec_base e → exec_base e2.
Proof.
  intros Hr Hi H1 H2 Hb. apply insert_completed_work_Ok in H1 as (Hf & ->).
  apply deleteRunningWork_Ok in H2 as (_ & ->). simpl in *.
  destruct (inv_running_attempt _ Hb _ _ Hr) as (t & Ht & Hti & _).
  destruct (inv_running_open _ Hb _ _ Hr) as (_ & Hc & Hab).
  destruct Hb. constructor; simpl; try done; intros; map_cases; eauto.
  - split; [done|]. exists t. split; [done|]. congruence.
  - edestruct inv_running_open0 as (? & ? & ?); [done|]. by rewrite lookup_insert_ne.
  - destruct (decide (a = cw_AttemptID c)) as [->|Hne].
    + rewrite lookup_insert_eq. eauto.
    + rewrite lookup_delete_ne, lookup_insert_ne by done. eauto.
Qed.

(** Removing running rows keeps the activity of owners. *)
Lemma owners_active_delete a e e' :
  running_work e' = delete a (running_work e) → worker_sessions e' = worker_sessions e →
  owners_active e → owners_active e'.
Proof.
  intros Hr Hs Ho a' r s. rewrite Hr, Hs. intros [_ Hl]%lookup_delete_Some Hse. exact (Ho _ _ _ Hl Hse).
Qed.

Lemma requeueAbandonedWork_core id q e b e' :
  requeueAbandonedWork eng id q e = Ok (b, e') → same_core e e'.
Proof.
  unfold requeueAbandonedWork. intros H. case_match; result_inv; [done|].
  by eapply insert_queued_work_core.
Qed.
End outcomes.

(** ** Operations preserve the invariant *)

(** What a recovery does to the tables while it drains the running work of a
    session: sessions stay, running rows only disappear. *)
Definition drains (e e' : Exec) : Prop :=
  worker_sessions e' = worker_sessions e ∧ running_work e' ⊆ running_work e.

#[export] Instance drains_preorder : PreOrder drains.
Proof.
  split; [by intros e|]. intros e1 e2 e3 [H1 H2] [H3 H4]. split; [congruence|by etrans].
Qed.

Section operations_inv.
Context (eng : Engine).

Lemma elem_of_listRunning e sid asg :
  asg ∈ listRunningWorkForSession e sid ↔
  ∃ a r, running_work e !! a = Some r ∧ rr_worker_session_id r = Some sid ∧ asg = scanRunning a r.
Proof.
  unfold listRunningWorkForSession. rewrite (elem_of_order_by (by_text2 _ _)), list_elem_of_fmap.
  split.
  - intros ([a r] & -> & Hin%elem_of_table_rows). unfold runs_session in Hin.
    destruct Hin as [? ?%bool_decide_eq_true]. eauto.
  - intros (a & r & ? & ? & ->). exists (a, r). split; [done|].
    apply elem_of_table_rows. split; [done|]. by apply bool_decide_eq_true.
Qed.

Lemma requeueExpired_base asg q reason e b e' bk :
  abandoned_work e !! rw_attemptID asg = Some bk → ab_WorkItemID bk = rw_workItemID asg →
  running_work e !! rw_attemptID asg = None →
  requeueExpiredSessionWork eng asg q reason e = Ok (b, e') →
  exec_base e → exec_base e' ∧ drains e e'.
Proof.
  unfold requeueExpiredSessionWork. intros Hab Hbi Hr H Hb. case_match.
  - apply requeueAbandonedWork_core in H. split; [by eapply same_core_base|].
    destruct H as (_ & _ & ? & _ & Hr' & _). split; [done|]. by rewrite Hr'.
  - apply bind_Ok in H as (e1 & Hins & [= <- <-]). rewrite wrap_err_Ok in Hins.
    destruct (inv_abandoned _ Hb _ _ Hab) as (_ & t & Ht & Hti).
    destruct (completed_work e !! rw_attemptID asg) eqn:Ec.
    { destruct (inv_completed_only _ Hb _ _ Ec). congruence. }
    split.
    + eapply insert_failed_base; [..|done|done]; simpl; [done| |done..]. congruence.
    + apply insert_failed_work_Ok in Hins as (_ & ->). done.
Qed.

(** One iteration of either draining loop: abandon, then requeue or fail. *)
Lemma abandon_effect asg at_ reason e e1 :
  running_as e asg → abandonRunningWork eng asg at_ reason e = Ok e1 →
  exec_base e →
  exec_base e1 ∧ drains e e1 ∧ running_work e1 = delete (rw_attemptID asg) (running_work e) ∧
  ∃ bk, abandoned_work e1 !! rw_attemptID asg = Some bk ∧ ab_WorkItemID bk = rw_workItemID asg.
Proof.
  intros Hra H Hb. pose proof (abandon_base _ _ _ _ _ _ Hra H Hb) as Hb1.
  apply abandonRunningWork_Ok in H as (_ & _ & ->). split_and!; [done|split; [done|]|done|].
  - simpl. apply delete_subseteq.
  - simpl. rewrite lookup_insert_eq. eauto.
Qed.

(** The state of a draining loop that still has [todo] assignments to handle. *)
Definition draining (e0 : Exec) (sid : string) (todo : list runningWorkRecord) (e : Exec) : Prop :=
  exec_base e ∧ drains e0 e ∧
  (∀ asg, asg ∈ todo → running_as e asg) ∧ NoDup (rw_attemptID <$> todo) ∧
  (∀ a r, running_work e !! a = Some r → rr_worker_session_id r = Some sid →
     a ∈ rw_attemptID <$> todo).

Lemma draining_step e0 sid asg todo at_ reason e e1 e2 :
  draining e0 sid (asg :: todo) e →
  abandonRunningWork eng asg at_ reason e = Ok e1 →
  (∀ bk, abandoned_work e1 !! rw_attemptID asg = Some bk → ab_WorkItemID bk = rw_workItemID asg →
     running_work e1 !! rw_attemptID asg = None → exec_base e1 →
     exec_base e2 ∧ drains e1 e2 ∧ running_work e2 = running_work e1) →
  draining e0 sid todo e2.
Proof.
  intros (Hb & Hd & Hra & Hnd & Hall) H1 H2.
  destruct (abandon_effect asg at_ reason e e1) as (Hb1 & Hd1 & Hr1 & bk & Hbk & Hbi);
    [apply Hra; left|done..|].
  destruct (H2 bk) as (Hb2 & Hd2 & Hr2); [done..|by rewrite Hr1, lookup_delete_eq|done|].
  apply NoDup_cons in Hnd as [Hni Hnd].
  split_and!; [done|by do 2 (etrans; [done|])| |done|].
  - intros asg' Hin. destruct (Hra asg') as (r & Hr & ?); [by right|].
    exists r. split; [|done]. rewrite Hr2, Hr1, lookup_delete_ne; [done|].
    intros Heq. apply Hni. rewrite Heq. by apply list_elem_of_fmap_2.
  - intros a r. rewrite Hr2, Hr1. intros [Hne Ha]%lookup_delete_Some Hs.
    pose proof (Hall _ _ Ha Hs) as Hin. by apply elem_of_cons in Hin as [->|?].
Qed.

Lemma draining_start e sid :
  exec_base e → draining e sid (listRunningWorkForSession e sid) e.
Proof.
  intros Hb. split_and!; [done|done| | |].
  - intros asg (a & r & ? & ? & ->)%elem_of_listRunning. by exists r.
  - unfold listRunningWorkForSession.
    rewrite (order_by_perm (by_text2 rw_startedAt rw_attemptID)).
    rewrite <- list_fmap_compose. unfold compose. simpl.
    apply table_rows_NoDup.
  - intros a r Ha Hs. apply list_elem_of_fmap. exists (scanRunning a r). split; [done|].
    apply elem_of_listRunning. eauto.
Qed.
End operations_inv.

Section operations_inv2.
Context (eng : Engine).

Lemma draining_loop {R} (body : R * Exec → runningWorkRecord → result (R * Exec)) e0 sid todo acc acc' :
  (∀ acc asg acc' todo', draining e0 sid (asg :: todo') acc.2 → body acc asg = Ok acc' →
     draining e0 sid todo' acc'.2) →
  draining e0 sid todo acc.2 → foldM body acc todo = Ok acc' → draining e0 sid [] acc'.2.
Proof.
  intros Hbody. revert acc. induction todo as [|asg todo IH]; intros acc Hd H; simpl in H.
  - by injection H as <-.
  - apply bind_Ok in H as (acc1 & H1 & H2). eapply IH; [|done]. by eapply Hbody.
Qed.

Lemma drained_inv e0 sid e :
  owners_active_but sid e0 → draining e0 sid [] e → exec_inv e ∧
  (∀ a r, running_work e !! a = Some r → rr_worker_session_id r ≠ Some sid).
Proof.
  intros Ho (Hb & [Hs Hr] & _ & _ & Hall).
  assert (Hno : ∀ a r, running_work e !! a = Some r → rr_worker_session_id r ≠ Some sid).
  { intros a r Ha Hse. pose proof (Hall _ _ Ha Hse) as Hin. by apply elem_of_nil in Hin. }
  split; [|done]. split; [done|]. eapply owners_active_but_none; [|done].
  by eapply owners_active_but_sub.
Qed.

Lemma recover_assignment_draining request e0 sid acc asg acc' todo :
  draining e0 sid (asg :: todo) acc.2 → recover_assignment eng request acc asg = Ok acc' →
  draining e0 sid todo acc'.2.
Proof.
  destruct acc as [res e]. unfold recover_assignment. intros Hd H.
  apply bind_Ok in H as (e1 & H1 & H). apply bind_Ok in H as ([b e2] & H2 & H).
  injection H as <-. simpl in *. eapply draining_step; [done..|].
  intros bk Hbk Hbi Hr Hb1. destruct (requeueExpired_base _ _ _ _ _ _ _ _ Hbk Hbi Hr H2 Hb1).
  split_and!; [done..|]. unfold requeueExpiredSessionWork in H2. case_match.
  - by apply requeueAbandonedWork_core in H2 as (_ & _ & _ & _ & ? & _).
  - result_inv. match goal with H : insert_failed_work _ _ _ = Ok _ |- _ =>
      apply insert_failed_work_Ok in H as (_ & ->) end. done.
Qed.

Lemma stop_assignment_draining request e0 sid acc asg acc' todo :
  draining e0 sid (asg :: todo) acc.2 → stop_assignment eng request acc asg = Ok acc' →
  draining e0 sid todo acc'.2.
Proof.
  destruct acc as [res e]. unfold stop_assignment. intros Hd H.
  apply bind_Ok in H as (e1 & H1 & H). apply bind_Ok in H as ([b e2] & H2 & H).
  injection H as <-. simpl in *. eapply draining_step; [done..|].
  intros bk _ _ _ Hb1. apply requeueAbandonedWork_core in H2.
  split_and!; [by eapply same_core_base| |]; destruct H2 as (_ & _ & ? & _ & Hr & _); [|done].
  split; [done|]. by rewrite Hr.
Qed.

Lemma recover_session_inv request acc session acc' :
  recover_session eng request acc session = Ok acc' → exec_inv acc.2 → exec_inv acc'.2.
Proof.
  destruct acc as [res e]. unfold recover_session. intros H Hinv.
  destruct (markWorkerSessionDeadIfExpired session request e) as [changed e1] eqn:Hm.
  unfold markWorkerSessionDeadIfExpired in Hm.
  destruct (end_session_inv _ _ _ _ _ _ _ _ _ Hm (or_intror eq_refl) Hinv) as [Hb1 Ho1].
  destruct changed; simpl in *.
  - eapply (drained_inv e1 (ws_ID session)); [exact Ho1|].
    eapply (draining_loop (recover_assignment eng request)); [| |exact H];
      [|by apply draining_start].
    intros. by eapply recover_assignment_draining.
  - apply end_session_unchanged in Hm as ->. by injection H as <-.
Qed.

Lemma tx_recover_inv request e res e' :
  tx_recover eng request e = Ok (res, e') → exec_inv e → exec_inv e'.
Proof.
  unfold tx_recover. intros H Hinv.
  apply (foldM_inv (λ acc, exec_inv acc.2) _ _ _ _) in H; [done| |done].
  intros acc s acc' _ ? ?. by eapply recover_session_inv.
Qed.

Lemma tx_stop_inv request e res e' :
  tx_stop eng request e = Ok (res, e') → exec_inv e → exec_inv e'.
Proof.
  unfold tx_stop. intros H Hinv.
  destruct (getWorkerSession _ _ _); [|by injection H as <- <-].
  case_decide; [by injection H as <- <-|].
  destruct (markWorkerSessionStopped request e) as [changed e1] eqn:Hm.
  unfold markWorkerSessionStopped in Hm.
  destruct (end_session_inv _ _ _ _ _ _ _ _ _ Hm (or_introl eq_refl) Hinv) as [Hb1 Ho1].
  destruct changed; simpl in *.
  - assert (Hd : draining e1 (sp_SessionID request) [] (res, e').2).
    { eapply (draining_loop (stop_assignment eng request)); [| |exact H];
        [|by apply draining_start].
      intros. by eapply stop_assignment_draining. }
    exact (proj1 (drained_inv _ _ _ Ho1 Hd)).
  - apply end_session_unchanged in Hm as ->. by injection H as <- <-.
Qed.

Lemma validate_end_status request :
  validate_end request = Ok tt →
  en_Status request = WorkerSessionStatusStopped ∨ en_Status request = WorkerSessionStatusDead.
Proof.
  unfold validate_end. intros Hv. result_inv. rewrite !bool_decide_eq_false in *.
  destruct (decide (en_Status request = WorkerSessionStatusStopped)); [by left|].
  destruct (decide (en_Status request = WorkerSessionStatusDead)); [by right|]. tauto.
Qed.

Lemma tx_end_inv request e b e' :
  validate_end request = Ok tt →
  tx_end request e = Ok (b, e') → exec_inv e → exec_inv e'.
Proof.
  intros Hv%validate_end_status. unfold tx_end. intros H Hinv.
  destruct (getWorkerSession _ _ _); [|by injection H as <- <-].
  case_decide; [by injection H as <- <-|]. apply bind_Ok in H as ([] & Hc & H).
  rewrite fail_if_Ok, negb_false_iff, Z.eqb_eq in Hc. injection H as H.
  destruct (end_session_inv _ _ _ _ _ _ _ _ _ H Hv Hinv) as [Hb1 Ho1].
  split; [done|]. eapply owners_active_but_none; [done|]. intros a r Ha Hs.
  assert (Hr : running_work e' = running_work e).
  { change e' with (b, e').2. rewrite <- H. apply end_session_running. }
  rewrite Hr in Ha. unfold count_running_for_session in Hc. rewrite table_count_0 in Hc.
  specialize (Hc _ _ Ha). simpl in Hc. by rewrite bool_decide_eq_false in Hc.
Qed.

Lemma tx_register_inv request e s e' :
  tx_register eng request e = Ok (s, e') → exec_inv e → exec_inv e'.
Proof.
  unfold tx_register. intros H Hinv. case_match.
  - result_inv. done.
  - result_inv. eapply insert_worker_session_inv; [..|done|by apply insert_worker_if_absent_inv].
    apply insert_worker_if_absent_has.
Qed.
End operations_inv2.

(** ** Leasing *)

Section claiming.
Context (eng : Engine).
Implicit Types (request : ClaimWorkRequest) (e : Exec).

Lemma nullString_Some s t : nullString s = Some t → s = t ∧ s ≠ "".
Proof. unfold nullString, is_empty. case_bool_decide; naive_solver. Qed.

Lemma elem_of_listQueued e q :
  q ∈ listQueuedWorkForClaim e ↔
  ∃ id item at_, queued_work e !! id = Some at_ ∧ work_items e !! id = Some item ∧
    q = mkQueued item at_.
Proof.
  unfold listQueuedWorkForClaim. rewrite (elem_of_order_by (by_text2 _ _)), list_elem_of_omap.
  split.
  - intros ([id at_] & Hin%elem_of_map_to_list & Hq). simpl in Hq.
    apply fmap_Some in Hq as (item & ? & ->). eauto 6.
  - intros (id & item & at_ & ? & Hi & ->). exists (id, at_). split; [by apply elem_of_map_to_list|].
    simpl. by rewrite Hi.
Qed.

(** The rows a lease writes. *)
Definition lease_attempt request (queued : QueuedWorkRecord) : attempt_row :=
  mkAttemptRow (wi_ID (qw_WorkItem queued)) (nullString (cr_WorkerID request))
    (nullString (cr_WorkerSessionID request)) (cr_ExecutorType request) (cr_StartedAt request).
Definition lease_running request (queued : QueuedWorkRecord) : running_row :=
  mkRunningRow (wi_ID (qw_WorkItem queued)) (nullString (cr_WorkerID request))
    (nullString (cr_WorkerSessionID request)) (qw_QueuedAt queued) (cr_StartedAt request).
Definition lease_record request (queued : QueuedWorkRecord) : ClaimedWorkRecord :=
  mkClaimed (cr_AttemptID request) (qw_WorkItem queued) (cr_WorkerID request)
    (cr_WorkerSessionID request) (cr_ExecutorType request) (qw_QueuedAt queued)
    (cr_StartedAt request).
Definition leased request (queued : QueuedWorkRecord) e : Exec :=
  set_queued_work (delete (wi_ID (qw_WorkItem queued)) (queued_work e))
    (set_running_work (<[cr_AttemptID request := lease_running request queued]> (running_work e))
       (set_work_item_attempts
          (<[cr_AttemptID request := lease_attempt request queued]> (work_item_attempts e)) e)).

Lemma claimQueuedWork_Ok request queued e c e' :
  claimQueuedWork eng request queued e = Ok (c, e') →
  work_item_attempts e !! cr_AttemptID request = None ∧
  attempt_check (lease_attempt request queued) = true ∧
  running_work e !! cr_AttemptID request = None ∧
  (∀ a r, running_work e !! a = Some r → rr_work_item_id r ≠ wi_ID (qw_WorkItem queued)) ∧
  (∀ a r s, running_work e !! a = Some r → rr_worker_session_id r = Some s →
     nullString (cr_WorkerSessionID request) ≠ Some s) ∧
  is_Some (queued_work e !! wi_ID (qw_WorkItem queued)) ∧
  c = Some (lease_record request queued) ∧ e' = leased request queued e.
Proof.
  unfold claimQueuedWork, insert_work_item_attempt, insert_running_work. intros H.
  result_inv. sql_inv. simpl in *.
  match goal with H : table_has (λ _ r', bool_decide _) _ = false,
      H' : table_has (λ _ r', runs_session _ _) _ = false |- _ =>
    rename H into Hi; rename H' into Hs end.
  rewrite table_has_false in Hi, Hs. split_and!; try done.
  - intros a r Ha. specialize (Hi _ _ Ha). simpl in Hi. by apply bool_decide_eq_false in Hi.
  - intros a r s Ha Hr Hn. specialize (Hs _ _ Ha). unfold runs_session in Hs. simpl in Hs.
    rewrite Hn in Hs. by apply bool_decide_eq_false in Hs.
Qed.

(** The queue is scanned in order and the first admitted item is leased. *)
Lemma claim_first_Ok request queue e c e' :
  claim_first eng request queue e = Ok (c, e') →
  (c = None ∧ e' = e ∧
   ∀ q, q ∈ queue → queuedResourceConstraintsAllow e (wi_ID (qw_WorkItem q)) = Ok false) ∨
  (∃ q1 q q2, queue = q1 ++ q :: q2 ∧
   (∀ q', q' ∈ q1 → queuedResourceConstraintsAllow e (wi_ID (qw_WorkItem q')) = Ok false) ∧
   queuedResourceConstraintsAllow e (wi_ID (qw_WorkItem q)) = Ok true ∧
   claimQueuedWork eng request q e = Ok (c, e')).
Proof.
  induction queue as [|q queue IH]; simpl.
  - intros [= <- <-]. left. split_and!; [done..|]. by intros q ?%elem_of_nil.
  - intros (allowed & Ha & H)%bind_Ok. rewrite wrap_err_Ok in Ha. destruct allowed; simpl in H.
    + right. exists [], q, queue. split_and!; [done| |done..]. by intros ? ?%elem_of_nil.
    + destruct (IH H) as [(-> & -> & Hall)|(q1 & q' & q2 & -> & Hall & ? & ?)].
      * left. split_and!; [done..|]. intros q' [->|?]%elem_of_cons; auto.
      * right. exists (q :: q1), q', q2. split_and!; [done| |done..].
        intros q'' [->|?]%elem_of_cons; auto.
Qed.

(** What [validateWorkerSessionCanClaim] establishes. *)
Lemma canClaim_Ok request e :
  validateWorkerSessionCanClaim request e = Ok tt →
  ∃ row, worker_sessions e !! cr_WorkerSessionID request = Some row ∧
    sr_worker_id row = cr_WorkerID request ∧ sr_status row = WorkerSessionStatusActive ∧
    (is_empty (cr_LiveSessionCutoff request) = false →
     str_ltb (sr_last_heartbeat_at row) (cr_LiveSessionCutoff request) = false) ∧
    (∀ a r, running_work e !! a = Some r →
       rr_worker_session_id r ≠ Some (cr_WorkerSessionID request)).
Proof.
  unfold validateWorkerSessionCanClaim, getWorkerSession. intros H.
  destruct (worker_sessions e !! _) as [row|]; [|done]. case_decide; [|done].
  result_inv. exists row. rewrite bool_decide_eq_false in *. simpl in *.
  rewrite negb_false_iff, Z.eqb_eq in *.
  unfold count_running_for_session in *. rewrite table_count_0 in *.
  split_and!; [done..|by apply dec_stable| |].
  - intros He. match goal with H : _ && _ = false |- _ => rewrite He in H; exact H end.
  - intros a r Ha. match goal with H : ∀ _ _, _ → runs_session _ _ = false |- _ =>
      specialize (H _ _ Ha); by apply bool_decide_eq_false in H end.
Qed.

Lemma leased_inv request q e :
  work_item_attempts e !! cr_AttemptID request = None →
  attempt_check (lease_attempt request q) = true →
  (∀ a r, running_work e !! a = Some r → rr_work_item_id r ≠ wi_ID (qw_WorkItem q)) →
  (∀ a r s, running_work e !! a = Some r → rr_worker_session_id r = Some s →
     nullString (cr_WorkerSessionID request) ≠ Some s) →
  is_Some (work_items e !! wi_ID (qw_WorkItem q)) →
  (∀ s, nullString (cr_WorkerSessionID request) = Some s →
     ∃ row, worker_sessions e !! s = Some row ∧
       nullString (cr_WorkerID request) = Some (sr_worker_id row) ∧
       sr_status row = WorkerSessionStatusActive) →
  exec_inv e → exec_inv (leased request q e).
Proof.
  intros Hfresh Hck Hitem Hsess Hwi Howner [Hb Ho]. split.
  - destruct Hb. constructor; simpl; try done; intros; map_cases; try by eauto.
    + eexists; rewrite lookup_insert_eq; eauto.
    + edestruct inv_running_attempt0 as (t & ? & ?); [done|]. exists t.
      rewrite lookup_insert_ne by congruence. done.
    + by edestruct Hitem.
    + by edestruct Hitem.
    + by edestruct Hsess.
    + by edestruct Hsess.
    + edestruct Howner as (row & ? & ? & ?); eauto.
    + edestruct inv_completed0 as (? & t & ? & ?); [done|]. split; [done|]. exists t.
      rewrite lookup_insert_ne by congruence. done.
    + edestruct inv_failed0 as (? & t & ? & ?); [done|]. split; [done|]. exists t.
      rewrite lookup_insert_ne by congruence. done.
    + edestruct inv_abandoned0 as (? & t & ? & ?); [done|]. split; [done|]. exists t.
      rewrite lookup_insert_ne by congruence. done.
    + split_and!; apply eq_None_not_Some; intros [? Hx];
        [edestruct inv_completed0|edestruct inv_failed0|edestruct inv_abandoned0];
        try exact Hx; naive_solver.
    + left. rewrite lookup_insert_eq. eauto.
    + rewrite lookup_insert_ne by done. eauto.
  - intros a r s Ha Hs. simpl in *. map_cases; [|by eauto].
    edestruct Howner as (row & ? & ? & ?); eauto.
Qed.

Lemma tx_claim_inv request e c e' :
  tx_claim eng request e = Ok (c, e') → exec_inv e → exec_inv e'.
Proof.
  unfold tx_claim. intros (u & Hv & H)%bind_Ok Hinv. destruct u.
  apply claim_first_Ok in H as [(_ & -> & _)|(q1 & q & q2 & Hq & _ & _ & H)]; [done|].
  apply claimQueuedWork_Ok in H as (Hf & Hck & _ & Hi & Hs & _ & _ & ->).
  apply leased_inv; try done.
  - assert (Hin : q ∈ listQueuedWorkForClaim e) by (rewrite Hq; apply elem_of_app; right; left).
    apply elem_of_listQueued in Hin as (id & item & at_ & _ & Hw & ->). simpl.
    rewrite (inv_item_key _ (proj1 Hinv) _ _ Hw). eauto.
  - intros s Hn. unfold attempt_check in Hck. apply bool_decide_eq_true in Hck. simpl in Hck.
    destruct Hck as [(Hx & [w Hw] & _)|(_ & _ & ?)]; [|congruence].
    rewrite decide_True in Hv by done.
    apply canClaim_Ok in Hv as (row & Hrow & Hwid & Hact & _).
    apply nullString_Some in Hn as [<- _]. apply nullString_Some in Hw as Hw'.
    exists row. split_and!; [done| |done]. destruct Hw' as [? _]. congruence.
Qed.
End claiming.

(** ** Outcomes, the queue and stages *)

Section reports.
Context (eng : Engine).

Lemma getRunningWork_Some e a asg :
  getRunningWork e a = Some asg → ∃ r, running_work e !! a = Some r ∧ asg = scanRunning a r.
Proof. unfold getRunningWork. intros (r & ? & ->)%fmap_Some. eauto. Qed.

(** A report on a running attempt moves it to its outcome. *)
Lemma tx_complete_running request e c e' asg :
  getRunningWork e (ca_AttemptID request) = Some asg →
  tx_complete eng request e = Ok (c, e') →
  let done := mkCompleted (ca_AttemptID request) (rw_workItemID asg) (ca_SkippedParentID request)
      (ca_OutputJSON request) (ca_OutputJSONSHA256 request) (ca_PreStateSHA256 request)
      (ca_PostStateSHA256 request) (rw_queuedAt asg) (rw_startedAt asg)
      (ca_CompletedAt request) in
  validateRunningAssignmentOwner asg (ca_WorkerID request) (ca_WorkerSessionID request)
      (ca_LiveSessionCutoff request) e = Ok tt ∧
  completed_work e !! ca_AttemptID request = None ∧
  c = Some done ∧
  e' = set_running_work (delete (ca_AttemptID request) (running_work e))
         (set_completed_work (<[ca_AttemptID request := done]> (completed_work e)) e).
Proof.
  unfold tx_complete. intros Hr H. rewrite Hr in H. result_inv.
  match goal with H : insert_completed_work _ _ _ = Ok _ |- _ =>
    apply insert_completed_work_Ok in H as (Hn & ->) end.
  match goal with H : deleteRunningWork _ _ = Ok _ |- _ =>
    apply deleteRunningWork_Ok in H as (_ & ->) end. done.
Qed.

Lemma tx_fail_running request e f e' asg :
  getRunningWork e (fa_AttemptID request) = Some asg →
  tx_fail eng request e = Ok (f, e') →
  let failed := mkFailed (fa_AttemptID request) (rw_workItemID asg) (fa_Error request)
      (rw_queuedAt asg) (rw_startedAt asg) (fa_FailedAt request) in
  validateRunningAssignmentOwner asg (fa_WorkerID request) (fa_WorkerSessionID request)
      (fa_LiveSessionCutoff request) e = Ok tt ∧
  failed_work e !! fa_AttemptID request = None ∧
  f = Some failed ∧
  e' = set_running_work (delete (fa_AttemptID request) (running_work e))
         (set_failed_work (<[fa_AttemptID request := failed]> (failed_work e)) e).
Proof.
  unfold tx_fail. intros Hr H. rewrite Hr in H. result_inv.
  match goal with H : insert_failed_work _ _ _ = Ok _ |- _ =>
    apply insert_failed_work_Ok in H as (Hn & ->) end.
  match goal with H : deleteRunningWork _ _ = Ok _ |- _ =>
    apply deleteRunningWork_Ok in H as (_ & ->) end. done.
Qed.

(** A report on an attempt that is not running changes nothing. *)
Lemma tx_complete_not_running request e c e' :
  getRunningWork e (ca_AttemptID request) = None →
  tx_complete eng request e = Ok (c, e') → e' = e.
Proof. unfold tx_complete. intros Hr H. rewrite Hr in H. repeat case_match; by result_inv. Qed.

Lemma tx_fail_not_running request e c e' :
  getRunningWork e (fa_AttemptID request) = None →
  tx_fail eng request e = Ok (c, e') → e' = e.
Proof. unfold tx_fail. intros Hr H. rewrite Hr in H. repeat case_match; by result_inv. Qed.

Lemma tx_complete_inv request e c e' :
  tx_complete eng request e = Ok (c, e') → exec_inv e → exec_inv e'.
Proof.
  intros H [Hb Ho]. destruct (getRunningWork e (ca_AttemptID request)) as [asg|] eqn:Hr.
  - pose proof (tx_complete_running _ _ _ _ _ Hr H) as (_ & _ & _ & He').
    apply getRunningWork_Some in Hr as Hr'. destruct Hr' as (r & Hr1 & ->).
    split; [|subst e'; by eapply owners_active_delete].
    unfold tx_complete in H. rewrite Hr in H. result_inv.
    eapply complete_running_base; [| |eassumption|eassumption|done]; done.
  - by apply tx_complete_not_running in H as ->.
Qed.

Lemma tx_fail_inv request e c e' :
  tx_fail eng request e = Ok (c, e') → exec_inv e → exec_inv e'.
Proof.
  intros H [Hb Ho]. destruct (getRunningWork e (fa_AttemptID request)) as [asg|] eqn:Hr.
  - pose proof (tx_fail_running _ _ _ _ _ Hr H) as (_ & _ & _ & He').
    apply getRunningWork_Some in Hr as Hr'. destruct Hr' as (r & Hr1 & ->).
    split; [|subst e'; by eapply owners_active_delete].
    unfold tx_fail in H. rewrite Hr in H. result_inv.
    eapply fail_running_base; [| |eassumption|eassumption|done]; done.
  - by apply tx_fail_not_running in H as ->.
Qed.

Lemma enqueueWorkItems_core items e e' : enqueueWorkItems eng items e = Ok e' → same_core e e'.
Proof.
  apply foldM_rel; [apply _|]. unfold enqueue_or_match. intros ??? H. result_inv.
  case_match; result_inv; [done|]. by eapply insert_queued_work_core.
Qed.

Lemma insertConstraints_core cs e e' :
  insertWorkItemResourceConstraints eng cs e = Ok e' → same_core e e'.
Proof.
  apply foldM_rel; [apply _|]. unfold insert_or_match_constraint. intros ??? H. result_inv.
  case_match; result_inv; [done|]. by eapply insert_resource_constraint_core.
Qed.

Lemma insertWorkItems_inv items db db' :
  insertWorkItems eng items db = Ok db' → exec_inv (exec db) → exec_inv (exec db').
Proof.
  intros H Hi. refine (foldM_inv (λ db, exec_inv (exec db)) _ _ _ _ _ Hi H).
  unfold insert_or_match_work_item. intros ??? _ ? Hs. result_inv.
  case_match; result_inv; [done|]. by eapply insert_work_item_inv.
Qed.

Lemma tx_queue_inv items cs queued db db' :
  tx_queue eng items cs queued db = Ok db' → exec_inv (exec db) → exec_inv (exec db').
Proof.
  unfold tx_queue, lift_exec. intros H Hi. result_inv.
  eapply same_core_inv; [by eapply enqueueWorkItems_core|].
  eapply same_core_inv; [by eapply insertConstraints_core|].
  by eapply insertWorkItems_inv.
Qed.

Lemma tx_complete_stage_inv request db r db' :
  tx_complete_stage eng request db = Ok (r, db') → exec_inv (exec db) → exec_inv (exec db').
Proof.
  unfold tx_complete_stage. intros H Hi. apply bind_Ok in H as (found & _ & H).
  destruct found; [|by result_inv]. case_decide; [by result_inv|].
  apply bind_Ok in H as (? & _ & H). destruct (negb _); [by result_inv|].
  apply bind_Ok in H as (c' & _ & H). apply bind_Ok in H as (db1 & H & [= <- <-]).
  by eapply tx_queue_inv in H.
Qed.
End reports.

(** ** Every operation preserves the invariant *)

Lemma transact_cases {A} db v (body : DB → result (A * DB)) :
  (transact (Some db) v body).2 = Some db ∨
  ∃ a db', v = Ok tt ∧ body db = Ok (a, db') ∧ transact (Some db) v body = (Ok a, Some db').
Proof.
  unfold transact. destruct v as [[]|]; [|by left].
  destruct (body db) as [[a db']|]; [right; eauto|by left].
Qed.

Lemma on_exec_tx_Ok {A} (body : Exec → result (A * Exec)) db a db' :
  on_exec_tx body db = Ok (a, db') →
  ∃ e', body (exec db) = Ok (a, e') ∧ db' = mkDB (catalog db) e'.
Proof. unfold on_exec_tx. intros ([a' e'] & ? & [= -> <-])%bind_Ok. eauto. Qed.

Lemma on_catalog_tx_Ok {A} (body : Catalog → result (A * Catalog)) db a db' :
  on_catalog_tx body db = Ok (a, db') →
  ∃ c', body (catalog db) = Ok (a, c') ∧ db' = mkDB c' (exec db).
Proof. unfold on_catalog_tx. intros ([a' e'] & ? & [= -> <-])%bind_Ok. eauto. Qed.

(** The transaction bodies, as a relation: what an operation can turn a database
    into when it succeeds. *)
Lemma transact_ind {A} (P : DB → Prop) db v (body : DB → result (A * DB)) :
  P db → (∀ a db', v = Ok tt → body db = Ok (a, db') → P db') →
  P (default db (transact (Some db) v body).2).
Proof.
  intros Hdb Hbody. destruct (transact_cases db v body) as [->|(a & db' & Hv & Hb & ->)]; simpl; eauto.
Qed.

Lemma exec_tx_ind {A} (P : DB → Prop) db v (body : Exec → result (A * Exec)) :
  P db → (∀ a e', v = Ok tt → body (exec db) = Ok (a, e') → P (mkDB (catalog db) e')) →
  P (default db (transact (Some db) v (on_exec_tx body)).2).
Proof.
  intros Hdb Hbody. apply transact_ind; [done|].
  intros a db' Hv (e' & ? & ->)%on_exec_tx_Ok. eauto.
Qed.

Lemma catalog_tx_ind {A} (P : DB → Prop) db v (body : Catalog → result (A * Catalog)) :
  P db → (∀ a c', v = Ok tt → body (catalog db) = Ok (a, c') → P (mkDB c' (exec db))) →
  P (default db (transact (Some db) v (on_catalog_tx body)).2).
Proof.
  intros Hdb Hbody. apply transact_ind; [done|].
  intros a db' Hv (e' & ? & ->)%on_catalog_tx_Ok. eauto.
Qed.

Lemma run_op_inv eng o db : exec_inv (exec db) → exec_inv (exec (run_op eng o db)).
Proof.
  intros Hi. destruct o; unfold run_op, run_store_op.
  - apply (exec_tx_ind (λ db, exec_inv (exec db))); [done|]. intros. by eapply tx_register_inv.
  - apply (exec_tx_ind (λ db, exec_inv (exec db))); [done|]. intros a e' _ [= H]. simpl.
    change e' with (a, e').2. rewrite <- H. by apply update_heartbeat_inv.
  - apply (exec_tx_ind (λ db, exec_inv (exec db))); [done|]. intros. by eapply tx_end_inv.
  - apply (exec_tx_ind (λ db, exec_inv (exec db))); [done|]. intros. by eapply tx_stop_inv.
  - apply (exec_tx_ind (λ db, exec_inv (exec db))); [done|]. intros. by eapply tx_recover_inv.
  - apply (transact_ind (λ db, exec_inv (exec db))); [done|]. intros. result_inv. by eapply insertWorkItems_inv.
  - apply (transact_ind (λ db, exec_inv (exec db))); [done|]. intros. result_inv. by eapply tx_queue_inv.
  - apply (transact_ind (λ db, exec_inv (exec db))); [done|]. intros. unfold lift_exec in *. result_inv.
    eapply same_core_inv; [by eapply enqueueWorkItems_core|done].
  - apply (exec_tx_ind (λ db, exec_inv (exec db))); [done|]. intros. by eapply tx_claim_inv.
  - apply (exec_tx_ind (λ db, exec_inv (exec db))); [done|]. intros. by eapply tx_complete_inv.
  - apply (exec_tx_ind (λ db, exec_inv (exec db))); [done|]. intros. by eapply tx_fail_inv.
  - apply (transact_ind (λ db, exec_inv (exec db))); [done|]. intros. by eapply tx_complete_stage_inv.
  - by apply (catalog_tx_ind (λ db, exec_inv (exec db))).
  - by apply (catalog_tx_ind (λ db, exec_inv (exec db))).
  - by apply (catalog_tx_ind (λ db, exec_inv (exec db))).
  - by apply (catalog_tx_ind (λ db, exec_inv (exec db))).
  - by apply (catalog_tx_ind (λ db, exec_inv (exec db))).
  - by apply (catalog_tx_ind (λ db, exec_inv (exec db))).
  - by apply (catalog_tx_ind (λ db, exec_inv (exec db))).
  - by apply (catalog_tx_ind (λ db, exec_inv (exec db))).
  - by apply (catalog_tx_ind (λ db, exec_inv (exec db))).
  - by apply (catalog_tx_ind (λ db, exec_inv (exec db))).
Qed.

Lemma reachable_exec_inv db : reachable db → exec_inv (exec db).
Proof. induction 1; [apply empty_inv|by apply run_op_inv]. Qed.
