(* ===== verification/StoreFrame.v ===== *)
(** * The workflow store: from statements to operations

    Many facts about the store say how the tables before an operation relate to
    the tables after it: rows are never lost, sessions never come back to life.
    [Respects R] lists the statements the operations are made of and asks each to
    respect a relation [R]; [run_op_rel] then gives the relation for every
    operation, so such a fact is proved statement by statement and only once. *)

From S2P Require Import Prelude StoreData StoreSQL StoreOps StoreInv.
Local Open Scope Z_scope.

Class Respects (eng : Engine) (R : relation Exec) : Prop := {
  rs_preorder :: PreOrder R;
  rs_worker id r e : R e (insert_worker_if_absent id r e);
  rs_session id r e e' : insert_worker_session eng id r e = Ok e' → R e e';
  rs_heartbeat r e : R e (update_heartbeat r e).2;
  rs_end extra sid wid st at_ reason e :
    st = WorkerSessionStatusStopped ∨ st = WorkerSessionStatusDead →
    R e (end_session_where extra sid wid st at_ reason e).2;
  rs_item item db db' : insert_work_item eng item db = Ok db' → R (exec db) (exec db');
  rs_constraint c e e' : insert_resource_constraint eng c e = Ok e' → R e e';
  rs_queue id q e e' : insert_queued_work eng id q e = Ok e' → R e e';
  rs_lease request q e c e' : claimQueuedWork eng request q e = Ok (c, e') → R e e';
  rs_completed c e e' : insert_completed_work eng c e = Ok e' → R e e';
  rs_failed f e e' : insert_failed_work eng f e = Ok e' → R e e';
  rs_abandoned b e e' : insert_abandoned_work eng b e = Ok e' → R e e';
  rs_delete a e e' : deleteRunningWork a e = Ok e' → R e e'
}.

Section frame.
Context (eng : Engine) (R : relation Exec) `{!Respects eng R}.

Lemma abandon_rel asg at_ reason e e' :
  abandonRunningWork eng asg at_ reason e = Ok e' → R e e'.
Proof.
  unfold abandonRunningWork. intros. result_inv. etrans; [by eapply rs_abandoned|by eapply rs_delete].
Qed.

Lemma requeue_rel id q e b e' : requeueAbandonedWork eng id q e = Ok (b, e') → R e e'.
Proof.
  unfold requeueAbandonedWork. intros. case_match; result_inv; [done|by eapply rs_queue].
Qed.

Lemma requeueExpired_rel asg q reason e b e' :
  requeueExpiredSessionWork eng asg q reason e = Ok (b, e') → R e e'.
Proof.
  unfold requeueExpiredSessionWork. intros. case_match; [by eapply requeue_rel|].
  result_inv. by eapply rs_failed.
Qed.

Lemma end_rel extra sid wid st at_ reason e b e' :
  end_session_where extra sid wid st at_ reason e = (b, e') →
  st = WorkerSessionStatusStopped ∨ st = WorkerSessionStatusDead → R e e'.
Proof. intros H Hst. change e' with (b, e').2. rewrite <- H. by apply rs_end. Qed.

Lemma tx_recover_rel request e res e' : tx_recover eng request e = Ok (res, e') → R e e'.
Proof.
  intros H. refine (foldM_inv (λ acc, R e acc.2) _ _ _ _ _ _ H); [|done].
  intros [r1 e1] session acc' _ H1 Hs. simpl in *. unfold recover_session in Hs.
  destruct (markWorkerSessionDeadIfExpired session request e1) as [changed e2] eqn:Hm.
  apply end_rel in Hm; [|by right].
  destruct changed; simpl in Hs; [|by injection Hs as <-; etrans].
  refine (foldM_inv (λ acc, R e acc.2) _ _ _ _ _ _ Hs); [|by etrans].
  intros [r3 e3] asg acc3 _ H3 Ha. unfold recover_assignment in Ha.
  apply bind_Ok in Ha as (e4 & H4%abandon_rel & Ha).
  apply bind_Ok in Ha as ([b e5] & H5%requeueExpired_rel & [= <-]).
  simpl in *. etrans; [done|]. by etrans.
Qed.

Lemma tx_stop_rel request e res e' : tx_stop eng request e = Ok (res, e') → R e e'.
Proof.
  unfold tx_stop. intros H. destruct (getWorkerSession _ _ _); [|by injection H as <- <-].
  case_decide; [by injection H as <- <-|].
  destruct (markWorkerSessionStopped request e) as [changed e2] eqn:Hm.
  apply end_rel in Hm; [|by left].
  destruct changed; simpl in H; [|by injection H as <- <-].
  refine (foldM_inv (λ acc, R e acc.2) _ _ _ _ _ _ H); [|done].
  intros [r3 e3] asg acc3 _ H3 Ha. unfold stop_assignment in Ha.
  apply bind_Ok in Ha as (e4 & H4%abandon_rel & Ha).
  apply bind_Ok in Ha as ([b e5] & H5%requeue_rel & [= <-]).
  simpl in *. etrans; [done|]. by etrans.
Qed.

Lemma tx_end_rel request e b e' :
  validate_end request = Ok tt → tx_end request e = Ok (b, e') → R e e'.
Proof.
  intros Hv%validate_end_status. unfold tx_end. intros H.
  destruct (getWorkerSession _ _ _); [|by injection H as <- <-].
  case_decide; [by injection H as <- <-|]. apply bind_Ok in H as ([] & Hc & [= H]).
  by eapply end_rel.
Qed.

Lemma tx_register_rel request e s e' : tx_register eng request e = Ok (s, e') → R e e'.
Proof.
  unfold tx_register. intros H. case_match; result_inv; [done|].
  etrans; [apply rs_worker|by eapply rs_session].
Qed.

Lemma insertWorkItems_rel items db db' :
  insertWorkItems eng items db = Ok db' → R (exec db) (exec db').
Proof.
  intros H. refine (foldM_inv (λ d, R (exec db) (exec d)) _ _ _ _ _ _ H); [|done].
  unfold insert_or_match_work_item. intros d item d' _ Hd Hs. result_inv.
  case_match; result_inv; [done|]. etrans; [done|]. by eapply rs_item.
Qed.

Lemma insertConstraints_rel cs e e' : insertWorkItemResourceConstraints eng cs e = Ok e' → R e e'.
Proof.
  apply foldM_rel; [apply _|]. unfold insert_or_match_constraint. intros ??? H. result_inv.
  case_match; result_inv; [done|]. by eapply rs_constraint.
Qed.

Lemma enqueueWorkItems_rel items e e' : enqueueWorkItems eng items e = Ok e' → R e e'.
Proof.
  apply foldM_rel; [apply _|]. unfold enqueue_or_match. intros ??? H. result_inv.
  case_match; result_inv; [done|]. by eapply rs_queue.
Qed.

Lemma tx_queue_rel items cs queued db db' :
  tx_queue eng items cs queued db = Ok db' → R (exec db) (exec db').
Proof.
  unfold tx_queue, lift_exec. intros H. result_inv.
  etrans; [by eapply insertWorkItems_rel|].
  etrans; [by eapply insertConstraints_rel|by eapply enqueueWorkItems_rel].
Qed.

Lemma tx_claim_rel request e c e' : tx_claim eng request e = Ok (c, e') → R e e'.
Proof.
  unfold tx_claim. intros (u & Hv & H)%bind_Ok.
  apply claim_first_Ok in H as [(_ & -> & _)|(q1 & q & q2 & _ & _ & _ & H)]; [done|].
  by eapply rs_lease.
Qed.

Lemma tx_complete_rel request e c e' : tx_complete eng request e = Ok (c, e') → R e e'.
Proof.
  unfold tx_complete. intros H. repeat case_match; result_inv; try done.
  etrans; [by eapply rs_completed|by eapply rs_delete].
Qed.

Lemma tx_fail_rel request e c e' : tx_fail eng request e = Ok (c, e') → R e e'.
Proof.
  unfold tx_fail. intros H. repeat case_match; result_inv; try done.
  etrans; [by eapply rs_failed|by eapply rs_delete].
Qed.

Lemma tx_complete_stage_rel request db r db' :
  tx_complete_stage eng request db = Ok (r, db') → R (exec db) (exec db').
Proof.
  unfold tx_complete_stage. intros H. apply bind_Ok in H as (found & _ & H).
  destruct found; [|by result_inv]. case_decide; [by result_inv|].
  apply bind_Ok in H as (? & _ & H). destruct (negb _); [by result_inv|].
  apply bind_Ok in H as (c' & _ & H). apply bind_Ok in H as (db1 & H & [= <- <-]).
  by eapply tx_queue_rel in H.
Qed.

Lemma run_op_rel o db : R (exec db) (exec (run_op eng o db)).
Proof.
  set (P := λ d, R (exec db) (exec d)).
  assert (Hdb : P db) by (unfold P; reflexivity). change (P (run_op eng o db)).
  destruct o; unfold run_op, run_store_op;
    try (apply (catalog_tx_ind P); [exact Hdb|intros; exact Hdb]).
  - apply (exec_tx_ind P); [exact Hdb|]. intros. by eapply tx_register_rel.
  - apply (exec_tx_ind P); [exact Hdb|]. intros a e' _ [= Hu]. unfold P. simpl.
    change e' with (a, e').2. rewrite <- Hu. apply rs_heartbeat.
  - apply (exec_tx_ind P); [exact Hdb|]. intros. by eapply tx_end_rel.
  - apply (exec_tx_ind P); [exact Hdb|]. intros. by eapply tx_stop_rel.
  - apply (exec_tx_ind P); [exact Hdb|]. intros. by eapply tx_recover_rel.
  - apply (transact_ind P); [exact Hdb|]. intros. result_inv. by eapply insertWorkItems_rel.
  - apply (transact_ind P); [exact Hdb|]. intros. result_inv. by eapply tx_queue_rel.
  - apply (transact_ind P); [exact Hdb|]. intros. unfold lift_exec in *. result_inv.
    by eapply enqueueWorkItems_rel.
  - apply (exec_tx_ind P); [exact Hdb|]. intros. by eapply tx_claim_rel.
  - apply (exec_tx_ind P); [exact Hdb|]. intros. by eapply tx_complete_rel.
  - apply (exec_tx_ind P); [exact Hdb|]. intros. by eapply tx_fail_rel.
  - apply (transact_ind P); [exact Hdb|]. intros. by eapply tx_complete_stage_rel.
Qed.
End frame.

(** ** History is never rewritten *)

(** Rows of these tables are added and never changed or removed. *)
Record history_kept (e e' : Exec) : Prop := {
  hk_items : work_items e ⊆ work_items e';
  hk_workers : workers e ⊆ workers e';
  hk_attempts : work_item_attempts e ⊆ work_item_attempts e';
  hk_constraints : work_item_resource_constraints e ⊆ work_item_resource_constraints e';
  hk_abandoned : abandoned_work e ⊆ abandoned_work e';
  hk_completed : completed_work e ⊆ completed_work e';
  hk_failed : failed_work e ⊆ failed_work e'
}.

#[export] Instance history_kept_preorder : PreOrder history_kept.
Proof.
  split; [by intros e|]. intros e1 e2 e3 [] []. split; by etrans.
Qed.

Ltac history := split; simpl; try reflexivity; try (by apply insert_subseteq).

#[export] Instance history_kept_respects eng : Respects eng history_kept.
Proof.
  split; [apply _|..].
  - intros. unfold insert_worker_if_absent. case_match; [done|history].
  - unfold insert_worker_session. intros. result_inv. history.
  - intros. unfold update_heartbeat. repeat case_match; simpl; try done; history.
  - intros. unfold end_session_where. repeat case_match; simpl; try done; history.
  - unfold insert_work_item. intros. result_inv. sql_inv. history.
  - unfold insert_resource_constraint. intros. result_inv. sql_inv. history.
  - unfold insert_queued_work. intros. result_inv. history.
  - intros ????? (? & _ & _ & _ & _ & _ & _ & ->)%claimQueuedWork_Ok. history.
  - intros ??? (? & ->)%insert_completed_work_Ok. history.
  - intros ??? (? & ->)%insert_failed_work_Ok. history.
  - unfold insert_abandoned_work. intros. result_inv. sql_inv. history.
  - intros ??? (_ & ->)%deleteRunningWork_Ok. history.
Qed.

(** Sessions stay with their worker and registration; once ended they are final. *)
Definition sessions_final (e e' : Exec) : Prop :=
  ∀ s row, worker_sessions e !! s = Some row →
    ∃ row', worker_sessions e' !! s = Some row' ∧
      sr_worker_id row' = sr_worker_id row ∧ sr_registered_at row' = sr_registered_at row ∧
      sr_execution_handle row' = sr_execution_handle row ∧
      (sr_status row ≠ WorkerSessionStatusActive → row' = row).

#[export] Instance sessions_final_preorder : PreOrder sessions_final.
Proof.
  split; [by intros e s row Hs; exists row|].
  intros e1 e2 e3 H12 H23 s row Hs. destruct (H12 _ _ Hs) as (row2 & Hs2 & ? & ? & ? & Hf2).
  destruct (H23 _ _ Hs2) as (row3 & Hs3 & ? & ? & ? & Hf3). exists row3.
  split_and!; [done|congruence..|]. intros Ha. specialize (Hf2 Ha). subst. by apply Hf3.
Qed.

Lemma same_sessions_final e e' : worker_sessions e' = worker_sessions e → sessions_final e e'.
Proof. intros He s row Hs. exists row. rewrite He. done. Qed.

(** Updating one session, in a way that leaves an ended one alone. *)
Lemma update_session_final e sid row0 row1 :
  worker_sessions e !! sid = Some row0 →
  sr_worker_id row1 = sr_worker_id row0 → sr_registered_at row1 = sr_registered_at row0 →
  sr_execution_handle row1 = sr_execution_handle row0 → sr_status row0 = WorkerSessionStatusActive →
  sessions_final e (set_worker_sessions (<[sid:=row1]> (worker_sessions e)) e).
Proof.
  intros H0 ? ? ? Hact s row Hs. simpl. destruct (decide (s = sid)) as [->|Hne].
  - rewrite lookup_insert_eq. exists row1. simplify_eq. split_and!; [done..|]. by intros [].
  - rewrite lookup_insert_ne by done. by exists row.
Qed.

#[export] Instance sessions_final_respects eng : Respects eng sessions_final.
Proof.
  split; [apply _|..].
  - intros. apply same_sessions_final. unfold insert_worker_if_absent. by case_match.
  - unfold insert_worker_session. intros. result_inv. sql_inv. intros s row Hs. simpl.
    exists row. rewrite lookup_insert_ne; [done|]. intros ->. congruence.
  - intros. unfold update_heartbeat. destruct (worker_sessions e !! _) as [row|] eqn:E; [|done].
    case_decide as Hd; [|done]. destruct Hd. by eapply update_session_final.
  - intros. unfold end_session_where. destruct (worker_sessions e !! _) as [row|] eqn:E; [|done].
    destruct (bool_decide _ && _) eqn:Eb; [|done]. apply andb_true_iff in Eb as [Eb _].
    apply bool_decide_eq_true in Eb as [? ?]. by eapply update_session_final.
  - unfold insert_work_item. intros. result_inv. by apply same_sessions_final.
  - unfold insert_resource_constraint. intros. result_inv. by apply same_sessions_final.
  - unfold insert_queued_work. intros. result_inv. by apply same_sessions_final.
  - intros ????? (_ & _ & _ & _ & _ & _ & _ & ->)%claimQueuedWork_Ok. by apply same_sessions_final.
  - intros ??? (_ & ->)%insert_completed_work_Ok. by apply same_sessions_final.
  - intros ??? (_ & ->)%insert_failed_work_Ok. by apply same_sessions_final.
  - unfold insert_abandoned_work. intros. result_inv. by apply same_sessions_final.
  - intros ??? (_ & ->)%deleteRunningWork_Ok. by apply same_sessions_final.
Qed.

Lemma run_ops_rel (R : relation Exec) eng `{!Respects eng R} os db :
  R (exec db) (exec (run_ops eng os db)).
Proof.
  pose proof (rs_preorder (R := R)) as HP. revert db.
  induction os as [|o os IH]; intros db; simpl; [done|]. etrans; [|by apply IH].
  by apply run_op_rel.
Qed.

(** History is permanent.  No sequence of operations changes or removes a
    recorded attempt, outcome (completed, failed or abandoned), work item,
    worker or resource constraint. *)
Theorem outcomes_permanent eng os db :
  let e := exec db in
  let e' := exec (run_ops eng os db) in
  work_item_attempts e ⊆ work_item_attempts e' ∧ completed_work e ⊆ completed_work e' ∧
  failed_work e ⊆ failed_work e' ∧ abandoned_work e ⊆ abandoned_work e' ∧
  work_items e ⊆ work_items e' ∧ workers e ⊆ workers e' ∧
  work_item_resource_constraints e ⊆ work_item_resource_constraints e'.
Proof. simpl. by destruct (run_ops_rel history_kept eng os db). Qed.

(** An ended session is final.  After any sequence of operations every
    session still belongs to the worker it was registered for, and one that was
    stopped or dead has not changed at all: no heartbeat or registration revives
    it. *)
Theorem ended_sessions_final eng os db s row :
  worker_sessions (exec db) !! s = Some row →
  ∃ row', worker_sessions (exec (run_ops eng os db)) !! s = Some row' ∧
    sr_worker_id row' = sr_worker_id row ∧
    (sr_status row ≠ WorkerSessionStatusActive → row' = row).
Proof.
  intros Hs. destruct (run_ops_rel sessions_final eng os db _ _ Hs) as (row' & ? & ? & _ & _ & ?).
  by exists row'.
Qed.

Definition demo_dead_db : DB :=
  run_ops (mkEngine (λ _, true) true)
    [OpRegister (mkRegister "w" "s" "2026-01-01T00:00:00Z" "");
     OpEnd (mkEnd "w" "s" "stopped" "2026-01-01T00:00:01Z" "bye")] emptyDB.

Lemma ended_sessions_final_witness :
  ∃ row', worker_sessions (exec (run_ops (mkEngine (λ _, true) true)
      [OpHeartbeat (mkHeartbeat "w" "s" "2026-01-01T00:00:02Z")] demo_dead_db)) !! "s" = Some row' ∧
    sr_status row' = WorkerSessionStatusStopped.
Proof.
  destruct (ended_sessions_final (mkEngine (λ _, true) true)
    [OpHeartbeat (mkHeartbeat "w" "s" "2026-01-01T00:00:02Z")] demo_dead_db "s"
    (mkSessionRow "w" "stopped" "2026-01-01T00:00:00Z" "2026-01-01T00:00:00Z"
       (Some "2026-01-01T00:00:01Z") (Some "bye") None)) as (row' & Hr & _ & Hf).
  - vm_compute. reflexivity.
  - exists row'. split; [exact Hr|]. rewrite Hf; [reflexivity|]. intros H. discriminate H.
Defined.
