(* ===== verification/StoreLease.v ===== *)
(** * The workflow store: leases

    What a claim does: which queued item it leases, what it writes, when it is
    bound to succeed, and what the resource constraints guarantee about the units
    in use after it.  The theorems speak of the exported operation
    [ClaimNextWork] on databases any sequence of operations can produce. *)

From S2P Require Import Prelude Resource StoreData StoreSQL StoreOps StoreInv StoreFrame.
Local Open Scope Z_scope.

(** An engine and records for concrete runs. *)
Definition demo_engine : Engine := mkEngine (λ _, true) true.
Definition demo_item (id : string) (index : Z) : WorkItemRecord :=
  mkWorkItem id "run1" 0 index "{}" "sha" "2026-01-01T00:00:00Z".
Definition demo_queued (id : string) (index : Z) (at_ : string) : QueuedWorkRecord :=
  mkQueued (demo_item id index) at_.
Definition demo_constraint (id : string) : WorkItemResourceConstraintRecord :=
  mkConstraint id 0 "gpu" 2 "<=" 3 "2026-01-01T00:00:00Z".
Definition demo_catalog : list op :=
  [ OpUpsertProject (mkProject "p" "p" "repo" None "cfg" "" "sha" "2026-01-01T00:00:00Z");
    OpUpsertWorkflow (mkWorkflow "w" "p" "w" "repo" None "wf" "" "sha" "2026-01-01T00:00:00Z");
    OpCreateRun (mkRun "run1" "p" "w" "{}" "2026-01-01T00:00:00Z");
    OpInsertStagePlan "run1"
      [mkStage "run1" 0 "step" "ref" "ready" "2026-01-01T00:00:00Z" "" "" "" "" "" ""] ].
Definition demo_session (w s : string) : op :=
  OpRegister (mkRegister w s "2026-01-01T00:00:10Z" "").
Definition demo_claim (attempt w s : string) : ClaimWorkRequest :=
  mkClaim attempt w s ExecutorTypeWorker "2026-01-01T00:00:20Z" "".

(** Two items, the later one first in the request; both need the same resource. *)
Definition demo_submit : op :=
  OpQueueWorkItems (mkQueueReq [demo_item "b" 1; demo_item "a" 0]
    [demo_constraint "a"; demo_constraint "b"]
    [demo_queued "b" 1 "2026-01-01T00:00:02Z"; demo_queued "a" 0 "2026-01-01T00:00:01Z"]).
Definition demo_ready : DB :=
  run_ops demo_engine
    (demo_catalog ++ [demo_submit; demo_session "w1" "s1"; demo_session "w2" "s2"]) emptyDB.
Definition demo_leased : DB := run_op demo_engine (OpClaim (demo_claim "t1" "w1" "s1")) demo_ready.

Lemma demo_ready_reachable : reachable demo_ready.
Proof. apply reachable_run_ops, reachable_empty. Qed.
Lemma demo_leased_reachable : reachable demo_leased.
Proof. apply reachable_op, demo_ready_reachable. Qed.

Example demo_runs :
  work_items (exec demo_ready) !! "a" = Some (demo_item "a" 0) ∧
  (ClaimNextWork demo_engine (demo_claim "t1" "w1" "s1") (Some demo_ready)).1 =
    Ok (Some (lease_record (demo_claim "t1" "w1" "s1") (demo_queued "a" 0 "2026-01-01T00:00:01Z"))) ∧
  (ClaimNextWork demo_engine (demo_claim "t2" "w2" "s2") (Some demo_leased)).1 = Ok None.
Proof. vm_compute. done. Qed.

(** ** The successful claim *)

(** [q] comes before [q'] in the queue: earlier, or as early with a smaller id. *)
Definition queued_before (at1 id1 at2 id2 : string) : Prop :=
  str_ltb at1 at2 = true ∨ (at1 = at2 ∧ str_ltb id1 id2 = true).

Lemma queued_before_irrefl_leb q q' :
  queued_before (qw_QueuedAt q') (wi_ID (qw_WorkItem q')) (qw_QueuedAt q) (wi_ID (qw_WorkItem q)) →
  by_text2 qw_QueuedAt (λ q, wi_ID (qw_WorkItem q)) q q' = false.
Proof.
  unfold by_text2. rewrite <- not_true_iff_false. intros [Hlt|[Heq Hlt]] Hle.
  - rewrite str_ltb_leb, negb_true_iff in Hlt. case_decide as E; [|congruence].
    rewrite E, str_leb_refl in Hlt. done.
  - rewrite decide_True in Hle by done. rewrite str_ltb_leb, negb_true_iff in Hlt. congruence.
Qed.

Section claim.
Context (eng : Engine) (request : ClaimWorkRequest).

Lemma ClaimNextWork_Ok db c s' :
  ClaimNextWork eng request (Some db) = (Ok c, s') →
  validate_claim request = Ok tt ∧
  ∃ e', tx_claim eng request (exec db) = Ok (c, e') ∧ s' = Some (mkDB (catalog db) e').
Proof.
  unfold ClaimNextWork, transact. intros H.
  destruct (validate_claim request) as [[]|]; [|done]. split; [done|].
  unfold on_exec_tx in H. destruct (tx_claim eng request (exec db)) as [[c' e']|]; [|done].
  simpl in H. injection H as -> <-. eauto.
Qed.

Lemma tx_claim_Some e c e' :
  tx_claim eng request e = Ok (Some c, e') →
  (cr_ExecutorType request = ExecutorTypeWorker → validateWorkerSessionCanClaim request e = Ok tt) ∧
  ∃ q1 q q2, listQueuedWorkForClaim e = q1 ++ q :: q2 ∧
    (∀ q', q' ∈ q1 → queuedResourceConstraintsAllow e (wi_ID (qw_WorkItem q')) = Ok false) ∧
    queuedResourceConstraintsAllow e (wi_ID (qw_WorkItem q)) = Ok true ∧
    claimQueuedWork eng request q e = Ok (Some c, e').
Proof.
  unfold tx_claim. intros ([] & Hv & H)%bind_Ok. split.
  - intros Hx. by rewrite decide_True in Hv.
  - apply claim_first_Ok in H as [(? & _)|H]; [done|exact H].
Qed.
End claim.

(** C4: leases are first in, first out.  A claim that returns work returns a
    queued item that its resource constraints admit, and every item queued
    before it (earlier [queued_at], or the same and a smaller id) is one whose
    constraints do not admit it at this moment. *)
Theorem ClaimNextWork_fifo eng request db c s' :
  reachable db →
  ClaimNextWork eng request (Some db) = (Ok (Some c), s') →
  let e := exec db in
  let id := wi_ID (cl_WorkItem c) in
  work_items e !! id = Some (cl_WorkItem c) ∧
  queued_work e !! id = Some (cl_QueuedAt c) ∧
  queuedResourceConstraintsAllow e id = Ok true ∧
  ∀ id' item' at', queued_work e !! id' = Some at' → work_items e !! id' = Some item' →
    queued_before at' id' (cl_QueuedAt c) id → queuedResourceConstraintsAllow e id' = Ok false.
Proof.
  intros Hr H e id. subst e id. pose proof (reachable_exec_inv _ Hr) as [Hb _].
  apply ClaimNextWork_Ok in H as (_ & e' & H & ->).
  apply tx_claim_Some in H as (_ & q1 & q & q2 & Hq & Hbefore & Hal & H).
  apply claimQueuedWork_Ok in H as (_ & _ & _ & _ & _ & _ & [= ->] & _). simpl.
  assert (Hin : q ∈ listQueuedWorkForClaim (exec db)) by (rewrite Hq; apply elem_of_app; right; left).
  apply elem_of_listQueued in Hin as (id & item & at_ & Hqu & Hwi & ->). simpl in *.
  rewrite (inv_item_key _ Hb _ _ Hwi) in *. split_and!; [done..|].
  intros id' item' at' Hqu' Hwi' Hlt.
  assert (Hin' : mkQueued item' at' ∈ listQueuedWorkForClaim (exec db))
    by (apply elem_of_listQueued; eauto 6).
  pose proof (inv_item_key _ Hb _ _ Hwi') as Hid'. rewrite Hq in Hin'.
  apply elem_of_app in Hin' as [Hin'|Hin'].
  { specialize (Hbefore _ Hin'). simpl in Hbefore. by rewrite Hid' in Hbefore. }
  exfalso. pose proof (queued_before_irrefl_leb (mkQueued item at_) (mkQueued item' at')) as Hno.
  simpl in Hno. rewrite Hid', (inv_item_key _ Hb _ _ Hwi) in Hno. specialize (Hno Hlt).
  apply elem_of_cons in Hin' as [Heq|Hin'].
  - injection Heq as -> ->. destruct Hlt as [Hlt|[_ Hlt]]; rewrite str_ltb_leb in Hlt.
    + by rewrite str_leb_refl in Hlt.
    + rewrite <- Hid', (inv_item_key _ Hb _ _ Hwi) in Hlt. by rewrite str_leb_refl in Hlt.
  - apply list_elem_of_split in Hin' as (l1 & l2 & ->).
    rewrite (order_by_before (by_text2 qw_QueuedAt (λ q, wi_ID (qw_WorkItem q)))
               (omap (λ kv, (λ item, mkQueued item kv.2) <$> work_items (exec db) !! kv.1)
                  (map_to_list (queued_work (exec db))))
               (q1 ++ mkQueued item at_ :: l1) (mkQueued item' at') l2) in Hno; [done| |].
    + rewrite <- app_assoc. exact Hq.
    + apply elem_of_app. right. left.
Qed.

Lemma ClaimNextWork_fifo_witness :
  queuedResourceConstraintsAllow (exec demo_ready) "a" = Ok true.
Proof.
  destruct (ClaimNextWork demo_engine (demo_claim "t1" "w1" "s1") (Some demo_ready)) as [r s'] eqn:H.
  assert (r = Ok (Some (lease_record (demo_claim "t1" "w1" "s1")
                          (demo_queued "a" 0 "2026-01-01T00:00:01Z")))) as ->.
  { change r with (r, s').1. rewrite <- H. vm_compute. reflexivity. }
  exact (proj1 (proj2 (proj2 (ClaimNextWork_fifo _ _ _ _ _ demo_ready_reachable H)))).
Defined.

(** The effect of a lease.  A claim that returns work moves exactly that item
    from the queue to [running_work] under a fresh attempt, which it records; the
    item was not running before, a worker's session was registered to that
    worker, active, alive with respect to the cutoff and idle, and no other table
    changes. *)
Theorem ClaimNextWork_effect eng request db c db' :
  ClaimNextWork eng request (Some db) = (Ok (Some c), Some db') →
  let e := exec db in
  let e' := exec db' in
  let id := wi_ID (cl_WorkItem c) in
  c = lease_record request (mkQueued (cl_WorkItem c) (cl_QueuedAt c)) ∧
  work_item_attempts e !! cr_AttemptID request = None ∧
  (∀ a r, running_work e !! a = Some r → rr_work_item_id r ≠ id) ∧
  (cr_ExecutorType request = ExecutorTypeWorker →
   ∃ row, worker_sessions e !! cr_WorkerSessionID request = Some row ∧
     sr_worker_id row = cr_WorkerID request ∧ sr_status row = WorkerSessionStatusActive ∧
     (cr_LiveSessionCutoff request = "" ∨
      str_leb (cr_LiveSessionCutoff request) (sr_last_heartbeat_at row) = true) ∧
     ∀ a r, running_work e !! a = Some r →
       rr_worker_session_id r ≠ Some (cr_WorkerSessionID request)) ∧
  is_Some (queued_work e !! id) ∧ queued_work e' = delete id (queued_work e) ∧
  running_work e' =
    <[cr_AttemptID request :=
      mkRunningRow id (nullString (cr_WorkerID request)) (nullString (cr_WorkerSessionID request))
        (cl_QueuedAt c) (cr_StartedAt request)]> (running_work e) ∧
  work_item_attempts e' =
    <[cr_AttemptID request :=
      mkAttemptRow id (nullString (cr_WorkerID request)) (nullString (cr_WorkerSessionID request))
        (cr_ExecutorType request) (cr_StartedAt request)]> (work_item_attempts e) ∧
  work_items e' = work_items e ∧ workers e' = workers e ∧ worker_sessions e' = worker_sessions e ∧
  work_item_resource_constraints e' = work_item_resource_constraints e ∧
  abandoned_work e' = abandoned_work e ∧ completed_work e' = completed_work e ∧
  failed_work e' = failed_work e ∧ catalog db' = catalog db.
Proof.
  intros H e e' id. subst e e' id. apply ClaimNextWork_Ok in H as (_ & e' & H & [= ->]). simpl.
  apply tx_claim_Some in H as (Hw & q1 & q & q2 & Hq & Hbefore & Hal & H).
  apply claimQueuedWork_Ok in H as (Hf & _ & _ & Hi & _ & Hqu & [= ->] & ->). simpl.
  split_and!; try done.
  intros (row & ? & ? & ? & Hcut & ?)%Hw%canClaim_Ok. exists row. split_and!; try done.
  unfold is_empty in Hcut. destruct (decide (cr_LiveSessionCutoff request = "")); [by left|].
  right. rewrite bool_decide_false in Hcut by done. specialize (Hcut eq_refl).
  rewrite str_ltb_leb, negb_false_iff in Hcut. done.
Qed.

Lemma ClaimNextWork_effect_witness :
  is_Some (queued_work (exec demo_ready) !! "a") ∧
  queued_work (exec demo_leased) = delete "a" (queued_work (exec demo_ready)).
Proof.
  assert (H : ClaimNextWork demo_engine (demo_claim "t1" "w1" "s1") (Some demo_ready) =
    (Ok (Some (lease_record (demo_claim "t1" "w1" "s1")
                (demo_queued "a" 0 "2026-01-01T00:00:01Z"))), Some demo_leased))
    by (vm_compute; reflexivity).
  pose proof (ClaimNextWork_effect _ _ _ _ _ H) as (_ & _ & _ & _ & Hq & Hq' & _).
  exact (conj Hq Hq').
Defined.

(** ** Progress *)

Section progress.
Context (eng : Engine) (request : ClaimWorkRequest).

Lemma validate_claim_attempt q :
  validate_claim request = Ok tt → attempt_check (lease_attempt request q) = true.
Proof.
  unfold validate_claim. intros H. result_inv. unfold attempt_check. apply bool_decide_eq_true.
  simpl. unfold nullString, is_empty, required in *. rewrite negb_false_iff in *.
  match goal with H : validExecutorType _ = true |- _ =>
    apply bool_decide_eq_true in H; rename H into Hx end.
  apply elem_of_cons in Hx as [Hx|Hx]; [|apply list_elem_of_singleton in Hx].
  - left. rewrite decide_True in * by done. result_inv. unfold is_empty in *.
    rewrite bool_decide_eq_false in *. rewrite !bool_decide_false by done. eauto.
  - right. rewrite Hx in *. simpl in *. result_inv. unfold is_empty in *.
    rewrite negb_false_iff, bool_decide_eq_true in *.
    rewrite !bool_decide_true by done. done.
Qed.

(** On a database with the invariant, leasing an idle item to an idle session
    under a fresh attempt passes every constraint of the schema. *)
Lemma claimQueuedWork_total q e :
  exec_inv e → attempt_check (lease_attempt request q) = true →
  work_item_attempts e !! cr_AttemptID request = None →
  (cr_ExecutorType request = ExecutorTypeWorker → validateWorkerSessionCanClaim request e = Ok tt) →
  is_Some (work_items e !! wi_ID (qw_WorkItem q)) →
  is_Some (queued_work e !! wi_ID (qw_WorkItem q)) →
  (∀ a r, running_work e !! a = Some r → rr_work_item_id r ≠ wi_ID (qw_WorkItem q)) →
  claimQueuedWork eng request q e = Ok (Some (lease_record request q), leased request q e).
Proof.
  intros [Hb Ho] Hck Hfresh Hcan Hwi Hqu Hidle.
  assert (Hrun : running_work e !! cr_AttemptID request = None).
  { destruct (running_work e !! _) eqn:E; [|done].
    destruct (inv_running_attempt _ Hb _ _ E) as (? & ? & _). congruence. }
  assert (Hown : ∀ w s, nullString (cr_WorkerID request) = w →
     nullString (cr_WorkerSessionID request) = s →
     has_ref (workers e) w = true ∧ has_ref (worker_sessions e) s = true ∧
     session_pair_ref e w s = true ∧
     table_has (λ _ r', runs_session s r') (running_work e) = false).
  { intros w s Hw Hs. unfold attempt_check in Hck. apply bool_decide_eq_true in Hck. simpl in Hck.
    destruct Hck as [(Hx & [w' Hw'] & [s' Hs'])|(_ & Hw' & Hs')]; simplify_eq.
    - apply Hcan, canClaim_Ok in Hx as (row & Hrow & Hwid & _ & _ & Hno).
      rewrite Hw', Hs'. apply nullString_Some in Hw' as [Hw1 _], Hs' as [Hs1 _].
      rewrite Hs1 in *. destruct (inv_session _ Hb _ _ Hrow) as [_ Hwk].
      split_and!; simpl; [apply has_key_true; congruence|apply has_key_true; eauto| |].
      + rewrite Hrow. apply bool_decide_eq_true. congruence.
      + apply table_has_false. intros a r Ha. apply bool_decide_eq_false. eauto.
    - rewrite Hw', Hs'. split_and!; [done..|]. by apply table_has_false. }
  destruct (Hown _ _ eq_refl eq_refl) as (Hw & Hs & Hpair & Hsess).
  unfold claimQueuedWork, insert_work_item_attempt, insert_running_work.
  rewrite checked_pass; [| |by rewrite (proj2 (has_key_false _ _) Hfresh)|]; simpl; [|exact Hck|].
  2: { intros _. rewrite Hw, Hs, Hpair, (proj2 (has_key_true _ _) Hwi). done. }
  rewrite checked_pass; simpl; [|done| |].
  - by rewrite (proj2 (has_key_true _ _) Hqu).
  - rewrite (proj2 (has_key_false _ _) Hrun), Hsess.
    rewrite (proj2 (table_has_false _ _)); [done|].
    intros a r Ha. apply bool_decide_eq_false. by eapply Hidle.
  - intros _. change (session_pair_ref (set_work_item_attempts _ e)) with (session_pair_ref e).
    rewrite Hw, Hs, Hpair, (proj2 (has_key_true _ _) Hwi).
    rewrite (proj2 (has_key_true _ _)); [done|]. rewrite lookup_insert_eq. eauto.
Qed.

Lemma claim_first_total queue e :
  (∀ q, q ∈ queue → ∃ b, queuedResourceConstraintsAllow e (wi_ID (qw_WorkItem q)) = Ok b) →
  (∃ q, q ∈ queue ∧ queuedResourceConstraintsAllow e (wi_ID (qw_WorkItem q)) = Ok true) →
  ∃ q, q ∈ queue ∧ queuedResourceConstraintsAllow e (wi_ID (qw_WorkItem q)) = Ok true ∧
    claim_first eng request queue e = claimQueuedWork eng request q e.
Proof.
  induction queue as [|q queue IH]; simpl; intros Hall (q0 & Hin & Hq0).
  - by apply elem_of_nil in Hin.
  - destruct (Hall q) as [[] Hb]; [left|..].
    + exists q. split_and!; [left|done|]. by rewrite Hb.
    + destruct IH as (q' & ? & ? & Heq); [intros; apply Hall; by right| |].
      * exists q0. split; [|done]. apply elem_of_cons in Hin as [->|?]; [congruence|done].
      * exists q'. split_and!; [by right|done|]. rewrite Hb. exact Heq.
Qed.
End progress.

(** A worker session that may claim: registered to the worker, active, not past
    the cutoff, idle. *)
Definition session_can_claim (e : Exec) (request : ClaimWorkRequest) : Prop :=
  ∃ row, worker_sessions e !! cr_WorkerSessionID request = Some row ∧
    sr_worker_id row = cr_WorkerID request ∧ sr_status row = WorkerSessionStatusActive ∧
    (cr_LiveSessionCutoff request = "" ∨
     str_leb (cr_LiveSessionCutoff request) (sr_last_heartbeat_at row) = true) ∧
    ∀ a r, running_work e !! a = Some r → rr_worker_session_id r ≠ Some (cr_WorkerSessionID request).

Lemma session_can_claim_Ok e request :
  session_can_claim e request → validateWorkerSessionCanClaim request e = Ok tt.
Proof.
  intros (row & Hrow & Hwid & Hact & Hcut & Hno).
  unfold validateWorkerSessionCanClaim, getWorkerSession. rewrite Hrow, decide_True by done. simpl.
  rewrite Hact, bool_decide_false by (intros []; done). simpl.
  assert (negb (is_empty (cr_LiveSessionCutoff request)) &&
          str_ltb (sr_last_heartbeat_at row) (cr_LiveSessionCutoff request) = false) as ->.
  { unfold is_empty. destruct Hcut as [->|Hcut]; [done|].
    rewrite str_ltb_leb, Hcut. apply andb_false_r. }
  simpl. assert (count_running_for_session e (cr_WorkerSessionID request) = 0) as ->; [|done].
  apply table_count_0. intros a r Ha. apply bool_decide_eq_false. eauto.
Qed.

(** C28: a claim is served.  A valid request under a fresh attempt id, from an
    idle live session (or from the controller), gets work whenever some queued
    item is admitted by its constraints, provided no constraint check overflows
    and no admitted item in the queue is already running. *)
Theorem ClaimNextWork_served eng request db :
  reachable db → validate_claim request = Ok tt →
  (cr_ExecutorType request = ExecutorTypeWorker → session_can_claim (exec db) request) →
  work_item_attempts (exec db) !! cr_AttemptID request = None →
  (∀ id at_, queued_work (exec db) !! id = Some at_ →
     ∃ b, queuedResourceConstraintsAllow (exec db) id = Ok b) →
  (∀ id at_ a r, queued_work (exec db) !! id = Some at_ →
     queuedResourceConstraintsAllow (exec db) id = Ok true →
     running_work (exec db) !! a = Some r → rr_work_item_id r ≠ id) →
  (∃ id at_ item, queued_work (exec db) !! id = Some at_ ∧ work_items (exec db) !! id = Some item ∧
     queuedResourceConstraintsAllow (exec db) id = Ok true) →
  ∃ c db', ClaimNextWork eng request (Some db) = (Ok (Some c), Some db').
Proof.
  intros Hr Hv Hsess Hfresh Hchecks Hidle (id0 & at0 & item0 & Hq0 & Hw0 & Ha0).
  pose proof (reachable_exec_inv _ Hr) as Hinv. pose proof (proj1 Hinv) as Hb.
  assert (Hcan : cr_ExecutorType request = ExecutorTypeWorker →
    validateWorkerSessionCanClaim request (exec db) = Ok tt)
    by (intros; apply session_can_claim_Ok; auto).
  destruct (claim_first_total eng request (listQueuedWorkForClaim (exec db)) (exec db))
    as (q & Hin & Hal & Heq).
  - intros q (id & item & at_ & ? & Hw & ->)%elem_of_listQueued. simpl.
    rewrite (inv_item_key _ Hb _ _ Hw). eauto.
  - exists (mkQueued item0 at0). simpl. rewrite (inv_item_key _ Hb _ _ Hw0).
    split; [|done]. apply elem_of_listQueued. eauto 6.
  - apply elem_of_listQueued in Hin as (id & item & at_ & Hq & Hw & ->). simpl in *.
    pose proof (inv_item_key _ Hb _ _ Hw) as Hid. rewrite Hid in Hal.
    unfold ClaimNextWork, transact, on_exec_tx, tx_claim. rewrite Hv.
    assert ((if decide (cr_ExecutorType request = ExecutorTypeWorker)
             then validateWorkerSessionCanClaim request (exec db) else Ok tt) = Ok tt) as ->
      by (case_decide; auto).
    simpl. rewrite Heq, claimQueuedWork_total; simpl; rewrite ?Hid; eauto.
    by apply validate_claim_attempt.
Qed.

Lemma ClaimNextWork_served_witness :
  ∃ c db', ClaimNextWork demo_engine (demo_claim "t1" "w1" "s1") (Some demo_ready) =
    (Ok (Some c), Some db').
Proof.
  assert (Hrun : running_work (exec demo_ready) = ∅) by (vm_compute; reflexivity).
  apply ClaimNextWork_served.
  - exact demo_ready_reachable.
  - vm_compute. reflexivity.
  - intros _. eexists. split; [vm_compute; reflexivity|]. split_and!; [reflexivity..|by left|].
    intros a r Ha. rewrite Hrun in Ha. discriminate Ha.
  - vm_compute. reflexivity.
  - intros id at_ Hq.
    assert (Hall : table_has (λ id _, negb (is_Ok (queuedResourceConstraintsAllow (exec demo_ready) id)))
      (queued_work (exec demo_ready)) = false) by (vm_compute; reflexivity).
    exact (is_Ok_exists _ (proj1 (table_has_false _ _) Hall _ _ Hq)).
  - intros id at_ a r _ _ Ha. rewrite Hrun in Ha. discriminate Ha.
  - exists "a", "2026-01-01T00:00:01Z", (demo_item "a" 0). split_and!; vm_compute; reflexivity.
Defined.

(** ** Resource capacity *)

(** The constraint rows: keyed by item and index, one per item and resource. *)
Definition constraints_inv (e : Exec) : Prop :=
  (∀ k c, work_item_resource_constraints e !! k = Some c →
     k = constraint_key c ∧ constraint_check c = true) ∧
  (∀ k1 k2 c1 c2, work_item_resource_constraints e !! k1 = Some c1 →
     work_item_resource_constraints e !! k2 = Some c2 →
     rc_WorkItemID c1 = rc_WorkItemID c2 → rc_ResourceKey c1 = rc_ResourceKey c2 → k1 = k2).

Definition constraints_kept (e e' : Exec) : Prop := constraints_inv e → constraints_inv e'.

#[export] Instance constraints_kept_preorder : PreOrder constraints_kept.
Proof. unfold constraints_kept. split; [by intros e ?|]. intros ???. eauto. Qed.

Lemma same_constraints_kept e e' :
  work_item_resource_constraints e' = work_item_resource_constraints e → constraints_kept e e'.
Proof. unfold constraints_kept, constraints_inv. by intros ->. Qed.

Lemma insert_resource_constraint_kept eng c e e' :
  insert_resource_constraint eng c e = Ok e' → constraints_kept e e'.
Proof.
  unfold insert_resource_constraint. intros H [Hk Hu]. result_inv. sql_inv.
  match goal with H : table_has _ _ = false |- _ => rewrite table_has_false in H; rename H into Hno end.
  assert (Hfresh : ∀ k c', work_item_resource_constraints e !! k = Some c' →
    ¬ (rc_WorkItemID c' = rc_WorkItemID c ∧ rc_ResourceKey c' = rc_ResourceKey c)).
  { intros k c' Hc. specialize (Hno _ _ Hc). by apply bool_decide_eq_false in Hno. }
  split; simpl; intros; map_cases; eauto; exfalso; eapply Hfresh; eauto.
Qed.

#[export] Instance constraints_kept_respects eng : Respects eng constraints_kept.
Proof.
  split; [apply _|..].
  - intros. apply same_constraints_kept. unfold insert_worker_if_absent. by case_match.
  - unfold insert_worker_session. intros. result_inv. by apply same_constraints_kept.
  - intros. apply same_constraints_kept. unfold update_heartbeat. by repeat case_match.
  - intros. apply same_constraints_kept. unfold end_session_where. by repeat case_match.
  - unfold insert_work_item. intros. result_inv. by apply same_constraints_kept.
  - apply insert_resource_constraint_kept.
  - unfold insert_queued_work. intros. result_inv. by apply same_constraints_kept.
  - intros ????? (_ & _ & _ & _ & _ & _ & _ & ->)%claimQueuedWork_Ok. by apply same_constraints_kept.
  - intros ??? (_ & ->)%insert_completed_work_Ok. by apply same_constraints_kept.
  - intros ??? (_ & ->)%insert_failed_work_Ok. by apply same_constraints_kept.
  - unfold insert_abandoned_work. intros. result_inv. by apply same_constraints_kept.
  - intros ??? (_ & ->)%deleteRunningWork_Ok. by apply same_constraints_kept.
Qed.

Lemma reachable_constraints db : reachable db → constraints_inv (exec db).
Proof.
  induction 1 as [|db eng o _ IH].
  - split; simpl; intros *; by rewrite lookup_empty.
  - by apply (run_op_rel eng constraints_kept).
Qed.

(** A list whose elements are all [x], without repetition and not empty, is [x]. *)
Lemma NoDup_all_eq {A} (l : list A) x : NoDup l → (∀ y, y ∈ l ↔ y = x) → l = [x].
Proof.
  intros Hnd Hl. destruct l as [|y l].
  - exfalso. apply (elem_of_nil x). by apply Hl.
  - assert (y = x) as -> by (apply Hl; left). f_equal. destruct l as [|z l]; [done|].
    apply NoDup_cons in Hnd as [Hni _]. destruct Hni.
    assert (z = x) as -> by (apply Hl; right; left). left.
Qed.

Lemma sum_perm {A} (f : A → Z) l1 l2 :
  l1 ≡ₚ l2 → foldr (λ x acc, f x + acc) 0 l1 = foldr (λ x acc, f x + acc) 0 l2.
Proof. induction 1; simpl; lia. Qed.

Section capacity.
Context (e : Exec).
Hypothesis (Hc : constraints_inv e).

Lemma item_units_constraint k c :
  work_item_resource_constraints e !! k = Some c →
  item_units e (rc_ResourceKey c) (rc_WorkItemID c) = rc_RequestedUnits c.
Proof using Hc.
  intros Hk. unfold item_units.
  rewrite (NoDup_all_eq (table_rows _ _) (k, c)); [simpl; lia|..].
  - apply (NoDup_fmap_1 fst), table_rows_NoDup.
  - intros [k' c']. rewrite elem_of_table_rows, bool_decide_eq_true. split.
    + intros (Hk' & Hi & Hr). destruct (proj2 Hc _ _ _ _ Hk' Hk Hi Hr). congruence.
    + by intros [= -> ->].
Qed.

(** A new running row adds its item's units. *)
Lemma running_units_insert a r rows key :
  running_work e !! a = None → rows = <[a:=r]> (running_work e) →
  running_units (set_running_work rows e) key =
  item_units e key (rr_work_item_id r) + running_units e key.
Proof using.
  intros Ha ->. unfold running_units. simpl.
  change (item_units (set_running_work _ e) key) with (item_units e key).
  assert (Hp : map_to_list (<[a:=r]> (running_work e)) ≡ₚ (a, r) :: map_to_list (running_work e))
    by by apply map_to_list_insert.
  by rewrite (sum_perm (λ kv, item_units e key (rr_work_item_id kv.2)) _ _ Hp).
Qed.

(** The check of a constraint compares the units in use with its request. *)
Lemma checks_mention k c id checks :
  listQueuedResourceConstraintChecksForWorkItem e id = Ok checks →
  is_Some (queued_work e !! id) →
  work_item_resource_constraints e !! k = Some c → rc_WorkItemID c = id →
  int64 (running_units e (rc_ResourceKey c)) ∧
  mkCheck (running_units e (rc_ResourceKey c)) (rc_RequestedUnits c) (rc_Operator c)
    (rc_TargetUnits c) ∈ checks.
Proof using.
  unfold listQueuedResourceConstraintChecksForWorkItem. intros H [at_ Hq] Hk Hi. rewrite Hq in H.
  assert (Hin : c ∈ order_by (by_int rc_ConstraintIndex)
     (snd <$> table_rows (λ _ c, bool_decide (rc_WorkItemID c = id))
               (work_item_resource_constraints e))).
  { apply elem_of_order_by, list_elem_of_fmap. exists (k, c). split; [done|].
    apply elem_of_table_rows. by rewrite bool_decide_eq_true. }
  revert H Hin. generalize (order_by (by_int rc_ConstraintIndex)
     (snd <$> table_rows (λ _ c, bool_decide (rc_WorkItemID c = id))
               (work_item_resource_constraints e))) as cs.
  generalize (@nil ResourceConstraintCheck) as acc. intros acc cs. revert acc.
  induction cs as [|c' cs IH]; intros acc H Hin; [by apply elem_of_nil in Hin|].
  simpl in H. apply bind_Ok in H as (acc1 & H1 & H2).
  apply elem_of_cons in Hin as [<-|Hin]; [|exact (IH _ H2 Hin)].
  unfold append_check in H1. apply bind_Ok in H1 as (total & Ht & [= <-]). unfold total_units in Ht.
  case_decide as Hint; [|done]. injection Ht as <-. split; [done|].
  clear IH. revert H2. set (P := λ l : list ResourceConstraintCheck,
    mkCheck (running_units e (rc_ResourceKey c)) (rc_RequestedUnits c) (rc_Operator c)
      (rc_TargetUnits c) ∈ l).
  intros H2. refine (foldM_inv P _ _ _ _ _ _ H2).
  - unfold append_check. intros l c'' l' _ HP Hl. result_inv. apply elem_of_app. by left.
  - apply elem_of_app. right. left.
Qed.
End capacity.

(** C29: leases respect capacity.  After a claim, every constraint of the leased
    item holds of the units then in use on its resource, the leased item
    included: the operator relates that total to the target, and the total fits
    in 64 bits. *)
Theorem ClaimNextWork_capacity eng request db c db' :
  reachable db →
  (∀ k r, work_item_resource_constraints (exec db) !! k = Some r → int64 (rc_RequestedUnits r)) →
  ClaimNextWork eng request (Some db) = (Ok (Some c), Some db') →
  ∀ k r, work_item_resource_constraints (exec db) !! k = Some r →
    rc_WorkItemID r = wi_ID (cl_WorkItem c) →
    let total := running_units (exec db') (rc_ResourceKey r) in
    int64 total ∧ op_holds (rc_Operator r) total (rc_TargetUnits r).
Proof.
  intros Hr Hint H k r Hk Hi. simpl. pose proof (reachable_constraints _ Hr) as Hc.
  apply ClaimNextWork_Ok in H as (_ & e' & H & [= ->]). simpl.
  apply tx_claim_Some in H as (_ & q1 & q & q2 & _ & _ & Hal & H).
  apply claimQueuedWork_Ok in H as (_ & _ & Hrun & _ & _ & Hqu & [= ->] & ->). simpl in *.
  unfold queuedResourceConstraintsAllow in Hal. apply bind_Ok in Hal as (checks & Hch & Hal).
  rewrite wrap_err_Ok in Hch.
  destruct (checks_mention _ _ _ _ _ Hch Hqu Hk Hi) as [Htot Hin].
  pose proof (running_units_insert (exec db) (cr_AttemptID request) (lease_running request q)
    _ (rc_ResourceKey r) Hrun eq_refl) as Hsum. simpl in Hsum.
  rewrite <- Hi, (item_units_constraint _ Hc _ _ Hk) in Hsum.
  change (running_units (leased request q (exec db)) (rc_ResourceKey r)) with
    (running_units (set_running_work
       (<[cr_AttemptID request := lease_running request q]> (running_work (exec db))) (exec db))
       (rc_ResourceKey r)).
  rewrite Hsum, Z.add_comm. unfold ResourceConstraintChecksAllow in Hal.
  rewrite checks_allow_from_true in Hal; [exact (Hal _ Hin)|].
  clear -Hch Hint Hqu.
  intros chk Hchk. unfold listQueuedResourceConstraintChecksForWorkItem in Hch.
  destruct Hqu as [at_ Hq]. rewrite Hq in Hch. revert chk Hchk.
  refine (foldM_inv (λ l, ∀ chk, chk ∈ l → int64 (TotalUnits chk) ∧ int64 (RequestedUnits chk))
    _ _ _ _ _ _ Hch); [|by intros ? ?%elem_of_nil].
  intros l c l' Hin Hl Hstep. unfold append_check in Hstep. result_inv. unfold total_units in *. case_decide; result_inv.
  intros chk [?|Hx]%elem_of_app; [by apply Hl|]. apply list_elem_of_singleton in Hx as ->. simpl.
  split; [done|]. apply elem_of_order_by, list_elem_of_fmap in Hin as ([k c'] & -> & Hin).
  apply elem_of_table_rows in Hin as [Hin _]. by eapply Hint.
Qed.

Lemma ClaimNextWork_capacity_witness :
  running_units (exec demo_leased) "gpu" ≤ 3.
Proof.
  assert (H : ClaimNextWork demo_engine (demo_claim "t1" "w1" "s1") (Some demo_ready) =
    (Ok (Some (lease_record (demo_claim "t1" "w1" "s1")
                (demo_queued "a" 0 "2026-01-01T00:00:01Z"))), Some demo_leased))
    by (vm_compute; reflexivity).
  assert (Hint : ∀ k r, work_item_resource_constraints (exec demo_ready) !! k = Some r →
    int64 (rc_RequestedUnits r)).
  { intros k r Hk.
    assert (Hall : table_has (λ _ r, negb (bool_decide (int64 (rc_RequestedUnits r))))
      (work_item_resource_constraints (exec demo_ready)) = false) by (vm_compute; reflexivity).
    pose proof (proj1 (table_has_false _ _) Hall _ _ Hk) as Hb.
    exact (proj1 (bool_decide_eq_true _) (proj1 (negb_false_iff _) Hb)). }
  assert (Hk : work_item_resource_constraints (exec demo_ready) !! ("a", 0) = Some (demo_constraint "a"))
    by (vm_compute; reflexivity).
  pose proof (ClaimNextWork_capacity _ _ _ _ _ demo_ready_reachable Hint H _ _ Hk eq_refl)
    as [_ Hop].
  exact (op_holds_le _ _ Hop).
Defined.

(** The queue can be blocked by its own head.  When the first queued item
    that its constraints admit already has a running attempt (the enqueue
    operations do not look at [running_work], so a repeated submission puts a
    leased item back in the queue), every claim fails on the UNIQUE key of
    [running_work] and no later item is tried. *)
Theorem ClaimNextWork_blocked_by_running_head eng request db q1 q q2 a r :
  listQueuedWorkForClaim (exec db) = q1 ++ q :: q2 →
  (∀ q', q' ∈ q1 →
     queuedResourceConstraintsAllow (exec db) (wi_ID (qw_WorkItem q')) = Ok false) →
  queuedResourceConstraintsAllow (exec db) (wi_ID (qw_WorkItem q)) = Ok true →
  running_work (exec db) !! a = Some r → rr_work_item_id r = wi_ID (qw_WorkItem q) →
  ∃ err, ClaimNextWork eng request (Some db) = (Err err, Some db).
Proof.
  intros Hq Hbefore Hal Ha Hi.
  unfold ClaimNextWork, transact, on_exec_tx, tx_claim.
  destruct (validate_claim request) as [[]|err]; [|by exists err].
  destruct (if decide _ then _ else Ok tt) as [[]|err]; simpl; [|by exists err].
  assert (Hstep : claim_first eng request (listQueuedWorkForClaim (exec db)) (exec db) =
                  claimQueuedWork eng request q (exec db)).
  { rewrite Hq. clear Hq. induction q1 as [|q' q1 IH]; simpl; [by rewrite Hal|].
    rewrite (Hbefore q') by left. simpl. apply IH. intros q'' ?. apply Hbefore. by right. }
  rewrite Hstep. destruct (claimQueuedWork eng request q (exec db)) as [[c e']|err] eqn:H; [|by exists err].
  apply claimQueuedWork_Ok in H as (_ & _ & _ & Hno & _). by destruct (Hno _ _ Ha).
Qed.

(** A submission without constraints, leased, then submitted again. *)
Definition demo_resubmit : op :=
  OpQueueWorkItems (mkQueueReq [demo_item "a" 0; demo_item "b" 1] []
    [demo_queued "a" 0 "2026-01-01T00:00:01Z"; demo_queued "b" 1 "2026-01-01T00:00:02Z"]).
Definition demo_blocked : DB :=
  run_ops demo_engine
    (demo_catalog ++ [demo_resubmit; demo_session "w1" "s1"; demo_session "w2" "s2";
       OpClaim (demo_claim "t1" "w1" "s1"); demo_resubmit]) emptyDB.

Lemma ClaimNextWork_blocked_by_running_head_witness :
  ∃ err, ClaimNextWork demo_engine (demo_claim "t2" "w2" "s2") (Some demo_blocked) =
    (Err err, Some demo_blocked).
Proof.
  apply (ClaimNextWork_blocked_by_running_head demo_engine (demo_claim "t2" "w2" "s2") demo_blocked
    [] (demo_queued "a" 0 "2026-01-01T00:00:01Z") [demo_queued "b" 1 "2026-01-01T00:00:02Z"] "t1"
    (mkRunningRow "a" (Some "w1") (Some "s1") "2026-01-01T00:00:01Z" "2026-01-01T00:00:20Z")).
  - vm_compute. reflexivity.
  - intros q' H. destruct (proj1 (elem_of_nil q') H).
  - vm_compute. reflexivity.
  - vm_compute. reflexivity.
  - reflexivity.
Defined.
