(* ===== verification/StoreReport.v ===== *)
(** * The workflow store: reports and fencing

    How [CompleteAttempt] and [FailAttempt] treat a report: a worker that lost
    its lease is fenced off, only the live owner may finish a running attempt,
    and a repeated report is answered from the recorded outcome. *)

From S2P Require Import Prelude StoreData StoreSQL StoreOps StoreInv StoreFrame StoreLease.
Local Open Scope Z_scope.

(** C1: the store invariant.  In every database that any sequence of operations
    produces, each attempt is running or has at least one outcome, a running
    attempt has none, a completed one has no other (an abandoned one may also be
    failed, by the retry ceiling); every running row agrees with its
    attempt; a work item and a session have at most one running attempt; a
    session is active exactly while it has no end time; and running work belongs
    to a session that is active and registered to the worker named in the row. *)
Theorem reachable_store_invariant db : reachable db → exec_inv (exec db).
Proof. apply reachable_exec_inv. Qed.

Lemma reachable_store_invariant_witness :
  owners_active (exec demo_leased) ∧ is_Some (running_work (exec demo_leased) !! "t1").
Proof.
  split; [exact (proj2 (reachable_store_invariant _ demo_leased_reachable))|].
  exists (mkRunningRow "a" (Some "w1") (Some "s1") "2026-01-01T00:00:01Z" "2026-01-01T00:00:20Z").
  vm_compute. reflexivity.
Defined.

Lemma not_running_read e a : running_work e !! a = None → getRunningWork e a = None.
Proof. unfold getRunningWork. by intros ->. Qed.

(** A report that is refused leaves the store alone. *)
Lemma transact_exec_Err {A} db v (body : Exec → result (A * Exec)) err :
  v = Ok tt → body (exec db) = Err err →
  transact (Some db) v (on_exec_tx body) = (Err err, Some db).
Proof. intros -> Hb. unfold transact, on_exec_tx. by rewrite Hb. Qed.

Lemma transact_exec_Ok {A} db v (body : Exec → result (A * Exec)) a e' :
  v = Ok tt → body (exec db) = Ok (a, e') →
  transact (Some db) v (on_exec_tx body) = (Ok a, Some (mkDB (catalog db) e')).
Proof. intros -> Hb. unfold transact, on_exec_tx. by rewrite Hb. Qed.

Lemma db_eta db : mkDB (catalog db) (exec db) = db.
Proof. by destruct db. Qed.

(** C25: fencing.  A worker whose attempt was taken away (abandoned, and not
    failed by the retry ceiling) gets [ErrAssignmentNoLongerOwned] for any valid
    report that names a worker, success or failure, and the report changes
    nothing. *)
Theorem lost_lease_is_fenced eng db a b complete fail :
  reachable db →
  abandoned_work (exec db) !! a = Some b → failed_work (exec db) !! a = None →
  validate_complete complete = Ok tt → ca_AttemptID complete = a → ca_WorkerID complete ≠ "" →
  validate_fail fail = Ok tt → fa_AttemptID fail = a → fa_WorkerID fail ≠ "" →
  CompleteAttempt eng complete (Some db) = (Err ErrAssignmentNoLongerOwned, Some db) ∧
  FailAttempt eng fail (Some db) = (Err ErrAssignmentNoLongerOwned, Some db).
Proof.
  intros Hr Hab Hf Hvc <- Hwc Hvf Hfa Hwf. destruct (reachable_exec_inv _ Hr) as [Hb _].
  assert (Hrun : running_work (exec db) !! ca_AttemptID complete = None).
  { destruct (running_work _ !! _) eqn:E; [|done].
    destruct (inv_running_open _ Hb _ _ E) as (_ & _ & ?). congruence. }
  assert (Hc : completed_work (exec db) !! ca_AttemptID complete = None).
  { destruct (completed_work _ !! _) eqn:E; [|done].
    destruct (inv_completed_only _ Hb _ _ E). congruence. }
  assert (Ha : hasAbandonedWork (exec db) (ca_AttemptID complete) = true)
    by (apply has_key_true; eauto).
  split; apply transact_exec_Err; try done.
  - unfold tx_complete, getCompletedWork, getFailedWork.
    rewrite not_running_read, Hc, Hf, Ha by done. unfold is_empty. by rewrite bool_decide_false.
  - unfold tx_fail, getCompletedWork, getFailedWork. rewrite Hfa.
    rewrite not_running_read, Hc, Hf, Ha by done. unfold is_empty. by rewrite bool_decide_false.
Qed.

(** Session [s1] lost its lease [t1] when it was stopped. *)
Definition demo_lost : DB :=
  run_op demo_engine (OpStop (mkStop "w1" "s1" "2026-01-01T00:01:00Z" "drain")) demo_leased.
Definition demo_complete (a w s : string) : CompleteAttemptRequest :=
  mkCompleteReq a w s "" "" "{}" "out" "pre" "post" "2026-01-01T00:02:00Z".
Definition demo_fail (a w s : string) : FailAttemptRequest :=
  mkFailReq a w s "" "boom" "2026-01-01T00:02:00Z".

Lemma demo_lost_reachable : reachable demo_lost.
Proof. apply reachable_op, demo_leased_reachable. Qed.

Lemma lost_lease_is_fenced_witness :
  CompleteAttempt demo_engine (demo_complete "t1" "w1" "s1") (Some demo_lost) =
    (Err ErrAssignmentNoLongerOwned, Some demo_lost).
Proof.
  refine (proj1 (lost_lease_is_fenced demo_engine demo_lost "t1"
    (mkAbandoned "t1" "a" "w1" "s1" "2026-01-01T00:00:01Z" "2026-01-01T00:00:20Z"
       "2026-01-01T00:01:00Z" "worker_stopped")
    (demo_complete "t1" "w1" "s1") (demo_fail "t1" "w1" "s1")
    demo_lost_reachable _ _ _ eq_refl _ _ eq_refl _));
    try (intros H; discriminate H); vm_compute; reflexivity.
Defined.

(** What ownership of a running attempt means for a report with an identity. *)
Definition owns_assignment (e : Exec) (a worker session cutoff : string) : Prop :=
  ∃ r row, running_work e !! a = Some r ∧
    rr_worker_id r = Some worker ∧ rr_worker_session_id r = Some session ∧
    worker_sessions e !! session = Some row ∧ sr_worker_id row = worker ∧
    sr_status row = WorkerSessionStatusActive ∧
    (cutoff = "" ∨ str_leb cutoff (sr_last_heartbeat_at row) = true).

Lemma from_null_Some o s : from_null o = s → s ≠ "" → o = Some s.
Proof. destruct o; simpl; congruence. Qed.

Lemma owner_check_Ok e a r worker session cutoff :
  running_work e !! a = Some r → worker ≠ "" →
  validateRunningAssignmentOwner (scanRunning a r) worker session cutoff e = Ok tt ↔
  owns_assignment e a worker session cutoff ∧ session ≠ "".
Proof.
  intros Ha Hw. unfold validateRunningAssignmentOwner, getWorkerSession, is_empty.
  rewrite (bool_decide_false (worker = "")) by done. simpl. unfold owns_assignment. split.
  - intros H. destruct (decide (session = "")) as [->|Hs]; [done|].
    rewrite (bool_decide_false (session = "")) in H by done. simpl in H.
    apply bind_Ok in H as (u & Hid & H). rewrite fail_if_Ok, bool_decide_eq_false in Hid.
    destruct (worker_sessions e !! session) as [row|] eqn:Hrow; [|done].
    case_decide as Hwid; [|done]. apply bind_Ok in H as (u1 & Hst & Hcut).
    rewrite fail_if_Ok in Hst, Hcut. rewrite bool_decide_eq_false in Hst. simpl in *.
    destruct (decide (from_null (rr_worker_id r) = worker)) as [E1|]; [|tauto].
    destruct (decide (from_null (rr_worker_session_id r) = session)) as [E2|]; [|tauto].
    split; [|done]. exists r, row.
    split_and!; [done|by apply from_null_Some|by apply from_null_Some|done..|by apply dec_stable|].
    destruct (decide (cutoff = "")) as [->|Hne]; [by left|right].
    rewrite (bool_decide_false (cutoff = "")), str_ltb_leb in Hcut by done.
    by apply negb_false_iff in Hcut.
  - intros [(r' & row & Hr' & Hw' & Hs' & Hrow & Hwid & Hact & Hcut) Hs].
    rewrite Ha in Hr'. injection Hr' as <-.
    rewrite (bool_decide_false (session = "")) by done. simpl.
    rewrite Hw', Hs', Hrow, decide_True by done. simpl.
    rewrite (bool_decide_false (_ ∨ _)) by naive_solver. simpl.
    rewrite Hact. rewrite (bool_decide_false (_ ≠ _)) by (intros []; done). simpl.
    destruct Hcut as [->|Hcut]; [done|]. rewrite str_ltb_leb, Hcut. simpl. by rewrite andb_false_r.
Qed.

(** Only the live owner finishes a running attempt.  For a valid report that
    carries a worker identity, on an attempt that is running and on an engine
    that accepts the output as JSON, [CompleteAttempt] succeeds exactly when the
    lease belongs to that worker and session, the session is active and its
    heartbeat is not before the cutoff; then it records the completed work and
    ends the lease.  Otherwise it answers [ErrAssignmentNoLongerOwned] and
    changes nothing. *)
Theorem CompleteAttempt_owner eng db request r :
  reachable db → validate_complete request = Ok tt → ca_WorkerID request ≠ "" →
  running_work (exec db) !! ca_AttemptID request = Some r →
  json_valid eng (ca_OutputJSON request) = true → ca_SkippedParentID request = "" →
  let owns := owns_assignment (exec db) (ca_AttemptID request) (ca_WorkerID request)
                (ca_WorkerSessionID request) (ca_LiveSessionCutoff request) in
  (owns → ∃ c db', CompleteAttempt eng request (Some db) = (Ok (Some c), Some db') ∧
     cw_WorkItemID c = rr_work_item_id r ∧ cw_OutputJSON c = ca_OutputJSON request ∧
     completed_work (exec db') = <[ca_AttemptID request := c]> (completed_work (exec db)) ∧
     running_work (exec db') = delete (ca_AttemptID request) (running_work (exec db)) ∧
     worker_sessions (exec db') = worker_sessions (exec db) ∧ catalog db' = catalog db) ∧
  (¬ owns → CompleteAttempt eng request (Some db) = (Err ErrAssignmentNoLongerOwned, Some db)).
Proof.
  intros Hreach Hv Hw Hr Hjson Hskip owns. destruct (reachable_exec_inv _ Hreach) as [Hb _].
  assert (Hs : ca_WorkerSessionID request ≠ "").
  { unfold validate_complete in Hv. result_inv.
    unfold half_identity, is_empty in *. rewrite (bool_decide_false (ca_WorkerID request = "")) in * by done.
    match goal with H : xorb false _ = false |- _ => rewrite xorb_false_l, bool_decide_eq_false in H; exact H end. }
  pose proof (owner_check_Ok _ _ _ _ (ca_WorkerSessionID request) (ca_LiveSessionCutoff request) Hr Hw)
    as Hown.
  assert (Hget : getRunningWork (exec db) (ca_AttemptID request) =
                 Some (scanRunning (ca_AttemptID request) r))
    by (unfold getRunningWork; by rewrite Hr).
  split; intros Ho.
  - eexists _, _. split; [apply transact_exec_Ok; [done|]|].
    + unfold tx_complete. rewrite Hget, (proj2 Hown) by done. simpl.
      destruct (inv_running_attempt _ Hb _ _ Hr) as (t & Ht & Hti & _).
      destruct (inv_attempt _ Hb _ _ Ht) as [_ Hwi].
      destruct (inv_running_open _ Hb _ _ Hr) as (Hc & _ & _).
      unfold insert_completed_work. rewrite Hskip. simpl.
      rewrite checked_pass; [|done|by rewrite (proj2 (has_key_false _ _) Hc)|].
      * simpl. unfold deleteRunningWork. simpl. rewrite Hr. simpl. reflexivity.
      * intros _. rewrite (proj2 (has_key_true _ _) (mk_is_Some _ _ Ht)).
        rewrite <- Hti. by rewrite (proj2 (has_key_true _ _) Hwi).
    + done.
  - apply transact_exec_Err; [done|]. unfold tx_complete. rewrite Hget.
    destruct (validateRunningAssignmentOwner _ _ _ _ _) as [[]|err] eqn:E.
    { destruct Ho. by apply Hown. }
    simpl. f_equal. unfold validateRunningAssignmentOwner, is_empty in E.
    rewrite !(bool_decide_false (_ = "")) in E by done. simpl in E.
    repeat case_match; unfold fail_if in E; repeat case_match; simpl in E; congruence.
Qed.

Lemma CompleteAttempt_owner_witness :
  (∃ c db', CompleteAttempt demo_engine (demo_complete "t1" "w1" "s1") (Some demo_leased) =
     (Ok (Some c), Some db')) ∧
  CompleteAttempt demo_engine (demo_complete "t1" "w2" "s2") (Some demo_leased) =
     (Err ErrAssignmentNoLongerOwned, Some demo_leased).
Proof.
  set (r := mkRunningRow "a" (Some "w1") (Some "s1") "2026-01-01T00:00:01Z" "2026-01-01T00:00:20Z").
  assert (Hr : running_work (exec demo_leased) !! "t1" = Some r) by (vm_compute; reflexivity).
  split.
  - destruct (CompleteAttempt_owner demo_engine demo_leased (demo_complete "t1" "w1" "s1") r
      demo_leased_reachable) as [Hyes _]; try reflexivity; try exact Hr;
      [intros H; discriminate H|].
    destruct Hyes as (c & db' & H & _); [|exact (ex_intro _ c (ex_intro _ db' H))].
    exists r. eexists. split; [exact Hr|]. split; [reflexivity|]. split; [reflexivity|].
    split; [vm_compute; reflexivity|]. split_and!; [reflexivity|reflexivity|by left].
  - refine (proj2 (CompleteAttempt_owner demo_engine demo_leased (demo_complete "t1" "w2" "s2") r
      demo_leased_reachable eq_refl _ Hr eq_refl eq_refl) _); [intros H; discriminate H|].
    intros (r' & row & Hr' & Hw & _). change (ca_AttemptID _) with "t1" in Hr'.
    rewrite Hr in Hr'. injection Hr' as <-. discriminate Hw.
Defined.

(** ** Repeated reports *)

(** The payload of a report agrees with a recorded completion. *)
Definition same_payload (c : CompletedWorkRecord) (request : CompleteAttemptRequest) : Prop :=
  cw_SkippedParentID c = ca_SkippedParentID request ∧ cw_OutputJSON c = ca_OutputJSON request ∧
  cw_OutputJSONSHA256 c = ca_OutputJSONSHA256 request ∧
  cw_PreStateSHA256 c = ca_PreStateSHA256 request ∧ cw_PostStateSHA256 c = ca_PostStateSHA256 request.

Lemma completed_not_running e a c :
  exec_base e → completed_work e !! a = Some c → running_work e !! a = None.
Proof.
  intros Hb Hc. destruct (running_work e !! a) eqn:E; [|done].
  destruct (inv_running_open _ Hb _ _ E) as (? & _). congruence.
Qed.

(** A completed attempt stays completed.  Whatever operations follow, a valid
    completion report for it with the recorded payload, whoever sends it and
    whatever completion time it carries, is answered with the record made first;
    one with another payload is refused, and so is a failure report; none of them
    changes the store. *)
Theorem completed_attempt_is_final eng os db a c request fail :
  reachable db → completed_work (exec db) !! a = Some c →
  validate_complete request = Ok tt → ca_AttemptID request = a →
  validate_fail fail = Ok tt → fa_AttemptID fail = a →
  let later := run_ops eng os db in
  (same_payload c request → CompleteAttempt eng request (Some later) = (Ok (Some c), Some later)) ∧
  (¬ same_payload c request →
   CompleteAttempt eng request (Some later) =
     (Err (Errorf ("complete attempt " +:+ a +:+ " conflicts with existing completed work")),
      Some later)) ∧
  FailAttempt eng fail (Some later) =
    (Err (Errorf ("fail attempt " +:+ a +:+ " conflicts with existing completed work")), Some later).
Proof.
  intros Hr Hc Hv <- Hvf Hfa later.
  assert (Hr' : reachable later) by by apply reachable_run_ops.
  destruct (reachable_exec_inv _ Hr') as [Hb _].
  assert (Hc' : completed_work (exec later) !! ca_AttemptID request = Some c).
  { eapply lookup_weaken; [exact Hc|]. apply (run_ops_rel history_kept eng os db). }
  pose proof (completed_not_running _ _ _ Hb Hc') as Hnr.
  destruct (inv_completed_only _ Hb _ _ Hc') as [Hf _].
  destruct (inv_completed _ Hb _ _ Hc') as [Hid _].
  assert (Hm : completedWorkMatchesRequest c request = true ↔ same_payload c request).
  { unfold completedWorkMatchesRequest, same_payload. rewrite bool_decide_eq_true. naive_solver. }
  assert (Hget : getRunningWork (exec later) (ca_AttemptID request) = None)
    by by apply not_running_read.
  split_and!.
  - intros Hs%Hm. etrans; [apply transact_exec_Ok; [done|]|by rewrite db_eta].
    unfold tx_complete, getCompletedWork. rewrite Hget, Hc', Hs. reflexivity.
  - intros Hs. apply transact_exec_Err; [done|]. unfold tx_complete, getCompletedWork.
    rewrite Hget, Hc'. destruct (completedWorkMatchesRequest c request); [|done].
    destruct Hs. by apply Hm.
  - apply transact_exec_Err; [done|]. unfold tx_fail, getCompletedWork, getFailedWork.
    by rewrite Hfa, Hget, Hf, Hc'.
Qed.

Definition demo_completed : DB :=
  run_op demo_engine (OpComplete (demo_complete "t1" "w1" "s1")) demo_leased.

Lemma completed_attempt_is_final_witness :
  FailAttempt demo_engine (demo_fail "t1" "w1" "s1")
    (Some (run_ops demo_engine [OpStop (mkStop "w1" "s1" "2026-01-01T00:03:00Z" "drain")]
             demo_completed)) =
  (Err (Errorf "fail attempt t1 conflicts with existing completed work"),
   Some (run_ops demo_engine [OpStop (mkStop "w1" "s1" "2026-01-01T00:03:00Z" "drain")]
           demo_completed)).
Proof.
  refine (proj2 (proj2 (completed_attempt_is_final demo_engine
    [OpStop (mkStop "w1" "s1" "2026-01-01T00:03:00Z" "drain")] demo_completed "t1"
    (mkCompleted "t1" "a" "" "{}" "out" "pre" "post" "2026-01-01T00:00:01Z" "2026-01-01T00:00:20Z"
       "2026-01-01T00:02:00Z")
    (demo_complete "t1" "w1" "s1") (demo_fail "t1" "w1" "s1")
    (reachable_op _ _ _ demo_leased_reachable) _ _ eq_refl _ eq_refl)));
    vm_compute; reflexivity.
Defined.
