(* ===== verification/StoreRecovery.v ===== *)
(** * The workflow store: recovering the work of expired sessions

    [RecoverExpiredWorkerSessions] marks every active session whose heartbeat is
    older than the cutoff as dead, abandons what it was running, and puts the
    item back in the queue, or fails it once it has been abandoned for this
    reason more than [expiredSessionRequeueLimit] times. *)

From S2P Require Import Prelude GoTime StoreData StoreSQL StoreOps StoreInv StoreFrame StoreLease StoreReport.
Local Open Scope Z_scope.

Section recovery.
Context (eng : Engine) (request : RecoverExpiredWorkerSessionsRequest).

(** The row that abandoning attempt [a] leaves, and the row that failing it does. *)
Definition abandonment (a : string) (r : running_row) : AbandonedWorkRecord :=
  mkAbandoned a (rr_work_item_id r) (from_null (rr_worker_id r))
    (from_null (rr_worker_session_id r)) (rr_queued_at r) (rr_started_at r)
    (rv_RecoveredAt request) (rv_Reason request).
Definition exhaustion (a : string) (r : running_row) : FailedWorkRecord :=
  mkFailed a (rr_work_item_id r)
    ("expired-session retry ceiling reached after " +:+ pretty expiredSessionRequeueLimit +:+
     " requeues: " +:+ rv_Reason request)
    (rr_queued_at r) (rr_started_at r) (rv_RecoveredAt request).

(** What became of the item of a recovered attempt: queued again while it has
    been abandoned for this reason at most three times, this time included,
    and failed for good after that. *)
Definition requeued_or_failed (e0 e : Exec) (a : string) (r : running_row) : Prop :=
  if decide (abandonments e0 (rr_work_item_id r) (rv_Reason request) < expiredSessionRequeueLimit)
  then is_Some (queued_work e !! rr_work_item_id r) ∧ failed_work e !! a = None
  else failed_work e !! a = Some (exhaustion a r) ∧
       queued_work e !! rr_work_item_id r = queued_work e0 !! rr_work_item_id r.

(** State [e] after the running attempts in [P] of state [e0] were recovered. *)
Record recovered (e0 : Exec) (P : gset string) (e : Exec) : Prop := {
  rec_running a : running_work e !! a = if decide (a ∈ P) then None else running_work e0 !! a;
  rec_abandoned a :
    abandoned_work e !! a =
      if decide (a ∈ P) then abandonment a <$> running_work e0 !! a else abandoned_work e0 !! a;
  rec_failed_other a : a ∉ P → failed_work e !! a = failed_work e0 !! a;
  rec_outcome a r : a ∈ P → running_work e0 !! a = Some r → requeued_or_failed e0 e a r;
  rec_item i :
    (∀ a r, a ∈ P → running_work e0 !! a = Some r → rr_work_item_id r ≠ i) →
    queued_work e !! i = queued_work e0 !! i ∧
    abandonments e i (rv_Reason request) = abandonments e0 i (rv_Reason request);
  rec_attempts : work_item_attempts e = work_item_attempts e0;
  rec_completed : completed_work e = completed_work e0
}.

Lemma recovered_start e0 e :
  running_work e = running_work e0 → abandoned_work e = abandoned_work e0 →
  failed_work e = failed_work e0 → queued_work e = queued_work e0 →
  work_item_attempts e = work_item_attempts e0 → completed_work e = completed_work e0 →
  recovered e0 ∅ e.
Proof.
  intros Hr Ha Hf Hq Ht Hc. constructor; try done.
  - intros a. by rewrite Hr.
  - intros a. by rewrite Ha.
  - intros a _. by rewrite Hf.
  - intros i _. unfold abandonments. by rewrite Hq, Ha.
Qed.

(** The abandonment itself cannot fail on a running attempt of a session. *)
Lemma abandon_total e a r s :
  exec_base e → running_work e !! a = Some r → rr_worker_session_id r = Some s →
  abandonRunningWork eng (scanRunning a r) (rv_RecoveredAt request) (rv_Reason request) e =
  Ok (set_running_work (delete a (running_work e))
        (set_abandoned_work (<[a := abandonment a r]> (abandoned_work e)) e)).
Proof.
  intros Hb Ha Hs. destruct (inv_running_attempt _ Hb _ _ Ha) as (t & Ht & Hti & _).
  destruct (inv_attempt _ Hb _ _ Ht) as [_ Hwi]. rewrite Hti in Hwi.
  destruct (inv_running_session _ Hb _ _ _ Ha Hs) as (row & Hrow & Hw).
  destruct (inv_session _ Hb _ _ Hrow) as [_ Hwk].
  destruct (inv_running_open _ Hb _ _ Ha) as (_ & _ & Hab).
  unfold abandonRunningWork, insert_abandoned_work, deleteRunningWork. simpl.
  rewrite checked_pass; simpl; [by rewrite Ha|done|by rewrite (proj2 (has_key_false _ _) Hab)|].
  intros _. rewrite Hw, Hs. simpl.
  rewrite (proj2 (has_key_true _ _) (mk_is_Some _ _ Ht)), (proj2 (has_key_true _ _) Hwi).
  by rewrite (proj2 (has_key_true _ _) Hwk), (proj2 (has_key_true _ _) (mk_is_Some _ _ Hrow)).
Qed.

(** Requeueing or failing what was just abandoned cannot fail either. *)
Lemma requeueExpired_total e a r t :
  work_item_attempts e !! a = Some t → is_Some (work_items e !! rr_work_item_id r) →
  failed_work e !! a = None →
  ∃ b e', requeueExpiredSessionWork eng (scanRunning a r) (rv_RecoveredAt request)
            (rv_Reason request) e = Ok (b, e') ∧
    running_work e' = running_work e ∧ abandoned_work e' = abandoned_work e ∧
    worker_sessions e' = worker_sessions e ∧ work_item_attempts e' = work_item_attempts e ∧
    completed_work e' = completed_work e ∧
    (∀ i, i ≠ rr_work_item_id r → queued_work e' !! i = queued_work e !! i) ∧
    (∀ a', a' ≠ a → failed_work e' !! a' = failed_work e !! a') ∧
    if decide (abandonments e (rr_work_item_id r) (rv_Reason request) ≤ expiredSessionRequeueLimit)
    then is_Some (queued_work e' !! rr_work_item_id r) ∧ failed_work e' !! a = None
    else failed_work e' !! a = Some (exhaustion a r) ∧ queued_work e' = queued_work e.
Proof.
  intros Ht Hwi Hf. unfold requeueExpiredSessionWork. simpl.
  destruct (decide (abandonments e (rr_work_item_id r) (rv_Reason request)
                    ≤ expiredSessionRequeueLimit)) as [Hle|Hlt].
  - rewrite (proj2 (Z.leb_le _ _) Hle). unfold requeueAbandonedWork.
    destruct (queued_work e !! rr_work_item_id r) as [q|] eqn:Hq.
    + eexists _, _. split; [done|]. rewrite Hq. split_and!; done.
    + unfold insert_queued_work. rewrite checked_pass; simpl; [|done| |].
      * eexists _, _. split; [done|]. simpl. rewrite lookup_insert_eq. split_and!; try done.
        intros i Hi. by rewrite lookup_insert_ne.
      * by rewrite (proj2 (has_key_false _ _) Hq).
      * intros _. by rewrite (proj2 (has_key_true _ _) Hwi).
  - rewrite (proj2 (Z.leb_gt _ _)) by lia. unfold insert_failed_work. rewrite checked_pass; simpl; [|done| |].
    + eexists _, _. split; [done|]. simpl. rewrite lookup_insert_eq. split_and!; try done.
      intros a' Ha'. by rewrite lookup_insert_ne.
    + by rewrite (proj2 (has_key_false _ _) Hf).
    + intros _. by rewrite (proj2 (has_key_true _ _) (mk_is_Some _ _ Ht)),
        (proj2 (has_key_true _ _) Hwi).
Qed.

(** Abandoning adds one to the count of its item and reason. *)
Lemma abandonments_insert e a r rows i :
  abandoned_work e !! a = None →
  abandonments (set_running_work rows
    (set_abandoned_work (<[a := abandonment a r]> (abandoned_work e)) e)) i (rv_Reason request) =
  abandonments e i (rv_Reason request) + if decide (rr_work_item_id r = i) then 1 else 0.
Proof.
  intros Ha. unfold abandonments. simpl. rewrite table_count_insert by done. simpl. f_equal.
  case_decide; [by rewrite bool_decide_true|by rewrite bool_decide_false by tauto].
Qed.

(** The attempt [a] joins the recovered ones when its lease is moved to the
    abandoned work, nothing else of [e] changes but its item's queue entry and its
    own failure, and these are as they should be. *)
Lemma recovered_add e0 P e e2 a r :
  recovered e0 P e → running_work e0 !! a = Some r → a ∉ P →
  (∀ a' r', a' ∈ P → running_work e0 !! a' = Some r' → rr_work_item_id r' ≠ rr_work_item_id r) →
  running_work e2 = delete a (running_work e) →
  abandoned_work e2 = <[a := abandonment a r]> (abandoned_work e) →
  work_item_attempts e2 = work_item_attempts e → completed_work e2 = completed_work e →
  (∀ i, i ≠ rr_work_item_id r → queued_work e2 !! i = queued_work e !! i ∧
     abandonments e2 i (rv_Reason request) = abandonments e i (rv_Reason request)) →
  (∀ a', a' ≠ a → failed_work e2 !! a' = failed_work e !! a') →
  requeued_or_failed e0 e2 a r →
  recovered e0 ({[a]} ∪ P) e2.
Proof.
  intros Hrec H0 Hni Hdist Hr2 Hab2 Ht2 Hc2 Hq2 Hf2 Hout. split.
  - intros a'. rewrite Hr2. destruct (decide (a' = a)) as [->|Hne].
    + rewrite lookup_delete_eq, decide_True; [done|set_solver].
    + rewrite lookup_delete_ne, (rec_running _ _ _ Hrec) by done.
      by apply decide_ext; set_solver.
  - intros a'. rewrite Hab2. destruct (decide (a' = a)) as [->|Hne].
    + rewrite lookup_insert_eq, decide_True by set_solver. by rewrite H0.
    + rewrite lookup_insert_ne, (rec_abandoned _ _ _ Hrec) by done.
      by apply decide_ext; set_solver.
  - intros a' Ha'. rewrite Hf2 by set_solver. apply (rec_failed_other _ _ _ Hrec). set_solver.
  - intros a' r' Ha' Hr'. apply elem_of_union in Ha' as [->%elem_of_singleton|Ha'].
    + rewrite H0 in Hr'. by injection Hr' as <-.
    + pose proof (rec_outcome _ _ _ Hrec _ _ Ha' Hr') as Ho. unfold requeued_or_failed in *.
      assert (a' ≠ a) as Hne by (intros ->; done).
      rewrite Hf2 by exact Hne. by rewrite (proj1 (Hq2 _ (Hdist _ _ Ha' Hr'))).
  - intros i Hi.
    assert (Hne : i ≠ rr_work_item_id r) by (intros ->; eapply Hi; [|done|done]; set_solver).
    destruct (rec_item _ _ _ Hrec i) as [Hq Hn]; [intros ???; eapply Hi; set_solver|].
    destruct (Hq2 i Hne) as [-> ->]. by split.
  - rewrite Ht2. apply (rec_attempts _ _ _ Hrec).
  - rewrite Hc2. apply (rec_completed _ _ _ Hrec).
Qed.

(** One assignment: it cannot fail, and the attempt joins the recovered ones. *)
Lemma recover_assignment_spec e0 P e res a r s :
  exec_base e0 → exec_base e → recovered e0 P e → a ∉ P →
  running_work e0 !! a = Some r → rr_worker_session_id r = Some s →
  ∃ res' e', recover_assignment eng request (res, e) (scanRunning a r) = Ok (res', e') ∧
    exec_base e' ∧ recovered e0 ({[a]} ∪ P) e' ∧ worker_sessions e' = worker_sessions e.
Proof.
  intros Hb0 Hb Hrec Hni H0 Hs. pose proof (rec_running _ _ _ Hrec a) as Ha.
  rewrite decide_False, H0 in Ha by done.
  destruct (inv_running_attempt _ Hb _ _ Ha) as (t & Ht & Hti & _).
  destruct (inv_attempt _ Hb _ _ Ht) as [_ Hwi]. rewrite Hti in Hwi.
  destruct (inv_running_open _ Hb _ _ Ha) as (_ & Hf & Hab).
  pose proof (abandon_total e a r s Hb Ha Hs) as H1.
  set (e1 := set_running_work _ _) in H1.
  assert (Hb1 : exec_base e1) by (eapply abandon_base; [|exact H1|done]; by exists r).
  destruct (requeueExpired_total e1 a r t) as (b & e2 & H2 & Hr2 & Hab2 & Hs2 & Ht2 & Hc2 & Hq2 & Hf2 & Hout);
    [done..|].
  unfold recover_assignment. rewrite H1. simpl. rewrite H2. simpl. eexists _, _. split; [done|].
  assert (Hdist : ∀ a' r', a' ∈ P → running_work e0 !! a' = Some r' →
    rr_work_item_id r' ≠ rr_work_item_id r).
  { intros a' r' Ha' Hr' Heq. destruct (inv_one_per_item _ Hb0 _ _ _ _ Hr' H0 Heq). done. }
  destruct (rec_item _ _ _ Hrec (rr_work_item_id r) Hdist) as [Hqi Hni'].
  assert (Hcount : ∀ i, abandonments e1 i (rv_Reason request) =
    abandonments e i (rv_Reason request) + if decide (rr_work_item_id r = i) then 1 else 0)
    by (intros i; by apply abandonments_insert).
  rewrite Hcount, (decide_True (P := rr_work_item_id r = rr_work_item_id r)), Hni' in Hout by done.
  split_and!; [|apply (recovered_add e0 P e _ a r); try done|done].
  - eapply (requeueExpired_base eng (scanRunning a r)); [| | |exact H2|exact Hb1]; simpl.
    + by rewrite lookup_insert_eq.
    + done.
    + by rewrite lookup_delete_eq.
  - intros i Hi. split; [by rewrite Hq2|]. unfold abandonments. rewrite Hab2.
    change (abandonments e1 i (rv_Reason request) = abandonments e i (rv_Reason request)).
    rewrite Hcount, decide_False by done. lia.
  - unfold requeued_or_failed. unfold expiredSessionRequeueLimit in *.
    repeat case_decide; try lia; [done|]. destruct Hout as [? Hq]. split; [done|].
    rewrite Hq. exact Hqi.
Qed.

(** ** The loops *)

Lemma recovered_frame e0 P e e' :
  running_work e' = running_work e → abandoned_work e' = abandoned_work e →
  failed_work e' = failed_work e → queued_work e' = queued_work e →
  work_item_attempts e' = work_item_attempts e → completed_work e' = completed_work e →
  recovered e0 P e → recovered e0 P e'.
Proof.
  intros Hr Ha Hf Hq Ht Hc []. constructor; rewrite ?Hr, ?Ha, ?Hf, ?Hq, ?Ht, ?Hc; try done.
  - unfold requeued_or_failed. rewrite Hf, Hq. done.
  - unfold abandonments. rewrite Ha. done.
Qed.

(** [asg] is running work of session [sid] in [e0], not yet in [P]. *)
Definition pending (e0 : Exec) (sid : string) (P : gset string) (asg : runningWorkRecord) : Prop :=
  ∃ a r, asg = scanRunning a r ∧ running_work e0 !! a = Some r ∧
    rr_worker_session_id r = Some sid ∧ a ∉ P.

Lemma recover_assignments_spec e0 sid todo P e res :
  exec_base e0 → exec_base e → recovered e0 P e →
  (∀ asg, asg ∈ todo → pending e0 sid P asg) → NoDup (rw_attemptID <$> todo) →
  ∃ res' e', foldM (recover_assignment eng request) (res, e) todo = Ok (res', e') ∧
    exec_base e' ∧ recovered e0 (list_to_set (rw_attemptID <$> todo) ∪ P) e' ∧
    worker_sessions e' = worker_sessions e.
Proof.
  intros Hb0. revert P e res. induction todo as [|asg todo IH]; intros P e res Hb Hrec Hp Hnd.
  - exists res, e. split_and!; try done. simpl. by rewrite union_empty_l_L.
  - destruct (Hp asg) as (a & r & -> & H0 & Hs & Hni); [left|].
    destruct (recover_assignment_spec e0 P e res a r sid) as (res1 & e1 & H1 & Hb1 & Hrec1 & Hs1);
      [done..|]. simpl in *. apply NoDup_cons in Hnd as [Hnd1 Hnd].
    destruct (IH ({[a]} ∪ P) e1 res1) as (res2 & e2 & H2 & Hb2 & Hrec2 & Hs2); [done..| |done|].
    + intros asg' Hin. destruct (Hp asg') as (a' & r' & -> & ? & ? & ?); [by right|].
      exists a', r'. split_and!; [done..|]. rewrite not_elem_of_union, not_elem_of_singleton.
      split; [|done]. intros ->. destruct Hnd1. apply (list_elem_of_fmap_2 rw_attemptID) in Hin. exact Hin.
    + exists res2, e2. rewrite H1. simpl. split_and!; [done..| |congruence].
      rewrite <- (union_assoc_L {[a]}), (union_comm_L {[a]}), <- (union_assoc_L (list_to_set _)).
      by rewrite (union_comm_L P).
Qed.

Definition dead_row (row : session_row) : session_row :=
  mkSessionRow (sr_worker_id row) WorkerSessionStatusDead (sr_registered_at row)
    (sr_last_heartbeat_at row) (Some (rv_RecoveredAt request)) (Some (rv_Reason request))
    (sr_execution_handle row).

(** A session that this recovery must end. *)
Definition expired_row (row : session_row) : Prop :=
  sr_status row = WorkerSessionStatusActive ∧
  str_ltb (sr_last_heartbeat_at row) (rv_Cutoff request) = true.

Lemma mark_dead_spec e sid row :
  worker_sessions e !! sid = Some row → expired_row row →
  markWorkerSessionDeadIfExpired (scanWorkerSession sid row) request e =
  (true, set_worker_sessions (<[sid := dead_row row]> (worker_sessions e)) e).
Proof.
  intros Hs [Hact Hhb]. unfold markWorkerSessionDeadIfExpired, end_session_where. simpl.
  by rewrite Hs, Hhb, bool_decide_true.
Qed.

(** The attempts of the sessions in [D]. *)
Definition owned_by (e0 : Exec) (D : list string) (P : gset string) : Prop :=
  ∀ a, a ∈ P ↔ ∃ r s, running_work e0 !! a = Some r ∧ rr_worker_session_id r = Some s ∧ s ∈ D.

Lemma recover_session_spec e0 D P e res sid row :
  exec_base e0 → exec_base e → recovered e0 P e → owned_by e0 D P → sid ∉ D →
  worker_sessions e !! sid = Some row → expired_row row →
  ∃ res' e' P', recover_session eng request (res, e) (scanWorkerSession sid row) = Ok (res', e') ∧
    exec_base e' ∧ recovered e0 P' e' ∧ owned_by e0 (sid :: D) P' ∧
    worker_sessions e' = <[sid := dead_row row]> (worker_sessions e).
Proof.
  intros Hb0 Hb Hrec Hown Hni Hs Hexp.
  pose proof (mark_dead_spec e sid row Hs Hexp) as Hm.
  set (e1 := set_worker_sessions _ e) in Hm.
  assert (Hb1 : exec_base e1).
  { unfold markWorkerSessionDeadIfExpired in Hm. change e1 with (true, e1).2. rewrite <- Hm.
    apply end_session_base; [by right|done]. }
  assert (Hrec1 : recovered e0 P e1) by by eapply recovered_frame; [..|exact Hrec].
  assert (Hrun : ∀ a r, running_work e !! a = Some r → a ∉ P ∧ running_work e0 !! a = Some r).
  { intros a r. rewrite (rec_running _ _ _ Hrec). by case_decide. }
  destruct (recover_assignments_spec e0 sid (listRunningWorkForSession e1 sid) P e1
    (mkRecoverResult (rvr_ExpiredSessions res + 1) (rvr_AbandonedAttempts res)
       (rvr_RequeuedWorkItems res))) as (res2 & e2 & H2 & Hb2 & Hrec2 & Hs2); [done..| | |].
  - intros asg (a & r & Ha & Hse & ->)%elem_of_listRunning. exists a, r.
    destruct (Hrun _ _ Ha). done.
  - apply (draining_start e1 sid Hb1).
  - eexists res2, e2, _. unfold recover_session. rewrite Hm. simpl. split_and!; [exact H2|done..| |done].
    intros a. rewrite elem_of_union, elem_of_list_to_set, (Hown a), list_elem_of_fmap. split.
    + intros [(asg & -> & (a' & r & Ha & Hse & ->)%elem_of_listRunning)|(r & s & ? & ? & ?)].
      * exists r, sid. simpl. destruct (Hrun _ _ Ha). split_and!; [done..|left].
      * exists r, s. split_and!; [done..|by right].
    + intros (r & s & Ha & Hse & [->|Hin]%elem_of_cons); [left|right; by eauto].
      exists (scanRunning a r). split; [done|]. apply elem_of_listRunning. exists a, r.
      split_and!; [|done..]. simpl. rewrite (rec_running _ _ _ Hrec), decide_False; [done|].
      intros (r' & s' & ? & ? & ?)%Hown. by simplify_eq.
Qed.

(** The sessions after those in [D] were ended. *)
Definition sessions_ended (e0 : Exec) (D : list string) (e : Exec) : Prop :=
  ∀ s, worker_sessions e !! s =
    if decide (s ∈ D) then dead_row <$> worker_sessions e0 !! s else worker_sessions e0 !! s.

Lemma recover_sessions_spec e0 todo D P e res :
  exec_base e0 → exec_base e → recovered e0 P e → owned_by e0 D P → sessions_ended e0 D e →
  (∀ x, x ∈ todo → ∃ sid row, x = scanWorkerSession sid row ∧
     worker_sessions e0 !! sid = Some row ∧ expired_row row ∧ sid ∉ D) →
  NoDup (ws_ID <$> todo) →
  ∃ res' e' D' P', foldM (recover_session eng request) (res, e) todo = Ok (res', e') ∧
    exec_base e' ∧ recovered e0 P' e' ∧ owned_by e0 D' P' ∧ sessions_ended e0 D' e' ∧
    (∀ s, s ∈ D' ↔ s ∈ D ∨ s ∈ ws_ID <$> todo).
Proof.
  intros Hb0. revert D P e res.
  induction todo as [|x todo IH]; intros D P e res Hb Hrec Hown Hse Hall Hnd.
  - exists res, e, D, P. split_and!; try done. intros s. simpl. rewrite elem_of_nil. tauto.
  - destruct (Hall x) as (sid & row & -> & Hs & Hexp & Hni); [left|].
    rewrite fmap_cons in Hnd. apply NoDup_cons in Hnd as [Hnd1 Hnd].
    destruct (recover_session_spec e0 D P e res sid row) as (res1 & e1 & P1 & H1 & Hb1 & Hrec1 & Hown1 & Hs1);
      try done. { rewrite Hse. by rewrite decide_False. }
    destruct (IH (sid :: D) P1 e1 res1) as (res2 & e2 & D2 & P2 & H2 & ? & ? & ? & ? & HD); try done.
    + intros s. rewrite Hs1. destruct (decide (s = sid)) as [->|Hne].
      * by rewrite lookup_insert_eq, decide_True, Hs by left.
      * rewrite lookup_insert_ne, Hse by done. apply decide_ext. rewrite elem_of_cons. naive_solver.
    + intros x Hin. destruct (Hall x) as (sid' & row' & -> & ? & ? & ?); [by right|].
      exists sid', row'. split_and!; [done..|]. rewrite elem_of_cons. intros [->|?]; [|done].
      apply Hnd1. apply (list_elem_of_fmap_2 ws_ID) in Hin. exact Hin.
    + exists res2, e2, D2, P2. rewrite foldM_cons, H1. split_and!; try done.
      intros s. rewrite HD, fmap_cons, !elem_of_cons. simpl. tauto.
Qed.
End recovery.

(** The sessions an expiry cutoff selects, each once. *)
Lemma elem_of_listExpired e request x :
  x ∈ listExpiredActiveWorkerSessions e (rv_Cutoff request) ↔
  ∃ sid row, x = scanWorkerSession sid row ∧ worker_sessions e !! sid = Some row ∧
    expired_row request row.
Proof.
  unfold listExpiredActiveWorkerSessions. rewrite (elem_of_order_by (by_text2 _ _)), list_elem_of_fmap.
  unfold expired_row. split.
  - intros ([sid row] & -> & [Hs Hf]%elem_of_table_rows). exists sid, row.
    apply andb_true_iff in Hf as [?%bool_decide_eq_true ?]. done.
  - intros (sid & row & -> & Hs & Hact & Hhb). exists (sid, row). split; [done|].
    apply elem_of_table_rows. split; [done|]. by rewrite bool_decide_true, Hhb.
Qed.

Lemma listExpired_NoDup e cutoff : NoDup (ws_ID <$> listExpiredActiveWorkerSessions e cutoff).
Proof.
  unfold listExpiredActiveWorkerSessions.
  rewrite (order_by_perm (by_text2 ws_LastHeartbeatAt ws_ID)), <- list_fmap_compose.
  unfold compose. simpl. apply table_rows_NoDup.
Qed.

(** The attempt is held by a session that this recovery ends. *)
Definition held_by_expired (request : RecoverExpiredWorkerSessionsRequest) (e : Exec)
    (r : running_row) : Prop :=
  ∃ s row, rr_worker_session_id r = Some s ∧ worker_sessions e !! s = Some row ∧
    expired_row request row.

Lemma recover_spec eng request db :
  reachable db → validate_recover request = Ok tt →
  ∃ res e' P, RecoverExpiredWorkerSessions eng request (Some db) =
      (Ok res, Some (mkDB (catalog db) e')) ∧
    recovered request (exec db) P e' ∧
    (∀ a r, running_work (exec db) !! a = Some r → a ∈ P ↔ held_by_expired request (exec db) r) ∧
    (∀ s row, worker_sessions (exec db) !! s = Some row →
       (expired_row request row → worker_sessions e' !! s = Some (dead_row request row)) ∧
       (¬ expired_row request row → worker_sessions e' !! s = Some row)) ∧
    (∀ s, worker_sessions (exec db) !! s = None → worker_sessions e' !! s = None).
Proof.
  intros Hr Hv. destruct (reachable_exec_inv _ Hr) as [Hb _].
  destruct (recover_sessions_spec eng request (exec db)
    (listExpiredActiveWorkerSessions (exec db) (rv_Cutoff request)) [] ∅ (exec db)
    (mkRecoverResult 0 0 0)) as (res & e' & D & P & H & Hb' & Hrec & Hown & Hse & HD);
    [done|done|by apply recovered_start|..].
  - intros a. split; [by intros ?%not_elem_of_empty|]. by intros (? & ? & _ & _ & ?%elem_of_nil).
  - intros s. rewrite decide_False; [done|]. by intros ?%elem_of_nil.
  - intros x (sid & row & -> & ? & ?)%elem_of_listExpired. exists sid, row.
    split_and!; [done..|]. by intros ?%elem_of_nil.
  - apply listExpired_NoDup.
  - assert (HD' : ∀ s, s ∈ D ↔ ∃ row, worker_sessions (exec db) !! s = Some row ∧ expired_row request row).
    { intros s. rewrite HD, elem_of_nil, list_elem_of_fmap. split.
      - intros [[]|(x & -> & (sid & row & -> & ? & ?)%elem_of_listExpired)]. by exists row.
      - intros (row & ? & ?). right. exists (scanWorkerSession s row). split; [done|].
        apply elem_of_listExpired. eauto. }
    exists res, e', P. split_and!; try done.
    + by apply transact_exec_Ok.
    + intros a r Ha. rewrite (Hown a). unfold held_by_expired. split.
      * intros (r' & s & ? & ? & (row & ? & ?)%HD'). simplify_eq. eauto.
      * intros (s & row & ? & ? & ?). exists r, s. split_and!; [done..|]. apply HD'. eauto.
    + intros s row Hs. rewrite (Hse s), Hs. split; intros He; case_decide as Hin; try done.
      * destruct Hin. apply HD'. eauto.
      * destruct He. apply HD' in Hin as (row' & ? & ?). congruence.
    + intros s Hs. rewrite (Hse s), Hs. by case_decide.
Qed.

(** C5: recovery is complete and exact.  On every reachable database a valid
    recovery request succeeds; afterwards exactly the active sessions whose
    heartbeat text is below the cutoff are dead, with the time and reason of the
    request, and every other session is as before; exactly the attempts those
    sessions held have left [running_work] and are recorded as abandoned with
    what they held, and every other lease is untouched. *)
Theorem RecoverExpiredWorkerSessions_exact eng request db :
  reachable db → validate_recover request = Ok tt →
  ∃ res db', RecoverExpiredWorkerSessions eng request (Some db) = (Ok res, Some db') ∧
    (∀ s row, worker_sessions (exec db) !! s = Some row →
       (expired_row request row → worker_sessions (exec db') !! s = Some (dead_row request row)) ∧
       (¬ expired_row request row → worker_sessions (exec db') !! s = Some row)) ∧
    (∀ a r, running_work (exec db) !! a = Some r →
       (held_by_expired request (exec db) r →
          running_work (exec db') !! a = None ∧
          abandoned_work (exec db') !! a = Some (abandonment request a r)) ∧
       (¬ held_by_expired request (exec db) r → running_work (exec db') !! a = Some r)) ∧
    running_work (exec db') ⊆ running_work (exec db) ∧
    completed_work (exec db') = completed_work (exec db) ∧ catalog db' = catalog db.
Proof.
  intros Hr Hv.
  destruct (recover_spec eng request db Hr Hv) as (res & e' & P & H & Hrec & HP & Hs & _).
  exists res, (mkDB (catalog db) e'). split_and!; try done.
  - intros a r Ha. specialize (HP a r Ha). simpl. split; intros Hh.
    + rewrite (rec_running _ _ _ _ Hrec), (rec_abandoned _ _ _ _ Hrec), Ha.
      rewrite !decide_True by tauto. done.
    + rewrite (rec_running _ _ _ _ Hrec), decide_False; tauto.
  - apply map_subseteq_spec. intros a r. simpl. rewrite (rec_running _ _ _ _ Hrec). by case_decide.
  - apply (rec_completed _ _ _ _ Hrec).
Qed.

(** The lease [t1] of session [s1], whose heartbeat is older than the cutoff. *)
Definition demo_recover : RecoverExpiredWorkerSessionsRequest :=
  mkRecover "2026-01-01T00:00:30Z" "2026-01-01T00:00:31Z" "expired".

Lemma RecoverExpiredWorkerSessions_exact_witness :
  ∃ res db', RecoverExpiredWorkerSessions demo_engine demo_recover (Some demo_leased) =
      (Ok res, Some db') ∧ running_work (exec db') !! "t1" = None.
Proof.
  destruct (RecoverExpiredWorkerSessions_exact demo_engine demo_recover demo_leased)
    as (res & db' & H & _ & Hrun & _); [exact demo_leased_reachable|vm_compute; reflexivity|].
  exists res, db'. split; [exact H|].
  refine (proj1 (proj1 (Hrun "t1" (mkRunningRow "a" (Some "w1") (Some "s1")
    "2026-01-01T00:00:01Z" "2026-01-01T00:00:20Z") _) _)); [vm_compute; reflexivity|].
  exists "s1", (mkSessionRow "w1" "active" "2026-01-01T00:00:10Z" "2026-01-01T00:00:10Z" None None None).
  split; [reflexivity|]. split; [vm_compute; reflexivity|]. split; vm_compute; reflexivity.
Defined.

(** The retry ceiling.  A lease taken from an expired session goes back to
    the queue while its item has been abandoned for this reason fewer than three
    times before, and is then not failed; from the fourth time on the attempt is
    recorded as failed with the ceiling's message and the item is not queued by
    the recovery. *)
Theorem RecoverExpiredWorkerSessions_ceiling eng request db a r :
  reachable db → validate_recover request = Ok tt →
  running_work (exec db) !! a = Some r → held_by_expired request (exec db) r →
  ∃ res db', RecoverExpiredWorkerSessions eng request (Some db) = (Ok res, Some db') ∧
    let item := rr_work_item_id r in
    (abandonments (exec db) item (rv_Reason request) < 3 →
       is_Some (queued_work (exec db') !! item) ∧ failed_work (exec db') !! a = None) ∧
    (3 ≤ abandonments (exec db) item (rv_Reason request) →
       failed_work (exec db') !! a = Some (exhaustion request a r) ∧
       queued_work (exec db') !! item = queued_work (exec db) !! item).
Proof.
  intros Hr Hv Ha Hh.
  destruct (recover_spec eng request db Hr Hv) as (res & e' & P & H & Hrec & HP & _ & _).
  exists res, (mkDB (catalog db) e'). split; [done|]. simpl.
  assert (Hin : a ∈ P) by by apply (HP a r Ha).
  pose proof (rec_outcome _ _ _ _ Hrec a r Hin Ha) as Ho. unfold requeued_or_failed in Ho.
  unfold expiredSessionRequeueLimit in Ho. split; intros Hn; case_decide; try lia; done.
Qed.

(** The same item, abandoned three times before. *)
Definition demo_session_at (w s t : string) : op := OpRegister (mkRegister w s t "").
Definition demo_round (attempt w s : string) : list op :=
  [ demo_session w s;
    OpClaim (mkClaim attempt w s ExecutorTypeWorker "2026-01-01T00:00:20Z" "");
    OpRecover demo_recover ].
Definition demo_single : op :=
  OpQueueWorkItems (mkQueueReq [demo_item "a" 0] [] [demo_queued "a" 0 "2026-01-01T00:00:01Z"]).
Definition demo_exhausted : DB :=
  run_ops demo_engine
    (demo_catalog ++ [demo_single] ++ demo_round "t1" "w1" "s1" ++ demo_round "t2" "w2" "s2" ++
     demo_round "t3" "w3" "s3" ++
     [demo_session "w4" "s4"; OpClaim (mkClaim "t4" "w4" "s4" ExecutorTypeWorker "2026-01-01T00:00:20Z" "")])
    emptyDB.

Lemma RecoverExpiredWorkerSessions_ceiling_witness :
  ∃ res db', RecoverExpiredWorkerSessions demo_engine demo_recover (Some demo_exhausted) =
      (Ok res, Some db') ∧ is_Some (failed_work (exec db') !! "t4").
Proof.
  destruct (RecoverExpiredWorkerSessions_ceiling demo_engine demo_recover demo_exhausted "t4"
    (mkRunningRow "a" (Some "w4") (Some "s4") "2026-01-01T00:00:31Z" "2026-01-01T00:00:20Z"))
    as (res & db' & H & _ & Hf).
  - apply reachable_run_ops, reachable_empty.
  - vm_compute. reflexivity.
  - vm_compute. reflexivity.
  - exists "s4", (mkSessionRow "w4" "active" "2026-01-01T00:00:10Z" "2026-01-01T00:00:10Z" None None None).
    split; [reflexivity|]. split; [vm_compute; reflexivity|]. split; vm_compute; reflexivity.
  - exists res, db'. split; [exact H|]. destruct Hf as [Hf _]; [vm_compute; discriminate|].
    rewrite Hf. by eexists.
Defined.

(** ** The order of heartbeats *)

(** C30: expiry compares timestamps as text, which is not their order in time.
    There is a reachable database with an active session whose last heartbeat is
    later than the cutoff, both valid timestamps, and a recovery with that cutoff
    nevertheless ends the session and abandons its lease: [RFC3339Nano] drops
    trailing zeros, and ["."] sorts below ["Z"]. *)
Theorem expiry_is_not_chronological :
  ∃ db request row hb cutoff res db',
    reachable db ∧ worker_sessions (exec db) !! "s" = Some row ∧
    sr_status row = WorkerSessionStatusActive ∧
    parse_rfc3339 (sr_last_heartbeat_at row) = Some hb ∧
    parse_rfc3339 (rv_Cutoff request) = Some cutoff ∧ instant cutoff < instant hb ∧
    RecoverExpiredWorkerSessions demo_engine request (Some db) = (Ok res, Some db') ∧
    (sr_status <$> worker_sessions (exec db') !! "s") = Some WorkerSessionStatusDead ∧
    is_Some (running_work (exec db) !! "t") ∧ running_work (exec db') !! "t" = None.
Proof.
  set (ops := demo_catalog ++ [demo_single; demo_session_at "w" "s" "2026-01-01T00:00:30Z";
    OpHeartbeat (mkHeartbeat "w" "s" "2026-01-01T00:00:30.5Z");
    OpClaim (mkClaim "t" "w" "s" ExecutorTypeWorker "2026-01-01T00:00:30.6Z" "")]).
  exists (run_ops demo_engine ops emptyDB), demo_recover.
  eexists _, _, _, _, _. split; [apply reachable_run_ops, reachable_empty|].
  split; [vm_compute; reflexivity|]. split; [vm_compute; reflexivity|].
  split; [vm_compute; reflexivity|]. split; [vm_compute; reflexivity|].
  split; [vm_compute; reflexivity|]. split; [vm_compute; reflexivity|].
  split; [vm_compute; reflexivity|]. split; [vm_compute; by eexists|vm_compute; reflexivity].
Qed.
