(* ===== verification/StoreLifecycle.v ===== *)
(** * The workflow store: the life of a work item

    The store itself lets any item be queued at any time.  The controller queues
    an item when its stage is activated and skips items that are queued, running
    or finished ([cmd/controller/asset_materialize_dependencies.go]); [disciplined]
    are the databases produced by operations that only enqueue items never
    attempted before.  There an item is completed at most once, never both
    completed and failed, never queued while it runs or after it finished, and
    abandoned at most four times for one expiry reason. *)

From S2P Require Import Prelude StoreData StoreSQL StoreOps StoreInv StoreFrame StoreLease StoreReport.
Local Open Scope Z_scope.

Definition never_attempted (e : Exec) (id : string) : Prop :=
  ∀ a t, work_item_attempts e !! a = Some t → at_work_item_id t ≠ id.

(** The items an operation may put in the queue. *)
Definition queued_ids (items : list QueuedWorkRecord) : list string :=
  (λ q, wi_ID (qw_WorkItem q)) <$> items.
Definition op_enqueues (o : op) : list string :=
  match o with
  | OpQueueWorkItems r => queued_ids (qr_QueuedWork r)
  | OpEnqueueWorkItems items => queued_ids items
  | OpCompleteStage r => queued_ids (cs_ReadyQueuedWork r)
  | _ => []
  end.
Definition enqueues_new (e : Exec) (ids : list string) : Prop :=
  ∀ id, id ∈ ids → queued_work e !! id = None → never_attempted e id.

Inductive disciplined : DB → Prop :=
  | disciplined_empty : disciplined emptyDB
  | disciplined_op db eng o :
      disciplined db → enqueues_new (exec db) (op_enqueues o) → disciplined (run_op eng o db).

Lemma disciplined_reachable db : disciplined db → reachable db.
Proof. induction 1; [apply reachable_empty|by apply reachable_op]. Qed.

(** ** The invariant *)

Definition item_running (e : Exec) (i : string) : Prop :=
  ∃ a r, running_work e !! a = Some r ∧ rr_work_item_id r = i.
Definition item_completed (e : Exec) (i : string) : Prop :=
  ∃ a c, completed_work e !! a = Some c ∧ cw_WorkItemID c = i.
Definition item_failed (e : Exec) (i : string) : Prop :=
  ∃ a f, failed_work e !! a = Some f ∧ fw_WorkItemID f = i.

(** The reason the store records when a session is stopped; it has no ceiling. *)
Definition stop_reason : string := "worker_stopped".

Record lifecycle (e : Exec) : Prop := {
  lc_queued i : is_Some (queued_work e !! i) →
    ¬ item_running e i ∧ ¬ item_completed e i ∧ ¬ item_failed e i;
  lc_running i : item_running e i → ¬ item_completed e i ∧ ¬ item_failed e i;
  lc_once a1 a2 c1 c2 : completed_work e !! a1 = Some c1 → completed_work e !! a2 = Some c2 →
    cw_WorkItemID c1 = cw_WorkItemID c2 → a1 = a2;
  lc_one_outcome i : ¬ (item_completed e i ∧ item_failed e i);
  lc_ceiling i reason : reason ≠ stop_reason → abandonments e i reason ≤ 4;
  lc_open i reason : reason ≠ stop_reason → is_Some (queued_work e !! i) ∨ item_running e i →
    abandonments e i reason ≤ 3
}.

Lemma lifecycle_frame e e' :
  queued_work e' = queued_work e → running_work e' = running_work e →
  completed_work e' = completed_work e → failed_work e' = failed_work e →
  abandoned_work e' = abandoned_work e → lifecycle e → lifecycle e'.
Proof.
  intros Hq Hr Hc Hf Ha []. constructor; unfold item_running, item_completed, item_failed, abandonments;
    rewrite ?Hq, ?Hr, ?Hc, ?Hf, ?Ha; done.
Qed.

Lemma never_attempted_no_outcome e i :
  exec_base e → never_attempted e i →
  ¬ item_running e i ∧ ¬ item_completed e i ∧ ¬ item_failed e i ∧
  ∀ reason, abandonments e i reason = 0.
Proof.
  intros Hb Hn. split_and!.
  - intros (a & r & Ha & Hi). destruct (inv_running_attempt _ Hb _ _ Ha) as (t & Ht & ? & _).
    eapply Hn; [done|congruence].
  - intros (a & c & Ha & Hi). destruct (inv_completed _ Hb _ _ Ha) as (_ & t & Ht & ?).
    eapply Hn; [done|congruence].
  - intros (a & c & Ha & Hi). destruct (inv_failed _ Hb _ _ Ha) as (_ & t & Ht & ?).
    eapply Hn; [done|congruence].
  - intros reason. apply table_count_0. intros a b Ha. apply bool_decide_eq_false. intros [Hi _].
    destruct (inv_abandoned _ Hb _ _ Ha) as (_ & t & Ht & ?). eapply Hn; [done|congruence].
Qed.

(** An item put in the queue that is not running, not finished and below the
    ceiling. *)
Lemma lifecycle_enqueue e i q :
  ¬ item_running e i → ¬ item_completed e i → ¬ item_failed e i →
  (∀ reason, reason ≠ stop_reason → abandonments e i reason ≤ 3) →
  lifecycle e → lifecycle (set_queued_work (<[i := q]> (queued_work e)) e).
Proof.
  intros Hr Hc Hf Hn []. constructor; try done.
  - intros j Hj. simpl in Hj. destruct (decide (j = i)) as [->|Hne]; [done|].
    rewrite lookup_insert_ne in Hj by done. by apply lc_queued0.
  - intros j reason Hre Hj. simpl in Hj. destruct (decide (j = i)) as [->|Hne]; [by apply Hn|].
    rewrite lookup_insert_ne in Hj by done. by apply lc_open0.
Qed.

Lemma lifecycle_lease eng request q e c e' :
  claimQueuedWork eng request q e = Ok (c, e') → lifecycle e → lifecycle e'.
Proof.
  intros (_ & _ & _ & Hidle & _ & Hq & _ & ->)%claimQueuedWork_Ok Hl.
  set (i := wi_ID (qw_WorkItem q)) in *.
  assert (Hrun : ∀ j, item_running (leased request q e) j → j = i ∨ item_running e j).
  { intros j (a & r & Ha & Hj). simpl in Ha. map_cases; [by left|right]. by exists a, r. }
  destruct (lc_queued _ Hl i Hq) as (_ & Hnc & Hnf).
  constructor; try apply Hl.
  - intros j Hj. simpl in Hj. destruct (decide (j = i)) as [->|Hne].
    { rewrite lookup_delete_eq in Hj. by destruct Hj. }
    rewrite lookup_delete_ne in Hj by done. destruct (lc_queued _ Hl j Hj) as (? & ? & ?).
    split_and!; [|done..]. intros [->|?]%Hrun; done.
  - intros j [->|Hj]%Hrun; [done|]. by apply (lc_running _ Hl).
  - intros j reason Hre [Hj|[->|Hj]%Hrun]; apply (lc_open _ Hl); auto. left. simpl in Hj.
    destruct (decide (j = i)) as [->|Hne]; [done|]. by rewrite lookup_delete_ne in Hj.
Qed.

(** An attempt leaves [running_work]. *)
Lemma item_running_delete e e' a r i :
  exec_base e → running_work e !! a = Some r → running_work e' = delete a (running_work e) →
  item_running e' i ↔ item_running e i ∧ rr_work_item_id r ≠ i.
Proof.
  intros Hb Ha He. unfold item_running. rewrite He. split.
  - intros (a' & r' & [Hne Ha']%lookup_delete_Some & Hi). split; [by eauto|]. intros Heq.
    apply Hne. eapply (inv_one_per_item _ Hb); [done..|congruence].
  - intros [(a' & r' & Ha' & Hi) Hne]. exists a', r'. split; [|done].
    rewrite lookup_delete_ne; [done|]. intros <-. congruence.
Qed.

Lemma lifecycle_complete e a r c :
  exec_base e → running_work e !! a = Some r → completed_work e !! a = None →
  cw_WorkItemID c = rr_work_item_id r → lifecycle e →
  lifecycle (set_running_work (delete a (running_work e))
               (set_completed_work (<[a := c]> (completed_work e)) e)).
Proof.
  intros Hb Ha Hc Hi Hl. set (e' := set_running_work _ _).
  assert (Hrun : ∀ i, item_running e' i ↔ item_running e i ∧ rr_work_item_id r ≠ i)
    by (intros; by eapply item_running_delete).
  assert (Hcomp : ∀ i, item_completed e' i → i = rr_work_item_id r ∨ item_completed e i).
  { intros i (a' & c' & Ha' & Hi'). simpl in Ha'. map_cases; [by left|right]. by exists a', c'. }
  assert (Hri : item_running e (rr_work_item_id r)) by (by exists a, r).
  destruct (lc_running _ Hl _ Hri) as [Hnc Hnf].
  constructor; try apply Hl.
  - intros i Hq. destruct (lc_queued _ Hl i Hq) as (Hnr & ? & ?). split_and!; [|..|done].
    + by intros [? _]%Hrun.
    + intros [->|?]%Hcomp; done.
  - intros i [Hr Hne]%Hrun. destruct (lc_running _ Hl i Hr). split; [|done].
    intros [->|?]%Hcomp; done.
  - intros a1 a2 c1 c2 H1 H2 Heq. simpl in *. map_cases; try done.
    + destruct Hnc. eexists _, _. split; [eassumption|congruence].
    + destruct Hnc. eexists _, _. split; [eassumption|congruence].
    + by eapply (lc_once _ Hl).
  - intros i [[->|?]%Hcomp Hf]; [done|]. by apply (lc_one_outcome _ Hl i).
  - intros i reason Hre [Hq|[Hr _]%Hrun]; apply (lc_open _ Hl); auto.
Qed.

(** An attempt that was running, or was just abandoned, is recorded as failed;
    its item is neither queued nor running any more. *)
Lemma lifecycle_failed e a f i :
  fw_WorkItemID f = i → ¬ item_running e i → queued_work e !! i = None → ¬ item_completed e i →
  lifecycle e → lifecycle (set_failed_work (<[a := f]> (failed_work e)) e).
Proof.
  intros Hi Hnr Hnq Hnc Hl. set (e' := set_failed_work _ _).
  assert (Hfail : ∀ j, item_failed e' j → j = i ∨ item_failed e j).
  { intros j (a' & f' & Ha' & Hj). simpl in Ha'. map_cases; [by left|right]. by exists a', f'. }
  constructor; try apply Hl.
  - intros j Hq. destruct (lc_queued _ Hl j Hq) as (? & ? & ?). split_and!; [done..|].
    intros [->|?]%Hfail; [|done]. simpl in Hq. rewrite Hnq in Hq. by destruct Hq.
  - intros j Hr. destruct (lc_running _ Hl j Hr). split; [done|]. intros [->|?]%Hfail; done.
  - intros j [Hc [->|Hf]%Hfail]; [done|]. by apply (lc_one_outcome _ Hl j).
Qed.

Lemma lifecycle_fail e a r f :
  exec_base e → running_work e !! a = Some r → fw_WorkItemID f = rr_work_item_id r → lifecycle e →
  lifecycle (set_running_work (delete a (running_work e))
               (set_failed_work (<[a := f]> (failed_work e)) e)).
Proof.
  intros Hb Ha Hi Hl.
  assert (Hri : item_running e (rr_work_item_id r)) by (by exists a, r).
  set (e1 := set_running_work (delete a (running_work e)) e).
  assert (Hrun : ∀ i, item_running e1 i ↔ item_running e i ∧ rr_work_item_id r ≠ i)
    by (intros; by eapply item_running_delete).
  assert (Hl1 : lifecycle e1).
  { constructor; try apply Hl.
    - intros i Hq. destruct (lc_queued _ Hl i Hq) as (? & ? & ?). split_and!; [|done..].
      by intros [? _]%Hrun.
    - intros i [? _]%Hrun. by apply (lc_running _ Hl).
    - intros i reason Hre [Hq|[Hr _]%Hrun]; apply (lc_open _ Hl); auto. }
  change (lifecycle (set_failed_work (<[a := f]> (failed_work e1)) e1)).
  apply (lifecycle_failed _ _ _ (rr_work_item_id r)); try done.
  - intros [_ ?]%Hrun. done.
  - apply eq_None_not_Some. intros Hq. by destruct (lc_queued _ Hl _ Hq) as [[] _].
  - by apply (lc_running _ Hl).
Qed.

(** The reports. *)
Lemma tx_complete_lifecycle eng request e c e' :
  tx_complete eng request e = Ok (c, e') → exec_base e → lifecycle e → lifecycle e'.
Proof.
  intros H Hb Hl. destruct (getRunningWork e (ca_AttemptID request)) as [asg|] eqn:Hr.
  - pose proof (tx_complete_running _ _ _ _ _ _ Hr H) as (_ & Hc & _ & ->).
    apply getRunningWork_Some in Hr as (r & Hr & ->). by eapply lifecycle_complete.
  - by apply tx_complete_not_running in H as ->.
Qed.

Lemma tx_fail_lifecycle eng request e c e' :
  tx_fail eng request e = Ok (c, e') → exec_base e → lifecycle e → lifecycle e'.
Proof.
  intros H Hb Hl. destruct (getRunningWork e (fa_AttemptID request)) as [asg|] eqn:Hr.
  - pose proof (tx_fail_running _ _ _ _ _ _ Hr H) as (_ & Hc & _ & ->).
    apply getRunningWork_Some in Hr as (r & Hr & ->). by eapply lifecycle_fail.
  - by apply tx_fail_not_running in H as ->.
Qed.

(** ** Losing a lease *)

Section losing.
Context (eng : Engine) (e : Exec) (asg : runningWorkRecord) (r : running_row) (at_ reason : string).
Context (Hb : exec_base e) (Hl : lifecycle e).
Context (Ha : running_work e !! rw_attemptID asg = Some r) (Hasg : asg = scanRunning (rw_attemptID asg) r).

(** After the abandonment: the item is neither queued nor running nor finished,
    and its count for this reason went up by one. *)
Lemma abandon_lifecycle e1 :
  abandonRunningWork eng asg at_ reason e = Ok e1 →
  lifecycle e1 ∧ ¬ item_running e1 (rw_workItemID asg) ∧ queued_work e1 !! rw_workItemID asg = None ∧
  ¬ item_completed e1 (rw_workItemID asg) ∧ ¬ item_failed e1 (rw_workItemID asg) ∧
  (∀ reason', reason' ≠ stop_reason → reason' ≠ reason →
     abandonments e1 (rw_workItemID asg) reason' ≤ 3).
Proof using Hb Hl Ha Hasg.
  intros (Hab & _ & He1)%abandonRunningWork_Ok.
  assert (Hi : rw_workItemID asg = rr_work_item_id r) by by rewrite Hasg.
  assert (Hri : item_running e (rr_work_item_id r)) by by exists (rw_attemptID asg), r.
  assert (Hrun : ∀ i, item_running e1 i ↔ item_running e i ∧ rr_work_item_id r ≠ i)
    by (intros; eapply item_running_delete; [done..|]; by rewrite He1).
  assert (Hcount : ∀ i reason', abandonments e1 i reason' = abandonments e i reason' +
    if bool_decide (rw_workItemID asg = i ∧ reason = reason') then 1 else 0).
  { intros i reason'. rewrite He1. unfold abandonments. simpl.
    by rewrite table_count_insert. }
  assert (Hnq : queued_work e !! rr_work_item_id r = None).
  { apply eq_None_not_Some. intros Hq. by destruct (lc_queued _ Hl _ Hq) as [[] _]. }
  destruct (lc_running _ Hl _ Hri) as [Hnc Hnf].
  rewrite Hi in *. split_and!.
  - constructor; try (rewrite He1; apply Hl).
    + intros i Hq. rewrite He1 in Hq. simpl in Hq. destruct (lc_queued _ Hl i Hq) as (? & ? & ?).
      split_and!; [by intros [? _]%Hrun|by rewrite He1..].
    + intros i [Hr _]%Hrun. rewrite He1. by apply (lc_running _ Hl).
    + intros i reason' Hre. rewrite Hcount. case_bool_decide as Hm.
      * destruct Hm as [<- _]. pose proof (lc_open _ Hl (rr_work_item_id r) reason' Hre (or_intror Hri)). lia.
      * pose proof (lc_ceiling _ Hl i reason' Hre). lia.
    + intros i reason' Hre Hor. rewrite Hcount. rewrite bool_decide_false.
      * rewrite Z.add_0_r. apply (lc_open _ Hl); [done|]. destruct Hor as [Hq|[? _]%Hrun]; [|by right].
        left. by rewrite He1 in Hq.
      * intros [<- _]. destruct Hor as [Hq|[_ ?]%Hrun]; [|done]. rewrite He1 in Hq. simpl in Hq.
        rewrite Hnq in Hq. by destruct Hq.
  - intros [_ ?]%Hrun. done.
  - by rewrite He1.
  - by rewrite He1.
  - by rewrite He1.
  - intros reason' Hre Hne. rewrite Hcount, bool_decide_false by naive_solver.
    rewrite Z.add_0_r. apply (lc_open _ Hl); [done|by right].
Qed.

Lemma stop_step_lifecycle e1 q b e2 :
  reason = stop_reason → abandonRunningWork eng asg at_ reason e = Ok e1 →
  requeueAbandonedWork eng (rw_workItemID asg) q e1 = Ok (b, e2) → lifecycle e2.
Proof using Hb Hl Ha Hasg.
  intros Hst (Hl1 & Hnr & Hnq & Hnc & Hnf & Hn)%abandon_lifecycle H.
  unfold requeueAbandonedWork, insert_queued_work in H. rewrite Hnq in H. result_inv.
  apply lifecycle_enqueue; try done. intros reason' Hre. apply Hn; congruence.
Qed.

Lemma expire_step_lifecycle e1 q b e2 :
  abandonRunningWork eng asg at_ reason e = Ok e1 →
  requeueExpiredSessionWork eng asg q reason e1 = Ok (b, e2) → lifecycle e2.
Proof using Hb Hl Ha Hasg.
  intros (Hl1 & Hnr & Hnq & Hnc & Hnf & Hn)%abandon_lifecycle H.
  unfold requeueExpiredSessionWork in H.
  destruct (Z.leb_spec (abandonments e1 (rw_workItemID asg) reason) expiredSessionRequeueLimit).
  - unfold requeueAbandonedWork, insert_queued_work in H. rewrite Hnq in H. result_inv.
    apply lifecycle_enqueue; try done. intros reason' Hre.
    destruct (decide (reason' = reason)) as [->|]; [done|by apply Hn].
  - result_inv. match goal with H : insert_failed_work _ _ _ = Ok _ |- _ =>
      apply insert_failed_work_Ok in H as (_ & ->) end.
    by eapply lifecycle_failed.
Qed.
End losing.

(** ** Operations *)

Section operations_lifecycle.
Context (eng : Engine).

Lemma draining_lifecycle {T} (body : T * Exec → runningWorkRecord → result (T * Exec))
    e0 sid todo acc acc' :
  (∀ acc asg acc' todo', draining e0 sid (asg :: todo') acc.2 → body acc asg = Ok acc' →
     draining e0 sid todo' acc'.2) →
  (∀ acc asg acc' r, exec_base acc.2 → lifecycle acc.2 →
     running_work acc.2 !! rw_attemptID asg = Some r → asg = scanRunning (rw_attemptID asg) r →
     body acc asg = Ok acc' → lifecycle acc'.2) →
  draining e0 sid todo acc.2 → lifecycle acc.2 → foldM body acc todo = Ok acc' → lifecycle acc'.2.
Proof.
  intros Hdr Hstep. revert acc. induction todo as [|asg todo IH]; intros acc Hd Hl H; simpl in H.
  - by injection H as <-.
  - apply bind_Ok in H as (acc1 & H1 & H2).
    destruct Hd as (Hb & Hrest). destruct (proj1 (proj2 Hrest) asg) as (r & Hr & Hasg); [left|].
    eapply IH; [|by eapply Hstep|done]. by eapply Hdr.
Qed.

Lemma end_session_lifecycle extra sid wid st at_ reason e b e' :
  end_session_where extra sid wid st at_ reason e = (b, e') → lifecycle e → lifecycle e'.
Proof.
  unfold end_session_where. intros H. repeat case_match; injection H as <- <-; try done;
    by apply lifecycle_frame.
Qed.

Lemma recover_session_lifecycle request acc session acc' :
  recover_session eng request acc session = Ok acc' →
  exec_inv acc.2 → lifecycle acc.2 → lifecycle acc'.2.
Proof.
  destruct acc as [res e]. unfold recover_session. intros H Hinv Hl.
  destruct (markWorkerSessionDeadIfExpired session request e) as [changed e1] eqn:Hm.
  unfold markWorkerSessionDeadIfExpired in Hm.
  destruct (end_session_inv _ _ _ _ _ _ _ _ _ Hm (or_intror eq_refl) Hinv) as [Hb1 _].
  apply end_session_lifecycle in Hm as Hl1; [|exact Hl].
  destruct changed; simpl in H; [|by injection H as <-].
  refine (draining_lifecycle (recover_assignment eng request) e1 (ws_ID session) _ _ _ _ _ _ _ H).
  - intros. by eapply recover_assignment_draining.
  - intros [res1 e2] asg acc2 r Hb2 Hl2 Hr Hasg Hstep. unfold recover_assignment in Hstep.
    apply bind_Ok in Hstep as (e3 & H3 & Hstep). apply bind_Ok in Hstep as ([b e4] & H4 & [= <-]).
    by eapply expire_step_lifecycle.
  - by apply draining_start.
  - exact Hl1.
Qed.

Lemma tx_recover_lifecycle request e res e' :
  tx_recover eng request e = Ok (res, e') → exec_inv e → lifecycle e → lifecycle e'.
Proof.
  unfold tx_recover. intros H Hinv Hl.
  apply (foldM_inv (λ acc, exec_inv acc.2 ∧ lifecycle acc.2) _ _ _ _) in H; [by destruct H| |done].
  intros acc s acc' _ [? ?] ?. split; [by eapply recover_session_inv|].
  by eapply recover_session_lifecycle.
Qed.

Lemma tx_stop_lifecycle request e res e' :
  tx_stop eng request e = Ok (res, e') → exec_inv e → lifecycle e → lifecycle e'.
Proof.
  unfold tx_stop. intros H Hinv Hl. destruct (getWorkerSession _ _ _); [|by injection H as <- <-].
  case_decide; [by injection H as <- <-|].
  destruct (markWorkerSessionStopped request e) as [changed e1] eqn:Hm.
  unfold markWorkerSessionStopped in Hm.
  destruct (end_session_inv _ _ _ _ _ _ _ _ _ Hm (or_introl eq_refl) Hinv) as [Hb1 _].
  apply end_session_lifecycle in Hm as Hl1; [|exact Hl].
  destruct changed; simpl in H; [|by injection H as <- <-].
  refine (draining_lifecycle (stop_assignment eng request) e1 (sp_SessionID request) _ _ (res, e')
            _ _ _ _ H).
  - intros. by eapply stop_assignment_draining.
  - intros [res1 e2] asg acc2 r Hb2 Hl2 Hr Hasg Hstep. unfold stop_assignment in Hstep.
    apply bind_Ok in Hstep as (e3 & H3 & Hstep). apply bind_Ok in Hstep as ([b e4] & H4 & [= <-]).
    by eapply stop_step_lifecycle.
  - by apply draining_start.
  - exact Hl1.
Qed.

(** Queueing items that were never attempted. *)
Lemma enqueueWorkItems_lifecycle items e0 e e' :
  enqueueWorkItems eng items e = Ok e' →
  exec_base e → work_item_attempts e = work_item_attempts e0 → queued_work e0 ⊆ queued_work e →
  enqueues_new e0 (queued_ids items) → lifecycle e → lifecycle e'.
Proof.
  intros H Hb Ht Hsub Hnew Hl.
  cut (exec_base e' ∧ work_item_attempts e' = work_item_attempts e0 ∧
       queued_work e0 ⊆ queued_work e' ∧ lifecycle e'); [tauto|].
  refine (foldM_inv (λ e, exec_base e ∧ work_item_attempts e = work_item_attempts e0 ∧
    queued_work e0 ⊆ queued_work e ∧ lifecycle e) _ _ _ _ _ _ H); [|done].
  intros e1 q e2 Hin (Hb1 & Ht1 & Hsub1 & Hl1) Hs. unfold enqueue_or_match, getQueuedWork in Hs.
  apply bind_Ok in Hs as (existing & Hget & Hs). result_inv.
  destruct (queued_work e1 !! wi_ID (qw_WorkItem q)) as [at_|] eqn:Hq; result_inv; [done|].
  pose proof (insert_queued_work_core _ _ _ _ _ Hs) as Hcore.
  split; [by eapply same_core_base|].
  unfold insert_queued_work in Hs. result_inv. sql_inv.
  assert (Hfresh : never_attempted e1 (wi_ID (qw_WorkItem q))).
  { unfold never_attempted. rewrite Ht1. apply Hnew.
    - by apply (list_elem_of_fmap_2 (λ q, wi_ID (qw_WorkItem q))).
    - destruct (queued_work e0 !! wi_ID (qw_WorkItem q)) eqn:E; [|done].
      by rewrite (lookup_weaken _ _ _ _ E Hsub1) in Hq. }
  destruct (never_attempted_no_outcome _ _ Hb1 Hfresh) as (? & ? & ? & Hn).
  split_and!; [done| |].
  - etrans; [done|]. by apply insert_subseteq.
  - apply lifecycle_enqueue; try done. intros reason _. rewrite Hn. lia.
Qed.

Lemma insertWorkItems_lifecycle items db db' :
  insertWorkItems eng items db = Ok db' →
  let e := exec db in let e' := exec db' in
  queued_work e' = queued_work e ∧ work_item_attempts e' = work_item_attempts e ∧
  (lifecycle e → lifecycle e').
Proof.
  intros H. simpl. refine (foldM_inv (λ d, queued_work (exec d) = queued_work (exec db) ∧
    work_item_attempts (exec d) = work_item_attempts (exec db) ∧
    (lifecycle (exec db) → lifecycle (exec d))) _ _ _ _ _ _ H); [|done].
  unfold insert_or_match_work_item, insert_work_item. intros d item d' _ (Hq & Ht & Hl) Hs.
  result_inv. case_match; result_inv; [done|]. split_and!; [done..|].
  intros Hlc. by apply (lifecycle_frame (exec d)), Hl.
Qed.

Lemma insertConstraints_lifecycle cs e e' :
  insertWorkItemResourceConstraints eng cs e = Ok e' →
  queued_work e' = queued_work e ∧ work_item_attempts e' = work_item_attempts e ∧
  (lifecycle e → lifecycle e').
Proof.
  intros H. refine (foldM_inv (λ d, queued_work d = queued_work e ∧
    work_item_attempts d = work_item_attempts e ∧ (lifecycle e → lifecycle d)) _ _ _ _ _ _ H); [|done].
  unfold insert_or_match_constraint, insert_resource_constraint. intros d c d' _ (Hq & Ht & Hl) Hs.
  result_inv. case_match; result_inv; [done|]. split_and!; [done..|].
  intros Hlc. by apply (lifecycle_frame d), Hl.
Qed.

Lemma tx_queue_lifecycle items cs queued db db' :
  tx_queue eng items cs queued db = Ok db' → exec_inv (exec db) →
  enqueues_new (exec db) (queued_ids queued) → lifecycle (exec db) → lifecycle (exec db').
Proof.
  unfold tx_queue, lift_exec. intros H Hi Hnew Hl.
  apply bind_Ok in H as (db1 & H1 & H). apply bind_Ok in H as (db2 & H2 & H).
  apply bind_Ok in H2 as (e2 & H2 & [= <-]). apply bind_Ok in H as (e3 & H3 & [= <-]). simpl in *.
  destruct (insertWorkItems_lifecycle _ _ _ H1) as (Hq1 & Ht1 & Hl1).
  destruct (insertConstraints_lifecycle _ _ _ H2) as (Hq2 & Ht2 & Hl2).
  eapply (enqueueWorkItems_lifecycle _ (exec db)); [exact H3|..]; try done.
  - eapply same_core_base; [by eapply insertConstraints_core|].
    by apply (insertWorkItems_inv eng _ _ _ H1).
  - congruence.
  - by rewrite Hq2, Hq1.
  - auto.
Qed.

Lemma tx_complete_stage_lifecycle request db r db' :
  tx_complete_stage eng request db = Ok (r, db') → exec_inv (exec db) →
  enqueues_new (exec db) (queued_ids (cs_ReadyQueuedWork request)) →
  lifecycle (exec db) → lifecycle (exec db').
Proof.
  unfold tx_complete_stage. intros H Hi Hnew Hl. apply bind_Ok in H as (found & _ & H).
  destruct found; [|by result_inv]. case_decide; [by result_inv|].
  apply bind_Ok in H as (? & _ & H). destruct (negb _); [by result_inv|].
  apply bind_Ok in H as (c' & _ & H). apply bind_Ok in H as (db1 & H & [= <- <-]).
  by eapply tx_queue_lifecycle in H.
Qed.

Lemma run_op_lifecycle o db :
  exec_inv (exec db) → enqueues_new (exec db) (op_enqueues o) →
  lifecycle (exec db) → lifecycle (exec (run_op eng o db)).
Proof.
  intros Hi Hnew Hl. set (P := λ d : DB, lifecycle (exec d)). change (P (run_op eng o db)).
  destruct o; unfold run_op, run_store_op;
    try (apply (catalog_tx_ind P); [exact Hl|intros; exact Hl]).
  - apply (exec_tx_ind P); [exact Hl|]. unfold P, tx_register, insert_worker_session.
    intros s e' _ H. case_match; result_inv; [done|].
    apply (lifecycle_frame (exec db)); try done; unfold insert_worker_if_absent; simpl; by case_match.
  - apply (exec_tx_ind P); [exact Hl|]. intros b e' _ [= Hu]. unfold P, update_heartbeat in *. simpl.
    repeat case_match; injection Hu as <- <-; try done; by apply (lifecycle_frame (exec db)).
  - apply (exec_tx_ind P); [exact Hl|]. unfold P, tx_end. intros b e' _ H.
    repeat case_match; result_inv; try done. by eapply end_session_lifecycle.
  - apply (exec_tx_ind P); [exact Hl|]. intros. by eapply tx_stop_lifecycle.
  - apply (exec_tx_ind P); [exact Hl|]. intros. by eapply tx_recover_lifecycle.
  - apply (transact_ind P); [exact Hl|]. intros. result_inv. by eapply insertWorkItems_lifecycle.
  - apply (transact_ind P); [exact Hl|]. intros. result_inv. by eapply tx_queue_lifecycle.
  - apply (transact_ind P); [exact Hl|]. intros. unfold lift_exec in *. result_inv.
    eapply (enqueueWorkItems_lifecycle _ (exec db)); [eassumption|apply Hi|done..].
  - apply (exec_tx_ind P); [exact Hl|]. unfold P, tx_claim. intros c e' _ (u & _ & H)%bind_Ok.
    apply claim_first_Ok in H as [(_ & -> & _)|(q1 & q & q2 & _ & _ & _ & H)]; [done|].
    by eapply lifecycle_lease.
  - apply (exec_tx_ind P); [exact Hl|]. intros. eapply tx_complete_lifecycle; [done|apply Hi|done].
  - apply (exec_tx_ind P); [exact Hl|]. intros. eapply tx_fail_lifecycle; [done|apply Hi|done].
  - apply (transact_ind P); [exact Hl|]. intros. by eapply tx_complete_stage_lifecycle.
Qed.
End operations_lifecycle.

Lemma disciplined_lifecycle db : disciplined db → lifecycle (exec db).
Proof.
  induction 1 as [|db eng o Hd IH Hnew].
  - constructor; unfold item_running, item_completed, item_failed; simpl; repeat intro;
      repeat match goal with
      | H : is_Some _ |- _ => destruct H
      | H : _ ∧ _ |- _ => destruct H
      | H : ∃ _, _ |- _ => destruct H
      | H : context [(∅ : gmap _ _) !! _] |- _ => rewrite lookup_empty in H
      end; done.
  - apply run_op_lifecycle; [|done..]. by apply reachable_exec_inv, disciplined_reachable.
Qed.

(** ** Properties *)

(** C2: work is finished at most once.  When only never attempted items are
    enqueued, a work item has at most one completed attempt, is never both
    completed and failed, is not queued while it is running, and is neither
    queued nor running once it is completed or failed. *)
Theorem work_item_finishes_once db i :
  disciplined db →
  let e := exec db in
  (∀ a1 a2 c1 c2, completed_work e !! a1 = Some c1 → completed_work e !! a2 = Some c2 →
     cw_WorkItemID c1 = i → cw_WorkItemID c2 = i → a1 = a2) ∧
  ¬ (item_completed e i ∧ item_failed e i) ∧
  ¬ (is_Some (queued_work e !! i) ∧ item_running e i) ∧
  (item_completed e i ∨ item_failed e i → queued_work e !! i = None ∧ ¬ item_running e i).
Proof.
  intros Hl%disciplined_lifecycle e. split_and!.
  - intros a1 a2 c1 c2 H1 H2 E1 E2. eapply (lc_once _ Hl); [done..|congruence].
  - apply (lc_one_outcome _ Hl).
  - intros [Hq Hr]. by destruct (lc_queued _ Hl i Hq) as [[] _].
  - intros Hfin. split.
    + apply eq_None_not_Some. intros Hq. destruct (lc_queued _ Hl i Hq) as (_ & ? & ?). tauto.
    + intros Hr. destruct (lc_running _ Hl i Hr). tauto.
Qed.

(** The discipline, decided along a run. *)
Definition enqueues_new_b (e : Exec) (ids : list string) : bool :=
  forallb (λ id, has_key (queued_work e) id ||
    negb (table_has (λ _ t, bool_decide (at_work_item_id t = id)) (work_item_attempts e))) ids.
Fixpoint disciplined_run (eng : Engine) (os : list op) (db : DB) : bool :=
  match os with
  | [] => true
  | o :: os' => enqueues_new_b (exec db) (op_enqueues o) && disciplined_run eng os' (run_op eng o db)
  end.

Lemma enqueues_new_b_true e ids : enqueues_new_b e ids = true → enqueues_new e ids.
Proof.
  unfold enqueues_new_b. rewrite forallb_forall. intros Hall id Hin Hq a t Ht Hi.
  specialize (Hall id). rewrite <- list_elem_of_In in Hall. specialize (Hall Hin).
  rewrite (proj2 (has_key_false _ _) Hq), orb_false_l, negb_true_iff, table_has_false in Hall.
  specialize (Hall _ _ Ht). by rewrite bool_decide_eq_false in Hall.
Qed.

Lemma disciplined_run_ops eng os db :
  disciplined db → disciplined_run eng os db = true → disciplined (run_ops eng os db).
Proof.
  revert db. induction os as [|o os IH]; intros db Hd; simpl; [done|].
  rewrite andb_true_iff. intros [?%enqueues_new_b_true ?]. apply IH; [|done]. by apply disciplined_op.
Qed.

(** One item: leased, lost to an expired session, leased again, completed. *)
Definition demo_life : list op :=
  demo_catalog ++
  [ OpQueueWorkItems (mkQueueReq [demo_item "a" 0] [] [demo_queued "a" 0 "2026-01-01T00:00:01Z"]);
    demo_session "w1" "s1"; OpClaim (demo_claim "t1" "w1" "s1");
    OpRecover (mkRecover "2026-01-01T00:00:30Z" "2026-01-01T00:00:31Z" "expired");
    demo_session "w2" "s2"; OpClaim (demo_claim "t2" "w2" "s2");
    OpComplete (demo_complete "t2" "w2" "s2") ].
Definition demo_finished : DB := run_ops demo_engine demo_life emptyDB.

Lemma demo_finished_disciplined : disciplined demo_finished.
Proof. apply disciplined_run_ops; [apply disciplined_empty|]. vm_compute. reflexivity. Qed.

Lemma work_item_finishes_once_witness :
  item_completed (exec demo_finished) "a" ∧ queued_work (exec demo_finished) !! "a" = None.
Proof.
  assert (Hc : item_completed (exec demo_finished) "a").
  { exists "t2". eexists. split; vm_compute; reflexivity. }
  split; [exact Hc|].
  exact (proj1 (proj2 (proj2 (proj2 (work_item_finishes_once demo_finished "a"
    demo_finished_disciplined))) (or_introl Hc))).
Defined.

(** C24: expiry retries are bounded for the whole life of an item.  When only
    never attempted items are enqueued, no work item is ever abandoned more than
    four times for the same reason other than a worker being stopped, whatever
    the order of claims, heartbeats, recoveries, stops and reports. *)
Theorem expiry_retries_bounded db i reason :
  disciplined db → reason ≠ stop_reason → 0 ≤ abandonments (exec db) i reason ≤ 4.
Proof.
  intros Hl%disciplined_lifecycle Hre. split; [apply table_count_nonneg|]. by apply (lc_ceiling _ Hl).
Qed.

Lemma expiry_retries_bounded_witness :
  abandonments (exec demo_finished) "a" "expired" = 1 ∧
  0 ≤ abandonments (exec demo_finished) "a" "expired" ≤ 4.
Proof.
  split; [vm_compute; reflexivity|].
  apply (expiry_retries_bounded demo_finished "a" "expired" demo_finished_disciplined).
  intros H. discriminate H.
Defined.
