(* ===== verification/StoreStage.v ===== *)
(** * The workflow store: stages

    [CompleteStageIfReady] decides by counting rows whether a stage's work is
    done; this file shows what the counts mean, that a completed stage never
    changes again, and that a stage plan reads back as it was written. *)

From S2P Require Import Prelude StoreData StoreSQL StoreOps StoreInv StoreFrame StoreLease StoreReport StoreLifecycle.
Local Open Scope Z_scope.

(** ** When a stage is done *)

Definition stage_done (e : Exec) (runID : string) (stageIndex : Z) : Prop :=
  (∃ id w, work_items e !! id = Some w ∧ in_stage runID stageIndex w = true) ∧
  ∀ id w, work_items e !! id = Some w → in_stage runID stageIndex w = true →
    item_completed e id ∧ queued_work e !! id = None ∧ ¬ item_running e id ∧ ¬ item_failed e id.

(** Counting distinct elements decides inclusion. *)
Lemma NoDup_same_length {A} (l k : list A) :
  NoDup l → NoDup k → (∀ x, x ∈ l → x ∈ k) → length l = length k ↔ ∀ x, x ∈ k → x ∈ l.
Proof.
  intros Hl Hk Hsub. assert (Hs : l ⊆+ k) by by apply NoDup_submseteq. split.
  - intros Hlen x Hx. by rewrite (submseteq_length_Permutation _ _ Hs) by lia.
  - intros Hin. apply Nat.le_antisymm; [by apply submseteq_length|].
    apply submseteq_length, NoDup_submseteq; [done|]. exact Hin.
Qed.

Section stage_counts.
Context (e : Exec) (runID : string) (stageIndex : Z).
Notation here := (item_in_stage e runID stageIndex).

Lemma here_true id : here id = true ↔
  ∃ w, work_items e !! id = Some w ∧ in_stage runID stageIndex w = true.
Proof. unfold item_in_stage. destruct (work_items e !! id); naive_solver. Qed.

Definition stage_ids : list string :=
  (table_rows (λ _ w, in_stage runID stageIndex w) (work_items e)).*1.
Definition completed_ids : list string :=
  remove_dups ((λ kv, cw_WorkItemID kv.2) <$>
    table_rows (λ _ c, here (cw_WorkItemID c)) (completed_work e)).

Lemma elem_of_stage_ids id : id ∈ stage_ids ↔ here id = true.
Proof.
  unfold stage_ids. rewrite list_elem_of_fmap, here_true. split.
  - intros ([k w] & -> & ?%elem_of_table_rows). eauto.
  - intros (w & ?). exists (id, w). split; [done|]. by apply elem_of_table_rows.
Qed.

Lemma elem_of_completed_ids id : id ∈ completed_ids ↔ here id = true ∧ item_completed e id.
Proof.
  unfold completed_ids, item_completed. rewrite elem_of_remove_dups, list_elem_of_fmap. split.
  - intros ([a c] & -> & [? ?]%elem_of_table_rows). eauto 6.
  - intros (Hh & a & c & Ha & <-). exists (a, c). split; [done|]. by apply elem_of_table_rows.
Qed.

Lemma completed_count_eq :
  Z.of_nat (length completed_ids) = table_count (λ _ w, in_stage runID stageIndex w) (work_items e) ↔
  ∀ id, here id = true → item_completed e id.
Proof.
  replace (table_count _ (work_items e)) with (Z.of_nat (length stage_ids))
    by (unfold stage_ids, table_count; by rewrite length_fmap).
  rewrite Nat2Z.inj_iff, NoDup_same_length.
  - split; intros H id; specialize (H id); rewrite elem_of_stage_ids, elem_of_completed_ids in *; tauto.
  - apply NoDup_remove_dups.
  - apply table_rows_NoDup.
  - intros id. rewrite elem_of_stage_ids, elem_of_completed_ids. tauto.
Qed.

Lemma stageWorkComplete_done : stageWorkComplete e runID stageIndex = true ↔ stage_done e runID stageIndex.
Proof.
  unfold stageWorkComplete. fold completed_ids.
  rewrite !andb_true_iff, !Z.eqb_eq, completed_count_eq, !table_count_0.
  assert (Htot : (table_count (λ _ w, in_stage runID stageIndex w) (work_items e) >? 0) = true ↔
    ∃ id w, work_items e !! id = Some w ∧ in_stage runID stageIndex w = true).
  { rewrite <- table_has_true. unfold table_has, table_count.
    rewrite negb_true_iff, bool_decide_eq_false. destruct (table_rows _ _); simpl; [naive_solver lia|].
    split; [done|]. intros _. reflexivity. }
  rewrite Htot. unfold stage_done, item_running, item_failed. split.
  - intros ((((Hex & Hc) & Hq) & Hr) & Hf). split; [done|]. intros id w Hw Hin.
    assert (Hh : here id = true) by (apply here_true; eauto). split_and!.
    + by apply Hc.
    + destruct (queued_work e !! id) eqn:E; [|done]. specialize (Hq _ _ E). congruence.
    + intros (a & r & Ha & <-). specialize (Hr _ _ Ha). simpl in Hr. congruence.
    + intros (a & f & Ha & <-). specialize (Hf _ _ Ha). simpl in Hf. congruence.
  - intros [Hex Hall]. split_and!; [done|..].
    + intros id (w & Hw & Hin)%here_true. by eapply Hall.
    + intros id at_ Hq. destruct (here id) eqn:E; [|done]. apply here_true in E as (w & Hw & Hin).
      destruct (Hall _ _ Hw Hin) as (_ & ? & _). congruence.
    + intros a r Ha. destruct (here (rr_work_item_id r)) eqn:E; [|done].
      apply here_true in E as (w & Hw & Hin).
      destruct (Hall _ _ Hw Hin) as (_ & _ & Hn & _). destruct Hn. eauto.
    + intros a f Ha. destruct (here (fw_WorkItemID f)) eqn:E; [|done].
      apply here_true in E as (w & Hw & Hin).
      destruct (Hall _ _ Hw Hin) as (_ & _ & _ & Hn). destruct Hn. eauto.
Qed.
End stage_counts.

(** ** The catalogue under queueing *)

Lemma insertWorkItems_catalog eng items db db' :
  insertWorkItems eng items db = Ok db' → catalog db' = catalog db.
Proof.
  intros H. refine (foldM_inv (λ d, catalog d = catalog db) _ _ _ _ _ _ H); [|done].
  unfold insert_or_match_work_item, insert_work_item. intros d item d' _ Hd Hs.
  result_inv. case_match; by result_inv.
Qed.

Lemma tx_queue_catalog eng items cs queued db db' :
  tx_queue eng items cs queued db = Ok db' → catalog db' = catalog db.
Proof.
  unfold tx_queue, lift_exec. intros H. result_inv. by eapply insertWorkItems_catalog.
Qed.

(** The row of a stage after it was completed. *)
Definition completed_row (request : CompleteStageRequest) (r : stage_row) : stage_row :=
  mkStageRow (str_step_id r) (str_stage_source_reference r) "completed" (str_created_at r)
    (str_ready_at r) (str_started_at r) (Some (cs_CompletedAt request)) (str_failed_at r)
    (Some (cs_OutputJSON request)) (Some (cs_OutputJSONSHA256 request)).

Lemma tx_complete_stage_Ok eng request db res db' :
  tx_complete_stage eng request db = Ok (res, db') →
  let key := (cs_RunID request, cs_StageIndex request) in
  match workflow_stages (catalog db) !! key with
  | None => db' = db ∧ csr_Found res = false
  | Some r =>
      csr_Found res = true ∧
      (str_state r = "completed" → db' = db ∧ csr_Completed res = true) ∧
      (str_state r ≠ "completed" →
       str_state r ∉ ["failed"; "skipped"; "blocked"] ∧
       csr_Completed res = stageWorkComplete (exec db) (cs_RunID request) (cs_StageIndex request) ∧
       (csr_Completed res = false → db' = db) ∧
       (csr_Completed res = true →
        workflow_stages (catalog db') = <[key := completed_row request r]> (workflow_stages (catalog db))))
  end.
Proof.
  intros H key. unfold tx_complete_stage, getWorkflowStage in H. apply bind_Ok in H as (found & Hf & H).
  result_inv. fold key in H. destruct (workflow_stages (catalog db) !! key) as [r|] eqn:Hr; simpl in H.
  2: { by result_inv. }
  destruct (decide (str_state r = "completed")) as [Hc|Hc].
  - result_inv. done.
  - apply bind_Ok in H as (? & Hst & H). rewrite fail_if_Ok, bool_decide_eq_false in Hst.
    destruct (stageWorkComplete _ _ _) eqn:Hw; simpl in H.
    + unfold mark_stage_completed in H. apply bind_Ok in H as (c' & Hc' & H).
      apply bind_Ok in H as (db1 & Hq & [= <- <-]). result_inv.
      apply tx_queue_catalog in Hq. rewrite Hq. simpl. split_and!; [done..|]. intros _.
      split_and!; [done..|]. intros _. fold key. apply map_eq. intros k.
      destruct (decide (k = key)) as [->|Hne].
      * by rewrite lookup_alter_eq, lookup_insert_eq, Hr.
      * by rewrite lookup_alter_ne, lookup_insert_ne.
    + result_inv. done.
Qed.

(** A stage completes exactly when its work is done.  When the operation
    answers for a stage that is not yet completed, it reports completion if and
    only if the stage has work items and every one of them is completed and none
    is queued, running or failed; it then records the completion in the stage's
    row, and otherwise changes nothing. *)
Theorem CompleteStageIfReady_iff_done eng request db res db' r :
  CompleteStageIfReady eng request (Some db) = (Ok res, Some db') →
  let key := (cs_RunID request, cs_StageIndex request) in
  workflow_stages (catalog db) !! key = Some r → str_state r ≠ "completed" →
  (csr_Completed res = true ↔ stage_done (exec db) (cs_RunID request) (cs_StageIndex request)) ∧
  (csr_Completed res = true → workflow_stages (catalog db') !! key = Some (completed_row request r)) ∧
  (csr_Completed res = false → db' = db).
Proof.
  intros H key Hr Hst. unfold CompleteStageIfReady, transact in H.
  destruct (validate_complete_stage request); [|done].
  destruct (tx_complete_stage eng request db) as [[res1 db1]|] eqn:E; [|done].
  injection H as -> <-. pose proof (tx_complete_stage_Ok _ _ _ _ _ E) as Hspec.
  simpl in Hspec. fold key in Hspec. rewrite Hr in Hspec.
  destruct Hspec as (_ & _ & Hspec). destruct (Hspec Hst) as (_ & Hc & Hf & Ht).
  rewrite Hc, stageWorkComplete_done. split_and!; [done| |].
  - intros Hd. rewrite Ht; [by rewrite lookup_insert_eq|].
    rewrite Hc. by apply stageWorkComplete_done.
  - intros Hn. apply Hf. congruence.
Qed.

Definition demo_stage_done : CompleteStageRequest :=
  mkStageReq "run1" 0 "{}" "sha" "2026-01-01T00:05:00Z" [] [] [].

Lemma CompleteStageIfReady_iff_done_witness :
  stage_done (exec demo_finished) "run1" 0.
Proof.
  set (db' := run_op demo_engine (OpCompleteStage demo_stage_done) demo_finished).
  set (r := mkStageRow "step" "ref" "ready" "2026-01-01T00:00:00Z" None None None None None None).
  assert (H : CompleteStageIfReady demo_engine demo_stage_done (Some demo_finished) =
    (Ok (mkStageResult (Some (completed_stage demo_stage_done (scanWorkflowStage ("run1", 0) r)))
           true true), Some db')) by (vm_compute; reflexivity).
  assert (Hr : workflow_stages (catalog demo_finished) !! ("run1", 0) = Some r)
    by (vm_compute; reflexivity).
  refine (proj1 (proj1 (CompleteStageIfReady_iff_done _ _ _ _ _ r H Hr _)) eq_refl).
  intros Hs. discriminate Hs.
Defined.

(** ** Completed stages never change *)

Definition stages_kept (c c' : Catalog) : Prop :=
  ∀ k r, workflow_stages c !! k = Some r →
    ∃ r', workflow_stages c' !! k = Some r' ∧ str_step_id r' = str_step_id r ∧
      (str_state r = "completed" → r' = r).

#[export] Instance stages_kept_preorder : PreOrder stages_kept.
Proof.
  split; [by intros c k r Hk; exists r|]. intros c1 c2 c3 H12 H23 k r Hk.
  destruct (H12 _ _ Hk) as (r2 & Hk2 & ? & Hc2). destruct (H23 _ _ Hk2) as (r3 & Hk3 & ? & Hc3).
  exists r3. split_and!; [done|congruence|]. intros Hc. specialize (Hc2 Hc). subst. auto.
Qed.

Lemma same_stages_kept c c' : workflow_stages c' = workflow_stages c → stages_kept c c'.
Proof. intros Hc k r Hk. exists r. by rewrite Hc. Qed.

Lemma insert_workflow_stage_kept eng s c c' : insert_workflow_stage eng s c = Ok c' → stages_kept c c'.
Proof.
  unfold insert_workflow_stage. intros H. result_inv. sql_inv. intros k r Hk. exists r. simpl.
  rewrite lookup_insert_ne; [done|]. intros <-. congruence.
Qed.

Lemma tx_complete_stage_kept eng request db res db' :
  tx_complete_stage eng request db = Ok (res, db') → stages_kept (catalog db) (catalog db').
Proof.
  intros H. pose proof (tx_complete_stage_Ok _ _ _ _ _ H) as Hspec. simpl in Hspec.
  destruct (workflow_stages (catalog db) !! (cs_RunID request, cs_StageIndex request)) as [r|] eqn:Hr.
  2: { by destruct Hspec as [-> _]. }
  destruct Hspec as (_ & Hdone & Hnew).
  destruct (decide (str_state r = "completed")) as [Hc|Hc]; [by destruct (Hdone Hc) as [-> _]|].
  destruct (Hnew Hc) as (_ & _ & Hf & Ht). destruct (csr_Completed res); [|by rewrite Hf].
  intros k r' Hk. rewrite Ht by done.
  destruct (decide (k = (cs_RunID request, cs_StageIndex request))) as [->|Hne].
  - rewrite Hr in Hk. injection Hk as <-. rewrite lookup_insert_eq. eexists. done.
  - rewrite lookup_insert_ne by done. by exists r'.
Qed.

Lemma insert_stage_plan_kept eng runID stages c u c' :
  tx_insert_stage_plan eng runID stages c = Ok (u, c') → stages_kept c c'.
Proof.
  unfold tx_insert_stage_plan. intros H. case_match; [|by result_inv].
  apply bind_Ok in H as (c1 & H & [= _ <-]). revert H. apply foldM_rel; [apply _|].
  intros c2 s c3 Hs. rewrite wrap_err_Ok in Hs. by eapply insert_workflow_stage_kept.
Qed.

Lemma run_op_stages eng o db : stages_kept (catalog db) (catalog (run_op eng o db)).
Proof.
  set (P := λ d, stages_kept (catalog db) (catalog d)).
  assert (Hdb : P db) by (unfold P; reflexivity). change (P (run_op eng o db)).
  destruct o; unfold run_op, run_store_op;
    try (apply (exec_tx_ind P); [exact Hdb|intros; exact Hdb]);
    try (apply (catalog_tx_ind P); [exact Hdb|]; intros ?? _ H).
  - apply (transact_ind P); [exact Hdb|]. intros. result_inv. unfold P.
    apply same_stages_kept. f_equal. by eapply insertWorkItems_catalog.
  - apply (transact_ind P); [exact Hdb|]. intros. result_inv. unfold P.
    apply same_stages_kept. f_equal. by eapply tx_queue_catalog.
  - apply (transact_ind P); [exact Hdb|]. unfold lift_exec. intros. result_inv. exact Hdb.
  - apply (transact_ind P); [exact Hdb|]. intros. by eapply tx_complete_stage_kept.
  - unfold tx_upsert_project, getProject in H. apply same_stages_kept.
    result_inv. case_match; by result_inv.
  - unfold tx_delete_project in H. apply same_stages_kept. repeat case_match; by result_inv.
  - unfold tx_upsert_workflow, getWorkflow in H. apply same_stages_kept.
    result_inv. case_match; by result_inv.
  - unfold tx_delete_workflow in H. apply same_stages_kept. repeat case_match; by result_inv.
  - unfold tx_create_run, getWorkflowRun in H. apply same_stages_kept.
    result_inv. case_match; by result_inv.
  - unfold tx_update_submission_context in H. apply same_stages_kept. case_match; by result_inv.
  - by eapply insert_stage_plan_kept.
  - unfold tx_insert_dependency_steps in H. apply same_stages_kept.
    case_match; [by result_inv|]. case_match; [|by result_inv]. apply bind_Ok in H as (c1 & H & [= _ <-]).
    refine (foldM_inv (λ c, workflow_stages c = workflow_stages (catalog db)) _ _ _ _ _ _ H); [|done].
    unfold insert_dependency_step. intros. by result_inv.
  - apply bind_Ok in H as (c1 & H & [= _ <-]). apply same_stages_kept.
    refine (foldM_inv (λ c, workflow_stages c = workflow_stages (catalog db)) _ _ _ _ _ _ H); [|done].
    unfold insert_dependency_membership. intros. result_inv. case_match; by result_inv.
  - unfold tx_upsert_output_fact in H. apply same_stages_kept. by result_inv.
Qed.

(** A completed stage is final.  After any sequence of operations the
    stages of a run are still there under their step, and a completed stage has
    the same row: its output, digest and completion time never change. *)
Theorem completed_stage_is_final eng os db k r :
  workflow_stages (catalog db) !! k = Some r →
  ∃ r', workflow_stages (catalog (run_ops eng os db)) !! k = Some r' ∧
    str_step_id r' = str_step_id r ∧ (str_state r = "completed" → r' = r).
Proof.
  enough (H : stages_kept (catalog db) (catalog (run_ops eng os db))) by exact (H k r).
  revert db. induction os as [|o os IH]; intros db; simpl; [done|].
  etrans; [apply run_op_stages|apply IH].
Qed.

Lemma completed_stage_is_final_witness :
  ∃ r', workflow_stages (catalog (run_ops demo_engine [OpCompleteStage demo_stage_done] demo_finished))
          !! ("run1", 0) = Some r' ∧ str_step_id r' = "step".
Proof.
  destruct (completed_stage_is_final demo_engine [OpCompleteStage demo_stage_done] demo_finished
    ("run1", 0) (mkStageRow "step" "ref" "ready" "2026-01-01T00:00:00Z" None None None None None None))
    as (r' & Hr & Hs & _); [vm_compute; reflexivity|].
  exists r'. exact (conj Hr Hs).
Defined.

(** ** Stage plans read back *)

Lemma scan_stage_row s :
  scanWorkflowStage (st_RunID s, st_StageIndex s) (stage_row_of s) = s.
Proof. destruct s. unfold scanWorkflowStage, stage_row_of. simpl. by rewrite !from_null_nullString. Qed.

Definition stage_key (s : WorkflowStageRecord) : string * Z := (st_RunID s, st_StageIndex s).

(** Inserting a plan adds the rows of its stages, all new. *)
Lemma insert_stages_rows eng stages c c' :
  foldM (λ c stage, wrap_err ("insert workflow stage " +:+ st_RunID stage +:+ "/" +:+
            pretty (st_StageIndex stage)) (insert_workflow_stage eng stage c)) c stages = Ok c' →
  ∀ k r, workflow_stages c' !! k = Some r ↔
    workflow_stages c !! k = Some r ∨ ∃ s, s ∈ stages ∧ k = stage_key s ∧ r = stage_row_of s.
Proof.
  revert c. induction stages as [|s stages IH]; intros c H k r.
  - simpl in H. injection H as <-. split; [by left|].
    intros [?|(s & Hs & _)]; [done|]. by apply elem_of_nil in Hs.
  - rewrite foldM_cons in H. apply bind_Ok in H as (c1 & H1 & H2). rewrite (IH _ H2).
    unfold insert_workflow_stage in H1. result_inv. sql_inv. simpl. rewrite lookup_insert_Some. split.
    + intros [[[<- <-]|[_ ?]]|(s' & ? & ?)]; [right; exists s|by left|right; exists s'].
      * split; [left|done].
      * split; [by right|done].
    + intros [Hk|(s' & [->|Hs']%elem_of_cons & -> & ->)]; [left; right|left; left; done|right; eauto].
      split; [|done]. intros <-. congruence.
Qed.

Lemma elem_of_listStages c runID s :
  s ∈ listStagesForRun c runID ↔
  ∃ k r, workflow_stages c !! k = Some r ∧ k.1 = runID ∧ s = scanWorkflowStage k r.
Proof.
  unfold listStagesForRun. rewrite (elem_of_order_by (by_int _)), list_elem_of_fmap. split.
  - intros ([k r] & -> & [? ?%bool_decide_eq_true]%elem_of_table_rows). eauto.
  - intros (k & r & ? & ? & ->). exists (k, r). split; [done|].
    apply elem_of_table_rows. by rewrite bool_decide_eq_true.
Qed.

Lemma listStages_NoDup c runID : NoDup (listStagesForRun c runID).
Proof.
  apply (NoDup_fmap_1 stage_key). unfold listStagesForRun.
  rewrite (order_by_perm (by_int st_StageIndex)), <- list_fmap_compose.
  erewrite list_fmap_ext; [apply table_rows_NoDup|]. intros ? [[run idx] r] _. done.
Qed.

(** In stage order: indexes strictly increase. *)
Definition in_stage_order (stages : list WorkflowStageRecord) : Prop :=
  StronglySorted (λ a b, st_StageIndex a < st_StageIndex b) stages.

Lemma in_stage_order_NoDup stages : in_stage_order stages → NoDup stages.
Proof.
  induction 1 as [|s stages _ IH Hall]; constructor; [|done]. intros Hin.
  rewrite Forall_forall in Hall. specialize (Hall _ Hin). lia.
Qed.

Lemma in_stage_order_unique stages s1 s2 :
  in_stage_order stages → s1 ∈ stages → s2 ∈ stages → st_StageIndex s1 = st_StageIndex s2 → s1 = s2.
Proof.
  induction 1 as [|s stages _ IH Hall]; intros H1 H2 Heq; [by apply elem_of_nil in H1|].
  rewrite Forall_forall in Hall.
  apply elem_of_cons in H1 as [->|H1], H2 as [->|H2]; try done; [..|by apply IH].
  - specialize (Hall _ H2). lia.
  - specialize (Hall _ H1). lia.
Qed.

Lemma listStages_of_plan c runID stages :
  in_stage_order stages → (∀ s, s ∈ listStagesForRun c runID ↔ s ∈ stages) →
  listStagesForRun c runID = stages.
Proof.
  intros Hso Hel.
  assert (Hperm : listStagesForRun c runID ≡ₚ stages).
  { apply NoDup_Permutation; [apply listStages_NoDup|by apply in_stage_order_NoDup|done]. }
  apply (StronglySorted_unique_strong (λ x y, Is_true (by_int st_StageIndex x y))); [..|done].
  - intros x y Hx%Hel Hy Hxy Hyx. unfold by_int in *. eapply in_stage_order_unique; [done..|].
    apply Is_true_true in Hxy, Hyx. lia.
  - apply order_by_sorted, _.
  - clear -Hso. induction Hso as [|s stages _ IH Hall]; constructor; [done|].
    eapply Forall_impl; [done|]. intros x Hx. unfold by_int. apply Is_true_true, Z.leb_le.
    simpl in Hx. lia.
Qed.

Lemma validate_stage_plan_run runID stages s :
  validate_stage_plan runID stages = Ok tt → s ∈ stages → st_RunID s = runID.
Proof.
  unfold validate_stage_plan. intros H. result_inv. destruct stages as [|s0 stages]; [done|].
  apply bind_Ok in H as (n & H & _). revert n H. generalize 0 at 1.
  generalize (s0 :: stages) as l. clear. induction l as [|x l IH]; intros i n H Hs.
  - by apply elem_of_nil in Hs.
  - rewrite foldM_cons in H. apply bind_Ok in H as (i' & Hx & H). result_inv.
    apply elem_of_cons in Hs as [->|Hs]; [|by eapply IH].
    rewrite bool_decide_eq_false in *. by apply dec_stable.
Qed.

(** A stage plan reads back as it was written.  After a plan in stage order
    is inserted for a run that had none, the run's stages are exactly that plan,
    inserting the same plan again succeeds and changes nothing, and any other
    valid plan for the run is refused and changes nothing. *)
Theorem InsertStagePlan_roundtrip eng runID stages db db' :
  InsertStagePlan eng runID stages (Some db) = (Ok tt, Some db') →
  listStagesForRun (catalog db) runID = [] → in_stage_order stages →
  listStagesForRun (catalog db') runID = stages ∧
  InsertStagePlan eng runID stages (Some db') = (Ok tt, Some db') ∧
  ∀ other, validate_stage_plan runID other = Ok tt → other ≠ stages →
    ∃ err, InsertStagePlan eng runID other (Some db') = (Err err, Some db').
Proof.
  unfold InsertStagePlan, transact. intros H Hnone Hso.
  destruct (validate_stage_plan runID stages) as [[]|] eqn:Hv; [|done].
  unfold on_catalog_tx, tx_insert_stage_plan in H. rewrite Hnone in H.
  destruct (foldM _ (catalog db) stages) as [c'|] eqn:Hins; [|done]. injection H as <-.
  assert (Hlist : listStagesForRun c' runID = stages).
  { apply listStages_of_plan; [done|]. intros s.
    pose proof (insert_stages_rows _ _ _ _ Hins) as Hrows. rewrite elem_of_listStages. split.
    - intros (k & r & [Hk|(s' & Hs' & -> & ->)]%Hrows & Hrun & ->).
      + exfalso. apply (elem_of_nil (scanWorkflowStage k r)). rewrite <- Hnone.
        apply elem_of_listStages. eauto.
      + unfold stage_key. by rewrite scan_stage_row.
    - intros Hs. exists (stage_key s), (stage_row_of s). split_and!.
      + apply Hrows. right. eauto.
      + by eapply validate_stage_plan_run.
      + unfold stage_key. by rewrite scan_stage_row. }
  simpl. split; [done|]. destruct stages as [|s0 stages].
  { unfold validate_stage_plan in Hv. by result_inv. }
  unfold on_catalog_tx, tx_insert_stage_plan. simpl. rewrite Hlist. simpl. split.
  - by rewrite bool_decide_false by (intros []; done).
  - intros other Hvo Hne. rewrite Hvo. rewrite bool_decide_true by congruence. simpl. eauto.
Qed.

Lemma InsertStagePlan_roundtrip_witness :
  let plan := [mkStage "run2" 0 "a" "ref" "ready" "t" "" "" "" "" "" "";
               mkStage "run2" 1 "b" "ref" "blocked" "t" "" "" "" "" "" ""] in
  let db := run_op demo_engine (OpCreateRun (mkRun "run2" "p" "w" "{}" "2026-01-01T00:00:00Z"))
              demo_finished in
  let db' := run_op demo_engine (OpInsertStagePlan "run2" plan) db in
  listStagesForRun (catalog db') "run2" = plan.
Proof.
  intros plan db db'. refine (proj1 (InsertStagePlan_roundtrip demo_engine "run2" plan db db' _ _ _)).
  - vm_compute. reflexivity.
  - vm_compute. reflexivity.
  - unfold plan. repeat constructor.
Defined.
