(* ===== verification/StoreQueries.v ===== *)
(** * The workflow store: queries

    The read-only methods of [Store] in [internal/persistence/store.go]: listings
    and counts used by the controller's status endpoints, the caretaker and the
    scheduler.  A query on a store that is not open, or with a missing argument,
    returns an error; a JOIN keeps the rows whose keys both tables have. *)

From S2P Require Import Prelude GoTime StoreData StoreSQL StoreOps StoreInv StoreFrame StoreLease StoreReport StoreLifecycle StoreStage.
Local Open Scope Z_scope.

(** The frame of a query: the store is open, the arguments are there. *)
Definition query {A} (s : Store) (validated : result unit) (body : DB → result A) : result A :=
  match s with
  | None => Err (Errorf "store is not open")
  | Some db => validated;; body db
  end.

(** ** Sessions *)

Definition GetWorkerSession (workerID sessionID : string) (s : Store) :
    result (option WorkerSessionRecord) :=
  query s (required workerID "worker id is required";;
           required sessionID "worker session id is required")
    (λ db, Ok (getWorkerSession (exec db) workerID sessionID)).

(** The cutoff is formatted as [RFC3339Nano] by the caller's [time.Time]. *)
Definition ListLiveWorkerSessions (cutoff : Time) (s : Store) : result (list WorkerSessionRecord) :=
  query s (Ok tt) (λ db, Ok (listWorkerSessionsByHeartbeat (exec db) true (format_rfc3339nano cutoff))).
Definition ListExpiredWorkerSessions (cutoff : Time) (s : Store) : result (list WorkerSessionRecord) :=
  query s (Ok tt) (λ db, Ok (listWorkerSessionsByHeartbeat (exec db) false (format_rfc3339nano cutoff))).

(** ** Work items *)

(** ORDER BY stage_index, work_item_index, work_item_id *)
Definition by_stage_item (x y : WorkItemRecord) : bool :=
  if decide (wi_StageIndex x = wi_StageIndex y) then
    if decide (wi_WorkItemIndex x = wi_WorkItemIndex y) then str_leb (wi_ID x) (wi_ID y)
    else wi_WorkItemIndex x <=? wi_WorkItemIndex y
  else wi_StageIndex x <=? wi_StageIndex y.

Definition ListWorkItemsForRun (runID : string) (s : Store) : result (list WorkItemRecord) :=
  query s (required runID "run id is required")
    (λ db, Ok (order_by by_stage_item
       (snd <$> table_rows (λ _ w, bool_decide (wi_RunID w = runID)) (work_items (exec db))))).

Definition GetWorkItem (workItemID : string) (s : Store) : result (option WorkItemRecord) :=
  query s (Ok tt) (λ db, getWorkItem (exec db) workItemID).

Definition ListWorkItemResourceConstraints (workItemID : string) (s : Store) :
    result (list WorkItemResourceConstraintRecord) :=
  query s (required workItemID "work item id is required")
    (λ db, Ok (order_by (by_int rc_ConstraintIndex)
       (snd <$> table_rows (λ _ c, bool_decide (rc_WorkItemID c = workItemID))
          (work_item_resource_constraints (exec db))))).

Record QueuedResourceConstraintCheckRecord := mkCheckRecord {
  qc_WorkItemID : string; qc_QueuedAt : string; qc_ConstraintIndex : Z; qc_ResourceKey : string;
  qc_TotalUnits : Z; qc_RequestedUnits : Z; qc_Operator : string; qc_TargetUnits : Z }.

(** ORDER BY queued_at, work_item_id, constraint_index *)
Definition by_queue_constraint (x y : QueuedResourceConstraintCheckRecord) : bool :=
  if decide (qc_QueuedAt x = qc_QueuedAt y) then
    if decide (qc_WorkItemID x = qc_WorkItemID y) then qc_ConstraintIndex x <=? qc_ConstraintIndex y
    else str_leb (qc_WorkItemID x) (qc_WorkItemID y)
  else str_leb (qc_QueuedAt x) (qc_QueuedAt y).

(** The view [queued_resource_constraint_checks]. *)
Definition append_check_record (e : Exec) (acc : list QueuedResourceConstraintCheckRecord)
    (c : WorkItemResourceConstraintRecord) : result (list QueuedResourceConstraintCheckRecord) :=
  match queued_work e !! rc_WorkItemID c with
  | None => Ok acc
  | Some queuedAt =>
      total ← total_units e (rc_ResourceKey c);
      Ok (acc ++ [mkCheckRecord (rc_WorkItemID c) queuedAt (rc_ConstraintIndex c) (rc_ResourceKey c)
                    total (rc_RequestedUnits c) (rc_Operator c) (rc_TargetUnits c)])
  end.
Definition ListQueuedResourceConstraintChecks (s : Store) :
    result (list QueuedResourceConstraintCheckRecord) :=
  query s (Ok tt)
    (λ db, rows ← foldM (append_check_record (exec db)) []
                    (snd <$> map_to_list (work_item_resource_constraints (exec db)));
           Ok (order_by by_queue_constraint rows)).

Definition ListQueuedWorkItems (s : Store) : result (list QueuedWorkRecord) :=
  query s (Ok tt) (λ db, Ok (listQueuedWorkForClaim (exec db))).

(** ** Counts *)

Record WorkItemStatusCounts := mkCounts {
  Queued : Z; Running : Z; Completed : Z; Failed : Z }.

(** Rows of each state whose work item satisfies [p]. *)
Definition status_counts (e : Exec) (p : string → bool) : WorkItemStatusCounts :=
  mkCounts (table_count (λ id _, p id) (queued_work e))
           (table_count (λ _ r, p (rr_work_item_id r)) (running_work e))
           (table_count (λ _ c, p (cw_WorkItemID c)) (completed_work e))
           (table_count (λ _ f, p (fw_WorkItemID f)) (failed_work e)).

Definition item_in_run (e : Exec) (runID id : string) : bool :=
  match work_items e !! id with
  | Some w => bool_decide (wi_RunID w = runID)
  | None => false
  end.

Definition CountWorkItemsForStage (runID : string) (stageIndex : Z) (s : Store) :
    result WorkItemStatusCounts :=
  query s (required runID "run id is required";;
           non_negative stageIndex "stage index must be non-negative")
    (λ db, Ok (status_counts (exec db) (item_in_stage (exec db) runID stageIndex))).

Definition CountWorkItemsForRun (runID : string) (s : Store) : result WorkItemStatusCounts :=
  query s (required runID "run id is required")
    (λ db, Ok (status_counts (exec db) (item_in_run (exec db) runID))).

(** ** Leases and outcomes *)

Record RunningWorkRecord := mkRunningRecord {
  rn_AttemptID : string; rn_WorkItem : WorkItemRecord; rn_WorkerID : string;
  rn_WorkerSessionID : string; rn_ExecutorType : string; rn_QueuedAt : string;
  rn_StartedAt : string }.

(** running_work JOIN work_items JOIN work_item_attempts *)
Definition scanRunningWork (e : Exec) (attemptID : string) (r : running_row) :
    option RunningWorkRecord :=
  match work_items e !! rr_work_item_id r, work_item_attempts e !! attemptID with
  | Some w, Some t =>
      Some (mkRunningRecord attemptID w (from_null (rr_worker_id r))
              (from_null (rr_worker_session_id r)) (at_executor_type t) (rr_queued_at r)
              (rr_started_at r))
  | _, _ => None
  end.

Definition ListRunningWork (s : Store) : result (list RunningWorkRecord) :=
  query s (Ok tt)
    (λ db, Ok (order_by (by_text2 rn_StartedAt rn_AttemptID)
       (omap (λ kv, scanRunningWork (exec db) kv.1 kv.2) (map_to_list (running_work (exec db)))))).

Definition GetRunningWork (attemptID : string) (s : Store) : result (option RunningWorkRecord) :=
  query s (required attemptID "attempt id is required")
    (λ db, Ok (running_work (exec db) !! attemptID ≫= scanRunningWork (exec db) attemptID)).

Record TerminalAttemptRecord := mkTerminal {
  ta_AttemptID : string; ta_WorkItem : WorkItemRecord; ta_TerminalState : string;
  ta_WorkerID : string; ta_ExecutorType : string; ta_QueuedAt : string; ta_StartedAt : string;
  ta_FinishedAt : string; ta_Error : string; ta_SkippedParentID : string; ta_OutputJSON : string;
  ta_OutputJSONSHA256 : string; ta_PreStateSHA256 : string; ta_PostStateSHA256 : string }.

Definition terminal_completed (e : Exec) (c : CompletedWorkRecord) : option TerminalAttemptRecord :=
  match work_items e !! cw_WorkItemID c, work_item_attempts e !! cw_AttemptID c with
  | Some w, Some t =>
      Some (mkTerminal (cw_AttemptID c) w "completed" (from_null (at_worker_id t))
              (at_executor_type t) (cw_QueuedAt c) (cw_StartedAt c) (cw_CompletedAt c) ""
              (cw_SkippedParentID c) (cw_OutputJSON c) (cw_OutputJSONSHA256 c)
              (cw_PreStateSHA256 c) (cw_PostStateSHA256 c))
  | _, _ => None
  end.
Definition terminal_failed (e : Exec) (f : FailedWorkRecord) : option TerminalAttemptRecord :=
  match work_items e !! fw_WorkItemID f, work_item_attempts e !! fw_AttemptID f with
  | Some w, Some t =>
      Some (mkTerminal (fw_AttemptID f) w "failed" (from_null (at_worker_id t))
              (at_executor_type t) (fw_QueuedAt f) (fw_StartedAt f) (fw_FailedAt f) (fw_Error f)
              "" "" "" "" "")
  | _, _ => None
  end.

(** The UNION ALL of completed and failed attempts. *)
Definition terminal_attempts (e : Exec) : list TerminalAttemptRecord :=
  omap (terminal_completed e) (snd <$> map_to_list (completed_work e)) ++
  omap (terminal_failed e) (snd <$> map_to_list (failed_work e)).

Definition ListTerminalAttemptsForRun (runID : string) (s : Store) :
    result (list TerminalAttemptRecord) :=
  query s (required runID "run id is required")
    (λ db, Ok (order_by (by_text2 ta_FinishedAt ta_AttemptID)
       (List.filter (λ t, bool_decide (wi_RunID (ta_WorkItem t) = runID))
          (terminal_attempts (exec db))))).

Definition ListAbandonedWorkForItem (workItemID : string) (s : Store) :
    result (list AbandonedWorkRecord) :=
  query s (required workItemID "work item id is required")
    (λ db, Ok (order_by (by_text2 ab_AbandonedAt ab_AttemptID)
       (snd <$> table_rows (λ _ b, bool_decide (ab_WorkItemID b = workItemID))
          (abandoned_work (exec db))))).

(** ** Runs, stages and dependency metadata *)

Definition GetProject (id : string) (s : Store) : result (option ProjectRecord) :=
  query s (Ok tt) (λ db, getProject (catalog db) id).
Definition GetWorkflow (id : string) (s : Store) : result (option WorkflowRecord) :=
  query s (Ok tt) (λ db, getWorkflow (catalog db) id).
Definition GetWorkflowRun (id : string) (s : Store) : result (option WorkflowRunRecord) :=
  query s (Ok tt) (λ db, getWorkflowRun (catalog db) id).
Definition GetWorkflowStage (runID : string) (stageIndex : Z) (s : Store) :
    result (option WorkflowStageRecord) :=
  query s (Ok tt) (λ db, getWorkflowStage (catalog db) runID stageIndex).

(** A run without stages, or with a stage that is not completed, failed or skipped. *)
Definition run_active (c : Catalog) (runID : string) : bool :=
  negb (table_has (λ k _, bool_decide (k.1 = runID)) (workflow_stages c)) ||
  table_has (λ k r, bool_decide (k.1 = runID) &&
      negb (bool_decide (str_state r ∈ ["completed"; "failed"; "skipped"]))) (workflow_stages c).

Definition ListActiveWorkflowRuns (s : Store) : result (list WorkflowRunRecord) :=
  query s (Ok tt)
    (λ db, Ok (order_by (by_text2 run_CreatedAt run_ID)
       (snd <$> table_rows (λ id _, run_active (catalog db) id) (workflow_instances (catalog db))))).

Definition ListWorkflowDependencySteps (runID : string) (s : Store) :
    result (list WorkflowDependencyStepRecord) :=
  query s (required runID "run id is required")
    (λ db, Ok (listWorkflowDependencyStepsForRun (catalog db) runID)).

(** ORDER BY work_item_index, work_item_id *)
Definition by_item_index (x y : WorkflowDependencyWorkItemRecord) : bool :=
  if decide (di_WorkItemIndex x = di_WorkItemIndex y) then str_leb (di_WorkItemID x) (di_WorkItemID y)
  else di_WorkItemIndex x <=? di_WorkItemIndex y.

Definition ListWorkflowDependencyWorkItems (runID : string) (stageIndex stepIndex : Z) (s : Store) :
    result (list WorkflowDependencyWorkItemRecord) :=
  query s (required runID "run id is required";;
           non_negative stageIndex "stage index must be non-negative";;
           non_negative stepIndex "step index must be non-negative")
    (λ db, Ok (order_by by_item_index
       (snd <$> table_rows (λ _ i, bool_decide (di_RunID i = runID ∧ di_StageIndex i = stageIndex ∧
                                                di_StepIndex i = stepIndex))
          (workflow_dependency_work_items (catalog db))))).

Definition getWorkflowStepOutputFact (c : Catalog) (runID : string) (stepIndex : Z) :
    result (option WorkflowStepOutputFactRecord) :=
  required runID "run id is required";;
  non_negative stepIndex "step index must be non-negative";;
  Ok ((λ r, mkFact runID stepIndex (from_null (ofr_output_json r)) (ofr_output_json_sha256 r)
              (ofr_output_json_bytes r) (ofr_output_json_pruned r) (ofr_output_kind r)
              (ofr_created_at r) (ofr_updated_at r)) <$>
      workflow_step_output_facts c !! (runID, stepIndex)).
Definition GetWorkflowStepOutputFact (runID : string) (stepIndex : Z) (s : Store) :
    result (option WorkflowStepOutputFactRecord) :=
  query s (Ok tt) (λ db, getWorkflowStepOutputFact (catalog db) runID stepIndex).

(** ** Properties *)

(** The live and the expired sessions partition the active ones.  For any
    cutoff, a session is listed by exactly one of the two listings if it is
    active, and by neither otherwise. *)
Theorem live_and_expired_partition db cutoff live expired x :
  ListLiveWorkerSessions cutoff (Some db) = Ok live →
  ListExpiredWorkerSessions cutoff (Some db) = Ok expired →
  let active := ∃ id row, worker_sessions (exec db) !! id = Some row ∧
                  sr_status row = WorkerSessionStatusActive ∧ x = scanWorkerSession id row in
  (active ↔ x ∈ live ∨ x ∈ expired) ∧ ¬ (x ∈ live ∧ x ∈ expired).
Proof.
  unfold ListLiveWorkerSessions, ListExpiredWorkerSessions, query. simpl. intros [= <-] [= <-].
  unfold listWorkerSessionsByHeartbeat.
  rewrite !(elem_of_order_by (by_text2 _ _)), !list_elem_of_fmap. set (c := format_rfc3339nano cutoff).
  assert (Hel : ∀ f : session_row → bool,
    (∃ y : string * session_row, x = scanWorkerSession y.1 y.2 ∧
       y ∈ table_rows (λ _ r, bool_decide (sr_status r = WorkerSessionStatusActive) && f r)
             (worker_sessions (exec db))) ↔
    ∃ id row, worker_sessions (exec db) !! id = Some row ∧
      sr_status row = WorkerSessionStatusActive ∧ x = scanWorkerSession id row ∧ f row = true).
  { intros f. split.
    - intros ([id row] & Hx & [? [?%bool_decide_eq_true ?]%andb_true_iff]%elem_of_table_rows).
      exists id, row. done.
    - intros (id & row & Hrow & Hact & Hx & Hf). exists (id, row). split; [done|].
      apply elem_of_table_rows. split; [done|]. by rewrite bool_decide_true, Hf. }
  rewrite (Hel (λ r, str_leb c (sr_last_heartbeat_at r))), (Hel (λ r, str_ltb (sr_last_heartbeat_at r) c)).
  split; [split|].
  - intros (id & row & Hrow & Hact & Hx).
    destruct (str_leb c (sr_last_heartbeat_at row)) eqn:Hle; [left|right]; exists id, row; [done|].
    split_and!; try done. by rewrite str_ltb_leb, Hle.
  - intros [(id & row & ? & ? & ? & _)|(id & row & ? & ? & ? & _)]; eauto.
  - intros [(id & row & ? & _ & Hx & Hle) (id' & row' & ? & _ & Hx' & Hlt)].
    rewrite str_ltb_leb, negb_true_iff in Hlt. rewrite Hx in Hx'.
    pose proof (f_equal ws_LastHeartbeatAt Hx') as Heq. simpl in Heq. congruence.
Qed.

Definition demo_cutoff : Time := mkTime 2026 1 1 0 0 30 0 0.

Lemma live_and_expired_partition_witness :
  ∃ expired, ListExpiredWorkerSessions demo_cutoff (Some demo_ready) = Ok expired ∧
    scanWorkerSession "s1" (mkSessionRow "w1" "active" "2026-01-01T00:00:10Z" "2026-01-01T00:00:10Z"
      None None None) ∈ expired.
Proof.
  eexists. split; [reflexivity|].
  destruct (live_and_expired_partition demo_ready demo_cutoff _ _
    (scanWorkerSession "s1" (mkSessionRow "w1" "active" "2026-01-01T00:00:10Z" "2026-01-01T00:00:10Z"
      None None None)) eq_refl eq_refl) as [[Hin _] _].
  destruct Hin as [Hl|He]; [|exfalso|exact He].
  - eexists "s1", _. split; [vm_compute; reflexivity|]. split; reflexivity.
  - assert (Hnil : listWorkerSessionsByHeartbeat (exec demo_ready) true
      (format_rfc3339nano demo_cutoff) = []) by (vm_compute; reflexivity).
    rewrite Hnil in Hl. exact (proj1 (elem_of_nil _) Hl).
Defined.

(** No lease is hidden.  On a reachable database the listing of running work
    contains every attempt of [running_work] exactly once, with its work item:
    the joins lose no row. *)
Theorem ListRunningWork_complete db :
  reachable db →
  ∃ l, ListRunningWork (Some db) = Ok l ∧
    (rn_AttemptID <$> l) ≡ₚ (map_to_list (running_work (exec db))).*1 ∧
    ∀ x, x ∈ l → ∃ r, running_work (exec db) !! rn_AttemptID x = Some r ∧
      work_items (exec db) !! rr_work_item_id r = Some (rn_WorkItem x).
Proof.
  intros Hr. destruct (reachable_exec_inv _ Hr) as [Hb _]. unfold ListRunningWork, query. simpl.
  eexists. split; [done|]. set (rows := omap _ _).
  assert (Hscan : ∀ a r, running_work (exec db) !! a = Some r →
    ∃ x, scanRunningWork (exec db) a r = Some x ∧ rn_AttemptID x = a ∧
      work_items (exec db) !! rr_work_item_id r = Some (rn_WorkItem x)).
  { intros a r Ha. destruct (inv_running_attempt _ Hb _ _ Ha) as (t & Ht & Hti & _).
    destruct (inv_attempt _ Hb _ _ Ht) as [_ [w Hw]]. rewrite Hti in Hw.
    unfold scanRunningWork. rewrite Hw, Ht. eexists. done. }
  split.
  - rewrite (order_by_perm (by_text2 rn_StartedAt rn_AttemptID)). unfold rows.
    assert (Hall : ∀ kv, kv ∈ map_to_list (running_work (exec db)) →
      running_work (exec db) !! kv.1 = Some kv.2)
      by (intros [a r]; by rewrite elem_of_map_to_list).
    induction (map_to_list (running_work (exec db))) as [|[a r] l IH]; [done|].
    destruct (Hscan a r) as (x & Hx & Hxa & _); [apply (Hall (a, r)); left|].
    simpl. rewrite Hx. simpl. rewrite Hxa. constructor. apply IH. intros kv Hin. apply Hall. by right.
  - intros x Hin. rewrite (elem_of_order_by (by_text2 rn_StartedAt rn_AttemptID)) in Hin. unfold rows in Hin.
    apply list_elem_of_omap in Hin as ([a r] & Hin%elem_of_map_to_list & Hx). simpl in *.
    destruct (Hscan a r Hin) as (x' & Hx' & <- & Hw). assert (x' = x) as -> by congruence. eauto.
Qed.

Lemma ListRunningWork_complete_witness :
  ∃ l, ListRunningWork (Some demo_leased) = Ok l ∧ (rn_AttemptID <$> l) ≡ₚ ["t1"].
Proof.
  destruct (ListRunningWork_complete demo_leased demo_leased_reachable) as (l & Hl & Hp & _).
  exists l. split; [exact Hl|].
  assert (Hk : (map_to_list (running_work (exec demo_leased))).*1 = ["t1"]) by (vm_compute; reflexivity).
  rewrite <- Hk. exact Hp.
Defined.
