(* ===== verification/GoJsonLaws.v ===== *)
(** * Laws of the JSON text layer

    A text is the concatenation of its chunks; a quoted string reads back; the
    reader needs no more fuel than [parse_fuel] gives it; what it decodes is
    well-formed: UTF-8 strings, unique keys, bounded nesting. *)

From S2P Require Import Prelude GoJson GoStrings.
Local Open Scope nat_scope.

(** ** Chunks *)

(** A chunk that is read alike whatever follows it. *)
Definition genuine (c : chunk) : Prop := ∀ t, chunks (chunk_bytes c +:+ t) = c :: chunks t.

Lemma Asc_genuine a : is_ascii a = true → genuine (Asc a).
Proof. intros Ha t. simpl. by rewrite Ha. Qed.

Lemma chunks_step s :
  s ≠ "" → ∃ c rest, s = chunk_bytes c +:+ rest ∧ chunks s = c :: chunks rest ∧
    (chunk_valid c = true → genuine c).
Proof.
  destruct s as [|a r1]; [done|intros _]. cbn [chunks]. destruct (is_ascii a) eqn:Ha.
  { exists (Asc a), r1. split_and!; try done. intros _. by apply Asc_genuine. }
  destruct r1 as [|b r2]; [by exists (Bad a), ""|]. destruct (rune2 a b) eqn:H2.
  { exists (Rune (String a (String b ""))), r2. split_and!; try done.
    intros _ t. simpl. by rewrite Ha, H2. }
  destruct r2 as [|c r3]; [by exists (Bad a), (String b "")|]. destruct (rune3 a b c) eqn:H3.
  { exists (Rune (String a (String b (String c "")))), r3. split_and!; try done.
    intros _ t. simpl. by rewrite Ha, H2, H3. }
  destruct r3 as [|d r4]; [by exists (Bad a), (String b (String c ""))|].
  destruct (rune4 a b c d) eqn:H4; [|by exists (Bad a), (String b (String c (String d r4)))].
  exists (Rune (String a (String b (String c (String d ""))))), r4. split_and!; try done.
  intros _ t. simpl. by rewrite Ha, H2, H3, H4.
Qed.

(** Induction over the chunks of a text. *)
Lemma chunks_ind (P : string → Prop) :
  P "" →
  (∀ c rest, chunks (chunk_bytes c +:+ rest) = c :: chunks rest →
    (chunk_valid c = true → genuine c) → P rest → P (chunk_bytes c +:+ rest)) →
  ∀ s, P s.
Proof.
  intros H0 Hc s. remember (length (chunks s)) as n eqn:Hn. revert s Hn.
  induction n as [n IH] using lt_wf_ind. intros s ->.
  destruct (decide (s = "")) as [->|Hs]; [done|].
  destruct (chunks_step s Hs) as (c & rest & Heq & Hch & Hg).
  rewrite Heq in *. apply Hc; [done..|]. eapply IH; [|reflexivity]. rewrite Hch. simpl. lia.
Qed.

Lemma chunks_concat s : concat_str (chunk_bytes <$> chunks s) = s.
Proof.
  induction s as [|c rest Hch _ IH] using chunks_ind; [done|].
  rewrite Hch. cbn [fmap list_fmap concat_str]. by rewrite IH.
Qed.

Lemma chunks_app s t : valid_utf8 s = true → chunks (s +:+ t) = chunks s ++ chunks t.
Proof.
  unfold valid_utf8. induction s as [|c rest Hch Hg IH] using chunks_ind; [done|].
  rewrite Hch. cbn [forallb]. intros [Hc Hr]%andb_true_iff.
  rewrite str_app_assoc, Hg by done. simpl. by rewrite IH.
Qed.

Lemma valid_utf8_app s t : valid_utf8 s = true → valid_utf8 t = true → valid_utf8 (s +:+ t) = true.
Proof.
  unfold valid_utf8. intros Hs Ht. rewrite chunks_app by done. rewrite forallb_app.
  by rewrite Hs, Ht.
Qed.

Lemma valid_utf8_genuine c : genuine c → chunk_valid c = true → valid_utf8 (chunk_bytes c) = true.
Proof.
  intros Hg Hc. unfold valid_utf8. specialize (Hg ""). rewrite str_app_nil_r in Hg.
  rewrite Hg. simpl. by rewrite Hc.
Qed.

Lemma valid_utf8_chunks s : valid_utf8 s = true → Forall (λ c, genuine c ∧ chunk_valid c = true) (chunks s).
Proof.
  unfold valid_utf8. induction s as [|c rest Hch Hg IH] using chunks_ind; [constructor|].
  rewrite Hch. cbn [forallb]. intros [Hc Hr]%andb_true_iff. constructor; auto.
Qed.

(** ** Quoting *)

Lemma prepend_assoc {A} s t (r : option (string * A)) : prepend s (prepend t r) = prepend (s +:+ t) r.
Proof. destruct r as [[u k]|]; simpl; [|done]. by rewrite str_app_assoc. Qed.

(** The three ways a chunk is written: as itself, as a short escape, as a code
    point; [written l text] checks that [l] reads as [text]. *)
Definition written (l : list chunk) (text : string) : bool :=
  match l with
  | [Asc c] =>
      negb (bool_decide (c = quote_byte ∨ c = "\"%char)) && negb (byte_N c <? 32)%N
      && bool_decide (text = String c "")
  | [Asc b; Asc e] =>
      bool_decide (b = "\"%char ∧ e ≠ "u"%char ∧ simple_escape e = Some text)
  | [Asc b; Asc u; Asc h1; Asc h2; Asc h3; Asc h4] =>
      bool_decide (b = "\"%char ∧ u = "u"%char) &&
      match hex4 h1 h2 h3 h4 with
      | Some r => negb (is_surrogate r) && bool_decide (AppendRune r = text)
      | None => false
      end
  | _ => false
  end.

Lemma written_reads l text k :
  written l text = true → parse_string (l ++ k) = prepend text (parse_string k).
Proof.
  unfold written. intros H.
  destruct l as [|[c|?|?] [|[e|?|?] [|[h1|?|?] [|[h2|?|?] [|[h3|?|?] [|[h4|?|?] [|? ?]]]]]]]; try done.
  - apply andb_true_iff in H as [[H1 H2]%andb_true_iff H3]. cbn [app parse_string].
    rewrite negb_true_iff, bool_decide_eq_false in H1. rewrite negb_true_iff in H2.
    apply bool_decide_eq_true in H3 as ->.
    rewrite !bool_decide_eq_false_2 by tauto. by rewrite H2.
  - apply bool_decide_eq_true in H as (-> & Hu & Hs). cbn [app parse_string].
    rewrite (bool_decide_eq_false_2 (e = "u"%char)) by done. rewrite Hs. reflexivity.
  - apply andb_true_iff in H as [[-> ->]%bool_decide_eq_true H]. cbn [app parse_string].
    destruct (hex4 h1 h2 h3 h4) as [r|]; [|done]. apply andb_true_iff in H as [H1 H2].
    apply negb_true_iff in H1. apply bool_decide_eq_true in H2 as <-. simpl. by rewrite H1.
Qed.

Lemma quote_ascii_written a :
  is_ascii a = true →
  valid_utf8 (quote_ascii a) && written (chunks (quote_ascii a)) (String a "") = true.
Proof.
  destruct a as [[] [] [] [] [] [] [] []]; intros H; try discriminate H; vm_compute; reflexivity.
Qed.

Lemma quote_ascii_reads a k :
  is_ascii a = true →
  valid_utf8 (quote_ascii a) = true ∧
  parse_string (chunks (quote_ascii a) ++ k) = prepend (String a "") (parse_string k).
Proof.
  intros [H1 H2]%quote_ascii_written%andb_true_iff. split; [done|]. by apply written_reads.
Qed.

Lemma quote_chunk_reads c k :
  genuine c → chunk_valid c = true →
  valid_utf8 (quote_chunk c) = true ∧
  parse_string (chunks (quote_chunk c) ++ k) = prepend (chunk_bytes c) (parse_string k).
Proof.
  intros Hg Hv. destruct c as [a|e|a]; [| |done].
  - apply quote_ascii_reads. specialize (Hg ""). simpl in Hg. destruct (is_ascii a); [done|].
    discriminate Hg.
  - assert (chunks e = [Rune e]) as He by (specialize (Hg ""); by rewrite str_app_nil_r in Hg).
    simpl. case_bool_decide as E1; [subst e|case_bool_decide as E2; [subst e|]].
    + split; [reflexivity|]. by apply written_reads.
    + split; [reflexivity|]. by apply written_reads.
    + unfold valid_utf8. by rewrite He.
Qed.

Lemma quote_body_reads s k :
  valid_utf8 s = true →
  valid_utf8 (quote_body s) = true ∧
  parse_string (chunks (quote_body s) ++ k) = prepend s (parse_string k).
Proof.
  intros Hs%valid_utf8_chunks. rewrite <- (chunks_concat s) at 3. unfold quote_body.
  induction Hs as [|c l [Hg Hv] _ [IH1 IH2]]; cbn [fmap list_fmap concat_str].
  - split; [done|]. simpl. by destruct (parse_string k) as [[? ?]|].
  - destruct (quote_chunk_reads c (chunks (concat_str (quote_chunk <$> l)) ++ k) Hg Hv) as [H1 H2].
    split; [by apply valid_utf8_app|]. rewrite chunks_app by done.
    rewrite <- app_assoc, H2, IH2. apply prepend_assoc.
Qed.

Lemma marshal_string_valid s : valid_utf8 s = true → valid_utf8 (marshal_string s) = true.
Proof.
  intros Hs. unfold marshal_string. change (valid_utf8 (String quote_byte "" +:+ (quote_body s +:+ String quote_byte "")) = true).
  apply valid_utf8_app; [done|]. apply valid_utf8_app; [|done]. by apply (quote_body_reads s []).
Qed.

(** A marshalled string reads back as the string. *)
Lemma marshal_string_chunks s :
  valid_utf8 s = true →
  ∃ l, chunks (marshal_string s) = Asc quote_byte :: l ∧
       ∀ k, parse_string (l ++ k) = Some (s, k).
Proof.
  intros Hs. exists (chunks (quote_body s) ++ [Asc quote_byte]). split.
  - unfold marshal_string. cbn [chunks]. simpl is_ascii.
    rewrite chunks_app by apply (quote_body_reads s [] Hs). reflexivity.
  - intros k. rewrite <- app_assoc. destruct (quote_body_reads s ([Asc quote_byte] ++ k) Hs) as [_ ->].
    simpl. by rewrite str_app_nil_r.
Qed.

(** ** Reading consumes input *)

Lemma skip_space_length s : length (skip_space s) ≤ length s.
Proof. induction s as [|[c|e|c] s IH]; simpl; try lia. destruct (is_space c); simpl; lia. Qed.

Lemma prepend_Some {A} s (r : option (string * A)) t k :
  prepend s r = Some (t, k) → ∃ t', r = Some (t', k) ∧ t = s +:+ t'.
Proof. destruct r as [[u k']|]; simpl; [|done]. intros [= <- <-]. eauto. Qed.

Ltac option_step :=
  match goal with
  | H : mbind _ ?o = Some _ |- _ => apply bind_Some in H as (? & ? & H)
  | H : prepend _ _ = Some (_, _) |- _ => apply prepend_Some in H as (? & ? & H)
  | p : (_ * _)%type |- _ => destruct p
  | H : context [bool_decide ?P] |- _ => destruct (bool_decide P) eqn:?
  | H : None = Some _ |- _ => discriminate H
  | H : Some _ = Some _ |- _ => injection H as H
  end.
Ltac option_inv := repeat (option_step; simplify_eq/=).

Lemma parse_string_length s t k : parse_string s = Some (t, k) → length k < length s.
Proof.
  remember (length s) as n eqn:Hn. revert s t k Hn. induction n as [n IH] using lt_wf_ind.
  assert (∀ s' r t' k', prepend r (parse_string s') = Some (t', k') → length s' < n → length k' < n) as IH'.
  { intros s' r t' k' (u & Hu & _)%prepend_Some Hl. pose proof (IH _ Hl _ _ _ eq_refl Hu). lia. }
  intros s t k -> H. destruct s as [|[c|e|c] r]; cbn [parse_string] in H; [done| | |];
    try (apply IH' in H; [lia|simpl; lia]).
  case_bool_decide; [simplify_eq; simpl; lia|]. case_bool_decide.
  - destruct r as [|[e|e|e] r1]; try done. case_bool_decide.
    + destruct r1 as [|[a1|?|?] r1]; try done. destruct r1 as [|[a2|?|?] r1]; try done.
      destruct r1 as [|[a3|?|?] r1]; try done. destruct r1 as [|[a4|?|?] r2]; try done.
      apply bind_Some in H as (u & _ & H). destruct (is_surrogate u).
      * repeat (case_match; simplify_eq; try (apply IH' in H; [lia|simpl in *; lia])).
      * apply IH' in H; simpl in *; lia.
    + apply bind_Some in H as (u & _ & H). apply IH' in H; simpl in *; lia.
  - destruct (byte_N c <? 32)%N; [done|]. apply IH' in H; simpl in *; lia.
Qed.

Lemma take_digits_length s t k : take_digits s = (t, k) → length k ≤ length s.
Proof.
  revert t k. induction s as [|[c|e|c] s IH]; intros t k; simpl; try (intros; simplify_eq; simpl; lia).
  destruct (is_digit c); [|intros; simplify_eq; simpl; lia].
  destruct (take_digits s) as [t' k'] eqn:E. intros; simplify_eq. pose proof (IH _ _ eq_refl). lia.
Qed.
Lemma some_digits_length s t k : some_digits s = Some (t, k) → length k < length s.
Proof.
  unfold some_digits. destruct s as [|[c|e|c] s]; simpl; try done.
  destruct (is_digit c); [|done]. destruct (take_digits s) as [t' k'] eqn:E.
  intros; simplify_eq. apply take_digits_length in E. lia.
Qed.
Ltac lengths :=
  repeat match goal with
  | H : some_digits _ = Some (_, _) |- _ => apply some_digits_length in H
  end; simpl in *; try lia.
Lemma lex_exponent_length s t k : lex_exponent s = Some (t, k) → length k ≤ length s.
Proof.
  unfold lex_exponent. destruct s as [|[c|e|c] s]; intros H; simplify_eq; simpl; try lia.
  case_bool_decide; [|simplify_eq; simpl; lia]. option_inv.
  destruct s as [|[y|?|?] s]; [lengths| |lengths|lengths].
  destruct (bool_decide (y = "+"%char ∨ y = "-"%char)); option_inv; lengths.
Qed.
Lemma lex_fraction_length s t k : lex_fraction s = Some (t, k) → length k ≤ length s.
Proof.
  unfold lex_fraction. destruct s as [|[c|e|c] s]; intros H; try (by apply lex_exponent_length in H).
  case_bool_decide; [|by apply lex_exponent_length in H]. option_inv.
  match goal with H : lex_exponent _ = _ |- _ => apply lex_exponent_length in H end. lengths.
Qed.
Lemma lex_integer_length s t k : lex_integer s = Some (t, k) → length k < length s.
Proof.
  unfold lex_integer. destruct s as [|[c|e|c] s]; intros H; try done.
  case_bool_decide; option_inv;
    match goal with H : lex_fraction _ = _ |- _ => apply lex_fraction_length in H end; lengths.
Qed.
Lemma lex_number_length s t k : lex_number s = Some (t, k) → length k < length s.
Proof.
  unfold lex_number. destruct s as [|[c|e|c] s]; intros H; try done.
  case_bool_decide; option_inv;
    match goal with H : lex_integer _ = _ |- _ => apply lex_integer_length in H end; simpl in *; lia.
Qed.
Lemma expect_length l s k : expect l s = Some k → length k ≤ length s.
Proof.
  revert s. induction l as [|c l IH]; intros s; simpl; [intros; simplify_eq; lia|].
  destruct s as [|[x|e|x] s]; try done. case_bool_decide; [|done]. intros He%IH. simpl. lia.
Qed.

Lemma parse_length fuel :
  (∀ depth s v k, parse_value fuel depth s = Some (v, k) → length k < length s) ∧
  (∀ depth s vs k, parse_items fuel depth s = Some (vs, k) → length k < length s) ∧
  (∀ depth s fs k, parse_members fuel depth s = Some (fs, k) → length k < length s).
Proof.
  induction fuel as [|fuel (IHv & IHi & IHm)]; [done|]. split_and!; intros depth s v k H.
  - cbn [parse_value] in H. pose proof (skip_space_length s) as Hs.
    destruct (skip_space s) as [|[c|e|c] r]; try done. simpl in Hs.
    pose proof (skip_space_length r) as Hr. repeat case_bool_decide.
    + destruct (depth <? maxNestingDepth)%N; [|done].
      destruct (skip_space r) as [|[x|e|x] r']; try done. simpl in Hr.
      case_bool_decide; option_inv; [lia|].
      match goal with H : parse_members _ _ _ = _ |- _ => apply IHm in H end. lia.
    + destruct (depth <? maxNestingDepth)%N; [|done].
      destruct (skip_space r) as [|[x|e|x] r']; try done. simpl in Hr.
      case_bool_decide; option_inv; [lia|].
      match goal with H : parse_items _ _ _ = _ |- _ => apply IHi in H end. lia.
    + option_inv. match goal with H : parse_string _ = _ |- _ => apply parse_string_length in H end. lia.
    + apply bind_Some in H as (k' & He%expect_length & H). simplify_eq. lia.
    + apply bind_Some in H as (k' & He%expect_length & H). simplify_eq. lia.
    + apply bind_Some in H as (k' & He%expect_length & H). simplify_eq. lia.
    + apply bind_Some in H as ([t k'] & He%lex_number_length & H). simplify_eq. simpl in He. lia.
  - cbn [parse_items] in H. apply bind_Some in H as ([v1 s1] & Hlen1%IHv & H).
    pose proof (skip_space_length s1) as Hs. destruct (skip_space s1) as [|[c|e|c] r]; try done.
    simpl in Hs. case_bool_decide; [|case_bool_decide; [|done]].
    + apply bind_Some in H as ([v2 s2] & Hlen2%IHi & H). simplify_eq. lia.
    + simplify_eq. lia.
  - cbn [parse_members] in H. pose proof (skip_space_length s) as Hs.
    destruct (skip_space s) as [|[q|e|q] r]; try done. simpl in Hs. case_bool_decide; [|done].
    apply bind_Some in H as ([key s1] & Hlen1%parse_string_length & H).
    pose proof (skip_space_length s1) as Hs1. destruct (skip_space s1) as [|[c|e|c] r1]; try done.
    simpl in Hs1. case_bool_decide; [|done]. apply bind_Some in H as ([v1 s2] & Hlen2%IHv & H).
    pose proof (skip_space_length s2) as Hs2. destruct (skip_space s2) as [|[c'|e|c'] r2]; try done.
    simpl in Hs2. case_bool_decide; [|case_bool_decide; [|done]].
    + apply bind_Some in H as ([v2 s3] & Hlen3%IHm & H). simplify_eq. lia.
    + simplify_eq. lia.
Qed.

(** ** Fuel

    Once there are two rounds per chunk, more fuel changes nothing: the reader
    never stops for want of fuel. *)
Lemma parse_fuel_irrelevant n :
  (∀ fuel depth s, length s ≤ n → S (2 * length s) ≤ fuel →
     parse_value fuel depth s = parse_value (S (2 * length s)) depth s) ∧
  (∀ fuel depth s, length s ≤ n → S (S (2 * length s)) ≤ fuel →
     parse_items fuel depth s = parse_items (S (S (2 * length s))) depth s) ∧
  (∀ fuel depth s, length s ≤ n → S (2 * length s) ≤ fuel →
     parse_members fuel depth s = parse_members (S (2 * length s)) depth s).
Proof.
  induction n as [n IH] using lt_wf_ind.
  assert (∀ f1 f2 depth s, length s < n → S (2 * length s) ≤ f1 → S (2 * length s) ≤ f2 →
    parse_value f1 depth s = parse_value f2 depth s) as IHv.
  { intros f1 f2 depth s Hs H1 H2. destruct (IH (length s)) as (Hv & _ & _); [done|].
    rewrite (Hv f1), (Hv f2) by lia. done. }
  assert (∀ f1 f2 depth s, length s < n → S (S (2 * length s)) ≤ f1 → S (S (2 * length s)) ≤ f2 →
    parse_items f1 depth s = parse_items f2 depth s) as IHi.
  { intros f1 f2 depth s Hs H1 H2. destruct (IH (length s)) as (_ & Hi & _); [done|].
    rewrite (Hi f1), (Hi f2) by lia. done. }
  assert (∀ f1 f2 depth s, length s < n → S (2 * length s) ≤ f1 → S (2 * length s) ≤ f2 →
    parse_members f1 depth s = parse_members f2 depth s) as IHm.
  { intros f1 f2 depth s Hs H1 H2. destruct (IH (length s)) as (_ & _ & Hm); [done|].
    rewrite (Hm f1), (Hm f2) by lia. done. }
  assert (∀ fuel depth s, length s ≤ n → S (2 * length s) ≤ fuel →
     parse_value fuel depth s = parse_value (S (2 * length s)) depth s) as Hvalue.
  { intros fuel depth s Hs Hf. destruct fuel as [|fuel]; [lia|]. cbn [parse_value].
    pose proof (skip_space_length s) as Hl. destruct (skip_space s) as [|[c|e|c] r]; try done.
    simpl in Hl. repeat (case_match; try done).
    - rewrite (IHm fuel (2 * length s)) by lia. done.
    - rewrite (IHi fuel (2 * length s)) by lia. done. }
  split_and!; [exact Hvalue| |].
  - intros fuel depth s Hs Hf. destruct fuel as [|fuel]; [lia|]. cbn [parse_items].
    rewrite (Hvalue fuel) by lia.
    destruct (parse_value (S (2 * length s)) depth s) as [[v s1]|] eqn:E; [|done].
    cbn [mbind option_bind]. apply (proj1 (parse_length _)) in E.
    pose proof (skip_space_length s1) as Hl. destruct (skip_space s1) as [|[c|e|c] r]; try done.
    simpl in Hl. case_bool_decide; [|done].
    rewrite (IHi fuel (S (2 * length s))) by lia. done.
  - intros fuel depth s Hs Hf. destruct fuel as [|fuel]; [lia|]. cbn [parse_members].
    pose proof (skip_space_length s) as Hl. destruct (skip_space s) as [|[c|e|c] r]; try done.
    simpl in Hl. case_bool_decide; [|done].
    destruct (parse_string r) as [[key s1]|] eqn:E; [|done]. cbn [mbind option_bind].
    apply parse_string_length in E. pose proof (skip_space_length s1) as Hl1.
    destruct (skip_space s1) as [|[c'|e|c'] r1]; try done. simpl in Hl1. case_bool_decide; [|done].
    rewrite (IHv fuel (2 * length s)) by lia.
    destruct (parse_value (2 * length s) depth r1) as [[v s2]|] eqn:E2; [|done].
    cbn [mbind option_bind]. apply (proj1 (parse_length _)) in E2.
    pose proof (skip_space_length s2) as Hl2. destruct (skip_space s2) as [|[c2|e|c2] r2]; try done.
    simpl in Hl2. case_bool_decide; [|done]. rewrite (IHm fuel (2 * length s)) by lia. done.
Qed.

(** Reading with enough fuel is reading with [parse_fuel]. *)
Lemma parse_value_fuel fuel depth s :
  parse_fuel s ≤ fuel → parse_value fuel depth s = parse_value (parse_fuel s) depth s.
Proof. intros H. by apply (proj1 (parse_fuel_irrelevant (length s))). Qed.

(** ** What is decoded is well formed *)

Fixpoint json_wf (v : JSON) : bool :=
  match v with
  | JString s => valid_utf8 s
  | JArray items => forallb json_wf items
  | JObject fields =>
      bool_decide (NoDup fields.*1) && forallb (λ '(k, x), valid_utf8 k && json_wf x) fields
  | _ => true
  end.

(** How deep arrays and objects nest. *)
Fixpoint json_depth (v : JSON) : N :=
  match v with
  | JArray items => (1 + foldr (λ x n, N.max (json_depth x) n) 0 items)%N
  | JObject fields => (1 + foldr (λ '(_, x) n, N.max (json_depth x) n) 0 fields)%N
  | _ => 0%N
  end.

Lemma in_range_byte lo hi n :
  (n < 256)%N → in_range lo hi (byte n) = ((lo <=? n)%N && (n <=? hi)%N).
Proof. intros Hn. unfold in_range, byte_N, byte. by rewrite N_ascii_embedding. Qed.

#[local] Ltac Zify.zify_post_hook ::= Z.to_euclidean_division_equations.
(** Decide a combination of comparisons on [N]. *)
Ltac bool_lia :=
  match goal with
  | |- _ = false => apply not_true_is_false
  | |- true = _ => symmetry
  | |- false = _ => symmetry; apply not_true_is_false
  | _ => idtac
  end;
  rewrite ?andb_true_r; rewrite <- ?not_true_iff_false in *;
  repeat (rewrite andb_true_iff in * || rewrite orb_true_iff in *);
  rewrite ?N.leb_le, ?N.ltb_lt in *; lia.

(** The groups of six bits of a code point. *)
Lemma six_bits r :
  (r = 4096 * (r / 4096) + 64 * ((r / 64) mod 64) + r mod 64)%N ∧
  (r / 4096 = 64 * (r / 262144) + (r / 4096) mod 64)%N ∧
  ((r / 64) mod 64 < 64)%N ∧ (r mod 64 < 64)%N ∧ ((r / 4096) mod 64 < 64)%N.
Proof. lia. Qed.

(** Every encoded code point is valid UTF-8. *)
Lemma AppendRune_valid r :
  (r < 1114112)%N → is_surrogate r = false → valid_utf8 (AppendRune r) = true.
Proof.
  intros Hr Hs. unfold AppendRune. unfold is_surrogate in Hs.
  assert (∀ n, (n mod 64 < 64)%N) as Hm by (intros; apply N.mod_lt; lia).
  assert (∀ n, continuation (byte (128 + n mod 64)) = true) as Hc.
  { intros n. unfold continuation. pose proof (Hm n). rewrite in_range_byte by lia. bool_lia. }
  assert (∀ n, (128 ≤ n < 256)%N → is_ascii (byte n) = false) as Ha.
  { intros n Hn. unfold is_ascii, byte_N, byte. rewrite N_ascii_embedding by lia. bool_lia. }
  destruct (r <? 128)%N eqn:E1.
  { unfold valid_utf8. cbn. unfold is_ascii, byte_N, byte.
    rewrite N_ascii_embedding by bool_lia. by rewrite E1. }
  destruct (r <? 2048)%N eqn:E2.
  { unfold valid_utf8. cbn [bytes foldr chunks].
    rewrite Ha by bool_lia. unfold rune2. rewrite Hc, in_range_byte by bool_lia.
    replace (_ && _) with true by bool_lia. done. }
  unfold valid_utf8, bytes; cbn [foldr]. 
  destruct (r <? 65536)%N eqn:E3; cbn [chunks].
  -     rewrite Ha by bool_lia.
    unfold rune2 at 1. rewrite Hc, in_range_byte by bool_lia.
    replace (_ && _) with false by bool_lia.
    unfold rune3. rewrite !Hc, !in_range_byte by bool_lia.
    replace (_ && _) with true; [done|]. bool_lia.
  - 
    rewrite Ha by bool_lia.
    unfold rune2 at 1. rewrite Hc, in_range_byte by bool_lia.
    replace (_ && _) with false by bool_lia.
    unfold rune3. rewrite !Hc, !in_range_byte by bool_lia.
    replace (_ && _) with false; [|bool_lia].
    unfold rune4. rewrite !Hc, !in_range_byte by bool_lia.
    replace (_ && _) with true; [done|]. bool_lia.
Qed.

(** What is left is a suffix of what was given. *)
Lemma skip_space_suffix s : skip_space s `suffix_of` s.
Proof.
  induction s as [|[c|e|c] s IH]; simpl; [done| |done|done].
  destruct (is_space c); [by apply suffix_cons_r|done].
Qed.
Ltac suffix_solve := repeat (first [assumption | done | apply suffix_cons_r]).

Lemma parse_string_suffix s t k : parse_string s = Some (t, k) → k `suffix_of` s.
Proof.
  remember (length s) as n eqn:Hn. revert s t k Hn. induction n as [n IH] using lt_wf_ind.
  assert (∀ s' r t' k', prepend r (parse_string s') = Some (t', k') → length s' < n → k' `suffix_of` s') as IH'.
  { intros s' r t' k' (u & Hu & _)%prepend_Some Hl. by eapply IH. }
  intros s t k -> H. destruct s as [|[c|e|c] r]; cbn [parse_string] in H; [done| | |];
    try (apply IH' in H; [suffix_solve|simpl; lia]).
  case_bool_decide; [simplify_eq; suffix_solve|]. case_bool_decide.
  - destruct r as [|[e|e|e] r1]; try done. case_bool_decide.
    + destruct r1 as [|[a1|?|?] r1]; try done. destruct r1 as [|[a2|?|?] r1]; try done.
      destruct r1 as [|[a3|?|?] r1]; try done. destruct r1 as [|[a4|?|?] r2]; try done.
      apply bind_Some in H as (u & _ & H). destruct (is_surrogate u).
      * repeat (case_match; simplify_eq; try (apply IH' in H; [suffix_solve|simpl in *; lia])).
      * apply IH' in H; [suffix_solve|simpl in *; lia].
    + apply bind_Some in H as (u & _ & H). apply IH' in H; [suffix_solve|simpl in *; lia].
  - destruct (byte_N c <? 32)%N; [done|]. apply IH' in H; [suffix_solve|simpl in *; lia].
Qed.

Lemma take_digits_suffix s t k : take_digits s = (t, k) → k `suffix_of` s.
Proof.
  revert t k. induction s as [|[c|e|c] s IH]; intros t k; simpl; try (intros; by simplify_eq).
  destruct (is_digit c); [|intros; by simplify_eq].
  destruct (take_digits s) as [t' k'] eqn:E. intros; simplify_eq. apply suffix_cons_r. by eapply IH.
Qed.
Lemma some_digits_suffix s t k : some_digits s = Some (t, k) → k `suffix_of` s.
Proof.
  unfold some_digits. destruct (take_digits s) as [[|c t'] k'] eqn:E; [done|].
  intros; simplify_eq. by eapply take_digits_suffix.
Qed.
Lemma lex_exponent_suffix s t k : lex_exponent s = Some (t, k) → k `suffix_of` s.
Proof.
  unfold lex_exponent. destruct s as [|[c|e|c] s]; intros H; try (by simplify_eq).
  case_bool_decide; [|by simplify_eq]. apply prepend_Some in H as (t' & H & ->).
  apply suffix_cons_r. destruct s as [|[y|?|?] s]; try (by apply some_digits_suffix in H).
  case_bool_decide; [|by apply some_digits_suffix in H]. apply prepend_Some in H as (t2 & H & ->).
  apply suffix_cons_r. by apply some_digits_suffix in H.
Qed.
Lemma lex_fraction_suffix s t k : lex_fraction s = Some (t, k) → k `suffix_of` s.
Proof.
  unfold lex_fraction. destruct s as [|[c|e|c] s]; intros H; try (by apply lex_exponent_suffix in H).
  case_bool_decide; [|by apply lex_exponent_suffix in H].
  apply bind_Some in H as ([t1 k1] & H1%some_digits_suffix & H).
  apply prepend_Some in H as (t' & H%lex_exponent_suffix & ->). apply suffix_cons_r. by etrans.
Qed.
Lemma lex_number_suffix s t k : lex_number s = Some (t, k) → k `suffix_of` s.
Proof.
  assert (∀ s t k, lex_integer s = Some (t, k) → k `suffix_of` s) as Hi.
  { clear s t k. unfold lex_integer. intros s t k H. destruct s as [|[c|e|c] s]; try done.
    case_bool_decide.
    - apply prepend_Some in H as (t' & H%lex_fraction_suffix & ->). by apply suffix_cons_r.
    - apply bind_Some in H as ([t1 k1] & H1%some_digits_suffix & H).
      apply prepend_Some in H as (t' & H%lex_fraction_suffix & ->). by etrans. }
  unfold lex_number. intros H. destruct s as [|[c|e|c] s]; try done. case_bool_decide; [|by eapply Hi].
  apply prepend_Some in H as (t' & H%Hi & ->). by apply suffix_cons_r.
Qed.
Lemma expect_suffix l s k : expect l s = Some k → k `suffix_of` s.
Proof.
  revert s. induction l as [|c l IH]; intros s; simpl; [intros; by simplify_eq|].
  destruct s as [|[x|e|x] s]; try done. case_bool_decide; [|done]. intros He%IH. by apply suffix_cons_r.
Qed.

(** ** Well-formedness *)

Definition good_chunk (c : chunk) : Prop :=
  match c with Asc a => is_ascii a = true | Rune e => valid_utf8 e = true | Bad _ => True end.

Lemma chunks_good s : Forall good_chunk (chunks s).
Proof.
  induction s as [|c rest Hch Hg IH] using chunks_ind; [constructor|].
  rewrite Hch. constructor; [|done]. destruct c as [a|e|a]; simpl in *; [| |done].
  - specialize (Hg eq_refl ""). simpl in Hg. destruct (is_ascii a); [done|discriminate Hg].
  - by apply (valid_utf8_genuine (Rune e)); [apply Hg|].
Qed.

Lemma Forall_suffix {A} (P : A → Prop) k s : k `suffix_of` s → Forall P s → Forall P k.
Proof. intros [p ->] [_ H]%Forall_app. done. Qed.

Lemma hex_value_lt c n : hex_value c = Some n → (n < 16)%N.
Proof.
  unfold hex_value, is_digit, in_range. intros H.
  repeat case_match; simplify_eq; repeat rewrite andb_true_iff in *; rewrite ?N.leb_le in *; lia.
Qed.
Lemma hex4_lt a b c d n : hex4 a b c d = Some n → (n < 65536)%N.
Proof.
  unfold hex4. intros H. option_inv.
  repeat match goal with H : hex_value _ = Some _ |- _ => apply hex_value_lt in H end. lia.
Qed.
Lemma surrogate_pair_range r1 r2 r :
  surrogate_pair r1 r2 = Some r → (65536 ≤ r < 1114112)%N.
Proof.
  unfold surrogate_pair. case_match; [|done]. intros [= <-].
  repeat rewrite andb_true_iff in *. rewrite ?N.leb_le, ?N.ltb_lt in *. lia.
Qed.
Lemma simple_escape_valid e t : simple_escape e = Some t → valid_utf8 t = true.
Proof.
  unfold simple_escape. intros H. repeat case_bool_decide; simplify_eq; try reflexivity.
  destruct_or!; by subst.
Qed.

Lemma parse_string_valid s t k :
  Forall good_chunk s → parse_string s = Some (t, k) → valid_utf8 t = true.
Proof.
  remember (length s) as n eqn:Hn. revert s t k Hn. induction n as [n IH] using lt_wf_ind.
  assert (∀ s' r t' k', prepend r (parse_string s') = Some (t', k') → Forall good_chunk s' →
    length s' < n → valid_utf8 r = true → valid_utf8 t' = true) as IH'.
  { intros s' r t' k' (u & Hu & ->)%prepend_Some Hg Hl Hr. apply valid_utf8_app; [done|]. by eapply IH. }
  intros s t k -> Hs H. destruct s as [|[c|e|c] r]; cbn [parse_string] in H; [done| | |];
    apply Forall_cons in Hs as [Hc Hs].
  2-3: eapply IH' in H; eauto; simpl; lia.
  case_bool_decide; [by simplify_eq|]. case_bool_decide.
  - destruct r as [|[e|e|e] r1]; try done. apply Forall_cons in Hs as [He Hs]. case_bool_decide.
    + destruct r1 as [|[a1|?|?] [|[a2|?|?] [|[a3|?|?] [|[a4|?|?] r2]]]]; try done.
      do 4 apply Forall_cons in Hs as [_ Hs].
      apply bind_Some in H as (u & Hu%hex4_lt & H). destruct (is_surrogate u) eqn:Hsur.
      * assert (prepend ReplacementChar (parse_string r2) = Some (t, k) → valid_utf8 t = true) as Hrep.
        { intros Hp. eapply IH' in Hp; eauto. simpl. lia. }
        destruct r2 as [|[x|?|?] [|[y|?|?] [|[b1|?|?] [|[b2|?|?] [|[b3|?|?] [|[b4|?|?] r3]]]]]];
          try (exact (Hrep H)).
        destruct (bool_decide _); [|exact (Hrep H)].
        destruct (hex4 b1 b2 b3 b4 ≫= surrogate_pair u) as [rune|] eqn:Hpair; [|exact (Hrep H)].
        apply bind_Some in Hpair as (u' & _ & Hpair%surrogate_pair_range).
        do 6 apply Forall_cons in Hs as [_ Hs].
        eapply IH' in H; eauto; [simpl; lia|]. apply AppendRune_valid; [lia|].
        unfold is_surrogate. bool_lia.
      * eapply IH' in H; eauto; [simpl; lia|]. apply AppendRune_valid; [lia|done].
    + apply bind_Some in H as (u & Hu%simple_escape_valid & H). eapply IH' in H; eauto. simpl; lia.
  - destruct (byte_N c <? 32)%N; [done|]. apply IH' in H; [done|done|simpl; lia|].
    unfold valid_utf8. simpl in Hc |- *. by rewrite Hc.
Qed.

Lemma set_field_wf key v fs :
  valid_utf8 key = true → json_wf v = true → json_wf (JObject fs) = true →
  json_wf (JObject (set_field key v fs)) = true.
Proof.
  intros Hk Hv Hfs. unfold set_field. case_bool_decide as Hin; [done|].
  cbn [json_wf forallb] in *. apply andb_true_iff in Hfs as [Hn%bool_decide_eq_true Hf].
  rewrite Hk, Hv, Hf, bool_decide_eq_true_2; [done|]. by apply NoDup_cons.
Qed.

Lemma json_depth_set_field key v fs :
  (json_depth (JObject (set_field key v fs)) ≤ json_depth (JObject ((key, v) :: fs)))%N.
Proof. unfold set_field. case_bool_decide; simpl; lia. Qed.

(** A decoded value has valid text and unique keys, and nests within the limit. *)
Lemma parse_wf fuel :
  (∀ depth s v k, Forall good_chunk s → parse_value fuel depth s = Some (v, k) →
     k `suffix_of` s ∧ json_wf v = true ∧ ((depth ≤ maxNestingDepth)%N → (depth + json_depth v ≤ maxNestingDepth)%N)) ∧
  (∀ depth s vs k, Forall good_chunk s → parse_items fuel depth s = Some (vs, k) →
     k `suffix_of` s ∧ json_wf (JArray vs) = true ∧
     ((depth ≤ maxNestingDepth)%N → (depth + json_depth (JArray vs) ≤ 1 + maxNestingDepth)%N)) ∧
  (∀ depth s fs k, Forall good_chunk s → parse_members fuel depth s = Some (fs, k) →
     k `suffix_of` s ∧ json_wf (JObject fs) = true ∧
     ((depth ≤ maxNestingDepth)%N → (depth + json_depth (JObject fs) ≤ 1 + maxNestingDepth)%N)).
Proof.
  induction fuel as [|fuel (IHv & IHi & IHm)]; [done|].
  assert (∀ s x r, Forall good_chunk s → skip_space s = x :: r → Forall good_chunk r ∧ r `suffix_of` s) as Hsk.
  { intros s x r Hs E. pose proof (skip_space_suffix s) as H. rewrite E in H.
    apply suffix_cons_l in H. eauto using Forall_suffix. }
  split_and!; intros depth s v k Hs H.
  - cbn [parse_value] in H. destruct (skip_space s) as [|[c|e|c] r] eqn:E; try done.
    destruct (Hsk _ _ _ Hs E) as [Hr Hsuf]. repeat case_bool_decide.
    + destruct (depth <? maxNestingDepth)%N eqn:Hd; [|done]. apply N.ltb_lt in Hd.
      destruct (skip_space r) as [|[x|e|x] r'] eqn:E2; try done. destruct (Hsk _ _ _ Hr E2) as [Hr' Hsuf'].
      case_bool_decide.
      * simplify_eq. split_and!; [by etrans|done|simpl; lia].
      * apply bind_Some in H as ([fs k'] & (Hk & Hw & Hdep)%IHm & H); [|done]. simplify_eq.
        split_and!; [by etrans|done|lia].
    + destruct (depth <? maxNestingDepth)%N eqn:Hd; [|done]. apply N.ltb_lt in Hd.
      destruct (skip_space r) as [|[x|e|x] r'] eqn:E2; try done. destruct (Hsk _ _ _ Hr E2) as [Hr' Hsuf'].
      case_bool_decide.
      * simplify_eq. split_and!; [by etrans|done|simpl; lia].
      * apply bind_Some in H as ([fs k'] & (Hk & Hw & Hdep)%IHi & H); [|done]. simplify_eq.
        split_and!; [by etrans|done|lia].
    + apply bind_Some in H as ([t k'] & Hp & H). simplify_eq.
      pose proof (parse_string_valid _ _ _ Hr Hp). apply parse_string_suffix in Hp.
      split_and!; [by etrans|done|simpl; lia].
    + apply bind_Some in H as (k' & He%expect_suffix & H). simplify_eq. split_and!; [by etrans|done|simpl; lia].
    + apply bind_Some in H as (k' & He%expect_suffix & H). simplify_eq. split_and!; [by etrans|done|simpl; lia].
    + apply bind_Some in H as (k' & He%expect_suffix & H). simplify_eq. split_and!; [by etrans|done|simpl; lia].
    + apply bind_Some in H as ([t k'] & He%lex_number_suffix & H). simplify_eq.
      rewrite <- E in He. pose proof (skip_space_suffix s). split_and!; [by etrans|done|simpl; lia].
  - cbn [parse_items] in H. apply bind_Some in H as ([v1 s1] & (Hk1 & Hw1 & Hd1)%IHv & H); [|done].
    assert (Forall good_chunk s1) as Hs1 by (by eapply Forall_suffix).
    destruct (skip_space s1) as [|[c|e|c] r] eqn:E; try done. destruct (Hsk _ _ _ Hs1 E) as [Hr Hsuf].
    case_bool_decide; [|case_bool_decide; [|done]].
    + apply bind_Some in H as ([v2 s2] & (Hk2 & Hw2 & Hd2)%IHi & H); [|done]. simplify_eq.
      split_and!; [by do 2 (etrans; [eassumption|])|cbn in *; by rewrite Hw1, Hw2|]. cbn in *. lia.
    + simplify_eq. split_and!; [by etrans|cbn; by rewrite Hw1|]. cbn. lia.
  - cbn [parse_members] in H. destruct (skip_space s) as [|[q|e|q] r] eqn:E; try done.
    destruct (Hsk _ _ _ Hs E) as [Hr Hsuf]. case_bool_decide; [|done].
    apply bind_Some in H as ([key s1] & Hp & H). pose proof (parse_string_valid _ _ _ Hr Hp) as Hkey.
    apply parse_string_suffix in Hp. assert (Forall good_chunk s1) as Hs1 by (by eapply Forall_suffix).
    destruct (skip_space s1) as [|[c|e|c] r1] eqn:E1; try done. destruct (Hsk _ _ _ Hs1 E1) as [Hr1 Hsuf1].
    case_bool_decide; [|done].
    apply bind_Some in H as ([v1 s2] & (Hk2 & Hw2 & Hd2)%IHv & H); [|done].
    assert (Forall good_chunk s2) as Hs2 by (by eapply Forall_suffix).
    destruct (skip_space s2) as [|[c'|e|c'] r2] eqn:E2; try done. destruct (Hsk _ _ _ Hs2 E2) as [Hr2 Hsuf2].
    assert (r2 `suffix_of` s) by (by do 4 (etrans; [eassumption|])).
    case_bool_decide; [|case_bool_decide; [|done]].
    + apply bind_Some in H as ([v2 s3] & (Hk3 & Hw3 & Hd3)%IHm & H); [|done]. simplify_eq.
      split_and!; [by etrans|by apply set_field_wf|]. pose proof (json_depth_set_field key v1 v2).
      cbn [json_depth foldr] in *. lia.
    + simplify_eq. split_and!; [done|by apply (set_field_wf key v1 [])|]. cbn. lia.
Qed.

Lemma decode_wf text v :
  decode_document text = Document v → json_wf v = true ∧ (json_depth v ≤ maxNestingDepth)%N.
Proof.
  unfold decode_document. destruct (parse_value _ _ _) as [[v' k]|] eqn:E; [|done].
  destruct (skip_space k); [|done]. intros [= ->].
  destruct (proj1 (parse_wf _) _ _ _ _ (chunks_good _) E) as (_ & Hw & Hd). split; [done|].
  specialize (Hd ltac:(done)). lia.
Qed.
