(* ===== verification/GoSha256.v ===== *)
(** * [crypto/sha256] and [encoding/hex]

    SHA-256 as FIPS 180-4 defines it, on byte strings: padding to blocks of 64
    bytes, the message schedule, and the compression function on eight 32-bit
    words.  [SHA256Hex] and [ValidateSHA256Hex] of
    [internal/fingerprint/canonical_json.go] print and check a digest. *)

From S2P Require Import Prelude GoJson GoStrings.
Local Open Scope N_scope.

Definition word32 (n : N) : N := n mod 2 ^ 32.
Definition add32 (a b : N) : N := word32 (a + b).
Definition rotr (n x : N) : N := N.lor (N.shiftr x n) (word32 (N.shiftl x (32 - n))).
Definition not32 (x : N) : N := N.lxor x (2 ^ 32 - 1).

Definition Ch x y z : N := N.lxor (N.land x y) (N.land (not32 x) z).
Definition Maj x y z : N := N.lxor (N.lxor (N.land x y) (N.land x z)) (N.land y z).
Definition Sigma0 x : N := N.lxor (N.lxor (rotr 2 x) (rotr 13 x)) (rotr 22 x).
Definition Sigma1 x : N := N.lxor (N.lxor (rotr 6 x) (rotr 11 x)) (rotr 25 x).
Definition sigma0 x : N := N.lxor (N.lxor (rotr 7 x) (rotr 18 x)) (N.shiftr x 3).
Definition sigma1 x : N := N.lxor (N.lxor (rotr 17 x) (rotr 19 x)) (N.shiftr x 10).

(** The constants of the standard: the first 32 fractional bits of the cube
    roots of the first 64 primes, and of the square roots of the first eight. *)
Definition is_prime (n : nat) : bool :=
  forallb (λ d, negb (n mod d =? 0)%nat) (seq 2 (n - 2)).
Definition primes : list N := N.of_nat <$> List.filter is_prime (seq 2 310).

Fixpoint cube_root_from (bits : nat) (root n : N) : N :=
  match bits with
  | O => root
  | S bits' =>
      let next := root + 2 ^ N.of_nat bits' in
      cube_root_from bits' (if next * next * next <=? n then next else root) n
  end.
Definition K256 : list N :=
  Eval vm_compute in (λ p, word32 (cube_root_from 35 0 (p * 2 ^ 96))) <$> primes.

Record digest := mkDigest { d_a : N; d_b : N; d_c : N; d_d : N; d_e : N; d_f : N; d_g : N; d_h : N }.
Definition H256 : digest :=
  Eval vm_compute in
  let root k := word32 (N.sqrt (nth k primes 0 * 2 ^ 64)) in
  mkDigest (root 0%nat) (root 1%nat) (root 2%nat) (root 3%nat)
           (root 4%nat) (root 5%nat) (root 6%nat) (root 7%nat).

(** The schedule is kept newest word first: word [t-2] is at position 1. *)
Fixpoint schedule (n : nat) (w : list N) : list N :=
  match n with
  | O => w
  | S n' =>
      let next := add32 (add32 (sigma1 (nth 1 w 0)) (nth 6 w 0))
                        (add32 (sigma0 (nth 14 w 0)) (nth 15 w 0)) in
      schedule n' (next :: w)
  end.

Definition round (s : digest) (kw : N * N) : digest :=
  let '(mkDigest a b c d e f g h) := s in
  let t1 := add32 (add32 (add32 h (Sigma1 e)) (add32 (Ch e f g) kw.1)) kw.2 in
  let t2 := add32 (Sigma0 a) (Maj a b c) in
  mkDigest (add32 t1 t2) a b c (add32 d t1) e f g.

Definition compress (s : digest) (block : list N) : digest :=
  let w := rev (schedule 48 (rev block)) in
  let '(mkDigest a b c d e f g h) := foldl round s (zip K256 w) in
  mkDigest (add32 (d_a s) a) (add32 (d_b s) b) (add32 (d_c s) c) (add32 (d_d s) d)
           (add32 (d_e s) e) (add32 (d_f s) f) (add32 (d_g s) g) (add32 (d_h s) h).

(** Padding: a one bit, zeros up to 56 modulo 64, the length in bits on 8 bytes. *)
Definition be64 (n : N) : list N := (λ k, N.shiftr n (8 * k) mod 256) <$> [7; 6; 5; 4; 3; 2; 1; 0].
Fixpoint string_bytes (s : string) : list N :=
  match s with EmptyString => [] | String c s' => byte_N c :: string_bytes s' end.
Definition pad (data : list N) : list N :=
  let n := N.of_nat (length data) in
  data ++ [128] ++ replicate (N.to_nat ((119 - n mod 64) mod 64)) 0 ++ be64 (8 * n).

Fixpoint words (l : list N) : list N :=
  match l with
  | a :: b :: c :: d :: l' => ((a * 256 + b) * 256 + c) * 256 + d :: words l'
  | _ => []
  end.
Fixpoint blocks (fuel : nat) (w : list N) : list (list N) :=
  match fuel, w with
  | S fuel', _ :: _ => take 16 w :: blocks fuel' (drop 16 w)
  | _, _ => []
  end.

Definition be32 (n : N) : list N := (λ k, N.shiftr n (8 * k) mod 256) <$> [3; 2; 1; 0].
(** [sha256.Sum256] *)
Definition Sum256 (data : string) : list N :=
  let w := words (pad (string_bytes data)) in
  let s := foldl compress H256 (blocks (length w) w) in
  be32 (d_a s) ++ be32 (d_b s) ++ be32 (d_c s) ++ be32 (d_d s) ++
  be32 (d_e s) ++ be32 (d_f s) ++ be32 (d_g s) ++ be32 (d_h s).

(** [hex.EncodeToString] *)
Fixpoint EncodeToString (l : list N) : string :=
  match l with
  | [] => ""
  | n :: l' => String (hex_digit (n / 16)) (String (hex_digit (n mod 16)) (EncodeToString l'))
  end.

Definition sha256HexLength : nat := 32 * 2.
Definition SHA256Hex (data : string) : string := EncodeToString (Sum256 data).

Definition lower_hex (c : chunk) : bool :=
  match c with Asc a => in_range 48 57 a || in_range 97 102 a | _ => false end.
Definition ValidateSHA256Hex (value : string) : result unit :=
  fail_if (negb (bool_decide (slen value = sha256HexLength)))
    (Errorf ("sha256 hex must be " +:+ pretty sha256HexLength +:+ " characters"));;
  fail_if (negb (forallb lower_hex (chunks value)))
    (Errorf "sha256 hex must contain only lowercase hexadecimal characters").

(** The test vectors of FIPS 180-4. *)
Example sha256_abc :
  SHA256Hex "abc" = "ba7816bf8f01cfea414140de5dae2223b00361a396177a9cb410ff61f20015ad".
Proof. vm_compute. reflexivity. Qed.
Example sha256_two_blocks :
  SHA256Hex "abcdbcdecdefdefgefghfghighijhijkijkljklmklmnlmnomnopnopq"
  = "248d6a61d20638b8e5c026930c3e6039a33ce45964ff2167f6ecedd419db06c1".
Proof. vm_compute. reflexivity. Qed.

Lemma hex_digit_lower n : n < 16 → lower_hex (Asc (hex_digit n)) = true ∧ is_ascii (hex_digit n) = true.
Proof.
  intros Hn. assert (n ∈ (N.of_nat <$> seq 0 16)) as H.
  { apply list_elem_of_fmap. exists (N.to_nat n). split; [lia|]. apply elem_of_seq. lia. }
  clear Hn. revert n H. apply Forall_forall. by repeat constructor.
Qed.

(** Every printed digest is a well-formed digest. *)
Lemma SHA256Hex_valid data : ValidateSHA256Hex (SHA256Hex data) = Ok tt.
Proof.
  assert (∀ l, Forall (λ n, n < 256) l →
    slen (EncodeToString l) = (2 * length l)%nat ∧
    forallb lower_hex (chunks (EncodeToString l)) = true) as H.
  { induction 1 as [|n l Hn _ [IH1 IH2]]; [done|].
    destruct (hex_digit_lower (n / 16)) as [Ha1 Ha2]; [apply N.Div0.div_lt_upper_bound; lia|].
    destruct (hex_digit_lower (n mod 16)) as [Hb1 Hb2]; [apply N.mod_lt; lia|].
    split; [simpl; lia|]. simpl chunks. rewrite Ha2. simpl chunks. rewrite Hb2.
    cbn [forallb]. by rewrite Ha1, Hb1, IH2. }
  assert (Forall (λ n, n < 256) (Sum256 data) ∧ length (Sum256 data) = 32%nat) as [HF HL].
  { assert (∀ n, Forall (λ n, n < 256) (be32 n)) as Hb.
    { intros n. unfold be32. simpl. repeat constructor; apply N.mod_lt; lia. }
    unfold Sum256. split; [repeat (apply Forall_app; split); apply Hb|reflexivity]. }
  destruct (H _ HF) as [H1 H2]. unfold ValidateSHA256Hex, SHA256Hex.
  rewrite H1, H2, HL. reflexivity.
Qed.
