(* ===== verification/Fingerprint.v ===== *)
(** * Canonical JSON ([internal/fingerprint/canonical_json.go])

    Fingerprints are SHA-256 digests of canonical JSON: object keys sorted, no
    white space, integers only.  [GoValue] is the [any] the writer switches on;
    all signed and unsigned integer types are [GInt], and a typed slice or
    string-keyed map, written through [reflect], is written as [[]any] and
    [map[string]any] are.

    The canonical text of a value reads back as the value, so two values have the
    same canonical text exactly when they are equal up to the order of fields. *)

From S2P Require Import Prelude GoJson GoStrings GoJsonLaws GoSha256.
Local Open Scope nat_scope.

Inductive GoValue :=
  | GNil
  | GBool (b : bool)
  | GString (s : string)
  | GNumber (text : string)
  | GInt (z : Z)
  | GFloat
  | GList (items : list GoValue)
  | GMap (fields : list (string * GoValue))
  | GOtherMap
  | GOther (type_name : string).

Section GoValue_induction.
Context (P : GoValue → Prop).
Context (Hlist : ∀ items, Forall P items → P (GList items)).
Context (Hmap : ∀ fields, Forall (λ f, P f.2) fields → P (GMap fields)).
Context (Hleaf : ∀ g, (∀ l, g ≠ GList l) → (∀ l, g ≠ GMap l) → P g).

Lemma GoValue_ind' : ∀ g, P g.
Proof using Hlist Hmap Hleaf.
  fix IH 1. intros g. destruct g as [| | | | | |items|fields| |]; try (apply Hleaf; intros; discriminate).
  - apply Hlist. induction items as [|child l IHl]; constructor; [apply IH|exact IHl].
  - apply Hmap. induction fields as [|[k child] fs IHfs]; constructor; [apply IH|exact IHfs].
Qed.
End GoValue_induction.

(** A decoded document as a Go value. *)
Fixpoint of_json (v : JSON) : GoValue :=
  match v with
  | JNull => GNil
  | JBool b => GBool b
  | JNumber text => GNumber text
  | JString s => GString s
  | JArray items => GList (of_json <$> items)
  | JObject fields => GMap ((λ '(k, x), (k, of_json x)) <$> fields)
  end.

Definition chunk_digit (c : chunk) : bool := match c with Asc a => is_digit a | _ => false end.
Definition canonical_digits (text : string) : bool :=
  if (1 <? slen text) && has_prefix "0" text then false else forallb chunk_digit (chunks text).
Definition isCanonicalIntegerText (text : string) : bool :=
  if is_empty text || contains_any ".eE" text then false else
  if has_prefix "-" text then
    let text := str_drop 1 text in
    if is_empty text then false else canonical_digits text
  else canonical_digits text.

Definition by_key {A} (x y : string * A) : bool := str_leb x.1 y.1.

Definition writeCanonicalList (items : list (result string)) : result string :=
  texts ← traverse_items (λ i item, wrap_err ("encode list item " +:+ pretty i) item) 0 items;
  Ok ("[" +:+ str_join "," texts +:+ "]").
Definition writeCanonicalObject (fields : list (string * result string)) : result string :=
  members ← traverse_fields (λ key value, wrap_err ("encode object field " +:+ key) value)
              (order_by by_key fields);
  Ok ("{" +:+ str_join "," ((λ '(key, text), marshal_string key +:+ ":" +:+ text) <$> members) +:+ "}").

(** The fields are encoded in the order of the keys: sorting the encoded fields
    before their errors are looked at is the same. *)
Fixpoint writeCanonicalJSON (value : GoValue) : result string :=
  match value with
  | GNil => Ok "null"
  | GBool true => Ok "true"
  | GBool false => Ok "false"
  | GString typed => Ok (marshal_string typed)
  | GNumber text =>
      fail_if (negb (isCanonicalIntegerText text))
        (Errorf "canonical JSON v1 accepts only integer numbers");;
      Ok text
  | GInt typed => Ok (pretty typed)
  | GFloat =>
      Err (Errorf "canonical JSON v1 rejects floating-point numbers; use schema-defined strings for decimals")
  | GList items => writeCanonicalList (writeCanonicalJSON <$> items)
  | GMap fields => writeCanonicalObject ((λ '(k, x), (k, writeCanonicalJSON x)) <$> fields)
  | GOtherMap => Err (Errorf "canonical JSON object keys must be strings")
  | GOther t => Err (Errorf ("unsupported canonical JSON value " +:+ t))
  end.

Definition CanonicalJSON (value : GoValue) : result string := writeCanonicalJSON value.
Definition CanonicalJSONSHA256 (value : GoValue) : result (string * string) :=
  canonical ← CanonicalJSON value;
  Ok (canonical, SHA256Hex canonical).

(** ** The value a Go value stands for *)

Fixpoint denote (g : GoValue) : JSON :=
  match g with
  | GBool b => JBool b
  | GString s => JString s
  | GNumber text => JNumber text
  | GInt z => JNumber (pretty z)
  | GList items => JArray (denote <$> items)
  | GMap fields => JObject ((λ '(k, x), (k, denote x)) <$> fields)
  | GNil | GFloat | GOtherMap | GOther _ => JNull
  end.

(** Fields sorted by key, at every level. *)
Fixpoint jsort (v : JSON) : JSON :=
  match v with
  | JArray items => JArray (jsort <$> items)
  | JObject fields => JObject (order_by by_key ((λ '(k, x), (k, jsort x)) <$> fields))
  | _ => v
  end.

(** Equality of values: the fields of an object have no order. *)
Inductive json_eq : JSON → JSON → Prop :=
  | json_eq_refl v : json_eq v v
  | json_eq_array l l' : Forall2 json_eq l l' → json_eq (JArray l) (JArray l')
  | json_eq_object fs gs fs' :
      Forall2 (λ f g, f.1 = g.1 ∧ json_eq f.2 g.2) fs gs → gs ≡ₚ fs' →
      json_eq (JObject fs) (JObject fs').

(** Printing a value as it stands. *)
Fixpoint print (v : JSON) : string :=
  match v with
  | JNull => "null"
  | JBool b => if b then "true" else "false"
  | JNumber text => text
  | JString s => marshal_string s
  | JArray items => "[" +:+ str_join "," (print <$> items) +:+ "]"
  | JObject fields =>
      "{" +:+ str_join "," ((λ '(k, x), marshal_string k +:+ ":" +:+ print x) <$> fields) +:+ "}"
  end.

Fixpoint integers_only (v : JSON) : bool :=
  match v with
  | JNumber text => isCanonicalIntegerText text
  | JArray items => forallb integers_only items
  | JObject fields => forallb (λ '(_, x), integers_only x) fields
  | _ => true
  end.

(** ** Integers *)

Fixpoint all_digits (s : string) : bool :=
  match s with EmptyString => true | String c s' => is_digit c && all_digits s' end.
Fixpoint asc (s : string) : list chunk :=
  match s with EmptyString => [] | String c s' => Asc c :: asc s' end.

Lemma digit_ascii c : is_digit c = true → is_ascii c = true.
Proof. unfold is_digit, is_ascii. rewrite andb_true_iff, !N.leb_le, N.ltb_lt. lia. Qed.

Lemma all_digits_chunks s : all_digits s = true → chunks s = asc s ∧ forallb chunk_digit (chunks s) = true.
Proof.
  induction s as [|c s IH]; [done|]. cbn [all_digits]. intros [Hc Hs]%andb_true_iff.
  destruct (IH Hs) as [IH1 IH2]. cbn [chunks asc]. rewrite (digit_ascii c Hc). cbn [forallb].
  rewrite IH2, IH1. simpl. by rewrite Hc.
Qed.
Lemma digit_chunks_all s : forallb chunk_digit (chunks s) = true → all_digits s = true.
Proof.
  induction s as [|c rest Hch _ IH] using chunks_ind; [done|]. rewrite Hch. cbn [forallb].
  intros [Hc Hr]%andb_true_iff. destruct c as [a|e|a]; simpl in Hc; try done.
  simpl. rewrite Hc. by apply IH.
Qed.

(** Digits with no leading zero. *)
Definition decimal (s : string) : bool := negb (is_empty s) && canonical_digits s.

Lemma decimal_spec s :
  decimal s = true ↔
  s ≠ "" ∧ ((1 <? slen s) && has_prefix "0" s) = false ∧ all_digits s = true.
Proof.
  unfold decimal, canonical_digits, is_empty. rewrite andb_true_iff, negb_true_iff, bool_decide_eq_false.
  destruct (_ && _); [naive_solver|]. split.
  - intros [H1 H2%digit_chunks_all]. done.
  - intros (H1 & _ & H2%all_digits_chunks). by destruct H2.
Qed.

Lemma any_digit_special c : is_digit c = true → any_of ".eE" c = false ∧ bool_decide ("-"%char = c) = false.
Proof. destruct c as [[] [] [] [] [] [] [] []]; done. Qed.
Lemma all_digits_plain s : all_digits s = true → contains_any ".eE" s = false.
Proof.
  unfold contains_any, index_any. intros Hs. apply bool_decide_eq_false. intros [n Hn].
  revert n Hn. induction s as [|c s IH]; intros n; [done|]. cbn [all_digits] in Hs.
  apply andb_true_iff in Hs as [Hc Hs]. cbn [index_where].
  rewrite (proj1 (any_digit_special c Hc)). intros (m & Hm & _)%fmap_Some. by eapply IH.
Qed.

(** A canonical integer is a decimal with an optional sign. *)
Lemma canonical_integer text :
  isCanonicalIntegerText text = true ↔
  ∃ s, decimal s = true ∧ (text = s ∨ text = String "-" s).
Proof.
  unfold isCanonicalIntegerText. split.
  - intros H. destruct (is_empty text || contains_any ".eE" text) eqn:E; [done|].
    apply orb_false_iff in E as [E1 _]. destruct text as [|c s]; [done|].
    destruct (has_prefix "-" (String c s)) eqn:Hp.
    + simpl in Hp. apply andb_true_iff in Hp as [<-%bool_decide_eq_true _]. cbn [str_drop] in H.
      destruct (is_empty s) eqn:Es; [done|]. exists s. split; [|by right].
      unfold decimal. by rewrite Es, H.
    + exists (String c s). split; [|by left]. unfold decimal. by rewrite E1, H.
  - intros (s & Hd & Ht). pose proof Hd as (H1 & _ & H3)%decimal_spec.
    pose proof (all_digits_plain s H3) as H5. unfold decimal in Hd.
    apply andb_true_iff in Hd as [He%negb_true_iff Hd]. destruct Ht as [->| ->].
    + rewrite He, H5. destruct s as [|c s']; [done|]. cbn [all_digits] in H3.
      apply andb_true_iff in H3 as [Hc _]. cbn [has_prefix].
      rewrite (proj2 (any_digit_special c Hc)). exact Hd.
    + assert (contains_any ".eE" (String "-" s) = false) as H6.
      { unfold contains_any, index_any in *. rewrite bool_decide_eq_false in *. intros [n Hn]. apply H5.
        cbn in Hn. apply fmap_Some in Hn as (m & Hm & _). by exists m. }
      rewrite H6. change (has_prefix "-" (String "-" s)) with true. cbn [str_drop].
      by rewrite He, Hd.
Qed.

Lemma pretty_char_digit x : is_digit (pretty_N_char x) = true.
Proof. unfold pretty_N_char. by repeat case_match. Qed.
Lemma pretty_char_zero x : (0 < x < 10)%N → has_prefix "0" (String (pretty_N_char x) "") = false.
Proof.
  intros Hx. assert (x = 1 ∨ x = 2 ∨ x = 3 ∨ x = 4 ∨ x = 5 ∨ x = 6 ∨ x = 7 ∨ x = 8 ∨ x = 9)%N by lia.
  by destruct_or!; subst.
Qed.
Lemma has_prefix_head c s t : has_prefix "0" (String c s) = has_prefix "0" (String c t).
Proof. reflexivity. Qed.

Lemma pretty_N_go_digits x s :
  all_digits s = true →
  all_digits (pretty_N_go x s) = true ∧
  ((0 < x)%N → has_prefix "0" (pretty_N_go x s) = false ∧ pretty_N_go x s ≠ "").
Proof.
  revert s. induction (N.lt_wf_0 x) as [x _ IH]; intros s Hs.
  assert (x = 0 ∨ 0 < x < 10 ∨ 10 ≤ x)%N as [->|[Hx|Hx]] by lia.
  - rewrite pretty_N_go_0. split; [done|lia].
  - rewrite pretty_N_go_step by lia. rewrite N.div_small, N.mod_small by lia.
    rewrite pretty_N_go_0. split; [|intros _; split; [|done]].
    + cbn [all_digits]. by rewrite pretty_char_digit.
    + rewrite (has_prefix_head _ _ ""). by apply pretty_char_zero.
  - rewrite pretty_N_go_step by lia.
    assert (0 < x `div` 10)%N by (apply N.div_str_pos; lia).
    destruct (IH (x `div` 10)%N) with (String (pretty_N_char (x `mod` 10)) s) as [H1 H2].
    + apply N.div_lt; lia.
    + cbn [all_digits]. by rewrite pretty_char_digit.
    + split; [done|]. intros _. by apply H2.
Qed.

Lemma pretty_N_decimal (x : N) : decimal (pretty x) = true.
Proof.
  unfold pretty, pretty_N. case_decide as Hx; [reflexivity|].
  destruct (pretty_N_go_digits x "" eq_refl) as [H1 H2]. destruct H2 as [H2 H3]; [lia|].
  apply decimal_spec. by rewrite H2, andb_false_r.
Qed.
(** Every printed integer is canonical. *)
Lemma pretty_Z_canonical (z : Z) : isCanonicalIntegerText (pretty z) = true.
Proof.
  apply canonical_integer. destruct z as [|p|p].
  - exists "0". split; [reflexivity|by left].
  - exists (pretty (Npos p)). split; [apply pretty_N_decimal|by left].
  - exists (pretty (Npos p)). split; [apply pretty_N_decimal|by right].
Qed.

(** ** Numbers read back *)

(** A number ends here. *)
Definition ends_number (rest : list chunk) : bool :=
  match rest with
  | Asc c :: _ => negb (is_digit c) && negb (any_of ".eE" c)
  | _ => true
  end.

Lemma take_digits_asc s rest :
  all_digits s = true → ends_number rest = true → take_digits (asc s ++ rest) = (s, rest).
Proof.
  intros Hs Hr. induction s as [|c s IH]; simpl.
  - destruct rest as [|[c|e|c] r]; try done. simpl in *. apply andb_true_iff in Hr as [Hc%negb_true_iff _].
    by rewrite Hc.
  - cbn [all_digits] in Hs. apply andb_true_iff in Hs as [Hc Hs]. rewrite Hc, IH by done. done.
Qed.

Lemma lex_fraction_end rest : ends_number rest = true → lex_fraction rest = Some ("", rest).
Proof.
  destruct rest as [|[c|e|c] r]; try done. cbn [ends_number lex_fraction lex_exponent].
  intros [_ Hc%negb_true_iff]%andb_true_iff. cbn [any_of] in Hc.
  rewrite !orb_false_iff, !bool_decide_eq_false in Hc. destruct Hc as (H1 & H2 & H3 & _).
  rewrite !bool_decide_eq_false_2 by tauto. done.
Qed.

Lemma lex_integer_decimal s rest :
  decimal s = true → ends_number rest = true → lex_integer (asc s ++ rest) = Some (s, rest).
Proof.
  intros (H1 & H2 & H3)%decimal_spec Hr. destruct s as [|c s]; [done|]. cbn [asc app lex_integer]. case_bool_decide as Hc.
  - subst c. destruct s as [|d s]; [|done]. simpl. by rewrite lex_fraction_end.
  - unfold some_digits. change (Asc c :: asc s ++ rest) with (asc (String c s) ++ rest).
    rewrite take_digits_asc by done. cbn [mbind option_bind]. rewrite lex_fraction_end by done.
    cbn [prepend mbind option_bind]. by rewrite str_app_nil_r.
Qed.

Lemma decimal_head s : decimal s = true → ∃ c s', s = String c s' ∧ is_digit c = true.
Proof.
  intros (H1 & H2 & H3)%decimal_spec. destruct s as [|c s]; [done|]. cbn [all_digits] in H3. apply andb_true_iff in H3 as [Hc _]. eauto.
Qed.

(** A number's text is read as a number, whole. *)
Lemma integer_reads text :
  isCanonicalIntegerText text = true →
  valid_utf8 text = true ∧
  ∃ c r, chunks text = Asc c :: r ∧ (is_digit c || bool_decide (c = "-"%char)) = true ∧
    ∀ rest, ends_number rest = true → lex_number (Asc c :: r ++ rest) = Some (text, rest).
Proof.
  intros (s & Hs & Ht)%canonical_integer. destruct (decimal_head s Hs) as (c & s' & Hc & Hdig).
  pose proof Hs as (_ & _ & Had)%decimal_spec.
  destruct (all_digits_chunks s Had) as [Hch _].
  assert (valid_utf8 s = true) as Hv.
  { unfold valid_utf8. rewrite Hch. clear. induction s; simpl; done. }
  destruct Ht as [->| ->].
  - split; [done|]. rewrite Hch, Hc. exists c, (asc s'). split_and!; [done|by rewrite Hdig|].
    intros rest Hr. unfold lex_number.
    rewrite bool_decide_eq_false_2 by (intros ->; discriminate Hdig).
    change (Asc c :: asc s' ++ rest) with (asc (String c s') ++ rest). rewrite <- Hc.
    by apply lex_integer_decimal.
  - split; [exact Hv|]. cbn [chunks]. change (is_ascii "-") with true. cbn iota.
    exists "-"%char, (chunks s). split_and!; [done|done|].
    intros rest Hr. unfold lex_number. rewrite bool_decide_eq_true_2 by done.
    rewrite Hch, lex_integer_decimal by done. done.
Qed.

(** ** Values read back *)

(** Reading [s] with any large fuel gives [r]. *)
Definition eventually {R} (parse : nat → option R) (r : R) : Prop :=
  ∃ f0, ∀ fuel, f0 ≤ fuel → parse fuel = Some r.

(** The text of a value reads as the value, whatever encloses and follows it. *)
Definition reads (v : JSON) : Prop :=
  valid_utf8 (print v) = true ∧
  ∀ depth rest, ends_number rest = true → (depth + json_depth v ≤ maxNestingDepth)%N →
    eventually (λ fuel, parse_value fuel depth (chunks (print v) ++ rest)) (v, rest).

(** How the text of a value starts. *)
Lemma print_head v :
  integers_only v = true →
  ∃ c r, chunks (print v) = Asc c :: r ∧ is_space c = false ∧ c ≠ "]"%char.
Proof.
  destruct v as [|[]|text|s|items|fields]; intros Hi.
  1-3: eexists _, _; split_and!; reflexivity || done.
  - destruct (integer_reads text Hi) as (_ & c & r & Hch & Hc & _). exists c, r. split; [done|].
    apply orb_true_iff in Hc as [Hc|Hc%bool_decide_eq_true]; [|by subst].
    revert Hc. by destruct c as [[] [] [] [] [] [] [] []].
  - eexists _, _. split_and!; [reflexivity|done..].
  - eexists _, _. split_and!; [reflexivity|done..].
  - eexists _, _. split_and!; [reflexivity|done..].
Qed.

Lemma str_join_cons x y l : str_join "," (x :: y :: l) = x +:+ "," +:+ str_join "," (y :: l).
Proof. reflexivity. Qed.

Lemma join_valid l : Forall (λ s, valid_utf8 s = true) l → valid_utf8 (str_join "," l) = true.
Proof.
  induction 1 as [|x l Hx Hl IH]; [done|]. destruct l as [|y l]; [done|]. rewrite str_join_cons.
  apply valid_utf8_app; [done|]. by apply valid_utf8_app.
Qed.

Lemma ends_comma rest : ends_number (Asc "," :: rest) = true.
Proof. reflexivity. Qed.

Lemma items_read l depth rest :
  l ≠ [] → Forall reads l → (∀ v, v ∈ l → (depth + json_depth v ≤ maxNestingDepth)%N) →
  eventually (λ fuel, parse_items fuel depth
    (chunks (str_join "," (print <$> l)) ++ Asc "]"%char :: rest)) (l, rest).
Proof.
  intros Hne Hl Hd. induction Hl as [|v l [Hv Hp] Hl IH]; [done|].
  destruct l as [|w l].
  - destruct (Hp depth (Asc "]"%char :: rest)) as [f0 Hf]; [done|apply Hd; left|].
    exists (S f0). intros [|fuel] Hfuel; [lia|]. cbn [fmap list_fmap str_join parse_items].
    rewrite Hf by lia. done.
  - destruct IH as [f1 Hf1]; [done|intros; apply Hd; by right|].
    cbn [fmap list_fmap] in *. rewrite str_join_cons.
    assert (valid_utf8 (str_join "," (print w :: (print <$> l))) = true) as Hj.
    { apply join_valid. change (print w :: (print <$> l)) with (print <$> (w :: l)). apply Forall_fmap. eapply Forall_impl; [exact Hl|]. by intros ? []. }
    rewrite chunks_app by done. rewrite (chunks_app ",") by done. rewrite <- !app_assoc.
    destruct (Hp depth (chunks "," ++ chunks (str_join "," (print w :: (print <$> l))) ++ Asc "]"%char :: rest))
      as [f0 Hf]; [done|apply Hd; left|].
    exists (S (f0 + f1)). intros [|fuel] Hfuel; [lia|]. cbn [parse_items].
    rewrite Hf by lia. cbn [mbind option_bind]. change (chunks ",") with [Asc ","%char].
    cbn [app skip_space is_space]. change (is_space ",") with false. cbn iota.
    rewrite bool_decide_eq_true_2 by done. rewrite Hf1 by lia. done.
Qed.

Definition member (f : string * JSON) : string := let '(k, x) := f in marshal_string k +:+ ":" +:+ print x.

Lemma member_valid f : valid_utf8 f.1 = true → reads f.2 → valid_utf8 (member f) = true.
Proof.
  destruct f as [k x]. simpl. intros Hk [Hv _]. apply valid_utf8_app; [by apply marshal_string_valid|].
  by apply valid_utf8_app.
Qed.

Lemma members_read l depth rest :
  l ≠ [] → NoDup l.*1 → Forall (λ f, valid_utf8 f.1 = true ∧ reads f.2) l →
  (∀ f, f ∈ l → (depth + json_depth f.2 ≤ maxNestingDepth)%N) →
  eventually (λ fuel, parse_members fuel depth
    (chunks (str_join "," (member <$> l)) ++ Asc "}"%char :: rest)) (l, rest).
Proof.
  intros Hne Hn Hl Hd. induction Hl as [|[k v] l [Hk [Hv Hp]] Hl IH]; [done|].
  cbn [fst snd] in *. apply NoDup_cons in Hn as [Hkl Hn].
  destruct (marshal_string_chunks k Hk) as (q & Hq & Hstr). pose proof (marshal_string_valid k Hk) as Hmv.
  assert (∀ tail, ∃ f0, ends_number tail = true → ∀ fuel, f0 ≤ fuel →
    parse_members (S fuel) depth (chunks (member (k, v)) ++ tail) =
    match skip_space tail with
    | Asc c :: r2 =>
        if bool_decide (c = ","%char) then
          '(fs, rest) ← parse_members fuel depth r2; Some (set_field k v fs, rest)
        else if bool_decide (c = "}"%char) then Some ([(k, v)], r2) else None
    | _ => None
    end) as Hone.
  { intros tail. destruct (ends_number tail) eqn:He; [|by exists 0].
    destruct (Hp depth tail He) as [f0 Hf]; [apply (Hd (k, v)); left|]. exists f0. intros _ fuel Hfuel.
    unfold member. rewrite chunks_app, (chunks_app ":") by done. rewrite Hq, <- !app_assoc.
    cbn [app parse_members skip_space]. change (is_space quote_byte) with false. cbn iota.
    rewrite bool_decide_eq_true_2 by done. rewrite Hstr. cbn [mbind option_bind].
    change (chunks ":") with [Asc ":"%char]. cbn [app skip_space]. change (is_space ":") with false. cbn iota.
    rewrite bool_decide_eq_true_2 by done. rewrite Hf by lia. done. }
  destruct l as [|w l].
  - destruct (Hone (Asc "}"%char :: rest)) as [f0 Hf]. exists (S f0). intros [|fuel] Hfuel; [lia|].
    cbn [fmap list_fmap str_join]. rewrite Hf by (done || lia). done.
  - destruct IH as [f1 Hf1]; [done|done|intros; apply Hd; by right|].
    cbn [fmap list_fmap] in *. rewrite str_join_cons.
    assert (valid_utf8 (member (k, v)) = true) as Hmem by (by apply member_valid).
    rewrite chunks_app by done. rewrite (chunks_app ",") by done. rewrite <- !app_assoc.
    destruct (Hone (chunks "," ++ chunks (str_join "," (member w :: (member <$> l))) ++ Asc "}"%char :: rest)) as [f0 Hf].
    exists (S (f0 + f1)). intros [|fuel] Hfuel; [lia|]. rewrite Hf by (done || lia).
    change (chunks ",") with [Asc ","%char]. cbn [app skip_space]. change (is_space ",") with false. cbn iota.
    rewrite bool_decide_eq_true_2 by done. rewrite Hf1 by lia. cbn [mbind option_bind].
    unfold set_field. rewrite bool_decide_eq_false_2 by done. done.
Qed.

Lemma depth_items items v : v ∈ items → (json_depth v < json_depth (JArray items))%N.
Proof.
  intros Hin. cbn [json_depth]. induction items as [|x l IH]; [by apply elem_of_nil in Hin|].
  cbn [foldr]. apply elem_of_cons in Hin as [->|Hin]; [lia|]. specialize (IH Hin). lia.
Qed.
Lemma depth_fields fields f : f ∈ fields → (json_depth f.2 < json_depth (JObject fields))%N.
Proof.
  intros Hin. cbn [json_depth]. induction fields as [|[k x] l IH]; [by apply elem_of_nil in Hin|].
  cbn [foldr]. apply elem_of_cons in Hin as [->|Hin]; [cbn; lia|]. specialize (IH Hin). lia.
Qed.

Ltac below_limit Hd :=
  match goal with |- context [(?d <? maxNestingDepth)%N] =>
    rewrite (proj2 (N.ltb_lt d maxNestingDepth)) by (clear -Hd; cbn [json_depth] in Hd; lia) end.

Lemma array_reads items :
  forallb integers_only items = true → Forall reads items → reads (JArray items).
Proof.
  intros Hi Hl. set (body := str_join "," (print <$> items)).
  assert (valid_utf8 body = true) as Hb.
  { apply join_valid. apply Forall_fmap. eapply Forall_impl; [exact Hl|]. by intros ? []. }
  assert (chunks (print (JArray items)) = Asc "["%char :: chunks body ++ [Asc "]"%char]) as Hch.
  { change (Asc "["%char :: chunks (body +:+ "]") = Asc "["%char :: chunks body ++ chunks "]").
    by rewrite chunks_app. }
  split.
  { unfold valid_utf8 in *. rewrite Hch. cbn [forallb]. by rewrite forallb_app, Hb. }
  intros depth rest Hr Hd. rewrite Hch. cbn [app]. rewrite <- app_assoc. cbn [app].
  destruct items as [|v l].
  - exists 1. intros [|fuel] Hfuel; [lia|]. cbn [parse_value skip_space].
    change (is_space "[") with false. cbn iota. rewrite !bool_decide_eq_false_2 by done.
    rewrite bool_decide_eq_true_2 by done. below_limit Hd. reflexivity.
  - destruct (items_read (v :: l) (depth + 1) rest) as [f0 Hf]; [done|done| |].
    { intros w Hw%depth_items. lia. }
    exists (S f0). intros [|fuel] Hfuel; [lia|]. cbn [parse_value skip_space].
    change (is_space "[") with false. cbn iota. rewrite (bool_decide_eq_false_2 ("["%char = "{"%char)) by done.
    rewrite bool_decide_eq_true_2 by done. below_limit Hd. fold body in Hf.
    cbn [forallb] in Hi. apply andb_true_iff in Hi as [Hv _].
    destruct (print_head v Hv) as (c & r & Hc & Hsp & Hne).
    assert (∃ r', chunks body = Asc c :: r') as [r' Hr'].
    { unfold body. destruct l as [|w l]; cbn [fmap list_fmap str_join]; [eauto|].
      apply Forall_cons in Hl as [[Hpv _] _]. rewrite chunks_app by done. rewrite Hc. by eexists. }
    specialize (Hf fuel ltac:(lia)). rewrite Hr' in Hf |- *. cbn [app skip_space] in Hf |- *. rewrite Hsp.
    rewrite bool_decide_eq_false_2 by done. by rewrite Hf.
Qed.

Lemma object_reads fields :
  NoDup fields.*1 → Forall (λ f, valid_utf8 f.1 = true ∧ reads f.2) fields → reads (JObject fields).
Proof.
  intros Hn Hl. set (body := str_join "," (member <$> fields)).
  assert (valid_utf8 body = true) as Hb.
  { apply join_valid. apply Forall_fmap. eapply Forall_impl; [exact Hl|].
    intros f [? ?]. by apply member_valid. }
  assert (chunks (print (JObject fields)) = Asc "{"%char :: chunks body ++ [Asc "}"%char]) as Hch.
  { change (Asc "{"%char :: chunks (body +:+ "}") = Asc "{"%char :: chunks body ++ chunks "}").
    by rewrite chunks_app. }
  split.
  { unfold valid_utf8 in *. rewrite Hch. cbn [forallb]. by rewrite forallb_app, Hb. }
  intros depth rest Hr Hd. rewrite Hch. cbn [app]. rewrite <- app_assoc. cbn [app].
  destruct fields as [|[k v] l].
  - exists 1. intros [|fuel] Hfuel; [lia|]. cbn [parse_value skip_space].
    change (is_space "{") with false. cbn iota.
    rewrite bool_decide_eq_true_2 by done. below_limit Hd. reflexivity.
  - destruct (members_read ((k, v) :: l) (depth + 1) rest) as [f0 Hf]; [done|done|done| |].
    { intros w Hw%depth_fields. lia. }
    exists (S f0). intros [|fuel] Hfuel; [lia|]. cbn [parse_value skip_space].
    change (is_space "{") with false. cbn iota.
    rewrite bool_decide_eq_true_2 by done. below_limit Hd. fold body in Hf.
    assert (∃ r', chunks body = Asc quote_byte :: r') as [r' Hr'].
    { unfold body. destruct l as [|w l]; cbn [fmap list_fmap str_join]; unfold member at 1, marshal_string at 1;
        by eexists. }
    specialize (Hf fuel ltac:(lia)). rewrite Hr' in Hf |- *. cbn [app skip_space] in Hf |- *.
    change (is_space quote_byte) with false. cbn iota.
    rewrite bool_decide_eq_false_2 by done. by rewrite Hf.
Qed.

Lemma number_reads text : isCanonicalIntegerText text = true → reads (JNumber text).
Proof.
  intros Hi. destruct (integer_reads text Hi) as (Hv & c & r & Hch & Hc & Hlex).
  split; [exact Hv|]. intros depth rest Hr _. cbn [print]. rewrite Hch. exists 1.
  intros [|fuel] Hfuel; [lia|]. cbn [app parse_value skip_space].
  assert (is_space c = false ∧ c ≠ "{"%char ∧ c ≠ "["%char ∧ c ≠ quote_byte ∧ c ≠ "t"%char ∧
    c ≠ "f"%char ∧ c ≠ "n"%char) as (H0 & H1 & H2 & H3 & H4 & H5 & H6).
  { revert Hc. by destruct c as [[] [] [] [] [] [] [] []]. }
  rewrite H0, !bool_decide_eq_false_2 by done. rewrite Hlex by done. done.
Qed.

(** What is printed reads back. *)
Lemma print_reads v : json_wf v = true → integers_only v = true → reads v.
Proof.
  induction v as [items IH|fields IH|v H1 H2] using JSON_ind'; intros Hw Hi.
  - cbn [json_wf integers_only] in *. apply array_reads; [done|].
    rewrite Forall_forall in *. intros x Hx. apply IH; [done|..];
      eapply forallb_forall; try eassumption; by apply list_elem_of_In.
  - cbn [json_wf integers_only] in *. apply andb_true_iff in Hw as [Hn%bool_decide_eq_true Hw].
    apply object_reads; [done|]. rewrite Forall_forall in *. intros [k x] Hx.
    rewrite forallb_forall in Hw, Hi. specialize (Hw (k, x)). specialize (Hi (k, x)).
    rewrite <- list_elem_of_In in Hw, Hi. specialize (Hw Hx). specialize (Hi Hx). simpl in *.
    apply andb_true_iff in Hw as [Hk Hw]. split; [done|]. by apply (IH (k, x)).
  - destruct v as [|b|text|s|items|fields]; try (by destruct (H1 _ eq_refl)); try (by destruct (H2 _ eq_refl)).
    + split; [done|]. intros depth rest _ _. exists 1. intros [|fuel] ?; [lia|]. reflexivity.
    + split; [by destruct b|]. intros depth rest _ _. exists 1. intros [|fuel] ?; [lia|]. by destruct b.
    + by apply number_reads.
    + split; [by apply marshal_string_valid|]. intros depth rest _ _. exists 1.
      destruct (marshal_string_chunks s Hw) as (q & Hq & Hstr). cbn [print]. rewrite Hq.
      intros [|fuel] ?; [lia|]. cbn [app parse_value skip_space]. change (is_space quote_byte) with false.
      cbn iota. rewrite !(bool_decide_eq_false_2 (quote_byte = _)) by done.
      rewrite bool_decide_eq_true_2 by done. by rewrite Hstr.
Qed.

Lemma decode_print v :
  json_wf v = true → integers_only v = true → (json_depth v ≤ maxNestingDepth)%N →
  decode_document (print v) = Document v.
Proof.
  intros Hw Hi Hd. destruct (print_reads v Hw Hi) as [_ Hr].
  destruct (Hr 0%N [] eq_refl ltac:(lia)) as [f0 Hf]. rewrite app_nil_r in Hf. unfold decode_document.
  rewrite <- (parse_value_fuel (f0 + parse_fuel (chunks (print v)))) by lia.
  rewrite Hf by lia. reflexivity.
Qed.

(** ** Sorting fields *)

Definition on_value {A B} (h : A → B) (f : string * A) : string * B := let '(k, x) := f in (k, h x).

#[export] Instance by_key_linear {A} : LinearComparison (@by_key A).
Proof. split; unfold by_key; intros; [apply str_leb_total|by eapply str_leb_trans]. Qed.

Lemma keys_on_value {A B} (h : A → B) l : (on_value h <$> l).*1 = l.*1.
Proof. induction l as [|[k x] l IH]; [done|]. by rewrite !fmap_cons, IH. Qed.

(** Fields with distinct keys have one sorted order. *)
Lemma sorted_fields_unique {A} (l l' : list (string * A)) :
  NoDup l.*1 → StronglySorted (λ x y, Is_true (by_key x y)) l →
  StronglySorted (λ x y, Is_true (by_key x y)) l' → l ≡ₚ l' → l = l'.
Proof.
  intros Hn Hs Hs' Hp. apply (StronglySorted_unique_strong (λ x y, Is_true (by_key x y))); try done.
  intros [k1 x1] [k2 x2] H1 H2 H12 H21. unfold by_key in *. simpl in *.
  rewrite Is_true_true in *. assert (k1 = k2) as -> by (by apply str_leb_antisym).
  rewrite <- Hp in H2. f_equal.
  apply list_elem_of_lookup in H1 as [i Hi]. apply list_elem_of_lookup in H2 as [j Hj].
  assert (i = j) as ->.
  { eapply (NoDup_lookup l.*1); [done|..]; rewrite list_lookup_fmap; [by rewrite Hi|by rewrite Hj]. }
  congruence.
Qed.

Lemma NoDup_order_by {A} (l : list (string * A)) : NoDup l.*1 → NoDup (order_by by_key l).*1.
Proof. intros H. by rewrite order_by_perm. Qed.

Lemma order_by_key_perm {A} (l l' : list (string * A)) :
  NoDup l.*1 → l ≡ₚ l' → order_by by_key l = order_by by_key l'.
Proof.
  intros Hn Hp. apply sorted_fields_unique; [by apply NoDup_order_by|apply (order_by_sorted _)..|].
  by rewrite !order_by_perm.
Qed.

Lemma order_by_on_value {A B} (h : A → B) l :
  NoDup l.*1 → order_by by_key (on_value h <$> l) = on_value h <$> order_by by_key l.
Proof.
  intros Hn. apply sorted_fields_unique.
  - apply NoDup_order_by. by rewrite keys_on_value.
  - apply (order_by_sorted _).
  - pose proof (order_by_sorted by_key l) as Hs. induction Hs as [|[k x] s Hs IH HF]; cbn; constructor; [done|].
    apply Forall_fmap. eapply Forall_impl; [exact HF|]. by intros [k' x'].
  - by rewrite !order_by_perm.
Qed.

(** ** What the writer writes *)

Lemma traverse_items_map {A B} (m : nat → string) (f : A → result B) i l bs :
  traverse_items (λ i r, wrap_err (m i) r) i (f <$> l) = Ok bs → Forall2 (λ a b, f a = Ok b) l bs.
Proof.
  revert i bs. induction l as [|a l IH]; intros i bs H; simpl in H; result_inv; constructor; eauto.
Qed.
Lemma traverse_fields_map {A B} (m : string → string) (f : A → result B) l bs :
  traverse_fields (λ k r, wrap_err (m k) r) (on_value f <$> l) = Ok bs →
  Forall2 (λ a b, a.1 = b.1 ∧ f a.2 = Ok b.2) l bs.
Proof.
  revert bs. induction l as [|[k a] l IH]; intros bs H; simpl in H; result_inv; constructor; eauto.
Qed.

Lemma json_wf_items items : json_wf (JArray items) = true ↔ Forall (λ v, json_wf v = true) items.
Proof. cbn [json_wf]. rewrite forallb_forall, Forall_forall. by setoid_rewrite list_elem_of_In. Qed.
Lemma json_wf_fields fields :
  json_wf (JObject fields) = true ↔
  NoDup fields.*1 ∧ Forall (λ f, valid_utf8 f.1 = true ∧ json_wf f.2 = true) fields.
Proof.
  cbn [json_wf]. rewrite andb_true_iff, bool_decide_eq_true, forallb_forall, Forall_forall.
  setoid_rewrite <- list_elem_of_In. f_equiv. split; intros H.
  - intros [k x] Hin. by apply andb_true_iff, (H (k, x)).
  - intros [k x] Hin. by apply andb_true_iff, (H (k, x)).
Qed.
Lemma integers_items items : integers_only (JArray items) = true ↔ Forall (λ v, integers_only v = true) items.
Proof. cbn [integers_only]. rewrite forallb_forall, Forall_forall. by setoid_rewrite list_elem_of_In. Qed.
Lemma integers_fields fields :
  integers_only (JObject fields) = true ↔ Forall (λ f, integers_only f.2 = true) fields.
Proof.
  cbn [integers_only]. rewrite forallb_forall, Forall_forall. setoid_rewrite <- list_elem_of_In.
  split; intros H [k x] Hin; by apply (H (k, x)).
Qed.

Lemma print_object fields : print (JObject fields) = "{" +:+ str_join "," (member <$> fields) +:+ "}".
Proof. reflexivity. Qed.
Lemma jsort_object fields : jsort (JObject fields) = JObject (order_by by_key (on_value jsort <$> fields)).
Proof. reflexivity. Qed.
Lemma denote_map fields : denote (GMap fields) = JObject (on_value denote <$> fields).
Proof. reflexivity. Qed.

(** What is written is the value with its fields sorted, printed. *)
Lemma write_print g : ∀ text,
  json_wf (denote g) = true → writeCanonicalJSON g = Ok text →
  text = print (jsort (denote g)) ∧ integers_only (denote g) = true.
Proof.
  induction g as [items IH|fields IH|g H1 H2] using GoValue_ind'; intros text Hw H.
  - cbn [writeCanonicalJSON] in H. unfold writeCanonicalList in H. cbn [denote] in *.
    apply json_wf_items, Forall_fmap in Hw. rewrite integers_items, Forall_fmap.
    apply bind_Ok in H as (texts & Ht%traverse_items_map & H). injection H as <-.
    assert (texts = print <$> (jsort <$> (denote <$> items)) ∧
            Forall (λ g, integers_only (denote g) = true) items) as [-> Hi]; [|done].
    induction Ht as [|g t items texts Hg Ht IHt]; [done|].
    apply Forall_cons in IH as [Hg' IH]. apply Forall_cons in Hw as [Hw1 Hw].
    destruct (Hg' t Hw1 Hg) as [-> Hi1]. destruct (IHt IH Hw) as [-> Hi].
    split; [done|by constructor].
  - change (writeCanonicalObject (on_value writeCanonicalJSON <$> fields) = Ok text) in H.
    unfold writeCanonicalObject in H. rewrite denote_map in *.
    apply json_wf_fields in Hw as [Hn Hw]. rewrite keys_on_value in Hn. rewrite Forall_fmap in Hw.
    rewrite integers_fields, Forall_fmap, jsort_object, print_object.
    rewrite !order_by_on_value by (by rewrite ?keys_on_value).
    rewrite order_by_on_value in H by done.
    apply bind_Ok in H as (members & Hm%traverse_fields_map & H). injection H as <-.
    rewrite <- (order_by_perm by_key fields) in IH, Hw.
    assert (((λ '(key, text), marshal_string key +:+ ":" +:+ text) <$> members)
            = member <$> (on_value jsort <$> (on_value denote <$> order_by by_key fields)) ∧
            Forall ((λ f, integers_only f.2 = true) ∘ on_value denote) (order_by by_key fields)) as [-> Hi].
    { induction Hm as [|[k g] [k' t] fs ms [Hk Hg] Hm IHm]; [done|]. simpl in Hk, Hg. subst k'.
      apply Forall_cons in IH as [Hg' IH]. apply Forall_cons in Hw as [[_ Hw1] Hw].
      destruct (Hg' t Hw1 Hg) as [-> Hi1]. destruct (IHm IH Hw) as [Hms Hi].
      rewrite !fmap_cons, Hms. split; [done|]. by constructor. }
    split; [done|]. by rewrite order_by_perm in Hi.
  - destruct g as [|[]|s|t|z| |items|fields| |]; simpl in H; result_inv;
      try (by destruct (H1 _ eq_refl)); try (by destruct (H2 _ eq_refl)); try done.
    + split; [done|]. simpl. by apply negb_false_iff.
    + split; [done|]. apply pretty_Z_canonical.
Qed.

Lemma jsort_wf v : json_wf v = true → json_wf (jsort v) = true.
Proof.
  induction v as [items IH|fields IH|v H1 H2] using JSON_ind'; intros Hw.
  - cbn [jsort]. rewrite json_wf_items in *. apply Forall_fmap. rewrite Forall_forall in *. intros x Hx. by apply IH, Hw.
  - rewrite jsort_object. rewrite json_wf_fields in *. destruct Hw as [Hn Hw].
    rewrite order_by_perm, keys_on_value. split; [done|]. apply Forall_fmap.
    rewrite Forall_forall in *. intros [k x] Hx. destruct (Hw _ Hx) as [Hk Hx']. split; [done|].
    by apply (IH (k, x)).
  - destruct v; done || (by destruct (H1 _ eq_refl)) || (by destruct (H2 _ eq_refl)).
Qed.

Lemma jsort_integers v : integers_only v = true → integers_only (jsort v) = true.
Proof.
  induction v as [items IH|fields IH|v H1 H2] using JSON_ind'; intros Hw.
  - cbn [jsort]. rewrite integers_items in *. apply Forall_fmap. rewrite Forall_forall in *.
    intros x Hx. by apply IH, Hw.
  - rewrite jsort_object. rewrite integers_fields in *. rewrite order_by_perm. apply Forall_fmap.
    rewrite Forall_forall in *. intros [k x] Hx. by apply (IH (k, x)), (Hw (k, x)).
  - destruct v; done || (by destruct (H1 _ eq_refl)) || (by destruct (H2 _ eq_refl)).
Qed.

Lemma depth_array_le items n :
  (json_depth (JArray items) ≤ 1 + n)%N ↔ Forall (λ v, (json_depth v ≤ n)%N) items.
Proof.
  cbn [json_depth]. induction items as [|x l IH]; cbn [foldr]; [split; [constructor|lia]|].
  rewrite Forall_cons, <- IH. lia.
Qed.
Lemma depth_object_le fields n :
  (json_depth (JObject fields) ≤ 1 + n)%N ↔ Forall (λ f, (json_depth f.2 ≤ n)%N) fields.
Proof.
  cbn [json_depth]. induction fields as [|[k x] l IH]; cbn [foldr]; [split; [constructor|lia]|].
  rewrite Forall_cons, <- IH. cbn [snd]. lia.
Qed.
Lemma jsort_depth v n : (json_depth v ≤ n)%N → (json_depth (jsort v) ≤ n)%N.
Proof.
  revert n. induction v as [items IH|fields IH|v H1 H2] using JSON_ind'; intros n Hn.
  - assert (∃ m, n = (1 + m)%N) as [m ->] by (exists (n - 1)%N; cbn [json_depth] in Hn; lia).
    cbn [jsort]. rewrite depth_array_le in *. apply Forall_fmap. rewrite Forall_forall in *.
    intros x Hx. by apply IH, Hn.
  - assert (∃ m, n = (1 + m)%N) as [m ->] by (exists (n - 1)%N; cbn [json_depth] in Hn; lia).
    rewrite jsort_object. rewrite depth_object_le in *. rewrite order_by_perm. apply Forall_fmap.
    rewrite Forall_forall in *. intros [k x] Hx. by apply (IH (k, x)), (Hn (k, x)).
  - destruct v; done || (by destruct (H1 _ eq_refl)) || (by destruct (H2 _ eq_refl)).
Qed.

(** ** Equality of values *)

Lemma jsort_json_eq v w : jsort v = jsort w → json_eq v w.
Proof.
  revert w. induction v as [items IH|fields IH|v H1 H2] using JSON_ind'; intros w H.
  - destruct w as [| | | |items'|]; try discriminate H. injection H as H. apply json_eq_array.
    revert items' H. induction IH as [|v l Hv _ IHl]; intros [|w l'] H; try done.
    cbn in H. injection H as H1 H2. constructor; auto.
  - destruct w as [| | | | |fields']; try discriminate H. rewrite !jsort_object in H. injection H as H.
    assert (on_value jsort <$> fields ≡ₚ on_value jsort <$> fields') as Hp.
    { by rewrite <- (order_by_perm by_key), H, order_by_perm. }
    apply Permutation_map_inv in Hp as (gs & Hgs & Hp). apply json_eq_object with gs; [|by symmetry].
    clear H Hp. revert gs Hgs. induction IH as [|[k v] l Hv _ IHl]; intros [|[k' w] l'] H; try done.
    cbn in H. injection H as H0 H1 H2. constructor; [|by apply IHl]. split; [done|]. by apply Hv.
  - destruct v; destruct w; simpl in H; try discriminate H; try (by destruct (H1 _ eq_refl));
      try (by destruct (H2 _ eq_refl)); simplify_eq; apply json_eq_refl.
Qed.

Lemma json_eq_jsort v : ∀ w, json_wf v = true → json_wf w = true → json_eq v w → jsort v = jsort w.
Proof.
  induction v as [items IH|fields IH|v H1 H2] using JSON_ind'; intros w Hv Hw H.
  - inversion H as [|l l' Hl| ]; subst; [done|]. cbn [jsort]. f_equal.
    apply json_wf_items in Hv, Hw. clear H.
    induction Hl as [|x y l l' Hxy Hl IHl]; [done|]. rewrite !Forall_cons in *.
    destruct IH as [IHx IH], Hv as [Hx Hv], Hw as [Hy Hw].
    rewrite !fmap_cons. f_equal; [by apply IHx|by apply IHl].
  - inversion H as [| |fs gs fs' Hf Hp]; subst; [done|]. rewrite !jsort_object. f_equal.
    apply json_wf_fields in Hv as [Hn Hv], Hw as [Hn' Hw]. rewrite <- Hp in Hw.
    assert (on_value jsort <$> fields = on_value jsort <$> gs) as ->.
    { clear H Hp Hn Hn'. induction Hf as [|[k x] [k' y] l l' [Hk Hxy] Hl IHl]; [done|].
      rewrite !Forall_cons in *. destruct IH as [IHx IH], Hv as [[_ Hx] Hv], Hw as [[_ Hy] Hw].
      cbn [fst snd] in *. subst k'. rewrite !fmap_cons. unfold on_value at 1 3.
      rewrite (IHx y Hx Hy Hxy). f_equal. by apply IHl. }
    apply order_by_key_perm.
    + rewrite keys_on_value. by rewrite Hp.
    + by rewrite Hp.
  - inversion H; subst; [done|by destruct (H1 _ eq_refl)|by destruct (H2 _ eq_refl)].
Qed.

(** ** The canonical text is the value *)

Lemma canonical_text g text :
  json_wf (denote g) = true → (json_depth (denote g) ≤ maxNestingDepth)%N →
  CanonicalJSON g = Ok text → decode_document text = Document (jsort (denote g)).
Proof.
  intros Hw Hd H. destruct (write_print g text Hw H) as [-> Hi].
  apply decode_print; [by apply jsort_wf|by apply jsort_integers|by apply jsort_depth].
Qed.

(** ** What can be written *)

(** Texts, integers, booleans and nothing, in lists and in maps with text keys. *)
Fixpoint encodable (g : GoValue) : bool :=
  match g with
  | GNil | GBool _ | GString _ | GInt _ => true
  | GNumber text => isCanonicalIntegerText text
  | GList items => forallb encodable items
  | GMap fields => forallb (λ '(_, x), encodable x) fields
  | GFloat | GOtherMap | GOther _ => false
  end.
Lemma wrap_err_is_Ok {A} what (r : result A) : is_Ok (wrap_err what r) = is_Ok r.
Proof. by destruct r. Qed.
Lemma traverse_items_is_Ok {A B} (f : nat → A → result B) i l :
  is_Ok (traverse_items f i l) = true ↔ ∀ k a, l !! k = Some a → is_Ok (f (i + k) a) = true.
Proof.
  revert i. induction l as [|a l IH]; intros i; cbn [traverse_items]; [by split|]. split.
  - intros H [|k] x Hx; cbn in Hx.
    + injection Hx as <-. rewrite Nat.add_0_r. by destruct (f i a).
    + destruct (f i a); [|done]. cbn [mbind result_bind] in H. rewrite <- Nat.add_succ_comm. eapply (proj1 (IH (S i))); [|done].
      by destruct (traverse_items f (S i) l).
  - intros H. pose proof (H 0 a eq_refl) as Ha. rewrite Nat.add_0_r in Ha. destruct (f i a); [|done]. cbn [mbind result_bind].
    assert (is_Ok (traverse_items f (S i) l) = true) as Hl.
    { apply IH. intros k x Hx. rewrite Nat.add_succ_comm. by apply H. }
    by destruct (traverse_items f (S i) l).
Qed.
Lemma traverse_fields_is_Ok {A B} (f : string → A → result B) l :
  is_Ok (traverse_fields f l) = true ↔ Forall (λ kv, is_Ok (f kv.1 kv.2) = true) l.
Proof.
  induction l as [|[k a] l IH]; cbn [traverse_fields]; [by split|]. rewrite Forall_cons, <- IH. cbn.
  destruct (f k a); cbn [mbind result_bind is_Ok]; [|by split; [|intros [? _]]].
  destruct (traverse_fields f l); cbn [mbind result_bind is_Ok]; naive_solver.
Qed.
Lemma bind_Ok_is_Ok {A B} (r : result A) (f : A → B) : is_Ok (a ← r; Ok (f a)) = is_Ok r.
Proof. by destruct r. Qed.
Lemma write_total g : is_Ok (CanonicalJSON g) = encodable g.
Proof.
  unfold CanonicalJSON. apply eq_true_iff_eq. induction g as [items IH|fields IH|g H1 H2] using GoValue_ind'.
  - cbn [writeCanonicalJSON encodable]. unfold writeCanonicalList. rewrite bind_Ok_is_Ok, traverse_items_is_Ok, forallb_forall. setoid_rewrite wrap_err_is_Ok.
    setoid_rewrite list_lookup_fmap. rewrite Forall_lookup in IH. split.
    + intros H x (k & Hk)%list_elem_of_In%list_elem_of_lookup. apply (IH k x Hk), (H k). by rewrite Hk.
    + intros H k a Hk. destruct (items !! k) as [g|] eqn:E; [|done]. injection Hk as <-. apply (IH k g E), H.
      by eapply list_elem_of_In, list_elem_of_lookup_2.
  - cbn [encodable]. change (writeCanonicalJSON (GMap fields)) with (writeCanonicalObject (on_value writeCanonicalJSON <$> fields)).
    unfold writeCanonicalObject. rewrite bind_Ok_is_Ok, traverse_fields_is_Ok. setoid_rewrite wrap_err_is_Ok.
    rewrite order_by_perm, Forall_fmap, forallb_forall, !Forall_forall in *. split.
    + intros H [k x] Hx%list_elem_of_In. apply (IH _ Hx), (H _ Hx).
    + intros H [k x] Hx. apply (IH _ Hx). by apply (H (k, x)), list_elem_of_In.
  - destruct g as [|[]|s|t|z| |items|fields| |]; try done; try (by destruct (H1 _ eq_refl)); try (by destruct (H2 _ eq_refl)).
    cbn. by destruct (isCanonicalIntegerText t).
Qed.

(** C23: Consider values with UTF-8 text, unique keys and nesting a decoder accepts.  Such a
    value has a canonical text exactly when it is made of texts, integers, booleans and nothing,
    in lists and in maps with text keys; the text decodes to the value with its keys sorted; and
    two such values that have texts have the same text exactly when they are equal up to the order of the fields of
    their objects: a fingerprint covers all of a value and nothing but the value.  (Integers are
    compared by their decimal text.) *)
Theorem CanonicalJSON_exact g1 g2 :
  json_wf (denote g1) = true → (json_depth (denote g1) ≤ maxNestingDepth)%N →
  json_wf (denote g2) = true → (json_depth (denote g2) ≤ maxNestingDepth)%N →
  is_Ok (CanonicalJSON g1) = encodable g1 ∧
  ∀ t1, CanonicalJSON g1 = Ok t1 →
    decode_document t1 = Document (jsort (denote g1)) ∧
    ∀ t2, CanonicalJSON g2 = Ok t2 → t1 = t2 ↔ json_eq (denote g1) (denote g2).
Proof.
  intros Hw1 Hd1 Hw2 Hd2. split; [apply write_total|]. intros t1 H1. split; [by apply canonical_text|]. intros t2 H2. split.
  - intros <-. pose proof (canonical_text _ _ Hw1 Hd1 H1) as E1.
    pose proof (canonical_text _ _ Hw2 Hd2 H2) as E2. apply jsort_json_eq. congruence.
  - intros He. destruct (write_print _ _ Hw1 H1) as [-> _], (write_print _ _ Hw2 H2) as [-> _].
    by rewrite (json_eq_jsort _ _ Hw1 Hw2 He).
Qed.
Lemma CanonicalJSON_exact_witness :
  let g1 := GMap [("b", GList [GInt (-7); GNil]); ("a<", GString "x")] in
  let g2 := GMap [("a<", GString "x"); ("b", GList [GNumber "-7"; GNil])] in
  ∃ t1 t2, CanonicalJSON g1 = Ok t1 ∧ CanonicalJSON g2 = Ok t2 ∧ t1 = t2 ∧
    json_eq (denote g1) (denote g2).
Proof.
  intros g1 g2. destruct (is_Ok_exists (CanonicalJSON g1)) as [t1 H1]; [vm_compute; reflexivity|].
  destruct (is_Ok_exists (CanonicalJSON g2)) as [t2 H2]; [vm_compute; reflexivity|].
  exists t1, t2. split; [exact H1|]. split; [exact H2|].
  assert (t1 = t2) as E.
  { assert (CanonicalJSON g1 = CanonicalJSON g2) as E by (vm_compute; reflexivity).
    rewrite H1, H2 in E. by injection E. }
  split; [exact E|].
  destruct (CanonicalJSON_exact g1 g2) as [_ H]; try (vm_compute; reflexivity); try (vm_compute; discriminate).
  exact (proj1 (proj2 (H t1 H1) t2 H2) E).
Defined.
