(* ===== verification/GoJsonStruct.v ===== *)
(** * Go structs and JSON documents ([encoding/json])

    How the decoder fills a struct from an object, and how the encoder writes one.
    A struct type is described by its fields: the name of each and what a value
    found under this name does to the struct.  A key selects the field of that name,
    else the first field whose name is the same up to letter case; a [null] leaves
    the field as it is; a value of another kind is an error.  Error texts of the
    decoder are not reproduced.

    The object is a decoded [JSON] tree, so a key that a document repeats in one
    object is read with its last value (the decoder would merge a repeated
    composite into the value read before); the encoder never repeats a key. *)

From S2P Require Import Prelude GoJson GoStrings GoJsonLaws.
From S2P Require Import GoSha256 Fingerprint.
Local Open Scope nat_scope.

(** ** Field names *)

Definition lower (c : ascii) : ascii :=
  if in_range 65 90 c then byte (byte_N c + 32)%N else c.

(** [foldName]: letters without case; the long s and the Kelvin sign are the only
    other runes with an ASCII letter among their case variants. *)
Fixpoint foldName (s : string) : string :=
  match s with
  | String c1 (String c2 s2 as s1) =>
      if bool_decide (byte_N c1 = 197%N ∧ byte_N c2 = 191%N) then String "s" (foldName s2)
      else match s2 with
           | String c3 s3 =>
               if bool_decide (byte_N c1 = 226%N ∧ byte_N c2 = 132%N ∧ byte_N c3 = 170%N)
               then String "k" (foldName s3)
               else String (lower c1) (foldName s1)
           | EmptyString => String (lower c1) (foldName s1)
           end
  | String c s' => String (lower c) (foldName s')
  | EmptyString => ""
  end.

(** ** Decoding *)

Definition json_mismatch : GoError := Errorf "json: cannot unmarshal value into Go value".
Definition json_unknown (key : string) : GoError := Errorf ("json: unknown field " +:+ key).
Definition json_syntax : GoError := Errorf "invalid JSON text".

Section decoding.
Context {R : Type}.
Definition Setter : Type := JSON → R → result R.
Definition Struct : Type := list (string * Setter).

Definition find_field (fields : Struct) (key : string) : option Setter :=
  match List.find (λ f, String.eqb f.1 key) fields with
  | Some f => Some f.2
  | None => snd <$> List.find (λ f, String.eqb (foldName f.1) (foldName key)) fields
  end.

(** One key of the object; [strict] is [DisallowUnknownFields]. *)
Definition decode_field (strict : bool) (fields : Struct) (r : R) (kv : string * JSON) : result R :=
  match find_field fields kv.1 with
  | Some set => set kv.2 r
  | None => if strict then Err (json_unknown kv.1) else Ok r
  end.
Definition decode_fields (strict : bool) (fields : Struct) (kvs : list (string * JSON)) (r : R) :
    result R :=
  foldM (decode_field strict fields) r kvs.
Definition decode_struct (strict : bool) (fields : Struct) (zero : R) (v : JSON) : result R :=
  match v with
  | JNull => Ok zero
  | JObject kvs => decode_fields strict fields kvs zero
  | _ => Err json_mismatch
  end.

Definition into_string (set : string → R → R) : Setter := λ v r,
  match v with JNull => Ok r | JString s => Ok (set s r) | _ => Err json_mismatch end.
Definition into_bool (set : bool → R → R) : Setter := λ v r,
  match v with JNull => Ok r | JBool b => Ok (set b r) | _ => Err json_mismatch end.
Definition into_int (set : Z → R → R) : Setter := λ v r,
  match v with
  | JNull => Ok r
  | JNumber text => match Atoi text with Some z => Ok (set z r) | None => Err json_mismatch end
  | _ => Err json_mismatch
  end.
(** A slice; a [null] makes it nil. *)
Definition into_list {A} (item : JSON → result A) (set : list A → R → R) : Setter := λ v r,
  match v with
  | JNull => Ok (set [] r)
  | JArray vs => l ← traverse_items (λ _ x, item x) 0 vs; Ok (set l r)
  | _ => Err json_mismatch
  end.
(** A pointer; a [null] makes it nil. *)
Definition into_pointer {A} (item : JSON → result A) (set : option A → R → R) : Setter := λ v r,
  match v with
  | JNull => Ok (set None r)
  | _ => a ← item v; Ok (set (Some a) r)
  end.
End decoding.
Arguments Setter R : clear implicits.
Arguments Struct R : clear implicits.

(** A struct held by value, decoded in place. *)
Definition into_struct {A R} (strict : bool) (fields : Struct A) (get : R → A) (set : A → R → R) :
    Setter R := λ v r,
  a ← decode_struct strict fields (get r) v; Ok (set a r).

(** [decoder.Decode(&x)] with the end of the input after it. *)
Definition json_document (text : string) : result JSON :=
  match decode_document text with Document v => Ok v | _ => Err json_syntax end.

(** ** Encoding *)

Definition field (name : string) (v : JSON) : list (string * JSON) := [(name, v)].
(** [omitempty] *)
Definition omit (empty : bool) (name : string) (v : JSON) : list (string * JSON) :=
  if empty then [] else [(name, v)].
Definition JInt (z : Z) : JSON := JNumber (pretty z).
Definition omit_string (name s : string) := omit (is_empty s) name (JString s).
Definition omit_int (name : string) (z : Z) := omit (z =? 0)%Z name (JInt z).
Definition omit_bool (name : string) (b : bool) := omit (negb b) name (JBool b).

(** ** Reading back what was written *)

Lemma traverse_items_roundtrip {A} (f : JSON → result A) (enc : A → JSON) (l : list A) n :
  Forall (λ a, f (enc a) = Ok a) l → traverse_items (λ _ x, f x) n (enc <$> l) = Ok l.
Proof.
  intros H. revert n. induction H as [|a l Ha _ IH]; intros n; [done|].
  cbn [fmap list_fmap traverse_items]. by rewrite Ha, IH.
Qed.

Section read_back.
Context {R : Type} (strict : bool) (fields : Struct R).

Lemma decode_fields_app l1 l2 r :
  decode_fields strict fields (l1 ++ l2) r
  = decode_fields strict fields l1 r ≫= decode_fields strict fields l2.
Proof.
  unfold decode_fields. revert r. induction l1 as [|kv l1 IH]; intros r; [done|]. cbn [app foldM].
  destruct (decode_field strict fields r kv); cbn [mbind result_bind]; [apply IH|done].
Qed.

Lemma decode_field_found name set v r :
  find_field fields name = Some set → decode_fields strict fields (field name v) r = set v r.
Proof.
  intros H. unfold decode_fields, field, decode_field. cbn [foldM fst snd]. rewrite H.
  by destruct (set v r).
Qed.

(** An omitted field was at its zero value, which the zero struct has already. *)
Lemma decode_omit_found empty name set v r r' :
  find_field fields name = Some set →
  (empty = true → r' = r) → (empty = false → set v r = Ok r') →
  decode_fields strict fields (omit empty name v) r = Ok r'.
Proof.
  intros Hf He Hs. unfold omit. destruct empty; [by rewrite He|].
  change [(name, v)] with (field name v). rewrite (decode_field_found _ set) by done. by apply Hs.
Qed.
End read_back.
