(* ===== verification/Variables.v ===== *)
(** * Variables: names, scopes, expressions and values ([internal/variable])

    A variable has a name in a namespace, a declared type, an expression and a
    sensitivity flag, or refers to a protected value.  Scopes are maps from keys;
    a [Set] merges scopes in precedence order and also keeps them by namespace.
    The [any] in Go's [TypedExpression.Expression] is the inductive [expr]; a Go
    map of expressions or values is an association list in the order Go happens
    to iterate it, so a theorem about all lists covers every iteration order. *)

From S2P Require Import Prelude GoTime GoStrings.
Local Open Scope Z_scope.

(** ** Namespaces and names ([namespace.go], [name.go], [reference.go]) *)

Definition Namespace : Type := string.
Definition NamespaceControllerEnvironment : Namespace := "controller_env".
Definition Precedence : list Namespace :=
  [ "global_config"; "client_env"; NamespaceControllerEnvironment; "worker_env"; "client_config";
    "controller_config"; "worker_config"; "project_config"; "workflow"; "override"; "step";
    "fanout"; "asset"; "work_item"; "data"; "runtime" ].
(** Names kept for compatibility: global, backend and project. *)
Definition deprecated_namespaces : list Namespace := ["global"; "backend"; "project"].
Definition Namespace_Valid (n : Namespace) : bool :=
  bool_decide (n ∈ Precedence ++ deprecated_namespaces).

Record Name := mkName { n_Namespace : Namespace; n_Key : string }.
#[export] Instance Name_eq_dec : EqDecision Name.
Proof. solve_decision. Defined.

Definition Name_Validate (n : Name) : result unit :=
  fail_if (negb (Namespace_Valid (n_Namespace n)))
    (Errorf ("unsupported namespace: " +:+ n_Namespace n));;
  fail_if (is_empty (n_Key n)) (Errorf "variable key is required").
Definition Name_String (n : Name) : string := n_Namespace n +:+ "." +:+ n_Key n.

Record Reference := mkRef { r_Name : Name; r_Qualified : bool }.
#[export] Instance Reference_eq_dec : EqDecision Reference.
Proof. solve_decision. Defined.

Definition ParseReference (text : string) : result Reference :=
  fail_if (is_empty text) (Errorf "variable reference is required");;
  match split_byte "."%char text with
  | [key] =>
      fail_if (is_empty key) (Errorf "variable reference key is required");;
      Ok (mkRef (mkName "" key) false)
  | [ns; key] =>
      Name_Validate (mkName ns key);;
      Ok (mkRef (mkName ns key) true)
  | _ => Err (Errorf ("variable reference must be key or namespace.key: " +:+ text))
  end.
Definition Reference_String (r : Reference) : string :=
  if r_Qualified r then Name_String (r_Name r) else n_Key (r_Name r).

(** ** Types ([type.go]) *)

Definition VType : Type := string.
Definition TypeString : VType := "string".
Definition TypeInt : VType := "int".
Definition TypeBool : VType := "bool".
Definition TypeDatetime : VType := "datetime".
Definition TypePath : VType := "path".
Definition TypeList : VType := "list".
Definition TypeObject : VType := "object".
Definition TypeAuto : VType := "".
Definition all_types : list VType :=
  [TypeString; TypeInt; TypeBool; TypeDatetime; TypePath; TypeList; TypeObject].
Definition Type_Valid (t : VType) : bool := bool_decide (t ∈ all_types).
Definition Type_String (t : VType) : string := if is_empty t then "<empty>" else t.

(** [expressionType] and [ParseType]: the type with this name. *)
Definition expressionType (name : string) : result VType :=
  match List.find (λ t, bool_decide (Type_String t = name)) all_types with
  | Some t => Ok t
  | None => Err (Errorf ("unsupported expression type: " +:+ name))
  end.
Definition ParseType (name : string) : result VType := expressionType name.

(** ** Function calls ([function_call.go]), as data *)

Record FunctionName := mkFn { fn_Namespace : string; fn_Name : string }.
#[export] Instance FunctionName_eq_dec : EqDecision FunctionName.
Proof. solve_decision. Defined.
Record FunctionArgumentReference := mkArg {
  fa_Expression : string; fa_Reference : Reference; fa_Accessor : string }.
#[export] Instance FunctionArgumentReference_eq_dec : EqDecision FunctionArgumentReference.
Proof. solve_decision. Defined.
Record FunctionCallExpression := mkCall {
  fc_Name : FunctionName; fc_ResultType : VType; fc_Arguments : list FunctionArgumentReference }.

(** ** Expressions ([expression.go]) *)

(** [ENil] is a nil expression, [EOther] a Go value of a type no code expects. *)
Inductive TypedExpression :=
  | mkTE (ty : VType) (e : expr)
with expr :=
  | EString (s : string)
  | EInt (z : Z)
  | ENumber (s : string)
  | EBool (b : bool)
  | ETime (t : Time)
  | EObject (fields : list (string * TypedExpression))
  | EList (items : list TypedExpression)
  | ECall (call : FunctionCallExpression)
  | ENil
  | EOther.

Definition te_Type (e : TypedExpression) : VType := let 'mkTE ty _ := e in ty.
Definition te_Expression (e : TypedExpression) : expr := let 'mkTE _ x := e in x.

(** The induction principle with hypotheses for the children. *)
Section TypedExpression_induction.
Context (P : TypedExpression → Prop).
Context (Hobject : ∀ ty fields, Forall (λ f, P f.2) fields → P (mkTE ty (EObject fields))).
Context (Hlist : ∀ ty items, Forall P items → P (mkTE ty (EList items))).
Context (Hleaf : ∀ ty x, (∀ fs, x ≠ EObject fs) → (∀ l, x ≠ EList l) → P (mkTE ty x)).

Lemma TypedExpression_ind' : ∀ e, P e.
Proof using Hobject Hlist Hleaf.
  fix IH 1. intros [ty x].
  destruct x as [| | | | |fields|items| | |]; try (apply Hleaf; intros; discriminate).
  - apply Hobject. induction fields as [|[k child] fs IHfs]; constructor; [apply IH|exact IHfs].
  - apply Hlist. induction items as [|child l IHl]; constructor; [apply IH|exact IHl].
Qed.
End TypedExpression_induction.

(** ** Protected references ([protected_ref.go]) *)

Record ProtectedRef := mkProtected {
  p_Provider : string; p_Key : string; p_RedactionLabel : string }.
#[export] Instance ProtectedRef_eq_dec : EqDecision ProtectedRef.
Proof. solve_decision. Defined.

Definition ProtectedRef_Valid (r : ProtectedRef) : bool :=
  bool_decide (p_Provider r ∈ ["worker_env"; "test"]).
Definition ProtectedRef_Validate (r : ProtectedRef) : result unit :=
  fail_if (is_empty (p_Provider r)) (Errorf "protected reference provider is required");;
  fail_if (is_empty (p_Key r)) (Errorf "protected reference key is required");;
  fail_if (negb (ProtectedRef_Valid r))
    (Errorf ("unsupported protected reference provider: " +:+ p_Provider r)).
Definition defaultRedactionLabel (r : ProtectedRef) : string :=
  "${" +:+ p_Provider r +:+ "." +:+ p_Key r +:+ "}".
Definition ProtectedRef_Normalize (r : ProtectedRef) : ProtectedRef :=
  if is_empty (p_RedactionLabel r)
  then mkProtected (p_Provider r) (p_Key r) (defaultRedactionLabel r) else r.
Definition RedactionLabelValue (r : ProtectedRef) : string :=
  if is_empty (p_RedactionLabel r) then defaultRedactionLabel r else p_RedactionLabel r.
Definition ProtectedRef_Provenance (r : ProtectedRef) : string := p_Provider r +:+ "." +:+ p_Key r.

(** ** Variables and resolved values ([variable.go]) *)

Record Var := mkVar {
  v_Name : Name; v_TypedExpression : TypedExpression; v_Sensitive : bool;
  v_ProtectedRef : option ProtectedRef }.

(** The [any] of [ResolvedValue.Value]. *)
Inductive scalar :=
  | VNil
  | VString (s : string)
  | VInt (z : Z)
  | VBool (b : bool)
  | VTime (t : Time).
#[export] Instance scalar_eq_dec : EqDecision scalar.
Proof. solve_decision. Defined.

Inductive ResolvedValue := mkRV {
  rv_Type : VType; rv_Value : scalar;
  rv_Object : list (string * ResolvedValue); rv_List : list ResolvedValue;
  rv_Sensitive : bool; rv_RedactionLabel : string; rv_Provenance : string;
  rv_ProtectedRef : option ProtectedRef }.

Section ResolvedValue_induction.
Context (P : ResolvedValue → Prop).
Context (H : ∀ ty v fields items s l p r,
  Forall (λ f, P f.2) fields → Forall P items → P (mkRV ty v fields items s l p r)).

Lemma ResolvedValue_ind' : ∀ v, P v.
Proof using H.
  fix IH 1. intros [ty v fields items s l p r]. apply H.
  - induction fields as [|[k child] fs IHfs]; constructor; [apply IH|exact IHfs].
  - induction items as [|child ls IHl]; constructor; [apply IH|exact IHl].
Qed.
End ResolvedValue_induction.

(** [ResolvedValue{Type: ty, Value: v}] *)
Definition plain (ty : VType) (v : scalar) : ResolvedValue := mkRV ty v [] [] false "" "" None.

(** The value under a key of a Go map. *)
Fixpoint assoc {A} (k : string) (l : list (string * A)) : option A :=
  match l with
  | [] => None
  | (k', a) :: l' => if decide (k = k') then Some a else assoc k l'
  end.

(** ** Sensitivity ([sensitivity.go]) *)

Definition redactedLabel : string := "[REDACTED]".
Definition redactionLabel (v : ResolvedValue) : string :=
  if negb (is_empty (rv_RedactionLabel v)) then rv_RedactionLabel v else
  match rv_ProtectedRef v with
  | Some r => RedactionLabelValue r
  | None => redactedLabel
  end.
Definition isSensitive (v : ResolvedValue) : bool :=
  rv_Sensitive v || match rv_ProtectedRef v with Some _ => true | None => false end.
Definition resolvedProvenance (v : ResolvedValue) : string :=
  if negb (is_empty (rv_Provenance v)) then rv_Provenance v else
  match rv_ProtectedRef v with
  | Some r => ProtectedRef_Provenance r
  | None => ""
  end.
Definition redactionLabelForProvenance (provenance : string) : string :=
  if is_empty provenance then redactedLabel else "[REDACTED:" +:+ provenance +:+ "]".

Definition mergeSensitivity (value : ResolvedValue) (sensitive : bool) (provenance : string) :
    ResolvedValue :=
  let '(sensitive, provenance) :=
    match rv_ProtectedRef value with
    | Some r => (true, ProtectedRef_Provenance r)
    | None => (sensitive, provenance)
    end in
  if negb sensitive then value else
  let label :=
    if is_empty (rv_RedactionLabel value)
    then match rv_ProtectedRef value with
         | Some r => RedactionLabelValue r
         | None => redactionLabelForProvenance provenance
         end
    else rv_RedactionLabel value in
  let prov := if is_empty (rv_Provenance value) then provenance else rv_Provenance value in
  mkRV (rv_Type value) (rv_Value value) (rv_Object value) (rv_List value) true label prov
    (rv_ProtectedRef value).

(** The first sensitive child decides the label and provenance. *)
Definition aggregateSensitivity (fields : list (string * ResolvedValue)) (values : list ResolvedValue) :
    bool * string * string :=
  match List.find isSensitive (fields.*2 ++ values) with
  | Some child => (true, redactionLabel child, resolvedProvenance child)
  | None => (false, "", "")
  end.

Definition ResolvedObject (fields : list (string * ResolvedValue)) : ResolvedValue :=
  let '(sensitive, label, provenance) := aggregateSensitivity fields [] in
  mkRV TypeObject VNil fields [] sensitive label provenance None.
Definition ResolvedList (values : list ResolvedValue) : ResolvedValue :=
  let '(sensitive, label, provenance) := aggregateSensitivity [] values in
  mkRV TypeList VNil [] values sensitive label provenance None.

Definition protectedReferenceValue (typ : VType) (ref : ProtectedRef) : result ResolvedValue :=
  ProtectedRef_Validate ref;;
  let normalized := ProtectedRef_Normalize ref in
  Ok (mkRV typ VNil [] [] true (p_RedactionLabel normalized) (ProtectedRef_Provenance normalized)
        (Some normalized)).

(** The redacted rendering: what [MarshalJSON] encodes. *)
Inductive resolvedValueJSON := mkJSON {
  js_Type : string; js_Sensitive : bool; js_RedactionLabel : string; js_Provenance : string;
  js_ProtectedRef : option ProtectedRef; js_Value : scalar;
  js_Object : list (string * resolvedValueJSON); js_List : list resolvedValueJSON }.

Fixpoint safeJSON (v : ResolvedValue) : resolvedValueJSON :=
  let sensitive := isSensitive v in
  let label := if sensitive then redactionLabel v else "" in
  let prov := if sensitive then resolvedProvenance v else "" in
  match v with
  | mkRV ty value fields items _ _ _ ref =>
      if decide (ty = TypeObject) then
        mkJSON (Type_String ty) sensitive label prov ref VNil
          ((fix go fs := match fs with
                         | [] => []
                         | (k, child) :: fs' => (k, safeJSON child) :: go fs'
                         end) fields) []
      else if decide (ty = TypeList) then
        mkJSON (Type_String ty) sensitive label prov ref VNil [] (safeJSON <$> items)
      else
        mkJSON (Type_String ty) sensitive label prov ref
          (match ref with
           | Some _ => VNil
           | None => if sensitive then VString (redactionLabel v) else value
           end) [] []
  end.

(** ** Scopes and sets ([scope.go]) *)

Definition Scope : Type := gmap string Var.
Record VSet := mkSet { set_merged : Scope; set_scopes : gmap string Scope }.

Definition Merge (scopes : list Scope) : Scope :=
  foldl (λ merged scope, scope ∪ merged) ∅ scopes.

(** One iteration of the loops of [NewSet]: a variable is filed under its own
    namespace, whatever scope it came from. *)
Definition file_variable (key : string) (variable : Var) (scopes : gmap string Scope) :
    gmap string Scope :=
  let namespace := n_Namespace (v_Name variable) in
  <[namespace := <[key := variable]> (default ∅ (scopes !! namespace))]> scopes.
Definition NewSet (scopes : list Scope) : VSet :=
  mkSet (Merge scopes)
    (foldl (λ acc (scope : Scope), map_fold file_variable acc scope) ∅ scopes).

Definition Lookup (s : VSet) (key : string) : option Var := set_merged s !! key.
Definition LookupName (s : VSet) (name : Name) : option Var :=
  scope ← set_scopes s !! n_Namespace name; (scope : Scope) !! n_Key name.
Definition LookupReference (s : VSet) (reference : Reference) : option Var :=
  if r_Qualified reference then LookupName s (r_Name reference)
  else Lookup s (n_Key (r_Name reference)).
