(* ===== verification/Expression.v ===== *)
(** * The expression language ([expression.go], [accessor.go], [function_call.go],
      [literal.go], [variable.go], and the parsers of [resolver.go])

    A string expression holds tokens [${reference}]; a reference is a name followed
    by an accessor, a chain of [.field] and [[index]] parts.  This file has the
    parsers, the validation of definitions, the application of accessors to values,
    literals and the constructors of variables.  The scanning loops take the length
    of the text as fuel: every round consumes a byte.  Error texts are the code's,
    except that
    a Go type name printed by [%T] is left out and that the texts of [strconv] and
    [time] errors are not reproduced. *)

From S2P Require Import Prelude GoTime GoStrings Variables.
Local Open Scope nat_scope.

(** ** References with accessors ([resolver.go]) *)

Definition splitReferenceAccessor (text : string) : string * string :=
  let unqualified :=
    match index_any ".[" text with
    | None => (text, "")
    | Some index => (str_take index text, str_drop index text)
    end in
  match split_byte "."%char text with
  | namespace :: key :: _ =>
      if Namespace_Valid namespace then
        let key := match index_byte "["%char key with
                   | Some index => str_take index key
                   | None => key
                   end in
        let referenceText := str_join "." [namespace; key] in
        (referenceText, trim_prefix referenceText text)
      else unqualified
  | _ => unqualified
  end.

Definition parseReferenceExpression (text : string) : result (Reference * string) :=
  let '(referenceText, accessor) := splitReferenceAccessor text in
  reference ← ParseReference referenceText;
  Ok (reference, accessor).

(** ** Accessors ([accessor.go]) *)

(** The loop of [parseScalarAccessors]. *)
Fixpoint accessor_parts (fuel : nat) (accessor : string) : result (list string) :=
  match fuel, accessor with
  | S fuel', String c rest =>
      if decide (c = "."%char) then
        match index_any ".[" rest with
        | None => Ok [accessor]
        | Some nextIndex =>
            let end_ := S nextIndex in
            parts ← accessor_parts fuel' (str_drop end_ accessor);
            Ok (str_take end_ accessor :: parts)
        end
      else if decide (c = "["%char) then
        match index_byte "]"%char accessor with
        | None => Err (Errorf "index accessor must use [index]")
        | Some end_ =>
            let part := str_take (S end_) accessor in
            fail_if (bool_decide (part = "[*]"))
              (Errorf ("fan-out accessor is not scalar: " +:+ part));;
            parts ← accessor_parts fuel' (str_drop (S end_) accessor);
            Ok (part :: parts)
        end
      else Err (Errorf "accessor must start with . or [")
  | _, _ => Ok []
  end.
Definition parseScalarAccessors (accessor : string) : result (list string) :=
  fail_if (is_empty accessor) (Errorf "accessor is required");;
  accessor_parts (slen accessor) accessor.

Definition parseFieldAccessor (accessor : string) : result string :=
  fail_if (negb (has_prefix "." accessor)) (Errorf "field accessor must start with .");;
  let field := trim_prefix "." accessor in
  fail_if (is_empty field) (Errorf "field accessor name is required");;
  fail_if (contains_any ".[]" field)
    (Errorf ("field accessor supports one field only: " +:+ accessor));;
  Ok field.

Definition atoi_error (text : string) : GoError := Errorf ("strconv.Atoi: parsing " +:+ text).

Definition parseIndexAccessor (accessor : string) : result Z :=
  fail_if (negb (has_prefix "[" accessor) || negb (has_suffix "]" accessor))
    (Errorf "index accessor must use [index]");;
  let indexText := trim_suffix "]" (trim_prefix "[" accessor) in
  fail_if (is_empty indexText) (Errorf "index accessor value is required");;
  match Atoi indexText with
  | Some index => Ok index
  | None => Err (Wrapf ("parse index accessor " +:+ accessor) (atoi_error indexText))
  end.

Definition ApplyFieldAccessor (value : ResolvedValue) (accessor : string) : result ResolvedValue :=
  field ← parseFieldAccessor accessor;
  fail_if (negb (bool_decide (rv_Type value = TypeObject)))
    (Errorf ("field accessor " +:+ accessor +:+ " requires object, got " +:+
             Type_String (rv_Type value)));;
  match assoc field (rv_Object value) with
  | Some resolved => Ok resolved
  | None => Err (Errorf ("object field not found: " +:+ field))
  end.

Definition ApplyIndexAccessor (value : ResolvedValue) (accessor : string) : result ResolvedValue :=
  index ← parseIndexAccessor accessor;
  fail_if (negb (bool_decide (rv_Type value = TypeList)))
    (Errorf ("index accessor " +:+ accessor +:+ " requires list, got " +:+
             Type_String (rv_Type value)));;
  match (if (index <? 0)%Z then None else rv_List value !! Z.to_nat index) with
  | Some resolved => Ok resolved
  | None => Err (Errorf ("list index out of range: " +:+ pretty index))
  end.

Definition ApplyAccessorPart (value : ResolvedValue) (part : string) : result ResolvedValue :=
  if has_prefix "." part then ApplyFieldAccessor value part
  else if has_prefix "[" part then ApplyIndexAccessor value part
  else Err (Errorf ("unsupported accessor: " +:+ part)).
Definition ApplyAccessor (value : ResolvedValue) (accessor : string) : result ResolvedValue :=
  parts ← parseScalarAccessors accessor;
  foldM ApplyAccessorPart value parts.

Definition ApplyFanOutAccessor (value : ResolvedValue) (accessor : string) :
    result (list ResolvedValue) :=
  fail_if (negb (bool_decide (accessor = "[*]"))) (Errorf "fan-out accessor must be [*]");;
  fail_if (negb (bool_decide (rv_Type value = TypeList)))
    (Errorf ("fan-out accessor requires list, got " +:+ Type_String (rv_Type value)));;
  Ok (rv_List value).

(** ** Interpolation tokens ([expression.go]) *)

Definition validateAccessorPart (u : unit) (part : string) : result unit :=
  wrap_err "parse reference accessor"
    (if has_prefix "." part then parseFieldAccessor part;; Ok tt
     else if has_prefix "[" part then parseIndexAccessor part;; Ok tt
     else Ok tt).
Definition validateReferenceExpression (text : string) : result unit :=
  fail_if (contains "${" text || contains_any "{}" text)
    (Errorf "nested interpolation token is not supported");;
  '(_, accessor) ← wrap_err "parse reference expression" (parseReferenceExpression text);
  if is_empty accessor then Ok tt else
  parts ← wrap_err "parse reference accessor" (parseScalarAccessors accessor);
  foldM validateAccessorPart tt parts.

Record interpolationToken := mkToken { tok_start : nat; tok_end : nat; tok_reference : string }.
#[export] Instance interpolationToken_eq_dec : EqDecision interpolationToken.
Proof. solve_decision. Defined.

(** The loop of [parseInterpolationTokens]: [rest] is the text from [index] on. *)
Fixpoint tokens_from (fuel index : nat) (rest : string) : result (list interpolationToken) :=
  match fuel, rest with
  | S fuel', String _ _ =>
      if has_prefix "\${" rest then tokens_from fuel' (index + 3) (str_drop 3 rest)
      else if negb (has_prefix "${" rest) then tokens_from fuel' (index + 1) (str_drop 1 rest)
      else
        match index_byte "}"%char (str_drop 2 rest) with
        | None => Err (Errorf "unterminated interpolation token")
        | Some closeOffset =>
            let end_ := index + 2 + closeOffset + 1 in
            let referenceText := TrimSpace (str_take closeOffset (str_drop 2 rest)) in
            validateReferenceExpression referenceText;;
            tokens ← tokens_from fuel' end_ (str_drop (closeOffset + 3) rest);
            Ok (mkToken index end_ referenceText :: tokens)
        end
  | _, _ => Ok []
  end.
Definition parseInterpolationTokens (text : string) : result (list interpolationToken) :=
  tokens_from (slen text) 0 text.

(** [text] is one token from its first byte to its last. *)
Definition whole_token (text : string) (tokens : list interpolationToken) : option string :=
  match tokens with
  | [t] => if decide (tok_start t = 0 ∧ tok_end t = slen text) then Some (tok_reference t) else None
  | _ => None
  end.
Definition wholeValueReferenceExpression (expression : string) : option string :=
  match parseInterpolationTokens expression with
  | Ok tokens => whole_token expression tokens
  | Err _ => None
  end.
Definition validateWholeReferenceText (text : string) : result bool :=
  tokens ← parseInterpolationTokens text;
  Ok (bool_decide (is_Some (whole_token text tokens))).

Definition referenceExpression (expression : string) : option string :=
  if has_prefix "\${" expression then None else
  if negb (has_prefix "${" expression) || negb (has_suffix "}" expression) then None else
  Some (TrimSpace (trim_suffix "}" (trim_prefix "${" expression))).

(** [strings.ReplaceAll(expression, `\${`, "${")] *)
Fixpoint unescapeExpression (expression : string) : string :=
  match expression with
  | EmptyString => ""
  | String c rest =>
      match rest with
      | String d (String e rest') =>
          if bool_decide (c = "\"%char ∧ d = "$"%char ∧ e = "{"%char)
          then "${" +:+ unescapeExpression rest' else String c (unescapeExpression rest)
      | _ => String c (unescapeExpression rest)
      end
  end.

(** ** Function calls ([function_call.go]) *)

(** [^[A-Za-z_][A-Za-z0-9_]*$] *)
Definition is_letter_or_underscore (c : ascii) : bool :=
  let n := Ascii.N_of_ascii c in
  bool_decide (65 ≤ n ∧ n ≤ 90)%N || bool_decide (97 ≤ n ∧ n ≤ 122)%N || bool_decide (n = 95)%N.
Definition is_digit (c : ascii) : bool :=
  let n := Ascii.N_of_ascii c in bool_decide (48 ≤ n ∧ n ≤ 57)%N.
Fixpoint all_chars (f : ascii → bool) (s : string) : bool :=
  match s with EmptyString => true | String c s' => f c && all_chars f s' end.
Definition functionIdentifierPattern (s : string) : bool :=
  match s with
  | EmptyString => false
  | String c s' =>
      is_letter_or_underscore c && all_chars (λ c, is_letter_or_underscore c || is_digit c) s'
  end.

Definition NewFunctionName (namespace name : string) : result FunctionName :=
  fail_if (negb (functionIdentifierPattern namespace))
    (Errorf ("function namespace must be an identifier: " +:+ namespace));;
  fail_if (negb (functionIdentifierPattern name))
    (Errorf ("function name must be an identifier: " +:+ name));;
  Ok (mkFn namespace name).
Definition ParseFunctionName (text : string) : result FunctionName :=
  match split_byte "."%char text with
  | [namespace; name] => NewFunctionName namespace name
  | _ => Err (Errorf ("function name must be namespace.name: " +:+ text))
  end.
Definition FunctionName_String (name : FunctionName) : string :=
  if is_empty (fn_Namespace name) || is_empty (fn_Name name) then ""
  else fn_Namespace name +:+ "." +:+ fn_Name name.
Definition FunctionName_Validate (name : FunctionName) : result unit :=
  NewFunctionName (fn_Namespace name) (fn_Name name);; Ok tt.

(** The bytes no function argument may hold: quotes, parentheses, plus, comma, space. *)
Definition argument_forbidden : string := bytes [34; 39; 40; 41; 43; 44; 32]%N.
Definition validateArgumentPart (u : unit) (part : string) : result unit :=
  if has_prefix "." part then
    fail_if (negb (functionIdentifierPattern (trim_prefix "." part)))
      (Errorf ("function argument field accessor must be an identifier: " +:+ trim_prefix "." part))
  else Ok tt.
Definition validateFunctionArgumentReferenceText (text : string) : result unit :=
  fail_if (contains_any argument_forbidden text)
    (Errorf ("function argument must be a reference with optional accessors: " +:+ text));;
  let '(referenceText, accessor) := splitReferenceAccessor text in
  reference ← ParseReference referenceText;
  let key := n_Key (r_Name reference) in
  fail_if (bool_decide (key ∈ ["true"; "false"; "null"]))
    (Errorf ("function argument must not be a literal: " +:+ text));;
  fail_if (negb (functionIdentifierPattern key))
    (Errorf ("function argument reference key must be an identifier: " +:+ key));;
  if is_empty accessor then Ok tt else
  parts ← parseScalarAccessors accessor;
  foldM validateArgumentPart tt parts.

Definition NewFunctionArgumentReference (text : string) : result FunctionArgumentReference :=
  fail_if (is_empty (TrimSpace text)) (Errorf "function argument reference is required");;
  fail_if (negb (bool_decide (TrimSpace text = text)))
    (Errorf "function argument reference must not contain leading or trailing whitespace");;
  validateFunctionArgumentReferenceText text;;
  validateReferenceExpression text;;
  '(reference, accessor) ← parseReferenceExpression text;
  Ok (mkArg text reference accessor).
Definition FunctionArgumentReference_Validate (argument : FunctionArgumentReference) : result unit :=
  parsed ← NewFunctionArgumentReference (fa_Expression argument);
  fail_if (negb (bool_decide (fa_Reference parsed = fa_Reference argument))
           || negb (bool_decide (fa_Accessor parsed = fa_Accessor argument)))
    (Errorf ("function argument reference fields do not match expression " +:+
             fa_Expression argument)).

(** [for index, x := range l { if err := f(x); err != nil { return wrap index err } }] *)
Fixpoint check_each {A} (f : A → result unit) (msg : string) (index : nat) (l : list A) :
    result unit :=
  match l with
  | [] => Ok tt
  | a :: l' => wrap_err (msg +:+ pretty index) (f a);; check_each f msg (S index) l'
  end.
Definition FunctionCallExpression_Validate (call : FunctionCallExpression) : result unit :=
  FunctionName_Validate (fc_Name call);;
  fail_if (negb (Type_Valid (fc_ResultType call)))
    (Errorf ("function result type is unsupported: " +:+ Type_String (fc_ResultType call)));;
  fail_if (bool_decide (fc_Arguments call = []))
    (Errorf "function call requires at least one argument");;
  check_each FunctionArgumentReference_Validate "function argument " 0 (fc_Arguments call).
Definition NewFunctionCallExpression (name : FunctionName) (resultType : VType)
    (arguments : list FunctionArgumentReference) : result FunctionCallExpression :=
  let call := mkCall name resultType arguments in
  FunctionCallExpression_Validate call;; Ok call.

(** ** Validation of definitions ([expression.go], [variable.go]) *)

Definition validateWholeReferenceExpression (expressionType : VType) (expression : expr) :
    result unit :=
  let must := Errorf (Type_String expressionType +:+
                      " expression must be a literal or whole-value reference") in
  match expression with
  | EString text =>
      isReference ← validateWholeReferenceText text;
      fail_if (negb isReference) must
  | _ => Err must
  end.
Definition validateIntExpression (expression : expr) : result unit :=
  match expression with
  | EInt _ => Ok tt
  | ENumber text =>
      match Atoi text with
      | Some _ => Ok tt
      | None => Err (Wrapf "parse int expression" (atoi_error text))
      end
  | _ => validateWholeReferenceExpression TypeInt expression
  end.
Definition time_error (text : string) : GoError := Errorf ("parsing time " +:+ text).

Fixpoint ValidateDefinition (e : TypedExpression) : result unit :=
  let 'mkTE ty x := e in
  fail_if (negb (Type_Valid ty)) (Errorf ("unsupported expression type: " +:+ Type_String ty));;
  match x with
  | ECall call =>
      fail_if (negb (bool_decide (fc_ResultType call = ty)))
        (Errorf ("function result type " +:+ Type_String (fc_ResultType call) +:+
                 " does not match expression type " +:+ Type_String ty));;
      FunctionCallExpression_Validate call
  | _ =>
      isReference ← (match x with
                     | EString text => validateWholeReferenceText text
                     | _ => Ok false
                     end);
      if isReference : bool then Ok tt else
      if bool_decide (ty = TypeString ∨ ty = TypePath) then
        match x with
        | EString text => parseInterpolationTokens text;; Ok tt
        | _ => Err (Errorf (Type_String ty +:+ " expression must be a string"))
        end
      else if bool_decide (ty = TypeInt) then validateIntExpression x
      else if bool_decide (ty = TypeBool) then
        match x with
        | EBool _ => Ok tt
        | _ => validateWholeReferenceExpression ty x
        end
      else if bool_decide (ty = TypeDatetime) then
        match x with
        | EString text =>
            isReference ← validateWholeReferenceText text;
            if isReference : bool then Ok tt else
            match parse_rfc3339 text with
            | Some _ => Ok tt
            | None => Err (Wrapf "parse datetime expression" (time_error text))
            end
        | _ => Err (Errorf "datetime expression must be a string")
        end
      else if bool_decide (ty = TypeObject) then
        match x with
        | EObject fields =>
            traverse_fields (λ name field,
              wrap_err ("validate object field " +:+ name) (ValidateDefinition field)) fields;;
            Ok tt
        | _ => Err (Errorf "object expression must be a typed-expression map")
        end
      else if bool_decide (ty = TypeList) then
        match x with
        | EList items =>
            traverse_items (λ index item,
              wrap_err ("validate list item " +:+ pretty index) (ValidateDefinition item)) 0 items;;
            Ok tt
        | _ => Err (Errorf "list expression must be a typed-expression list")
        end
      else Err (Errorf ("unsupported expression type: " +:+ Type_String ty))
  end.

Definition Variable_Validate (v : Var) : result unit :=
  Name_Validate (v_Name v);;
  match v_ProtectedRef v with
  | Some ref =>
      ProtectedRef_Validate ref;;
      fail_if (match te_Expression (v_TypedExpression v) with ENil => false | _ => true end)
        (Errorf "protected reference variable expression must be omitted");;
      fail_if (negb (Type_Valid (te_Type (v_TypedExpression v))))
        (Errorf ("unsupported expression type: " +:+ Type_String (te_Type (v_TypedExpression v))))
  | None => ValidateDefinition (v_TypedExpression v)
  end.

(** One iteration of [NewScope]. *)
Definition add_to_scope (scope : Scope) (variable : Var) : result Scope :=
  Variable_Validate variable;;
  match scope !! n_Key (v_Name variable) with
  | Some _ => Err (Errorf ("duplicate variable key: " +:+ n_Key (v_Name variable)))
  | None => Ok (<[n_Key (v_Name variable) := variable]> scope)
  end.
Definition NewScope (variables : list Var) : result Scope := foldM add_to_scope ∅ variables.

(** ** Creating variables ([variable.go]) *)

Definition inferVariableType (value : expr) : result (VType * expr) :=
  match value with
  | ETime t => Ok (TypeDatetime, EString (format_rfc3339 (UTC t)))
  | EString _ => Ok (TypeString, value)
  | EBool _ => Ok (TypeBool, value)
  | EInt _ => Ok (TypeInt, value)
  | ENumber _ => Ok (TypeInt, value)
  | EList _ => Ok (TypeList, value)
  | EObject _ => Ok (TypeObject, value)
  | ECall _ | ENil | EOther => Err (Errorf "unable to infer variable type")
  end.
Definition normalizeVariableExpression (expression : expr) (expressionType : VType) : result expr :=
  if negb (bool_decide (expressionType = TypeDatetime)) then Ok expression else
  match expression with
  | EString _ => Ok expression
  | ETime t => Ok (EString (format_rfc3339 (UTC t)))
  | _ => Err (Errorf "datetime expression must be string or time")
  end.
Definition createWithType (namespace : Namespace) (key : string) (value : expr) (valueType : VType)
    (sensitive : bool) : result Var :=
  '(resolvedType, resolvedValue) ←
    (if bool_decide (valueType = TypeAuto) then inferVariableType value else Ok (valueType, value));
  expression ← normalizeVariableExpression resolvedValue resolvedType;
  let variable := mkVar (mkName namespace key) (mkTE resolvedType expression) sensitive None in
  Variable_Validate variable;;
  Ok variable.

(** An optional argument of [Create]: a [Type], a [bool] or something else. *)
Inductive createArg := ArgType (t : VType) | ArgBool (b : bool) | ArgOther.
Definition Create (namespace : Namespace) (key : string) (value : expr)
    (optionalArgs : list createArg) : result Var :=
  match optionalArgs with
  | [] => createWithType namespace key value TypeAuto false
  | [ArgType t] => createWithType namespace key value t false
  | [ArgBool b] => createWithType namespace key value TypeAuto b
  | [ArgOther] => Err (Errorf "invalid optional argument type")
  | [ArgType t; ArgBool b] => createWithType namespace key value t b
  | [ArgType _; _] => Err (Errorf "invalid optional sensitive argument: expected bool")
  | [_; _] => Err (Errorf "invalid optional type argument: expected variable.Type")
  | _ => Err (Errorf ("too many optional arguments: got " +:+ pretty (length optionalArgs) +:+
                      ", want at most 2"))
  end.

(** ** Literals ([literal.go]) *)

(** The scalar cases of [parseLiteralExpression]. *)
Definition parse_scalar_literal (ty : VType) (x : expr) : result ResolvedValue :=
  if bool_decide (ty = TypeString) then
    match x with
    | EString value => Ok (plain TypeString (VString value))
    | _ => Err (Errorf "string expression must be a string")
    end
  else if bool_decide (ty = TypeInt) then
    match x with
    | EInt value => Ok (plain TypeInt (VInt value))
    | ENumber text =>
        match Atoi text with
        | Some value => Ok (plain TypeInt (VInt value))
        | None => Err (Wrapf "parse int expression" (atoi_error text))
        end
    | _ => Err (Errorf "int expression must be an integer")
    end
  else if bool_decide (ty = TypeBool) then
    match x with
    | EBool value => Ok (plain TypeBool (VBool value))
    | _ => Err (Errorf "bool expression must be a boolean")
    end
  else if bool_decide (ty = TypeDatetime) then
    match x with
    | EString text =>
        match parse_rfc3339 text with
        | Some value => Ok (plain TypeDatetime (VTime value))
        | None => Err (Wrapf "parse datetime expression" (time_error text))
        end
    | _ => Err (Errorf "datetime expression must be a string")
    end
  else if bool_decide (ty = TypePath) then
    match x with
    | EString value => Ok (plain TypePath (VString value))
    | _ => Err (Errorf "path expression must be a string")
    end
  else Err (Errorf ("unsupported expression type: " +:+ Type_String ty)).

Fixpoint parseLiteralExpression (e : TypedExpression) : result ResolvedValue :=
  let 'mkTE ty x := e in
  if bool_decide (ty = TypeObject) then
    match x with
    | EObject children =>
        ResolvedObject <$>
          traverse_fields (λ key child,
            wrap_err ("parse object field " +:+ key) (parseLiteralExpression child)) children
    | _ => Err (Errorf "object expression must be a typed-expression map")
    end
  else if bool_decide (ty = TypeList) then
    match x with
    | EList children =>
        ResolvedList <$>
          traverse_items (λ index child,
            wrap_err ("parse list item " +:+ pretty index) (parseLiteralExpression child)) 0 children
    | _ => Err (Errorf "list expression must be a typed-expression list")
    end
  else parse_scalar_literal ty x.
Definition ParseLiteral (variable : Var) : result ResolvedValue :=
  match v_ProtectedRef variable with
  | Some ref => protectedReferenceValue (te_Type (v_TypedExpression variable)) ref
  | None =>
      value ← wrap_err ("parse literal variable " +:+ Name_String (v_Name variable))
                (parseLiteralExpression (v_TypedExpression variable));
      Ok (mergeSensitivity value (v_Sensitive variable) (Name_String (v_Name variable)))
  end.

(** ** From values back to expressions ([variable.go]) *)

Definition scalar_expression (ty : VType) (value : scalar) : result TypedExpression :=
  if bool_decide (ty = TypeString ∨ ty = TypePath ∨ ty = TypeDatetime) then
    match value with
    | VString text => Ok (mkTE ty (EString text))
    | _ => Err (Errorf ("invalid " +:+ Type_String ty +:+ " value"))
    end
  else if bool_decide (ty = TypeBool) then
    match value with
    | VBool boolean => Ok (mkTE ty (EBool boolean))
    | _ => Err (Errorf "invalid bool value")
    end
  else if bool_decide (ty = TypeInt) then
    match value with
    | VInt integer => Ok (mkTE ty (EInt integer))
    | _ => Err (Errorf "invalid int value")
    end
  else Err (Errorf ("unsupported resolved value type: " +:+ Type_String ty)).

Fixpoint TypedExpressionFromResolved (v : ResolvedValue) : result TypedExpression :=
  match v with
  | mkRV ty value object items _ _ _ _ =>
      if bool_decide (ty = TypeObject) then
        (λ fields, mkTE TypeObject (EObject fields)) <$>
          traverse_fields (λ name field,
            wrap_err ("convert object field " +:+ name) (TypedExpressionFromResolved field)) object
      else if bool_decide (ty = TypeList) then
        (λ items, mkTE TypeList (EList items)) <$>
          traverse_items (λ index item,
            wrap_err ("convert list item " +:+ pretty index) (TypedExpressionFromResolved item))
            0 items
      else scalar_expression ty value
  end.

(** ** Fields of resolved objects ([variable.go])

    A nil map and a map without the field read the same. *)

Definition optionalObjectFieldType (fields : list (string * ResolvedValue)) (name : string)
    (valueType : VType) : result (option ResolvedValue) :=
  match assoc name fields with
  | None => Ok None
  | Some value =>
      fail_if (negb (bool_decide (Type_String (rv_Type value) = Type_String valueType)))
        (Errorf (name +:+ " has type " +:+ Type_String (rv_Type value) +:+ ", want " +:+
                 Type_String valueType));;
      Ok (Some value)
  end.
Definition OptionalObjectFieldObject (fields : list (string * ResolvedValue)) (name : string) :
    result (option (list (string * ResolvedValue))) :=
  value ← optionalObjectFieldType fields name TypeObject;
  Ok (option_map rv_Object value).

(** The nonempty text of a value, as the readers of strings require it. *)
Definition required_text (what : string) (value : scalar) : result string :=
  match value with
  | VString text => fail_if (is_empty text) (Errorf (what +:+ " is required"));; Ok text
  | _ => Err (Errorf (what +:+ " is required"))
  end.
Definition OptionalObjectFieldString (fields : list (string * ResolvedValue)) (name : string) :
    result (option string) :=
  match assoc name fields with
  | None => Ok None
  | Some value =>
      fail_if (negb (bool_decide (rv_Type value = TypeString))
               && negb (bool_decide (rv_Type value = TypePath)))
        (Errorf (name +:+ " has type " +:+ Type_String (rv_Type value) +:+ ", want string or path"));;
      text ← required_text name (rv_Value value);
      Ok (Some text)
  end.

(** [stringListValue], also the loop of [OptionalObjectFieldStringList]. *)
Definition stringListValue (referenceText : string) (items : list ResolvedValue) :
    result (list string) :=
  traverse_items (λ index item,
    let what := referenceText +:+ "[" +:+ pretty index +:+ "]" in
    fail_if (negb (bool_decide (rv_Type item = TypeString)))
      (Errorf (what +:+ " has type " +:+ Type_String (rv_Type item) +:+ ", want string"));;
    required_text what (rv_Value item)) 0 items.
Definition OptionalObjectFieldStringList (fields : list (string * ResolvedValue)) (name : string) :
    result (option (list string)) :=
  value ← optionalObjectFieldType fields name TypeList;
  match value with
  | None => Ok None
  | Some value => Some <$> stringListValue name (rv_List value)
  end.
