(* ===== verification/Functions.v ===== *)
(** * The expression functions and their registry ([function_registry.go],
      [function_list_crossproduct.go], [function_list_zip.go],
      [function_list_flatten.go], [function_list_length.go])

    The [ExpressionFunction] interface is a record of a name and an evaluator; a
    registry is the Go map from names to functions, as an association list. *)

From S2P Require Import Prelude GoTime GoStrings Variables Expression.
Local Open Scope nat_scope.

(** ** The list functions *)

Definition arity_error (n want : nat) : GoError :=
  Errorf ("arity = " +:+ pretty n +:+ ", want " +:+ pretty want).
Definition require_list (what : string) (v : ResolvedValue) : result unit :=
  fail_if (negb (bool_decide (rv_Type v = TypeList)))
    (Errorf (what +:+ " has type " +:+ Type_String (rv_Type v) +:+ ", want list")).

(** The pairs a crossproduct lists: the left item varies slowest. *)
Definition cross_pairs (left right : list ResolvedValue) : list ResolvedValue :=
  leftItem ← left; rightItem ← right; [ResolvedList [leftItem; rightItem]].
Definition listCrossproduct (args : list ResolvedValue) : result ResolvedValue :=
  match args with
  | [left_; right_] =>
      require_list "argument 0" left_;;
      require_list "argument 1" right_;;
      Ok (ResolvedList (cross_pairs (rv_List left_) (rv_List right_)))
  | _ => Err (arity_error (length args) 2)
  end.

Definition listZip (args : list ResolvedValue) : result ResolvedValue :=
  match args with
  | [left_; right_] =>
      require_list "argument 0" left_;;
      require_list "argument 1" right_;;
      fail_if (negb (bool_decide (length (rv_List left_) = length (rv_List right_))))
        (Errorf ("list length mismatch: left=" +:+ pretty (length (rv_List left_)) +:+
                 " right=" +:+ pretty (length (rv_List right_))));;
      Ok (ResolvedList (zip_with (λ l r, ResolvedList [l; r]) (rv_List left_) (rv_List right_)))
  | _ => Err (arity_error (length args) 2)
  end.

Definition listFlatten (args : list ResolvedValue) : result ResolvedValue :=
  match args with
  | [items] =>
      require_list "argument 0" items;;
      groups ← traverse_items (λ index item,
                 require_list ("argument 0[" +:+ pretty index +:+ "]") item;;
                 Ok (rv_List item)) 0 (rv_List items);
      Ok (ResolvedList (concat groups))
  | _ => Err (arity_error (length args) 1)
  end.

Definition listLength (args : list ResolvedValue) : result ResolvedValue :=
  match args with
  | [items] =>
      require_list "argument 0" items;;
      Ok (plain TypeInt (VInt (Z.of_nat (length (rv_List items)))))
  | _ => Err (arity_error (length args) 1)
  end.

(** ** The registry *)

Record ExpressionFunction := mkFunction {
  ef_Name : FunctionName; ef_Evaluate : list ResolvedValue → result ResolvedValue }.
Definition FunctionRegistry : Type := list (FunctionName * ExpressionFunction).

Fixpoint FunctionRegistry_Lookup (registry : FunctionRegistry) (name : FunctionName) :
    option ExpressionFunction :=
  match registry with
  | [] => None
  | (n, f) :: rest => if decide (name = n) then Some f else FunctionRegistry_Lookup rest name
  end.

(** One iteration of [NewFunctionRegistry]; [None] is a nil function. *)
Definition register_function (registry : FunctionRegistry) (function : option ExpressionFunction) :
    result FunctionRegistry :=
  match function with
  | None => Err (Errorf "function is required")
  | Some f =>
      FunctionName_Validate (ef_Name f);;
      match FunctionRegistry_Lookup registry (ef_Name f) with
      | Some _ => Err (Errorf ("duplicate function registration: " +:+ FunctionName_String (ef_Name f)))
      | None => Ok (registry ++ [(ef_Name f, f)])
      end
  end.
Definition NewFunctionRegistry (functions : list (option ExpressionFunction)) :
    result FunctionRegistry :=
  foldM register_function [] functions.

Definition default_functions : list ExpressionFunction :=
  [ mkFunction (mkFn "list" "crossproduct") listCrossproduct;
    mkFunction (mkFn "list" "zip") listZip;
    mkFunction (mkFn "list" "flatten") listFlatten;
    mkFunction (mkFn "list" "length") listLength ].
Definition DefaultFunctionRegistry : FunctionRegistry :=
  match NewFunctionRegistry (Some <$> default_functions) with Ok registry => registry | Err _ => [] end.
