(* ===== verification/Resolver.v ===== *)
(** * Resolving variables ([resolver.go])

    A resolver looks a reference up in the merged set (or the controller
    environment), and evaluates the variable's expression: whole-value references,
    interpolated strings, objects, lists, function calls and literals.  The code
    passes a depth that starts at 0, grows by one at every reference and must stay
    below [MaxDepth]; here the recursion is structural on the remaining depth
    [MaxDepth - depth], so the code's own bound is the fuel and nothing is cut off
    that the code would evaluate.  The [resolutionContext] is the path of the
    expression being evaluated and the chain of names being resolved. *)

From S2P Require Import Prelude GoTime GoStrings Variables Expression Functions.
Local Open Scope nat_scope.

(** ** Located errors *)

(** [errors.As(err, &locatedError)]: the outermost located error of the chain. *)
Fixpoint located_path (e : GoError) : option string :=
  match e with
  | Located path _ => Some path
  | Wrapf _ cause => located_path cause
  | Errorf _ | Sentinel _ | SqlConstraint _ => None
  end.
Definition errorPath (e : GoError) (fallback : string) : string := default fallback (located_path e).
(** The deferred function of [resolveExpression]: an error gets a path once. *)
Definition locate {A} (path : string) (c : result A) : result A :=
  match c with
  | Ok a => Ok a
  | Err e => Err (match located_path e with Some _ => e | None => Located path e end)
  end.

Definition appendJSONPointer (path segment : string) : string :=
  let segment := replace_byte "/"%char "~1" (replace_byte "~"%char "~0" segment) in
  if decide (path = "/") then "/" +:+ segment else path +:+ "/" +:+ segment.

(** ** Interpolation *)

Definition interpolationText (value : ResolvedValue) : result string :=
  let ty := rv_Type value in
  if bool_decide (ty = TypeString ∨ ty = TypePath) then
    match rv_Value value with
    | VString text => Ok text
    | _ => Err (Errorf ("invalid " +:+ Type_String ty +:+ " value"))
    end
  else if bool_decide (ty = TypeInt) then
    match rv_Value value with
    | VInt integer => Ok (pretty integer)
    | _ => Err (Errorf "invalid int value")
    end
  else if bool_decide (ty = TypeBool) then
    match rv_Value value with
    | VBool boolean => Ok (if boolean then "true" else "false")
    | _ => Err (Errorf "invalid bool value")
    end
  else if bool_decide (ty = TypeDatetime) then
    match rv_Value value with
    | VTime datetime => Ok (format_rfc3339 datetime)
    | _ => Err (Errorf "invalid datetime value")
    end
  else Err (Errorf ("value has type " +:+ Type_String ty +:+ ", want scalar")).

(** [if accessor != "" { resolved, err = ApplyAccessor(resolved, accessor) }] *)
Definition apply_optional_accessor (value : ResolvedValue) (accessor : string) :
    result ResolvedValue :=
  if is_empty accessor then Ok value else ApplyAccessor value accessor.

Section expressions.
Context (registry : FunctionRegistry).
(** [r.resolveReference(reference, depth+1, context)] for a path of the context. *)
Context (resolveReference : Reference → string → result ResolvedValue).

(** A reference with its accessor, as whole values, tokens and arguments use it. *)
Definition resolve_accessed (reference : Reference) (accessor path : string) :
    result ResolvedValue :=
  resolved ← resolveReference reference path;
  apply_optional_accessor resolved accessor.

(** The variables of the loop of [interpolate]: the text built so far, the
    sensitivity (with the provenance and label of the first sensitive token) and
    the position after the previous token. *)
Record interpolation := mkInterp {
  in_text : string; in_sensitive : bool; in_label : string; in_provenance : string;
  in_previous : nat }.

Definition interpolate_token (expression path : string) (st : interpolation)
    (token : interpolationToken) : result interpolation :=
  let between := unescapeExpression
    (str_take (tok_start token - in_previous st) (str_drop (in_previous st) expression)) in
  '(reference, accessor) ← wrap_err "parse reference expression"
    (parseReferenceExpression (tok_reference token));
  resolved ← resolve_accessed reference accessor path;
  text ← wrap_err ("interpolate " +:+ tok_reference token) (interpolationText resolved);
  let first := rv_Sensitive resolved && negb (in_sensitive st) in
  Ok (mkInterp (in_text st +:+ between +:+ text)
        (in_sensitive st || rv_Sensitive resolved)
        (if first then rv_RedactionLabel resolved else in_label st)
        (if first then rv_Provenance resolved else in_provenance st)
        (tok_end token)).
Definition interpolate (expression path : string) : result interpolation :=
  tokens ← parseInterpolationTokens expression;
  st ← foldM (interpolate_token expression path) (mkInterp "" false "" "" 0) tokens;
  Ok (mkInterp (in_text st +:+ unescapeExpression (str_drop (in_previous st) expression))
        (in_sensitive st) (in_label st) (in_provenance st) (in_previous st)).

Definition set_label (value : ResolvedValue) (label : string) : ResolvedValue :=
  mkRV (rv_Type value) (rv_Value value) (rv_Object value) (rv_List value) (rv_Sensitive value)
    label (rv_Provenance value) (rv_ProtectedRef value).

Definition resolveFunctionCall (call : FunctionCallExpression) (expectedType : VType)
    (path : string) : result ResolvedValue :=
  fail_if (negb (bool_decide (fc_ResultType call = expectedType)))
    (Errorf ("function result type " +:+ Type_String (fc_ResultType call) +:+
             " does not match expression type " +:+ Type_String expectedType));;
  match FunctionRegistry_Lookup registry (fc_Name call) with
  | None => Err (Errorf ("unknown function: " +:+ FunctionName_String (fc_Name call)))
  | Some function =>
      args ← traverse_items (λ index argument,
        resolve_accessed (fa_Reference argument) (fa_Accessor argument)
          (appendJSONPointer (appendJSONPointer path "arguments") (pretty index)))
        0 (fc_Arguments call);
      value ← wrap_err ("evaluate function " +:+ FunctionName_String (fc_Name call))
                (ef_Evaluate function args);
      fail_if (negb (bool_decide (rv_Type value = expectedType)))
        (Errorf ("function " +:+ FunctionName_String (fc_Name call) +:+ " returned type " +:+
                 Type_String (rv_Type value) +:+ ", want " +:+ Type_String expectedType));;
      let '(sensitive, label, provenance) := aggregateSensitivity [] args in
      Ok (if sensitive : bool then
            let merged := mergeSensitivity value true provenance in
            if is_empty label then merged else set_label merged label
          else value)
  end.

(** [${reference}] as the whole expression. *)
Definition resolve_whole (ty : VType) (refText path : string) : result ResolvedValue :=
  '(next, accessor) ← wrap_err "parse reference expression" (parseReferenceExpression refText);
  resolved ← resolve_accessed next accessor path;
  fail_if (negb (bool_decide (rv_Type resolved = ty)))
    (Errorf ("reference has type " +:+ Type_String (rv_Type resolved) +:+ ", want " +:+
             Type_String ty));;
  Ok resolved.

(** A string or path that is not a single token: the deferred function merges the
    sensitivity of the tokens into the value. *)
Definition resolve_text (ty : VType) (text path : string) : result ResolvedValue :=
  st ← interpolate text path;
  value ← parse_scalar_literal ty (EString (in_text st));
  let merged := mergeSensitivity value (in_sensitive st) (in_provenance st) in
  Ok (if is_empty (rv_RedactionLabel merged) && negb (is_empty (in_label st))
      then set_label merged (in_label st) else merged).

(** The expression after the text of a value of another type was unescaped. *)
Definition unescape_text (x : expr) : expr :=
  match x with EString text => EString (unescapeExpression text) | _ => x end.

(** Is the expression text that is a single token, and which? *)
Definition whole_reference (x : expr) : option string :=
  match x with EString text => wholeValueReferenceExpression text | _ => None end.

Fixpoint resolveExpression (e : TypedExpression) (path : string) : result ResolvedValue :=
  let 'mkTE ty x := e in
  locate path
    (match x with
     | ECall call => resolveFunctionCall call ty path
     | _ =>
         match whole_reference x with
         | Some refText => resolve_whole ty refText path
         | None =>
             if bool_decide (ty = TypeObject) then
               match x with
               | EObject children =>
                   ResolvedObject <$>
                     traverse_fields (λ name child,
                       resolveExpression child (appendJSONPointer path name)) children
               | _ => Err (Errorf "object expression must be a typed-expression map")
               end
             else if bool_decide (ty = TypeList) then
               match x with
               | EList children =>
                   ResolvedList <$>
                     traverse_items (λ index child,
                       resolveExpression child (appendJSONPointer path (pretty index))) 0 children
               | _ => Err (Errorf "list expression must be a typed-expression list")
               end
             else if bool_decide (ty = TypeString ∨ ty = TypePath) then
               match x with
               | EString text => resolve_text ty text path
               | _ => parse_scalar_literal ty x
               end
             else parse_scalar_literal ty (unescape_text x)
         end
     end).
End expressions.

(** ** Variables *)

Section variables.
Context (registry : FunctionRegistry).
Context (lookupVariable : Reference → option Var).

Definition cycle_error (chain : list Name) (name : Name) (path : string) : GoError :=
  Located path (Errorf ("reference cycle: " +:+
    str_join " -> " (Name_String <$> (chain ++ [name])))).
Definition depth_error (name : Name) (path : string) : GoError :=
  Located path (Errorf ("maximum variable resolution depth exceeded at " +:+ Name_String name)).
Definition not_found_error (reference : Reference) (path : string) : GoError :=
  Located path (Errorf ("variable not found: " +:+ Reference_String reference)).

(** The chain from the first occurrence of a name on, if it has one. *)
Fixpoint chain_from (name : Name) (chain : list Name) : option (list Name) :=
  match chain with
  | [] => None
  | n :: rest => if decide (n = name) then Some chain else chain_from name rest
  end.

(** [resolve] is [resolveVariable] at the depth of the reference. *)
Definition resolveReference (resolve : Var → string → result ResolvedValue)
    (reference : Reference) (path : string) : result ResolvedValue :=
  match lookupVariable reference with
  | Some variable => resolve variable path
  | None => Err (not_found_error reference path)
  end.

(** [remaining] is [MaxDepth - depth]. *)
Fixpoint resolveVariable (remaining : nat) (chain : list Name) (variable : Var) (path : string) :
    result ResolvedValue :=
  match chain_from (v_Name variable) chain with
  | Some tail => Err (cycle_error tail (v_Name variable) path)
  | None =>
      match remaining with
      | O => Err (depth_error (v_Name variable) path)
      | S remaining' =>
          let chain' := chain ++ [v_Name variable] in
          let ty := te_Type (v_TypedExpression variable) in
          match v_ProtectedRef variable with
          | Some ref => protectedReferenceValue ty ref
          | None =>
              value ← resolveExpression registry
                (resolveReference (resolveVariable remaining' chain'))
                (v_TypedExpression variable) path;
              Ok (mergeSensitivity value (v_Sensitive variable) (Name_String (v_Name variable)))
          end
      end
  end.

End variables.

(** ** Resolvers *)

(** [ControllerEnvironmentLookup] is the caller's; [None] is a nil function. *)
Record ResolverConfig := mkConfig {
  MaxDepth : Z;
  ControllerEnvironmentLookup : option (string → option string);
  cfg_FunctionRegistry : FunctionRegistry }.
Definition DefaultMaxDepth : Z := 10.
Record Resolver := mkResolver { rs_set : VSet; rs_config : ResolverConfig }.
Definition NewResolver (set : VSet) (config : ResolverConfig) : Resolver :=
  mkResolver set
    (mkConfig (if (MaxDepth config =? 0)%Z then DefaultMaxDepth else MaxDepth config)
       (ControllerEnvironmentLookup config) (cfg_FunctionRegistry config)).

Definition environment_variable (key value : string) : Var :=
  mkVar (mkName NamespaceControllerEnvironment key) (mkTE TypeString (EString value)) false None.
Definition lookupControllerEnvironment (r : Resolver) (key : string) : option Var :=
  lookup ← ControllerEnvironmentLookup (rs_config r);
  environment_variable key <$> lookup key.
Definition lookupVariable (r : Resolver) (reference : Reference) : option Var :=
  let key := n_Key (r_Name reference) in
  if r_Qualified reference
     && bool_decide (n_Namespace (r_Name reference) = NamespaceControllerEnvironment)
  then lookupControllerEnvironment r key else
  match LookupReference (rs_set r) reference with
  | Some item => Some item
  | None => if r_Qualified reference then None else lookupControllerEnvironment r key
  end.

Definition resolveRoot (r : Resolver) (reference : Reference) : result ResolvedValue :=
  match lookupVariable r reference with
  | None => Err (Errorf ("resolve " +:+ Reference_String reference +:+ " at /: variable not found: "
                         +:+ Reference_String reference))
  | Some variable =>
      let root := Name_String (v_Name variable) in
      match resolveVariable (cfg_FunctionRegistry (rs_config r)) (lookupVariable r)
              (Z.to_nat (MaxDepth (rs_config r))) [] variable "/" with
      | Ok value => Ok value
      | Err e => Err (Wrapf ("resolve " +:+ root +:+ " at " +:+ errorPath e "/") e)
      end
  end.
Definition Resolve (r : Resolver) (reference : Reference) : result ResolvedValue :=
  resolveRoot r reference.
Definition Optional (r : Resolver) (referenceText : string) : result (option ResolvedValue) :=
  reference ← ParseReference referenceText;
  match lookupVariable r reference with
  | None => Ok None
  | Some _ => Some <$> resolveRoot r reference
  end.

Definition type_error (referenceText : string) (got : VType) (want : string) : GoError :=
  Errorf (referenceText +:+ " has type " +:+ Type_String got +:+ ", want " +:+ want).
Definition requiredType (r : Resolver) (referenceText : string) (valueType : VType) :
    result ResolvedValue :=
  reference ← ParseReference referenceText;
  value ← Resolve r reference;
  fail_if (negb (bool_decide (Type_String (rv_Type value) = Type_String valueType)))
    (type_error referenceText (rv_Type value) (Type_String valueType));;
  Ok value.
Definition requiredPathOrString (r : Resolver) (referenceText : string) : result ResolvedValue :=
  reference ← ParseReference referenceText;
  value ← Resolve r reference;
  fail_if (negb (bool_decide (rv_Type value = TypePath ∨ rv_Type value = TypeString)))
    (type_error referenceText (rv_Type value) "path or string");;
  Ok value.
Definition optionalType (r : Resolver) (referenceText : string) (valueType : VType) :
    result (option ResolvedValue) :=
  found ← Optional r referenceText;
  match found with
  | None => Ok None
  | Some value =>
      fail_if (negb (bool_decide (Type_String (rv_Type value) = Type_String valueType)))
        (type_error referenceText (rv_Type value) (Type_String valueType));;
      Ok (Some value)
  end.
Definition optionalPathOrString (r : Resolver) (referenceText : string) :
    result (option ResolvedValue) :=
  found ← Optional r referenceText;
  match found with
  | None => Ok None
  | Some value =>
      fail_if (negb (bool_decide (rv_Type value = TypePath ∨ rv_Type value = TypeString)))
        (type_error referenceText (rv_Type value) "path or string");;
      Ok (Some value)
  end.

Definition Resolver_String (r : Resolver) (referenceText : string) : result string :=
  value ← requiredType r referenceText TypeString;
  required_text referenceText (rv_Value value).
Definition PathOrString (r : Resolver) (referenceText : string) : result string :=
  value ← requiredPathOrString r referenceText;
  required_text referenceText (rv_Value value).
(** [if err != nil || !ok { return ok, err }], then the text. *)
Definition optional_text (referenceText : string) (found : option ResolvedValue) :
    result (option string) :=
  match found with
  | None => Ok None
  | Some value => Some <$> required_text referenceText (rv_Value value)
  end.
Definition OptionalString (r : Resolver) (referenceText : string) : result (option string) :=
  found ← optionalType r referenceText TypeString;
  optional_text referenceText found.
Definition OptionalPathOrString (r : Resolver) (referenceText : string) : result (option string) :=
  found ← optionalPathOrString r referenceText;
  optional_text referenceText found.
Definition Resolver_Object (r : Resolver) (referenceText : string) :
    result (list (string * ResolvedValue)) :=
  value ← requiredType r referenceText TypeObject;
  Ok (rv_Object value).
Definition OptionalObject (r : Resolver) (referenceText : string) :
    result (option (list (string * ResolvedValue))) :=
  found ← optionalType r referenceText TypeObject;
  Ok (option_map rv_Object found).
Definition StringList (r : Resolver) (referenceText : string) : result (list string) :=
  value ← requiredType r referenceText TypeList;
  stringListValue referenceText (rv_List value).
Definition OptionalStringList (r : Resolver) (referenceText : string) :
    result (option (list string)) :=
  found ← optionalType r referenceText TypeList;
  match found with
  | None => Ok None
  | Some value => Some <$> stringListValue referenceText (rv_List value)
  end.

Definition ResolveFanOutExpression (r : Resolver) (expression : string) :
    result (list ResolvedValue) :=
  match referenceExpression expression with
  | None => Err (Errorf "fan-out expression must be a reference expression")
  | Some refText =>
      '(reference, accessor) ← wrap_err "parse fan-out expression" (parseReferenceExpression refText);
      fail_if (negb (bool_decide (accessor = "[*]")))
        (Errorf "fan-out expression must end with [*]");;
      resolved ← resolveRoot r reference;
      ApplyFanOutAccessor resolved accessor
  end.

(** ** The cache of the controller environment

    [lookupControllerEnvironment] asks the environment once for a key and keeps
    the answer, found or not, under a mutex; so the calls of concurrent
    resolutions are a sequence.  [lookup] is the environment at the time of the
    call. *)

Definition environmentCache : Type := gmap string (option string).
Definition cachedLookup (lookup : string → option string) (key : string)
    (cache : environmentCache) : option Var * environmentCache :=
  let '(result, cache') :=
    match cache !! key with
    | Some result => (result, cache)
    | None => (lookup key, <[key := lookup key]> cache)
    end in
  (option_map (environment_variable key) result, cache').

(** A sequence of calls, each at a time with its own environment. *)
Fixpoint cachedLookups (calls : list ((string → option string) * string))
    (cache : environmentCache) : list (option Var) * environmentCache :=
  match calls with
  | [] => ([], cache)
  | (lookup, key) :: calls' =>
      let '(answer, cache1) := cachedLookup lookup key cache in
      let '(answers, cache2) := cachedLookups calls' cache1 in
      (answer :: answers, cache2)
  end.
