(* ===== verification/ResolverRel.v ===== *)
(** * A relational reading of the resolver

    Two runs of the resolver, on related environments, give related results.  The
    relation on values is a parameter with laws ([ValueRelation]), so one induction
    over [resolveExpression] and [resolveVariable] serves every two-run property:
    erasing secrets, growing the depth bound, and, on the diagonal, the typing of
    results.  [res_rel true] asks for equal errors, [res_rel false] lets the first
    run fail whatever the second does. *)

From S2P Require Import Prelude GoTime GoStrings Variables Expression Functions Resolver.
Local Open Scope nat_scope.

Definition res_rel (strict : bool) {A B} (R : A → B → Prop) (c1 : result A) (c2 : result B) : Prop :=
  match c1, c2 with
  | Ok a, Ok b => R a b
  | Err e1, Err e2 => strict = true → e1 = e2
  | Err _, Ok _ => strict = false
  | Ok _, Err _ => False
  end.

Section results.
Context (strict : bool).

Lemma res_rel_bind {A B A' B'} (R : A → A' → Prop) (R' : B → B' → Prop) c c' k k' :
  res_rel strict R c c' → (∀ a a', R a a' → res_rel strict R' (k a) (k' a')) →
  res_rel strict R' (c ≫= k) (c' ≫= k').
Proof.
  destruct c as [a|e], c' as [a'|e']; simpl; try done; [eauto|].
  intros -> Hk. by destruct (k' a').
Qed.

Lemma res_rel_fmap {A B A' B'} (R : A → A' → Prop) (R' : B → B' → Prop)
    (f : A → B) (f' : A' → B') c c' :
  res_rel strict R c c' → (∀ a a', R a a' → R' (f a) (f' a')) →
  res_rel strict R' (f <$> c) (f' <$> c').
Proof. destruct c, c'; simpl; eauto; done. Qed.

Lemma res_rel_wrap {A B} (R : A → B → Prop) msg c c' :
  res_rel strict R c c' → res_rel strict R (wrap_err msg c) (wrap_err msg c').
Proof. destruct c, c'; simpl; try done. intros H Hs. by rewrite H. Qed.

Lemma res_rel_locate {A B} (R : A → B → Prop) path c c' :
  res_rel strict R c c' → res_rel strict R (locate path c) (locate path c').
Proof. destruct c, c'; simpl; try done. intros H Hs. by rewrite H. Qed.

Lemma res_rel_refl {A} (R : A → A → Prop) c :
  (∀ a, c = Ok a → R a a) → res_rel strict R c c.
Proof. destruct c; simpl; eauto. Qed.

Lemma res_rel_eq {A} (c : result A) : res_rel strict eq c c.
Proof. by destruct c. Qed.

Lemma res_rel_mono {A B} (R R' : A → B → Prop) c c' :
  (∀ a b, R a b → R' a b) → res_rel strict R c c' → res_rel strict R' c c'.
Proof. destruct c, c'; simpl; eauto. Qed.

(** A lenient run may fail. *)
Lemma res_rel_Err {A B} (R : A → B → Prop) e c : strict = false → res_rel strict R (Err e) c.
Proof. intros Hs. destruct c; simpl; [done|]. by rewrite Hs. Qed.

Definition field_rel {A B} (R : A → B → Prop) (f : string * A) (g : string * B) : Prop :=
  f.1 = g.1 ∧ R f.2 g.2.

Lemma traverse_fields_rel {A B B'} (R : B → B' → Prop) (f : string → A → result B)
    (g : string → A → result B') l :
  Forall (λ x, ∀ k, res_rel strict R (f k x.2) (g k x.2)) l →
  res_rel strict (Forall2 (field_rel R)) (traverse_fields f l) (traverse_fields g l).
Proof.
  induction 1 as [|[k a] l Hf Hl IH]; simpl; [constructor|].
  eapply res_rel_bind; [apply Hf|]. intros b b' Hb.
  eapply res_rel_bind; [exact IH|]. intros bs bs' Hbs. simpl. by constructor.
Qed.

Lemma traverse_items_rel {A B B'} (R : B → B' → Prop) (f : nat → A → result B)
    (g : nat → A → result B') l :
  Forall (λ x, ∀ i, res_rel strict R (f i x) (g i x)) l →
  ∀ i, res_rel strict (Forall2 R) (traverse_items f i l) (traverse_items g i l).
Proof.
  induction 1 as [|a l Hf Hl IH]; intros i; simpl; [constructor|].
  eapply res_rel_bind; [apply Hf|]. intros b b' Hb.
  eapply res_rel_bind; [apply IH|]. intros bs bs' Hbs. simpl. by constructor.
Qed.

Lemma foldM_rel2 {S S' A} (R : S → S' → Prop) f g (l : list A) s s' :
  (∀ a s s', R s s' → res_rel strict R (f s a) (g s' a)) →
  R s s' → res_rel strict R (foldM f s l) (foldM g s' l).
Proof.
  intros Hf. revert s s'. induction l as [|a l IH]; intros s s' Hs; simpl; [done|].
  eapply res_rel_bind; [by apply Hf|]. eauto.
Qed.

(** A check on related data that reads the same in both runs. *)
Lemma res_rel_check {B B'} (R : B → B' → Prop) b b' e e' k k' :
  b = b' → e = e' → res_rel strict R k k' →
  res_rel strict R (fail_if b e;; k) (fail_if b' e';; k').
Proof. intros -> ->. by destruct b'. Qed.
End results.

(** Both runs compute the same value first. *)
Tactic Notation "same_value" simple_intropattern(x) :=
  eapply res_rel_bind; [apply res_rel_eq|]; intros x ? <-.

(** ** Relations on values *)

Definition same_marks (v w : ResolvedValue) : Prop :=
  rv_Sensitive v = rv_Sensitive w ∧ rv_RedactionLabel v = rv_RedactionLabel w ∧
  rv_Provenance v = rv_Provenance w ∧ rv_ProtectedRef v = rv_ProtectedRef w.

(** Labels and sensitivity are read off the marks. *)
Lemma find_sensitive_marks l k :
  Forall2 same_marks l k →
  match List.find isSensitive l, List.find isSensitive k with
  | Some v, Some w => same_marks v w
  | None, None => True
  | _, _ => False
  end.
Proof.
  induction 1 as [|v w l k Hvw Hl IH]; simpl; [done|].
  assert (isSensitive v = isSensitive w) as Hs
    by (destruct Hvw as (H1 & _ & _ & H2); unfold isSensitive; by rewrite H1, H2).
  rewrite Hs. by destruct (isSensitive w).
Qed.

Lemma aggregateSensitivity_marks fs gs l k :
  Forall2 same_marks fs.*2 gs.*2 → Forall2 same_marks l k →
  aggregateSensitivity fs l = aggregateSensitivity gs k.
Proof.
  intros Hf Hl. unfold aggregateSensitivity.
  pose proof (find_sensitive_marks _ _ (Forall2_app Hf Hl)) as H.
  destruct (List.find _ _) as [v|], (List.find _ _) as [w|]; try done.
  destruct H as (_ & H1 & H2 & H3). unfold redactionLabel, resolvedProvenance. by rewrite H1, H2, H3.
Qed.

(** [TR] relates the texts two values contribute to an interpolated string. *)
Class ValueRelation (VR : relation ResolvedValue) (TR : relation string) : Prop := {
  vr_type v w : VR v w → rv_Type v = rv_Type w;
  vr_marks v w : VR v w → same_marks v w;
  vr_object v w : VR v w → Forall2 (field_rel VR) (rv_Object v) (rv_Object w);
  vr_list v w : VR v w → Forall2 VR (rv_List v) (rv_List w);
  vr_text v w : VR v w → res_rel true TR (interpolationText v) (interpolationText w);
  vr_text_public v w :
    VR v w → rv_Sensitive v = false → interpolationText v = interpolationText w;
  tr_refl s : TR s s;
  tr_app s s' t t' : TR s s' → TR t t' → TR (s +:+ t) (s' +:+ t');
  vr_scalar ty x v : parse_scalar_literal ty x = Ok v → VR v v;
  vr_secret ty s t p : ty = TypeString ∨ ty = TypePath → TR s t →
    VR (mergeSensitivity (plain ty (VString s)) true p) (mergeSensitivity (plain ty (VString t)) true p);
  vr_mkobject fs gs : Forall2 (field_rel VR) fs gs → VR (ResolvedObject fs) (ResolvedObject gs);
  vr_mklist l k : Forall2 VR l k → VR (ResolvedList l) (ResolvedList k);
  vr_merge v w s p : VR v w → VR (mergeSensitivity v s p) (mergeSensitivity w s p);
  vr_label v w l : VR v w → VR (set_label v l) (set_label w l);
  vr_protected ty r v : protectedReferenceValue ty r = Ok v → VR v v;
}.

(** A registry whose functions send related arguments to related results. *)
Class RegistryRespects (strict : bool) (VR : relation ResolvedValue) (registry : FunctionRegistry) :
    Prop :=
  registry_respects name f args args' :
    FunctionRegistry_Lookup registry name = Some f → Forall2 VR args args' →
    res_rel strict VR (ef_Evaluate f args) (ef_Evaluate f args').

Section relational.
Context (strict : bool) (VR : relation ResolvedValue) (TR : relation string).
Context `{!ValueRelation VR TR}.

Lemma assoc_rel k fs gs :
  Forall2 (field_rel VR) fs gs →
  match assoc k fs, assoc k gs with
  | Some v, Some w => VR v w
  | None, None => True
  | _, _ => False
  end.
Proof.
  induction 1 as [|[k1 v] [k2 w] fs gs [Hk Hv] Hl IH]; simpl in *; [done|]. subst k2.
  by destruct (decide (k = k1)).
Qed.

Lemma ApplyFieldAccessor_rel v w accessor :
  VR v w → res_rel strict VR (ApplyFieldAccessor v accessor) (ApplyFieldAccessor w accessor).
Proof.
  intros Hvw. unfold ApplyFieldAccessor. same_value field.
  rewrite <- (vr_type _ _ Hvw). apply res_rel_check; [done..|].
  pose proof (assoc_rel field _ _ (vr_object _ _ Hvw)) as H.
  destruct (assoc field (rv_Object v)), (assoc field (rv_Object w)); done.
Qed.

Lemma ApplyIndexAccessor_rel v w accessor :
  VR v w → res_rel strict VR (ApplyIndexAccessor v accessor) (ApplyIndexAccessor w accessor).
Proof.
  intros Hvw. unfold ApplyIndexAccessor. same_value index.
  rewrite <- (vr_type _ _ Hvw). apply res_rel_check; [done..|].
  destruct (index <? 0)%Z; [done|].
  pose proof (vr_list _ _ Hvw) as Hl. rewrite Forall2_lookup in Hl. specialize (Hl (Z.to_nat index)).
  by inversion Hl.
Qed.

Lemma ApplyAccessorPart_rel part v w :
  VR v w → res_rel strict VR (ApplyAccessorPart v part) (ApplyAccessorPart w part).
Proof.
  intros Hvw. unfold ApplyAccessorPart. destruct (has_prefix "." part); [by apply ApplyFieldAccessor_rel|].
  destruct (has_prefix "[" part); [by apply ApplyIndexAccessor_rel|done].
Qed.

Lemma apply_optional_accessor_rel v w accessor :
  VR v w →
  res_rel strict VR (apply_optional_accessor v accessor) (apply_optional_accessor w accessor).
Proof.
  intros Hvw. unfold apply_optional_accessor, ApplyAccessor. destruct (is_empty accessor); [done|].
  same_value parts.
  apply (foldM_rel2 _ VR); [intros; by apply ApplyAccessorPart_rel|done].
Qed.

Lemma aggregateSensitivity_rel args args' :
  Forall2 VR args args' → aggregateSensitivity [] args = aggregateSensitivity [] args'.
Proof.
  intros H. apply aggregateSensitivity_marks; [constructor|].
  eapply Forall2_impl; [exact H|]. apply vr_marks.
Qed.

(** ** Expressions *)

Section expressions.
Context (registry : FunctionRegistry) `{!RegistryRespects strict VR registry}.
Context (cb1 cb2 : Reference → string → result ResolvedValue).
Context (Hcb : ∀ reference path, res_rel strict VR (cb1 reference path) (cb2 reference path)).

Lemma resolve_accessed_rel reference accessor path :
  res_rel strict VR (resolve_accessed cb1 reference accessor path)
    (resolve_accessed cb2 reference accessor path).
Proof using Hcb ValueRelation0.
  eapply res_rel_bind; [apply Hcb|]. intros. by apply apply_optional_accessor_rel.
Qed.

(** The states of two interpolation loops: the texts agree until a sensitive token
    was met, and all the rest agrees throughout. *)
Definition interpolation_rel (st st' : interpolation) : Prop :=
  TR (in_text st) (in_text st') ∧ (in_sensitive st = false → in_text st = in_text st') ∧
  in_sensitive st = in_sensitive st' ∧ in_label st = in_label st' ∧
  in_provenance st = in_provenance st' ∧ in_previous st = in_previous st'.

Lemma vr_text' v w :
  VR v w →
  res_rel strict (λ s t, TR s t ∧ (rv_Sensitive v = false → s = t))
    (interpolationText v) (interpolationText w).
Proof using ValueRelation0.
  intros Hvw. pose proof (vr_text _ _ Hvw) as Ht. pose proof (vr_text_public _ _ Hvw) as Hp.
  destruct (interpolationText v) as [s|e], (interpolationText w) as [t|e']; simpl in *; try done; eauto.
  split; [done|]. intros H%Hp. congruence.
Qed.

Lemma interpolate_token_rel expression path token st st' :
  interpolation_rel st st' →
  res_rel strict interpolation_rel (interpolate_token cb1 expression path st token)
    (interpolate_token cb2 expression path st' token).
Proof using Hcb ValueRelation0.
  destruct st as [t s l p prev], st' as [t' s' l' p' prev'].
  intros (Ht & Hpub & Hs & Hl & Hp & Hprev). simpl in *. subst s' l' p' prev'.
  unfold interpolate_token. simpl.
  same_value [reference accessor].
  eapply res_rel_bind; [apply resolve_accessed_rel|]. intros v w Hvw.
  eapply res_rel_bind; [apply res_rel_wrap, vr_text', Hvw|]. intros x y [Hxy Heq]. simpl.
  destruct (vr_marks _ _ Hvw) as (Hs & Hl & Hp & _). rewrite <- Hs, <- Hl, <- Hp.
  split_and!; try done; simpl.
  - apply tr_app; [done|]. apply tr_app; [apply tr_refl|done].
  - intros [Hs0 Hv]%orb_false_iff. by rewrite Hpub, Heq.
Qed.

Lemma interpolate_rel expression path :
  res_rel strict interpolation_rel (interpolate cb1 expression path) (interpolate cb2 expression path).
Proof using Hcb ValueRelation0.
  unfold interpolate. same_value tokens.
  eapply res_rel_bind.
  - apply (foldM_rel2 _ interpolation_rel); [intros; by apply interpolate_token_rel|].
    split_and!; try done. apply tr_refl.
  - intros [t s l p prev] [t' s' l' p' prev'] (Ht & Hpub & Hs & Hl & Hp & Hprev).
    simpl in *. subst s' l' p' prev'. split_and!; try done; simpl.
    + apply tr_app; [done|apply tr_refl].
    + intros H. by rewrite Hpub.
Qed.

Lemma parse_text ty text :
  ty = TypeString ∨ ty = TypePath →
  parse_scalar_literal ty (EString text) = Ok (plain ty (VString text)).
Proof. intros [->| ->]; reflexivity. Qed.

Lemma resolve_text_rel ty text path :
  ty = TypeString ∨ ty = TypePath →
  res_rel strict VR (resolve_text cb1 ty text path) (resolve_text cb2 ty text path).
Proof using Hcb ValueRelation0.
  intros Hty. unfold resolve_text. eapply res_rel_bind; [apply interpolate_rel|].
  intros [t s l p prev] [t' s' l' p' prev'] (Ht & Hpub & Hs & Hl & Hp & Hprev).
  simpl in *. subst s' l' p' prev'. rewrite !(parse_text ty) by done. simpl.
  assert (VR (mergeSensitivity (plain ty (VString t)) s p)
             (mergeSensitivity (plain ty (VString t')) s p)) as H.
  { destruct s; [by apply vr_secret|]. rewrite Hpub by done.
    eapply vr_merge, (vr_scalar ty (EString t')). by rewrite parse_text. }
  destruct (vr_marks _ _ H) as (_ & Hlab & _). rewrite <- Hlab.
  destruct (is_empty _ && _); [by apply vr_label|done].
Qed.

Lemma resolve_whole_rel ty refText path :
  res_rel strict VR (resolve_whole cb1 ty refText path) (resolve_whole cb2 ty refText path).
Proof using Hcb ValueRelation0.
  unfold resolve_whole. same_value [next accessor].
  eapply res_rel_bind; [apply resolve_accessed_rel|]. intros v w Hvw.
  rewrite (vr_type _ _ Hvw). by apply res_rel_check.
Qed.

Lemma resolveFunctionCall_rel call ty path :
  res_rel strict VR (resolveFunctionCall registry cb1 call ty path)
    (resolveFunctionCall registry cb2 call ty path).
Proof using Hcb ValueRelation0 RegistryRespects0.
  unfold resolveFunctionCall. apply res_rel_check; [done..|].
  destruct (FunctionRegistry_Lookup registry (fc_Name call)) as [f|] eqn:Hf; [|done].
  eapply res_rel_bind.
  { apply (traverse_items_rel _ VR), Forall_true. intros argument i. apply resolve_accessed_rel. }
  intros args args' Hargs.
  eapply res_rel_bind; [eapply res_rel_wrap, registry_respects; eauto|]. intros v w Hvw.
  rewrite (vr_type _ _ Hvw). apply res_rel_check; [done..|].
  rewrite (aggregateSensitivity_rel _ _ Hargs). destruct (aggregateSensitivity [] args') as [[s l] p].
  destruct s; [|done]. simpl. destruct (is_empty l); [by apply vr_merge|by apply vr_label, vr_merge].
Qed.

Lemma parse_scalar_literal_rel ty x :
  res_rel strict VR (parse_scalar_literal ty x) (parse_scalar_literal ty x).
Proof using ValueRelation0. apply res_rel_refl. intros v. apply vr_scalar. Qed.

Lemma resolveExpression_rel e path :
  res_rel strict VR (resolveExpression registry cb1 e path) (resolveExpression registry cb2 e path).
Proof using Hcb ValueRelation0 RegistryRespects0.
  revert path. induction e as [ty fields IH|ty items IH|ty x Hx1 Hx2] using TypedExpression_ind';
    intros path; simpl; apply res_rel_locate.
  - case_bool_decide as H1; [|case_bool_decide as H2; [done|]].
    + eapply res_rel_fmap; [|intros; by apply vr_mkobject].
      apply (traverse_fields_rel _ VR). eapply Forall_impl; [exact IH|]. auto.
    + case_bool_decide; apply parse_scalar_literal_rel.
  - case_bool_decide as H1; [done|]. case_bool_decide as H2.
    + eapply res_rel_fmap; [|intros; by apply vr_mklist].
      apply (traverse_items_rel _ VR). eapply Forall_impl; [exact IH|]. auto.
    + case_bool_decide; apply parse_scalar_literal_rel.
  - assert (∀ c c', res_rel strict VR c c' →
      res_rel strict VR (match whole_reference x with Some refText => resolve_whole cb1 ty refText path | None => c end)
        (match whole_reference x with Some refText => resolve_whole cb2 ty refText path | None => c' end)) as Hwhole.
    { intros c c' Hc. destruct (whole_reference x); [apply resolve_whole_rel|done]. }
    destruct x; try (by destruct (Hx1 _ eq_refl)); try (by destruct (Hx2 _ eq_refl));
      try (apply Hwhole; repeat case_bool_decide; try done; apply parse_scalar_literal_rel).
    + apply Hwhole. repeat case_bool_decide; try done; [by apply resolve_text_rel|].
      apply parse_scalar_literal_rel.
    + apply resolveFunctionCall_rel.
Qed.
End expressions.

(** ** Variables *)

Section variables.
Context (registry : FunctionRegistry) `{!RegistryRespects strict VR registry}.

(** Two variables are related when they have the same definition, or when whatever
    they refer to their definitions have related values. *)
Definition same_definition (v w : Var) : Prop :=
  v_TypedExpression v = v_TypedExpression w ∧ v_Sensitive v = v_Sensitive w ∧
  v_ProtectedRef v = v_ProtectedRef w.
Definition evaluate (cb : Reference → string → result ResolvedValue) (v : Var) (path : string) :
    result ResolvedValue :=
  value ← resolveExpression registry cb (v_TypedExpression v) path;
  Ok (mergeSensitivity value (v_Sensitive v) (Name_String (v_Name v))).
Definition related_values (v w : Var) : Prop :=
  v_ProtectedRef v = None ∧ v_ProtectedRef w = None ∧
  ∀ cb1 cb2 path, res_rel strict VR (evaluate cb1 v path) (evaluate cb2 w path).
Definition related_variables (v w : Var) : Prop :=
  v_Name v = v_Name w ∧ (same_definition v w ∨ related_values v w).

Context (lookup1 lookup2 : Reference → option Var).
Context (Hlookup : ∀ reference,
  option_Forall2 related_variables (lookup1 reference) (lookup2 reference)).

Lemma resolveReference_rel f1 f2 reference path :
  (∀ v w path, related_variables v w → res_rel strict VR (f1 v path) (f2 w path)) →
  res_rel strict VR (resolveReference lookup1 f1 reference path)
    (resolveReference lookup2 f2 reference path).
Proof using Hlookup.
  intros Hf. unfold resolveReference. specialize (Hlookup reference).
  destruct Hlookup; [eauto|done].
Qed.

Lemma resolveVariable_rel n m chain v w path :
  n = m ∨ strict = false ∧ n ≤ m → related_variables v w →
  res_rel strict VR (resolveVariable registry lookup1 n chain v path)
    (resolveVariable registry lookup2 m chain w path).
Proof using Hlookup ValueRelation0 RegistryRespects0.
  revert m chain v w path. induction n as [|n IH]; intros m chain v w path Hm [Hname Hvw].
  - destruct m as [|m]; simpl; rewrite <- Hname; destruct (chain_from _ chain); try done.
    destruct Hm as [[=]|[Hs _]]. by apply res_rel_Err.
  - destruct m as [|m]; [exfalso; lia|]. simpl. rewrite <- Hname.
    destruct (chain_from _ chain); [done|].
    destruct Hvw as [(He & Hs & Hp)|(Hv & Hw & Hval)].
    + rewrite <- He, <- Hs, <- Hp. destruct (v_ProtectedRef v) as [ref|].
      { apply res_rel_refl. intros u. apply vr_protected. }
      eapply res_rel_bind; [|intros; by apply vr_merge].
      apply resolveExpression_rel; [done|]. intros reference p. apply resolveReference_rel.
      intros v' w' p' Hvw'. apply IH; [|done]. naive_solver lia.
    + rewrite Hv, Hw. pose proof (Hval
        (resolveReference lookup1 (resolveVariable registry lookup1 n (chain ++ [v_Name v])))
        (resolveReference lookup2 (resolveVariable registry lookup2 m (chain ++ [v_Name v]))) path) as H.
      unfold evaluate in H. by rewrite <- Hname in H.
Qed.
End variables.
End relational.

(** ** The default registry respects every value relation *)

Section default_registry.
Context (strict : bool) (VR : relation ResolvedValue) (TR : relation string).
Context `{!ValueRelation VR TR}.

Lemma require_list_rel {B B'} (R : B → B' → Prop) what v w k k' :
  VR v w → res_rel strict R k k' →
  res_rel strict R (require_list what v;; k) (require_list what w;; k').
Proof using ValueRelation0.
  intros Hvw Hk. unfold require_list. rewrite (vr_type _ _ Hvw). by apply res_rel_check.
Qed.

Lemma pair_rel v v' w w' : VR v v' → VR w w' → VR (ResolvedList [v; w]) (ResolvedList [v'; w']).
Proof using ValueRelation0. intros. apply vr_mklist. by repeat constructor. Qed.

Lemma cross_pairs_rel l l' r r' :
  Forall2 VR l l' → Forall2 VR r r' → Forall2 VR (cross_pairs l r) (cross_pairs l' r').
Proof using ValueRelation0.
  intros Hl Hr. unfold cross_pairs.
  apply Forall2_bind. eapply Forall2_impl; [exact Hl|]. intros v v' Hv.
  apply Forall2_bind. eapply Forall2_impl; [exact Hr|]. intros w w' Hw. constructor; [by apply pair_rel|constructor].
Qed.

Lemma zip_rel l l' r r' :
  Forall2 VR l l' → Forall2 VR r r' →
  Forall2 VR (zip_with (λ l r, ResolvedList [l; r]) l r)
    (zip_with (λ l r, ResolvedList [l; r]) l' r').
Proof using ValueRelation0.
  intros Hl. revert r r'. induction Hl as [|v v' l l' Hv Hl IH]; intros r r' Hr; simpl; [constructor|].
  destruct Hr; constructor; [by apply pair_rel|by apply IH].
Qed.

Lemma groups_rel i l l' :
  Forall2 VR l l' →
  res_rel strict (Forall2 (Forall2 VR))
    (traverse_items (λ index item,
       require_list ("argument 0[" +:+ pretty index +:+ "]") item;; Ok (rv_List item)) i l)
    (traverse_items (λ index item,
       require_list ("argument 0[" +:+ pretty index +:+ "]") item;; Ok (rv_List item)) i l').
Proof using ValueRelation0.
  intros Hl. revert i. induction Hl as [|v v' l l' Hv Hl IH]; intros i; simpl; [constructor|].
  eapply res_rel_bind; [by eapply require_list_rel, (vr_list _ _ Hv : res_rel strict _ (Ok _) (Ok _))|].
  intros g g' Hg. eapply res_rel_bind; [apply IH|]. intros gs gs' Hgs. simpl. by constructor.
Qed.

Lemma default_lookup name f :
  FunctionRegistry_Lookup DefaultFunctionRegistry name = Some f → f ∈ default_functions.
Proof.
  assert (DefaultFunctionRegistry = (λ f, (ef_Name f, f)) <$> default_functions) as ->
    by reflexivity.
  induction default_functions as [|g fs IH]; simpl; [done|].
  case_decide; [intros [= <-]; left|intros Hin%IH; by right].
Qed.

#[export] Instance DefaultFunctionRegistry_respects :
  RegistryRespects strict VR DefaultFunctionRegistry.
Proof using ValueRelation0.
  intros name f args args' Hf%default_lookup Hargs.
  pose proof (Forall2_length _ _ _ Hargs) as Hlen.
  unfold default_functions in Hf. rewrite !elem_of_cons, elem_of_nil in Hf.
  destruct Hf as [->|[->|[->|[->|[]]]]]; simpl.
  - destruct Hargs as [|v v' ?? Hv [|w w' ?? Hw [|]]];
      try done; try (intros _; by rewrite Hlen). simpl.
    do 2 (apply require_list_rel; [done|]).
    apply vr_mklist, cross_pairs_rel; by apply vr_list.
  - destruct Hargs as [|v v' ?? Hv [|w w' ?? Hw [|]]];
      try done; try (intros _; by rewrite Hlen). simpl.
    do 2 (apply require_list_rel; [done|]). pose proof (vr_list _ _ Hv) as Hl.
    pose proof (vr_list _ _ Hw) as Hr. rewrite (Forall2_length _ _ _ Hl), (Forall2_length _ _ _ Hr).
    apply res_rel_check; [done..|]. by apply vr_mklist, zip_rel.
  - destruct Hargs as [|v v' ?? Hv [|]];
      try done; try (intros _; by rewrite Hlen). simpl. apply require_list_rel; [done|].
    eapply res_rel_bind; [apply groups_rel; by apply vr_list|].
    intros gs gs' Hgs. simpl. apply vr_mklist. by induction Hgs; simpl; [constructor|apply Forall2_app].
  - destruct Hargs as [|v v' ?? Hv [|]];
      try done; try (intros _; by rewrite Hlen). simpl. apply require_list_rel; [done|].
    rewrite (Forall2_length _ _ _ (vr_list _ _ Hv)). simpl.
    apply (vr_scalar TypeInt (EInt (Z.of_nat (length (rv_List v'))))). reflexivity.
Qed.
End default_registry.
