(* ===== verification/ResolverTyping.v ===== *)
(** * What a resolved value looks like, and what resolution depends on

    Values are well formed and have the declared type; raising the depth bound
    never changes a result; a variable that resolves starts no cycle of references
    and no chain longer than the bound. *)

From S2P Require Import Prelude GoTime GoStrings Variables Expression Functions Resolver ResolverRel.
Local Open Scope nat_scope.

(** ** Equality as a value relation *)

Lemma field_rel_eq {A} (fs gs : list (string * A)) : Forall2 (field_rel eq) fs gs ↔ fs = gs.
Proof.
  split.
  - induction 1 as [|[] [] ?? [Hk Hv] ? IH]; simpl in *; congruence.
  - intros ->. induction gs; by repeat constructor.
Qed.

#[export] Instance eq_ValueRelation : ValueRelation eq eq.
Proof.
  split; try congruence.
  - by intros v w ->.
  - intros v w ->. by apply field_rel_eq.
  - intros v w ->. induction (rv_List w); by constructor.
  - intros v w ->. apply res_rel_eq.
  - by intros fs gs ->%field_rel_eq.
  - intros l k H. f_equal. induction H; congruence.
Qed.

#[export] Instance eq_registry strict registry : RegistryRespects strict eq registry.
Proof.
  intros name f args args' _ H. assert (args = args') as -> by (induction H; congruence).
  apply res_rel_eq.
Qed.

Lemma lookup_refl strict VR registry (lookup : Reference → option Var) reference :
  option_Forall2 (related_variables strict VR registry) (lookup reference) (lookup reference).
Proof. destruct (lookup reference); constructor. split; [done|]. by left. Qed.

(** ** Well-formed values

    The dynamic type of [Value] is the one the code asserts for the declared type,
    a composite has children and no scalar, a protected reference holds no value,
    and a composite with a sensitive child is itself marked sensitive. *)

Definition scalar_has_type (ty : VType) (value : scalar) : bool :=
  match value with
  | VNil => false
  | VString _ => bool_decide (ty = TypeString ∨ ty = TypePath)
  | VInt _ => bool_decide (ty = TypeInt)
  | VBool _ => bool_decide (ty = TypeBool)
  | VTime _ => bool_decide (ty = TypeDatetime)
  end.
Definition no_value (value : scalar) : bool := bool_decide (value = VNil).

Fixpoint well_formed (v : ResolvedValue) : bool :=
  match v with
  | mkRV ty value fields items sensitive label provenance ref =>
      match ref with
      | Some _ =>
          sensitive && no_value value && (length fields =? 0) && (length items =? 0)
      | None =>
          if bool_decide (ty = TypeObject) then
            no_value value && (length items =? 0)
            && forallb (λ f, well_formed f.2) fields
            && implb (existsb (λ f, isSensitive f.2) fields) sensitive
          else if bool_decide (ty = TypeList) then
            no_value value && (length fields =? 0)
            && forallb well_formed items && implb (existsb isSensitive items) sensitive
          else
            scalar_has_type ty value && (length fields =? 0) && (length items =? 0)
      end
  end.

Definition well_formed_rel (v w : ResolvedValue) : Prop := v = w ∧ well_formed v = true.

Lemma well_formed_rel_list l k :
  Forall2 well_formed_rel l k ↔ l = k ∧ forallb well_formed l = true.
Proof.
  split.
  - induction 1 as [|v w l k [-> Hv] _ [-> IH]]; [done|]. simpl. by rewrite Hv, IH.
  - intros [-> H]. induction k as [|v k IH]; [constructor|]. simpl in H.
    apply andb_true_iff in H as [Hv Hk]. constructor; [done|auto].
Qed.
Lemma well_formed_rel_fields fs gs :
  Forall2 (field_rel well_formed_rel) fs gs ↔
  fs = gs ∧ forallb (λ f, well_formed f.2) fs = true.
Proof.
  split.
  - induction 1 as [|[k v] [k' w] l l' [Hk [Hv Hw]] _ [-> IH]]; [done|]. simpl in *. subst.
    by rewrite Hw, IH.
  - intros [-> H]. induction gs as [|[k v] l IH]; [constructor|]. simpl in H.
    apply andb_true_iff in H as [Hv Hk]. repeat constructor; simpl; auto.
Qed.

Lemma nil_of_length {A} (l : list A) : (length l =? 0) = true → l = [].
Proof. by destruct l. Qed.

Lemma find_existsb {A} (f : A → bool) l :
  existsb f l = match List.find f l with Some _ => true | None => false end.
Proof. induction l as [|a l IH]; simpl; [done|]. by destruct (f a). Qed.

Lemma scalar_literal_wf ty x v : parse_scalar_literal ty x = Ok v → well_formed v = true.
Proof.
  unfold parse_scalar_literal. repeat (case_bool_decide; [subst ty|]).
  all: destruct x; simpl; try done; try (by intros [= <-]).
  - by destruct (Atoi s) as [?|]; [intros [= <-]|].
  - by destruct (parse_rfc3339 s) as [?|]; [intros [= <-]|].
Qed.

Lemma mkobject_wf fs :
  forallb (λ f, well_formed f.2) fs = true → well_formed (ResolvedObject fs) = true.
Proof.
  intros Hfs. unfold ResolvedObject, aggregateSensitivity. rewrite app_nil_r.
  pose proof (find_existsb isSensitive fs.*2) as He.
  assert (existsb isSensitive fs.*2 = existsb (λ f, isSensitive f.2) fs) as Hex
    by (clear; induction fs as [|f fs IH]; csimpl; [done|by rewrite IH]).
  rewrite Hex in He.
  destruct (List.find isSensitive fs.*2) as [c|]; simpl; rewrite Hfs, He; done.
Qed.

Lemma mklist_wf l : forallb well_formed l = true → well_formed (ResolvedList l) = true.
Proof.
  intros Hl. unfold ResolvedList, aggregateSensitivity. simpl.
  pose proof (find_existsb isSensitive l) as He.
  destruct (List.find isSensitive l) as [c|]; simpl; rewrite Hl, He; done.
Qed.

(** Only the marks of a value change, and never from sensitive to public. *)
Lemma marks_wf ty value fields items s l p r s' l' p' :
  well_formed (mkRV ty value fields items s l p r) = true → (s = true → s' = true) →
  well_formed (mkRV ty value fields items s' l' p' r) = true.
Proof.
  intros H Hs. destruct s'; [|by destruct s; [discriminate Hs|exact H]]. cbn [well_formed] in *.
  destruct r as [r|]; [by destruct s|].
  repeat case_bool_decide; try done; rewrite !andb_true_iff in *; rewrite implb_true_r; naive_solver.
Qed.

Lemma merge_wf v s p : well_formed v = true → well_formed (mergeSensitivity v s p) = true.
Proof.
  intros H. destruct v as [ty value fields items s0 l0 p0 r]. unfold mergeSensitivity. cbn [rv_Type rv_Value rv_Object rv_List rv_Sensitive rv_RedactionLabel rv_Provenance rv_ProtectedRef].
  destruct (match r with Some _ => _ | None => _ end) as [s1 p1]. destruct s1; [|done].
  by eapply marks_wf.
Qed.

Lemma wf_children v :
  well_formed v = true →
  forallb (λ f, well_formed f.2) (rv_Object v) = true ∧ forallb well_formed (rv_List v) = true.
Proof.
  destruct v as [ty value fields items s l p r]. cbn [well_formed rv_Object rv_List]. intros H.
  destruct r; repeat case_bool_decide; rewrite !andb_true_iff in H; destruct_and?;
    repeat match goal with H : (length _ =? 0) = true |- _ => apply nil_of_length in H; subst end; done.
Qed.

#[export] Instance well_formed_ValueRelation : ValueRelation well_formed_rel eq.
Proof.
  split.
  - by intros v w [-> _].
  - by intros v w [-> _].
  - intros v w [-> H]. apply well_formed_rel_fields. by apply wf_children in H as [??].
  - intros v w [-> H]. apply well_formed_rel_list. by apply wf_children in H as [??].
  - intros v w [-> H]. apply res_rel_eq.
  - by intros v w [-> H] _.
  - done.
  - intros. congruence.
  - intros ty x v H%scalar_literal_wf. done.
  - intros ty s t p Hty ->. split; [done|]. apply merge_wf. by destruct Hty as [->| ->].
  - intros fs gs [-> H]%well_formed_rel_fields. split; [done|]. by apply mkobject_wf.
  - intros l k [-> H]%well_formed_rel_list. split; [done|]. by apply mklist_wf.
  - intros v w s p [-> H]. split; [done|]. by apply merge_wf.
  - intros v w l [-> H]. split; [done|]. destruct w. by eapply marks_wf.
  - intros ty r v H. unfold protectedReferenceValue in H. result_inv. done.
Qed.

(** ** The type of a result *)

Lemma merge_type v s p : rv_Type (mergeSensitivity v s p) = rv_Type v.
Proof.
  unfold mergeSensitivity. destruct (match rv_ProtectedRef v with Some _ => _ | None => _ end) as [s1 p1].
  by destruct s1.
Qed.

Lemma scalar_literal_type ty x v : parse_scalar_literal ty x = Ok v → rv_Type v = ty.
Proof.
  unfold parse_scalar_literal. repeat (case_bool_decide; [subst ty|]).
  all: destruct x; simpl; try done; try (by intros [= <-]).
  - by destruct (Atoi s) as [?|]; [intros [= <-]|].
  - by destruct (parse_rfc3339 s) as [?|]; [intros [= <-]|].
Qed.

Lemma locate_Ok {A} path (c : result A) a : locate path c = Ok a ↔ c = Ok a.
Proof. by destruct c. Qed.

Lemma resolve_text_type cb ty text path v : resolve_text cb ty text path = Ok v → rv_Type v = ty.
Proof.
  unfold resolve_text. intros H. result_inv.
  destruct (is_empty _ && _); simpl; rewrite merge_type; by eapply scalar_literal_type.
Qed.

Lemma resolve_whole_type cb ty text path v : resolve_whole cb ty text path = Ok v → rv_Type v = ty.
Proof.
  unfold resolve_whole. intros ([next accessor] & _ & H)%bind_Ok.
  apply bind_Ok in H as (w & _ & H). apply bind_Ok in H as (? & Hty%fail_if_Ok & [= ->]).
  by apply negb_false_iff, bool_decide_eq_true in Hty.
Qed.

Lemma resolveFunctionCall_type registry cb call ty path v :
  resolveFunctionCall registry cb call ty path = Ok v → rv_Type v = ty.
Proof.
  unfold resolveFunctionCall. intros (? & _ & H)%bind_Ok.
  destruct (FunctionRegistry_Lookup _ _) as [f|]; [|done].
  apply bind_Ok in H as (args & _ & H). apply bind_Ok in H as (w & _ & H).
  apply bind_Ok in H as (? & Hty%fail_if_Ok & H).
  apply negb_false_iff, bool_decide_eq_true in Hty.
  destruct (aggregateSensitivity [] args) as [[s l] p]. result_inv.
  destruct s; simpl; [|done]. destruct (is_empty l); simpl; by rewrite merge_type.
Qed.

Lemma resolveExpression_type registry cb e path v :
  resolveExpression registry cb e path = Ok v → rv_Type v = te_Type e.
Proof.
  destruct e as [ty x]. cbn [resolveExpression te_Type]. rewrite locate_Ok. intros H.
  destruct x as [| | | | | | |call| |]; try (by eapply resolveFunctionCall_type).
  all: destruct (whole_reference _); [by eapply resolve_whole_type|].
  all: repeat case_bool_decide; try done; try (by eapply scalar_literal_type).
  - by eapply resolve_text_type.
  - apply fmap_Ok in H as (fs & _ & ->). unfold ResolvedObject.
    by destruct (aggregateSensitivity fs []) as [[??]?].
  - apply fmap_Ok in H as (l & _ & ->). unfold ResolvedList.
    by destruct (aggregateSensitivity [] l) as [[??]?].
Qed.

Lemma resolveVariable_type registry lookup n chain variable path v :
  resolveVariable registry lookup n chain variable path = Ok v →
  rv_Type v = te_Type (v_TypedExpression variable).
Proof.
  destruct n; simpl; destruct (chain_from _ chain); try done.
  destruct (v_ProtectedRef variable) as [ref|].
  - unfold protectedReferenceValue. intros H. result_inv. done.
  - intros (w & Hw & [= <-])%bind_Ok. rewrite merge_type. by eapply resolveExpression_type.
Qed.

Lemma resolveRoot_Ok r reference v :
  resolveRoot r reference = Ok v ↔
  ∃ variable, lookupVariable r reference = Some variable ∧
    resolveVariable (cfg_FunctionRegistry (rs_config r)) (lookupVariable r)
      (Z.to_nat (MaxDepth (rs_config r))) [] variable "/" = Ok v.
Proof.
  unfold resolveRoot. destruct (lookupVariable r reference) as [x|]; [|naive_solver].
  destruct (resolveVariable _ _ _ _ _ _) eqn:E; split; try (by intros (x' & [= <-] & H); congruence).
  - intros [= <-]. eauto.
  - done.
Qed.

(** ** The references of an expression *)

Definition reference_of (text : string) : option Reference :=
  match parseReferenceExpression text with Ok (reference, _) => Some reference | Err _ => None end.
Definition text_references (text : string) : list Reference :=
  match parseInterpolationTokens text with
  | Ok tokens => omap (λ token, reference_of (tok_reference token)) tokens
  | Err _ => []
  end.
Fixpoint expression_references (e : TypedExpression) : list Reference :=
  let 'mkTE ty x := e in
  match x with
  | ECall call => fa_Reference <$> fc_Arguments call
  | _ =>
      match whole_reference x with
      | Some text => option_list (reference_of text)
      | None =>
          match x with
          | EObject fields =>
              if bool_decide (ty = TypeObject)
              then concat (map (λ f, expression_references f.2) fields) else []
          | EList items =>
              if bool_decide (ty = TypeList) then concat (map expression_references items) else []
          | EString text =>
              if bool_decide (ty = TypeString ∨ ty = TypePath) then text_references text else []
          | _ => []
          end
      end
  end.

Lemma traverse_items_all {A B} (f : nat → A → result B) i l bs a :
  traverse_items f i l = Ok bs → a ∈ l → ∃ j b, f j a = Ok b.
Proof.
  revert i bs. induction l as [|x l IH]; intros i bs H Ha; [by apply elem_of_nil in Ha|].
  simpl in H. result_inv. apply elem_of_cons in Ha as [->|Ha]; eauto.
Qed.
Lemma traverse_fields_all {A B} (f : string → A → result B) l bs x :
  traverse_fields f l = Ok bs → x ∈ l → ∃ k b, f k x.2 = Ok b.
Proof.
  revert bs. induction l as [|[k a] l IH]; intros bs H Hx; [by apply elem_of_nil in Hx|].
  simpl in H. result_inv. apply elem_of_cons in Hx as [->|Hx]; eauto.
Qed.
Lemma foldM_all {S A} (f : S → A → result S) l s s' a :
  foldM f s l = Ok s' → a ∈ l → ∃ t t', f t a = Ok t'.
Proof.
  revert s. induction l as [|x l IH]; intros s H Ha; [by apply elem_of_nil in Ha|].
  simpl in H. result_inv. apply elem_of_cons in Ha as [->|Ha]; eauto.
Qed.

Lemma elem_of_concat_map {A B} (f : A → list B) l b :
  b ∈ concat (map f l) → ∃ a, a ∈ l ∧ b ∈ f a.
Proof.
  rewrite list_elem_of_In, in_concat. intros (k & (a & <- & Ha)%in_map_iff & Hb).
  exists a. by rewrite !list_elem_of_In.
Qed.

(** A successful evaluation resolved every reference of the expression. *)
Section uses.
Context (registry : FunctionRegistry) (cb : Reference → string → result ResolvedValue).

Lemma resolve_accessed_uses reference accessor path v :
  resolve_accessed cb reference accessor path = Ok v → ∃ p u, cb reference p = Ok u.
Proof. intros (u & Hu & _)%bind_Ok. eauto. Qed.

Lemma resolve_whole_uses ty text path v reference :
  resolve_whole cb ty text path = Ok v → reference_of text = Some reference →
  ∃ p u, cb reference p = Ok u.
Proof.
  unfold resolve_whole, reference_of. intros ([next accessor] & Hp%wrap_err_Ok & H)%bind_Ok.
  rewrite Hp. intros [= <-]. apply bind_Ok in H as (u & Hu & _). by eapply resolve_accessed_uses.
Qed.

Lemma resolve_text_uses ty text path v reference :
  resolve_text cb ty text path = Ok v → reference ∈ text_references text →
  ∃ p u, cb reference p = Ok u.
Proof.
  unfold resolve_text, interpolate, text_references.
  intros (st & (tokens & Ht & (st1 & Hf & _)%bind_Ok)%bind_Ok & _)%bind_Ok. rewrite Ht.
  intros (token & Hin & Href)%list_elem_of_omap.
  destruct (foldM_all _ _ _ _ _ Hf Hin) as (t & t' & Htok).
  unfold interpolate_token in Htok. apply bind_Ok in Htok as ([r a] & Hp%wrap_err_Ok & Htok).
  unfold reference_of in Href. rewrite Hp in Href. injection Href as ->.
  apply bind_Ok in Htok as (u & Hu & _). by eapply resolve_accessed_uses.
Qed.

Lemma resolveFunctionCall_uses call ty path v reference :
  resolveFunctionCall registry cb call ty path = Ok v →
  reference ∈ fa_Reference <$> fc_Arguments call → ∃ p u, cb reference p = Ok u.
Proof.
  unfold resolveFunctionCall. intros (? & _ & H)%bind_Ok (argument & -> & Harg)%list_elem_of_fmap.
  destruct (FunctionRegistry_Lookup _ _) as [f|]; [|done].
  apply bind_Ok in H as (args & Hargs & _).
  destruct (traverse_items_all _ _ _ _ _ Hargs Harg) as (j & b & Hb).
  by eapply resolve_accessed_uses.
Qed.

Lemma resolveExpression_uses e path v reference :
  resolveExpression registry cb e path = Ok v → reference ∈ expression_references e →
  ∃ p u, cb reference p = Ok u.
Proof.
  revert path v. induction e as [ty fields IH|ty items IH|ty x Hx1 Hx2] using TypedExpression_ind';
    intros path v; cbn [resolveExpression expression_references]; rewrite locate_Ok; simpl.
  - case_bool_decide; [|intros _ []%elem_of_nil].
    intros (fs & Hfs & _)%fmap_Ok (f & Hf & Hin)%elem_of_concat_map.
    destruct (traverse_fields_all _ _ _ _ Hfs Hf) as (k & b & Hb).
    rewrite Forall_forall in IH. by eapply IH.
  - case_bool_decide; [done|]. case_bool_decide; [|intros _ []%elem_of_nil].
    intros (bs & Hbs & _)%fmap_Ok (f & Hf & Hin)%elem_of_concat_map.
    destruct (traverse_items_all _ _ _ _ _ Hbs Hf) as (k & b & Hb).
    rewrite Forall_forall in IH. by eapply IH.
  - intros H Hin.
    destruct x; try (by destruct (Hx1 _ eq_refl)); try (by destruct (Hx2 _ eq_refl));
      try (by apply elem_of_nil in Hin); [|by eapply resolveFunctionCall_uses].
    destruct (whole_reference _) as [text|].
    + eapply resolve_whole_uses; [exact H|]. by destruct (reference_of text); [apply list_elem_of_singleton in Hin as ->|apply elem_of_nil in Hin].
    + repeat case_bool_decide; try (by apply elem_of_nil in Hin); [..|by eapply resolve_text_uses]; done.
Qed.
End uses.

(** ** Theorems *)

(** One variable refers to another when its definition mentions it. *)
Definition refers (lookup : Reference → option Var) (v w : Var) : Prop :=
  v_ProtectedRef v = None ∧
  ∃ reference, reference ∈ expression_references (v_TypedExpression v) ∧ lookup reference = Some w.
(** A walk along references that starts at [v]. *)
Fixpoint follows (lookup : Reference → option Var) (v : Var) (walk : list Var) : Prop :=
  match walk with
  | [] => True
  | w :: walk' => refers lookup v w ∧ follows lookup w walk'
  end.

Lemma chain_from_None name chain : chain_from name chain = None ↔ name ∉ chain.
Proof.
  induction chain as [|n chain IH]; simpl; [split; [intros _ []%elem_of_nil|done]|].
  rewrite not_elem_of_cons. case_decide; naive_solver.
Qed.

Lemma resolveVariable_walk registry lookup n chain v path value walk :
  resolveVariable registry lookup n chain v path = Ok value → follows lookup v walk →
  NoDup (v_Name <$> v :: walk) ∧ length (v :: walk) ≤ n ∧ ∀ u, u ∈ v :: walk → v_Name u ∉ chain.
Proof.
  revert n chain v path value. induction walk as [|w walk IH]; intros n chain v path value Hv Hwalk.
  all: destruct n as [|n]; simpl in Hv; destruct (chain_from (v_Name v) chain) eqn:Hc; try done.
  all: apply chain_from_None in Hc.
  - split_and!; [apply NoDup_singleton|simpl; lia|]. by intros u ->%list_elem_of_singleton.
  - destruct Hwalk as [(Hp & reference & Hin & Hw) Hwalk]. rewrite Hp in Hv.
    apply bind_Ok in Hv as (x & Hx & _).
    destruct (resolveExpression_uses _ _ _ _ _ _ Hx Hin) as (p & u & Hu).
    unfold resolveReference in Hu. rewrite Hw in Hu.
    destruct (IH _ _ _ _ _ Hu Hwalk) as (Hnd & Hlen & Hch). split_and!.
    + rewrite fmap_cons. apply NoDup_cons. split; [|exact Hnd].
      intros (u' & Hname & Hu')%list_elem_of_fmap. apply (Hch u' Hu'). rewrite <- Hname.
      apply elem_of_app. right. by apply list_elem_of_singleton.
    + simpl in *. lia.
    + intros u' [->|Hu']%elem_of_cons; [done|]. intros Hbad. apply (Hch u' Hu'). by apply elem_of_app; left.
Qed.

(** One step of a resolution that is on no cycle and within the depth. *)
Lemma resolveVariable_step registry lookup n chain v path :
  v_Name v ∉ chain → v_ProtectedRef v = None →
  resolveVariable registry lookup (S n) chain v path =
    evaluate registry
      (resolveReference lookup (resolveVariable registry lookup n (chain ++ [v_Name v]))) v path.
Proof. intros Hc%chain_from_None Hp. cbn [resolveVariable]. by rewrite Hc, Hp. Qed.

(** A small configuration: a nested object, a secret, a function call, a chain. *)
Definition demo_var (key : string) (ty : VType) (x : expr) (sensitive : bool) : Var :=
  mkVar (mkName "workflow" key) (mkTE ty x) sensitive None.
Definition demo_scope (secret : string) : Scope :=
  default ∅ (match NewScope
    [ demo_var "token" TypeString (EString secret) true;
      demo_var "url" TypeString (EString "https://h/${region}?k=${workflow.token}") false;
      demo_var "region" TypeString (EString "${settings.regions[1]}") false;
      demo_var "settings" TypeObject
        (EObject [("regions", mkTE TypeList (EList [mkTE TypeString (EString "n");
                                                    mkTE TypeString (EString "s")]))]) false;
      demo_var "pairs" TypeList
        (ECall (mkCall (mkFn "list" "crossproduct") TypeList
           [mkArg "settings.regions" (mkRef (mkName "" "settings") false) ".regions";
            mkArg "settings.regions" (mkRef (mkName "" "settings") false) ".regions"])) false ]
   with Ok s => Some s | Err _ => None end).
Definition demo_resolver (secret : string) (depth : Z) : Resolver :=
  NewResolver (NewSet [demo_scope secret]) (mkConfig depth None DefaultFunctionRegistry).
Definition demo_ref (key : string) : Reference := mkRef (mkName "" key) false.

(** C26: A resolved value has the type its variable declares, and is well formed:
    the payload has the Go type the readers assert, composites hold well-formed
    children, a protected reference holds no value, and any composite with a
    sensitive part is marked sensitive itself. *)
Theorem resolve_well_formed r reference value :
  cfg_FunctionRegistry (rs_config r) = DefaultFunctionRegistry →
  Resolve r reference = Ok value →
  ∃ variable, lookupVariable r reference = Some variable ∧
    rv_Type value = te_Type (v_TypedExpression variable) ∧ well_formed value = true.
Proof.
  intros Hreg (variable & Hl & Hv)%resolveRoot_Ok. exists variable. split_and!; [done| |].
  { by eapply resolveVariable_type. }
  pose proof (resolveVariable_rel true well_formed_rel eq DefaultFunctionRegistry
    (lookupVariable r) (lookupVariable r) (lookup_refl _ _ _ _)
    (Z.to_nat (MaxDepth (rs_config r))) _ [] variable variable "/" (or_introl eq_refl)) as H.
  rewrite Hreg in Hv. rewrite Hv in H. apply H. split; [done|]. by left.
Qed.

Lemma resolve_well_formed_witness :
  cfg_FunctionRegistry (rs_config (demo_resolver "hush" 0)) = DefaultFunctionRegistry ∧
  ∃ value, Resolve (demo_resolver "hush" 0) (demo_ref "url") = Ok value ∧
    rv_Value value = VString "https://h/s?k=hush" ∧ well_formed value = true.
Proof.
  split; [reflexivity|].
  destruct (is_Ok_exists (Resolve (demo_resolver "hush" 0) (demo_ref "url"))) as [value Hv];
    [vm_compute; reflexivity|].
  exists value. split; [exact Hv|].
  destruct (resolve_well_formed (demo_resolver "hush" 0) (demo_ref "url") value eq_refl Hv)
    as (_ & _ & _ & Hwf).
  split; [|exact Hwf].
  assert (rv_Value <$> Resolve (demo_resolver "hush" 0) (demo_ref "url")
          = Ok (VString "https://h/s?k=hush")) as H by (vm_compute; reflexivity).
  rewrite Hv in H. by injection H.
Defined.

(** Raising the depth limit never changes a value: what resolves within a limit
    resolves to the same value within every larger one. *)
Theorem resolve_depth_monotone set environment registry depth depth' reference value :
  (0 < depth ≤ depth')%Z →
  Resolve (NewResolver set (mkConfig depth environment registry)) reference = Ok value →
  Resolve (NewResolver set (mkConfig depth' environment registry)) reference = Ok value.
Proof.
  intros Hd (variable & Hl & Hv)%resolveRoot_Ok. apply resolveRoot_Ok. exists variable.
  unfold NewResolver in *. simpl in *.
  destruct (Z.eqb_spec depth 0); [lia|]. destruct (Z.eqb_spec depth' 0); [lia|].
  set (lookup := lookupVariable _) in *. split; [exact Hl|].
  pose proof (resolveVariable_rel false eq eq registry lookup lookup (lookup_refl _ _ _ _)
    (Z.to_nat depth) (Z.to_nat depth') [] variable variable "/") as H.
  rewrite Hv in H. simpl in H. fold lookup. unfold res_rel in H.
  change (lookupVariable _) with lookup.
  destruct (resolveVariable registry lookup (Z.to_nat depth') [] variable "/"); [|exfalso].
  - f_equal. symmetry. apply H; [right; split; [done|lia]|]. split; [done|]. by left.
  - apply H; [right; split; [done|lia]|]. split; [done|]. by left.
Qed.

Lemma resolve_depth_monotone_witness :
  (0 < 3 ≤ 7)%Z ∧ ∃ value,
    Resolve (demo_resolver "hush" 3) (demo_ref "url") = Ok value ∧
    Resolve (demo_resolver "hush" 7) (demo_ref "url") = Ok value ∧
    is_Ok (Resolve (demo_resolver "hush" 2) (demo_ref "url")) = false.
Proof.
  split; [lia|].
  destruct (is_Ok_exists (Resolve (demo_resolver "hush" 3) (demo_ref "url"))) as [value Hv];
    [vm_compute; reflexivity|].
  exists value. split; [exact Hv|]. split; [|vm_compute; reflexivity].
  apply (resolve_depth_monotone (NewSet [demo_scope "hush"]) None DefaultFunctionRegistry 3 7
    (demo_ref "url") value); [lia|exact Hv].
Defined.

(** C27: A variable that resolves starts no cycle: on every walk along the references
    its definition leads to, the names are pairwise different and the walk visits at
    most [MaxDepth] variables.  So a variable on or before a cycle never resolves. *)
Theorem resolve_acyclic r reference value variable walk :
  Resolve r reference = Ok value → lookupVariable r reference = Some variable →
  follows (lookupVariable r) variable walk →
  NoDup (v_Name <$> variable :: walk) ∧
  (Z.of_nat (length (variable :: walk)) ≤ MaxDepth (rs_config r))%Z.
Proof.
  intros (v & Hl & Hv)%resolveRoot_Ok Hl' Hwalk. rewrite Hl in Hl'. injection Hl' as ->.
  destruct (resolveVariable_walk _ _ _ _ _ _ _ _ Hv Hwalk) as (Hnd & Hlen & _).
  split; [done|]. simpl in *. lia.
Qed.

Lemma resolve_acyclic_witness :
  ∃ walk, length walk = 2 ∧
    follows (lookupVariable (demo_resolver "hush" 3))
      (demo_var "url" TypeString (EString "https://h/${region}?k=${workflow.token}") false) walk ∧
    (Z.of_nat (S (length walk)) ≤ 3)%Z.
Proof.
  set (r := demo_resolver "hush" 3).
  set (url := demo_var "url" TypeString (EString "https://h/${region}?k=${workflow.token}") false).
  destruct (is_Ok_exists (Resolve r (demo_ref "url"))) as [value Hv]; [vm_compute; reflexivity|].
  assert (∀ v key w, lookupVariable r (demo_ref key) = Some w → v_ProtectedRef v = None →
    bool_decide (demo_ref key ∈ expression_references (v_TypedExpression v)) = true →
    refers (lookupVariable r) v w) as Hrefers.
  { intros v key w Hw Hp Hb. split; [exact Hp|]. exists (demo_ref key).
    split; [by apply bool_decide_eq_true in Hb|exact Hw]. }
  destruct (lookupVariable r (demo_ref "region")) as [region|] eqn:E1; [|vm_compute in E1; discriminate E1].
  destruct (lookupVariable r (demo_ref "settings")) as [settings|] eqn:E2; [|vm_compute in E2; discriminate E2].
  assert (follows (lookupVariable r) url [region; settings]) as Hwalk.
  { split; [apply (Hrefers url "region"); [exact E1|reflexivity|vm_compute; reflexivity]|].
    split; [|exact I]. apply (Hrefers region "settings"); [exact E2| |];
      vm_compute in E1; injection E1 as <-; vm_compute; reflexivity. }
  exists [region; settings]. split; [reflexivity|]. split; [exact Hwalk|].
  destruct (resolve_acyclic r (demo_ref "url") value url [region; settings] Hv) as [_ H];
    [vm_compute; reflexivity|exact Hwalk|exact H].
Defined.
