(* ===== verification/Scopes.v ===== *)
(** * Precedence of scopes ([scope.go], [reference.go])

    What a merged set finds for a key and for a qualified name, and the reading and
    printing of references. *)

From S2P Require Import Prelude GoTime GoStrings Variables Expression.
Local Open Scope nat_scope.

(** The answer of the last element that has one. *)
Definition last_match {A B} (f : A → option B) (l : list A) : option B :=
  foldl (λ acc a, match f a with Some b => Some b | None => acc end) None l.

Lemma last_match_snoc {A B} (f : A → option B) l a :
  last_match f (l ++ [a]) = match f a with Some b => Some b | None => last_match f l end.
Proof. unfold last_match. by rewrite foldl_app. Qed.

Lemma last_match_Some {A B} (f : A → option B) l b :
  last_match f l = Some b ↔
  ∃ before a after, l = before ++ a :: after ∧ f a = Some b ∧ ∀ a', a' ∈ after → f a' = None.
Proof.
  induction l as [|a l IH] using rev_ind.
  { split; [done|]. by intros ([|] & ? & ? & ? & _). }
  rewrite last_match_snoc. destruct (f a) as [b'|] eqn:Ha; [|rewrite IH]; split.
  - intros [= ->]. exists l, a, []. split_and!; [done..|]. intros a' []%elem_of_nil.
  - intros (before & a0 & after & Heq & Ha0 & Hafter).
    destruct after as [|z after _] using rev_ind.
    + apply app_inj_tail in Heq as [_ ->]. congruence.
    + rewrite app_comm_cons, app_assoc in Heq. apply app_inj_tail in Heq as [_ <-].
      rewrite Hafter in Ha; [done|]. apply elem_of_app. right. by apply list_elem_of_singleton.
  - intros (before & a0 & after & -> & Ha0 & Hafter). exists before, a0, (after ++ [a]).
    split_and!; [by rewrite <- app_assoc|done|].
    intros a' [H| ->%list_elem_of_singleton]%elem_of_app; [by apply Hafter|done].
  - intros (before & a0 & after & Heq & Ha0 & Hafter).
    destruct after as [|z after _] using rev_ind.
    + apply app_inj_tail in Heq as [_ ->]. congruence.
    + rewrite app_comm_cons, app_assoc in Heq. apply app_inj_tail in Heq as [-> <-].
      exists before, a0, after. split_and!; [done..|]. intros a' H. apply Hafter, elem_of_app. by left.
Qed.

Lemma Lookup_NewSet scopes key :
  Lookup (NewSet scopes) key = last_match (λ scope : Scope, scope !! key) scopes.
Proof.
  unfold Lookup, NewSet, Merge. simpl.
  induction scopes as [|s scopes IH] using rev_ind; [apply lookup_empty|].
  rewrite foldl_app, last_match_snoc. simpl. unfold Scope in *. rewrite lookup_union, IH.
  by destruct (s !! key), (last_match _ scopes).
Qed.

(** The variable a scope has for a qualified name. *)
Definition scope_name (name : Name) (scope : Scope) : option Var :=
  match scope !! n_Key name with
  | Some v => if decide (n_Namespace (v_Name v) = n_Namespace name) then Some v else None
  | None => None
  end.
Definition filed (scopes : gmap string Scope) (name : Name) : option Var :=
  scope ← scopes !! n_Namespace name; (scope : Scope) !! n_Key name.

Lemma file_variable_filed key v scopes name :
  filed (file_variable key v scopes) name =
    if decide (n_Namespace (v_Name v) = n_Namespace name ∧ key = n_Key name) then Some v
    else filed scopes name.
Proof.
  unfold filed, file_variable, Scope in *. destruct name as [ns k]; simpl.
  destruct (decide (n_Namespace (v_Name v) = ns)) as [->|Hns].
  - rewrite lookup_insert_eq. simpl. destruct (decide (key = k)) as [->|Hk].
    + rewrite lookup_insert_eq. by rewrite decide_True by done.
    + rewrite lookup_insert_ne by done. rewrite decide_False by tauto.
      by destruct (scopes !! ns).
  - rewrite lookup_insert_ne by done. by rewrite decide_False by tauto.
Qed.

Lemma map_fold_filed (scope : Scope) scopes name :
  filed (map_fold file_variable scopes scope) name =
    match scope_name name scope with Some v => Some v | None => filed scopes name end.
Proof.
  apply (map_fold_weak_ind (λ r m, filed r name =
    match scope_name name m with Some v => Some v | None => filed scopes name end)).
  - unfold scope_name, Scope. by rewrite lookup_empty.
  - intros key v m r Hm Hr. rewrite file_variable_filed, Hr. unfold scope_name, Scope.
    destruct (decide (key = n_Key name)) as [->|Hk].
    + rewrite lookup_insert_eq, Hm. repeat case_decide; tauto.
    + rewrite lookup_insert_ne by done. rewrite decide_False by tauto. done.
Qed.

Lemma LookupName_NewSet scopes name :
  LookupName (NewSet scopes) name = last_match (scope_name name) scopes.
Proof.
  change (LookupName (NewSet scopes) name) with (filed (set_scopes (NewSet scopes)) name).
  unfold NewSet. simpl.
  induction scopes as [|s scopes IH] using rev_ind; [reflexivity|].
  by rewrite foldl_app, last_match_snoc; simpl; rewrite map_fold_filed, IH.
Qed.

(** The variable a scope offers for a reference. *)
Definition scope_lookup (reference : Reference) (scope : Scope) : option Var :=
  if r_Qualified reference then scope_name (r_Name reference) scope
  else scope !! n_Key (r_Name reference).

Lemma LookupReference_NewSet scopes reference :
  LookupReference (NewSet scopes) reference = last_match (scope_lookup reference) scopes.
Proof.
  unfold LookupReference, scope_lookup. destruct (r_Qualified reference).
  - apply LookupName_NewSet.
  - apply Lookup_NewSet.
Qed.

(** In a set made of scopes, a reference finds the variable of the last scope
    that has one: for an unqualified reference, one with the key; for a qualified
    reference, one with the key whose own namespace is the one named.  No earlier
    scope and no variable of another namespace can shadow it. *)
Theorem last_scope_wins scopes reference v :
  LookupReference (NewSet scopes) reference = Some v ↔
  ∃ before scope after, scopes = before ++ scope :: after ∧
    scope_lookup reference scope = Some v ∧
    ∀ later, later ∈ after → scope_lookup reference later = None.
Proof. rewrite LookupReference_NewSet. apply last_match_Some. Qed.

(** ** References as text *)

(** A reference [ParseReference] can return: a valid qualified name, or a key,
    without periods. *)
Definition well_formed_reference (r : Reference) : Prop :=
  n_Key (r_Name r) ≠ "" ∧ has_byte "."%char (n_Key (r_Name r)) = false ∧
  if r_Qualified r then Namespace_Valid (n_Namespace (r_Name r)) = true
  else n_Namespace (r_Name r) = "".

Lemma valid_namespace_no_period ns : Namespace_Valid ns = true → has_byte "."%char ns = false.
Proof.
  unfold Namespace_Valid. rewrite bool_decide_eq_true. intros H.
  assert (forallb (λ n, negb (has_byte "."%char n)) (Precedence ++ deprecated_namespaces) = true)
    as Hall by reflexivity.
  rewrite forallb_forall in Hall. apply list_elem_of_In, Hall in H. by apply negb_true_iff.
Qed.

Lemma is_empty_false s : is_empty s = false ↔ s ≠ "".
Proof. unfold is_empty. by rewrite bool_decide_eq_false. Qed.

Lemma app_nonempty_r s t : t ≠ "" → s +:+ t ≠ "".
Proof. by destruct s. Qed.

(** References are read and printed faithfully: what [ParseReference] accepts is
    the text [String] prints of the reference it returns, the reference is well
    formed, and every well-formed reference is read back from its text. *)
Theorem ParseReference_roundtrip text r :
  ParseReference text = Ok r ↔ well_formed_reference r ∧ Reference_String r = text.
Proof.
  unfold ParseReference, well_formed_reference, Reference_String. split.
  - intros (? & Hne%fail_if_Ok & H)%bind_Ok.
    pose proof (join_split_byte "."%char text) as Hjoin.
    pose proof (split_byte_parts "."%char text) as Hparts.
    destruct (split_byte "."%char text) as [|p [|q [|]]]; try done.
    + apply bind_Ok in H as (? & Hk%fail_if_Ok & [= <-]). apply is_empty_false in Hk. split_and!; try done. apply Hparts. by left.
    + apply bind_Ok in H as (? & (? & Hns%fail_if_Ok & Hk%fail_if_Ok)%bind_Ok & [= <-]).
      apply is_empty_false in Hk. apply negb_false_iff in Hns. split_and!; try done. apply Hparts. right. by left.
  - destruct r as [[ns key] q]. simpl. intros [(Hne & Hper & Hns) <-]. destruct q.
    + unfold Name_String. simpl.
      rewrite (proj2 (is_empty_false (ns +:+ "." +:+ key))) by (by apply app_nonempty_r).
      simpl. change (ns +:+ "." +:+ key) with (ns +:+ String "."%char key).
      rewrite split_byte_app by by apply valid_namespace_no_period.
      rewrite split_byte_none by done. unfold Name_Validate. simpl. rewrite Hns.
      rewrite (proj2 (is_empty_false key)) by done. done.
    + subst ns. rewrite (proj2 (is_empty_false key)) by done. simpl.
      rewrite split_byte_none by done. by rewrite (proj2 (is_empty_false key)) by done.
Qed.
