(* ===== verification/Redaction.v ===== *)
(** * Redaction ([sensitivity.go] with [resolver.go])

    What [MarshalJSON] shows of a resolved value does not depend on the payloads of
    sensitive scalar variables, however they are referenced, interpolated, accessed
    or passed to functions, and neither does the error of a failing resolution.  The
    guarantee stops at composites: a field of a sensitive object, taken by an
    accessor, is not marked. *)

From S2P Require Import Prelude GoTime GoStrings Variables Expression Functions Resolver ResolverRel ResolverTyping Scopes.
Local Open Scope nat_scope.

(** ** Erasing secrets *)

Definition blank (value : scalar) : scalar :=
  match value with
  | VNil => VNil
  | VString _ => VString ""
  | VInt _ => VInt 0
  | VBool _ => VBool false
  | VTime _ => VTime (mkTime 0 0 0 0 0 0 0 0)
  end.
Fixpoint erase (v : ResolvedValue) : ResolvedValue :=
  match v with
  | mkRV ty value fields items sensitive label provenance ref =>
      mkRV ty (if sensitive then blank value else value)
        (map (λ f, (f.1, erase f.2)) fields) (map erase items) sensitive label provenance ref
  end.
(** Equal up to the payloads of values marked sensitive. *)
Definition public_eq (v w : ResolvedValue) : Prop := erase v = erase w.

Lemma blank_blank x : blank (blank x) = blank x.
Proof. by destruct x. Qed.

Lemma erase_erase v : erase (erase v) = erase v.
Proof.
  induction v as [ty v fields items s l p r Hf Hl] using ResolvedValue_ind'. simpl. f_equal.
  - destruct s; [apply blank_blank|done].
  - induction Hf as [|[k f] fs Hk Hfs IH]; simpl in *; [done|]. by rewrite Hk, IH.
  - induction Hl as [|f fs Hk Hfs IH]; simpl; [done|]. by rewrite Hk, IH.
Qed.

Lemma map_erase_Forall2 l k : Forall2 public_eq l k ↔ map erase l = map erase k.
Proof.
  split.
  - induction 1 as [|v w l k Hvw _ IH]; simpl; [done|]. by rewrite IH, Hvw.
  - revert k. induction l as [|v l IH]; intros [|w k]; simpl; try done. intros [= Hvw Hlk].
    constructor; [done|auto].
Qed.
Lemma map_erase_fields fs gs :
  Forall2 (field_rel public_eq) fs gs ↔
  map (λ f, (f.1, erase f.2)) fs = map (λ f, (f.1, erase f.2)) gs.
Proof.
  split.
  - induction 1 as [|[k v] [k' w] l l' [Hk Hvw] _ IH]; simpl in *; [done|]. by rewrite IH, Hvw, Hk.
  - revert gs. induction fs as [|[k v] l IH]; intros [|[k' w] l']; simpl; try done.
    intros [= -> Hvw Hlk]. constructor; [done|auto].
Qed.

(** A value, its children erased, with new marks. *)
Lemma erase_marks v w s l p :
  public_eq v w →
  public_eq
    (mkRV (rv_Type v) (rv_Value v) (rv_Object v) (rv_List v) s l p (rv_ProtectedRef v))
    (mkRV (rv_Type w) (rv_Value w) (rv_Object w) (rv_List w) s l p (rv_ProtectedRef w)) ∨
  (rv_Sensitive v = true ∧ s = false).
Proof.
  destruct v as [ty x fs items s1 l1 p1 r], w as [ty' x' fs' items' s2 l2 p2 r'].
  unfold public_eq. simpl. intros [= -> Hx -> -> -> -> -> ->].
  destruct s2, s; auto; left; by rewrite Hx.
Qed.

Lemma erase_text v : res_rel true (λ _ _, True) (interpolationText v) (interpolationText (erase v)).
Proof.
  destruct v as [ty x fs items s l p r]. unfold interpolationText. simpl.
  repeat case_bool_decide; try done; destruct x, s; done.
Qed.

Lemma blank_merge v w s p :
  public_eq v w → public_eq (mergeSensitivity v s p) (mergeSensitivity w s p).
Proof.
  intros Hvw. pose proof Hvw as H.
  destruct v as [ty x fs items s1 l1 p1 r], w as [ty' x' fs' items' s2 l2 p2 r'].
  unfold public_eq in H. simpl in H. injection H as -> Hx Hfs Hitems -> -> -> ->.
  unfold mergeSensitivity. simpl.
  destruct (match r' with Some _ => _ | None => _ end) as [s3 p3]. destruct s3; simpl; [|done].
  destruct (erase_marks _ _ true
    (if is_empty l2 then match r' with Some r => RedactionLabelValue r | None => redactionLabelForProvenance p3 end else l2)
    (if is_empty p2 then p3 else p2) Hvw) as [H|[_ [=]]]. exact H.
Qed.

Lemma public_marks v w : public_eq v w → same_marks v w.
Proof. destruct v, w. unfold public_eq, same_marks. simpl. by intros [=]. Qed.
Lemma public_marks_fields fs gs :
  Forall2 (field_rel public_eq) fs gs → Forall2 same_marks fs.*2 gs.*2.
Proof. induction 1 as [|f g ?? [_ H]]; csimpl; constructor; [by apply public_marks|done]. Qed.

#[export] Instance public_ValueRelation : ValueRelation public_eq (λ _ _, True).
Proof.
  split; try done.
  - intros [] [] [=]. done.
  - apply public_marks.
  - intros [] [] [= _ _ H _ _ _ _ _]. by apply map_erase_fields.
  - intros [] [] [= _ _ _ H _ _ _ _]. by apply map_erase_Forall2.
  - intros v w Hvw. pose proof (erase_text v) as H1. pose proof (erase_text w) as H2.
    rewrite Hvw in H1. destruct (interpolationText v), (interpolationText w),
      (interpolationText (erase w)); simpl in *; try done. intros. by rewrite H1, H2.
  - intros [ty x fs items s l p r] [ty' x' fs' items' s' l' p' r'].
    unfold public_eq. simpl. intros [= -> Hx _ _ <- _ _ _] ->. subst x'. done.
  - intros fs gs Hfg. unfold ResolvedObject.
    rewrite (aggregateSensitivity_marks fs gs [] []); [|by apply public_marks_fields|constructor].
    destruct (aggregateSensitivity gs []) as [[s l] p]. unfold public_eq. simpl.
    apply map_erase_fields in Hfg. by rewrite Hfg.
  - intros l k Hlk. unfold ResolvedList.
    rewrite (aggregateSensitivity_marks [] [] l k);
      [|constructor|by eapply Forall2_impl; [|apply public_marks]].
    destruct (aggregateSensitivity [] k) as [[s la] p]. unfold public_eq. simpl.
    apply map_erase_Forall2 in Hlk. by rewrite Hlk.
  - intros v w s p. apply blank_merge.
  - intros v w l Hvw. unfold set_label. pose proof (public_marks _ _ Hvw) as (Hs & _ & Hp & Hr).
    destruct (erase_marks v w (rv_Sensitive v) l (rv_Provenance v) Hvw) as [H|[Ht Hf]]; [|congruence].
    by rewrite <- Hs, <- Hp.
Qed.

(** What is shown depends on the erased value only. *)
Lemma safeJSON_erase v : safeJSON (erase v) = safeJSON v.
Proof.
  induction v as [ty v fields items s l p r Hf Hl] using ResolvedValue_ind'.
  cbn [erase safeJSON]. unfold isSensitive, redactionLabel, resolvedProvenance. simpl.
  repeat case_decide; f_equal.
  - induction Hf as [|[k f] fs Hk Hfs IH]; simpl in *; [done|]. by rewrite Hk, IH.
  - induction Hl as [|f fs Hk Hfs IH]; csimpl; [done|]. by rewrite Hk, IH.
  - by destruct r, s.
Qed.

(** ** Sensitive scalars *)

(** A literal of a scalar type: text without tokens, a number or a boolean. *)
Definition secret_literal (ty : VType) (x : expr) : bool :=
  match x with
  | EString text =>
      bool_decide (parseInterpolationTokens text = Ok []) &&
      (bool_decide (ty = TypeString ∨ ty = TypePath)
       || bool_decide (ty = TypeDatetime) && valid_timestamp (unescapeExpression text))
  | EInt _ => bool_decide (ty = TypeInt)
  | ENumber text => bool_decide (ty = TypeInt) && bool_decide (is_Some (Atoi text))
  | EBool _ => bool_decide (ty = TypeBool)
  | _ => false
  end.

Lemma no_tokens_whole text :
  parseInterpolationTokens text = Ok [] → wholeValueReferenceExpression text = None.
Proof. unfold wholeValueReferenceExpression. by intros ->. Qed.

Lemma resolve_text_literal cb ty text path :
  ty = TypeString ∨ ty = TypePath → parseInterpolationTokens text = Ok [] →
  resolve_text cb ty text path = Ok (plain ty (VString (unescapeExpression text))).
Proof.
  intros Hty Ht. unfold resolve_text, interpolate. rewrite Ht. simpl.
  rewrite parse_text by done. reflexivity.
Qed.

Lemma secret_evaluates registry cb ty x path :
  secret_literal ty x = true →
  ∃ value, resolveExpression registry cb (mkTE ty x) path = Ok (plain ty value) ∧
    scalar_has_type ty value = true.
Proof.
  intros H. destruct x as [text|z|text|b| | | | | |]; try discriminate H; cbn [secret_literal] in H.
  - apply andb_true_iff in H as [Ht%bool_decide_eq_true H].
    cbn [resolveExpression whole_reference]. rewrite (no_tokens_whole _ Ht).
    apply orb_true_iff in H as [Hty%bool_decide_eq_true|[->%bool_decide_eq_true Hv]%andb_true_iff].
    + exists (VString (unescapeExpression text)).
      pose proof (resolve_text_literal cb ty text path Hty Ht) as E.
      destruct Hty as [->| ->]; simpl; rewrite E; done.
    + unfold valid_timestamp in Hv.
      destruct (parse_rfc3339 (unescapeExpression text)) as [t|] eqn:E; [|done].
      exists (VTime t). simpl. unfold parse_scalar_literal. simpl. rewrite E. done.
  - apply bool_decide_eq_true in H as ->. by exists (VInt z).
  - apply andb_true_iff in H as [->%bool_decide_eq_true [z Hz]%bool_decide_eq_true].
    exists (VInt z). simpl. unfold parse_scalar_literal. simpl. by rewrite Hz.
  - apply bool_decide_eq_true in H as ->. by exists (VBool b).
Qed.

Lemma blank_of_type ty x y :
  scalar_has_type ty x = true → scalar_has_type ty y = true → blank x = blank y.
Proof.
  destruct x, y; simpl; try done; rewrite !bool_decide_eq_true; intros; destruct_or?; subst; done.
Qed.

(** Two variables an observer must not tell apart: equal, or two definitions of the
    same sensitive scalar. *)
Definition interchangeable (v w : Var) : Prop :=
  v = w ∨
  (v_Name v = v_Name w ∧ te_Type (v_TypedExpression v) = te_Type (v_TypedExpression w) ∧
   v_Sensitive v = true ∧ v_Sensitive w = true ∧ v_ProtectedRef v = None ∧ v_ProtectedRef w = None ∧
   secret_literal (te_Type (v_TypedExpression v)) (te_Expression (v_TypedExpression v)) = true ∧
   secret_literal (te_Type (v_TypedExpression w)) (te_Expression (v_TypedExpression w)) = true).

Lemma interchangeable_related strict registry v w :
  interchangeable v w → related_variables strict public_eq registry v w.
Proof.
  intros [->|(Hn & Hty & Hs & Hs' & Hp & Hp' & Hl & Hl')]; [by split; [|left]|].
  split; [done|]. right. split_and!; [done..|]. intros cb1 cb2 path. unfold evaluate.
  destruct (v_TypedExpression v) as [ty x], (v_TypedExpression w) as [ty' x']. simpl in *. subst ty'.
  destruct (secret_evaluates registry cb1 ty x path Hl) as (y & Hy & Hty).
  destruct (secret_evaluates registry cb2 ty x' path Hl') as (y' & Hy' & Hty').
  cbn [resolveExpression] in *. rewrite Hy, Hy', Hs, Hs', Hn. simpl.
  unfold public_eq. simpl. by rewrite (blank_of_type ty y y').
Qed.

(** Scopes with the same keys and interchangeable variables. *)
Definition same_public (s1 s2 : Scope) : Prop :=
  ∀ key : string, option_Forall2 interchangeable (s1 !! key) (s2 !! key).

Lemma scope_lookup_public s1 s2 reference :
  same_public s1 s2 →
  option_Forall2 interchangeable (scope_lookup reference s1) (scope_lookup reference s2).
Proof.
  intros H. unfold scope_lookup, scope_name. specialize (H (n_Key (r_Name reference))).
  destruct (r_Qualified reference); [|exact H].
  destruct H as [v w Hvw|]; [|constructor].
  assert (v_Name v = v_Name w) as -> by (destruct Hvw as [->|(? & _)]; done).
  case_decide; by constructor.
Qed.

Lemma LookupReference_public scopes1 scopes2 reference :
  Forall2 same_public scopes1 scopes2 →
  option_Forall2 interchangeable (LookupReference (NewSet scopes1) reference)
    (LookupReference (NewSet scopes2) reference).
Proof.
  rewrite !LookupReference_NewSet. unfold last_match. intros H.
  generalize (None_Forall2 interchangeable). generalize (@None Var) at 1 3.
  generalize (@None Var). intros acc2 acc1 Hacc. revert acc1 acc2 Hacc.
  induction H as [|s1 s2 l1 l2 Hs Hl IH]; intros acc1 acc2 Hacc; simpl; [done|].
  apply IH. destruct (scope_lookup_public _ _ reference Hs); [by constructor|done].
Qed.

Lemma lookupVariable_public scopes1 scopes2 config strict registry reference :
  Forall2 same_public scopes1 scopes2 →
  option_Forall2 (related_variables strict public_eq registry)
    (lookupVariable (NewResolver (NewSet scopes1) config) reference)
    (lookupVariable (NewResolver (NewSet scopes2) config) reference).
Proof.
  intros H%(LookupReference_public _ _ reference).
  assert (option_Forall2 (related_variables strict public_eq registry)
    (lookupControllerEnvironment (NewResolver (NewSet scopes1) config) (n_Key (r_Name reference)))
    (lookupControllerEnvironment (NewResolver (NewSet scopes2) config) (n_Key (r_Name reference))))
    as Henv.
  { unfold lookupControllerEnvironment. simpl. destruct (ControllerEnvironmentLookup config) as [f|];
      simpl; [|constructor]. destruct (f _); constructor. apply interchangeable_related. by left. }
  unfold lookupVariable. destruct (_ && _); [exact Henv|]. simpl.
  destruct H as [v w Hvw|]; [constructor; by apply interchangeable_related|].
  by destruct (r_Qualified reference); [constructor|].
Qed.

(** C6: Secrets do not influence what is shown.  Take two configurations that differ
    only in the values of sensitive scalar variables.  Resolving any reference
    either succeeds in both, with the same redacted JSON, or fails in both, with the
    same error. *)
Theorem redaction_hides_secrets scopes1 scopes2 depth environment reference :
  Forall2 same_public scopes1 scopes2 →
  let resolve scopes :=
    Resolve (NewResolver (NewSet scopes) (mkConfig depth environment DefaultFunctionRegistry))
      reference in
  match resolve scopes1, resolve scopes2 with
  | Ok v, Ok w => safeJSON v = safeJSON w
  | Err e, Err e' => e = e'
  | _, _ => False
  end.
Proof.
  intros Hs resolve. unfold resolve, Resolve, resolveRoot.
  set (config := mkConfig depth environment DefaultFunctionRegistry).
  assert (∀ reference, _) as Hl
    by (intros ref; exact (lookupVariable_public scopes1 scopes2 config true DefaultFunctionRegistry ref Hs)).
  pose proof (Hl reference) as Href.
  set (l1 := lookupVariable (NewResolver (NewSet scopes1) config)) in *.
  set (l2 := lookupVariable (NewResolver (NewSet scopes2) config)) in *.
  destruct Href as [v w Href|]; [|done].
  pose proof (resolveVariable_rel true public_eq _ DefaultFunctionRegistry l1 l2 Hl
    (Z.to_nat (MaxDepth (rs_config (NewResolver (NewSet scopes1) config)))) _ [] v w "/"
    (or_introl eq_refl) Href) as H.
  destruct Href as [Hname _]. simpl in *.
  destruct (resolveVariable DefaultFunctionRegistry l1 _ [] v "/") as [x|e],
    (resolveVariable DefaultFunctionRegistry l2 _ [] w "/") as [y|e']; simpl in H; try done.
  - by rewrite <- (safeJSON_erase x), <- (safeJSON_erase y), H.
  - by rewrite H, Hname.
Qed.

Lemma same_public_refl s : same_public s s.
Proof. intros key. destruct (s !! key); constructor. by left. Qed.
Lemma same_public_singleton key v w :
  interchangeable v w → same_public {[ key := v ]} {[ key := w ]}.
Proof.
  intros Hvw k. unfold Scope in *. destruct (decide (key = k)) as [->|Hk].
  - rewrite !lookup_singleton_eq. by constructor.
  - rewrite !lookup_singleton_ne by done. constructor.
Qed.

(** The secret in a scope of its own, below the public variables. *)
Definition secret_scopes (secret : string) : list Scope :=
  [ {[ "token" := demo_var "token" TypeString (EString secret) true ]};
    delete "token" (demo_scope "") ].
Definition secret_resolver (secret : string) : Resolver :=
  NewResolver (NewSet (secret_scopes secret)) (mkConfig 0 None DefaultFunctionRegistry).

Lemma redaction_hides_secrets_witness :
  Forall2 same_public (secret_scopes "hush") (secret_scopes "other") ∧
  ∃ v w,
    Resolve (secret_resolver "hush") (demo_ref "url") = Ok v ∧
    Resolve (secret_resolver "other") (demo_ref "url") = Ok w ∧
    safeJSON v = safeJSON w ∧ rv_Value v ≠ rv_Value w.
Proof.
  assert (Forall2 same_public (secret_scopes "hush") (secret_scopes "other")) as Hs.
  { constructor; [|constructor; [apply same_public_refl|constructor]].
    apply same_public_singleton. right. split_and!; reflexivity. }
  split; [exact Hs|].
  pose proof (redaction_hides_secrets _ _ 0 None (demo_ref "url") Hs
    : match Resolve (secret_resolver "hush") (demo_ref "url"),
            Resolve (secret_resolver "other") (demo_ref "url") with
      | Ok v, Ok w => safeJSON v = safeJSON w
      | Err e, Err e' => e = e'
      | _, _ => False
      end) as H.
  destruct (is_Ok_exists (Resolve (secret_resolver "hush") (demo_ref "url"))) as [v Hv];
    [vm_compute; reflexivity|].
  destruct (is_Ok_exists (Resolve (secret_resolver "other") (demo_ref "url"))) as [w Hw];
    [vm_compute; reflexivity|].
  rewrite Hv, Hw in H. exists v, w. split_and!; [exact Hv|exact Hw|exact H|].
  assert (rv_Value <$> Resolve (secret_resolver "hush") (demo_ref "url")
          ≠ rv_Value <$> Resolve (secret_resolver "other") (demo_ref "url")) as Hne
    by (vm_compute; discriminate).
  rewrite Hv, Hw in Hne. intros Heq. apply Hne. simpl. by rewrite Heq.
Defined.

(** ** The limit of the guarantee *)

(** A sensitive object with one field, and a variable that takes the field. *)
Definition credentials_resolver (secret : string) : Resolver :=
  NewResolver
    (NewSet [{[ "credentials" :=
                  demo_var "credentials" TypeObject
                    (EObject [("password", mkTE TypeString (EString secret))]) true;
                "login" := demo_var "login" TypeString (EString "${credentials.password}") false ]}])
    (mkConfig 0 None DefaultFunctionRegistry).

(** The text of a literal, and a field of the JSON that shows it. *)
Definition literal_text (e : TypedExpression) : string :=
  match te_Expression e with EString text => unescapeExpression text | _ => "" end.
Definition plain_literal (e : TypedExpression) : Prop :=
  ∃ text, e = mkTE TypeString (EString text) ∧ parseInterpolationTokens text = Ok [].
Definition in_clear (text : string) : resolvedValueJSON := mkJSON "string" false "" "" None (VString text) [] [].

Section literals.
Context (registry : FunctionRegistry) (cb : Reference → string → result ResolvedValue).
Lemma literal_resolves e path : plain_literal e → resolveExpression registry cb e path = Ok (plain TypeString (VString (literal_text e))).
Proof.
  intros (text & -> & Ht). cbn [resolveExpression whole_reference]. rewrite (no_tokens_whole _ Ht). cbn.
  by rewrite (resolve_text_literal _ _ _ _ (or_introl eq_refl) Ht).
Qed.
Lemma literal_fields_resolve (fields : list (string * TypedExpression)) f :
  Forall (λ kv, plain_literal kv.2) fields →
  traverse_fields (λ name child, resolveExpression registry cb child (f name)) fields =
    Ok ((λ kv, (kv.1, plain TypeString (VString (literal_text kv.2)))) <$> fields).
Proof.
  induction 1 as [|[k e] fields He _ IH]; [done|]. cbn [traverse_fields]. by rewrite (literal_resolves e _ He), IH.
Qed.
End literals.
Lemma plain_not_sensitive {A} (g : A → string * scalar) l :
  aggregateSensitivity ((λ a, ((g a).1, plain TypeString (g a).2)) <$> l) [] = (false, "", "").
Proof. unfold aggregateSensitivity. induction l as [|a l IH]; [done|]. exact IH. Qed.
Lemma assoc_fmap {A B} (h : A → B) k (l : list (string * A)) :
  assoc k ((λ kv, (kv.1, h kv.2)) <$> l) = h <$> assoc k l.
Proof. induction l as [|[k' a] l IH]; [done|]. cbn. by case_decide. Qed.

(** C31: Sensitivity does not reach the fields of a sensitive object.  Let a sensitive object
    variable have fields that are texts without references.  It resolves to a value that is
    marked, whose JSON shows every field in clear below the mark; and a variable that takes one of
    these fields by an accessor, and is not marked itself, resolves to the text of the field,
    unmarked and in clear. *)
Theorem sensitive_object_field_is_shown r ref v fields :
  lookupVariable r ref = Some v → v_TypedExpression v = mkTE TypeObject (EObject fields) →
  v_Sensitive v = true → v_ProtectedRef v = None → Forall (λ kv, plain_literal kv.2) fields →
  2 ≤ Z.to_nat (MaxDepth (rs_config r)) →
  (∃ value label, Resolve r ref = Ok value ∧ isSensitive value = true ∧
     safeJSON value = mkJSON "object" true label (resolvedProvenance value) None VNil
       ((λ kv, (kv.1, in_clear (literal_text kv.2))) <$> fields) []) ∧
  ∀ ref' w text inner accessor key e,
    lookupVariable r ref' = Some w → v_TypedExpression w = mkTE TypeString (EString text) →
    v_Sensitive w = false → v_ProtectedRef w = None → v_Name w ≠ v_Name v →
    wholeValueReferenceExpression text = Some inner → parseReferenceExpression inner = Ok (ref, accessor) →
    parseScalarAccessors accessor = Ok [accessor] → parseFieldAccessor accessor = Ok key → assoc key fields = Some e →
    safeJSON <$> Resolve r ref' = Ok (in_clear (literal_text e)).
Proof.
  intros Hl Hx Hs Hp HF Hd.
  destruct (Z.to_nat (MaxDepth (rs_config r))) as [|[|n]] eqn:Hdepth; [lia..|].
  set (registry := cfg_FunctionRegistry (rs_config r)).
  set (shown := (λ kv, (kv.1, plain TypeString (VString (literal_text kv.2)))) <$> fields).
  assert (aggregateSensitivity shown [] = (false, "", "")) as Hagg
    by exact (plain_not_sensitive (λ kv, (kv.1, VString (literal_text kv.2))) fields).
  assert (∃ value, (∀ n chain path, v_Name v ∉ chain → resolveVariable registry (lookupVariable r) (S n) chain v path = Ok value) ∧
    value = mergeSensitivity (mkRV TypeObject VNil shown [] false "" "" None) true (Name_String (v_Name v))) as (value & Hv & Hvalue).
  { eexists. split; [|reflexivity]. intros m chain path Hch. rewrite resolveVariable_step by done. unfold evaluate. rewrite Hx, Hs.
    cbn [resolveExpression whole_reference]. rewrite bool_decide_eq_true_2 by done.
    rewrite literal_fields_resolve by done. fold shown. cbn. unfold ResolvedObject. by rewrite Hagg. }
  split.
  - exists value, (redactionLabel value). unfold Resolve, resolveRoot. rewrite Hl, Hdepth. fold registry. rewrite Hv by apply not_elem_of_nil.
    split; [done|]. rewrite Hvalue. split; [done|]. cbn [mergeSensitivity safeJSON rv_ProtectedRef negb]. f_equal.
    unfold shown. cbn. clear. induction fields as [|[k e] fields IH]; [done|]. cbn. by f_equal.
  - intros ref' w text inner accessor key e Hl' Hx' Hs' Hp' Hne Hwhole Hparse Hone Hacc He.
    unfold Resolve, resolveRoot. rewrite Hl', Hdepth. fold registry. rewrite resolveVariable_step by first [apply not_elem_of_nil|done].
    unfold evaluate. rewrite Hx', Hs'. cbn [resolveExpression whole_reference]. rewrite Hwhole. unfold resolve_whole. rewrite Hparse.
    cbn [wrap_err mbind result_bind]. unfold resolve_accessed, resolveReference. rewrite Hl, Hv
      by (intros Hin; apply elem_of_app in Hin as [[]%elem_of_nil|Hin%list_elem_of_singleton]; by destruct Hne).
    cbn [mbind result_bind].
    assert (is_empty accessor = false ∧ has_prefix "." accessor = true) as [Hne1 Hdot].
    { unfold parseFieldAccessor in Hacc. apply bind_Ok in Hacc as (u & Hdot%fail_if_Ok & _). apply negb_false_iff in Hdot.
      split; [by destruct accessor|done]. }
    unfold apply_optional_accessor, ApplyAccessor. rewrite Hne1, Hone. cbn [foldM mbind result_bind]. unfold ApplyAccessorPart.
    rewrite Hdot. unfold ApplyFieldAccessor. rewrite Hacc, Hvalue. cbn [mergeSensitivity rv_ProtectedRef negb rv_Type rv_Object mbind result_bind].
    unfold shown. pose proof (assoc_fmap (λ e, plain TypeString (VString (literal_text e))) key fields) as Hfield. rewrite He in Hfield.
    cbn [fmap option_fmap option_map] in Hfield. cbn in Hfield |- *. by rewrite Hfield.
Qed.
Lemma sensitive_object_field_is_shown_witness :
  safeJSON <$> Resolve (credentials_resolver "hunter2") (demo_ref "login") = Ok (in_clear "hunter2").
Proof.
  destruct (sensitive_object_field_is_shown (credentials_resolver "hunter2") (demo_ref "credentials")
    (demo_var "credentials" TypeObject (EObject [("password", mkTE TypeString (EString "hunter2"))]) true)
    [("password", mkTE TypeString (EString "hunter2"))]) as [_ H].
  - vm_compute. reflexivity.
  - reflexivity.
  - reflexivity.
  - reflexivity.
  - apply Forall_cons_2; [|apply Forall_nil_2]. exists "hunter2". split; [reflexivity|vm_compute; reflexivity].
  - apply Nat.leb_le. vm_compute. reflexivity.
  - apply (H (demo_ref "login") (demo_var "login" TypeString (EString "${credentials.password}") false) "${credentials.password}"
      "credentials.password" ".password" "password" (mkTE TypeString (EString "hunter2"))); try (vm_compute; reflexivity); try reflexivity.
    intros Heq. discriminate Heq.
Defined.
