(* ===== verification/ExpressionLaws.v ===== *)
(** * Laws of the expression language

    Where the interpolation tokens of a text are, how accessors compose, what the
    crossproduct lists, and what the environment cache guarantees. *)

From S2P Require Import Prelude GoTime GoStrings Variables Expression Functions Resolver.
Local Open Scope nat_scope.

(** ** Interpolation tokens *)

(** [token] stands at its place in [text]: [${], a body without a closing brace, and
    the brace; its reference is the trimmed body, and it is a valid reference. *)
Definition token_at (text : string) (token : interpolationToken) : Prop :=
  ∃ pre body post, text = pre +:+ "${" +:+ body +:+ "}" +:+ post ∧
    tok_start token = slen pre ∧ tok_end token = slen pre + slen body + 3 ∧
    has_byte "}"%char body = false ∧ tok_reference token = TrimSpace body ∧
    validateReferenceExpression (tok_reference token) = Ok tt.

Lemma index_where_first f s n : index_where f s = Some n → ∀ c, f c = true → has_byte c (str_take n s) = false.
Proof.
  revert n. induction s as [|x s IH]; intros n; simpl; [done|]. destruct (f x) eqn:Hx.
  - by intros [= <-].
  - intros (m & Hm & ->)%fmap_Some c Hc. simpl. rewrite bool_decide_false by (intros ->; congruence).
    by apply IH.
Qed.

Lemma index_byte_split c s n :
  index_byte c s = Some n →
  s = str_take n s +:+ String c (str_drop (S n) s) ∧ slen (str_take n s) = n ∧
  has_byte c (str_take n s) = false.
Proof.
  intros H. destruct (index_where_Some _ _ _ H) as (x & Hs & Hx & Hlt & Hlen).
  unfold is_char in Hx. apply bool_decide_eq_true in Hx as ->. split_and!; [done..|].
  apply (index_where_first _ _ _ H). unfold is_char. by apply bool_decide_eq_true.
Qed.

Lemma str_drop_drop n m s : str_drop n (str_drop m s) = str_drop (m + n) s.
Proof.
  revert s. induction m as [|m IH]; intros s; [done|]. destruct s as [|c s]; simpl; [by destruct n|]. apply IH.
Qed.

(** The scan of a suffix that starts at [index] of the whole text. *)
Lemma tokens_from_spec fuel pre rest tokens :
  tokens_from fuel (slen pre) rest = Ok tokens →
  Forall (λ t, token_at (pre +:+ rest) t ∧ slen pre ≤ tok_start t) tokens ∧
  StronglySorted (λ t u, tok_end t ≤ tok_start u) tokens.
Proof.
  revert pre rest tokens. induction fuel as [|fuel IH]; intros pre rest tokens H.
  { injection H as <-. repeat constructor. }
  assert (∀ skipped rest', rest = skipped +:+ rest' →
    tokens_from fuel (slen pre + slen skipped) rest' = Ok tokens →
    Forall (λ t, token_at (pre +:+ rest) t ∧ slen pre ≤ tok_start t) tokens ∧
    StronglySorted (λ t u, tok_end t ≤ tok_start u) tokens) as Hskip.
  { intros skipped rest' -> Hr. rewrite <- slen_app in Hr. apply IH in Hr as [Hall Hs].
    split; [|done]. eapply Forall_impl; [exact Hall|]. intros t [Ht Hle].
    rewrite str_app_assoc in Ht. rewrite slen_app in Hle. split; [done|lia]. }
  destruct rest as [|c rest0]; [injection H as <-; repeat constructor|].
  cbn [tokens_from] in H. destruct (has_prefix "\${" (String c rest0)) eqn:Hesc.
  { apply has_prefix_spec in Hesc as (t & Ht). rewrite Ht in H. by apply (Hskip _ _ Ht). }
  destruct (has_prefix "${" (String c rest0)) eqn:Htok; cbn [negb] in H.
  2: { by apply (Hskip (String c "") rest0). }
  apply has_prefix_spec in Htok as (body_on & Htok). rewrite Htok in *. clear Hskip Hesc Htok.
  change (str_drop 2 ("${" +:+ body_on)) with body_on in H.
  destruct (index_byte "}"%char body_on) as [off|] eqn:Hoff; [|done].
  destruct (index_byte_split _ _ _ Hoff) as (Hbody & Hlen & Hfree).
  set (body := str_take off body_on) in *. set (post := str_drop (S off) body_on) in *.
  apply bind_Ok in H as ([] & Hval & H). apply bind_Ok in H as (tokens' & Htoks & [= <-]).
  assert (str_drop (off + 3) ("${" +:+ body_on) = post) as Hpost.
  { replace (off + 3) with (2 + S off) by lia. rewrite <- str_drop_drop. done. }
  rewrite Hpost in Htoks.
  assert (pre +:+ "${" +:+ body_on = (pre +:+ "${" +:+ body +:+ "}") +:+ post) as Hwhole.
  { rewrite !str_app_assoc. f_equal. f_equal. exact Hbody. }
  assert (slen (pre +:+ "${" +:+ body +:+ "}") = slen pre + 2 + off + 1) as Hend.
  { autorewrite with goet_str. rewrite Hlen. simpl. lia. }
  rewrite <- Hend in Htoks. apply IH in Htoks as [Hall Hs]. rewrite <- Hwhole in Hall. split.
  - constructor; [split; [|done]|].
    + exists pre, body, post. simpl. split_and!; try done; [|lia].
      rewrite Hwhole, !str_app_assoc. done.
    + eapply Forall_impl; [exact Hall|]. intros t [Ht Hle]. split; [done|]. lia.
  - constructor; [done|]. eapply Forall_impl; [exact Hall|]. intros t [_ Hle]. simpl. lia.
Qed.

(** The tokens found in a text are where the scanner says they are: each is a
    [${...}] at its offsets whose trimmed body is a valid reference, and they come in
    order without overlapping.  So the slices interpolation takes between tokens are
    in range, and a token's reference never fails to parse afterwards. *)
Theorem tokens_located text tokens :
  parseInterpolationTokens text = Ok tokens →
  Forall (token_at text) tokens ∧ StronglySorted (λ t u, tok_end t ≤ tok_start u) tokens ∧
  ∀ t, t ∈ tokens → tok_start t < tok_end t ≤ slen text ∧
    is_Ok (parseReferenceExpression (tok_reference t)) = true.
Proof.
  intros H. destruct (tokens_from_spec (slen text) "" text tokens H) as [Hall Hs].
  change ("" +:+ text) with text in Hall. rewrite Forall_forall in Hall.
  split_and!; [apply Forall_forall; intros t Ht; by apply Hall|done|].
  intros t Ht. destruct (Hall t Ht) as [(pre & body & post & -> & H1 & H2 & _ & _ & Hval) _]. split.
  - str_lia.
  - unfold validateReferenceExpression in Hval. apply bind_Ok in Hval as (? & _ & Hval).
    apply bind_Ok in Hval as ([r a] & Hp%wrap_err_Ok & _). by rewrite Hp.
Qed.

Lemma tokens_located_witness :
  ∃ t u, parseInterpolationTokens "a${ x.y }\${no}${workflow.z[2]}" = Ok [t; u] ∧
    tok_reference t = "x.y" ∧ tok_start t < tok_end t ≤ tok_start u ∧ tok_end u = 31.
Proof.
  destruct (is_Ok_exists (parseInterpolationTokens "a${ x.y }\${no}${workflow.z[2]}"))
    as [tokens Ht]; [vm_compute; reflexivity|].
  destruct (tokens_located _ _ Ht) as (_ & Hs & _). revert Hs. vm_compute in Ht. injection Ht as <-.
  intros Hs. eexists _, _. split; [vm_compute; reflexivity|]. split; [reflexivity|].
  inversion Hs as [|? ? _ Hall]. inversion Hall. simpl in *. split; [split; [lia|assumption]|reflexivity].
Defined.

(** ** Accessors *)

Lemma index_where_app f s t :
  index_where f (s +:+ t) =
    match index_where f s with Some i => Some i | None => Nat.add (slen s) <$> index_where f t end.
Proof.
  induction s as [|c s IH].
  - change ("" +:+ t) with t. simpl. by destruct (index_where f t).
  - change (index_where f (String c (s +:+ t)) =
      match index_where f (String c s) with Some i => Some i
      | None => Nat.add (slen (String c s)) <$> index_where f t end).
    simpl. destruct (f c); [done|]. rewrite IH.
    destruct (index_where f s); [done|]. by destruct (index_where f t).
Qed.

Lemma take_app_le n s t : n ≤ slen s → str_take n (s +:+ t) = str_take n s.
Proof.
  revert s. induction n as [|n IH]; intros [|c s] Hn; simpl in Hn; try done; [lia|].
  change (String c (str_take n (s +:+ t)) = String c (str_take n s)). rewrite IH; [done|lia].
Qed.
Lemma drop_app_le n s t : n ≤ slen s → str_drop n (s +:+ t) = str_drop n s +:+ t.
Proof.
  revert s. induction n as [|n IH]; intros [|c s] Hn; simpl in Hn; try done; [lia|].
  change (str_drop n (s +:+ t) = str_drop n s +:+ t). apply IH. lia.
Qed.
Lemma slen_drop n s : slen (str_drop n s) = slen s - n.
Proof. revert s. induction n as [|n IH]; intros [|c s]; simpl; auto. Qed.
Lemma take_all_app s t : str_take (slen s) (s +:+ t) = s.
Proof.
  induction s as [|c s IH]; [by destruct t|].
  change (String c (str_take (slen s) (s +:+ t)) = String c s). by rewrite IH.
Qed.

(** Fuel of the length of the text is enough. *)
Lemma accessor_parts_fuel n m a :
  slen a ≤ n → slen a ≤ m → accessor_parts n a = accessor_parts m a.
Proof.
  revert m a. induction n as [|n IH]; intros m a Hn Hm; destruct a as [|c rest], m as [|m]; simpl in *;
    try done; try lia.
  assert (∀ k, accessor_parts n (str_drop k rest) = accessor_parts m (str_drop k rest)) as Hrest
    by (intros k; apply IH; rewrite slen_drop; lia).
  case_decide; [destruct (index_any ".[" rest) as [i|]; [|done]; by rewrite Hrest|].
  case_decide; [|done].
  destruct (index_byte "]"%char (String c rest)) as [i|]; [|done]. by rewrite Hrest.
Qed.

Lemma accessor_parts_app n a b pa pb :
  slen a ≤ n → accessor_parts n a = Ok pa → accessor_parts (slen b) b = Ok pb → b ≠ "" →
  ∀ k, slen a + slen b ≤ k → accessor_parts k (a +:+ b) = Ok (pa ++ pb).
Proof.
  intros Hn Ha Hb Hne. revert a pa Hn Ha. induction n as [|n IH]; intros a pa Hn Ha k Hk.
  all: destruct a as [|c rest]; [simpl in Ha; injection Ha as <-;
    change ([] ++ pb) with pb; change ("" +:+ b) with b; rewrite <- Hb; apply accessor_parts_fuel; simpl in *; lia|].
  { simpl in Hn. lia. }
  change (String c rest +:+ b) with (String c (rest +:+ b)).
  destruct k as [|k]; [simpl in Hk; lia|]. simpl in Hn, Hk.
  cbn [accessor_parts] in Ha |- *. case_decide as Hdot.
  - unfold index_any in *. rewrite index_where_app. destruct (index_where (any_of ".[") rest) as [i|] eqn:Hi.
    + apply bind_Ok in Ha as (parts & Hparts & [= <-]).
      pose proof (index_where_Some _ _ _ Hi) as (_ & _ & _ & Hlt & _).
      change (str_drop (S i) (String c (rest +:+ b))) with (str_drop i (rest +:+ b)).
      change (str_take (S i) (String c (rest +:+ b))) with (String c (str_take i (rest +:+ b))).
      rewrite drop_app_le, take_app_le by lia.
      rewrite (IH (str_drop i rest) parts); [done|rewrite slen_drop; lia|done|rewrite slen_drop; lia].
    + injection Ha as <-.
      assert (index_where (any_of ".[") b = Some 0) as ->.
      { destruct b as [|d b']; [done|]. simpl in Hb. simpl. repeat case_decide; subst; try done. }
      simpl. rewrite Nat.add_0_r. rewrite drop_app_str, take_all_app.
      rewrite (accessor_parts_fuel k (slen b) b) by lia. by rewrite Hb.
  - case_decide as Hbr; [|done]. unfold index_byte in *.
    change (String c (rest +:+ b)) with (String c rest +:+ b). rewrite index_where_app.
    destruct (index_where (is_char "]"%char) (String c rest)) as [i|] eqn:Hi; [|done].
    pose proof (index_where_Some _ _ _ Hi) as (_ & _ & _ & Hlt & _). cbn [String.length] in Hlt.
    rewrite take_app_le by (cbn [String.length]; lia). rewrite drop_app_le by (cbn [String.length]; lia).
    apply bind_Ok in Ha as (u & Hu & Ha). rewrite Hu. cbn [mbind result_bind].
    apply bind_Ok in Ha as (parts & Hparts & [= <-]).
    change (str_drop (S i) (String c rest)) with (str_drop i rest) in *.
    rewrite (IH (str_drop i rest) parts); [done|rewrite slen_drop; lia|done|rewrite slen_drop; lia].
Qed.

Lemma foldM_app {S A} (f : S → A → result S) s l k :
  foldM f s (l ++ k) = foldM f s l ≫= λ s', foldM f s' k.
Proof.
  revert s. induction l as [|a l IH]; intros s; [done|]. simpl. by destruct (f s a); simpl.
Qed.

(** Accessors compose: following a path made of two accessors is following the
    first and then the second, errors included. *)
Theorem ApplyAccessor_app value a b :
  is_Ok (parseScalarAccessors a) = true → is_Ok (parseScalarAccessors b) = true →
  ApplyAccessor value (a +:+ b) = ApplyAccessor value a ≫= λ w, ApplyAccessor w b.
Proof.
  unfold ApplyAccessor, parseScalarAccessors. destruct (is_empty a) eqn:Ea; [done|].
  destruct (is_empty b) eqn:Eb; [done|]. simpl.
  destruct (accessor_parts (slen a) a) as [pa|] eqn:Ha; [|done].
  destruct (accessor_parts (slen b) b) as [pb|] eqn:Hb; [|done]. intros _ _.
  assert (is_empty (a +:+ b) = false) as -> by (by destruct a).
  simpl. rewrite (accessor_parts_app (slen a) a b pa pb); try done.
  - simpl. apply foldM_app.
  - unfold is_empty in Eb. by apply bool_decide_eq_false in Eb.
  - str_lia.
Qed.

Lemma ApplyAccessor_app_witness :
  let v := ResolvedObject [("a", ResolvedList [plain TypeInt (VInt 4); plain TypeInt (VInt 5)])] in
  is_Ok (parseScalarAccessors ".a") = true ∧ is_Ok (parseScalarAccessors "[1]") = true ∧
  ApplyAccessor v (".a" +:+ "[1]") = Ok (plain TypeInt (VInt 5)).
Proof.
  intros v. split; [reflexivity|]. split; [reflexivity|].
  rewrite (ApplyAccessor_app v ".a" "[1]" eq_refl eq_refl). reflexivity.
Defined.

(** ** The crossproduct *)

Lemma cross_pairs_cons a l r :
  cross_pairs (a :: l) r = ((λ b, ResolvedList [a; b]) <$> r) ++ cross_pairs l r.
Proof.
  unfold cross_pairs. rewrite bind_cons. f_equal.
Qed.

Lemma cross_pairs_length l r : length (cross_pairs l r) = length l * length r.
Proof.
  induction l as [|a l IH]; [done|]. rewrite cross_pairs_cons, length_app, length_fmap, IH. simpl. lia.
Qed.

Lemma cross_pairs_lookup l r i j a b :
  l !! i = Some a → r !! j = Some b → cross_pairs l r !! (i * length r + j) = Some (ResolvedList [a; b]).
Proof.
  revert i. induction l as [|x l IH]; intros i Hi Hj; [done|]. rewrite cross_pairs_cons.
  pose proof (lookup_lt_Some _ _ _ Hj) as Hlt. destruct i as [|i]; simpl in Hi.
  - injection Hi as ->. rewrite lookup_app_l by (rewrite length_fmap; simpl; lia).
    rewrite list_lookup_fmap. change (0 * length r + j) with j. by rewrite Hj.
  - rewrite lookup_app_r by (rewrite length_fmap; simpl; lia). rewrite length_fmap.
    replace (S i * length r + j - length r) with (i * length r + j) by (simpl; lia). by apply IH.
Qed.

(** [list.crossproduct] lists every pair of an item of the first list with an item
    of the second exactly once, in the order of the first list and then of the
    second: the pair of items i and j is at i * n + j, n the second length. *)
Theorem listCrossproduct_exact left_ right_ :
  rv_Type left_ = TypeList → rv_Type right_ = TypeList →
  ∃ v, listCrossproduct [left_; right_] = Ok v ∧ rv_Type v = TypeList ∧
    length (rv_List v) = length (rv_List left_) * length (rv_List right_) ∧
    ∀ i j a b, rv_List left_ !! i = Some a → rv_List right_ !! j = Some b →
      rv_List v !! (i * length (rv_List right_) + j) = Some (ResolvedList [a; b]).
Proof.
  intros Hl Hr. exists (ResolvedList (cross_pairs (rv_List left_) (rv_List right_))). split_and!.
  - simpl. unfold require_list. by rewrite Hl, Hr.
  - unfold ResolvedList. by destruct (aggregateSensitivity [] _) as [[??]?].
  - unfold ResolvedList. destruct (aggregateSensitivity [] _) as [[??]?]. apply cross_pairs_length.
  - intros i j a b Ha Hb. unfold ResolvedList at 1. destruct (aggregateSensitivity [] _) as [[??]?].
    by apply cross_pairs_lookup.
Qed.

Lemma listCrossproduct_exact_witness :
  let ints l := ResolvedList (map (λ z, plain TypeInt (VInt z)) l) in
  ∃ v, listCrossproduct [ints [1; 2]; ints [3; 4; 5]]%Z = Ok v ∧
    rv_List v !! 5 = Some (ints [2; 5]%Z).
Proof.
  intros ints.
  destruct (listCrossproduct_exact (ints [1; 2]%Z) (ints [3; 4; 5]%Z) eq_refl eq_refl)
    as (v & Hv & _ & _ & Hlook).
  exists v. split; [exact Hv|].
  exact (Hlook 1 2 (plain TypeInt (VInt 2)) (plain TypeInt (VInt 5)) eq_refl eq_refl).
Defined.

(** ** The environment cache *)

(** The answer the first call for a key got. *)
Fixpoint first_answer (calls : list ((string → option string) * string)) (key : string) :
    option string :=
  match calls with
  | [] => None
  | (lookup, k) :: calls' => if decide (k = key) then lookup key else first_answer calls' key
  end.
Definition settled (cache : environmentCache) (calls : list ((string → option string) * string))
    (key : string) : option string :=
  match cache !! key with Some answer => answer | None => first_answer calls key end.

Lemma cachedLookups_settled calls cache :
  (cachedLookups calls cache).1 =
    map (λ c, option_map (environment_variable c.2) (settled cache calls c.2)) calls.
Proof.
  revert cache. induction calls as [|[lookup k] calls IH]; intros cache; [done|].
  cbn [cachedLookups]. unfold cachedLookup.
  assert (∀ cache1 answer, (∀ key, settled cache1 calls key = settled cache ((lookup, k) :: calls) key) →
    answer = option_map (environment_variable k) (settled cache ((lookup, k) :: calls) k) →
    (let '(answers, cache2) := cachedLookups calls cache1 in (answer :: answers, cache2)).1 =
      map (λ c, option_map (environment_variable c.2) (settled cache ((lookup, k) :: calls) c.2))
        ((lookup, k) :: calls)) as Hstep.
  { intros cache1 answer Hsame ->. specialize (IH cache1).
    destruct (cachedLookups calls cache1) as [answers cache2]. simpl in *. rewrite IH. f_equal.
    apply map_ext. intros c. by rewrite Hsame. }
  destruct (cache !! k) as [answer|] eqn:E; simpl; apply Hstep.
  - intros key. unfold settled. destruct (cache !! key) eqn:E'; [done|]. simpl.
    rewrite decide_False; [done|]. intros ->. congruence.
  - unfold settled. by rewrite E.
  - intros key. unfold settled, environmentCache in *. simpl. destruct (decide (k = key)) as [->|Hk].
    + by rewrite lookup_insert_eq, E.
    + by rewrite lookup_insert_ne by done.
  - unfold settled. rewrite E. simpl. by rewrite decide_True.
Qed.

(** However the controller environment changes while a resolver is used, the
    resolver sees one fixed environment: all its lookups, in any order and number,
    answer as a lookup without cache would in the environment that has for each key
    the value of the first lookup of that key. *)
Theorem environment_is_stable calls set depth registry :
  (cachedLookups calls ∅).1 =
    map (λ c, lookupControllerEnvironment
                (mkResolver set (mkConfig depth (Some (first_answer calls)) registry)) c.2) calls.
Proof.
  rewrite cachedLookups_settled. apply map_ext. intros [lookup k]. unfold settled, environmentCache. simpl.
  rewrite lookup_empty. done.
Qed.
