(* ===== verification/StepOutputs.v ===== *)
(** * Outputs of workflow steps ([cmd/controller/workflow_outputs.go])

    A worker reports its output as a JSON document.  The controller turns the
    decoded document into a resolved value, and offers the outputs of the completed
    steps to later steps as the variable [workflow.step]: each output becomes an
    expression again, with the text of strings escaped so that it is not
    interpolated.  [JSON] is Go's decoded [any] (numbers as [json.Number]);
    [OutputText] adds the texts and the aggregation of a step's outputs. *)

From S2P Require Import Prelude GoTime GoStrings GoJson Fingerprint Variables Expression Functions Resolver ResolverRel ResolverTyping.
Local Open Scope nat_scope.

(** ** Sizes *)

Definition maxCompletedWorkOutputJSONBytes : nat := 16 * 1024.
Definition maxLogicalStepOutputJSONBytes : N := 256 * 1024.
Definition validateOutputJSONSize (name outputJSON : string) (limit : N) : result unit :=
  let size := N.of_nat (slen outputJSON) in
  fail_if (bool_decide (size = 0%N)) (Errorf (name +:+ " is required"));;
  fail_if (limit <? size)%N
    (Errorf (name +:+ " is " +:+ pretty size +:+ " bytes, limit is " +:+ pretty limit +:+
             " bytes; store bulk data externally and return a small artifact reference")).
Definition validateCompletedWorkOutputJSONSize (outputJSON : string) : result unit :=
  validateOutputJSONSize "output_json" outputJSON (N.of_nat maxCompletedWorkOutputJSONBytes).
Definition validateLogicalStepOutputJSONSize (outputJSON : string) : result unit :=
  validateOutputJSONSize "logical step output_json" outputJSON maxLogicalStepOutputJSONBytes.

(** ** From JSON to values and back *)

Definition appendOutputJSONPointer (path segment : string) : string := appendJSONPointer path segment.

(** [typed.Int64()] is decimal parsing in the range of int64, as [Atoi] is; an [int]
    has 64 bits. *)
Fixpoint resolvedOutputValue (value : JSON) (path : string) : result ResolvedValue :=
  match value with
  | JNull => Err (Errorf ("output " +:+ path +:+ " is null, null outputs are not supported"))
  | JObject fields =>
      ResolvedObject <$>
        traverse_fields (λ name field,
          resolvedOutputValue field (appendOutputJSONPointer path name)) fields
  | JArray items =>
      ResolvedList <$>
        traverse_items (λ index item,
          resolvedOutputValue item (appendOutputJSONPointer path (pretty index))) 0 items
  | JString typed => Ok (plain TypeString (VString typed))
  | JBool typed => Ok (plain TypeBool (VBool typed))
  | JNumber text =>
      fail_if (contains_any ".eE" text)
        (Errorf ("output " +:+ path +:+ " has non-integer number " +:+ text));;
      match Atoi text with
      | Some integer => Ok (plain TypeInt (VInt integer))
      | None => Err (Errorf ("output " +:+ path +:+ " has integer number outside supported int range "
                             +:+ text))
      end
  end.

(** The value [canonicalOutputJSONFromResolved] writes and hashes. *)
Fixpoint outputCanonicalValue (value : ResolvedValue) : result GoValue :=
  match value with
  | mkRV ty v object items _ _ _ _ =>
      if bool_decide (ty = TypeString ∨ ty = TypePath ∨ ty = TypeDatetime) then
        match v with
        | VString text => Ok (GString text)
        | _ => Err (Errorf ("invalid " +:+ Type_String ty +:+ " value"))
        end
      else if bool_decide (ty = TypeBool) then
        match v with VBool boolean => Ok (GBool boolean) | _ => Err (Errorf "invalid bool value") end
      else if bool_decide (ty = TypeInt) then
        match v with
        | VInt integer => Ok (GInt integer)
        | _ => Err (Errorf "invalid int value")
        end
      else if bool_decide (ty = TypeObject) then
        GMap <$>
          traverse_fields (λ name field,
            wrap_err ("convert object field " +:+ name) (outputCanonicalValue field)) object
      else if bool_decide (ty = TypeList) then
        GList <$>
          traverse_items (λ index item,
            wrap_err ("convert list item " +:+ pretty index) (outputCanonicalValue item)) 0 items
      else Err (Errorf ("unsupported resolved value type: " +:+ Type_String ty))
  end.

(** [strings.ReplaceAll(text, "${", `\${`)] *)
Fixpoint escapeOutput (text : string) : string :=
  match text with
  | EmptyString => ""
  | String c rest =>
      match rest with
      | String d rest' =>
          if bool_decide (c = "$"%char ∧ d = "{"%char)
          then "\${" +:+ escapeOutput rest' else String c (escapeOutput rest)
      | EmptyString => String c (escapeOutput rest)
      end
  end.

Fixpoint outputTypedExpressionFromResolved (value : ResolvedValue) : result TypedExpression :=
  match value with
  | mkRV ty v object items _ _ _ _ =>
      if bool_decide (ty = TypeString ∨ ty = TypePath ∨ ty = TypeDatetime) then
        match v with
        | VString text => Ok (mkTE ty (EString (escapeOutput text)))
        | _ => Err (Errorf ("invalid " +:+ Type_String ty +:+ " value"))
        end
      else if bool_decide (ty = TypeBool) then
        match v with
        | VBool boolean => Ok (mkTE ty (EBool boolean))
        | _ => Err (Errorf "invalid bool value")
        end
      else if bool_decide (ty = TypeInt) then
        match v with
        | VInt integer => Ok (mkTE ty (EInt integer))
        | _ => Err (Errorf "invalid int value")
        end
      else if bool_decide (ty = TypeObject) then
        (λ fields, mkTE TypeObject (EObject fields)) <$>
          traverse_fields (λ name field,
            wrap_err ("convert object field " +:+ name) (outputTypedExpressionFromResolved field)) object
      else if bool_decide (ty = TypeList) then
        (λ items, mkTE TypeList (EList items)) <$>
          traverse_items (λ index item,
            wrap_err ("convert list item " +:+ pretty index) (outputTypedExpressionFromResolved item))
            0 items
      else Err (Errorf ("unsupported resolved value type: " +:+ Type_String ty))
  end.

(** ** Escaping *)

Definition starts_token (s : string) : bool := has_prefix "${" s.

Lemma escape_cons c rest :
  starts_token (String c rest) = false →
  escapeOutput (String c rest) = String c (escapeOutput rest).
Proof.
  destruct rest as [|d rest']; [done|]. unfold starts_token. simpl. intros H.
  rewrite bool_decide_eq_false_2; [done|]. intros [-> ->]. by rewrite bool_decide_true in H.
Qed.
Lemma escape_token rest : escapeOutput ("${" +:+ rest) = "\${" +:+ escapeOutput rest.
Proof. reflexivity. Qed.

(** Induction over a text, token starts in one step. *)
Lemma token_ind (P : string → Prop) :
  P "" → (∀ rest, P rest → P ("${" +:+ rest)) →
  (∀ c rest, starts_token (String c rest) = false → P rest → P (String c rest)) → ∀ s, P s.
Proof.
  intros H0 Htok Hc s. remember (slen s) as n eqn:Hn. revert s Hn.
  induction n as [n IH] using lt_wf_ind. intros s ->. destruct s as [|c rest]; [done|].
  destruct (starts_token (String c rest)) eqn:Ht.
  - apply has_prefix_spec in Ht as (t & Ht). rewrite Ht. apply Htok. eapply IH; [|reflexivity].
    rewrite Ht. str_lia.
  - apply Hc; [done|]. eapply IH; [|reflexivity]. simpl. lia.
Qed.

Lemma has_prefix_cons a p c s : has_prefix (String a p) (String c s) = bool_decide (a = c) && has_prefix p s.
Proof. reflexivity. Qed.

Lemma escape_starts_no_token s : starts_token (escapeOutput s) = false.
Proof.
  induction s as [|rest _|c rest Ht _] using token_ind; [done|done|].
  rewrite escape_cons by done. unfold starts_token in *. rewrite has_prefix_cons in *.
  case_bool_decide as Hc; [|done]. rewrite andb_true_l in *.
  destruct rest as [|d r]; [done|]. rewrite has_prefix_cons in Ht.
  destruct (starts_token (String d r)) eqn:Hd.
  - apply has_prefix_spec in Hd as (t & Hd). rewrite Hd, escape_token. reflexivity.
  - by rewrite escape_cons, has_prefix_cons by done.
Qed.

Lemma escape_starts_no_escape c s : has_prefix "\${" (String c (escapeOutput s)) = false.
Proof.
  rewrite has_prefix_cons. pose proof (escape_starts_no_token s) as H. unfold starts_token in H.
  rewrite H. apply andb_false_r.
Qed.

Lemma unescape_cons c s :
  has_prefix "\${" (String c s) = false →
  unescapeExpression (String c s) = String c (unescapeExpression s).
Proof.
  destruct s as [|d [|e s']]; [done..|]. rewrite !has_prefix_cons. intros H.
  cbn [unescapeExpression]. rewrite bool_decide_eq_false_2; [done|].
  intros (-> & -> & ->). by rewrite !bool_decide_true in H.
Qed.

Lemma unescape_escape s : unescapeExpression (escapeOutput s) = s.
Proof.
  induction s as [|rest IH|c rest Ht IH] using token_ind; [done| |].
  - rewrite escape_token. change ("${" +:+ unescapeExpression (escapeOutput rest) = "${" +:+ rest).
    by rewrite IH.
  - rewrite escape_cons by done. rewrite unescape_cons by apply escape_starts_no_escape. by rewrite IH.
Qed.

Lemma tokens_from_escape s fuel index : tokens_from fuel index (escapeOutput s) = Ok [].
Proof.
  revert fuel index. induction s as [|rest IH|c rest Ht IH] using token_ind; intros fuel index.
  - by destruct fuel.
  - destruct fuel as [|fuel]; [done|]. rewrite escape_token. apply (IH fuel (index + 3)).
  - destruct fuel as [|fuel]; [done|].
    pose proof (escape_starts_no_token (String c rest)) as H. unfold starts_token in H.
    rewrite escape_cons in H |- * by done. cbn [tokens_from].
    rewrite escape_starts_no_escape, H. apply (IH fuel (index + 1)).
Qed.

Lemma tokens_escape s : parseInterpolationTokens (escapeOutput s) = Ok [].
Proof. apply tokens_from_escape. Qed.

(** ** Outputs are data *)

(** The expression of a value exists, is a valid definition, and resolves to the
    value without looking up any variable. *)
Definition quotes (e : TypedExpression) (v : ResolvedValue) : Prop :=
  ValidateDefinition e = Ok tt ∧ ∀ registry cb path, resolveExpression registry cb e path = Ok v.
Definition quotable (v : ResolvedValue) : Prop :=
  ∃ e, outputTypedExpressionFromResolved v = Ok e ∧ quotes e v.

Lemma quotable_string text : quotable (plain TypeString (VString text)).
Proof.
  exists (mkTE TypeString (EString (escapeOutput text))). split; [reflexivity|].
  pose proof (tokens_escape text) as Ht. split.
  - cbn [ValidateDefinition]. unfold validateWholeReferenceText. by rewrite Ht.
  - intros registry cb path. cbn [resolveExpression whole_reference].
    unfold wholeValueReferenceExpression, resolve_text, interpolate. rewrite Ht. simpl.
    by rewrite unescape_escape.
Qed.

Lemma quotable_items vs :
  Forall quotable vs →
  ∀ i, ∃ es,
    traverse_items (λ index item, wrap_err ("convert list item " +:+ pretty index)
      (outputTypedExpressionFromResolved item)) i vs = Ok es ∧ Forall2 quotes es vs.
Proof.
  induction 1 as [|v vs (e & He & Hq) _ IH]; intros i; simpl; [eauto|].
  destruct (IH (S i)) as (es & Hes & Hqs). rewrite He, Hes. simpl. eauto.
Qed.
Lemma quotable_fields fs :
  Forall (λ f, quotable f.2) fs →
  ∃ es,
    traverse_fields (λ name field, wrap_err ("convert object field " +:+ name)
      (outputTypedExpressionFromResolved field)) fs = Ok es ∧ Forall2 (field_rel quotes) es fs.
Proof.
  induction 1 as [|[k v] fs (e & He & Hq) _ IH]; simpl; [eauto|].
  destruct IH as (es & Hes & Hqs). simpl in He. rewrite He, Hes. simpl.
  eexists. split; [reflexivity|]. by constructor.
Qed.

Lemma quotes_items es vs :
  Forall2 quotes es vs →
  (∀ i, ∃ us, traverse_items (λ index item,
     wrap_err ("validate list item " +:+ pretty index) (ValidateDefinition item)) i es = Ok us) ∧
  ∀ registry cb path i, traverse_items (λ index child,
     resolveExpression registry cb child (appendJSONPointer path (pretty index))) i es = Ok vs.
Proof.
  induction 1 as [|e v es vs [Hv Hr] _ [IHv IHr]]; simpl; [eauto|]. split.
  - intros i. destruct (IHv (S i)) as [us Hus]. rewrite Hv, Hus. simpl. eauto.
  - intros registry cb path i. by rewrite Hr, IHr.
Qed.
Lemma quotes_fields es fs :
  Forall2 (field_rel quotes) es fs →
  (∃ us, traverse_fields (λ name field,
     wrap_err ("validate object field " +:+ name) (ValidateDefinition field)) es = Ok us) ∧
  ∀ registry cb path, traverse_fields (λ name child,
     resolveExpression registry cb child (appendJSONPointer path name)) es = Ok fs.
Proof.
  induction 1 as [|[k e] [k' v] es fs [Hk [Hv Hr]] _ [[us IHv] IHr]]; simpl in *; [eauto|]. subst k'.
  split.
  - rewrite Hv, IHv. simpl. eauto.
  - intros registry cb path. by rewrite Hr, IHr.
Qed.

Lemma quotable_list vs : Forall quotable vs → quotable (ResolvedList vs).
Proof.
  intros Hvs. destruct (quotable_items vs Hvs 0) as (es & Hes & Hq).
  exists (mkTE TypeList (EList es)). unfold ResolvedList at 1.
  destruct (aggregateSensitivity [] vs) as [[s l] p] eqn:E. simpl. rewrite Hes. split; [reflexivity|].
  destruct (quotes_items es vs Hq) as [Hval Hres]. destruct (Hval 0) as [us Hus]. split.
  - simpl. by rewrite Hus.
  - intros registry cb path. simpl. by rewrite Hres.
Qed.

Lemma quotable_object fs : Forall (λ f, quotable f.2) fs → quotable (ResolvedObject fs).
Proof.
  intros Hfs. destruct (quotable_fields fs Hfs) as (es & Hes & Hq).
  exists (mkTE TypeObject (EObject es)). unfold ResolvedObject at 1.
  destruct (aggregateSensitivity fs []) as [[s l] p] eqn:E. simpl. rewrite Hes. split; [reflexivity|].
  destruct (quotes_fields es fs Hq) as [[us Hus] Hres]. split.
  - simpl. by rewrite Hus.
  - intros registry cb path. simpl. by rewrite Hres.
Qed.

Lemma traverse_items_Forall {A B} (P : B → Prop) (f : nat → A → result B) l :
  Forall (λ a, ∀ i b, f i a = Ok b → P b) l → ∀ i bs, traverse_items f i l = Ok bs → Forall P bs.
Proof.
  induction 1 as [|a l Ha _ IH]; intros i bs H; simpl in H; result_inv; constructor; eauto.
Qed.
Lemma traverse_fields_Forall {A B} (P : B → Prop) (f : string → A → result B) l :
  Forall (λ x, ∀ k b, f k x.2 = Ok b → P b) l →
  ∀ bs, traverse_fields f l = Ok bs → Forall (λ x, P x.2) bs.
Proof.
  induction 1 as [|[k a] l Ha _ IH]; intros bs H; simpl in H; result_inv; constructor; eauto.
Qed.

(** What a step reports is data.  Every accepted output document becomes an
    expression that is a valid variable definition and that resolves, with any
    registry and whatever variables exist, to exactly the reported value: text that
    looks like a reference is neither expanded nor rejected. *)
Theorem step_output_is_data document path v :
  resolvedOutputValue document path = Ok v →
  ∃ e, outputTypedExpressionFromResolved v = Ok e ∧ ValidateDefinition e = Ok tt ∧
    ∀ registry cb path', resolveExpression registry cb e path' = Ok v.
Proof.
  revert path v. enough (∀ path v, resolvedOutputValue document path = Ok v → quotable v) as H.
  { intros path v (e & He & Hval & Hres)%H. eauto. }
  induction document as [items IH|fields IH|j H1 H2] using JSON_ind'; intros path v H; simpl in H.
  - result_inv. apply quotable_list. eapply traverse_items_Forall; [|eassumption].
    eapply Forall_impl; [exact IH|]. simpl. eauto.
  - result_inv. apply quotable_object. eapply traverse_fields_Forall; [|eassumption].
    eapply Forall_impl; [exact IH|]. simpl. eauto.
  - destruct j; simpl in H; try (by destruct (H1 _ eq_refl)); try (by destruct (H2 _ eq_refl)).
    + done.
    + injection H as <-. by exists (mkTE TypeBool (EBool b)).
    + result_inv. destruct (Atoi text) as [z|]; [|done]. injection H as <-.
      by exists (mkTE TypeInt (EInt z)).
    + injection H as <-. apply quotable_string.
Qed.

Lemma step_output_is_data_witness :
  let document := JObject [("path", JString "\${x}/${workflow.token}"); ("n", JNumber "-7")] in
  ∃ v e, resolvedOutputValue document "/" = Ok v ∧ outputTypedExpressionFromResolved v = Ok e ∧
    resolveExpression DefaultFunctionRegistry (λ _ _, Err (Errorf "no variables")) e "/" = Ok v.
Proof.
  intros document.
  destruct (is_Ok_exists (resolvedOutputValue document "/")) as [v Hv]; [vm_compute; reflexivity|].
  destruct (step_output_is_data document "/" v Hv) as (e & He & _ & Hr).
  exists v, e. split; [exact Hv|]. split; [exact He|apply Hr].
Defined.
