(* ===== verification/OutputText.v ===== *)
(** * Output documents as text ([cmd/controller/workflow_outputs.go])

    Reading an output document and writing it in canonical form.  The controller
    stores the canonical text of what a worker reports with its digest, and reads
    that text again when it aggregates outputs and offers them to later steps. *)

From S2P Require Import Prelude GoTime GoJson GoStrings GoJsonLaws GoSha256 Fingerprint.
From S2P Require Import Variables Expression Functions Resolver ResolverRel ResolverTyping StepOutputs.
Local Open Scope nat_scope.

Definition resolvedOutputFromJSON (raw : string) : result ResolvedValue :=
  match decode_document raw with
  | Malformed => Err (Errorf "decode output JSON")
  | Trailing => Err (Errorf "output JSON must contain one JSON document")
  | Document decoded => resolvedOutputValue decoded "/"
  end.

Definition canonicalOutputJSONFromResolved (value : ResolvedValue) : result (string * string) :=
  canonicalValue ← outputCanonicalValue value;
  CanonicalJSONSHA256 canonicalValue.

(** [variable.ResolvedValue{Type: variable.TypeList, List: []}] *)
Definition empty_list_value : ResolvedValue := mkRV TypeList VNil [] [] false "" "" None.
Definition canonicalOutputFromEmptyList : result (string * string) :=
  canonicalOutputJSONFromResolved empty_list_value.

Example empty_list_output :
  canonicalOutputFromEmptyList
  = Ok ("[]", "4f53cda18c2baa0c0354bb5f9a3ecbe5ed12ab4d8e11ba873c2f11161202b945").
Proof. vm_compute. reflexivity. Qed.
Example read_output :
  resolvedOutputFromJSON " [ 12 ] " = Ok (ResolvedList [plain TypeInt (VInt 12)]).
Proof. reflexivity. Qed.

(** ** Documents that are accepted *)

(** No null, every number a 64-bit integer. *)
Fixpoint output_ok (v : JSON) : bool :=
  match v with
  | JNull => false
  | JNumber text => negb (contains_any ".eE" text) && bool_decide (is_Some (Atoi text))
  | JArray items => forallb output_ok items
  | JObject fields => forallb (λ '(_, x), output_ok x) fields
  | _ => true
  end.
(** Numbers in their shortest form: only ["-0"] changes. *)
Fixpoint norm (v : JSON) : JSON :=
  match v with
  | JNumber text => match Atoi text with Some z => JNumber (pretty z) | None => v end
  | JArray items => JArray (norm <$> items)
  | JObject fields => JObject (on_value norm <$> fields)
  | _ => v
  end.

(** ** Printing and reading 64-bit integers *)

Lemma digit_step acc x s :
  (x < 10)%N → digits_value acc (String (pretty_N_char x) s) = digits_value (acc * 10 + Z.of_N x) s.
Proof.
  intros Hx.
  assert (x = 0 ∨ x = 1 ∨ x = 2 ∨ x = 3 ∨ x = 4 ∨ x = 5 ∨ x = 6 ∨ x = 7 ∨ x = 8 ∨ x = 9)%N by lia.
  by destruct_or!; subst.
Qed.
Lemma digits_value_go x s : digits_value 0 (pretty_N_go x s) = digits_value (Z.of_N x) s.
Proof.
  revert s. induction (N.lt_wf_0 x) as [x _ IH]; intros s.
  destruct (decide (x = 0)%N) as [->|Hx]; [by rewrite pretty_N_go_0|].
  rewrite pretty_N_go_step by lia. rewrite IH by (apply N.div_lt; lia).
  rewrite digit_step by (apply N.mod_lt; lia). f_equal.
  pose proof (N.Div0.div_mod x 10). lia.
Qed.
Lemma digits_value_pretty (x : N) : digits_value 0 (pretty x) = Some (Z.of_N x).
Proof.
  unfold pretty, pretty_N. case_decide as Hx; [by subst|]. by rewrite digits_value_go.
Qed.

Lemma Atoi_pretty z : int64 z → Atoi (pretty z) = Some z.
Proof.
  intros Hz.
  assert (∀ x : N, ∃ c s, pretty x = String c s ∧ GoJson.is_digit c = true) as Hp.
  { intros x. apply decimal_head, pretty_N_decimal. }
  destruct z as [|p|p].
  - reflexivity.
  - change (Atoi (pretty (N.pos p)) = Some (Z.pos p)).
    destruct (Hp (N.pos p)) as (c & s & Hs & Hc). pose proof (digits_value_pretty (N.pos p)) as Hd.
    rewrite Hs in Hd |- *. cbn [Atoi].
    assert (c ≠ "-"%char ∧ c ≠ "+"%char) as [Hm Hplus] by (split; intros ->; discriminate Hc).
    unfold Atoi.
    destruct c as [[] [] [] [] [] [] [] []]; try discriminate Hc;
      cbn [mbind option_bind]; rewrite Hd; cbn [mbind option_bind]; by rewrite decide_True.
  - change (Atoi (String "-" (pretty (N.pos p))) = Some (Z.neg p)).
    destruct (Hp (N.pos p)) as (c & s & Hs & Hc). pose proof (digits_value_pretty (N.pos p)) as Hd.
    unfold Atoi. rewrite Hs in Hd |- *. rewrite Hd. cbn [mbind option_bind]. by rewrite decide_True.
Qed.
Lemma Atoi_int64 text z : Atoi text = Some z → int64 z.
Proof.
  unfold Atoi. intros H. repeat (case_match; try done);
    apply bind_Some in H as (n & _ & H); cbn beta iota zeta in H; case_decide; by simplify_eq.
Qed.

(** ** What is accepted has a canonical form *)

Lemma traverse_items_Forall2 {A B} (f : nat → A → result B) i l bs :
  traverse_items f i l = Ok bs → Forall2 (λ a b, ∃ j, f j a = Ok b) l bs.
Proof. revert i bs. induction l as [|a l IH]; intros i bs H; simpl in H; result_inv; constructor; eauto. Qed.
Lemma traverse_fields_Forall2 {A B} (f : string → A → result B) l bs :
  traverse_fields f l = Ok bs → Forall2 (λ a b, a.1 = b.1 ∧ f a.1 a.2 = Ok b.2) l bs.
Proof. revert bs. induction l as [|[k a] l IH]; intros bs H; simpl in H; result_inv; constructor; eauto. Qed.
Lemma traverse_items_total {A B} (f : nat → A → result B) l i :
  Forall (λ a, ∀ j, ∃ b, f j a = Ok b) l → ∃ bs, traverse_items f i l = Ok bs.
Proof.
  intros H. revert i. induction H as [|a l Ha _ IH]; intros i; simpl; [eauto|].
  destruct (Ha i) as [b ->], (IH (S i)) as [bs ->]. simpl. eauto.
Qed.
Lemma traverse_fields_total {A B} (f : string → A → result B) l :
  Forall (λ a, ∃ b, f a.1 a.2 = Ok b) l → ∃ bs, traverse_fields f l = Ok bs.
Proof.
  induction 1 as [|[k a] l [b Ha] _ [bs IH]]; simpl in *; [eauto|]. rewrite Ha, IH. simpl. eauto.
Qed.

(** [v] has a canonical text, which stands for [j]. *)
Definition canonical_for (v : ResolvedValue) (j : JSON) : Prop :=
  ∃ g text, outputCanonicalValue v = Ok g ∧ denote g = j ∧ writeCanonicalJSON g = Ok text.

Lemma canonical_list vs js : Forall2 canonical_for vs js → canonical_for (ResolvedList vs) (JArray js).
Proof.
  intros H.
  assert (∃ gs ts, (∀ i, traverse_items (λ index item,
      wrap_err ("convert list item " +:+ pretty index) (outputCanonicalValue item)) i vs = Ok gs) ∧
    denote <$> gs = js ∧ ∀ i, traverse_items (λ i item, wrap_err ("encode list item " +:+ pretty i) item) i
      (writeCanonicalJSON <$> gs) = Ok ts) as (gs & ts & Hg & Hd & Ht).
  { induction H as [|v j vs js (g & t & H1 & H2 & H3) _ (gs & ts & IH1 & IH2 & IH3)].
    - by exists [], [].
    - exists (g :: gs), (t :: ts). split_and!.
      + intros i. cbn [traverse_items]. by rewrite H1, IH1.
      + rewrite fmap_cons. by rewrite H2, IH2.
      + intros i. rewrite fmap_cons. cbn [traverse_items]. by rewrite H3, IH3. }
  exists (GList gs). eexists. unfold ResolvedList. destruct (aggregateSensitivity [] vs) as [[s l] p].
  split_and!.
  - simpl. by rewrite Hg.
  - simpl. by rewrite Hd.
  - cbn [writeCanonicalJSON]. unfold writeCanonicalList. rewrite Ht. reflexivity.
Qed.

Lemma canonical_object fs js :
  Forall2 (λ f j, f.1 = j.1 ∧ canonical_for f.2 j.2) fs js → canonical_for (ResolvedObject fs) (JObject js).
Proof.
  intros H.
  assert (∃ gs, traverse_fields (λ name field,
      wrap_err ("convert object field " +:+ name) (outputCanonicalValue field)) fs = Ok gs ∧
    on_value denote <$> gs = js ∧ Forall (λ f, ∃ t, writeCanonicalJSON f.2 = Ok t) gs) as (gs & Hg & Hd & Ht).
  { induction H as [|[k v] [k' j] vs js [Hk (g & t & H1 & H2 & H3)] _ (gs & IH1 & IH2 & IH3)].
    - by exists [].
    - simpl in *. subst k'. exists ((k, g) :: gs). split_and!.
      + by rewrite H1, IH1.
      + rewrite fmap_cons. cbn [on_value]. by rewrite H2, IH2.
      + constructor; [by exists t|done]. }
  exists (GMap gs).
  destruct (traverse_fields_total (λ key value, wrap_err ("encode object field " +:+ key) value)
      (order_by by_key (on_value writeCanonicalJSON <$> gs))) as [ms Hms].
  { rewrite order_by_perm, Forall_fmap. eapply Forall_impl; [exact Ht|]. intros [k g] [t Hg']. simpl in *.
    exists t. by rewrite Hg'. }
  exists ("{" +:+ str_join "," ((λ '(key, text), marshal_string key +:+ ":" +:+ text) <$> ms) +:+ "}").
  unfold ResolvedObject. destruct (aggregateSensitivity fs []) as [[s l] p]. split_and!.
  - simpl. by rewrite Hg.
  - rewrite denote_map. by rewrite Hd.
  - cbn [writeCanonicalJSON]. unfold writeCanonicalObject. unfold on_value in Hms. by rewrite Hms.
Qed.

Lemma output_ok_items items : output_ok (JArray items) = true ↔ Forall (λ v, output_ok v = true) items.
Proof. cbn [output_ok]. rewrite forallb_forall, Forall_forall. by setoid_rewrite list_elem_of_In. Qed.
Lemma output_ok_fields fields :
  output_ok (JObject fields) = true ↔ Forall (λ f, output_ok f.2 = true) fields.
Proof.
  cbn [output_ok]. rewrite forallb_forall, Forall_forall. setoid_rewrite <- list_elem_of_In.
  split; intros H [k x] Hin; by apply (H (k, x)).
Qed.

Lemma accepted_canonical j : ∀ path v,
  resolvedOutputValue j path = Ok v → output_ok j = true ∧ canonical_for v (norm j).
Proof.
  induction j as [items IH|fields IH|j H1 H2] using JSON_ind'; intros path v H.
  - cbn [resolvedOutputValue] in H. apply fmap_Ok in H as (vs & H%traverse_items_Forall2 & ->).
    rewrite output_ok_items. cbn [norm].
    assert (Forall (λ v, output_ok v = true) items ∧ Forall2 canonical_for vs (norm <$> items)) as [Ho Hc].
    { induction H as [|j v js vs [i Hj] _ IHl]; [by split; constructor|].
      apply Forall_cons in IH as [Hx IH]. destruct (IHl IH) as [Ho Hc].
      destruct (Hx _ _ Hj). rewrite fmap_cons. split; by constructor. }
    split; [done|]. by apply canonical_list.
  - cbn [resolvedOutputValue] in H. apply fmap_Ok in H as (vs & H%traverse_fields_Forall2 & ->).
    rewrite output_ok_fields. cbn [norm].
    assert (Forall (λ f, output_ok f.2 = true) fields ∧
      Forall2 (λ f j, f.1 = j.1 ∧ canonical_for f.2 j.2) vs (on_value norm <$> fields)) as [Ho Hc].
    { induction H as [|[k j] [k' v] js vs [Hk Hj] _ IHl]; [by split; constructor|]. simpl in Hk, Hj. subst k'.
      apply Forall_cons in IH as [Hx IH]. destruct (IHl IH) as [Ho Hc].
      destruct (Hx _ _ Hj). rewrite fmap_cons. split; by constructor. }
    split; [done|]. by apply canonical_object.
  - destruct j as [|b|text|s|items|fields]; try (by destruct (H1 _ eq_refl)); try (by destruct (H2 _ eq_refl)).
    + done.
    + injection H as <-. split; [done|]. exists (GBool b), (if b then "true" else "false"). by destruct b.
    + cbn [resolvedOutputValue] in H. apply bind_Ok in H as ([] & Hc%fail_if_Ok & H).
      destruct (Atoi text) as [z|] eqn:Ha; [|done]. injection H as <-. cbn [output_ok norm]. rewrite Hc, Ha.
      split; [by rewrite bool_decide_eq_true_2|]. by exists (GInt z), (pretty z).
    + injection H as <-. split; [done|]. by exists (GString s), (marshal_string s).
Qed.

Lemma accepted_total j : output_ok j = true → ∀ path, ∃ v, resolvedOutputValue j path = Ok v.
Proof.
  induction j as [items IH|fields IH|j H1 H2] using JSON_ind'; intros Ho path.
  - rewrite output_ok_items in Ho. cbn [resolvedOutputValue].
    destruct (traverse_items_total (λ index item,
      resolvedOutputValue item (appendOutputJSONPointer path (pretty index))) items 0) as [vs ->].
    { rewrite Forall_forall in *. intros x Hx i. by apply IH; [|apply Ho]. }
    simpl. eauto.
  - rewrite output_ok_fields in Ho. cbn [resolvedOutputValue].
    destruct (traverse_fields_total (λ name field,
      resolvedOutputValue field (appendOutputJSONPointer path name)) fields) as [vs ->].
    { rewrite Forall_forall in *. intros x Hx. by apply IH; [|apply Ho]. }
    simpl. eauto.
  - destruct j as [|b|text|s|items|fields]; try (by destruct (H1 _ eq_refl)); try (by destruct (H2 _ eq_refl));
      simpl; eauto; [done|]. cbn [output_ok] in Ho. apply andb_true_iff in Ho as [Hc Ha].
    apply negb_true_iff in Hc. apply bool_decide_eq_true in Ha as [z Ha]. rewrite Hc, Ha. simpl. eauto.
Qed.

(** ** Normal forms *)

Ltac json_leaf H1 H2 :=
  try (by destruct (H1 _ eq_refl)); try (by destruct (H2 _ eq_refl)).

Lemma norm_ok j : output_ok j = true → output_ok (norm j) = true ∧ norm (norm j) = norm j.
Proof.
  induction j as [items IH|fields IH|j H1 H2] using JSON_ind'; intros Ho.
  - rewrite output_ok_items in Ho. cbn [norm]. rewrite output_ok_items, Forall_fmap.
    rewrite Forall_forall in *. split; [intros x Hx; by apply IH, Ho|]. f_equal.
    rewrite <- list_fmap_compose. apply list_fmap_ext. intros i x Hx%list_elem_of_lookup_2.
    by apply IH, Ho.
  - rewrite output_ok_fields in Ho. cbn [norm]. rewrite output_ok_fields, Forall_fmap.
    rewrite Forall_forall in *. split; [intros [k x] Hx; by apply (IH (k, x)), (Ho (k, x))|]. f_equal.
    rewrite <- list_fmap_compose. apply list_fmap_ext. intros i [k x] Hx%list_elem_of_lookup_2.
    cbn. f_equal. by apply (IH (k, x)), (Ho (k, x)).
  - destruct j as [|b|text|s|items|fields]; json_leaf H1 H2; try done.
    cbn [output_ok] in Ho. apply andb_true_iff in Ho as [Hc Ha].
    apply bool_decide_eq_true in Ha as [z Ha]. pose proof (Atoi_pretty z (Atoi_int64 _ _ Ha)) as Hp.
    cbn [norm]. rewrite Ha. cbn [norm output_ok]. rewrite Hp. split; [|done].
    rewrite bool_decide_eq_true_2 by done. rewrite andb_true_r. apply negb_true_iff.
    pose proof (pretty_Z_canonical z) as Hz. unfold isCanonicalIntegerText in Hz.
    destruct (is_empty _ || contains_any _ _) eqn:E; [done|]. by apply orb_false_iff in E as [_ ?].
Qed.

Lemma norm_wf j : json_wf j = true → json_wf (norm j) = true.
Proof.
  induction j as [items IH|fields IH|j H1 H2] using JSON_ind'; intros Hw.
  - cbn [norm]. rewrite json_wf_items in *. apply Forall_fmap. rewrite Forall_forall in *.
    intros x Hx. by apply IH, Hw.
  - cbn [norm]. rewrite json_wf_fields in *. rewrite keys_on_value, Forall_fmap. destruct Hw as [Hn Hw].
    split; [done|]. rewrite Forall_forall in *. intros [k x] Hx. destruct (Hw _ Hx) as [Hk Hv].
    split; [done|]. by apply (IH (k, x)).
  - destruct j as [|b|text|s|items|fields]; json_leaf H1 H2; try done.
    cbn [norm]. by destruct (Atoi text).
Qed.
Lemma norm_depth j n : (json_depth j ≤ n)%N → (json_depth (norm j) ≤ n)%N.
Proof.
  revert n. induction j as [items IH|fields IH|v H1 H2] using JSON_ind'; intros n Hn.
  - assert (∃ m, n = (1 + m)%N) as [m ->] by (exists (n - 1)%N; cbn [json_depth] in Hn; lia).
    cbn [norm]. rewrite depth_array_le in *. apply Forall_fmap. rewrite Forall_forall in *.
    intros x Hx. by apply IH, Hn.
  - assert (∃ m, n = (1 + m)%N) as [m ->] by (exists (n - 1)%N; cbn [json_depth] in Hn; lia).
    cbn [norm]. rewrite depth_object_le in *. apply Forall_fmap.
    rewrite Forall_forall in *. intros [k x] Hx. by apply (IH (k, x)), (Hn (k, x)).
  - destruct v as [|b|text|s|items|fields]; json_leaf H1 H2; try done.
    cbn [norm]. destruct (Atoi text); simpl in *; lia.
Qed.

Lemma jsort_ok j : output_ok j = true → output_ok (jsort j) = true.
Proof.
  induction j as [items IH|fields IH|v H1 H2] using JSON_ind'; intros Ho.
  - cbn [jsort]. rewrite output_ok_items in *. apply Forall_fmap. rewrite Forall_forall in *.
    intros x Hx. by apply IH, Ho.
  - rewrite jsort_object. rewrite output_ok_fields in *. rewrite order_by_perm. apply Forall_fmap.
    rewrite Forall_forall in *. intros [k x] Hx. by apply (IH (k, x)), (Ho (k, x)).
  - destruct v; json_leaf H1 H2; done.
Qed.
Lemma norm_jsort j : json_wf j = true → norm (jsort j) = jsort (norm j) ∧ jsort (jsort j) = jsort j.
Proof.
  induction j as [items IH|fields IH|v H1 H2] using JSON_ind'; intros Hw.
  - rewrite json_wf_items in Hw. cbn [norm jsort]. rewrite <- !list_fmap_compose.
    rewrite Forall_forall in *. split; f_equal; apply list_fmap_ext; intros i x Hx%list_elem_of_lookup_2;
      by apply IH, Hw.
  - rewrite json_wf_fields in Hw. destruct Hw as [Hn Hw]. cbn [norm]. rewrite !jsort_object. cbn [norm].
    rewrite <- !order_by_on_value by (rewrite ?order_by_perm, ?keys_on_value; done).
    rewrite (order_by_key_perm (order_by by_key _) (on_value jsort <$> (on_value jsort <$> fields)));
      [|by rewrite order_by_perm, !keys_on_value|by rewrite order_by_perm].
    rewrite <- !list_fmap_compose. rewrite Forall_forall in *.
    split; do 2 f_equal; apply list_fmap_ext; intros i [k x] Hx%list_elem_of_lookup_2; cbn; f_equal;
      apply (IH (k, x) Hx), (Hw (k, x) Hx).
  - destruct v as [|b|text|s|items|fields]; json_leaf H1 H2; try done.
    cbn [norm jsort]. by destruct (Atoi text).
Qed.

(** ** The stored text stands for the reported document *)

Lemma canonical_output_text v j text hash :
  json_wf j = true → canonical_for v j → canonicalOutputJSONFromResolved v = Ok (text, hash) →
  text = print (jsort j) ∧ hash = SHA256Hex text.
Proof.
  intros Hw (g & t & Hg & Hd & Ht) H. unfold canonicalOutputJSONFromResolved in H. rewrite Hg in H.
  cbn [mbind result_bind] in H. unfold CanonicalJSONSHA256, CanonicalJSON in H. rewrite Ht in H.
  cbn [mbind result_bind] in H. injection H as <- <-. split; [|done]. subst j.
  by apply write_print.
Qed.

(** Whatever document a worker's output is accepted from, its canonical text
    exists, carries a well-formed digest, and is accepted again: it decodes to the
    same document (up to the order of fields and the spelling of [-0]), and its
    canonical text and digest are itself.  So the text the controller stores can be
    re-read, re-canonicalised and compared by digest without loss. *)
Theorem canonical_output_stable raw v :
  resolvedOutputFromJSON raw = Ok v →
  ∃ document text hash v',
    decode_document raw = Document document ∧
    canonicalOutputJSONFromResolved v = Ok (text, hash) ∧ ValidateSHA256Hex hash = Ok tt ∧
    (∃ document', decode_document text = Document document' ∧ json_eq document' (norm document)) ∧
    resolvedOutputFromJSON text = Ok v' ∧ canonicalOutputJSONFromResolved v' = Ok (text, hash).
Proof.
  unfold resolvedOutputFromJSON. destruct (decode_document raw) as [| |j] eqn:Hraw; [done..|].
  intros H. destruct (decode_wf _ _ Hraw) as [Hw Hd]. destruct (accepted_canonical _ _ _ H) as [Ho Hc].
  pose proof Hc as (g & text & Hg & Hden & Ht).
  pose proof (norm_wf _ Hw) as Hnw. pose proof (norm_depth _ _ Hd) as Hnd.
  destruct (norm_ok _ Ho) as [Hno Hnn]. destruct (norm_jsort _ Hnw) as [Hnj Hjj].
  assert (decode_document text = Document (jsort (norm j))) as Hdec.
  { rewrite <- Hden in *. by apply canonical_text. }
  assert (text = print (jsort (norm j))) as Hprint by (rewrite <- Hden in *; by apply write_print).
  destruct (accepted_total _ (jsort_ok _ Hno) "/") as [v' Hv'].
  destruct (accepted_canonical _ _ _ Hv') as [_ Hc']. rewrite Hnj, Hnn in Hc'.
  exists j, text, (SHA256Hex text), v'. split_and!; try done.
  - unfold canonicalOutputJSONFromResolved. rewrite Hg. simpl. unfold CanonicalJSONSHA256, CanonicalJSON.
    by rewrite Ht.
  - apply SHA256Hex_valid.
  - exists (jsort (norm j)). split; [done|]. apply jsort_json_eq. by rewrite Hjj.
  - by rewrite Hdec.
  - destruct Hc' as (g' & text' & Hg' & Hden' & Ht'). unfold canonicalOutputJSONFromResolved.
    rewrite Hg'. simpl. unfold CanonicalJSONSHA256, CanonicalJSON. rewrite Ht'. simpl.
    assert (text' = print (jsort (denote g'))) as ->.
    { apply write_print; [|done]. rewrite Hden'. by apply jsort_wf. }
    rewrite Hden', Hjj. by rewrite <- Hprint.
Qed.

Lemma canonical_output_stable_witness :
  let q := String quote_byte "" in
  let raw := " {" +:+ q +:+ "b" +:+ q +:+ ": [ -0, " +:+ q +:+ "<" +:+ q +:+ " ], " +:+ q +:+ "a" +:+ q +:+ " : true } " in
  ∃ v text hash v', resolvedOutputFromJSON raw = Ok v ∧ canonicalOutputJSONFromResolved v = Ok (text, hash) ∧
    resolvedOutputFromJSON text = Ok v' ∧ canonicalOutputJSONFromResolved v' = Ok (text, hash).
Proof.
  intros q raw. destruct (is_Ok_exists (resolvedOutputFromJSON raw)) as [v Hv]; [vm_compute; reflexivity|].
  destruct (canonical_output_stable raw v Hv) as (j & text & hash & v' & _ & H1 & _ & _ & H2 & H3).
  exists v, text, hash, v'. split; [exact Hv|]. split; [exact H1|]. split; [exact H2|exact H3].
Defined.
