(* ===== verification/Dependency.v ===== *)
(** * Workflow dependency plans

    ([internal/model/workflow_dependency.go],
    [cmd/controller/workflow_dependency_store.go])

    A plan is the state of a run as the controller sees it: stages in order, the
    steps of each stage, the work items of each step.  A later stage waits for the
    stages before it; a step is done when its items are; a failed item fails its
    step, stage and workflow.

    Go passes pointers into the plan around ([&plan.Stages[i].Steps[j]]); here a
    pointer is the position it denotes, and a write through it an update at that
    position.  The state types are Go strings: a value that is none of the
    constants is [..Unsupported]. *)

From S2P Require Import Prelude GoTime GoJson GoStrings StoreData.
Local Open Scope Z_scope.

(** ** States *)

Inductive WorkflowState :=
  | WorkflowStateRunning | WorkflowStateCompleted | WorkflowStateFailed
  | WorkflowStateUnsupported (value : string).
Inductive WorkflowStageState :=
  | WorkflowStageStateBlocked | WorkflowStageStateReady | WorkflowStageStateActive
  | WorkflowStageStateCompleted | WorkflowStageStateFailed
  | WorkflowStageStateUnsupported (value : string).
Inductive WorkflowStepState :=
  | WorkflowStepStateBlocked | WorkflowStepStateReady | WorkflowStepStateActive
  | WorkflowStepStateCompleted | WorkflowStepStateFailed
  | WorkflowStepStateUnsupported (value : string).
Inductive WorkItemMembershipState :=
  | WorkItemMembershipStateQueued | WorkItemMembershipStateRunning
  | WorkItemMembershipStateCompleted | WorkItemMembershipStateFailed
  | WorkItemMembershipStateSkipped
  | WorkItemMembershipStateUnsupported (value : string).

#[export] Instance WorkflowState_eq_dec : EqDecision WorkflowState.
Proof. solve_decision. Defined.
#[export] Instance WorkflowStageState_eq_dec : EqDecision WorkflowStageState.
Proof. solve_decision. Defined.
#[export] Instance WorkflowStepState_eq_dec : EqDecision WorkflowStepState.
Proof. solve_decision. Defined.
#[export] Instance WorkItemMembershipState_eq_dec : EqDecision WorkItemMembershipState.
Proof. solve_decision. Defined.

Definition WorkflowState_Validate (state : WorkflowState) : result unit :=
  match state with
  | WorkflowStateUnsupported s => Err (Errorf ("unsupported workflow state: " +:+ s))
  | _ => Ok tt
  end.
Definition WorkflowStageState_Validate (state : WorkflowStageState) : result unit :=
  match state with
  | WorkflowStageStateUnsupported s => Err (Errorf ("unsupported workflow stage state: " +:+ s))
  | _ => Ok tt
  end.
Definition WorkflowStepState_Validate (state : WorkflowStepState) : result unit :=
  match state with
  | WorkflowStepStateUnsupported s => Err (Errorf ("unsupported workflow step state: " +:+ s))
  | _ => Ok tt
  end.
Definition WorkItemMembershipState_Validate (state : WorkItemMembershipState) : result unit :=
  match state with
  | WorkItemMembershipStateUnsupported s => Err (Errorf ("unsupported work item membership state: " +:+ s))
  | _ => Ok tt
  end.

(** The text of a state ([%s]). *)
Definition step_state_text (state : WorkflowStepState) : string :=
  match state with
  | WorkflowStepStateBlocked => "blocked" | WorkflowStepStateReady => "ready"
  | WorkflowStepStateActive => "active" | WorkflowStepStateCompleted => "completed"
  | WorkflowStepStateFailed => "failed" | WorkflowStepStateUnsupported s => s
  end.
Definition item_state_text (state : WorkItemMembershipState) : string :=
  match state with
  | WorkItemMembershipStateQueued => "queued" | WorkItemMembershipStateRunning => "running"
  | WorkItemMembershipStateCompleted => "completed" | WorkItemMembershipStateFailed => "failed"
  | WorkItemMembershipStateSkipped => "skipped" | WorkItemMembershipStateUnsupported s => s
  end.

(** ** Plans *)

Record WorkflowDependencyWorkItemMembership := mkMembership {
  mi_WorkItemID : string; mi_WorkItemIndex : Z; mi_State : WorkItemMembershipState;
  mi_FailureReason : string; mi_OutputJSON : string; mi_OutputJSONSHA256 : string;
  mi_OutputJSONBytes : Z; mi_OutputJSONPruned : bool }.

Record WorkflowDependencyStep := mkStep {
  sp_StageIndex : Z; sp_StepIndex : Z; sp_StepID : string; sp_State : WorkflowStepState;
  sp_FailureReason : string; sp_OutputJSON : string; sp_OutputJSONSHA256 : string;
  sp_OutputJSONBytes : Z; sp_OutputJSONPruned : bool;
  sp_WorkItems : list WorkflowDependencyWorkItemMembership }.

Record WorkflowDependencyStage := mkDepStage {
  sg_StageIndex : Z; sg_State : WorkflowStageState; sg_FailureReason : string;
  sg_ParallelWith : string; sg_Steps : list WorkflowDependencyStep }.

Record WorkflowDependencyPlan := mkPlan {
  pl_RunID : string; pl_WorkflowID : string; pl_State : WorkflowState;
  pl_FailureReason : string; pl_Stages : list WorkflowDependencyStage }.

#[export] Instance WorkflowDependencyWorkItemMembership_eq_dec :
  EqDecision WorkflowDependencyWorkItemMembership.
Proof. solve_decision. Defined.
#[export] Instance WorkflowDependencyStep_eq_dec : EqDecision WorkflowDependencyStep.
Proof. solve_decision. Defined.
#[export] Instance WorkflowDependencyStage_eq_dec : EqDecision WorkflowDependencyStage.
Proof. solve_decision. Defined.
#[export] Instance WorkflowDependencyPlan_eq_dec : EqDecision WorkflowDependencyPlan.
Proof. solve_decision. Defined.

(** Assignments to one field, or to the fields assigned together. *)
Definition set_mi_State st m :=
  mkMembership (mi_WorkItemID m) (mi_WorkItemIndex m) st (mi_FailureReason m) (mi_OutputJSON m)
    (mi_OutputJSONSHA256 m) (mi_OutputJSONBytes m) (mi_OutputJSONPruned m).
Definition set_mi_Failure st reason m :=
  mkMembership (mi_WorkItemID m) (mi_WorkItemIndex m) st reason (mi_OutputJSON m)
    (mi_OutputJSONSHA256 m) (mi_OutputJSONBytes m) (mi_OutputJSONPruned m).
Definition set_mi_Output json sha size pruned m :=
  mkMembership (mi_WorkItemID m) (mi_WorkItemIndex m) (mi_State m) (mi_FailureReason m) json sha size pruned.
Definition set_mi_Identity id index m :=
  mkMembership id index (mi_State m) (mi_FailureReason m) (mi_OutputJSON m)
    (mi_OutputJSONSHA256 m) (mi_OutputJSONBytes m) (mi_OutputJSONPruned m).
Definition set_sp_State st s :=
  mkStep (sp_StageIndex s) (sp_StepIndex s) (sp_StepID s) st (sp_FailureReason s) (sp_OutputJSON s)
    (sp_OutputJSONSHA256 s) (sp_OutputJSONBytes s) (sp_OutputJSONPruned s) (sp_WorkItems s).
Definition set_sp_Failure st reason s :=
  mkStep (sp_StageIndex s) (sp_StepIndex s) (sp_StepID s) st reason (sp_OutputJSON s)
    (sp_OutputJSONSHA256 s) (sp_OutputJSONBytes s) (sp_OutputJSONPruned s) (sp_WorkItems s).
Definition set_sp_Output json sha size pruned s :=
  mkStep (sp_StageIndex s) (sp_StepIndex s) (sp_StepID s) (sp_State s) (sp_FailureReason s) json sha
    size pruned (sp_WorkItems s).
Definition set_sp_WorkItems items s :=
  mkStep (sp_StageIndex s) (sp_StepIndex s) (sp_StepID s) (sp_State s) (sp_FailureReason s)
    (sp_OutputJSON s) (sp_OutputJSONSHA256 s) (sp_OutputJSONBytes s) (sp_OutputJSONPruned s) items.
Definition set_sg_State st g :=
  mkDepStage (sg_StageIndex g) st (sg_FailureReason g) (sg_ParallelWith g) (sg_Steps g).
Definition set_sg_Failure st reason g :=
  mkDepStage (sg_StageIndex g) st reason (sg_ParallelWith g) (sg_Steps g).
Definition set_sg_Steps steps g :=
  mkDepStage (sg_StageIndex g) (sg_State g) (sg_FailureReason g) (sg_ParallelWith g) steps.
Definition set_pl_State st p :=
  mkPlan (pl_RunID p) (pl_WorkflowID p) st (pl_FailureReason p) (pl_Stages p).
Definition set_pl_Failure st reason p :=
  mkPlan (pl_RunID p) (pl_WorkflowID p) st reason (pl_Stages p).
Definition set_pl_Stages stages p :=
  mkPlan (pl_RunID p) (pl_WorkflowID p) (pl_State p) (pl_FailureReason p) stages.

(** [if x.FailureReason == "" { x.FailureReason = reason }] *)
Definition or_reason (current reason : string) : string := if is_empty current then reason else current.

(** ** Validation *)

Definition output_json_valid (json : string) : result unit :=
  fail_if (negb (is_empty json) && negb (json_Valid json)) (Errorf "output json must be valid JSON").

Definition Membership_Validate (m : WorkflowDependencyWorkItemMembership) : result unit :=
  required (mi_WorkItemID m) "work item id is required";;
  non_negative (mi_WorkItemIndex m) "work item index must be non-negative";;
  WorkItemMembershipState_Validate (mi_State m);;
  output_json_valid (mi_OutputJSON m);;
  non_negative (mi_OutputJSONBytes m) "output json bytes must be non-negative".

(** [for _, x := range xs { if err := check(x); err != nil { return err } }] *)
Definition for_each {A} (check : A → result unit) (l : list A) : result unit :=
  foldM (λ _ x, check x) tt l.

Definition Step_Validate (s : WorkflowDependencyStep) : result unit :=
  required (sp_StepID s) "step id is required";;
  non_negative (sp_StageIndex s) "stage index must be non-negative";;
  non_negative (sp_StepIndex s) "step index must be non-negative";;
  WorkflowStepState_Validate (sp_State s);;
  output_json_valid (sp_OutputJSON s);;
  non_negative (sp_OutputJSONBytes s) "output json bytes must be non-negative";;
  for_each (λ m, wrap_err ("work item " +:+ mi_WorkItemID m) (Membership_Validate m)) (sp_WorkItems s).

Definition Stage_Validate (g : WorkflowDependencyStage) : result unit :=
  non_negative (sg_StageIndex g) "stage index must be non-negative";;
  WorkflowStageState_Validate (sg_State g);;
  for_each Step_Validate (sg_Steps g).

Definition Plan_Validate (p : WorkflowDependencyPlan) : result unit :=
  required (pl_RunID p) "workflow run id is required";;
  required (pl_WorkflowID p) "workflow id is required";;
  WorkflowState_Validate (pl_State p).

(** The maps [seenStage], [seenStep] and [seenWorkItem]. *)
Record Seen := mkSeen { seenStage : gset Z; seenStep : gset Z; seenWorkItem : gset string }.

Definition validate_plan_item (seen : Seen) (m : WorkflowDependencyWorkItemMembership) : result Seen :=
  fail_if (bool_decide (mi_WorkItemID m ∈ seenWorkItem seen))
    (Errorf ("duplicate work item id " +:+ mi_WorkItemID m));;
  wrap_err ("work item " +:+ mi_WorkItemID m) (Membership_Validate m);;
  Ok (mkSeen (seenStage seen) (seenStep seen) ({[mi_WorkItemID m]} ∪ seenWorkItem seen)).
Definition validate_plan_step (stageIndex : Z) (seen : Seen) (s : WorkflowDependencyStep) : result Seen :=
  fail_if (bool_decide (sp_StepIndex s ∈ seenStep seen))
    (Errorf ("duplicate step index " +:+ pretty (sp_StepIndex s)));;
  let seen := mkSeen (seenStage seen) ({[sp_StepIndex s]} ∪ seenStep seen) (seenWorkItem seen) in
  fail_if (bool_decide (sp_StageIndex s ≠ stageIndex))
    (Errorf ("step " +:+ pretty (sp_StepIndex s) +:+ " has unexpected stage " +:+
             pretty (sp_StageIndex s) +:+ " for stage " +:+ pretty stageIndex));;
  foldM validate_plan_item seen (sp_WorkItems s).
Definition validate_plan_stage (seen : Seen) (g : WorkflowDependencyStage) : result Seen :=
  fail_if (bool_decide (sg_StageIndex g ∈ seenStage seen))
    (Errorf ("duplicate stage index " +:+ pretty (sg_StageIndex g)));;
  let seen := mkSeen ({[sg_StageIndex g]} ∪ seenStage seen) (seenStep seen) (seenWorkItem seen) in
  wrap_err ("stage " +:+ pretty (sg_StageIndex g)) (Stage_Validate g);;
  foldM (validate_plan_step (sg_StageIndex g)) seen (sg_Steps g).
Definition validateDependencyPlan (p : WorkflowDependencyPlan) : result unit :=
  Plan_Validate p;;
  foldM validate_plan_stage (mkSeen ∅ ∅ ∅) (pl_Stages p);;
  Ok tt.

(** ** Order *)

(** [sort.Slice] leaves the order of equal elements open; here they keep theirs. *)
Definition by_item (x y : WorkflowDependencyWorkItemMembership) : bool :=
  if decide (mi_WorkItemIndex x = mi_WorkItemIndex y) then str_leb (mi_WorkItemID x) (mi_WorkItemID y)
  else mi_WorkItemIndex x <=? mi_WorkItemIndex y.
Definition by_step (x y : WorkflowDependencyStep) : bool :=
  if decide (sp_StageIndex x = sp_StageIndex y) then sp_StepIndex x <=? sp_StepIndex y
  else sp_StageIndex x <=? sp_StageIndex y.
Definition sortWorkItemsByIndex (items : list WorkflowDependencyWorkItemMembership) :=
  order_by by_item items.
Definition sortStepsByIndex (steps : list WorkflowDependencyStep) : list WorkflowDependencyStep :=
  (λ s, set_sp_WorkItems (sortWorkItemsByIndex (sp_WorkItems s)) s) <$> order_by by_step steps.
Definition sortStagesByIndex (stages : list WorkflowDependencyStage) : list WorkflowDependencyStage :=
  (λ g, set_sg_Steps (sortStepsByIndex (sg_Steps g)) g) <$> order_by (by_int sg_StageIndex) stages.

(** ** Finding *)

(** The first element with an answer, and its position. *)
Fixpoint find_map {A B} (f : A → option B) (l : list A) : option (nat * B) :=
  match l with
  | [] => None
  | a :: l' =>
      match f a with
      | Some b => Some (O, b)
      | None => '(i, b) ← find_map f l'; Some (S i, b)
      end
  end.
Definition position {A} (p : A → bool) (l : list A) : option nat :=
  fst <$> find_map (λ a, if p a then Some tt else None) l.

Definition findDependencyStage (p : WorkflowDependencyPlan) (stageIndex : Z) : option nat :=
  position (λ g, sg_StageIndex g =? stageIndex) (pl_Stages p).
Definition findDependencyStep (p : WorkflowDependencyPlan) (stageIndex stepIndex : Z) :
    option (nat * nat) :=
  find_map (λ g, if sg_StageIndex g =? stageIndex
                 then position (λ s, sp_StepIndex s =? stepIndex) (sg_Steps g) else None)
    (pl_Stages p).
Definition findDependencyWorkItem (p : WorkflowDependencyPlan) (workItemID : string) :
    option (nat * (nat * nat)) :=
  find_map (λ g,
    find_map (λ s, position (λ m, bool_decide (mi_WorkItemID m = workItemID)) (sp_WorkItems s))
      (sg_Steps g)) (pl_Stages p).

(** Writes through pointers into the plan. *)
Definition update_stage (i : nat) (f : WorkflowDependencyStage → WorkflowDependencyStage) p :=
  set_pl_Stages (alter f i (pl_Stages p)) p.
Definition update_step (i j : nat) (f : WorkflowDependencyStep → WorkflowDependencyStep) p :=
  update_stage i (λ g, set_sg_Steps (alter f j (sg_Steps g)) g) p.
Definition update_membership (i j k : nat) f p :=
  update_step i j (λ s, set_sp_WorkItems (alter f k (sp_WorkItems s)) s) p.

(** ** Predicates and derived states *)

Definition isTerminalMembershipState (state : WorkItemMembershipState) : bool :=
  match state with
  | WorkItemMembershipStateCompleted | WorkItemMembershipStateSkipped
  | WorkItemMembershipStateFailed => true
  | _ => false
  end.
Definition is_success (state : WorkItemMembershipState) : bool :=
  match state with
  | WorkItemMembershipStateCompleted | WorkItemMembershipStateSkipped => true
  | _ => false
  end.

Definition dependencyStageHasWorkItems (g : WorkflowDependencyStage) : bool :=
  existsb (λ s, match sp_WorkItems s with [] => false | _ => true end) (sg_Steps g).
Definition firstDependencyStepIndex (g : WorkflowDependencyStage) : Z :=
  foldl (λ first s, if (first =? -1) || (sp_StepIndex s <? first) then sp_StepIndex s else first)
    (-1) (sg_Steps g).
Definition dependencyStepOutputsReady (s : WorkflowDependencyStep) : bool :=
  match sp_WorkItems s with
  | [] => false
  | items => forallb (λ m, is_success (mi_State m) && negb (is_empty (mi_OutputJSON m))) items
  end.
Definition dependencyStepHasIncompleteWork (s : WorkflowDependencyStep) : bool :=
  existsb (λ m, negb (isTerminalMembershipState (mi_State m))) (sp_WorkItems s).

Definition item_is (st : WorkItemMembershipState) (m : WorkflowDependencyWorkItemMembership) : bool :=
  bool_decide (mi_State m = st).

(** The loops return at the first failure they meet. *)
Definition updateStepStateFromWorkItems (items : list WorkflowDependencyWorkItemMembership)
    (currentState : WorkflowStepState) : WorkflowStepState :=
  if existsb (item_is WorkItemMembershipStateFailed) items
  then WorkflowStepStateFailed else
  let completed := length (List.filter (λ m, is_success (mi_State m)) items) in
  if bool_decide (length items = completed) then WorkflowStepStateCompleted else
  if existsb (λ m, is_success (mi_State m)) items then WorkflowStepStateActive else currentState.

Definition step_is (st : WorkflowStepState) (s : WorkflowDependencyStep) : bool := bool_decide (sp_State s = st).
Definition stage_is (st : WorkflowStageState) (g : WorkflowDependencyStage) : bool := bool_decide (sg_State g = st).

Definition updateStageStateFromSteps (steps : list WorkflowDependencyStep)
    (currentState : WorkflowStageState) : WorkflowStageState :=
  if existsb (step_is WorkflowStepStateFailed) steps then WorkflowStageStateFailed else
  if forallb (step_is WorkflowStepStateCompleted) steps then WorkflowStageStateCompleted else
  if bool_decide (currentState = WorkflowStageStateFailed) then currentState else
  if existsb (step_is WorkflowStepStateActive) steps then WorkflowStageStateActive else
  if existsb (step_is WorkflowStepStateCompleted) steps then WorkflowStageStateActive else currentState.

Definition updateWorkflowStateFromStages (p : WorkflowDependencyPlan) : WorkflowDependencyPlan :=
  if existsb (stage_is WorkflowStageStateFailed) (pl_Stages p) then set_pl_State WorkflowStateFailed p else
  if existsb (λ g, negb (stage_is WorkflowStageStateCompleted g)) (pl_Stages p)
  then set_pl_State WorkflowStateRunning p
  else set_pl_State WorkflowStateCompleted p.

(** ** Pruning of outputs *)

Definition string_bytes_Z (s : string) : Z := Z.of_nat (slen s).
Definition prune_item (m : WorkflowDependencyWorkItemMembership) : WorkflowDependencyWorkItemMembership :=
  if is_empty (mi_OutputJSON m) then m
  else set_mi_Output "" (mi_OutputJSONSHA256 m) (string_bytes_Z (mi_OutputJSON m)) true m.
Definition pruneWorkItemOutputJSON (s : WorkflowDependencyStep) : WorkflowDependencyStep :=
  set_sp_WorkItems (prune_item <$> sp_WorkItems s) s.
Definition pruneStepOutputJSON (s : WorkflowDependencyStep) : WorkflowDependencyStep :=
  if is_empty (sp_OutputJSON s) then s
  else set_sp_Output "" (sp_OutputJSONSHA256 s) (string_bytes_Z (sp_OutputJSON s)) true s.
Definition workflow_terminal (p : WorkflowDependencyPlan) : bool :=
  match pl_State p with WorkflowStateCompleted | WorkflowStateFailed => true | _ => false end.
Definition pruneDependencyOutputsIfTerminal (p : WorkflowDependencyPlan) : WorkflowDependencyPlan :=
  if workflow_terminal p then
    set_pl_Stages
      ((λ g, set_sg_Steps ((λ s, pruneStepOutputJSON (pruneWorkItemOutputJSON s)) <$> sg_Steps g) g)
         <$> pl_Stages p) p
  else p.
Definition pruneCompletedMembershipOutput (m : WorkflowDependencyWorkItemMembership) :
    WorkflowDependencyWorkItemMembership :=
  if is_success (mi_State m) then prune_item m else m.

(** ** Failure *)

Definition markDependencyWorkItemFailed (workItemID reason : string) (s : WorkflowDependencyStep) :
    WorkflowDependencyStep :=
  set_sp_WorkItems
    ((λ m,
        if negb (is_empty workItemID) && negb (bool_decide (mi_WorkItemID m = workItemID)) then m
        else if isTerminalMembershipState (mi_State m)
                && negb (bool_decide (mi_State m = WorkItemMembershipStateFailed))
                && is_empty workItemID then m
        else set_mi_Failure WorkItemMembershipStateFailed (or_reason (mi_FailureReason m) reason) m)
     <$> sp_WorkItems s) s.

Definition fail_step (workItemID reason : string) (s : WorkflowDependencyStep) : WorkflowDependencyStep :=
  markDependencyWorkItemFailed workItemID reason
    (set_sp_Failure WorkflowStepStateFailed (or_reason (sp_FailureReason s) reason) s).

Definition markDependencyPlanFailed (p : WorkflowDependencyPlan) (stageIndex stepIndex : Z)
    (workItemID reason : string) : WorkflowDependencyPlan :=
  let reason := if is_empty (TrimSpace reason) then "dependency workflow failed" else reason in
  let p := set_pl_Failure WorkflowStateFailed (or_reason (pl_FailureReason p) reason) p in
  match findDependencyStage p stageIndex with
  | None => p
  | Some i =>
      let p := update_stage i (λ g,
        set_sg_Failure WorkflowStageStateFailed (or_reason (sg_FailureReason g) reason) g) p in
      match (if 0 <=? stepIndex then findDependencyStep p stageIndex stepIndex else None) with
      | Some (i', j) => update_step i' j (fail_step workItemID reason) p
      | None => update_stage i (λ g, set_sg_Steps (fail_step "" reason <$> sg_Steps g) g) p
      end
  end.

(** ** A terminal work item *)

(** The plan after the item's state was assigned: the states above it follow. *)
Definition propagate (i j : nat) (p : WorkflowDependencyPlan) : WorkflowDependencyPlan :=
  let p := update_step i j (λ s,
             set_sp_State (updateStepStateFromWorkItems (sp_WorkItems s) (sp_State s)) s) p in
  let p := update_stage i (λ g,
             set_sg_State (updateStageStateFromSteps (sg_Steps g) (sg_State g)) g) p in
  let p := if bool_decide (pl_State p = WorkflowStateRunning) then updateWorkflowStateFromStages p else p in
  pruneDependencyOutputsIfTerminal p.

(** The result says whether the plan changed. *)
Definition updateDependencyPlanForWorkItemTerminal (p : WorkflowDependencyPlan) (workItemID : string)
    (terminalState : WorkItemMembershipState) (failureReason : string) :
    bool * WorkflowDependencyPlan :=
  match findDependencyWorkItem p workItemID with
  | None => (false, p)
  | Some (i, (j, k)) =>
      match pl_Stages p !! i with
      | None => (false, p)
      | Some stage =>
          match sg_Steps stage !! j with
          | None => (false, p)
          | Some step =>
              match sp_WorkItems step !! k with
              | None => (false, p)
              | Some membership =>
                  if decide (mi_State membership = terminalState) then (false, p)
                  else if isTerminalMembershipState (mi_State membership)
                       && (negb (bool_decide (terminalState = WorkItemMembershipStateFailed))
                           || negb (is_empty (sp_OutputJSONSHA256 step))) then (false, p)
                  else if decide (terminalState = WorkItemMembershipStateFailed) then
                    (true, pruneDependencyOutputsIfTerminal
                             (markDependencyPlanFailed p (sg_StageIndex stage) (sp_StepIndex step)
                                workItemID failureReason))
                  else (true, propagate i j (update_membership i j k (set_mi_State terminalState) p))
              end
          end
      end
  end.

(** ** States derived from the parts *)

Definition deriveDependencyStepState (s : WorkflowDependencyStep) (hasOutputFact : bool) : WorkflowStepState :=
  let items := sp_WorkItems s in
  if existsb (item_is WorkItemMembershipStateFailed) items then WorkflowStepStateFailed else
  let allTerminalSuccess :=
    match items with [] => false | _ => forallb (λ m, is_success (mi_State m)) items end in
  if hasOutputFact || allTerminalSuccess then WorkflowStepStateCompleted else
  if existsb (item_is WorkItemMembershipStateRunning) items
     || existsb (λ m, is_success (mi_State m)) items then WorkflowStepStateActive else
  if existsb (item_is WorkItemMembershipStateQueued) items then WorkflowStepStateReady
  else WorkflowStepStateBlocked.

Definition stepHasNoDerivedTerminalEvidence (s : WorkflowDependencyStep) (hasOutputFact : bool) : bool :=
  if hasOutputFact then false
  else negb (existsb (λ m, isTerminalMembershipState (mi_State m)) (sp_WorkItems s)).

Definition deriveDependencyStageState (g : WorkflowDependencyStage) (isEarliestStage : bool) :
    WorkflowStageState :=
  match sg_Steps g with
  | [] => if isEarliestStage then WorkflowStageStateReady else WorkflowStageStateBlocked
  | steps =>
      if existsb (step_is WorkflowStepStateFailed) steps then WorkflowStageStateFailed else
      if forallb (step_is WorkflowStepStateCompleted) steps then WorkflowStageStateCompleted else
      if existsb (λ s, step_is WorkflowStepStateActive s || step_is WorkflowStepStateCompleted s) steps
      then WorkflowStageStateActive else
      if existsb (step_is WorkflowStepStateReady) steps || isEarliestStage then WorkflowStageStateReady
      else WorkflowStageStateBlocked
  end.

Definition deriveDependencyWorkflowState (p : WorkflowDependencyPlan) : WorkflowDependencyPlan :=
  if existsb (stage_is WorkflowStageStateFailed) (pl_Stages p) then set_pl_State WorkflowStateFailed p else
  match pl_Stages p with
  | [] => set_pl_State WorkflowStateRunning p
  | stages =>
      if forallb (stage_is WorkflowStageStateCompleted) stages
      then set_pl_State WorkflowStateCompleted p else set_pl_State WorkflowStateRunning p
  end.

(** ** Status of a submission ([cmd/controller/main.go]) *)

Record SubmissionDependencyCounts := mkDepCounts {
  AssignablePending : Z; BlockedFuture : Z; ActiveCount : Z; CompletedCount : Z; FailedCount : Z;
  SkippedCount : Z }.
Definition no_counts : SubmissionDependencyCounts := mkDepCounts 0 0 0 0 0 0.
Definition addDependencyCounts (total next : SubmissionDependencyCounts) : SubmissionDependencyCounts :=
  mkDepCounts (AssignablePending total + AssignablePending next) (BlockedFuture total + BlockedFuture next)
    (ActiveCount total + ActiveCount next) (CompletedCount total + CompletedCount next)
    (FailedCount total + FailedCount next) (SkippedCount total + SkippedCount next).
Definition count_item (stageState : WorkflowStageState) (m : WorkflowDependencyWorkItemMembership) :
    SubmissionDependencyCounts :=
  match mi_State m with
  | WorkItemMembershipStateQueued =>
      if bool_decide (stageState = WorkflowStageStateBlocked) then mkDepCounts 0 1 0 0 0 0
      else mkDepCounts 1 0 0 0 0 0
  | WorkItemMembershipStateRunning => mkDepCounts 0 0 1 0 0 0
  | WorkItemMembershipStateCompleted => mkDepCounts 0 0 0 1 0 0
  | WorkItemMembershipStateFailed => mkDepCounts 0 0 0 0 1 0
  | WorkItemMembershipStateSkipped => mkDepCounts 0 0 0 0 0 1
  | WorkItemMembershipStateUnsupported _ => no_counts
  end.
Definition dependencyCountsForStep (stageState : WorkflowStageState) (s : WorkflowDependencyStep) :
    SubmissionDependencyCounts :=
  match sp_WorkItems s with
  | [] =>
      if bool_decide (sp_State s = WorkflowStepStateBlocked ∨ stageState = WorkflowStageStateBlocked)
      then mkDepCounts 0 1 0 0 0 0 else no_counts
  | items => foldl (λ counts m, addDependencyCounts counts (count_item stageState m)) no_counts items
  end.

Definition currentDependencyStageIndex (p : WorkflowDependencyPlan) : option Z :=
  sg_StageIndex <$>
    List.find (λ g, negb (stage_is WorkflowStageStateCompleted g)) (sortStagesByIndex (pl_Stages p)).

Record SubmissionDependencyFailure := mkFailure {
  fl_StageIndex : Z; fl_StepIndex : option Z; fl_StepID : string; fl_WorkItemID : string;
  fl_FailureReason : string }.

Definition failedDependencyStatus (p : WorkflowDependencyPlan) : SubmissionDependencyFailure :=
  let found :=
    match List.find (stage_is WorkflowStageStateFailed) (pl_Stages p) with
    | None => mkFailure (-1) None "" "" (pl_FailureReason p)
    | Some g =>
        let reason := or_reason (pl_FailureReason p) (sg_FailureReason g) in
        match List.find (step_is WorkflowStepStateFailed) (sg_Steps g) with
        | None => mkFailure (sg_StageIndex g) None "" "" reason
        | Some s =>
            let reason := or_reason reason (sp_FailureReason s) in
            match List.find (item_is WorkItemMembershipStateFailed) (sp_WorkItems s) with
            | None => mkFailure (sg_StageIndex g) (Some (sp_StepIndex s)) (sp_StepID s) "" reason
            | Some m =>
                mkFailure (sg_StageIndex g) (Some (sp_StepIndex s)) (sp_StepID s) (mi_WorkItemID m)
                  (or_reason reason (mi_FailureReason m))
            end
        end
    end in
  mkFailure (fl_StageIndex found) (fl_StepIndex found) (fl_StepID found) (fl_WorkItemID found)
    (or_reason (fl_FailureReason found) "dependency workflow failed").

Record SubmissionDependencyStepStatus := mkStepStatus {
  ss_StageIndex : Z; ss_StepIndex : Z; ss_StepID : string; ss_State : WorkflowStepState;
  ss_Counts : SubmissionDependencyCounts }.
Record SubmissionDependencyStageStatus := mkStageStatus {
  gs_StageIndex : Z; gs_State : WorkflowStageState; gs_ParallelWith : string; gs_StepCount : Z;
  gs_Counts : SubmissionDependencyCounts; gs_Steps : list SubmissionDependencyStepStatus }.
Record SubmissionDependencyStatus := mkDepStatus {
  dst_WorkflowState : WorkflowState; dst_CurrentStageIndex : option Z; dst_StageCount : Z;
  dst_Failed : option SubmissionDependencyFailure; dst_Counts : SubmissionDependencyCounts;
  dst_Stages : list SubmissionDependencyStageStatus }.

Definition step_status (stageState : WorkflowStageState) (s : WorkflowDependencyStep) :
    SubmissionDependencyStepStatus :=
  mkStepStatus (sp_StageIndex s) (sp_StepIndex s) (sp_StepID s) (sp_State s)
    (dependencyCountsForStep stageState s).
Definition stage_status (g : WorkflowDependencyStage) : SubmissionDependencyStageStatus :=
  let steps := step_status (sg_State g) <$> sortStepsByIndex (sg_Steps g) in
  mkStageStatus (sg_StageIndex g) (sg_State g) (sg_ParallelWith g) (Z.of_nat (length (sg_Steps g)))
    (foldl (λ c s, addDependencyCounts c (ss_Counts s)) no_counts steps) steps.
Definition submissionDependencyStatusFromPlan (p : WorkflowDependencyPlan) : SubmissionDependencyStatus :=
  let stages := stage_status <$> sortStagesByIndex (pl_Stages p) in
  mkDepStatus (pl_State p)
    (if bool_decide (pl_State p = WorkflowStateRunning) then currentDependencyStageIndex p else None)
    (Z.of_nat (length (pl_Stages p)))
    (if bool_decide (pl_State p = WorkflowStateFailed) then Some (failedDependencyStatus p) else None)
    (foldl (λ c g, addDependencyCounts c (gs_Counts g)) no_counts stages) stages.
