(* ===== verification/DependencyLaws.v ===== *)
(** * Laws of dependency plans

    The controller computes the states of a plan in two ways: by propagating an
    event upwards from the work item it concerns
    ([updateDependencyPlanForWorkItemTerminal]), and by deriving every state anew
    from what is below it ([derive...], when a plan is read from the store).
    [plan_ok] says that every state of a plan is the derived one; propagation
    preserves it, so the two ways agree. *)

From S2P Require Import Prelude GoTime GoJson GoStrings StoreData Dependency.
Local Open Scope Z_scope.

(** ** Positions *)

Lemma find_map_Some {A B} (f : A → option B) l i b :
  find_map f l = Some (i, b) → ∃ a, l !! i = Some a ∧ f a = Some b.
Proof.
  revert i b. induction l as [|a l IH]; intros i b; simpl; [done|].
  destruct (f a) as [b'|] eqn:E; [intros; simplify_eq; eauto|].
  destruct (find_map f l) as [[i' b']|]; simpl; [|done]. intros; simplify_eq. by apply IH.
Qed.
Lemma find_map_None {A B} (f : A → option B) l : find_map f l = None ↔ Forall (λ a, f a = None) l.
Proof.
  induction l as [|a l IH]; simpl; [by split|]. destruct (f a) as [b|] eqn:E.
  - split; [done|]. rewrite Forall_cons. naive_solver.
  - rewrite Forall_cons, <- IH. destruct (find_map f l) as [[i b]|]; naive_solver.
Qed.
(** The first position with an answer, when later answers are known to be elsewhere. *)
Lemma find_map_unique {A B} (f : A → option B) l i a b :
  l !! i = Some a → f a = Some b → (∀ j a', l !! j = Some a' → is_Some (f a') → j = i) →
  find_map f l = Some (i, b).
Proof.
  revert i. induction l as [|x l IH]; intros i Hi Hf Hu; [done|]. destruct i as [|i]; simpl in *.
  - simplify_eq. by rewrite Hf.
  - destruct (f x) as [b'|] eqn:E; [by discriminate (Hu O x eq_refl (ex_intro _ b' E))|].
    rewrite (IH i); [done|done|done|]. intros j a' Hj Ha. specialize (Hu (S j) a' Hj Ha). lia.
Qed.
Lemma position_Some {A} (p : A → bool) l i : position p l = Some i → ∃ a, l !! i = Some a ∧ p a = true.
Proof.
  unfold position. intros ([i' []] & H & ->)%fmap_Some. apply find_map_Some in H as (a & Ha & Hp).
  exists a. split; [done|]. by destruct (p a).
Qed.
Lemma position_unique {A} (p : A → bool) l i a :
  l !! i = Some a → p a = true → (∀ j a', l !! j = Some a' → p a' = true → j = i) → position p l = Some i.
Proof.
  intros Hi Hp Hu. unfold position. rewrite (find_map_unique _ l i a tt); [done|done|by rewrite Hp|].
  intros j a' Hj [? Ha]. apply (Hu j a' Hj). by destruct (p a').
Qed.

Lemma findDependencyWorkItem_Some p id i j k :
  findDependencyWorkItem p id = Some (i, (j, k)) →
  ∃ g s m, pl_Stages p !! i = Some g ∧ sg_Steps g !! j = Some s ∧ sp_WorkItems s !! k = Some m ∧
    mi_WorkItemID m = id.
Proof.
  unfold findDependencyWorkItem. intros (g & Hg & H)%find_map_Some.
  apply find_map_Some in H as (s & Hs & H). apply position_Some in H as (m & Hm & H%bool_decide_eq_true). eauto 10.
Qed.

(** ** Quantifiers over updated lists *)

Section updated.
Context {A : Type} (P : A → bool).
Implicit Types (l : list A) (f : A → A).

Lemma existsb_lookup l : existsb P l = true ↔ ∃ i x, l !! i = Some x ∧ P x = true.
Proof.
  rewrite existsb_exists. split.
  - intros (x & Hin%list_elem_of_In & Hx). apply list_elem_of_lookup in Hin as [i Hi]. eauto.
  - intros (i & x & Hi & Hx). exists x. split; [|done]. apply list_elem_of_In. by eapply list_elem_of_lookup_2.
Qed.
Lemma forallb_lookup l : forallb P l = true ↔ ∀ i x, l !! i = Some x → P x = true.
Proof.
  rewrite forallb_forall. split.
  - intros H i x Hi. apply H, list_elem_of_In. by eapply list_elem_of_lookup_2.
  - intros H x Hin%list_elem_of_In. apply list_elem_of_lookup in Hin as [i Hi]. eauto.
Qed.
Lemma existsb_alter_at l f i x : l !! i = Some x → P (f x) = true → existsb P (alter f i l) = true.
Proof. intros Hi Hx. apply existsb_lookup. exists i, (f x). by rewrite list_lookup_alter_eq, Hi. Qed.
Lemma existsb_alter_keep l f i :
  (∀ x, l !! i = Some x → P x = true → P (f x) = true) →
  existsb P l = true → existsb P (alter f i l) = true.
Proof.
  intros Hk (j & x & Hj & Hx)%existsb_lookup. apply existsb_lookup.
  destruct (decide (i = j)) as [->|Hij].
  - exists j, (f x). rewrite list_lookup_alter_eq, Hj. eauto.
  - exists j, x. by rewrite list_lookup_alter_ne.
Qed.
Lemma forallb_alter_at l f i x :
  l !! i = Some x → P (f x) = false → forallb P (alter f i l) = false.
Proof.
  intros Hi Hx. apply not_true_is_false. rewrite forallb_lookup. intros H.
  specialize (H i (f x)). rewrite list_lookup_alter_eq, Hi in H. rewrite H in Hx; done.
Qed.
End updated.

Lemma alter_nonempty {A} (f : A → A) i l x : l !! i = Some x → alter f i l ≠ [].
Proof. intros Hi E. assert (alter f i l !! i = Some (f x)) as H by (by rewrite list_lookup_alter_eq, Hi). by rewrite E in H. Qed.

(** ** Plans whose states are the derived ones *)

(** A step has an output fact exactly when the digest of its output is known. *)
Definition hasFact (s : WorkflowDependencyStep) : bool := negb (is_empty (sp_OutputJSONSHA256 s)).
Definition all_success (items : list WorkflowDependencyWorkItemMembership) : bool :=
  forallb (λ m, is_success (mi_State m)) items.

Definition step_ok (s : WorkflowDependencyStep) : Prop :=
  sp_State s = deriveDependencyStepState s (hasFact s) ∧
  (hasFact s = true → all_success (sp_WorkItems s) = true).
Definition stage_ok (earliest : Z → bool) (g : WorkflowDependencyStage) : Prop :=
  Forall step_ok (sg_Steps g) ∧ sg_State g = deriveDependencyStageState g (earliest (sg_StageIndex g)).
Definition plan_ok (earliest : Z → bool) (p : WorkflowDependencyPlan) : Prop :=
  Forall (stage_ok earliest) (pl_Stages p) ∧ deriveDependencyWorkflowState p = p.

(** Stage and step indexes identify, and an item id occurs once. *)
Definition distinct {A} (key : A → Z) (l : list A) : Prop :=
  ∀ i j x y, l !! i = Some x → l !! j = Some y → key x = key y → i = j.
Definition plan_indexed (p : WorkflowDependencyPlan) : Prop :=
  distinct sg_StageIndex (pl_Stages p) ∧
  ∀ i g, pl_Stages p !! i = Some g → distinct sp_StepIndex (sg_Steps g).

(** *** Steps *)

Lemma success_not_failed m : is_success (mi_State m) = true → item_is WorkItemMembershipStateFailed m = false.
Proof. unfold item_is, is_success. by destruct (mi_State m). Qed.

Lemma filter_all {A} (P : A → bool) l : length l = length (List.filter P l) ↔ forallb P l = true.
Proof.
  induction l as [|x l IH]; simpl; [done|]. destruct (P x); simpl; [rewrite <- IH; lia|].
  split; [|done]. intros H. pose proof (List.filter_length_le P l). lia.
Qed.

(** With a finished item, propagation and derivation agree on the step. *)
Lemma update_derive_step s current :
  hasFact s = false → existsb (λ m, is_success (mi_State m)) (sp_WorkItems s) = true →
  updateStepStateFromWorkItems (sp_WorkItems s) current = deriveDependencyStepState s (hasFact s).
Proof.
  intros -> Hs. unfold updateStepStateFromWorkItems, deriveDependencyStepState.
  destruct (existsb (item_is WorkItemMembershipStateFailed) _); [done|]. rewrite Hs, orb_true_r.
  assert (bool_decide (length (sp_WorkItems s) = length (List.filter (λ m, is_success (mi_State m)) (sp_WorkItems s)))
          = forallb (λ m, is_success (mi_State m)) (sp_WorkItems s)) as ->.
  { apply eq_bool_prop_intro. rewrite bool_decide_spec, Is_true_true. apply filter_all. }
  destruct (sp_WorkItems s) as [|m items]; [done|]. by destruct (forallb _ _).
Qed.

Definition step_moved (s : WorkflowDependencyStep) : bool :=
  step_is WorkflowStepStateFailed s || step_is WorkflowStepStateCompleted s || step_is WorkflowStepStateActive s.

Lemma derive_step_moved s b :
  existsb (λ m, is_success (mi_State m)) (sp_WorkItems s) = true →
  sp_State s = deriveDependencyStepState s b → step_moved s = true.
Proof.
  intros Hs E. unfold step_moved, step_is. rewrite E. unfold deriveDependencyStepState.
  rewrite Hs, orb_true_r. by repeat case_match.
Qed.

(** *** Stages *)

Lemma update_derive_stage g e :
  existsb step_moved (sg_Steps g) = true →
  (sg_State g = WorkflowStageStateFailed → existsb (step_is WorkflowStepStateFailed) (sg_Steps g) = true) →
  updateStageStateFromSteps (sg_Steps g) (sg_State g) = deriveDependencyStageState g e.
Proof.
  intros Hm Hf. unfold updateStageStateFromSteps, deriveDependencyStageState.
  destruct (sg_Steps g) as [|s0 steps0] eqn:Hst; [done|]. rewrite <- Hst in *. clear Hst.
  destruct (existsb (step_is WorkflowStepStateFailed) (sg_Steps g)) eqn:E1; [done|].
  destruct (forallb (step_is WorkflowStepStateCompleted) (sg_Steps g)) eqn:E2; [done|].
  rewrite bool_decide_eq_false_2 by (intros H; by specialize (Hf H)).
  assert (existsb (λ s, step_is WorkflowStepStateActive s || step_is WorkflowStepStateCompleted s) (sg_Steps g) = true) as ->.
  { apply existsb_lookup in Hm as (i & s & Hi & Hs). apply existsb_lookup. exists i, s. split; [done|].
    unfold step_moved in Hs. destruct (step_is WorkflowStepStateFailed s) eqn:Hfs.
    - rewrite (proj2 (existsb_lookup _ _)) in E1; eauto; done.
    - simpl in Hs. by rewrite orb_comm. }
  destruct (existsb (step_is WorkflowStepStateActive) (sg_Steps g)) eqn:E3; [done|].
  destruct (existsb (step_is WorkflowStepStateCompleted) (sg_Steps g)) eqn:E4; [done|].
  exfalso. apply existsb_lookup in Hm as (i & s & Hi & Hs). unfold step_moved in Hs.
  rewrite !orb_true_iff in Hs.
  destruct Hs as [[Hs|Hs]|Hs];
    match goal with E : existsb ?P _ = false, Hs : ?P s = true |- _ =>
      rewrite (proj2 (existsb_lookup P _)) in E; [done|by exists i, s] end.
Qed.

(** *** Plans *)

Lemma update_derive_plan p i g :
  pl_Stages p !! i = Some g → updateWorkflowStateFromStages p = deriveDependencyWorkflowState p.
Proof.
  intros Hi. unfold updateWorkflowStateFromStages, deriveDependencyWorkflowState.
  destruct (existsb _ (pl_Stages p)); [done|]. destruct (pl_Stages p) as [|g0 l] eqn:E; [done|].
  rewrite <- E. clear.
  assert (existsb (λ g, negb (stage_is WorkflowStageStateCompleted g)) (pl_Stages p)
          = negb (forallb (stage_is WorkflowStageStateCompleted) (pl_Stages p))) as ->.
  { induction (pl_Stages p) as [|x l IH]; simpl; [done|]. rewrite IH. by destruct (stage_is _ x). }
  by destruct (forallb _ _).
Qed.

Lemma derive_stages_state p st : deriveDependencyWorkflowState (set_pl_State st p) = deriveDependencyWorkflowState p.
Proof. reflexivity. Qed.
Lemma derive_keeps_stages p : pl_Stages (deriveDependencyWorkflowState p) = pl_Stages p.
Proof. destruct p as [a b c d stages]. unfold deriveDependencyWorkflowState. cbn. by destruct stages; cbn; repeat case_match. Qed.
Lemma derive_plan_fix p : deriveDependencyWorkflowState (deriveDependencyWorkflowState p) = deriveDependencyWorkflowState p.
Proof.
  unfold deriveDependencyWorkflowState at 2 3. repeat case_match; rewrite derive_stages_state;
    unfold deriveDependencyWorkflowState; repeat case_match; done || congruence.
Qed.

(** *** Pruning changes no state *)

Section same.
Context {A : Type} (P : A → bool) (f : A → A) (Hf : ∀ x, P (f x) = P x).
Lemma existsb_same l : existsb P (f <$> l) = existsb P l.
Proof using Hf. induction l as [|x l IH]; [done|]. cbn. by rewrite Hf, <- IH. Qed.
Lemma forallb_same l : forallb P (f <$> l) = forallb P l.
Proof using Hf. induction l as [|x l IH]; [done|]. cbn. by rewrite Hf, <- IH. Qed.
End same.

Lemma prune_item_state m : mi_State (prune_item m) = mi_State m ∧ mi_WorkItemID (prune_item m) = mi_WorkItemID m.
Proof. unfold prune_item. by case_match. Qed.
Lemma prune_item_is st m : item_is st (prune_item m) = item_is st m.
Proof. unfold item_is. by rewrite (proj1 (prune_item_state m)). Qed.

Definition prune_step (s : WorkflowDependencyStep) : WorkflowDependencyStep :=
  pruneStepOutputJSON (pruneWorkItemOutputJSON s).
Definition prune_stage (g : WorkflowDependencyStage) : WorkflowDependencyStage :=
  set_sg_Steps (prune_step <$> sg_Steps g) g.

Lemma prune_step_fields s :
  sp_State (prune_step s) = sp_State s ∧ sp_WorkItems (prune_step s) = prune_item <$> sp_WorkItems s ∧
  sp_OutputJSONSHA256 (prune_step s) = sp_OutputJSONSHA256 s ∧ sp_StepIndex (prune_step s) = sp_StepIndex s.
Proof. unfold prune_step, pruneStepOutputJSON. by case_match. Qed.
Lemma prune_step_is st s : step_is st (prune_step s) = step_is st s.
Proof. unfold step_is. by rewrite (proj1 (prune_step_fields s)). Qed.

Lemma prune_success m : is_success (mi_State (prune_item m)) = is_success (mi_State m).
Proof. by rewrite (proj1 (prune_item_state m)). Qed.
Lemma derive_step_prune s b : deriveDependencyStepState (prune_step s) b = deriveDependencyStepState s b.
Proof.
  unfold deriveDependencyStepState. destruct (prune_step_fields s) as (_ & -> & _).
  rewrite !(existsb_same _ prune_item) by (apply prune_item_is || apply prune_success).
  rewrite (forallb_same _ prune_item) by apply prune_success.
  by destruct (sp_WorkItems s).
Qed.
Lemma prune_step_ok s : step_ok s → step_ok (prune_step s).
Proof.
  intros [H1 H2]. unfold step_ok, hasFact in *. rewrite derive_step_prune.
  destruct (prune_step_fields s) as (-> & -> & -> & _). split; [done|].
  intros H. unfold all_success. rewrite forallb_same by apply prune_success. by apply H2.
Qed.
Lemma prune_stage_state g e : deriveDependencyStageState (prune_stage g) e = deriveDependencyStageState g e.
Proof.
  unfold deriveDependencyStageState. change (sg_Steps (prune_stage g)) with (prune_step <$> sg_Steps g).
  destruct (sg_Steps g) as [|s l]; [done|]. rewrite fmap_cons, <- (fmap_cons prune_step).
  rewrite !(existsb_same _ prune_step) by (intros; by rewrite ?prune_step_is).
  by rewrite (forallb_same _ prune_step) by apply prune_step_is.
Qed.

Lemma derive_plan_states p q :
  pl_RunID p = pl_RunID q → pl_WorkflowID p = pl_WorkflowID q → pl_FailureReason p = pl_FailureReason q →
  pl_Stages p = pl_Stages q → deriveDependencyWorkflowState p = deriveDependencyWorkflowState q.
Proof. intros H1 H2 H3 H4. unfold deriveDependencyWorkflowState, set_pl_State. by rewrite H1, H2, H3, H4. Qed.

Lemma prune_plan_ok e p : plan_ok e p → plan_ok e (pruneDependencyOutputsIfTerminal p).
Proof.
  intros [Hs Hd]. unfold pruneDependencyOutputsIfTerminal. destruct (workflow_terminal p); [|done].
  change (plan_ok e (set_pl_Stages (prune_stage <$> pl_Stages p) p)). split.
  - apply Forall_fmap. eapply Forall_impl; [exact Hs|]. intros g [Hg1 Hg2]. unfold stage_ok, compose.
    rewrite prune_stage_state. split; [|exact Hg2]. apply Forall_fmap.
    eapply Forall_impl; [exact Hg1|]. intros s Hst. by apply prune_step_ok.
  - apply (f_equal pl_State) in Hd. destruct p as [run wf st reason stages].
    unfold deriveDependencyWorkflowState in *. cbn [pl_Stages set_pl_Stages] in *.
    rewrite (existsb_same _ prune_stage) by done. destruct stages as [|g l]; [by repeat case_match; simplify_eq/=|].
    rewrite fmap_cons, <- (fmap_cons prune_stage). rewrite (forallb_same _ prune_stage) by done.
    by repeat case_match; simplify_eq/=.
Qed.

(** *** Propagation of a success *)

Lemma stage_state_failed e g :
  stage_ok e g → sg_State g = WorkflowStageStateFailed →
  existsb (step_is WorkflowStepStateFailed) (sg_Steps g) = true.
Proof.
  intros [_ Hd] Hf. rewrite Hf in Hd. unfold deriveDependencyStageState in Hd.
  by repeat case_match.
Qed.
Lemma step_failed_items s :
  step_ok s → sp_State s = WorkflowStepStateFailed →
  existsb (item_is WorkItemMembershipStateFailed) (sp_WorkItems s) = true.
Proof. intros [Hd _] Hf. rewrite Hf in Hd. unfold deriveDependencyStepState in Hd. by repeat case_match. Qed.

(** A plan with an unfinished item is running or failed. *)
Lemma unfinished_item_not_completed e p i j k g s m :
  plan_ok e p → pl_Stages p !! i = Some g → sg_Steps g !! j = Some s → sp_WorkItems s !! k = Some m →
  isTerminalMembershipState (mi_State m) = false → pl_State p ≠ WorkflowStateCompleted.
Proof.
  intros [Hs Hd] Hg Hst Hm Hterm Hc.
  assert (forallb (stage_is WorkflowStageStateCompleted) (pl_Stages p) = true) as Hall.
  { rewrite <- Hd in Hc. unfold deriveDependencyWorkflowState in Hc.
    destruct (existsb _ _); [done|]. destruct (pl_Stages p) as [|? ?]; [done|]. by case_match. }
  rewrite forallb_lookup in Hall. apply Hall in Hg as Hgc. apply bool_decide_eq_true in Hgc.
  rewrite Forall_lookup in Hs. destruct (Hs _ _ Hg) as [Hsteps Hgd]. rewrite Hgc in Hgd.
  assert (sp_State s = WorkflowStepStateCompleted) as Hsc.
  { unfold deriveDependencyStageState in Hgd. destruct (sg_Steps g) as [|s0 l] eqn:E; [done|].
    rewrite <- E in *. destruct (existsb (step_is WorkflowStepStateFailed) (sg_Steps g)); [done|].
    destruct (forallb (step_is WorkflowStepStateCompleted) (sg_Steps g)) eqn:Ef.
    - rewrite forallb_lookup in Ef. by apply Ef, bool_decide_eq_true in Hst.
    - by repeat case_match. }
  rewrite Forall_lookup in Hsteps. destruct (Hsteps _ _ Hst) as [Hsd Hfact]. rewrite Hsc in Hsd.
  assert (all_success (sp_WorkItems s) = true) as Hsucc.
  { destruct (hasFact s); [by apply Hfact|]. unfold deriveDependencyStepState in Hsd.
    unfold all_success. destruct (sp_WorkItems s) as [|m0 l] eqn:E; [done|].
    by repeat case_match. }
  unfold all_success in Hsucc. rewrite forallb_lookup in Hsucc. apply Hsucc in Hm.
  unfold is_success, isTerminalMembershipState in *. by destruct (mi_State m).
Qed.

(** The item gets its state, and its step the state that follows. *)
Definition finish_item (k : nat) (st : WorkItemMembershipState) (s : WorkflowDependencyStep) :
    WorkflowDependencyStep :=
  let s1 := set_sp_WorkItems (alter (set_mi_State st) k (sp_WorkItems s)) s in
  set_sp_State (updateStepStateFromWorkItems (sp_WorkItems s1) (sp_State s1)) s1.
Definition finish_stage (j k : nat) (st : WorkItemMembershipState) (g : WorkflowDependencyStage) :
    WorkflowDependencyStage :=
  let g1 := set_sg_Steps (alter (finish_item k st) j (sg_Steps g)) g in
  set_sg_State (updateStageStateFromSteps (sg_Steps g1) (sg_State g1)) g1.

Lemma propagate_stages p i j k st :
  propagate i j (update_membership i j k (set_mi_State st) p) =
  let q := set_pl_Stages (alter (finish_stage j k st) i (pl_Stages p)) p in
  pruneDependencyOutputsIfTerminal
    (if bool_decide (pl_State q = WorkflowStateRunning) then updateWorkflowStateFromStages q else q).
Proof.
  destruct p as [run wf st0 reason stages].
  unfold propagate, update_membership, update_step, update_stage, set_pl_Stages.
  cbn [pl_RunID pl_WorkflowID pl_State pl_FailureReason pl_Stages]. rewrite !list_alter_alter_eq.
  erewrite list_alter_ext; [reflexivity| |reflexivity].
  intros g _. unfold compose, finish_stage, set_sg_Steps, set_sg_State.
  cbn [sg_StageIndex sg_State sg_FailureReason sg_ParallelWith sg_Steps].
  by rewrite list_alter_alter_eq.
Qed.

Lemma finish_item_ok s k m st :
  step_ok s → sp_WorkItems s !! k = Some m → isTerminalMembershipState (mi_State m) = false →
  is_success st = true →
  step_ok (finish_item k st s) ∧ step_moved (finish_item k st s) = true ∧
  (step_is WorkflowStepStateFailed s = true → step_is WorkflowStepStateFailed (finish_item k st s) = true).
Proof.
  intros Hok Hm Hterm Hst. set (s1 := set_sp_WorkItems (alter (set_mi_State st) k (sp_WorkItems s)) s).
  assert (hasFact s = false) as Hnf.
  { destruct (hasFact s) eqn:E; [|done]. destruct Hok as [_ H]. specialize (H E). unfold all_success in H.
    rewrite forallb_lookup in H. apply H in Hm. unfold is_success, isTerminalMembershipState in *.
    by destruct (mi_State m). }
  assert (existsb (λ m, is_success (mi_State m)) (sp_WorkItems s1) = true) as Hs.
  { apply (existsb_alter_at _ _ _ k m); done. }
  assert (sp_State (finish_item k st s) = deriveDependencyStepState s1 false) as Hstate.
  { change (updateStepStateFromWorkItems (sp_WorkItems s1) (sp_State s1) = deriveDependencyStepState s1 false).
    rewrite <- Hnf. apply (update_derive_step s1); [exact Hnf|done]. }
  change (hasFact s) with (hasFact (finish_item k st s)) in Hnf. split_and!.
  - split; [|by rewrite Hnf]. rewrite Hnf. exact Hstate.
  - apply (derive_step_moved _ false); [exact Hs|exact Hstate].
  - intros Hf%bool_decide_eq_true. apply bool_decide_eq_true. rewrite Hstate.
    unfold deriveDependencyStepState. change (sp_WorkItems s1) with (alter (set_mi_State st) k (sp_WorkItems s)).
    rewrite existsb_alter_keep; [done| |by apply step_failed_items].
    intros x Hx Hxf. simplify_eq. apply bool_decide_eq_true in Hxf. by rewrite Hxf in Hterm.
Qed.

Lemma finish_stage_ok e g j k s m st :
  stage_ok e g → sg_Steps g !! j = Some s → sp_WorkItems s !! k = Some m →
  isTerminalMembershipState (mi_State m) = false → is_success st = true →
  stage_ok e (finish_stage j k st g) ∧
  (stage_is WorkflowStageStateFailed g = true → stage_is WorkflowStageStateFailed (finish_stage j k st g) = true).
Proof.
  intros Hok Hs Hm Hterm Hst. pose proof Hok as [Hsteps Hd].
  pose proof (Forall_lookup_1 _ _ _ _ Hsteps Hs) as Hsok.
  destruct (finish_item_ok s k m st Hsok Hm Hterm Hst) as (H1 & H2 & H3).
  set (g1 := set_sg_Steps (alter (finish_item k st) j (sg_Steps g)) g).
  assert (existsb step_moved (sg_Steps g1) = true) as Hmoved by (by apply (existsb_alter_at _ _ _ j s)).
  assert (sg_State g = WorkflowStageStateFailed →
    existsb (step_is WorkflowStepStateFailed) (sg_Steps g1) = true) as Hfail.
  { intros Hf. apply existsb_alter_keep; [|by eapply stage_state_failed]. intros x Hx Hxf. simplify_eq. by apply H3. }
  assert (sg_State (finish_stage j k st g) = deriveDependencyStageState g1 (e (sg_StageIndex g))) as Hstate.
  { change (updateStageStateFromSteps (sg_Steps g1) (sg_State g1) = deriveDependencyStageState g1 (e (sg_StageIndex g))).
    apply update_derive_stage; [done|]. exact Hfail. }
  split; [split|].
  - change (Forall step_ok (sg_Steps g1)). apply Forall_alter; [done|]. intros x Hx _. by simplify_eq.
  - exact Hstate.
  - intros Hf%bool_decide_eq_true. apply bool_decide_eq_true. rewrite Hstate.
    unfold deriveDependencyStageState. specialize (Hfail Hf). destruct (sg_Steps g1); [done|]. by rewrite Hfail.
Qed.

Lemma plan_failed_stage p :
  deriveDependencyWorkflowState p = p → pl_State p = WorkflowStateFailed ↔
  existsb (stage_is WorkflowStageStateFailed) (pl_Stages p) = true.
Proof.
  intros Hd. apply (f_equal pl_State) in Hd. unfold deriveDependencyWorkflowState in Hd.
  destruct (existsb _ _); simpl in Hd; [by rewrite <- Hd|]. split; [|done]. intros Hf. rewrite Hf in Hd.
  by destruct (pl_Stages p) as [|? ?]; repeat case_match.
Qed.

Lemma propagate_ok e p i j k g s m st :
  plan_ok e p → pl_Stages p !! i = Some g → sg_Steps g !! j = Some s → sp_WorkItems s !! k = Some m →
  isTerminalMembershipState (mi_State m) = false → is_success st = true →
  plan_ok e (propagate i j (update_membership i j k (set_mi_State st) p)).
Proof.
  intros Hok Hg Hs Hm Hterm Hst. rewrite propagate_stages. cbn zeta. apply prune_plan_ok.
  pose proof (unfinished_item_not_completed e p i j k g s m Hok Hg Hs Hm Hterm) as Hnc.
  destruct Hok as [Hstages Hd]. pose proof (Forall_lookup_1 _ _ _ _ Hstages Hg) as Hgok.
  destruct (finish_stage_ok e g j k s m st Hgok Hs Hm Hterm Hst) as [H1 H2].
  set (q := set_pl_Stages (alter (finish_stage j k st) i (pl_Stages p)) p).
  assert (Forall (stage_ok e) (pl_Stages q)) as Hq.
  { apply Forall_alter; [done|]. intros x Hx _. by simplify_eq. }
  assert (∃ g', pl_Stages q !! i = Some g') as [g' Hg'].
  { exists (finish_stage j k st g). unfold q. simpl. by rewrite list_lookup_alter_eq, Hg. }
  case_bool_decide as Hrun.
  - rewrite (update_derive_plan q i g' Hg'). split; [|apply derive_plan_fix].
    by rewrite derive_keeps_stages.
  - split; [exact Hq|]. assert (pl_State p = WorkflowStateFailed) as Hf.
    { pose proof (f_equal pl_State Hd) as Hd'. change (pl_State q) with (pl_State p) in Hrun.
      unfold deriveDependencyWorkflowState in Hd'. by destruct (existsb _ _); destruct (pl_Stages p);
        repeat case_match; simpl in Hd'; congruence. }
    apply plan_failed_stage in Hf as Hex; [|done].
    assert (existsb (stage_is WorkflowStageStateFailed) (pl_Stages q) = true) as Hex'.
    { apply existsb_alter_keep; [|done]. intros x Hx Hxf. simplify_eq. by apply H2. }
    unfold deriveDependencyWorkflowState. rewrite Hex'. unfold set_pl_State, q. simpl. rewrite <- Hf. done.
Qed.

(** ** What validation accepts *)

Definition all_steps (stages : list WorkflowDependencyStage) : list WorkflowDependencyStep :=
  stages ≫= sg_Steps.
Definition all_items (steps : list WorkflowDependencyStep) : list WorkflowDependencyWorkItemMembership :=
  steps ≫= sp_WorkItems.

(** Fresh keys, without repetition. *)
Definition fresh {A K} `{Countable K} (key : A → K) (seen : gset K) (l : list A) : Prop :=
  NoDup (key <$> l) ∧ ∀ x, x ∈ l → key x ∉ seen.

Lemma fresh_nil {A K} `{Countable K} (key : A → K) seen : fresh key seen [].
Proof. split; [constructor|]. intros x Hx. by apply elem_of_nil in Hx. Qed.
Lemma fresh_cons {A K} `{Countable K} (key : A → K) seen x l :
  fresh key seen (x :: l) ↔ key x ∉ seen ∧ fresh key ({[key x]} ∪ seen) l.
Proof.
  unfold fresh. rewrite fmap_cons, NoDup_cons. setoid_rewrite elem_of_cons. split.
  - intros [[Hx Hn] Hs]. split_and!; [by apply Hs; left|done|]. intros y Hy [Heq%elem_of_singleton|Hin]%elem_of_union.
    + apply Hx. rewrite <- Heq. by apply list_elem_of_fmap_2.
    + by apply (Hs y); [right|].
  - intros (Hx & Hn & Hs). split_and!; [|done|].
    + intros (y & Heq & Hy)%list_elem_of_fmap. apply (Hs y Hy). rewrite Heq. set_solver.
    + intros y [->|Hy]; [done|]. intros Hin. apply (Hs y Hy). set_solver.
Qed.
Lemma fresh_app {A K} `{Countable K} (key : A → K) seen l k :
  fresh key seen (l ++ k) ↔ fresh key seen l ∧ fresh key (list_to_set (key <$> l) ∪ seen) k.
Proof.
  revert seen. induction l as [|x l IH]; intros seen.
  - rewrite app_nil_l. cbn. rewrite (left_id_L ∅ (∪)). split; [|tauto]. intros Hk. split; [apply fresh_nil|done].
  - rewrite <- app_comm_cons, !fresh_cons, IH. rewrite fmap_cons. cbn [list_to_set].
    assert (list_to_set (key <$> l) ∪ ({[key x]} ∪ seen) = {[key x]} ∪ list_to_set (key <$> l) ∪ seen) as -> by set_solver.
    tauto.
Qed.

Definition items_valid (items : list WorkflowDependencyWorkItemMembership) : Prop :=
  Forall (λ m, Membership_Validate m = Ok tt) items.

Lemma validate_items_iff seen items seen' :
  foldM validate_plan_item seen items = Ok seen' ↔
  fresh mi_WorkItemID (seenWorkItem seen) items ∧ items_valid items ∧
  seen' = mkSeen (seenStage seen) (seenStep seen)
            (list_to_set (mi_WorkItemID <$> items) ∪ seenWorkItem seen).
Proof.
  revert seen. induction items as [|m items IH]; intros seen; cbn [foldM].
  - cbn. rewrite (left_id_L ∅ (∪)). destruct seen as [a b c]. cbn. split.
    + intros [= <-]. split_and!; [apply fresh_nil|constructor|done].
    + by intros (_ & _ & ->).
  - unfold validate_plan_item at 2, items_valid. rewrite fresh_cons, Forall_cons, fmap_cons. cbn [list_to_set].
    destruct (decide (mi_WorkItemID m ∈ seenWorkItem seen)) as [Hin|Hin].
    { rewrite bool_decide_eq_true_2 by done. cbn. split; [done|]. tauto. }
    rewrite bool_decide_eq_false_2 by done. cbn [fail_if mbind result_bind].
    destruct (Membership_Validate m) as [[]|err] eqn:Hv; cbn [wrap_err mbind result_bind].
    + rewrite IH. cbn [seenStage seenStep seenWorkItem]. unfold items_valid.
      rewrite <- (assoc_L (∪)), (comm_L (∪) {[mi_WorkItemID m]} (list_to_set _ ∪ _)), <- (assoc_L (∪)).
      rewrite (comm_L (∪) (seenWorkItem seen) {[mi_WorkItemID m]}). tauto.
    + split; [done|]. intros (_ & [H _] & _). done.
Qed.

Definition step_in (stageIndex : Z) (s : WorkflowDependencyStep) : Prop := sp_StageIndex s = stageIndex.

Lemma validate_steps_iff stageIndex seen steps seen' :
  foldM (validate_plan_step stageIndex) seen steps = Ok seen' ↔
  fresh sp_StepIndex (seenStep seen) steps ∧ Forall (step_in stageIndex) steps ∧
  fresh mi_WorkItemID (seenWorkItem seen) (all_items steps) ∧ items_valid (all_items steps) ∧
  seen' = mkSeen (seenStage seen) (list_to_set (sp_StepIndex <$> steps) ∪ seenStep seen)
            (list_to_set (mi_WorkItemID <$> all_items steps) ∪ seenWorkItem seen).
Proof.
  revert seen. induction steps as [|s steps IH]; intros seen; cbn [foldM].
  - cbn. rewrite !(left_id_L ∅ (∪)). destruct seen as [a b c]. cbn. split.
    + intros [= <-]. split_and!; [apply fresh_nil|constructor|apply fresh_nil|constructor|done].
    + by intros (_ & _ & _ & _ & ->).
  - unfold validate_plan_step at 2. change (all_items (s :: steps)) with (sp_WorkItems s ++ all_items steps).
    unfold items_valid. rewrite fresh_cons, Forall_cons, fresh_app, Forall_app, !fmap_cons, !fmap_app, list_to_set_app_L. cbn [list_to_set].
    destruct (decide (sp_StepIndex s ∈ seenStep seen)) as [Hin|Hin].
    { rewrite (bool_decide_eq_true_2 (_ ∈ _)) by done. cbn. split; [done|]. tauto. }
    rewrite (bool_decide_eq_false_2 (_ ∈ _)) by done. cbn [fail_if mbind result_bind].
    destruct (decide (sp_StageIndex s = stageIndex)) as [Hst|Hst].
    2: { rewrite (bool_decide_eq_true_2 (_ ≠ _)) by done. cbn. split; [done|]. intros (_ & [H _] & _). done. }
    rewrite (bool_decide_eq_false_2 (_ ≠ _)) by (intros ?; congruence). cbn [fail_if mbind result_bind].
    destruct (foldM validate_plan_item _ (sp_WorkItems s)) as [seen1|err] eqn:Hi.
    + apply validate_items_iff in Hi as (H1 & H2 & ->). cbn [mbind result_bind]. rewrite IH.
      cbn [seenStage seenStep seenWorkItem] in *. unfold items_valid, step_in in *.
      assert (list_to_set (sp_StepIndex <$> steps) ∪ ({[sp_StepIndex s]} ∪ seenStep seen)
              = {[sp_StepIndex s]} ∪ list_to_set (sp_StepIndex <$> steps) ∪ seenStep seen) as -> by set_solver.
      assert (list_to_set (mi_WorkItemID <$> all_items steps) ∪ (list_to_set (mi_WorkItemID <$> sp_WorkItems s) ∪ seenWorkItem seen)
              = list_to_set (mi_WorkItemID <$> sp_WorkItems s) ∪ list_to_set (mi_WorkItemID <$> all_items steps) ∪ seenWorkItem seen) as -> by set_solver.
      tauto.
    + split; [done|]. intros (_ & _ & [H1 _] & [H2 _] & _).
      destruct (validate_items_iff (mkSeen (seenStage seen) ({[sp_StepIndex s]} ∪ seenStep seen) (seenWorkItem seen))
        (sp_WorkItems s) (mkSeen (seenStage seen) ({[sp_StepIndex s]} ∪ seenStep seen)
          (list_to_set (mi_WorkItemID <$> sp_WorkItems s) ∪ seenWorkItem seen))) as [_ H].
      rewrite H in Hi; done.
Qed.

Lemma validate_stages_iff seen stages seen' :
  foldM validate_plan_stage seen stages = Ok seen' ↔
  fresh sg_StageIndex (seenStage seen) stages ∧ Forall (λ g, Stage_Validate g = Ok tt) stages ∧
  fresh sp_StepIndex (seenStep seen) (all_steps stages) ∧
  Forall (λ g, Forall (step_in (sg_StageIndex g)) (sg_Steps g)) stages ∧
  fresh mi_WorkItemID (seenWorkItem seen) (all_items (all_steps stages)) ∧
  items_valid (all_items (all_steps stages)) ∧
  seen' = mkSeen (list_to_set (sg_StageIndex <$> stages) ∪ seenStage seen)
            (list_to_set (sp_StepIndex <$> all_steps stages) ∪ seenStep seen)
            (list_to_set (mi_WorkItemID <$> all_items (all_steps stages)) ∪ seenWorkItem seen).
Proof.
  revert seen. induction stages as [|g stages IH]; intros seen; cbn [foldM].
  - cbn. rewrite !(left_id_L ∅ (∪)). destruct seen as [a b c]. cbn. split.
    + intros [= <-]. split_and!; try apply fresh_nil; try constructor.
    + by intros (_ & _ & _ & _ & _ & _ & ->).
  - unfold validate_plan_stage at 2. change (all_steps (g :: stages)) with (sg_Steps g ++ all_steps stages).
    unfold items_valid, all_items. rewrite bind_app. fold (all_items (sg_Steps g)) (all_items (all_steps stages)).
    rewrite fresh_cons, !Forall_cons, !fresh_app, Forall_app, !fmap_cons, !fmap_app, !list_to_set_app_L. cbn [list_to_set].
    destruct (decide (sg_StageIndex g ∈ seenStage seen)) as [Hin|Hin].
    { rewrite (bool_decide_eq_true_2 (_ ∈ _)) by done. cbn. split; [done|]. tauto. }
    rewrite (bool_decide_eq_false_2 (_ ∈ _)) by done. cbn [fail_if mbind result_bind].
    destruct (Stage_Validate g) as [[]|err] eqn:Hv; cbn [wrap_err mbind result_bind];
      [|split; [done|]; intros (_ & [H _] & _); done].
    set (seen0 := mkSeen ({[sg_StageIndex g]} ∪ seenStage seen) (seenStep seen) (seenWorkItem seen)).
    destruct (foldM (validate_plan_step (sg_StageIndex g)) seen0 (sg_Steps g)) as [seen1|err] eqn:Hi.
    + apply validate_steps_iff in Hi as (H1 & H2 & H3 & H4 & ->). cbn [mbind result_bind]. rewrite IH.
      unfold seen0 in *. cbn [seenStage seenStep seenWorkItem] in *. unfold items_valid in *.
      rewrite !(assoc_L (∪)).
      rewrite (comm_L (∪) (list_to_set (sg_StageIndex <$> stages)) {[sg_StageIndex g]}),
        (comm_L (∪) (list_to_set (sp_StepIndex <$> all_steps stages)) (list_to_set (sp_StepIndex <$> sg_Steps g))),
        (comm_L (∪) (list_to_set (mi_WorkItemID <$> all_items (all_steps stages)))
                   (list_to_set (mi_WorkItemID <$> all_items (sg_Steps g)))).
      tauto.
    + split; [done|]. intros (_ & _ & [H1 _] & [H2 _] & [H3 _] & [H4 _] & _).
      destruct (validate_steps_iff (sg_StageIndex g) seen0 (sg_Steps g)
        (mkSeen (seenStage seen0) (list_to_set (sp_StepIndex <$> sg_Steps g) ∪ seenStep seen0)
          (list_to_set (mi_WorkItemID <$> all_items (sg_Steps g)) ∪ seenWorkItem seen0))) as [_ H].
      rewrite H in Hi; done.
Qed.

(** A plan is accepted exactly when its header and parts are valid, stage and step
    indexes and item ids are unique, and each step is in the stage it names. *)
Lemma validateDependencyPlan_iff p :
  validateDependencyPlan p = Ok tt ↔
  Plan_Validate p = Ok tt ∧ NoDup (sg_StageIndex <$> pl_Stages p) ∧
  Forall (λ g, Stage_Validate g = Ok tt) (pl_Stages p) ∧
  NoDup (sp_StepIndex <$> all_steps (pl_Stages p)) ∧
  Forall (λ g, Forall (step_in (sg_StageIndex g)) (sg_Steps g)) (pl_Stages p) ∧
  NoDup (mi_WorkItemID <$> all_items (all_steps (pl_Stages p))) ∧
  items_valid (all_items (all_steps (pl_Stages p))).
Proof.
  assert (∀ {A K} `{Countable K} (key : A → K) l, fresh key ∅ l ↔ NoDup (key <$> l)) as Hfresh.
  { intros. unfold fresh. set_solver. }
  unfold validateDependencyPlan. destruct (Plan_Validate p) as [[]|err]; cbn [mbind result_bind]; [|by split; [|intros []]].
  destruct (foldM validate_plan_stage _ (pl_Stages p)) as [seen|err] eqn:E; cbn [mbind result_bind].
  - apply validate_stages_iff in E. cbn [seenStage seenStep seenWorkItem] in E. rewrite !Hfresh in E. tauto.
  - split; [done|]. intros (_ & H1 & H2 & H3 & H4 & H5 & H6).
    destruct (validate_stages_iff (mkSeen ∅ ∅ ∅) (pl_Stages p)
      (mkSeen (list_to_set (sg_StageIndex <$> pl_Stages p) ∪ ∅) (list_to_set (sp_StepIndex <$> all_steps (pl_Stages p)) ∪ ∅)
         (list_to_set (mi_WorkItemID <$> all_items (all_steps (pl_Stages p))) ∪ ∅))) as [_ H].
    rewrite H in E; [done|]. cbn [seenStage seenStep seenWorkItem]. rewrite !Hfresh. tauto.
Qed.

(** ** Failure of an item *)

Lemma NoDup_fmap_lookup {A K} (key : A → K) l i j x y :
  NoDup (key <$> l) → l !! i = Some x → l !! j = Some y → key x = key y → i = j.
Proof.
  intros Hn Hi Hj Hk. apply (NoDup_lookup (key <$> l) i j (key x)); [done|by rewrite list_lookup_fmap, Hi|].
  by rewrite list_lookup_fmap, Hj, Hk.
Qed.
Lemma NoDup_fmap_bind {A B K} (f : A → list B) (key : B → K) l x :
  NoDup (key <$> (l ≫= f)) → x ∈ l → NoDup (key <$> f x).
Proof.
  intros Hn Hx. induction l as [|a l IH]; [by apply elem_of_nil in Hx|].
  cbn in Hn. rewrite fmap_app in Hn. apply NoDup_app in Hn as (H1 & _ & H2).
  apply elem_of_cons in Hx as [->|Hx]; [done|by apply IH].
Qed.

Definition fail_stage (j : nat) (id reason : string) (g : WorkflowDependencyStage) : WorkflowDependencyStage :=
  set_sg_Steps (alter (fail_step id reason) j (sg_Steps g))
    (set_sg_Failure WorkflowStageStateFailed (or_reason (sg_FailureReason g) reason) g).

(** The stage and step the event names are the ones the item is in. *)
Lemma markDependencyPlanFailed_at p i j g s id reason0 :
  validateDependencyPlan p = Ok tt → pl_Stages p !! i = Some g → sg_Steps g !! j = Some s →
  ∃ reason,
    markDependencyPlanFailed p (sg_StageIndex g) (sp_StepIndex s) id reason0 =
    set_pl_Stages (alter (fail_stage j id reason) i (pl_Stages p))
      (set_pl_Failure WorkflowStateFailed (or_reason (pl_FailureReason p) reason) p).
Proof.
  intros (_ & Hn1 & Hv & Hn2 & _)%validateDependencyPlan_iff Hg Hs.
  assert (NoDup (sp_StepIndex <$> sg_Steps g)) as Hn3.
  { eapply NoDup_fmap_bind; [exact Hn2|]. by eapply list_elem_of_lookup_2. }
  assert (0 ≤ sp_StepIndex s) as Hpos.
  { apply (Forall_lookup_1 _ _ _ _ Hv) in Hg as Hgv. unfold Stage_Validate, for_each in Hgv. result_inv.
    assert (Step_Validate s = Ok tt) as Hsv.
    { revert Hgv. apply list_elem_of_lookup_2 in Hs. clear -Hs. generalize tt at 1.
      induction (sg_Steps g) as [|x l IH]; [by apply elem_of_nil in Hs|]. intros [] H. cbn [foldM] in H.
      apply bind_Ok in H as ([] & Hx & H). apply elem_of_cons in Hs as [->|Hs]; [done|]. by eapply IH. }
    unfold Step_Validate, non_negative in Hsv. result_inv. lia. }
  unfold markDependencyPlanFailed.
  set (reason := if is_empty (TrimSpace reason0) then _ else _). exists reason. cbn zeta.
  destruct p as [run wf st0 fr stages]. cbn [pl_Stages pl_FailureReason] in *.
  unfold findDependencyStage, set_pl_Failure. cbn [pl_RunID pl_WorkflowID pl_State pl_FailureReason pl_Stages].
  rewrite (position_unique _ stages i g); [|done|lia|].
  2: { intros j' g' Hj' Heq. eapply (NoDup_fmap_lookup sg_StageIndex stages); [done..|lia]. }
  rewrite (proj2 (Z.leb_le 0 (sp_StepIndex s)) Hpos). unfold findDependencyStep, update_stage, set_pl_Stages.
  cbn [pl_RunID pl_WorkflowID pl_State pl_FailureReason pl_Stages].
  rewrite (find_map_unique _ _ i (set_sg_Failure WorkflowStageStateFailed (or_reason (sg_FailureReason g) reason) g) j).
  - unfold update_step, update_stage, set_pl_Stages. cbn [pl_RunID pl_WorkflowID pl_State pl_FailureReason pl_Stages].
    by rewrite list_alter_alter_eq.
  - by rewrite list_lookup_alter_eq, Hg.
  - cbn [sg_StageIndex set_sg_Failure sg_Steps]. rewrite Z.eqb_refl.
    apply (position_unique _ _ j s); [done|lia|]. intros j' s' Hj' Heq.
    eapply (NoDup_fmap_lookup sp_StepIndex (sg_Steps g)); [done..|lia].
  - intros j' g' Hj' [? Hf]. destruct (decide (i = j')) as [|Hij]; [done|].
    rewrite list_lookup_alter_ne in Hj' by done. destruct (sg_StageIndex g' =? sg_StageIndex g) eqn:Heq; [|done].
    eapply (NoDup_fmap_lookup sg_StageIndex stages); [done..|lia].
Qed.

Lemma fail_step_ok s k m id reason :
  sp_WorkItems s !! k = Some m → mi_WorkItemID m = id → id ≠ "" → hasFact s = false →
  step_ok (fail_step id reason s) ∧ step_is WorkflowStepStateFailed (fail_step id reason s) = true.
Proof.
  intros Hm Hid Hne Hf. split; [|by apply bool_decide_eq_true].
  change (hasFact s) with (hasFact (fail_step id reason s)) in Hf. split; [|by rewrite Hf].
  unfold deriveDependencyStepState.
  rewrite (proj2 (existsb_lookup (item_is WorkItemMembershipStateFailed) (sp_WorkItems (fail_step id reason s)))); [done|].
  exists k. eexists. split; [unfold fail_step, markDependencyWorkItemFailed; cbn; rewrite list_lookup_fmap, Hm; reflexivity|].
  rewrite (bool_decide_eq_true_2 (mi_WorkItemID m = id)) by done. rewrite andb_false_r.
  unfold is_empty. rewrite (bool_decide_eq_false_2 (id = "")) by done. by rewrite andb_false_r.
Qed.

(** C20: Propagating the end of a work item upwards and deriving all states anew
    agree.  In a valid plan whose step, stage and workflow states are the derived
    ones, recording that an item completed, was skipped or failed leaves a plan
    whose states are again the derived ones.  (Steps with an output fact have
    only finished items, as the recorded outputs guarantee.) *)
Theorem incremental_matches_derivation earliest p id st reason :
  validateDependencyPlan p = Ok tt → plan_ok earliest p → id ≠ "" → isTerminalMembershipState st = true →
  plan_ok earliest (updateDependencyPlanForWorkItemTerminal p id st reason).2.
Proof.
  intros Hv Hok Hid Hst. unfold updateDependencyPlanForWorkItemTerminal.
  destruct (findDependencyWorkItem p id) as [[i [j k]]|] eqn:E; [|done].
  apply findDependencyWorkItem_Some in E as (g & s & m & Hg & Hs & Hm & Hmid). rewrite Hg, Hs, Hm.
  case_decide as Heq; [done|]. destruct (_ && _) eqn:Hblock; [done|].
  pose proof Hok as [Hstages Hd]. pose proof (Forall_lookup_1 _ _ _ _ Hstages Hg) as [Hsteps Hgd].
  pose proof (Forall_lookup_1 _ _ _ _ Hsteps Hs) as [Hsd Hfact].
  case_decide as Hf; cbn [snd].
  - apply prune_plan_ok. destruct (markDependencyPlanFailed_at p i j g s id reason Hv Hg Hs) as (r & ->).
    assert (hasFact s = false) as Hnf.
    { destruct (hasFact s) eqn:Hfs; [|done]. specialize (Hfact eq_refl). unfold all_success in Hfact.
      rewrite forallb_lookup in Hfact. apply Hfact in Hm as Hms. unfold hasFact in Hfs. rewrite Hfs in Hblock.
      rewrite orb_true_r, andb_true_r in Hblock. unfold is_success, isTerminalMembershipState in *.
      by destruct (mi_State m). }
    destruct (fail_step_ok s k m id r Hm Hmid Hid Hnf) as [H1 H2].
    assert (stage_ok earliest (fail_stage j id r g)) as Hg'.
    { split; [apply Forall_alter; [done|]; intros x Hx _; by simplify_eq|].
      unfold deriveDependencyStageState.
      pose proof (existsb_alter_at _ _ _ j s Hs H2) as Hex.
      change (sg_Steps (fail_stage j id r g)) with (alter (fail_step id r) j (sg_Steps g)).
      destruct (alter (fail_step id r) j (sg_Steps g)); [done|]. by rewrite Hex. }
    split.
    + apply Forall_alter; [done|]. intros x Hx _. by simplify_eq.
    + unfold deriveDependencyWorkflowState. cbn [pl_Stages set_pl_Stages].
      rewrite (existsb_alter_at _ _ _ i g Hg); [done|]. by apply bool_decide_eq_true.
  - apply (propagate_ok _ _ _ _ _ g s m); try done.
    + destruct (isTerminalMembershipState (mi_State m)) eqn:Ht; [|done].
      by rewrite bool_decide_eq_false_2 in Hblock.
    + by destruct st.
Qed.

(** A run of two stages, the first with two items of which one is done. *)
Definition demo_item id index st := mkMembership id index st "" "" "" 0 false.
Definition demo_step stage index id st items := mkStep stage index id st "" "" "" 0 false items.
Definition demo_plan : WorkflowDependencyPlan :=
  mkPlan "run" "wf" WorkflowStateRunning ""
    [mkDepStage 0 WorkflowStageStateActive "" ""
       [demo_step 0 0 "a" WorkflowStepStateActive
          [demo_item "run:a0" 0 WorkItemMembershipStateCompleted;
           demo_item "run:a1" 1 WorkItemMembershipStateRunning]];
     mkDepStage 1 WorkflowStageStateBlocked "" "" [demo_step 1 1 "b" WorkflowStepStateBlocked []]].

Lemma incremental_matches_derivation_witness :
  let after := (updateDependencyPlanForWorkItemTerminal demo_plan "run:a1" WorkItemMembershipStateCompleted "").2 in
  plan_ok (Z.eqb 0) after ∧ sg_State <$> pl_Stages after = [WorkflowStageStateCompleted; WorkflowStageStateBlocked].
Proof.
  split; [|reflexivity].
  apply (incremental_matches_derivation (Z.eqb 0) demo_plan "run:a1" WorkItemMembershipStateCompleted "");
    [reflexivity| |done|reflexivity].
  split; [|reflexivity]. repeat constructor; discriminate.
Defined.
