(* ===== verification/VariableCodec.v ===== *)
(** * JSON of variables and expressions

    ([internal/variable]: [variable.go], [expression.go], [protected_ref.go],
    [function_call.go], [sensitivity.go])

    The [MarshalJSON] and [UnmarshalJSON] methods.  Go hands them the text of a
    value; here they work on its tree, and [Variable_Marshal] and
    [Variable_Unmarshal] go through the text.  Maps are written with their keys in
    order.  Reading back gives the variable that was written up to what the text
    does not record: the order of object fields, whether an integer was an [int] or
    a [json.Number], and a redaction label left to its default. *)

From S2P Require Import Prelude GoTime GoJson GoStrings GoJsonLaws.
From S2P Require Import GoSha256 Fingerprint GoJsonStruct Variables Expression.
Local Open Scope nat_scope.

(** ** Protected references *)

Definition protected_fields : Struct ProtectedRef :=
  [("provider", into_string (λ s r, mkProtected s (p_Key r) (p_RedactionLabel r)));
   ("key", into_string (λ s r, mkProtected (p_Provider r) s (p_RedactionLabel r)));
   ("redaction_label", into_string (λ s r, mkProtected (p_Provider r) (p_Key r) s))].

Definition decodeProtectedRefJSON (data : JSON) : result ProtectedRef :=
  wrap_err "decode protected reference"
    (decode_struct true protected_fields (mkProtected "" "" "") data).

Definition ProtectedRef_UnmarshalJSON (data : JSON) : result ProtectedRef :=
  r ← decodeProtectedRefJSON data;
  ProtectedRef_Validate r;;
  Ok (ProtectedRef_Normalize r).

Definition ProtectedRef_MarshalJSON (r : ProtectedRef) : result JSON :=
  ProtectedRef_Validate r;;
  let normalized := ProtectedRef_Normalize r in
  Ok (JObject (field "provider" (JString (p_Provider normalized)) ++
               field "key" (JString (p_Key normalized)) ++
               omit_string "redaction_label" (p_RedactionLabel normalized))).

(** ** Expressions: writing *)

(** [json.Marshal] of a [json.Number]: a number literal, or the empty text. *)
Definition marshal_number (text : string) : result JSON :=
  if is_empty text then Ok (JNumber "0")
  else match lex_number (chunks text) with
       | Some (_, []) => Ok (JNumber text)
       | _ => Err (Errorf ("json: invalid number literal " +:+ text))
       end.
(** [time.Time.MarshalJSON]: the year has four digits. *)
Definition marshal_time (t : Time) : result JSON :=
  fail_if ((t_year t <? 0) || (9999 <? t_year t))%Z (Errorf "Time.MarshalJSON: year outside of range [0,9999]");;
  Ok (JString (format_rfc3339nano t)).

(** The struct types without [json] tags go by their Go names. *)
Definition reference_json (r : Reference) : JSON :=
  JObject [("Name", JObject [("Namespace", JString (n_Namespace (r_Name r)));
                             ("Key", JString (n_Key (r_Name r)))]);
           ("Qualified", JBool (r_Qualified r))].
Definition argument_json (a : FunctionArgumentReference) : JSON :=
  JObject (field "expression" (JString (fa_Expression a)) ++
           field "reference" (reference_json (fa_Reference a)) ++
           omit_string "accessor" (fa_Accessor a)).
Definition FunctionCallExpression_MarshalJSON (call : FunctionCallExpression) : result JSON :=
  FunctionCallExpression_Validate call;;
  Ok (JObject [("name", JString (FunctionName_String (fc_Name call)));
               ("result_type", JString (Type_String (fc_ResultType call)));
               ("arguments", JArray (argument_json <$> fc_Arguments call))]).

Definition validateExpressionContainer (expressionType : VType) (expression : expr) : result unit :=
  if decide (expressionType = TypeObject) then
    match expression with
    | EObject _ => Ok tt
    | _ => Err (Errorf "object expression must be a typed-expression map")
    end
  else if decide (expressionType = TypeList) then
    match expression with
    | EList _ => Ok tt
    | _ => Err (Errorf "list expression must be a typed-expression list")
    end
  else Ok tt.

(** [json.Marshal] of an expression, given how its children are written.  A value
    of a type no code expects ([EOther]) has no text here: a variable that holds
    one is refused before it is written. *)
Definition marshal_expr (child : TypedExpression → result JSON) (x : expr) : result JSON :=
  match x with
  | EString s => Ok (JString s)
  | EInt z => Ok (JInt z)
  | ENumber text => marshal_number text
  | EBool b => Ok (JBool b)
  | ETime t => marshal_time t
  | EObject fields =>
      fs ← traverse_fields (λ _ e, child e) fields; Ok (JObject (order_by by_key fs))
  | EList items => vs ← traverse_items (λ _ e, child e) 0 items; Ok (JArray vs)
  | ECall call => FunctionCallExpression_MarshalJSON call
  | ENil => Ok JNull
  | EOther => Err (Errorf "json: unsupported value")
  end.

Fixpoint TypedExpression_MarshalJSON (e : TypedExpression) : result JSON :=
  let 'mkTE ty x := e in
  fail_if (negb (Type_Valid ty)) (Errorf ("unsupported expression type: " +:+ Type_String ty));;
  validateExpressionContainer ty x;;
  v ← marshal_expr TypedExpression_MarshalJSON x;
  Ok (JObject [("type", JString (Type_String ty)); ("expression", v)]).

(** ** Expressions: reading *)

(** The struct with [Type string] and [Expression json.RawMessage]. *)
Record encodedExpression := mkEncoded { ee_Type : string; ee_Expression : option JSON }.
Definition raw_message {R} (set : option JSON → R → R) : Setter R := λ v r, Ok (set (Some v) r).
Definition encoded_fields : Struct encodedExpression :=
  [("type", into_string (λ s r, mkEncoded s (ee_Expression r)));
   ("expression", raw_message (λ v r, mkEncoded (ee_Type r) v))].

Definition decodeExpressionJSON {R} (fields : Struct R) (zero : R) (data : JSON) : result R :=
  wrap_err "decode typed expression" (decode_struct true fields zero data).

Definition scalar_expr (v : JSON) : expr :=
  match v with
  | JNull => ENil
  | JBool b => EBool b
  | JNumber text => ENumber text
  | JString s => EString s
  | JArray _ | JObject _ => EOther
  end.

Definition decodeExpressionValue (child : JSON → result TypedExpression) (ty : VType) (data : JSON) :
    result expr :=
  if decide (ty = TypeObject) then
    match data with
    | JObject kvs =>
        EObject <$> wrap_err "decode object expression" (traverse_fields (λ _ v, child v) kvs)
    | JNull => Err (Errorf "object expression must be a JSON object")
    | _ => Err (Wrapf "decode object expression" json_mismatch)
    end
  else if decide (ty = TypeList) then
    match data with
    | JArray vs => EList <$> wrap_err "decode list expression" (traverse_items (λ _ v, child v) 0 vs)
    | JNull => Err (Errorf "list expression must be a JSON array")
    | _ => Err (Wrapf "decode list expression" json_mismatch)
    end
  else Ok (scalar_expr data).

(** A nested expression is two levels deeper in the tree: the depth of the tree is
    enough fuel. *)
Fixpoint unmarshal_expression (fuel : nat) (data : JSON) : result TypedExpression :=
  encoded ← decodeExpressionJSON encoded_fields (mkEncoded "" None) data;
  fail_if (is_empty (ee_Type encoded)) (Errorf "typed expression type is required");;
  match ee_Expression encoded with
  | None => Err (Errorf "typed expression expression is required")
  | Some raw =>
      ty ← expressionType (ee_Type encoded);
      expression ← decodeExpressionValue
        (match fuel with S fuel' => unmarshal_expression fuel' | O => λ _, Err json_mismatch end) ty raw;
      Ok (mkTE ty expression)
  end.
Definition TypedExpression_UnmarshalJSON (data : JSON) : result TypedExpression :=
  unmarshal_expression (N.to_nat (json_depth data)) data.

(** ** Variables *)

Record variableJSON := mkVariableJSON {
  vj_Name : Name; vj_Type : string; vj_Expression : option JSON; vj_Sensitive : bool;
  vj_ProtectedRef : option ProtectedRef }.
Definition variableNameJSON : Struct Name :=
  [("namespace", into_string (λ s r, mkName s (n_Key r)));
   ("key", into_string (λ s r, mkName (n_Namespace r) s))].
Definition variable_fields : Struct variableJSON :=
  [("name", into_struct true variableNameJSON vj_Name (λ n r,
      mkVariableJSON n (vj_Type r) (vj_Expression r) (vj_Sensitive r) (vj_ProtectedRef r)));
   ("type", into_string (λ s r,
      mkVariableJSON (vj_Name r) s (vj_Expression r) (vj_Sensitive r) (vj_ProtectedRef r)));
   ("expression", raw_message (λ v r,
      mkVariableJSON (vj_Name r) (vj_Type r) v (vj_Sensitive r) (vj_ProtectedRef r)));
   ("sensitive", into_bool (λ b r,
      mkVariableJSON (vj_Name r) (vj_Type r) (vj_Expression r) b (vj_ProtectedRef r)));
   ("protected_ref", into_pointer ProtectedRef_UnmarshalJSON (λ p r,
      mkVariableJSON (vj_Name r) (vj_Type r) (vj_Expression r) (vj_Sensitive r) p))].

Definition Variable_MarshalJSON (v : Var) : result JSON :=
  Variable_Validate v;;
  let sensitive := v_Sensitive v || bool_decide (is_Some (v_ProtectedRef v)) in
  expression ← marshal_expr TypedExpression_MarshalJSON (te_Expression (v_TypedExpression v));
  reference ← (match v_ProtectedRef v with
               | Some r => j ← ProtectedRef_MarshalJSON r; Ok (field "protected_ref" j)
               | None => Ok []
               end);
  Ok (JObject (
    field "name" (JObject [("namespace", JString (n_Namespace (v_Name v)));
                           ("key", JString (n_Key (v_Name v)))]) ++
    field "type" (JString (Type_String (te_Type (v_TypedExpression v)))) ++
    omit (match te_Expression (v_TypedExpression v) with ENil => true | _ => false end)
      "expression" expression ++
    omit_bool "sensitive" sensitive ++ reference)).

Definition Variable_UnmarshalJSON (data : JSON) : result Var :=
  encoded ← decodeExpressionJSON variable_fields (mkVariableJSON (mkName "" "") "" None false None) data;
  fail_if (is_empty (vj_Type encoded)) (Errorf "variable type is required");;
  ty ← expressionType (vj_Type encoded);
  v ← (match vj_ProtectedRef encoded with
       | Some ref =>
           fail_if (bool_decide (is_Some (vj_Expression encoded)))
             (Errorf "protected reference variable expression must be omitted");;
           Ok (mkVar (vj_Name encoded) (mkTE ty ENil) true (Some ref))
       | None =>
           match vj_Expression encoded with
           | None => Err (Errorf "variable expression is required")
           | Some raw =>
               expression ← decodeExpressionValue TypedExpression_UnmarshalJSON ty raw;
               Ok (mkVar (vj_Name encoded) (mkTE ty expression) (vj_Sensitive encoded) None)
           end
       end);
  Variable_Validate v;;
  Ok v.

(** [json.Marshal] and [json.Unmarshal] of a variable. *)
Definition Variable_Marshal (v : Var) : result string := print <$> Variable_MarshalJSON v.
Definition Variable_Unmarshal (text : string) : result Var :=
  data ← json_document text; Variable_UnmarshalJSON data.

(** ** Resolved values ([sensitivity.go]) *)

Definition scalar_json (v : scalar) : result JSON :=
  match v with
  | VNil => Ok JNull
  | VString s => Ok (JString s)
  | VInt z => Ok (JInt z)
  | VBool b => Ok (JBool b)
  | VTime t => marshal_time t
  end.

Fixpoint encode_safe (v : resolvedValueJSON) : result JSON :=
  let 'mkJSON ty sensitive label provenance ref value fields items := v in
  reference ← (match ref with
               | Some r => j ← ProtectedRef_MarshalJSON r; Ok (field "protected_ref" j)
               | None => Ok []
               end);
  j ← scalar_json value;
  fs ← traverse_fields (λ _ child, encode_safe child) fields;
  vs ← traverse_items (λ _ child, encode_safe child) 0 items;
  Ok (JObject (field "type" (JString ty) ++ omit_bool "sensitive" sensitive ++
    omit_string "redaction_label" label ++ omit_string "provenance" provenance ++ reference ++
    omit (bool_decide (value = VNil)) "value" j ++
    omit (bool_decide (fs = [])) "object" (JObject (order_by by_key fs)) ++
    omit (bool_decide (vs = [])) "list" (JArray vs))).
Definition ResolvedValue_MarshalJSON (v : ResolvedValue) : result JSON := encode_safe (safeJSON v).
