(* ===== verification/VariableLaws.v ===== *)
(** * A stored variable reads back

    Every valid variable has a JSON text, and reading it gives the variable again,
    in the form in which the text records it ([canon_variable]), which is written
    with the same text. *)

From S2P Require Import Prelude GoTime GoJson GoStrings GoJsonLaws.
From S2P Require Import GoSha256 Fingerprint GoJsonStruct Variables Expression StepOutputs OutputText.
From S2P Require Import VariableCodec.
Local Open Scope nat_scope.

(** ** The form a text records *)

Fixpoint canon (e : TypedExpression) : TypedExpression :=
  let 'mkTE ty x := e in
  mkTE ty (match x with
           | EObject fields => EObject (order_by by_key ((λ '(k, c), (k, canon c)) <$> fields))
           | EList items => EList (canon <$> items)
           | EInt z => ENumber (pretty z)
           | _ => x
           end).
Definition canon_variable (v : Var) : Var :=
  mkVar (v_Name v) (canon (v_TypedExpression v))
    (v_Sensitive v || bool_decide (is_Some (v_ProtectedRef v)))
    (ProtectedRef_Normalize <$> v_ProtectedRef v).

(** What every Go value of these types satisfies once its text is UTF-8: maps have
    distinct keys and integers 64 bits; a number is a decimal integer.  Two kinds of
    expression are written but not read back and are left out: a function call, and
    a whole reference of type object or list. *)
Fixpoint storable (e : TypedExpression) : bool :=
  let 'mkTE ty x := e in
  is_Ok (validateExpressionContainer ty x) &&
  match x with
  | EString s => valid_utf8 s
  | EInt z => bool_decide (int64 z)
  | ENumber text => isCanonicalIntegerText text
  | EBool _ | ENil => true
  | EObject fields =>
      bool_decide (NoDup fields.*1) && forallb (λ '(k, c), valid_utf8 k && storable c) fields
  | EList items => forallb storable items
  | ETime _ | ECall _ | EOther => false
  end.

(** How deep the text of an expression nests. *)
Fixpoint nesting (e : TypedExpression) : N :=
  let 'mkTE _ x := e in
  (1 + match x with
       | EObject fields => 1 + foldr (λ '(_, c) n, N.max (nesting c) n) 0 fields
       | EList items => 1 + foldr (λ c n, N.max (nesting c) n) 0 items
       | _ => 0
       end)%N.

Definition storable_variable (v : Var) : bool :=
  valid_utf8 (n_Namespace (v_Name v)) && valid_utf8 (n_Key (v_Name v)) &&
  storable (v_TypedExpression v) &&
  match v_ProtectedRef v with
  | Some r => valid_utf8 (p_Provider r) && valid_utf8 (p_Key r) && valid_utf8 (p_RedactionLabel r)
  | None => true
  end.

(** The tree of a storable expression. *)
Fixpoint tree (e : TypedExpression) : JSON :=
  let 'mkTE ty x := e in
  JObject [("type", JString (Type_String ty));
           ("expression",
             match x with
             | EString s => JString s
             | EInt z => JInt z
             | ENumber text => JNumber text
             | EBool b => JBool b
             | EObject fields => JObject (order_by by_key ((λ '(k, c), (k, tree c)) <$> fields))
             | EList items => JArray (tree <$> items)
             | _ => JNull
             end)].
Definition expr_tree (x : expr) : JSON :=
  match tree (mkTE "" x) with JObject [_; (_, v)] => v | _ => JNull end.

(** ** Writing *)

Lemma canonical_number text : isCanonicalIntegerText text = true → marshal_number text = Ok (JNumber text).
Proof.
  intros H. destruct (integer_reads text H) as (_ & c & r & Hch & _ & Hlex).
  unfold marshal_number. destruct (is_empty text) eqn:He.
  - apply bool_decide_eq_true in He. by subst.
  - rewrite Hch. specialize (Hlex [] eq_refl). rewrite app_nil_r in Hlex. by rewrite Hlex.
Qed.

Lemma traverse_fields_pure {A B} (f : A → result B) (h : A → B) l :
  Forall (λ kv, f kv.2 = Ok (h kv.2)) l → traverse_fields (λ _ a, f a) l = Ok (on_value h <$> l).
Proof.
  induction 1 as [|[k a] l Ha _ IH]; [done|]. cbn [traverse_fields]. simpl in Ha.
  by rewrite Ha, IH.
Qed.
Lemma traverse_items_pure {A B} (f : A → result B) (h : A → B) l n :
  Forall (λ a, f a = Ok (h a)) l → traverse_items (λ _ a, f a) n l = Ok (h <$> l).
Proof.
  intros H. revert n. induction H as [|a l Ha _ IH]; intros n; [done|].
  cbn [traverse_items]. by rewrite Ha, IH.
Qed.

(** The direct parts of an expression. *)
Definition parts (x : expr) : list TypedExpression :=
  match x with EObject fields => fields.*2 | EList items => items | _ => [] end.
Definition canon_expr (x : expr) : expr := te_Expression (canon (mkTE "" x)).

Lemma Forall_values {A} (P : A → Prop) (l : list (string * A)) :
  Forall P l.*2 ↔ Forall (λ kv, P kv.2) l.
Proof. apply Forall_fmap. Qed.

Lemma tree_object ty fields :
  tree (mkTE ty (EObject fields))
  = JObject [("type", JString (Type_String ty));
             ("expression", JObject (order_by by_key (on_value tree <$> fields)))].
Proof. done. Qed.
Lemma canon_object ty fields :
  canon (mkTE ty (EObject fields)) = mkTE ty (EObject (order_by by_key (on_value canon <$> fields))).
Proof. done. Qed.

Lemma traverse_fields_all_ok {A B} (f : string → A → result B) l bs :
  traverse_fields f l = Ok bs → Forall (λ kv, ∃ b, f kv.1 kv.2 = Ok b) l.
Proof.
  revert bs. induction l as [|[k a] l IH]; intros bs H; [constructor|]. cbn [traverse_fields] in H.
  result_inv. constructor; eauto.
Qed.
Lemma traverse_items_all_ok {A B} (f : nat → A → result B) l n bs :
  traverse_items f n l = Ok bs → Forall (λ a, ∃ n b, f n a = Ok b) l.
Proof.
  revert n bs. induction l as [|a l IH]; intros n bs H; [constructor|]. cbn [traverse_items] in H.
  result_inv. constructor; eauto.
Qed.

Lemma types_disjoint ty :
  ty = TypeObject ∨ ty = TypeList →
  ty ≠ TypeString ∧ ty ≠ TypePath ∧ ty ≠ TypeInt ∧ ty ≠ TypeBool ∧ ty ≠ TypeDatetime.
Proof. by intros [->| ->]. Qed.

(** A definition with parts has the matching type, and its parts are definitions. *)
Lemma validate_parts ty x :
  ValidateDefinition (mkTE ty x) = Ok tt →
  Type_Valid ty = true ∧
  match x with
  | EObject _ => ty = TypeObject
  | EList _ => ty = TypeList
  | _ => True
  end ∧
  Forall (λ c, ValidateDefinition c = Ok tt) (parts x).
Proof.
  intros H. cbn [ValidateDefinition] in H. apply bind_Ok in H as ([] & Ht & H).
  apply fail_if_Ok, negb_false_iff in Ht. split; [done|].
  destruct x as [| | | | |fields|items| | |]; try (by split; [done|constructor]); cbn [mbind result_bind] in H.
  all: repeat case_bool_decide; try discriminate H; try (by destruct_or?; subst).
  - result_inv. split; [done|]. apply Forall_values.
    match goal with H : traverse_fields _ _ = _ |- _ => apply traverse_fields_all_ok in H end.
    eapply Forall_impl; [eassumption|]. intros [k c] [b Hb]. simpl in *. rewrite wrap_err_Ok in Hb.
    by destruct b.
  - result_inv. split; [done|].
    match goal with H : traverse_items _ _ _ = _ |- _ => apply traverse_items_all_ok in H end.
    eapply Forall_impl; [eassumption|]. intros c (n & b & Hb). simpl in *. rewrite wrap_err_Ok in Hb.
    by destruct b.
Qed.

Lemma validate_object fields :
  Forall (λ c, ValidateDefinition c = Ok tt) fields.*2 →
  ValidateDefinition (mkTE TypeObject (EObject fields)) = Ok tt.
Proof.
  intros H%Forall_values. cbn. enough (∃ bs, traverse_fields (λ name field,
    wrap_err ("validate object field " +:+ name) (ValidateDefinition field)) fields = Ok bs) as [bs ->]; [done|].
  induction H as [|[k c] l Hc _ [bs IH]]; [by eexists|]. cbn [traverse_fields]. simpl in Hc. rewrite Hc, IH. by eexists.
Qed.
Lemma validate_list items :
  Forall (λ c, ValidateDefinition c = Ok tt) items →
  ValidateDefinition (mkTE TypeList (EList items)) = Ok tt.
Proof.
  intros H. cbn. enough (∀ n, ∃ bs, traverse_items (λ index item,
    wrap_err ("validate list item " +:+ pretty index) (ValidateDefinition item)) n items = Ok bs) as Hn.
  { destruct (Hn 0) as [bs ->]. done. }
  induction H as [|c l Hc _ IH]; intros n; [by eexists|]. cbn [traverse_items].
  destruct (IH (S n)) as [bs Hbs]. rewrite Hc, Hbs. by eexists.
Qed.

Lemma storable_object ty fields :
  storable (mkTE ty (EObject fields)) = true ↔
  is_Ok (validateExpressionContainer ty (EObject fields)) = true ∧ NoDup fields.*1 ∧
  Forall (λ kv, valid_utf8 kv.1 = true ∧ storable kv.2 = true) fields.
Proof.
  cbn [storable]. rewrite !andb_true_iff, bool_decide_eq_true, forallb_forall, Forall_forall.
  setoid_rewrite <- list_elem_of_In. f_equiv. f_equiv. split; intros H.
  - intros [k x] Hin. by apply andb_true_iff, (H (k, x)).
  - intros [k x] Hin. by apply andb_true_iff, (H (k, x)).
Qed.
Lemma storable_list ty items :
  storable (mkTE ty (EList items)) = true ↔
  is_Ok (validateExpressionContainer ty (EList items)) = true ∧ Forall (λ c, storable c = true) items.
Proof.
  cbn [storable]. rewrite andb_true_iff, forallb_forall, Forall_forall.
  by setoid_rewrite <- list_elem_of_In.
Qed.

Lemma parts_definition ty x :
  ValidateDefinition (mkTE ty x) = Ok tt → storable (mkTE ty x) = true →
  Forall (λ c, ValidateDefinition c = Ok tt) (parts x) ∧ Forall (λ c, storable c = true) (parts x).
Proof.
  intros (_ & _ & Hp)%validate_parts Hs. split; [done|].
  destruct x as [| | | | |fields|items| | |]; try constructor.
  - apply storable_object in Hs as (_ & _ & Hs). apply Forall_values.
    eapply Forall_impl; [exact Hs|]. by intros kv [_ ?].
  - by apply storable_list in Hs as [_ ?].
Qed.

(** A property of all expressions by induction, with what a valid and storable
    definition gives of its parts. *)
Section definitions.
Context (P : TypedExpression → Prop).
Context (Pobject : ∀ fields, NoDup fields.*1 →
  Forall (λ kv, valid_utf8 kv.1 = true ∧ ValidateDefinition kv.2 = Ok tt ∧ storable kv.2 = true ∧ P kv.2) fields →
  ValidateDefinition (mkTE TypeObject (EObject fields)) = Ok tt →
  storable (mkTE TypeObject (EObject fields)) = true → P (mkTE TypeObject (EObject fields))).
Context (Plist : ∀ items,
  Forall (λ c, ValidateDefinition c = Ok tt ∧ storable c = true ∧ P c) items →
  ValidateDefinition (mkTE TypeList (EList items)) = Ok tt →
  storable (mkTE TypeList (EList items)) = true → P (mkTE TypeList (EList items))).
Context (Pleaf : ∀ ty x, parts x = [] → (∀ fs, x ≠ EObject fs) → (∀ l, x ≠ EList l) →
  ValidateDefinition (mkTE ty x) = Ok tt → storable (mkTE ty x) = true → P (mkTE ty x)).

Lemma definition_ind e : ValidateDefinition e = Ok tt → storable e = true → P e.
Proof using Pobject Plist Pleaf.
  induction e as [ty fields IH|ty items IH|ty x H1 H2] using TypedExpression_ind'; intros Hv Hs.
  - destruct (validate_parts _ _ Hv) as (_ & Hty & Hp%Forall_values). simpl in Hty. subst ty.
    pose proof Hs as (_ & Hn & Hs')%storable_object.
    apply Pobject; [done| |done..]. clear Hs. rename Hs' into Hs. rewrite Forall_forall in *. intros kv Hin.
    destruct (Hs _ Hin). specialize (Hp _ Hin). simpl in Hp. specialize (IH _ Hin). tauto.
  - destruct (validate_parts _ _ Hv) as (_ & Hty & Hp). simpl in Hty. subst ty.
    pose proof Hs as (_ & Hs')%storable_list.
    apply Plist; [|done..]. clear Hs. rename Hs' into Hs. rewrite Forall_forall in *. intros c Hin.
    specialize (Hs _ Hin). specialize (Hp _ Hin). specialize (IH _ Hin). tauto.
  - apply Pleaf; try done. destruct x; try done; [by destruct (H1 fields)|by destruct (H2 items)].
Qed.
End definitions.

Lemma marshal_tree e :
  ValidateDefinition e = Ok tt → storable e = true → TypedExpression_MarshalJSON e = Ok (tree e).
Proof.
  revert e. apply definition_ind.
  - intros fields _ H _ _. cbn [TypedExpression_MarshalJSON marshal_expr].
    rewrite (traverse_fields_pure _ tree); [done|]. eapply Forall_impl; [exact H|]. by intros kv (_ & _ & _ & ?).
  - intros items H _ _. cbn [TypedExpression_MarshalJSON marshal_expr].
    rewrite (traverse_items_pure _ tree); [done|]. eapply Forall_impl; [exact H|]. by intros kv (_ & _ & ?).
  - intros ty x _ H1 H2 (Ht & _)%validate_parts [Hc Hs]%andb_true_iff.
    cbn [TypedExpression_MarshalJSON]. rewrite Ht. simpl. destruct (validateExpressionContainer ty x) as [[]|]; [|done].
    simpl. destruct x; try done; try (by destruct (H1 fields)); try (by destruct (H2 items)).
    cbn [marshal_expr]. by rewrite canonical_number.
Qed.

Lemma type_text_valid ty : Type_Valid ty = true → valid_utf8 (Type_String ty) = true.
Proof.
  intros H%bool_decide_eq_true. revert ty H. apply Forall_forall. by repeat constructor.
Qed.
Lemma type_text_known ty :
  Type_Valid ty = true → is_empty (Type_String ty) = false ∧ expressionType (Type_String ty) = Ok ty.
Proof.
  intros H%bool_decide_eq_true. revert ty H. apply Forall_forall. by repeat constructor.
Qed.

Lemma tree_wf e :
  ValidateDefinition e = Ok tt → storable e = true →
  json_wf (tree e) = true ∧ integers_only (tree e) = true.
Proof.
  revert e. apply definition_ind.
  - intros fields Hn H _ _. rewrite tree_object, json_wf_fields, integers_fields.
    split; [split; [by repeat constructor; set_solver|]|]; repeat constructor; try done; cbn [snd].
    + rewrite json_wf_fields, order_by_perm, keys_on_value. split; [done|]. apply Forall_fmap.
      eapply Forall_impl; [exact H|]. intros [k c] (? & ? & ? & ? & ?). done.
    + rewrite integers_fields, order_by_perm. apply Forall_fmap.
      eapply Forall_impl; [exact H|]. intros [k c] (? & ? & ? & ? & ?). done.
  - intros items H _ _. cbn [tree]. rewrite json_wf_fields, integers_fields.
    split; [split; [by repeat constructor; set_solver|]|]; repeat constructor; try done; cbn [snd].
    + rewrite json_wf_items. apply Forall_fmap. eapply Forall_impl; [exact H|]. by intros c (? & ? & ? & ?).
    + rewrite integers_items. apply Forall_fmap. eapply Forall_impl; [exact H|]. by intros c (? & ? & ? & ?).
  - intros ty x _ H1 H2 (Ht & _)%validate_parts [_ Hs]%andb_true_iff.
    cbn [tree]. rewrite json_wf_fields, integers_fields.
    split; [split; [by repeat constructor; set_solver|]|]; repeat constructor; try done; cbn [snd];
      try (by apply type_text_valid);
      destruct x; try done; try (by destruct (H1 fields)); try (by destruct (H2 items)).
    cbn [integers_only]. apply pretty_Z_canonical.
Qed.

Lemma tree_depth e :
  ValidateDefinition e = Ok tt → storable e = true → (json_depth (tree e) ≤ nesting e)%N.
Proof.
  revert e. apply definition_ind.
  - intros fields Hn H _ _. rewrite tree_object.
    assert (∀ d : N, (foldr (λ '(_, c) n, N.max (nesting c) n) 0 fields ≤ d)%N →
              (json_depth (JObject (order_by by_key (on_value tree <$> fields))) ≤ 1 + d)%N) as Hd.
    { intros d Hd. apply depth_object_le. rewrite order_by_perm, Forall_fmap.
      clear Hn. induction H as [|[k c] l (_ & _ & _ & Hc) _ IH]; constructor; simpl in *; [lia|apply IH; lia]. }
    cbn [json_depth foldr]. cbn [json_depth] in Hd. cbn [nesting]. specialize (Hd _ (N.le_refl _)). lia.
  - intros items H _ _. cbn [tree json_depth foldr nesting].
    enough (foldr (λ x n, N.max (json_depth x) n) 0 (tree <$> items)
            ≤ foldr (λ c n, N.max (nesting c) n) 0 items)%N by lia.
    induction H as [|c l (_ & _ & Hc) _ IH]; simpl; [lia|]. unfold fmap in IH. lia.
  - intros ty x _ H1 H2 _ _. cbn [tree json_depth foldr nesting].
    destruct x; simpl; try lia; [by destruct (H1 fields)|by destruct (H2 items)].
Qed.

(** ** Reading back *)

Lemma decode_tree_value dec ty x :
  ValidateDefinition (mkTE ty x) = Ok tt → storable (mkTE ty x) = true →
  Forall (λ c, dec (tree c) = Ok (canon c)) (parts x) →
  decodeExpressionValue dec ty (expr_tree x) = Ok (canon_expr x).
Proof.
  intros Hv Hs Hp. destruct (validate_parts _ _ Hv) as (_ & Hty & _). unfold decodeExpressionValue.
  destruct x as [s|z|t|b|t|fields|items|call| |]; try (by apply andb_true_iff in Hs as [_ ?]).
  5: { subst ty. cbn -[order_by]. apply storable_object in Hs as (_ & Hn & _).
       change (order_by by_key ((λ '(k, c), (k, tree c)) <$> fields)) with (order_by by_key (on_value tree <$> fields)).
       change ((λ '(k, c), (k, canon c)) <$> fields) with (on_value canon <$> fields).
       rewrite !order_by_on_value by done. apply Forall_values in Hp.
       rewrite <- (order_by_perm by_key fields) in Hp.
       enough (traverse_fields (λ _ v, dec v) (on_value tree <$> order_by by_key fields)
               = Ok (on_value canon <$> order_by by_key fields)) as -> by done.
       induction Hp as [|[k c] l Hc _ IH]; [done|]. rewrite !fmap_cons. cbn [traverse_fields on_value].
       simpl in Hc. by rewrite Hc, IH. }
  5: { subst ty. cbn. cbn [parts] in Hp.
       clear Hv Hs. enough (∀ n, traverse_items (λ _ v, dec v) n (tree <$> items) = Ok (canon <$> items)) as H.
       { unfold fmap in H. by rewrite H. }
       induction Hp as [|c l Hc _ IH]; intros n; [done|]. rewrite !fmap_cons. cbn [traverse_items].
       by rewrite Hc, IH. }
  all: apply andb_true_iff in Hs as [Hc _]; unfold validateExpressionContainer in Hc;
    repeat case_decide; done.
Qed.

Lemma unmarshal_step fuel ty x :
  Type_Valid ty = true →
  unmarshal_expression fuel (tree (mkTE ty x))
  = (expression ← decodeExpressionValue
       (match fuel with S fuel' => unmarshal_expression fuel' | O => λ _, Err json_mismatch end) ty (expr_tree x);
     Ok (mkTE ty expression)).
Proof.
  intros [Hn Hk]%type_text_known.
  destruct fuel; cbn [unmarshal_expression tree]; unfold decodeExpressionJSON; cbn -[order_by is_empty expressionType Type_String decodeExpressionValue];
    rewrite Hn; cbn -[order_by expressionType Type_String decodeExpressionValue]; rewrite Hk; reflexivity.
Qed.

Lemma part_depth ty x c :
  c ∈ parts x → (json_depth (tree c) + 1 < json_depth (tree (mkTE ty x)))%N.
Proof.
  intros Hin. destruct x as [| | | | |fields|items| | |]; cbn [parts] in Hin; try (by apply elem_of_nil in Hin).
  - rewrite tree_object. apply list_elem_of_fmap in Hin as ([k c'] & -> & Hin). cbn [snd].
    assert ((k, tree c') ∈ order_by by_key (on_value tree <$> fields)) as H%depth_fields.
    { rewrite order_by_perm. apply list_elem_of_fmap. by exists (k, c'). }
    cbn [json_depth foldr] in *. cbn [snd] in H. lia.
  - cbn [tree]. assert (tree c ∈ tree <$> items) as H%depth_items by (apply list_elem_of_fmap; eauto).
    cbn [json_depth foldr] in *. lia.
Qed.

Lemma unmarshal_tree e :
  ValidateDefinition e = Ok tt → storable e = true →
  ∀ fuel, (json_depth (tree e) ≤ N.of_nat fuel)%N → unmarshal_expression fuel (tree e) = Ok (canon e).
Proof.
  assert (∀ ty x, ValidateDefinition (mkTE ty x) = Ok tt → storable (mkTE ty x) = true →
    Forall (λ c, ∀ fuel, (json_depth (tree c) ≤ N.of_nat fuel)%N → unmarshal_expression fuel (tree c) = Ok (canon c)) (parts x) →
    ∀ fuel, (json_depth (tree (mkTE ty x)) ≤ N.of_nat fuel)%N →
    unmarshal_expression fuel (tree (mkTE ty x)) = Ok (canon (mkTE ty x))) as Hstep.
  { intros ty x Hv Hs Hp fuel Hf. destruct (validate_parts _ _ Hv) as (Ht & _).
    rewrite unmarshal_step by done. rewrite decode_tree_value; [by destruct x|done..|].
    rewrite Forall_forall in *. intros c Hin. destruct fuel as [|fuel].
    - apply (part_depth ty) in Hin. lia.
    - apply Hp; [done|]. apply (part_depth ty) in Hin. lia. }
  revert e. apply (definition_ind (λ e, ∀ fuel, (json_depth (tree e) ≤ N.of_nat fuel)%N →
    unmarshal_expression fuel (tree e) = Ok (canon e))).
  - intros fields _ H Hv Hs. apply Hstep; [done..|]. apply Forall_values.
    eapply Forall_impl; [exact H|]. by intros kv (_ & ? & ? & IH).
  - intros items H Hv Hs. apply Hstep; [done..|].
    eapply Forall_impl; [exact H|]. by intros c (? & ? & IH).
  - intros ty x Hx _ _ Hv Hs. apply Hstep; [done..|]. rewrite Hx. constructor.
Qed.

(** ** The recorded form is stable *)

Lemma canon_stable e :
  ValidateDefinition e = Ok tt → storable e = true →
  ValidateDefinition (canon e) = Ok tt ∧ storable (canon e) = true ∧ tree (canon e) = tree e.
Proof.
  revert e. apply definition_ind.
  - intros fields Hn H _ _. rewrite canon_object, tree_object, tree_object, storable_object.
    rewrite (order_by_on_value canon) by done.
    split; [|split; [split; [done|split]|]].
    + apply validate_object, Forall_values, Forall_fmap. rewrite order_by_perm.
      eapply Forall_impl; [exact H|]. by intros [k c] (_ & _ & _ & ? & _).
    + rewrite keys_on_value. by apply NoDup_order_by.
    + apply Forall_fmap. rewrite order_by_perm.
      eapply Forall_impl; [exact H|]. intros [k c] (? & _ & _ & _ & ? & _). done.
    + rewrite <- (order_by_on_value canon) by done.
      rewrite (order_by_key_perm _ (on_value tree <$> (on_value canon <$> fields)));
        [|rewrite keys_on_value; apply NoDup_order_by; by rewrite keys_on_value|by rewrite order_by_perm].
      do 6 f_equal. rewrite <- list_fmap_compose. apply list_fmap_ext. intros i [k c] Hi.
      apply list_elem_of_lookup_2 in Hi. rewrite Forall_forall in H.
      destruct (H _ Hi) as (_ & _ & _ & _ & _ & Ht). simpl in *. by rewrite Ht.
  - intros items H _ _. cbn [canon]. split; [|split].
    + apply validate_list, Forall_fmap. eapply Forall_impl; [exact H|]. by intros c (_ & _ & ? & _).
    + apply storable_list. split; [done|]. apply Forall_fmap. eapply Forall_impl; [exact H|].
      by intros c (_ & _ & _ & ? & _).
    + cbn [tree]. do 4 f_equal. f_equal. rewrite <- list_fmap_compose. apply list_fmap_ext. intros i c Hi.
      apply list_elem_of_lookup_2 in Hi. rewrite Forall_forall in H. by destruct (H _ Hi) as (_ & _ & _ & _ & Ht).
  - intros ty x _ H1 H2 Hv Hs. destruct x; try done; try (by destruct (H1 fields)); try (by destruct (H2 items)).
    cbn [canon]. split; [|split; [|done]].
    + revert Hv. cbn [ValidateDefinition]. destruct (Type_Valid ty); [|done]. cbn [negb fail_if mbind result_bind].
      repeat case_bool_decide; try done. intros _. cbn [validateIntExpression].
      apply andb_true_iff in Hs as [_ Hz%bool_decide_eq_true]. by rewrite Atoi_pretty.
    + apply andb_true_iff in Hs as [Hc _]. cbn [storable]. apply andb_true_iff. split; [|apply pretty_Z_canonical].
      revert Hc. unfold validateExpressionContainer. repeat case_decide; done.
Qed.

(** ** Variables *)

Definition ref_tree (r : ProtectedRef) : JSON :=
  let n := ProtectedRef_Normalize r in
  JObject (field "provider" (JString (p_Provider n)) ++ field "key" (JString (p_Key n)) ++
           omit_string "redaction_label" (p_RedactionLabel n)).

Lemma normalize_fields r :
  ProtectedRef_Validate r = Ok tt →
  p_Provider (ProtectedRef_Normalize r) = p_Provider r ∧ p_Key (ProtectedRef_Normalize r) = p_Key r ∧
  is_empty (p_RedactionLabel (ProtectedRef_Normalize r)) = false ∧
  ProtectedRef_Validate (ProtectedRef_Normalize r) = Ok tt ∧
  ProtectedRef_Normalize (ProtectedRef_Normalize r) = ProtectedRef_Normalize r.
Proof.
  destruct r as [p k l]. unfold ProtectedRef_Normalize. cbn [p_RedactionLabel].
  destruct (is_empty l) eqn:El; cbn [p_Provider p_Key p_RedactionLabel]; rewrite ?El; done.
Qed.

Lemma normalize_label_utf8 r :
  valid_utf8 (p_Provider r) = true → valid_utf8 (p_Key r) = true → valid_utf8 (p_RedactionLabel r) = true →
  valid_utf8 (p_RedactionLabel (ProtectedRef_Normalize r)) = true.
Proof.
  intros Hp Hk Hl. unfold ProtectedRef_Normalize. destruct (is_empty _); [|done].
  cbn [p_RedactionLabel]. unfold defaultRedactionLabel. repeat apply valid_utf8_app; done.
Qed.

Definition var_tree (v : Var) : JSON :=
  JObject (
    field "name" (JObject [("namespace", JString (n_Namespace (v_Name v)));
                           ("key", JString (n_Key (v_Name v)))]) ++
    field "type" (JString (Type_String (te_Type (v_TypedExpression v)))) ++
    match v_ProtectedRef v with
    | Some r => field "sensitive" (JBool true) ++ field "protected_ref" (ref_tree r)
    | None => field "expression" (expr_tree (te_Expression (v_TypedExpression v))) ++
              omit_bool "sensitive" (v_Sensitive v)
    end).

(** What validation says of a variable: a reference without an expression, or a definition. *)
Lemma variable_cases v :
  Variable_Validate v = Ok tt →
  Name_Validate (v_Name v) = Ok tt ∧ Type_Valid (te_Type (v_TypedExpression v)) = true ∧
  match v_ProtectedRef v with
  | Some r => ProtectedRef_Validate r = Ok tt ∧ te_Expression (v_TypedExpression v) = ENil
  | None => ValidateDefinition (v_TypedExpression v) = Ok tt
  end.
Proof.
  unfold Variable_Validate. intros H. result_inv. split; [done|]. destruct (v_ProtectedRef v) as [r|].
  - result_inv. destruct (te_Expression _); try done.
    by match goal with H : negb _ = false |- _ => apply negb_false_iff in H end.
  - split; [|done]. destruct (v_TypedExpression v) as [ty x]. by apply validate_parts in H as [? _].
Qed.

Lemma definition_not_nil ty x : ValidateDefinition (mkTE ty x) = Ok tt → x ≠ ENil.
Proof.
  intros H ->. cbn [ValidateDefinition] in H. result_inv. cbn [mbind result_bind] in *.
  repeat case_bool_decide; try discriminate; cbn in *; try discriminate.
Qed.

Lemma tree_expr ty x :
  tree (mkTE ty x) = JObject [("type", JString (Type_String ty)); ("expression", expr_tree x)].
Proof. done. Qed.

Lemma marshal_expr_tree ty x :
  ValidateDefinition (mkTE ty x) = Ok tt → storable (mkTE ty x) = true →
  marshal_expr TypedExpression_MarshalJSON x = Ok (expr_tree x).
Proof.
  intros Hv Hs. pose proof (marshal_tree _ Hv Hs) as Hm. rewrite tree_expr in Hm.
  cbn [TypedExpression_MarshalJSON] in Hm. apply bind_Ok in Hm as (? & _ & Hm).
  apply bind_Ok in Hm as (? & _ & Hm). apply bind_Ok in Hm as (j & Hj & Hm). congruence.
Qed.

Lemma marshal_variable v :
  Variable_Validate v = Ok tt → storable_variable v = true → Variable_MarshalJSON v = Ok (var_tree v).
Proof.
  intros Hv Hs. pose proof (variable_cases v Hv) as (_ & Ht & Hc).
  unfold Variable_MarshalJSON. rewrite Hv. cbn [mbind result_bind].
  unfold storable_variable in Hs. rewrite !andb_true_iff in Hs. destruct Hs as ((_ & Hs) & _).
  destruct v as [name [ty x] sens [r|]]; cbn [v_TypedExpression v_ProtectedRef te_Expression te_Type v_Name v_Sensitive] in *.
  - destruct Hc as [Hr ->]. cbn [marshal_expr mbind result_bind]. unfold ProtectedRef_MarshalJSON. rewrite Hr.
    rewrite bool_decide_eq_true_2 by (by eexists). rewrite orb_true_r. done.
  - pose proof (definition_not_nil _ _ Hc) as Hx. rewrite (marshal_expr_tree _ _ Hc Hs).
    cbn [mbind result_bind]. rewrite bool_decide_eq_false_2 by (by intros [? ?]).
    rewrite orb_false_r, app_nil_r. by destruct x.
Qed.

(** An object written with literal keys is well formed when its values are. *)
Ltac object_wf :=
  apply json_wf_fields; cbn [fmap list_fmap fst]; split;
  [by apply (bool_decide_unpack _); vm_compute
  |repeat (apply Forall_cons; split); try apply Forall_nil_2; (split; [reflexivity|]); cbn [snd]].
Ltac all_fields := repeat (apply Forall_cons; split); try apply Forall_nil_2; cbn [snd].

Lemma name_tree_wf n :
  valid_utf8 (n_Namespace n) = true → valid_utf8 (n_Key n) = true →
  json_wf (JObject [("namespace", JString (n_Namespace n)); ("key", JString (n_Key n))]) = true.
Proof. intros H1 H2. by object_wf. Qed.

Lemma ref_tree_wf r :
  ProtectedRef_Validate r = Ok tt →
  valid_utf8 (p_Provider r) = true → valid_utf8 (p_Key r) = true → valid_utf8 (p_RedactionLabel r) = true →
  json_wf (ref_tree r) = true ∧ integers_only (ref_tree r) = true ∧ json_depth (ref_tree r) = 1%N.
Proof.
  intros Hr Hp Hk Hl. destruct (normalize_fields r Hr) as (Ep & Ek & El & _).
  unfold ref_tree, omit_string, omit. rewrite El, Ep, Ek. split; [|done].
  object_wf; try done. by apply normalize_label_utf8.
Qed.

Lemma expr_tree_wf ty x :
  ValidateDefinition (mkTE ty x) = Ok tt → storable (mkTE ty x) = true →
  json_wf (expr_tree x) = true ∧ integers_only (expr_tree x) = true ∧
  (json_depth (expr_tree x) ≤ nesting (mkTE ty x))%N.
Proof.
  intros Hc Hs. destruct (tree_wf _ Hc Hs) as [H1 H2]. pose proof (tree_depth _ Hc Hs) as H3.
  rewrite tree_expr in *. rewrite json_wf_fields in H1. rewrite integers_fields in H2.
  destruct H1 as [_ H1]. rewrite !Forall_cons in *. cbn [snd json_depth foldr] in *.
  destruct H1 as (_ & [_ H1] & _), H2 as (_ & H2 & _). split_and!; [done..|lia].
Qed.

Lemma var_tree_wf v :
  Variable_Validate v = Ok tt → storable_variable v = true →
  json_wf (var_tree v) = true ∧ integers_only (var_tree v) = true ∧
  (json_depth (var_tree v) ≤ 1 + N.max 1 (nesting (v_TypedExpression v)))%N.
Proof.
  intros Hv Hs. pose proof (variable_cases v Hv) as (_ & Ht%type_text_valid & Hc).
  unfold storable_variable in Hs. rewrite !andb_true_iff in Hs. destruct Hs as (((Hn & Hk) & Hs) & Hr).
  pose proof (name_tree_wf _ Hn Hk) as Hname.
  unfold var_tree. rewrite integers_fields, depth_object_le. destruct (v_ProtectedRef v) as [r|].
  - destruct Hc as [Hr' _]. rewrite !andb_true_iff in Hr. destruct Hr as ((Hp & Hpk) & Hl).
    destruct (ref_tree_wf r Hr' Hp Hpk Hl) as (H1 & H2 & H3). cbn [app field].
    split; [by object_wf|]. split; all_fields; try done; rewrite ?H3; cbn [json_depth foldr]; lia.
  - destruct (v_TypedExpression v) as [ty x]. cbn [te_Expression te_Type] in *.
    destruct (expr_tree_wf _ _ Hc Hs) as (H1 & H2 & H3). unfold omit_bool, omit.
    destruct (v_Sensitive v); cbn [app field negb].
    all: (split; [by object_wf|]); split; all_fields; try done; cbn [json_depth foldr]; lia.
Qed.

Lemma unmarshal_variable v :
  Variable_Validate v = Ok tt → storable_variable v = true →
  Variable_UnmarshalJSON (var_tree v) = (Variable_Validate (canon_variable v);; Ok (canon_variable v)).
Proof.
  intros Hv Hs. pose proof (variable_cases v Hv) as (_ & Ht & Hc).
  destruct (type_text_known _ Ht) as [Hn Hk].
  unfold storable_variable in Hs. rewrite !andb_true_iff in Hs. destruct Hs as ((_ & Hs) & _).
  destruct v as [[ns key] [ty x] sens [r|]];
    cbn [v_TypedExpression v_ProtectedRef te_Expression te_Type v_Name v_Sensitive] in *.
  - destruct Hc as [Hr ->]. unfold Variable_UnmarshalJSON, var_tree, decodeExpressionJSON.
    assert (ProtectedRef_UnmarshalJSON (ref_tree r) = Ok (ProtectedRef_Normalize r)) as Hread.
    { destruct (normalize_fields r Hr) as (Ep & Ek & El & Hval & Hnorm).
      unfold ProtectedRef_UnmarshalJSON, decodeProtectedRefJSON, ref_tree, omit_string, omit. rewrite El. cbn.
      rewrite <- Hnorm at 4. destruct (ProtectedRef_Normalize r) as [p' k' l'] eqn:E. cbn in *.
      by rewrite Hval, Hnorm. }
    assert (∃ kvs, ref_tree r = JObject kvs) as [kvs Ekvs] by (unfold ref_tree; eauto).
    cbn [v_ProtectedRef v_TypedExpression te_Type v_Name]. rewrite Ekvs in *.
    cbn -[is_empty expressionType Type_String Variable_Validate ProtectedRef_UnmarshalJSON canon_variable].
    rewrite Hread. cbn -[is_empty expressionType Type_String Variable_Validate canon_variable].
    rewrite Hn. cbn -[expressionType Type_String Variable_Validate canon_variable]. rewrite Hk.
    cbn -[Variable_Validate canon_variable]. unfold canon_variable. cbn -[Variable_Validate].
    rewrite orb_true_r. done.
  - unfold Variable_UnmarshalJSON, var_tree, decodeExpressionJSON.
    assert (decodeExpressionValue TypedExpression_UnmarshalJSON ty (expr_tree x) = Ok (canon_expr x)) as Hread.
    { apply decode_tree_value; [done..|]. apply Forall_forall. intros c Hin.
      destruct (parts_definition _ _ Hc Hs) as [Hpv Hps]. rewrite Forall_forall in Hpv, Hps.
      apply unmarshal_tree; [by apply Hpv|by apply Hps|lia]. }
    cbn [v_ProtectedRef v_TypedExpression te_Type te_Expression v_Name v_Sensitive].
    unfold omit_bool, omit. destruct sens;
    cbn -[is_empty expressionType Type_String Variable_Validate canon_variable expr_tree decodeExpressionValue];
    rewrite Hn; cbn -[expressionType Type_String Variable_Validate canon_variable expr_tree decodeExpressionValue];
    rewrite Hk; cbn -[Variable_Validate canon_variable expr_tree decodeExpressionValue]; rewrite Hread;
    cbn -[Variable_Validate canon_variable]; unfold canon_variable; cbn -[Variable_Validate canon]; by destruct x.
Qed.

Lemma canon_variable_stable v :
  Variable_Validate v = Ok tt → storable_variable v = true →
  Variable_Validate (canon_variable v) = Ok tt ∧ storable_variable (canon_variable v) = true ∧
  var_tree (canon_variable v) = var_tree v.
Proof.
  intros Hv Hs. pose proof (variable_cases v Hv) as (Hn & Ht & Hc).
  unfold storable_variable in *. rewrite !andb_true_iff in Hs. destruct Hs as (((Hns & Hk) & Hs) & Hr).
  destruct v as [name [ty x] sens [r|]]; unfold canon_variable, Variable_Validate in *;
    cbn [v_TypedExpression v_ProtectedRef te_Expression te_Type v_Name v_Sensitive fmap option_fmap option_map] in *;
    rewrite Hn in *; cbn [mbind result_bind] in *.
  - destruct Hc as [Hv' ->]. destruct (normalize_fields r Hv') as (Ep & Ek & El & Hval & Hnorm).
    rewrite Hval. split; [cbn [canon te_Expression te_Type mbind result_bind fail_if]; by rewrite Ht|]. rewrite !andb_true_iff in Hr. destruct Hr as ((? & ?) & ?). split.
    + rewrite Hns, Hk, Ep, Ek, normalize_label_utf8 by done. cbn [canon]. rewrite Hs. cbn [andb].
      by rewrite !andb_true_iff.
    + unfold var_tree, ref_tree. cbn -[ProtectedRef_Normalize]. by rewrite Hnorm.
  - destruct (canon_stable _ Hc Hs) as (H1 & H2 & H3). split; [done|].
    rewrite Hns, Hk, H2. split; [done|]. rewrite bool_decide_eq_false_2 by (by intros [? ?]). rewrite orb_false_r.
    change (canon (mkTE ty x)) with (mkTE ty (canon_expr x)) in H3. rewrite !tree_expr in H3.
    unfold var_tree. cbn [v_TypedExpression v_ProtectedRef te_Expression te_Type v_Name v_Sensitive].
    change (canon (mkTE ty x)) with (mkTE ty (canon_expr x)). cbn [te_Expression te_Type].
    assert (expr_tree (canon_expr x) = expr_tree x) as -> by congruence. done.
Qed.

(** A valid variable whose texts are UTF-8 and whose definition nests within the
    decoder's limit is written as JSON, reads back as the variable in the form its
    text records (fields in order, integers as numbers, the default label filled
    in), and this form is valid and written with the same text. *)
Theorem variable_roundtrip v :
  Variable_Validate v = Ok tt → storable_variable v = true →
  (2 + nesting (v_TypedExpression v) ≤ maxNestingDepth)%N →
  ∃ text, Variable_Marshal v = Ok text ∧ Variable_Unmarshal text = Ok (canon_variable v) ∧
    Variable_Validate (canon_variable v) = Ok tt ∧ Variable_Marshal (canon_variable v) = Ok text.
Proof.
  intros Hv Hs Hd. destruct (canon_variable_stable v Hv Hs) as (Hv' & Hs' & Htree).
  destruct (var_tree_wf v Hv Hs) as (Hw & Hi & Hdepth).
  exists (print (var_tree v)). unfold Variable_Marshal, Variable_Unmarshal, json_document.
  rewrite !marshal_variable, Htree by done. split; [done|]. split; [|done].
  rewrite decode_print by (done || lia). cbn [mbind result_bind].
  rewrite unmarshal_variable by done. by rewrite Hv'.
Qed.

Definition demo_variable : Var :=
  mkVar (mkName "workflow" "limits")
    (mkTE TypeObject (EObject [("years", mkTE TypeList (EList [mkTE TypeInt (EInt 2026); mkTE TypeString (EString "${year}")]));
                               ("region", mkTE TypeString (EString "north <west>"))])) false None.
Definition demo_secret : Var :=
  mkVar (mkName "workflow" "token") (mkTE TypeString ENil) false (Some (mkProtected "worker_env" "TOKEN" "")).

Lemma variable_roundtrip_witness :
  (∃ text, Variable_Marshal demo_variable = Ok text ∧
     Variable_Unmarshal text = Ok (canon_variable demo_variable) ∧
     Variable_Validate (canon_variable demo_variable) = Ok tt ∧
     Variable_Marshal (canon_variable demo_variable) = Ok text) ∧
  ∃ text, Variable_Marshal demo_secret = Ok text ∧
     Variable_Unmarshal text = Ok (canon_variable demo_secret) ∧
     Variable_Validate (canon_variable demo_secret) = Ok tt ∧
     Variable_Marshal (canon_variable demo_secret) = Ok text.
Proof.
  split; apply variable_roundtrip; vm_compute; congruence.
Defined.

(** A variable of type list that is a whole reference is a valid definition and is
    written, but its text is refused by the reader. *)
Example whole_reference_is_not_read_back :
  let v := mkVar (mkName "workflow" "years") (mkTE TypeList (EString "${project.years}")) false None in
  Variable_Validate v = Ok tt ∧ is_Ok (Variable_Marshal v) = true ∧
  (text ← Variable_Marshal v; Variable_Unmarshal text) = Err (Wrapf "decode list expression" json_mismatch).
Proof. by vm_compute. Qed.
