(* ===== verification/SubmissionContext.v ===== *)
(** * The stored context of a run

    ([cmd/controller/main.go], [internal/model/workflow_dependency.go])

    A run keeps, as one JSON text, where its sources came from, its variables and,
    once its workflow failed, the dependency plan with the failure.  The structs
    with their [json] tags, and [json.Marshal] and [json.Unmarshal] of them. *)

From S2P Require Import Prelude GoTime GoJson GoStrings GoJsonLaws.
From S2P Require Import GoSha256 Fingerprint GoJsonStruct Variables Expression VariableCodec.
From S2P Require Import StoreData Dependency.
From S2P Require Import StepOutputs OutputText VariableLaws.
Local Open Scope Z_scope.

(** ** Dependency plans *)

Definition workflow_state_text (state : WorkflowState) : string :=
  match state with
  | WorkflowStateRunning => "running" | WorkflowStateCompleted => "completed"
  | WorkflowStateFailed => "failed" | WorkflowStateUnsupported s => s
  end.
Definition stage_state_text (state : WorkflowStageState) : string :=
  match state with
  | WorkflowStageStateBlocked => "blocked" | WorkflowStageStateReady => "ready"
  | WorkflowStageStateActive => "active" | WorkflowStageStateCompleted => "completed"
  | WorkflowStageStateFailed => "failed" | WorkflowStageStateUnsupported s => s
  end.

(** The state a Go string is. *)
Definition state_named {A} (text : A → string) (known : list A) (other : string → A) (s : string) : A :=
  match List.find (λ a, String.eqb (text a) s) known with Some a => a | None => other s end.
Definition workflow_state_of : string → WorkflowState :=
  state_named workflow_state_text [WorkflowStateRunning; WorkflowStateCompleted; WorkflowStateFailed]
    WorkflowStateUnsupported.
Definition stage_state_of : string → WorkflowStageState :=
  state_named stage_state_text
    [WorkflowStageStateBlocked; WorkflowStageStateReady; WorkflowStageStateActive;
     WorkflowStageStateCompleted; WorkflowStageStateFailed] WorkflowStageStateUnsupported.
Definition step_state_of : string → WorkflowStepState :=
  state_named step_state_text
    [WorkflowStepStateBlocked; WorkflowStepStateReady; WorkflowStepStateActive;
     WorkflowStepStateCompleted; WorkflowStepStateFailed] WorkflowStepStateUnsupported.
Definition item_state_of : string → WorkItemMembershipState :=
  state_named item_state_text
    [WorkItemMembershipStateQueued; WorkItemMembershipStateRunning; WorkItemMembershipStateCompleted;
     WorkItemMembershipStateFailed; WorkItemMembershipStateSkipped] WorkItemMembershipStateUnsupported.

Definition encode_membership (m : WorkflowDependencyWorkItemMembership) : JSON :=
  JObject (field "work_item_id" (JString (mi_WorkItemID m)) ++
    field "work_item_index" (JInt (mi_WorkItemIndex m)) ++
    field "state" (JString (item_state_text (mi_State m))) ++
    omit_string "failure_reason" (mi_FailureReason m) ++
    omit_string "output_json" (mi_OutputJSON m) ++
    omit_string "output_json_sha256" (mi_OutputJSONSHA256 m) ++
    omit_int "output_json_bytes" (mi_OutputJSONBytes m) ++
    omit_bool "output_json_pruned" (mi_OutputJSONPruned m)).
Definition encode_step (s : WorkflowDependencyStep) : JSON :=
  JObject (field "stage_index" (JInt (sp_StageIndex s)) ++
    field "step_index" (JInt (sp_StepIndex s)) ++
    field "step_id" (JString (sp_StepID s)) ++
    field "state" (JString (step_state_text (sp_State s))) ++
    omit_string "failure_reason" (sp_FailureReason s) ++
    omit_string "output_json" (sp_OutputJSON s) ++
    omit_string "output_json_sha256" (sp_OutputJSONSHA256 s) ++
    omit_int "output_json_bytes" (sp_OutputJSONBytes s) ++
    omit_bool "output_json_pruned" (sp_OutputJSONPruned s) ++
    field "work_items" (JArray (encode_membership <$> sp_WorkItems s))).
Definition encode_stage (g : WorkflowDependencyStage) : JSON :=
  JObject (field "stage_index" (JInt (sg_StageIndex g)) ++
    field "state" (JString (stage_state_text (sg_State g))) ++
    omit_string "failure_reason" (sg_FailureReason g) ++
    field "parallel_with" (JString (sg_ParallelWith g)) ++
    field "steps" (JArray (encode_step <$> sg_Steps g))).
Definition encode_plan (p : WorkflowDependencyPlan) : JSON :=
  JObject (field "run_id" (JString (pl_RunID p)) ++
    field "workflow_id" (JString (pl_WorkflowID p)) ++
    field "state" (JString (workflow_state_text (pl_State p))) ++
    omit_string "failure_reason" (pl_FailureReason p) ++
    field "stages" (JArray (encode_stage <$> pl_Stages p))).

Definition membership_fields : Struct WorkflowDependencyWorkItemMembership :=
  [("work_item_id", into_string (λ s m, mkMembership s (mi_WorkItemIndex m) (mi_State m)
      (mi_FailureReason m) (mi_OutputJSON m) (mi_OutputJSONSHA256 m) (mi_OutputJSONBytes m) (mi_OutputJSONPruned m)));
   ("work_item_index", into_int (λ z m, set_mi_Identity (mi_WorkItemID m) z m));
   ("state", into_string (λ s m, set_mi_State (item_state_of s) m));
   ("failure_reason", into_string (λ s m, set_mi_Failure (mi_State m) s m));
   ("output_json", into_string (λ s m,
      set_mi_Output s (mi_OutputJSONSHA256 m) (mi_OutputJSONBytes m) (mi_OutputJSONPruned m) m));
   ("output_json_sha256", into_string (λ s m,
      set_mi_Output (mi_OutputJSON m) s (mi_OutputJSONBytes m) (mi_OutputJSONPruned m) m));
   ("output_json_bytes", into_int (λ z m,
      set_mi_Output (mi_OutputJSON m) (mi_OutputJSONSHA256 m) z (mi_OutputJSONPruned m) m));
   ("output_json_pruned", into_bool (λ b m,
      set_mi_Output (mi_OutputJSON m) (mi_OutputJSONSHA256 m) (mi_OutputJSONBytes m) b m))].
Definition decode_membership : JSON → result WorkflowDependencyWorkItemMembership :=
  decode_struct false membership_fields
    (mkMembership "" 0 (WorkItemMembershipStateUnsupported "") "" "" "" 0 false).

Definition step_fields : Struct WorkflowDependencyStep :=
  [("stage_index", into_int (λ z s, mkStep z (sp_StepIndex s) (sp_StepID s) (sp_State s)
      (sp_FailureReason s) (sp_OutputJSON s) (sp_OutputJSONSHA256 s) (sp_OutputJSONBytes s)
      (sp_OutputJSONPruned s) (sp_WorkItems s)));
   ("step_index", into_int (λ z s, mkStep (sp_StageIndex s) z (sp_StepID s) (sp_State s)
      (sp_FailureReason s) (sp_OutputJSON s) (sp_OutputJSONSHA256 s) (sp_OutputJSONBytes s)
      (sp_OutputJSONPruned s) (sp_WorkItems s)));
   ("step_id", into_string (λ id s, mkStep (sp_StageIndex s) (sp_StepIndex s) id (sp_State s)
      (sp_FailureReason s) (sp_OutputJSON s) (sp_OutputJSONSHA256 s) (sp_OutputJSONBytes s)
      (sp_OutputJSONPruned s) (sp_WorkItems s)));
   ("state", into_string (λ st s, set_sp_State (step_state_of st) s));
   ("failure_reason", into_string (λ r s, set_sp_Failure (sp_State s) r s));
   ("output_json", into_string (λ j s,
      set_sp_Output j (sp_OutputJSONSHA256 s) (sp_OutputJSONBytes s) (sp_OutputJSONPruned s) s));
   ("output_json_sha256", into_string (λ h s,
      set_sp_Output (sp_OutputJSON s) h (sp_OutputJSONBytes s) (sp_OutputJSONPruned s) s));
   ("output_json_bytes", into_int (λ z s,
      set_sp_Output (sp_OutputJSON s) (sp_OutputJSONSHA256 s) z (sp_OutputJSONPruned s) s));
   ("output_json_pruned", into_bool (λ b s,
      set_sp_Output (sp_OutputJSON s) (sp_OutputJSONSHA256 s) (sp_OutputJSONBytes s) b s));
   ("work_items", into_list decode_membership set_sp_WorkItems)].
Definition decode_step : JSON → result WorkflowDependencyStep :=
  decode_struct false step_fields (mkStep 0 0 "" (WorkflowStepStateUnsupported "") "" "" "" 0 false []).

Definition stage_fields : Struct WorkflowDependencyStage :=
  [("stage_index", into_int (λ z g, mkDepStage z (sg_State g) (sg_FailureReason g) (sg_ParallelWith g) (sg_Steps g)));
   ("state", into_string (λ s g, set_sg_State (stage_state_of s) g));
   ("failure_reason", into_string (λ r g, set_sg_Failure (sg_State g) r g));
   ("parallel_with", into_string (λ w g,
      mkDepStage (sg_StageIndex g) (sg_State g) (sg_FailureReason g) w (sg_Steps g)));
   ("steps", into_list decode_step set_sg_Steps)].
Definition decode_stage : JSON → result WorkflowDependencyStage :=
  decode_struct false stage_fields (mkDepStage 0 (WorkflowStageStateUnsupported "") "" "" []).

Definition plan_fields : Struct WorkflowDependencyPlan :=
  [("run_id", into_string (λ s p, mkPlan s (pl_WorkflowID p) (pl_State p) (pl_FailureReason p) (pl_Stages p)));
   ("workflow_id", into_string (λ s p, mkPlan (pl_RunID p) s (pl_State p) (pl_FailureReason p) (pl_Stages p)));
   ("state", into_string (λ s p, set_pl_State (workflow_state_of s) p));
   ("failure_reason", into_string (λ r p, set_pl_Failure (pl_State p) r p));
   ("stages", into_list decode_stage set_pl_Stages)].
Definition decode_plan : JSON → result WorkflowDependencyPlan :=
  decode_struct false plan_fields (mkPlan "" "" (WorkflowStateUnsupported "") "" []).

(** ** The context *)

Record workflowRunSourceIdentity := mkIdentity {
  so_RepositoryIdentity : string; so_RequestedRef : string; so_ProvenanceWarning : string }.
Record workflowRunSourceAdmissionFile := mkAdmissionFile {
  af_Role : string; af_SourcePath : string; af_CachePath : string; af_SourceObjectID : string;
  af_SHA256 : string }.
(** A nil slice is [None]: it is written as [null]. *)
Record workflowRunSourceAdmissionContext := mkAdmission {
  ad_Schema : string; ad_ManifestRef : string; ad_Source : workflowRunSourceIdentity;
  ad_SourceRevisionID : option string; ad_Files : option (list workflowRunSourceAdmissionFile) }.
Record workflowRunSubmissionContext := mkContext {
  cx_Schema : string; cx_SourceAdmission : workflowRunSourceAdmissionContext;
  cx_Variables : option (list Var); cx_DependencyState : option WorkflowDependencyPlan }.

Definition set_cx_DependencyState (p : option WorkflowDependencyPlan) (c : workflowRunSubmissionContext) :=
  mkContext (cx_Schema c) (cx_SourceAdmission c) (cx_Variables c) p.

Definition or_null {A} (enc : A → JSON) (v : option A) : JSON :=
  match v with Some a => enc a | None => JNull end.

Definition encode_identity (s : workflowRunSourceIdentity) : JSON :=
  JObject (field "repository_identity" (JString (so_RepositoryIdentity s)) ++
    omit_string "requested_ref" (so_RequestedRef s) ++
    omit_string "provenance_warning" (so_ProvenanceWarning s)).
Definition encode_admission_file (f : workflowRunSourceAdmissionFile) : JSON :=
  JObject (field "role" (JString (af_Role f)) ++
    field "source_path" (JString (af_SourcePath f)) ++
    omit_string "cache_path" (af_CachePath f) ++
    omit_string "source_object_id" (af_SourceObjectID f) ++
    omit_string "sha256" (af_SHA256 f)).
Definition encode_admission (a : workflowRunSourceAdmissionContext) : JSON :=
  JObject (field "schema" (JString (ad_Schema a)) ++
    field "manifest_ref" (JString (ad_ManifestRef a)) ++
    field "source" (encode_identity (ad_Source a)) ++
    field "source_revision_id" (or_null JString (ad_SourceRevisionID a)) ++
    field "files" (or_null (λ l, JArray (encode_admission_file <$> l)) (ad_Files a))).

Definition encode_context (c : workflowRunSubmissionContext) : result JSON :=
  variables ← (match cx_Variables c with
               | None => Ok JNull
               | Some l => JArray <$> traverse_items (λ _ v, Variable_MarshalJSON v) 0 l
               end);
  Ok (JObject (field "schema" (JString (cx_Schema c)) ++
    field "source_admission" (encode_admission (cx_SourceAdmission c)) ++
    field "variables" variables ++
    match cx_DependencyState c with
    | Some p => field "dependency_state" (encode_plan p)
    | None => []
    end)).

(** A slice that keeps nil apart from empty, and a pointer to a string. *)
Definition into_slice {A R} (item : JSON → result A) (set : option (list A) → R → R) : Setter R := λ v r,
  match v with
  | JNull => Ok (set None r)
  | JArray vs => l ← traverse_items (λ _ x, item x) 0 vs; Ok (set (Some l) r)
  | _ => Err json_mismatch
  end.
Definition string_value (v : JSON) : result string :=
  match v with JString s => Ok s | _ => Err json_mismatch end.

Definition identity_fields : Struct workflowRunSourceIdentity :=
  [("repository_identity", into_string (λ s r, mkIdentity s (so_RequestedRef r) (so_ProvenanceWarning r)));
   ("requested_ref", into_string (λ s r, mkIdentity (so_RepositoryIdentity r) s (so_ProvenanceWarning r)));
   ("provenance_warning", into_string (λ s r, mkIdentity (so_RepositoryIdentity r) (so_RequestedRef r) s))].
Definition admission_file_fields : Struct workflowRunSourceAdmissionFile :=
  [("role", into_string (λ s f, mkAdmissionFile s (af_SourcePath f) (af_CachePath f) (af_SourceObjectID f) (af_SHA256 f)));
   ("source_path", into_string (λ s f, mkAdmissionFile (af_Role f) s (af_CachePath f) (af_SourceObjectID f) (af_SHA256 f)));
   ("cache_path", into_string (λ s f, mkAdmissionFile (af_Role f) (af_SourcePath f) s (af_SourceObjectID f) (af_SHA256 f)));
   ("source_object_id", into_string (λ s f, mkAdmissionFile (af_Role f) (af_SourcePath f) (af_CachePath f) s (af_SHA256 f)));
   ("sha256", into_string (λ s f, mkAdmissionFile (af_Role f) (af_SourcePath f) (af_CachePath f) (af_SourceObjectID f) s))].
Definition decode_admission_file : JSON → result workflowRunSourceAdmissionFile :=
  decode_struct false admission_file_fields (mkAdmissionFile "" "" "" "" "").
Definition admission_fields : Struct workflowRunSourceAdmissionContext :=
  [("schema", into_string (λ s a, mkAdmission s (ad_ManifestRef a) (ad_Source a) (ad_SourceRevisionID a) (ad_Files a)));
   ("manifest_ref", into_string (λ s a, mkAdmission (ad_Schema a) s (ad_Source a) (ad_SourceRevisionID a) (ad_Files a)));
   ("source", into_struct false identity_fields ad_Source (λ i a,
      mkAdmission (ad_Schema a) (ad_ManifestRef a) i (ad_SourceRevisionID a) (ad_Files a)));
   ("source_revision_id", into_pointer string_value (λ s a,
      mkAdmission (ad_Schema a) (ad_ManifestRef a) (ad_Source a) s (ad_Files a)));
   ("files", into_slice decode_admission_file (λ l a,
      mkAdmission (ad_Schema a) (ad_ManifestRef a) (ad_Source a) (ad_SourceRevisionID a) l))].
Definition context_fields : Struct workflowRunSubmissionContext :=
  [("schema", into_string (λ s c, mkContext s (cx_SourceAdmission c) (cx_Variables c) (cx_DependencyState c)));
   ("source_admission", into_struct false admission_fields cx_SourceAdmission (λ a c,
      mkContext (cx_Schema c) a (cx_Variables c) (cx_DependencyState c)));
   ("variables", into_slice Variable_UnmarshalJSON (λ l c,
      mkContext (cx_Schema c) (cx_SourceAdmission c) l (cx_DependencyState c)));
   ("dependency_state", into_pointer decode_plan set_cx_DependencyState)].
Definition zero_context : workflowRunSubmissionContext :=
  mkContext "" (mkAdmission "" "" (mkIdentity "" "" "") None None) None None.

(** [json.Unmarshal] and [json.Marshal] of the context. *)
Definition Unmarshal_context (text : string) : result workflowRunSubmissionContext :=
  data ← json_document text; decode_struct false context_fields zero_context data.
Definition Marshal_context (c : workflowRunSubmissionContext) : result string := print <$> encode_context c.

Definition legacyWorkflowDependencyPlan (submissionContextJSON : string) : option WorkflowDependencyPlan :=
  match Unmarshal_context submissionContextJSON with
  | Err _ => None
  | Ok context =>
      match cx_DependencyState context with
      | None => None
      | Some p => match validateDependencyPlan p with Ok _ => Some p | Err _ => None end
      end
  end.

Definition safeWorkflowRunSubmissionVariables (variables : list Var) : result (list Var) :=
  foldM (λ safe item,
    fail_if (v_Sensitive item && bool_decide (v_ProtectedRef item = None))
      (Errorf ("submission variable " +:+ Name_String (v_Name item) +:+
               " is sensitive plaintext; use protected_ref"));;
    Variable_Validate item;;
    Ok (safe ++ [item])) [] variables.

(** * The stored context of a run reads back *)
Local Open Scope Z_scope.

(** ** Texts that JSON keeps

    JSON keeps strings that are UTF-8, 64-bit integers and the states of the model. *)

Definition int_ok (z : Z) : bool := bool_decide (int64 z).
Definition membership_storable (m : WorkflowDependencyWorkItemMembership) : bool :=
  valid_utf8 (mi_WorkItemID m) && int_ok (mi_WorkItemIndex m) &&
  is_Ok (WorkItemMembershipState_Validate (mi_State m)) && valid_utf8 (mi_FailureReason m) &&
  valid_utf8 (mi_OutputJSON m) && valid_utf8 (mi_OutputJSONSHA256 m) && int_ok (mi_OutputJSONBytes m).
Definition step_storable (s : WorkflowDependencyStep) : bool :=
  int_ok (sp_StageIndex s) && int_ok (sp_StepIndex s) && valid_utf8 (sp_StepID s) &&
  is_Ok (WorkflowStepState_Validate (sp_State s)) && valid_utf8 (sp_FailureReason s) &&
  valid_utf8 (sp_OutputJSON s) && valid_utf8 (sp_OutputJSONSHA256 s) && int_ok (sp_OutputJSONBytes s) &&
  forallb membership_storable (sp_WorkItems s).
Definition stage_storable (g : WorkflowDependencyStage) : bool :=
  int_ok (sg_StageIndex g) && is_Ok (WorkflowStageState_Validate (sg_State g)) &&
  valid_utf8 (sg_FailureReason g) && valid_utf8 (sg_ParallelWith g) && forallb step_storable (sg_Steps g).
Definition plan_storable (p : WorkflowDependencyPlan) : bool :=
  valid_utf8 (pl_RunID p) && valid_utf8 (pl_WorkflowID p) && is_Ok (WorkflowState_Validate (pl_State p)) &&
  valid_utf8 (pl_FailureReason p) && forallb stage_storable (pl_Stages p).

Ltac split_storable H := rewrite ?andb_true_iff in H; destruct_and? H; unfold int_ok in *; rewrite ?bool_decide_eq_true in *.

Lemma item_state_reads st :
  is_Ok (WorkItemMembershipState_Validate st) = true → item_state_of (item_state_text st) = st.
Proof. by destruct st. Qed.
Lemma step_state_reads st : is_Ok (WorkflowStepState_Validate st) = true → step_state_of (step_state_text st) = st.
Proof. by destruct st. Qed.
Lemma stage_state_reads st : is_Ok (WorkflowStageState_Validate st) = true → stage_state_of (stage_state_text st) = st.
Proof. by destruct st. Qed.
Lemma workflow_state_reads st : is_Ok (WorkflowState_Validate st) = true → workflow_state_of (workflow_state_text st) = st.
Proof. by destruct st. Qed.

(** A field is written, or omitted at its zero value. *)
Lemma is_empty_cases s : (is_empty s = true ∧ s = "") ∨ is_empty s = false.
Proof. unfold is_empty. case_bool_decide; auto. Qed.
Lemma is_zero_cases z : ((z =? 0) = true ∧ z = 0) ∨ (z =? 0) = false.
Proof. destruct (Z.eqb_spec z 0); auto. Qed.

Ltac omitted :=
  unfold omit_string, omit_int, omit_bool, omit, JInt in *;
  repeat match goal with
  | |- context [is_empty ?s] => destruct (is_empty_cases s) as [[-> ->]| ->]
  | |- context [?z =? 0] => destruct (is_zero_cases z) as [[-> ->]| ->]
  | |- context [negb ?b] => is_var b; destruct b
  end.

Lemma membership_reads m : membership_storable m = true → decode_membership (encode_membership m) = Ok m.
Proof.
  intros H. unfold membership_storable in H. split_storable H. destruct m as [id ix st fr oj sha size pr]; cbn in *.
  unfold encode_membership; cbn [mi_WorkItemID mi_WorkItemIndex mi_State mi_FailureReason mi_OutputJSON mi_OutputJSONSHA256 mi_OutputJSONBytes mi_OutputJSONPruned].
  omitted; cbn -[Atoi pretty item_state_of item_state_text]; rewrite ?Atoi_pretty by done;
    cbn -[Atoi pretty item_state_of item_state_text]; by rewrite item_state_reads.
Qed.

Lemma encoded_items_read {A} (ok : A → bool) (dec : JSON → result A) enc l :
  (∀ a, ok a = true → dec (enc a) = Ok a) → forallb ok l = true →
  traverse_items (λ _ x, dec x) 0 (enc <$> l) = Ok l.
Proof.
  intros Hr H. apply traverse_items_roundtrip. rewrite forallb_forall in H. apply Forall_forall.
  intros a Ha. apply Hr, H. by apply list_elem_of_In.
Qed.

Lemma step_reads s : step_storable s = true → decode_step (encode_step s) = Ok s.
Proof.
  intros H. unfold step_storable in H. split_storable H.
  destruct s as [sg ix id st fr oj sha size pr items]; cbn -[forallb] in *.
  pose proof (encoded_items_read _ _ _ _ membership_reads ltac:(eassumption)) as Hitems.
  unfold encode_step; cbn [sp_StageIndex sp_StepIndex sp_StepID sp_State sp_FailureReason sp_OutputJSON
    sp_OutputJSONSHA256 sp_OutputJSONBytes sp_OutputJSONPruned sp_WorkItems].
  omitted; cbn -[Atoi pretty step_state_of step_state_text traverse_items decode_membership fmap];
    repeat (rewrite Atoi_pretty by done; cbn -[Atoi pretty step_state_of step_state_text traverse_items decode_membership fmap]);
    rewrite Hitems; cbn -[step_state_of step_state_text]; by rewrite step_state_reads.
Qed.

Lemma stage_reads g : stage_storable g = true → decode_stage (encode_stage g) = Ok g.
Proof.
  intros H. unfold stage_storable in H. split_storable H.
  destruct g as [ix st fr pw steps]; cbn -[forallb] in *.
  pose proof (encoded_items_read _ _ _ _ step_reads ltac:(eassumption)) as Hitems.
  unfold encode_stage; cbn [sg_StageIndex sg_State sg_FailureReason sg_ParallelWith sg_Steps].
  omitted; cbn -[Atoi pretty stage_state_of stage_state_text traverse_items decode_step fmap];
    rewrite Atoi_pretty by done; cbn -[stage_state_of stage_state_text traverse_items decode_step fmap];
    rewrite Hitems; cbn -[stage_state_of stage_state_text]; by rewrite stage_state_reads.
Qed.

Lemma plan_reads p : plan_storable p = true → decode_plan (encode_plan p) = Ok p.
Proof.
  intros H. unfold plan_storable in H. split_storable H.
  destruct p as [run wf st fr stages]; cbn -[forallb] in *.
  pose proof (encoded_items_read _ _ _ _ stage_reads ltac:(eassumption)) as Hitems.
  unfold encode_plan; cbn [pl_RunID pl_WorkflowID pl_State pl_FailureReason pl_Stages].
  omitted; cbn -[workflow_state_of workflow_state_text traverse_items decode_stage fmap];
    rewrite Hitems; cbn -[workflow_state_of workflow_state_text]; by rewrite workflow_state_reads.
Qed.

(** ** The trees are well formed and shallow *)

Definition tree_ok (depth : N) (v : JSON) : Prop :=
  json_wf v = true ∧ integers_only v = true ∧ (json_depth v ≤ depth)%N.

Lemma array_ok {A} (ok : A → bool) enc depth l :
  (∀ a, ok a = true → tree_ok depth (enc a)) → forallb ok l = true →
  tree_ok (1 + depth) (JArray (enc <$> l)).
Proof.
  intros Hok H. unfold tree_ok. rewrite json_wf_items, integers_items, depth_array_le, !Forall_fmap.
  rewrite forallb_forall in H. setoid_rewrite <- list_elem_of_In in H. split_and!.
  all: apply Forall_forall; intros a Ha; by destruct (Hok a (H a Ha)) as (? & ? & ?).
Qed.

Lemma object_ok depth fields :
  NoDup fields.*1 → Forall (λ f, valid_utf8 f.1 = true ∧ tree_ok depth f.2) fields →
  tree_ok (1 + depth) (JObject fields).
Proof.
  intros Hn H. unfold tree_ok. rewrite json_wf_fields, integers_fields, depth_object_le. split_and!; [done|..].
  all: eapply Forall_impl; [exact H|]; by intros f (? & ? & ? & ?).
Qed.

Lemma string_ok depth s : valid_utf8 s = true → tree_ok depth (JString s).
Proof. intros Hs. split; [done|]. split; [done|]. cbn. lia. Qed.
Lemma int_tree_ok depth z : tree_ok depth (JInt z).
Proof. split; [done|]. split; [apply pretty_Z_canonical|]. cbn. lia. Qed.
Lemma bool_ok depth b : tree_ok depth (JBool b).
Proof. split; [done|]. split; [done|]. cbn. lia. Qed.
Lemma tree_ok_le d d' v : tree_ok d v → (d ≤ d')%N → tree_ok d' v.
Proof. intros (? & ? & ?) Hd. split_and!; [done..|]. lia. Qed.
#[local] Hint Resolve string_ok int_tree_ok bool_ok : core.

(** An object with literal keys, some of them omitted. *)
Ltac object_tree :=
  apply object_ok; cbn [app fmap list_fmap fst field];
  [by apply (bool_decide_unpack _); vm_compute
  |repeat (apply Forall_cons; split); try apply Forall_nil_2; (split; [reflexivity|]); cbn [snd]; auto].
Ltac omitted_tree :=
  unfold omit_string, omit_int, omit_bool, omit;
  repeat match goal with
  | |- context [is_empty ?s] => destruct (is_empty s)
  | |- context [?z =? 0] => destruct (z =? 0)
  | |- context [negb ?b] => destruct b; cbn [negb]
  end.

Lemma state_texts_utf8 :
  (∀ st, is_Ok (WorkItemMembershipState_Validate st) = true → valid_utf8 (item_state_text st) = true) ∧
  (∀ st, is_Ok (WorkflowStepState_Validate st) = true → valid_utf8 (step_state_text st) = true) ∧
  (∀ st, is_Ok (WorkflowStageState_Validate st) = true → valid_utf8 (stage_state_text st) = true) ∧
  (∀ st, is_Ok (WorkflowState_Validate st) = true → valid_utf8 (workflow_state_text st) = true).
Proof. split_and!; by intros []. Qed.

Lemma membership_ok m : membership_storable m = true → tree_ok 1 (encode_membership m).
Proof.
  intros H. unfold membership_storable in H. split_storable H.
  pose proof (proj1 state_texts_utf8 (mi_State m) ltac:(assumption)).
  unfold encode_membership. change 1%N with (1 + 0)%N. omitted_tree; object_tree.
Qed.

Lemma step_ok_tree s : step_storable s = true → tree_ok 3 (encode_step s).
Proof.
  intros H. unfold step_storable in H. split_storable H.
  pose proof (proj1 (proj2 state_texts_utf8) (sp_State s) ltac:(assumption)).
  pose proof (array_ok _ _ _ _ membership_ok ltac:(eassumption)) as Hitems.
  unfold encode_step. change 3%N with (1 + (1 + 1))%N. omitted_tree; object_tree.
Qed.
Lemma stage_ok_tree g : stage_storable g = true → tree_ok 5 (encode_stage g).
Proof.
  intros H. unfold stage_storable in H. split_storable H.
  pose proof (proj1 (proj2 (proj2 state_texts_utf8)) (sg_State g) ltac:(assumption)).
  pose proof (array_ok _ _ _ _ step_ok_tree ltac:(eassumption)) as Hitems.
  unfold encode_stage. change 5%N with (1 + (1 + 3))%N. omitted_tree; object_tree.
Qed.
Lemma plan_ok_tree p : plan_storable p = true → tree_ok 7 (encode_plan p).
Proof.
  intros H. unfold plan_storable in H. split_storable H.
  pose proof (proj2 (proj2 (proj2 state_texts_utf8)) (pl_State p) ltac:(assumption)).
  pose proof (array_ok _ _ _ _ stage_ok_tree ltac:(eassumption)) as Hitems.
  unfold encode_plan. change 7%N with (1 + (1 + 5))%N. omitted_tree; object_tree.
Qed.

(** ** The context *)

Definition identity_storable (s : workflowRunSourceIdentity) : bool :=
  valid_utf8 (so_RepositoryIdentity s) && valid_utf8 (so_RequestedRef s) && valid_utf8 (so_ProvenanceWarning s).
Definition file_storable (f : workflowRunSourceAdmissionFile) : bool :=
  valid_utf8 (af_Role f) && valid_utf8 (af_SourcePath f) && valid_utf8 (af_CachePath f) &&
  valid_utf8 (af_SourceObjectID f) && valid_utf8 (af_SHA256 f).
Definition admission_storable (a : workflowRunSourceAdmissionContext) : bool :=
  valid_utf8 (ad_Schema a) && valid_utf8 (ad_ManifestRef a) && identity_storable (ad_Source a) &&
  valid_utf8 (default "" (ad_SourceRevisionID a)) && forallb file_storable (default [] (ad_Files a)).
(** A valid variable that JSON keeps, nested within the decoder's limit. *)
Definition kept_variable (v : Var) : bool :=
  is_Ok (Variable_Validate v) && storable_variable v &&
  (4 + nesting (v_TypedExpression v) <=? maxNestingDepth)%N.
Definition context_storable (c : workflowRunSubmissionContext) : bool :=
  valid_utf8 (cx_Schema c) && admission_storable (cx_SourceAdmission c) &&
  forallb kept_variable (default [] (cx_Variables c)) &&
  match cx_DependencyState c with Some p => plan_storable p | None => true end.

(** What the text records of a context. *)
Definition canon_context (c : workflowRunSubmissionContext) : workflowRunSubmissionContext :=
  mkContext (cx_Schema c) (cx_SourceAdmission c) ((λ l : list Var, canon_variable <$> l) <$> cx_Variables c) (cx_DependencyState c).

Lemma file_reads f : file_storable f = true →
  decode_admission_file (encode_admission_file f) = Ok f.
Proof.
  intros _. destruct f as [role sp cp so sha]. unfold encode_admission_file.
  cbn [af_Role af_SourcePath af_CachePath af_SourceObjectID af_SHA256]. omitted; done.
Qed.

Lemma admission_reads a : admission_storable a = true →
  decode_struct false admission_fields (cx_SourceAdmission zero_context) (encode_admission a) = Ok a.
Proof.
  intros H. unfold admission_storable in H. split_storable H.
  destruct a as [schema manifest [repo ref warning] rev files]. cbn -[forallb] in *.
  unfold encode_admission, encode_identity.
  cbn [ad_Schema ad_ManifestRef ad_Source ad_SourceRevisionID ad_Files so_RepositoryIdentity so_RequestedRef so_ProvenanceWarning].
  destruct files as [files|]; cbn [or_null default] in *.
  - pose proof (encoded_items_read _ _ _ _ file_reads ltac:(eassumption)) as Hitems.
    change (id files) with files in Hitems.
    omitted; destruct rev as [rev|]; cbn -[traverse_items fmap decode_admission_file]; rewrite Hitems; done.
  - omitted; by destruct rev.
Qed.

Lemma admission_ok a : admission_storable a = true → tree_ok 3 (encode_admission a).
Proof.
  intros H. unfold admission_storable in H. split_storable H.
  assert (tree_ok 2 (encode_identity (ad_Source a))) as Hsource.
  { match goal with H : identity_storable _ = true |- _ => unfold identity_storable in H; split_storable H end.
    unfold encode_identity. change 2%N with (1 + 1)%N. omitted_tree; object_tree. }
  assert (∀ f, file_storable f = true → tree_ok 1 (encode_admission_file f)) as Hfile.
  { intros f Hf. unfold file_storable in Hf. split_storable Hf.
    unfold encode_admission_file. change 1%N with (1 + 0)%N. omitted_tree; object_tree. }
  unfold encode_admission. change 3%N with (1 + 2)%N. object_tree.
  - destruct (ad_SourceRevisionID a); [by apply string_ok|by split; [|split]].
  - destruct (ad_Files a) as [files|]; [|by split; [|split]].
    change 2%N with (1 + 1)%N. by apply (array_ok file_storable).
Qed.

Lemma kept_variable_ok v :
  kept_variable v = true →
  Variable_MarshalJSON v = Ok (var_tree v) ∧ Variable_UnmarshalJSON (var_tree v) = Ok (canon_variable v) ∧
  tree_ok (maxNestingDepth - 2) (var_tree v).
Proof.
  intros H. unfold kept_variable in H. rewrite !andb_true_iff in H. destruct H as ((Hv & Hs) & Hd%N.leb_le).
  destruct (Variable_Validate v) as [[]|] eqn:Ev; [|done]. split; [by apply marshal_variable|].
  rewrite unmarshal_variable by done. destruct (canon_variable_stable v Ev Hs) as (Hv' & _).
  rewrite Hv'. split; [done|]. destruct (var_tree_wf v Ev Hs) as (? & ? & ?). split_and!; [done..|]. lia.
Qed.

Lemma kept_variables_read l :
  forallb kept_variable l = true →
  traverse_items (λ _ v, Variable_MarshalJSON v) 0 l = Ok (var_tree <$> l) ∧
  traverse_items (λ _ x, Variable_UnmarshalJSON x) 0 (var_tree <$> l) = Ok (canon_variable <$> l) ∧
  tree_ok (maxNestingDepth - 1) (JArray (var_tree <$> l)).
Proof.
  intros H. pose proof H as HF. rewrite forallb_forall in HF. setoid_rewrite <- list_elem_of_In in HF. split_and!.
  - apply traverse_items_pure, Forall_forall. intros v Hv. by apply kept_variable_ok, HF.
  - clear H. assert (Forall (λ v, kept_variable v = true) l) as Hl by (by apply Forall_forall). clear HF. generalize 0%nat.
    induction Hl as [|v l Hv _ IH]; intros n; [done|]. rewrite !fmap_cons. cbn [traverse_items].
    destruct (kept_variable_ok v Hv) as (_ & -> & _). by rewrite IH.
  - replace (maxNestingDepth - 1)%N with (1 + (maxNestingDepth - 2))%N by done.
    apply (array_ok kept_variable); [|done]. intros v Hv. by apply kept_variable_ok.
Qed.

Lemma context_reads c :
  context_storable c = true →
  ∃ text, Marshal_context c = Ok text ∧ Unmarshal_context text = Ok (canon_context c).
Proof.
  intros H. unfold context_storable in H. rewrite !andb_true_iff in H.
  destruct H as (((Hschema & Hadm) & Hvars) & Hplan).
  pose proof (admission_reads _ Hadm) as Hread. pose proof (admission_ok _ Hadm) as Hok.
  assert (∃ vars, (match cx_Variables c with
                   | None => Ok JNull
                   | Some l => JArray <$> traverse_items (λ _ v, Variable_MarshalJSON v) 0 l
                   end) = Ok vars ∧ tree_ok (maxNestingDepth - 1) vars ∧
            ∀ r, into_slice Variable_UnmarshalJSON (λ l c, mkContext (cx_Schema c) (cx_SourceAdmission c) l (cx_DependencyState c)) vars r
                 = Ok (mkContext (cx_Schema r) (cx_SourceAdmission r) (cx_Variables (canon_context c)) (cx_DependencyState r)))
    as (vars & Hm & Hvok & Hvr).
  { destruct (cx_Variables c) as [l|] eqn:El; cbn [default] in Hvars.
    - destruct (kept_variables_read l Hvars) as (H1 & H2 & H3). exists (JArray (var_tree <$> l)).
      rewrite H1. split; [done|]. split; [done|]. intros r. unfold into_slice. rewrite H2.
      unfold canon_context. by rewrite El.
    - exists JNull. split; [done|]. split; [by split; [|split]|]. intros r. unfold canon_context. by rewrite El. }
  unfold Marshal_context, encode_context. rewrite Hm. eexists. split; [reflexivity|].
  assert (tree_ok (1 + (maxNestingDepth - 1)) (JObject (
     field "schema" (JString (cx_Schema c)) ++ field "source_admission" (encode_admission (cx_SourceAdmission c)) ++
     field "variables" vars ++
     match cx_DependencyState c with Some p => field "dependency_state" (encode_plan p) | None => [] end)))
    as (Hw & Hi & Hd).
  { destruct (cx_DependencyState c) as [p|]; object_tree;
      (eapply tree_ok_le; [eassumption || by apply plan_ok_tree|done]). }
  unfold Unmarshal_context, json_document. rewrite decode_print by done.
  cbn [mbind result_bind decode_struct]. unfold decode_fields.
  destruct (cx_DependencyState c) as [p|] eqn:Ep.
  - pose proof (plan_reads p Hplan) as Hp.
    assert (∃ ps, encode_plan p = JObject ps) as [ps Eps] by (by eexists). rewrite Eps in *.
    cbn -[into_slice into_struct decode_struct decode_plan]. unfold into_struct at 1.
    cbn [cx_SourceAdmission zero_context] in Hread. cbn [cx_SourceAdmission]. rewrite Hread.
    cbn -[into_slice decode_plan]. rewrite Hvr. cbn -[decode_plan]. rewrite Hp.
    unfold canon_context. by rewrite Ep.
  - cbn -[into_slice into_struct decode_struct decode_plan]. unfold into_struct at 1.
    cbn [cx_SourceAdmission zero_context] in Hread. cbn [cx_SourceAdmission]. rewrite Hread.
    cbn -[into_slice decode_plan]. rewrite Hvr. unfold canon_context. by rewrite Ep.
Qed.

(** The context of a run whose texts are UTF-8 is written as JSON and reads back
    with every part intact, variables in their recorded form; a dependency plan in
    it that is valid is the plan the controller recovers. *)
Theorem submission_context_roundtrip c :
  context_storable c = true →
  ∃ text, Marshal_context c = Ok text ∧ Unmarshal_context text = Ok (canon_context c) ∧
    ∀ p, cx_DependencyState c = Some p → validateDependencyPlan p = Ok tt →
      legacyWorkflowDependencyPlan text = Some p.
Proof.
  intros H. destruct (context_reads c H) as (text & Hm & Hu). exists text. split_and!; [done..|].
  intros p Hp Hv. unfold legacyWorkflowDependencyPlan. rewrite Hu. cbn [cx_DependencyState canon_context].
  by rewrite Hp, Hv.
Qed.

Definition demo_context : workflowRunSubmissionContext :=
  mkContext "goet/workflow-run-submission-context/v1"
    (mkAdmission "s" "cache/m.json" (mkIdentity "github.com/x/y" "main" "") (Some "abc")
       (Some [mkAdmissionFile "project" "project.json" "" "" "00"]))
    (Some [demo_variable; demo_secret])
    (Some (mkPlan "run" "wf" WorkflowStateFailed "disk full" [
       mkDepStage 0 WorkflowStageStateFailed "disk full" "" [
         mkStep 0 0 "extract" WorkflowStepStateFailed "disk full" "" "" 0 false [
           mkMembership "run:item" 0 WorkItemMembershipStateFailed "disk full" "" "" 0 false]]])).

Lemma submission_context_roundtrip_witness :
  ∃ text, Marshal_context demo_context = Ok text ∧ Unmarshal_context text = Ok (canon_context demo_context) ∧
    ∀ p, cx_DependencyState demo_context = Some p → validateDependencyPlan p = Ok tt →
      legacyWorkflowDependencyPlan text = Some p.
Proof. apply submission_context_roundtrip. by vm_compute. Defined.
