(* ===== verification/Stages.v ===== *)
(** * Stages of a workflow ([internal/workflow/stage.go])

    [NormalizeStages] groups the steps of a workflow: a step without a
    [parallel_with] label is a stage of its own, consecutive steps with one label
    share a stage.  What a step does (its fan-out) is the type [FanOut]: the
    grouping does not look at it. *)

From S2P Require Import Prelude GoTime GoJson GoStrings Variables.
Local Open Scope Z_scope.

Section stages.
Context {FanOut : Type}.

Record Step := mkWorkflowStep { step_ID : string; step_FanOut : option FanOut; step_ParallelWith : string }.
Record Workflow := mkWorkflowDef { workflow_ID : string; workflow_Variables : list Var; workflow_Steps : list Step }.
Record WorkflowStageStep := mkStageStep {
  wss_StageIndex : Z; wss_StepIndex : Z; wss_StepID : string; wss_Step : Step }.
Record WorkflowStage := mkWorkflowStage {
  wst_Index : Z; wst_ParallelWith : string; wst_Steps : list WorkflowStageStep }.
Record WorkflowPlan := mkWorkflowPlan {
  wp_WorkflowID : string; wp_StepCount : Z; wp_Stages : list WorkflowStage }.

Definition with_label (label : string) (s : Step) : Step := mkWorkflowStep (step_ID s) (step_FanOut s) label.

(** The variables of the loop. *)
Record grouping := mkGrouping {
  gr_seenStepID : gset string; gr_closedParallelWith : gset string; gr_Stages : list WorkflowStage;
  gr_currentStage : Z; gr_currentLabel : string }.

(** [closedParallelWith[currentLabel] = true], unless there is no label. *)
Definition close_label (label : string) (closed : gset string) : gset string :=
  if is_empty label then closed else {[label]} ∪ closed.

(** A new stage with this step. *)
Definition open_stage (index : Z) (step : Step) (label : string) (stages : list WorkflowStage) :
    list WorkflowStage :=
  let current := Z.of_nat (length stages) in
  stages ++ [mkWorkflowStage current label
               [mkStageStep current index (step_ID step) (with_label label step)]].
(** The step joins the current stage. *)
Definition join_stage (current index : Z) (step : Step) (label : string) (stages : list WorkflowStage) :
    list WorkflowStage :=
  alter (λ g, mkWorkflowStage (wst_Index g) label
                (wst_Steps g ++ [mkStageStep current index (step_ID step) (with_label label step)]))
    (Z.to_nat current) stages.

Definition normalize_step (st : grouping) (istep : Z * Step) : result grouping :=
  let '(index, step) := istep in
  let '(mkGrouping seen closed stages current currentLabel) := st in
  let normalizedLabel := TrimSpace (step_ParallelWith step) in
  fail_if (bool_decide (step_ID step ∈ seen)) (Errorf ("duplicate workflow step id: " +:+ step_ID step));;
  let seen := {[step_ID step]} ∪ seen in
  if is_empty normalizedLabel then
    Ok (mkGrouping seen (close_label currentLabel closed) (open_stage index step "" stages)
          (Z.of_nat (length stages)) "")
  else
    fail_if (bool_decide (normalizedLabel ∈ closed))
      (Errorf ("workflow parallel_with label reused after close: " +:+ normalizedLabel));;
    if bool_decide (normalizedLabel = currentLabel) && (0 <=? current) then
      Ok (mkGrouping seen closed (join_stage current index step normalizedLabel stages) current currentLabel)
    else
      Ok (mkGrouping seen
            (if negb (bool_decide (currentLabel = normalizedLabel)) then close_label currentLabel closed else closed)
            (open_stage index step normalizedLabel stages)
            (Z.of_nat (length stages)) normalizedLabel).

Fixpoint enumerate {A} (index : Z) (l : list A) : list (Z * A) :=
  match l with [] => [] | a :: l' => (index, a) :: enumerate (index + 1) l' end.

Definition NormalizeStages (workflow : Workflow) : result WorkflowPlan :=
  fail_if (bool_decide (length (workflow_Steps workflow) = 0%nat)) (Errorf "workflow has no steps");;
  final ← foldM normalize_step (mkGrouping ∅ ∅ [] (-1) "") (enumerate 0 (workflow_Steps workflow));
  Ok (mkWorkflowPlan (workflow_ID workflow) (Z.of_nat (length (workflow_Steps workflow))) (gr_Stages final)).

(** ** What the stages are *)

Definition label (s : Step) : string := TrimSpace (step_ParallelWith s).
Definition stage_label (g : WorkflowStage) : string := wst_ParallelWith g.

(** The step that a plan holds for a step at an index of the workflow. *)
Definition planned (istep : Z * Step) : Z * string * Step :=
  (istep.1, step_ID istep.2, with_label (label istep.2) istep.2).
Definition stage_steps (stages : list WorkflowStage) : list WorkflowStageStep := stages ≫= wst_Steps.
Definition planned_step (s : WorkflowStageStep) : Z * string * Step := (wss_StepIndex s, wss_StepID s, wss_Step s).

(** A stage at its position: an unlabelled step alone, or steps of one label. *)
Definition stage_shape (i : nat) (g : WorkflowStage) : Prop :=
  wst_Index g = Z.of_nat i ∧ wst_Steps g ≠ [] ∧
  Forall (λ s, wss_StageIndex s = wst_Index g ∧ step_ParallelWith (wss_Step s) = stage_label g) (wst_Steps g) ∧
  (stage_label g = "" → length (wst_Steps g) = 1%nat).

Record stages_of (steps : list Step) (stages : list WorkflowStage) : Prop := {
  so_in_order : planned_step <$> stage_steps stages = planned <$> enumerate 0 steps;
  so_shape : ∀ i g, stages !! i = Some g → stage_shape i g;
  so_labels : ∀ i j g h, stages !! i = Some g → stages !! j = Some h →
    stage_label g = stage_label h → stage_label g ≠ "" → i = j }.

(** A step may follow the steps before it: its id is new, and its label, if it has
    one, is the label of the step just before it or of no step before it. *)
Definition may_follow (pre : list Step) (s : Step) : Prop :=
  step_ID s ∉ step_ID <$> pre ∧
  (label s = "" ∨ (label <$> last pre) = Some (label s) ∨ label s ∉ label <$> pre).
Definition groupable (steps : list Step) : Prop :=
  steps ≠ [] ∧ ∀ pre s post, steps = pre ++ s :: post → may_follow pre s.
End stages.
Arguments Step : clear implicits.
Arguments Workflow : clear implicits.
Arguments WorkflowStage : clear implicits.
Arguments WorkflowStageStep : clear implicits.
Arguments WorkflowPlan : clear implicits.

(** * The stages of a workflow are its steps, grouped *)
Local Open Scope Z_scope.

Section laws.
Context {FanOut : Type}.
Implicit Types (s : Step FanOut) (pre steps : list (Step FanOut)) (g : WorkflowStage FanOut).
Implicit Types (stages : list (WorkflowStage FanOut)) (st : @grouping FanOut).

Lemma enumerate_app {A} (l k : list A) i :
  enumerate i (l ++ k) = enumerate i l ++ enumerate (i + Z.of_nat (length l)) k.
Proof.
  revert i. induction l as [|a l IH]; intros i; cbn [app enumerate length].
  - by replace (i + Z.of_nat 0) with i by lia.
  - rewrite IH. do 2 f_equal. f_equal. lia.
Qed.

(** The steps of stages after one more step. *)
Lemma stage_steps_app stages stages' :
  stage_steps (stages ++ stages') = stage_steps stages ++ stage_steps stages'.
Proof. apply bind_app. Qed.

Record norm_inv (pre : list (Step FanOut)) (st : grouping) : Prop := {
  ni_seen : ∀ id, id ∈ gr_seenStepID st ↔ id ∈ step_ID <$> pre;
  ni_stages : stages_of pre (gr_Stages st);
  ni_current : gr_currentStage st = Z.of_nat (length (gr_Stages st)) - 1;
  ni_last : label <$> last pre = stage_label <$> last (gr_Stages st);
  ni_label : gr_currentLabel st = default "" (stage_label <$> last (gr_Stages st));
  ni_labels : ∀ l, l ≠ "" → l ∈ label <$> pre ↔ l ∈ stage_label <$> gr_Stages st;
  ni_closed : ∀ l, l ∈ gr_closedParallelWith st ↔
    l ≠ "" ∧ l ∈ stage_label <$> gr_Stages st ∧ l ≠ gr_currentLabel st }.

Lemma norm_inv_init : norm_inv [] (mkGrouping ∅ ∅ [] (-1) "").
Proof.
  split; (done || set_solver).
Qed.

(** A stage is opened for the next step. *)
Lemma open_stage_of pre stages s :
  stages_of pre stages →
  (label s = "" ∨ label s ∉ stage_label <$> stages) →
  stages_of (pre ++ [s]) (open_stage (Z.of_nat (length pre)) s (label s) stages).
Proof.
  intros [Ho Hs Hl] Hnew. unfold open_stage. split.
  - rewrite stage_steps_app, fmap_app, Ho, enumerate_app, fmap_app. f_equal.
  - intros i g Hi. destruct (decide (i < length stages)%nat).
    + rewrite lookup_app_l in Hi by done. by apply Hs.
    + rewrite lookup_app_r in Hi by lia. apply list_lookup_singleton_Some in Hi as [Hi <-].
      split; [cbn; lia|]. split; [done|]. split; [|done]. by apply Forall_singleton.
  - assert (∀ j h, stages !! j = Some h → stage_label h = label s → label s ≠ "" → False) as Hfresh.
    { intros j h Hj Hlab Hne. destruct Hnew as [?|Hnew]; [done|]. apply Hnew. rewrite <- Hlab.
      apply list_elem_of_fmap. exists h. split; [done|]. by eapply list_elem_of_lookup_2. }
    intros i j g h Hi Hj He Hne. apply lookup_app_Some in Hi, Hj.
    destruct Hi as [Hi|[Hi1 Hi]], Hj as [Hj|[Hj1 Hj]].
    + by eapply Hl.
    + apply list_lookup_singleton_Some in Hj as [_ <-]. cbn in He. exfalso. eapply Hfresh; [done|done|congruence].
    + apply list_lookup_singleton_Some in Hi as [_ <-]. cbn in He, Hne. exfalso. eapply Hfresh; [done|congruence|done].
    + apply list_lookup_singleton_Some in Hi as [Hi _], Hj as [Hj _]. lia.
Qed.

(** The next step joins the last stage, which has its label. *)
Lemma join_stage_of pre stages s :
  stages_of pre stages → label s ≠ "" → stage_label <$> last stages = Some (label s) →
  stages_of (pre ++ [s]) (join_stage (Z.of_nat (length stages) - 1) (Z.of_nat (length pre)) s (label s) stages) ∧
  stage_label <$> join_stage (Z.of_nat (length stages) - 1) (Z.of_nat (length pre)) s (label s) stages
    = stage_label <$> stages.
Proof.
  intros [Ho Hs Hl] Hne Hlast. destruct stages as [|g stages' _] using rev_ind; [done|].
  rewrite last_snoc in Hlast. injection Hlast as Hlast. unfold join_stage. rewrite length_app. cbn [length].
  replace (Z.to_nat (Z.of_nat (length stages' + 1) - 1)) with (length stages' + 0)%nat by lia.
  rewrite alter_app_r. cbn [alter list_alter]. 
  set (g' := mkWorkflowStage _ _ _).
  assert (stage_label g' = stage_label g) as Hg' by done.
  assert (∀ i h, (stages' ++ [g']) !! i = Some h → ∃ h', (stages' ++ [g]) !! i = Some h' ∧ stage_label h' = stage_label h) as Hsame.
  { intros i h Hi. apply lookup_app_Some in Hi as [Hi|[Hi1 Hi]].
    - exists h. by rewrite lookup_app_l by (by eapply lookup_lt_Some).
    - apply list_lookup_singleton_Some in Hi as [Hi <-]. exists g. rewrite lookup_app_r by lia. by rewrite Hi. }
  split; [split|].
  - rewrite stage_steps_app, fmap_app, enumerate_app, fmap_app, <- Ho, stage_steps_app, fmap_app, <- app_assoc. f_equal.
    unfold stage_steps. cbn [mbind list_bind]. rewrite !app_nil_r. cbn [wst_Steps g']. by rewrite fmap_app.
  - intros i h Hi. apply lookup_app_Some in Hi as [Hi|[Hi1 Hi]].
    + apply Hs. by rewrite lookup_app_l by (by eapply lookup_lt_Some).
    + apply list_lookup_singleton_Some in Hi as [Hi <-].
      destruct (Hs i g) as (H1 & H2 & H3 & H4). { rewrite lookup_app_r by lia. by rewrite Hi. }
      split; [done|]. split; [cbn; by destruct (wst_Steps g)|]. split; [|intros; cbn in *; congruence].
      cbn [wst_Steps g' wst_Index]. apply Forall_app. split.
      * eapply Forall_impl; [exact H3|]. intros x [? ?]. cbn. split; congruence.
      * apply Forall_singleton. cbn. split; [|done]. rewrite H1. lia.
  - intros i j h1 h2 Hi Hj He Hn. apply Hsame in Hi as (h1' & Hi & E1). apply Hsame in Hj as (h2' & Hj & E2).
    eapply Hl; [done|done|congruence|congruence].
  - rewrite !fmap_app, !fmap_cons. by rewrite Hg'.
Qed.

Lemma elem_of_closed label closed l :
  l ∈ close_label label closed ↔ (l = label ∧ label ≠ "") ∨ l ∈ closed.
Proof.
  unfold close_label, is_empty. case_bool_decide; [naive_solver|].
  rewrite elem_of_union, elem_of_singleton. naive_solver.
Qed.

Lemma last_label_elem stages l : stage_label <$> last stages = Some l → l ∈ stage_label <$> stages.
Proof.
  destruct (last stages) as [g|] eqn:E; [|done]. intros [= <-]. apply list_elem_of_fmap_2.
  apply last_Some in E as [stages' ->]. set_solver.
Qed.

(** Opening a stage for the next step keeps the invariant. *)
Lemma open_inv pre st s closed' :
  norm_inv pre st → step_ID s ∉ step_ID <$> pre →
  (label s = "" ∨ label s ∉ stage_label <$> gr_Stages st) →
  (∀ l, l ∈ closed' ↔ (l = gr_currentLabel st ∧ l ≠ "") ∨ l ∈ gr_closedParallelWith st) →
  norm_inv (pre ++ [s])
    (mkGrouping ({[step_ID s]} ∪ gr_seenStepID st) closed'
       (open_stage (Z.of_nat (length pre)) s (label s) (gr_Stages st))
       (Z.of_nat (length (gr_Stages st))) (label s)).
Proof.
  intros [Hseen Hst Hcur Hlast Hlab Hlabs Hclosed] Hid Hnew Hc.
  split; cbn [gr_seenStepID gr_Stages gr_currentStage gr_currentLabel gr_closedParallelWith].
  - intros id. rewrite fmap_app, elem_of_union, elem_of_app, Hseen. set_solver.
  - by apply open_stage_of.
  - unfold open_stage. rewrite length_app. cbn. lia.
  - unfold open_stage. by rewrite !last_snoc.
  - unfold open_stage. by rewrite last_snoc.
  - intros l Hl. unfold open_stage. rewrite !fmap_app, !elem_of_app, Hlabs by done. done.
  - intros l. rewrite Hc, Hclosed. unfold open_stage. rewrite fmap_app, elem_of_app.
    cbn [fmap list_fmap]. rewrite list_elem_of_singleton. cbn [stage_label wst_ParallelWith].
    rewrite Hlab. destruct (stage_label <$> last (gr_Stages st)) as [l'|] eqn:El.
    + apply last_label_elem in El as Hin. cbn [default]. unfold id. split.
      * intros [[-> Hne]|(H1 & H2 & H3)]; (split; [done|]); (split; [by left|]);
          intros ->; destruct Hnew; done.
      * intros (H1 & [H2| ->] & H3); [|done]. destruct (decide (l = l')); [by left|by right].
    + cbn [default]. destruct (gr_Stages st) as [|x stages _] using rev_ind; [|by rewrite last_snoc in El].
      split; [|set_solver]. intros [[-> ?]|(_ & H & _)]; [done|set_solver].
Qed.

Lemma join_inv pre st s :
  norm_inv pre st → step_ID s ∉ step_ID <$> pre → label s ≠ "" → label s = gr_currentLabel st →
  norm_inv (pre ++ [s])
    (mkGrouping ({[step_ID s]} ∪ gr_seenStepID st) (gr_closedParallelWith st)
       (join_stage (gr_currentStage st) (Z.of_nat (length pre)) s (label s) (gr_Stages st))
       (gr_currentStage st) (gr_currentLabel st)).
Proof.
  intros [Hseen Hst Hcur Hlast Hlab Hlabs Hclosed] Hid Hne Heq.
  assert (stage_label <$> last (gr_Stages st) = Some (label s)) as Hl.
  { rewrite Hlab in Heq. destruct (last (gr_Stages st)); cbn in *; [congruence|done]. }
  destruct (join_stage_of pre _ s Hst Hne Hl) as [Hj Hsame]. rewrite Hcur.
  assert (∀ stages stages', stage_label <$> stages = stage_label <$> stages' →
            stage_label <$> last stages = stage_label <$> last stages') as Hlasts.
  { intros l1 l2 E. by rewrite <- !fmap_last, E. }
  split; cbn [gr_seenStepID gr_Stages gr_currentStage gr_currentLabel gr_closedParallelWith].
  - intros id. rewrite fmap_app, elem_of_union, elem_of_app, Hseen. set_solver.
  - done.
  - unfold join_stage. by rewrite length_alter.
  - rewrite last_snoc, (Hlasts _ _ Hsame). cbn. by rewrite Hl.
  - by rewrite (Hlasts _ _ Hsame).
  - intros l Hln. rewrite Hsame, fmap_app, elem_of_app, Hlabs by done.
    split; [|by left]. intros [?|H]; [done|]. cbn in H. apply list_elem_of_singleton in H as ->.
    by apply last_label_elem.
  - intros l. by rewrite Hsame, Hclosed.
Qed.

(** One step is accepted exactly when it may follow the steps before it. *)
Lemma normalize_step_spec pre st s :
  norm_inv pre st →
  match normalize_step st (Z.of_nat (length pre), s) with
  | Ok st' => may_follow pre s ∧ norm_inv (pre ++ [s]) st'
  | Err _ => ¬ may_follow pre s
  end.
Proof.
  intros Hinv. pose proof Hinv as [Hseen Hst Hcur Hlast Hlab Hlabs Hclosed].
  unfold normalize_step. destruct st as [seen closed stages current cur]. cbn in Hseen, Hcur, Hlast, Hlab, Hlabs, Hclosed.
  destruct (decide (step_ID s ∈ seen)) as [Hid|Hid];
    [rewrite (bool_decide_eq_true_2 _ Hid)|rewrite (bool_decide_eq_false_2 _ Hid)]; cbn [fail_if mbind result_bind].
  { intros [Hn _]. by apply Hn, Hseen. }
  rewrite Hseen in Hid. fold (label s). unfold is_empty.
  destruct (decide (label s = "")) as [He|He]; [rewrite (bool_decide_eq_true_2 _ He)|rewrite (bool_decide_eq_false_2 _ He)].
  { split; [by split; [|left]|]. rewrite <- He. apply (open_inv pre (mkGrouping seen closed stages current cur)); auto.
    intros l. cbn. rewrite elem_of_closed. naive_solver. }
  destruct (decide (label s ∈ closed)) as [Hcl|Hcl];
    [rewrite (bool_decide_eq_true_2 _ Hcl)|rewrite (bool_decide_eq_false_2 _ Hcl)]; cbn [fail_if mbind result_bind].
  { intros [_ [?|[Hl|Hn]]]; [done| |].
    - apply Hclosed in Hcl as (_ & _ & Hne). apply Hne. rewrite Hlab, <- Hlast, Hl. done.
    - apply Hn, Hlabs; [done|]. by apply Hclosed in Hcl as (_ & ? & _). }
  case_bool_decide as Heq; cbn [andb].
  - assert ((0 <=? current) = true) as Hpos.
    { destruct stages; [cbn in Hlab; congruence|]. cbn in Hcur. apply Z.leb_le. lia. }
    rewrite Hpos. split.
    + split; [done|]. right. left. rewrite Hlast. rewrite Hlab in Heq.
      destruct (last stages); cbn in *; congruence.
    + by apply (join_inv pre (mkGrouping seen closed stages current cur)).
  - assert (label s ∉ stage_label <$> stages) as Hnew.
    { intros Hin. apply Hcl, Hclosed. done. }
    split; [split; [done|right; right]; by rewrite Hlabs|].
    rewrite bool_decide_eq_false_2 by congruence. cbn [negb].
    apply (open_inv pre (mkGrouping seen closed stages current cur)); auto.
    intros l. cbn. rewrite elem_of_closed. naive_solver.
Qed.

(** The loop accepts the remaining steps exactly when each may follow. *)
Lemma normalize_loop pre st steps :
  norm_inv pre st →
  match foldM normalize_step st (enumerate (Z.of_nat (length pre)) steps) with
  | Ok st' => (∀ mid s post, steps = mid ++ s :: post → may_follow (pre ++ mid) s) ∧ norm_inv (pre ++ steps) st'
  | Err _ => ¬ ∀ mid s post, steps = mid ++ s :: post → may_follow (pre ++ mid) s
  end.
Proof.
  revert pre st. induction steps as [|s steps IH]; intros pre st Hinv.
  { cbn. split; [|by rewrite app_nil_r]. by intros [|]. }
  cbn [enumerate]. rewrite foldM_cons. pose proof (normalize_step_spec pre st s Hinv) as Hstep.
  destruct (normalize_step st _) as [st1|e]; cbn [mbind result_bind].
  - destruct Hstep as [Hmay Hinv1]. specialize (IH _ _ Hinv1). rewrite length_app in IH. cbn [length] in IH.
    replace (Z.of_nat (length pre + 1)) with (Z.of_nat (length pre) + 1) in IH by lia.
    destruct (foldM _ st1 _) as [st2|e].
    + destruct IH as [Hall Hinv2]. rewrite <- app_assoc in Hinv2. split; [|done].
      intros [|x mid] t post [= -> Heq]; [by rewrite app_nil_r|].
      specialize (Hall mid t post Heq). by rewrite <- app_assoc in Hall.
    + intros Hall. apply IH. intros mid t post ->. rewrite <- app_assoc. by apply (Hall (s :: mid) t post).
  - intros Hall. apply Hstep. specialize (Hall [] s steps eq_refl). by rewrite app_nil_r in Hall.
Qed.

Lemma NormalizeStages_cases (w : Workflow FanOut) :
  match NormalizeStages w with
  | Ok plan =>
      groupable (workflow_Steps w) ∧ wp_WorkflowID plan = workflow_ID w ∧
      wp_StepCount plan = Z.of_nat (length (workflow_Steps w)) ∧
      stages_of (workflow_Steps w) (wp_Stages plan)
  | Err _ => ¬ groupable (workflow_Steps w)
  end.
Proof.
  unfold NormalizeStages, fail_if, groupable. destruct w as [id vars steps]. cbn [workflow_Steps workflow_ID].
  case_bool_decide as Hlen; cbn [mbind result_bind].
  { intros [Hne _]. by apply Hne, length_zero_iff_nil. }
  pose proof (normalize_loop [] _ steps norm_inv_init) as Hloop. cbn [length Z.of_nat] in Hloop.
  destruct (foldM _ _ _) as [st|e]; cbn [mbind result_bind].
  - destruct Hloop as [Hall Hinv]. split; [|by split; [|split; [|apply Hinv]]].
    split; [by intros ->|]. intros pre s post Heq. by apply (Hall pre s post).
  - intros [_ Hall]. apply Hloop. intros mid s post Heq. by apply (Hall mid s post).
Qed.

(** Grouping a workflow succeeds exactly when it has steps and every step has a
    new id and, if labelled, continues the step before it or starts a new label.
    The stages then hold the steps in order under their indexes, each stage one
    unlabelled step or steps of one label, no label in two stages. *)
Theorem NormalizeStages_exact (w : Workflow FanOut) :
  match NormalizeStages w with
  | Ok plan =>
      groupable (workflow_Steps w) ∧ wp_WorkflowID plan = workflow_ID w ∧
      wp_StepCount plan = Z.of_nat (length (workflow_Steps w)) ∧
      stages_of (workflow_Steps w) (wp_Stages plan)
  | Err _ => ¬ groupable (workflow_Steps w)
  end.
Proof. apply NormalizeStages_cases. Qed.
End laws.

Example normalize_demo :
  let step id l := mkWorkflowStep (FanOut := unit) id None l in
  (λ p, (λ g, (wst_Index g, wst_ParallelWith g, wss_StepID <$> wst_Steps g)) <$> wp_Stages p) <$>
    NormalizeStages (mkWorkflowDef "w" [] [step "a" ""; step "b" " x"; step "c" "x "; step "d" ""])
  = Ok [(0, "", ["a"]); (1, "x", ["b"; "c"]); (2, "", ["d"])].
Proof. vm_compute. reflexivity. Qed.
