(* ===== verification/DependencyStore.v ===== *)
(** * The controller's dependency operations

    ([cmd/controller/workflow_dependency_store.go], [workflow_outputs.go])

    The controller keeps no plan in memory: every operation rebuilds the plan of a
    run from the tables of the durable store ([getWorkflowDependencyState]), changes
    it, and writes back what the tables do not already say: memberships, output
    facts, and, once the workflow failed, the plan itself in the run's context.
    An operation is a function of the controller's state that returns a result and
    the state left behind; an error leaves the effects made before it.

    Parameters: the readings of the clock [now], the database connection [eng], and
    the interface [CollectionOutputs] to the materialised collections. *)

From S2P Require Import Prelude GoTime GoJson GoStrings GoJsonLaws.
From S2P Require Import GoSha256 Fingerprint GoJsonStruct Variables Expression StepOutputs OutputText.
From S2P Require Import VariableCodec Resource StoreData StoreSQL StoreOps StoreQueries.
From S2P Require Import Dependency SubmissionContext Stages.
Local Open Scope Z_scope.

(** ** Reading a plan *)

(** Maps filled by a loop: a later element hides an earlier one. *)
Definition index_by {A K} `{Countable K} (key : A → K) (l : list A) : gmap K A :=
  foldl (λ m a, <[key a := a]> m) ∅ l.

Definition all_steps_of (p : WorkflowDependencyPlan) : list WorkflowDependencyStep := pl_Stages p ≫= sg_Steps.

Definition deriveDependencyMembership (record : WorkflowDependencyWorkItemRecord)
    (queued : gmap string QueuedWorkRecord) (running : gmap string RunningWorkRecord)
    (terminal : gmap string TerminalAttemptRecord)
    (legacyMemberships : gmap string WorkflowDependencyWorkItemMembership) :
    WorkflowDependencyWorkItemMembership :=
  let id := di_WorkItemID record in
  let membership st reason json sha := mkMembership id (di_WorkItemIndex record) st reason json sha (string_bytes_Z json) false in
  let from_legacy legacy := set_mi_Identity id (di_WorkItemIndex record) legacy in
  match terminal !! id with
  | Some t =>
      match legacyMemberships !! id with
      | Some legacy =>
          if bool_decide (mi_State legacy = WorkItemMembershipStateFailed ∧ ta_TerminalState t ≠ "failed")
          then from_legacy legacy
          else if bool_decide (ta_TerminalState t = "failed")
          then membership WorkItemMembershipStateFailed (ta_Error t) "" ""
          else membership (if is_empty (ta_SkippedParentID t) then WorkItemMembershipStateCompleted
                           else WorkItemMembershipStateSkipped) "" (ta_OutputJSON t) (ta_OutputJSONSHA256 t)
      | None =>
          if bool_decide (ta_TerminalState t = "failed")
          then membership WorkItemMembershipStateFailed (ta_Error t) "" ""
          else membership (if is_empty (ta_SkippedParentID t) then WorkItemMembershipStateCompleted
                           else WorkItemMembershipStateSkipped) "" (ta_OutputJSON t) (ta_OutputJSONSHA256 t)
      end
  | None =>
      match running !! id with
      | Some _ => membership WorkItemMembershipStateRunning "" "" ""
      | None =>
          match queued !! id with
          | Some _ => membership WorkItemMembershipStateQueued "" "" ""
          | None =>
              match legacyMemberships !! id with
              | Some legacy => from_legacy legacy
              | None => membership WorkItemMembershipStateQueued "" "" ""
              end
          end
      end
  end.

Definition applyLegacyStepOutput (legacy s : WorkflowDependencyStep) : WorkflowDependencyStep :=
  set_sp_Failure (sp_State s) (sp_FailureReason legacy)
    (set_sp_Output (sp_OutputJSON legacy) (sp_OutputJSONSHA256 legacy) (sp_OutputJSONBytes legacy)
       (sp_OutputJSONPruned legacy) s).

(** What the tables say of a run, as the maps of [getWorkflowDependencyState]. *)
Record Evidence := mkEvidence {
  ev_queued : gmap string QueuedWorkRecord; ev_running : gmap string RunningWorkRecord;
  ev_terminal : gmap string TerminalAttemptRecord;
  ev_legacySteps : gmap Z WorkflowDependencyStep;
  ev_legacyMemberships : gmap string WorkflowDependencyWorkItemMembership }.

Definition zero_step : WorkflowDependencyStep :=
  mkStep 0 0 "" (WorkflowStepStateUnsupported "") "" "" "" 0 false [].

(** The state of a step that the tables and an earlier stored plan give. *)
Definition legacy_step_state (ev : Evidence) (factFound : bool) (s : WorkflowDependencyStep) : WorkflowDependencyStep :=
  match ev_legacySteps ev !! sp_StepIndex s with
  | Some legacy =>
      if stepHasNoDerivedTerminalEvidence s factFound ||
         (bool_decide (sp_State legacy = WorkflowStepStateFailed) && negb factFound)
      then set_sp_Failure (sp_State legacy) (sp_FailureReason legacy) s else s
  | None => s
  end.

Definition derive_step (ev : Evidence) (r : WorkflowDependencyStepRecord)
    (fact : option WorkflowStepOutputFactRecord) (memberships : list WorkflowDependencyWorkItemRecord) :
    WorkflowDependencyStep :=
  let factFound := bool_decide (is_Some fact) in
  let step := mkStep (ds_StageIndex r) (ds_StepIndex r) (ds_StepID r) WorkflowStepStateBlocked "" "" "" 0 false [] in
  let step := applyLegacyStepOutput (default zero_step (ev_legacySteps ev !! ds_StepIndex r)) step in
  let step := match fact with
              | Some f => set_sp_Output (of_OutputJSON f) (of_OutputJSONSHA256 f) (of_OutputJSONBytes f) (of_OutputJSONPruned f) step
              | None => step
              end in
  let item m :=
    let membership := deriveDependencyMembership m (ev_queued ev) (ev_running ev) (ev_terminal ev) (ev_legacyMemberships ev) in
    if factFound then pruneCompletedMembershipOutput membership else membership in
  let step := set_sp_WorkItems (item <$> memberships) step in
  legacy_step_state ev factFound (set_sp_State (deriveDependencyStepState step factFound) step).

(** The step joins its stage, which is created at its first step. *)
Definition add_step (r : WorkflowDependencyStepRecord) (step : WorkflowDependencyStep)
    (p : WorkflowDependencyPlan) : WorkflowDependencyPlan :=
  let p := if bool_decide (sp_State step = WorkflowStepStateFailed) && negb (is_empty (sp_FailureReason step))
              && is_empty (pl_FailureReason p)
           then set_pl_Failure (pl_State p) (sp_FailureReason step) p else p in
  match findDependencyStage p (ds_StageIndex r) with
  | Some i => update_stage i (λ g, set_sg_Steps (sg_Steps g ++ [step]) g) p
  | None => set_pl_Stages (pl_Stages p ++
              [mkDepStage (ds_StageIndex r) WorkflowStageStateBlocked "" (ds_ParallelWith r) [step]]) p
  end.

Definition read_step (submissionID : string) (ev : Evidence) (s : Store)
    (p : WorkflowDependencyPlan) (r : WorkflowDependencyStepRecord) : result WorkflowDependencyPlan :=
  fact ← GetWorkflowStepOutputFact submissionID (ds_StepIndex r) s;
  memberships ← ListWorkflowDependencyWorkItems submissionID (ds_StageIndex r) (ds_StepIndex r) s;
  Ok (add_step r (derive_step ev r fact memberships) p).

(** States and order of the stages, once all steps are in. *)
Definition derive_stage (earliest : Z) (reason : string) (g : WorkflowDependencyStage) : WorkflowDependencyStage :=
  let g := set_sg_Steps (sortStepsByIndex (sg_Steps g)) g in
  let g := set_sg_State (deriveDependencyStageState g (sg_StageIndex g =? earliest)) g in
  if bool_decide (sg_State g = WorkflowStageStateFailed) && is_empty (sg_FailureReason g) && negb (is_empty reason)
  then set_sg_Failure (sg_State g) reason g else g.
Definition earliest_stage (p : WorkflowDependencyPlan) : Z :=
  match order_by Z.leb (sg_StageIndex <$> pl_Stages p) with i :: _ => i | [] => 0 end.
Definition finish_plan (legacy : option WorkflowDependencyPlan) (p : WorkflowDependencyPlan) : WorkflowDependencyPlan :=
  let earliest := earliest_stage p in
  let p := set_pl_Stages (derive_stage earliest (pl_FailureReason p) <$> sortStagesByIndex (pl_Stages p)) p in
  let p := deriveDependencyWorkflowState p in
  match legacy with
  | Some l =>
      if bool_decide (pl_State l = WorkflowStateFailed ∧ pl_State p ≠ WorkflowStateFailed)
      then set_pl_Failure WorkflowStateFailed (pl_FailureReason l) p else p
  | None => p
  end.

Definition gather_evidence (submissionID : string) (legacy : option WorkflowDependencyPlan) (s : Store) : result Evidence :=
  let steps := match legacy with Some l => all_steps_of l | None => [] end in
  queued ← ListQueuedWorkItems s;
  running ← ListRunningWork s;
  terminal ← ListTerminalAttemptsForRun submissionID s;
  Ok (mkEvidence
    (index_by (λ q, wi_ID (qw_WorkItem q)) (List.filter (λ q, bool_decide (wi_RunID (qw_WorkItem q) = submissionID)) queued))
    (index_by (λ r, wi_ID (rn_WorkItem r)) (List.filter (λ r, bool_decide (wi_RunID (rn_WorkItem r) = submissionID)) running))
    (index_by (λ t, wi_ID (ta_WorkItem t)) terminal)
    (index_by sp_StepIndex steps)
    (index_by mi_WorkItemID (steps ≫= sp_WorkItems))).

Definition getWorkflowDependencyState (submissionID : string) (s : Store) : result (option WorkflowDependencyPlan) :=
  found ← wrap_err ("get workflow run " +:+ submissionID) (GetWorkflowRun submissionID s);
  match found with
  | None => Ok None
  | Some run =>
      steps ← ListWorkflowDependencySteps submissionID s;
      match steps with
      | [] => Ok None
      | _ =>
          let legacy := legacyWorkflowDependencyPlan (run_SubmissionContextJSON run) in
          ev ← gather_evidence submissionID legacy s;
          p ← foldM (read_step submissionID ev s)
                (mkPlan submissionID (run_WorkflowID run) WorkflowStateRunning
                   (match legacy with Some l => pl_FailureReason l | None => "" end) []) steps;
          let p := finish_plan legacy p in
          wrap_err ("invalid reconstructed dependency state for submission " +:+ submissionID)
            (validateDependencyPlan p);;
          Ok (Some p)
      end
  end.

(** ** The controller *)

(** [model.LogObservation] *)
Record LogObservation := mkObservation {
  ob_ObservationID : string; ob_SubmissionID : string; ob_WorkflowID : string; ob_WorkflowName : string;
  ob_RunID : string; ob_StepID : string; ob_StepName : string; ob_WorkItemID : string; ob_AttemptID : string;
  ob_WorkerID : string; ob_Component : string; ob_Stream : string; ob_Level : string; ob_Timestamp : string;
  ob_Sequence : Z; ob_Message : string }.

(** [workflowStore] may be nil; [clock] counts the readings of the clock; [logSink],
    which may be nil, holds the observations written to it (an error of the sink is
    only printed). *)
Record Controller := mkController {
  workflowStore : option Store; clock : nat; logSink : option (list LogObservation) }.

Definition Op (A : Type) : Type := Controller → result A * Controller.
#[export] Instance Op_ret : MRet Op := λ A a c, (Ok a, c).
#[export] Instance Op_bind : MBind Op := λ A B k m c,
  match m c with
  | (Ok a, c') => k a c'
  | (Err e, c') => (Err e, c')
  end.

Definition lift {A} (r : result A) : Op A := λ c, (r, c).
Definition fail {A} (e : GoError) : Op A := lift (Err e).
Definition stop {A} (a : A) : Op A := mret a.
Definition requireStore : Op unit := λ c,
  (fail_if (bool_decide (workflowStore c = None)) (Errorf "workflow store required"), c).
(** Calls of methods of the store; on a nil store they report that it is not open. *)
Definition query_store {A} (q : Store → result A) : Op A := λ c, (q (default None (workflowStore c)), c).
Definition call_store {A} (f : Store → result A * Store) : Op A := λ c,
  match workflowStore c with
  | Some s => let '(r, s') := f s in (r, mkController (Some s') (clock c) (logSink c))
  | None => ((f None).1, c)
  end.
(** [for _, x := range xs { if err := f(x); err != nil { return err } }] *)
Fixpoint for_each_op {A} (f : A → Op unit) (l : list A) : Op unit :=
  match l with
  | [] => stop tt
  | x :: l' => f x;; for_each_op f l'
  end.

Section controller.
Context (now : nat → Time) (eng : Engine).

(** [time.Now().UTC().Format(time.RFC3339Nano)] *)
Definition timestamp_now : Op string := λ c,
  (Ok (format_rfc3339nano (UTC (now (clock c)))), mkController (workflowStore c) (S (clock c)) (logSink c)).

Definition AcceptLogObservation (observation : LogObservation) : Op unit := λ c,
  (Ok tt, mkController (workflowStore c) (clock c) ((λ l, l ++ [observation]) <$> logSink c)).
Definition emitDependencyObservation (submissionID workflowID level message : string) : Op unit :=
  timestamp ← timestamp_now;
  AcceptLogObservation (mkObservation "" submissionID workflowID "" submissionID "" "" "" "" ""
    "controller" "system" level timestamp 0 message).

Definition emit_stage_transition (before after : WorkflowDependencyPlan) (g : WorkflowDependencyStage) : Op unit :=
  let previous := match findDependencyStage before (sg_StageIndex g) with
                  | Some i => sg_State <$> (pl_Stages before !! i)
                  | None => Some (WorkflowStageStateUnsupported "")
                  end in
  if bool_decide (previous = Some (sg_State g)) then stop tt
  else match sg_State g with
       | WorkflowStageStateReady =>
           emitDependencyObservation (pl_RunID after) (pl_WorkflowID after) "info"
             ("activated stage " +:+ pretty (sg_StageIndex g))
       | WorkflowStageStateCompleted =>
           emitDependencyObservation (pl_RunID after) (pl_WorkflowID after) "info"
             ("completed stage " +:+ pretty (sg_StageIndex g))
       | _ => stop tt
       end.
Definition failure_message (after : WorkflowDependencyPlan) : string :=
  let failure := failedDependencyStatus after in
  "failed workflow at stage " +:+ pretty (fl_StageIndex failure)
  +:+ match fl_StepIndex failure with Some i => " step " +:+ pretty i | None => "" end
  +:+ (if is_empty (fl_FailureReason failure) then "" else ": " +:+ fl_FailureReason failure).
Definition emitDependencyTransitions (before after : WorkflowDependencyPlan) : Op unit :=
  for_each_op (emit_stage_transition before after) (pl_Stages after);;
  if bool_decide (pl_State before = pl_State after) then stop tt
  else match pl_State after with
       | WorkflowStateCompleted =>
           emitDependencyObservation (pl_RunID after) (pl_WorkflowID after) "info" "completed workflow"
       | WorkflowStateFailed =>
           emitDependencyObservation (pl_RunID after) (pl_WorkflowID after) "error" (failure_message after)
       | _ => stop tt
       end.

(** The plan of a run ([getWorkflowDependencyState] as a method). *)
Definition read_plan (submissionID : string) : Op (option WorkflowDependencyPlan) :=
  requireStore;; query_store (getWorkflowDependencyState submissionID).

Definition setWorkflowDependencyState (submissionID : string) (p : WorkflowDependencyPlan) : Op unit :=
  lift (validateDependencyPlan p);;
  if negb (bool_decide (pl_State p = WorkflowStateFailed)) then stop tt
  else
    found ← query_store (λ s, wrap_err ("get workflow run " +:+ submissionID) (GetWorkflowRun submissionID s));
    match found with
    | None => fail (Errorf ("workflow run " +:+ submissionID +:+ " not found"))
    | Some run =>
        context ← lift (wrap_err "decode workflow submission context"
                          (Unmarshal_context (run_SubmissionContextJSON run)));
        json ← lift (wrap_err "encode workflow dependency state"
                       (Marshal_context (set_cx_DependencyState (Some p) context)));
        call_store (λ s,
          let '(r, s') := UpdateWorkflowRunSubmissionContext eng submissionID json s in
          (wrap_err "persist workflow dependency state" r, s'))
    end.

Definition workflowStepOutputKindAggregate : string := "aggregate".
Definition workflowStepOutputKindEmptyFanout : string := "empty_fanout".

Definition upsertWorkflowStepOutputFact (runID : string) (s : WorkflowDependencyStep) (outputKind : string) : Op unit :=
  requireStore;;
  lift (fail_if (is_empty (sp_OutputJSONSHA256 s))
          (Errorf ("workflow step " +:+ pretty (sp_StepIndex s) +:+ " output hash is required")));;
  timestamp ← timestamp_now;
  call_store (UpsertWorkflowStepOutputFact eng
    (mkFact runID (sp_StepIndex s) (sp_OutputJSON s) (sp_OutputJSONSHA256 s) (sp_OutputJSONBytes s)
       (sp_OutputJSONPruned s) outputKind timestamp timestamp)).

Definition upsert_pruned_fact (runID : string) (s : WorkflowDependencyStep) : Op unit :=
  if negb (sp_OutputJSONPruned s) || is_empty (sp_OutputJSONSHA256 s) then stop tt
  else
    existing ← query_store (GetWorkflowStepOutputFact runID (sp_StepIndex s));
    upsertWorkflowStepOutputFact runID s
      (match existing with Some f => of_OutputKind f | None => workflowStepOutputKindAggregate end).
Definition upsertTerminalPrunedWorkflowStepOutputFacts (p : WorkflowDependencyPlan) : Op unit :=
  if workflow_terminal p then for_each_op (upsert_pruned_fact (pl_RunID p)) (all_steps_of p) else stop tt.

Definition requireDependencyRunExists (submissionID : string) : Op unit :=
  requireStore;;
  found ← query_store (λ s, wrap_err ("get workflow run " +:+ submissionID) (GetWorkflowRun submissionID s));
  match found with
  | Some _ => stop tt
  | None => fail (Errorf ("workflow run " +:+ submissionID +:+ " not found"))
  end.

(** ** Creating and reading plans *)

(** The variables of the loops of [CreateWorkflowDependencyPlan]. *)
Record creation := mkCreation {
  cr_seenStage : gset Z; cr_seenStep : gset Z; cr_Stages : list WorkflowDependencyStage;
  cr_dependencySteps : list WorkflowDependencyStepRecord }.

Definition create_step {FanOut} (submissionID timestamp parallelWith : string) (stageIndex : Z) (isReady : bool)
    (acc : gset Z * list WorkflowDependencyStep * list WorkflowDependencyStepRecord)
    (stageStep : WorkflowStageStep FanOut) :
    result (gset Z * list WorkflowDependencyStep * list WorkflowDependencyStepRecord) :=
  let '(seenStep, steps, records) := acc in
  fail_if (bool_decide (wss_StageIndex stageStep ≠ stageIndex))
    (Errorf ("step " +:+ wss_StepID stageStep +:+ " has mismatched stage index " +:+ pretty (wss_StageIndex stageStep)));;
  fail_if (wss_StepIndex stageStep <? 0) (Errorf "step index must be non-negative");;
  fail_if (is_empty (wss_StepID stageStep)) (Errorf "step id is required");;
  fail_if (bool_decide (wss_StepIndex stageStep ∈ seenStep))
    (Errorf ("duplicate step index " +:+ pretty (wss_StepIndex stageStep)));;
  Ok ({[wss_StepIndex stageStep]} ∪ seenStep,
      steps ++ [mkStep (wss_StageIndex stageStep) (wss_StepIndex stageStep) (wss_StepID stageStep)
                  (if isReady then WorkflowStepStateReady else WorkflowStepStateBlocked) "" "" "" 0 false []],
      records ++ [mkDepStep submissionID (wss_StageIndex stageStep) (wss_StepIndex stageStep)
                    (wss_StepID stageStep) parallelWith timestamp]).

Definition create_stage {FanOut} (submissionID timestamp : string) (earliest : Z) (acc : creation)
    (stage : WorkflowStage FanOut) : result creation :=
  fail_if (wst_Index stage <? 0) (Errorf "stage index must be non-negative");;
  fail_if (bool_decide (wst_Index stage ∈ cr_seenStage acc))
    (Errorf ("duplicate stage index " +:+ pretty (wst_Index stage)));;
  let isReady := wst_Index stage =? earliest in
  '(seenStep, steps, records) ←
    foldM (create_step submissionID timestamp (wst_ParallelWith stage) (wst_Index stage) isReady)
      (cr_seenStep acc, [], cr_dependencySteps acc) (wst_Steps stage);
  Ok (mkCreation ({[wst_Index stage]} ∪ cr_seenStage acc) seenStep
        (cr_Stages acc ++ [mkDepStage (wst_Index stage)
           (if isReady then WorkflowStageStateReady else WorkflowStageStateBlocked) "" (wst_ParallelWith stage) steps])
        records).

Definition earliest_index {FanOut} (stages : list (WorkflowStage FanOut)) : Z :=
  foldl (λ earliest stage, if (earliest =? -1) || (wst_Index stage <? earliest) then wst_Index stage else earliest)
    (-1) stages.

Definition CreateWorkflowDependencyPlan {FanOut} (submissionID workflowID : string)
    (stages : list (WorkflowStage FanOut)) : Op unit :=
  requireStore;;
  lift (required submissionID "submission id is required");;
  lift (required workflowID "workflow id is required");;
  lift (fail_if (bool_decide (length stages = 0%nat)) (Errorf "normalized stages are required"));;
  requireDependencyRunExists submissionID;;
  found ← read_plan submissionID;
  lift (fail_if (bool_decide (is_Some found))
          (Errorf ("dependency plan already exists for submission " +:+ submissionID)));;
  timestamp ← timestamp_now;
  created ← lift (foldM (create_stage submissionID timestamp (earliest_index stages)) (mkCreation ∅ ∅ [] []) stages);
  let p := mkPlan submissionID workflowID WorkflowStateRunning "" (cr_Stages created) in
  lift (validateDependencyPlan p);;
  call_store (InsertWorkflowDependencySteps eng (cr_dependencySteps created));;
  setWorkflowDependencyState submissionID p;;
  emitDependencyObservation submissionID workflowID "info"
    ("normalized workflow into " +:+ pretty (Z.of_nat (length stages)) +:+ " stages").

Definition plan_not_found (submissionID : string) : GoError :=
  Errorf ("dependency plan not found for submission " +:+ submissionID).
Definition ListWorkflowStages (submissionID : string) : Op (list WorkflowDependencyStage) :=
  found ← read_plan submissionID;
  match found with
  | None => fail (plan_not_found submissionID)
  | Some p => stop (sortStagesByIndex (pl_Stages p))
  end.
Definition ListWorkflowSteps (submissionID : string) : Op (list WorkflowDependencyStep) :=
  found ← read_plan submissionID;
  match found with
  | None => fail (plan_not_found submissionID)
  | Some p => stop (sortStepsByIndex (all_steps_of p))
  end.
Definition ReadStepState (submissionID : string) (stepIndex : Z) : Op (option WorkflowDependencyStep) :=
  found ← read_plan submissionID;
  match found with
  | None => stop None
  | Some p => stop (List.find (λ s, sp_StepIndex s =? stepIndex) (all_steps_of p))
  end.
Definition ReadStageState (submissionID : string) (stageIndex : Z) : Op (option WorkflowDependencyStage) :=
  found ← read_plan submissionID;
  match found with
  | None => stop None
  | Some p => stop (List.find (λ g, sg_StageIndex g =? stageIndex) (pl_Stages p))
  end.

(** ** Work items *)

Definition ensureNoDuplicateWorkItemMembership (s : WorkflowDependencyStep) (workItemID : string) (workItemIndex : Z) :
    result unit :=
  for_each (λ existing,
    fail_if (bool_decide (mi_WorkItemID existing = workItemID))
      (Errorf ("work item " +:+ workItemID +:+ " already recorded"));;
    fail_if (mi_WorkItemIndex existing =? workItemIndex)
      (Errorf ("work item index " +:+ pretty workItemIndex +:+ " already recorded"))) (sp_WorkItems s).

Definition step_at (p : WorkflowDependencyPlan) (i j : nat) : option WorkflowDependencyStep :=
  pl_Stages p !! i ≫= λ g, sg_Steps g !! j.

Definition RecordCompiledWorkItemMembership (submissionID : string) (stageIndex stepIndex : Z)
    (workItemID : string) (workItemIndex : Z) : Op unit :=
  requireStore;;
  lift (required workItemID "work item id is required";;
        non_negative workItemIndex "work item index must be non-negative";;
        non_negative stageIndex "stage index must be non-negative";;
        non_negative stepIndex "step index must be non-negative");;
  found ← read_plan submissionID;
  match found with
  | None => fail (plan_not_found submissionID)
  | Some p =>
      match (ij ← findDependencyStep p stageIndex stepIndex; s ← step_at p ij.1 ij.2; Some (ij, s)) with
      | None => fail (Errorf ("step not found for submission " +:+ submissionID +:+ " at stage " +:+
                  pretty stageIndex +:+ " step " +:+ pretty stepIndex))
      | Some ((i, j), step) =>
          lift (ensureNoDuplicateWorkItemMembership step workItemID workItemIndex);;
          let p := update_step i j (λ s, set_sp_WorkItems (sortWorkItemsByIndex (sp_WorkItems s ++
                     [mkMembership workItemID workItemIndex WorkItemMembershipStateQueued "" "" "" 0 false])) s) p in
          timestamp ← timestamp_now;
          call_store (InsertWorkflowDependencyWorkItemMembership eng
            [mkDepItem submissionID stageIndex stepIndex workItemID workItemIndex timestamp]);;
          setWorkflowDependencyState submissionID p
      end
  end.

Definition recordWorkItemTerminalState (submissionID workItemID : string)
    (terminalState : WorkItemMembershipState) (failureReason : string) : Op unit :=
  requireStore;;
  lift (required submissionID "submission id is required";;
        required workItemID "work item id is required";;
        WorkItemMembershipState_Validate terminalState;;
        fail_if (negb (isTerminalMembershipState terminalState))
          (Errorf "work item membership terminal state must be completed, skipped, or failed"));;
  found ← read_plan submissionID;
  match found with
  | None => stop tt
  | Some before =>
      let '(updated, p) := updateDependencyPlanForWorkItemTerminal before workItemID terminalState failureReason in
      if negb updated then stop tt
      else
        upsertTerminalPrunedWorkflowStepOutputFacts p;;
        setWorkflowDependencyState submissionID p;;
        emitDependencyTransitions before p
  end.
Definition RecordWorkItemTerminalState (submissionID workItemID : string) (terminalState : WorkItemMembershipState) : Op unit :=
  recordWorkItemTerminalState submissionID workItemID terminalState "".
Definition RecordWorkItemTerminalFailure (submissionID workItemID reason : string) : Op unit :=
  recordWorkItemTerminalState submissionID workItemID WorkItemMembershipStateFailed reason.

(** ** Stages *)

(** A step for which the compilation produced no work item is completed with an
    empty list.  The compiled stage comes in as its index and the step indexes of
    its work items. *)
Definition complete_empty_step (json sha : string) (s : WorkflowDependencyStep) : WorkflowDependencyStep :=
  set_sp_Output json sha (string_bytes_Z json) false (set_sp_State WorkflowStepStateCompleted s).
Definition completes_empty (itemSteps : list Z) (s : WorkflowDependencyStep) : bool :=
  negb (bool_decide (sp_StepIndex s ∈ itemSteps)) && match sp_WorkItems s with [] => true | _ => false end
  && negb (step_is WorkflowStepStateCompleted s || step_is WorkflowStepStateFailed s).

Definition markCompiledStageEmptyStepsCompleted (submissionID : string) (stageIndex : Z) (itemSteps : list Z) : Op bool :=
  '(json, sha) ← lift canonicalOutputFromEmptyList;
  lift (validateLogicalStepOutputJSONSize json);;
  found ← read_plan submissionID;
  match found with
  | None => stop false
  | Some before =>
      match (i ← findDependencyStage before stageIndex; g ← pl_Stages before !! i; Some (i, g)) with
      | None => stop false
      | Some (i, stage) =>
          let steps := (λ s, if completes_empty itemSteps s then complete_empty_step json sha s else s) <$> sg_Steps stage in
          let facts := (complete_empty_step json sha) <$> List.filter (completes_empty itemSteps) (sg_Steps stage) in
          match facts with
          | [] => stop false
          | _ =>
              let allCompleted := forallb (step_is WorkflowStepStateCompleted) steps in
              let p := update_stage i (set_sg_Steps steps) before in
              let p := if allCompleted
                       then updateWorkflowStateFromStages (update_stage i (set_sg_State WorkflowStageStateCompleted) p)
                       else p in
              for_each_op (λ s, upsertWorkflowStepOutputFact submissionID s workflowStepOutputKindEmptyFanout) facts;;
              setWorkflowDependencyState submissionID p;;
              emitDependencyTransitions before p;;
              stop allCompleted
          end
      end
  end.

Definition MarkWorkflowStageReady (submissionID : string) (stageIndex : Z) : Op unit :=
  found ← read_plan submissionID;
  match found with
  | None => stop tt
  | Some before =>
      if negb (bool_decide (pl_State before = WorkflowStateRunning)) then stop tt
      else match (i ← findDependencyStage before stageIndex; g ← pl_Stages before !! i; Some (i, g)) with
           | None => fail (Errorf ("stage " +:+ pretty stageIndex +:+ " not found for submission " +:+ submissionID))
           | Some (i, stage) =>
               if negb (stage_is WorkflowStageStateBlocked stage) then stop tt
               else
                 let p := update_stage i (λ g, set_sg_Steps
                            ((λ s, if step_is WorkflowStepStateBlocked s then set_sp_State WorkflowStepStateReady s else s)
                               <$> sg_Steps g) (set_sg_State WorkflowStageStateReady g)) before in
                 setWorkflowDependencyState submissionID p;;
                 emitDependencyTransitions before p
           end
  end.

Definition markWorkflowStageActivationFailed (submissionID : string) (stageIndex : Z) (reason : string) : Op unit :=
  found ← read_plan submissionID;
  match found with
  | None => stop tt
  | Some before =>
      let p := pruneDependencyOutputsIfTerminal (markDependencyPlanFailed before stageIndex (-1) "" reason) in
      upsertTerminalPrunedWorkflowStepOutputFacts p;;
      setWorkflowDependencyState submissionID p;;
      emitDependencyTransitions before p
  end.
End controller.

(** ** Outputs *)

(** The interface to materialised collections: whether an output is the manifest of
    a materialised asset, whether the asset is a member of a collection, and the
    JSON of the manifest of the collection its members form. *)
Class CollectionOutputs := {
  materializedCollectionMemberOutput : Type;
  materializedCollectionMemberOutputFromJSON :
    WorkflowDependencyWorkItemMembership → result (option materializedCollectionMemberOutput);
  isCollectionMember : materializedCollectionMemberOutput → bool;
  aggregateMaterializedCollectionOutput : list materializedCollectionMemberOutput → result string }.

Section outputs.
Context `{!CollectionOutputs}.
Context (now : nat → Time) (eng : Engine).

Definition item_name (s : WorkflowDependencyStep) (m : WorkflowDependencyWorkItemMembership) : string :=
  "step " +:+ pretty (sp_StepIndex s) +:+ " work item " +:+ mi_WorkItemID m.

(** [seenIndexes], [outputs], [collectionOutputs], [collectionCandidateCount]. *)
Record aggregation := mkAggregation {
  ag_seen : gset Z; ag_outputs : list ResolvedValue;
  ag_collection : list materializedCollectionMemberOutput; ag_candidates : nat }.

Definition aggregate_item (s : WorkflowDependencyStep) (acc : aggregation)
    (m : WorkflowDependencyWorkItemMembership) : result aggregation :=
  fail_if (bool_decide (mi_WorkItemIndex m ∈ ag_seen acc))
    (Errorf ("step " +:+ pretty (sp_StepIndex s) +:+ " has duplicate work item index " +:+ pretty (mi_WorkItemIndex m)));;
  fail_if (negb (is_success (mi_State m)))
    (Errorf (item_name s m +:+ " is " +:+ item_state_text (mi_State m) +:+ ", output aggregation is not ready"));;
  fail_if (is_empty (mi_OutputJSON m)) (Errorf (item_name s m +:+ " is missing output JSON"));;
  wrap_err (item_name s m) (validateCompletedWorkOutputJSONSize (mi_OutputJSON m));;
  member ← wrap_err (item_name s m) (materializedCollectionMemberOutputFromJSON m);
  let '(collection, candidates) :=
    match member with
    | Some c => (if isCollectionMember c then ag_collection acc ++ [c] else ag_collection acc, S (ag_candidates acc))
    | None => (ag_collection acc, ag_candidates acc)
    end in
  output ← wrap_err (item_name s m) (resolvedOutputFromJSON (mi_OutputJSON m));
  fail_if (negb (bool_decide (rv_Type output = TypeObject)))
    (Errorf (item_name s m +:+ " output has type " +:+ Type_String (rv_Type output) +:+ ", want object"));;
  Ok (mkAggregation ({[mi_WorkItemIndex m]} ∪ ag_seen acc) (ag_outputs acc ++ [output]) collection candidates).

(** [validateLogicalStepOutputJSONSize] before the text is returned. *)
Definition sized_output (output : result (string * string)) : result (string * string) :=
  '(json, sha) ← output;
  validateLogicalStepOutputJSONSize json;;
  Ok (json, sha).

(** The JSON text of a value, made canonical. *)
Definition canonicalOutputJSONFromText (text : string) : result (string * string) :=
  resolved ← resolvedOutputFromJSON text;
  canonicalOutputJSONFromResolved resolved.

Definition aggregateStepOutputJSON (s : WorkflowDependencyStep) : result (string * string) :=
  match sp_WorkItems s with
  | [] => sized_output (canonicalOutputJSONFromResolved empty_list_value)
  | _ =>
      let ordered := sortWorkItemsByIndex (sp_WorkItems s) in
      acc ← foldM (aggregate_item s) (mkAggregation ∅ [] [] 0) ordered;
      match ag_collection acc with
      | _ :: _ =>
          fail_if (negb (bool_decide (length (ag_collection acc) = length ordered ∧ ag_candidates acc = length ordered)))
            (Errorf ("step " +:+ pretty (sp_StepIndex s) +:+ " mixes collection materialization outputs with ordinary outputs"));;
          manifest ← wrap_err ("step " +:+ pretty (sp_StepIndex s)) (aggregateMaterializedCollectionOutput (ag_collection acc));
          sized_output (canonicalOutputJSONFromText manifest)
      | [] =>
          match ag_outputs acc with
          | [output] => sized_output (canonicalOutputJSONFromResolved output)
          | outputs => sized_output (canonicalOutputJSONFromResolved (ResolvedList outputs))
          end
      end
  end.

Record RecordCompletedWorkItemOutputRequest := mkOutputRequest {
  oq_SubmissionID : string; oq_WorkItemID : string; oq_OutputJSON : string; oq_OutputJSONSHA256 : string }.

(** The checks on the reported text; its canonical form and fingerprint. *)
Definition accepted_output (req : RecordCompletedWorkItemOutputRequest) : result (string * string) :=
  required (oq_SubmissionID req) "submission id is required";;
  required (oq_WorkItemID req) "work item id is required";;
  fail_if (is_empty (TrimSpace (oq_OutputJSON req))) (Errorf "output json is required");;
  validateCompletedWorkOutputJSONSize (oq_OutputJSON req);;
  resolved ← resolvedOutputFromJSON (oq_OutputJSON req);
  '(json, sha) ← canonicalOutputJSONFromResolved resolved;
  validateCompletedWorkOutputJSONSize json;;
  (if is_empty (oq_OutputJSONSHA256 req) then Ok tt
   else wrap_err "output_json_sha256" (ValidateSHA256Hex (oq_OutputJSONSHA256 req));;
        fail_if (negb (bool_decide (oq_OutputJSONSHA256 req = sha)))
          (Errorf "output_json_sha256 does not match canonical output JSON"));;
  Ok (json, sha).

(** The step once its item has an output: its own output when all items have one.
    The flag says whether an output fact is to be stored. *)
Definition output_step (s : WorkflowDependencyStep) : result (bool * WorkflowDependencyStep) :=
  let s := set_sp_State (updateStepStateFromWorkItems (sp_WorkItems s) (sp_State s)) s in
  if dependencyStepOutputsReady s then
    '(json, sha) ← aggregateStepOutputJSON s;
    validateLogicalStepOutputJSONSize json;;
    Ok (true, pruneWorkItemOutputJSON
                (set_sp_State WorkflowStepStateCompleted (set_sp_Output json sha (string_bytes_Z json) false s)))
  else Ok (false, s).

Definition RecordCompletedWorkItemOutput (req : RecordCompletedWorkItemOutputRequest) : Op unit :=
  requireStore;;
  '(json, sha) ← lift (accepted_output req);
  found ← read_plan (oq_SubmissionID req);
  match found with
  | None => stop tt
  | Some before =>
      match (ijk ← findDependencyWorkItem before (oq_WorkItemID req);
             s ← step_at before ijk.1 ijk.2.1;
             m ← sp_WorkItems s !! ijk.2.2;
             Some (ijk.1, ijk.2.1, ijk.2.2, s, m)) with
      | None => fail (Errorf ("work item " +:+ oq_WorkItemID req +:+ " not found in dependency plan for submission " +:+ oq_SubmissionID req))
      | Some (i, j, k, step, membership) =>
          if isTerminalMembershipState (mi_State membership) && negb (is_success (mi_State membership)) then stop tt
          else if negb (bool_decide (pl_State before = WorkflowStateRunning))
                  && isTerminalMembershipState (mi_State membership) && negb (is_empty (sp_OutputJSONSHA256 step)) then stop tt
          else
            let recorded m := set_mi_Output json sha (string_bytes_Z json) false (set_mi_State WorkItemMembershipStateCompleted m) in
            '(hasFact, step') ← lift (output_step (set_sp_WorkItems (alter recorded k (sp_WorkItems step)) step));
            let p := update_step i j (λ _, step') before in
            let p := update_stage i (λ g, set_sg_State (updateStageStateFromSteps (sg_Steps g) (sg_State g)) g) p in
            let p := if bool_decide (pl_State p = WorkflowStateRunning) then updateWorkflowStateFromStages p else p in
            let p := pruneDependencyOutputsIfTerminal p in
            (if hasFact : bool then
               match step_at p i j with
               | Some final => upsertWorkflowStepOutputFact now eng (oq_SubmissionID req) final workflowStepOutputKindAggregate
               | None => stop tt
               end
             else stop tt);;
            setWorkflowDependencyState eng (oq_SubmissionID req) p;;
            emitDependencyTransitions now before p
      end
  end.

(** ** The outputs as the variable [workflow.step] *)

Definition step_output_expression (step : WorkflowDependencyStep) : result TypedExpression :=
  let name := "workflow step " +:+ pretty (sp_StepIndex step) in
  fail_if (negb (step_is WorkflowStepStateCompleted step))
    (Errorf (name +:+ " is " +:+ step_state_text (sp_State step) +:+ ", want completed"));;
  (if is_empty (sp_OutputJSON step) then
     fail_if (sp_OutputJSONPruned step)
       (Errorf ("workflow.step[" +:+ pretty (sp_StepIndex step) +:+ "] output was pruned before downstream work was materialized"));;
     Err (Errorf (name +:+ " is missing output JSON"))
   else Ok tt);;
  wrap_err name (validateLogicalStepOutputJSONSize (sp_OutputJSON step));;
  output ← wrap_err name (resolvedOutputFromJSON (sp_OutputJSON step));
  wrap_err name (outputTypedExpressionFromResolved output).

Definition workflowStepScope (p : WorkflowDependencyPlan) (beforeStepIndex : Z) : result Scope :=
  non_negative beforeStepIndex "before step index must be non-negative";;
  let steps := List.filter (λ s, sp_StepIndex s <? beforeStepIndex) (sortStepsByIndex (all_steps_of p)) in
  stepOutputs ← traverse_items (λ _ s, step_output_expression s) 0 steps;
  NewScope [mkVar (mkName "workflow" "step") (mkTE TypeList (EList stepOutputs)) false None].
End outputs.
