(* ===== verification/DependencyRefinement.v ===== *)
(** * What the plan of a run says of the tables

    The plan that the controller rebuilds refines a simple reading of the tables: a
    run that stores no failed plan of its own has failed when a work item of one of its
    steps has a failed attempt, and is completed when every step has an output or has items
    that all succeeded.  And a failure stored with the run is never lost. *)

From S2P Require Import Prelude GoTime GoJson GoStrings GoJsonLaws.
From S2P Require Import GoSha256 Fingerprint GoJsonStruct Variables Expression StepOutputs OutputText.
From S2P Require Import VariableCodec VariableLaws Resource StoreData StoreSQL StoreOps StoreQueries.
From S2P Require Import Dependency DependencyLaws SubmissionContext Stages DependencyStore.
Local Open Scope Z_scope.

(** ** The reading of the tables *)

Definition run_attempts (db : DB) (runID : string) : list TerminalAttemptRecord :=
  List.filter (λ t, bool_decide (wi_RunID (ta_WorkItem t) = runID)) (terminal_attempts (exec db)).
Definition item_failed (db : DB) (runID id : string) : Prop :=
  ∃ t, t ∈ run_attempts db runID ∧ wi_ID (ta_WorkItem t) = id ∧ ta_TerminalState t = "failed".
Definition item_succeeded (db : DB) (runID id : string) : Prop :=
  ∃ t, t ∈ run_attempts db runID ∧ wi_ID (ta_WorkItem t) = id ∧ ta_TerminalState t ≠ "failed".

Definition run_step (db : DB) (runID : string) (r : WorkflowDependencyStepRecord) : Prop :=
  r ∈ listWorkflowDependencyStepsForRun (catalog db) runID.
Definition step_member (db : DB) (runID : string) (r : WorkflowDependencyStepRecord)
    (m : WorkflowDependencyWorkItemRecord) : Prop :=
  (∃ k, workflow_dependency_work_items (catalog db) !! k = Some m) ∧
  di_RunID m = runID ∧ di_StageIndex m = ds_StageIndex r ∧ di_StepIndex m = ds_StepIndex r.
Definition has_output (db : DB) (runID : string) (r : WorkflowDependencyStepRecord) : Prop :=
  is_Some (workflow_step_output_facts (catalog db) !! (runID, ds_StepIndex r)).

Definition step_failed (db : DB) (runID : string) (r : WorkflowDependencyStepRecord) : Prop :=
  ∃ m, step_member db runID r m ∧ item_failed db runID (di_WorkItemID m).
Definition step_done (db : DB) (runID : string) (r : WorkflowDependencyStepRecord) : Prop :=
  has_output db runID r ∨
  (∃ m, step_member db runID r m) ∧ ∀ m, step_member db runID r m → item_succeeded db runID (di_WorkItemID m).

(** ** Maps filled by loops *)

Lemma index_by_spec {A K} `{Countable K} (key : A → K) l k :
  (∀ a, index_by key l !! k = Some a → a ∈ l ∧ key a = k) ∧
  (index_by key l !! k = None → k ∉ key <$> l).
Proof.
  unfold index_by.
  assert (∀ (m : gmap K A),
    (∀ a, foldl (λ m a, <[key a := a]> m) m l !! k = Some a → (a ∈ l ∧ key a = k) ∨ m !! k = Some a) ∧
    (foldl (λ m a, <[key a := a]> m) m l !! k = None → k ∉ key <$> l ∧ m !! k = None)) as Hgen.
  { induction l as [|x l IH]; intros m; cbn [foldl]; [set_solver|].
    destruct (IH (<[key x := x]> m)) as [IH1 IH2]. split.
    - intros a Ha. destruct (IH1 a Ha) as [[??]|Hm]; [left; set_solver|].
      rewrite lookup_insert in Hm. case_decide; [left; set_solver|by right].
    - intros Hn. destruct (IH2 Hn) as [Hl Hm]. rewrite lookup_insert in Hm. case_decide; [done|].
      split; [set_solver|done]. }
  destruct (Hgen ∅) as [H1 H2]. split.
  - intros a Ha. destruct (H1 a Ha) as [?|Hm]; [done|]. by rewrite lookup_empty in Hm.
  - intros Hn. by apply H2.
Qed.

(** ** Items *)

Definition fresh_evidence (ev : Evidence) : Prop := ev_legacySteps ev = ∅ ∧ ev_legacyMemberships ev = ∅.
Definition item_of (ev : Evidence) (m : WorkflowDependencyWorkItemRecord) : WorkflowDependencyWorkItemMembership :=
  deriveDependencyMembership m (ev_queued ev) (ev_running ev) (ev_terminal ev) (ev_legacyMemberships ev).

Lemma derived_item_state ev m db runID :
  ev_legacyMemberships ev = ∅ →
  ev_terminal ev = index_by (λ t, wi_ID (ta_WorkItem t)) (order_by (by_text2 ta_FinishedAt ta_AttemptID) (run_attempts db runID)) →
  (∀ id, ¬ (item_failed db runID id ∧ item_succeeded db runID id)) →
  (mi_State (item_of ev m) = WorkItemMembershipStateFailed ↔ item_failed db runID (di_WorkItemID m)) ∧
  (is_success (mi_State (item_of ev m)) = true ↔ item_succeeded db runID (di_WorkItemID m)).
Proof.
  intros Hl Ht Hsettled. unfold item_of, deriveDependencyMembership. rewrite Hl, Ht, lookup_empty.
  destruct (index_by_spec (λ t, wi_ID (ta_WorkItem t)) (order_by (by_text2 ta_FinishedAt ta_AttemptID) (run_attempts db runID)) (di_WorkItemID m)) as [Hsome Hnone].
  destruct (index_by _ _ !! _) as [t|] eqn:Elook.
  - destruct (Hsome t eq_refl) as [Hin%elem_of_order_by Hid]. clear Hsome Hnone.
    case_bool_decide as Hf.
    + assert (item_failed db runID (di_WorkItemID m)) as Hfail by (exists t; done).
      split; [done|]. split; [done|]. intros Hs. by destruct (Hsettled (di_WorkItemID m)).
    + assert (item_succeeded db runID (di_WorkItemID m)) as Hsucc by (exists t; done).
      assert (¬ item_failed db runID (di_WorkItemID m)) by (intros ?; by destruct (Hsettled (di_WorkItemID m))).
      destruct (is_empty (ta_SkippedParentID t)); done.
  - specialize (Hnone eq_refl).
    assert (∀ t, t ∈ run_attempts db runID → wi_ID (ta_WorkItem t) = di_WorkItemID m → False) as Hno.
    { intros t Hin Hid. apply Hnone. rewrite <- Hid. apply (list_elem_of_fmap_2 (λ t, wi_ID (ta_WorkItem t))). by apply elem_of_order_by. }
    assert (¬ item_failed db runID (di_WorkItemID m)) by (intros (t & ? & ? & _); by eapply Hno).
    assert (¬ item_succeeded db runID (di_WorkItemID m)) by (intros (t & ? & ? & _); by eapply Hno).
    repeat case_match; done.
Qed.

(** ** Steps *)


Lemma derive_step_states s fact :
  (deriveDependencyStepState s fact = WorkflowStepStateFailed ↔
     ∃ m, m ∈ sp_WorkItems s ∧ mi_State m = WorkItemMembershipStateFailed) ∧
  (deriveDependencyStepState s fact = WorkflowStepStateCompleted ↔
     ¬ (∃ m, m ∈ sp_WorkItems s ∧ mi_State m = WorkItemMembershipStateFailed) ∧
     (fact = true ∨ sp_WorkItems s ≠ [] ∧ ∀ m, m ∈ sp_WorkItems s → is_success (mi_State m) = true)).
Proof.
  unfold deriveDependencyStepState.
  assert (existsb (item_is WorkItemMembershipStateFailed) (sp_WorkItems s) = true ↔
    ∃ m, m ∈ sp_WorkItems s ∧ mi_State m = WorkItemMembershipStateFailed) as Hf.
  { rewrite existsb_elem. unfold item_is. by setoid_rewrite bool_decide_eq_true. }
  destruct (existsb (item_is WorkItemMembershipStateFailed) (sp_WorkItems s)).
  { split; [tauto|]. split; [done|]. intros [Hn _]. by destruct Hn; apply Hf. }
  assert (¬ ∃ m, m ∈ sp_WorkItems s ∧ mi_State m = WorkItemMembershipStateFailed) as Hn by (rewrite <- Hf; done).
  assert (match sp_WorkItems s with [] => false | _ => forallb (λ m, is_success (mi_State m)) (sp_WorkItems s) end = true ↔
    sp_WorkItems s ≠ [] ∧ ∀ m, m ∈ sp_WorkItems s → is_success (mi_State m) = true) as Ha.
  { destruct (sp_WorkItems s) as [|m0 l] eqn:E; [by split; [|intros [? _]]|]. rewrite <- E, forallb_elem.
    split; [|tauto]. intros H. split; [by rewrite E|done]. }
  destruct (match sp_WorkItems s with [] => false | _ => _ end); destruct fact; cbn [orb];
    split; try (split; [discriminate|tauto]); try (split; [intros _; split; [done|tauto]|done]).
  all: repeat case_match; split; try discriminate; tauto || (intros [_ [?|?]]; [done|by apply Ha in H]) || idtac.
  all: intros [_ [?|Hx]]; [done|]; by apply Ha in Hx.
Qed.

Lemma prune_completed_state m : mi_State (pruneCompletedMembershipOutput m) = mi_State m.
Proof. unfold pruneCompletedMembershipOutput, prune_item. by repeat case_match. Qed.

Lemma derive_step_parts ev r fact ms :
  let s := derive_step ev r fact ms in
  sp_StageIndex s = ds_StageIndex r ∧ sp_StepIndex s = ds_StepIndex r ∧ sp_StepID s = ds_StepID r ∧
  sp_WorkItems s = (λ m, if bool_decide (is_Some fact) then pruneCompletedMembershipOutput (item_of ev m) else item_of ev m) <$> ms.
Proof.
  unfold derive_step, legacy_step_state. destruct fact; repeat case_match; done.
Qed.

Lemma derive_step_state ev r fact ms :
  fresh_evidence ev →
  sp_State (derive_step ev r fact ms) = deriveDependencyStepState (derive_step ev r fact ms) (bool_decide (is_Some fact)).
Proof.
  intros [H1 H2]. unfold derive_step, legacy_step_state. rewrite H1, !lookup_empty. by destruct fact.
Qed.

(** What a query returned describes the step. *)
Definition step_rows (db : DB) (runID : string) (r : WorkflowDependencyStepRecord)
    (fact : option WorkflowStepOutputFactRecord) (ms : list WorkflowDependencyWorkItemRecord) : Prop :=
  (is_Some fact ↔ has_output db runID r) ∧ ∀ m, m ∈ ms ↔ step_member db runID r m.

Lemma derived_step ev db runID r fact ms :
  fresh_evidence ev →
  ev_terminal ev = index_by (λ t, wi_ID (ta_WorkItem t)) (order_by (by_text2 ta_FinishedAt ta_AttemptID) (run_attempts db runID)) →
  (∀ id, ¬ (item_failed db runID id ∧ item_succeeded db runID id)) →
  step_rows db runID r fact ms →
  let s := derive_step ev r fact ms in
  (sp_State s = WorkflowStepStateFailed ↔ step_failed db runID r) ∧
  (sp_State s = WorkflowStepStateCompleted ↔ ¬ step_failed db runID r ∧ step_done db runID r).
Proof.
  intros Hfresh Hterm Hsettled [Hfact Hms] s. pose proof Hfresh as [_ Hl].
  destruct (derive_step_parts ev r fact ms) as (_ & _ & _ & Hitems). fold s in Hitems.
  assert (∀ i, i ∈ sp_WorkItems s ↔ ∃ m, step_member db runID r m ∧
     i = (if bool_decide (is_Some fact) then pruneCompletedMembershipOutput (item_of ev m) else item_of ev m)) as Hin.
  { intros i. rewrite Hitems, list_elem_of_fmap. setoid_rewrite Hms. naive_solver. }
  assert (∀ m, mi_State (if bool_decide (is_Some fact) then pruneCompletedMembershipOutput (item_of ev m) else item_of ev m)
               = mi_State (item_of ev m)) as Hst by (intros m; case_match; [apply prune_completed_state|done]).
  assert ((∃ i, i ∈ sp_WorkItems s ∧ mi_State i = WorkItemMembershipStateFailed) ↔ step_failed db runID r) as Hf.
  { setoid_rewrite Hin. split.
    - intros (i & (m & Hm & ->) & Hi). exists m. split; [done|]. rewrite Hst in Hi.
      by apply (derived_item_state ev m db runID).
    - intros (m & Hm & Hmf). eexists. split; [by exists m|]. rewrite Hst. by apply (derived_item_state ev m db runID). }
  destruct (derive_step_states s (bool_decide (is_Some fact))) as [HF HC].
  unfold s in *. rewrite derive_step_state by done. split; [by rewrite HF|]. rewrite HC, Hf. f_equiv.
  unfold step_done. rewrite bool_decide_eq_true, Hfact. f_equiv. f_equiv.
  - split.
    + intros Hne. destruct ms as [|m ms]; [by rewrite Hitems in Hne|]. exists m. apply Hms. left.
    + intros [m Hm%Hms] E. rewrite Hitems in E. by destruct ms; [apply elem_of_nil in Hm|].
  - split.
    + intros Hall m Hm. apply (derived_item_state ev m db runID); [done..|]. rewrite <- Hst. apply Hall, Hin. by exists m.
    + intros Hall i (m & Hm & ->)%Hin. rewrite Hst. apply (derived_item_state ev m db runID); [done..|]. by apply Hall.
Qed.

(** ** Assembling the plan *)

Definition occupied (p : WorkflowDependencyPlan) : Prop := Forall (λ g, sg_Steps g ≠ []) (pl_Stages p).

Lemma bind_alter_steps (stages : list WorkflowDependencyStage) i g step :
  stages !! i = Some g →
  (alter (λ g, set_sg_Steps (sg_Steps g ++ [step]) g) i stages ≫= sg_Steps) ≡ₚ step :: (stages ≫= sg_Steps).
Proof.
  revert i. induction stages as [|g0 stages IH]; intros [|i] Hi; try done; cbn in *.
  - injection Hi as ->. rewrite <- app_assoc. cbn. by rewrite <- Permutation_middle.
  - etrans; [apply Permutation_app_head, (IH _ Hi)|]. by rewrite <- Permutation_middle.
Qed.

Lemma add_step_steps r step p :
  occupied p →
  all_steps_of (add_step r step p) ≡ₚ step :: all_steps_of p ∧ occupied (add_step r step p).
Proof.
  intros Ho. unfold add_step.
  set (q := if _ && _ && _ then _ else p).
  assert (pl_Stages q = pl_Stages p) as Hq by (unfold q; by case_match).
  destruct (findDependencyStage q (ds_StageIndex r)) as [i|] eqn:Ei.
  - assert (∃ g, pl_Stages p !! i = Some g) as [g Hg].
    { unfold findDependencyStage in Ei. apply position_Some in Ei as (g & Hg & _). rewrite Hq in Hg. eauto. }
    unfold all_steps_of, update_stage, occupied. cbn [pl_Stages set_pl_Stages]. rewrite Hq. split.
    + by eapply bind_alter_steps.
    + apply Forall_alter; [done|]. intros g' _ _ E. cbn in E. by apply app_nil in E as [_ ?].
  - unfold all_steps_of, occupied. cbn [pl_Stages set_pl_Stages]. rewrite Hq, bind_app. split.
    + cbn. by rewrite <- Permutation_cons_append.
    + apply Forall_app. split; [done|]. by repeat constructor.
Qed.

Lemma read_steps runID ev db records p q :
  occupied p →
  foldM (read_step runID ev (Some db)) p records = Ok q →
  occupied q ∧ (records ≠ [] → pl_Stages q ≠ []) ∧
  ∃ derived, all_steps_of q ≡ₚ derived ++ all_steps_of p ∧
    Forall2 (λ r s, ∃ fact ms, s = derive_step ev r fact ms ∧ step_rows db runID r fact ms) records derived.
Proof.
  revert p. induction records as [|r records IH]; intros p Ho Hf.
  { cbn in Hf. injection Hf as ->. split; [done|]. split; [done|]. exists []. split; [done|constructor]. }
  rewrite foldM_cons in Hf. apply bind_Ok in Hf as (p1 & Hr & Hf).
  unfold read_step in Hr. apply bind_Ok in Hr as (fact & Hfact & Hr). apply bind_Ok in Hr as (ms & Hms & Hr).
  injection Hr as <-. destruct (add_step_steps r (derive_step ev r fact ms) p Ho) as [Hperm Ho1].
  destruct (IH _ Ho1 Hf) as (Hoq & _ & derived & Hpq & HF). split; [done|]. split.
  { intros _ E. unfold all_steps_of in Hpq. rewrite E in Hpq. cbn in Hpq. fold (all_steps_of (add_step r (derive_step ev r fact ms) p)) in Hpq.
    rewrite Hperm in Hpq. apply Permutation_nil in Hpq. by apply app_nil in Hpq as [_ ?]. }
  exists (derive_step ev r fact ms :: derived). split.
  { rewrite Hpq, Hperm. cbn. by rewrite <- Permutation_middle. }
  constructor; [|done]. exists fact, ms. split; [done|]. split.
  - unfold GetWorkflowStepOutputFact, query, getWorkflowStepOutputFact in Hfact. result_inv.
    unfold has_output. destruct (workflow_step_output_facts _ !! _); cbn; [by split; eexists|by split; intros [? ?]].
  - intros m. unfold ListWorkflowDependencyWorkItems, query in Hms. result_inv.
    rewrite elem_of_order_by, list_elem_of_fmap. unfold step_member. split.
    + intros ([k m'] & -> & [Hk Hb%bool_decide_eq_true]%elem_of_table_rows). eauto.
    + intros ((k & Hk) & Hb). exists (k, m). split; [done|]. apply elem_of_table_rows. by rewrite bool_decide_eq_true.
Qed.

(** ** Stages and the workflow *)

#[export] Instance by_step_linear : LinearComparison by_step.
Proof. split; unfold by_step; intros; repeat case_decide; lia. Qed.

Lemma sort_steps_states (steps : list WorkflowDependencyStep) st :
  ((∃ s, s ∈ sortStepsByIndex steps ∧ sp_State s = st) ↔ ∃ s, s ∈ steps ∧ sp_State s = st) ∧
  ((∀ s, s ∈ sortStepsByIndex steps → sp_State s = st) ↔ ∀ s, s ∈ steps → sp_State s = st) ∧
  (sortStepsByIndex steps = [] ↔ steps = []).
Proof.
  unfold sortStepsByIndex. setoid_rewrite list_elem_of_fmap. setoid_rewrite (elem_of_order_by by_step). split_and!.
  - split; [intros (s & (s' & -> & Hs) & Hst); by exists s'|]. intros (s & Hs & Hst). by eexists; split; [by exists s|].
  - split; [intros H s Hs|intros H s (s' & -> & Hs); exact (H s' Hs)]. by apply (H (set_sp_WorkItems (sortWorkItemsByIndex (sp_WorkItems s)) s)); exists s.
  - split; [|by intros ->]. intros E%fmap_nil_inv. pose proof (order_by_perm by_step steps) as Hp. rewrite E in Hp.
    by apply Permutation_nil in Hp.
Qed.

Lemma derive_stage_states g e :
  (deriveDependencyStageState g e = WorkflowStageStateFailed ↔ ∃ s, s ∈ sg_Steps g ∧ sp_State s = WorkflowStepStateFailed) ∧
  (deriveDependencyStageState g e = WorkflowStageStateCompleted ↔
     sg_Steps g ≠ [] ∧ ∀ s, s ∈ sg_Steps g → sp_State s = WorkflowStepStateCompleted).
Proof.
  unfold deriveDependencyStageState. destruct (sg_Steps g) as [|s0 l] eqn:E.
  { split; [|destruct e; by split; [|intros [? _]]]. destruct e; (split; [done|]); by intros (s & ?%elem_of_nil & _). }
  rewrite <- E.
  assert (existsb (step_is WorkflowStepStateFailed) (sg_Steps g) = true ↔ ∃ s, s ∈ sg_Steps g ∧ sp_State s = WorkflowStepStateFailed) as Hf.
  { rewrite existsb_elem. unfold step_is. by setoid_rewrite bool_decide_eq_true. }
  assert (forallb (step_is WorkflowStepStateCompleted) (sg_Steps g) = true ↔ ∀ s, s ∈ sg_Steps g → sp_State s = WorkflowStepStateCompleted) as Hc.
  { rewrite forallb_elem. unfold step_is. by setoid_rewrite bool_decide_eq_true. }
  destruct (existsb (step_is WorkflowStepStateFailed) (sg_Steps g)).
  { split; [tauto|]. split; [done|]. intros [_ Hall]. destruct (proj1 Hf eq_refl) as (s & Hs & Hst). by rewrite (Hall s Hs) in Hst. }
  destruct (forallb (step_is WorkflowStepStateCompleted) (sg_Steps g)).
  { split; [split; [done|intros H; by apply Hf in H]|]. split; [|done]. intros _. split; [by rewrite E|tauto]. }
  split; (split; [repeat case_match; done|]).
  - intros H. by apply Hf in H.
  - intros [_ H]. by apply Hc in H.
Qed.

Lemma derive_stage_sorted earliest reason g :
  let g' := derive_stage earliest reason g in
  (sg_State g' = WorkflowStageStateFailed ↔ ∃ s, s ∈ sg_Steps g ∧ sp_State s = WorkflowStepStateFailed) ∧
  (sg_State g' = WorkflowStageStateCompleted ↔ sg_Steps g ≠ [] ∧ ∀ s, s ∈ sg_Steps g → sp_State s = WorkflowStepStateCompleted).
Proof.
  intros g'. unfold g', derive_stage.
  set (g1 := set_sg_Steps (sortStepsByIndex (sg_Steps g)) g).
  destruct (derive_stage_states g1 (sg_StageIndex g1 =? earliest)) as [H1 H2].
  destruct (sort_steps_states (sg_Steps g) WorkflowStepStateFailed) as (Hs1 & _ & Hs3).
  destruct (sort_steps_states (sg_Steps g) WorkflowStepStateCompleted) as (_ & Hs2 & _).
  cbn [sg_Steps g1 set_sg_Steps] in H1, H2. rewrite Hs1 in H1. rewrite Hs2, Hs3 in H2.
  case_match; cbn [sg_State set_sg_Failure set_sg_State]; done.
Qed.

Lemma finish_plan_states p :
  occupied p → pl_Stages p ≠ [] →
  let q := finish_plan None p in
  (pl_State q = WorkflowStateFailed ↔ ∃ s, s ∈ all_steps_of p ∧ sp_State s = WorkflowStepStateFailed) ∧
  (pl_State q = WorkflowStateCompleted ↔ ∀ s, s ∈ all_steps_of p → sp_State s = WorkflowStepStateCompleted).
Proof.
  intros Ho Hne q. unfold q, finish_plan, all_steps_of. setoid_rewrite list_elem_of_bind.
  set (stages := derive_stage _ _ <$> sortStagesByIndex (pl_Stages p)).
  assert (∀ g', g' ∈ stages ↔ ∃ g, g ∈ pl_Stages p ∧ g' = derive_stage (earliest_stage p) (pl_FailureReason p) (set_sg_Steps (sortStepsByIndex (sg_Steps g)) g)) as Hin.
  { intros g'. unfold stages, sortStagesByIndex. rewrite list_elem_of_fmap. setoid_rewrite list_elem_of_fmap.
    setoid_rewrite (elem_of_order_by (by_int sg_StageIndex)). naive_solver. }
  assert (stages ≠ []) as Hstages.
  { destruct (pl_Stages p) as [|g l] eqn:E; [done|]. intros Es.
    assert (derive_stage (earliest_stage p) (pl_FailureReason p) (set_sg_Steps (sortStepsByIndex (sg_Steps g)) g) ∈ stages) as H.
    { apply Hin. exists g. split; [left|done]. }
    rewrite Es in H. by apply elem_of_nil in H. }
  assert (∀ g, (sg_State (derive_stage (earliest_stage p) (pl_FailureReason p) (set_sg_Steps (sortStepsByIndex (sg_Steps g)) g)) = WorkflowStageStateFailed
             ↔ ∃ s, s ∈ sg_Steps g ∧ sp_State s = WorkflowStepStateFailed) ∧
          (sg_State (derive_stage (earliest_stage p) (pl_FailureReason p) (set_sg_Steps (sortStepsByIndex (sg_Steps g)) g)) = WorkflowStageStateCompleted
             ↔ sg_Steps g ≠ [] ∧ ∀ s, s ∈ sg_Steps g → sp_State s = WorkflowStepStateCompleted)) as Hg.
  { intros g. destruct (derive_stage_sorted (earliest_stage p) (pl_FailureReason p) (set_sg_Steps (sortStepsByIndex (sg_Steps g)) g)) as [H1 H2].
    cbn [sg_Steps set_sg_Steps] in H1, H2.
    destruct (sort_steps_states (sg_Steps g) WorkflowStepStateFailed) as (Hs1 & _ & Hs3).
    destruct (sort_steps_states (sg_Steps g) WorkflowStepStateCompleted) as (_ & Hs2 & _).
    rewrite Hs1 in H1. rewrite Hs2, Hs3 in H2. done. }
  assert (existsb (stage_is WorkflowStageStateFailed) stages = true ↔
    ∃ s, (∃ g, s ∈ sg_Steps g ∧ g ∈ pl_Stages p) ∧ sp_State s = WorkflowStepStateFailed) as Hf.
  { rewrite existsb_elem. unfold stage_is. setoid_rewrite bool_decide_eq_true. split.
    - intros (g' & (g & Hgin & ->)%Hin & Hst). apply Hg in Hst as (s & Hs & Hss). exists s. split; [by exists g|done].
    - intros (s & (g & Hs & Hgin) & Hss). eexists. split; [apply Hin; by exists g|]. apply Hg. by exists s. }
  assert (forallb (stage_is WorkflowStageStateCompleted) stages = true ↔
    ∀ s, (∃ g, s ∈ sg_Steps g ∧ g ∈ pl_Stages p) → sp_State s = WorkflowStepStateCompleted) as Hc.
  { rewrite forallb_elem. unfold stage_is. setoid_rewrite bool_decide_eq_true. split.
    - intros H s (g & Hs & Hgin). assert (sg_State (derive_stage (earliest_stage p) (pl_FailureReason p) (set_sg_Steps (sortStepsByIndex (sg_Steps g)) g)) = WorkflowStageStateCompleted) as H'.
      { apply H, Hin. by exists g. } apply Hg in H' as [_ H']. by apply H'.
    - intros H g' (g & Hgin & ->)%Hin. apply Hg. split; [|intros s Hs; apply H; by exists g].
      unfold occupied in Ho. rewrite Forall_forall in Ho. by apply Ho. }
  unfold deriveDependencyWorkflowState. cbn [pl_Stages set_pl_Stages]. fold stages.
  destruct (existsb (stage_is WorkflowStageStateFailed) stages); cbn [pl_State set_pl_State].
  { split; [tauto|]. split; [done|]. intros H. destruct (proj1 Hf eq_refl) as (s & Hs & Hss). by rewrite (H s Hs) in Hss. }
  destruct stages as [|g0 l] eqn:E; [done|]. rewrite <- E in *.
  destruct (forallb (stage_is WorkflowStageStateCompleted) stages); cbn [pl_State set_pl_State].
  - split; [split; [done|intros H; by apply Hf in H]|tauto].
  - split; (split; [done|]); intros H; [by apply Hf in H|by apply Hc in H].
Qed.

(** The steps of a plan, by where they are and what they are. *)
Definition step_key (s : WorkflowDependencyStep) : Z * Z * string := (sp_StageIndex s, sp_StepIndex s, sp_StepID s).
Definition record_key (r : WorkflowDependencyStepRecord) : Z * Z * string := (ds_StageIndex r, ds_StepIndex r, ds_StepID r).

(** What sorting and finishing a plan keep of its steps. *)
Section kept.
Context {X : Type} (f : WorkflowDependencyStep → X) (Hf : ∀ items s, f (set_sp_WorkItems items s) = f s).
Lemma sort_steps_kept steps : f <$> sortStepsByIndex steps ≡ₚ f <$> steps.
Proof using Hf.
  unfold sortStepsByIndex. rewrite <- list_fmap_compose. transitivity (f <$> order_by by_step steps).
  - erewrite list_fmap_ext; [reflexivity|]. intros i s _. apply Hf.
  - by rewrite order_by_perm.
Qed.
Lemma bind_kept (h : WorkflowDependencyStage → WorkflowDependencyStage) stages :
  (∀ g, f <$> sg_Steps (h g) ≡ₚ f <$> sg_Steps g) →
  f <$> ((h <$> stages) ≫= sg_Steps) ≡ₚ f <$> (stages ≫= sg_Steps).
Proof.
  intros Hh. induction stages as [|g l IH]; [done|]. rewrite fmap_cons. cbn [mbind list_bind].
  by rewrite !fmap_app, Hh, IH.
Qed.
Lemma finish_plan_kept p : f <$> all_steps_of (finish_plan None p) ≡ₚ f <$> all_steps_of p.
Proof using Hf.
  unfold finish_plan, all_steps_of. set (stages := derive_stage _ _ <$> _).
  assert (pl_Stages (deriveDependencyWorkflowState (set_pl_Stages stages p)) = stages) as ->.
  { unfold deriveDependencyWorkflowState. cbn [pl_Stages set_pl_Stages]. by repeat case_match. }
  unfold stages, sortStagesByIndex. rewrite bind_kept.
  - rewrite bind_kept by (intros g; apply sort_steps_kept). by rewrite order_by_perm.
  - intros g. unfold derive_stage. case_match; apply sort_steps_kept.
Qed.
End kept.

(** Without an earlier plan no reason is found for a failure. *)
Lemma add_step_no_reason ev r fact ms p :
  fresh_evidence ev → pl_FailureReason p = "" → pl_FailureReason (add_step r (derive_step ev r fact ms) p) = "".
Proof.
  intros [H1 _] Hp. assert (sp_FailureReason (derive_step ev r fact ms) = "") as Hs.
  { unfold derive_step, legacy_step_state. rewrite H1, !lookup_empty. by destruct fact. }
  unfold add_step. rewrite Hs, andb_false_r. by repeat case_match.
Qed.
Lemma finish_plan_reason p : pl_FailureReason (finish_plan None p) = pl_FailureReason p.
Proof. unfold finish_plan, deriveDependencyWorkflowState. by repeat case_match. Qed.

(** How a plan was read: from the steps of the run, each derived from its rows. *)
Lemma plan_read db runID run p :
  workflow_instances (catalog db) !! runID = Some run →
  legacyWorkflowDependencyPlan (run_SubmissionContextJSON run) = None →
  getWorkflowDependencyState runID (Some db) = Ok (Some p) →
  ∃ ev q derived, fresh_evidence ev ∧
    ev_terminal ev = index_by (λ t, wi_ID (ta_WorkItem t)) (order_by (by_text2 ta_FinishedAt ta_AttemptID) (run_attempts db runID)) ∧
    p = finish_plan None q ∧ occupied q ∧ pl_Stages q ≠ [] ∧ all_steps_of q ≡ₚ derived ∧
    Forall2 (λ r s, ∃ fact ms, s = derive_step ev r fact ms ∧ step_rows db runID r fact ms)
      (listWorkflowDependencyStepsForRun (catalog db) runID) derived ∧
    validateDependencyPlan p = Ok tt ∧ pl_FailureReason p = "".
Proof.
  intros Hrun Hlegacy Hget. unfold getWorkflowDependencyState in Hget.
  apply bind_Ok in Hget as (found & Hfound & Hget). rewrite wrap_err_Ok in Hfound.
  unfold GetWorkflowRun, query, getWorkflowRun in Hfound. cbn [mbind result_bind] in Hfound.
  apply bind_Ok in Hfound as (u & _ & Hfound). rewrite Hrun in Hfound. injection Hfound as <-.
  apply bind_Ok in Hget as (records & Hrecords & Hget).
  unfold ListWorkflowDependencySteps, query in Hrecords. apply bind_Ok in Hrecords as (u' & _ & Hrecords). injection Hrecords as <-.
  set (records := listWorkflowDependencyStepsForRun _ _) in *.
  assert (records ≠ []) as Hne by (intros E; by rewrite E in Hget).
  destruct records as [|r0 rs] eqn:E; [done|]. rewrite <- E in *. rewrite Hlegacy in Hget. unfold gather_evidence in Hget.
  rewrite !bind_Ok in Hget. destruct Hget as (ev & Hev & Hget). apply bind_Ok in Hev as (qd & _ & Hev).
  apply bind_Ok in Hev as (rn & _ & Hev). apply bind_Ok in Hev as (tm & Htm & Hev). injection Hev as <-.
  apply bind_Ok in Hget as (q & Hq & Hget). apply bind_Ok in Hget as ([] & Hvalid & Hget). injection Hget as <-.
  rewrite wrap_err_Ok in Hvalid.
  assert (pl_FailureReason q = "") as Hreason.
  { refine (foldM_inv (λ p, pl_FailureReason p = "") _ _ _ _ _ _ Hq); [|done].
    intros p1 r p2 _ Hp1 H. unfold read_step in H. apply bind_Ok in H as (fact & _ & H). apply bind_Ok in H as (ms & _ & H).
    injection H as <-. by apply add_step_no_reason. }
  apply read_steps in Hq as (Ho & Hst & derived & Hperm & HF); [|apply Forall_nil_2].
  unfold all_steps_of at 2 in Hperm. cbn in Hperm. rewrite app_nil_r in Hperm.
  eexists _, q, derived. split_and!; [| |done|done|by apply Hst|done|exact HF|done|rewrite <- Hreason; apply finish_plan_reason]; [done|]. cbn [ev_terminal].
  unfold ListTerminalAttemptsForRun, query in Htm. apply bind_Ok in Htm as (u3 & _ & Htm). injection Htm as <-. done.
Qed.

(** C11: Let a run store no earlier failed plan (as capturing an output or activating a stage
    leave one that fails), and let no item of it have both a failed and a successful attempt.
    The plan that is read for it has exactly the steps of the run; it is failed exactly when a
    work item of a step has a failed attempt, and completed exactly when no step has one and
    every step has an output, or has items that all succeeded. *)
Theorem plan_status_exact db runID run p :
  workflow_instances (catalog db) !! runID = Some run →
  legacyWorkflowDependencyPlan (run_SubmissionContextJSON run) = None →
  (∀ id, ¬ (item_failed db runID id ∧ item_succeeded db runID id)) →
  getWorkflowDependencyState runID (Some db) = Ok (Some p) →
  step_key <$> all_steps_of p ≡ₚ record_key <$> listWorkflowDependencyStepsForRun (catalog db) runID ∧
  (pl_State p = WorkflowStateFailed ↔ ∃ r, run_step db runID r ∧ step_failed db runID r) ∧
  (pl_State p = WorkflowStateCompleted ↔ ∀ r, run_step db runID r → ¬ step_failed db runID r ∧ step_done db runID r).
Proof.
  intros Hrun Hlegacy Hsettled Hget.
  destruct (plan_read _ _ _ _ Hrun Hlegacy Hget) as (ev & q & derived & Hfresh & Hterm & -> & Ho & Hst & Hperm & HF & _).
  unfold run_step. set (records := listWorkflowDependencyStepsForRun _ _) in *.
  assert (Forall2 (λ r s, step_key s = record_key r ∧
     (sp_State s = WorkflowStepStateFailed ↔ step_failed db runID r) ∧
     (sp_State s = WorkflowStepStateCompleted ↔ ¬ step_failed db runID r ∧ step_done db runID r)) records derived) as HD.
  { eapply Forall2_impl; [exact HF|]. intros r s (fact & ms & -> & Hrows). split.
    - unfold step_key, record_key. by destruct (derive_step_parts ev r fact ms) as (-> & -> & -> & _).
    - by apply derived_step. }
  clear HF. split.
  - rewrite (finish_plan_kept step_key), Hperm by done. clear -HD. induction HD as [|r s records derived [Hk _] _ IH]; [done|].
    rewrite !fmap_cons, Hk. by constructor.
  - destruct (finish_plan_states q Ho Hst) as [HFail HComp]. rewrite HFail, HComp. setoid_rewrite Hperm. clear -HD. split.
    + induction HD as [|r s records derived (_ & H1 & _) _ IH]; [by split; intros (? & ?%elem_of_nil & _)|].
      setoid_rewrite elem_of_cons. naive_solver.
    + induction HD as [|r s records derived (_ & _ & H2) _ IH]; [by split; intros ? ? ?%elem_of_nil|].
      setoid_rewrite elem_of_cons. naive_solver.
Qed.
(** A run of two steps; the item of the first one failed. *)
Definition demo_failed_run : DB :=
  mkDB
    (mkCatalog ∅ ∅ {["run" := mkRun "run" "p" "wf" "{}" "2026-01-01T00:00:00Z"]} ∅
       (<[("run", 0) := mkDepStep "run" 0 0 "extract" "" "2026-01-01T00:00:00Z"]>
          {[("run", 1) := mkDepStep "run" 1 1 "load" "" "2026-01-01T00:00:00Z"]})
       {[("run", "run:a") := mkDepItem "run" 0 0 "run:a" 0 "2026-01-01T00:00:00Z"]} ∅)
    (mkExec {["run:a" := mkWorkItem "run:a" "run" 0 0 "{}" "00" "2026-01-01T00:00:00Z"]} ∅ ∅
       {["t1" := mkAttemptRow "run:a" None None "controller" "2026-01-01T00:00:00Z"]} ∅ ∅ ∅ ∅ ∅
       {["t1" := mkFailed "t1" "run:a" "disk full" "2026-01-01T00:00:00Z" "2026-01-01T00:00:00Z" "2026-01-01T00:01:00Z"]}).

Lemma plan_status_exact_witness :
  ∃ p, getWorkflowDependencyState "run" (Some demo_failed_run) = Ok (Some p) ∧ pl_State p = WorkflowStateFailed.
Proof.
  destruct (getWorkflowDependencyState "run" (Some demo_failed_run)) as [[p|]|] eqn:E; [|by vm_compute in E..].
  exists p. split; [done|].
  assert (run_attempts demo_failed_run "run"
    = [mkTerminal "t1" (mkWorkItem "run:a" "run" 0 0 "{}" "00" "2026-01-01T00:00:00Z") "failed" "" "controller"
         "2026-01-01T00:00:00Z" "2026-01-01T00:00:00Z" "2026-01-01T00:01:00Z" "disk full" "" "" "" "" ""]) as Hatt
    by (by vm_compute).
  destruct (plan_status_exact demo_failed_run "run" (mkRun "run" "p" "wf" "{}" "2026-01-01T00:00:00Z") p) as (_ & Hf & _);
    [by vm_compute|by vm_compute| |done|].
  - intros id [(t & Ht & _ & H1) (t' & Ht' & _ & H2)]. rewrite Hatt in Ht, Ht'.
    apply list_elem_of_singleton in Ht, Ht'. subst. by destruct H2.
  - apply Hf. exists (mkDepStep "run" 0 0 "extract" "" "2026-01-01T00:00:00Z"). split.
    + unfold run_step. vm_compute. by left.
    + exists (mkDepItem "run" 0 0 "run:a" 0 "2026-01-01T00:00:00Z"). split.
      * split; [|split_and!; reflexivity]. exists ("run", "run:a"). cbn [demo_failed_run catalog workflow_dependency_work_items].
        apply lookup_singleton_eq.
      * eexists. rewrite Hatt. split; [left|split; reflexivity].
Defined.

(** ** A step that nothing can complete *)

Lemma finished_stage_state q g :
  g ∈ pl_Stages (finish_plan None q) → sg_State g = WorkflowStageStateCompleted →
  ∀ s, s ∈ sg_Steps g → sp_State s = WorkflowStepStateCompleted.
Proof.
  unfold finish_plan. set (stages := derive_stage _ _ <$> _).
  assert (pl_Stages (deriveDependencyWorkflowState (set_pl_Stages stages q)) = stages) as ->.
  { unfold deriveDependencyWorkflowState. cbn [pl_Stages set_pl_Stages]. by repeat case_match. }
  intros (g0 & -> & _)%list_elem_of_fmap. unfold derive_stage. set (g1 := set_sg_Steps _ g0).
  case_match; intros Hdone%derive_stage_states; apply Hdone.
Qed.

(** A step without members and output keeps its stage, and the plan, from being completed. *)
Lemma open_step db runID run p r :
  workflow_instances (catalog db) !! runID = Some run →
  legacyWorkflowDependencyPlan (run_SubmissionContextJSON run) = None →
  getWorkflowDependencyState runID (Some db) = Ok (Some p) →
  run_step db runID r → (∀ m, ¬ step_member db runID r m) → ¬ has_output db runID r →
  pl_State p ≠ WorkflowStateCompleted ∧
  ∃ i g, findDependencyStage p (ds_StageIndex r) = Some i ∧ pl_Stages p !! i = Some g ∧
    sg_State g ≠ WorkflowStageStateCompleted.
Proof.
  intros Hrun Hlegacy Hget Hr Hmembers Hout.
  destruct (plan_read _ _ _ _ Hrun Hlegacy Hget) as (ev & q & derived & Hfresh & _ & -> & Ho & Hst & Hperm & HF & Hvalid & _).
  apply list_elem_of_lookup in Hr as [k Hk].
  destruct (Forall2_lookup_l _ _ _ _ _ HF Hk) as (s & Hs & fact & ms & -> & Hfact & Hms). apply list_elem_of_lookup_2 in Hs.
  set (d := derive_step ev r fact ms) in *.
  assert (sp_State d = WorkflowStepStateBlocked) as Hblocked.
  { unfold d. rewrite derive_step_state by done. destruct fact as [f|]; [destruct Hout; apply Hfact; by eexists|].
    destruct ms as [|m ms]; [|destruct (Hmembers m); apply Hms; left].
    unfold deriveDependencyStepState. by destruct (derive_step_parts ev r None []) as (_ & _ & _ & ->). }
  split.
  - intros HC. apply (finish_plan_states q Ho Hst) with (s := d) in HC; [by rewrite Hblocked in HC|]. by rewrite Hperm.
  - pose proof (finish_plan_kept (λ s, (sp_StageIndex s, sp_State s)) ltac:(done) q) as Hkept.
    assert ((ds_StageIndex r, WorkflowStepStateBlocked) ∈ (λ s, (sp_StageIndex s, sp_State s)) <$> all_steps_of (finish_plan None q)) as Hin.
    { rewrite Hkept, Hperm. apply list_elem_of_fmap. exists d. split; [|done]. rewrite Hblocked. f_equal.
      by destruct (derive_step_parts ev r fact ms) as (H & _). }
    apply list_elem_of_fmap in Hin as (s & Hsum & Hin). injection Hsum as Hidx Hstate.
    apply list_elem_of_bind in Hin as (g & Hsg & Hg). apply list_elem_of_lookup in Hg as [i Hi].
    apply validateDependencyPlan_iff in Hvalid as (_ & Hunique & _ & _ & Hplaced & _).
    assert (sg_StageIndex g = ds_StageIndex r) as Hgi.
    { rewrite Hidx. rewrite Forall_lookup in Hplaced. specialize (Hplaced i g Hi). rewrite Forall_forall in Hplaced.
      by apply Hplaced in Hsg. }
    exists i, g. split_and!; [|done|].
    + unfold findDependencyStage. apply (position_unique _ _ i g); [done|by rewrite Z.eqb_eq|].
      intros j g' Hj Heq%Z.eqb_eq. eapply (NoDup_fmap_lookup sg_StageIndex); [done..|lia].
    + intros HC. eapply finished_stage_state in HC; [|by eapply list_elem_of_lookup_2|exact Hsg]. by rewrite <- Hstate in HC.
Qed.

(** ** A failure that the tables already show *)

Lemma finished_items q s m :
  s ∈ all_steps_of (finish_plan None q) → m ∈ sp_WorkItems s → ∃ s', s' ∈ all_steps_of q ∧ m ∈ sp_WorkItems s'.
Proof.
  unfold finish_plan, all_steps_of. set (stages := derive_stage _ _ <$> _).
  assert (pl_Stages (deriveDependencyWorkflowState (set_pl_Stages stages q)) = stages) as ->.
  { unfold deriveDependencyWorkflowState. cbn [pl_Stages set_pl_Stages]. by repeat case_match. }
  assert (∀ s steps, s ∈ sortStepsByIndex steps → m ∈ sp_WorkItems s → ∃ s', s' ∈ steps ∧ m ∈ sp_WorkItems s') as Hsort.
  { intros s0 steps (s' & -> & Hs'%elem_of_order_by)%list_elem_of_fmap Hm. cbn in Hm. apply elem_of_order_by in Hm. by exists s'. }
  intros (g & Hs & (g1 & -> & (g0 & -> & Hg%elem_of_order_by)%list_elem_of_fmap)%list_elem_of_fmap)%list_elem_of_bind Hm.
  assert (s ∈ sortStepsByIndex (sortStepsByIndex (sg_Steps g0))) as Hs' by (revert Hs; unfold derive_stage; by case_match).
  destruct (Hsort _ _ Hs' Hm) as (s1 & Hs1 & Hm1). destruct (Hsort _ _ Hs1 Hm1) as (s2 & Hs2 & Hm2).
  exists s2. split; [|done]. apply list_elem_of_bind. by exists g0.
Qed.

(** In the plan of a run without an earlier one, the members with a failed attempt are failed. *)
Lemma failed_members db runID run p s m :
  workflow_instances (catalog db) !! runID = Some run →
  legacyWorkflowDependencyPlan (run_SubmissionContextJSON run) = None →
  (∀ id, ¬ (item_failed db runID id ∧ item_succeeded db runID id)) →
  getWorkflowDependencyState runID (Some db) = Ok (Some p) →
  s ∈ all_steps_of p → m ∈ sp_WorkItems s → item_failed db runID (mi_WorkItemID m) →
  mi_State m = WorkItemMembershipStateFailed.
Proof.
  intros Hrun Hlegacy Hsettled Hget Hs Hm Hfail.
  destruct (plan_read _ _ _ _ Hrun Hlegacy Hget) as (ev & q & derived & [_ Hl] & Hterm & -> & _ & _ & Hperm & HF & _).
  destruct (finished_items _ _ _ Hs Hm) as (s' & Hs' & Hm'). rewrite Hperm in Hs'. apply list_elem_of_lookup in Hs' as [k Hk].
  destruct (Forall2_lookup_r _ _ _ _ _ HF Hk) as (r & _ & fact & ms & -> & _).
  destruct (derive_step_parts ev r fact ms) as (_ & _ & _ & Hitems). rewrite Hitems in Hm'.
  apply list_elem_of_fmap in Hm' as (d & -> & _).
  assert (mi_WorkItemID (item_of ev d) = di_WorkItemID d) as Hid
    by (unfold item_of, deriveDependencyMembership; rewrite Hl, lookup_empty; by repeat case_match).
  destruct (bool_decide (is_Some fact)).
  - rewrite prune_completed_state. apply (derived_item_state ev d db runID Hl Hterm Hsettled). rewrite <- Hid. revert Hfail.
    unfold pruneCompletedMembershipOutput, prune_item. by repeat case_match.
  - apply (derived_item_state ev d db runID Hl Hterm Hsettled). by rewrite <- Hid.
Qed.
