(* ===== verification/DependencyFailure.v ===== *)
(** * Recording the failure of a work item

    When recording the failure of a work item changes the plan, the failed plan is stored
    with the run; whatever the tables say later, every plan read for the run is failed, with
    the reason recorded first.  When the tables show the failure already, as they do after the
    report of a worker, nothing is recorded, and the plan has no reason. *)

From S2P Require Import Prelude GoTime GoJson GoStrings GoJsonLaws.
From S2P Require Import GoSha256 Fingerprint GoJsonStruct Variables Expression StepOutputs OutputText.
From S2P Require Import VariableCodec VariableLaws Resource StoreData StoreSQL StoreOps StoreQueries StoreLease.
From S2P Require Import Dependency DependencyLaws SubmissionContext Stages DependencyStore.
From S2P Require Import DependencyRefinement.
Local Open Scope Z_scope.

(** ** Operations in sequence *)

Lemma op_bind_Ok {A B} (m : Op A) (k : A → Op B) c b c' :
  (m ≫= k) c = (Ok b, c') ↔ ∃ a c1, m c = (Ok a, c1) ∧ k a c1 = (Ok b, c').
Proof.
  unfold mbind, Op_bind. destruct (m c) as [[a|e] c1].
  - naive_solver.
  - split; [done|]. by intros (? & ? & ? & _).
Qed.
Lemma lift_Ok {A} (r : result A) c a c' : lift r c = (Ok a, c') ↔ r = Ok a ∧ c' = c.
Proof. unfold lift. naive_solver. Qed.
Lemma stop_Ok {A} (a b : A) c c' : stop a c = (Ok b, c') ↔ b = a ∧ c' = c.
Proof. unfold stop, mret, Op_ret. naive_solver. Qed.

Lemma for_each_op_inv {A} (P : Controller → Prop) (f : A → Op unit) l c u c' :
  (∀ x c c', P c → f x c = (Ok tt, c') → P c') → P c → for_each_op f l c = (Ok u, c') → P c'.
Proof.
  intros Hf. revert c. induction l as [|x l IH]; intros c Hc H; cbn [for_each_op] in H.
  - by apply stop_Ok in H as [_ ->].
  - apply op_bind_Ok in H as ([] & c1 & H1 & H2). eauto.
Qed.

(** The run rows of the controller's database. *)
Definition has_runs (runs : gmap string WorkflowRunRecord) (c : Controller) : Prop :=
  ∃ db, workflowStore c = Some (Some db) ∧ workflow_instances (catalog db) = runs.

Section failure.
Context (now : nat → Time) (eng : Engine).

Lemma timestamp_runs runs c t c' : has_runs runs c → timestamp_now now c = (Ok t, c') → has_runs runs c'.
Proof.
  intros Hc H. apply (f_equal snd) in H. unfold timestamp_now in H. cbn [snd] in H. subst c'.
  destruct Hc as (db & Hs & Hr). exists db. split; assumption.
Qed.

Lemma emit_runs runs a b lv m c u c' :
  has_runs runs c → emitDependencyObservation now a b lv m c = (Ok u, c') → has_runs runs c'.
Proof.
  intros Hc H. unfold emitDependencyObservation in H. apply op_bind_Ok in H as (t & c1 & H1 & H).
  apply (timestamp_runs runs) in H1 as (db & Hs & Hr); [|exact Hc].
  apply (f_equal snd) in H. unfold AcceptLogObservation in H. cbn [snd] in H. subst c'.
  exists db. split; assumption.
Qed.

Lemma transitions_runs runs before after c u c' :
  has_runs runs c → emitDependencyTransitions now before after c = (Ok u, c') → has_runs runs c'.
Proof.
  intros Hc H. unfold emitDependencyTransitions in H. apply op_bind_Ok in H as ([] & c1 & H1 & H2).
  assert (has_runs runs c1) as Hc1.
  { eapply for_each_op_inv; [|exact Hc|exact H1]. intros g c2 c3 Hc2 Hg. unfold emit_stage_transition in Hg.
    repeat case_match; try (by apply stop_Ok in Hg as [_ ->]); by eapply emit_runs. }
  repeat case_match; try (by apply stop_Ok in H2 as [_ ->]); by eapply emit_runs.
Qed.

Lemma upsert_fact_runs runs runID s kind c u c' :
  has_runs runs c → upsertWorkflowStepOutputFact now eng runID s kind c = (Ok u, c') → has_runs runs c'.
Proof.
  intros Hc H. unfold upsertWorkflowStepOutputFact in H.
  apply op_bind_Ok in H as (u1 & c1 & H1 & H). injection H1 as _ <-.
  apply op_bind_Ok in H as (u2 & c2 & H2 & H). apply lift_Ok in H2 as [_ ->].
  apply op_bind_Ok in H as (t & c3 & H3 & H). eapply timestamp_runs in H3 as (db & Hs & Hr); [|exact Hc].
  unfold call_store in H. rewrite Hs in H. unfold UpsertWorkflowStepOutputFact, transact in H.
  destruct (validate_output_fact _) as [[]|]; cbn [mbind result_bind] in H; [|discriminate].
  unfold on_catalog_tx, tx_upsert_output_fact in H.
  destruct (wrap_err _ _) as [[]|]; cbn [mbind result_bind] in H; [|discriminate].
  injection H as _ <-. eexists. split; [done|]. cbn. done.
Qed.

Lemma upsert_pruned_runs runs p c u c' :
  has_runs runs c → upsertTerminalPrunedWorkflowStepOutputFacts now eng p c = (Ok u, c') → has_runs runs c'.
Proof.
  intros Hc H. unfold upsertTerminalPrunedWorkflowStepOutputFacts in H.
  destruct (workflow_terminal p); [|by apply stop_Ok in H as [_ ->]].
  eapply for_each_op_inv; [|exact Hc|exact H]. intros s c1 c2 Hc1 Hs. unfold upsert_pruned_fact in Hs.
  case_match; [by apply stop_Ok in Hs as [_ ->]|]. apply op_bind_Ok in Hs as (f & c3 & H3 & Hs).
  unfold query_store in H3. injection H3 as _ <-. by eapply upsert_fact_runs.
Qed.

(** ** Storing the failed plan *)

Lemma persist_failure runID p run runs c u c' context :
  pl_State p = WorkflowStateFailed → plan_storable p = true →
  has_runs runs c → runs !! runID = Some run →
  Unmarshal_context (run_SubmissionContextJSON run) = Ok context → context_storable context = true →
  setWorkflowDependencyState eng runID p c = (Ok u, c') →
  ∃ run', has_runs (<[runID := run']> runs) c' ∧
    legacyWorkflowDependencyPlan (run_SubmissionContextJSON run') = Some p.
Proof.
  intros Hfail Hp (db & Hs & Hr) Hrun Hctx Hok H. unfold setWorkflowDependencyState in H.
  apply op_bind_Ok in H as ([] & c1 & H1 & H). apply lift_Ok in H1 as [Hvalid ->].
  rewrite bool_decide_eq_true_2 in H by done. cbn [negb] in H.
  apply op_bind_Ok in H as (found & c2 & H2 & H). unfold query_store in H2. rewrite Hs in H2. cbn [default] in H2.
  injection H2 as H2 <-. rewrite wrap_err_Ok in H2. unfold id, GetWorkflowRun, query, getWorkflowRun in H2.
  cbn [mbind result_bind] in H2. apply bind_Ok in H2 as (u2 & _ & H2). rewrite Hr, Hrun in H2. injection H2 as <-.
  apply op_bind_Ok in H as (cx & c3 & H3 & H). apply lift_Ok in H3 as [H3 ->]. rewrite wrap_err_Ok, Hctx in H3. injection H3 as <-.
  apply op_bind_Ok in H as (json & c4 & H4 & H). apply lift_Ok in H4 as [H4 ->]. rewrite wrap_err_Ok in H4.
  assert (context_storable (set_cx_DependencyState (Some p) context) = true) as Hok'.
  { unfold context_storable in *. rewrite !andb_true_iff in *. cbn. tauto. }
  destruct (context_reads _ Hok') as (text & Hm & Hu). rewrite H4 in Hm. injection Hm as <-.
  unfold call_store in H. rewrite Hs in H. unfold UpdateWorkflowRunSubmissionContext, transact in H.
  destruct (required runID _ ≫= _) as [[]|]; cbn [mbind result_bind wrap_err] in H; [|discriminate].
  unfold on_catalog_tx, tx_update_submission_context in H. rewrite Hr, Hrun in H.
  destruct (wrap_err _ (checked _ _ _ _ _)) as [[]|]; cbn [mbind result_bind wrap_err] in H; [|discriminate].
  apply (f_equal snd) in H. cbn [snd] in H. subst c'. eexists. split.
  - eexists. split; [reflexivity|]. cbn [catalog workflow_instances set_workflow_instances]. reflexivity.
  - cbn [run_SubmissionContextJSON]. unfold legacyWorkflowDependencyPlan. rewrite Hu.
    cbn [cx_DependencyState canon_context set_cx_DependencyState]. rewrite Hvalid. reflexivity.
Qed.

(** ** Reading a plan after a failure was stored *)

Lemma add_step_reason r s p : is_empty (pl_FailureReason p) = false → pl_FailureReason (add_step r s p) = pl_FailureReason p.
Proof.
  intros He. unfold add_step. rewrite He, andb_false_r. by repeat case_match.
Qed.

Lemma finish_plan_failed l p :
  pl_State l = WorkflowStateFailed → pl_FailureReason p = pl_FailureReason l →
  pl_State (finish_plan (Some l) p) = WorkflowStateFailed ∧ pl_FailureReason (finish_plan (Some l) p) = pl_FailureReason l.
Proof.
  intros Hl Hr. unfold finish_plan.
  set (q := deriveDependencyWorkflowState _).
  assert (pl_FailureReason q = pl_FailureReason l) as Hq.
  { unfold q, deriveDependencyWorkflowState. by repeat case_match. }
  case_bool_decide as Hd; [done|]. split; [|done]. destruct (decide (pl_State q = WorkflowStateFailed)); tauto.
Qed.

Lemma stored_failure_read runID db run l q :
  workflow_instances (catalog db) !! runID = Some run →
  legacyWorkflowDependencyPlan (run_SubmissionContextJSON run) = Some l →
  pl_State l = WorkflowStateFailed → is_empty (pl_FailureReason l) = false →
  getWorkflowDependencyState runID (Some db) = Ok (Some q) →
  pl_State q = WorkflowStateFailed ∧ pl_FailureReason q = pl_FailureReason l.
Proof.
  intros Hrun Hl Hst He Hget. unfold getWorkflowDependencyState in Hget.
  apply bind_Ok in Hget as (found & Hfound & Hget). rewrite wrap_err_Ok in Hfound.
  unfold GetWorkflowRun, query, getWorkflowRun in Hfound. cbn [mbind result_bind] in Hfound.
  apply bind_Ok in Hfound as (u & _ & Hfound). rewrite Hrun in Hfound. injection Hfound as <-.
  apply bind_Ok in Hget as (records & _ & Hget). destruct records as [|r0 rs]; [discriminate|]. rewrite Hl in Hget.
  apply bind_Ok in Hget as (ev & _ & Hget). apply bind_Ok in Hget as (p & Hp & Hget).
  apply bind_Ok in Hget as (u2 & _ & Hget). injection Hget as <-.
  apply finish_plan_failed; [done|].
  refine (foldM_inv (λ p, pl_FailureReason p = pl_FailureReason l) _ _ _ _ _ _ Hp); [|done].
  intros p1 r p2 _ Hp1 H. unfold read_step in H. apply bind_Ok in H as (fact & _ & H). apply bind_Ok in H as (ms & _ & H).
  injection H as <-. rewrite add_step_reason; [done|by rewrite Hp1].
Qed.

(** ** Failing a plan *)

Lemma or_reason_kept current reason : is_empty reason = false → is_empty (or_reason current reason) = false.
Proof. unfold or_reason. by destruct (is_empty current) eqn:?. Qed.

Lemma mark_failed p i j id reason :
  let q := pruneDependencyOutputsIfTerminal (markDependencyPlanFailed p i j id reason) in
  pl_State q = WorkflowStateFailed ∧ is_empty (pl_FailureReason q) = false.
Proof.
  assert (∀ r, pl_State (pruneDependencyOutputsIfTerminal r) = pl_State r ∧
    pl_FailureReason (pruneDependencyOutputsIfTerminal r) = pl_FailureReason r) as Hprune.
  { intros r. unfold pruneDependencyOutputsIfTerminal. by case_match. }
  intros q. unfold q. destruct (Hprune (markDependencyPlanFailed p i j id reason)) as [-> ->].
  unfold markDependencyPlanFailed.
  set (r := if is_empty (TrimSpace reason) then _ else _).
  assert (is_empty r = false) as Hr.
  { unfold r. destruct (is_empty (TrimSpace reason)) eqn:E; [done|]. by destruct reason. }
  pose proof (or_reason_kept (pl_FailureReason p) r Hr) as Hkept.
  repeat case_match; cbn; by split.
Qed.

Lemma terminal_failure_marks before id reason p :
  updateDependencyPlanForWorkItemTerminal before id WorkItemMembershipStateFailed reason = (true, p) →
  pl_State p = WorkflowStateFailed ∧ is_empty (pl_FailureReason p) = false.
Proof.
  unfold updateDependencyPlanForWorkItemTerminal. intros H.
  repeat (case_match; try discriminate). injection H as <-. apply mark_failed.
Qed.

(** Both operations that fail a plan end this way. *)
Lemma failed_plan_is_final runID before p run runs c u c' context :
  pl_State p = WorkflowStateFailed → is_empty (pl_FailureReason p) = false → plan_storable p = true →
  has_runs runs c → runs !! runID = Some run →
  Unmarshal_context (run_SubmissionContextJSON run) = Ok context → context_storable context = true →
  (upsertTerminalPrunedWorkflowStepOutputFacts now eng p;;
   setWorkflowDependencyState eng runID p;;
   emitDependencyTransitions now before p) c = (Ok u, c') →
  ∃ run', has_runs (<[runID := run']> runs) c' ∧
    ∀ db q, workflow_instances (catalog db) !! runID = Some run' →
      getWorkflowDependencyState runID (Some db) = Ok (Some q) →
      pl_State q = WorkflowStateFailed ∧ pl_FailureReason q = pl_FailureReason p.
Proof.
  intros Hst He Hp Hc Hrun Hctx Hok H.
  apply op_bind_Ok in H as (u1 & c1 & H1 & H). eapply upsert_pruned_runs in H1; [|exact Hc].
  apply op_bind_Ok in H as (u2 & c2 & H2 & H).
  eapply persist_failure in H2 as (run' & Hc2 & Hl); [|eassumption..].
  eapply transitions_runs in H; [|exact Hc2]. exists run'. split; [exact H|].
  intros db q Hdb Hget. by eapply stored_failure_read.
Qed.
End failure.


(** A run whose item is queued; then it fails. *)
Definition demo_queued_run : DB :=
  mkDB
    (mkCatalog ∅ ∅ {["run" := mkRun "run" "p" "wf" "{}" "2026-01-01T00:00:00Z"]} ∅
       (<[("run", 0) := mkDepStep "run" 0 0 "extract" "" "2026-01-01T00:00:00Z"]>
          {[("run", 1) := mkDepStep "run" 1 1 "load" "" "2026-01-01T00:00:00Z"]})
       {[("run", "run:a") := mkDepItem "run" 0 0 "run:a" 0 "2026-01-01T00:00:00Z"]} ∅)
    (mkExec {["run:a" := mkWorkItem "run:a" "run" 0 0 "{}" "00" "2026-01-01T00:00:00Z"]}
       ∅ ∅ ∅ ∅ ∅ ∅ ∅ ∅ ∅).
Definition demo_controller : Controller := mkController (Some (Some demo_queued_run)) 0 (Some []).
Definition demo_plan_before : WorkflowDependencyPlan :=
  match getWorkflowDependencyState "run" (Some demo_queued_run) with Ok (Some p) => p | _ => mkPlan "" "" WorkflowStateFailed "" [] end.
Definition demo_plan_after : WorkflowDependencyPlan :=
  (updateDependencyPlanForWorkItemTerminal demo_plan_before "run:a" WorkItemMembershipStateFailed "disk full").2.
Definition demo_clock (n : nat) : Time := mkTime 2026 1 1 0 0 (Z.of_nat n) 0 0.
Definition demo_recorded : result unit * Controller :=
  RecordWorkItemTerminalFailure demo_clock demo_engine "run" "run:a" "disk full" demo_controller.


(** ** A failure that a worker reports *)

(** The failure that a worker reports leaves no reason in the plan.  The handler stores the
    failed attempt before it records the failure; but when the item already has a failed attempt,
    no successful one, and the run stores no earlier plan, the plan shows the item failed already:
    recording the failure returns and changes nothing, whatever the reason, and the plan has no
    reason of failure. *)
Theorem reported_failure_leaves_no_reason now eng runID workItemID reason c db run p :
  workflowStore c = Some (Some db) → workflow_instances (catalog db) !! runID = Some run →
  legacyWorkflowDependencyPlan (run_SubmissionContextJSON run) = None →
  (∀ id, ¬ (item_failed db runID id ∧ item_succeeded db runID id)) →
  getWorkflowDependencyState runID (Some db) = Ok (Some p) →
  runID ≠ "" → workItemID ≠ "" → item_failed db runID workItemID →
  RecordWorkItemTerminalFailure now eng runID workItemID reason c = (Ok tt, c) ∧ pl_FailureReason p = "".
Proof.
  intros Hst Hrun Hlegacy Hsettled Hget Hr Hw Hfail. split.
  2: { by destruct (plan_read _ _ _ _ Hrun Hlegacy Hget) as (ev & q & derived & _ & _ & _ & _ & _ & _ & _ & _ & Hreason). }
  assert (updateDependencyPlanForWorkItemTerminal p workItemID WorkItemMembershipStateFailed reason = (false, p)) as Hupd.
  { unfold updateDependencyPlanForWorkItemTerminal. destruct (findDependencyWorkItem p workItemID) as [[i [j k]]|] eqn:E; [|done].
    apply findDependencyWorkItem_Some in E as (g & s & m & Hg & Hs & Hm & Hid). rewrite Hg, Hs, Hm.
    rewrite decide_True; [done|]. eapply failed_members; [done..| | |by rewrite Hid].
    - apply list_elem_of_bind. exists g. split; by eapply list_elem_of_lookup_2.
    - by eapply list_elem_of_lookup_2. }
  unfold RecordWorkItemTerminalFailure, recordWorkItemTerminalState, read_plan, requireStore, lift, query_store, mbind, Op_bind.
  unfold required, is_empty. rewrite Hst, !bool_decide_eq_false_2 by done. cbn. unfold id. rewrite Hget, Hupd. done.
Qed.
Lemma reported_failure_leaves_no_reason_witness :
  let c := mkController (Some (Some demo_failed_run)) 0 None in
  RecordWorkItemTerminalFailure demo_clock demo_engine "run" "run:a" "disk full" c = (Ok tt, c).
Proof.
  intros c. destruct (getWorkflowDependencyState "run" (Some demo_failed_run)) as [[p|]|] eqn:E; [|by vm_compute in E..].
  refine (proj1 (reported_failure_leaves_no_reason demo_clock demo_engine "run" "run:a" "disk full" c demo_failed_run
    (mkRun "run" "p" "wf" "{}" "2026-01-01T00:00:00Z") p eq_refl _ _ _ E _ _ _)).
  - vm_compute. reflexivity.
  - vm_compute. reflexivity.
  - assert (run_attempts demo_failed_run "run"
      = [mkTerminal "t1" (mkWorkItem "run:a" "run" 0 0 "{}" "00" "2026-01-01T00:00:00Z") "failed" "" "controller"
           "2026-01-01T00:00:00Z" "2026-01-01T00:00:00Z" "2026-01-01T00:01:00Z" "disk full" "" "" "" "" ""]) as Hatt by (by vm_compute).
    intros id [(t & Ht & _ & H1) (t' & Ht' & _ & H2)]. rewrite Hatt in Ht, Ht'.
    apply list_elem_of_singleton in Ht, Ht'. subst. by destruct H2.
  - discriminate.
  - discriminate.
  - eexists. split; [vm_compute; left|split; reflexivity].
Defined.
