(* ===== verification/WorkItem.v ===== *)
(** * Work items ([internal/model/work_item.go])

    A work item is what the controller queues and a worker runs: an id, a type, the
    name of its output file and named parameters.  A parameter carries a value or a
    reference to a protected value; a sensitive parameter must carry a reference.
    The execution envelope is the view of the parameters that is handed to a plugin:
    public values and protected references apart.

    The [any] of [Parameter.Value] is [PValue]; the structs that the data operators
    put there are the type [Payload].  A loop over a Go map runs in the order of
    [map_to_list]: which of several errors is reported is not fixed by Go, and no
    theorem depends on it. *)

From S2P Require Import Prelude GoTime GoStrings Variables StoreData Dependency.
Local Open Scope Z_scope.

(** ** Paths *)

Fixpoint drop_slashes (s : string) : string :=
  match s with String "/" s' => drop_slashes s' | _ => s end.
Fixpoint take_to_slash (s : string) : string :=
  match s with
  | EmptyString => ""
  | String c s' => if decide (c = "/"%char) then "" else String c (take_to_slash s')
  end.
(** [filepath.Base] with the separator "/": the last element of a path. *)
Definition filepath_Base (path : string) : string :=
  if is_empty path then "." else
  match drop_slashes (str_rev path) with
  | EmptyString => "/"
  | trimmed => str_rev (take_to_slash trimmed)
  end.

(** [if strings.TrimSpace(value) == "" { return errors.New(msg) }] *)
Definition required_trimmed (value msg : string) : result unit :=
  fail_if (is_empty (TrimSpace value)) (Errorf msg).

(** ** Data *)

Definition WorkItemType : Type := string.
Definition WorkItemTypePythonScript : WorkItemType := "python_script".
Definition WorkItemTypeAssetMaterialize : WorkItemType := "asset.materialize".
Definition WorkItemTypeCommitData : WorkItemType := "commit_data".

Record WorkItemResourceConstraint := mkWorkConstraint {
  wc_WorkItemID : string; wc_ConstraintIndex : Z; wc_ResourceKey : string; wc_RequestedUnits : Z;
  wc_Operator : string; wc_TargetUnits : Z; wc_CreatedAt : string }.

Record WorkItemSource := mkSource { ws_Schema : string; ws_RunID : string; ws_ManifestPath : string }.

Record WorkReuseCandidate := mkCandidate {
  ru_AttemptID : string; ru_InputSHA256 : string; ru_OutputSHA256 : string; ru_PreStateSHA256 : string;
  ru_PostStateSHA256 : string; ru_OutputJSONSHA256 : string; ru_ControllerSHA256 : string; ru_PluginSHA256 : string }.

Record ParameterMaterialization := mkMaterialization { pm_Mode : string; pm_Target : string }.

Section payload.
Context {Payload : Type}.

(** Nil, the scalars, a decoded number, [map[string]any], [[]any], and a struct. *)
Inductive PValue :=
  | PNil
  | PString (s : string)
  | PInt (z : Z)
  | PBool (b : bool)
  | PTime (t : Time)
  | PNumber (text : string)
  | PMap (fields : list (string * PValue))
  | PSlice (items : list PValue)
  | PPayload (p : Payload).

Definition is_nil (v : PValue) : bool := match v with PNil => true | _ => false end.

Record WorkParameter := mkParameter {
  pa_Type : string; pa_Value : PValue; pa_Sensitive : bool; pa_RedactionLabel : string;
  pa_ProtectedRef : option ProtectedRef; pa_Materialize : option ParameterMaterialization }.

(** [Parameters]; [None] is a nil map. *)
Definition Parameters : Type := option (gmap string WorkParameter).
Definition parameter_map (p : Parameters) : gmap string WorkParameter := default ∅ p.

Record ExecutionEnvelopePublicValue := mkPublic { pu_Type : string; pu_Value : PValue }.
Record ExecutionEnvelopeProtectedReference := mkProtectedReference {
  pr_Type : string; pr_Provider : string; pr_Key : string; pr_RedactionLabel : string;
  pr_Materialize : option ParameterMaterialization }.
Record ExecutionEnvelope := mkEnvelope {
  xe_Schema : string; xe_ID : string; xe_Type : WorkItemType;
  xe_Public : gmap string ExecutionEnvelopePublicValue;
  xe_ProtectedRefs : gmap string ExecutionEnvelopeProtectedReference }.

Record WorkItem := mkItem {
  w_ID : string; w_AttemptID : string; w_Type : WorkItemType; w_Source : option WorkItemSource;
  w_OutputFilename : string; w_Parameters : Parameters; w_ExecutionEnvelope : option ExecutionEnvelope;
  w_DependsOn : list string; w_ReuseCandidates : list WorkReuseCandidate;
  w_WorkflowDefinitionID : string; w_WorkflowFingerprint : string; w_WorkflowInstanceID : string;
  w_StepDefinitionID : string; w_StepFingerprint : string; w_StepInstanceID : string;
  w_WorkItemFingerprint : string; w_InputFingerprint : string; w_OutputFingerprint : string;
  w_CodeVersion : string }.

(** A struct literal that sets only these fields. *)
Definition new_item (id : string) (ty : WorkItemType) (output : string) (parameters : Parameters) : WorkItem :=
  mkItem id "" ty None output parameters None [] [] "" "" "" "" "" "" "" "" "" "".
Definition set_w_Parameters (p : Parameters) (i : WorkItem) : WorkItem :=
  mkItem (w_ID i) (w_AttemptID i) (w_Type i) (w_Source i) (w_OutputFilename i) p (w_ExecutionEnvelope i)
    (w_DependsOn i) (w_ReuseCandidates i) (w_WorkflowDefinitionID i) (w_WorkflowFingerprint i)
    (w_WorkflowInstanceID i) (w_StepDefinitionID i) (w_StepFingerprint i) (w_StepInstanceID i)
    (w_WorkItemFingerprint i) (w_InputFingerprint i) (w_OutputFingerprint i) (w_CodeVersion i).
Definition set_w_ExecutionEnvelope (e : option ExecutionEnvelope) (i : WorkItem) : WorkItem :=
  mkItem (w_ID i) (w_AttemptID i) (w_Type i) (w_Source i) (w_OutputFilename i) (w_Parameters i) e
    (w_DependsOn i) (w_ReuseCandidates i) (w_WorkflowDefinitionID i) (w_WorkflowFingerprint i)
    (w_WorkflowInstanceID i) (w_StepDefinitionID i) (w_StepFingerprint i) (w_StepInstanceID i)
    (w_WorkItemFingerprint i) (w_InputFingerprint i) (w_OutputFingerprint i) (w_CodeVersion i).

(** ** Validation *)

Definition WorkItemSource_Validate (source : WorkItemSource) : result unit :=
  required_trimmed (ws_RunID source) "work item source run id is required";;
  required_trimmed (ws_ManifestPath source) "work item source manifest path is required";;
  fail_if (is_empty (TrimSpace (ws_Schema source)) && negb (is_empty (ws_Schema source)))
    (Errorf "work item source schema must not be empty when set").

Definition ParameterMaterialization_Validate (m : ParameterMaterialization) : result unit :=
  required_trimmed (pm_Mode m) "materialize mode is required";;
  fail_if (negb (bool_decide (pm_Mode m = "env")) && negb (bool_decide (pm_Mode m = "file")))
    (Errorf ("unsupported materialize mode " +:+ pm_Mode m));;
  required_trimmed (pm_Target m) "materialize target is required";;
  fail_if (negb (bool_decide (TrimSpace (pm_Target m) = pm_Target m))
           || contains_any (bytes [32; 9; 13; 10; 61]%N) (pm_Target m))
    (Errorf "materialize target must be an environment variable name").

Definition Parameter_Validate (p : WorkParameter) : result unit :=
  fail_if (is_empty (pa_Type p)) (Errorf "type is required");;
  match pa_ProtectedRef p with
  | Some ref =>
      ProtectedRef_Validate ref;;
      fail_if (negb (is_nil (pa_Value p))) (Errorf "protected reference value must be omitted");;
      match pa_Materialize p with
      | Some m => ParameterMaterialization_Validate m
      | None => Ok tt
      end
  | None =>
      fail_if (pa_Sensitive p) (Errorf "sensitive parameter must use protected_ref");;
      fail_if (is_nil (pa_Value p)) (Errorf "value is required");;
      fail_if (bool_decide (is_Some (pa_Materialize p))) (Errorf "materialize requires protected_ref")
  end.

Definition validate_public (nv : string * ExecutionEnvelopePublicValue) : result unit :=
  required_trimmed nv.1 "public variable name is required";;
  required_trimmed (pu_Type nv.2) ("public variable " +:+ nv.1 +:+ " type is required");;
  fail_if (is_nil (pu_Value nv.2)) (Errorf ("public variable " +:+ nv.1 +:+ " value is required")).
Definition validate_protected (nr : string * ExecutionEnvelopeProtectedReference) : result unit :=
  let '(name, ref) := nr in
  required_trimmed name "protected reference name is required";;
  required_trimmed (pr_Type ref) ("protected reference " +:+ name +:+ " type is required");;
  wrap_err ("protected reference " +:+ name)
    (ProtectedRef_Validate (mkProtected (pr_Provider ref) (pr_Key ref) (pr_RedactionLabel ref)));;
  match pr_Materialize ref with
  | Some m => wrap_err ("protected reference " +:+ name) (ParameterMaterialization_Validate m)
  | None => Ok tt
  end.
Definition ExecutionEnvelope_Validate (e : ExecutionEnvelope) : result unit :=
  fail_if (negb (bool_decide (xe_Schema e = "goet/execution-envelope/v1")))
    (Errorf ("unsupported schema " +:+ xe_Schema e));;
  for_each validate_public (map_to_list (xe_Public e));;
  for_each validate_protected (map_to_list (xe_ProtectedRefs e)).

Definition validate_parameter (np : string * WorkParameter) : result unit :=
  fail_if (is_empty np.1) (Errorf "parameter name is required");;
  wrap_err ("parameter " +:+ np.1) (Parameter_Validate np.2).
Definition validate_dependency (i : nat) (dependency : string) : result unit :=
  required_trimmed dependency ("depends_on[" +:+ pretty i +:+ "] is required").

Definition WorkItem_validate (allowMissingPythonSource : bool) (item : WorkItem) : result unit :=
  required (w_ID item) "work item id is required";;
  required (w_Type item) "work item type is required";;
  required (w_OutputFilename item) "output filename is required";;
  fail_if (negb (bool_decide (filepath_Base (w_OutputFilename item) = w_OutputFilename item)))
    (Errorf ("output filename must not contain a directory: " +:+ w_OutputFilename item));;
  (if decide (w_Type item = WorkItemTypePythonScript) then
     match w_Source item with
     | None => fail_if (negb allowMissingPythonSource)
                 (Errorf ("work item source is required for " +:+ w_Type item))
     | Some source => WorkItemSource_Validate source
     end
   else Ok tt);;
  for_each validate_parameter (map_to_list (parameter_map (w_Parameters item)));;
  (match w_ExecutionEnvelope item with
   | Some e => wrap_err "execution envelope" (ExecutionEnvelope_Validate e)
   | None => Ok tt
   end);;
  traverse_items validate_dependency 0 (w_DependsOn item);;
  Ok tt.
Definition WorkItem_Validate (item : WorkItem) : result unit := WorkItem_validate false item.
Definition ValidateForWorkflowCompile (item : WorkItem) : result unit := WorkItem_validate true item.

Definition isSupportedWorkItemResourceConstraintOperator (operator : string) : bool :=
  bool_decide (operator ∈ ["="; "!="; "<"; ">"; "<="; ">="]).
Definition WorkItemResourceConstraint_Validate (c : WorkItemResourceConstraint) : result unit :=
  required_trimmed (wc_WorkItemID c) "work item id is required";;
  non_negative (wc_ConstraintIndex c) "constraint index must be non-negative";;
  required_trimmed (wc_ResourceKey c) "resource key is required";;
  fail_if (wc_RequestedUnits c <=? 0) (Errorf "requested units must be greater than 0");;
  fail_if (negb (isSupportedWorkItemResourceConstraintOperator (wc_Operator c)))
    (Errorf ("unsupported resource constraint operator " +:+ wc_Operator c));;
  non_negative (wc_TargetUnits c) "target units must be non-negative";;
  required_trimmed (wc_CreatedAt c) "created at is required".

(** ** The execution envelope *)

Definition public_value (p : WorkParameter) : ExecutionEnvelopePublicValue := mkPublic (pa_Type p) (pa_Value p).
Definition protected_reference (p : WorkParameter) (ref : ProtectedRef) : ExecutionEnvelopeProtectedReference :=
  let ref := ProtectedRef_Normalize ref in
  mkProtectedReference (pa_Type p) (p_Provider ref) (p_Key ref) (RedactionLabelValue ref) (pa_Materialize p).

Definition add_to_envelope (envelope : ExecutionEnvelope) (np : string * WorkParameter) : result ExecutionEnvelope :=
  let '(name, p) := np in
  wrap_err ("parameter " +:+ name) (Parameter_Validate p);;
  match pa_ProtectedRef p with
  | Some ref =>
      Ok (mkEnvelope (xe_Schema envelope) (xe_ID envelope) (xe_Type envelope) (xe_Public envelope)
            (<[name := protected_reference p ref]> (xe_ProtectedRefs envelope)))
  | None =>
      Ok (mkEnvelope (xe_Schema envelope) (xe_ID envelope) (xe_Type envelope)
            (<[name := public_value p]> (xe_Public envelope)) (xe_ProtectedRefs envelope))
  end.
Definition NewExecutionEnvelope (item : WorkItem) : result ExecutionEnvelope :=
  foldM add_to_envelope (mkEnvelope "goet/execution-envelope/v1" (w_ID item) (w_Type item) ∅ ∅)
    (map_to_list (parameter_map (w_Parameters item))).
Definition WithExecutionEnvelope (item : WorkItem) : result WorkItem :=
  envelope ← NewExecutionEnvelope item;
  Ok (set_w_ExecutionEnvelope (Some envelope) item).
End payload.
Arguments PValue : clear implicits.
Arguments WorkParameter : clear implicits.
Arguments Parameters : clear implicits.
Arguments ExecutionEnvelopePublicValue : clear implicits.
Arguments ExecutionEnvelope : clear implicits.
Arguments WorkItem : clear implicits.

(** * The execution envelope of a work item

    The envelope splits the parameters: those with a protected reference appear as a
    reference only, the others with their values. *)
Local Open Scope Z_scope.

Section laws.
Context {Payload : Type}.
Notation parameter := (WorkParameter Payload).

Definition public_part (p : parameter) : option (ExecutionEnvelopePublicValue Payload) :=
  match pa_ProtectedRef p with None => Some (public_value p) | Some _ => None end.
Definition protected_part (p : parameter) : option ExecutionEnvelopeProtectedReference :=
  protected_reference p <$> pa_ProtectedRef p.

(** The envelope of some parameters added to one. *)
Definition add_all (e : ExecutionEnvelope Payload) (ps : gmap string parameter) : ExecutionEnvelope Payload :=
  mkEnvelope (xe_Schema e) (xe_ID e) (xe_Type e) (omap public_part ps ∪ xe_Public e)
    (omap protected_part ps ∪ xe_ProtectedRefs e).

Lemma add_all_insert e n p ps :
  ps !! n = None → xe_Public e !! n = None → xe_ProtectedRefs e !! n = None →
  add_all (mkEnvelope (xe_Schema e) (xe_ID e) (xe_Type e)
             (match public_part p with Some v => <[n := v]> (xe_Public e) | None => xe_Public e end)
             (match protected_part p with Some v => <[n := v]> (xe_ProtectedRefs e) | None => xe_ProtectedRefs e end)) ps
  = add_all e (<[n := p]> ps).
Proof.
  intros Hn Hpu Hpr. unfold add_all. cbn. f_equal.
  - apply map_eq. intros k. rewrite !lookup_union, !lookup_omap. destruct (decide (k = n)) as [->|Hne].
    + rewrite lookup_insert_eq, Hn. cbn. by destruct (public_part p); rewrite ?lookup_insert_eq, ?Hpu.
    + rewrite lookup_insert_ne by done. destruct (public_part p); [|done]. by rewrite lookup_insert_ne.
  - apply map_eq. intros k. rewrite !lookup_union, !lookup_omap. destruct (decide (k = n)) as [->|Hne].
    + rewrite lookup_insert_eq, Hn. cbn. by destruct (protected_part p); rewrite ?lookup_insert_eq, ?Hpr.
    + rewrite lookup_insert_ne by done. destruct (protected_part p); [|done]. by rewrite lookup_insert_ne.
Qed.

Lemma add_to_envelope_Ok (e : ExecutionEnvelope Payload) n p e' :
  add_to_envelope e (n, p) = Ok e' ↔ Parameter_Validate p = Ok tt ∧
  e' = mkEnvelope (xe_Schema e) (xe_ID e) (xe_Type e)
         (match public_part p with Some v => <[n := v]> (xe_Public e) | None => xe_Public e end)
         (match protected_part p with Some v => <[n := v]> (xe_ProtectedRefs e) | None => xe_ProtectedRefs e end).
Proof.
  unfold add_to_envelope, public_part, protected_part. rewrite bind_Ok. setoid_rewrite wrap_err_Ok.
  destruct (pa_ProtectedRef p); cbn; split; try (by intros ([] & ? & [= <-])); intros [? ->]; by exists tt.
Qed.

Lemma envelope_loop l (e e' : ExecutionEnvelope Payload) :
  NoDup l.*1 → (∀ n, n ∈ l.*1 → xe_Public e !! n = None ∧ xe_ProtectedRefs e !! n = None) →
  foldM add_to_envelope e l = Ok e' ↔
  Forall (λ np, Parameter_Validate np.2 = Ok tt) l ∧ e' = add_all e (list_to_map l).
Proof.
  revert e. induction l as [|[n p] l IH]; intros e Hn Hfresh; cbn [foldM].
  { split.
    - intros [= <-]. split; [constructor|]. unfold add_all. cbn. rewrite !omap_empty, !(left_id_L ∅ _). by destruct e.
    - intros [_ ->]. f_equal. unfold add_all. cbn. rewrite !omap_empty, !(left_id_L ∅ _). by destruct e. }
  cbn [fmap list_fmap fst] in *. apply NoDup_cons in Hn as [Hnl Hn]. rewrite bind_Ok, Forall_cons. cbn [snd].
  destruct (Hfresh n) as [Hpu Hpr]; [left|].
  setoid_rewrite add_to_envelope_Ok.
  assert (∀ e1, e1 = mkEnvelope (xe_Schema e) (xe_ID e) (xe_Type e)
         (match public_part p with Some v => <[n := v]> (xe_Public e) | None => xe_Public e end)
         (match protected_part p with Some v => <[n := v]> (xe_ProtectedRefs e) | None => xe_ProtectedRefs e end) →
    foldM add_to_envelope e1 l = Ok e' ↔
      Forall (λ np, Parameter_Validate np.2 = Ok tt) l ∧ e' = add_all e (list_to_map ((n, p) :: l))) as Hstep.
  { intros e1 ->. rewrite IH; [|done|].
    - cbn [list_to_map foldr fst snd]. rewrite add_all_insert; [done| |done|done]. by apply not_elem_of_list_to_map_1.
    - intros k Hk. assert (k ≠ n) by (by intros ->). destruct (Hfresh k) as [? ?]; [by right|]. cbn.
      split; [destruct (public_part p)|destruct (protected_part p)]; try done; by rewrite lookup_insert_ne. }
  split.
  - intros (e1 & [Hv He1] & Hrest). apply (Hstep e1 He1) in Hrest as [? ?]. done.
  - intros [[Hv Hall] ->]. eexists. split; [by split|]. by apply Hstep.
Qed.

(** The execution envelope holds every parameter once.  It can be made exactly when
    every parameter is valid; a parameter with a protected reference is then found
    among the references, with its provider, key and label and without a value, every
    other one among the public values; so no sensitive parameter is public. *)
Theorem execution_envelope_exact (item : WorkItem Payload) (e : ExecutionEnvelope Payload) :
  let ps := parameter_map (w_Parameters item) in
  (NewExecutionEnvelope item = Ok e ↔
     map_Forall (λ _ p, Parameter_Validate p = Ok tt) ps ∧
     e = mkEnvelope "goet/execution-envelope/v1" (w_ID item) (w_Type item) (omap public_part ps) (omap protected_part ps)) ∧
  (NewExecutionEnvelope item = Ok e → ∀ n v, xe_Public e !! n = Some v →
     ∃ p, ps !! n = Some p ∧ v = public_value p ∧ pa_Sensitive p = false ∧ pa_ProtectedRef p = None).
Proof.
  intros ps.
  assert (NewExecutionEnvelope item = Ok e ↔
     map_Forall (λ _ p, Parameter_Validate p = Ok tt) ps ∧
     e = mkEnvelope "goet/execution-envelope/v1" (w_ID item) (w_Type item) (omap public_part ps) (omap protected_part ps)) as Hiff.
  { unfold NewExecutionEnvelope. fold ps. rewrite envelope_loop; [|apply NoDup_fst_map_to_list|by intros n _; cbn; rewrite !lookup_empty].
    rewrite list_to_map_to_list. unfold add_all. cbn. rewrite !(right_id_L ∅ _), map_Forall_to_list.
    f_equiv. rewrite !Forall_forall. split; intros H [k p]; apply (H (k, p)). }
  split; [exact Hiff|]. intros [Hall ->]%Hiff n v Hv. cbn in Hv. apply lookup_omap_Some in Hv as (p & Hp & Hv).
  exists p. unfold public_part in Hp. destruct (pa_ProtectedRef p) eqn:Href; [done|]. injection Hp as <-.
  split_and!; [done|done| |done]. specialize (Hall n p Hv). unfold Parameter_Validate in Hall. rewrite Href in Hall.
  apply bind_Ok in Hall as (u & _ & Hall). apply bind_Ok in Hall as (u2 & Hs & _). by rewrite fail_if_Ok in Hs.
Qed.
End laws.
