(* ===== verification/FanOut.v ===== *)
(** * Fan-out: from a step to its work items

    ([internal/workflow/fanout.go], [fanout_context.go], [fanout_template.go], [step.go])

    A step fans out over a resolved list: each value gives one work item, whose id,
    output file name, parameters and resource constraints are made from templates
    and accessors on the value.  The three compilers that add data-asset payloads to
    an item are the interface [DataOperators]. *)

From S2P Require Import Prelude GoTime GoStrings GoJson GoJsonLaws GoSha256 Fingerprint GoJsonStruct.
From S2P Require Import Variables Expression Functions Resolver VariableCodec.
From S2P Require Import StoreData Dependency WorkItem.
Local Open Scope Z_scope.

(** ** The context of an item *)

Record FanOutItemContext := mkFanContext { fx_Alias : string; fx_Index : Z; fx_Value : ResolvedValue }.
Definition zero_value : ResolvedValue := mkRV "" VNil [] [] false "" "" None.
Definition zero_fan_context : FanOutItemContext := mkFanContext "" 0 zero_value.

Definition splitFanOutReferenceAccessor (text : string) : string * string :=
  match split_byte "."%char text with
  | ns :: key :: _ =>
      if bool_decide (ns = "fanout" ∨ ns = "step") then (ns, trim_prefix ns text)
      else if Namespace_Valid ns then
        let key := match index_byte "["%char key with Some i => str_take i key | None => key end in
        let referenceText := ns +:+ "." +:+ key in
        (referenceText, trim_prefix referenceText text)
      else match index_any ".[" text with
           | None => (text, "")
           | Some i => (str_take i text, str_drop i text)
           end
  | _ => match index_any ".[" text with
         | None => (text, "")
         | Some i => (str_take i text, str_drop i text)
         end
  end.

(** The flag says whether the value is of the fan-out item. *)
Definition FanOutItemContext_Resolve (c : FanOutItemContext) (resolver : Resolver) (referenceText : string) :
    result (ResolvedValue * bool) :=
  let '(root, accessor) := splitFanOutReferenceAccessor referenceText in
  if bool_decide (root = "fanout" ∨ root = fx_Alias c ∨ root = "step") && negb (is_empty root) then
    if is_empty accessor then Ok (fx_Value c, true)
    else value ← ApplyAccessor (fx_Value c) accessor; Ok (value, true)
  else
    reference ← ParseReference root;
    value ← Resolve resolver reference;
    value ← (if is_empty accessor then Ok value else ApplyAccessor value accessor);
    Ok (value, false).

Definition FanOutItemContext_Validate (c : FanOutItemContext) : result unit :=
  non_negative (fx_Index c) "fan-out item index must be non-negative";;
  fail_if (bool_decide (fx_Alias c = "fanout" ∨ fx_Alias c = "step"))
    (Errorf ("fan-out alias " +:+ fx_Alias c +:+ " is reserved")).

(** ** Templates *)

Record fanOutTemplateSegment := mkSegment { fs_start : nat; fs_end : nat; fs_reference : string }.

(** The loop of [parseFanOutTemplateTokens]; [rest] is the text from [index] on.  A
    byte inside a rune starts neither "${" nor "\${", so a byte a round will do. *)
Fixpoint segments_from (fuel index : nat) (rest : string) : result (list fanOutTemplateSegment) :=
  match fuel, rest with
  | S fuel', String _ _ =>
      if has_prefix "\${" rest then segments_from fuel' (index + 3) (str_drop 3 rest)
      else if negb (has_prefix "${" rest) then segments_from fuel' (index + 1) (str_drop 1 rest)
      else
        match index_byte "}"%char (str_drop 2 rest) with
        | None => Err (Errorf "unterminated template placeholder")
        | Some closeOffset =>
            let end_ := (index + 2 + closeOffset + 1)%nat in
            let referenceText := TrimSpace (str_take closeOffset (str_drop 2 rest)) in
            fail_if (is_empty referenceText) (Errorf "template placeholder reference is required");;
            fail_if (contains "${" referenceText || contains_any "{}" referenceText)
              (Errorf "nested template placeholder is not supported");;
            wrap_err ("parse template placeholder " +:+ referenceText)
              (ParseReference (splitFanOutReferenceAccessor referenceText).1);;
            tokens ← segments_from fuel' end_ (str_drop (closeOffset + 3) rest);
            Ok (mkSegment index end_ referenceText :: tokens)
        end
  | _, _ => Ok []
  end.
Definition parseFanOutTemplateTokens (template : string) : result (list fanOutTemplateSegment) :=
  segments_from (slen template) 0 template.

Definition fanOutValueIsSensitive (value : ResolvedValue) : bool :=
  rv_Sensitive value || bool_decide (is_Some (rv_ProtectedRef value)).
Definition fanOutRedactionLabel (value : ResolvedValue) : string :=
  if negb (is_empty (rv_RedactionLabel value)) then rv_RedactionLabel value else
  match rv_ProtectedRef value with
  | Some ref => RedactionLabelValue ref
  | None => "[REDACTED]"
  end.
Definition unescapeFanOutTemplate (template : string) : string := unescapeExpression template.

Definition renderFanOutScalar (value : ResolvedValue) : result string :=
  let ty := rv_Type value in
  if bool_decide (ty = TypeString ∨ ty = TypePath) then
    match rv_Value value with
    | VString text => Ok text
    | _ => Err (Errorf ("invalid " +:+ Type_String ty +:+ " value"))
    end
  else if bool_decide (ty = TypeInt) then
    match rv_Value value with
    | VInt integer => Ok (pretty integer)
    | _ => Err (Errorf "invalid int value")
    end
  else if bool_decide (ty = TypeBool) then
    match rv_Value value with
    | VBool boolean => Ok (if boolean then "true" else "false")
    | _ => Err (Errorf "invalid bool value")
    end
  else Err (Errorf ("value has type " +:+ Type_String ty +:+ ", select a scalar field or index")).

Section template.
Context (resolver : Resolver) (context : FanOutItemContext).

(** One placeholder; the state is what was written and where it ended. *)
Definition render_segment (template : string) (rejectSensitive : bool) (st : string * nat)
    (token : fanOutTemplateSegment) : result (string * nat) :=
  let '(text, previous) := st in
  let text := text +:+ unescapeFanOutTemplate (str_take (fs_start token - previous) (str_drop previous template)) in
  '(value, _) ← wrap_err (fs_reference token) (FanOutItemContext_Resolve context resolver (fs_reference token));
  fail_if (rejectSensitive && fanOutValueIsSensitive value)
    (Errorf (fs_reference token +:+ " resolves to sensitive value " +:+ fanOutRedactionLabel value));;
  rendered ← wrap_err (fs_reference token) (renderFanOutScalar value);
  Ok (text +:+ rendered, fs_end token).
Definition renderFanOutTemplate (template : string) (rejectSensitive : bool) : result string :=
  tokens ← parseFanOutTemplateTokens template;
  '(text, previous) ← foldM (render_segment template rejectSensitive) ("", 0%nat) tokens;
  Ok (text +:+ unescapeFanOutTemplate (str_drop previous template)).

(** [None]: the expression is not one placeholder. *)
Definition resolveFanOutWholeReference (expression : string) : result (option ResolvedValue) :=
  tokens ← parseFanOutTemplateTokens expression;
  match tokens with
  | [token] =>
      if decide (fs_start token = 0%nat ∧ fs_end token = slen expression) then
        '(value, _) ← FanOutItemContext_Resolve context resolver (fs_reference token);
        Ok (Some value)
      else Ok None
  | _ => Ok None
  end.

(** ** Resource constraints *)

Definition literalConstraintValue (expression : TypedExpression) (name : string) : result ResolvedValue :=
  let 'mkTE ty x := expression in
  if bool_decide (ty = TypeString ∨ ty = TypePath) then
    match x with
    | EString text => Ok (plain ty (VString text))
    | _ => Err (Errorf (name +:+ " expression must be a string"))
    end
  else if bool_decide (ty = TypeInt) then
    match x with
    | EInt value => Ok (plain TypeInt (VInt value))
    | ENumber text =>
        match Atoi text with
        | Some integer => Ok (plain TypeInt (VInt integer))
        | None => Err (Wrapf ("parse " +:+ name) (atoi_error text))
        end
    | _ => Err (Errorf (name +:+ " expression must be an integer"))
    end
  else Err (Errorf (name +:+ " has type " +:+ Type_String ty +:+ ", want scalar resource constraint value")).

Definition resolveConstraintValue (expression : TypedExpression) (accessor name : string) : result ResolvedValue :=
  if negb (is_empty accessor) then ApplyAccessor (fx_Value context) accessor
  else
    whole ← match te_Expression expression with
            | EString text =>
                if has_prefix "${" text && has_suffix "}" text then resolveFanOutWholeReference text else Ok None
            | _ => Ok None
            end;
    match whole with
    | Some value => Ok value
    | None => literalConstraintValue expression name
    end.

Definition constraint_text (expression : TypedExpression) (accessor name : string) : result string :=
  value ← resolveConstraintValue expression accessor name;
  fail_if (negb (bool_decide (rv_Type value = TypeString ∨ rv_Type value = TypePath)))
    (Errorf ("has type " +:+ Type_String (rv_Type value) +:+ ", want string or path"));;
  match rv_Value value with
  | VString text => if is_empty (TrimSpace text) then Err (Errorf "is required") else Ok text
  | _ => Err (Errorf "is required")
  end.
Definition resolveConstraintString (expression : TypedExpression) (accessor name : string) : result string :=
  match te_Expression expression with
  | EString text =>
      if is_empty accessor && contains "${" text
      then renderFanOutTemplate text (bool_decide (name = "resource_key"))
      else constraint_text expression accessor name
  | _ => constraint_text expression accessor name
  end.
Definition resolveConstraintInt (expression : TypedExpression) (accessor name : string) : result Z :=
  value ← resolveConstraintValue expression accessor name;
  fail_if (negb (bool_decide (rv_Type value = TypeInt)))
    (Errorf ("has type " +:+ Type_String (rv_Type value) +:+ ", want int"));;
  match rv_Value value with
  | VInt integer => Ok integer
  | _ => Err (Errorf "must be an int")
  end.
End template.

Record ResourceConstraintDeclaration := mkDeclaration {
  rd_ResourceKey : TypedExpression; rd_RequestedUnits : TypedExpression; rd_Operator : TypedExpression;
  rd_TargetUnits : TypedExpression; rd_ResourceKeyAccessor : string; rd_RequestedUnitsAccessor : string;
  rd_OperatorAccessor : string; rd_TargetUnitsAccessor : string }.

Definition supportedResourceConstraintOperator (operator : string) : bool :=
  bool_decide (operator ∈ ["="; "!="; "<"; ">"; "<="; ">="]).
Definition validateCompiledResourceConstraint (c : WorkItemResourceConstraint) : result unit :=
  required_trimmed (wc_WorkItemID c) "work item id is required";;
  non_negative (wc_ConstraintIndex c) "constraint index must be non-negative";;
  required_trimmed (wc_ResourceKey c) "resource key is required";;
  fail_if (wc_RequestedUnits c <=? 0) (Errorf "requested units must be greater than 0");;
  fail_if (negb (supportedResourceConstraintOperator (wc_Operator c)))
    (Errorf ("unsupported resource constraint operator " +:+ wc_Operator c));;
  non_negative (wc_TargetUnits c) "target units must be non-negative".

(** One declaration; the state is the index, the keys seen and the constraints made. *)
Definition resolve_declaration (resolver : Resolver) (context : FanOutItemContext) (workItemID : string)
    (st : Z * gset string * list WorkItemResourceConstraint) (d : ResourceConstraintDeclaration) :
    result (Z * gset string * list WorkItemResourceConstraint) :=
  let '(index, seen, constraints) := st in
  let at_ field := "constraint " +:+ pretty index +:+ " " +:+ field in
  resourceKey ← wrap_err (at_ "resource_key")
    (resolveConstraintString resolver context (rd_ResourceKey d) (rd_ResourceKeyAccessor d) "resource_key");
  requestedUnits ← wrap_err (at_ "requested_units")
    (resolveConstraintInt resolver context (rd_RequestedUnits d) (rd_RequestedUnitsAccessor d) "requested_units");
  operator ← wrap_err (at_ "operator")
    (resolveConstraintString resolver context (rd_Operator d) (rd_OperatorAccessor d) "operator");
  targetUnits ← wrap_err (at_ "target_units")
    (resolveConstraintInt resolver context (rd_TargetUnits d) (rd_TargetUnitsAccessor d) "target_units");
  fail_if (bool_decide (resourceKey ∈ seen)) (Errorf ("duplicate resource_key " +:+ resourceKey));;
  let constraint := mkWorkConstraint workItemID index resourceKey requestedUnits operator targetUnits "" in
  wrap_err ("constraint " +:+ pretty index) (validateCompiledResourceConstraint constraint);;
  Ok (index + 1, {[resourceKey]} ∪ seen, constraints ++ [constraint]).
Definition resolveResourceConstraintDeclarations (resolver : Resolver) (context : FanOutItemContext)
    (workItemID : string) (declarations : list ResourceConstraintDeclaration) :
    result (list WorkItemResourceConstraint) :=
  '(_, _, constraints) ← foldM (resolve_declaration resolver context workItemID) (0, ∅, []) declarations;
  Ok constraints.

Definition set_wc_CreatedAt (createdAt : string) (c : WorkItemResourceConstraint) : WorkItemResourceConstraint :=
  mkWorkConstraint (wc_WorkItemID c) (wc_ConstraintIndex c) (wc_ResourceKey c) (wc_RequestedUnits c)
    (wc_Operator c) (wc_TargetUnits c) createdAt.
Definition ResolveResourceConstraints (resolver : Resolver) (workItemID : string)
    (declarations : list ResourceConstraintDeclaration) (createdAt : string) :
    result (list WorkItemResourceConstraint) :=
  constraints ← resolveResourceConstraintDeclarations resolver zero_fan_context workItemID declarations;
  traverse_items (λ _ c,
    let c := set_wc_CreatedAt createdAt c in
    WorkItemResourceConstraint_Validate c;; Ok c) 0 constraints.

Definition appendExplicitResourceConstraints (explicit declared : list WorkItemResourceConstraint) :
    list WorkItemResourceConstraint :=
  explicit ++ ((λ c, mkWorkConstraint (wc_WorkItemID c) (wc_ConstraintIndex c + Z.of_nat (length explicit))
                       (wc_ResourceKey c) (wc_RequestedUnits c) (wc_Operator c) (wc_TargetUnits c) (wc_CreatedAt c))
               <$> declared).

(** *** Their JSON *)

Definition decodeConstraintExpression (name : string) (data : option JSON) (defaultType : VType) :
    result TypedExpression :=
  match data with
  | None => Err (Errorf (name +:+ " is required"))
  | Some data =>
      let expression := match TypedExpression_UnmarshalJSON data with
                        | Ok typed => typed
                        | Err _ => mkTE defaultType (scalar_expr data)
                        end in
      wrap_err name (ValidateDefinition expression);;
      Ok expression
  end.

Record encodedDeclaration := mkEncodedDeclaration {
  ed_ResourceKey : option JSON; ed_RequestedUnits : option JSON; ed_Operator : option JSON;
  ed_TargetUnits : option JSON; ed_ResourceKeyAccessor : string; ed_RequestedUnitsAccessor : string;
  ed_OperatorAccessor : string; ed_TargetUnitsAccessor : string }.
Definition declaration_fields : Struct encodedDeclaration :=
  [("resource_key", raw_message (λ v r, mkEncodedDeclaration v (ed_RequestedUnits r) (ed_Operator r) (ed_TargetUnits r)
      (ed_ResourceKeyAccessor r) (ed_RequestedUnitsAccessor r) (ed_OperatorAccessor r) (ed_TargetUnitsAccessor r)));
   ("requested_units", raw_message (λ v r, mkEncodedDeclaration (ed_ResourceKey r) v (ed_Operator r) (ed_TargetUnits r)
      (ed_ResourceKeyAccessor r) (ed_RequestedUnitsAccessor r) (ed_OperatorAccessor r) (ed_TargetUnitsAccessor r)));
   ("operator", raw_message (λ v r, mkEncodedDeclaration (ed_ResourceKey r) (ed_RequestedUnits r) v (ed_TargetUnits r)
      (ed_ResourceKeyAccessor r) (ed_RequestedUnitsAccessor r) (ed_OperatorAccessor r) (ed_TargetUnitsAccessor r)));
   ("target_units", raw_message (λ v r, mkEncodedDeclaration (ed_ResourceKey r) (ed_RequestedUnits r) (ed_Operator r) v
      (ed_ResourceKeyAccessor r) (ed_RequestedUnitsAccessor r) (ed_OperatorAccessor r) (ed_TargetUnitsAccessor r)));
   ("resource_key_accessor", into_string (λ s r, mkEncodedDeclaration (ed_ResourceKey r) (ed_RequestedUnits r)
      (ed_Operator r) (ed_TargetUnits r) s (ed_RequestedUnitsAccessor r) (ed_OperatorAccessor r) (ed_TargetUnitsAccessor r)));
   ("requested_units_accessor", into_string (λ s r, mkEncodedDeclaration (ed_ResourceKey r) (ed_RequestedUnits r)
      (ed_Operator r) (ed_TargetUnits r) (ed_ResourceKeyAccessor r) s (ed_OperatorAccessor r) (ed_TargetUnitsAccessor r)));
   ("operator_accessor", into_string (λ s r, mkEncodedDeclaration (ed_ResourceKey r) (ed_RequestedUnits r)
      (ed_Operator r) (ed_TargetUnits r) (ed_ResourceKeyAccessor r) (ed_RequestedUnitsAccessor r) s (ed_TargetUnitsAccessor r)));
   ("target_units_accessor", into_string (λ s r, mkEncodedDeclaration (ed_ResourceKey r) (ed_RequestedUnits r)
      (ed_Operator r) (ed_TargetUnits r) (ed_ResourceKeyAccessor r) (ed_RequestedUnitsAccessor r) (ed_OperatorAccessor r) s))].

Definition ResourceConstraintDeclaration_UnmarshalJSON (data : JSON) : result ResourceConstraintDeclaration :=
  encoded ← decode_struct false declaration_fields (mkEncodedDeclaration None None None None "" "" "" "") data;
  resourceKey ← decodeConstraintExpression "resource_key" (ed_ResourceKey encoded) TypeString;
  requestedUnits ← decodeConstraintExpression "requested_units" (ed_RequestedUnits encoded) TypeInt;
  operator ← decodeConstraintExpression "operator" (ed_Operator encoded) TypeString;
  targetUnits ← decodeConstraintExpression "target_units" (ed_TargetUnits encoded) TypeInt;
  Ok (mkDeclaration resourceKey requestedUnits operator targetUnits (ed_ResourceKeyAccessor encoded)
        (ed_RequestedUnitsAccessor encoded) (ed_OperatorAccessor encoded) (ed_TargetUnitsAccessor encoded)).

(** ** Tokens *)

Definition unprintable : GoError := Errorf "unprintable fan-out value".
(** [fmt.Sprint(v)] and [fmt.Sprintf("%d", v)]; no well-formed value of these types
    holds a time, whose default text is not reproduced. *)
Definition fmt_Sprint (v : scalar) : result string :=
  match v with
  | VNil => Ok "<nil>"
  | VString s => Ok s
  | VInt z => Ok (pretty z)
  | VBool b => Ok (if b then "true" else "false")
  | VTime _ => Err unprintable
  end.
Definition fmt_decimal (v : scalar) : result string :=
  match v with
  | VNil => Ok "%!d(<nil>)"
  | VString s => Ok ("%!d(string=" +:+ s +:+ ")")
  | VInt z => Ok (pretty z)
  | VBool b => Ok ("%!d(bool=" +:+ (if b then "true" else "false") +:+ ")")
  | VTime _ => Err unprintable
  end.

Definition fanOutToken (value : ResolvedValue) : result string :=
  token ← (if bool_decide (rv_Type value = TypeString ∨ rv_Type value = TypePath) then fmt_Sprint (rv_Value value)
           else if bool_decide (rv_Type value = TypeInt) then fmt_decimal (rv_Value value)
           else Err (Errorf ("unsupported fan-out value type: " +:+ Type_String (rv_Type value))));
  let token := TrimSpace token in
  fail_if (is_empty token) (Errorf "fan-out value token is required");;
  Ok token.
Definition fanOutTemplateToken (value : ResolvedValue) (fallbackAccessor accessor : string) : result string :=
  let accessor := if is_empty accessor then fallbackAccessor else accessor in
  value ← (if is_empty accessor then Ok value else ApplyAccessor value accessor);
  fanOutToken value.

(** [unicode.IsControl] on the runes of a text. *)
Definition is_control (c : chunk) : bool :=
  match c with
  | Asc a => (byte_N a <? 32)%N || (byte_N a =? 127)%N
  | Rune e => match e with
              | String a (String b EmptyString) => (byte_N a =? 194)%N && (byte_N b <? 160)%N
              | _ => false
              end
  | Bad _ => false
  end.
Definition validateFanOutRenderedToken (token name : string) : result unit :=
  fail_if (is_empty token) (Errorf (name +:+ " token is required"));;
  fail_if (negb (bool_decide (TrimSpace token = token)))
    (Errorf (name +:+ " token must not have leading or trailing whitespace"));;
  fail_if (bool_decide (token = "." ∨ token = "..")) (Errorf (name +:+ " token must not be " +:+ token));;
  fail_if (contains_any "/\" token) (Errorf (name +:+ " token must not contain a path separator"));;
  fail_if (existsb is_control (chunks token)) (Errorf (name +:+ " token must not contain control characters")).

(** ** Parameters *)

Definition containsDeferredParameterReference (text : string) : bool :=
  contains "${data." text || contains "${runtime." text.

Definition resolve_parameter_text (resolver : Resolver) (context : FanOutItemContext) (ty : VType) (text : string) :
    result ResolvedValue :=
  if containsDeferredParameterReference text then Ok (plain TypeString (VString text))
  else
    whole ← resolveFanOutWholeReference resolver context text;
    match whole with
    | Some value => Ok value
    | None =>
        if contains "${" text then
          rendered ← renderFanOutTemplate resolver context text false;
          Ok (plain TypeString (VString rendered))
        else Ok (plain ty (VString text))
    end.

Fixpoint resolveParameterExpression (resolver : Resolver) (context : FanOutItemContext) (e : TypedExpression) :
    result ResolvedValue :=
  let 'mkTE ty x := e in
  match x with
  | EString text => resolve_parameter_text resolver context ty text
  | _ =>
      if decide (ty = TypeObject) then
        match x with
        | EObject children =>
            fields ← traverse_fields (λ name child,
                       wrap_err ("object field " +:+ name) (resolveParameterExpression resolver context child)) children;
            Ok (ResolvedObject fields)
        | _ => Err (Errorf "object expression must be a typed-expression map")
        end
      else if decide (ty = TypeList) then
        match x with
        | EList children =>
            items ← traverse_items (λ index child,
                      wrap_err ("list item " +:+ pretty index) (resolveParameterExpression resolver context child)) 0 children;
            Ok (ResolvedList items)
        | _ => Err (Errorf "list expression must be a typed-expression list")
        end
      else if decide (ty = TypeInt) then
        match x with
        | EInt integer => Ok (plain TypeInt (VInt integer))
        | _ => Err (Errorf "int expression must be an int or whole-value reference")
        end
      else if decide (ty = TypeBool) then
        match x with
        | EBool boolean => Ok (plain TypeBool (VBool boolean))
        | _ => Err (Errorf "bool expression must be a bool or whole-value reference")
        end
      else if bool_decide (ty = TypeString ∨ ty = TypePath) then
        Err (Errorf (Type_String ty +:+ " expression must be a string"))
      else Err (Errorf ("unsupported parameter expression type " +:+ Type_String ty))
  end.

Section parameters.
Context {Payload : Type}.

Definition scalar_parameter (v : scalar) : PValue Payload :=
  match v with
  | VNil => PNil
  | VString s => PString s
  | VInt z => PInt z
  | VBool b => PBool b
  | VTime t => PTime t
  end.
Fixpoint parameterValueFromResolved (v : ResolvedValue) : PValue Payload :=
  match v with
  | mkRV ty value fields items _ _ _ _ =>
      if decide (ty = TypeObject) then
        PMap ((fix go fs := match fs with
                            | [] => []
                            | (k, child) :: fs' => (k, parameterValueFromResolved child) :: go fs'
                            end) fields)
      else if decide (ty = TypeList) then PSlice (parameterValueFromResolved <$> items)
      else scalar_parameter value
  end.
Definition parameterFromResolved (value : ResolvedValue) : WorkParameter Payload :=
  mkParameter (Type_String (rv_Type value)) (parameterValueFromResolved value) (rv_Sensitive value)
    (rv_RedactionLabel value) (rv_ProtectedRef value) None.

(** [copyParameters]: a copy shares nothing with the template; an empty map becomes nil. *)
Definition copyParameters (p : Parameters Payload) : Parameters Payload :=
  if bool_decide (dom (parameter_map p) = ∅) then None else p.

Definition bind_expression (resolver : Resolver) (context : FanOutItemContext) (p : gmap string (WorkParameter Payload))
    (ne : string * TypedExpression) : result (gmap string (WorkParameter Payload)) :=
  resolved ← wrap_err ("parameter " +:+ ne.1) (resolveParameterExpression resolver context ne.2);
  Ok (<[ne.1 := parameterFromResolved resolved]> p).
Definition bindParameterExpressions (resolver : Resolver) (context : FanOutItemContext) (parameters : Parameters Payload)
    (expressions : gmap string TypedExpression) : result (Parameters Payload) :=
  if bool_decide (expressions = ∅) then Ok parameters
  else match parameters with
       | None => Err (Errorf "parameter expression target is nil")
       | Some p => Some <$> foldM (bind_expression resolver context) p (map_to_list expressions)
       end.

Definition bind_accessor (value : ResolvedValue) (p : gmap string (WorkParameter Payload)) (na : string * string) :
    result (gmap string (WorkParameter Payload)) :=
  let '(name, accessor) := na in
  match p !! name with
  | None => Err (Errorf ("parameter " +:+ name +:+ " accessor has no parameter template"))
  | Some parameter =>
      resolved ← wrap_err ("parameter " +:+ name) (ApplyAccessor value accessor);
      Ok (<[name := mkParameter (pa_Type parameter) (parameterValueFromResolved resolved) (rv_Sensitive resolved)
                      (rv_RedactionLabel resolved) (rv_ProtectedRef resolved) (pa_Materialize parameter)]> p)
  end.
Definition bindParameterAccessors (parameters : Parameters Payload) (value : ResolvedValue)
    (accessors : gmap string string) : result (Parameters Payload) :=
  match map_to_list accessors with
  | [] => Ok parameters
  | (name, _) :: _ =>
      match parameters with
      | None => Err (Errorf ("parameter " +:+ name +:+ " has accessor but no parameter template"))
      | Some p => Some <$> foldM (bind_accessor value) p (map_to_list accessors)
      end
  end.

Definition legacy_parameter (name : string) : result unit :=
  fail_if (bool_decide (name = "data_assets"))
    (Errorf ("legacy work parameter " +:+ name +:+ " is not allowed; use step.data.inputs with a prior explicit asset.materialize step"));;
  fail_if (bool_decide (name = "publish" ∨ name = "publish_targets"))
    (Errorf ("legacy work parameter " +:+ name +:+ " is not allowed; use an explicit commit_data step with data.outputs")).
Definition rejectLegacyHiddenPlannerParameters (parameters : Parameters Payload) : result unit :=
  for_each (λ np, legacy_parameter np.1) (map_to_list (parameter_map parameters)).
End parameters.

(** ** Compiling a step *)

Record CompiledFanOutWorkItem {Payload : Type} := mkCompiled {
  cf_WorkItem : WorkItem Payload; cf_ResourceConstraints : list WorkItemResourceConstraint }.
Arguments CompiledFanOutWorkItem : clear implicits.
Arguments mkCompiled {Payload}.
Arguments cf_WorkItem {Payload}.
Arguments cf_ResourceConstraints {Payload}.

(** The compilers of data assets ([explicit_data_inputs.go],
    [explicit_asset_materialize.go], [explicit_commit_data.go]): their templates, the
    structs they put into parameters, and what they do to an item.  [collection_asset]
    says whether the definition of the asset is a collection; [asset_dedupe_key] is
    the key of a payload that materialises an asset. *)
Class DataOperators := {
  DataPayload : Type;
  ExplicitDataInputTemplate : Type;
  ExplicitAssetMaterializeTemplate : Type;
  ExplicitCommitDataTemplate : Type;
  collection_asset : ExplicitAssetMaterializeTemplate → bool;
  asset_dedupe_key : DataPayload → option string;
  compileExplicitDataInputs :
    Resolver → FanOutItemContext → list ExplicitDataInputTemplate → WorkItem DataPayload → result (WorkItem DataPayload);
  compileExplicitAssetMaterializeWorkItem :
    Resolver → FanOutItemContext → option ExplicitAssetMaterializeTemplate → WorkItem DataPayload →
    result (WorkItem DataPayload * list WorkItemResourceConstraint);
  compileExplicitCommitDataWorkItem :
    Resolver → FanOutItemContext → string → option ExplicitCommitDataTemplate → WorkItem DataPayload →
    result (WorkItem DataPayload * list WorkItemResourceConstraint);
  compileExplicitAssetMaterializeMemberWorkItems :
    Resolver → FanOutItemContext → WorkItem DataPayload → string → ExplicitAssetMaterializeTemplate →
    list ResourceConstraintDeclaration → result (list (CompiledFanOutWorkItem DataPayload)) }.

Section compile.
Context {ops : DataOperators}.

Record FanOutWorkItemTemplate := mkTemplate {
  ft_FanOutExpression : string; ft_FanOutAlias : string; ft_IDTemplate : string; ft_OutputTemplate : string;
  ft_TokenAccessor : string; ft_IDTokenAccessor : string; ft_OutputAccessor : string; ft_Type : WorkItemType;
  ft_IDPrefix : string; ft_OutputPrefix : string; ft_OutputExtension : string; ft_Parameters : Parameters DataPayload;
  ft_ParameterExpressions : gmap string TypedExpression; ft_ParameterAccessors : gmap string string;
  ft_ResourceConstraints : list ResourceConstraintDeclaration; ft_DataInputs : list ExplicitDataInputTemplate;
  ft_ExplicitAssetMaterialize : option ExplicitAssetMaterializeTemplate;
  ft_ExplicitCommitData : option ExplicitCommitDataTemplate }.
Definition set_ft_IDPrefix (prefix : string) (t : FanOutWorkItemTemplate) : FanOutWorkItemTemplate :=
  mkTemplate (ft_FanOutExpression t) (ft_FanOutAlias t) (ft_IDTemplate t) (ft_OutputTemplate t) (ft_TokenAccessor t)
    (ft_IDTokenAccessor t) (ft_OutputAccessor t) (ft_Type t) prefix (ft_OutputPrefix t) (ft_OutputExtension t)
    (ft_Parameters t) (ft_ParameterExpressions t) (ft_ParameterAccessors t) (ft_ResourceConstraints t)
    (ft_DataInputs t) (ft_ExplicitAssetMaterialize t) (ft_ExplicitCommitData t).
Record FanOutStep := mkFanOutStep { fo_ID : string; fo_WorkItem : FanOutWorkItemTemplate }.

Definition fanOutIDToken (resolver : Resolver) (context : FanOutItemContext) (template : FanOutWorkItemTemplate) :
    result string :=
  if negb (is_empty (ft_IDTemplate template)) then renderFanOutTemplate resolver context (ft_IDTemplate template) true
  else fanOutTemplateToken (fx_Value context) (ft_TokenAccessor template) (ft_IDTokenAccessor template).
Definition fanOutOutputToken (resolver : Resolver) (context : FanOutItemContext) (template : FanOutWorkItemTemplate)
    (idToken : string) : result string :=
  if negb (is_empty (ft_OutputTemplate template)) then renderFanOutTemplate resolver context (ft_OutputTemplate template) true
  else if negb (is_empty (ft_IDTemplate template)) then Ok idToken
  else fanOutTemplateToken (fx_Value context) (ft_TokenAccessor template) (ft_OutputAccessor template).

(** The parameters of an item before the data operators add to them. *)
Definition template_parameters (template : FanOutWorkItemTemplate) : Parameters DataPayload :=
  match copyParameters (ft_Parameters template) with
  | None => if bool_decide (ft_ParameterExpressions template = ∅) then None else Some ∅
  | p => p
  end.

(** The item of one value, with the constraints of the two data operators. *)
Definition compile_item (resolver : Resolver) (template : FanOutWorkItemTemplate) (index : nat) (value : ResolvedValue) :
    result (WorkItem DataPayload * list WorkItemResourceConstraint * list WorkItemResourceConstraint) :=
  let context := mkFanContext (ft_FanOutAlias template) (Z.of_nat index) value in
  let at_ part := "compile fan-out item " +:+ pretty index +:+ part in
  idToken ← wrap_err (at_ " id token") (fanOutIDToken resolver context template);
  wrap_err (at_ " id token") (validateFanOutRenderedToken idToken "id");;
  outputToken ← wrap_err (at_ " output token") (fanOutOutputToken resolver context template idToken);
  wrap_err (at_ " output token") (validateFanOutRenderedToken outputToken "output");;
  parameters ← wrap_err (at_ " parameters")
    (bindParameterExpressions resolver context (template_parameters template) (ft_ParameterExpressions template));
  parameters ← wrap_err (at_ " parameters") (bindParameterAccessors parameters value (ft_ParameterAccessors template));
  wrap_err (at_ " parameters") (rejectLegacyHiddenPlannerParameters parameters);;
  let item := new_item (ft_IDPrefix template +:+ "-" +:+ idToken) (ft_Type template)
                (ft_OutputPrefix template +:+ "-" +:+ outputToken +:+ ft_OutputExtension template) parameters in
  item ← wrap_err (at_ " data inputs") (compileExplicitDataInputs resolver context (ft_DataInputs template) item);
  '(item, explicitConstraints) ← wrap_err (at_ " explicit asset_materialize")
    (compileExplicitAssetMaterializeWorkItem resolver context (ft_ExplicitAssetMaterialize template) item);
  '(item, explicitCommitConstraints) ← wrap_err (at_ " explicit commit_data")
    (compileExplicitCommitDataWorkItem resolver context idToken (ft_ExplicitCommitData template) item);
  wrap_err (at_ "") (ValidateForWorkflowCompile item);;
  Ok (item, explicitConstraints, explicitCommitConstraints).

(** [if len(explicit) > 0 { constraints = appendExplicitResourceConstraints(explicit, constraints) }] *)
Definition with_explicit (explicit declared : list WorkItemResourceConstraint) : list WorkItemResourceConstraint :=
  match explicit with [] => declared | _ => appendExplicitResourceConstraints explicit declared end.

(** The variables of the loop over the values. *)
Record fan_out_items := mkFanOutItems {
  fi_items : list (CompiledFanOutWorkItem DataPayload);
  fi_seenWorkItemIDs : gmap string nat; fi_seenOutputFilenames : gmap string nat }.

Definition add_item (resolver : Resolver) (template : FanOutWorkItemTemplate) (st : fan_out_items)
    (iv : nat * ResolvedValue) : result fan_out_items :=
  let '(index, value) := iv in
  let at_ part := "compile fan-out item " +:+ pretty index +:+ part in
  '(item, explicitConstraints, explicitCommitConstraints) ← compile_item resolver template index value;
  (match fi_seenWorkItemIDs st !! w_ID item with
   | Some previous => Err (Errorf (at_ ": duplicate generated work-item id " +:+ w_ID item +:+
                                   " also produced by item " +:+ pretty previous))
   | None => Ok tt
   end);;
  (match fi_seenOutputFilenames st !! w_OutputFilename item with
   | Some previous => Err (Errorf (at_ ": duplicate output filename " +:+ w_OutputFilename item +:+
                                   " also produced by item " +:+ pretty previous))
   | None => Ok tt
   end);;
  constraints ← wrap_err (at_ " resource constraints")
    (resolveResourceConstraintDeclarations resolver (mkFanContext (ft_FanOutAlias template) (Z.of_nat index) value)
       (w_ID item) (ft_ResourceConstraints template));
  Ok (mkFanOutItems
        (fi_items st ++ [mkCompiled item (with_explicit explicitCommitConstraints (with_explicit explicitConstraints constraints))])
        (<[w_ID item := index]> (fi_seenWorkItemIDs st))
        (<[w_OutputFilename item := index]> (fi_seenOutputFilenames st))).

Fixpoint indexed {A} (index : nat) (l : list A) : list (nat * A) :=
  match l with [] => [] | a :: l' => (index, a) :: indexed (S index) l' end.

Definition rejectCollectionAssetMaterializeFanOut (template : FanOutWorkItemTemplate) : result unit :=
  if negb (bool_decide (ft_Type template = WorkItemTypeAssetMaterialize)) || is_empty (ft_FanOutExpression template) then Ok tt
  else match ft_ExplicitAssetMaterialize template with
       | None => Ok tt
       | Some m => fail_if (collection_asset m) (Errorf "asset.materialize collection step must not declare fan_out")
       end.

Definition compileStandaloneExplicitAssetMaterializeWorkItems (resolver : Resolver) (template : FanOutWorkItemTemplate)
    (m : ExplicitAssetMaterializeTemplate) : result (list (CompiledFanOutWorkItem DataPayload)) :=
  fail_if (negb (bool_decide (ft_ParameterAccessors template = ∅))) (Errorf "parameter_accessors require fan_out");;
  parameters ← wrap_err "parameters"
    (bindParameterExpressions resolver zero_fan_context (template_parameters template) (ft_ParameterExpressions template));
  let item := new_item (ft_IDPrefix template) (ft_Type template)
                (ft_OutputPrefix template +:+ ft_OutputExtension template) parameters in
  compileExplicitAssetMaterializeMemberWorkItems resolver zero_fan_context item (ft_OutputExtension template) m
    (ft_ResourceConstraints template).

(** Without a fan-out expression only a data asset can be materialised. *)
Definition standalone (template : FanOutWorkItemTemplate) : option ExplicitAssetMaterializeTemplate :=
  if is_empty (ft_FanOutExpression template) && bool_decide (ft_Type template = WorkItemTypeAssetMaterialize)
  then ft_ExplicitAssetMaterialize template else None.

Definition CompileFanOutWorkItemResults (resolver : Resolver) (template : FanOutWorkItemTemplate) :
    result (list (CompiledFanOutWorkItem DataPayload)) :=
  match standalone template with
  | Some m => compileStandaloneExplicitAssetMaterializeWorkItems resolver template m
  | None =>
      rejectCollectionAssetMaterializeFanOut template;;
      values ← ResolveFanOutExpression resolver (ft_FanOutExpression template);
      st ← foldM (add_item resolver template) (mkFanOutItems [] ∅ ∅) (indexed 0 values);
      Ok (fi_items st)
  end.
Definition work_items_of (compiled : list (CompiledFanOutWorkItem DataPayload)) : list (WorkItem DataPayload) :=
  cf_WorkItem <$> compiled.
Definition CompileFanOutWorkItems (resolver : Resolver) (template : FanOutWorkItemTemplate) :
    result (list (WorkItem DataPayload)) :=
  work_items_of <$> CompileFanOutWorkItemResults resolver template.
Definition CompileFanOutStepItems (resolver : Resolver) (step : FanOutStep) :
    result (list (CompiledFanOutWorkItem DataPayload)) :=
  required (fo_ID step) "workflow step id is required";;
  CompileFanOutWorkItemResults resolver (fo_WorkItem step).
Definition CompileFanOutStep (resolver : Resolver) (step : FanOutStep) : result (list (WorkItem DataPayload)) :=
  work_items_of <$> CompileFanOutStepItems resolver step.
End compile.

(** A constraint as the store records it ([workflow_stage_queue.go]). *)
Definition persistenceResourceConstraintRecord (c : WorkItemResourceConstraint) : WorkItemResourceConstraintRecord :=
  mkConstraint (wc_WorkItemID c) (wc_ConstraintIndex c) (wc_ResourceKey c) (wc_RequestedUnits c) (wc_Operator c)
    (wc_TargetUnits c) (wc_CreatedAt c).
