(* ===== verification/FanOutLaws.v ===== *)
(** * What fan-out guarantees

    One work item per value, distinct ids and output files; constraints that the
    store accepts; and a parameter rendered from a template loses the sensitivity of
    the values in it. *)

From S2P Require Import Prelude GoTime GoStrings GoJson GoJsonLaws GoSha256 Fingerprint GoJsonStruct.
From S2P Require Import Variables Expression Functions Resolver ResolverTyping Redaction VariableCodec.
From S2P Require Import StoreData StoreSQL StoreOps StoreInv Dependency WorkItem FanOut.
Local Open Scope Z_scope.

(** ** Constraints *)

(** Constraints of one item, numbered from 0, on different resources, each sound. *)
Definition sound_constraints (id : string) (cs : list WorkItemResourceConstraint) : Prop :=
  NoDup (wc_ResourceKey <$> cs) ∧
  ∀ i c, cs !! i = Some c →
    wc_WorkItemID c = id ∧ wc_ConstraintIndex c = Z.of_nat i ∧ validateCompiledResourceConstraint c = Ok tt.

Lemma sound_snoc id cs c :
  sound_constraints id cs → wc_ResourceKey c ∉ wc_ResourceKey <$> cs → wc_WorkItemID c = id →
  wc_ConstraintIndex c = Z.of_nat (length cs) → validateCompiledResourceConstraint c = Ok tt →
  sound_constraints id (cs ++ [c]).
Proof.
  intros [Hn Hall] Hk Hid Hi Hv. split.
  - rewrite fmap_app. apply NoDup_app. split_and!; [done| |apply NoDup_singleton].
    intros x Hx Hx2%list_elem_of_singleton. by subst.
  - intros i c' [H|[Hge H]]%lookup_app_Some; [by apply Hall|].
    apply list_lookup_singleton_Some in H as [H <-]. split_and!; [done| |done]. rewrite Hi. lia.
Qed.

Lemma declarations_sound r context id ds cs :
  resolveResourceConstraintDeclarations r context id ds = Ok cs → length cs = length ds ∧ sound_constraints id cs.
Proof.
  intros H. unfold resolveResourceConstraintDeclarations in H. apply bind_Ok in H as ([[index seen] cs'] & H & [= ->]).
  assert (∀ ds acc k seen st, sound_constraints id acc → k = Z.of_nat (length acc) →
    seen = list_to_set (C := gset string) (wc_ResourceKey <$> acc) →
    foldM (resolve_declaration r context id) (k, seen, acc) ds = Ok st →
    length st.2 = (length acc + length ds)%nat ∧ sound_constraints id st.2) as Hloop.
  { clear. induction ds as [|d ds IH]; intros acc k seen st Hs Hk Hseen H.
    { injection H as <-. cbn. split; [lia|done]. }
    rewrite foldM_cons in H. apply bind_Ok in H as (st1 & H1 & H). unfold resolve_declaration in H1.
    apply bind_Ok in H1 as (key & _ & H1). apply bind_Ok in H1 as (units & _ & H1).
    apply bind_Ok in H1 as (operator & _ & H1). apply bind_Ok in H1 as (target & _ & H1).
    apply bind_Ok in H1 as (u1 & Hdup & H1). rewrite fail_if_Ok, bool_decide_eq_false in Hdup.
    apply bind_Ok in H1 as ([] & Hv & H1). rewrite wrap_err_Ok in Hv. injection H1 as <-.
    apply IH in H as [Hlen Hsound].
    - split; [|done]. rewrite Hlen, length_app. cbn. lia.
    - apply sound_snoc; [done| |done|done|done]. cbn. intros Hin. apply Hdup. rewrite Hseen. by apply elem_of_list_to_set.
    - rewrite length_app. cbn. lia.
    - rewrite Hseen, fmap_app, list_to_set_app_L. clear. cbn. set_solver. }
  apply (Hloop ds [] 0 ∅) in H as [Hlen Hsound]; [|split; [constructor|by intros i c Hc]|done|done].
  cbn in Hlen. split; [done|exact Hsound].
Qed.

(** ** The store takes them *)

Definition constraint_rows (createdAt : string) (cs : list WorkItemResourceConstraint) : list WorkItemResourceConstraintRecord :=
  (λ c, persistenceResourceConstraintRecord (set_wc_CreatedAt createdAt c)) <$> cs.

(** The rows of the first constraints of the item, and no other row of the item. *)
Record stored_first (createdAt id : string) (e0 e : Exec) (cs : list WorkItemResourceConstraint) : Prop := {
  sf_items : work_items e = work_items e0;
  sf_rows : ∀ i c, cs !! i = Some c → work_item_resource_constraints e !! (id, Z.of_nat i) =
    Some (persistenceResourceConstraintRecord (set_wc_CreatedAt createdAt c));
  sf_only : ∀ k c, work_item_resource_constraints e !! k = Some c → k.1 ≠ id ∧ rc_WorkItemID c ≠ id ∨
    ∃ i c', cs !! i = Some c' ∧ k = (id, Z.of_nat i) ∧ rc_ResourceKey c = wc_ResourceKey c' }.

Lemma sound_row_check id cs i c createdAt :
  sound_constraints id cs → cs !! i = Some c →
  constraint_check (persistenceResourceConstraintRecord (set_wc_CreatedAt createdAt c)) = true.
Proof.
  intros [_ Hall] Hc. destruct (Hall i c Hc) as (_ & _ & Hv). unfold validateCompiledResourceConstraint in Hv.
  unfold required_trimmed, non_negative in Hv.
  apply bind_Ok in Hv as (u1 & _ & Hv). apply bind_Ok in Hv as (u2 & H2 & Hv). apply bind_Ok in Hv as (u3 & H3 & Hv).
  apply bind_Ok in Hv as (u4 & H4 & Hv). apply bind_Ok in Hv as (u5 & H5 & Hv).
  rewrite fail_if_Ok in H2, H3, H4, H5, Hv. unfold constraint_check. cbn. apply andb_true_iff. split.
  - by apply negb_false_iff in H5.
  - apply bool_decide_eq_true. split_and!; try lia. intros E. by rewrite E in H3.
Qed.

Lemma store_next createdAt id eng e0 e cs c :
  has_key (work_items e0) id = true → sound_constraints id (cs ++ [c]) → stored_first createdAt id e0 e cs →
  ∃ e', insert_resource_constraint eng (persistenceResourceConstraintRecord (set_wc_CreatedAt createdAt c)) e = Ok e' ∧
    stored_first createdAt id e0 e' (cs ++ [c]).
Proof.
  intros Hkey Hsound [Hi Hrows Honly].
  assert ((cs ++ [c]) !! length cs = Some c) as Hlast by (by apply list_lookup_middle).
  pose proof (sound_row_check id _ _ _ createdAt Hsound Hlast) as Hcheck.
  destruct Hsound as [Hn Hall]. destruct (Hall _ _ Hlast) as (Hid & Hidx & _).
  rewrite fmap_app in Hn. apply NoDup_app in Hn as (_ & Hfresh & _).
  assert (∀ k row, work_item_resource_constraints e !! k = Some row →
    k ≠ (id, Z.of_nat (length cs)) ∧ ¬ (rc_WorkItemID row = id ∧ rc_ResourceKey row = wc_ResourceKey c)) as Hnew.
  { intros k row Hk. destruct (Honly k row Hk) as [[Hk1 Hk2]|(i & c' & Hc' & -> & Hrk)].
    - split; [by intros ->|by intros [? _]].
    - split; [apply lookup_lt_Some in Hc'; intros [= ?]; lia|]. intros [_ E].
      apply (Hfresh (wc_ResourceKey c')); [by apply list_elem_of_fmap_2, list_elem_of_lookup_2 with i|].
      rewrite <- Hrk, E. by apply list_elem_of_singleton. }
  unfold insert_resource_constraint, checked, constraint_key. cbn [persistenceResourceConstraintRecord set_wc_CreatedAt
    rc_WorkItemID rc_ConstraintIndex rc_ResourceKey wc_WorkItemID wc_ConstraintIndex wc_ResourceKey] in *.
  rewrite Hcheck, Hid, Hidx, Hi, Hkey. cbn [negb fail_if mbind result_bind].
  rewrite (proj2 (has_key_false (work_item_resource_constraints e) (id, Z.of_nat (length cs)))).
  2:{ destruct (work_item_resource_constraints e !! _) as [row|] eqn:E; [|done]. by destruct (Hnew _ _ E). }
  rewrite (proj2 (table_has_false _ (work_item_resource_constraints e))).
  2:{ intros k row Hk. apply bool_decide_eq_false. by destruct (Hnew _ _ Hk). }
  cbn [negb andb fail_if mbind result_bind]. rewrite andb_false_r. cbn [fail_if mbind result_bind].
  eexists. split; [reflexivity|]. split; cbn [work_items set_work_item_resource_constraints work_item_resource_constraints].
  - done.
  - intros i c' [Hc'|[Hge Hc']]%lookup_app_Some.
    + rewrite lookup_insert_ne; [by apply Hrows|]. apply lookup_lt_Some in Hc'. intros [= ?]. lia.
    + apply list_lookup_singleton_Some in Hc' as [Hz <-]. replace i with (length cs) by lia.
      rewrite lookup_insert_eq. unfold persistenceResourceConstraintRecord. cbn. by rewrite Hid, Hidx.
  - intros k row [[<- <-]|[Hne Hk]]%lookup_insert_Some.
    + right. exists (length cs), c. split_and!; [done|done|done].
    + destruct (Honly k row Hk) as [?|(i & c' & Hc' & -> & Hrk)]; [by left|]. right. exists i, c'.
      split_and!; [by apply lookup_app_l_Some|done|done].
Qed.

(** The constraints compiled for a work item can be stored with it.  Declarations
    that compile give one constraint each, numbered in order and on different
    resources; whenever they are inserted for an item that is in the store and has no
    constraints yet, every insertion succeeds: no CHECK, UNIQUE or FOREIGN KEY
    constraint of the table refuses one. *)
Theorem declared_constraints_are_stored r context id ds cs createdAt eng e :
  resolveResourceConstraintDeclarations r context id ds = Ok cs →
  has_key (work_items e) id = true →
  (∀ k c, work_item_resource_constraints e !! k = Some c → k.1 ≠ id ∧ rc_WorkItemID c ≠ id) →
  length cs = length ds ∧
  ∃ e', foldM (λ e c, insert_resource_constraint eng c e) e (constraint_rows createdAt cs) = Ok e' ∧
    ∀ i c, cs !! i = Some c →
      work_item_resource_constraints e' !! (id, Z.of_nat i) =
        Some (persistenceResourceConstraintRecord (set_wc_CreatedAt createdAt c)).
Proof.
  intros Hcs Hkey Hnone. destruct (declarations_sound _ _ _ _ _ Hcs) as [Hlen Hsound]. split; [done|].
  assert (∀ todo first e1, cs = first ++ todo → stored_first createdAt id e e1 first →
    ∃ e', foldM (λ e c, insert_resource_constraint eng c e) e1 (constraint_rows createdAt todo) = Ok e' ∧
      stored_first createdAt id e e' cs) as Hloop.
  { induction todo as [|c todo IH]; intros first e1 Heq Hst.
    { rewrite app_nil_r in Heq. subst first. by exists e1. }
    destruct (store_next createdAt id eng e e1 first c Hkey) as (e2 & He2 & Hst2); [|done|].
    { destruct Hsound as [Hn Hall]. split.
      - rewrite Heq, !fmap_app in Hn. cbn in Hn. rewrite (cons_middle _ _ (_ <$> _)), app_assoc in Hn.
        apply NoDup_app in Hn as [Hn _]. by rewrite fmap_app.
      - intros i c' Hc'. apply Hall. rewrite Heq, cons_middle, app_assoc. by apply lookup_app_l_Some. }
    destruct (IH (first ++ [c]) e2) as (e' & He' & Hfin); [by rewrite <- app_assoc|done|].
    exists e'. split; [|done]. unfold constraint_rows. cbn [fmap list_fmap]. rewrite foldM_cons, He2. exact He'. }
  destruct (Hloop cs [] e eq_refl) as (e' & He' & [_ Hrows _]).
  { split; [done|done|]. intros k c Hk. left. by apply Hnone. }
  by exists e'.
Qed.

(** ** Items *)

Section items.
Context {ops : DataOperators}.
Notation compiled := (CompiledFanOutWorkItem DataPayload).

(** What the value at an index compiles to. *)
Definition item_of_value (r : Resolver) (t : FanOutWorkItemTemplate) (i : nat) (v : ResolvedValue) (c : compiled) : Prop :=
  ∃ item explicit commit declared,
    compile_item r t i v = Ok (item, explicit, commit) ∧
    resolveResourceConstraintDeclarations r (mkFanContext (ft_FanOutAlias t) (Z.of_nat i) v) (w_ID item)
      (ft_ResourceConstraints t) = Ok declared ∧
    c = mkCompiled item (with_explicit commit (with_explicit explicit declared)).

Definition item_id (c : compiled) : string := w_ID (cf_WorkItem c).
Definition item_output (c : compiled) : string := w_OutputFilename (cf_WorkItem c).

Lemma add_item_Ok r t st i v st' :
  add_item r t st (i, v) = Ok st' ↔
  ∃ c, item_of_value r t i v c ∧ fi_seenWorkItemIDs st !! item_id c = None ∧
    fi_seenOutputFilenames st !! item_output c = None ∧
    st' = mkFanOutItems (fi_items st ++ [c]) (<[item_id c := i]> (fi_seenWorkItemIDs st))
            (<[item_output c := i]> (fi_seenOutputFilenames st)).
Proof.
  unfold add_item. rewrite bind_Ok. split.
  - intros ([[item explicit] commit] & Hc & H). apply bind_Ok in H as (u1 & H1 & H). apply bind_Ok in H as (u2 & H2 & H).
    apply bind_Ok in H as (declared & Hd & H). rewrite wrap_err_Ok in Hd. injection H as <-.
    exists (mkCompiled item (with_explicit commit (with_explicit explicit declared))). split_and!.
    + by exists item, explicit, commit, declared.
    + unfold item_id. cbn [cf_WorkItem]. by destruct (fi_seenWorkItemIDs st !! w_ID item).
    + unfold item_output. cbn [cf_WorkItem]. by destruct (fi_seenOutputFilenames st !! w_OutputFilename item).
    + done.
  - intros (c & (item & explicit & commit & declared & Hc & Hd & ->) & H1 & H2 & ->).
    unfold item_id, item_output in *. cbn [cf_WorkItem] in *.
    exists (item, explicit, commit). split; [done|]. rewrite H1, H2, Hd. done.
Qed.

Lemma items_loop r t values k st items :
  (∃ st', foldM (add_item r t) st (indexed k values) = Ok st' ∧ fi_items st' = fi_items st ++ items) ↔
  length items = length values ∧
  (∀ i v c, values !! i = Some v → items !! i = Some c → item_of_value r t (k + i) v c) ∧
  NoDup (item_id <$> items) ∧ NoDup (item_output <$> items) ∧
  Forall (λ c, fi_seenWorkItemIDs st !! item_id c = None ∧ fi_seenOutputFilenames st !! item_output c = None) items.
Proof.
  revert k st items. induction values as [|v values IH]; intros k st items; cbn [indexed].
  { split.
    - intros (st' & [= <-] & H). rewrite <- (app_nil_r (fi_items st)) in H at 1. apply app_inv_head in H as <-.
      split_and!; [done|done|constructor|constructor|constructor].
    - intros (Hlen & _). exists st. split; [done|]. apply nil_length_inv in Hlen as ->. by rewrite app_nil_r. }
  setoid_rewrite foldM_cons. split.
  - intros (st' & H & Hitems). apply bind_Ok in H as (st1 & H1 & H). apply add_item_Ok in H1 as (c & Hc & Hid & Hout & ->).
    cbn [fi_items] in *.
    assert (∃ rest, fi_items st' = (fi_items st ++ [c]) ++ rest) as (rest & Hrest).
    { clear -H. set (st1 := mkFanOutItems _ _ _) in H.
      refine (foldM_inv (λ s, ∃ rest, fi_items s = fi_items st1 ++ rest) _ _ _ _ _ _ H).
      - intros s [i x] s' _ (rest & Hr) (c0 & _ & _ & _ & ->)%add_item_Ok. exists (rest ++ [c0]). cbn. by rewrite Hr, app_assoc.
      - exists []. by rewrite app_nil_r. }
    rewrite Hrest, <- app_assoc in Hitems. apply app_inv_head in Hitems as <-. cbn [app].
    destruct (proj1 (IH (S k) _ rest) (ex_intro _ st' (conj H Hrest))) as (Hlen & Hall & Hn1 & Hn2 & Hfresh).
    cbn [fi_seenWorkItemIDs fi_seenOutputFilenames] in Hfresh. rewrite Forall_forall in Hfresh.
    split_and!.
    + cbn. by rewrite Hlen.
    + intros [|i] x d Hx Hd; cbn in Hx, Hd.
      * injection Hx as <-. injection Hd as <-. by rewrite Nat.add_0_r.
      * replace (k + S i)%nat with (S k + i)%nat by lia. by apply Hall.
    + rewrite fmap_cons. apply NoDup_cons. split; [|done]. intros (d & Hd & Hin)%list_elem_of_fmap.
      destruct (Hfresh d Hin) as [Hf _]. by rewrite <- Hd, lookup_insert_eq in Hf.
    + rewrite fmap_cons. apply NoDup_cons. split; [|done]. intros (d & Hd & Hin)%list_elem_of_fmap.
      destruct (Hfresh d Hin) as [_ Hf]. by rewrite <- Hd, lookup_insert_eq in Hf.
    + constructor; [done|]. apply Forall_forall. intros d Hin. destruct (Hfresh d Hin) as [Hf1 Hf2].
      by apply lookup_insert_None in Hf1 as [? _], Hf2 as [? _].
  - intros (Hlen & Hall & Hn1 & Hn2 & Hfresh). destruct items as [|c items]; [done|].
    rewrite fmap_cons in Hn1, Hn2. apply NoDup_cons in Hn1 as [Hx1 Hn1], Hn2 as [Hx2 Hn2].
    apply Forall_cons in Hfresh as [[Hid Hout] Hfresh].
    set (st1 := mkFanOutItems (fi_items st ++ [c]) (<[item_id c := k]> (fi_seenWorkItemIDs st))
            (<[item_output c := k]> (fi_seenOutputFilenames st))).
    destruct (IH (S k) st1 items) as [_ IH']. destruct IH' as (st' & Hst' & Hitems').
    { split_and!; [by injection Hlen| |done|done|].
      - intros i x d Hx Hd. replace (S k + i)%nat with (k + S i)%nat by lia. by apply Hall.
      - rewrite Forall_forall in Hfresh |- *. intros d Hin. destruct (Hfresh d Hin) as [Hf1 Hf2]. cbn.
        split; (rewrite lookup_insert_ne; [done|]); intros E; [apply Hx1|apply Hx2]; rewrite E; by apply list_elem_of_fmap_2. }
    exists st'. rewrite bind_Ok. split.
    + exists st1. split; [|done]. apply add_item_Ok. exists c. split_and!; [|done|done|done].
      specialize (Hall 0%nat v c eq_refl eq_refl). by rewrite Nat.add_0_r in Hall.
    + rewrite Hitems'. cbn [st1 fi_items]. by rewrite <- app_assoc.
Qed.

(** A sensitive parameter is a reference without a value. *)
Definition no_marked_value (i : WorkItem DataPayload) : Prop :=
  ∀ n p, parameter_map (w_Parameters i) !! n = Some p → pa_Sensitive p = true →
    is_Some (pa_ProtectedRef p) ∧ pa_Value p = PNil.

Lemma for_each_Forall {A} (f : A → result unit) l : for_each f l = Ok tt ↔ Forall (λ x, f x = Ok tt) l.
Proof.
  unfold for_each. induction l as [|x l IH]; [split; [constructor|done]|]. rewrite foldM_cons, bind_Ok, Forall_cons, <- IH.
  split; [by intros ([] & ? & ?)|]. intros [? ?]. by exists tt.
Qed.

Lemma parameter_valid_marked (p : WorkParameter DataPayload) :
  Parameter_Validate p = Ok tt → pa_Sensitive p = true → is_Some (pa_ProtectedRef p) ∧ pa_Value p = PNil.
Proof.
  intros H Hs. unfold Parameter_Validate in H. apply bind_Ok in H as (u & _ & H). rewrite Hs in H.
  destruct (pa_ProtectedRef p) as [ref|]; [|done]. apply bind_Ok in H as (u2 & _ & H). apply bind_Ok in H as (u3 & Hn & _).
  rewrite fail_if_Ok in Hn. split; [done|]. by destruct (pa_Value p).
Qed.

Lemma compile_item_valid r t i v item explicit commit :
  compile_item r t i v = Ok (item, explicit, commit) → ValidateForWorkflowCompile item = Ok tt.
Proof.
  unfold compile_item. intros H. do 8 (apply bind_Ok in H as (? & _ & H)).
  apply bind_Ok in H as ([item1 e1] & _ & H). apply bind_Ok in H as ([item2 e2] & _ & H).
  apply bind_Ok in H as ([] & Hv & H). rewrite wrap_err_Ok in Hv. by injection H as -> -> ->.
Qed.

Lemma valid_item_safe (item : WorkItem DataPayload) :
  ValidateForWorkflowCompile item = Ok tt →
  filepath_Base (w_OutputFilename item) = w_OutputFilename item ∧ no_marked_value item.
Proof.
  unfold ValidateForWorkflowCompile, WorkItem_validate. intros H.
  do 3 (apply bind_Ok in H as (? & _ & H)). apply bind_Ok in H as (u & Hbase & H).
  rewrite fail_if_Ok, negb_false_iff, bool_decide_eq_true in Hbase. split; [done|].
  apply bind_Ok in H as (u2 & _ & H). apply bind_Ok in H as ([] & Hp & _).
  apply for_each_Forall in Hp. rewrite Forall_forall in Hp. intros n p Hlook Hs.
  specialize (Hp (n, p) (proj2 (elem_of_map_to_list _ _ _) Hlook)). unfold validate_parameter in Hp.
  apply bind_Ok in Hp as (u3 & _ & Hp). rewrite wrap_err_Ok in Hp. by apply parameter_valid_marked.
Qed.

(** C22: A step with a fan-out list, or of another type than asset materialisation,
    compiles exactly when it does not materialise a collection (which must not fan out), the
    list resolves, every value compiles, and no two values give the same work-item id or the
    same output file; the result is then the items of the values, in order.  Every item's
    output file is a plain file name, and a parameter that is marked sensitive holds
    a protected reference and no value. *)
Theorem fan_out_exact (r : Resolver) (t : FanOutWorkItemTemplate) items :
  standalone t = None →
  (CompileFanOutWorkItemResults r t = Ok items ↔
     rejectCollectionAssetMaterializeFanOut t = Ok tt ∧
     ∃ values, ResolveFanOutExpression r (ft_FanOutExpression t) = Ok values ∧
       length items = length values ∧
       (∀ i v c, values !! i = Some v → items !! i = Some c → item_of_value r t i v c) ∧
       NoDup (item_id <$> items) ∧ NoDup (item_output <$> items)) ∧
  (CompileFanOutWorkItemResults r t = Ok items →
     Forall (λ c, filepath_Base (item_output c) = item_output c ∧ no_marked_value (cf_WorkItem c)) items).
Proof.
  intros Hst.
  assert (CompileFanOutWorkItemResults r t = Ok items ↔
     rejectCollectionAssetMaterializeFanOut t = Ok tt ∧
     ∃ values, ResolveFanOutExpression r (ft_FanOutExpression t) = Ok values ∧
       length items = length values ∧
       (∀ i v c, values !! i = Some v → items !! i = Some c → item_of_value r t i v c) ∧
       NoDup (item_id <$> items) ∧ NoDup (item_output <$> items)) as Hiff.
  { unfold CompileFanOutWorkItemResults. rewrite Hst, bind_Ok. setoid_rewrite bind_Ok. setoid_rewrite bind_Ok. split.
    - intros ([] & Hrej & values & Hvals & st & Hloop & [= <-]). split; [done|]. exists values. split; [done|].
      destruct (proj1 (items_loop r t values 0 (mkFanOutItems [] ∅ ∅) (fi_items st))) as (? & ? & ? & ? & _); [by exists st|done].
    - intros (Hrej & values & Hvals & Hlen & Hall & Hn1 & Hn2). exists tt. split; [done|]. exists values. split; [done|].
      destruct (proj2 (items_loop r t values 0 (mkFanOutItems [] ∅ ∅) items)) as (st & Hloop & Hitems).
      { split_and!; try done. apply Forall_true. intros c. cbn. by rewrite !lookup_empty. }
      exists st. split; [done|]. by rewrite Hitems. }
  split; [exact Hiff|]. intros (_ & values & _ & Hlen & Hall & _)%Hiff. apply Forall_lookup. intros i c Hc.
  destruct (lookup_lt_is_Some_2 values i) as [v Hv]; [apply lookup_lt_Some in Hc; lia|].
  destruct (Hall i v c Hv Hc) as (item & e1 & e2 & d & Hitem & _ & ->). apply valid_item_safe. by eapply compile_item_valid.
Qed.
End items.

(** ** Sensitive values in templates *)

Definition token_reference : Reference := mkRef (mkName "workflow" "token") true.

(** A parameter rendered from a template is not marked.  Let a variable resolve to
    a sensitive text.  As a parameter of its own the value is refused, since a
    sensitive parameter must be a protected reference; but put into a longer text it
    becomes an ordinary parameter that holds the secret in clear and is accepted. *)
Theorem rendered_parameter_is_not_marked {Payload : Type} (r : Resolver) context v secret :
  fx_Alias context ≠ "workflow.token" →
  Resolve r token_reference = Ok v → rv_Type v = TypeString → rv_Value v = VString secret →
  rv_Sensitive v = true → rv_ProtectedRef v = None →
  let parameter text := (parameterFromResolved (Payload := Payload)) <$>
    resolveParameterExpression r context (mkTE TypeString (EString text)) in
  (∃ p, parameter "${workflow.token}" = Ok p ∧
     Parameter_Validate p = Err (Errorf "sensitive parameter must use protected_ref")) ∧
  (∃ p, parameter "key=${workflow.token}" = Ok p ∧ Parameter_Validate p = Ok tt ∧
     pa_Sensitive p = false ∧ pa_Value p = PString ("key=" +:+ secret)).
Proof.
  intros Halias Hr Hty Hval Hsens Href parameter.
  assert (FanOutItemContext_Resolve context r "workflow.token" = Ok (v, false)) as Hres.
  { unfold FanOutItemContext_Resolve.
    replace (splitFanOutReferenceAccessor "workflow.token") with ("workflow.token", "") by (by vm_compute).
    rewrite bool_decide_eq_false_2 by (intros [?|[?|?]]; [done|congruence|done]). cbn [andb].
    replace (ParseReference "workflow.token") with (Ok token_reference) by (by vm_compute).
    cbn [mbind result_bind]. by rewrite Hr. }
  split.
  - exists (parameterFromResolved v). split.
    + unfold parameter. cbn [resolveParameterExpression]. unfold resolve_parameter_text.
      replace (containsDeferredParameterReference "${workflow.token}") with false by (by vm_compute).
      unfold resolveFanOutWholeReference.
      replace (parseFanOutTemplateTokens "${workflow.token}") with (Ok [mkSegment 0 17 "workflow.token"]) by (by vm_compute).
      cbn [mbind result_bind fs_start fs_end fs_reference]. rewrite decide_True by (by vm_compute).
      by rewrite Hres.
    + unfold Parameter_Validate, parameterFromResolved. cbn. by rewrite Hty, Href, Hsens.
  - exists (parameterFromResolved (plain TypeString (VString ("key=" +:+ secret)))). split_and!; [|done..].
    unfold parameter. cbn [resolveParameterExpression]. unfold resolve_parameter_text.
    replace (containsDeferredParameterReference "key=${workflow.token}") with false by (by vm_compute).
    unfold resolveFanOutWholeReference, renderFanOutTemplate.
    replace (parseFanOutTemplateTokens "key=${workflow.token}") with (Ok [mkSegment 4 21 "workflow.token"]) by (by vm_compute).
    cbn [mbind result_bind fs_start fs_end fs_reference]. rewrite decide_False by (by intros [? _]).
    replace (contains "${" "key=${workflow.token}") with true by (by vm_compute).
    cbn [foldM render_segment fs_start fs_end fs_reference]. rewrite Hres. cbn [wrap_err mbind result_bind andb fail_if].
    unfold renderFanOutScalar. rewrite Hty, Hval. rewrite bool_decide_eq_true_2 by (by left).
    cbn [wrap_err mbind result_bind fmap result_fmap]. do 4 f_equal.
    change (unescapeFanOutTemplate (str_drop 21 "key=${workflow.token}")) with "". by rewrite str_app_nil_r.
Qed.

(** ** A step to try them on *)

(** Without data templates there is nothing for the data operators to do. *)
Definition no_data : DataOperators := {|
  DataPayload := Empty_set; ExplicitDataInputTemplate := Empty_set;
  ExplicitAssetMaterializeTemplate := Empty_set; ExplicitCommitDataTemplate := Empty_set;
  collection_asset := λ _, false; asset_dedupe_key := λ _, None;
  compileExplicitDataInputs := λ _ _ _ item, Ok item;
  compileExplicitAssetMaterializeWorkItem := λ _ _ _ item, Ok (item, []);
  compileExplicitCommitDataWorkItem := λ _ _ _ _ item, Ok (item, []);
  compileExplicitAssetMaterializeMemberWorkItems := λ _ _ _ _ t _, match t with end |}.
#[local] Existing Instance no_data.

Definition demo_variables : list Var :=
  [mkVar (mkName "workflow" "token") (mkTE TypeString (EString "s3cr3t")) true None;
   mkVar (mkName "workflow" "regions")
     (mkTE TypeList (EList [mkTE TypeString (EString "north"); mkTE TypeString (EString "south")])) false None].
Definition demo_resolver : Resolver :=
  NewResolver (NewSet [match NewScope demo_variables with Ok s => s | Err _ => ∅ end])
    (mkConfig 0 None DefaultFunctionRegistry).
Definition demo_declaration : ResourceConstraintDeclaration :=
  mkDeclaration (mkTE TypeString (EString "disk:${fanout}")) (mkTE TypeInt (EInt 2)) (mkTE TypeString (EString "<="))
    (mkTE TypeInt (ENumber "8")) "" "" "" "".
Definition demo_template : FanOutWorkItemTemplate :=
  mkTemplate "${workflow.regions[*]}" "" "" "" "" "" "" "write_demo_output" "extract" "out" ".json" None
    {["region" := mkTE TypeString (EString "${fanout}")]} ∅ [demo_declaration] [] None None.
Definition demo_items : list (CompiledFanOutWorkItem DataPayload) :=
  match CompileFanOutWorkItemResults demo_resolver demo_template with Ok items => items | Err _ => [] end.

Lemma fan_out_exact_witness :
  item_id <$> demo_items = ["extract-north"; "extract-south"] ∧
  Forall (λ c, filepath_Base (item_output c) = item_output c ∧ no_marked_value (cf_WorkItem c)) demo_items.
Proof.
  split; [by vm_compute|]. apply (fan_out_exact demo_resolver demo_template demo_items); by vm_compute.
Defined.

Lemma rendered_parameter_is_not_marked_witness :
  let parameter := (parameterFromResolved (Payload := Empty_set)) <$>
    resolveParameterExpression demo_resolver zero_fan_context (mkTE TypeString (EString "key=${workflow.token}")) in
  ∃ p, parameter = Ok p ∧ Parameter_Validate p = Ok tt ∧ pa_Sensitive p = false ∧ pa_Value p = PString "key=s3cr3t".
Proof.
  destruct (rendered_parameter_is_not_marked (Payload := Empty_set) demo_resolver zero_fan_context
    (mkRV TypeString (VString "s3cr3t") [] [] true "[REDACTED:workflow.token]" "workflow.token" None) "s3cr3t") as [_ H];
    [done|by vm_compute|done..|exact H].
Defined.

Definition demo_exec : Exec :=
  mkExec {["extract-north" := mkWorkItem "extract-north" "run" 0 0 "{}" "00" "2026-01-01T00:00:00Z"]} ∅ ∅ ∅ ∅ ∅ ∅ ∅ ∅ ∅.
Lemma declared_constraints_are_stored_witness :
  ∃ cs e', resolveResourceConstraintDeclarations demo_resolver (mkFanContext "" 0 (plain TypeString (VString "north")))
      "extract-north" [demo_declaration] = Ok cs ∧
    foldM (λ e c, insert_resource_constraint (mkEngine (λ _, true) true) c e) demo_exec
      (constraint_rows "2026-01-01T00:00:00Z" cs) = Ok e'.
Proof.
  eexists. destruct (declared_constraints_are_stored demo_resolver (mkFanContext "" 0 (plain TypeString (VString "north")))
    "extract-north" [demo_declaration]
    [mkWorkConstraint "extract-north" 0 "disk:north" 2 "<=" 8 ""] "2026-01-01T00:00:00Z" (mkEngine (λ _, true) true) demo_exec)
    as (_ & e' & He' & _); [by vm_compute|by vm_compute| |].
  - intros k c Hk. unfold demo_exec in Hk. cbn [work_item_resource_constraints] in Hk. by rewrite lookup_empty in Hk.
  - exists e'. split; [by vm_compute|exact He'].
Defined.
