(* ===== verification/Compile.v ===== *)
(** * Compiling workflows ([internal/workflow/step.go], [workflow.go], [compile_stage.go])

    The work items of a step, of a whole workflow, and of one stage of a plan; in each
    no two items share an id, and in a stage no asset is materialised twice. *)

From S2P Require Import Prelude GoTime GoStrings GoJson GoJsonLaws GoSha256 Fingerprint GoJsonStruct.
From S2P Require Import Variables Expression Functions Resolver VariableCodec.
From S2P Require Import StoreData Dependency WorkItem FanOut Stages.
From S2P Require Import FanOutLaws.
Local Open Scope Z_scope.

Section compile.
Context {ops : DataOperators}.

Definition CompileStepItems (resolver : Resolver) (step : Step FanOutStep) :
    result (list (CompiledFanOutWorkItem DataPayload)) :=
  required (step_ID step) "workflow step id is required";;
  match step_FanOut step with
  | None => Err (Errorf ("workflow step " +:+ step_ID step +:+ " has no compiler"))
  | Some fanOut =>
      let id := if is_empty (fo_ID fanOut) then step_ID step else fo_ID fanOut in
      let template := if is_empty (ft_IDPrefix (fo_WorkItem fanOut))
                      then set_ft_IDPrefix (step_ID step) (fo_WorkItem fanOut) else fo_WorkItem fanOut in
      CompileFanOutStepItems resolver (mkFanOutStep id template)
  end.
Definition CompileStep (resolver : Resolver) (step : Step FanOutStep) : result (list (WorkItem DataPayload)) :=
  work_items_of <$> CompileStepItems resolver step.

(** ** A whole workflow *)

Record CompiledWorkItem := mkCompiledWorkItem {
  cw_WorkflowID : string; cw_StepID : string; cw_WorkItem : WorkItem DataPayload;
  cw_ResourceConstraints : list WorkItemResourceConstraint }.
Record CompileResult := mkCompileResult {
  cm_WorkflowID : string; cm_StepCount : Z; cm_WorkItems : list CompiledWorkItem }.

(** [seenWorkItems] and [items]. *)
Definition add_workflow_item (workflowID stepID : string) (st : gset string * list CompiledWorkItem)
    (item : CompiledFanOutWorkItem DataPayload) : result (gset string * list CompiledWorkItem) :=
  let '(seen, items) := st in
  let id := w_ID (cf_WorkItem item) in
  fail_if (bool_decide (id ∈ seen)) (Errorf ("duplicate generated work item id: " +:+ id));;
  Ok ({[id]} ∪ seen, items ++ [mkCompiledWorkItem workflowID stepID (cf_WorkItem item) (cf_ResourceConstraints item)]).

Definition compile_workflow_step (resolver : Resolver) (workflowID : string)
    (st : gset string * (gset string * list CompiledWorkItem)) (istep : nat * Step FanOutStep) :
    result (gset string * (gset string * list CompiledWorkItem)) :=
  let '(seenSteps, acc) := st in
  let '(index, step) := istep in
  fail_if (bool_decide (step_ID step ∈ seenSteps)) (Errorf ("duplicate workflow step id: " +:+ step_ID step));;
  compiled ← wrap_err ("compile workflow step " +:+ pretty index) (CompileStepItems resolver step);
  acc ← foldM (add_workflow_item workflowID (step_ID step)) acc compiled;
  Ok ({[step_ID step]} ∪ seenSteps, acc).
Definition CompileWorkflowResult (resolver : Resolver) (workflow : Workflow FanOutStep) : result CompileResult :=
  required (workflow_ID workflow) "workflow id is required";;
  '(_, (_, items)) ← foldM (compile_workflow_step resolver (workflow_ID workflow)) (∅, (∅, []))
                       (indexed 0 (workflow_Steps workflow));
  Ok (mkCompileResult (workflow_ID workflow) (Z.of_nat (length (workflow_Steps workflow))) items).
Definition CompileWorkflowItems (resolver : Resolver) (workflow : Workflow FanOutStep) : result (list CompiledWorkItem) :=
  cm_WorkItems <$> CompileWorkflowResult resolver workflow.
Definition CompileWorkflow (resolver : Resolver) (workflow : Workflow FanOutStep) : result (list (WorkItem DataPayload)) :=
  List.map cw_WorkItem <$> CompileWorkflowItems resolver workflow.

(** ** One stage *)

Record CompileStageWorkItem := mkStageItem {
  si_WorkflowID : string; si_StageIndex : Z; si_StepIndex : Z; si_StepID : string; si_WorkItemIndex : Z;
  si_WorkItem : WorkItem DataPayload; si_ResourceConstraints : list WorkItemResourceConstraint }.
Record CompileStageResult := mkStageResult {
  sr_WorkflowID : string; sr_StageIndex : Z; sr_Steps : list (WorkflowStageStep FanOutStep);
  sr_WorkItems : list CompileStageWorkItem }.

Definition explicitAssetMaterializeDedupeKey (item : CompileStageWorkItem) : result string :=
  let name := "explicit asset_materialize work item " +:+ w_ID (si_WorkItem item) in
  match parameter_map (w_Parameters (si_WorkItem item)) !! "asset_materialize" with
  | None => Err (Errorf (name +:+ " missing asset_materialize parameter"))
  | Some parameter =>
      match pa_Value parameter with
      | PPayload payload =>
          match asset_dedupe_key payload with
          | Some key => fail_if (is_empty key) (Errorf (name +:+ " missing dedupe_key"));; Ok key
          | None => Err (Errorf (name +:+ " has unsupported asset_materialize payload"))
          end
      | _ => Err (Errorf (name +:+ " has unsupported asset_materialize payload"))
      end
  end.
Definition check_materializer (seenExplicit : gmap string string) (item : CompileStageWorkItem) :
    result (gmap string string) :=
  if negb (bool_decide (w_Type (si_WorkItem item) = WorkItemTypeAssetMaterialize)) then Ok seenExplicit
  else
    dedupeKey ← explicitAssetMaterializeDedupeKey item;
    match seenExplicit !! dedupeKey with
    | Some previous => Err (Errorf ("duplicate explicit asset_materialize materializer for " +:+ dedupeKey +:+ ": " +:+
                                    previous +:+ " and " +:+ w_ID (si_WorkItem item)))
    | None => Ok (<[dedupeKey := w_ID (si_WorkItem item)]> seenExplicit)
    end.
Definition ValidateExplicitAssetMaterializeWorkItems (stage : CompileStageResult) : result unit :=
  foldM check_materializer ∅ (sr_WorkItems stage);; Ok tt.
Definition PlanStageAssetMaterializeWorkItems (stage : CompileStageResult) : result CompileStageResult :=
  ValidateExplicitAssetMaterializeWorkItems stage;; Ok stage.

Definition add_stage_item (workflowID : string) (stageIndex : Z) (step : WorkflowStageStep FanOutStep)
    (st : gset string * list CompileStageWorkItem) (iitem : nat * CompiledFanOutWorkItem DataPayload) :
    result (gset string * list CompileStageWorkItem) :=
  let '(seen, items) := st in
  let '(itemIndex, item) := iitem in
  let id := w_ID (cf_WorkItem item) in
  fail_if (bool_decide (id ∈ seen))
    (Errorf ("duplicate generated work-item id in stage " +:+ pretty stageIndex +:+ ": " +:+ id));;
  Ok ({[id]} ∪ seen,
      items ++ [mkStageItem workflowID stageIndex (wss_StepIndex step) (wss_StepID step) (Z.of_nat itemIndex)
                  (cf_WorkItem item) (cf_ResourceConstraints item)]).
Definition compile_stage_step (resolver : Resolver) (workflowID : string) (stageIndex : Z)
    (st : gset string * list CompileStageWorkItem) (step : WorkflowStageStep FanOutStep) :
    result (gset string * list CompileStageWorkItem) :=
  compiled ← wrap_err ("compile workflow stage " +:+ pretty stageIndex +:+ " step " +:+ pretty (wss_StepIndex step) +:+
                       " (" +:+ wss_StepID step +:+ ")") (CompileStepItems resolver (wss_Step step));
  foldM (add_stage_item workflowID stageIndex step) st (indexed 0 compiled).
Definition CompileWorkflowStage (resolver : Resolver) (workflow : Workflow FanOutStep)
    (plan : WorkflowPlan FanOutStep) (stageIndex : Z) : result CompileStageResult :=
  required (workflow_ID workflow) "workflow id is required";;
  fail_if (negb (is_empty (wp_WorkflowID plan)) && negb (bool_decide (wp_WorkflowID plan = workflow_ID workflow)))
    (Errorf ("workflow id mismatch: plan=" +:+ wp_WorkflowID plan +:+ " workflow=" +:+ workflow_ID workflow));;
  match (if stageIndex <? 0 then None else wp_Stages plan !! Z.to_nat stageIndex) with
  | None => Err (Errorf ("invalid workflow stage index " +:+ pretty stageIndex))
  | Some stage =>
      '(_, items) ← foldM (compile_stage_step resolver (workflow_ID workflow) stageIndex) (∅, []) (wst_Steps stage);
      let r := mkStageResult (workflow_ID workflow) stageIndex (wst_Steps stage) items in
      ValidateExplicitAssetMaterializeWorkItems r;;
      Ok r
  end.
End compile.

(** * Compiling by stages and compiling at once

    What the two compilers produce, exactly, and that they agree: the stages of a
    normalised workflow compile to consecutive parts of the items of the workflow. *)
Local Open Scope Z_scope.

(** ** Loops that refuse a repeated key *)

Section distinct.
Context {A B : Type} (key : A → string) (mk : A → B) (err : A → GoError).
Context (f : gset string * list B → A → result (gset string * list B)).
Hypothesis f_step : ∀ seen items a,
  f (seen, items) a = (fail_if (bool_decide (key a ∈ seen)) (err a);; Ok ({[key a]} ∪ seen, items ++ [mk a])).

Lemma distinct_loop l seen items st :
  foldM f (seen, items) l = Ok st ↔
  NoDup (key <$> l) ∧ (∀ a, a ∈ l → key a ∉ seen) ∧ st = (list_to_set (key <$> l) ∪ seen, items ++ (mk <$> l)).
Proof using f_step.
  revert seen items. induction l as [|a l IH]; intros seen items; cbn [foldM fmap list_fmap].
  { split.
    - intros [= <-]. split_and!; [constructor|set_solver|]. f_equal; [set_solver|by rewrite app_nil_r].
    - intros (_ & _ & ->). f_equal. f_equal; [set_solver|by rewrite app_nil_r]. }
  rewrite f_step. case_bool_decide as Hin; cbn [fail_if mbind result_bind].
  { split; [done|]. intros (_ & Hall & _). by destruct (Hall a); [left|]. }
  rewrite IH, NoDup_cons. split.
  - intros (Hn & Hall & ->). split_and!.
    + intros (b & Hb & Hbl)%list_elem_of_fmap. specialize (Hall b Hbl). set_solver.
    + done.
    + intros b [->|Hb]%elem_of_cons; [done|]. specialize (Hall b Hb). set_solver.
    + f_equal; [set_solver|by rewrite <- app_assoc].
  - intros ([Hn1 Hn2] & Hall & ->). split_and!; [done| |].
    + intros b Hb. assert (key b ≠ key a); [|specialize (Hall b); set_solver].
      intros E. apply Hn1. rewrite <- E. by apply list_elem_of_fmap_2.
    + f_equal; [set_solver|by rewrite <- app_assoc].
Qed.
End distinct.

Lemma indexed_length {A} k (l : list A) : length (indexed k l) = length l.
Proof. revert k. induction l; intros; cbn; auto. Qed.
Lemma indexed_snd {A} k (l : list A) : (indexed k l).*2 = l.
Proof. revert k. induction l; intros; cbn; by f_equal. Qed.
Lemma indexed_lookup {A} k (l : list A) i : indexed k l !! i = (λ a, ((k + i)%nat, a)) <$> l !! i.
Proof.
  revert k i. induction l as [|a l IH]; intros k [|i]; cbn; try done.
  - by rewrite Nat.add_0_r.
  - rewrite IH. by replace (S k + i)%nat with (k + S i)%nat by lia.
Qed.

Section laws.
Context {ops : DataOperators}.
Notation compiled := (CompiledFanOutWorkItem DataPayload).

Definition compiled_id (c : compiled) : string := w_ID (cf_WorkItem c).

(** ** A stage *)

Definition stage_item (workflowID : string) (stageIndex : Z) (step : WorkflowStageStep FanOutStep)
    (ic : nat * compiled) : CompileStageWorkItem :=
  mkStageItem workflowID stageIndex (wss_StepIndex step) (wss_StepID step) (Z.of_nat ic.1)
    (cf_WorkItem ic.2) (cf_ResourceConstraints ic.2).
(** The items of the steps, in the order of the steps; each knows its place in its step. *)
Definition stage_items (workflowID : string) (stageIndex : Z) (steps : list (WorkflowStageStep FanOutStep))
    (per : list (list compiled)) : list CompileStageWorkItem :=
  concat (zip_with (λ step c, stage_item workflowID stageIndex step <$> indexed 0 c) steps per).

Lemma stage_step_loop w k step c seen items st :
  foldM (add_stage_item w k step) (seen, items) (indexed 0 c) = Ok st ↔
  NoDup (compiled_id <$> c) ∧ (∀ a, a ∈ c → compiled_id a ∉ seen) ∧
  st = (list_to_set (compiled_id <$> c) ∪ seen, items ++ (stage_item w k step <$> indexed 0 c)).
Proof.
  rewrite (distinct_loop (λ ic : nat * compiled, compiled_id ic.2) (stage_item w k step)
    (λ ic, Errorf ("duplicate generated work-item id in stage " +:+ pretty k +:+ ": " +:+ compiled_id ic.2))).
  2:{ by intros seen' items' [i a]. }
  assert ((λ ic : nat * compiled, compiled_id ic.2) <$> indexed 0 c = compiled_id <$> c) as ->.
  { rewrite <- (indexed_snd 0 c) at 2. by rewrite <- list_fmap_compose. }
  f_equiv. f_equiv. split.
  - intros H a Ha. rewrite <- (indexed_snd 0 c) in Ha. apply list_elem_of_fmap in Ha as (ic & -> & Hic). by apply H.
  - intros H ic Hic. apply H. rewrite <- (indexed_snd 0 c). by apply list_elem_of_fmap_2.
Qed.

Definition compiles (r : Resolver) (steps : list (Step FanOutStep)) (per : list (list compiled)) : Prop :=
  Forall2 (λ s c, CompileStepItems r s = Ok c) steps per.

Lemma stage_loop r w k steps seen items st :
  foldM (compile_stage_step r w k) (seen, items) steps = Ok st ↔
  ∃ per, compiles r (wss_Step <$> steps) per ∧ NoDup (compiled_id <$> concat per) ∧
    (∀ a, a ∈ concat per → compiled_id a ∉ seen) ∧
    st = (list_to_set (compiled_id <$> concat per) ∪ seen, items ++ stage_items w k steps per).
Proof.
  revert seen items. induction steps as [|s steps IH]; intros seen items.
  { cbn [foldM]. split.
    - intros [= <-]. exists []. split_and!; [constructor|constructor|set_solver|].
      cbn. f_equal; [set_solver|by rewrite app_nil_r].
    - intros (per & Hper & _ & _ & ->). apply Forall2_nil_inv_l in Hper as ->. cbn. f_equal. f_equal; [set_solver|by rewrite app_nil_r]. }
  rewrite foldM_cons, bind_Ok. unfold compile_stage_step at 1. split.
  - intros ([seen1 items1] & H1 & H2). apply bind_Ok in H1 as (c & Hc & H1). rewrite wrap_err_Ok in Hc.
    apply stage_step_loop in H1 as (Hn & Hd & [= -> ->]). apply IH in H2 as (per & Hper & Hn2 & Hd2 & ->).
    exists (c :: per). cbn [concat]. rewrite fmap_app. split_and!.
    + by constructor.
    + apply NoDup_app. split_and!; [done| |done]. intros x (a & -> & Ha)%list_elem_of_fmap (b & Hab & Hb)%list_elem_of_fmap.
      apply (Hd2 b Hb). rewrite <- Hab. apply elem_of_union_l, elem_of_list_to_set. by apply list_elem_of_fmap_2.
    + intros a [Ha|Ha]%elem_of_app; [by apply Hd|]. specialize (Hd2 a Ha). set_solver.
    + unfold stage_items. cbn [zip_with concat]. rewrite list_to_set_app_L. f_equal; [set_solver|by rewrite <- app_assoc].
  - intros (per & Hper & Hn & Hd & ->). rewrite fmap_cons in Hper.
    apply Forall2_cons_inv_l in Hper as (c & per' & Hc & Hper' & ->).
    cbn [concat] in *. rewrite fmap_app in Hn. apply NoDup_app in Hn as (Hn1 & Hsep & Hn2).
    exists (list_to_set (compiled_id <$> c) ∪ seen, items ++ (stage_item w k s <$> indexed 0 c)). split.
    + apply bind_Ok. exists c. rewrite wrap_err_Ok. split; [done|]. apply stage_step_loop. split_and!; [done| |done].
      intros a Ha. apply Hd. apply elem_of_app. by left.
    + apply IH. exists per'. split_and!; [done|done| |].
      * intros a Ha [Hin|Hin]%elem_of_union.
        -- apply elem_of_list_to_set in Hin. apply (Hsep _ Hin). by apply list_elem_of_fmap_2.
        -- apply (Hd a); [|done]. apply elem_of_app. by right.
      * rewrite fmap_app, list_to_set_app_L. unfold stage_items. cbn [zip_with concat]. f_equal; [set_solver|by rewrite <- app_assoc].
Qed.

(** ** A workflow *)

Definition workflow_item (workflowID stepID : string) (c : compiled) : CompiledWorkItem :=
  mkCompiledWorkItem workflowID stepID (cf_WorkItem c) (cf_ResourceConstraints c).
Definition workflow_items (workflowID : string) (steps : list (Step FanOutStep)) (per : list (list compiled)) :
    list CompiledWorkItem :=
  concat (zip_with (λ step c, workflow_item workflowID (step_ID step) <$> c) steps per).

Lemma workflow_step_loop w id c seen items st :
  foldM (add_workflow_item w id) (seen, items) c = Ok st ↔
  NoDup (compiled_id <$> c) ∧ (∀ a, a ∈ c → compiled_id a ∉ seen) ∧
  st = (list_to_set (compiled_id <$> c) ∪ seen, items ++ (workflow_item w id <$> c)).
Proof.
  apply (distinct_loop compiled_id (workflow_item w id)
    (λ c, Errorf ("duplicate generated work item id: " +:+ compiled_id c))). done.
Qed.

Lemma workflow_loop r w steps k seenS seen items st :
  foldM (compile_workflow_step r w) (seenS, (seen, items)) (indexed k steps) = Ok st →
  ∃ per, compiles r steps per ∧ NoDup (compiled_id <$> concat per) ∧
    (∀ a, a ∈ concat per → compiled_id a ∉ seen) ∧ st.2.2 = items ++ workflow_items w steps per.
Proof.
  revert k seenS seen items. induction steps as [|s steps IH]; intros k seenS seen items H.
  { injection H as <-. exists []. split_and!; [constructor|constructor|set_solver|]. by rewrite app_nil_r. }
  cbn [indexed] in H. rewrite foldM_cons in H. apply bind_Ok in H as ([seenS1 [seen1 items1]] & H1 & H2).
  unfold compile_workflow_step in H1. apply bind_Ok in H1 as (u & _ & H1).
  apply bind_Ok in H1 as (c & Hc & H1). rewrite wrap_err_Ok in Hc. apply bind_Ok in H1 as (acc & Hacc & H1).
  injection H1 as <- ->. apply workflow_step_loop in Hacc as (Hn & Hd & [= -> ->]).
  apply IH in H2 as (per & Hper & Hn2 & Hd2 & ->). exists (c :: per). cbn [concat]. rewrite fmap_app. split_and!.
  - by constructor.
  - apply NoDup_app. split_and!; [done| |done]. intros x (a & -> & Ha)%list_elem_of_fmap (b & Hab & Hb)%list_elem_of_fmap.
    apply (Hd2 b Hb). rewrite <- Hab. apply elem_of_union_l, elem_of_list_to_set. by apply list_elem_of_fmap_2.
  - intros a [Ha|Ha]%elem_of_app; [by apply Hd|]. specialize (Hd2 a Ha). set_solver.
  - unfold workflow_items. cbn [zip_with concat]. by rewrite <- app_assoc.
Qed.

(** ** The two agree *)

(** The label of a step does not matter to its compilation. *)
Lemma compile_label r l s : CompileStepItems r (with_label l s) = CompileStepItems r s.
Proof. done. Qed.

Lemma compiles_labelled r (f : Step FanOutStep → string) steps per :
  compiles r steps per → compiles r ((λ s, with_label (f s) s) <$> steps) per.
Proof. intros H. unfold compiles. rewrite Forall2_fmap_l. eapply Forall2_impl; [exact H|]. done. Qed.

Lemma planned_steps (steps : list (Step FanOutStep)) stages :
  stages_of steps stages →
  wss_Step <$> stage_steps stages = (λ s, with_label (label s) s) <$> steps ∧
  wss_StepID <$> stage_steps stages = step_ID <$> steps.
Proof.
  intros [Horder _ _].
  assert (∀ k, (enumerate k steps).*2 = steps) as Hsnd.
  { clear. induction steps as [|s l IH]; intros k; [done|]. cbn. f_equal. apply IH. }
  pose proof (f_equal (fmap snd) Horder) as H1. pose proof (f_equal (fmap (snd ∘ fst)) Horder) as H2.
  rewrite <- !list_fmap_compose in H1, H2. unfold compose, planned_step, planned in H1, H2. cbn in H1, H2. split.
  - rewrite <- (Hsnd 0) at 1. rewrite <- list_fmap_compose. exact H1.
  - rewrite <- (Hsnd 0) at 1. rewrite <- list_fmap_compose. exact H2.
Qed.

(** What an item is, apart from where it is. *)
Definition stage_content (i : CompileStageWorkItem) : string * WorkItem DataPayload * list WorkItemResourceConstraint :=
  (si_StepID i, si_WorkItem i, si_ResourceConstraints i).
Definition workflow_content (i : CompiledWorkItem) : string * WorkItem DataPayload * list WorkItemResourceConstraint :=
  (cw_StepID i, cw_WorkItem i, cw_ResourceConstraints i).

Definition contents (ids : list string) (per : list (list compiled)) :
    list (string * WorkItem DataPayload * list WorkItemResourceConstraint) :=
  concat (zip_with (λ id c, (λ x : compiled, (id, cf_WorkItem x, cf_ResourceConstraints x)) <$> c) ids per).

Lemma stage_contents w k steps per :
  stage_content <$> stage_items w k steps per = contents (wss_StepID <$> steps) per.
Proof.
  unfold stage_items, contents. revert per. induction steps as [|s steps IH]; intros [|c per]; try done.
  cbn [zip_with concat fmap list_fmap]. rewrite fmap_app, IH. f_equal.
  rewrite <- (indexed_snd 0 c) at 2. by rewrite <- !list_fmap_compose.
Qed.
Lemma workflow_contents w steps per :
  workflow_content <$> workflow_items w steps per = contents (step_ID <$> steps) per.
Proof.
  unfold workflow_items, contents. revert per. induction steps as [|s steps IH]; intros [|c per]; try done.
  cbn [zip_with concat fmap list_fmap]. rewrite fmap_app, IH. f_equal. by rewrite <- list_fmap_compose.
Qed.
Lemma contents_app ids1 ids2 per1 per2 :
  length ids1 = length per1 → contents (ids1 ++ ids2) (per1 ++ per2) = contents ids1 per1 ++ contents ids2 per2.
Proof. intros H. unfold contents. by rewrite zip_with_app, concat_app. Qed.

(** The items per step, cut at the ends of the stages. *)
Fixpoint cut (stages : list (WorkflowStage FanOutStep)) (per : list (list compiled)) : list (list (list compiled)) :=
  match stages with
  | [] => []
  | g :: gs => take (length (wst_Steps g)) per :: cut gs (drop (length (wst_Steps g)) per)
  end.

Lemma cut_compiles r stages per :
  compiles r (wss_Step <$> stage_steps stages) per → NoDup (compiled_id <$> concat per) →
  concat (cut stages per) = per ∧
  Forall2 (λ g p, compiles r (wss_Step <$> wst_Steps g) p ∧ NoDup (compiled_id <$> concat p)) stages (cut stages per).
Proof.
  revert per. induction stages as [|g stages IH]; intros per Hc Hn.
  { apply Forall2_nil_inv_l in Hc as ->. split; [done|constructor]. }
  unfold stage_steps in Hc. cbn [mbind list_bind] in Hc. fold (stage_steps stages) in Hc. rewrite fmap_app in Hc.
  apply Forall2_app_inv_l in Hc as (p1 & p2 & H1 & H2 & ->).
  assert (length (wst_Steps g) = length p1) as Hlen by (apply Forall2_length in H1; by rewrite length_fmap in H1).
  cbn [cut]. rewrite take_app_length', drop_app_length' by done.
  rewrite concat_app, fmap_app in Hn. apply NoDup_app in Hn as (Hn1 & _ & Hn2).
  destruct (IH p2 H2 Hn2) as [Hcat HF]. split; [cbn; by rewrite Hcat|]. by constructor.
Qed.

(** The parts of the stages from index [k] on. *)
Fixpoint parts_from (w : string) (k : Z) (stages : list (WorkflowStage FanOutStep)) (cuts : list (list (list compiled))) :
    list (list CompileStageWorkItem) :=
  match stages, cuts with
  | g :: gs, p :: ps => stage_items w k (wst_Steps g) p :: parts_from w (k + 1) gs ps
  | _, _ => []
  end.

Lemma parts_lookup w k stages cuts n g p :
  stages !! n = Some g → cuts !! n = Some p →
  parts_from w k stages cuts !! n = Some (stage_items w (k + Z.of_nat n) (wst_Steps g) p).
Proof.
  revert k n cuts. induction stages as [|g0 stages IH]; intros k [|n] [|p0 cuts] Hg Hp; try done; cbn in *.
  - injection Hg as ->. injection Hp as ->. by rewrite Z.add_0_r.
  - etrans; [exact (IH (k + 1) n cuts Hg Hp)|]. do 2 f_equal. lia.
Qed.

Lemma parts_contents w k stages cuts :
  Forall2 (λ g p, length (wst_Steps g) = length p) stages cuts →
  length (parts_from w k stages cuts) = length stages ∧
  stage_content <$> concat (parts_from w k stages cuts) = contents (wss_StepID <$> stage_steps stages) (concat cuts).
Proof.
  intros HF. revert k. induction HF as [|g p stages cuts Hlen HF IH]; intros k; [done|].
  destruct (IH (k + 1)) as [IH1 IH2]. cbn [parts_from concat length]. split; [by rewrite IH1|].
  rewrite fmap_app, IH2, stage_contents. unfold stage_steps. cbn [mbind list_bind].
  rewrite fmap_app, contents_app by (by rewrite length_fmap). done.
Qed.

(** C21: Compiling a workflow at once and compiling it stage by stage agree.  When a
    workflow can be grouped into stages and compiles, its items fall into one part per
    stage, in order, with the same steps, work items and constraints; and each stage
    compiles to exactly its part, unless two of its items materialise one asset, which
    is refused. *)
Theorem staged_compilation_agrees (r : Resolver) (w : Workflow FanOutStep) plan res :
  NormalizeStages w = Ok plan → CompileWorkflowResult r w = Ok res →
  ∃ parts, length parts = length (wp_Stages plan) ∧
    stage_content <$> concat parts = workflow_content <$> cm_WorkItems res ∧
    ∀ k stage part, wp_Stages plan !! k = Some stage → parts !! k = Some part →
      let compiled_stage := mkStageResult (workflow_ID w) (Z.of_nat k) (wst_Steps stage) part in
      CompileWorkflowStage r w plan (Z.of_nat k) =
        (ValidateExplicitAssetMaterializeWorkItems compiled_stage;; Ok compiled_stage).
Proof.
  intros Hplan Hres. pose proof (NormalizeStages_cases w) as Hcases. rewrite Hplan in Hcases.
  destruct Hcases as (_ & Hid & _ & Hstages). destruct (planned_steps _ _ Hstages) as [Hsteps Hids].
  unfold CompileWorkflowResult in Hres. apply bind_Ok in Hres as (u & Hne & Hres).
  apply bind_Ok in Hres as ([seenS [seen items]] & Hloop & Hres). injection Hres as <-.
  apply workflow_loop in Hloop as (per & Hper & Hn & _ & Hitems). cbn in Hitems. subst items.
  assert (compiles r (wss_Step <$> stage_steps (wp_Stages plan)) per) as Hc.
  { rewrite Hsteps. by apply compiles_labelled. }
  destruct (cut_compiles r _ _ Hc Hn) as [Hcat Hcut].
  destruct (parts_contents (workflow_ID w) 0 (wp_Stages plan) (cut (wp_Stages plan) per)) as [Hlen Hcontent].
  { eapply Forall2_impl; [exact Hcut|]. intros g p [Hg _]. apply Forall2_length in Hg. by rewrite length_fmap in Hg. }
  exists (parts_from (workflow_ID w) 0 (wp_Stages plan) (cut (wp_Stages plan) per)). split_and!; [done| |].
  { rewrite Hcontent, Hcat, Hids. cbn [cm_WorkItems]. by rewrite workflow_contents. }
  intros k stage part Hk Hpart. destruct (Forall2_lookup_l _ _ _ _ _ Hcut Hk) as (p & Hp & Hcp & Hnp).
  rewrite (parts_lookup _ _ _ _ _ _ _ Hk Hp) in Hpart. injection Hpart as <-. cbn zeta.
  unfold CompileWorkflowStage. rewrite Hne, Hid, bool_decide_eq_true_2, andb_false_r by done. cbn [fail_if mbind result_bind negb].
  replace (Z.of_nat k <? 0) with false by (symmetry; apply Z.ltb_ge; lia). rewrite Nat2Z.id, Hk.
  assert (foldM (compile_stage_step r (workflow_ID w) (Z.of_nat k)) (∅, []) (wst_Steps stage) =
    Ok (list_to_set (compiled_id <$> concat p) ∪ ∅, [] ++ stage_items (workflow_ID w) (Z.of_nat k) (wst_Steps stage) p)) as ->.
  { apply stage_loop. exists p. split_and!; [done|done|set_solver|done]. }
  done.
Qed.
End laws.

(** Two steps side by side and one after them. *)
#[local] Existing Instance no_data.
Definition demo_step (id label : string) : Step FanOutStep :=
  mkWorkflowStep id (Some (mkFanOutStep "" (set_ft_IDPrefix "" demo_template))) label.
Definition demo_workflow : Workflow FanOutStep :=
  mkWorkflowDef "wf" [] [demo_step "a" "x"; demo_step "b" "x"; demo_step "c" ""].
Definition demo_compiled : CompileResult :=
  match CompileWorkflowResult demo_resolver demo_workflow with Ok res => res | Err _ => mkCompileResult "" 0 [] end.
Definition demo_stages : WorkflowPlan FanOutStep :=
  match NormalizeStages demo_workflow with Ok plan => plan | Err _ => mkWorkflowPlan "" 0 [] end.

Lemma staged_compilation_agrees_witness :
  (λ i, w_ID (cw_WorkItem i)) <$> cm_WorkItems demo_compiled =
    ["a-north"; "a-south"; "b-north"; "b-south"; "c-north"; "c-south"] ∧
  ∃ parts, length parts = 2%nat ∧
    stage_content <$> concat parts = workflow_content <$> cm_WorkItems demo_compiled.
Proof.
  split; [by vm_compute|].
  destruct (staged_compilation_agrees demo_resolver demo_workflow demo_stages demo_compiled) as (parts & Hlen & Hcontent & _);
    [by vm_compute|by vm_compute|].
  exists parts. split; [exact Hlen|exact Hcontent].
Defined.
