(* ===== verification/GoPath.v ===== *)
(** * Slash-separated paths ([path] and [path/filepath] on Unix)

    [Clean], [Join], [Ext] and their laws.  A path is known by whether it is rooted
    and by its components after cleaning; joining plain names to a path appends them
    to its components, so the result stays below the path. *)

From S2P Require Import Prelude GoStrings.
Local Open Scope nat_scope.

Definition rooted (path : string) : bool := has_prefix "/" path.
(** One element of the path, onto the components so far, last first. *)
Definition clean_step (root : bool) (out : list string) (element : string) : list string :=
  if bool_decide (element = "" ∨ element = ".") then out else
  if bool_decide (element = "..") then
    match out with
    | [] => if root then [] else [".."]
    | last :: out' => if bool_decide (last = "..") then ".." :: out else out'
    end
  else element :: out.
Definition components (path : string) : list string :=
  rev (foldl (clean_step (rooted path)) [] (split_byte "/" path)).

(** [filepath.Clean] *)
Definition Clean (path : string) : string :=
  if is_empty path then "." else
  let out := str_join "/" (components path) in
  if rooted path then "/" +:+ out else if is_empty out then "." else out.
(** [filepath.Join] *)
Fixpoint Join (elements : list string) : string :=
  match elements with
  | [] => ""
  | e :: rest => if is_empty e then Join rest else Clean (str_join "/" elements)
  end.
(** [filepath.Ext]: from the last period of the last element. *)
Fixpoint ext_from (acc : string) (s : string) : string :=
  match s with
  | EmptyString => acc
  | String c s' =>
      if decide (c = "/"%char) then ext_from "" s'
      else if decide (c = "."%char) then ext_from s s' else ext_from acc s'
  end.
Definition Ext (path : string) : string := ext_from "" path.

Example clean_examples :
  Clean "a/./b//../c" = "a/c" ∧ Clean "/../a" = "/a" ∧ Clean "../../x/.." = "../.." ∧ Clean "a/.." = "." ∧
  Clean "//" = "/" ∧ Join ["logs/"; ""; "x"] = "logs/x" ∧ Ext "a.b/c.jsonl" = ".jsonl" ∧ Ext "a.b/c" = "".
Proof. vm_compute. done. Qed.

(** A name that is one component: not empty, no slash, neither . nor .. *)
Definition plain_name (name : string) : Prop :=
  name ≠ "" ∧ name ≠ "." ∧ name ≠ ".." ∧ has_byte "/" name = false.
#[export] Instance plain_name_dec name : Decision (plain_name name).
Proof. unfold plain_name. apply _. Defined.

Lemma clean_step_plain root out name : plain_name name → clean_step root out name = name :: out.
Proof. intros (H1 & H2 & H3 & _). unfold clean_step. by rewrite !bool_decide_eq_false_2 by tauto. Qed.
Lemma clean_plain root out l : Forall plain_name l → foldl (clean_step root) out l = rev l ++ out.
Proof.
  intros H. revert out. induction H as [|name l Hn _ IH]; intros out; [done|]. cbn [foldl rev].
  by rewrite clean_step_plain, IH, <- app_assoc by done.
Qed.

Lemma split_byte_sep sep s t : split_byte sep (s +:+ String sep t) = split_byte sep s ++ split_byte sep t.
Proof.
  induction s as [|c s IH].
  - change ("" +:+ String sep t) with (String sep t). cbn [split_byte]. by rewrite decide_True.
  - change (String c s +:+ String sep t) with (String c (s +:+ String sep t)). cbn [split_byte]. rewrite IH.
    case_decide; [done|]. destruct (split_byte sep s) eqn:He; [by destruct (split_byte_nonempty sep s)|done].
Qed.
Lemma split_join p l :
  Forall (λ n, has_byte "/" n = false) l → split_byte "/" (str_join "/" (p :: l)) = split_byte "/" p ++ l.
Proof.
  intros Hl. revert p. induction Hl as [|n l Hn _ IH]; intros p; [by rewrite app_nil_r|].
  change (str_join "/" (p :: n :: l)) with (p +:+ String "/" (str_join "/" (n :: l))).
  by rewrite split_byte_sep, IH, (split_byte_none _ n) by done.
Qed.
Lemma rooted_join p l : p ≠ "" → rooted (str_join "/" (p :: l)) = rooted p.
Proof. intros Hp. destruct p as [|c p]; [done|]. by destruct l. Qed.

(** The components of a path are plain names, after leading .. of a relative path. *)
Definition normal (root : bool) (out : list string) : Prop :=
  ∃ names ups, out = names ++ ups ∧ Forall plain_name names ∧ Forall (λ x, x = "..") ups ∧
    (root = true → ups = []).
Lemma clean_step_normal root out e :
  normal root out → has_byte "/" e = false → normal root (clean_step root out e).
Proof.
  intros (names & ups & -> & Hn & Hu & Hr) He. unfold clean_step.
  case_bool_decide as H1; [by exists names, ups|]. case_bool_decide as H2.
  - destruct names as [|name names]; cbn [app].
    + destruct ups as [|u ups].
      * destruct root; [by exists [], []|]. exists [], [".."]. split_and!; [done|done|by repeat constructor|done].
      * destruct root; [by specialize (Hr eq_refl)|]. inversion Hu; subst.
        rewrite bool_decide_eq_true_2 by done. exists [], (".." :: ".." :: ups).
        split_and!; [done|done|by repeat constructor|done].
    + inversion Hn as [|? ? (_ & _ & Hne & _) Hn']; subst. rewrite bool_decide_eq_false_2 by done.
      by exists names, ups.
  - exists (e :: names), ups. split_and!; [done| |done|done]. constructor; [|done].
    split_and!; [tauto|tauto|done|done].
Qed.
Lemma components_normal path : normal (rooted path) (rev (components path)).
Proof.
  unfold components. rewrite rev_involutive.
  assert (Hs : Forall (λ e, has_byte "/" e = false) (split_byte "/" path))
    by (apply Forall_forall; intros e; apply split_byte_parts).
  assert (Hn : normal (rooted path) []) by (exists [], []; split_and!; done).
  revert Hn. generalize (@nil string). induction Hs as [|e l He _ IH]; intros out Hn; [done|].
  cbn [foldl]. apply IH. by apply clean_step_normal.
Qed.

(** Components are read back from a cleaned path. *)
Lemma clean_ups ups : Forall (λ x, x = "..") ups → ∀ out, Forall (λ x, x = "..") out →
  foldl (clean_step false) out ups = ups ++ out.
Proof.
  induction 1 as [|u ups -> Hu IH]; intros out Hout; [done|]. cbn [foldl].
  assert (Hs : clean_step false out ".." = ".." :: out).
  { unfold clean_step. rewrite bool_decide_eq_false_2 by (by intros [|]).
    rewrite bool_decide_eq_true_2 by done. destruct Hout as [|o out -> Hout]; [done|].
    by rewrite bool_decide_eq_true_2. }
  rewrite Hs, IH by (by constructor).
  assert (Hcomm : ∀ l, Forall (λ x, x = "..") l → l ++ ".." :: out = ".." :: l ++ out).
  { induction 1 as [|x l -> Hl IHl]; [done|]. cbn [app]. by rewrite IHl. }
  by rewrite Hcomm.
Qed.
Lemma rev_ups ups : Forall (λ x : string, x = "..") ups → rev ups = ups.
Proof.
  induction 1 as [|u l -> Hl IH]; [done|]. cbn [rev]. rewrite IH. clear IH.
  induction Hl as [|x l -> Hl IHl]; [done|]. cbn [app]. by rewrite IHl.
Qed.
Lemma clean_normal root out : normal root out → foldl (clean_step root) [] (rev out) = out.
Proof.
  intros (names & ups & -> & Hn & Hu & Hr). rewrite rev_app_distr, foldl_app.
  assert (Hups : foldl (clean_step root) [] (rev ups) = ups).
  { rewrite rev_ups by done. destruct root; [by rewrite (Hr eq_refl)|]. rewrite clean_ups by done.
    apply app_nil_r. }
  rewrite Hups, clean_plain by (by apply Forall_rev). by rewrite rev_involutive.
Qed.
Lemma normal_no_slash root out : normal root out → Forall (λ n, has_byte "/" n = false ∧ n ≠ "") out.
Proof.
  intros (names & ups & -> & Hn & Hu & _). apply Forall_app. split.
  - eapply Forall_impl; [exact Hn|]. intros n (? & _ & _ & ?). done.
  - eapply Forall_impl; [exact Hu|]. by intros n ->.
Qed.

Lemma components_Clean path : components (Clean path) = components path ∧ rooted (Clean path) = rooted path.
Proof.
  pose proof (components_normal path) as Hn. pose proof (clean_normal _ _ Hn) as Hc.
  rewrite rev_involutive in Hc. pose proof (normal_no_slash _ _ Hn) as Hs.
  apply Forall_rev in Hs. rewrite rev_involutive in Hs.
  unfold Clean. destruct (is_empty path) eqn:He.
  { apply bool_decide_eq_true in He. by subst path. }
  assert (Hsplit : components path ≠ [] →
    split_byte "/" (str_join "/" (components path)) = components path).
  { intros Hne. destruct (components path) as [|n l]; [done|]. inversion Hs as [|? ? [Hn1 _] Hl]; subst.
    rewrite split_join by (eapply Forall_impl; [exact Hl|]; by intros ? [? _]).
    by rewrite split_byte_none. }
  destruct (rooted path) eqn:Hr.
  - split; [|done]. unfold components at 1. change (rooted ("/" +:+ _)) with true.
    change ("/" +:+ ?x) with (String "/" x). cbn [split_byte]. rewrite decide_True by done. cbn [foldl].
    change (clean_step true [] "") with (@nil string).
    destruct (decide (components path = [])) as [Hnil|Hne].
    + rewrite Hnil. done.
    + rewrite Hsplit by done. by rewrite Hc, rev_involutive.
  - destruct (components path) as [|n l] eqn:Hcomp; [done|].
    inversion Hs as [|? ? [Hn1 Hn2] Hl]; subst.
    assert (Hrn : rooted (str_join "/" (n :: l)) = false).
    { rewrite rooted_join by done. destruct n as [|c n]; [done|]. unfold rooted. cbn [has_prefix].
      cbn [has_byte] in Hn1. apply orb_false_iff in Hn1 as [Hn1 _]. apply bool_decide_eq_false in Hn1.
      by rewrite bool_decide_eq_false_2 by congruence. }
    assert (Hje : is_empty (str_join "/" (n :: l)) = false).
    { apply bool_decide_eq_false. intros H. destruct n; [done|]. by destruct l. }
    rewrite Hje. split; [|done]. unfold components at 1. rewrite Hrn, Hsplit by done.
    by rewrite Hc, rev_involutive.
Qed.

(** Plain names joined to a path are appended to its components. *)
Lemma components_Join p l :
  p ≠ "" → Forall plain_name l →
  components (Join (p :: l)) = components p ++ l ∧ rooted (Join (p :: l)) = rooted p.
Proof.
  intros Hp Hl. cbn [Join]. unfold is_empty. rewrite bool_decide_eq_false_2 by done.
  destruct (components_Clean (str_join "/" (p :: l))) as [-> ->]. rewrite rooted_join by done. split; [|done].
  unfold components. rewrite rooted_join by done.
  rewrite split_join by (eapply Forall_impl; [exact Hl|]; by intros n (_ & _ & _ & ?)).
  by rewrite foldl_app, (clean_plain _ _ l), rev_app_distr, rev_involutive by done.
Qed.
