(* ===== verification/GoInstant.v ===== *)
(** * Go's instants and durations

    A point in time is its number of nanoseconds since 1970 ([instant] of the
    calendar reading); [at_UTC] is the calendar reading in UTC.  A [time.Duration]
    is a 64-bit number of nanoseconds; [Sub] saturates as Go's does.  [ParseDuration]
    follows [time.ParseDuration], the fraction computed in 64-bit floating point. *)

From Stdlib Require Import SpecFloat.
From S2P Require Import Prelude GoTime GoJson GoStrings.
Local Open Scope Z_scope.

Notation Instant := Z (only parsing).
Notation Duration := Z (only parsing).

Definition zeroTime : Instant := instant (mkTime 1 1 1 0 0 0 0 0).
Definition IsZero (t : Instant) : bool := t =? zeroTime.
Definition Before (t u : Instant) : bool := t <? u.

(** [t.Sub(u)] *)
Definition Sub (t u : Instant) : Duration := Z.min MaxInt64 (Z.max MinInt64 (t - u)).
(** [t.Add(d)] *)
Definition Add (t : Instant) (d : Duration) : Instant := t + d.

Definition at_UTC (t : Instant) : Time :=
  let secs := t / 1000000000 in
  let '(y, m, d) := civil_from_days (secs / 86400) in
  let rest := secs mod 86400 in
  mkTime y m d (rest / 3600) (rest mod 3600 / 60) (rest mod 60) (t mod 1000000000) 0.
(** [t.UTC().Format(time.RFC3339Nano)] *)
Definition FormatNano (t : Instant) : string := format_rfc3339nano (at_UTC t).

Definition Nanosecond : Duration := 1.
Definition Microsecond : Duration := 1000.
Definition Millisecond : Duration := 1000000.
Definition Second : Duration := 1000000000.
Definition Minute : Duration := 60000000000.
Definition Hour : Duration := 3600000000000.

Lemma Sub_exact t u : int64 (t - u) → Sub t u = t - u.
Proof. unfold int64, Sub. lia. Qed.
Lemma Sub_int64 t u : int64 (Sub t u).
Proof. unfold int64, Sub, MinInt64, MaxInt64. lia. Qed.

(** ** [time.ParseDuration] *)

Definition max_unsigned : Z := 2 ^ 63.
Definition invalid_duration : GoError := Errorf "time: invalid duration".

Fixpoint leadingInt (x : Z) (s : string) : result (Z * string) :=
  match s with
  | EmptyString => Ok (x, "")
  | String c s' =>
      match digit_val c with
      | None => Ok (x, s)
      | Some d =>
          fail_if (max_unsigned / 10 <? x) invalid_duration;;
          fail_if (max_unsigned <? x * 10 + d) invalid_duration;;
          leadingInt (x * 10 + d) s'
      end
  end.

(** Binary64 numbers. *)
Definition float_of_Z (z : Z) : spec_float := binary_normalize 53 1024 z 0 false.
Definition float_mul : spec_float → spec_float → spec_float := SFmul 53 1024.
Definition float_div : spec_float → spec_float → spec_float := SFdiv 53 1024.
(** [uint64(f)] of a number that is not negative. *)
Definition float_trunc (f : spec_float) : Z :=
  match f with S754_finite false m e => Z.shiftl (Z.pos m) e | _ => 0 end.

(** The digits of a fraction, with the power of ten of those that count. *)
Fixpoint leadingFraction (x : Z) (scale : spec_float) (overflow : bool) (s : string) :
    Z * spec_float * string :=
  match s with
  | EmptyString => (x, scale, "")
  | String c s' =>
      match digit_val c with
      | None => (x, scale, s)
      | Some d =>
          if overflow then leadingFraction x scale true s' else
          if (max_unsigned - 1) / 10 <? x then leadingFraction x scale true s' else
          if max_unsigned <? x * 10 + d then leadingFraction x scale true s' else
          leadingFraction (x * 10 + d) (float_mul scale (float_of_Z 10)) false s'
      end
  end.

Definition unitMap : list (string * Z) :=
  [("ns", Nanosecond); ("us", Microsecond); (bytes [194; 181; 115]%N, Microsecond);
   (bytes [206; 188; 115]%N, Microsecond); ("ms", Millisecond); ("s", Second); ("m", Minute); ("h", Hour)].
Definition unit_value (u : string) : option Z :=
  snd <$> List.find (λ p, bool_decide (p.1 = u)) unitMap.
Definition duration_byte (c : ascii) : bool := bool_decide (c = "."%char) || is_digit c.

Fixpoint duration_parts (fuel : nat) (d : Z) (s : string) : result Z :=
  match fuel with
  | O => Ok d
  | S fuel' =>
      match s with
      | EmptyString => Ok d
      | String c _ =>
          fail_if (negb (duration_byte c)) invalid_duration;;
          '(v, rest) ← leadingInt 0 s;
          let pre := negb (Nat.eqb (slen rest) (slen s)) in
          let '(f, scale, rest', post) :=
            match rest with
            | String "." after =>
                let '(f, scale, rest') := leadingFraction 0 (float_of_Z 1) false after in
                (f, scale, rest', negb (Nat.eqb (slen rest') (slen after)))
            | _ => (0, float_of_Z 1, rest, false)
            end in
          fail_if (negb pre && negb post) invalid_duration;;
          let i := default (slen rest') (index_where duration_byte rest') in
          fail_if (Nat.eqb i 0) (Errorf "time: missing unit in duration");;
          match unit_value (str_take i rest') with
          | None => Err (Errorf "time: unknown unit in duration")
          | Some unit =>
              fail_if (max_unsigned / unit <? v) invalid_duration;;
              let v := v * unit in
              let v := if 0 <? f
                       then v + float_trunc (float_mul (float_of_Z f) (float_div (float_of_Z unit) scale))
                       else v in
              fail_if (max_unsigned <? v) invalid_duration;;
              let d := (d + v) mod 2 ^ 64 in
              fail_if (max_unsigned <? d) invalid_duration;;
              duration_parts fuel' d (str_drop i rest')
          end
      end
  end.
Definition ParseDuration (text : string) : result Duration :=
  let '(neg, s) := match text with
                   | String "-" s => (true, s)
                   | String "+" s => (false, s)
                   | _ => (false, text)
                   end in
  if bool_decide (s = "0") then Ok 0 else
  fail_if (is_empty s) invalid_duration;;
  d ← duration_parts (slen s) 0 s;
  if (neg : bool) then Ok (- d) else fail_if (max_unsigned - 1 <? d) invalid_duration;; Ok d.

Example parse_five_minutes : ParseDuration "5m" = Ok (5 * Minute).
Proof. vm_compute. reflexivity. Qed.
Example parse_fractions : ParseDuration "-1h0.5m.25s" = Ok (- (Hour + 30250000000)).
Proof. vm_compute. reflexivity. Qed.
Example parse_no_unit : ParseDuration "5" = Err (Errorf "time: missing unit in duration").
Proof. vm_compute. reflexivity. Qed.
Example parse_dot : ParseDuration "." = Err invalid_duration.
Proof. vm_compute. reflexivity. Qed.
Example parse_too_long : ParseDuration "2562048h" = Err invalid_duration.
Proof. vm_compute. reflexivity. Qed.
Example zero_time_text : FormatNano zeroTime = "0001-01-01T00:00:00Z".
Proof. vm_compute. reflexivity. Qed.

(** * Timestamps read back

    What [Format(time.RFC3339Nano)] writes of a time of the years 0 to 9999, the
    parser reads as that time; and the calendar reading of an instant denotes that
    instant.  So the texts that the controller stores denote the readings of its
    clock, to the nanosecond. *)
Local Open Scope Z_scope.

(** ** Decimal digits *)

Lemma str_nil_app s : "" +:+ s = s.
Proof. reflexivity. Qed.
Lemma str_cons_app c s t : String c s +:+ t = String c (s +:+ t).
Proof. reflexivity. Qed.

Definition digit (z : Z) : ascii := pretty_N_char (Z.to_N z).
Ltac str_push := repeat (rewrite str_cons_app || rewrite str_nil_app).
(** The last [w] digits of a number. *)
Fixpoint digits (w : nat) (z : Z) : string :=
  match w with
  | O => ""
  | S w' => digits w' (z / 10) +:+ String (digit (z mod 10)) ""
  end.

Lemma digit_val_digit z : 0 ≤ z < 10 → digit_val (digit z) = Some z.
Proof.
  intros H. assert (z = 0 ∨ z = 1 ∨ z = 2 ∨ z = 3 ∨ z = 4 ∨ z = 5 ∨ z = 6 ∨ z = 7 ∨ z = 8 ∨ z = 9) as Hz by lia.
  by repeat (destruct Hz as [->|Hz]; [reflexivity|]); subst z.
Qed.

Lemma pretty_N_go_app x s t : pretty_N_go x (s +:+ t) = pretty_N_go x s +:+ t.
Proof.
  revert s. induction (N.lt_wf_0 x) as [x _ IH]; intros s.
  destruct (decide (x = 0%N)) as [->|Hx]; [by rewrite !pretty_N_go_0|].
  rewrite !(pretty_N_go_step x) by lia.
  rewrite <- (IH (x / 10)%N) by (apply N.div_lt; lia). done.
Qed.

(** The decimal text, last digit apart. *)
Lemma pretty_step x : 10 ≤ x → pretty x = pretty (x / 10) +:+ String (digit (x mod 10)) "".
Proof.
  intros Hx. assert (0 < x / 10) by (apply Z.div_str_pos; lia).
  assert (Hp : ∀ z, 0 < z → pretty z = pretty_N_go (Z.to_N z) "").
  { intros [|p|p] Hz; try lia. reflexivity. }
  rewrite !Hp by lia. rewrite pretty_N_go_step by lia. rewrite <- pretty_N_go_app. cbn [String.append].
  rewrite Z2N.inj_div by lia. unfold digit. by rewrite Z2N.inj_mod by lia.
Qed.
Lemma pretty_small x : 0 ≤ x < 10 → pretty x = String (digit x) "".
Proof.
  intros H. assert (x = 0 ∨ x = 1 ∨ x = 2 ∨ x = 3 ∨ x = 4 ∨ x = 5 ∨ x = 6 ∨ x = 7 ∨ x = 8 ∨ x = 9) as Hz by lia.
  by repeat (destruct Hz as [->|Hz]; [reflexivity|]); subst x.
Qed.

Definition zeros (n : nat) : string := String.concat "" (replicate n "0").
Lemma concat_zeros n : zeros (S n) = "0" +:+ zeros n.
Proof. unfold zeros. destruct n; reflexivity. Qed.
Lemma zeros_snoc n : zeros (S n) = zeros n +:+ "0".
Proof.
  induction n as [|n IH]; [reflexivity|].
  rewrite concat_zeros. rewrite IH at 1. rewrite (concat_zeros n). done.
Qed.
Lemma digits_zero n : digits n 0 = zeros n.
Proof.
  induction n as [|n IH]; [done|]. rewrite zeros_snoc, <- IH. reflexivity.
Qed.

Lemma pad_digits_aux w : ∀ z, 0 ≤ z < 10 ^ Z.of_nat w → (0 < w)%nat →
  zeros (w - String.length (pretty z)) +:+ pretty z = digits w z.
Proof.
  induction w as [|w IH]; intros z Hz Hw; [lia|]. cbn [digits].
  destruct (decide (z < 10)) as [Hs|Hs].
  - rewrite pretty_small by lia. rewrite Z.div_small, Z.mod_small by lia. rewrite digits_zero.
    cbn [String.length]. by replace (S w - 1)%nat with w by lia.
  - assert (Hw' : (0 < w)%nat) by (destruct w; [simpl in Hz; lia|lia]).
    rewrite pretty_step by lia. rewrite slen_app. cbn [String.length].
    replace (S w - (String.length (pretty (z / 10)%Z) + 1))%nat
      with (w - String.length (pretty (z / 10)%Z))%nat by lia.
    rewrite <- str_app_assoc. f_equal. apply IH; [|done]. split; [apply Z.div_pos; lia|].
    apply Z.div_lt_upper_bound; [lia|]. replace (Z.of_nat (S w)) with (Z.of_nat w + 1) in Hz by lia.
    rewrite Z.pow_add_r in Hz by lia. lia.
Qed.
Lemma pad_digits w z : 0 ≤ z < 10 ^ Z.of_nat w → (0 < w)%nat → pad w z = digits w z.
Proof.
  intros Hz Hw. unfold pad. rewrite bool_decide_eq_false_2 by lia. rewrite Z.abs_eq by lia.
  by apply pad_digits_aux.
Qed.

(** ** Reading the fields *)

Lemma digits_S_cons w z s :
  digits (S w) z +:+ s = String (digit (z / 10 ^ Z.of_nat w mod 10)) (digits w z +:+ s).
Proof.
  revert z s. induction w as [|w IH]; intros z s.
  - cbn [digits String.append Z.of_nat Z.pow]. by rewrite Z.div_1_r.
  - change (digits (S (S w)) z) with (digits (S w) (z / 10) +:+ String (digit (z mod 10)) "").
    rewrite str_app_assoc, IH. f_equal.
    + f_equal. f_equal. rewrite Z.div_div by lia. f_equal.
      replace (Z.of_nat (S w)) with (1 + Z.of_nat w) by lia. by rewrite Z.pow_add_r by lia.
    + cbn [digits]. by rewrite str_app_assoc.
Qed.

Lemma getnum_digits b z s : 0 ≤ z < 100 → getnum b (digits 2 z +:+ s) = Some (z, s).
Proof.
  intros Hz. rewrite digits_S_cons. change (Z.of_nat 1) with 1. rewrite Z.pow_1_r.
  rewrite digits_S_cons. change (Z.of_nat 0) with 0. rewrite Z.pow_0_r, Z.div_1_r.
  unfold getnum. rewrite !digit_val_digit by (apply Z.mod_pos_bound; lia).
  cbn [mbind option_bind digits String.append]. f_equal. f_equal.
  rewrite (Z.mod_small (z / 10)) by (split; [apply Z.div_pos; lia|apply Z.div_lt_upper_bound; lia]).
  pose proof (Z.div_mod z 10). lia.
Qed.
Lemma digits_split z s : digits 4 z +:+ s = digits 2 (z / 100) +:+ digits 2 z +:+ s.
Proof.
  change (digits 4 z) with (digits 2 (z / 10 / 10) +:+ String (digit (z / 10 mod 10)) "" +:+ String (digit (z mod 10)) "").
  rewrite Z.div_div by lia. rewrite !str_app_assoc. reflexivity.
Qed.
Lemma digits_low n : ∀ z, digits n z = digits n (z mod 10 ^ Z.of_nat n).
Proof.
  induction n as [|n IH]; intros z; [done|]. cbn [digits].
  assert (Hp : 0 < 10 ^ Z.of_nat n) by (apply Z.pow_pos_nonneg; lia).
  replace (10 ^ Z.of_nat (S n)) with (10 * 10 ^ Z.of_nat n)
    by (replace (Z.of_nat (S n)) with (1 + Z.of_nat n) by lia; by rewrite Z.pow_add_r by lia).
  rewrite Z.rem_mul_r by lia. f_equal; [|f_equal; f_equal].
  - rewrite (IH (z / 10)), (IH ((z mod 10 + _) / 10)). f_equal.
    rewrite (Z.mul_comm 10), Z.div_add by lia. rewrite (Z.div_small (z mod 10) 10) by (apply Z.mod_pos_bound; lia).
    rewrite Z.add_0_l. by rewrite Z.mod_mod by lia.
  - rewrite (Z.mul_comm 10), Z.mod_add by lia. by rewrite Z.mod_mod by lia.
Qed.
Lemma getyear_digits z s : 0 ≤ z < 10000 → getyear (digits 4 z +:+ s) = Some (z, s).
Proof.
  intros Hz. rewrite digits_split, (digits_low 2 z). change (10 ^ Z.of_nat 2) with 100. unfold getyear.
  rewrite getnum_digits by (split; [apply Z.div_pos; lia|apply Z.div_lt_upper_bound; lia]).
  cbn [mbind option_bind]. rewrite getnum_digits by (apply Z.mod_pos_bound; lia).
  cbn [mbind option_bind]. pose proof (Z.div_mod z 100). do 2 f_equal. lia.
Qed.

(** ** The fraction *)

(** Not a digit: where a fraction ends. *)
Definition ends_digits (s : string) : Prop :=
  match s with String c _ => digit_val c = None | EmptyString => True end.
Lemma fraction_end n acc s : ends_digits s → fraction_digits n acc s = (acc * 10 ^ Z.of_nat n, s).
Proof. destruct s as [|c s]; simpl; [done|]. by intros ->. Qed.

Lemma fraction_digits_all n : ∀ acc z s, 0 ≤ z < 10 ^ Z.of_nat n → ends_digits s →
  fraction_digits n acc (digits n z +:+ s) = (acc * 10 ^ Z.of_nat n + z, s).
Proof.
  induction n as [|n IH]; intros acc z s Hz Hs.
  - simpl in Hz. cbn [digits String.append]. rewrite fraction_end by done. simpl. f_equal. lia.
  - rewrite digits_S_cons. cbn [fraction_digits].
    assert (Hp : 0 < 10 ^ Z.of_nat n) by (apply Z.pow_pos_nonneg; lia).
    assert (Hd : 0 ≤ z / 10 ^ Z.of_nat n < 10).
    { split; [apply Z.div_pos; lia|]. apply Z.div_lt_upper_bound; [lia|].
      replace (Z.of_nat (S n)) with (Z.of_nat n + 1) in Hz by lia. rewrite Z.pow_add_r in Hz by lia. lia. }
    rewrite (Z.mod_small (z / 10 ^ Z.of_nat n)) by done. rewrite digit_val_digit by done.
    rewrite (digits_low n z), IH by (try apply Z.mod_pos_bound; done). f_equal.
    replace (Z.of_nat (S n)) with (Z.of_nat n + 1) by lia. rewrite Z.pow_add_r by lia.
    pose proof (Z.div_mod z (10 ^ Z.of_nat n)). nia.
Qed.

(** Dropping the trailing zeros of the digits does not change the value. *)
Lemma strip_digits s : ∀ n acc t, (slen s ≤ n)%nat → ends_digits t →
  (∀ c, has_byte c s = true → is_Some (digit_val c)) →
  fraction_digits n acc (strip_trailing_zeros s +:+ t) = fraction_digits n acc (s +:+ t).
Proof.
  induction s as [|c s IH]; intros n acc t Hn Ht Hd; [done|]. cbn [slen] in Hn.
  destruct n as [|n]; [lia|].
  assert (Hd' : ∀ c, has_byte c s = true → is_Some (digit_val c)).
  { intros c' Hc'. apply Hd. cbn [has_byte]. rewrite Hc'. apply orb_true_r. }
  destruct (Hd c) as [d Hc]; [cbn [has_byte]; by rewrite bool_decide_eq_true_2|].
  cbn [strip_trailing_zeros]. destruct (strip_trailing_zeros s) as [|c' s'] eqn:Hs.
  - specialize (IH n (10 * acc + d) t ltac:(lia) Ht Hd'). rewrite str_nil_app in IH.
    rewrite fraction_end in IH by done. rewrite str_cons_app. cbn [fraction_digits]. rewrite Hc, <- IH.
    case_decide as H0.
    + subst c. injection Hc as <-. rewrite str_nil_app, fraction_end by done. f_equal.
      replace (Z.of_nat (S n)) with (Z.of_nat n + 1) by lia. rewrite Z.pow_add_r by lia. lia.
    + rewrite str_cons_app. cbn [fraction_digits]. rewrite Hc. by apply fraction_end.
  - specialize (IH n (10 * acc + d) t ltac:(lia) Ht Hd').
    rewrite !(str_cons_app c). cbn [fraction_digits]. rewrite Hc. exact IH.
Qed.

Lemma digits_are_digits w : ∀ z c, has_byte c (digits w z) = true → is_Some (digit_val c).
Proof.
  induction w as [|w IH]; intros z c; [done|]. cbn [digits].
  assert (Happ : ∀ a b, has_byte c (a +:+ b) = has_byte c a || has_byte c b).
  { intros a b. induction a as [|d a IHa]; simpl; [done|]. by rewrite IHa, orb_assoc. }
  rewrite Happ, orb_true_iff. intros [H|H]; [by apply (IH (z / 10))|].
  cbn [has_byte] in H. rewrite orb_false_r, bool_decide_eq_true in H. subst c.
  rewrite digit_val_digit by (apply Z.mod_pos_bound; lia). eauto.
Qed.
Lemma slen_digits w z : slen (digits w z) = w.
Proof. revert z. induction w as [|w IH]; intros z; [done|]. cbn [digits]. rewrite slen_app, IH. simpl. lia. Qed.

Lemma strip_head s : strip_trailing_zeros s = "" ∨ ∃ c s', strip_trailing_zeros s = String c s' ∧ has_byte c s = true.
Proof.
  destruct s as [|c s]; [by left|]. cbn [strip_trailing_zeros].
  assert (has_byte c (String c s) = true) by (cbn [has_byte]; by rewrite bool_decide_eq_true_2).
  destruct (strip_trailing_zeros s); [case_decide; [by left|]|]; right; eauto.
Qed.

Lemma getfraction_format n s : 0 ≤ n < 10 ^ 9 → ends_digits s → getfraction s = (0, s) →
  getfraction (format_frac n +:+ s) = (n, s).
Proof.
  intros Hn Hs Hgs. unfold format_frac. case_decide as H0; [by subst|].
  rewrite (pad_digits 9) by (simpl; lia). rewrite str_app_assoc.
  assert (Hf : fraction_digits 9 0 (strip_trailing_zeros (digits 9 n) +:+ s) = (n, s)).
  { rewrite strip_digits; [|by rewrite slen_digits|done|apply digits_are_digits].
    rewrite fraction_digits_all by done. f_equal. }
  destruct (strip_head (digits 9 n)) as [He|(c & s' & He & Hc)].
  - rewrite He, str_nil_app in Hf. rewrite fraction_end in Hf by done. by injection Hf as <-.
  - apply digits_are_digits in Hc as [d Hd]. rewrite He in Hf |- *. rewrite !str_cons_app, ?str_nil_app in *.
    unfold getfraction. rewrite bool_decide_eq_true_2 by tauto. by rewrite Hd.
Qed.

(** ** Whole timestamps *)

(** The fields of a calendar reading in a zone of whole minutes. *)
Record valid_time (t : Time) : Prop := {
  vt_year : 0 ≤ t_year t < 10000;
  vt_month : 1 ≤ t_month t ≤ 12;
  vt_day : 1 ≤ t_day t ≤ days_in (t_month t) (t_year t);
  vt_hour : 0 ≤ t_hour t < 24;
  vt_min : 0 ≤ t_min t < 60;
  vt_sec : 0 ≤ t_sec t < 60;
  vt_nsec : 0 ≤ t_nsec t < 10 ^ 9;
  vt_offset : t_offset t mod 60 = 0 ∧ Z.abs (t_offset t) < 86400 }.

Lemma zone_reads off s :
  off mod 60 = 0 → Z.abs off < 86400 →
  getzone (format_zone off +:+ s) = Some (off, s) ∧ ends_digits (format_zone off +:+ s) ∧
  getfraction (format_zone off +:+ s) = (0, format_zone off +:+ s).
Proof.
  intros Hm Ha. unfold format_zone. case_bool_decide as H0; [subst; split_and!; done||by destruct s|].
  set (m := Z.abs off / 60).
  assert (Hmm : m * 60 = Z.abs off) by (unfold m; pose proof (Z.div_mod (Z.abs off) 60);
    assert (Z.abs off mod 60 = 0) by (apply Z.mod_divide in Hm; [|lia]; apply Z.mod_divide; [lia|];
      by apply Z.divide_abs_r); lia).
  assert (0 ≤ m < 1440) by lia.
  assert (Hh : 0 ≤ m / 60 < 100) by (split; [apply Z.div_pos; lia|apply Z.div_lt_upper_bound; lia]).
  assert (Hr : 0 ≤ m mod 60 < 60) by (apply Z.mod_pos_bound; lia).
  rewrite !(pad_digits 2) by (simpl; lia). rewrite !str_app_assoc. pose proof (Z.div_mod m 60).
  assert (Hh24 : m / 60 < 24) by (apply Z.div_lt_upper_bound; lia).
  case_bool_decide as Hneg; str_push; split_and!; try done;
    unfold getzone; rewrite getnum_digits by lia; cbn [mbind option_bind skip_byte];
    rewrite (bool_decide_eq_true_2 (":"%char = ":"%char)) by done; cbn [mbind option_bind];
    rewrite getnum_digits by lia;
    cbn [mbind option_bind]; rewrite bool_decide_eq_false_2 by lia.
  - rewrite bool_decide_eq_false_2 by done. rewrite bool_decide_eq_true_2 by done. f_equal. f_equal. lia.
  - rewrite bool_decide_eq_true_2 by done. f_equal. f_equal. lia.
Qed.

Lemma skip_byte_cons c s : skip_byte c (String c s) = Some s.
Proof. cbn [skip_byte]. by rewrite bool_decide_eq_true_2. Qed.

(** A time of the years 0 to 9999, in a zone of whole minutes, is read back from its
    RFC 3339 text, nanoseconds and zone included. *)
Lemma timestamp_roundtrip t : valid_time t → parse_rfc3339 (format_rfc3339nano t) = Some t.
Proof.
  intros [Hy Hmo Hd Hh Hmi Hs Hn [Hz1 Hz2]]. unfold format_rfc3339nano, parse_rfc3339.
  assert (Hd31 : days_in (t_month t) (t_year t) ≤ 31) by (unfold days_in; repeat case_match; lia).
  rewrite (pad_digits 4), !(pad_digits 2) by (simpl; lia). str_push. rewrite getyear_digits by done.
  cbn [mbind option_bind]. rewrite skip_byte_cons. cbn [mbind option_bind]. rewrite getnum_digits by lia.
  cbn [mbind option_bind]. rewrite (bool_decide_eq_false_2 (t_month t ≤ 0 ∨ _)) by lia.
  rewrite skip_byte_cons. cbn [mbind option_bind]. rewrite getnum_digits by lia.
  cbn [mbind option_bind]. rewrite skip_byte_cons. cbn [mbind option_bind]. rewrite getnum_digits by lia.
  cbn [mbind option_bind]. rewrite (bool_decide_eq_false_2 (24 ≤ t_hour t)) by lia.
  rewrite skip_byte_cons. cbn [mbind option_bind]. rewrite getnum_digits by lia.
  cbn [mbind option_bind]. rewrite (bool_decide_eq_false_2 (60 ≤ t_min t)) by lia.
  rewrite skip_byte_cons. cbn [mbind option_bind]. rewrite getnum_digits by lia.
  cbn [mbind option_bind]. rewrite (bool_decide_eq_false_2 (60 ≤ t_sec t)) by lia.
  destruct (zone_reads (t_offset t) "" Hz1 Hz2) as (Hzr & He & Hgf). rewrite str_app_nil_r in *.
  rewrite (getfraction_format (t_nsec t)) by done. rewrite Hzr. cbn [mbind option_bind].
  rewrite bool_decide_eq_false_2 by (by intros []).
  rewrite bool_decide_eq_false_2 by lia. by destruct t.
Qed.

Example timestamp_reads_back :
  parse_rfc3339 (format_rfc3339nano (mkTime 2026 7 12 8 5 9 250000000 (-25200)))
  = Some (mkTime 2026 7 12 8 5 9 250000000 (-25200)).
Proof.
  apply (timestamp_roundtrip (mkTime 2026 7 12 8 5 9 250000000 (-25200))).
  split; vm_compute; split; first [reflexivity|discriminate].
Qed.

(** ** The calendar *)

(** Years of the 400-year cycle begin on March 1; [yoe] is the year of a day. *)
Definition yoe_of (doe : Z) : Z := (doe - doe / 1460 + doe / 36524 - doe / 146096) / 365.
Definition year_start (y : Z) : Z := 365 * y + y / 4 - y / 100.
Definition year_end (y : Z) : Z := if y =? 399 then 146097 else year_start (y + 1).
Definition year_ok (y : Z) : bool :=
  (yoe_of (year_start y) =? y) && (yoe_of (year_end y - 1) =? y) &&
  (year_end y - year_start y =? (if is_leap (y + 1) then 366 else 365)).
(** The date of a day of the year. *)
Definition month_of (doy : Z) : Z :=
  let mp := (5 * doy + 2) / 153 in if bool_decide (mp < 10) then mp + 3 else mp - 9.
Definition day_of (doy : Z) : Z := doy - (153 * ((5 * doy + 2) / 153) + 2) / 5 + 1.
Definition doy_ok (doy : Z) : bool :=
  let m := month_of doy in
  (1 <=? m) && (m <=? 12) && (1 <=? day_of doy) && ((5 * doy + 2) / 153 =? (m + 9) mod 12) &&
  (day_of doy <=? (if doy =? 365 then 29 else days_in m 1)) &&
  (negb (doy =? 365) || (m =? 2)).
Fixpoint upto (n : nat) : list Z := match n with O => [] | S n' => upto n' ++ [Z.of_nat n'] end.
Lemma upto_all (f : Z → bool) n z : forallb f (upto n) = true → 0 ≤ z < Z.of_nat n → f z = true.
Proof.
  induction n as [|n IH]; [simpl; lia|]. cbn [upto]. rewrite forallb_app, andb_true_iff. cbn [forallb].
  intros [H1 [H2 _]%andb_true_iff] Hz. destruct (decide (z = Z.of_nat n)) as [->|]; [done|]. apply IH; [done|lia].
Qed.
Lemma year_checked y : 0 ≤ y < 400 → year_ok y = true.
Proof. apply (upto_all _ 400). vm_compute. reflexivity. Qed.
Lemma doy_checked doy : 0 ≤ doy < 366 → doy_ok doy = true.
Proof. apply (upto_all _ 366). vm_compute. reflexivity. Qed.

Lemma yoe_mono x y : 0 ≤ x ≤ y → y < 146097 → yoe_of x ≤ yoe_of y.
Proof.
  intros Hx Hy. unfold yoe_of. apply Z.div_le_mono; [lia|].
  assert (Hstep : ∀ k, 0 ≤ k < 146096 → k - k / 1460 + k / 36524 - k / 146096 ≤
    (k + 1) - (k + 1) / 1460 + (k + 1) / 36524 - (k + 1) / 146096) by (intros k Hk; Z.to_euclidean_division_equations; lia).
  assert (H0 : 0 ≤ x) by lia. revert Hy. pattern y. apply (Zlt_lower_bound_ind _ x); [|lia]. clear y Hx.
  intros y IH Hxy Hy. destruct (decide (y = x)) as [->|]; [lia|].
  specialize (IH (y - 1) ltac:(lia) ltac:(lia)). specialize (Hstep (y - 1) ltac:(lia)).
  replace (y - 1 + 1) with y in Hstep by lia. lia.
Qed.
Lemma is_leap_cycle y e : is_leap (y + e * 400) = is_leap y.
Proof.
  unfold is_leap. apply bool_decide_ext.
  replace ((y + e * 400) mod 4) with (y mod 4) by (replace (y + e * 400) with (y + (e * 100) * 4) by lia; by rewrite Z.mod_add).
  replace ((y + e * 400) mod 100) with (y mod 100) by (replace (y + e * 400) with (y + (e * 4) * 100) by lia; by rewrite Z.mod_add).
  by rewrite Z.mod_add.
Qed.

(** The year that the formula gives is the year of the day. *)
Lemma yoe_spec doe :
  0 ≤ doe < 146097 → 0 ≤ yoe_of doe < 400 ∧ year_start (yoe_of doe) ≤ doe < year_end (yoe_of doe).
Proof.
  intros Hd.
  assert (H0 : yoe_of 0 = 0) by reflexivity. assert (H1 : yoe_of 146096 = 399) by reflexivity.
  pose proof (yoe_mono 0 doe ltac:(lia) ltac:(lia)). pose proof (yoe_mono doe 146096 ltac:(lia) ltac:(lia)).
  set (y := yoe_of doe) in *. assert (Hy : 0 ≤ y < 400) by lia. split; [done|].
  pose proof (year_checked y Hy) as Hok. unfold year_ok in Hok. rewrite !andb_true_iff, !Z.eqb_eq in Hok.
  destruct Hok as [[Hs He] Hlen].
  assert (0 ≤ year_start y ≤ 146097) by (unfold year_start; Z.to_euclidean_division_equations; lia).
  assert (year_end y ≤ 146097).
  { unfold year_end, year_start. destruct (Z.eqb_spec y 399); [lia|]. Z.to_euclidean_division_equations; lia. }
  split.
  - destruct (decide (year_start y ≤ doe)); [done|]. exfalso.
    destruct (decide (y = 0)) as [->|Hne]; [change (year_start 0) with 0 in *; lia|].
    pose proof (year_checked (y - 1) ltac:(lia)) as Hok. unfold year_ok in Hok.
    rewrite !andb_true_iff, !Z.eqb_eq in Hok. destruct Hok as [[_ Hp] _]. unfold year_end in Hp.
    rewrite (proj2 (Z.eqb_neq (y - 1) 399)) in Hp by lia. replace (y - 1 + 1) with y in Hp by lia.
    pose proof (yoe_mono doe (year_start y - 1) ltac:(lia) ltac:(lia)) as Hm. fold y in Hm. lia.
  - destruct (decide (doe < year_end y)); [done|]. exfalso.
    assert (y ≠ 399) by (intros ->; unfold year_end in *; simpl in *; lia).
    pose proof (year_checked (y + 1) ltac:(lia)) as Hok. unfold year_ok in Hok.
    rewrite !andb_true_iff, !Z.eqb_eq in Hok. destruct Hok as [[Hn _] _].
    assert (Hee : year_end y = year_start (y + 1)).
    { unfold year_end. by rewrite (proj2 (Z.eqb_neq y 399)) by lia. }
    assert (0 ≤ year_start (y + 1)) by (unfold year_start; Z.to_euclidean_division_equations; lia).
    pose proof (yoe_mono (year_start (y + 1)) doe ltac:(lia) ltac:(lia)) as Hm. fold y in Hm. lia.
Qed.

Lemma civil_valid days y m d :
  civil_from_days days = (y, m, d) →
  1 ≤ m ≤ 12 ∧ 1 ≤ d ≤ days_in m y ∧ days_from_civil y m d = days.
Proof.
  unfold civil_from_days. set (z := days + 719468). set (era := z / 146097). set (doe := z - era * 146097).
  assert (Hdoe : 0 ≤ doe < 146097).
  { unfold doe, era. pose proof (Z.div_mod z 146097). pose proof (Z.mod_pos_bound z 146097). lia. }
  fold (yoe_of doe). destruct (yoe_spec doe Hdoe) as [Hy Hyd]. set (yoe := yoe_of doe) in *.
  fold (year_start yoe). set (doy := doe - year_start yoe) in *.
  pose proof (year_checked yoe Hy) as Hok. unfold year_ok in Hok. rewrite !andb_true_iff, !Z.eqb_eq in Hok.
  destruct Hok as [_ Hlen].
  assert (Hdoy : 0 ≤ doy < 366) by (destruct (is_leap (yoe + 1)); lia).
  pose proof (doy_checked doy Hdoy) as Hd. unfold doy_ok in Hd.
  fold (month_of doy) (day_of doy). set (mm := month_of doy) in *.
  rewrite !andb_true_iff, orb_true_iff, negb_true_iff, !Z.leb_le, !Z.eqb_eq, Z.eqb_neq in Hd.
  destruct Hd as [[[[[Hm1 Hm2] Hd1] Hmp] Hd2] Hfeb]. intros [= <- <- <-]. split; [lia|].
  replace (yoe + era * 400 + (if bool_decide (mm ≤ 2) then 1 else 0))
    with (yoe + (if bool_decide (mm ≤ 2) then 1 else 0) + era * 400) by lia.
  split.
  - split; [lia|]. etransitivity; [exact Hd2|]. unfold days_in. rewrite is_leap_cycle.
    destruct (Z.eqb_spec doy 365) as [Hlast|Hlast].
    + assert (mm = 2) as Hmm by tauto. rewrite Hmm. cbn [bool_decide decide_rel].
      rewrite (bool_decide_eq_true_2 (2 = 2)), (bool_decide_eq_true_2 (2 ≤ 2)) by lia.
      destruct (is_leap (yoe + 1)); lia.
    + change (is_leap 1) with false. repeat case_match; lia.
  - unfold days_from_civil.
    replace (if bool_decide (mm ≤ 2) then _ - 1 else _) with (yoe + era * 400) by (case_bool_decide; lia).
    rewrite Z.div_add, (Z.div_small yoe) by lia. rewrite Z.add_0_l.
    replace (yoe + era * 400 - era * 400) with yoe by lia. rewrite <- Hmp.
    unfold day_of, doy, year_start, doe in *. lia.
Qed.

Lemma at_UTC_reads_back t :
  instant (at_UTC t) = t ∧
  (0 ≤ t_year (at_UTC t) < 10000 → parse_rfc3339 (FormatNano t) = Some (at_UTC t)).
Proof.
  destruct (civil_from_days (t / 1000000000 / 86400)) as [[y m] d] eqn:Hc.
  pose proof (Z.div_mod t 1000000000). pose proof (Z.mod_pos_bound t 1000000000).
  set (secs := t / 1000000000) in *.
  pose proof (Z.mod_pos_bound secs 86400). pose proof (Z.div_mod secs 86400).
  set (rest := secs mod 86400) in *.
  assert (Hat : at_UTC t = mkTime y m d (rest / 3600) (rest mod 3600 / 60) (rest mod 60) (t mod 1000000000) 0)
    by (unfold at_UTC; fold secs rest; rewrite Hc; done).
  apply civil_valid in Hc as (Hm & Hd & Hdays).
  pose proof (Z.div_mod rest 3600). pose proof (Z.mod_pos_bound rest 3600).
  pose proof (Z.div_mod (rest mod 3600) 60). pose proof (Z.mod_pos_bound (rest mod 3600) 60).
  assert (Hmod : rest mod 3600 mod 60 = rest mod 60).
  { symmetry. apply (Znumtheory.Zmod_div_mod 60 3600 rest); [lia..|]. by exists 60. }
  split.
  - rewrite Hat. unfold instant. cbn [t_year t_month t_day t_hour t_min t_sec t_nsec t_offset].
    rewrite Hdays. lia.
  - intros Hy. apply timestamp_roundtrip. rewrite Hat in *.
    split; cbn [t_year t_month t_day t_hour t_min t_sec t_nsec t_offset] in *; try lia; try done.
Qed.

(** The calendar reading of an instant is a valid time that denotes this instant,
    and of an instant of the years 0 to 9999 the text that the controller stores is
    read back as that reading. *)
Theorem stored_instant_reads_back t :
  instant (at_UTC t) = t ∧
  (0 ≤ t_year (at_UTC t) < 10000 → parse_rfc3339 (FormatNano t) = Some (at_UTC t)).
Proof. apply at_UTC_reads_back. Qed.

Lemma stored_instant_reads_back_witness :
  parse_rfc3339 (FormatNano 1767225620000000000) = Some (at_UTC 1767225620000000000).
Proof.
  apply (proj2 (stored_instant_reads_back 1767225620000000000)). vm_compute. split; [discriminate|reflexivity].
Defined.
