(* ===== verification/GoHttp.v ===== *)
(** * HTTP requests and bodies ([net/http], [encoding/json] decoders)

    A request as the handlers see it, the answers they give, and the decoding of one
    JSON document from a body whose size is limited.  The decoder scans byte by byte
    ([GoJson]), so it knows a syntax error before it has read the whole body: a body
    over the limit is refused as too large only when the part within the limit is
    neither wrong nor complete. *)

From S2P Require Import Prelude GoJson GoStrings GoJsonLaws GoSha256 Fingerprint GoJsonStruct.
Local Open Scope nat_scope.

Definition MethodGet : string := "GET".
Definition MethodPost : string := "POST".
Definition StatusOK : nat := 200.
Definition StatusCreated : nat := 201.
Definition StatusNoContent : nat := 204.
Definition StatusBadRequest : nat := 400.
Definition StatusUnauthorized : nat := 401.
Definition StatusForbidden : nat := 403.
Definition StatusNotFound : nat := 404.
Definition StatusMethodNotAllowed : nat := 405.
Definition StatusConflict : nat := 409.
Definition StatusRequestEntityTooLarge : nat := 413.
Definition StatusInternalServerError : nat := 500.
Definition StatusServiceUnavailable : nat := 503.

(** [http.Header] with canonical keys. *)
Notation Header := (gmap string (list string)).
Definition Header_Values (header : Header) (key : string) : list string := default [] (header !! key).
Definition Header_Get (header : Header) (key : string) : string := default "" (head (Header_Values header key)).

(** [rq_Query]: the parsed query; [rq_ContentLength] is -1 when unknown. *)
Record Request := mkRequest {
  rq_Method : string; rq_Path : string; rq_Query : gmap string string; rq_Header : Header;
  rq_ContentLength : Z; rq_Body : string }.

(** The answer of a handler: a status with a text, or with a JSON document. *)
Record Response := mkResponse { rs_Status : nat; rs_Body : string }.
#[export] Instance Response_eq_dec : EqDecision Response.
Proof. solve_decision. Defined.
(** [http.Error], [w.WriteHeader], [http.NotFound] *)
Definition http_Error (msg : string) (status : nat) : Response := mkResponse status msg.
Definition http_Status (status : nat) : Response := mkResponse status "".
Definition http_NotFound : Response := http_Error "404 page not found" StatusNotFound.

(** ** The first value of a body *)

(** The decoder's scan of one value: it ends after so many bytes, is wrong, or needs
    more input. *)
Inductive scanned := ScanValue (length : nat) | ScanWrong | ScanMore.

(** A value at the top level is complete and [c] is not part of it. *)
Definition ends_before (conf : scan_conf) (c : ascii) : bool :=
  match conf with
  | (stEndValue, []) => true
  | (st1, []) => negb (is_digit c || bool_decide (c = "."%char ∨ c = "e"%char ∨ c = "E"%char))
  | (st0, []) => negb (bool_decide (c = "."%char ∨ c = "e"%char ∨ c = "E"%char))
  | (stDot0, []) => negb (is_digit c || bool_decide (c = "e"%char ∨ c = "E"%char))
  | (stE0, []) => negb (is_digit c)
  | _ => false
  end.
Fixpoint scan_value (conf : scan_conf) (n : nat) (s : string) : scanned :=
  match s with
  | EmptyString => ScanMore
  | String c s' =>
      if ends_before conf c then ScanValue n else
      match scan_step conf c with
      | None => ScanWrong
      | Some (stEndTop, _) => ScanValue (S n)   (* the closing bracket *)
      | Some conf' => scan_value conf' (S n) s'
      end
  end.

(** ** Decoding a body *)

(** The first value of a text, with what follows it. *)
Definition first_value (text : string) : option (JSON * list chunk) :=
  let s := chunks text in parse_value (parse_fuel s) 0 s.

Section decode_body.
Context {R : Type} (fields : Struct R) (zero : R).

(** [json.NewDecoder(r.Body).Decode(&x)] *)
Definition decode_first (body : string) : result R :=
  match first_value body with
  | None => Err json_syntax
  | Some (v, _) => decode_struct false fields zero v
  end.

(** [decoder.Decode(&x)], then the end of the input, on a body of at most [limit]
    bytes when the limit is positive.  [label] and [extra] are the error texts. *)
Definition decode_limited (limit : Z) (r : Request) (label extra : string) : R + Response :=
  let tooLarge := inr (http_Error "request body too large" StatusRequestEntityTooLarge) in
  let bad msg := inr (http_Error msg StatusBadRequest) in
  if (0 <? limit)%Z && (limit <? rq_ContentLength r)%Z then tooLarge else
  if (0 <? limit)%Z && (limit <? Z.of_nat (slen (rq_Body r)))%Z then
    let visible := str_take (Z.to_nat limit) (rq_Body r) in
    match scan_value (stBeginValue, []) 0 visible with
    | ScanMore => tooLarge
    | ScanWrong => bad label
    | ScanValue n =>
        match decode_first (str_take n visible) with
        | Ok _ => bad extra
        | Err _ => bad label
        end
    end
  else
    match first_value (rq_Body r) with
    | None => bad label
    | Some (v, rest) =>
        match decode_struct false fields zero v with
        | Err _ => bad label
        | Ok x => match skip_space rest with [] => inl x | _ => bad extra end
        end
    end.
End decode_body.
