(* ===== verification/Auth.v ===== *)
(** * Authentication of controller requests ([internal/controllerauth],
    [cmd/controller/auth_middleware.go], [internal/controllerhttp/token.go])

    The configuration lists credentials, each with a role and a source of its token.
    At start-up the tokens are read and only their SHA-256 digests are kept.  A
    request is classified by the policy; unless its route is public, it must carry
    exactly one bearer token whose digest belongs to a credential with a role that a
    rule of the policy admits for the method and path.

    The environment and the files are functions of [CredentialSources]; a nil
    function is replaced by that of the operating system, [os].  A [%q] argument of
    an error text is printed as it is. *)

From S2P Require Import Prelude GoTime GoStrings GoSha256 Variables GoHttp.
Local Open Scope nat_scope.

(** ** Configuration ([model.go]) *)

Definition Mode : Type := string.
Definition ModeDisabled : Mode := "disabled".
Definition ModeBearer : Mode := "bearer".
Definition Role : Type := string.
Definition RoleClient : Role := "client".
Definition RoleWorker : Role := "worker".
Definition RoleAdmin : Role := "admin".

Record Credential := mkCredential {
  cr_ID : string; cr_Role : Role; cr_TokenEnv : string; cr_TokenFile : string }.
Record Config := mkConfig { cf_Mode : Mode; cf_Credentials : list Credential }.

Definition Mode_Valid (m : Mode) : bool := bool_decide (m = ModeDisabled ∨ m = ModeBearer).
Definition Role_Valid (r : Role) : bool :=
  bool_decide (r = RoleClient ∨ r = RoleWorker ∨ r = RoleAdmin).

Definition Fields : Type := list (string * ResolvedValue).

Definition rejectUnknownFields (context : string) (fields : Fields) (allowed : list string) :
    result unit :=
  match List.find (λ f, negb (bool_decide (f.1 ∈ allowed))) fields with
  | Some f => Err (Errorf (context +:+ ": unknown field " +:+ f.1))
  | None => Ok tt
  end.

(** [value.Value.(string)] with the test for the empty text. *)
Definition nonempty_text (name : string) (value : ResolvedValue) : result string :=
  match rv_Value value with
  | VString text => if is_empty text then Err (Errorf (name +:+ " is required")) else Ok text
  | _ => Err (Errorf (name +:+ " is required"))
  end.
(** The pair (text, found) is an option. *)
Definition optionalStringField (fields : Fields) (name : string) : result (option string) :=
  match assoc name fields with
  | None => Ok None
  | Some value =>
      fail_if (negb (bool_decide (rv_Type value = TypeString)))
        (Errorf (name +:+ " has type " +:+ Type_String (rv_Type value) +:+ ", want string"));;
      Some <$> nonempty_text name value
  end.
Definition optionalPathOrStringField (fields : Fields) (name : string) : result (option string) :=
  match assoc name fields with
  | None => Ok None
  | Some value =>
      fail_if (negb (bool_decide (rv_Type value = TypeString ∨ rv_Type value = TypePath)))
        (Errorf (name +:+ " has type " +:+ Type_String (rv_Type value) +:+ ", want string or path"));;
      Some <$> nonempty_text name value
  end.
Definition requiredStringField (fields : Fields) (name : string) : result string :=
  found ← optionalStringField fields name;
  match found with
  | Some text => Ok text
  | None => Err (Errorf (name +:+ " is required"))
  end.

Definition credentialFromFields (index : nat) (fields : Fields) : result Credential :=
  let prefix := "credentials[" +:+ pretty index +:+ "]" in
  rejectUnknownFields prefix fields ["id"; "role"; "token_env"; "token_file"];;
  id ← wrap_err prefix (requiredStringField fields "id");
  role ← wrap_err prefix (requiredStringField fields "role");
  fail_if (negb (Role_Valid role)) (Errorf (prefix +:+ ": unknown role " +:+ role));;
  tokenEnv ← wrap_err prefix (optionalStringField fields "token_env");
  tokenFile ← wrap_err prefix (optionalPathOrStringField fields "token_file");
  fail_if (bool_decide (is_Some tokenEnv ↔ is_Some tokenFile))
    (Errorf (prefix +:+ ": exactly one token source is required"));;
  Ok (mkCredential id role (default "" tokenEnv) (default "" tokenFile)).

(** One round of the loop: the credentials so far and the identifiers seen. *)
Definition credential_item (name : string) (st : list Credential * gset string)
    (item : nat * ResolvedValue) : result (list Credential * gset string) :=
  fail_if (negb (bool_decide (rv_Type item.2 = TypeObject)))
    (Errorf (name +:+ "[" +:+ pretty item.1 +:+ "] has type " +:+ Type_String (rv_Type item.2) +:+
             ", want object"));;
  credential ← credentialFromFields item.1 (rv_Object item.2);
  fail_if (bool_decide (cr_ID credential ∈ st.2))
    (Errorf ("duplicate credential id " +:+ cr_ID credential));;
  Ok (st.1 ++ [credential], {[ cr_ID credential ]} ∪ st.2).
(** The pair (credentials, found) is an option. *)
Definition credentialListField (fields : Fields) (name : string) : result (option (list Credential)) :=
  match assoc name fields with
  | None => Ok None
  | Some value =>
      fail_if (negb (bool_decide (rv_Type value = TypeList)))
        (Errorf (name +:+ " has type " +:+ Type_String (rv_Type value) +:+ ", want list"));;
      st ← foldM (credential_item name) ([], ∅) (imap pair (rv_List value));
      Ok (Some st.1)
  end.

Definition configFromFields (fields : Fields) : result Config :=
  rejectUnknownFields "controller_config.authentication" fields ["mode"; "credentials"];;
  mode ← requiredStringField fields "mode";
  fail_if (negb (Mode_Valid mode)) (Errorf ("unknown authentication mode " +:+ mode));;
  credentials ← credentialListField fields "credentials";
  fail_if (bool_decide (mode = ModeBearer) && bool_decide (default [] credentials = []))
    (Errorf "bearer authentication requires at least one credential");;
  Ok (mkConfig mode (default [] credentials)).
Definition ConfigFromResolved (value : ResolvedValue) : result Config :=
  if bool_decide (rv_Type value = TypeObject) then configFromFields (rv_Object value)
  else Err (Errorf ("controller_config.authentication has type " +:+ Type_String (rv_Type value) +:+
                    ", want object")).

(** ** Credentials ([credentials.go]) *)

(** [fs.FileMode]: the permission bits and the directory bit of a 32-bit word. *)
Definition FileMode : Type := N.
Definition FileMode_IsDir (mode : FileMode) : bool := N.testbit mode 31.
Definition FileMode_Perm (mode : FileMode) : N := N.land mode 511.

Record CredentialSources := mkSources {
  LookupEnv : option (string → option string);
  ReadFile : option (string → result string);
  StatFile : option (string → result FileMode) }.
(** [os.LookupEnv], [os.ReadFile] and [os.Stat]. *)
Record OS := mkOS {
  os_LookupEnv : string → option string;
  os_ReadFile : string → result string;
  os_Stat : string → result FileMode }.
Definition DefaultCredentialSources (os : OS) : CredentialSources :=
  mkSources (Some (os_LookupEnv os)) (Some (os_ReadFile os)) (Some (os_Stat os)).
(** The sources with their nil functions replaced. *)
Definition with_defaults (sources : CredentialSources) (os : OS) : OS :=
  mkOS (default (os_LookupEnv os) (LookupEnv sources)) (default (os_ReadFile os) (ReadFile sources))
    (default (os_Stat os) (StatFile sources)).

Record Principal := mkPrincipal { pr_ID : string; pr_Role : Role }.
#[export] Instance Principal_eq_dec : EqDecision Principal.
Proof. solve_decision. Defined.
Record loadedCredential := mkLoaded { lc_principal : Principal; lc_digest : list N }.
Definition CredentialStore : Type := list loadedCredential.

(** [mode.Perm() & 0o077 != 0] *)
Definition validateRestrictiveFileMode (mode : FileMode) : result unit :=
  fail_if (FileMode_IsDir mode) (Errorf "token file must not be a directory");;
  let perm := FileMode_Perm mode in
  if bool_decide (perm = 0%N) then Ok tt else
  fail_if (negb (bool_decide (N.land perm 63 = 0%N)))
    (Errorf "token file permissions must not grant group or other access").

Definition CR : string := String "013" "".
Definition LF : string := String "010" "".
Definition trimOneTrailingLineEnding (value : string) : string :=
  if has_suffix (CR +:+ LF) value then trim_suffix (CR +:+ LF) value else
  if has_suffix LF value then trim_suffix LF value else
  if has_suffix CR value then trim_suffix CR value else value.
Definition normalizedToken (credentialID source value : string) : result string :=
  let value := trimOneTrailingLineEnding value in
  fail_if (is_empty value) (Errorf ("credential " +:+ credentialID +:+ " " +:+ source +:+ " is empty"));;
  Ok value.

Definition readCredentialToken (os : OS) (credential : Credential) : result string :=
  let named (kind name : string) := "credential " +:+ cr_ID credential +:+ " " +:+ kind +:+ " " +:+ name in
  if negb (is_empty (cr_TokenEnv credential)) then
    match os_LookupEnv os (cr_TokenEnv credential) with
    | None => Err (Errorf (named "token_env" (cr_TokenEnv credential) +:+ " is not set"))
    | Some value =>
        normalizedToken (cr_ID credential) ("token_env " +:+ cr_TokenEnv credential) value
    end
  else if negb (is_empty (cr_TokenFile credential)) then
    let file := named "token_file" (cr_TokenFile credential) in
    mode ← wrap_err (file +:+ " stat failed") (os_Stat os (cr_TokenFile credential));
    wrap_err file (validateRestrictiveFileMode mode);;
    data ← wrap_err (file +:+ " read failed") (os_ReadFile os (cr_TokenFile credential));
    normalizedToken (cr_ID credential) ("token_file " +:+ cr_TokenFile credential) data
  else Err (Errorf ("credential " +:+ cr_ID credential +:+ " has no token source")).

(** One round of the loop: the store so far and the digests seen, each with the
    credential that has it. *)
Definition load_credential (os : OS) (st : CredentialStore * gmap (list N) string)
    (credential : Credential) : result (CredentialStore * gmap (list N) string) :=
  token ← readCredentialToken os credential;
  let digest := Sum256 token in
  match st.2 !! digest with
  | Some priorID =>
      Err (Errorf ("credential " +:+ cr_ID credential +:+
                   " duplicates token material from credential " +:+ priorID))
  | None => Ok (st.1 ++ [mkLoaded (mkPrincipal (cr_ID credential) (cr_Role credential)) digest],
                <[digest := cr_ID credential]> st.2)
  end.
Definition LoadCredentials (os : OS) (config : Config) (sources : CredentialSources) :
    result CredentialStore :=
  if bool_decide (cf_Mode config = ModeDisabled) then Ok [] else
  fail_if (negb (bool_decide (cf_Mode config = ModeBearer)))
    (Errorf ("unsupported authentication mode " +:+ cf_Mode config));;
  fail_if (bool_decide (cf_Credentials config = []))
    (Errorf "bearer authentication requires at least one credential");;
  st ← foldM (load_credential (with_defaults sources os)) ([], ∅) (cf_Credentials config);
  Ok st.1.

Fixpoint match_digest (digest : list N) (credentials : CredentialStore) : option Principal :=
  match credentials with
  | [] => None
  | credential :: rest =>
      if bool_decide (digest = lc_digest credential) then Some (lc_principal credential)
      else match_digest digest rest
  end.
Definition MatchBearer (s : CredentialStore) (token : string) : option Principal :=
  match_digest (Sum256 token) s.

(** ** Policy ([policy.go]) *)

Inductive Decision_ :=
  | DecisionAllowed | DecisionPublic | DecisionDenied | DecisionMethodNotAllowed | DecisionNotFound.
#[export] Instance Decision_eq_dec : EqDecision Decision_.
Proof. solve_decision. Defined.
Inductive RouteClass := RouteUnknown | RoutePublic | RouteProtected.
#[export] Instance RouteClass_eq_dec : EqDecision RouteClass.
Proof. solve_decision. Defined.

Record routePattern := mkPattern { rp_exact : string; rp_prefix : string; rp_suffix : string }.
Record routeRule := mkRule {
  rr_method : string; rr_route : routePattern; rr_public : bool; rr_roles : list Role }.
Definition Policy : Type := list routeRule.

Definition publicExact (method path : string) : routeRule :=
  mkRule method (mkPattern path "" "") true [].
Definition roleExact (method path : string) (roles : list Role) : routeRule :=
  mkRule method (mkPattern path "" "") false roles.
Definition roleFamily (method prefix suffix : string) (roles : list Role) : routeRule :=
  mkRule method (mkPattern "" prefix suffix) false roles.

Definition ControllerPolicy : Policy :=
  [publicExact MethodGet "/healthz";
   roleExact MethodPost "/workflow" [RoleClient; RoleAdmin];
   roleFamily MethodGet "/workflow-runs/" "/source-bundle.zip" [RoleClient; RoleWorker; RoleAdmin];
   roleFamily MethodGet "/submissions/" "/status" [RoleClient; RoleAdmin];
   roleFamily MethodGet "/submissions/" "/logs" [RoleClient; RoleAdmin];
   roleExact MethodPost "/work" [RoleClient; RoleAdmin];
   roleExact MethodGet "/work/next" [RoleWorker; RoleAdmin];
   roleExact MethodPost "/work/complete" [RoleWorker; RoleAdmin];
   roleExact MethodPost "/work/fail" [RoleWorker; RoleAdmin];
   roleExact MethodPost "/workers/register" [RoleWorker; RoleAdmin];
   roleExact MethodPost "/workers/heartbeat" [RoleWorker; RoleAdmin];
   roleExact MethodPost "/workers/stop" [RoleWorker; RoleAdmin];
   roleExact MethodGet "/status" [RoleClient; RoleAdmin];
   roleExact MethodGet "/observations/logs" [RoleClient; RoleAdmin];
   roleExact MethodPost "/shutdown" [RoleAdmin]].

Definition route_match (p : routePattern) (path : string) : bool :=
  if negb (is_empty (rp_exact p)) then bool_decide (path = rp_exact p) else
  if negb (has_prefix (rp_prefix p) path) || negb (has_suffix (rp_suffix p) path) then false else
  let item := trim_suffix (rp_suffix p) (trim_prefix (rp_prefix p) path) in
  negb (is_empty item) && negb (contains "/" item).

Fixpoint authorize_from (matchedPath : bool) (rules : list routeRule) (method path : string)
    (role : Role) : Decision_ :=
  match rules with
  | [] => if matchedPath then DecisionMethodNotAllowed else DecisionNotFound
  | rule :: rest =>
      if negb (route_match (rr_route rule) path) then authorize_from matchedPath rest method path role
      else if negb (bool_decide (method = rr_method rule)) then authorize_from true rest method path role
      else if rr_public rule then DecisionPublic
      else if bool_decide (role ∈ rr_roles rule) then DecisionAllowed else DecisionDenied
  end.
Definition Authorize (p : Policy) (method path : string) (role : Role) : Decision_ :=
  authorize_from false p method path role.

Fixpoint classify_from (class : RouteClass) (rules : list routeRule) (path : string) : RouteClass :=
  match rules with
  | [] => class
  | rule :: rest =>
      if negb (route_match (rr_route rule) path) then classify_from class rest path
      else if rr_public rule then RoutePublic
      else classify_from RouteProtected rest path
  end.
Definition Classify (p : Policy) (path : string) : RouteClass := classify_from RouteUnknown p path.

(** ** The middleware ([auth_middleware.go]) *)

Definition bearerToken (header : Header) : option string :=
  match Header_Values header "Authorization" with
  | [value] =>
      if contains "," value then None else
      let prefix := "Bearer " in
      if negb (has_prefix prefix value) then None else
      let token := trim_prefix prefix value in
      if is_empty token || contains_any (" " +:+ String "009" CR +:+ LF) token then None else Some token
  | _ => None
  end.

Record AuthSettings := mkAuth { authMode : Mode; authStore : CredentialStore; authPolicy : Policy }.

(** What becomes of a request: handed to the next handler, with the principal in
    its context when there is one, or answered with an error status. *)
Inductive Outcome :=
  | ServeNext (principal : option Principal)
  | Refused (status : nat).
Definition authorizeControllerRoutes (c : AuthSettings) (method path : string) (header : Header) :
    Outcome :=
  if bool_decide (authMode c = ModeDisabled) then ServeNext None else
  match Classify (authPolicy c) path with
  | RouteUnknown => Refused StatusNotFound
  | RoutePublic =>
      match Authorize (authPolicy c) method path "" with
      | DecisionPublic => ServeNext None
      | DecisionMethodNotAllowed => Refused StatusMethodNotAllowed
      | _ => Refused StatusNotFound
      end
  | RouteProtected =>
      match bearerToken header with
      | None => Refused StatusUnauthorized
      | Some token =>
          match MatchBearer (authStore c) token with
          | None => Refused StatusUnauthorized
          | Some principal =>
              match Authorize (authPolicy c) method path (pr_Role principal) with
              | DecisionAllowed => ServeNext (Some principal)
              | DecisionMethodNotAllowed => Refused StatusMethodNotAllowed
              | DecisionNotFound => Refused StatusNotFound
              | _ => Refused StatusForbidden
              end
          end
      end
  end.

(** ** The client's token ([internal/controllerhttp/token.go], [client.go]) *)

Definition NewSensitiveToken (value : string) : result string :=
  fail_if (is_empty value) (Errorf "controller token is required");;
  fail_if (contains_any (" " +:+ String "009" CR +:+ LF +:+ ",") value)
    (Errorf "controller token contains characters that are not valid in bearer authorization");;
  Ok value.
(** [request.Header.Set("Authorization", "Bearer "+token.Plaintext())] *)
Definition authorize_request (header : Header) (token : string) : Header :=
  <["Authorization" := ["Bearer " +:+ token]]> header.
