(* ===== verification/AuthLaws.v ===== *)
(** * What authentication guarantees

    In bearer mode a request reaches a handler exactly when the policy makes its
    route public, or when its bearer token is the token of a configured credential
    whose role the policy admits for the method and path.  The tokens a client can
    hold are exactly the tokens the controller can read from a header.  Errors of
    start-up do not depend on the contents of tokens. *)

From S2P Require Import Prelude GoTime GoStrings GoSha256 Variables GoHttp Auth.
Local Open Scope nat_scope.

(** ** Policies *)

Definition rule_matches (method path : string) (r : routeRule) : bool :=
  route_match (rr_route r) path && bool_decide (method = rr_method r).
(** A protected rule of the policy admits the role. *)
Definition permits (p : Policy) (method path : string) (role : Role) : Prop :=
  ∃ r, r ∈ p ∧ rr_public r = false ∧ rule_matches method path r = true ∧ role ∈ rr_roles r.
Definition opens (p : Policy) (method path : string) : Prop :=
  ∃ r, r ∈ p ∧ rr_public r = true ∧ rule_matches method path r = true.

Lemma authorize_from_find b rules method path role :
  authorize_from b rules method path role =
  match List.find (rule_matches method path) rules with
  | Some r => if rr_public r then DecisionPublic
              else if bool_decide (role ∈ rr_roles r) then DecisionAllowed else DecisionDenied
  | None => if b || existsb (λ r, route_match (rr_route r) path) rules then DecisionMethodNotAllowed
            else DecisionNotFound
  end.
Proof.
  revert b. induction rules as [|r rules IH]; intros b; cbn [authorize_from List.find existsb].
  { by rewrite orb_false_r. }
  unfold rule_matches at 1. destruct (route_match (rr_route r) path) eqn:Hm; simpl; [|apply IH].
  destruct (bool_decide (method = rr_method r)) eqn:He; simpl; [done|].
  rewrite IH. by rewrite orb_true_r.
Qed.

Lemma classify_from_spec c rules path :
  classify_from c rules path =
  if existsb (λ r, route_match (rr_route r) path && rr_public r) rules then RoutePublic
  else if existsb (λ r, route_match (rr_route r) path) rules then RouteProtected else c.
Proof.
  revert c. induction rules as [|r rules IH]; intros c; cbn [classify_from existsb]; [done|].
  destruct (route_match (rr_route r) path) eqn:Hm; simpl; [|apply IH].
  destruct (rr_public r); simpl; [done|]. rewrite IH.
  by destruct (existsb (λ r0, route_match (rr_route r0) path && rr_public r0) rules),
    (existsb (λ r0, route_match (rr_route r0) path) rules).
Qed.

(** Rules that match the same path are of one class, and of different methods. *)
Definition unambiguous (p : Policy) : Prop :=
  ∀ r1 r2 path, r1 ∈ p → r2 ∈ p →
    route_match (rr_route r1) path = true → route_match (rr_route r2) path = true →
    rr_public r1 = rr_public r2 ∧ (rr_method r1 = rr_method r2 → r1 = r2).

Section policy.
Context (p : Policy) (Hp : unambiguous p).

Lemma find_rule method path r :
  r ∈ p → rule_matches method path r = true → List.find (rule_matches method path) p = Some r.
Proof using Hp.
  intros Hr Hm. destruct (List.find _ p) as [r'|] eqn:Hf.
  - apply find_some in Hf as [Hr' Hm']. apply list_elem_of_In in Hr'. f_equal.
    unfold rule_matches in Hm, Hm'. rewrite andb_true_iff, bool_decide_eq_true in Hm, Hm'.
    destruct Hm as [Hm ->], Hm' as [Hm' He]. by apply (Hp r' r path).
  - pose proof (find_none _ _ Hf r (proj1 (list_elem_of_In _ _) Hr)). congruence.
Qed.

Lemma Authorize_Allowed method path role :
  Authorize p method path role = DecisionAllowed ↔ permits p method path role.
Proof using Hp.
  unfold Authorize. rewrite authorize_from_find. split.
  - destruct (List.find _ p) as [r|] eqn:Hf; [|by destruct (_ || _)].
    apply find_some in Hf as [Hr%list_elem_of_In Hm]. destruct (rr_public r) eqn:Hpub; [done|].
    case_bool_decide; [|done]. intros _. by exists r.
  - intros (r & Hr & Hpub & Hm & Hrole). rewrite (find_rule _ _ r) by done. rewrite Hpub.
    by rewrite bool_decide_eq_true_2.
Qed.
Lemma Authorize_Public method path role :
  Authorize p method path role = DecisionPublic ↔ opens p method path.
Proof using Hp.
  unfold Authorize. rewrite authorize_from_find. split.
  - destruct (List.find _ p) as [r|] eqn:Hf; [|by destruct (_ || _)].
    apply find_some in Hf as [Hr%list_elem_of_In Hm]. destruct (rr_public r) eqn:Hpub.
    + intros _. by exists r.
    + by case_bool_decide.
  - intros (r & Hr & Hpub & Hm). rewrite (find_rule _ _ r) by done. by rewrite Hpub.
Qed.

Lemma Classify_opens method path : opens p method path → Classify p path = RoutePublic.
Proof using Type.
  intros (r & Hr & Hpub & [Hm _]%andb_true_iff). unfold Classify. rewrite classify_from_spec.
  replace (existsb _ p) with true; [done|]. symmetry. apply existsb_elem. exists r.
  by rewrite Hm, Hpub.
Qed.
Lemma Classify_permits method path role :
  permits p method path role → Classify p path = RouteProtected.
Proof using Hp.
  intros (r & Hr & Hpub & [Hm _]%andb_true_iff & _). unfold Classify. rewrite classify_from_spec.
  destruct (existsb (λ r0, _ && _) p) eqn:He.
  - apply existsb_elem in He as (r' & Hr' & [Hm' Hpub']%andb_true_iff).
    destruct (Hp r r' path Hr Hr' Hm Hm') as [Heq _]; congruence.
  - replace (existsb _ p) with true; [done|]. symmetry. apply existsb_elem. eauto.
Qed.

(** A request is handed on exactly when the policy opens its route, or its bearer
    token belongs to a principal the policy permits. *)
Lemma served_iff store method path header pr :
  authorizeControllerRoutes (mkAuth ModeBearer store p) method path header = ServeNext pr ↔
  opens p method path ∧ pr = None ∨
  ∃ token principal, bearerToken header = Some token ∧ MatchBearer store token = Some principal ∧
    permits p method path (pr_Role principal) ∧ pr = Some principal.
Proof using Hp.
  unfold authorizeControllerRoutes. cbn [authMode authStore authPolicy].
  rewrite bool_decide_eq_false_2 by done. split.
  - destruct (Classify p path) eqn:Hc; [done| |].
    + destruct (Authorize p method path "") eqn:Ha; try done. intros [= <-]. left.
      by apply Authorize_Public in Ha.
    + destruct (bearerToken header) as [token|]; [|done].
      destruct (MatchBearer store token) as [principal|] eqn:Hm; [|done].
      destruct (Authorize p method path (pr_Role principal)) eqn:Ha; try done. intros [= <-]. right.
      apply Authorize_Allowed in Ha. naive_solver.
  - intros [[Ho ->]|(token & principal & Ht & Hm & Ha & ->)].
    + rewrite (Classify_opens _ _ Ho). by apply (Authorize_Public _ _ "") in Ho as ->.
    + rewrite (Classify_permits _ _ _ Ha), Ht, Hm. by apply Authorize_Allowed in Ha as ->.
Qed.
End policy.

(** ** The controller's policy is unambiguous *)

Definition is_exact (p : routePattern) : bool := negb (is_empty (rp_exact p)).
(** A test for patterns that no path matches both. *)
Definition disjoint (p q : routePattern) : bool :=
  match is_exact p, is_exact q with
  | true, true => negb (bool_decide (rp_exact p = rp_exact q))
  | true, false => negb (route_match q (rp_exact p))
  | false, true => negb (route_match p (rp_exact q))
  | false, false =>
      negb (has_prefix (rp_prefix p) (rp_prefix q)) && negb (has_prefix (rp_prefix q) (rp_prefix p)) ||
      negb (has_suffix (rp_suffix p) (rp_suffix q)) && negb (has_suffix (rp_suffix q) (rp_suffix p))
  end.

Lemma has_prefix_comparable p q s :
  has_prefix p s = true → has_prefix q s = true → has_prefix p q = true ∨ has_prefix q p = true.
Proof.
  revert q s. induction p as [|a p IH]; intros [|b q] [|c s]; simpl; try tauto; try done.
  rewrite !andb_true_iff, !bool_decide_eq_true. intros [-> Hp] [-> Hq].
  destruct (IH q s Hp Hq) as [H|H]; rewrite H; [left|right]; auto.
Qed.
Lemma app_suffix_comparable a b p q :
  a +:+ p = b +:+ q → has_suffix p q = true ∨ has_suffix q p = true.
Proof.
  revert b. induction a as [|c a IH]; intros [|d b] H; simpl in H.
  - left. apply has_suffix_spec. by exists "".
  - right. apply has_suffix_spec. exists (String d b). by simpl.
  - left. apply has_suffix_spec. exists (String c a). by simpl.
  - injection H as _ H. by apply (IH b).
Qed.
Lemma has_suffix_comparable p q s :
  has_suffix p s = true → has_suffix q s = true → has_suffix p q = true ∨ has_suffix q p = true.
Proof. intros [a ->]%has_suffix_spec [b H]%has_suffix_spec. by apply (app_suffix_comparable a b). Qed.

Lemma route_match_exact p path : is_exact p = true → route_match p path = true → path = rp_exact p.
Proof. unfold route_match, is_exact. intros ->. by intros H%bool_decide_eq_true. Qed.
Lemma route_match_family p path :
  is_exact p = false → route_match p path = true →
  has_prefix (rp_prefix p) path = true ∧ has_suffix (rp_suffix p) path = true.
Proof.
  unfold route_match, is_exact. intros ->.
  by destruct (has_prefix (rp_prefix p) path), (has_suffix (rp_suffix p) path).
Qed.
Lemma disjoint_sound p q path :
  disjoint p q = true → route_match p path = true → route_match q path = true → False.
Proof.
  unfold disjoint. intros Hd Hp Hq. destruct (is_exact p) eqn:Ep, (is_exact q) eqn:Eq.
  - apply route_match_exact in Hp, Hq; [|done..]. subst.
    apply negb_true_iff, bool_decide_eq_false in Hd. congruence.
  - apply route_match_exact in Hp; [|done]. subst. by rewrite Hq in Hd.
  - apply route_match_exact in Hq; [|done]. subst. by rewrite Hp in Hd.
  - apply route_match_family in Hp as [Hp1 Hp2], Hq as [Hq1 Hq2]; [|done..].
    pose proof (has_prefix_comparable _ _ _ Hp1 Hq1) as H1.
    pose proof (has_suffix_comparable _ _ _ Hp2 Hq2) as H2.
    destruct H1 as [H1|H1], H2 as [H2|H2]; rewrite H1, H2 in Hd; simpl in Hd;
      by rewrite ?andb_false_r in Hd.
Qed.

Definition compatible (r1 r2 : routeRule) : bool :=
  disjoint (rr_route r1) (rr_route r2) ||
  eqb (rr_public r1) (rr_public r2) && negb (bool_decide (rr_method r1 = rr_method r2)).
(** Each rule against the later ones. *)
Fixpoint pairwise (rules : Policy) : bool :=
  match rules with
  | [] => true
  | r :: rest => forallb (λ r', compatible r r' && compatible r' r) rest && pairwise rest
  end.
Lemma pairwise_unambiguous p : pairwise p = true → unambiguous p.
Proof.
  assert (Hc : ∀ r1 r2 path, compatible r1 r2 = true →
    route_match (rr_route r1) path = true → route_match (rr_route r2) path = true →
    rr_public r1 = rr_public r2 ∧ (rr_method r1 = rr_method r2 → r1 = r2)).
  { intros r1 r2 path [Hd|[Hb Hm]%andb_true_iff]%orb_true_iff H1 H2.
    - by destruct (disjoint_sound _ _ _ Hd H1 H2).
    - apply eqb_prop in Hb. apply negb_true_iff, bool_decide_eq_false in Hm. by split. }
  induction p as [|r p IH]; [intros _ r1 r2 path H; by apply elem_of_nil in H|].
  cbn [pairwise]. intros [Hf Hrest]%andb_true_iff. rewrite forallb_forall in Hf.
  setoid_rewrite <- list_elem_of_In in Hf. setoid_rewrite andb_true_iff in Hf.
  intros r1 r2 path H1%elem_of_cons H2%elem_of_cons Hm1 Hm2.
  destruct H1 as [->|H1], H2 as [->|H2]; [done| | |by apply (IH Hrest r1 r2 path)].
  - apply (Hc r r2 path); [apply Hf|..]; done.
  - apply (Hc r1 r path); [apply Hf|..]; done.
Qed.
Lemma ControllerPolicy_unambiguous : unambiguous ControllerPolicy.
Proof. apply pairwise_unambiguous. by vm_compute. Qed.

(** ** Loaded credentials *)

Definition loaded (c : Credential) (token : string) : loadedCredential :=
  mkLoaded (mkPrincipal (cr_ID c) (cr_Role c)) (Sum256 token).

Lemma load_all os l : ∀ s m s' m',
  foldM (load_credential os) (s, m) l = Ok (s', m') →
  (∀ d, is_Some (m !! d) ↔ d ∈ lc_digest <$> s) → NoDup (lc_digest <$> s) →
  NoDup (lc_digest <$> s') ∧
  ∀ x, x ∈ s' ↔ x ∈ s ∨ ∃ c t, c ∈ l ∧ readCredentialToken os c = Ok t ∧ x = loaded c t.
Proof.
  induction l as [|c l IH]; intros s m s' m'; cbn [foldM].
  { intros [= <- <-] _ Hnd. split; [done|]. intros x. split; [by left|].
    intros [H|(c & t & H & _)]; [done|by apply elem_of_nil in H]. }
  intros ([s1 m1] & Hc & H)%bind_Ok Hm Hnd. unfold load_credential in Hc. cbn [fst snd] in Hc.
  apply bind_Ok in Hc as (t & Ht & Hc). destruct (m !! Sum256 t) as [|] eqn:Hd; [done|].
  injection Hc as <- <-.
  destruct (IH _ _ _ _ H) as [Hnd' Hin].
  - intros d. rewrite fmap_app, elem_of_app, <- Hm. cbn [fmap list_fmap lc_digest].
    rewrite list_elem_of_singleton. destruct (decide (d = Sum256 t)) as [->|Hne].
    + rewrite lookup_insert_eq. naive_solver.
    + rewrite lookup_insert_ne by congruence. naive_solver.
  - rewrite fmap_app. apply NoDup_app. split_and!; [done| |apply NoDup_singleton].
    intros d Hds%Hm Heq. cbn [fmap list_fmap lc_digest] in Heq. apply list_elem_of_singleton in Heq as ->.
    rewrite Hd in Hds. by destruct Hds.
  - split; [done|]. intros x. rewrite Hin, elem_of_app, list_elem_of_singleton.
    setoid_rewrite elem_of_cons. split; [naive_solver|].
    intros [Hx|(c' & t' & [->|Hc'] & Ht' & ->)]; [by do 2 left| |naive_solver].
    left. right. rewrite Ht in Ht'. by injection Ht' as <-.
Qed.

Lemma match_digest_iff d s pr :
  NoDup (lc_digest <$> s) →
  match_digest d s = Some pr ↔ ∃ x, x ∈ s ∧ lc_digest x = d ∧ lc_principal x = pr.
Proof.
  induction s as [|x s IH]; cbn [match_digest fmap list_fmap].
  { intros _. split; [done|]. by intros (x & Hx%elem_of_nil & _). }
  intros [Hx Hnd]%NoDup_cons. case_bool_decide as Hd.
  - split; [intros [= <-]; exists x; split_and!; [left|..]; done|].
    intros (y & [->|Hy]%elem_of_cons & Hyd & <-); [done|]. destruct Hx.
    apply list_elem_of_fmap. exists y. by rewrite <- Hd, Hyd.
  - rewrite IH by done. setoid_rewrite elem_of_cons. naive_solver.
Qed.

Lemma MatchBearer_loaded os sources config store token pr :
  cf_Mode config = ModeBearer → LoadCredentials os config sources = Ok store →
  MatchBearer store token = Some pr ↔
  ∃ c secret, c ∈ cf_Credentials config ∧
    readCredentialToken (with_defaults sources os) c = Ok secret ∧ Sum256 token = Sum256 secret ∧
    pr = mkPrincipal (cr_ID c) (cr_Role c).
Proof.
  intros Hmode. unfold LoadCredentials. rewrite Hmode. rewrite bool_decide_eq_false_2 by done.
  intros (u & Hu & H)%bind_Ok. apply bind_Ok in H as (u' & Hu' & H).
  apply bind_Ok in H as ([s m] & Hs & H). injection H as <-. cbn [fst].
  apply load_all in Hs as [Hnd Hin]; [| |constructor].
  - unfold MatchBearer. rewrite match_digest_iff by done. setoid_rewrite Hin. split.
    + intros (x & [Hx|(c & t & Hc & Ht & ->)] & Hd & <-); [by apply elem_of_nil in Hx|].
      exists c, t. by split_and!.
    + intros (c & t & Hc & Ht & Hd & ->). exists (loaded c t). split_and!; [right; eauto|done..].
  - intros d. rewrite lookup_empty. split; [by intros [? ?]|]. by intros H%elem_of_nil.
Qed.

Lemma opens_controller method path :
  opens ControllerPolicy method path ↔ method = MethodGet ∧ path = "/healthz".
Proof.
  split.
  - intros (r & Hr & Hpub & [Hm He%bool_decide_eq_true]%andb_true_iff).
    repeat (apply elem_of_cons in Hr as [->|Hr]; [try done|]); [|by apply elem_of_nil in Hr].
    split; [done|]. by apply bool_decide_eq_true in Hm.
  - intros [-> ->]. exists (publicExact MethodGet "/healthz"). split_and!; [left|..]; done.
Qed.

(** C3: With bearer authentication and the credentials loaded at start-up, a request
    reaches a handler exactly when it is GET /healthz, or when it carries one bearer
    token whose SHA-256 digest is that of the token of a configured credential, and a
    rule of the policy for the method and path admits the role of that credential;
    the principal put in the request's context is that credential's. *)
Theorem bearer_access_exact os sources config store method path header pr :
  cf_Mode config = ModeBearer → LoadCredentials os config sources = Ok store →
  authorizeControllerRoutes (mkAuth ModeBearer store ControllerPolicy) method path header = ServeNext pr ↔
  method = MethodGet ∧ path = "/healthz" ∧ pr = None ∨
  ∃ token c secret, bearerToken header = Some token ∧ c ∈ cf_Credentials config ∧
    readCredentialToken (with_defaults sources os) c = Ok secret ∧ Sum256 token = Sum256 secret ∧
    permits ControllerPolicy method path (cr_Role c) ∧
    pr = Some (mkPrincipal (cr_ID c) (cr_Role c)).
Proof.
  intros Hmode Hload. rewrite (served_iff _ ControllerPolicy_unambiguous), opens_controller.
  setoid_rewrite (MatchBearer_loaded os sources config store _ _ Hmode Hload).
  split.
  - intros [H|(token & principal & Ht & (c & secret & Hc & Hs & Hd & ->) & Hperm & ->)];
      [left; tauto|right]. by exists token, c, secret.
  - intros [H|(token & c & secret & Ht & Hc & Hs & Hd & Hperm & ->)]; [left; tauto|right].
    exists token, (mkPrincipal (cr_ID c) (cr_Role c)). split_and!; [done| |done..]. by exists c, secret.
Qed.

Definition worker_credential : Credential := mkCredential "w1" RoleWorker "TOKEN" "".
Definition example_config : Config := mkConfig ModeBearer [worker_credential].
Definition example_os : OS :=
  mkOS (λ n, if bool_decide (n = "TOKEN") then Some ("secret" +:+ LF) else None)
    (λ _, Err (Errorf "no file")) (λ _, Err (Errorf "no file")).
Definition example_store : CredentialStore := [loaded worker_credential "secret"].
Definition example_header : Header := authorize_request ∅ "secret".
Lemma bearer_access_exact_witness :
  authorizeControllerRoutes (mkAuth ModeBearer example_store ControllerPolicy) "GET" "/work/next"
    example_header = ServeNext (Some (mkPrincipal "w1" RoleWorker)).
Proof.
  apply (bearer_access_exact example_os (mkSources None None None) example_config).
  - reflexivity.
  - vm_compute. reflexivity.
  - right. exists "secret", worker_credential, "secret".
    split_and!; [reflexivity|left|reflexivity|reflexivity| |reflexivity].
    exists (roleExact MethodGet "/work/next" [RoleWorker; RoleAdmin]).
    split_and!; [do 6 right; left|reflexivity|vm_compute; reflexivity|left].
Defined.

(** ** Tokens *)

Definition blank_bytes : string := " " +:+ String "009" CR +:+ LF.

Lemma client_token_iff t :
  NewSensitiveToken t = Ok t ↔
  t ≠ "" ∧ contains_any blank_bytes t = false ∧ has_byte "," t = false.
Proof.
  unfold NewSensitiveToken. split.
  - intros (u & Hu%fail_if_Ok & H)%bind_Ok. apply bind_Ok in H as (u' & Hc%fail_if_Ok & _).
    split; [by apply bool_decide_eq_false in Hu|]. rewrite contains_any_false in Hc.
    split; [|by apply Hc]. apply contains_any_false. intros c Hb. apply Hc.
    change (" " +:+ String "009" CR +:+ LF +:+ ",") with (blank_bytes +:+ ",").
    by rewrite has_byte_app, Hb.
  - intros (Hne & Hb & Hcomma). rewrite (proj2 (fail_if_Ok (is_empty t) _ tt)) by (by apply bool_decide_eq_false_2).
    cbn [mbind result_bind]. rewrite (proj2 (fail_if_Ok _ _ tt)); [done|].
    apply contains_any_false. intros c.
    change (" " +:+ String "009" CR +:+ LF +:+ ",") with (blank_bytes +:+ ",").
    rewrite has_byte_app, orb_true_iff. intros [Hc|Hc]; [by apply (proj1 (contains_any_false _ _) Hb)|].
    cbn [has_byte] in Hc. rewrite orb_false_r, bool_decide_eq_true in Hc. by subst c.
Qed.

Lemma bearerToken_client header t : bearerToken header = Some t → NewSensitiveToken t = Ok t.
Proof.
  unfold bearerToken. destruct (Header_Values header "Authorization") as [|value [|]]; try done.
  destruct (contains "," value) eqn:Hc; [done|].
  destruct (has_prefix "Bearer " value) eqn:Hp; [cbn [negb]|done].
  apply has_prefix_spec in Hp as [token ->]. rewrite trim_prefix_app.
  destruct (is_empty token) eqn:He; [done|]. cbn [orb].
  destruct (contains_any _ token) eqn:Hb; [done|]. intros [= <-]. apply client_token_iff.
  split; [by apply bool_decide_eq_false in He|]. split; [done|].
  rewrite contains_byte, has_byte_app in Hc. by apply orb_false_iff in Hc as [_ Hc].
Qed.
Lemma client_token_reads header t :
  NewSensitiveToken t = Ok t → bearerToken (authorize_request header t) = Some t.
Proof.
  intros (Hne & Hb & Hc)%client_token_iff. unfold bearerToken, Header_Values, authorize_request.
  rewrite lookup_insert_eq. cbn [default from_option id]. rewrite contains_byte, has_byte_app, Hc. cbn [orb].
  rewrite (proj2 (has_prefix_spec "Bearer " _)) by eauto. cbn [negb]. rewrite trim_prefix_app.
  fold blank_bytes. rewrite Hb. unfold is_empty. by rewrite bool_decide_eq_false_2.
Qed.

(** The tokens that the controller can read from an Authorization header are
    exactly the tokens that a client can be built with, and the header the client
    sends reads back as its token. *)
Theorem bearer_token_roundtrip t :
  (NewSensitiveToken t = Ok t ↔ ∃ header, bearerToken header = Some t) ∧
  ∀ header, NewSensitiveToken t = Ok t → bearerToken (authorize_request header t) = Some t.
Proof.
  split; [|intros header; apply client_token_reads]. split.
  - intros H. exists (authorize_request ∅ t). by apply client_token_reads.
  - intros [header H]. by apply bearerToken_client in H.
Qed.

(** A credential whose token has interior white space or a comma is loaded at
    start-up without an error, yet no request can present that token. *)
Theorem spaced_token_is_loaded_but_unusable :
  ∃ os config store, LoadCredentials os config (DefaultCredentialSources os) = Ok store ∧
    (∃ c, cf_Credentials config = [c] ∧ readCredentialToken os c = Ok "two words") ∧
    ∀ header, bearerToken header ≠ Some "two words".
Proof.
  pose (spaced := mkOS (λ _, Some "two words") (λ _, Err (Errorf "no file")) (λ _, Err (Errorf "no file"))).
  exists spaced, example_config, [loaded worker_credential "two words"]. split_and!.
  - vm_compute. reflexivity.
  - by exists worker_credential.
  - intros header H%bearerToken_client. by vm_compute in H.
Qed.

(** ** Errors hide tokens *)

(** The same environment with other contents of the tokens. *)
Definition rename_tokens (f : string → string) (os : OS) : OS :=
  mkOS (λ n, f <$> os_LookupEnv os n) (λ n, f <$> os_ReadFile os n) (os_Stat os).
(** A text that a source of the environment holds. *)
Definition occurs (os : OS) (x : string) : Prop :=
  (∃ n, os_LookupEnv os n = Some x) ∨ (∃ n, os_ReadFile os n = Ok x).
(** The contents change, but not which are empty nor which are the same token. *)
Record hides (os : OS) (f : string → string) : Prop := {
  hides_empty : ∀ x, occurs os x →
    trimOneTrailingLineEnding (f x) = "" ↔ trimOneTrailingLineEnding x = "";
  hides_equal : ∀ x y, occurs os x → occurs os y →
    Sum256 (trimOneTrailingLineEnding (f x)) = Sum256 (trimOneTrailingLineEnding (f y)) ↔
    Sum256 (trimOneTrailingLineEnding x) = Sum256 (trimOneTrailingLineEnding y) }.

(** A token was read from some raw text, or the error does not depend on it. *)
Section hiding.
Context (f : string → string) (os : OS) (Hf : hides os f).

Lemma normalizedToken_rename id source x :
  occurs os x →
  (∃ e, normalizedToken id source x = Err e ∧ normalizedToken id source (f x) = Err e) ∨
  normalizedToken id source x = Ok (trimOneTrailingLineEnding x) ∧
  normalizedToken id source (f x) = Ok (trimOneTrailingLineEnding (f x)).
Proof using Hf.
  intros Hx. unfold normalizedToken. destruct (decide (trimOneTrailingLineEnding x = "")) as [He|He].
  - left. rewrite He, (proj2 (hides_empty os f Hf x Hx) He). eexists. split; reflexivity.
  - right. assert (trimOneTrailingLineEnding (f x) ≠ "") as He' by (by rewrite (hides_empty os f Hf)).
    unfold is_empty. by rewrite !bool_decide_eq_false_2.
Qed.

Lemma readCredentialToken_rename c :
  (∃ e, readCredentialToken os c = Err e ∧ readCredentialToken (rename_tokens f os) c = Err e) ∨
  ∃ x, occurs os x ∧ readCredentialToken os c = Ok (trimOneTrailingLineEnding x) ∧
    readCredentialToken (rename_tokens f os) c = Ok (trimOneTrailingLineEnding (f x)).
Proof using Hf.
  unfold readCredentialToken. destruct (negb (is_empty (cr_TokenEnv c))).
  - cbn [rename_tokens os_LookupEnv]. destruct (os_LookupEnv os (cr_TokenEnv c)) as [x|] eqn:Hx; cbn; [|eauto].
    assert (occurs os x) by (left; eauto).
    destruct (normalizedToken_rename (cr_ID c) ("token_env " +:+ cr_TokenEnv c) x); eauto.
  - destruct (negb (is_empty (cr_TokenFile c))); [|eauto].
    cbn [rename_tokens os_ReadFile os_Stat].
    destruct (wrap_err _ (os_Stat os (cr_TokenFile c))) as [mode|e]; cbn [mbind result_bind]; [|eauto].
    destruct (wrap_err _ (validateRestrictiveFileMode mode)) as [u|e]; cbn [mbind result_bind]; [|eauto].
    destruct (os_ReadFile os (cr_TokenFile c)) as [x|e] eqn:Hx;
      cbn [fmap result_fmap wrap_err mbind result_bind]; [|eauto].
    assert (occurs os x) by (right; eauto).
    destruct (normalizedToken_rename (cr_ID c) ("token_file " +:+ cr_TokenFile c) x); eauto.
Qed.

(** The seen digests of both runs, in step: which raw texts were read and by whom. *)
Definition in_step (m m' : gmap (list N) string) : Prop :=
  ∀ x, occurs os x → m !! Sum256 (trimOneTrailingLineEnding x) = m' !! Sum256 (trimOneTrailingLineEnding (f x)).

Lemma load_credential_rename c st st' : in_step st.2 st'.2 →
  (∃ e, load_credential os st c = Err e ∧ load_credential (rename_tokens f os) st' c = Err e) ∨
  ∃ r r', load_credential os st c = Ok r ∧ load_credential (rename_tokens f os) st' c = Ok r' ∧
    in_step r.2 r'.2.
Proof using Hf.
  intros Hm. unfold load_credential.
  destruct (readCredentialToken_rename c) as [(e & -> & ->)|(x & Ho & -> & ->)]; cbn [mbind result_bind];
    [eauto|].
  rewrite <- (Hm x Ho). destruct (st.2 !! _) as [prior|]; [left; eauto|right].
  eexists _, _. split_and!; [reflexivity..|]. cbn [snd]. intros y Hy.
  destruct (decide (Sum256 (trimOneTrailingLineEnding y) = Sum256 (trimOneTrailingLineEnding x))) as [He|He].
  - rewrite (proj2 (hides_equal os f Hf y x Hy Ho) He), He, !lookup_insert_eq. done.
  - rewrite !lookup_insert_ne; [by apply Hm| |]; intros Heq; apply He; symmetry; [|exact Heq].
    exact (proj1 (hides_equal os f Hf x y Ho Hy) Heq).
Qed.
Lemma load_rename l : ∀ st st', in_step st.2 st'.2 →
  (∃ e, foldM (load_credential os) st l = Err e ∧
     foldM (load_credential (rename_tokens f os)) st' l = Err e) ∨
  ∃ r r', foldM (load_credential os) st l = Ok r ∧
     foldM (load_credential (rename_tokens f os)) st' l = Ok r'.
Proof using Hf.
  induction l as [|c l IH]; intros st st' Hm; cbn [foldM]; [eauto|].
  destruct (load_credential_rename c st st' Hm) as [(e & -> & ->)|(r & r' & -> & -> & Hr)];
    cbn [mbind result_bind]; [eauto|by apply IH].
Qed.
End hiding.

(** An error of loading the credentials does not reveal the tokens: replacing the
    contents of all tokens by others, empty where they were empty and equal where
    they were equal, the load fails with the same error or succeeds as before. *)
Theorem load_errors_hide_tokens f os config e :
  hides os f →
  LoadCredentials os config (DefaultCredentialSources os) = Err e ↔
  LoadCredentials (rename_tokens f os) config (DefaultCredentialSources (rename_tokens f os)) = Err e.
Proof.
  intros Hf. unfold LoadCredentials. case_bool_decide; [done|].
  destruct (fail_if (negb _) _) as [u|e']; cbn [mbind result_bind]; [|done].
  destruct (fail_if (bool_decide _) _) as [u'|e']; cbn [mbind result_bind]; [|done].
  change (with_defaults (DefaultCredentialSources os) os) with (mkOS (os_LookupEnv os) (os_ReadFile os) (os_Stat os)).
  replace (mkOS (os_LookupEnv os) (os_ReadFile os) (os_Stat os)) with os by (by destruct os).
  change (with_defaults (DefaultCredentialSources (rename_tokens f os)) (rename_tokens f os))
    with (rename_tokens f os).
  destruct (load_rename f os Hf (cf_Credentials config) ([], ∅) ([], ∅)) as [(e' & -> & ->)|(r & r' & -> & ->)];
    [|done|done].
  intros x _. cbn [snd]. by rewrite !lookup_empty.
Qed.

Lemma load_errors_hide_tokens_witness :
  let config := mkConfig ModeBearer [worker_credential; mkCredential "w2" RoleWorker "TOKEN" ""] in
  let e := Errorf "credential w2 duplicates token material from credential w1" in
  LoadCredentials (rename_tokens (λ _, "other") example_os) config
    (DefaultCredentialSources (rename_tokens (λ _, "other") example_os)) = Err e.
Proof.
  intros config e. apply (load_errors_hide_tokens (λ _, "other") example_os config e).
  - assert (Ho : ∀ x, occurs example_os x → x = "secret" +:+ LF).
    { intros x [[n H]|[n H]]; [|done]. cbn in H. case_bool_decide; congruence. }
    split.
    + intros x ->%Ho. by vm_compute.
    + by intros x y ->%Ho ->%Ho.
  - vm_compute. reflexivity.
Defined.

(** ** Configuration *)

Record credential_ok (c : Credential) : Prop := {
  co_id : cr_ID c ≠ "";
  co_role : cr_Role c ∈ [RoleClient; RoleWorker; RoleAdmin];
  co_source : cr_TokenEnv c = "" ∧ cr_TokenFile c ≠ "" ∨ cr_TokenEnv c ≠ "" ∧ cr_TokenFile c = "" }.
Record config_ok (config : Config) : Prop := {
  cok_mode : cf_Mode config = ModeDisabled ∨ cf_Mode config = ModeBearer ∧ cf_Credentials config ≠ [];
  cok_ids : NoDup (cr_ID <$> cf_Credentials config);
  cok_credentials : Forall credential_ok (cf_Credentials config) }.

Lemma nonempty_text_Ok name v t : nonempty_text name v = Ok t → t ≠ "".
Proof. unfold nonempty_text. destruct (rv_Value v); try done. case_match eqn:He; [done|].
  intros [= <-]. by apply bool_decide_eq_false in He. Qed.
Lemma optionalStringField_Some fields name t : optionalStringField fields name = Ok (Some t) → t ≠ "".
Proof.
  unfold optionalStringField. case_match; [|done]. intros (u & _ & Hb)%bind_Ok.
  apply fmap_Ok in Hb as (t' & Ht & [= <-]). by eapply nonempty_text_Ok.
Qed.
Lemma optionalPathOrStringField_Some fields name t :
  optionalPathOrStringField fields name = Ok (Some t) → t ≠ "".
Proof.
  unfold optionalPathOrStringField. case_match; [|done]. intros (u & _ & Hb)%bind_Ok.
  apply fmap_Ok in Hb as (t' & Ht & [= <-]). by eapply nonempty_text_Ok.
Qed.
Lemma requiredStringField_Ok fields name t : requiredStringField fields name = Ok t → t ≠ "".
Proof.
  unfold requiredStringField. intros ([t'|] & Ht & H)%bind_Ok; [|done]. injection H as <-.
  by eapply optionalStringField_Some.
Qed.

Lemma credentialFromFields_ok index fields c : credentialFromFields index fields = Ok c → credential_ok c.
Proof.
  unfold credentialFromFields. intros (u & _ & H)%bind_Ok.
  apply bind_Ok in H as (id & Hid%wrap_err_Ok & H). apply bind_Ok in H as (role & Hrole%wrap_err_Ok & H).
  apply bind_Ok in H as (u' & Hv%fail_if_Ok & H). apply bind_Ok in H as (env & Henv%wrap_err_Ok & H).
  apply bind_Ok in H as (file & Hfile%wrap_err_Ok & H). apply bind_Ok in H as (u'' & Hone%fail_if_Ok & H).
  injection H as <-. apply bool_decide_eq_false in Hone. split; cbn [cr_ID cr_Role cr_TokenEnv cr_TokenFile].
  - by eapply requiredStringField_Ok.
  - apply negb_false_iff in Hv. unfold Role_Valid in Hv. apply bool_decide_eq_true in Hv. set_solver.
  - destruct env as [env|], file as [file|]; cbn [default from_option].
    + destruct Hone. by split.
    + right. split; [|done]. by eapply optionalStringField_Some.
    + left. split; [done|]. by eapply optionalPathOrStringField_Some.
    + destruct Hone. by split.
Qed.

Definition credentials_inv (st : list Credential * gset string) : Prop :=
  NoDup (cr_ID <$> st.1) ∧ Forall credential_ok st.1 ∧ ∀ c, c ∈ st.1 → cr_ID c ∈ st.2.
Lemma credential_item_inv name st item st' :
  credentials_inv st → credential_item name st item = Ok st' → credentials_inv st'.
Proof.
  intros (Hnd & Hok & Hin) H. unfold credential_item in H. apply bind_Ok in H as (u & _ & H).
  apply bind_Ok in H as (c & Hc%credentialFromFields_ok & H).
  apply bind_Ok in H as (u' & Hnew%fail_if_Ok & H). injection H as <-.
  apply bool_decide_eq_false in Hnew. unfold credentials_inv. cbn [fst snd]. split_and!.
  - rewrite fmap_app. apply NoDup_app. split_and!; [done| |apply NoDup_singleton].
    intros id (c' & -> & Hc')%list_elem_of_fmap Heq. apply list_elem_of_singleton in Heq.
    apply Hnew. rewrite <- Heq. by apply Hin.
  - apply Forall_app. by split; [|constructor].
  - intros c' [Hc'|Hc']%elem_of_app; [apply Hin in Hc'; set_solver|].
    apply list_elem_of_singleton in Hc' as ->. set_solver.
Qed.

Lemma configFromFields_ok fields config : configFromFields fields = Ok config → config_ok config.
Proof.
  unfold configFromFields. intros (u & _ & H)%bind_Ok. apply bind_Ok in H as (mode & _ & H).
  apply bind_Ok in H as (u' & Hmode%fail_if_Ok & H). apply bind_Ok in H as (creds & Hc & H).
  apply bind_Ok in H as (u'' & Hsome%fail_if_Ok & H). injection H as <-.
  assert (credentials_inv (default [] creds, ∅) ∨ ∃ seen, credentials_inv (default [] creds, seen)) as Hinv.
  { unfold credentialListField in Hc. case_match; [|injection Hc as <-; left; split_and!; [constructor..|];
      intros c Hx; by apply elem_of_nil in Hx].
    apply bind_Ok in Hc as (u0 & _ & Hc). apply bind_Ok in Hc as ([l seen] & Hl & Hc).
    injection Hc as <-. right. exists seen.
    apply (foldM_inv credentials_inv) in Hl; [done| |split_and!; [constructor..|]; set_solver].
    intros st item st' _ Hst. by apply (credential_item_inv "credentials"). }
  apply negb_false_iff, bool_decide_eq_true in Hmode. split; cbn [cf_Mode cf_Credentials].
  - destruct Hmode as [->| ->]; [by left|right]. split; [done|]. rewrite bool_decide_eq_true_2 in Hsome by done.
    by apply bool_decide_eq_false in Hsome.
  - destruct Hinv as [(H & _)|(seen & H & _)]; exact H.
  - destruct Hinv as [(_ & H & _)|(seen & _ & H & _)]; exact H.
Qed.

(** An authentication configuration that is accepted is well formed: a known
    mode, with bearer mode at least one credential, credential ids that are not
    empty and occur once, known roles, and exactly one source of each token. *)
Theorem accepted_configuration_well_formed value config :
  ConfigFromResolved value = Ok config → config_ok config.
Proof. unfold ConfigFromResolved. case_bool_decide; [|done]. apply configFromFields_ok. Qed.

Definition text_value (s : string) : ResolvedValue := plain TypeString (VString s).
Definition credential_value : ResolvedValue :=
  mkRV TypeObject VNil [("id", text_value "w1"); ("role", text_value "worker"); ("token_env", text_value "TOKEN")]
    [] false "" "" None.
Definition authentication_value : ResolvedValue :=
  mkRV TypeObject VNil
    [("mode", text_value "bearer");
     ("credentials", mkRV TypeList VNil [] [credential_value] false "" "" None)] [] false "" "" None.
Lemma accepted_configuration_well_formed_witness : config_ok example_config.
Proof. apply (accepted_configuration_well_formed authentication_value). vm_compute. reflexivity. Defined.

(** The admin role is a superset of the others. *)
Lemma admin_is_permitted method path role :
  permits ControllerPolicy method path role → permits ControllerPolicy method path RoleAdmin.
Proof.
  intros (r & Hr & Hpub & Hm & _). exists r. split_and!; [done..|].
  repeat (apply elem_of_cons in Hr as [->|Hr]; [set_solver|]). by apply elem_of_nil in Hr.
Qed.
