(* ===== verification/WorkerCapacity.v ===== *)
(** * Worker capacity ([cmd/controller/worker_execution.go])

    The controller starts workers when there is claimable work and not enough
    capacity for it.  A start that was requested and has not registered yet is a
    reservation ("in flight"); it counts as capacity until it registers, its launch
    fails, or it expires.  The built-in pattern starts one worker at a time.

    The manager and the launch function are not nil, as in every call of the
    controller.  Launching a worker is the interface [WorkerLauncher]; [W] is whatever the launch
    changes.  Counts are Go [int]s, sums of them wrap.  Lines printed for operators
    are not part of the model. *)

From S2P Require Import Prelude GoTime GoJson GoStrings GoInstant Resource StoreData StoreSQL StoreOps StoreQueries.
From S2P Require Import Variables Expression Functions Resolver.
From S2P Require Import StoreInv StoreFrame StoreLease.
Local Open Scope Z_scope.

(** ** Data *)

Definition workerExecutionPatternOneByOneUntilSaturated : string := "one_by_one_until_saturated".
Definition workerExecutionPatternNull : string := "null".

Record WorkerDemand := mkDemand {
  dm_PendingQueued : Z; dm_PendingClaimable : Z; dm_RunningAttempts : Z; dm_LiveWorkerSessions : Z }.
Record WorkerStartReservation := mkReservation { rs_ID : string; rs_CreatedAt : Instant }.
#[export] Instance WorkerStartReservation_eq_dec : EqDecision WorkerStartReservation.
Proof. solve_decision. Defined.
Record WorkerExecutionState := mkExecState { InflightStarts : list WorkerStartReservation }.
Record WorkerExecutionConfig := mkExecConfig {
  we_Pattern : string; we_MaxActiveWorkers : Z; we_InflightStartTimeout : Duration }.
Record WorkerStartPlan := mkPlan { pn_StartCount : Z; pn_Reason : string }.

(** [WorkerExecutionPattern] *)
Definition WorkerExecutionPattern : Type :=
  Instant → WorkerDemand → WorkerExecutionState → WorkerExecutionConfig → WorkerStartPlan.

(** ** Patterns *)

Definition unexpired (now : Instant) (timeout : Duration) (r : WorkerStartReservation) : bool :=
  Sub now (rs_CreatedAt r) <=? timeout.
Definition UnexpiredInflightStarts (s : WorkerExecutionState) (now : Instant) (timeout : Duration) :
    list WorkerStartReservation :=
  if timeout <=? 0 then InflightStarts s else List.filter (unexpired now timeout) (InflightStarts s).

Definition OneByOneUntilSaturatedPattern : WorkerExecutionPattern := λ now demand state cfg,
  let inflight := Z.of_nat (length (UnexpiredInflightStarts state now (we_InflightStartTimeout cfg))) in
  let desired := wrap64 (dm_RunningAttempts demand + dm_PendingClaimable demand) in
  let desired := if (0 <? we_MaxActiveWorkers cfg) && (we_MaxActiveWorkers cfg <? desired)
                 then we_MaxActiveWorkers cfg else desired in
  let observed := wrap64 (dm_LiveWorkerSessions demand + inflight) in
  let shortfall := wrap64 (desired - observed) in
  if dm_PendingClaimable demand <=? 0 then mkPlan 0 "no_claimable_work" else
  if (0 <? we_MaxActiveWorkers cfg) && (we_MaxActiveWorkers cfg <=? observed)
  then mkPlan 0 "max_active_workers_reached" else
  if shortfall <=? 0 then mkPlan 0 "active_capacity_satisfies_claimable_work" else
  if 0 <? inflight then mkPlan 0 "waiting_for_inflight_start_claim" else
  mkPlan 1 "active_capacity_below_claimable_work".
Definition NullWorkerExecutionPattern : WorkerExecutionPattern := λ _ _ _ _,
  mkPlan 0 "worker_scheduling_disabled".

(** ** The manager *)

(** [pattern] may be nil. *)
Record WorkerCapacityManager := mkManager {
  cm_state : WorkerExecutionState; cm_pattern : option WorkerExecutionPattern; cm_nextID : Z }.
Definition NewWorkerCapacityManager (pattern : option WorkerExecutionPattern) : WorkerCapacityManager :=
  mkManager (mkExecState []) pattern 0.

Definition set_inflight (l : list WorkerStartReservation) (m : WorkerCapacityManager) : WorkerCapacityManager :=
  mkManager (mkExecState l) (cm_pattern m) (cm_nextID m).
Definition inflight (m : WorkerCapacityManager) : list WorkerStartReservation := InflightStarts (cm_state m).

Definition pruneExpiredInflightStarts (now : Instant) (timeout : Duration) (m : WorkerCapacityManager) :
    WorkerCapacityManager :=
  if timeout <=? 0 then m else set_inflight (List.filter (unexpired now timeout) (inflight m)) m.

Definition reservation_id (n : Z) : string := "worker-start-" +:+ pretty n.
(** [for range count] *)
Fixpoint reserve_loop (now : Instant) (count : nat) (m : WorkerCapacityManager)
    (reservations : list WorkerStartReservation) : list WorkerStartReservation * WorkerCapacityManager :=
  match count with
  | O => (reservations, m)
  | S count' =>
      let next := wrap64 (cm_nextID m + 1) in
      let reservation := mkReservation (reservation_id next) now in
      reserve_loop now count'
        (mkManager (mkExecState (inflight m ++ [reservation])) (cm_pattern m) next)
        (reservations ++ [reservation])
  end.
Definition reserveInflightStarts (now : Instant) (count : Z) (m : WorkerCapacityManager) :
    list WorkerStartReservation * WorkerCapacityManager :=
  reserve_loop now (Z.to_nat count) m [].
Definition removeInflightReservations (reservations : list WorkerStartReservation)
    (m : WorkerCapacityManager) : WorkerCapacityManager :=
  let remove := rs_ID <$> reservations in
  set_inflight (List.filter (λ r, negb (bool_decide (rs_ID r ∈ remove))) (inflight m)) m.

Definition patternForConfig (m : WorkerCapacityManager) (pattern : string) : result WorkerExecutionPattern :=
  if bool_decide (pattern = workerExecutionPatternOneByOneUntilSaturated)
  then Ok (default OneByOneUntilSaturatedPattern (cm_pattern m)) else
  if bool_decide (pattern = workerExecutionPatternNull) then Ok NullWorkerExecutionPattern else
  Err (Errorf ("unsupported worker execution pattern " +:+ pattern)).

(** [launchFn]: request this many starts. *)
Class WorkerLauncher (W : Type) := StartWorkers : Z → W → result unit * W.

Section evaluation.
Context {W : Type} {launcher : WorkerLauncher W}.

(** The plan is returned also when the launch fails: a plan and an optional error. *)
Definition Evaluation : Type := WorkerStartPlan * option GoError.
Definition no_plan : WorkerStartPlan := mkPlan 0 "".

Definition EvaluateDemand (now : Instant) (cfg : WorkerExecutionConfig) (demand : WorkerDemand)
    (m : WorkerCapacityManager) (w : W) : Evaluation * WorkerCapacityManager * W :=
  let name := if is_empty (we_Pattern cfg) then workerExecutionPatternOneByOneUntilSaturated
              else we_Pattern cfg in
  let cfg := mkExecConfig name (we_MaxActiveWorkers cfg) (we_InflightStartTimeout cfg) in
  match patternForConfig m name with
  | Err e => ((no_plan, Some e), m, w)
  | Ok pattern =>
      let m := pruneExpiredInflightStarts now (we_InflightStartTimeout cfg) m in
      let plan := pattern now demand (cm_state m) cfg in
      if pn_StartCount plan <=? 0 then ((plan, None), m, w) else
      let '(reservations, m) := reserveInflightStarts now (pn_StartCount plan) m in
      match StartWorkers (pn_StartCount plan) w with
      | (Err e, w) => ((plan, Some e), removeInflightReservations reservations m, w)
      | (Ok _, w) => ((plan, None), m, w)
      end
  end.
(** The demand is read before the manager is locked. *)
Definition Evaluate (now : Instant) (cfg : WorkerExecutionConfig) (demandFn : W → result WorkerDemand)
    (m : WorkerCapacityManager) (w : W) : Evaluation * WorkerCapacityManager * W :=
  match demandFn w with
  | Err e => ((no_plan, Some e), m, w)
  | Ok demand => EvaluateDemand now cfg demand m w
  end.
End evaluation.

Definition PruneExpiredInflightStarts := pruneExpiredInflightStarts.
Definition ConfirmOldestInflightStartRegistered (m : WorkerCapacityManager) : bool * WorkerCapacityManager :=
  match inflight m with
  | [] => (false, m)
  | _ :: rest => (true, set_inflight rest m)
  end.
Definition Snapshot (m : WorkerCapacityManager) : WorkerExecutionState := mkExecState (inflight m).

(** ** Demand, from the store *)

Definition check_of (check : QueuedResourceConstraintCheckRecord) : ResourceConstraintCheck :=
  mkCheck (qc_TotalUnits check) (qc_RequestedUnits check) (qc_Operator check) (qc_TargetUnits check).
(** [checksByWorkItem] *)
Definition group_check (queuedIDs : gset string) (acc : gmap string (list ResourceConstraintCheck))
    (check : QueuedResourceConstraintCheckRecord) : gmap string (list ResourceConstraintCheck) :=
  if bool_decide (qc_WorkItemID check ∈ queuedIDs)
  then <[qc_WorkItemID check := default [] (acc !! qc_WorkItemID check) ++ [check_of check]]> acc
  else acc.
Definition count_blocked (blocked : Z) (item : string * list ResourceConstraintCheck) : result Z :=
  allowed ← wrap_err ("evaluate resource constraints for " +:+ item.1)
    (ResourceConstraintChecksAllow item.2);
  Ok (if (allowed : bool) then blocked else blocked + 1).

Definition workerDemand (store : option Store) (now : Instant) (deadAfter : Duration) :
    result WorkerDemand :=
  match store with
  | None => Err (Errorf "workflow store required")
  | Some s =>
      queued ← wrap_err "list queued work" (ListQueuedWorkItems s);
      running ← wrap_err "list running work" (ListRunningWork s);
      checks ← wrap_err "list queued resource constraint checks" (ListQueuedResourceConstraintChecks s);
      live ← (if 0 <? deadAfter
              then wrap_err "list live worker sessions"
                     (ListLiveWorkerSessions (at_UTC (Add now (- deadAfter))) s)
              else Ok []);
      let queuedIDs : gset string := list_to_set ((λ q, wi_ID (qw_WorkItem q)) <$> queued) in
      let checksByWorkItem := foldl (group_check queuedIDs) ∅ checks in
      blocked ← foldM count_blocked 0 (map_to_list checksByWorkItem);
      Ok (mkDemand (Z.of_nat (length queued)) (Z.of_nat (length queued) - blocked)
            (Z.of_nat (length running)) (Z.of_nat (length live)))
  end.

(** ** Configuration *)

(** A variable read with a fallback: any error of resolving it selects the fallback. *)
Definition variable_or_fallback {A} (resolver : Resolver) (name : string) (fallback : A)
    (read : ResolvedValue → result A) : result A :=
  reference ← ParseReference name;
  match Resolve resolver reference with
  | Err _ => Ok fallback
  | Ok value => read value
  end.
Definition want_type (name : string) (value : ResolvedValue) (ty : VType) (want : string) : result unit :=
  fail_if (negb (bool_decide (rv_Type value = ty)))
    (Errorf (name +:+ " has type " +:+ Type_String (rv_Type value) +:+ ", want " +:+ want)).
Definition required_variable_text (name : string) (value : ResolvedValue) : result string :=
  match rv_Value value with
  | VString text => if is_empty text then Err (Errorf (name +:+ " is required")) else Ok text
  | _ => Err (Errorf (name +:+ " is required"))
  end.
Definition optionalStringVariableWithFallback (resolver : Resolver) (name fallback : string) : result string :=
  variable_or_fallback resolver name fallback (λ value,
    want_type name value TypeString "string";; required_variable_text name value).
Definition optionalIntVariable (resolver : Resolver) (name : string) (fallback : Z) : result Z :=
  variable_or_fallback resolver name fallback (λ value,
    want_type name value TypeInt "int";;
    match rv_Value value with VInt number => Ok number | _ => Err (Errorf (name +:+ " must be an int")) end).
Definition optionalDurationVariable (resolver : Resolver) (name : string) (fallback : Duration) :
    result Duration :=
  variable_or_fallback resolver name fallback (λ value,
    want_type name value TypeString "string";;
    text ← required_variable_text name value;
    wrap_err ("parse " +:+ name) (ParseDuration text)).

Definition defaultWorkerExecutionConfig : WorkerExecutionConfig :=
  mkExecConfig workerExecutionPatternOneByOneUntilSaturated 2 (5 * Minute).
Definition workerExecutionConfig (resolver : Resolver) (defaults : WorkerExecutionConfig) :
    result WorkerExecutionConfig :=
  pattern ← optionalStringVariableWithFallback resolver "worker_execution_pattern" (we_Pattern defaults);
  maximum ← optionalIntVariable resolver "worker_max_active" (we_MaxActiveWorkers defaults);
  timeout ← optionalDurationVariable resolver "worker_inflight_start_timeout" (we_InflightStartTimeout defaults);
  fail_if (timeout <? 0) (Errorf "worker_inflight_start_timeout must be non-negative");;
  Ok (mkExecConfig pattern maximum timeout).

(** [config.go] *)
Record WorkerHeartbeatPolicy := mkHeartbeatPolicy { HeartbeatInterval : Duration; DeadAfter : Duration }.
Definition defaultWorkerHeartbeatPolicy : WorkerHeartbeatPolicy := mkHeartbeatPolicy Minute (5 * Minute).
Definition validateWorkerHeartbeatPolicy (policy : WorkerHeartbeatPolicy) : result unit :=
  fail_if (HeartbeatInterval policy <=? 0) (Errorf "worker_heartbeat_interval must be greater than zero");;
  fail_if (DeadAfter policy <=? HeartbeatInterval policy)
    (Errorf "worker_dead_after must be greater than worker_heartbeat_interval");;
  fail_if (DeadAfter policy <? wrap64 (2 * HeartbeatInterval policy))
    (Errorf "worker_dead_after must be at least twice worker_heartbeat_interval").
Definition workerHeartbeatPolicyConfig (resolver : Resolver) (defaults : WorkerHeartbeatPolicy) :
    result WorkerHeartbeatPolicy :=
  interval ← optionalDurationVariable resolver "worker_heartbeat_interval" (HeartbeatInterval defaults);
  dead ← optionalDurationVariable resolver "worker_dead_after" (DeadAfter defaults);
  validateWorkerHeartbeatPolicy (mkHeartbeatPolicy interval dead);;
  Ok (mkHeartbeatPolicy interval dead).

(** * What the capacity manager guarantees

    Exactly when it requests a start, what it records, that it never has more than
    one start in flight, and the bound on workers that follows, together with the
    interleaving that breaks the bound because the demand is read before the manager
    is locked. *)
Local Open Scope Z_scope.

(** The reservations that still count. *)
Definition pruned (now : Instant) (timeout : Duration) (m : WorkerCapacityManager) :
    list WorkerStartReservation := inflight (pruneExpiredInflightStarts now timeout m).

(** Counts small enough that no sum of them wraps. *)
Record small_demand (d : WorkerDemand) : Prop := {
  sd_claimable : 0 ≤ dm_PendingClaimable d ≤ 2 ^ 60;
  sd_running : 0 ≤ dm_RunningAttempts d ≤ 2 ^ 60;
  sd_live : 0 ≤ dm_LiveWorkerSessions d ≤ 2 ^ 60 }.

(** The condition of a start. *)
Definition needs_worker (cfg : WorkerExecutionConfig) (d : WorkerDemand)
    (reserved : list WorkerStartReservation) : Prop :=
  0 < dm_PendingClaimable d ∧ reserved = [] ∧
  dm_LiveWorkerSessions d < dm_RunningAttempts d + dm_PendingClaimable d ∧
  (0 < we_MaxActiveWorkers cfg → dm_LiveWorkerSessions d < we_MaxActiveWorkers cfg).
#[export] Instance needs_worker_dec cfg d reserved : Decision (needs_worker cfg d reserved).
Proof. unfold needs_worker. apply _. Defined.

Lemma filter_filter_same {A} (f : A → bool) l : List.filter f (List.filter f l) = List.filter f l.
Proof. induction l as [|x l IH]; simpl; [done|]. destruct (f x) eqn:Hf; simpl; [|done]. by rewrite Hf, IH. Qed.

Lemma unexpired_pruned now timeout m :
  UnexpiredInflightStarts (cm_state (pruneExpiredInflightStarts now timeout m)) now timeout
  = pruned now timeout m.
Proof.
  unfold UnexpiredInflightStarts, pruned, pruneExpiredInflightStarts. destruct (timeout <=? 0); [done|].
  cbn [set_inflight cm_state InflightStarts inflight]. apply filter_filter_same.
Qed.

(** The built-in pattern starts one worker or none, exactly under that condition. *)
Lemma one_by_one_plan now d state cfg :
  small_demand d →
  pn_StartCount (OneByOneUntilSaturatedPattern now d state cfg) =
  if decide (needs_worker cfg d (UnexpiredInflightStarts state now (we_InflightStartTimeout cfg)))
  then 1 else 0.
Proof.
  intros [Hc Hr Hl]. unfold OneByOneUntilSaturatedPattern, needs_worker.
  set (res := UnexpiredInflightStarts _ _ _). set (M := we_MaxActiveWorkers cfg).
  rewrite (wrap64_id (dm_RunningAttempts d + _)) by (unfold int64, MinInt64, MaxInt64; lia).
  destruct res as [|r res].
  - cbn [length Z.of_nat]. rewrite Z.add_0_r, wrap64_id by (unfold int64, MinInt64, MaxInt64; lia).
    set (desired := if _ && _ then M else _).
    assert (Hd : desired = if decide (0 < M ∧ M < dm_RunningAttempts d + dm_PendingClaimable d) then M
                           else dm_RunningAttempts d + dm_PendingClaimable d)
      by (unfold desired; repeat case_decide; destruct (Z.ltb_spec 0 M), (Z.ltb_spec M
            (dm_RunningAttempts d + dm_PendingClaimable d)); simpl; lia).
    rewrite wrap64_id by (rewrite Hd; unfold int64, MinInt64, MaxInt64; case_decide; lia).
    destruct (Z.leb_spec (dm_PendingClaimable d) 0); [rewrite decide_False by lia; done|].
    destruct (Z.ltb_spec 0 M), (Z.leb_spec M (dm_LiveWorkerSessions d)); cbn [andb];
      try (rewrite decide_False by lia; done);
      (destruct (Z.leb_spec (desired - dm_LiveWorkerSessions d) 0); cbn [pn_StartCount Z.ltb Z.compare];
        [rewrite decide_False; [done|]; intros (? & _ & ? & ?); revert Hd; case_decide; lia
        |rewrite decide_True; [done|]; revert Hd; case_decide; intuition lia]).
  - rewrite decide_False by (by intros (_ & ? & _)).
    replace (0 <? Z.of_nat (length (r :: res))) with true by (symmetry; apply Z.ltb_lt; cbn [length]; lia).
    repeat case_match; done.
Qed.

Definition built_in (m : WorkerCapacityManager) : Prop := cm_pattern m = None.
Definition one_by_one (cfg : WorkerExecutionConfig) : Prop :=
  we_Pattern cfg = "" ∨ we_Pattern cfg = workerExecutionPatternOneByOneUntilSaturated.

Section evaluate.
Context {W : Type} {launcher : WorkerLauncher W}.

(** With the built-in pattern, a worker is started exactly when there is claimable
    work, no unexpired start is in flight, and the live sessions are fewer than the
    running attempts plus the claimable items and than the configured maximum; then
    one start is requested and one reservation recorded, which a failing launch takes
    back.  Otherwise only the expired reservations are dropped. *)
Theorem EvaluateDemand_exact now cfg d m w :
  small_demand d → built_in m → one_by_one cfg → 0 ≤ cm_nextID m < MaxInt64 →
  let reserved := pruned now (we_InflightStartTimeout cfg) m in
  EvaluateDemand now cfg d m w =
  if decide (needs_worker cfg d reserved) then
    let next := cm_nextID m + 1 in
    let '(r, w') := StartWorkers 1 w in
    ((mkPlan 1 "active_capacity_below_claimable_work", match r with Ok _ => None | Err e => Some e end),
     mkManager (mkExecState match r with Ok _ => [mkReservation (reservation_id next) now] | Err _ => [] end)
       None next, w')
  else ((mkPlan 0 (pn_Reason (OneByOneUntilSaturatedPattern now d
           (cm_state (pruneExpiredInflightStarts now (we_InflightStartTimeout cfg) m)) cfg)), None),
        mkManager (mkExecState reserved) None (cm_nextID m), w).
Proof.
  intros Hd Hm Hcfg Hn reserved.
  assert (Hpat : patternForConfig m (if is_empty (we_Pattern cfg)
    then workerExecutionPatternOneByOneUntilSaturated else we_Pattern cfg) = Ok OneByOneUntilSaturatedPattern).
  { unfold built_in in Hm. unfold patternForConfig. rewrite Hm. by destruct Hcfg as [-> | ->]. }
  unfold EvaluateDemand. rewrite Hpat. cbn [we_InflightStartTimeout we_MaxActiveWorkers].
  set (name := if is_empty _ then _ else _). set (cfg' := mkExecConfig name _ _).
  set (m1 := pruneExpiredInflightStarts now (we_InflightStartTimeout cfg) m).
  assert (Hm1 : m1 = mkManager (mkExecState reserved) None (cm_nextID m)).
  { unfold built_in in Hm. unfold m1, reserved, pruned, pruneExpiredInflightStarts. destruct m as [[l] pat n].
    simpl in Hm. subst pat. destruct (_ <=? 0); done. }
  change (OneByOneUntilSaturatedPattern now d (cm_state m1) cfg')
    with (OneByOneUntilSaturatedPattern now d (cm_state m1) cfg).
  set (plan := OneByOneUntilSaturatedPattern now d (cm_state m1) cfg).
  pose proof (one_by_one_plan now d (cm_state m1) cfg Hd) as Hplan. fold plan in Hplan.
  unfold m1 in Hplan. rewrite unexpired_pruned in Hplan. fold m1 reserved in Hplan.
  destruct (decide (needs_worker cfg d reserved)) as [Hneed|Hneed].
  - assert (Hp : plan = mkPlan 1 "active_capacity_below_claimable_work").
    { revert Hplan. unfold plan, OneByOneUntilSaturatedPattern. repeat case_match; done. }
    rewrite Hp. cbn [pn_StartCount Z.leb Z.compare].
    destruct Hneed as (_ & Hres & _). rewrite Hm1, Hres.
    unfold reserveInflightStarts. change (Z.to_nat 1) with 1%nat. cbn [reserve_loop].
    cbn [cm_nextID inflight cm_state InflightStarts cm_pattern app].
    rewrite wrap64_id by (unfold int64, MinInt64; lia).
    destruct (StartWorkers 1 w) as [[u|e] w']; [done|]. f_equal. f_equal.
    unfold removeInflightReservations, set_inflight. cbn [cm_pattern cm_nextID]. f_equal. f_equal.
    cbn [inflight cm_state InflightStarts fmap list_fmap List.filter rs_ID].
    by rewrite bool_decide_eq_true_2 by (by apply list_elem_of_singleton).
  - rewrite Hplan. cbn [Z.leb Z.compare]. rewrite Hm1. f_equal. f_equal. f_equal.
    unfold plan in *. destruct (OneByOneUntilSaturatedPattern now d (cm_state m1) cfg) as [n reason].
    cbn [pn_StartCount pn_Reason] in *. by subst n.
Qed.
End evaluate.

(** A launcher that always succeeds or always fails. *)
Definition counting_launcher (ok : bool) : WorkerLauncher Z := λ n w,
  (if ok then Ok tt else Err (Errorf "no capacity"), w + n).
Lemma EvaluateDemand_exact_witness :
  @EvaluateDemand Z (counting_launcher true) 1000 (mkExecConfig "" 2 0) (mkDemand 3 3 0 1)
    (NewWorkerCapacityManager None) 0
  = ((mkPlan 1 "active_capacity_below_claimable_work", None),
     mkManager (mkExecState [mkReservation "worker-start-1" 1000]) None 1, 1).
Proof.
  refine (eq_trans (@EvaluateDemand_exact Z (counting_launcher true) 1000 (mkExecConfig "" 2 0)
    (mkDemand 3 3 0 1) (NewWorkerCapacityManager None) 0 _ _ _ _) _).
  - split; cbn; lia.
  - reflexivity.
  - left. reflexivity.
  - vm_compute. split; [discriminate|reflexivity].
  - vm_compute. reflexivity.
Defined.

(** ** Histories of a manager *)

(** What evaluations, expiry and registrations do, in any order. *)
Inductive manager_step : relation WorkerCapacityManager :=
  | step_evaluate {W} (launcher : WorkerLauncher W) now cfg d m w ev m' w' :
      EvaluateDemand now cfg d m w = (ev, m', w') → manager_step m m'
  | step_prune now timeout m : manager_step m (PruneExpiredInflightStarts now timeout m)
  | step_confirm m b m' : ConfirmOldestInflightStartRegistered m = (b, m') → manager_step m m'.

Lemma filter_length_le {A} (f : A → bool) l : (length (List.filter f l) ≤ length l)%nat.
Proof. induction l as [|x l IH]; simpl; [done|]. destruct (f x); simpl; lia. Qed.
Lemma prune_spec now timeout m :
  cm_pattern (pruneExpiredInflightStarts now timeout m) = cm_pattern m ∧
  (length (inflight (pruneExpiredInflightStarts now timeout m)) ≤ length (inflight m))%nat.
Proof.
  unfold pruneExpiredInflightStarts. destruct (_ <=? 0); [done|]. split; [done|].
  cbn [set_inflight inflight cm_state InflightStarts]. apply filter_length_le.
Qed.

Lemma one_by_one_start now d state cfg :
  0 < pn_StartCount (OneByOneUntilSaturatedPattern now d state cfg) →
  pn_StartCount (OneByOneUntilSaturatedPattern now d state cfg) = 1 ∧
  UnexpiredInflightStarts state now (we_InflightStartTimeout cfg) = [].
Proof.
  unfold OneByOneUntilSaturatedPattern.
  destruct (UnexpiredInflightStarts state now (we_InflightStartTimeout cfg)) as [|r l]; [repeat case_match; done|].
  replace (0 <? Z.of_nat (length (r :: l))) with true by (symmetry; apply Z.ltb_lt; cbn [length]; lia).
  repeat case_match; cbn [pn_StartCount]; lia.
Qed.

Definition manager_inv (m : WorkerCapacityManager) : Prop :=
  built_in m ∧ (length (inflight m) ≤ 1)%nat.

Lemma EvaluateDemand_inv {W} {launcher : WorkerLauncher W} now cfg d m w ev m' w' :
  manager_inv m → EvaluateDemand now cfg d m w = (ev, m', w') → manager_inv m'.
Proof.
  intros [Hb Hl]. unfold EvaluateDemand. set (cfg' := mkExecConfig _ _ _).
  destruct (patternForConfig m _) as [pattern|e] eqn:Hpat; [|by intros [= <- <- <-]].
  change (we_InflightStartTimeout cfg') with (we_InflightStartTimeout cfg).
  set (timeout := we_InflightStartTimeout cfg). set (m1 := pruneExpiredInflightStarts now timeout m).
  destruct (prune_spec now timeout m) as [Hp1 Hl1]. fold m1 in Hp1, Hl1.
  destruct (Z.leb_spec (pn_StartCount (pattern now d (cm_state m1) cfg')) 0) as [Hs|Hs];
    [intros [= <- <- <-]; split; [by unfold built_in; rewrite Hp1|lia]|].
  assert (pn_StartCount (pattern now d (cm_state m1) cfg') = 1 ∧ inflight m1 = []) as [Hone Hnil].
  { unfold built_in in Hb. unfold patternForConfig in Hpat. rewrite Hb in Hpat.
    case_bool_decide; [injection Hpat as <-|case_bool_decide; [injection Hpat as <-|done]].
    - destruct (one_by_one_start now d (cm_state m1) cfg' Hs) as [H1 H2]. split; [done|].
      cbn [cfg' we_InflightStartTimeout] in H2. unfold m1 in H2. by rewrite unexpired_pruned in H2.
    - cbn in Hs. lia. }
  rewrite Hone. unfold reserveInflightStarts. change (Z.to_nat 1) with 1%nat. cbn [reserve_loop].
  rewrite Hnil. cbn [app].
  destruct (StartWorkers 1 w) as [[u|e] w1]; intros [= <- <- <-]; (split; [by unfold built_in; simpl; rewrite Hp1|]).
  - done.
  - unfold removeInflightReservations. cbn [set_inflight inflight cm_state InflightStarts].
    etransitivity; [apply filter_length_le|done].
Qed.

(** C32: Whatever the order of evaluations, expiries and registrations, the manager
    of the controller never has more than one worker start in flight. *)
Theorem at_most_one_start_in_flight m :
  rtc manager_step (NewWorkerCapacityManager None) m → (length (inflight m) ≤ 1)%nat.
Proof.
  intros Hr. enough (manager_inv m) as [_ H] by done.
  refine (rtc_ind_r manager_inv (NewWorkerCapacityManager None) _ _ m Hr); [split; simpl; [done|lia]|].
  intros m1 m2 _ Hstep [Hb Hl]. destruct Hstep as [W launcher now cfg d m1 w ev m2 w' He|now timeout m1|m1 b m2 Hc].
  - by eapply EvaluateDemand_inv.
  - destruct (prune_spec now timeout m1) as [Hp Hn]. unfold PruneExpiredInflightStarts.
    split; [by unfold built_in; rewrite Hp|lia].
  - unfold ConfirmOldestInflightStartRegistered in Hc. destruct (inflight m1) as [|r l] eqn:Hi; injection Hc as <- <-.
    + split; [done|]. by rewrite Hi.
    + split; [done|]. cbn [set_inflight inflight cm_state InflightStarts]. simpl in Hl. lia.
Qed.

Definition started_once : WorkerCapacityManager :=
  (@EvaluateDemand Z (counting_launcher true) 5 (mkExecConfig "" 0 0) (mkDemand 9 9 0 0)
     (NewWorkerCapacityManager None) 0).1.2.
Lemma at_most_one_start_in_flight_witness : (length (inflight started_once) ≤ 1)%nat.
Proof.
  apply at_most_one_start_in_flight. apply rtc_once.
  apply (@step_evaluate Z (counting_launcher true) 5 (mkExecConfig "" 0 0) (mkDemand 9 9 0 0) _ 0
    (mkPlan 1 "active_capacity_below_claimable_work", None) _ 1).
  vm_compute. reflexivity.
Defined.

(** ** A registration between the reading of the demand and the evaluation *)

Definition race_now : Instant := instant (mkTime 2026 1 1 0 0 20 0 0).
Definition race_config : WorkerExecutionConfig := mkExecConfig "" 1 (5 * Minute).
Definition race_before : DB := run_ops demo_engine (demo_catalog ++ [demo_submit]) emptyDB.
Definition race_after : DB := run_op demo_engine (demo_session "w1" "s1") race_before.
Definition race_demand (db : DB) : result WorkerDemand :=
  workerDemand (Some (Some db)) race_now (5 * Minute).
(** The manager after the first start. *)
Definition race_started : WorkerCapacityManager :=
  mkManager (mkExecState [mkReservation "worker-start-1" race_now]) None 1.

(** A registration adds one live session to the demand and changes nothing else of it. *)
Definition one_more_session (d : WorkerDemand) : WorkerDemand :=
  mkDemand (dm_PendingQueued d) (dm_PendingClaimable d) (dm_RunningAttempts d) (dm_LiveWorkerSessions d + 1).
Lemma live_sessions_insert e e' id row cutoff :
  worker_sessions e !! id = None → worker_sessions e' = <[id := row]> (worker_sessions e) →
  sr_status row = WorkerSessionStatusActive → str_leb cutoff (sr_last_heartbeat_at row) = true →
  length (listWorkerSessionsByHeartbeat e' true cutoff) = S (length (listWorkerSessionsByHeartbeat e true cutoff)).
Proof.
  intros Hnew He' Hact Hlive. unfold listWorkerSessionsByHeartbeat, table_rows. rewrite He'.
  rewrite !(Permutation_length (order_by_perm _ _)), !length_fmap.
  set (f := λ kv : string * session_row, _).
  assert (length (List.filter f (map_to_list (<[id:=row]> (worker_sessions e)))) =
          length (List.filter f ((id, row) :: map_to_list (worker_sessions e)))) as ->.
  { apply Permutation_length. generalize (map_to_list_insert _ _ row Hnew). generalize (map_to_list (<[id:=row]> (worker_sessions e))).
    generalize ((id, row) :: map_to_list (worker_sessions e)). clear. intros l l' HP. induction HP; cbn [List.filter];
      repeat case_match; try done; try (by constructor); by etransitivity. }
  cbn [List.filter]. unfold f at 1. cbn [fst snd]. by rewrite bool_decide_eq_true_2, Hlive.
Qed.
Lemma registration_demand eng request db session db' now deadAfter d :
  worker_sessions (exec db) !! reg_SessionID request = None →
  RegisterWorkerSession eng request (Some db) = (Ok session, Some db') →
  0 < deadAfter → str_leb (format_rfc3339nano (at_UTC (Add now (- deadAfter)))) (reg_RegisteredAt request) = true →
  workerDemand (Some (Some db)) now deadAfter = Ok d →
  workerDemand (Some (Some db')) now deadAfter = Ok (one_more_session d).
Proof.
  intros Hnew Hreg Hdead Hlive Hd. unfold RegisterWorkerSession, transact in Hreg.
  destruct (validate_register request); [|done]. unfold on_exec_tx, tx_register, getWorkerSessionByID in Hreg.
  rewrite Hnew in Hreg. cbn [fmap option_fmap option_map] in Hreg. set (row := mkSessionRow _ _ _ _ _ _ _) in Hreg.
  unfold insert_worker_session in Hreg.
  destruct (checked _ _ _ _ _) as [u|]; cbn [mbind result_bind wrap_err] in Hreg; [|done]. injection Hreg as _ <-.
  set (e1 := insert_worker_if_absent _ _ _).
  assert (∃ ws, e1 = set_workers ws (exec db)) as [ws Hws].
  { unfold e1, insert_worker_if_absent. destruct (workers (exec db) !! _); [|by eexists]. exists (workers (exec db)).
    by destruct (exec db). }
  rewrite Hws. clear e1 Hws. revert Hd. unfold workerDemand. rewrite (proj2 (Z.ltb_lt _ _) Hdead).
  unfold ListQueuedWorkItems, ListRunningWork, ListQueuedResourceConstraintChecks, ListLiveWorkerSessions, query.
  cbn [mbind result_bind wrap_err exec].
  set (cutoff := format_rfc3339nano _). set (e2 := set_worker_sessions _ _).
  pose proof (live_sessions_insert (exec db) e2 _ row cutoff Hnew eq_refl eq_refl Hlive) as Hn.
  change (listQueuedWorkForClaim e2) with (listQueuedWorkForClaim (exec db)).
  change (λ kv : string * running_row, scanRunningWork e2 kv.1 kv.2) with (λ kv : string * running_row, scanRunningWork (exec db) kv.1 kv.2).
  change (running_work e2) with (running_work (exec db)).
  change (append_check_record e2) with (append_check_record (exec db)).
  change (work_item_resource_constraints e2) with (work_item_resource_constraints (exec db)).
  destruct (foldM (append_check_record (exec db)) _ _) as [rows|]; cbn [mbind result_bind wrap_err]; [|done].
  destruct (foldM count_blocked 0 _) as [blocked|]; cbn [mbind result_bind]; [|done]. intros [= <-]. rewrite Hn.
  unfold one_more_session. cbn. do 2 f_equal. lia.
Qed.

(** C33: The maximum of active workers is exceeded by a registration that falls between the
    reading of the demand and its evaluation.  Let the demand ask for the configured maximum of
    workers, one of them missing and its start in flight.  The caretaker reads the demand; a new
    session registers, and its reservation is confirmed; the evaluation of the demand that was
    read then requests another start, so that the live sessions and the starts in flight are
    one more than the maximum.  With the demand as it is after the registration no start is
    requested. *)
Theorem registration_race_exceeds_maximum {W} {launcher : WorkerLauncher W}
    eng request db session db' now deadAfter cfg d m r w w' :
  worker_sessions (exec db) !! reg_SessionID request = None →
  RegisterWorkerSession eng request (Some db) = (Ok session, Some db') →
  0 < deadAfter → str_leb (format_rfc3339nano (at_UTC (Add now (- deadAfter)))) (reg_RegisteredAt request) = true →
  workerDemand (Some (Some db)) now deadAfter = Ok d → small_demand d → dm_LiveWorkerSessions d < 2 ^ 60 →
  built_in m → one_by_one cfg → 0 ≤ cm_nextID m < MaxInt64 → inflight m = [r] →
  0 < dm_PendingClaimable d → dm_LiveWorkerSessions d + 1 = we_MaxActiveWorkers cfg →
  we_MaxActiveWorkers cfg ≤ dm_RunningAttempts d + dm_PendingClaimable d →
  StartWorkers 1 w = (Ok tt, w') →
  ∃ d' m1 m2, workerDemand (Some (Some db')) now deadAfter = Ok d' ∧
    ConfirmOldestInflightStartRegistered m = (true, m1) ∧
    EvaluateDemand now cfg d m1 w = ((mkPlan 1 "active_capacity_below_claimable_work", None), m2, w') ∧
    dm_LiveWorkerSessions d' + Z.of_nat (length (inflight m2)) = we_MaxActiveWorkers cfg + 1 ∧
    pn_StartCount (EvaluateDemand now cfg d' m1 w).1.1.1 = 0.
Proof.
  intros Hnew Hreg Hdead Hlive Hd Hsmall Hbound Hm Hcfg Hid Hr Hclaim Hmax Hwork Hstart.
  set (m1 := set_inflight [] m). assert (built_in m1) as Hm1 by exact Hm.
  assert (pruned now (we_InflightStartTimeout cfg) m1 = []) as Hpruned
    by (unfold pruned, pruneExpiredInflightStarts; by destruct (_ <=? 0)).
  exists (one_more_session d), m1, (mkManager (mkExecState [mkReservation (reservation_id (cm_nextID m + 1)) now]) None (cm_nextID m + 1)).
  split; [by eapply registration_demand|]. split; [unfold ConfirmOldestInflightStartRegistered; by rewrite Hr|].
  rewrite !EvaluateDemand_exact, Hpruned by (done || (destruct Hsmall; split; unfold one_more_session; cbn [dm_PendingClaimable dm_RunningAttempts dm_LiveWorkerSessions]; lia)).
  split_and!.
  - rewrite decide_True by (split_and!; [done..|lia|lia]). by rewrite Hstart.
  - unfold one_more_session. cbn [dm_LiveWorkerSessions inflight cm_state InflightStarts length]. lia.
  - rewrite decide_False; [done|]. intros (_ & _ & _ & H). unfold one_more_session in H. cbn [dm_LiveWorkerSessions] in H.
    destruct Hsmall as [_ _ Hl]. lia.
Qed.
Definition race_request : RegisterWorkerSessionRequest := mkRegister "w1" "s1" "2026-01-01T00:00:10Z" "".
Lemma registration_race_exceeds_maximum_witness :
  ∃ d d' m1 m2, race_demand race_before = Ok d ∧ race_demand race_after = Ok d' ∧
    ConfirmOldestInflightStartRegistered race_started = (true, m1) ∧
    @EvaluateDemand Z (counting_launcher true) race_now race_config d m1 1
      = ((mkPlan 1 "active_capacity_below_claimable_work", None), m2, 2) ∧
    dm_LiveWorkerSessions d' + Z.of_nat (length (inflight m2)) = 2.
Proof.
  destruct (is_Ok_exists (race_demand race_before)) as [d Hd]; [vm_compute; reflexivity|].
  assert (d = mkDemand 2 2 0 0) as Ed by (vm_compute in Hd; congruence).
  destruct (@registration_race_exceeds_maximum Z (counting_launcher true) demo_engine race_request race_before
    (mkSession "s1" "w1" WorkerSessionStatusActive "2026-01-01T00:00:10Z" "2026-01-01T00:00:10Z" "" "" "") race_after
    race_now (5 * Minute) race_config d race_started (mkReservation "worker-start-1" race_now) 1 2)
    as (d' & m1 & m2 & H1 & H2 & H3 & H4 & _).
  - vm_compute. reflexivity.
  - vm_compute. reflexivity.
  - vm_compute. reflexivity.
  - vm_compute. reflexivity.
  - exact Hd.
  - rewrite Ed. split; vm_compute; split; discriminate.
  - rewrite Ed. vm_compute. reflexivity.
  - reflexivity.
  - left. reflexivity.
  - split; [vm_compute; discriminate|vm_compute; reflexivity].
  - reflexivity.
  - rewrite Ed. reflexivity.
  - rewrite Ed. reflexivity.
  - rewrite Ed. vm_compute. discriminate.
  - reflexivity.
  - exists d, d', m1, m2. split; [exact Hd|]. split; [exact H1|]. split; [exact H2|]. split; [exact H3|]. exact H4.
Defined.
