(* ===== verification/Caretaker.v ===== *)
(** * The caretaker ([cmd/controller/caretaker.go])

    A loop of the controller that recovers expired worker sessions and starts
    workers.  It sleeps until it is signalled or a timer fires, reconciles, and
    computes when it must look again.

    What it reads and changes is behind two interfaces, [CareTakerStateSource] and
    [WorkerLauncher]; the controller's instance of the first is the store.  Source,
    launcher and manager are not nil, as [startCareTaker] makes them.  Lines printed
    for operators are not part of the model. *)

From S2P Require Import Prelude GoTime GoStrings GoInstant Resource StoreData StoreSQL StoreOps StoreQueries.
From S2P Require Import Variables Expression Functions Resolver WorkerCapacity.
From S2P Require Import StoreInv StoreFrame StoreLease StoreRecovery.
Local Open Scope Z_scope.

(** ** Data *)

Record WorkerCapacitySnapshot := mkSnapshot {
  sn_PendingQueued : Z; sn_PendingClaimable : Z; sn_RunningAttempts : Z; sn_LiveWorkerSessions : Z;
  sn_EarliestHeartbeat : Instant }.
Definition no_snapshot : WorkerCapacitySnapshot := mkSnapshot 0 0 0 0 zeroTime.
Record WorkerRecoverySummary := mkSummary {
  sm_ExpiredSessions : Z; sm_AbandonedAttempts : Z; sm_RequeuedWorkItems : Z }.
Definition no_summary : WorkerRecoverySummary := mkSummary 0 0 0.
Record CareTakerNextWake := mkWake { nw_At : Instant; nw_Reason : string }.
Definition no_wake : CareTakerNextWake := mkWake zeroTime "".
Record CareTakerReconcileResult := mkReconcile {
  rr_Recovery : WorkerRecoverySummary; rr_Snapshot : WorkerCapacitySnapshot; rr_Plan : WorkerStartPlan;
  rr_State : WorkerExecutionState; rr_NextWake : CareTakerNextWake }.
Record CareTakerConfig := mkCareConfig {
  cc_DeadAfter : Duration; cc_InflightStartTimeout : Duration; cc_FallbackInterval : Duration;
  cc_RetryInitial : Duration; cc_RetryMaximum : Duration; cc_WorkerExecution : WorkerExecutionConfig }.

Class CareTakerStateSource (W : Type) := {
  recover_expired : Instant → Duration → W → result WorkerRecoverySummary * W;
  capacity_snapshot : Instant → Duration → W → result WorkerCapacitySnapshot }.

(** [wakeCh] is a channel of capacity one: full or empty. *)
Record CareTaker := mkCareTaker {
  ct_wakeCh : bool; ct_cfg : CareTakerConfig; ct_exec : WorkerCapacityManager;
  ct_signalCount : Z; ct_lastSignal : string; ct_retryDelay : Duration }.
Definition NewConfiguredCareTaker (cfg : CareTakerConfig) (exec : WorkerCapacityManager) : CareTaker :=
  mkCareTaker false cfg exec 0 "" 0.

Definition set_wake (b : bool) (c : CareTaker) : CareTaker :=
  mkCareTaker b (ct_cfg c) (ct_exec c) (ct_signalCount c) (ct_lastSignal c) (ct_retryDelay c).
Definition set_exec (m : WorkerCapacityManager) (c : CareTaker) : CareTaker :=
  mkCareTaker (ct_wakeCh c) (ct_cfg c) m (ct_signalCount c) (ct_lastSignal c) (ct_retryDelay c).
Definition set_retry (d : Duration) (c : CareTaker) : CareTaker :=
  mkCareTaker (ct_wakeCh c) (ct_cfg c) (ct_exec c) (ct_signalCount c) (ct_lastSignal c) d.

(** ** Signals *)

Definition recordSignal (reason : string) (c : CareTaker) : CareTaker :=
  mkCareTaker (ct_wakeCh c) (ct_cfg c) (ct_exec c) (wrap64 (ct_signalCount c + 1)) reason (ct_retryDelay c).
(** The send of [Signal]: a full channel stays full. *)
Definition sendWake (c : CareTaker) : CareTaker := set_wake true c.
Definition signalSnapshot (c : CareTaker) : Z * string := (ct_signalCount c, ct_lastSignal c).
Definition drainCareTakerSignals (c : CareTaker) : CareTaker := set_wake false c.

(** ** Errors *)

Definition noteReconcileError (c : CareTaker) : CareTaker :=
  let cfg := ct_cfg c in
  if cc_RetryInitial cfg <=? 0 then set_retry 0 c else
  if ct_retryDelay c <=? 0 then set_retry (cc_RetryInitial cfg) c else
  let delay := wrap64 (ct_retryDelay c * 2) in
  set_retry (if (0 <? cc_RetryMaximum cfg) && (cc_RetryMaximum cfg <? delay) then cc_RetryMaximum cfg
             else delay) c.
Definition clearReconcileError (c : CareTaker) : CareTaker := set_retry 0 c.

Definition errWorkerTargetEnvironmentNotConfigured : GoError :=
  Sentinel "worker_target_environment is not configured".
(** [errors.Is] *)
Fixpoint errors_Is (e target : GoError) : bool :=
  bool_decide (e = target) ||
  match e with
  | Wrapf _ cause => errors_Is cause target
  | Located _ cause => errors_Is cause target
  | _ => false
  end.

(** ** The next wake *)

Definition consider (now : Instant) (next : CareTakerNextWake) (candidate : Instant * string) :
    CareTakerNextWake :=
  let '(at_, reason) := candidate in
  if IsZero at_ then next else
  let at_ := if Before at_ now then now else at_ in
  if IsZero (nw_At next) || Before at_ (nw_At next) then mkWake at_ reason else next.

Definition wake_candidates (now : Instant) (cfg : CareTakerConfig) (snapshot : WorkerCapacitySnapshot)
    (state : WorkerExecutionState) (retryDelay : Duration) : list (Instant * string) :=
  (if (0 <? cc_DeadAfter cfg) && negb (IsZero (sn_EarliestHeartbeat snapshot))
   then [(Add (sn_EarliestHeartbeat snapshot) (cc_DeadAfter cfg), "worker_expiry")] else []) ++
  (if 0 <? cc_InflightStartTimeout cfg
   then (λ r, (Add (rs_CreatedAt r) (cc_InflightStartTimeout cfg), "inflight_start_expiry")) <$>
          InflightStarts state
   else []) ++
  (if 0 <? retryDelay
   then let delay := if (0 <? cc_RetryMaximum cfg) && (cc_RetryMaximum cfg <? retryDelay)
                     then cc_RetryMaximum cfg else retryDelay in
        let delay := if (0 <? cc_RetryInitial cfg) && (delay <? cc_RetryInitial cfg)
                     then cc_RetryInitial cfg else delay in
        [(Add now delay, "retry")]
   else []) ++
  (if 0 <? cc_FallbackInterval cfg then [(Add now (cc_FallbackInterval cfg), "fallback_sweep")] else []).
Definition calculateCareTakerNextWake (now : Instant) (cfg : CareTakerConfig)
    (snapshot : WorkerCapacitySnapshot) (state : WorkerExecutionState) (retryDelay : Duration) :
    CareTakerNextWake :=
  foldl (consider now) no_wake (wake_candidates now cfg snapshot state retryDelay).

(** ** Reconciliation *)

Section reconcile.
Context {W : Type} {source : CareTakerStateSource W} {launcher : WorkerLauncher W}.

Definition snapshot_demand (s : WorkerCapacitySnapshot) : WorkerDemand :=
  mkDemand (sn_PendingQueued s) (sn_PendingClaimable s) (sn_RunningAttempts s) (sn_LiveWorkerSessions s).
Definition EvaluateSnapshot (now : Instant) (cfg : WorkerExecutionConfig) (s : WorkerCapacitySnapshot)
    (m : WorkerCapacityManager) (w : W) : Evaluation * WorkerCapacityManager * W :=
  EvaluateDemand now cfg (snapshot_demand s) m w.

(** The result is returned also with an error. *)
Definition reconcileDetailed (now : Instant) (c : CareTaker) (w : W) :
    CareTakerReconcileResult * option GoError * CareTaker * W :=
  let cfg := ct_cfg c in
  match recover_expired now (cc_DeadAfter cfg) w with
  | (Err e, w) =>
      let c := noteReconcileError c in
      let state := Snapshot (ct_exec c) in
      (mkReconcile no_summary no_snapshot no_plan state
         (calculateCareTakerNextWake now cfg no_snapshot state (ct_retryDelay c)), Some e, c, w)
  | (Ok recovery, w) =>
      let c := set_exec (PruneExpiredInflightStarts now (cc_InflightStartTimeout cfg) (ct_exec c)) c in
      match capacity_snapshot now (cc_DeadAfter cfg) w with
      | Err e =>
          let c := noteReconcileError c in
          let state := Snapshot (ct_exec c) in
          (mkReconcile recovery no_snapshot no_plan state
             (calculateCareTakerNextWake now cfg no_snapshot state (ct_retryDelay c)), Some e, c, w)
      | Ok snapshot =>
          let '(plan, err, m, w) := EvaluateSnapshot now (cc_WorkerExecution cfg) snapshot (ct_exec c) w in
          let c := set_exec m c in
          let state := Snapshot m in
          match err with
          | Some e =>
              if errors_Is e errWorkerTargetEnvironmentNotConfigured then
                (mkReconcile recovery snapshot plan state
                   (calculateCareTakerNextWake now cfg snapshot state 0), None, clearReconcileError c, w)
              else
                let c := noteReconcileError c in
                (mkReconcile recovery snapshot plan state
                   (calculateCareTakerNextWake now cfg snapshot state (ct_retryDelay c)), Some e, c, w)
          | None =>
              (mkReconcile recovery snapshot plan state
                 (calculateCareTakerNextWake now cfg snapshot state 0), None, clearReconcileError c, w)
          end
      end
  end.

(** [runReconcile], when the context is not cancelled meanwhile: the next wake. *)
Definition runReconcile (started : Instant) (c : CareTaker) (w : W) : CareTakerNextWake * CareTaker * W :=
  let '(result, _, c, w) := reconcileDetailed started c w in (rr_NextWake result, c, w).

(** ** The loop *)

(** Where the goroutine of [Run] is. *)
Inductive phase :=
  | Waiting                 (* in [select] *)
  | Woken                   (* received from [wakeCh] *)
  | Drained                 (* after [drainCareTakerSignals] *)
  | Reconciling             (* in [runReconcile] *)
  | Stopped.
#[export] Instance phase_eq_dec : EqDecision phase.
Proof. solve_decision. Defined.

(** [lp_senders]: calls of [Signal] between their two statements; [lp_seen]: the
    signal count the loop has read last; [lp_timer]: when the armed timer fires. *)
Record Loop := mkLoop {
  lp_now : Instant; lp_phase : phase; lp_taker : CareTaker; lp_world : W;
  lp_senders : nat; lp_seen : Z; lp_timer : option Instant }.

(** [resetCareTakerTimer] *)
Definition resetCareTakerTimer (now : Instant) (next : CareTakerNextWake) : option Instant :=
  if IsZero (nw_At next) then None else
  let delay := Sub (nw_At next) now in
  Some (Add now (if delay <? 0 then 0 else delay)).

(** Steps of the loop, of callers of [Signal], and of the rest of the controller. *)
Inductive loop_step : relation Loop :=
  | signal_record s reason :
      loop_step s (mkLoop (lp_now s) (lp_phase s) (recordSignal reason (lp_taker s)) (lp_world s)
                     (S (lp_senders s)) (lp_seen s) (lp_timer s))
  | signal_send s n :
      lp_senders s = S n →
      loop_step s (mkLoop (lp_now s) (lp_phase s) (sendWake (lp_taker s)) (lp_world s) n (lp_seen s) (lp_timer s))
  | receive s :
      lp_phase s = Waiting → ct_wakeCh (lp_taker s) = true →
      loop_step s (mkLoop (lp_now s) Woken (set_wake false (lp_taker s)) (lp_world s) (lp_senders s)
                     (lp_seen s) (lp_timer s))
  | drain s :
      lp_phase s = Woken →
      loop_step s (mkLoop (lp_now s) Drained (drainCareTakerSignals (lp_taker s)) (lp_world s) (lp_senders s)
                     (lp_seen s) (lp_timer s))
  | read_signals s :
      lp_phase s = Drained →
      loop_step s (mkLoop (lp_now s) Reconciling (lp_taker s) (lp_world s) (lp_senders s)
                     (signalSnapshot (lp_taker s)).1 (lp_timer s))
  | timer_fires s at_ :
      lp_phase s = Waiting → lp_timer s = Some at_ → at_ ≤ lp_now s →
      loop_step s (mkLoop (lp_now s) Reconciling (lp_taker s) (lp_world s) (lp_senders s) (lp_seen s) None)
  | reconcile_step s next c w later :
      lp_phase s = Reconciling → lp_now s ≤ later →
      runReconcile (lp_now s) (lp_taker s) (lp_world s) = (next, c, w) →
      loop_step s (mkLoop later Waiting c w (lp_senders s) (lp_seen s) (resetCareTakerTimer later next))
  | cancel s :
      lp_phase s = Waiting ∨ lp_phase s = Reconciling →
      loop_step s (mkLoop (lp_now s) Stopped (lp_taker s) (lp_world s) (lp_senders s) (lp_seen s) None)
  | environment s later m w :
      lp_now s ≤ later →
      loop_step s (mkLoop later (lp_phase s) (set_exec m (lp_taker s)) w (lp_senders s) (lp_seen s) (lp_timer s)).

(** [Run]: the startup signal is sent before the first [select]. *)
Definition loop_start (now : Instant) (c : CareTaker) (w : W) : Loop :=
  mkLoop now Waiting (sendWake (recordSignal "startup" c)) w 0 (ct_signalCount c) None.
End reconcile.
Arguments Loop : clear implicits.

(** ** The controller as source *)

(** The store and whatever launching changes. *)
Record CareWorld (L : Type) := mkWorld { cw_store : option Store; cw_launch : L }.
Arguments mkWorld {L}. Arguments cw_store {L}. Arguments cw_launch {L}.

Section controller.
Context (eng : Engine) {L : Type}.

Definition recovery_request (now : Instant) (deadAfter : Duration) : RecoverExpiredWorkerSessionsRequest :=
  mkRecover (FormatNano (Add now (- deadAfter))) (FormatNano now) "heartbeat_expired".
Definition controller_RecoverExpiredWorkerSessions (now : Instant) (deadAfter : Duration)
    (w : CareWorld L) : result WorkerRecoverySummary * CareWorld L :=
  match cw_store w with
  | None => (Err (Errorf "workflow store required"), w)
  | Some s =>
      match RecoverExpiredWorkerSessions eng (recovery_request now deadAfter) s with
      | (Ok r, s') => (Ok (mkSummary (rvr_ExpiredSessions r) (rvr_AbandonedAttempts r) (rvr_RequeuedWorkItems r)),
                       mkWorld (Some s') (cw_launch w))
      | (Err e, s') => (Err e, mkWorld (Some s') (cw_launch w))
      end
  end.

Definition earliest_heartbeat (earliest : Instant) (session : WorkerSessionRecord) : result Instant :=
  match parse_rfc3339 (ws_LastHeartbeatAt session) with
  | None => Err (Wrapf ("parse worker session heartbeat " +:+ ws_ID session) (Errorf "parsing time"))
  | Some heartbeat =>
      Ok (if IsZero earliest || Before (instant heartbeat) earliest then instant heartbeat else earliest)
  end.
Definition controller_WorkerCapacitySnapshot (now : Instant) (deadAfter : Duration) (w : CareWorld L) :
    result WorkerCapacitySnapshot :=
  demand ← workerDemand (cw_store w) now deadAfter;
  live ← wrap_err "list live worker sessions"
    (ListLiveWorkerSessions (at_UTC (Add now (- deadAfter))) (default None (cw_store w)));
  earliest ← foldM earliest_heartbeat zeroTime live;
  Ok (mkSnapshot (dm_PendingQueued demand) (dm_PendingClaimable demand) (dm_RunningAttempts demand)
        (dm_LiveWorkerSessions demand) earliest).

#[export] Instance controller_source : CareTakerStateSource (CareWorld L) := {
  recover_expired := controller_RecoverExpiredWorkerSessions;
  capacity_snapshot := controller_WorkerCapacitySnapshot }.
End controller.

(** ** Configuration *)

(** The operational policy's two fields that matter here. *)
Definition controllerCareTakerConfig (resolver : Resolver) (intervalMillis missedLimit : Z) :
    result CareTakerConfig :=
  heartbeat ← workerHeartbeatPolicyConfig resolver defaultWorkerHeartbeatPolicy;
  workerExecution ← workerExecutionConfig resolver defaultWorkerExecutionConfig;
  let fallback := wrap64 (intervalMillis * Millisecond) in
  let retryMaximum := if 1 <? missedLimit then wrap64 (fallback * missedLimit) else fallback in
  Ok (mkCareConfig (DeadAfter heartbeat) (we_InflightStartTimeout workerExecution) fallback fallback retryMaximum
        workerExecution).

(** * What the caretaker guarantees

    It never sleeps forever: no signal is lost, and a waiting caretaker has a wake
    pending or a timer armed within the fallback interval.  The next wake is the
    earliest of the due times.  Retries back off exponentially up to the maximum.  A
    reconciliation leaves no expired session active. *)
Local Open Scope Z_scope.

(** ** The next wake *)

Lemma IsZero_spec t : IsZero t = true ↔ t = zeroTime.
Proof. unfold IsZero. apply Z.eqb_eq. Qed.
Lemma IsZero_later t u : zeroTime < u → u ≤ t → IsZero t = false.
Proof. intros. unfold IsZero. apply Z.eqb_neq. lia. Qed.

Section next_wake.
Context (now : Instant) (Hnow : zeroTime < now).

(** No wake yet, or one that is not in the past. *)
Definition not_past (n : CareTakerNextWake) : Prop := IsZero (nw_At n) = true ∨ now ≤ nw_At n.

Lemma consider_spec n c :
  not_past n →
  not_past (consider now n c) ∧
  (IsZero (nw_At n) = false → IsZero (nw_At (consider now n c)) = false ∧ nw_At (consider now n c) ≤ nw_At n) ∧
  (IsZero c.1 = false → IsZero (nw_At (consider now n c)) = false ∧ nw_At (consider now n c) ≤ Z.max now c.1) ∧
  (consider now n c = n ∨ nw_Reason (consider now n c) = c.2 ∧ nw_At (consider now n c) = Z.max now c.1).
Proof using Hnow.
  destruct c as [at_ reason]. cbn [fst snd]. intros Hn. unfold consider.
  destruct (IsZero at_) eqn:Ha; [by split_and!; [done|done|done|left]|].
  set (at' := if Before at_ now then now else at_).
  assert (Hat : at' = Z.max now at_) by (unfold at', Before; destruct (Z.ltb_spec at_ now); lia).
  assert (Hz : IsZero at' = false) by (apply (IsZero_later _ now); lia).
  destruct (IsZero (nw_At n)) eqn:Hzn; cbn [orb].
  - cbn [nw_At nw_Reason]. split_and!; [right; cbn; lia|done|by split; [|lia]|by right].
  - destruct Hn as [Hn|Hn]; [congruence|]. unfold Before. destruct (Z.ltb_spec at' (nw_At n)); cbn [nw_At nw_Reason].
    + split_and!; [right; cbn; lia|split; [done|lia]|split; [done|lia]|by right].
    + split_and!; [by right|by split; [|lia]|split; [done|lia]|by left].
Qed.

Lemma consider_all l : ∀ n, not_past n →
  let r := foldl (consider now) n l in
  not_past r ∧
  (IsZero (nw_At n) = false → IsZero (nw_At r) = false ∧ nw_At r ≤ nw_At n) ∧
  (∀ c, c ∈ l → IsZero c.1 = false → IsZero (nw_At r) = false ∧ nw_At r ≤ Z.max now c.1) ∧
  (r = n ∨ ∃ c, c ∈ l ∧ nw_Reason r = c.2 ∧ nw_At r = Z.max now c.1).
Proof using Hnow.
  induction l as [|c l IH]; intros n Hn r.
  { subst r. cbn [foldl]. split_and!; [done|intros Hz; split; [done|lia]| |by left]. intros c Hc. by apply elem_of_nil in Hc. }
  destruct (consider_spec n c Hn) as (H1 & H2 & H3 & H4).
  destruct (IH _ H1) as (I1 & I2 & I3 & I4). subst r. cbn [foldl]. split_and!.
  - exact I1.
  - intros Hz. destruct (H2 Hz) as [Hz' ?]. destruct (I2 Hz') as [? ?]. split; [done|lia].
  - intros c' [->|Hc']%elem_of_cons Hz; [|by apply I3]. destruct (H3 Hz) as [Hz' ?].
    destruct (I2 Hz') as [? ?]. split; [done|lia].
  - destruct I4 as [->|(c' & Hc' & ?)]; [|right; exists c'; split; [by right|done]].
    destruct H4 as [->|[? ?]]; [by left|right; exists c; split_and!; [left|..]; done].
Qed.
End next_wake.

Lemma candidates_spec now cfg snapshot state retryDelay :
  zeroTime < now →
  let next := calculateCareTakerNextWake now cfg snapshot state retryDelay in
  let due := wake_candidates now cfg snapshot state retryDelay in
  (∀ at_ reason, (at_, reason) ∈ due → IsZero at_ = false →
     IsZero (nw_At next) = false ∧ now ≤ nw_At next ≤ Z.max now at_) ∧
  (next = no_wake ∨ ∃ at_, (at_, nw_Reason next) ∈ due ∧ nw_At next = Z.max now at_).
Proof.
  intros Hnow next due.
  destruct (consider_all now Hnow due no_wake) as (H1 & _ & H3 & H4); [by left|].
  fold (calculateCareTakerNextWake now cfg snapshot state retryDelay) in *. split.
  - intros at_ reason Hin Hz. destruct (H3 _ Hin Hz) as [Hz' Hle]. split_and!; [exact Hz'| |exact Hle].
    destruct H1 as [H1|H1]; [|exact H1]. unfold next, due in *. congruence.
  - destruct H4 as [H4|([at_ reason] & Hin & Hr & Hat)]; [by left|right].
    exists at_. split; [|exact Hat]. cbn [snd] in Hr. rewrite <- Hr in Hin. exact Hin.
Qed.
Lemma next_wake_fallback now cfg snapshot state retryDelay :
  zeroTime < now → 0 < cc_FallbackInterval cfg →
  let next := calculateCareTakerNextWake now cfg snapshot state retryDelay in
  IsZero (nw_At next) = false ∧ now ≤ nw_At next ≤ now + cc_FallbackInterval cfg.
Proof.
  intros Hnow Hf. destruct (candidates_spec now cfg snapshot state retryDelay Hnow) as [Hall _].
  destruct (Hall (Add now (cc_FallbackInterval cfg)) "fallback_sweep") as [? ?].
  - unfold wake_candidates. rewrite !elem_of_app. do 3 right.
    rewrite (proj2 (Z.ltb_lt _ _) Hf). by apply list_elem_of_singleton.
  - apply (IsZero_later _ now); [done|]. unfold Add. lia.
  - split; [done|]. unfold Add in *. lia.
Qed.

(** The next wake of the caretaker is the earliest of the times that matter: it is
    not in the past, it is no later than the expiry of any live session's heartbeat,
    the expiry of any start in flight, the retry and the fallback sweep (or than now,
    for those already due), and it is one of them, with its reason. *)
Theorem next_wake_is_earliest now cfg snapshot state retryDelay :
  zeroTime < now →
  let next := calculateCareTakerNextWake now cfg snapshot state retryDelay in
  let due := wake_candidates now cfg snapshot state retryDelay in
  (∀ at_ reason, (at_, reason) ∈ due → IsZero at_ = false → now ≤ nw_At next ≤ Z.max now at_) ∧
  (next = no_wake ∨ ∃ at_, (at_, nw_Reason next) ∈ due ∧ nw_At next = Z.max now at_) ∧
  (0 < cc_FallbackInterval cfg → now ≤ nw_At next ≤ now + cc_FallbackInterval cfg).
Proof.
  intros Hnow next due. destruct (candidates_spec now cfg snapshot state retryDelay Hnow) as [Hall Hone].
  split_and!; [|exact Hone|].
  - intros at_ reason Hin Hz. by apply (Hall at_ reason).
  - intros Hf. by apply next_wake_fallback.
Qed.

Definition demo_care : CareTakerConfig :=
  mkCareConfig (5 * Minute) (5 * Minute) (30 * Second) (30 * Second) (5 * Minute) race_config.
Lemma next_wake_is_earliest_witness :
  let next := calculateCareTakerNextWake race_now demo_care no_snapshot (mkExecState []) (60 * Second) in
  race_now ≤ nw_At next ≤ race_now + 30 * Second.
Proof.
  intros next.
  refine (proj2 (proj2 (next_wake_is_earliest race_now demo_care no_snapshot (mkExecState []) (60 * Second) _)) _);
    vm_compute; reflexivity.
Defined.

(** ** Backoff *)

Definition after_errors (n : nat) (c : CareTaker) : CareTaker := Nat.iter n noteReconcileError c.
Lemma noteReconcileError_cfg c : ct_cfg (noteReconcileError c) = ct_cfg c.
Proof. unfold noteReconcileError. by repeat case_match. Qed.

(** Retries back off exponentially: after n+1 consecutive failed reconciliations
    the delay is the initial delay doubled n times, but no more than the maximum. *)
Theorem retry_backoff_exact c n :
  let initial := cc_RetryInitial (ct_cfg c) in
  let maximum := cc_RetryMaximum (ct_cfg c) in
  ct_retryDelay c = 0 → 0 < initial → initial ≤ maximum → maximum < 2 ^ 62 →
  ct_retryDelay (after_errors (S n) c) = Z.min (initial * 2 ^ Z.of_nat n) maximum.
Proof.
  intros initial maximum H0 Hi Him Hmax.
  assert (Hcfg : ∀ k, ct_cfg (after_errors k c) = ct_cfg c).
  { induction k as [|k IHk]; [done|]. simpl. by rewrite noteReconcileError_cfg. }
  induction n as [|n IH].
  - change (after_errors 1 c) with (noteReconcileError c). unfold noteReconcileError. cbv zeta.
    fold initial maximum.
    rewrite (proj2 (Z.leb_gt initial 0) Hi), H0. cbn [Z.leb Z.compare set_retry ct_retryDelay].
    rewrite Z.pow_0_r. lia.
  - change (after_errors (S (S n)) c) with (noteReconcileError (after_errors (S n) c)).
    unfold noteReconcileError. cbv zeta. rewrite Hcfg, IH. fold initial maximum.
    pose proof (Z.pow_pos_nonneg 2 (Z.of_nat n)). set (p := 2 ^ Z.of_nat n) in *.
    assert (0 < initial * p) by nia.
    rewrite (proj2 (Z.leb_gt initial 0) Hi).
    rewrite (proj2 (Z.leb_gt (Z.min (initial * p) maximum) 0)) by lia.
    rewrite wrap64_id by (unfold int64, MinInt64, MaxInt64; lia).
    rewrite (proj2 (Z.ltb_lt 0 maximum)) by lia. cbn [andb set_retry ct_retryDelay].
    replace (Z.of_nat (S n)) with (Z.of_nat n + 1) by lia. rewrite Z.pow_add_r by lia. fold p.
    rewrite Z.pow_1_r. destruct (Z.ltb_spec maximum (Z.min (initial * p) maximum * 2)); lia.
Qed.

Definition demo_taker : CareTaker := NewConfiguredCareTaker demo_care (NewWorkerCapacityManager None).
Lemma retry_backoff_exact_witness : ct_retryDelay (after_errors 5 demo_taker) = 5 * Minute.
Proof.
  refine (eq_trans (retry_backoff_exact demo_taker 4 _ _ _ _) _);
    try reflexivity; vm_compute; discriminate.
Defined.

(** ** The loop *)

Section loop.
Context {W : Type} {source : CareTakerStateSource W} {launcher : WorkerLauncher W}.

Lemma reconcile_keeps now (c : CareTaker) (w : W) next c' w' :
  runReconcile now c w = (next, c', w') →
  ct_cfg c' = ct_cfg c ∧ ct_wakeCh c' = ct_wakeCh c ∧ ct_signalCount c' = ct_signalCount c ∧
  ∃ snapshot state delay, next = calculateCareTakerNextWake now (ct_cfg c) snapshot state delay.
Proof.
  assert (Hnote : ∀ c, ct_cfg (noteReconcileError c) = ct_cfg c ∧
    ct_wakeCh (noteReconcileError c) = ct_wakeCh c ∧
    ct_signalCount (noteReconcileError c) = ct_signalCount c)
    by (intros c0; unfold noteReconcileError; by repeat case_match).
  unfold runReconcile, reconcileDetailed.
  destruct (recover_expired now (cc_DeadAfter (ct_cfg c)) w) as [[recovery|e] w1].
  2: { cbn [rr_NextWake]. intros [= <- <- <-]. destruct (Hnote c) as (? & ? & ?). split_and!; eauto. }
  set (c1 := set_exec _ c).
  destruct (capacity_snapshot now (cc_DeadAfter (ct_cfg c)) w1) as [snapshot|e].
  2: { cbn [rr_NextWake]. intros [= <- <- <-]. destruct (Hnote c1) as (? & ? & ?). split_and!; eauto. }
  destruct (EvaluateSnapshot _ _ _ _ _) as [[[plan err] m] w2]. set (c2 := set_exec m c1).
  destruct (Hnote c2) as (? & ? & ?).
  destruct err as [e|]; [destruct (errors_Is e _)|]; cbn [rr_NextWake]; intros [= <- <- <-];
    split_and!; eauto.
Qed.

(** The timer that is armed fires by then. *)
Lemma resetCareTakerTimer_bound later next deadline :
  IsZero (nw_At next) = false → nw_At next ≤ deadline → later ≤ deadline →
  ∃ at_, resetCareTakerTimer later next = Some at_ ∧ at_ ≤ deadline.
Proof.
  intros Hz Hn Hl. unfold resetCareTakerTimer. rewrite Hz. eexists. split; [done|].
  unfold Add, Sub. destruct (Z.ltb_spec (Z.min MaxInt64 (Z.max MinInt64 (nw_At next - later))) 0); [lia|].
  unfold MaxInt64, MinInt64 in *. lia.
Qed.

Record loop_inv (cfg : CareTakerConfig) (s : Loop W) : Prop := {
  li_cfg : ct_cfg (lp_taker s) = cfg;
  li_now : zeroTime < lp_now s;
  (** A signal that the loop has not read is pending, or about to be. *)
  li_signals : ct_signalCount (lp_taker s) = lp_seen s ∨ ct_wakeCh (lp_taker s) = true ∨
               (0 < lp_senders s)%nat ∨ lp_phase s = Woken ∨ lp_phase s = Drained;
  li_wake : lp_phase s = Waiting →
            ct_wakeCh (lp_taker s) = true ∨
            ∃ at_, lp_timer s = Some at_ ∧ at_ ≤ lp_now s + cc_FallbackInterval cfg }.

Lemma loop_inv_step cfg s s' :
  0 < cc_FallbackInterval cfg → loop_inv cfg s → loop_step s s' → loop_inv cfg s'.
Proof.
  intros Hf [Hcfg Hnow Hsig Hwake] Hstep.
  destruct Hstep as [s reason|s n Hn|s Hp Hw|s Hp|s Hp|s at_ Hp Ht Hle|s next c w later Hp Hle Hr|s Hp|s later m w Hle];
    split; cbn [lp_taker lp_now lp_phase lp_senders lp_seen lp_timer lp_world recordSignal sendWake set_wake set_exec
                drainCareTakerSignals signalSnapshot ct_cfg ct_wakeCh ct_signalCount fst] in *; auto; try done; try lia.
  - destruct Hsig as [?|[?|[?|[?|?]]]]; first [congruence|auto].
  - by destruct (reconcile_keeps _ _ _ _ _ _ Hr) as (-> & _).
  - destruct (reconcile_keeps _ _ _ _ _ _ Hr) as (_ & -> & -> & _).
    destruct Hsig as [?|[?|[?|[?|?]]]]; first [congruence|auto].
  - intros _. right. destruct (reconcile_keeps _ _ _ _ _ _ Hr) as (_ & _ & _ & sn & st & d & ->).
    rewrite Hcfg. destruct (next_wake_fallback (lp_now s) cfg sn st d Hnow Hf) as (Hz & Hb).
    apply resetCareTakerTimer_bound; [done|lia..].
  - destruct Hsig as [?|[?|[?|[?|?]]]]; destruct Hp; first [congruence|auto].
  - intros Hp. destruct (Hwake Hp) as [?|(at_ & ? & ?)]; [by left|right]. exists at_. split; [done|lia].
Qed.
End loop.

(** C7: The caretaker never sleeps forever and loses no signal, however senders, the
    rest of the controller and the loop interleave.  While it waits, a wake is pending
    or its timer is armed, at most the fallback interval ahead; and a signal whose
    sender has finished and that the loop has not read keeps the wake pending. *)
Theorem caretaker_wakes {W} {source : CareTakerStateSource W} {launcher : WorkerLauncher W}
    now c (w : W) s :
  zeroTime < now → 0 < cc_FallbackInterval (ct_cfg c) →
  rtc loop_step (loop_start now c w) s → lp_phase s = Waiting →
  (ct_wakeCh (lp_taker s) = true ∨
   ∃ at_, lp_timer s = Some at_ ∧ at_ ≤ lp_now s + cc_FallbackInterval (ct_cfg c)) ∧
  (ct_signalCount (lp_taker s) ≠ lp_seen s → lp_senders s = 0%nat → ct_wakeCh (lp_taker s) = true).
Proof.
  intros Hnow Hf Hr Hp.
  assert (Hinv : loop_inv (ct_cfg c) s).
  { refine (rtc_ind_r (loop_inv (ct_cfg c)) (loop_start now c w) _ _ s Hr).
    - split; cbn; auto.
    - intros s1 s2 _ Hstep Hinv. by eapply loop_inv_step. }
  destruct Hinv as [_ _ Hsig Hwake]. split; [by apply Hwake|].
  intros Hne Hn. rewrite Hp, Hn in Hsig. destruct Hsig as [?|[?|[?|[?|?]]]]; [done|done|lia|done|done].
Qed.

(** A source that reports nothing to do. *)
Definition idle_source : CareTakerStateSource Z := {|
  recover_expired := λ _ _ w, (Ok no_summary, w); capacity_snapshot := λ _ _ _, Ok no_snapshot |}.
(** The startup signal is read and one reconciliation done; then another signal is sent. *)
Definition demo_read : CareTaker := drainCareTakerSignals (set_wake false (sendWake (recordSignal "startup" demo_taker))).
Definition demo_reconciled : CareTakerNextWake * CareTaker * Z := @runReconcile Z idle_source (counting_launcher true) race_now demo_read 0.
Definition demo_waiting : Loop Z :=
  mkLoop race_now Waiting demo_reconciled.1.2 demo_reconciled.2 0 (signalSnapshot demo_read).1
    (resetCareTakerTimer race_now demo_reconciled.1.1).
Definition demo_signalled : Loop Z :=
  mkLoop race_now Waiting (sendWake (recordSignal "work" demo_reconciled.1.2)) demo_reconciled.2 0 (signalSnapshot demo_read).1
    (resetCareTakerTimer race_now demo_reconciled.1.1).
Lemma demo_waiting_reached : rtc (@loop_step Z idle_source (counting_launcher true)) (loop_start race_now demo_taker 0) demo_waiting.
Proof.
  eapply rtc_l; [apply receive; reflexivity|]. eapply rtc_l; [apply drain; reflexivity|].
  eapply rtc_l; [apply read_signals; reflexivity|]. eapply rtc_l; [|apply rtc_refl].
  apply reconcile_step; [reflexivity|apply Z.le_refl|]. change (demo_reconciled = (demo_reconciled.1.1, demo_reconciled.1.2, demo_reconciled.2)).
  by destruct demo_reconciled as [[??]?].
Qed.
Lemma demo_signalled_reached : rtc (@loop_step Z idle_source (counting_launcher true)) (loop_start race_now demo_taker 0) demo_signalled.
Proof.
  transitivity demo_waiting; [apply demo_waiting_reached|]. eapply rtc_l; [apply (signal_record _ "work")|].
  eapply rtc_l; [apply (signal_send _ 0); reflexivity|]. apply rtc_refl.
Qed.
Lemma caretaker_wakes_witness :
  (ct_wakeCh (lp_taker demo_waiting) = false ∧
   ∃ at_, lp_timer demo_waiting = Some at_ ∧ at_ ≤ lp_now demo_waiting + 30 * Second) ∧
  ct_wakeCh (lp_taker demo_signalled) = true.
Proof.
  assert (H1 : zeroTime < race_now) by (vm_compute; reflexivity).
  assert (H2 : 0 < cc_FallbackInterval (ct_cfg demo_taker)) by (vm_compute; reflexivity).
  split.
  - split; [vm_compute; reflexivity|].
    destruct (proj1 (@caretaker_wakes Z idle_source (counting_launcher true) race_now demo_taker 0 demo_waiting
      H1 H2 demo_waiting_reached eq_refl)) as [H|H]; [exfalso; by vm_compute in H|exact H].
  - apply (proj2 (@caretaker_wakes Z idle_source (counting_launcher true) race_now demo_taker 0 demo_signalled
      H1 H2 demo_signalled_reached eq_refl)); [vm_compute; discriminate|reflexivity].
Defined.

(** ** Reconciliation on the store *)

(** Launching acts on the rest of the world. *)
Definition launch_beside {L} (launcher : WorkerLauncher L) : WorkerLauncher (CareWorld L) := λ n w,
  let '(r, l) := @StartWorkers L launcher n (cw_launch w) in (r, mkWorld (cw_store w) l).

(** An instant that has an RFC 3339 text. *)
Definition representable (t : Instant) : Prop := 0 ≤ t_year (at_UTC t) < 10000.
Lemma representable_parses t : representable t → parse_rfc3339 (FormatNano t) = Some (at_UTC t).
Proof. apply at_UTC_reads_back. Qed.

Lemma recovery_request_valid now dead :
  representable now → representable (Add now (- dead)) → validate_recover (recovery_request now dead) = Ok tt.
Proof.
  intros Hn Hd. apply representable_parses in Hn, Hd.
  assert (Hne : ∀ s t, parse_rfc3339 s = Some t → is_empty s = false).
  { intros s t Hs. apply bool_decide_eq_false. by intros ->. }
  unfold validate_recover, required, validateTimestamp, valid_timestamp, recovery_request.
  cbn [rv_Cutoff rv_RecoveredAt rv_Reason]. by rewrite (Hne _ _ Hn), (Hne _ _ Hd), Hn, Hd.
Qed.

(** Reservations after an evaluation are unexpired when they were before. *)
Section unexpired.
Context {W : Type} {launcher : WorkerLauncher W} (now : Instant) (timeout : Duration) (Ht : 0 < timeout).

Lemma reserve_unexpired n : ∀ m acc, Forall (λ r, unexpired now timeout r = true) (inflight m) →
  Forall (λ r, unexpired now timeout r = true) (inflight (reserve_loop now n m acc).2).
Proof using Ht.
  induction n as [|n IH]; intros m acc Hm; [done|]. cbn [reserve_loop]. apply IH.
  cbn [inflight cm_state InflightStarts]. apply Forall_app. split; [done|]. constructor; [|done].
  unfold unexpired, Sub. cbn [rs_CreatedAt]. unfold MaxInt64, MinInt64. lia.
Qed.
Lemma Forall_filter_bool {A} (P : A → Prop) f (l : list A) : Forall P l → Forall P (List.filter f l).
Proof. induction 1 as [|x l Hx _ IH]; simpl; [done|]. destruct (f x); [by constructor|done]. Qed.

Lemma EvaluateDemand_unexpired cfg d m w ev m' w' :
  Forall (λ r, unexpired now timeout r = true) (inflight m) →
  EvaluateDemand now cfg d m w = (ev, m', w') →
  Forall (λ r, unexpired now timeout r = true) (inflight m').
Proof using Ht.
  intros Hm. unfold EvaluateDemand. set (cfg' := mkExecConfig _ _ _).
  destruct (patternForConfig m _) as [pattern|e]; [|by intros [= <- <- <-]].
  set (m1 := pruneExpiredInflightStarts _ _ m).
  assert (Hm1 : Forall (λ r, unexpired now timeout r = true) (inflight m1)).
  { unfold m1, pruneExpiredInflightStarts. case_match; [done|]. by apply Forall_filter_bool. }
  destruct (_ <=? 0); [by intros [= <- <- <-]|]. unfold reserveInflightStarts.
  pose proof (reserve_unexpired (Z.to_nat (pn_StartCount (pattern now d (cm_state m1) cfg'))) m1 [] Hm1) as Hres.
  destruct (reserve_loop _ _ _ _) as [res m2]. cbn [snd] in Hres.
  destruct (StartWorkers _ w) as [[u|e] w1]; intros [= <- <- <-]; [done|].
  unfold removeInflightReservations. cbn [inflight set_inflight cm_state InflightStarts].
  by apply Forall_filter_bool.
Qed.
End unexpired.

(** The world after an evaluation: launching leaves the store. *)
Lemma EvaluateDemand_store {L} (launcher : WorkerLauncher L) now cfg d m (w : CareWorld L) ev m' w' :
  @EvaluateDemand _ (launch_beside launcher) now cfg d m w = (ev, m', w') → cw_store w' = cw_store w.
Proof.
  unfold EvaluateDemand. destruct (patternForConfig m _); [|by intros [= _ _ <-]].
  destruct (_ <=? 0); [by intros [= _ _ <-]|]. destruct (reserveInflightStarts _ _ _) as [res m2].
  unfold StartWorkers at 1, launch_beside.
  destruct (StartWorkers _ (cw_launch w)) as [[u|e] l]; by intros [= _ _ <-].
Qed.

Definition no_expired_session (cutoff : string) (db : DB) : Prop :=
  ∀ s row, worker_sessions (exec db) !! s = Some row → sr_status row = WorkerSessionStatusActive →
    str_ltb (sr_last_heartbeat_at row) cutoff = false.

Lemma recovery_leaves_no_expired eng request db :
  reachable db → validate_recover request = Ok tt →
  ∃ res db', RecoverExpiredWorkerSessions eng request (Some db) = (Ok res, Some db') ∧ reachable db' ∧
    no_expired_session (rv_Cutoff request) db'.
Proof.
  intros Hr Hv. destruct (recover_spec eng request db Hr Hv) as (res & e' & P & H & _ & _ & Hs & Hn).
  exists res, (mkDB (catalog db) e'). split; [done|]. split.
  { pose proof (reachable_op db eng (OpRecover request) Hr) as Hr'. unfold run_op in Hr'.
    cbn [run_store_op] in Hr'. rewrite H in Hr'. exact Hr'. }
  intros s row Hrow Hact. cbn [exec] in Hrow. destruct (worker_sessions (exec db) !! s) as [row0|] eqn:Hrow0;
    [|rewrite (Hn s Hrow0) in Hrow; done].
  destruct (str_ltb (sr_last_heartbeat_at row) (rv_Cutoff request)) eqn:Hlt; [|done]. exfalso.
  destruct (decide (sr_status row0 = WorkerSessionStatusActive ∧
    str_ltb (sr_last_heartbeat_at row0) (rv_Cutoff request) = true)) as [He|He].
  - rewrite (proj1 (Hs s row0 Hrow0) He) in Hrow. injection Hrow as <-. done.
  - rewrite (proj2 (Hs s row0 Hrow0) He) in Hrow. injection Hrow as <-. by apply He.
Qed.

(** A reconciliation of the controller, on any database its operations can
    produce, whatever its launcher does: recovery succeeds, afterwards no active
    session has a heartbeat before the cutoff, and every start still in flight is
    unexpired.  The database stays one that operations can produce. *)
Theorem reconcile_recovers_expired {L} eng (launcher : WorkerLauncher L) now c db l :
  reachable db → representable now → representable (Add now (- cc_DeadAfter (ct_cfg c))) →
  0 < cc_InflightStartTimeout (ct_cfg c) →
  ∃ result err c' db' l',
    @reconcileDetailed _ (controller_source eng) (launch_beside launcher) now c (mkWorld (Some (Some db)) l)
      = (result, err, c', mkWorld (Some (Some db')) l') ∧
    reachable db' ∧ no_expired_session (FormatNano (Add now (- cc_DeadAfter (ct_cfg c)))) db' ∧
    Forall (λ r, unexpired now (cc_InflightStartTimeout (ct_cfg c)) r = true) (inflight (ct_exec c')).
Proof.
  intros Hr Hn Hd Ht. set (cfg := ct_cfg c) in *.
  destruct (recovery_leaves_no_expired eng (recovery_request now (cc_DeadAfter cfg)) db Hr)
    as (res & db' & Hrec & Hr' & Hno); [by apply recovery_request_valid|].
  unfold reconcileDetailed. fold cfg. cbn [recover_expired controller_source].
  unfold controller_RecoverExpiredWorkerSessions at 1. cbn [cw_store cw_launch]. rewrite Hrec.
  set (m1 := PruneExpiredInflightStarts now (cc_InflightStartTimeout cfg) (ct_exec c)).
  assert (Hm1 : Forall (λ r, unexpired now (cc_InflightStartTimeout cfg) r = true) (inflight m1)).
  { unfold m1, PruneExpiredInflightStarts, pruneExpiredInflightStarts.
    rewrite (proj2 (Z.leb_gt _ _) Ht). cbn [inflight set_inflight cm_state InflightStarts].
    apply Forall_forall. intros r Hr0. apply list_elem_of_In, filter_In in Hr0. apply Hr0. }
  assert (Hexec : ∀ c0, ct_exec (noteReconcileError c0) = ct_exec c0)
    by (intros c0; unfold noteReconcileError; by repeat case_match).
  destruct (capacity_snapshot now (cc_DeadAfter cfg) _) as [snapshot|e].
  2: { do 5 eexists. split; [reflexivity|]. split_and!; [done|done|]. rewrite Hexec. exact Hm1. }
  destruct (EvaluateSnapshot _ _ _ _ _) as [[[plan err] m2] w2] eqn:He. unfold EvaluateSnapshot in He.
  cbn [set_exec ct_exec] in He.
  pose proof (EvaluateDemand_store launcher _ _ _ _ _ _ _ _ He) as Hst. cbn [cw_store] in Hst.
  apply (EvaluateDemand_unexpired now (cc_InflightStartTimeout cfg) Ht) in He; [|exact Hm1].
  destruct w2 as [st l2]. cbn [cw_store] in Hst. subst st.
  destruct err as [e|]; [destruct (errors_Is e _)|]; do 5 eexists; (split; [reflexivity|]);
    split_and!; try done. by rewrite Hexec.
Qed.

Lemma reconcile_recovers_expired_witness :
  ∃ result err c' db' l',
    @reconcileDetailed _ (controller_source demo_engine) (launch_beside (counting_launcher true)) race_now demo_taker
      (mkWorld (Some (Some demo_leased)) 0) = (result, err, c', mkWorld (Some (Some db')) l') ∧
    reachable db' ∧ no_expired_session (FormatNano (Add race_now (- (5 * Minute)))) db' ∧
    Forall (λ r, unexpired race_now (5 * Minute) r = true) (inflight (ct_exec c')).
Proof.
  apply (reconcile_recovers_expired demo_engine (counting_launcher true) race_now demo_taker demo_leased 0).
  - exact demo_leased_reachable.
  - vm_compute. split; [discriminate|reflexivity].
  - vm_compute. split; [discriminate|reflexivity].
  - vm_compute. reflexivity.
Defined.
