(* ===== verification/Logs.v ===== *)
(** * Log observations ([internal/model/log_observation.go],
    [cmd/controller/log_observation_endpoint.go], [log_sink.go], [log_read.go])

    Workers report log observations; the controller validates them and appends each,
    as one line of JSON, to a file under the log root chosen by submission and
    attempt.  The logs of a submission are read back from its files, filtered, sorted
    by time and cut to the last lines.

    The file system under the log root is a map from paths to lines, on which
    opening, appending and listing succeed; a line is read by [bufio.Scanner], whose
    lines are shorter than 64 KiB. *)

From S2P Require Import Prelude GoTime GoJson GoStrings GoJsonLaws GoSha256 Fingerprint.
From S2P Require Import GoJsonStruct GoHttp GoPath GoInstant StoreData WorkItem DependencyStore.
From S2P Require Import OutputText Variables SubmissionContext Auth AuthLaws.
Local Open Scope Z_scope.

(** ** JSON *)

(** A [uint64] field. *)
Definition ParseUint (text : string) : option Z :=
  match text with
  | EmptyString => None
  | _ => z ← digits_value 0 text; if z <? 2 ^ 64 then Some z else None
  end.
Definition into_uint {R} (set : Z → R → R) : Setter R := λ v r,
  match v with
  | JNull => Ok r
  | JNumber text => match ParseUint text with Some z => Ok (set z r) | None => Err json_mismatch end
  | _ => Err json_mismatch
  end.

Definition zero_observation : LogObservation :=
  mkObservation "" "" "" "" "" "" "" "" "" "" "" "" "" "" 0 "".
Definition observation_fields : Struct LogObservation :=
  [("observation_id", into_string (λ x '(mkObservation _ a1 a2 a3 a4 a5 a6 a7 a8 a9 a10 a11 a12 a13 a14 a15),
      mkObservation x a1 a2 a3 a4 a5 a6 a7 a8 a9 a10 a11 a12 a13 a14 a15));
   ("submission_id", into_string (λ x '(mkObservation a0 _ a2 a3 a4 a5 a6 a7 a8 a9 a10 a11 a12 a13 a14 a15),
      mkObservation a0 x a2 a3 a4 a5 a6 a7 a8 a9 a10 a11 a12 a13 a14 a15));
   ("workflow_id", into_string (λ x '(mkObservation a0 a1 _ a3 a4 a5 a6 a7 a8 a9 a10 a11 a12 a13 a14 a15),
      mkObservation a0 a1 x a3 a4 a5 a6 a7 a8 a9 a10 a11 a12 a13 a14 a15));
   ("workflow_name", into_string (λ x '(mkObservation a0 a1 a2 _ a4 a5 a6 a7 a8 a9 a10 a11 a12 a13 a14 a15),
      mkObservation a0 a1 a2 x a4 a5 a6 a7 a8 a9 a10 a11 a12 a13 a14 a15));
   ("run_id", into_string (λ x '(mkObservation a0 a1 a2 a3 _ a5 a6 a7 a8 a9 a10 a11 a12 a13 a14 a15),
      mkObservation a0 a1 a2 a3 x a5 a6 a7 a8 a9 a10 a11 a12 a13 a14 a15));
   ("step_id", into_string (λ x '(mkObservation a0 a1 a2 a3 a4 _ a6 a7 a8 a9 a10 a11 a12 a13 a14 a15),
      mkObservation a0 a1 a2 a3 a4 x a6 a7 a8 a9 a10 a11 a12 a13 a14 a15));
   ("step_name", into_string (λ x '(mkObservation a0 a1 a2 a3 a4 a5 _ a7 a8 a9 a10 a11 a12 a13 a14 a15),
      mkObservation a0 a1 a2 a3 a4 a5 x a7 a8 a9 a10 a11 a12 a13 a14 a15));
   ("work_item_id", into_string (λ x '(mkObservation a0 a1 a2 a3 a4 a5 a6 _ a8 a9 a10 a11 a12 a13 a14 a15),
      mkObservation a0 a1 a2 a3 a4 a5 a6 x a8 a9 a10 a11 a12 a13 a14 a15));
   ("attempt_id", into_string (λ x '(mkObservation a0 a1 a2 a3 a4 a5 a6 a7 _ a9 a10 a11 a12 a13 a14 a15),
      mkObservation a0 a1 a2 a3 a4 a5 a6 a7 x a9 a10 a11 a12 a13 a14 a15));
   ("worker_id", into_string (λ x '(mkObservation a0 a1 a2 a3 a4 a5 a6 a7 a8 _ a10 a11 a12 a13 a14 a15),
      mkObservation a0 a1 a2 a3 a4 a5 a6 a7 a8 x a10 a11 a12 a13 a14 a15));
   ("component", into_string (λ x '(mkObservation a0 a1 a2 a3 a4 a5 a6 a7 a8 a9 _ a11 a12 a13 a14 a15),
      mkObservation a0 a1 a2 a3 a4 a5 a6 a7 a8 a9 x a11 a12 a13 a14 a15));
   ("stream", into_string (λ x '(mkObservation a0 a1 a2 a3 a4 a5 a6 a7 a8 a9 a10 _ a12 a13 a14 a15),
      mkObservation a0 a1 a2 a3 a4 a5 a6 a7 a8 a9 a10 x a12 a13 a14 a15));
   ("level", into_string (λ x '(mkObservation a0 a1 a2 a3 a4 a5 a6 a7 a8 a9 a10 a11 _ a13 a14 a15),
      mkObservation a0 a1 a2 a3 a4 a5 a6 a7 a8 a9 a10 a11 x a13 a14 a15));
   ("timestamp", into_string (λ x '(mkObservation a0 a1 a2 a3 a4 a5 a6 a7 a8 a9 a10 a11 a12 _ a14 a15),
      mkObservation a0 a1 a2 a3 a4 a5 a6 a7 a8 a9 a10 a11 a12 x a14 a15));
   ("sequence", into_uint (λ x '(mkObservation a0 a1 a2 a3 a4 a5 a6 a7 a8 a9 a10 a11 a12 a13 _ a15),
      mkObservation a0 a1 a2 a3 a4 a5 a6 a7 a8 a9 a10 a11 a12 a13 x a15));
   ("message", into_string (λ x '(mkObservation a0 a1 a2 a3 a4 a5 a6 a7 a8 a9 a10 a11 a12 a13 a14 _),
      mkObservation a0 a1 a2 a3 a4 a5 a6 a7 a8 a9 a10 a11 a12 a13 a14 x))].
Definition encode_observation (o : LogObservation) : JSON :=
  JObject (
    omit_string "observation_id" (ob_ObservationID o) ++
    omit_string "submission_id" (ob_SubmissionID o) ++
    omit_string "workflow_id" (ob_WorkflowID o) ++
    omit_string "workflow_name" (ob_WorkflowName o) ++
    omit_string "run_id" (ob_RunID o) ++
    omit_string "step_id" (ob_StepID o) ++
    omit_string "step_name" (ob_StepName o) ++
    omit_string "work_item_id" (ob_WorkItemID o) ++
    omit_string "attempt_id" (ob_AttemptID o) ++
    omit_string "worker_id" (ob_WorkerID o) ++
    field "component" (JString (ob_Component o)) ++
    omit_string "stream" (ob_Stream o) ++
    field "level" (JString (ob_Level o)) ++
    field "timestamp" (JString (ob_Timestamp o)) ++
    omit_int "sequence" (ob_Sequence o) ++
    field "message" (JString (ob_Message o))).
(** [json.Marshal] and [json.Unmarshal] *)
Definition Marshal_observation (o : LogObservation) : string := print (encode_observation o).
Definition Unmarshal_observation (text : string) : result LogObservation :=
  v ← json_document text; decode_struct false observation_fields zero_observation v.

(** ** Levels and validation *)

Definition logLevelOrder (level : string) : option Z :=
  if bool_decide (level = "debug") then Some 0 else
  if bool_decide (level = "info") then Some 1 else
  if bool_decide (level = "warn") then Some 2 else
  if bool_decide (level = "error") then Some 3 else None.
Definition validLogStream (stream : string) : bool :=
  bool_decide (stream ∈ ["stdout"; "stderr"; "system"]).

Definition IsAtLeastLogLevel (level minimum : string) : bool :=
  match logLevelOrder level, logLevelOrder minimum with
  | Some a, Some b => b <=? a
  | _, _ => false
  end.
Definition CompareLogLevel (a b : string) : result Z :=
  match logLevelOrder a with
  | None => Err (Errorf ("invalid level: " +:+ a))
  | Some aRank =>
      match logLevelOrder b with
      | None => Err (Errorf ("invalid level: " +:+ b))
      | Some bRank => Ok (if aRank =? bRank then 0 else if aRank <? bRank then -1 else 1)
      end
  end.

(** Both layouts accept the same texts. *)
Definition parseTimestamp (value : string) : result Time :=
  match parse_rfc3339 value with
  | Some t => Ok t
  | None => Err (Errorf "must be RFC3339 or RFC3339Nano timestamp")
  end.
Definition validateLogObservationID (field_ value : string) : result unit :=
  if is_empty (TrimSpace value) then Ok tt else
  fail_if (negb (bool_decide (TrimSpace value = value)))
    (Errorf (field_ +:+ " must not contain leading/trailing whitespace"));;
  fail_if (contains ".." value) (Errorf (field_ +:+ " must not contain path traversal"));;
  fail_if (contains_any "/\" value) (Errorf (field_ +:+ " must be a path-safe identifier"));;
  fail_if (negb (bool_decide (filepath_Base value = value)))
    (Errorf (field_ +:+ " must be a path-safe identifier")).
Definition Observation_Validate (o : LogObservation) : result unit :=
  fail_if (is_empty (TrimSpace (ob_Component o))) (Errorf "component is required");;
  fail_if (is_empty (TrimSpace (ob_Timestamp o))) (Errorf "timestamp is required");;
  timestamp ← wrap_err "invalid timestamp" (parseTimestamp (ob_Timestamp o));
  fail_if (IsZero (instant timestamp)) (Errorf "timestamp must be non-zero");;
  fail_if (is_empty (TrimSpace (ob_Message o))) (Errorf "message is required");;
  fail_if (bool_decide (logLevelOrder (ob_Level o) = None)) (Errorf ("invalid level: " +:+ ob_Level o));;
  fail_if (negb (is_empty (ob_Stream o)) && negb (validLogStream (ob_Stream o)))
    (Errorf ("invalid stream: " +:+ ob_Stream o));;
  validateLogObservationID "observation_id" (ob_ObservationID o);;
  validateLogObservationID "submission_id" (ob_SubmissionID o);;
  validateLogObservationID "workflow_id" (ob_WorkflowID o);;
  validateLogObservationID "run_id" (ob_RunID o);;
  validateLogObservationID "step_id" (ob_StepID o);;
  validateLogObservationID "work_item_id" (ob_WorkItemID o);;
  validateLogObservationID "attempt_id" (ob_AttemptID o);;
  validateLogObservationID "worker_id" (ob_WorkerID o).

(** ** The sink *)

Notation Files := (gmap string (list string)).

Definition validatePathID (value field_ : string) : result unit :=
  fail_if (is_empty (TrimSpace value)) (Errorf (field_ +:+ " is required"));;
  fail_if (contains ".." value) (Errorf (field_ +:+ " must not contain path traversal"));;
  fail_if (contains_any "/\" value) (Errorf (field_ +:+ " must be a path-safe identifier"));;
  fail_if (negb (bool_decide (filepath_Base value = value)))
    (Errorf (field_ +:+ " must be a path-safe identifier")).
Definition sinkLogPath (logRootPath : string) (o : LogObservation) : result string :=
  if is_empty (ob_SubmissionID o) then Ok (Join [logRootPath; "controller"; "controller.jsonl"]) else
  validatePathID (ob_SubmissionID o) "submission_id";;
  let base := Join [logRootPath; "submissions"; ob_SubmissionID o] in
  if is_empty (ob_AttemptID o) then Ok (Join [base; "submission.jsonl"]) else
  validatePathID (ob_AttemptID o) "attempt_id";;
  Ok (Join [base; "attempts"; ob_AttemptID o +:+ ".jsonl"]).

Record filesystemLogSink := mkSink { sk_rootPath : string; sk_level : string }.
Definition newFilesystemLogSink (logRootPath level : string) : result filesystemLogSink :=
  fail_if (is_empty (TrimSpace logRootPath)) (Errorf "log root path is required");;
  wrap_err "invalid log level" (CompareLogLevel level "debug");;
  Ok (mkSink (Clean logRootPath) level).

(** [O_APPEND]: one more line of the file. *)
Definition append_line (path line : string) (files : Files) : Files :=
  <[path := default [] (files !! path) ++ [line]]> files.
Definition sink_Write (s : filesystemLogSink) (o : LogObservation) (files : Files) : result unit * Files :=
  if negb (IsAtLeastLogLevel (ob_Level o) (sk_level s)) then (Ok tt, files) else
  match sinkLogPath (sk_rootPath s) o with
  | Err e => (Err e, files)
  | Ok path => (Ok tt, append_line path (Marshal_observation o) files)
  end.

(** ** The endpoint *)

Definition logObservationsHandler (maxRequestBytes : Z) (r : Request) :
    Response * option LogObservation :=
  if negb (bool_decide (rq_Method r = MethodPost))
  then (http_Error "method not allowed" StatusMethodNotAllowed, None) else
  match decode_limited observation_fields zero_observation maxRequestBytes r
          "decode log observation" "log observation must be one JSON document" with
  | inr response => (response, None)
  | inl payload =>
      match Observation_Validate payload with
      | Err _ => (http_Error "invalid log observation" StatusBadRequest, None)
      | Ok _ => (http_Status StatusNoContent, Some payload)
      end
  end.
(** [AcceptLogObservation]: an error of the sink is only printed. *)
Definition accept_observation (sink : option filesystemLogSink) (o : LogObservation) (files : Files) : Files :=
  match sink with
  | None => files
  | Some s => (sink_Write s o files).2
  end.

(** ** Reading *)

Definition MaxScanTokenSize : nat := 65536.

Record submittedLogRecord := mkLogRecord {
  lr_Observation : LogObservation; lr_Timestamp : Instant; lr_Order : nat }.

Definition matchesSubmissionLogFilter (o : LogObservation) (levelFilter streamFilter attemptIDFilter : string) : bool :=
  if negb (is_empty levelFilter) && negb (IsAtLeastLogLevel (ob_Level o) levelFilter) then false else
  if negb (is_empty streamFilter) && negb (bool_decide (ob_Stream o = streamFilter)) then false else
  if negb (is_empty attemptIDFilter) && negb (bool_decide (ob_AttemptID o = attemptIDFilter)) then false else
  true.

Definition drop_CR (line : string) : string := trim_suffix (String "013" "") line.
(** One line of a file: [ErrTooLong], an empty line, or an observation. *)
Definition read_log_line (levelFilter streamFilter attemptIDFilter : string)
    (records : list submittedLogRecord) (line : string) : result (list submittedLogRecord) :=
  fail_if (Nat.leb MaxScanTokenSize (slen line)) (Errorf "bufio.Scanner: token too long");;
  if is_empty (drop_CR line) then Ok records else
  observation ← Unmarshal_observation (drop_CR line);
  if negb (matchesSubmissionLogFilter observation levelFilter streamFilter attemptIDFilter) then Ok records else
  ts ← parseTimestamp (ob_Timestamp observation);
  Ok (records ++ [mkLogRecord observation (instant ts) (length records)]).
Definition readSubmissionLogLines (files : Files) (path levelFilter streamFilter attemptIDFilter : string)
    (records : list submittedLogRecord) : result (list submittedLogRecord) :=
  match files !! path with
  | None => Ok records
  | Some lines => foldM (read_log_line levelFilter streamFilter attemptIDFilter) records lines
  end.

Definition submissionLogPath (logRootPath submissionID : string) : result string :=
  if is_empty logRootPath then Err (Errorf "log root path is required")
  else Ok (Join [logRootPath; "submissions"; submissionID; "submission.jsonl"]).

(** [os.ReadDir]: the files of a directory, by name. *)
Definition name_in (dir path : string) : option string :=
  if has_prefix (dir +:+ "/") path then
    let name := trim_prefix (dir +:+ "/") path in
    if is_empty name || has_byte "/" name then None else Some name
  else None.
Definition ReadDir (files : Files) (dir : string) : list string :=
  order_by str_leb (omap (name_in dir) (map_to_list files).*1).

(** By time, then by order of reading. *)
Definition by_time_order (x y : submittedLogRecord) : bool :=
  if lr_Timestamp x =? lr_Timestamp y then Nat.leb (lr_Order x) (lr_Order y)
  else lr_Timestamp x <? lr_Timestamp y.

Definition readSubmissionLogEntries (files : Files) (logRootPath submissionID : string) (tail : Z)
    (levelFilter streamFilter attemptIDFilter : string) : result (list LogObservation * bool) :=
  submissionFile ← submissionLogPath logRootPath submissionID;
  records ← readSubmissionLogLines files submissionFile levelFilter streamFilter attemptIDFilter [];
  let attemptDir := Join [logRootPath; "submissions"; submissionID; "attempts"] in
  records ← foldM (λ records name,
      if bool_decide (Ext name = ".jsonl")
      then readSubmissionLogLines files (Join [attemptDir; name]) levelFilter streamFilter attemptIDFilter records
      else Ok records) records (ReadDir files attemptDir);
  let records := order_by by_time_order records in
  let total := Z.of_nat (length records) in
  let truncated := tail <? total in
  let start := if truncated then total - tail else 0 in
  Ok (lr_Observation <$> drop (Z.to_nat start) records, truncated).

Definition parseSubmissionLogTail (raw : string) (defaultTail maxTail : Z) : result Z :=
  if is_empty raw then Ok defaultTail else
  match Atoi raw with
  | None => Err (Errorf "tail must be a positive integer")
  | Some tail =>
      fail_if (tail <=? 0) (Errorf "tail must be positive");;
      fail_if (maxTail <? tail) (Errorf ("tail must be <= " +:+ pretty maxTail));;
      Ok tail
  end.
Definition parseSubmissionLogLevel (raw : string) : result string :=
  if is_empty raw then Ok "" else CompareLogLevel raw "debug";; Ok raw.
Definition parseSubmissionLogStream (raw : string) : result string :=
  if is_empty raw then Ok "" else
  if validLogStream raw then Ok raw else Err (Errorf "unsupported stream").

(** * What the logs guarantee

    Every observation is written below the log root, as one line of UTF-8 that decodes
    to it; in bearer mode no observation is ever accepted, and two submissions may
    share a file.  Reading whole submissions is in [LogReadLaws]. *)
Local Open Scope Z_scope.

(** ** Paths *)

(** A closed name is plain. *)
Ltac plain := apply (bool_decide_eq_true (plain_name _)); vm_compute; reflexivity.

(** An identifier that the sink accepts: one element of a path, or a period. *)
Lemma validatePathID_ok value field_ :
  validatePathID value field_ = Ok tt → plain_name value ∨ value = ".".
Proof.
  unfold validatePathID. intros (u & Hne%fail_if_Ok & H)%bind_Ok.
  apply bind_Ok in H as (u' & Hup%fail_if_Ok & H). apply bind_Ok in H as (u'' & Hsl%fail_if_Ok & _).
  destruct (decide (value = ".")) as [->|Hdot]; [by right|left]. split_and!.
  - by intros ->.
  - done.
  - by intros ->.
  - rewrite contains_any_false in Hsl. by apply Hsl.
Qed.

Lemma clean_step_dot root out : clean_step root out "." = out.
Proof. unfold clean_step. by rewrite bool_decide_eq_true_2 by tauto. Qed.
Lemma components_dot p : p ≠ "" → components (Join [p; "submissions"; "."]) = components p ++ ["submissions"] ∧
  rooted (Join [p; "submissions"; "."]) = rooted p.
Proof.
  intros Hp. cbn [Join]. unfold is_empty. rewrite bool_decide_eq_false_2 by done.
  destruct (components_Clean (str_join "/" [p; "submissions"; "."])) as [-> ->].
  rewrite rooted_join by done. split; [|done]. unfold components. rewrite rooted_join by done.
  rewrite split_join by (by repeat constructor). rewrite foldl_app. cbn [foldl].
  rewrite clean_step_dot, clean_step_plain by plain. done.
Qed.
Lemma Join_nonempty p l : p ≠ "" → Join (p :: l) ≠ "".
Proof.
  intros Hp. cbn [Join]. unfold is_empty. rewrite bool_decide_eq_false_2 by done. unfold Clean.
  case_match; [done|]. destruct (rooted _); [done|]. unfold is_empty. by case_bool_decide.
Qed.

(** The directory of a submission. *)
Lemma submission_dir p id : p ≠ "" → plain_name id ∨ id = "." →
  ∃ rest, Forall plain_name rest ∧ components (Join [p; "submissions"; id]) = components p ++ "submissions" :: rest ∧
    rooted (Join [p; "submissions"; id]) = rooted p ∧ (id ≠ "." → rest = [id]).
Proof.
  intros Hp [Hid| ->].
  - exists [id]. assert (H : Forall plain_name ["submissions"; id]) by (constructor; [plain|by constructor]).
    destruct (components_Join p ["submissions"; id] Hp H) as [-> ->]. split_and!; [by constructor|done..].
  - exists []. by destruct (components_dot p Hp) as [-> ->].
Qed.
Lemma plain_jsonl id : plain_name id ∨ id = "." → plain_name (id +:+ ".jsonl").
Proof.
  intros [(H1 & _ & _ & H4)| ->]; [|plain]. split_and!.
  - intros H. apply H1. by destruct id.
  - intros H. apply (f_equal slen) in H. rewrite slen_app in H. simpl in H. lia.
  - intros H. apply (f_equal slen) in H. rewrite slen_app in H. simpl in H. lia.
  - by rewrite has_byte_app, H4.
Qed.

(** The file that an observation is appended to is below the log root: its path
    is the path of the root followed by names that are neither empty nor . nor .. and
    have no slash, whatever submission and attempt the observation names. *)
Theorem log_path_is_below_root root o path :
  root ≠ "" → sinkLogPath root o = Ok path →
  ∃ names, names ≠ [] ∧ Forall plain_name names ∧
    components path = components root ++ names ∧ rooted path = rooted root.
Proof.
  intros Hroot. unfold sinkLogPath. destruct (is_empty (ob_SubmissionID o)).
  { intros Heq. assert (path = Join [root; "controller"; "controller.jsonl"]) as -> by congruence. clear Heq.
    exists ["controller"; "controller.jsonl"].
    assert (H : Forall plain_name ["controller"; "controller.jsonl"])
      by (constructor; [plain|constructor; [plain|constructor]]).
    by destruct (components_Join root ["controller"; "controller.jsonl"] Hroot H) as [-> ->]. }
  intros ([] & Hs%validatePathID_ok & H)%bind_Ok.
  destruct (submission_dir root _ Hroot Hs) as (rest & Hrest & Hc & Hr & _).
  set (base := Join [root; "submissions"; ob_SubmissionID o]) in *.
  assert (Hb : base ≠ "") by (by apply Join_nonempty).
  assert (Hall : ∀ l, l ≠ [] → Forall plain_name l → Ok (Join (base :: l)) = Ok path →
    ∃ names, names ≠ [] ∧ Forall plain_name names ∧ components path = components root ++ names ∧ rooted path = rooted root).
  { intros l Hl Hp Heq. assert (path = Join (base :: l)) as -> by congruence. clear Heq H. exists ("submissions" :: rest ++ l).
    destruct (components_Join base l Hb Hp) as [-> ->]. rewrite Hc, Hr. split_and!; [done| |by rewrite <- app_assoc|done].
    constructor; [plain|]. by apply Forall_app. }
  destruct (is_empty (ob_AttemptID o)).
  - apply (Hall ["submission.jsonl"]); [done| |done]. constructor; [plain|constructor].
  - apply bind_Ok in H as ([] & Ha%validatePathID_ok & H).
    apply (Hall ["attempts"; ob_AttemptID o +:+ ".jsonl"]); [done| |done].
    constructor; [plain|]. constructor; [by apply plain_jsonl|constructor].
Qed.

Definition sample (submission attempt message : string) : LogObservation :=
  mkObservation "" submission "" "" "" "" "" "" attempt "" "worker" "stdout" "info" "2026-01-01T00:00:00Z" 0 message.
Lemma log_path_is_below_root_witness :
  ∃ names, names ≠ [] ∧ Forall plain_name names ∧
    components "/var/log/goet/submissions/run-1/attempts/a1.jsonl" = components "/var/log/goet" ++ names ∧
    rooted "/var/log/goet/submissions/run-1/attempts/a1.jsonl" = rooted "/var/log/goet".
Proof. apply (log_path_is_below_root "/var/log/goet" (sample "run-1" "a1" "m")); [discriminate|vm_compute; reflexivity]. Defined.

(** Two valid observations of different submissions are written to the same file: an
    observation of the submission named by a period, with the attempt "submission",
    goes to the file of the submission "attempts". *)
Lemma submissions_may_share_a_file :
  let o1 := sample "." "submission" "m" in let o2 := sample "attempts" "" "m" in
  Observation_Validate o1 = Ok tt ∧ Observation_Validate o2 = Ok tt ∧ ob_SubmissionID o1 ≠ ob_SubmissionID o2 ∧
  sinkLogPath "/log" o1 = sinkLogPath "/log" o2.
Proof. split_and!; by vm_compute. Qed.

(** ** Lines *)

(** A text field is one of 16, so the cases of what is omitted are not enumerated: the
    keys that are written are some of all the keys, in their order. *)
Lemma omit_keys empty name v : (omit empty name v).*1 `sublist_of` [name].
Proof. destruct empty; [apply sublist_nil_l|done]. Qed.
Lemma part_keys (part rest all : list string) name :
  part `sublist_of` [name] → rest `sublist_of` all → part ++ rest `sublist_of` name :: all.
Proof. intros H1 H2. by apply (sublist_app part [name]). Qed.
Lemma fields_ok depth all fields :
  NoDup all → fields.*1 `sublist_of` all → Forall (λ k, valid_utf8 k = true) all →
  Forall (λ f, tree_ok depth f.2) fields → tree_ok (1 + depth) (JObject fields).
Proof.
  intros Hn Hs Hu Hf. apply object_ok; [by eapply sublist_NoDup|]. apply Forall_forall. intros f Hin. split.
  - rewrite Forall_forall in Hu. apply Hu. eapply elem_of_sublist; [|exact Hs]. by apply list_elem_of_fmap_2.
  - rewrite Forall_forall in Hf. by apply Hf.
Qed.
Lemma omit_ok depth empty name v : tree_ok depth v → Forall (λ f, tree_ok depth f.2) (omit empty name v).
Proof. intros H. destruct empty; [apply Forall_nil_2|by apply Forall_singleton]. Qed.

Definition observation_keys : list string := observation_fields.*1.
Definition observation_texts (o : LogObservation) : list string :=
  [ob_ObservationID o; ob_SubmissionID o; ob_WorkflowID o; ob_WorkflowName o; ob_RunID o; ob_StepID o; ob_StepName o;
   ob_WorkItemID o; ob_AttemptID o; ob_WorkerID o; ob_Component o; ob_Stream o; ob_Level o; ob_Timestamp o; ob_Message o].

Lemma observation_tree_ok o :
  Forall (λ s, valid_utf8 s = true) (observation_texts o) → tree_ok 1 (encode_observation o).
Proof.
  intros H. unfold observation_texts in H. rewrite !Forall_cons in H.
  unfold encode_observation. apply (fields_ok 0 observation_keys).
  - apply (bool_decide_eq_true (NoDup _)). by vm_compute.
  - rewrite !fmap_app. unfold observation_keys, observation_fields. cbn [fmap list_fmap fst].
    repeat (apply part_keys; [apply omit_keys || done|]). done.
  - apply (bool_decide_eq_true (Forall _ _)). by vm_compute.
  - rewrite !Forall_app. destruct_and! H. split_and!;
      first [by apply omit_ok, string_ok|by apply omit_ok, int_tree_ok|by constructor; [apply string_ok|constructor]].
Qed.

Lemma ParseUint_pretty z : 0 ≤ z < 2 ^ 64 → ParseUint (pretty z) = Some z.
Proof.
  intros Hz. assert (Hp : pretty z = pretty (Z.to_N z)) by (by destruct z; [| |lia]). rewrite Hp.
  pose proof (digits_value_pretty (Z.to_N z)) as Hd.
  destruct (decimal_head _ (pretty_N_decimal (Z.to_N z))) as (c & s & Hs & _). rewrite Hs in Hd |- *.
  unfold ParseUint. rewrite Hd, Z2N.id by lia. cbn [mbind option_bind].
  by destruct (Z.ltb_spec z (2 ^ 64)); [|lia].
Qed.

(** One part of the object, onto the observation read so far. *)
Section parts.
Context {R : Type} (fields : Struct R).
Lemma read_part part rest r r' :
  decode_fields false fields part r = Ok r' →
  decode_fields false fields (part ++ rest) r = decode_fields false fields rest r'.
Proof. intros H. by rewrite decode_fields_app, H. Qed.
Lemma read_omitted name s set rest r r' :
  find_field fields name = Some (into_string set) → set s r = r' → (s = "" → r' = r) →
  decode_fields false fields (omit_string name s ++ rest) r = decode_fields false fields rest r'.
Proof.
  intros Hf Hs He. apply read_part. eapply decode_omit_found; [done| |by intros _; cbn; rewrite Hs].
  intros H%bool_decide_eq_true. by apply He.
Qed.
Lemma read_written name s set rest r :
  find_field fields name = Some (into_string set) →
  decode_fields false fields (field name (JString s) ++ rest) r = decode_fields false fields rest (set s r).
Proof. intros Hf. apply read_part. by rewrite (decode_field_found _ _ _ _ _ _ Hf). Qed.
End parts.

Lemma observation_reads o :
  0 ≤ ob_Sequence o < 2 ^ 64 →
  decode_struct false observation_fields zero_observation (encode_observation o) = Ok o.
Proof.
  intros Hseq. destruct o as [x0 x1 x2 x3 x4 x5 x6 x7 x8 x9 x10 x11 x12 x13 x14 x15].
  unfold encode_observation. cbn [decode_struct ob_ObservationID ob_SubmissionID ob_WorkflowID ob_WorkflowName ob_RunID
    ob_StepID ob_StepName ob_WorkItemID ob_AttemptID ob_WorkerID ob_Component ob_Stream ob_Level ob_Timestamp
    ob_Sequence ob_Message] in *. unfold zero_observation.
  repeat (first [erewrite read_omitted; [|reflexivity|reflexivity|by intros ->]|erewrite read_written; [|reflexivity]]).
  unfold omit_int. erewrite read_part; cycle 1.
  { eapply decode_omit_found; [reflexivity|by intros ->%Z.eqb_eq|intros _; cbn -[ParseUint pretty Z.pow]].
    by rewrite ParseUint_pretty. }
  erewrite decode_field_found; [|reflexivity]. done.
Qed.

(** What is written has no line break. *)
Definition newline : ascii := "010".
Definition one_line (s : string) : Prop := has_byte newline s = false.
Lemma one_line_app s t : one_line s → one_line t → one_line (s +:+ t).
Proof. unfold one_line. intros Hs Ht. by rewrite has_byte_app, Hs, Ht. Qed.
Lemma quote_ascii_one_line a : one_line (quote_ascii a).
Proof. by destruct a as [[] [] [] [] [] [] [] []]; vm_compute. Qed.
Lemma rune_one_line e : genuine (Rune e) → one_line e.
Proof.
  intros Hg. specialize (Hg ""). rewrite str_app_nil_r in Hg. cbn [chunk_bytes] in Hg.
  assert (Hn : ∀ x s, x ≠ newline → has_byte newline s = false → has_byte newline (String x s) = false).
  { intros x s Hx Hs. cbn [has_byte]. by rewrite bool_decide_eq_false_2. }
  destruct e as [|a r1]; [done|]. cbn [chunks] in Hg. destruct (is_ascii a) eqn:Ha; [discriminate Hg|].
  assert (a ≠ newline) by (by intros ->). destruct r1 as [|b r2]; [done|]. destruct (rune2 a b) eqn:H2.
  { injection Hg as Hr _. subst r2. apply Hn; [done|]. apply Hn; [|done]. intros ->. apply andb_true_iff in H2 as [_ ?]. done. }
  destruct r2 as [|c r3]; [done|]. destruct (rune3 a b c) eqn:H3.
  { injection Hg as Hr _. subst r3. apply andb_true_iff in H3 as [Hb Hc].
    apply Hn; [done|]. apply Hn; [intros ->|apply Hn; [by intros ->|done]].
    cbn in Hb. by rewrite !andb_false_r in Hb. }
  destruct r3 as [|d r4]; [done|]. destruct (rune4 a b c d) eqn:H4; [|discriminate Hg].
  injection Hg as Hr _. subst r4. apply andb_true_iff in H4 as [H4 Hd]. apply andb_true_iff in H4 as [Hb Hc].
  apply Hn; [done|]. apply Hn; [intros ->|apply Hn; [by intros ->|apply Hn; [by intros ->|done]]].
  cbn in Hb. by rewrite !andb_false_r in Hb.
Qed.
Lemma marshal_string_one_line s : one_line (marshal_string s).
Proof.
  assert (Hb : one_line (quote_body s)).
  { unfold quote_body. induction s as [|c rest Hch Hg IH] using chunks_ind; [done|]. rewrite Hch. cbn [fmap list_fmap concat_str].
    apply one_line_app; [|done]. destruct c as [a|e|a]; [apply quote_ascii_one_line| |done].
    cbn [quote_chunk]. repeat case_bool_decide; [done|done|]. by apply rune_one_line, Hg. }
  unfold marshal_string. apply (one_line_app (String quote_byte "")); [done|]. by apply one_line_app.
Qed.
Lemma joined_one_line l : Forall one_line l → one_line (str_join "," l).
Proof.
  induction 1 as [|s l Hs Hl IH]; [done|]. destruct l as [|t l]; [done|]. cbn [str_join] in *.
  apply one_line_app; [done|]. by apply (one_line_app ",").
Qed.
Lemma digits_one_line s : all_digits s = true → one_line s.
Proof.
  induction s as [|c s IH]; [done|]. cbn [all_digits]. intros [Hc Hs]%andb_true_iff. unfold one_line. cbn [has_byte].
  rewrite bool_decide_eq_false_2 by (by intros ->). by apply IH.
Qed.
Lemma number_one_line text : isCanonicalIntegerText text = true → one_line text.
Proof.
  intros (s & Hd & Ht)%canonical_integer. assert (Hs : one_line s) by (by apply digits_one_line; apply decimal_spec in Hd as (_ & _ & ?)).
  destruct Ht as [->| ->]; [done|]. by apply (one_line_app "-").
Qed.
Lemma print_one_line v : integers_only v = true → one_line (print v).
Proof.
  induction v as [items IH|fields IH|v H1 H2] using JSON_ind'; intros Hi; cbn [print].
  - rewrite integers_items in Hi. apply (one_line_app "["); [done|]. apply one_line_app; [|done].
    apply joined_one_line, Forall_fmap. apply Forall_forall. intros x Hx. rewrite Forall_forall in IH, Hi. by apply IH, Hi.
  - rewrite integers_fields in Hi. apply (one_line_app "{"); [done|]. apply one_line_app; [|done].
    apply joined_one_line, Forall_fmap. apply Forall_forall. intros [k x] Hx. rewrite Forall_forall in IH, Hi. cbn.
    apply one_line_app; [apply marshal_string_one_line|]. apply (one_line_app ":"); [done|].
    by apply (IH (k, x)), (Hi (k, x)).
  - destruct v as [|[]|text|s|items|fields]; [done|done|done| |apply marshal_string_one_line|..].
    + by apply number_one_line.
    + by destruct (H1 items).
    + by destruct (H2 fields).
Qed.

Lemma observation_line_reads o :
  Forall (λ s, valid_utf8 s = true) (observation_texts o) → 0 ≤ ob_Sequence o < 2 ^ 64 →
  Unmarshal_observation (Marshal_observation o) = Ok o.
Proof.
  intros Hu Hseq. destruct (observation_tree_ok o Hu) as (Hw & Hi & Hd).
  unfold Unmarshal_observation, Marshal_observation, json_document.
  rewrite decode_print by (done || by eapply N.le_trans). by apply observation_reads.
Qed.

(** Every line that the sink writes reads back as the observation it was written
    for, when its texts are UTF-8 and its sequence number fits 64 bits: the reader
    loses nothing of it, fields that are left out included.  And what is written is
    one line, whatever the message contains. *)
Theorem observation_roundtrip o :
  Forall (λ s, valid_utf8 s = true) (observation_texts o) → 0 ≤ ob_Sequence o < 2 ^ 64 →
  Unmarshal_observation (Marshal_observation o) = Ok o ∧ one_line (Marshal_observation o).
Proof.
  intros Hu Hseq. split; [by apply observation_line_reads|]. by apply print_one_line, (observation_tree_ok o Hu).
Qed.
Lemma observation_roundtrip_witness :
  Unmarshal_observation (Marshal_observation (sample "run-1" "a1" "a <b> message")) = Ok (sample "run-1" "a1" "a <b> message") ∧
  one_line (Marshal_observation (sample "run-1" "a1" "a <b> message")).
Proof. apply observation_roundtrip; [repeat (apply Forall_cons_2; [reflexivity|]); apply Forall_nil_2|cbn; lia]. Defined.

(** ** Bearer mode *)

(** With bearer authentication no log observation is accepted: whatever the
    credentials and the token, a request to /observations/logs that passes the
    middleware is not one that the handler of this path accepts, because the policy
    admits only GET there and the handler only POST. *)
Theorem bearer_mode_accepts_no_observation store limit method query header length body principal o :
  let r := mkRequest method "/observations/logs" query header length body in
  ¬ (authorizeControllerRoutes (mkAuth ModeBearer store ControllerPolicy) (rq_Method r) (rq_Path r) (rq_Header r)
       = ServeNext principal ∧
     (logObservationsHandler limit r).2 = Some o).
Proof.
  cbn [rq_Method rq_Path rq_Header]. intros [Hauth Hlog].
  assert (method = MethodPost) as ->.
  { unfold logObservationsHandler in Hlog. cbn [rq_Method] in Hlog. by case_bool_decide. }
  revert Hauth. unfold authorizeControllerRoutes. cbn [authMode authPolicy authStore].
  rewrite bool_decide_eq_false_2 by done.
  replace (Classify ControllerPolicy "/observations/logs") with RouteProtected by (by vm_compute).
  destruct (bearerToken header); [|done]. destruct (MatchBearer store _) as [p|]; [|done].
  replace (Authorize ControllerPolicy MethodPost "/observations/logs" (pr_Role p)) with DecisionMethodNotAllowed
    by (by vm_compute). done.
Qed.
