(* ===== verification/LogReadLaws.v ===== *)
(** * Reading logs back

    What the reader returns, as a function of the lines of the submission's files; and
    what a write adds to these lines. *)

From S2P Require Import Prelude GoTime GoJson GoStrings GoJsonLaws GoSha256 Fingerprint.
From S2P Require Import GoJsonStruct GoHttp GoPath GoInstant StoreData OutputText WorkItem DependencyStore Variables.
From S2P Require Import Auth AuthLaws Logs.
Local Open Scope Z_scope.

(** ** Paths of joined names *)

Lemma Join_cons p l : p ≠ "" → Join (p :: l) = Clean (str_join "/" (p :: l)).
Proof. intros Hp. cbn [Join]. unfold is_empty. by rewrite bool_decide_eq_false_2. Qed.
(** A path is determined by its components. *)
Lemma Join_eq p l q m :
  p ≠ "" → q ≠ "" → components (Join (p :: l)) = components (Join (q :: m)) →
  rooted (Join (p :: l)) = rooted (Join (q :: m)) → Join (p :: l) = Join (q :: m).
Proof.
  intros Hp Hq. rewrite !Join_cons by done.
  destruct (components_Clean (str_join "/" (p :: l))) as [-> ->].
  destruct (components_Clean (str_join "/" (q :: m))) as [-> ->]. intros Hc Hr. unfold Clean.
  assert (∀ x l, x ≠ "" → is_empty (str_join "/" (x :: l)) = false) as Hne.
  { intros x k Hx. unfold is_empty. apply bool_decide_eq_false_2. intros H. destruct x; [done|]. by destruct k. }
  by rewrite !Hne, Hc, Hr by done.
Qed.
Lemma str_join_snoc l n : l ≠ [] → str_join "/" (l ++ [n]) = str_join "/" l +:+ "/" +:+ n.
Proof.
  induction l as [|x l IH]; [done|]. intros _. destruct l as [|y l]; [done|].
  change (x +:+ "/" +:+ str_join "/" ((y :: l) ++ [n]) = (x +:+ "/" +:+ str_join "/" (y :: l)) +:+ "/" +:+ n).
  rewrite IH by done. by rewrite !str_app_assoc.
Qed.
(** A name joined to a cleaned directory that is not the root. *)
Lemma Join_name p l n : p ≠ "" → components (Join (p :: l)) ≠ [] → plain_name n →
  Join [Join (p :: l); n] = Join (p :: l) +:+ "/" +:+ n.
Proof.
  intros Hp Hc Hn. set (d := Join (p :: l)) in *. assert (Hd : d ≠ "") by (by apply Join_nonempty).
  assert (Hshape : d = Clean d).
  { pose proof (Join_cons p l Hp) as He. fold d in He.
    destruct (components_Clean (str_join "/" (p :: l))) as [H1 H2]. rewrite <- He in H1, H2.
    unfold Clean. rewrite H1, H2. unfold is_empty at 1. rewrite bool_decide_eq_false_2 by done.
    rewrite He at 1. unfold Clean. unfold is_empty at 1. rewrite bool_decide_eq_false_2; [done|].
    intros H. destruct p; [done|]. by destruct l. }
  rewrite Join_cons by done.
  destruct (components_Join d [n] Hd) as [H1 H2]; [by apply Forall_singleton|].
  rewrite Join_cons in H1, H2 by done.
  destruct (components_Clean (str_join "/" [d; n])) as [H3 H4]. rewrite H3 in H1. rewrite H4 in H2.
  unfold Clean at 1. rewrite H1, H2. unfold is_empty at 1. rewrite bool_decide_eq_false_2; cycle 1.
  { intros H. by destruct d. }
  rewrite str_join_snoc by done.
  assert (Hj : str_join "/" (components d) ≠ "").
  { intros H. destruct (components d) as [|x xs] eqn:Ex; [done|].
    pose proof (normal_no_slash _ _ (components_normal d)) as Hs. rewrite Ex in Hs.
    apply Forall_rev in Hs. rewrite rev_involutive in Hs. inversion Hs as [|? ? [_ Hx] _]; subst.
    destruct x; [done|]. by destruct xs. }
  assert (Hd' : d = if rooted d then "/" +:+ str_join "/" (components d) else str_join "/" (components d)).
  { rewrite Hshape at 1. unfold Clean, is_empty.
    by rewrite (bool_decide_eq_false_2 (d = "")), (bool_decide_eq_false_2 (str_join "/" (components d) = "")). }
  unfold is_empty. rewrite bool_decide_eq_false_2; cycle 1.
  { intros H. apply (f_equal slen) in H. rewrite slen_app in H. simpl in H. lia. }
  rewrite Hd' at 4. by destruct (rooted d).
Qed.

(** ** What is read *)

#[export] Instance by_time_order_linear : LinearComparison by_time_order.
Proof.
  split; unfold by_time_order; intros *; repeat case_match; rewrite ?Nat.leb_le, ?Z.ltb_lt, ?Z.eqb_eq, ?Z.eqb_neq in *; lia.
Qed.

Section reading.
Context (levelFilter streamFilter attemptIDFilter : string).
Local Notation matches o := (matchesSubmissionLogFilter o levelFilter streamFilter attemptIDFilter).

(** What one line contributes. *)
Definition line_entries (line : string) : result (list (LogObservation * Instant)) :=
  fail_if (Nat.leb MaxScanTokenSize (slen line)) (Errorf "bufio.Scanner: token too long");;
  if is_empty (drop_CR line) then Ok [] else
  observation ← Unmarshal_observation (drop_CR line);
  if negb (matches observation) then Ok [] else
  ts ← parseTimestamp (ob_Timestamp observation);
  Ok [(observation, instant ts)].
Definition readable (line : string) : Prop := is_Ok (line_entries line) = true.
Definition entries_of (line : string) : list (LogObservation * Instant) :=
  match line_entries line with Ok es => es | Err _ => [] end.
Definition entry (r : submittedLogRecord) : LogObservation * Instant := (lr_Observation r, lr_Timestamp r).

(** Reading lines collects what each contributes, and fails at the first that cannot
    be read. *)
Lemma read_line records line :
  (readable line ∧ ∃ records', read_log_line levelFilter streamFilter attemptIDFilter records line = Ok records' ∧
     entry <$> records' = (entry <$> records) ++ entries_of line) ∨
  (¬ readable line ∧ ∃ e, read_log_line levelFilter streamFilter attemptIDFilter records line = Err e).
Proof.
  unfold readable, entries_of, line_entries, read_log_line.
  destruct (Nat.leb _ _); cbn [fail_if mbind result_bind is_Ok]; [right; eauto|].
  destruct (is_empty (drop_CR line)); [left; split; [done|]; exists records; by rewrite app_nil_r|].
  destruct (Unmarshal_observation _) as [o|e]; cbn [mbind result_bind]; [|right; eauto].
  destruct (negb _); [left; split; [done|]; exists records; by rewrite app_nil_r|].
  destruct (parseTimestamp _) as [ts|e]; cbn [mbind result_bind]; [|right; eauto].
  left. split; [done|]. eexists. split; [reflexivity|]. by rewrite fmap_app.
Qed.
Lemma read_lines lines records :
  (Forall readable lines ∧ ∃ records', foldM (read_log_line levelFilter streamFilter attemptIDFilter) records lines = Ok records' ∧
     entry <$> records' = (entry <$> records) ++ (lines ≫= entries_of)) ∨
  (¬ Forall readable lines ∧ ∃ e, foldM (read_log_line levelFilter streamFilter attemptIDFilter) records lines = Err e).
Proof.
  revert records. induction lines as [|line lines IH]; intros records.
  { left. split; [constructor|]. exists records. by rewrite app_nil_r. }
  rewrite foldM_cons. destruct (read_line records line) as [(Hr & r' & -> & He)|(Hr & e & ->)]; cbn [mbind result_bind].
  - destruct (IH r') as [(Hrs & r'' & -> & Hes)|(Hrs & e & ->)].
    + left. split; [by constructor|]. exists r''. split; [done|]. by rewrite Hes, He, bind_cons, app_assoc.
    + right. split; [|eauto]. by intros [_ ?]%Forall_cons.
  - right. split; [|eauto]. by intros [? _]%Forall_cons.
Qed.

Definition file_lines (files : Files) (path : string) : list string := default [] (files !! path).
Lemma read_file files path records :
  (Forall readable (file_lines files path) ∧ ∃ records',
     readSubmissionLogLines files path levelFilter streamFilter attemptIDFilter records = Ok records' ∧
     entry <$> records' = (entry <$> records) ++ (file_lines files path ≫= entries_of)) ∨
  (¬ Forall readable (file_lines files path) ∧ ∃ e,
     readSubmissionLogLines files path levelFilter streamFilter attemptIDFilter records = Err e).
Proof.
  unfold readSubmissionLogLines, file_lines. destruct (files !! path) as [lines|]; cbn [default]; [apply read_lines|].
  left. split; [constructor|]. exists records. by rewrite app_nil_r.
Qed.

(** The lines of a submission: those of its own file, then those of its attempts. *)
Definition attempt_names (files : Files) (dir : string) : list string :=
  filter (λ name, Ext name = ".jsonl") (ReadDir files dir).
Definition submission_lines (files : Files) (root id : string) : list string :=
  file_lines files (Join [root; "submissions"; id; "submission.jsonl"]) ++
  (attempt_names files (Join [root; "submissions"; id; "attempts"]) ≫= λ name,
     file_lines files (Join [Join [root; "submissions"; id; "attempts"]; name])).

Lemma read_attempts files dir names records :
  let read := foldM (λ records name,
      if bool_decide (Ext name = ".jsonl")
      then readSubmissionLogLines files (Join [dir; name]) levelFilter streamFilter attemptIDFilter records
      else Ok records) records names in
  let lines := filter (λ name, Ext name = ".jsonl") names ≫= λ name, file_lines files (Join [dir; name]) in
  (Forall readable lines ∧ ∃ records', read = Ok records' ∧ entry <$> records' = (entry <$> records) ++ (lines ≫= entries_of)) ∨
  (¬ Forall readable lines ∧ ∃ e, read = Err e).
Proof.
  cbn zeta. revert records. induction names as [|name names IH]; intros records.
  { left. split; [constructor|]. exists records. by rewrite app_nil_r. }
  rewrite foldM_cons, filter_cons. case_bool_decide as Hx; [rewrite decide_True by done|rewrite decide_False by done; apply IH].
  rewrite bind_cons. destruct (read_file files (Join [dir; name]) records) as [(Hr & r' & -> & He)|(Hr & e & ->)];
    cbn [mbind result_bind].
  - destruct (IH r') as [(Hrs & r'' & -> & Hes)|(Hrs & e & ->)].
    + left. split; [by apply Forall_app|]. exists r''. split; [done|]. by rewrite Hes, He, bind_app, app_assoc.
    + right. split; [|eauto]. by intros [_ ?]%Forall_app.
  - right. split; [|eauto]. by intros [? _]%Forall_app.
Qed.

Lemma read_log_entries files root id tail :
  root ≠ "" → 0 ≤ tail →
  let lines := submission_lines files root id in
  let read := readSubmissionLogEntries files root id tail levelFilter streamFilter attemptIDFilter in
  (Forall readable lines ∧ ∃ all, all ≡ₚ (lines ≫= entries_of) ∧ StronglySorted (λ x y, x.2 ≤ y.2) all ∧
     read = Ok ((drop (length all - Z.to_nat tail) all).*1, tail <? Z.of_nat (length all))) ∨
  (¬ Forall readable lines ∧ ∃ e, read = Err e).
Proof.
  intros Hroot Htail. cbn zeta. unfold readSubmissionLogEntries, submissionLogPath, is_empty.
  rewrite bool_decide_eq_false_2 by done. cbn [mbind result_bind].
  unfold submission_lines, attempt_names.
  set (own := Join [root; "submissions"; id; "submission.jsonl"]).
  set (dir := Join [root; "submissions"; id; "attempts"]).
  destruct (read_file files own []) as [(Hr & r' & -> & He)|(Hr & e & ->)]; cbn [mbind result_bind]; cycle 1.
  { right. split; [|eauto]. by intros [? _]%Forall_app. }
  destruct (read_attempts files dir (ReadDir files dir) r') as [(Hrs & r'' & -> & Hes)|(Hrs & e & ->)];
    cbn [mbind result_bind]; cycle 1.
  { right. split; [|eauto]. by intros [_ ?]%Forall_app. }
  left. split; [by apply Forall_app|]. exists (entry <$> order_by by_time_order r''). split_and!.
  - rewrite order_by_perm, Hes, He, bind_app. done.
  - pose proof (order_by_sorted by_time_order r'') as Hs. induction Hs as [|x l Hs IH HF]; cbn; constructor; [done|].
    apply Forall_fmap. eapply Forall_impl; [exact HF|]. intros y Hy%Is_true_true. unfold by_time_order in Hy. cbn.
    case_match; lia.
  - generalize (order_by by_time_order r''). intros sorted.
    assert (Hc : (entry <$> sorted).*1 = lr_Observation <$> sorted) by (by rewrite <- list_fmap_compose).
    rewrite length_fmap, (fmap_drop fst), Hc, fmap_drop. do 3 f_equal.
    destruct (Z.ltb_spec tail (Z.of_nat (length sorted))); lia.
Qed.
End reading.

(** Reading the logs of a submission succeeds exactly when every line of its files
    can be read (shorter than 64 KiB, and empty or an observation with a time), and
    then returns, of all the observations that pass the filters and nothing else, in
    the order of their times, the last ones up to the requested number, with the mark
    that tells whether some were cut. *)
Theorem log_reading_exact l s a files root id tail :
  root ≠ "" → 0 ≤ tail →
  let lines := submission_lines files root id in
  let read := readSubmissionLogEntries files root id tail l s a in
  (is_Ok read = true ↔ Forall (readable l s a) lines) ∧
  ∀ entries truncated, read = Ok (entries, truncated) →
    ∃ all, all ≡ₚ (lines ≫= entries_of l s a) ∧ StronglySorted (λ x y, x.2 ≤ y.2) all ∧
      entries = (drop (length all - Z.to_nat tail) all).*1 ∧ truncated = (tail <? Z.of_nat (length all)).
Proof.
  intros Hroot Htail. cbn zeta.
  destruct (read_log_entries l s a files root id tail Hroot Htail) as [(Hr & all & Hp & Hs & ->)|(Hr & e & ->)].
  - split; [by split|]. intros entries truncated [= <- <-]. by exists all.
  - split; [|by intros]. split; [done|]. intros H. by destruct Hr.
Qed.

(** ** What a write adds *)

Lemma ext_from_suffix acc s : ext_from acc (s +:+ ".jsonl") = ".jsonl".
Proof.
  revert acc. induction s as [|c s IH]; intros acc; [done|].
  change (String c s +:+ ".jsonl") with (String c (s +:+ ".jsonl")). cbn [ext_from]. by repeat case_decide.
Qed.
Lemma name_in_spec dir path n :
  name_in dir path = Some n ↔ path = dir +:+ "/" +:+ n ∧ n ≠ "" ∧ has_byte "/" n = false.
Proof.
  unfold name_in. split.
  - destruct (has_prefix _ path) eqn:Hp; [|done]. apply has_prefix_spec in Hp as [t ->]. rewrite trim_prefix_app.
    destruct (is_empty t) eqn:He; [done|]. destruct (has_byte "/" t) eqn:Hb; [done|]. intros [= <-].
    apply bool_decide_eq_false in He. by rewrite str_app_assoc.
  - intros (-> & Hn & Hb). rewrite <- str_app_assoc, (proj2 (has_prefix_spec _ _)) by eauto.
    rewrite trim_prefix_app, Hb. unfold is_empty. by rewrite bool_decide_eq_false_2.
Qed.

Section directory.
Context (dir : string).
Definition attempt_name (n : string) : Prop := plain_name n ∧ Ext n = ".jsonl".

Lemma elem_of_attempt_names files n :
  n ∈ attempt_names files dir ↔ attempt_name n ∧ is_Some (files !! (dir +:+ "/" +:+ n)).
Proof.
  unfold attempt_names, ReadDir. rewrite list_elem_of_filter, elem_of_order_by, list_elem_of_omap. split.
  - intros (Hx & path & Hin & (-> & Hn & Hb)%name_in_spec).
    apply list_elem_of_fmap in Hin as ([k v] & -> & Hkv%elem_of_map_to_list). split; [|by exists v].
    split; [|done]. split_and!; [done|by intros ->|by intros ->|done].
  - intros [[(Hn & _ & _ & Hb) Hx] [v Hv]]. split; [done|]. exists (dir +:+ "/" +:+ n). split; [|by apply name_in_spec].
    apply list_elem_of_fmap. exists (dir +:+ "/" +:+ n, v). split; [done|]. by apply elem_of_map_to_list.
Qed.
Lemma attempt_names_NoDup files : NoDup (attempt_names files dir).
Proof.
  unfold attempt_names. apply NoDup_filter. unfold ReadDir. rewrite order_by_perm.
  pose proof (NoDup_fst_map_to_list files) as Hk. revert Hk. generalize (map_to_list files).*1. intros keys Hk.
  induction Hk as [|k keys Hk _ IH]; [constructor|]. cbn [omap list_omap].
  destruct (name_in dir k) as [n|] eqn:Hn; [|done]. constructor; [|done].
  intros (k' & Hk' & (-> & _)%name_in_spec)%list_elem_of_omap. by apply name_in_spec in Hn as (-> & _).
Qed.
End directory.

Lemma lines_append files path line q :
  file_lines (append_line path line files) q = file_lines files q ++ (if decide (path = q) then [line] else []).
Proof.
  unfold file_lines, append_line. case_decide as Heq.
  - subst q. by rewrite lookup_insert_eq.
  - by rewrite lookup_insert_ne, app_nil_r.
Qed.

Lemma bind_one {B} (f : string → list B) n0 line names :
  NoDup names → n0 ∈ names →
  (names ≫= λ n, f n ++ if decide (n = n0) then [line] else []) ≡ₚ line :: (names ≫= f).
Proof.
  intros Hn. induction Hn as [|n names Hnot _ IH]; [by intros ?%elem_of_nil|].
  rewrite !bind_cons. intros [<-|Hin]%elem_of_cons.
  - rewrite decide_True by done.
    assert (Hsame : (names ≫= λ m, f m ++ (if decide (m = n0) then [line] else [])) = names ≫= f).
    { clear IH. induction names as [|m names IHn]; [done|]. rewrite !bind_cons.
      rewrite decide_False by set_solver. rewrite IHn by set_solver. by rewrite app_nil_r. }
    rewrite Hsame. solve_Permutation.
  - rewrite decide_False by (by intros ->). rewrite IH by done. rewrite app_nil_r. solve_Permutation.
Qed.

(** The files of a submission, by their paths. *)
Section submission.
Context (root id : string) (Hroot : root ≠ "") (Hid : plain_name id ∨ id = ".").
Local Notation base := (Join [root; "submissions"; id]).
Local Notation own := (Join [root; "submissions"; id; "submission.jsonl"]).
Local Notation dir := (Join [root; "submissions"; id; "attempts"]).

Lemma below_base n : plain_name n →
  components (Join [root; "submissions"; id; n]) = components base ++ [n] ∧
  rooted (Join [root; "submissions"; id; n]) = rooted base.
Proof.
  intros Hn. rewrite !Join_cons by done.
  assert (He : str_join "/" [root; "submissions"; id; n] = str_join "/" [str_join "/" [root; "submissions"; id]; n]).
  { cbn [str_join]. by rewrite !str_app_assoc. }
  rewrite He. assert (Hne : str_join "/" [root; "submissions"; id] ≠ "").
  { intros H. by destruct root. }
  pose proof (components_Join (str_join "/" [root; "submissions"; id]) [n] Hne ltac:(by apply Forall_singleton)) as [H1 H2].
  rewrite Join_cons in H1, H2 by done. rewrite H1, H2.
  by destruct (components_Clean (str_join "/" [root; "submissions"; id])) as [-> ->].
Qed.
Lemma own_path : Join [base; "submission.jsonl"] = own.
Proof.
  assert (Hb : base ≠ "") by (by apply Join_nonempty).
  destruct (below_base "submission.jsonl" ltac:(plain)) as [H1 H2].
  destruct (components_Join base ["submission.jsonl"] Hb) as [H3 H4]; [apply Forall_singleton; plain|].
  apply Join_eq; [done|done|by rewrite H1, H3|by rewrite H2, H4].
Qed.
Lemma dir_components : components dir ≠ [].
Proof. destruct (below_base "attempts" ltac:(plain)) as [-> _]. by destruct (components base). Qed.
Lemma attempt_path n : plain_name n →
  Join [base; "attempts"; n] = Join [dir; n] ∧ Join [dir; n] = dir +:+ "/" +:+ n ∧
  components (Join [dir; n]) = components base ++ ["attempts"; n].
Proof.
  intros Hn. assert (Hb : base ≠ "") by (by apply Join_nonempty).
  assert (Hd : dir ≠ "") by (by apply Join_nonempty).
  destruct (below_base "attempts" ltac:(plain)) as [H1 H2].
  destruct (components_Join base ["attempts"; n] Hb) as [H3 H4]; [constructor; [plain|by apply Forall_singleton]|].
  destruct (components_Join dir [n] Hd) as [H5 H6]; [by apply Forall_singleton|].
  rewrite H1, <- app_assoc in H5. split_and!; [|by apply Join_name, Hn; [|apply dir_components]|done].
  apply Join_eq; [done|done|by rewrite H3, H5|by rewrite H4, H6, H2].
Qed.
Lemma own_not_attempt n : plain_name n → own ≠ Join [dir; n].
Proof.
  intros Hn H. apply (f_equal components) in H. destruct (attempt_path n Hn) as (_ & _ & Hc). rewrite Hc in H.
  destruct (below_base "submission.jsonl" ltac:(plain)) as [H1 _]. rewrite H1 in H.
  apply (f_equal length) in H. rewrite !length_app in H. simpl in H. lia.
Qed.

Lemma attempt_lines_same files path line names :
  Forall plain_name names → (∀ n, plain_name n → path ≠ Join [dir; n]) →
  (names ≫= λ n, file_lines (append_line path line files) (Join [dir; n])) = (names ≫= λ n, file_lines files (Join [dir; n])).
Proof.
  intros Hn Hp. induction Hn as [|n names Hn _ IH]; [done|]. rewrite !bind_cons, IH, lines_append.
  by rewrite decide_False, app_nil_r by (by apply Hp).
Qed.
Lemma attempt_names_plain files : Forall plain_name (attempt_names files dir).
Proof. apply Forall_forall. by intros n [[? _] _]%elem_of_attempt_names. Qed.
Lemma attempt_names_same files path line :
  (∀ n, plain_name n → path ≠ Join [dir; n]) →
  attempt_names (append_line path line files) dir ≡ₚ attempt_names files dir.
Proof.
  intros Hp. apply NoDup_Permutation; [apply attempt_names_NoDup..|]. intros n. rewrite !elem_of_attempt_names.
  assert (attempt_name n → path ≠ dir +:+ "/" +:+ n) as Hne.
  { intros [Hn _]. destruct (attempt_path n Hn) as (_ & <- & _). by apply Hp. }
  unfold append_line. split; intros [Hn Hs]; (split; [done|]); specialize (Hne Hn); by rewrite lookup_insert_ne in *.
Qed.

(** A line more in the submission's own file. *)
Lemma own_line_added files line :
  submission_lines (append_line own line files) root id ≡ₚ line :: submission_lines files root id.
Proof.
  unfold submission_lines. rewrite lines_append, decide_True by done.
  rewrite (attempt_names_same _ _ _ own_not_attempt).
  rewrite (attempt_lines_same _ _ _ _ (attempt_names_plain files) own_not_attempt). solve_Permutation.
Qed.

(** A line more in the file of an attempt. *)
Lemma attempt_line_added files line n0 :
  attempt_name n0 →
  submission_lines (append_line (Join [dir; n0]) line files) root id ≡ₚ line :: submission_lines files root id.
Proof.
  intros Hn0. destruct (attempt_path n0 (proj1 Hn0)) as (_ & Hpath & _).
  unfold submission_lines. rewrite lines_append, decide_False, app_nil_r by (by apply not_eq_sym, own_not_attempt, Hn0).
  set (f n := file_lines files (Join [dir; n])).
  assert (Hf : ∀ names, Forall plain_name names →
    (names ≫= λ n, file_lines (append_line (Join [dir; n0]) line files) (Join [dir; n]))
    = (names ≫= λ n, f n ++ if decide (n = n0) then [line] else [])).
  { intros names. induction 1 as [|n names Hn _ IH]; [done|]. rewrite !bind_cons, IH, lines_append. do 2 f_equal.
    destruct (attempt_path n Hn) as (_ & Hp & _). rewrite Hp, Hpath.
    destruct (decide (n = n0)) as [->|Hne]; [by rewrite decide_True|]. rewrite decide_False; [done|].
    intros H%str_app_inj_l. by apply str_app_inj_l in H. }
  rewrite Hf by apply attempt_names_plain.
  assert (Hnames : attempt_names (append_line (Join [dir; n0]) line files) dir
    ≡ₚ if decide (n0 ∈ attempt_names files dir) then attempt_names files dir else n0 :: attempt_names files dir).
  { apply NoDup_Permutation; [apply attempt_names_NoDup|case_decide; [|constructor; [done|]]; apply attempt_names_NoDup|].
    intros n. rewrite elem_of_attempt_names. unfold append_line. rewrite Hpath.
    destruct (decide (n = n0)) as [->|Hne].
    - rewrite lookup_insert_eq. case_decide; [|set_solver]. split; [done|]. by split; [|eexists].
    - rewrite lookup_insert_ne by (intros H%str_app_inj_l; apply str_app_inj_l in H; by subst).
      rewrite <- elem_of_attempt_names. case_decide; set_solver. }
  rewrite Hnames. case_decide as Hin.
  - rewrite bind_one by (done || apply attempt_names_NoDup). solve_Permutation.
  - rewrite bind_one by (constructor || set_solver; done || apply attempt_names_NoDup).
    rewrite bind_cons. assert (f n0 = []) as ->; [|solve_Permutation].
    unfold f, file_lines. rewrite Hpath. destruct (files !! _) eqn:He; [|done]. destruct Hin.
    apply elem_of_attempt_names. by split; [|eexists].
Qed.
End submission.

(** An observation that names a submission adds its line to the lines of this submission. *)
Lemma written_line_added root o path files line :
  root ≠ "" → ob_SubmissionID o ≠ "" → sinkLogPath root o = Ok path →
  submission_lines (append_line path line files) root (ob_SubmissionID o)
  ≡ₚ line :: submission_lines files root (ob_SubmissionID o).
Proof.
  intros Hroot Hs. unfold sinkLogPath, is_empty. rewrite bool_decide_eq_false_2 by done.
  intros ([] & Hid%validatePathID_ok & H)%bind_Ok. case_bool_decide.
  - assert (path = Join [Join [root; "submissions"; ob_SubmissionID o]; "submission.jsonl"]) as -> by congruence.
    rewrite own_path by done. by apply own_line_added.
  - apply bind_Ok in H as ([] & Ha%validatePathID_ok%plain_jsonl & H).
    assert (path = Join [Join [root; "submissions"; ob_SubmissionID o]; "attempts"; ob_AttemptID o +:+ ".jsonl"]) as -> by congruence.
    destruct (attempt_path root (ob_SubmissionID o) Hroot _ Ha) as (-> & _).
    apply attempt_line_added; [done..|]. split; [done|]. apply ext_from_suffix.
Qed.

(** A line that the sink wrote can be read, when it is short enough, and contributes
    its observation. *)
Lemma drop_CR_marshal o : drop_CR (Marshal_observation o) = Marshal_observation o.
Proof.
  unfold drop_CR, trim_suffix. destruct (has_suffix _ _) eqn:H; [|done].
  apply andb_true_iff in H as [_ H%bool_decide_eq_true]. exfalso. revert H.
  unfold Marshal_observation, encode_observation. cbn [print].
  match goal with |- context [str_join ?sep ?l] => generalize (str_join sep l) end.
  intros body. rewrite <- str_app_assoc, drop_app_len; [done|]. rewrite slen_app. simpl. lia.
Qed.
Lemma Marshal_nonempty o : is_empty (Marshal_observation o) = false.
Proof. by apply bool_decide_eq_false_2. Qed.

Lemma short_line_entries o ts :
  Forall (λ s, valid_utf8 s = true) (observation_texts o) → 0 ≤ ob_Sequence o < 2 ^ 64 →
  parseTimestamp (ob_Timestamp o) = Ok ts → (slen (Marshal_observation o) < MaxScanTokenSize)%nat →
  line_entries "" "" "" (Marshal_observation o) = Ok [(o, instant ts)].
Proof.
  intros Hu Hseq Hts Hlen. unfold line_entries. rewrite (proj2 (Nat.leb_gt _ _)) by done. cbn [fail_if mbind result_bind].
  rewrite drop_CR_marshal, Marshal_nonempty, observation_line_reads by done. cbn [mbind result_bind].
  change (matchesSubmissionLogFilter o "" "" "") with true. cbn [negb]. by rewrite Hts.
Qed.

(** The time an observation carries. *)
Definition observed_at (o : LogObservation) : Instant :=
  match parseTimestamp (ob_Timestamp o) with Ok ts => instant ts | Err _ => 0 end.
Lemma entries_carry_time l s a lines :
  Forall (λ x, x.2 = observed_at x.1) (lines ≫= entries_of l s a).
Proof.
  apply Forall_bind, Forall_forall. intros line _. cbn. unfold entries_of.
  destruct (line_entries l s a line) as [es|] eqn:H; [|constructor]. unfold line_entries in H.
  apply bind_Ok in H as (u & _ & H). destruct (is_empty _); [injection H as <-; constructor|].
  apply bind_Ok in H as (o & _ & H). destruct (negb _); [injection H as <-; constructor|].
  apply bind_Ok in H as (ts & Hts & [= <-]). repeat constructor. unfold observed_at. cbn. by rewrite Hts.
Qed.
Lemma timed_sorted (all : list (LogObservation * Instant)) :
  Forall (λ x, x.2 = observed_at x.1) all → StronglySorted (λ x y, x.2 ≤ y.2) all →
  StronglySorted (λ x y, observed_at x ≤ observed_at y) all.*1.
Proof.
  intros Ht Hs. induction Hs as [|x l _ IH Hle]; [constructor|]. apply Forall_cons in Ht as [Hx Ht]. cbn. constructor; [by apply IH|].
  apply Forall_fmap, Forall_forall. intros y Hy. cbn. rewrite <- Hx. rewrite Forall_forall in Ht, Hle.
  rewrite <- (Ht y Hy). by apply Hle.
Qed.

(** C10: An observation that the sink wrote is read back.  Take a sink with a root
    directory and an observation at or above its level, with a submission, a path, UTF-8 texts, a 64-bit sequence number, a
    readable time and a line below 64 KiB.  When an unfiltered reading of the logs of its
    submission returned all entries, fewer than the requested number, the write succeeds and
    the same reading then returns those entries and this observation, exactly once, sorted by
    their times. *)
Theorem written_observation_is_read sink o ts files tail entries :
  sk_rootPath sink ≠ "" → ob_SubmissionID o ≠ "" → IsAtLeastLogLevel (ob_Level o) (sk_level sink) = true →
  is_Ok (sinkLogPath (sk_rootPath sink) o) = true →
  Forall (λ s, valid_utf8 s = true) (observation_texts o) → 0 ≤ ob_Sequence o < 2 ^ 64 →
  parseTimestamp (ob_Timestamp o) = Ok ts → (slen (Marshal_observation o) < MaxScanTokenSize)%nat →
  readSubmissionLogEntries files (sk_rootPath sink) (ob_SubmissionID o) tail "" "" "" = Ok (entries, false) →
  Z.of_nat (length entries) < tail →
  (sink_Write sink o files).1 = Ok tt ∧
  ∃ entries', entries' ≡ₚ o :: entries ∧ StronglySorted (λ x y, observed_at x ≤ observed_at y) entries' ∧
    readSubmissionLogEntries (sink_Write sink o files).2 (sk_rootPath sink) (ob_SubmissionID o) tail "" "" ""
    = Ok (entries', false).
Proof.
  intros Hroot Hs Hl Hp Hu Hseq Hts Hlen Hread Htail. unfold sink_Write. rewrite Hl. cbn [negb].
  destruct (sinkLogPath (sk_rootPath sink) o) as [path|e] eqn:Hpath; [|done]. split; [done|]. cbn [snd].
  pose proof (written_line_added _ _ _ files (Marshal_observation o) Hroot Hs Hpath) as Hadd.
  assert (Hle := short_line_entries o ts Hu Hseq Hts Hlen).
  destruct (read_log_entries "" "" "" files _ (ob_SubmissionID o) tail Hroot ltac:(lia)) as [(Hr & all & Hp1 & _ & He)|(_ & e & He)];
    rewrite He in Hread; [|done]. injection Hread as <- Htr. rewrite Z.ltb_ge in Htr.
  destruct (read_log_entries "" "" "" (append_line path (Marshal_observation o) files) _ (ob_SubmissionID o) tail Hroot ltac:(lia))
    as [(Hr' & all' & Hp2 & Hsorted & He')|(Hr' & e & He')]; cycle 1.
  { destruct Hr'. rewrite Hadd. constructor; [|done]. unfold readable. by rewrite Hle. }
  assert (StronglySorted (λ x y, observed_at x ≤ observed_at y) all'.*1) as Hordered
    by (apply timed_sorted; [rewrite Hp2; apply entries_carry_time|exact Hsorted]).
  rewrite Hadd, bind_cons in Hp2. unfold entries_of at 1 in Hp2. rewrite Hle, <- Hp1 in Hp2. cbn [app] in Hp2.
  replace (length all - Z.to_nat tail)%nat with 0%nat in * by lia. rewrite drop_0 in *. rewrite length_fmap in Htail.
  pose proof (Permutation_length Hp2) as Hcount. cbn [length] in Hcount.
  exists all'.*1. split; [exact (fmap_Permutation fst _ _ Hp2)|]. split; [exact Hordered|]. rewrite He', Hcount.
  replace (S (length all) - Z.to_nat tail)%nat with 0%nat by lia. rewrite drop_0. rewrite (proj2 (Z.ltb_ge _ _)) by lia. done.
Qed.
Lemma written_observation_is_read_witness :
  let sink := mkSink "/log" "info" in
  let files := (sink_Write sink (sample "run-1" "" "queued") ∅).2 in
  (sink_Write sink (sample "run-1" "a1" "started") files).1 = Ok tt ∧
  ∃ entries', entries' ≡ₚ [sample "run-1" "a1" "started"; sample "run-1" "" "queued"] ∧
    StronglySorted (λ x y, observed_at x ≤ observed_at y) entries' ∧
    readSubmissionLogEntries (sink_Write sink (sample "run-1" "a1" "started") files).2
      (sk_rootPath sink) (ob_SubmissionID (sample "run-1" "a1" "started")) 10 "" "" "" = Ok (entries', false).
Proof.
  intros sink files.
  refine (written_observation_is_read sink (sample "run-1" "a1" "started")
    (mkTime 2026 1 1 0 0 0 0 0) files 10 [sample "run-1" "" "queued"] _ _ _ _ _ _ _ _ _ _).
  - discriminate.
  - discriminate.
  - vm_compute; reflexivity.
  - vm_compute; reflexivity.
  - repeat (apply Forall_cons_2; [reflexivity|]); apply Forall_nil_2.
  - cbn; lia.
  - vm_compute; reflexivity.
  - apply Nat.ltb_lt. vm_compute. reflexivity.
  - vm_compute; reflexivity.
  - cbn; lia.
Defined.

(** ** A line that is too long *)

(** Lines stay in the files. *)
Lemma line_kept files root id path line line' :
  root ≠ "" → line ∈ submission_lines files root id → line ∈ submission_lines (append_line path line' files) root id.
Proof.
  intros Hroot. unfold submission_lines. rewrite !elem_of_app, !list_elem_of_bind. intros [H|(n & Hin & Hn)].
  - left. rewrite lines_append. by apply elem_of_app; left.
  - right. exists n. split; [rewrite lines_append; by apply elem_of_app; left|].
    apply elem_of_attempt_names in Hn as [Hn Hs]. apply elem_of_attempt_names. split; [done|].
    unfold append_line. by apply lookup_insert_is_Some'; right.
Qed.

Lemma long_line_unreadable files root id tail l s a line :
  root ≠ "" → 0 ≤ tail → line ∈ submission_lines files root id → (MaxScanTokenSize ≤ slen line)%nat →
  is_Ok (readSubmissionLogEntries files root id tail l s a) = false.
Proof.
  intros Hroot Htail Hin Hlen.
  destruct (read_log_entries l s a files root id tail Hroot Htail) as [(Hr & _)|(_ & e & ->)]; [|done].
  rewrite Forall_forall in Hr. specialize (Hr line Hin). unfold readable, line_entries in Hr.
  rewrite (proj2 (Nat.leb_le _ _)) in Hr by done. done.
Qed.

(** An observation that the endpoint accepts can make the logs of its submission
    unreadable for good: when its line has 64 KiB or more, every later reading of the
    submission's logs fails, whatever filters it asks for and whatever else has been
    written meanwhile. *)
Theorem long_observation_blocks_reading sink limit r response o files later tail l s a :
  sk_rootPath sink ≠ "" → 0 ≤ tail →
  logObservationsHandler limit r = (response, Some o) → IsAtLeastLogLevel (ob_Level o) (sk_level sink) = true →
  is_Ok (sinkLogPath (sk_rootPath sink) o) = true → ob_SubmissionID o ≠ "" →
  (MaxScanTokenSize ≤ slen (Marshal_observation o))%nat →
  let files' := foldl (λ files o, accept_observation (Some sink) o files)
                  (accept_observation (Some sink) o files) later in
  is_Ok (readSubmissionLogEntries files' (sk_rootPath sink) (ob_SubmissionID o) tail l s a) = false.
Proof.
  intros Hroot Htail _ Hlevel Hp Hs Hlen. cbn zeta.
  eapply (long_line_unreadable _ _ _ _ _ _ _ (Marshal_observation o)); [done..| |done].
  assert (Hin : Marshal_observation o ∈ submission_lines (accept_observation (Some sink) o files) (sk_rootPath sink) (ob_SubmissionID o)).
  { unfold accept_observation, sink_Write. rewrite Hlevel. cbn [negb].
    destruct (sinkLogPath (sk_rootPath sink) o) as [path|e] eqn:Hpath; [|done]. cbn [snd].
    rewrite written_line_added by done. left. }
  revert Hin. generalize (accept_observation (Some sink) o files). induction later as [|o' later IH]; intros f Hin; [done|].
  cbn [foldl]. apply IH. unfold accept_observation, sink_Write. case_match; [done|].
  case_match; [by apply line_kept|done].
Qed.
#[export] Instance LogObservation_eq_dec : EqDecision LogObservation.
Proof. solve_decision. Defined.
Definition long_message : string := Nat.iter 65536 (String "a") "".
Definition long_request : Request :=
  mkRequest MethodPost "/observations/logs" ∅ ∅ (-1) (Marshal_observation (sample "run-1" "" long_message)).
Lemma long_observation_blocks_reading_witness :
  is_Ok (readSubmissionLogEntries
    (foldl (λ files o, accept_observation (Some (mkSink "/log" "info")) o files)
      (accept_observation (Some (mkSink "/log" "info")) (sample "run-1" "" long_message) ∅) [sample "run-1" "a1" "done"])
    (sk_rootPath (mkSink "/log" "info")) (ob_SubmissionID (sample "run-1" "" long_message)) 100 "error" "" "") = false.
Proof.
  refine (long_observation_blocks_reading (mkSink "/log" "info") (16 * 1024 * 1024) long_request (http_Status StatusNoContent)
    (sample "run-1" "" long_message) ∅ [sample "run-1" "a1" "done"] 100 "error" "" "" _ _ _ _ _ _ _).
  - discriminate.
  - lia.
  - apply (bool_decide_eq_true (_ = _)). vm_compute. reflexivity.
  - vm_compute; reflexivity.
  - vm_compute; reflexivity.
  - discriminate.
  - apply Nat.leb_le. vm_compute. reflexivity.
Defined.
Lemma log_reading_exact_witness :
  let files := (sink_Write (mkSink "/log" "info") (sample "run-1" "" "queued") ∅).2 in
  is_Ok (readSubmissionLogEntries files "/log" "run-1" 1 "" "" "") = true.
Proof.
  intros files. apply (proj1 (log_reading_exact "" "" "" files "/log" "run-1" 1 ltac:(discriminate) ltac:(lia))).
  replace (submission_lines files "/log" "run-1") with [Marshal_observation (sample "run-1" "" "queued")] by (by vm_compute).
  constructor; [|constructor]. unfold readable. vm_compute. reflexivity.
Defined.
