(* ===== verification/Lifecycle.v ===== *)
(** * Worker sessions over HTTP ([cmd/controller/worker_lifecycle.go])

    The handlers that register a worker, take its heartbeats and stop it: methods,
    admission, decoding, the store operations, the start confirmed with the capacity
    manager and the signal to the caretaker.  [Service] is the part of the controller
    that they use; the clock and the random bytes are arguments. *)

From S2P Require Import Prelude GoTime GoJson GoStrings GoJsonLaws GoSha256 Fingerprint.
From S2P Require Import GoJsonStruct GoHttp GoInstant Resource StoreData StoreSQL StoreOps StoreQueries.
From S2P Require Import Variables Expression Functions Resolver WorkerCapacity Caretaker.
From S2P Require Import StoreInv StoreLease OutputText SubmissionContext Logs.
Local Open Scope Z_scope.

(** ** Messages ([internal/model/worker_lifecycle.go]) *)

Record WorkerRegistrationRequest := mkRegistrationRequest {
  wrq_ExecutionHandle : string; wrq_ExecutionEnvironment : string }.
Record WorkerRegistration := mkRegistration {
  wr_WorkerID : string; wr_WorkerSessionID : string; wr_HeartbeatIntervalSeconds : Z; wr_DeadAfterSeconds : Z }.
Record WorkerHeartbeatRequest := mkHeartbeatRequest { whb_WorkerID : string; whb_WorkerSessionID : string }.
Record WorkerStopRequest := mkStopRequest {
  wst_WorkerID : string; wst_WorkerSessionID : string; wst_Reason : string }.

Definition registration_request_fields : Struct WorkerRegistrationRequest :=
  [("execution_handle", into_string (λ x r, mkRegistrationRequest x (wrq_ExecutionEnvironment r)));
   ("execution_environment", into_string (λ x r, mkRegistrationRequest (wrq_ExecutionHandle r) x))].
Definition heartbeat_request_fields : Struct WorkerHeartbeatRequest :=
  [("worker_id", into_string (λ x r, mkHeartbeatRequest x (whb_WorkerSessionID r)));
   ("worker_session_id", into_string (λ x r, mkHeartbeatRequest (whb_WorkerID r) x))].
Definition stop_request_fields : Struct WorkerStopRequest :=
  [("worker_id", into_string (λ x r, mkStopRequest x (wst_WorkerSessionID r) (wst_Reason r)));
   ("worker_session_id", into_string (λ x r, mkStopRequest (wst_WorkerID r) x (wst_Reason r)));
   ("reason", into_string (λ x r, mkStopRequest (wst_WorkerID r) (wst_WorkerSessionID r) x))].
Definition registration_fields : Struct WorkerRegistration :=
  [("worker_id", into_string (λ x r, mkRegistration x (wr_WorkerSessionID r) (wr_HeartbeatIntervalSeconds r) (wr_DeadAfterSeconds r)));
   ("worker_session_id", into_string (λ x r, mkRegistration (wr_WorkerID r) x (wr_HeartbeatIntervalSeconds r) (wr_DeadAfterSeconds r)));
   ("heartbeat_interval_seconds", into_int (λ x r, mkRegistration (wr_WorkerID r) (wr_WorkerSessionID r) x (wr_DeadAfterSeconds r)));
   ("dead_after_seconds", into_int (λ x r, mkRegistration (wr_WorkerID r) (wr_WorkerSessionID r) (wr_HeartbeatIntervalSeconds r) x))].
Definition encode_registration (r : WorkerRegistration) : JSON :=
  JObject (field "worker_id" (JString (wr_WorkerID r)) ++ field "worker_session_id" (JString (wr_WorkerSessionID r)) ++
           field "heartbeat_interval_seconds" (JInt (wr_HeartbeatIntervalSeconds r)) ++
           field "dead_after_seconds" (JInt (wr_DeadAfterSeconds r))).
Definition encode_heartbeat_request (r : WorkerHeartbeatRequest) : JSON :=
  JObject (field "worker_id" (JString (whb_WorkerID r)) ++ field "worker_session_id" (JString (whb_WorkerSessionID r))).
Definition encode_stop_request (r : WorkerStopRequest) : JSON :=
  JObject (field "worker_id" (JString (wst_WorkerID r)) ++ field "worker_session_id" (JString (wst_WorkerSessionID r)) ++
           field "reason" (JString (wst_Reason r))).

(** [err.Error()]; [locatedError] shows its cause. *)
Fixpoint error_text (e : GoError) : string :=
  match e with
  | Errorf msg | Sentinel msg | SqlConstraint msg => msg
  | Wrapf msg cause => msg +:+ ": " +:+ error_text cause
  | Located _ cause => error_text cause
  end.
(** [json.NewEncoder(w).Encode(x)] *)
Definition newline_text : string := String "010" "".
Definition http_JSON (status : nat) (v : JSON) : Response := mkResponse status (print v +:+ newline_text).

(** ** The service *)

(** [sv_careTaker]: the caretaker that [workerStateChanged] signals, when it is set. *)
Record Service := mkService {
  sv_store : option Store; sv_normalAdmission : bool; sv_maxRequestBytes : Z;
  sv_launchResolver : Resolver; sv_workerExecutor : option WorkerCapacityManager; sv_careTaker : option CareTaker }.

Definition set_store (st : Store) (s : Service) : Service :=
  mkService (Some st) (sv_normalAdmission s) (sv_maxRequestBytes s) (sv_launchResolver s) (sv_workerExecutor s)
    (sv_careTaker s).
(** [c.ConfirmWorkerStartRegistered(now)] *)
Definition ConfirmWorkerStartRegistered (s : Service) : Service :=
  mkService (sv_store s) (sv_normalAdmission s) (sv_maxRequestBytes s) (sv_launchResolver s)
    ((λ m, (ConfirmOldestInflightStartRegistered m).2) <$> sv_workerExecutor s) (sv_careTaker s).
(** [caretaker.Signal(reason)] *)
Definition Signal (reason : string) (c : CareTaker) : CareTaker := sendWake (recordSignal reason c).
Definition signalWorkerStateChanged (reason : string) (s : Service) : Service :=
  mkService (sv_store s) (sv_normalAdmission s) (sv_maxRequestBytes s) (sv_launchResolver s) (sv_workerExecutor s)
    (Signal reason <$> sv_careTaker s).

Definition decodeWorkerLifecycleRequest {R} (fields : Struct R) (zero : R) (s : Service) (r : Request) (label : string) :
    R + Response :=
  decode_limited fields zero (sv_maxRequestBytes s) r label "request body must be one JSON document".

(** The checks that the three handlers begin with. *)
Definition lifecycle_guard (s : Service) (r : Request) (k : Store → Response * Service) : Response * Service :=
  if negb (bool_decide (rq_Method r = MethodPost)) then (http_Error "method not allowed" StatusMethodNotAllowed, s) else
  if negb (sv_normalAdmission s) then (http_Error "controller is in recovery mode" StatusServiceUnavailable, s) else
  match sv_store s with
  | None => (http_Error "workflow store required" StatusServiceUnavailable, s)
  | Some st => k st
  end.

(** [randomHex(byteCount)]: the bytes read, or the clock when reading them fails. *)
Definition randomHex (data : option (list N)) (now : Instant) : string :=
  match data with
  | Some bytes_ => EncodeToString bytes_
  | None => pretty (wrap64 now)
  end.

Section handlers.
Context (eng : Engine).

Definition registerWorkerHandler (now : Instant) (random1 random2 : option (list N)) (r : Request) (s : Service) :
    Response * Service :=
  lifecycle_guard s r (λ st,
    match decodeWorkerLifecycleRequest registration_request_fields (mkRegistrationRequest "" "") s r
            "decode worker registration" with
    | inr response => (response, s)
    | inl request =>
        match workerHeartbeatPolicyConfig (sv_launchResolver s) defaultWorkerHeartbeatPolicy with
        | Err e => (http_Error ("worker heartbeat policy: " +:+ error_text e) StatusInternalServerError, s)
        | Ok policy =>
            match RegisterWorkerSession eng
                    (mkRegister ("worker-" +:+ randomHex random1 now) ("worker-session-" +:+ randomHex random2 now)
                       (FormatNano now) (wrq_ExecutionHandle request)) st with
            | (Err _, st') => (http_Error "register worker session" StatusInternalServerError, set_store st' s)
            | (Ok session, st') =>
                (http_JSON StatusCreated (encode_registration
                   (mkRegistration (ws_WorkerID session) (ws_ID session)
                      (Z.quot (HeartbeatInterval policy) Second) (Z.quot (DeadAfter policy) Second))),
                 signalWorkerStateChanged "worker_registered" (ConfirmWorkerStartRegistered (set_store st' s)))
            end
        end
    end).

Definition heartbeatWorkerHandler (now : Instant) (r : Request) (s : Service) : Response * Service :=
  lifecycle_guard s r (λ st,
    match decodeWorkerLifecycleRequest heartbeat_request_fields (mkHeartbeatRequest "" "") s r
            "decode worker heartbeat" with
    | inr response => (response, s)
    | inl request =>
        if is_empty (whb_WorkerID request) || is_empty (whb_WorkerSessionID request)
        then (http_Error "worker id and worker session id are required" StatusBadRequest, s) else
        match HeartbeatWorkerSession
                (mkHeartbeat (whb_WorkerID request) (whb_WorkerSessionID request) (FormatNano now)) st with
        | (Err _, st') => (http_Error "heartbeat worker session" StatusInternalServerError, set_store st' s)
        | (Ok updated, st') =>
            if negb updated then (http_Error "worker session is not active" StatusConflict, set_store st' s)
            else (http_Status StatusNoContent, set_store st' s)
        end
    end).

Definition stopWorkerHandler (now : Instant) (r : Request) (s : Service) : Response * Service :=
  lifecycle_guard s r (λ st,
    match decodeWorkerLifecycleRequest stop_request_fields (mkStopRequest "" "" "") s r "decode worker stop" with
    | inr response => (response, s)
    | inl request =>
        if is_empty (wst_WorkerID request) || is_empty (wst_WorkerSessionID request) || is_empty (wst_Reason request)
        then (http_Error "worker id, worker session id, and reason are required" StatusBadRequest, s) else
        match GetWorkerSession (wst_WorkerID request) (wst_WorkerSessionID request) st with
        | Err _ => (http_Error "get worker session" StatusInternalServerError, s)
        | Ok None => (http_Error "worker session is not active" StatusConflict, s)
        | Ok (Some session) =>
            if bool_decide (ws_Status session = WorkerSessionStatusDead)
            then (http_Error "worker session is not active" StatusConflict, s) else
            if bool_decide (ws_Status session = WorkerSessionStatusStopped)
            then (http_Status StatusNoContent, s) else
            match StopWorkerSessionAndRecoverWork eng
                    (mkStop (wst_WorkerID request) (wst_WorkerSessionID request) (FormatNano now) (wst_Reason request)) st with
            | (Err _, st') => (http_Error "stop worker session" StatusInternalServerError, set_store st' s)
            | (Ok result, st') =>
                if negb (spr_Changed result)
                then (http_Error "worker session is not active" StatusConflict, set_store st' s)
                else (http_Status StatusNoContent, signalWorkerStateChanged "worker_stopped" (set_store st' s))
            end
        end
    end).
End handlers.

(** * What the worker-session handlers guarantee *)
Local Open Scope Z_scope.

(** ** Bodies *)

(** A written document is the first value of a body. *)
Lemma first_value_print depth v tail :
  tree_ok depth v → (depth ≤ maxNestingDepth)%N → ends_number (chunks tail) = true →
  first_value (print v +:+ tail) = Some (v, chunks tail).
Proof.
  intros (Hw & Hi & Hd) Hmax Htail. destruct (print_reads v Hw Hi) as [Hu Hr].
  destruct (Hr 0%N (chunks tail) Htail ltac:(lia)) as [f0 Hf].
  unfold first_value. rewrite chunks_app by done.
  rewrite <- (parse_value_fuel (f0 + parse_fuel (chunks (print v) ++ chunks tail))) by lia.
  apply Hf. lia.
Qed.

(** A request with a written document as its body, within the limit. *)
Definition post (path : string) (v : JSON) : Request :=
  mkRequest MethodPost path ∅ ∅ (Z.of_nat (slen (print v))) (print v).
Definition fits (limit : Z) (v : JSON) : Prop := limit ≤ 0 ∨ Z.of_nat (slen (print v)) ≤ limit.
Lemma decode_posted {R} (fields : Struct R) zero limit path v label extra x depth :
  tree_ok depth v → (depth ≤ maxNestingDepth)%N → fits limit v → decode_struct false fields zero v = Ok x →
  decode_limited fields zero limit (post path v) label extra = inl x.
Proof.
  intros Hok Hmax Hfits Hx. unfold decode_limited, post. cbn [rq_ContentLength rq_Body].
  assert (Hl : (0 <? limit) && (limit <? Z.of_nat (slen (print v))) = false).
  { destruct Hfits; [destruct (Z.ltb_spec 0 limit); [lia|done]|].
    destruct (Z.ltb_spec limit (Z.of_nat (slen (print v)))); [lia|]. apply andb_false_r. }
  rewrite Hl. pose proof (first_value_print depth v "" Hok Hmax eq_refl) as Hf.
  rewrite str_app_nil_r in Hf. rewrite Hf, Hx. done.
Qed.

(** ** Registration *)

(** What a successful registration leaves in the table. *)
Lemma RegisterWorkerSession_row eng request st session st' :
  RegisterWorkerSession eng request st = (Ok session, st') →
  ws_ID session = reg_SessionID request ∧ ws_WorkerID session = reg_WorkerID request ∧
  ∃ db' row, st' = Some db' ∧ worker_sessions (exec db') !! reg_SessionID request = Some row ∧
    sr_worker_id row = reg_WorkerID request ∧ sr_status row = WorkerSessionStatusActive.
Proof.
  unfold RegisterWorkerSession, transact. destruct st as [db|]; [|done].
  destruct (validate_register request); [|done]. unfold on_exec_tx.
  destruct (tx_register eng request (exec db)) as [[s e']|] eqn:Htx; cbn [mbind result_bind]; [|done].
  intros [= <- <-]. unfold tx_register, getWorkerSessionByID in Htx.
  destruct (worker_sessions (exec db) !! reg_SessionID request) as [row|] eqn:Hrow; cbn [fmap option_fmap option_map] in Htx.
  - apply bind_Ok in Htx as ([] & Hm%fail_if_Ok & [= <- <-]). apply negb_false_iff, bool_decide_eq_true in Hm.
    cbn [ws_ID ws_WorkerID ws_Status scanWorkerSession] in Hm |- *. destruct Hm as (_ & Hw & Hs & _).
    split_and!; [done|done|]. by exists (mkDB (catalog db) (exec db)), row.
  - apply bind_Ok in Htx as (e2 & Hins & [= <- <-]). split_and!; [done|done|].
    apply wrap_err_Ok in Hins. unfold insert_worker_session in Hins. apply bind_Ok in Hins as (_ & _ & [= <-]).
    eexists _, _. split; [done|]. cbn [exec]. cbn [worker_sessions set_worker_sessions]. by rewrite lookup_insert_eq.
Qed.

(** The session of a request that asks for this identity is active. *)
Definition active_session (s : Service) (worker session : string) : Prop :=
  ∃ db row, sv_store s = Some (Some db) ∧ worker_sessions (exec db) !! session = Some row ∧
    sr_worker_id row = worker ∧ sr_status row = WorkerSessionStatusActive.

Lemma guard_inv s r k :
  (∃ st, rq_Method r = MethodPost ∧ sv_normalAdmission s = true ∧ sv_store s = Some st ∧ lifecycle_guard s r k = k st) ∨
  (lifecycle_guard s r k).2 = s ∧ (rs_Status (lifecycle_guard s r k).1 = StatusMethodNotAllowed ∨
     rs_Status (lifecycle_guard s r k).1 = StatusServiceUnavailable).
Proof.
  unfold lifecycle_guard. case_bool_decide as Hm; cbn [negb]; [|right; by eauto].
  destruct (sv_normalAdmission s); cbn [negb]; [|right; by eauto].
  destruct (sv_store s) as [st|]; [left|right; by eauto]. by exists st.
Qed.
Lemma guard_posted s r k st :
  rq_Method r = MethodPost → sv_normalAdmission s = true → sv_store s = Some st → lifecycle_guard s r k = k st.
Proof. intros Hm Ha Hs. unfold lifecycle_guard. by rewrite bool_decide_eq_true_2, Ha, Hs. Qed.

Lemma decode_refused {R} (fields : Struct R) zero limit r label extra response :
  decode_limited fields zero limit r label extra = inr response →
  rs_Status response = StatusRequestEntityTooLarge ∨ rs_Status response = StatusBadRequest.
Proof. unfold decode_limited. intros H. repeat case_match; simplify_eq; eauto. Qed.

(** Durations that are read fit 64 bits, and so do the heartbeat policy's. *)
Lemma duration_parts_range fuel : ∀ d s d', 0 ≤ d ≤ max_unsigned → duration_parts fuel d s = Ok d' → 0 ≤ d' ≤ max_unsigned.
Proof.
  induction fuel as [|fuel IH]; intros d s d' Hd; [by intros [= <-]|]. cbn [duration_parts].
  destruct s as [|c s]; [by intros [= <-]|]. intros ([] & _ & H)%bind_Ok.
  apply bind_Ok in H as ([v rest] & _ & H). destruct (match rest with String "." _ => _ | _ => _ end) as [[[f scale] rest'] post_].
  apply bind_Ok in H as ([] & _ & H). apply bind_Ok in H as ([] & _ & H). case_match; [|done].
  apply bind_Ok in H as ([] & _ & H). apply bind_Ok in H as ([] & _ & H). apply bind_Ok in H as ([] & Hm%fail_if_Ok & H).
  eapply IH; [|exact H]. split; [apply Z.mod_pos_bound; lia|by apply Z.ltb_ge].
Qed.
Lemma ParseDuration_int64 text d : ParseDuration text = Ok d → int64 d.
Proof.
  assert (Hgo : ∀ (neg : bool) s, (if bool_decide (s = "0") then Ok 0 else
    fail_if (is_empty s) invalid_duration;; d ← duration_parts (slen s) 0 s;
    if neg then Ok (- d) else fail_if (max_unsigned - 1 <? d) invalid_duration;; Ok d) = Ok d → int64 d).
  { intros neg s. case_bool_decide as Hz; [by intros [= <-]|]. intros ([] & _ & H)%bind_Ok.
    apply bind_Ok in H as (x & Hx & H). apply duration_parts_range in Hx; [|by split].
    unfold int64, MinInt64, MaxInt64, max_unsigned in *. destruct neg; [by injection H as <-; lia|].
    apply bind_Ok in H as ([] & Hm%fail_if_Ok & [= <-]). apply Z.ltb_ge in Hm. lia. }
  unfold ParseDuration. match goal with |- (let '(_, _) := ?p in _) = _ → _ => destruct p as [neg s] end. apply Hgo.
Qed.
Lemma duration_variable_int64 resolver name fallback d :
  int64 fallback → optionalDurationVariable resolver name fallback = Ok d → int64 d.
Proof.
  intros Hf. unfold optionalDurationVariable, variable_or_fallback. intros (x & _ & H)%bind_Ok.
  case_match; [|by injection H as <-]. apply bind_Ok in H as ([] & _ & H). apply bind_Ok in H as (text & _ & H).
  apply wrap_err_Ok in H. by eapply ParseDuration_int64.
Qed.
Lemma policy_int64 resolver policy :
  workerHeartbeatPolicyConfig resolver defaultWorkerHeartbeatPolicy = Ok policy →
  0 < HeartbeatInterval policy < DeadAfter policy ∧ int64 (DeadAfter policy).
Proof.
  unfold workerHeartbeatPolicyConfig. intros (a & Ha & H)%bind_Ok. apply bind_Ok in H as (b & Hb & H).
  apply bind_Ok in H as ([] & Hv & [= <-]). unfold validateWorkerHeartbeatPolicy in Hv.
  apply bind_Ok in Hv as ([] & H1%fail_if_Ok & Hv). apply bind_Ok in Hv as ([] & H2%fail_if_Ok & _).
  apply Z.leb_gt in H1, H2. split; [done|]. eapply duration_variable_int64; [|exact Hb].
  unfold int64, MinInt64, MaxInt64, defaultWorkerHeartbeatPolicy, Minute. cbn. lia.
Qed.

(** What 201 means. *)
Lemma registered eng now r1 r2 r s response s' :
  registerWorkerHandler eng now r1 r2 r s = (response, s') → rs_Status response = StatusCreated →
  sv_normalAdmission s' = true ∧ sv_maxRequestBytes s' = sv_maxRequestBytes s ∧
  ∃ reg policy, response = http_JSON StatusCreated (encode_registration reg) ∧
    workerHeartbeatPolicyConfig (sv_launchResolver s) defaultWorkerHeartbeatPolicy = Ok policy ∧
    reg = mkRegistration ("worker-" +:+ randomHex r1 now) ("worker-session-" +:+ randomHex r2 now)
            (Z.quot (HeartbeatInterval policy) Second) (Z.quot (DeadAfter policy) Second) ∧
    active_session s' (wr_WorkerID reg) (wr_WorkerSessionID reg).
Proof.
  unfold registerWorkerHandler. set (k := λ st, _).
  destruct (guard_inv s r k) as [(st & _ & Ha & Hst & ->)|[_ Hs]]; cycle 1.
  { intros H H201. rewrite H in Hs. cbn [fst] in Hs. rewrite H201 in Hs. by destruct Hs. }
  unfold k. clear k. destruct (decodeWorkerLifecycleRequest _ _ _ _ _) as [request|resp] eqn:Hd; cycle 1.
  { intros [= <- <-] H201. apply decode_refused in Hd. rewrite H201 in Hd. by destruct Hd. }
  destruct (workerHeartbeatPolicyConfig _ _) as [policy|e]; [|by intros [= <- <-]].
  destruct (RegisterWorkerSession _ _ _) as [[session|e] st'] eqn:Hreg; [|by intros [= <- <-]].
  intros [= <- <-] _. apply RegisterWorkerSession_row in Hreg as (Hid & Hw & db' & row & -> & Hrow & Hrw & Hrs).
  cbn [reg_SessionID reg_WorkerID] in *. split; [done|]. split; [done|]. eexists _, policy. split; [done|].
  rewrite Hid, Hw. split; [done|]. split; [done|]. by exists db', row.
Qed.

(** Texts of identifiers are UTF-8. *)
Lemma hex_valid l : Forall (λ n, (n < 256)%N) l → valid_utf8 (EncodeToString l) = true.
Proof.
  unfold valid_utf8. induction 1 as [|n l Hn _ IH]; [done|].
  destruct (hex_digit_lower (n / 16)) as [_ Ha]; [apply N.Div0.div_lt_upper_bound; lia|].
  destruct (hex_digit_lower (n mod 16)) as [_ Hb]; [apply N.mod_lt; lia|].
  cbn [EncodeToString chunks]. rewrite Ha. cbn [chunks]. by rewrite Hb.
Qed.
Definition random_bytes (data : option (list N)) : Prop :=
  match data with Some l => Forall (λ n, (n < 256)%N) l | None => True end.
Lemma digits_valid s : all_digits s = true → valid_utf8 s = true.
Proof.
  unfold valid_utf8. induction s as [|c s IH]; [done|]. cbn [all_digits]. intros [Hc Hs]%andb_true_iff.
  cbn [chunks]. rewrite (digit_ascii c Hc). cbn [forallb chunk_valid]. by apply IH.
Qed.
Lemma pretty_valid (z : Z) : valid_utf8 (pretty z) = true.
Proof.
  pose proof (pretty_Z_canonical z) as H. apply canonical_integer in H as (s & (_ & _ & Hd)%decimal_spec & Ht).
  apply digits_valid in Hd. destruct Ht as [->| ->]; [done|]. by apply (valid_utf8_app "-").
Qed.
Lemma randomHex_valid data now : random_bytes data → valid_utf8 (randomHex data now) = true.
Proof. destruct data; [apply hex_valid|intros _; apply pretty_valid]. Qed.

Lemma registration_tree_ok reg :
  valid_utf8 (wr_WorkerID reg) = true → valid_utf8 (wr_WorkerSessionID reg) = true → tree_ok 1 (encode_registration reg).
Proof.
  intros Hw Hs. apply (object_ok 0); [by apply (bool_decide_eq_true (NoDup _)); vm_compute|].
  repeat (apply Forall_cons; split); try apply Forall_nil_2; (split; [reflexivity|]); cbn [snd];
    (by apply string_ok) || apply int_tree_ok.
Qed.
Lemma heartbeat_tree_ok req :
  valid_utf8 (whb_WorkerID req) = true → valid_utf8 (whb_WorkerSessionID req) = true → tree_ok 1 (encode_heartbeat_request req).
Proof.
  intros Hw Hs. apply (object_ok 0); [by apply (bool_decide_eq_true (NoDup _)); vm_compute|].
  repeat (apply Forall_cons; split); try apply Forall_nil_2; (split; [reflexivity|]); cbn [snd]; by apply string_ok.
Qed.
Lemma registration_reads reg :
  int64 (wr_HeartbeatIntervalSeconds reg) → int64 (wr_DeadAfterSeconds reg) →
  decode_struct false registration_fields (mkRegistration "" "" 0 0) (encode_registration reg) = Ok reg.
Proof.
  intros H1 H2. destruct reg as [w se h d]. cbn -[Atoi pretty]. rewrite Atoi_pretty by done. cbn -[Atoi pretty].
  by rewrite Atoi_pretty.
Qed.

Lemma FormatNano_valid now name :
  representable now → is_empty (FormatNano now) = false ∧ validateTimestamp name (FormatNano now) = Ok tt.
Proof.
  intros Hnow%representable_parses. split; [apply bool_decide_eq_false; intros H; by rewrite H in Hnow|].
  unfold validateTimestamp, valid_timestamp. by rewrite Hnow.
Qed.
Lemma is_empty_ne s : s ≠ "" → is_empty s = false.
Proof. apply bool_decide_eq_false. Qed.

(** A heartbeat of an active session. *)
Lemma heartbeat_active now path s request :
  representable now → active_session s (whb_WorkerID request) (whb_WorkerSessionID request) →
  sv_normalAdmission s = true → whb_WorkerID request ≠ "" → whb_WorkerSessionID request ≠ "" →
  valid_utf8 (whb_WorkerID request) = true → valid_utf8 (whb_WorkerSessionID request) = true →
  fits (sv_maxRequestBytes s) (encode_heartbeat_request request) →
  ∃ s', heartbeatWorkerHandler now (post path (encode_heartbeat_request request)) s = (http_Status StatusNoContent, s') ∧
    active_session s' (whb_WorkerID request) (whb_WorkerSessionID request) ∧
    ∃ db row, sv_store s' = Some (Some db) ∧ worker_sessions (exec db) !! whb_WorkerSessionID request = Some row ∧
      sr_last_heartbeat_at row = FormatNano now.
Proof.
  intros Hnow (db & row & Hst & Hrow & Hw & Hs) Ha Hne1 Hne2 Hu1 Hu2 Hfits.
  unfold heartbeatWorkerHandler. rewrite (guard_posted s _ _ (Some db)) by done.
  unfold decodeWorkerLifecycleRequest. erewrite decode_posted; [|by apply heartbeat_tree_ok|done|done|by destruct request].
  rewrite !is_empty_ne by done. cbn [orb].
  destruct (FormatNano_valid now "worker session heartbeat at" Hnow) as [Hf Ht].
  unfold HeartbeatWorkerSession, transact, validate_heartbeat, required. cbn [hb_WorkerID hb_SessionID hb_HeartbeatAt].
  rewrite Hf, Ht, !is_empty_ne by done. cbn [fail_if mbind result_bind]. unfold on_exec_tx, update_heartbeat.
  cbn [hb_WorkerID hb_SessionID hb_HeartbeatAt]. rewrite Hrow, decide_True by done. cbn [mbind result_bind negb].
  eexists. split; [done|].
  assert (Hl : ∀ r, worker_sessions (exec (mkDB (catalog db) (set_worker_sessions
    (<[whb_WorkerSessionID request := r]> (worker_sessions (exec db))) (exec db)))) !! whb_WorkerSessionID request = Some r).
  { intros r. cbn. apply lookup_insert_eq. }
  split; eexists _, _; (split; [done|]); (split; [apply Hl|]); done.
Qed.

(** A worker that is registered can keep its session alive with what it was told:
    the answer with status 201 is a JSON document that reads back as a registration,
    its session is active, and a heartbeat posted with the identity in it is answered
    with 204, leaves the session active, and stores the time of the heartbeat. *)
Theorem registered_worker_heartbeats eng now r1 r2 r s response s1 later path :
  registerWorkerHandler eng now r1 r2 r s = (response, s1) → rs_Status response = StatusCreated →
  random_bytes r1 → random_bytes r2 → representable later →
  ∃ reg, decode_first registration_fields (mkRegistration "" "" 0 0) (rs_Body response) = Ok reg ∧
    let beat := mkHeartbeatRequest (wr_WorkerID reg) (wr_WorkerSessionID reg) in
    active_session s1 (wr_WorkerID reg) (wr_WorkerSessionID reg) ∧
    (fits (sv_maxRequestBytes s) (encode_heartbeat_request beat) →
     ∃ s2 db row, heartbeatWorkerHandler later (post path (encode_heartbeat_request beat)) s1 = (http_Status StatusNoContent, s2) ∧
       sv_store s2 = Some (Some db) ∧ worker_sessions (exec db) !! wr_WorkerSessionID reg = Some row ∧
       sr_worker_id row = wr_WorkerID reg ∧ sr_status row = WorkerSessionStatusActive ∧
       sr_last_heartbeat_at row = FormatNano later).
Proof.
  intros H H201 Hr1 Hr2 Hlater. destruct (registered _ _ _ _ _ _ _ _ H H201) as (Ha & Hm & reg & policy & -> & Hp & Hreg & Hact).
  apply policy_int64 in Hp as [Hpos Hp64]. exists reg.
  assert (Hu1 : valid_utf8 (wr_WorkerID reg) = true)
    by (subst reg; by apply (valid_utf8_app "worker-"), randomHex_valid).
  assert (Hu2 : valid_utf8 (wr_WorkerSessionID reg) = true)
    by (subst reg; by apply (valid_utf8_app "worker-session-"), randomHex_valid).
  split; [|split; [done|]].
  - unfold decode_first. cbn [http_JSON rs_Body]. rewrite (first_value_print 1) by (done || by apply registration_tree_ok).
    apply registration_reads; subst reg; cbn [wr_HeartbeatIntervalSeconds wr_DeadAfterSeconds].
    all: unfold int64, MinInt64, MaxInt64, Second in *; (split; [transitivity 0; [lia|apply Z.quot_pos; lia]|]).
    all: apply Z.quot_le_upper_bound; lia.
  - intros Hfits. rewrite <- Hm in Hfits.
    destruct (heartbeat_active later path s1 (mkHeartbeatRequest (wr_WorkerID reg) (wr_WorkerSessionID reg)))
      as (s2 & Hs2 & (db & row & Hst & Hrow & Hw & Hs) & db' & row' & Hst' & Hrow' & Hb); try done.
    1-2: by subst reg.
    rewrite Hst in Hst'. injection Hst' as <-. cbn [whb_WorkerSessionID whb_WorkerID] in *. rewrite Hrow in Hrow'. injection Hrow' as <-.
    by exists s2, db, row.
Qed.

(** ** Stopping *)

Lemma stop_assignment_effect eng request acc asg acc' :
  stop_assignment eng request acc asg = Ok acc' →
  worker_sessions acc'.2 = worker_sessions acc.2 ∧ spr_Changed acc'.1 = spr_Changed acc.1 ∧
  is_Some (abandoned_work acc'.2 !! rw_attemptID asg) ∧ is_Some (queued_work acc'.2 !! rw_workItemID asg) ∧
  (∀ a, is_Some (abandoned_work acc.2 !! a) → is_Some (abandoned_work acc'.2 !! a)) ∧
  (∀ i, is_Some (queued_work acc.2 !! i) → is_Some (queued_work acc'.2 !! i)).
Proof.
  destruct acc as [res e]. unfold stop_assignment. intros (e1 & H1 & H)%bind_Ok.
  apply bind_Ok in H as ([b e2] & H2 & [= <-]). cbn [fst snd spr_Changed].
  unfold abandonRunningWork in H1. apply bind_Ok in H1 as (e0 & H0%wrap_err_Ok & H1).
  unfold insert_abandoned_work in H0. apply bind_Ok in H0 as (_ & _ & [= <-]).
  unfold deleteRunningWork in H1. case_match; [|done]. injection H1 as <-.
  unfold requeueAbandonedWork in H2. cbn in H2 |- *. destruct (queued_work e !! rw_workItemID asg) as [q|] eqn:Hq.
  - injection H2 as <- <-. cbn. rewrite lookup_insert_eq, Hq. split_and!; try done; try by eauto.
    intros a Ha. by apply lookup_insert_is_Some'; right.
  - apply bind_Ok in H2 as (e3 & H3%wrap_err_Ok & [= <- <-]). unfold insert_queued_work in H3.
    apply bind_Ok in H3 as (_ & _ & [= <-]). cbn. rewrite !lookup_insert_eq.
    split_and!; try done; try by eauto; intros a Ha; by apply lookup_insert_is_Some'; right.
Qed.
Lemma stop_assignments_effect eng request l : ∀ acc acc',
  foldM (stop_assignment eng request) acc l = Ok acc' →
  worker_sessions acc'.2 = worker_sessions acc.2 ∧ spr_Changed acc'.1 = spr_Changed acc.1 ∧
  (∀ asg, asg ∈ l → is_Some (abandoned_work acc'.2 !! rw_attemptID asg) ∧ is_Some (queued_work acc'.2 !! rw_workItemID asg)) ∧
  (∀ a, is_Some (abandoned_work acc.2 !! a) → is_Some (abandoned_work acc'.2 !! a)) ∧
  (∀ i, is_Some (queued_work acc.2 !! i) → is_Some (queued_work acc'.2 !! i)).
Proof.
  induction l as [|asg l IH]; intros acc acc'.
  { intros [= <-]. split_and!; try done. by intros ? ?%elem_of_nil. }
  rewrite foldM_cons. intros (acc1 & H1 & H)%bind_Ok.
  apply stop_assignment_effect in H1 as (Hs1 & Hc1 & Ha1 & Hq1 & Hka1 & Hkq1).
  apply IH in H as (Hs2 & Hc2 & Hl2 & Hka2 & Hkq2). split_and!; [congruence|congruence| |by auto|by auto].
  intros asg' [->|Hin]%elem_of_cons; [by auto|by apply Hl2].
Qed.

(** What a stop that changed something did. *)
Lemma tx_stop_effect eng request e res e' :
  tx_stop eng request e = Ok (res, e') → spr_Changed res = true →
  (∃ row, worker_sessions e' !! sp_SessionID request = Some row ∧ sr_worker_id row = sp_WorkerID request ∧
     sr_status row = WorkerSessionStatusStopped) ∧
  (∀ a r, running_work e !! a = Some r → rr_worker_session_id r = Some (sp_SessionID request) →
     is_Some (abandoned_work e' !! a) ∧ is_Some (queued_work e' !! rr_work_item_id r)).
Proof.
  unfold tx_stop. intros H Hch. destruct (getWorkerSession _ _ _); [|by injection H as <- <-].
  case_decide; [by injection H as <- <-|].
  destruct (markWorkerSessionStopped request e) as [changed e1] eqn:Hm.
  destruct changed; cbn [negb] in H; [|by injection H as <- <-].
  unfold markWorkerSessionStopped, end_session_where in Hm. case_match; [|done]. case_match; [|done].
  injection Hm as <-. rewrite andb_true_r, bool_decide_eq_true in *. destruct_and!.
  apply stop_assignments_effect in H as (Hs & _ & Hl & _). cbn [snd] in *. split.
  - rewrite Hs. cbn. rewrite lookup_insert_eq. by eexists.
  - intros a r Ha Hsid. apply (Hl (scanRunning a r)). apply elem_of_listRunning. by exists a, r.
Qed.

Definition stopped_session (s : Service) (worker session : string) : Prop :=
  ∃ db row, sv_store s = Some (Some db) ∧ worker_sessions (exec db) !! session = Some row ∧
    sr_worker_id row = worker ∧ sr_status row = WorkerSessionStatusStopped.

Lemma stop_stopped eng later r s request :
  decodeWorkerLifecycleRequest stop_request_fields (mkStopRequest "" "" "") s r "decode worker stop" = inl request →
  rq_Method r = MethodPost → sv_normalAdmission s = true →
  wst_WorkerID request ≠ "" → wst_WorkerSessionID request ≠ "" → wst_Reason request ≠ "" →
  stopped_session s (wst_WorkerID request) (wst_WorkerSessionID request) →
  stopWorkerHandler eng later r s = (http_Status StatusNoContent, s).
Proof.
  intros Hd Hm Ha H1 H2 H3 (db & row & Hst & Hrow & Hw & Hs).
  unfold stopWorkerHandler. rewrite (guard_posted s r _ (Some db)) by done. rewrite Hd, !is_empty_ne by done. cbn [orb].
  unfold GetWorkerSession, query, required. rewrite !is_empty_ne by done. cbn [fail_if mbind result_bind].
  unfold getWorkerSession. rewrite Hrow, decide_True by done. cbn [scanWorkerSession ws_Status]. rewrite Hs.
  rewrite bool_decide_eq_false_2 by done. by rewrite bool_decide_eq_true_2.
Qed.

(** A stop answered with 204. *)
Lemma stop_accepted eng now r s response s1 db :
  stopWorkerHandler eng now r s = (response, s1) → rs_Status response = StatusNoContent → sv_store s = Some (Some db) →
  rq_Method r = MethodPost ∧ sv_normalAdmission s = true ∧ sv_normalAdmission s1 = true ∧
  sv_maxRequestBytes s1 = sv_maxRequestBytes s ∧
  ∃ request db1,
    decodeWorkerLifecycleRequest stop_request_fields (mkStopRequest "" "" "") s r "decode worker stop" = inl request ∧
    wst_WorkerID request ≠ "" ∧ wst_WorkerSessionID request ≠ "" ∧ wst_Reason request ≠ "" ∧
    sv_store s1 = Some (Some db1) ∧ stopped_session s1 (wst_WorkerID request) (wst_WorkerSessionID request) ∧
    (reachable db → reachable db1) ∧
    (reachable db → ∀ a r, running_work (exec db) !! a = Some r → rr_worker_session_id r = Some (wst_WorkerSessionID request) →
       is_Some (abandoned_work (exec db1) !! a) ∧ is_Some (queued_work (exec db1) !! rr_work_item_id r)).
Proof.
  unfold stopWorkerHandler. set (k := λ st, _). intros H H204 Hdb.
  destruct (guard_inv s r k) as [(st & Hm & Ha & Hst & Heq)|[_ Hs]]; cycle 1.
  { rewrite H in Hs. cbn [fst] in Hs. rewrite H204 in Hs. by destruct Hs. }
  rewrite Heq in H. clear Heq. rewrite Hst in Hdb. injection Hdb as ->. unfold k in H. clear k.
  destruct (decodeWorkerLifecycleRequest _ _ _ _ _) as [request|resp] eqn:Hd; cycle 1.
  { injection H as <- <-. apply decode_refused in Hd. rewrite H204 in Hd. by destruct Hd. }
  destruct (is_empty (wst_WorkerID request)) eqn:E1; [by injection H as <- <-|].
  destruct (is_empty (wst_WorkerSessionID request)) eqn:E2; [by injection H as <- <-|].
  destruct (is_empty (wst_Reason request)) eqn:E3; [by injection H as <- <-|]. cbn [orb] in H.
  apply bool_decide_eq_false in E1, E2, E3.
  unfold GetWorkerSession, query, required in H. rewrite !is_empty_ne in H by done. cbn [fail_if mbind result_bind] in H.
  destruct (getWorkerSession (exec db) _ _) as [session|] eqn:Hget; [|by injection H as <- <-].
  case_bool_decide as Hdead; [by injection H as <- <-|]. unfold getWorkerSession in Hget.
  destruct (worker_sessions (exec db) !! wst_WorkerSessionID request) as [row|] eqn:Hrow; [|done].
  case_decide as Hw; [|done]. injection Hget as <-. cbn [scanWorkerSession ws_Status] in *.
  case_bool_decide as Hstop.
  - injection H as <- <-. split_and!; [done..|]. exists request, db. split_and!; [done..| |done|].
    + by exists db, row.
    + intros Hr a rr Hrun Hsid. exfalso. apply reachable_exec_inv in Hr as [_ Ho].
      destruct (Ho a rr _ Hrun Hsid) as (row' & Hrow' & Hact). rewrite Hrow in Hrow'. injection Hrow' as <-.
      by rewrite Hstop in Hact.
  - destruct (StopWorkerSessionAndRecoverWork _ _ _) as [[result|e] st'] eqn:Hop; [|by injection H as <- <-].
    destruct (spr_Changed result) eqn:Hch; cbn [negb] in H; [|by injection H as <- <-]. injection H as <- <-.
    assert (Hreach : reachable db → st' = Some (run_op eng (OpStop (mkStop (wst_WorkerID request)
      (wst_WorkerSessionID request) (FormatNano now) (wst_Reason request))) db)).
    { intros _. unfold run_op. cbn [run_store_op]. rewrite Hop. cbn [snd].
      unfold StopWorkerSessionAndRecoverWork, transact in Hop. repeat case_match; simplify_eq; done. }
    unfold StopWorkerSessionAndRecoverWork, transact in Hop. case_match; [|done]. unfold on_exec_tx in Hop.
    destruct (tx_stop eng _ (exec db)) as [[res e']|] eqn:Htx; cbn [mbind result_bind] in Hop; [|done].
    injection Hop as -> <-. apply tx_stop_effect in Htx as [(row' & Hrow' & Hw' & Hs') Hleases]; [|done].
    split_and!; [done..|]. exists request, (mkDB (catalog db) e'). split_and!; [done..| | |by intros _].
    + by exists (mkDB (catalog db) e'), row'.
    + intros Hr. specialize (Hreach Hr). injection Hreach as ->. by apply reachable_op.
Qed.

(** C9: A worker that stops is out for good, and its work is not lost: after a stop
    answered with 204 its session is recorded as stopped, no work runs under it, each
    attempt it had is abandoned with its work item queued again; the same stop asked
    again is answered with 204 and changes nothing, and a later heartbeat of the
    session is refused with 409 and changes nothing. *)
Theorem stopped_worker_is_out eng now later r s response s1 db :
  stopWorkerHandler eng now r s = (response, s1) → rs_Status response = StatusNoContent →
  sv_store s = Some (Some db) → reachable db → representable later →
  ∃ request db1,
    decodeWorkerLifecycleRequest stop_request_fields (mkStopRequest "" "" "") s r "decode worker stop" = inl request ∧
    sv_store s1 = Some (Some db1) ∧ stopped_session s1 (wst_WorkerID request) (wst_WorkerSessionID request) ∧
    (∀ a row, running_work (exec db1) !! a = Some row → rr_worker_session_id row ≠ Some (wst_WorkerSessionID request)) ∧
    (∀ a row, running_work (exec db) !! a = Some row → rr_worker_session_id row = Some (wst_WorkerSessionID request) →
       is_Some (abandoned_work (exec db1) !! a) ∧ is_Some (queued_work (exec db1) !! rr_work_item_id row)) ∧
    stopWorkerHandler eng later r s1 = (http_Status StatusNoContent, s1) ∧
    ∀ beat, decodeWorkerLifecycleRequest heartbeat_request_fields (mkHeartbeatRequest "" "") s1 beat "decode worker heartbeat"
              = inl (mkHeartbeatRequest (wst_WorkerID request) (wst_WorkerSessionID request)) →
      rq_Method beat = MethodPost →
      heartbeatWorkerHandler later beat s1 = (http_Error "worker session is not active" StatusConflict, s1).
Proof.
  intros H H204 Hdb Hr Hlater.
  destruct (stop_accepted _ _ _ _ _ _ _ H H204 Hdb)
    as (Hm & Ha & Ha1 & Hlim & request & db1 & Hd & H1 & H2 & H3 & Hst1 & Hstopped & Hr1 & Hleases).
  exists request, db1. pose proof Hstopped as (db' & row & Hst' & Hrow & Hw & Hs).
  rewrite Hst1 in Hst'. injection Hst' as <-. split_and!; [done..| |by apply Hleases| |].
  - intros a rr Hrun Hsid. destruct (reachable_exec_inv _ (Hr1 Hr)) as [_ Ho]. destruct (Ho a rr _ Hrun Hsid) as (row' & Hrow' & Hact).
    rewrite Hrow in Hrow'. injection Hrow' as <-. by rewrite Hs in Hact.
  - apply (stop_stopped eng later r s1 request); try done. unfold decodeWorkerLifecycleRequest in *. by rewrite Hlim.
  - intros beat Hbeat Hmb. unfold heartbeatWorkerHandler. rewrite (guard_posted s1 beat _ (Some db1)) by done. rewrite Hbeat.
    cbn [whb_WorkerID whb_WorkerSessionID]. rewrite !is_empty_ne by done. cbn [orb].
    destruct (FormatNano_valid later "worker session heartbeat at" Hlater) as [Hf Ht].
    unfold HeartbeatWorkerSession, transact, validate_heartbeat, required. cbn [hb_WorkerID hb_SessionID hb_HeartbeatAt].
    rewrite Hf, Ht, !is_empty_ne by done. cbn [fail_if mbind result_bind]. unfold on_exec_tx, update_heartbeat.
    cbn [hb_WorkerID hb_SessionID]. rewrite Hrow, decide_False by (rewrite Hs; by intros [_ ?]). cbn [mbind result_bind negb].
    f_equal. destruct s1 as [st adm lim lr ex ct], db1. cbn in Hst1 |- *. by rewrite Hst1.
Qed.

(** ** Instances *)

Definition demo_service (db : DB) : Service :=
  mkService (Some (Some db)) true 1048576 (NewResolver (NewSet []) (mkConfig 0 None DefaultFunctionRegistry))
    (Some (NewWorkerCapacityManager None)) (Some demo_taker).
Definition demo_registration : Request :=
  mkRequest MethodPost "/workers/register" ∅ ∅ 2 "{}".
Definition demo_registered : Response * Service :=
  registerWorkerHandler demo_engine race_now (Some [1; 255]%N) (Some [2]%N) demo_registration (demo_service demo_ready).
Lemma registered_worker_heartbeats_witness :
  ∃ reg, decode_first registration_fields (mkRegistration "" "" 0 0) (rs_Body demo_registered.1) = Ok reg ∧
    active_session demo_registered.2 (wr_WorkerID reg) (wr_WorkerSessionID reg).
Proof.
  destruct (registered_worker_heartbeats demo_engine race_now (Some [1; 255]%N) (Some [2]%N) demo_registration
    (demo_service demo_ready) demo_registered.1 demo_registered.2 (race_now + Minute) "/workers/heartbeat")
    as (reg & Hreg & Hact & _).
  - exact (surjective_pairing _).
  - vm_compute. reflexivity.
  - repeat constructor.
  - repeat constructor.
  - vm_compute. split; [discriminate|reflexivity].
  - exists reg. exact (conj Hreg Hact).
Defined.

Definition demo_stop : Request := post "/workers/stop" (encode_stop_request (mkStopRequest "w1" "s1" "done")).
Definition demo_stopped : Response * Service := stopWorkerHandler demo_engine race_now demo_stop (demo_service demo_leased).
Lemma stopped_worker_is_out_witness :
  stopWorkerHandler demo_engine (race_now + Minute) demo_stop demo_stopped.2 = (http_Status StatusNoContent, demo_stopped.2).
Proof.
  destruct (stopped_worker_is_out demo_engine race_now (race_now + Minute) demo_stop (demo_service demo_leased)
    demo_stopped.1 demo_stopped.2 demo_leased) as (request & db1 & _ & _ & _ & _ & _ & H & _).
  - exact (surjective_pairing _).
  - vm_compute. reflexivity.
  - reflexivity.
  - exact demo_leased_reachable.
  - vm_compute. split; [discriminate|reflexivity].
  - exact H.
Defined.
