(* ===== verification/GoFmt.v ===== *)
(** * Formatting and replacing text ([fmt.Sprint], [strings.ReplaceAll])

    [Sprint] of what a [map[string]any] may hold.  How a float and a time are written is
    left to the standard library: the class [Formats]. *)

From S2P Require Import Prelude GoTime GoStrings Variables StoreData Dependency WorkItem.
Local Open Scope nat_scope.

(** The values of [map[string]any]: what JSON and resolved variables give. *)
Notation any := (PValue Empty_set).
Notation metadata := (list (string * any)).

Class Formats := { format_float : string → string; format_time : Time → string }.
(** Floats by the text they were read from, times in RFC 3339. *)
Definition plain_formats : Formats := {| format_float text := text; format_time := format_rfc3339nano |}.

Section sprint.
Context `{!Formats}.
(** [fmt.Sprint(v)]; the fields of a map are written in the order of their keys. *)
Fixpoint Sprint (v : any) : string :=
  match v with
  | PNil => "<nil>"
  | PString s => s
  | PInt z => pretty z
  | PBool b => if b then "true" else "false"
  | PTime t => format_time t
  | PNumber text => format_float text
  | PMap fields =>
      "map[" +:+ str_join " " ((λ kv, kv.1 +:+ ":" +:+ kv.2) <$>
        order_by (λ x y, str_leb x.1 y.1) ((λ '(k, x), (k, Sprint x)) <$> fields)) +:+ "]"
  | PSlice items => "[" +:+ str_join " " (Sprint <$> items) +:+ "]"
  | PPayload p => match p with end
  end.
End sprint.

(** [strings.ReplaceAll(s, old, new)] for a text [old] that is not empty; [skip] bytes
    of [s] belong to an occurrence that was replaced. *)
Fixpoint replace_from (old new : string) (skip : nat) (s : string) : string :=
  match s with
  | EmptyString => ""
  | String c s' =>
      match skip with
      | S k => replace_from old new k s'
      | O => if has_prefix old s then new +:+ replace_from old new (slen old - 1) s'
             else String c (replace_from old new 0 s')
      end
  end.
Definition ReplaceAll (s old new : string) : string := replace_from old new 0 s.

Example replace_examples :
  ReplaceAll "a${x}b${x}" "${x}" "1" = "a1b1" ∧ ReplaceAll "aaa" "aa" "b" = "ba" ∧
  @Sprint plain_formats (PMap [("b", PInt (-2)); ("a", PSlice [PString "x"; PBool true; PNil])]) = "map[a:[x true <nil>] b:-2]".
Proof. vm_compute. done. Qed.
