(* ===== verification/WorkItemCodec.v ===== *)
(** * Reading stored work items ([internal/model/work_item.go])

    [json.Unmarshal] into a [WorkItem]: the fields of the struct and of those it
    holds.  A number under [any] becomes a 64-bit float, which fails when the number is
    too large for it; the text of the number is kept. *)

From S2P Require Import Prelude GoTime GoJson GoStrings GoJsonLaws GoSha256 Fingerprint GoJsonStruct.
From S2P Require Import Variables Expression Functions VariableCodec StoreData Dependency WorkItem.
From S2P Require Import GoFmt.
Local Open Scope Z_scope.

(** ** Numbers under [any] *)

Fixpoint digits_prefix (s : string) : string * string :=
  match s with
  | String c s' => if GoJson.is_digit c then let '(d, rest) := digits_prefix s' in (String c d, rest) else ("", s)
  | EmptyString => ("", "")
  end.
(** The number as an integer times a power of ten. *)
Definition number_parts (text : string) : Z * Z :=
  let text := trim_prefix "-" text in
  let '(whole, rest) := digits_prefix text in
  let '(fraction, rest) := match rest with String "." r => digits_prefix r | _ => ("", rest) end in
  let exponent :=
    match rest with
    | String "e" r | String "E" r =>
        match r with
        | String "-" d => - default 0 (digits_value 0 d)
        | String "+" d => default 0 (digits_value 0 d)
        | d => default 0 (digits_value 0 d)
        end
    | _ => 0
    end in
  (default 0 (digits_value 0 (whole +:+ fraction)), exponent - Z.of_nat (slen fraction)).
(** [strconv.ParseFloat(text, 64)] is in range: it rounds to less than 2^1024. *)
Definition float64_fits (text : string) : bool :=
  let '(m, e) := number_parts text in
  if 0 <=? e then m * 10 ^ e <? 2 ^ 1024 - 2 ^ 970 else m <? (2 ^ 1024 - 2 ^ 970) * 10 ^ (- e).

Example float64_range :
  float64_fits "1e308" = true ∧ float64_fits "-1.8e308" = false ∧ float64_fits "1E+309" = false ∧
  float64_fits "17976931348623157e292" = true ∧ float64_fits "0.5e-10" = true.
Proof. vm_compute. done. Qed.

Section payload.
Context {Payload : Type}.

(** Decoding into [any] *)
Fixpoint any_value (v : JSON) : result (PValue Payload) :=
  match v with
  | JNull => Ok PNil
  | JBool b => Ok (PBool b)
  | JNumber text => if float64_fits text then Ok (PNumber text) else Err json_mismatch
  | JString s => Ok (PString s)
  | JArray items =>
      PSlice <$> (fix go (l : list JSON) : result (list (PValue Payload)) :=
        match l with
        | [] => Ok []
        | x :: l' => y ← any_value x; ys ← go l'; Ok (y :: ys)
        end) items
  | JObject fields =>
      PMap <$> (fix go (l : list (string * JSON)) : result (list (string * PValue Payload)) :=
        match l with
        | [] => Ok []
        | (k, x) :: l' => y ← any_value x; ys ← go l'; Ok ((k, y) :: ys)
        end) fields
  end.
Definition into_any {R} (set : PValue Payload → R → R) : Setter R := λ v r, x ← any_value v; Ok (set x r).

(** A map; a [null] makes it nil. *)
Definition decode_map {A} (item : JSON → result A) (v : JSON) : result (option (gmap string A)) :=
  match v with
  | JNull => Ok None
  | JObject fields => Some <$> foldM (λ acc '(k, x), a ← item x; Ok (<[k := a]> acc)) ∅ fields
  | _ => Err json_mismatch
  end.
Definition into_map {A R} (item : JSON → result A) (set : option (gmap string A) → R → R) : Setter R := λ v r,
  x ← decode_map item v; Ok (set x r).
(** An element of a slice of strings. *)
Definition text_item (v : JSON) : result string :=
  match v with JNull => Ok "" | JString s => Ok s | _ => Err json_mismatch end.

(** ** The structs *)

Definition materialization_fields : Struct ParameterMaterialization :=
  [("mode", into_string (λ x '(mkMaterialization _ a1), mkMaterialization x a1));
   ("target", into_string (λ x '(mkMaterialization a0 _), mkMaterialization a0 x))].
Definition decode_materialization : JSON → result ParameterMaterialization :=
  decode_struct false materialization_fields (mkMaterialization "" "").

Definition parameter_fields : Struct (WorkParameter Payload) :=
  [("type", into_string (λ x '(mkParameter _ a1 a2 a3 a4 a5), mkParameter x a1 a2 a3 a4 a5));
   ("value", into_any (λ x '(mkParameter a0 _ a2 a3 a4 a5), mkParameter a0 x a2 a3 a4 a5));
   ("sensitive", into_bool (λ x '(mkParameter a0 a1 _ a3 a4 a5), mkParameter a0 a1 x a3 a4 a5));
   ("redaction_label", into_string (λ x '(mkParameter a0 a1 a2 _ a4 a5), mkParameter a0 a1 a2 x a4 a5));
   ("protected_ref", into_pointer ProtectedRef_UnmarshalJSON (λ x '(mkParameter a0 a1 a2 a3 _ a5),
      mkParameter a0 a1 a2 a3 x a5));
   ("materialize", into_pointer decode_materialization (λ x '(mkParameter a0 a1 a2 a3 a4 _),
      mkParameter a0 a1 a2 a3 a4 x))].
Definition decode_parameter : JSON → result (WorkParameter Payload) :=
  decode_struct false parameter_fields (mkParameter "" PNil false "" None None).

Definition source_fields : Struct WorkItemSource :=
  [("schema", into_string (λ x '(mkSource _ a1 a2), mkSource x a1 a2));
   ("run_id", into_string (λ x '(mkSource a0 _ a2), mkSource a0 x a2));
   ("manifest_path", into_string (λ x '(mkSource a0 a1 _), mkSource a0 a1 x))].
Definition decode_source : JSON → result WorkItemSource := decode_struct false source_fields (mkSource "" "" "").

Definition public_fields : Struct (ExecutionEnvelopePublicValue Payload) :=
  [("type", into_string (λ x '(mkPublic _ a1), mkPublic x a1));
   ("value", into_any (λ x '(mkPublic a0 _), mkPublic a0 x))].
Definition reference_fields : Struct ExecutionEnvelopeProtectedReference :=
  [("type", into_string (λ x '(mkProtectedReference _ a1 a2 a3 a4), mkProtectedReference x a1 a2 a3 a4));
   ("provider", into_string (λ x '(mkProtectedReference a0 _ a2 a3 a4), mkProtectedReference a0 x a2 a3 a4));
   ("key", into_string (λ x '(mkProtectedReference a0 a1 _ a3 a4), mkProtectedReference a0 a1 x a3 a4));
   ("redaction_label", into_string (λ x '(mkProtectedReference a0 a1 a2 _ a4), mkProtectedReference a0 a1 a2 x a4));
   ("materialize", into_pointer decode_materialization (λ x '(mkProtectedReference a0 a1 a2 a3 _),
      mkProtectedReference a0 a1 a2 a3 x))].
Local Notation Envelope := (ExecutionEnvelope Payload).
(** The two structs inside the envelope are decoded in place. *)
Definition envelope_item_fields : Struct Envelope :=
  [("id", into_string (λ x '(mkEnvelope a0 _ a2 a3 a4), mkEnvelope a0 x a2 a3 a4));
   ("type", into_string (λ x '(mkEnvelope a0 a1 _ a3 a4), mkEnvelope a0 a1 x a3 a4))].
Definition envelope_variables_fields : Struct Envelope :=
  [("public", into_map (decode_struct false public_fields (mkPublic "" PNil)) (λ x '(mkEnvelope a0 a1 a2 _ a4),
      mkEnvelope a0 a1 a2 (default ∅ x) a4));
   ("protected_refs", into_map (decode_struct false reference_fields (mkProtectedReference "" "" "" "" None))
      (λ x '(mkEnvelope a0 a1 a2 a3 _), mkEnvelope a0 a1 a2 a3 (default ∅ x)))].
Definition envelope_fields : Struct Envelope :=
  [("schema", into_string (λ x '(mkEnvelope _ a1 a2 a3 a4), mkEnvelope x a1 a2 a3 a4));
   ("work_item", into_struct false envelope_item_fields (λ e, e) (λ e _, e));
   ("variables", into_struct false envelope_variables_fields (λ e, e) (λ e _, e))].
Definition decode_envelope : JSON → result Envelope := decode_struct false envelope_fields (mkEnvelope "" "" "" ∅ ∅).

Definition candidate_fields : Struct WorkReuseCandidate :=
  [("attempt_id", into_string (λ x '(mkCandidate _ a1 a2 a3 a4 a5 a6 a7),
      mkCandidate x a1 a2 a3 a4 a5 a6 a7));
   ("input_sha256", into_string (λ x '(mkCandidate a0 _ a2 a3 a4 a5 a6 a7),
      mkCandidate a0 x a2 a3 a4 a5 a6 a7));
   ("output_sha256", into_string (λ x '(mkCandidate a0 a1 _ a3 a4 a5 a6 a7),
      mkCandidate a0 a1 x a3 a4 a5 a6 a7));
   ("pre_state_sha256", into_string (λ x '(mkCandidate a0 a1 a2 _ a4 a5 a6 a7),
      mkCandidate a0 a1 a2 x a4 a5 a6 a7));
   ("post_state_sha256", into_string (λ x '(mkCandidate a0 a1 a2 a3 _ a5 a6 a7),
      mkCandidate a0 a1 a2 a3 x a5 a6 a7));
   ("output_json_sha256", into_string (λ x '(mkCandidate a0 a1 a2 a3 a4 _ a6 a7),
      mkCandidate a0 a1 a2 a3 a4 x a6 a7));
   ("controller_sha256", into_string (λ x '(mkCandidate a0 a1 a2 a3 a4 a5 _ a7),
      mkCandidate a0 a1 a2 a3 a4 a5 x a7));
   ("plugin_sha256", into_string (λ x '(mkCandidate a0 a1 a2 a3 a4 a5 a6 _),
      mkCandidate a0 a1 a2 a3 a4 a5 a6 x))].
Definition decode_candidate : JSON → result WorkReuseCandidate :=
  decode_struct false candidate_fields (mkCandidate "" "" "" "" "" "" "" "").

Definition work_item_fields : Struct (WorkItem Payload) :=
  [("id", into_string (λ x '(mkItem _ a1 a2 a3 a4 a5 a6 a7 a8 a9 a10 a11 a12 a13 a14 a15 a16 a17 a18),
      mkItem x a1 a2 a3 a4 a5 a6 a7 a8 a9 a10 a11 a12 a13 a14 a15 a16 a17 a18));
   ("attempt_id", into_string (λ x '(mkItem a0 _ a2 a3 a4 a5 a6 a7 a8 a9 a10 a11 a12 a13 a14 a15 a16 a17 a18),
      mkItem a0 x a2 a3 a4 a5 a6 a7 a8 a9 a10 a11 a12 a13 a14 a15 a16 a17 a18));
   ("type", into_string (λ x '(mkItem a0 a1 _ a3 a4 a5 a6 a7 a8 a9 a10 a11 a12 a13 a14 a15 a16 a17 a18),
      mkItem a0 a1 x a3 a4 a5 a6 a7 a8 a9 a10 a11 a12 a13 a14 a15 a16 a17 a18));
   ("source", into_pointer decode_source (λ x '(mkItem a0 a1 a2 _ a4 a5 a6 a7 a8 a9 a10 a11 a12 a13 a14 a15 a16 a17 a18),
      mkItem a0 a1 a2 x a4 a5 a6 a7 a8 a9 a10 a11 a12 a13 a14 a15 a16 a17 a18));
   ("output_filename", into_string (λ x '(mkItem a0 a1 a2 a3 _ a5 a6 a7 a8 a9 a10 a11 a12 a13 a14 a15 a16 a17 a18),
      mkItem a0 a1 a2 a3 x a5 a6 a7 a8 a9 a10 a11 a12 a13 a14 a15 a16 a17 a18));
   ("parameters", into_map decode_parameter (λ x '(mkItem a0 a1 a2 a3 a4 _ a6 a7 a8 a9 a10 a11 a12 a13 a14 a15 a16 a17 a18),
      mkItem a0 a1 a2 a3 a4 x a6 a7 a8 a9 a10 a11 a12 a13 a14 a15 a16 a17 a18));
   ("execution_envelope", into_pointer decode_envelope (λ x '(mkItem a0 a1 a2 a3 a4 a5 _ a7 a8 a9 a10 a11 a12 a13 a14 a15 a16 a17 a18),
      mkItem a0 a1 a2 a3 a4 a5 x a7 a8 a9 a10 a11 a12 a13 a14 a15 a16 a17 a18));
   ("depends_on", into_list text_item (λ x '(mkItem a0 a1 a2 a3 a4 a5 a6 _ a8 a9 a10 a11 a12 a13 a14 a15 a16 a17 a18),
      mkItem a0 a1 a2 a3 a4 a5 a6 x a8 a9 a10 a11 a12 a13 a14 a15 a16 a17 a18));
   ("reuse_candidates", into_list decode_candidate (λ x '(mkItem a0 a1 a2 a3 a4 a5 a6 a7 _ a9 a10 a11 a12 a13 a14 a15 a16 a17 a18),
      mkItem a0 a1 a2 a3 a4 a5 a6 a7 x a9 a10 a11 a12 a13 a14 a15 a16 a17 a18));
   ("workflow_definition_id", into_string (λ x '(mkItem a0 a1 a2 a3 a4 a5 a6 a7 a8 _ a10 a11 a12 a13 a14 a15 a16 a17 a18),
      mkItem a0 a1 a2 a3 a4 a5 a6 a7 a8 x a10 a11 a12 a13 a14 a15 a16 a17 a18));
   ("workflow_fingerprint", into_string (λ x '(mkItem a0 a1 a2 a3 a4 a5 a6 a7 a8 a9 _ a11 a12 a13 a14 a15 a16 a17 a18),
      mkItem a0 a1 a2 a3 a4 a5 a6 a7 a8 a9 x a11 a12 a13 a14 a15 a16 a17 a18));
   ("workflow_instance_id", into_string (λ x '(mkItem a0 a1 a2 a3 a4 a5 a6 a7 a8 a9 a10 _ a12 a13 a14 a15 a16 a17 a18),
      mkItem a0 a1 a2 a3 a4 a5 a6 a7 a8 a9 a10 x a12 a13 a14 a15 a16 a17 a18));
   ("step_definition_id", into_string (λ x '(mkItem a0 a1 a2 a3 a4 a5 a6 a7 a8 a9 a10 a11 _ a13 a14 a15 a16 a17 a18),
      mkItem a0 a1 a2 a3 a4 a5 a6 a7 a8 a9 a10 a11 x a13 a14 a15 a16 a17 a18));
   ("step_fingerprint", into_string (λ x '(mkItem a0 a1 a2 a3 a4 a5 a6 a7 a8 a9 a10 a11 a12 _ a14 a15 a16 a17 a18),
      mkItem a0 a1 a2 a3 a4 a5 a6 a7 a8 a9 a10 a11 a12 x a14 a15 a16 a17 a18));
   ("step_instance_id", into_string (λ x '(mkItem a0 a1 a2 a3 a4 a5 a6 a7 a8 a9 a10 a11 a12 a13 _ a15 a16 a17 a18),
      mkItem a0 a1 a2 a3 a4 a5 a6 a7 a8 a9 a10 a11 a12 a13 x a15 a16 a17 a18));
   ("work_item_fingerprint", into_string (λ x '(mkItem a0 a1 a2 a3 a4 a5 a6 a7 a8 a9 a10 a11 a12 a13 a14 _ a16 a17 a18),
      mkItem a0 a1 a2 a3 a4 a5 a6 a7 a8 a9 a10 a11 a12 a13 a14 x a16 a17 a18));
   ("input_fingerprint", into_string (λ x '(mkItem a0 a1 a2 a3 a4 a5 a6 a7 a8 a9 a10 a11 a12 a13 a14 a15 _ a17 a18),
      mkItem a0 a1 a2 a3 a4 a5 a6 a7 a8 a9 a10 a11 a12 a13 a14 a15 x a17 a18));
   ("output_fingerprint", into_string (λ x '(mkItem a0 a1 a2 a3 a4 a5 a6 a7 a8 a9 a10 a11 a12 a13 a14 a15 a16 _ a18),
      mkItem a0 a1 a2 a3 a4 a5 a6 a7 a8 a9 a10 a11 a12 a13 a14 a15 a16 x a18));
   ("code_version", into_string (λ x '(mkItem a0 a1 a2 a3 a4 a5 a6 a7 a8 a9 a10 a11 a12 a13 a14 a15 a16 a17 _),
      mkItem a0 a1 a2 a3 a4 a5 a6 a7 a8 a9 a10 a11 a12 a13 a14 a15 a16 a17 x))].
Definition zero_item : WorkItem Payload := new_item "" "" "" None.
(** [json.Unmarshal(text, &item)] *)
Definition Unmarshal_item (text : string) : result (WorkItem Payload) :=
  v ← json_document text; decode_struct false work_item_fields zero_item v.
End payload.

Example unmarshal_item_example :
  (λ i : WorkItem Empty_set, (w_ID i, w_Type i, w_DependsOn i, w_StepDefinitionID i)) <$>
    Unmarshal_item (print (JObject [("id", JString "a"); ("type", JString "commit_data");
      ("parameters", JObject [("p", JObject [("type", JString "int"); ("value", JNumber "3")])]);
      ("depends_on", JArray [JString "run:x"; JNull]); ("step_definition_id", JString "s")]))
  = Ok ("a", "commit_data", ["run:x"; ""], "s").
Proof. vm_compute. reflexivity. Qed.

(** * Writing values as JSON ([encoding/json])

    [json.Marshal] of what a work item may hold: the dynamic values of [any], the
    structs that the data operators put there (the class [PayloadJSON]), lists, maps and
    pointers.  A float is kept as the text it was read from; how the encoder writes the
    float is the class [JsonFloats], with what is documented for integers that a float
    holds exactly. *)
Local Open Scope Z_scope.

Class JsonFloats := {
  json_float : string → string;
  json_float_int z : Z.abs z ≤ 2 ^ 53 → json_float (pretty z) = pretty z }.
(** The encoder on the numbers that it writes as they were read. *)
Definition plain_floats : JsonFloats := {| json_float text := text; json_float_int z _ := eq_refl |}.

(** [json.Marshal] of a payload. *)
Class PayloadJSON (Payload : Type) := payload_JSON : Payload → result JSON.
#[export] Instance no_payload_JSON : PayloadJSON Empty_set := λ p, match p with end.

Definition json_unsupported : GoError := Errorf "json: unsupported value".
(** [Time.MarshalJSON] *)
Definition encode_time (t : Time) : result JSON :=
  fail_if ((t_year t <? 0) || (9999 <? t_year t) || (24 <=? Z.abs (t_offset t) / 3600)) json_unsupported;;
  Ok (JString (format_rfc3339nano t)).

(** Pointers, lists and objects with [omitempty]. *)
Definition omit_nil (name : string) (v : option JSON) : list (string * JSON) :=
  match v with Some v => field name v | None => [] end.
Definition omit_list (name : string) (l : list JSON) : list (string * JSON) :=
  match l with [] => [] | _ => field name (JArray l) end.
Definition omit_object (name : string) (l : list (string * JSON)) : list (string * JSON) :=
  match l with [] => [] | _ => field name (JObject l) end.

Definition encode_pointer {A} (enc : A → result JSON) (x : option A) : result (option JSON) :=
  match x with None => Ok None | Some a => v ← enc a; Ok (Some v) end.
Definition encode_list {A} (enc : A → result JSON) (l : list A) : result (list JSON) :=
  traverse_items (λ _ a, enc a) 0 l.
(** A map is written in the order of its keys. *)
Definition encode_entries {A} (enc : A → result JSON) (l : list (string * A)) : result (list (string * JSON)) :=
  traverse_fields (λ _ a, enc a) (order_by by_key l).

Section any.
Context {floats : JsonFloats} {Payload : Type} {payload : PayloadJSON Payload}.

Fixpoint encode_any (v : PValue Payload) : result JSON :=
  match v with
  | PNil => Ok JNull
  | PString s => Ok (JString s)
  | PInt z => Ok (JInt z)
  | PBool b => Ok (JBool b)
  | PTime t => encode_time t
  | PNumber text => Ok (JNumber (json_float text))
  | PMap fields =>
      kvs ← (fix go (l : list (string * PValue Payload)) : result (list (string * JSON)) :=
        match l with
        | [] => Ok []
        | (k, x) :: l' => y ← encode_any x; ys ← go l'; Ok ((k, y) :: ys)
        end) fields;
      Ok (JObject (order_by by_key kvs))
  | PSlice items =>
      JArray <$> (fix go (l : list (PValue Payload)) : result (list JSON) :=
        match l with
        | [] => Ok []
        | x :: l' => y ← encode_any x; ys ← go l'; Ok (y :: ys)
        end) items
  | PPayload p => payload_JSON p
  end.
(** The fields of a [map[string]any]. *)
Definition encode_fields (l : list (string * PValue Payload)) : result (list (string * JSON)) :=
  encode_entries encode_any l.

(** ** Work items ([internal/model/work_item.go]) *)

Definition encode_materialization (m : ParameterMaterialization) : result JSON :=
  Ok (JObject (field "mode" (JString (pm_Mode m)) ++ field "target" (JString (pm_Target m)))).
Definition encode_parameter (p : WorkParameter Payload) : result JSON :=
  value ← encode_any (pa_Value p);
  ref ← encode_pointer ProtectedRef_MarshalJSON (pa_ProtectedRef p);
  materialize ← encode_pointer encode_materialization (pa_Materialize p);
  Ok (JObject (field "type" (JString (pa_Type p)) ++ omit (is_nil (pa_Value p)) "value" value ++
               omit_bool "sensitive" (pa_Sensitive p) ++ omit_string "redaction_label" (pa_RedactionLabel p) ++
               omit_nil "protected_ref" ref ++ omit_nil "materialize" materialize)).
Definition encode_source (s : WorkItemSource) : result JSON :=
  Ok (JObject (omit_string "schema" (ws_Schema s) ++ field "run_id" (JString (ws_RunID s)) ++
               field "manifest_path" (JString (ws_ManifestPath s)))).
Definition encode_candidate (c : WorkReuseCandidate) : result JSON :=
  Ok (JObject (field "attempt_id" (JString (ru_AttemptID c)) ++ omit_string "input_sha256" (ru_InputSHA256 c) ++
               omit_string "output_sha256" (ru_OutputSHA256 c) ++ omit_string "pre_state_sha256" (ru_PreStateSHA256 c) ++
               omit_string "post_state_sha256" (ru_PostStateSHA256 c) ++
               omit_string "output_json_sha256" (ru_OutputJSONSHA256 c) ++
               omit_string "controller_sha256" (ru_ControllerSHA256 c) ++
               omit_string "plugin_sha256" (ru_PluginSHA256 c))).
Definition encode_public (p : ExecutionEnvelopePublicValue Payload) : result JSON :=
  value ← encode_any (pu_Value p);
  Ok (JObject (field "type" (JString (pu_Type p)) ++ field "value" value)).
Definition encode_reference (r : ExecutionEnvelopeProtectedReference) : result JSON :=
  materialize ← encode_pointer encode_materialization (pr_Materialize r);
  Ok (JObject (field "type" (JString (pr_Type r)) ++ field "provider" (JString (pr_Provider r)) ++
               field "key" (JString (pr_Key r)) ++ field "redaction_label" (JString (pr_RedactionLabel r)) ++
               omit_nil "materialize" materialize)).
Definition encode_variables (e : ExecutionEnvelope Payload) : result JSON :=
  public ← encode_entries encode_public (map_to_list (xe_Public e));
  refs ← encode_entries encode_reference (map_to_list (xe_ProtectedRefs e));
  Ok (JObject (omit_object "public" public ++ omit_object "protected_refs" refs)).
Definition encode_envelope (e : ExecutionEnvelope Payload) : result JSON :=
  variables ← encode_variables e;
  Ok (JObject (field "schema" (JString (xe_Schema e)) ++
               field "work_item" (JObject (field "id" (JString (xe_ID e)) ++ field "type" (JString (xe_Type e)))) ++
               field "variables" variables)).
Definition encode_item (i : WorkItem Payload) : result JSON :=
  source ← encode_pointer encode_source (w_Source i);
  parameters ← encode_entries encode_parameter (map_to_list (parameter_map (w_Parameters i)));
  envelope ← encode_pointer encode_envelope (w_ExecutionEnvelope i);
  candidates ← encode_list encode_candidate (w_ReuseCandidates i);
  Ok (JObject (field "id" (JString (w_ID i)) ++ omit_string "attempt_id" (w_AttemptID i) ++
               field "type" (JString (w_Type i)) ++ omit_nil "source" source ++
               field "output_filename" (JString (w_OutputFilename i)) ++ omit_object "parameters" parameters ++
               omit_nil "execution_envelope" envelope ++ omit_list "depends_on" (JString <$> w_DependsOn i) ++
               omit_list "reuse_candidates" candidates ++
               omit_string "workflow_definition_id" (w_WorkflowDefinitionID i) ++
               omit_string "workflow_fingerprint" (w_WorkflowFingerprint i) ++
               omit_string "workflow_instance_id" (w_WorkflowInstanceID i) ++
               omit_string "step_definition_id" (w_StepDefinitionID i) ++
               omit_string "step_fingerprint" (w_StepFingerprint i) ++
               omit_string "step_instance_id" (w_StepInstanceID i) ++
               omit_string "work_item_fingerprint" (w_WorkItemFingerprint i) ++
               omit_string "input_fingerprint" (w_InputFingerprint i) ++
               omit_string "output_fingerprint" (w_OutputFingerprint i) ++
               omit_string "code_version" (w_CodeVersion i))).
(** [json.Marshal(item)] *)
Definition Marshal_item (i : WorkItem Payload) : result string := print <$> encode_item i.
End any.

(** ** Numbers, texts and maps read into structs *)

Definition int_item (v : JSON) : result Z :=
  match v with
  | JNumber text => match Atoi text with Some z => Ok z | None => Err json_mismatch end
  | _ => Err json_mismatch
  end.
Definition bool_item (v : JSON) : result bool := match v with JBool b => Ok b | _ => Err json_mismatch end.
(** A [map[string]any] and a [map[string]string]; a [null] makes them nil. *)
Definition into_metadata {R} (set : metadata → R → R) : Setter R := λ v r,
  match v with
  | JNull => Ok (set [] r)
  | JObject fields => kvs ← traverse_fields (λ _ x, any_value x) fields; Ok (set kvs r)
  | _ => Err json_mismatch
  end.
(** As [into_metadata], where a nil map is told from an empty one. *)
Definition into_nil_metadata {R} (set : option metadata → R → R) : Setter R := λ v r,
  match v with
  | JNull => Ok (set None r)
  | _ => into_metadata (λ kvs, set (Some kvs)) v r
  end.
Definition into_texts {R} (set : list (string * string) → R → R) : Setter R := λ v r,
  match v with
  | JNull => Ok (set [] r)
  | JObject fields => kvs ← traverse_fields (λ _ x, text_item x) fields; Ok (set kvs r)
  | _ => Err json_mismatch
  end.

Example marshal_item_example :
  @Marshal_item plain_floats Empty_set _
    (set_w_Parameters (Some {[ "b" := mkParameter "int" (PInt 3) false "" None None;
                               "a" := mkParameter "list" (PSlice [PNil; PNumber "2"]) false "" None None ]})
       (new_item "i" "commit_data" "o.json" None))
  = Ok (print (JObject [("id", JString "i"); ("type", JString "commit_data"); ("output_filename", JString "o.json");
        ("parameters", JObject [("a", JObject [("type", JString "list"); ("value", JArray [JNull; JNumber "2"])]);
                                ("b", JObject [("type", JString "int"); ("value", JNumber "3")])])])).
Proof. vm_compute. reflexivity. Qed.
