(* ===== verification/Dependents.v ===== *)
(** * Work that waits for materialised assets ([cmd/controller/asset_materialize_dependencies.go])

    A work item may depend on others of its stage.  It is stored with the stage but
    not queued; when a work item completes, the items that depend on it and whose
    dependencies are all completed are queued, and recorded as members of their step. *)

From S2P Require Import Prelude GoTime GoJson GoStrings GoJsonLaws GoSha256 Fingerprint GoJsonStruct.
From S2P Require Import Variables Expression Functions StoreData StoreSQL StoreOps StoreQueries.
From S2P Require Import Dependency SubmissionContext DependencyStore WorkItem WorkItemCodec.
From S2P Require Import Resource StoreInv StoreLease DependencyFailure.
Local Open Scope Z_scope.

Record compiledStageWorkItemMembership := mkCompiledMembership {
  cm_stageIndex : Z; cm_stepIndex : Z; cm_workItemID : string; cm_workItemIndex : Z }.

Definition dependencyStepKey (stageIndex : Z) (stepID : string) : string := pretty stageIndex +:+ ":" +:+ stepID.
Definition containsString (values : list string) (value : string) : bool := bool_decide (value ∈ values).

(** [fmt.Errorf(msg+": %w", err)] around a call. *)
Definition wrap_op {A} (msg : string) (m : Op A) : Op A := λ c, let '(r, c') := m c in (wrap_err msg r, c').

(** ORDER of the queue request: by index, then by id. *)
Definition by_queue_index (x y : QueuedWorkRecord) : bool :=
  let a := qw_WorkItem x in let b := qw_WorkItem y in
  if wi_WorkItemIndex a =? wi_WorkItemIndex b then str_leb (wi_ID a) (wi_ID b)
  else wi_WorkItemIndex a <? wi_WorkItemIndex b.

Section dependents.
Context {Payload : Type} (now : nat → Time) (eng : Engine).

Definition workItemPayloadFromRecord (record : WorkItemRecord) : result (WorkItem Payload) :=
  wrap_err ("decode persisted work item " +:+ wi_ID record) (Unmarshal_item (wi_WorkerPayloadJSON record)).

(** The sets of ids and the steps that the loop looks at. *)
Record dependents_view := mkView {
  dv_queued : gset string; dv_running : gset string; dv_completed : gset string; dv_failed : gset string;
  dv_steps : gmap string WorkflowDependencyStepRecord }.
Definition dependents_of (completed : WorkItemRecord) (queued : list QueuedWorkRecord) (running : list RunningWorkRecord)
    (terminal : list TerminalAttemptRecord) (steps : list WorkflowDependencyStepRecord) : dependents_view :=
  let with_state state := List.filter (λ t, bool_decide (ta_TerminalState t = state)) terminal in
  mkView
    (list_to_set ((λ q, wi_ID (qw_WorkItem q)) <$> queued))
    (list_to_set ((λ r, wi_ID (rn_WorkItem r)) <$>
       List.filter (λ r, bool_decide (wi_RunID (rn_WorkItem r) = wi_RunID completed)) running))
    (list_to_set ((λ t, wi_ID (ta_WorkItem t)) <$> with_state "completed"))
    (list_to_set ((λ t, wi_ID (ta_WorkItem t)) <$> with_state "failed"))
    (foldl (λ acc s, <[dependencyStepKey (ds_StageIndex s) (ds_StepID s) := s]> acc) ∅ steps).

(** One record of the run. *)
Definition consider_record (completed : WorkItemRecord) (v : dependents_view) (timestamp : string)
    (acc : list QueuedWorkRecord * list compiledStageWorkItemMembership) (record : WorkItemRecord) :
    result (list QueuedWorkRecord * list compiledStageWorkItemMembership) :=
  let id := wi_ID record in
  if bool_decide (id = wi_ID completed) || bool_decide (id ∈ dv_queued v) || bool_decide (id ∈ dv_running v)
     || bool_decide (id ∈ dv_completed v) || bool_decide (id ∈ dv_failed v) then Ok acc else
  item ← workItemPayloadFromRecord record;
  if bool_decide (w_DependsOn item = []) || negb (containsString (w_DependsOn item) (wi_ID completed)) then Ok acc else
  if negb (forallb (λ dependency, bool_decide (dependency ∈ dv_completed v)) (w_DependsOn item)) then Ok acc else
  match dv_steps v !! dependencyStepKey (wi_StageIndex record) (w_StepDefinitionID item) with
  | None => Err (Errorf ("dependency step not found for asset_materialize dependent " +:+ id +:+ " at stage " +:+
                   pretty (wi_StageIndex record) +:+ " step " +:+ w_StepDefinitionID item))
  | Some step =>
      Ok (acc.1 ++ [mkQueued record timestamp],
          acc.2 ++ [mkCompiledMembership (wi_StageIndex record) (ds_StepIndex step) id (wi_WorkItemIndex record)])
  end.

Definition enqueueReadyAssetMaterializeDependents (completed : WorkItemRecord) (queuedAt : Time) : Op unit := λ c,
  if bool_decide (workflowStore c = None) then (Ok tt, c) else
  (allWork ← query_store (ListWorkItemsForRun (wi_RunID completed));
   queued ← query_store ListQueuedWorkItems;
   running ← query_store ListRunningWork;
   terminal ← query_store (ListTerminalAttemptsForRun (wi_RunID completed));
   dependencySteps ← query_store (ListWorkflowDependencySteps (wi_RunID completed));
   let v := dependents_of completed queued running terminal dependencySteps in
   ready ← lift (foldM (consider_record completed v (format_rfc3339 (UTC queuedAt))) ([], []) allWork);
   if bool_decide (ready.1 = []) then stop tt else
   wrap_op "enqueue asset_materialize dependent work"
     (call_store (EnqueueWorkItems eng (order_by by_queue_index ready.1)));;
   for_each_op (λ m, wrap_op "record asset_materialize dependent membership"
     (RecordCompiledWorkItemMembership now eng (wi_RunID completed) (cm_stageIndex m) (cm_stepIndex m)
        (cm_workItemID m) (cm_workItemIndex m))) ready.2) c.

Definition failAssetMaterializeDependents (failed : WorkItemRecord) (reason : string) : Op unit :=
  item ← lift (workItemPayloadFromRecord failed);
  if negb (bool_decide (w_Type item = WorkItemTypeAssetMaterialize)) then stop tt else
  let reason := if is_empty reason then "asset_materialize failed" else reason in
  markWorkflowStageActivationFailed now eng (wi_RunID failed) (wi_StageIndex failed) reason.
End dependents.

(** * When dependent work is queued

    The items that a completion queues are exactly those of its run that depend on the
    completed item, have all their dependencies completed, and are in no other state. *)
Local Open Scope Z_scope.

(** ** Operations that leave the execution tables alone *)

Definition same_exec (c c' : Controller) : Prop :=
  ∀ db, workflowStore c = Some (Some db) → ∃ db', workflowStore c' = Some (Some db') ∧ exec db' = exec db.
#[export] Instance same_exec_preorder : PreOrder same_exec.
Proof.
  split; [intros c db H; by exists db|]. intros c1 c2 c3 H12 H23 db H.
  destruct (H12 db H) as (db2 & H2 & E2). destruct (H23 db2 H2) as (db3 & H3 & E3). exists db3. split; [done|congruence].
Qed.
Definition keeps_exec {A} (m : Op A) : Prop := ∀ c r c', m c = (r, c') → same_exec c c'.

Lemma keeps_bind {A B} (m : Op A) (k : A → Op B) : keeps_exec m → (∀ a, keeps_exec (k a)) → keeps_exec (m ≫= k).
Proof.
  intros Hm Hk c r c'. unfold mbind, Op_bind. destruct (m c) as [[a|e] c1] eqn:H1; intros H.
  - etrans; [by eapply Hm|by eapply Hk].
  - injection H as _ <-. by eapply Hm.
Qed.
Lemma keeps_lift {A} (r : result A) : keeps_exec (lift r).
Proof. intros c r' c' [= _ <-]. done. Qed.
Lemma keeps_stop {A} (a : A) : keeps_exec (stop a).
Proof. intros c r' c' [= _ <-]. done. Qed.
Lemma keeps_fail {A} e : keeps_exec (fail (A := A) e).
Proof. apply keeps_lift. Qed.
Lemma keeps_query {A} (q : Store → result A) : keeps_exec (query_store q).
Proof. intros c r' c' [= _ <-]. done. Qed.
Lemma keeps_require : keeps_exec requireStore.
Proof. intros c r' c' [= _ <-]. done. Qed.
Lemma keeps_timestamp now : keeps_exec (timestamp_now now).
Proof. intros c r' c' [= _ <-] db H. by exists db. Qed.
Lemma keeps_wrap {A} msg (m : Op A) : keeps_exec m → keeps_exec (wrap_op msg m).
Proof. intros Hm c r c'. unfold wrap_op. destruct (m c) as [r1 c1] eqn:H1. intros [= _ <-]. by eapply Hm. Qed.
Lemma keeps_for_each {A} (f : A → Op unit) l : (∀ x, keeps_exec (f x)) → keeps_exec (for_each_op f l).
Proof. intros Hf. induction l as [|x l IH]; [apply keeps_stop|]. by apply keeps_bind. Qed.
(** A transaction on the catalog. *)
Lemma keeps_call {A} (f : Store → result A * Store) :
  (∀ db r st, f (Some db) = (r, st) → ∃ db', st = Some db' ∧ exec db' = exec db) → keeps_exec (call_store f).
Proof.
  intros Hf c r c' H db Hdb. unfold call_store in H. rewrite Hdb in H.
  destruct (f (Some db)) as [r1 st] eqn:H1. injection H as _ <-. destruct (Hf _ _ _ H1) as (db' & -> & He). by exists db'.
Qed.
Lemma catalog_tx {A} db v (body : Catalog → result (A * Catalog)) r st :
  transact (Some db) v (on_catalog_tx body) = (r, st) → ∃ db', st = Some db' ∧ exec db' = exec db.
Proof.
  unfold transact, on_catalog_tx. destruct v; [|intros [= _ <-]; by exists db].
  destruct (body (catalog db)) as [[x c]|e]; cbn [mbind result_bind]; intros [= _ <-]; by eexists.
Qed.

Create HintDb keeps.
#[export] Hint Resolve keeps_bind keeps_lift keeps_stop keeps_fail keeps_query keeps_require keeps_timestamp keeps_wrap
  keeps_for_each : keeps.

Section frame.
Context (now : nat → Time) (eng : Engine).
Lemma keeps_set runID p : keeps_exec (setWorkflowDependencyState eng runID p).
Proof.
  unfold setWorkflowDependencyState. apply keeps_bind; [auto with keeps|]. intros [].
  case_match; [auto with keeps|]. apply keeps_bind; [auto with keeps|]. intros [run|]; [|auto with keeps].
  apply keeps_bind; [auto with keeps|]. intros context. apply keeps_bind; [auto with keeps|]. intros json.
  apply keeps_call. intros db r st. destruct (UpdateWorkflowRunSubmissionContext _ _ _ _) as [r1 st1] eqn:H1.
  intros [= _ <-]. by eapply catalog_tx.
Qed.
Lemma keeps_membership runID stage step item index :
  keeps_exec (RecordCompiledWorkItemMembership now eng runID stage step item index).
Proof.
  unfold RecordCompiledWorkItemMembership, read_plan.
  apply keeps_bind; [auto with keeps|intros []]. apply keeps_bind; [auto with keeps|intros []].
  apply keeps_bind; [auto with keeps|intros [p|]; [|auto with keeps]]. case_match; [|auto with keeps].
  destruct p0 as [[i j] step_]. apply keeps_bind; [auto with keeps|intros []].
  apply keeps_bind; [auto with keeps|intros timestamp]. apply keeps_bind; [|intros []; apply keeps_set].
  apply keeps_call. intros db r st. apply catalog_tx.
Qed.
End frame.

(** ** What the queries show *)

Definition in_run (e : Exec) (runID id : string) : Prop := ∃ w, work_items e !! id = Some w ∧ wi_RunID w = runID.
Definition item_running (e : Exec) (id : string) : Prop := ∃ a r, running_work e !! a = Some r ∧ rr_work_item_id r = id.
Definition item_completed (e : Exec) (id : string) : Prop := ∃ a c, completed_work e !! a = Some c ∧ cw_WorkItemID c = id.
Definition item_has_failed (e : Exec) (id : string) : Prop := ∃ a f, failed_work e !! a = Some f ∧ fw_WorkItemID f = id.

Section queries.
Context (e : Exec) (Hinv : exec_base e) (runID : string).

Lemma terminal_spec state id :
  id ∈ (λ t, wi_ID (ta_WorkItem t)) <$> List.filter (λ t, bool_decide (ta_TerminalState t = state))
         (order_by (by_text2 ta_FinishedAt ta_AttemptID)
            (List.filter (λ t, bool_decide (wi_RunID (ta_WorkItem t) = runID)) (terminal_attempts e))) ↔
  in_run e runID id ∧ (state = "completed" ∧ item_completed e id ∨ state = "failed" ∧ item_has_failed e id).
Proof.
  rewrite list_elem_of_fmap. setoid_rewrite list_elem_of_In. setoid_rewrite filter_In. setoid_rewrite <- list_elem_of_In.
  setoid_rewrite elem_of_order_by. setoid_rewrite list_elem_of_In. setoid_rewrite filter_In. setoid_rewrite <- list_elem_of_In.
  unfold terminal_attempts. setoid_rewrite elem_of_app. setoid_rewrite list_elem_of_omap.
  setoid_rewrite bool_decide_eq_true. split.
  - intros (t & -> & [[(c & Hc & Ht)|(f & Hf & Ht)] Hrun] & Hstate).
    + apply list_elem_of_fmap in Hc as ([a c'] & -> & Ha%elem_of_map_to_list). cbn [snd] in Ht. unfold terminal_completed in Ht.
      destruct (work_items e !! cw_WorkItemID c') as [w|] eqn:Hw; [|done]. case_match; [|done]. injection Ht as <-.
      cbn in *. pose proof (inv_item_key e Hinv _ _ Hw) as Hk. rewrite Hk. split; [by exists w|]. left. split; [done|]. by exists a, c'.
    + apply list_elem_of_fmap in Hf as ([a c'] & -> & Ha%elem_of_map_to_list). cbn [snd] in Ht. unfold terminal_failed in Ht.
      destruct (work_items e !! fw_WorkItemID c') as [w|] eqn:Hw; [|done]. case_match; [|done]. injection Ht as <-.
      cbn in *. pose proof (inv_item_key e Hinv _ _ Hw) as Hk. rewrite Hk. split; [by exists w|]. right. split; [done|]. by exists a, c'.
  - intros [(w & Hw & Hrun) [[-> (a & c & Hc & <-)]|[-> (a & c & Hc & <-)]]].
    + destruct (inv_completed e Hinv _ _ Hc) as [Ha (t & Ht & _)]. rewrite <- Ha in Ht.
      eexists. split; cycle 1.
      * split; [split; [left; exists c; split|]|].
        -- apply list_elem_of_fmap. exists (a, c). split; [done|]. by apply elem_of_map_to_list.
        -- unfold terminal_completed. by rewrite Hw, Ht.
        -- done.
        -- done.
      * cbn. symmetry. by apply (inv_item_key e Hinv).
    + destruct (inv_failed e Hinv _ _ Hc) as [Ha (t & Ht & _)]. rewrite <- Ha in Ht.
      eexists. split; cycle 1.
      * split; [split; [right; exists c; split|]|].
        -- apply list_elem_of_fmap. exists (a, c). split; [done|]. by apply elem_of_map_to_list.
        -- unfold terminal_failed. by rewrite Hw, Ht.
        -- done.
        -- done.
      * cbn. symmetry. by apply (inv_item_key e Hinv).
Qed.

Lemma running_spec id :
  id ∈ (λ r, wi_ID (rn_WorkItem r)) <$> List.filter (λ r, bool_decide (wi_RunID (rn_WorkItem r) = runID))
         (order_by (by_text2 rn_StartedAt rn_AttemptID)
            (omap (λ kv, scanRunningWork e kv.1 kv.2) (map_to_list (running_work e)))) ↔
  in_run e runID id ∧ item_running e id.
Proof.
  rewrite list_elem_of_fmap. setoid_rewrite list_elem_of_In. setoid_rewrite filter_In. setoid_rewrite <- list_elem_of_In.
  setoid_rewrite elem_of_order_by. setoid_rewrite list_elem_of_omap. setoid_rewrite bool_decide_eq_true. split.
  - intros (t & -> & ([a r] & Hin%elem_of_map_to_list & Ht) & Hrun). cbn in Ht. unfold scanRunningWork in Ht.
    destruct (work_items e !! rr_work_item_id r) as [w|] eqn:Hw; [|done]. case_match; [|done]. injection Ht as <-. cbn in *.
    pose proof (inv_item_key e Hinv _ _ Hw) as Hk. rewrite Hk. split; [by exists w|by exists a, r].
  - intros [(w & Hw & Hrun) (a & r & Hr & <-)]. destruct (inv_running_attempt e Hinv _ _ Hr) as (t & Ht & _).
    eexists. split; cycle 1.
    + split; [|].
      * exists (a, r). split; [by apply elem_of_map_to_list|]. unfold scanRunningWork. cbn. by rewrite Hw, Ht.
      * done.
    + cbn. symmetry. by apply (inv_item_key e Hinv).
Qed.

Lemma queued_spec id :
  id ∈ (λ q, wi_ID (qw_WorkItem q)) <$> listQueuedWorkForClaim e ↔
  is_Some (queued_work e !! id) ∧ is_Some (work_items e !! id).
Proof.
  rewrite list_elem_of_fmap. setoid_rewrite elem_of_listQueued. split.
  - intros (q & -> & id' & w & t & Hq & Hw & ->). cbn. rewrite (inv_item_key e Hinv _ _ Hw). by split; eexists.
  - intros [[t Hq] [w Hw]]. exists (mkQueued w t). split; [cbn; symmetry; by apply (inv_item_key e Hinv)|]. by exists id, w, t.
Qed.

Lemma run_items_spec record :
  record ∈ order_by by_stage_item (snd <$> table_rows (λ _ w, bool_decide (wi_RunID w = runID)) (work_items e)) ↔
  work_items e !! wi_ID record = Some record ∧ wi_RunID record = runID.
Proof.
  rewrite (elem_of_order_by by_stage_item), list_elem_of_fmap. split.
  - intros ([k w] & -> & [Hw Hr%bool_decide_eq_true]%elem_of_table_rows). cbn. by rewrite (inv_item_key e Hinv _ _ Hw).
  - intros [Hw Hr]. exists (wi_ID record, record). split; [done|]. apply elem_of_table_rows.
    split; [done|]. by apply bool_decide_eq_true.
Qed.
End queries.

(** ** The loop *)

Section loop.
Context {Payload : Type}.

(** The item is considered, and its dependencies allow it. *)
Definition ready_record (completed : WorkItemRecord) (v : dependents_view) (record : WorkItemRecord) : Prop :=
  wi_ID record ≠ wi_ID completed ∧ wi_ID record ∉ dv_queued v ∧ wi_ID record ∉ dv_running v ∧
  wi_ID record ∉ dv_completed v ∧ wi_ID record ∉ dv_failed v ∧
  ∃ item : WorkItem Payload, workItemPayloadFromRecord record = Ok item ∧ wi_ID completed ∈ w_DependsOn item ∧
    Forall (λ d, d ∈ dv_completed v) (w_DependsOn item).

Lemma consider_record_spec completed v timestamp acc record acc' :
  consider_record (Payload := Payload) completed v timestamp acc record = Ok acc' →
  (ready_record completed v record ∧ acc'.1 = acc.1 ++ [mkQueued record timestamp]) ∨
  (¬ ready_record completed v record ∧ acc' = acc).
Proof.
  unfold consider_record, ready_record. intros H. case_bool_decide as H1; [right; injection H as <-; naive_solver|].
  case_bool_decide as H2; [right; injection H as <-; naive_solver|].
  case_bool_decide as H3; [right; injection H as <-; naive_solver|].
  case_bool_decide as H4; [right; injection H as <-; naive_solver|].
  case_bool_decide as H5; [right; injection H as <-; naive_solver|]. cbn [orb] in H.
  apply bind_Ok in H as (item & Hi & H).
  unfold containsString in H. case_bool_decide as H6; cbn [orb] in H.
  { right. injection H as <-. split; [|done]. intros (_ & _ & _ & _ & _ & item' & Hi' & Hin & _).
    rewrite Hi in Hi'. injection Hi' as <-. rewrite H6 in Hin. by apply elem_of_nil in Hin. }
  case_bool_decide as H7; cbn [negb] in H; cycle 1.
  { right. injection H as <-. split; [|done]. intros (_ & _ & _ & _ & _ & item' & Hi' & Hin & _).
    rewrite Hi in Hi'. by injection Hi' as <-. }
  destruct (forallb _ _) eqn:Hall; cbn [negb] in H.
  - left. rewrite forallb_forall in Hall. case_match; [|done]. injection H as <-. split; [|done]. split_and!; [done..|].
    exists item. split_and!; [done|done|]. apply Forall_forall. intros d Hd%list_elem_of_In.
    by apply Hall, bool_decide_eq_true in Hd.
  - right. injection H as <-. split; [|done]. intros (_ & _ & _ & _ & _ & item' & Hi' & _ & HF).
    rewrite Hi in Hi'. injection Hi' as <-. assert (Ht : forallb (λ d, bool_decide (d ∈ dv_completed v)) (w_DependsOn item) = true).
    { apply forallb_forall. intros d Hd%list_elem_of_In. rewrite Forall_forall in HF. by apply bool_decide_eq_true, HF. }
    congruence.
Qed.
Lemma consider_all_spec completed v timestamp records : ∀ acc acc',
  foldM (consider_record (Payload := Payload) completed v timestamp) acc records = Ok acc' →
  ∀ q, q ∈ acc'.1 ↔ q ∈ acc.1 ∨ ∃ record, record ∈ records ∧ ready_record completed v record ∧ q = mkQueued record timestamp.
Proof.
  induction records as [|record records IH]; intros acc acc'.
  { intros [= <-] q. split; [by left|]. intros [?|(? & ?%elem_of_nil & _)]; done. }
  rewrite foldM_cons. intros (acc1 & H1 & H)%bind_Ok q. rewrite (IH _ _ H).
  apply consider_record_spec in H1 as [[Hr ->]|[Hr ->]].
  - rewrite elem_of_app, list_elem_of_singleton. setoid_rewrite elem_of_cons. naive_solver.
  - setoid_rewrite elem_of_cons. naive_solver.
Qed.
End loop.

(** ** The queue *)

Lemma enqueue_effect eng items : ∀ e e',
  enqueueWorkItems eng items e = Ok e' →
  (∀ q, q ∈ items → queued_work e' !! wi_ID (qw_WorkItem q) = Some (qw_QueuedAt q)) ∧
  (∀ id, id ∉ (λ q, wi_ID (qw_WorkItem q)) <$> items → queued_work e' !! id = queued_work e !! id) ∧
  (∀ id t, queued_work e !! id = Some t → queued_work e' !! id = Some t) ∧ same_core e e'.
Proof.
  unfold enqueueWorkItems. induction items as [|q items IH]; intros e e'.
  { intros [= <-]. split_and!; [by intros ? ?%elem_of_nil|done|done|done]. }
  rewrite foldM_cons. intros (e1 & H1 & H)%bind_Ok. apply IH in H as (Hin & Hout & Hkeep & Hcore).
  assert (Hone : queued_work e1 !! wi_ID (qw_WorkItem q) = Some (qw_QueuedAt q) ∧
    (∀ id, id ≠ wi_ID (qw_WorkItem q) → queued_work e1 !! id = queued_work e !! id) ∧
    (∀ id t, queued_work e !! id = Some t → queued_work e1 !! id = Some t) ∧ same_core e e1).
  { unfold enqueue_or_match in H1. apply bind_Ok in H1 as (existing & Hg & H1). unfold getQueuedWork in Hg.
    apply bind_Ok in Hg as (_ & _ & [= <-]). destruct (queued_work e !! wi_ID (qw_WorkItem q)) as [t|] eqn:Hq.
    - apply bind_Ok in H1 as ([] & Ht%fail_if_Ok & [= <-]). apply bool_decide_eq_false in Ht.
      assert (t = qw_QueuedAt q) as -> by (destruct (decide (t = qw_QueuedAt q)); [done|by destruct Ht]).
      split_and!; done.
    - apply wrap_err_Ok in H1. unfold insert_queued_work in H1. apply bind_Ok in H1 as (_ & _ & [= <-]).
      cbn. split_and!; [apply lookup_insert_eq| | |done].
      + intros id Hne. by rewrite lookup_insert_ne.
      + intros id t Hid. destruct (decide (id = wi_ID (qw_WorkItem q))) as [->|Hne]; [by rewrite Hq in Hid|].
        by rewrite lookup_insert_ne. }
  destruct Hone as (Ho1 & Ho2 & Ho3 & Ho4). split_and!.
  - intros q' [->|Hq']%elem_of_cons; [by apply Hkeep|by apply Hin].
  - intros id Hid. rewrite fmap_cons, not_elem_of_cons in Hid. rewrite Hout by tauto. apply Ho2. tauto.
  - intros id t Hid. by apply Hkeep, Ho3.
  - by etrans.
Qed.

(** ** Dependent work *)

Section exact.
Context {Payload : Type} (now : nat → Time) (eng : Engine).

(** An item of the run of [completed] that waits for it and for nothing that is not
    completed, and that is not queued, running, completed or failed. *)
Definition ready_dependent (e : Exec) (completed : WorkItemRecord) (id : string) : Prop :=
  ∃ (record : WorkItemRecord) (item : WorkItem Payload),
    work_items e !! id = Some record ∧ wi_RunID record = wi_RunID completed ∧ id ≠ wi_ID completed ∧
    queued_work e !! id = None ∧ ¬ item_running e id ∧ ¬ item_completed e id ∧ ¬ item_has_failed e id ∧
    workItemPayloadFromRecord record = Ok item ∧ wi_ID completed ∈ w_DependsOn item ∧
    ∀ d, d ∈ w_DependsOn item → in_run e (wi_RunID completed) d ∧ item_completed e d.

Definition view_of (e : Exec) (completed : WorkItemRecord) (steps : list WorkflowDependencyStepRecord) : dependents_view :=
  dependents_of completed (listQueuedWorkForClaim e)
    (order_by (by_text2 rn_StartedAt rn_AttemptID) (omap (λ kv, scanRunningWork e kv.1 kv.2) (map_to_list (running_work e))))
    (order_by (by_text2 ta_FinishedAt ta_AttemptID)
       (List.filter (λ t, bool_decide (wi_RunID (ta_WorkItem t) = wi_RunID completed)) (terminal_attempts e))) steps.

Lemma ready_record_spec e completed steps record :
  exec_base e → work_items e !! wi_ID record = Some record → wi_RunID record = wi_RunID completed →
  ready_record (Payload := Payload) completed (view_of e completed steps) record ↔
  ready_dependent e completed (wi_ID record).
Proof.
  intros Hinv Hw Hrun. unfold ready_record, ready_dependent, view_of, dependents_of.
  cbn [dv_queued dv_running dv_completed dv_failed].
  repeat setoid_rewrite elem_of_list_to_set.
  rewrite queued_spec, running_spec, !terminal_spec by done. setoid_rewrite terminal_spec; [|done].
  assert (Hr : in_run e (wi_RunID completed) (wi_ID record)) by (by exists record).
  split.
  - intros (H1 & H2 & H3 & H4 & H5 & item & Hi & Hd & HF). exists record, item. split_and!; [done..| | | | |done|done|].
    + apply eq_None_not_Some. intros Hq. apply H2. by split; [|eexists].
    + intros H. by apply H3.
    + intros H. apply H4. by split; [|left].
    + intros H. apply H5. by split; [|right].
    + intros d Hd'. rewrite Forall_forall in HF. destruct (HF d Hd') as [? [[_ ?]|[? _]]]; done.
  - intros (record' & item & Hw' & _ & H1 & H2 & H3 & H4 & H5 & Hi & Hd & HF). rewrite Hw in Hw'. injection Hw' as <-.
    split_and!; [done|..].
    + intros [[t Hq] _]. by rewrite H2 in Hq.
    + by intros [_ ?].
    + by intros [_ [[_ ?]|[? _]]].
    + by intros [_ [[? _]|[_ ?]]].
    + exists item. split_and!; [done|done|]. apply Forall_forall. intros d Hd'. destruct (HF d Hd'). by split; [|left].
Qed.

(** The records that the loop collects. *)
Lemma ready_list_spec db completed steps timestamp ready :
  exec_base (exec db) →
  foldM (consider_record (Payload := Payload) completed (view_of (exec db) completed steps) timestamp) ([], [])
    (order_by by_stage_item (snd <$> table_rows (λ _ w, bool_decide (wi_RunID w = wi_RunID completed)) (work_items (exec db))))
    = Ok ready →
  (∀ id, ready_dependent (exec db) completed id → ∃ q, q ∈ ready.1 ∧ wi_ID (qw_WorkItem q) = id) ∧
  (∀ q, q ∈ ready.1 → qw_QueuedAt q = timestamp ∧ ready_dependent (exec db) completed (wi_ID (qw_WorkItem q))).
Proof.
  intros Hinv H. pose proof (consider_all_spec _ _ _ _ _ _ H) as Hspec. cbn [fst] in Hspec. split.
  - intros id Hid. pose proof Hid as (record & item & Hw & Hrun & _). pose proof (inv_item_key _ Hinv _ _ Hw) as Hk.
    subst id. exists (mkQueued record timestamp). split; [|done]. apply Hspec. right. exists record.
    split_and!; [by apply run_items_spec|by apply ready_record_spec|done].
  - intros q Hq. apply Hspec in Hq as [?%elem_of_nil|(record & Hin & Hr & ->)]; [done|]. split; [done|]. cbn [qw_WorkItem].
    apply run_items_spec in Hin as [Hw Hrun]; [|done]. by apply ready_record_spec in Hr.
Qed.

(** What the collected records say, the queue says afterwards. *)
Lemma queued_exactly e e' completed timestamp (items : list QueuedWorkRecord) :
  (∀ id, ready_dependent e completed id → ∃ q, q ∈ items ∧ wi_ID (qw_WorkItem q) = id) →
  (∀ q, q ∈ items → qw_QueuedAt q = timestamp ∧ ready_dependent e completed (wi_ID (qw_WorkItem q))) →
  (∀ q, q ∈ items → queued_work e' !! wi_ID (qw_WorkItem q) = Some (qw_QueuedAt q)) →
  (∀ id, id ∉ (λ q, wi_ID (qw_WorkItem q)) <$> items → queued_work e' !! id = queued_work e !! id) →
  (∀ id t, queued_work e !! id = Some t → queued_work e' !! id = Some t) → same_core e e' →
  (∀ id, ready_dependent e completed id → queued_work e' !! id = Some timestamp) ∧
  (∀ id, ¬ ready_dependent e completed id → queued_work e' !! id = queued_work e !! id) ∧
  ∀ id, ¬ ready_dependent e' completed id.
Proof.
  intros Hall Honly Hin Hout Hkeep Hcore.
  assert (Hset : ∀ id, ready_dependent e completed id → queued_work e' !! id = Some timestamp).
  { intros id Hid. destruct (Hall id Hid) as (q & Hq & <-). destruct (Honly q Hq) as [<- _]. by apply Hin. }
  split_and!; [done| |].
  - intros id Hid. apply Hout. intros (q & -> & Hq)%list_elem_of_fmap. by destruct Hid, (Honly q Hq).
  - intros id Hid. assert (Hid' : ready_dependent e completed id).
    { destruct Hcore as (E1 & _ & _ & _ & E5 & _ & E7 & E8). unfold ready_dependent, in_run, item_running, item_completed, item_has_failed in *.
      rewrite E1, E5, E7, E8 in Hid. destruct Hid as (record & item & Hw & Hrun & Hne & Hq & Hrest). exists record, item.
      split_and!; [done|done|done| |apply Hrest..]. destruct (queued_work e !! id) eqn:Ho; [|done].
      apply Hkeep in Ho. by rewrite Ho in Hq. }
    pose proof (Hset id Hid') as Hs. destruct Hid as (record & item & _ & _ & _ & Hq & _). by rewrite Hs in Hq.
Qed.

(** What the loop over the run's records found, and what is done with it. *)
Lemma enqueue_reads completed queuedAt c r c' db :
  workflowStore c = Some (Some db) → reachable db →
  enqueueReadyAssetMaterializeDependents (Payload := Payload) now eng completed queuedAt c = (Ok r, c') →
  ∃ ready : list QueuedWorkRecord * list compiledStageWorkItemMembership,
    (∀ id, ready_dependent (exec db) completed id → ∃ q, q ∈ ready.1 ∧ wi_ID (qw_WorkItem q) = id) ∧
    (∀ q, q ∈ ready.1 → qw_QueuedAt q = format_rfc3339 (UTC queuedAt) ∧ ready_dependent (exec db) completed (wi_ID (qw_WorkItem q))) ∧
    (if bool_decide (ready.1 = []) then stop tt else
     wrap_op "enqueue asset_materialize dependent work"
       (call_store (EnqueueWorkItems eng (order_by by_queue_index ready.1)));;
     for_each_op (λ m, wrap_op "record asset_materialize dependent membership"
       (RecordCompiledWorkItemMembership now eng (wi_RunID completed) (cm_stageIndex m) (cm_stepIndex m)
          (cm_workItemID m) (cm_workItemIndex m))) ready.2) c = (Ok r, c').
Proof.
  intros Hst Hreach. destruct (reachable_exec_inv _ Hreach) as [Hinv _].
  unfold enqueueReadyAssetMaterializeDependents. rewrite Hst, bool_decide_eq_false_2 by done. intros H.
  apply op_bind_Ok in H as (allWork & c1 & H1 & H). unfold query_store in H1. injection H1 as Hall <-. rewrite Hst in Hall.
  apply op_bind_Ok in H as (queued & c2 & H1 & H). unfold query_store in H1. injection H1 as Hq <-. rewrite Hst in Hq.
  apply op_bind_Ok in H as (running & c3 & H1 & H). unfold query_store in H1. injection H1 as Hr <-. rewrite Hst in Hr.
  apply op_bind_Ok in H as (terminal & c4 & H1 & H). unfold query_store in H1. injection H1 as Ht <-. rewrite Hst in Ht.
  apply op_bind_Ok in H as (steps & c5 & H1 & H). unfold query_store in H1. injection H1 as Hs <-. clear Hs.
  apply op_bind_Ok in H as (ready & c6 & H1 & H). apply lift_Ok in H1 as [Hready ->].
  cbn [default] in *. unfold ListWorkItemsForRun, ListQueuedWorkItems, ListRunningWork, ListTerminalAttemptsForRun, query in *.
  apply bind_Ok in Hall as (u1 & _ & Hall). apply bind_Ok in Ht as (u2 & _ & Ht).
  injection Hall as <-. injection Hq as <-. injection Hr as <-. injection Ht as <-.
  destruct (ready_list_spec db completed steps _ ready Hinv Hready) as [Hin Honly]. by exists ready.
Qed.
(** With no dependent to queue nothing changes. *)
Lemma no_ready_dependents completed queuedAt c r c' db :
  workflowStore c = Some (Some db) → reachable db → (∀ id, ¬ ready_dependent (exec db) completed id) →
  enqueueReadyAssetMaterializeDependents (Payload := Payload) now eng completed queuedAt c = (Ok r, c') → c' = c.
Proof.
  intros Hst Hreach Hnone H. destruct (enqueue_reads _ _ _ _ _ _ Hst Hreach H) as (ready & _ & Honly & Hdone).
  case_bool_decide as Hempty; [by apply stop_Ok in Hdone as [_ ->]|].
  destruct ready as [[|q l] ms]; [done|]. destruct (Honly q ltac:(left)) as [_ Hq]. by destruct (Hnone _ Hq).
Qed.

(** C8: When a completion is processed without an error, the work items that it queues
    are exactly those of its run that depend on the completed item, whose dependencies
    are all completed, and that are not yet queued, running, completed or failed; each
    is queued at the time of the completion.  The rest of the queue, and every lease
    and outcome, stay as they were.  A second processing finds nothing left to queue. *)
Theorem ready_dependents_are_queued completed queuedAt c c' db :
  workflowStore c = Some (Some db) → reachable db →
  enqueueReadyAssetMaterializeDependents (Payload := Payload) now eng completed queuedAt c = (Ok tt, c') →
  ∃ db', workflowStore c' = Some (Some db') ∧ same_core (exec db) (exec db') ∧
    (∀ id, ready_dependent (exec db) completed id →
       queued_work (exec db') !! id = Some (format_rfc3339 (UTC queuedAt))) ∧
    (∀ id, ¬ ready_dependent (exec db) completed id → queued_work (exec db') !! id = queued_work (exec db) !! id) ∧
    ∀ id, ¬ ready_dependent (exec db') completed id.
Proof.
  intros Hst Hreach Henqueue. destruct (enqueue_reads _ _ _ _ _ _ Hst Hreach Henqueue) as (ready & Hin & Honly & H).
  case_bool_decide as Hempty.
  - apply stop_Ok in H as [_ ->]. exists db. split_and!; [done|done|..];
      apply (queued_exactly (exec db) (exec db) completed _ ready.1 Hin Honly); rewrite ?Hempty; try done;
      by intros q ?%elem_of_nil.
  - apply op_bind_Ok in H as ([] & c7 & H1 & H). unfold wrap_op, call_store in H1. rewrite Hst in H1.
    unfold EnqueueWorkItems, transact in H1. destruct (validateQueuedWorkItems _); [|done]. unfold lift_exec in H1.
    destruct (enqueueWorkItems _ _ _) as [e1|e1] eqn:Henq; cbn [mbind result_bind] in H1; [|done]. injection H1 as <-.
    assert (Hkeep : same_exec (mkController (Some (Some (mkDB (catalog db) e1))) (clock c) (logSink c)) c').
    { eapply keeps_for_each; [|exact H]. intros m. apply keeps_wrap, keeps_membership. }
    destruct (Hkeep _ eq_refl) as (db' & Hst' & He). cbn [exec] in He. exists db'. rewrite He.
    apply enqueue_effect in Henq as (Hset & Hout & Hk & Hcore).
    setoid_rewrite (elem_of_order_by by_queue_index) in Hset.
    split_and!; [done|done|..]; apply (queued_exactly (exec db) e1 completed _ ready.1 Hin Honly); try done;
      intros id Hid; apply Hout; intros Hid'; apply Hid; revert Hid'; rewrite !list_elem_of_fmap;
      setoid_rewrite (elem_of_order_by by_queue_index); done.
Qed.
End exact.

(** ** An instance *)

Definition demo_payload (id step : string) (depends : list string) : string :=
  print (JObject (field "id" (JString id) ++ field "type" (JString "python_script") ++
    field "depends_on" (JArray (JString <$> depends)) ++ field "step_definition_id" (JString step))).
Definition demo_record (id : string) (index : Z) (depends : list string) : WorkItemRecord :=
  mkWorkItem ("run1:" +:+ id) "run1" 0 index (demo_payload id "load" depends)
    (SHA256Hex (demo_payload id "load" depends)) "2026-01-01T00:00:00Z".
Definition demo_assets : DB :=
  run_ops demo_engine
    (demo_catalog ++
     [OpInsertDependencySteps [mkDepStep "run1" 0 0 "load" "" "2026-01-01T00:00:00Z"];
      OpQueueWorkItems (mkQueueReq [demo_record "a" 0 []; demo_record "b" 1 ["run1:a"]] []
        [mkQueued (demo_record "a" 0 []) "2026-01-01T00:00:01Z"]);
      demo_session "w1" "s1"; OpClaim (demo_claim "t1" "w1" "s1");
      OpComplete (mkCompleteReq "t1" "w1" "s1" "" "" "{}" (SHA256Hex "{}") (SHA256Hex "{}") (SHA256Hex "{}")
        "2026-01-01T00:01:00Z")]) emptyDB.
Definition demo_asset_controller : Controller := mkController (Some (Some demo_assets)) 0 (Some []).
Definition demo_enqueued : result unit * Controller :=
  enqueueReadyAssetMaterializeDependents (Payload := Empty_set) demo_clock demo_engine (demo_record "a" 0 [])
    (mkTime 2026 1 1 0 1 0 0 0) demo_asset_controller.
Example demo_enqueued_ok :
  demo_enqueued.1 = Ok tt ∧ queued_work (exec demo_assets) !! "run1:b" = None ∧
  (λ s, s ≫= λ db, queued_work (exec db) !! "run1:b") <$> workflowStore demo_enqueued.2 = Some (Some "2026-01-01T00:01:00Z").
Proof. vm_compute. done. Qed.
Lemma ready_dependents_are_queued_witness :
  ∃ db', workflowStore demo_enqueued.2 = Some (Some db') ∧ same_core (exec demo_assets) (exec db') ∧
    ∀ id, ¬ ready_dependent (Payload := Empty_set) (exec db') (demo_record "a" 0 []) id.
Proof.
  destruct (ready_dependents_are_queued (Payload := Empty_set) demo_clock demo_engine (demo_record "a" 0 [])
    (mkTime 2026 1 1 0 1 0 0 0) demo_asset_controller demo_enqueued.2 demo_assets) as (db' & Hst & Hcore & _ & _ & Hnone).
  - reflexivity.
  - exact (reachable_run_ops demo_engine _ _ reachable_empty).
  - refine (eq_trans (surjective_pairing _) _). f_equal.
  - exists db'. exact (conj Hst (conj Hcore Hnone)).
Defined.
