(* ===== verification/DataNames.v ===== *)
(** * Names, paths, locations and archives of data assets ([internal/model])

    What a data asset may be called and where it may lie: names of letters, digits and
    [_ - .], relative paths with forward slashes whose segments are plain names,
    registered locations, and selections from archives ([artifact_path.go],
    [data_location.go], [data_archive.go]).

    Which code points beyond Latin-1 are letters or digits is a table of the standard
    library: the class [Unicode], with the part of the table that is documented for
    Latin-1 and for the replacement character. *)

From S2P Require Import Prelude GoTime GoJson GoStrings GoPath GoJsonLaws GoSha256 Fingerprint.
From S2P Require Import Variables StoreData Dependency WorkItem GoFmt.
Local Open Scope Z_scope.

(** ** Runes *)

(** The code point of a chunk; a byte that is no UTF-8 reads as U+FFFD. *)
Definition rune_of (c : chunk) : N :=
  match c with
  | Asc a => byte_N a
  | Bad _ => 65533
  | Rune e =>
      match string_bytes e with
      | [a; b] => (a - 192) * 64 + (b - 128)
      | [a; b; c] => (a - 224) * 4096 + (b - 128) * 64 + (c - 128)
      | [a; b; c; d] => (a - 240) * 262144 + (b - 128) * 4096 + (c - 128) * 64 + (d - 128)
      | _ => 65533
      end
  end%N.

(** The letters and digits of Latin-1. *)
Definition latin1_letter (r : N) : bool :=
  ((65 <=? r) && (r <=? 90) || (97 <=? r) && (r <=? 122) || (r =? 170) || (r =? 181) || (r =? 186)
   || (192 <=? r) && (r <=? 255) && negb (r =? 215) && negb (r =? 247))%N.
Definition latin1_digit (r : N) : bool := ((48 <=? r) && (r <=? 57))%N.

(** [unicode.IsLetter] and [unicode.IsDigit] *)
Class Unicode := {
  IsLetter : N → bool;
  IsDigit : N → bool;
  letter_latin1 r : (r < 256)%N → IsLetter r = latin1_letter r;
  digit_latin1 r : (r < 256)%N → IsDigit r = latin1_digit r;
  replacement_is_no_name : IsLetter 65533 = false ∧ IsDigit 65533 = false }.

(** The table that knows no letters beyond Latin-1. *)
Lemma below_256 (f : N → bool) r : (r < 256)%N → (r <? 256)%N && f r = f r.
Proof. intros Hr. by rewrite (proj2 (N.ltb_lt _ _) Hr). Qed.
Definition latin1_only : Unicode := {|
  IsLetter r := (r <? 256)%N && latin1_letter r;
  IsDigit r := (r <? 256)%N && latin1_digit r;
  letter_latin1 r := below_256 latin1_letter r;
  digit_latin1 r := below_256 latin1_digit r;
  replacement_is_no_name := conj eq_refl eq_refl |}.

(** ** Paths *)

Definition hasArtifactDrivePrefix (value : string) : bool :=
  match value with
  | String a (String b _) => bool_decide (b = ":"%char) && latin1_letter (byte_N a)
  | _ => false
  end.

Definition check_segment (segment : string) : result unit :=
  if bool_decide (segment = "") then Err (Errorf "artifact path must not contain empty segments") else
  if bool_decide (segment = ".") then Err (Errorf "artifact path must not contain . segments") else
  if bool_decide (segment = "..") then Err (Errorf "artifact path must not contain .. segments") else Ok tt.

Definition ValidateArtifactRelativePath (value : string) : result string :=
  let trimmed := TrimSpace value in
  fail_if (is_empty trimmed) (Errorf "artifact path is required");;
  fail_if (negb (bool_decide (trimmed = value)))
    (Errorf "artifact path must not contain leading or trailing whitespace");;
  fail_if (contains "\" value) (Errorf "artifact path must use forward slashes");;
  fail_if (has_prefix "/" value || has_prefix "//" value) (Errorf "artifact path must be relative");;
  fail_if (hasArtifactDrivePrefix value) (Errorf "artifact path must be relative");;
  for_each check_segment (split_byte "/" value);;
  let clean := Clean value in
  fail_if (bool_decide (clean = ".") || bool_decide (clean = "/") || has_prefix "/" clean)
    (Errorf "artifact path must be relative");;
  fail_if (contains "\" clean) (Errorf "artifact path must use forward slashes");;
  fail_if (hasArtifactDrivePrefix clean) (Errorf "artifact path must be relative");;
  fail_if (negb (bool_decide (clean = value))) (Errorf "artifact path must be a clean relative path");;
  Ok clean.

Definition validateDataRelativePath (value field_ : string) : result string :=
  wrap_err field_ (ValidateArtifactRelativePath value).
(** [if value != "" { if _, err := validateDataRelativePath(value, field) ... }] *)
Definition optional_path (value field_ : string) : result unit :=
  if is_empty value then Ok tt else validateDataRelativePath value field_;; Ok tt.

(** A value that must not have white space around it. *)
Definition trimmed_text (value msg : string) : result unit :=
  fail_if (negb (bool_decide (TrimSpace value = value))) (Errorf msg).

(** ** Checks shared by the structs *)

Definition validateOptionalSHA256 (field_ value : string) : result unit :=
  if is_empty value then Ok tt else
  let e := Errorf (field_ +:+ " must be a 64-character lowercase SHA-256 hex value") in
  fail_if (negb (slen value =? 64)%nat) e;;
  fail_if (negb (forallb lower_hex (chunks value))) e.
Definition validatePrefixedSHA256 (field_ value : string) : result unit :=
  fail_if (negb (has_prefix "sha256:" value)) (Errorf (field_ +:+ " must use sha256: prefix"));;
  validateOptionalSHA256 field_ (trim_prefix "sha256:" value).
Definition validateOptionalSize (field_ : string) (value : option Z) : result unit :=
  match value with
  | Some z => non_negative z (field_ +:+ " must be non-negative")
  | None => Ok tt
  end.
(** A switch whose cases return nil. *)
Definition one_of (value : string) (allowed : list string) (msg : string) : result unit :=
  fail_if (negb (bool_decide (value ∈ allowed))) (Errorf (msg +:+ " " +:+ value)).

Section names.
Context `{!Unicode}.

Definition name_rune (c : chunk) : bool :=
  let r := rune_of c in IsLetter r || IsDigit r || (r =? 95)%N || (r =? 45)%N || (r =? 46)%N.
Definition validateDataName (value field_ : string) : result unit :=
  fail_if (is_empty (TrimSpace value)) (Errorf (field_ +:+ " is required"));;
  trimmed_text value (field_ +:+ " must not contain leading or trailing whitespace");;
  match List.find (λ c, negb (name_rune c)) (chunks value) with
  | None => Ok tt
  | Some c => Err (Errorf (field_ +:+ " contains unsupported character " +:+ chunk_bytes c))
  end.
(** [if value != "" { if err := validateDataName(...) ... }] *)
Definition optional_name (value field_ : string) : result unit :=
  if is_empty value then Ok tt else validateDataName value field_.

(** ** Locations *)

Definition DataLocationTypeRegistered : string := "registered_location".
Definition DataLocationAccessReadOnly : string := "read_only".
Definition DataLocationAccessWriteOnly : string := "write_only".
Definition DataLocationAccessReadWrite : string := "read_write".

Record DataLocation := mkLocation {
  dl_Name : string; dl_Type : string; dl_Access : string; dl_RootRef : string; dl_Metadata : metadata }.
Record DataLocationPathTemplate := mkPathTemplate { lt_Name : string; lt_PathTemplate : string }.

Definition isSupportedDataLocationAccess (access : string) : bool :=
  bool_decide (access ∈ [DataLocationAccessReadOnly; DataLocationAccessWriteOnly; DataLocationAccessReadWrite]).
Definition DataLocation_Validate (location : DataLocation) : result unit :=
  validateDataName (dl_Name location) "data location name";;
  fail_if (negb (bool_decide (dl_Type location = DataLocationTypeRegistered)))
    (Errorf ("unsupported data location type " +:+ dl_Type location));;
  fail_if (negb (is_empty (dl_Access location)) && negb (isSupportedDataLocationAccess (dl_Access location)))
    (Errorf ("unsupported data location access " +:+ dl_Access location));;
  trimmed_text (dl_RootRef location) "data location root_ref must not contain leading or trailing whitespace".
Definition DataLocationPathTemplate_Validate (location : DataLocationPathTemplate) : result unit :=
  validateDataName (lt_Name location) "data location name";;
  validateDataRelativePath (lt_PathTemplate location) "data location path_template";;
  Ok tt.
End names.

(** ** Archives *)

Definition DataAssetArchiveTypeZip : string := "zip".
Definition DataAssetArchiveTypeSevenZip : string := "seven_zip".
Definition DataAssetArchiveExposeSelectedPath : string := "selected_path".
Definition DataAssetArchiveExposeSelectedDirectory : string := "selected_directory".

Record DataAssetArchiveSelectTemplate := mkSelectTemplate {
  st_MemberTemplate : string; st_As : string; st_Required : option bool }.
Record DataAssetArchiveTemplate := mkArchiveTemplate {
  at_Type : string; at_Select : list DataAssetArchiveSelectTemplate; at_Expose : string }.
Record DataAssetArchiveSelect := mkSelect { sl_Member : string; sl_As : string; sl_Required : option bool }.
Record DataAssetArchive := mkArchive {
  ar_Type : string; ar_Select : list DataAssetArchiveSelect; ar_Expose : string }.

(** [effectiveRequired] of both kinds of selector. *)
Definition effectiveRequired (required : option bool) : bool := default true required.
Definition validateArchiveType (archiveType : string) : result unit :=
  one_of archiveType [DataAssetArchiveTypeZip; DataAssetArchiveTypeSevenZip] "unsupported archive type".
Definition validateArchiveExpose (expose : string) : result unit :=
  one_of expose [""; DataAssetArchiveExposeSelectedPath; DataAssetArchiveExposeSelectedDirectory]
    "unsupported archive expose".
Definition validateArchiveExposeSelection (expose : string) (requiredCount : Z) : result unit :=
  fail_if (bool_decide (expose = DataAssetArchiveExposeSelectedPath) && negb (requiredCount =? 1))
    (Errorf "archive expose selected_path requires exactly one required member").

Definition SelectTemplate_Validate (selector : DataAssetArchiveSelectTemplate) : result unit :=
  validateDataRelativePath (st_MemberTemplate selector) "archive member_template";;
  optional_path (st_As selector) "archive as path".
Definition Select_Validate (selector : DataAssetArchiveSelect) : result unit :=
  validateDataRelativePath (sl_Member selector) "archive member";;
  optional_path (sl_As selector) "archive as path".
(** The two [Validate] methods over the selectors: check each, count the required. *)
Definition validate_selection {A} (validate : A → result unit) (required : A → option bool) (ty expose : string)
    (selectors : list A) : result unit :=
  validateArchiveType ty;;
  validateArchiveExpose expose;;
  traverse_items (λ i s, wrap_err ("archive select " +:+ pretty i) (validate s)) 0 selectors;;
  validateArchiveExposeSelection expose
    (Z.of_nat (length (List.filter (λ s, effectiveRequired (required s)) selectors))).
Definition ArchiveTemplate_Validate (archive : DataAssetArchiveTemplate) : result unit :=
  validate_selection SelectTemplate_Validate st_Required (at_Type archive) (at_Expose archive) (at_Select archive).
Definition Archive_Validate (archive : DataAssetArchive) : result unit :=
  validate_selection Select_Validate sl_Required (ar_Type archive) (ar_Expose archive) (ar_Select archive).

Example path_examples :
  ValidateArtifactRelativePath "a/b.tif" = Ok "a/b.tif" ∧
  ValidateArtifactRelativePath "a/../b" = Err (Errorf "artifact path must not contain .. segments") ∧
  ValidateArtifactRelativePath "C:x" = Err (Errorf "artifact path must be relative") ∧
  ValidateArtifactRelativePath "a//b" = Err (Errorf "artifact path must not contain empty segments") ∧
  @validateDataName latin1_only "yan.roy-2_x" "name" = Ok tt ∧
  @validateDataName latin1_only "a b" "name" = Err (Errorf "name contains unsupported character  ").
Proof. vm_compute. done. Qed.
