(* ===== verification/DataCollections.v ===== *)
(** * Collections of data assets ([internal/model/data_asset_collection.go],
      [materialized_asset_collection.go])

    A collection is the product of dimensions, each an explicit list of scalars or a
    range of integers; its members are materialised under a path with a placeholder
    per dimension.  The manifest of a materialised collection repeats the dimensions
    and the path.  Counts are 64-bit unsigned integers, range bounds are [int]. *)

From S2P Require Import Prelude GoTime GoJson GoStrings GoPath GoJsonLaws GoSha256 Fingerprint GoJsonStruct.
From S2P Require Import Variables StoreData Dependency WorkItem GoFmt DataNames.
Local Open Scope Z_scope.

Definition MaxUint64 : Z := 2 ^ 64 - 1.
(** Conversion to [uint64]. *)
Definition uint64 (z : Z) : Z := z mod 2 ^ 64.

(** ** Data *)

Record DataParameterDefinition := mkParameterDefinition { pd_Type : string }.
Record DataAssetCollectionRange := mkRange { rg_From : Z; rg_Through : Z }.
(** [cd_Values] is nil when no values are given. *)
Record DataAssetCollectionDimension := mkDimension {
  cd_Parameter : string; cd_Values : option (list any); cd_Range : option DataAssetCollectionRange }.
Record DataAssetCollectionDefinition := mkCollection { cl_Dimensions : list DataAssetCollectionDimension }.
Notation parameter_definitions := (gmap string DataParameterDefinition).

(** ** Values *)

Definition collectionValueKey (value : any) : result string :=
  match value with
  | PString typed => Ok ("string:" +:+ typed)
  | PInt typed => Ok ("int:" +:+ pretty typed)
  | PBool typed => Ok (if typed then "bool:true" else "bool:false")
  | _ => Err (Errorf "has a type, want scalar string, int, or bool")
  end.

Definition validateCollectionValueType (parameter : DataParameterDefinition) (value : any) : result unit :=
  let ty := pd_Type parameter in
  if bool_decide (ty = "") then collectionValueKey value;; Ok tt else
  if bool_decide (ty = "string") then
    match value with PString _ => Ok tt | _ => Err (Errorf "has a type, want string") end else
  if bool_decide (ty = "int") then
    match value with PInt _ => Ok tt | _ => Err (Errorf "has a type, want int") end else
  if bool_decide (ty = "bool") then
    match value with PBool _ => Ok tt | _ => Err (Errorf "has a type, want bool") end
  else Err (Errorf ("unsupported parameter type " +:+ ty)).

(** One explicit value; [seen] holds the keys before it, with their number. *)
Definition check_value (parameter : DataParameterDefinition) (seen : nat * gset string) (value : any) :
    result (nat * gset string) :=
  let at_ := "values[" +:+ pretty seen.1 +:+ "]" in
  key ← wrap_err at_ (collectionValueKey value);
  fail_if (bool_decide (key ∈ seen.2)) (Errorf (at_ +:+ " duplicates an earlier value"));;
  wrap_err at_ (validateCollectionValueType parameter value);;
  Ok (S seen.1, {[key]} ∪ seen.2).
Definition validateExplicitValues (dimension : DataAssetCollectionDimension) (parameter : DataParameterDefinition) :
    result unit :=
  fail_if (bool_decide (is_Some (cd_Range dimension))) (Errorf "must supply values or range, not both");;
  match cd_Values dimension with
  | None => Err (Errorf "must supply values or range")
  | Some [] => Err (Errorf "values must not be empty")
  | Some values => foldM (check_value parameter) (0%nat, ∅) values;; Ok tt
  end.

(** ** Cardinality *)

Definition range_cardinality (r : DataAssetCollectionRange) (parameter : DataParameterDefinition) : result Z :=
  fail_if (negb (bool_decide (pd_Type parameter = "int")))
    (Errorf ("range requires int parameter, got " +:+ pd_Type parameter));;
  fail_if (rg_Through r <? rg_From r) (Errorf "range from must be less than or equal to through");;
  let count := uint64 (uint64 (uint64 (rg_Through r) - uint64 (rg_From r)) + 1) in
  fail_if (count =? 0) (Errorf "range cardinality overflow");;
  Ok count.
Definition validateRange (dimension : DataAssetCollectionDimension) (parameter : DataParameterDefinition) : result unit :=
  fail_if (bool_decide (is_Some (cd_Values dimension))) (Errorf "must supply values or range, not both");;
  match cd_Range dimension with
  | None => Err (Errorf "must supply values or range")
  | Some r => range_cardinality r parameter;; Ok tt
  end.

Definition dimension_cardinality (dimension : DataAssetCollectionDimension) (parameter : DataParameterDefinition) :
    result Z :=
  match cd_Values dimension, cd_Range dimension with
  | Some _, Some _ => Err (Errorf "must supply values or range, not both")
  | None, None => Err (Errorf "must supply values or range")
  | Some values, None => validateExplicitValues dimension parameter;; Ok (Z.of_nat (length values))
  | None, Some r => range_cardinality r parameter
  end.

Section collections.
Context `{!Unicode} `{!Formats}.

(** One dimension: its index, the parameters seen and the product so far. *)
Definition add_dimension (parameters : parameter_definitions) (acc : nat * gset string * Z)
    (dimension : DataAssetCollectionDimension) : result (nat * gset string * Z) :=
  let '(index, seen, total) := acc in
  let name := cd_Parameter dimension in
  let at_ := "dimension " +:+ pretty index in
  wrap_err at_ (validateDataName name "collection dimension parameter");;
  match parameters !! name with
  | None => Err (Errorf (at_ +:+ " parameter " +:+ name +:+ " is not defined"))
  | Some parameter =>
      fail_if (bool_decide (name ∈ seen)) (Errorf (at_ +:+ " duplicates parameter " +:+ name));;
      count ← wrap_err (at_ +:+ " parameter " +:+ name) (dimension_cardinality dimension parameter);
      fail_if (count =? 0) (Errorf (at_ +:+ " parameter " +:+ name +:+ " has zero members"));;
      fail_if (MaxUint64 / count <? total) (Errorf "collection cardinality overflow");;
      Ok (S index, {[name]} ∪ seen, total * count)
  end.
Definition Cardinality (collection : DataAssetCollectionDefinition) (parameters : parameter_definitions) : result Z :=
  fail_if (bool_decide (length (cl_Dimensions collection) = 0%nat)) (Errorf "dimensions are required");;
  acc ← foldM (add_dimension parameters) (0%nat, ∅, 1) (cl_Dimensions collection);
  Ok acc.2.
Definition Collection_Validate (collection : DataAssetCollectionDefinition) (parameters : parameter_definitions) :
    result unit :=
  Cardinality collection parameters;; Ok tt.

(** [for value := from; value <= through; value++ { values = append(values, value) }],
    in at most so many rounds. *)
Fixpoint range_values (rounds : nat) (value through : Z) : option (list any) :=
  if through <? value then Some [] else
  match rounds with
  | O => None
  | S n => cons (PInt value) <$> range_values n (wrap64 (value + 1)) through
  end.
(** [None]: the loop is still running after so many rounds.  The code first allocates a slice of
    the capacity of the range, which panics when that is more than memory can hold: memory is
    unbounded here. *)
Definition DomainValues (rounds : nat) (dimension : DataAssetCollectionDimension) (parameter : DataParameterDefinition) :
    option (result (list any)) :=
  match cd_Range dimension with
  | Some r =>
      match range_cardinality r parameter with
      | Err e => Some (Err e)
      | Ok count =>
          if MaxInt64 <? count then Some (Err (Errorf "range is too large to expand"))
          else Ok <$> range_values rounds (rg_From r) (rg_Through r)
      end
  | None => Some (validateExplicitValues dimension parameter;; Ok (default [] (cd_Values dimension)))
  end.

(** ** Path templates *)

Record MaterializationPathTemplate := mkMaterializationPath {
  mp_Value : string; mp_Clean : string; mp_Placeholders : list string }.

(** The text of [\${...}] at the start of [s] without its backslash, and what follows;
    without a closing brace only [\${] is taken. *)
Definition escaped (s : string) : string * string :=
  match index_byte "}" (str_drop 3 s) with
  | None => ("${", str_drop 3 s)
  | Some e => (str_take (3 + e) (str_drop 1 s), str_drop (4 + e) s)
  end.
(** The expression of [${...}] at the start of [s], and what follows. *)
Definition placeholder (s : string) : option (string * string) :=
  match index_byte "}" (str_drop 2 s) with
  | None => None
  | Some e => Some (str_take e (str_drop 2 s), str_drop (3 + e) s)
  end.

(** The loop over the bytes, one round per step. *)
Fixpoint parse_path (fuel : nat) (s : string) : result (string * list string) :=
  match fuel, s with
  | O, _ | _, EmptyString => Ok ("", [])
  | S fuel, String c s' =>
      if has_prefix "\${" s then
        rest ← parse_path fuel (escaped s).2; Ok ((escaped s).1 +:+ rest.1, rest.2)
      else if bool_decide (c = "\"%char) then Err (Errorf "path_template must use forward slashes")
      else if has_prefix "${" s then
        match placeholder s with
        | None => Err (Errorf "unterminated interpolation")
        | Some (expression, follows) =>
            fail_if (contains "${" expression || contains_any "{}" expression)
              (Errorf ("nested or malformed interpolation " +:+ expression));;
            fail_if (negb (has_prefix "asset." expression))
              (Errorf ("placeholder " +:+ expression +:+ " must use asset.<parameter>"));;
            let name := trim_prefix "asset." expression in
            validateDataName name "materialization path_template parameter";;
            rest ← parse_path fuel follows;
            Ok ("${asset." +:+ name +:+ "}" +:+ rest.1, name :: rest.2)
        end
      else if bool_decide (c = "{"%char ∨ c = "}"%char) then Err (Errorf "unsupported interpolation syntax")
      else rest ← parse_path fuel s'; Ok (String c rest.1, rest.2)
  end.
Definition ParseMaterializationPathTemplate (value : string) : result MaterializationPathTemplate :=
  fail_if (is_empty value) (Errorf "path_template is required");;
  parsed ← parse_path (slen value) value;
  ValidateArtifactRelativePath parsed.1;;
  Ok (mkMaterializationPath value parsed.1 parsed.2).

Definition ValidateMaterializationPathTemplate (value : string) (parameters : parameter_definitions)
    (collection : option DataAssetCollectionDefinition) : result unit :=
  parsed ← ParseMaterializationPathTemplate value;
  for_each (λ name, fail_if (bool_decide (parameters !! name = None))
                      (Errorf ("references undeclared parameter " +:+ name))) (mp_Placeholders parsed);;
  match collection with
  | None => Ok tt
  | Some collection =>
      for_each (λ dimension, fail_if (negb (bool_decide (cd_Parameter dimension ∈ mp_Placeholders parsed)))
                               (Errorf ("omits collection dimension " +:+ cd_Parameter dimension)))
        (cl_Dimensions collection)
  end.

(** The loop that fills in the fixed parameters; the template was parsed before. *)
Fixpoint normalize_path (fuel : nat) (fixedParameters : metadata) (s : string) : string * list string :=
  match fuel, s with
  | O, _ | _, EmptyString => ("", [])
  | S fuel, String c s' =>
      if has_prefix "\${" s then
        let rest := normalize_path fuel fixedParameters (escaped s).2 in ((escaped s).1 +:+ rest.1, rest.2)
      else if has_prefix "${" s then
        match placeholder s with
        | None => ("", [])
        | Some (expression, follows) =>
            let name := trim_prefix "asset." expression in
            let rest := normalize_path fuel fixedParameters follows in
            match (list_to_map fixedParameters : gmap string any) !! name with
            | Some value => (Sprint value +:+ rest.1, rest.2)
            | None => ("${" +:+ name +:+ "}" +:+ rest.1, name :: rest.2)
            end
        end
      else let rest := normalize_path fuel fixedParameters s' in (String c rest.1, rest.2)
  end.
(** The first of equal names. *)
Definition first_names : list string → list string :=
  foldl (λ acc name, if bool_decide (name ∈ acc) then acc else acc ++ [name]) [].
Definition NormalizeMaterializationOutputPathTemplate (value : string) (fixedParameters : metadata) :
    result (string * list string) :=
  ParseMaterializationPathTemplate value;;
  let '(output, names) := normalize_path (slen value) fixedParameters value in
  Ok (output, first_names names).

(** ** Manifests *)

Definition MaterializedAssetCollectionManifestSchemaV1 : string := "goet/materialized-asset-collection/v1".
Record MaterializedAssetCollectionDimension := mkCollectionDimension { md_Type : string; md_Values : list any }.
Record MaterializedAssetCollectionManifest := mkCollectionManifest {
  cf_Schema : string; cf_Asset : string; cf_MaterializationDomainID : string; cf_DimensionOrder : list string;
  cf_Dimensions : gmap string MaterializedAssetCollectionDimension; cf_Path : string;
  cf_RequiredBindings : list string; cf_MemberCount : Z; cf_MembersSHA256 : string; cf_CollectionFingerprint : string }.
Record MaterializedDataAssetCollectionMember := mkCollectionMember {
  me_CollectionFingerprint : string; me_MemberIndex : Z; me_MemberCount : Z; me_DimensionOrder : list string;
  me_MemberBindings : gmap string any; me_DestinationRelativePath : string; me_PathTemplateIdentity : string }.

Definition collection_EffectiveSchema (manifest : MaterializedAssetCollectionManifest) : string :=
  if is_empty (TrimSpace (cf_Schema manifest)) then MaterializedAssetCollectionManifestSchemaV1 else cf_Schema manifest.

Definition manifest_dimension_cardinality (dimension : MaterializedAssetCollectionDimension) : result Z :=
  match md_Values dimension with
  | [] => Err (Errorf "values must not be empty")
  | values =>
      validateExplicitValues (mkDimension "value" (Some values) None) (mkParameterDefinition (md_Type dimension));;
      Ok (Z.of_nat (length values))
  end.

Definition sameStringSlice (left right : list string) : bool := bool_decide (left = right).
Definition order_entry (dimensions : gmap string MaterializedAssetCollectionDimension) (seen : gset string)
    (name : string) : result (gset string) :=
  validateDataName name "dimension_order entry";;
  fail_if (bool_decide (name ∈ seen)) (Errorf ("duplicate dimension " +:+ name));;
  fail_if (bool_decide (dimensions !! name = None)) (Errorf ("dimension " +:+ name +:+ " is missing"));;
  Ok ({[name]} ∪ seen).
Definition validateDimensionOrderAndBindings (order : list string)
    (dimensions : gmap string MaterializedAssetCollectionDimension) (requiredBindings : list string) : result unit :=
  fail_if (bool_decide (length order = 0%nat)) (Errorf "dimension_order is required");;
  fail_if (negb (bool_decide (length order = size dimensions)))
    (Errorf "dimension_order and dimensions must contain the same names");;
  foldM (order_entry dimensions) ∅ order;;
  fail_if (negb (sameStringSlice order requiredBindings)) (Errorf "required_bindings must match dimension_order").

Fixpoint path_bindings (fuel : nat) (s : string) : result (list string) :=
  match fuel, s with
  | O, _ | _, EmptyString => Ok []
  | S fuel, String c s' =>
      if has_prefix "\${" s then path_bindings fuel (escaped s).2
      else if has_prefix "${" s then
        match placeholder s with
        | None => Err (Errorf "path has unterminated interpolation")
        | Some (name, follows) =>
            fail_if (contains "${" name || contains_any "{}" name)
              (Errorf "path has nested or malformed interpolation");;
            fail_if (contains "." name) (Errorf ("path binding " +:+ name +:+ " must not be namespace-qualified"));;
            validateDataName name "path binding";;
            rest ← path_bindings fuel follows; Ok (name :: rest)
        end
      else if bool_decide (c = "}"%char) then Err (Errorf "path has unsupported interpolation syntax")
      else path_bindings fuel s'
  end.
Definition collectionManifestPathBindings (value : string) : result (list string) :=
  fail_if (is_empty (TrimSpace value)) (Errorf "path is required");;
  names ← path_bindings (slen value) value;
  Ok (first_names names).

(** One dimension of the product. *)
Definition multiply_dimension (dimensions : gmap string MaterializedAssetCollectionDimension) (cardinality : Z)
    (name : string) : result Z :=
  let dimension := default (mkCollectionDimension "" []) (dimensions !! name) in
  count ← wrap_err ("dimension " +:+ name) (manifest_dimension_cardinality dimension);
  fail_if (MaxUint64 / count <? cardinality) (Errorf "member_count overflow");;
  Ok (cardinality * count).
Definition CollectionManifest_Validate (manifest : MaterializedAssetCollectionManifest) : result unit :=
  fail_if (negb (bool_decide (collection_EffectiveSchema manifest = MaterializedAssetCollectionManifestSchemaV1)))
    (Errorf ("unsupported materialized asset collection manifest schema " +:+ cf_Schema manifest));;
  validateDataName (cf_Asset manifest) "materialized asset collection asset";;
  required_trimmed (cf_MaterializationDomainID manifest) "materialization_domain_id is required";;
  trimmed_text (cf_MaterializationDomainID manifest)
    "materialization_domain_id must not contain leading or trailing whitespace";;
  validatePrefixedSHA256 "members_sha256" (cf_MembersSHA256 manifest);;
  validatePrefixedSHA256 "collection_fingerprint" (cf_CollectionFingerprint manifest);;
  fail_if (cf_MemberCount manifest <=? 0) (Errorf "member_count must be positive");;
  validateDimensionOrderAndBindings (cf_DimensionOrder manifest) (cf_Dimensions manifest) (cf_RequiredBindings manifest);;
  cardinality ← foldM (multiply_dimension (cf_Dimensions manifest)) 1 (cf_DimensionOrder manifest);
  fail_if ((MaxInt64 <? cardinality) || negb (cf_MemberCount manifest =? cardinality))
    (Errorf ("member_count = " +:+ pretty (cf_MemberCount manifest) +:+ ", want " +:+ pretty cardinality));;
  pathBindings ← collectionManifestPathBindings (cf_Path manifest);
  fail_if (negb (sameStringSlice pathBindings (cf_RequiredBindings manifest)))
    (Errorf "path bindings differ from required_bindings").

Definition member_binding (member : MaterializedDataAssetCollectionMember) (name : string) : result unit :=
  validateDataName name "collection member dimension";;
  match me_MemberBindings member !! name with
  | None => Err (Errorf ("member binding " +:+ name +:+ " is required"))
  | Some value => wrap_err ("member binding " +:+ name) (collectionValueKey value);; Ok tt
  end.
Definition CollectionMember_Validate (member : MaterializedDataAssetCollectionMember) : result unit :=
  validatePrefixedSHA256 "collection_fingerprint" (me_CollectionFingerprint member);;
  fail_if (me_MemberCount member <=? 0) (Errorf "member_count must be positive");;
  fail_if ((me_MemberIndex member <? 0) || (me_MemberCount member <=? me_MemberIndex member))
    (Errorf "member_index must be in [0, member_count)");;
  (if is_empty (me_DestinationRelativePath member) then Ok tt else
     wrap_err "destination_relative_path" (ValidateArtifactRelativePath (me_DestinationRelativePath member));; Ok tt);;
  (if is_empty (me_PathTemplateIdentity member) then Ok tt else
     validatePrefixedSHA256 "path_template_identity" (me_PathTemplateIdentity member));;
  for_each (member_binding member) (me_DimensionOrder member).
End collections.

(** ** Decoding *)

Definition unmarshalCollectionScalar (v : JSON) : result any :=
  match v with
  | JString s => Ok (PString s)
  | JBool b => Ok (PBool b)
  | JNumber text => match Atoi text with Some z => Ok (PInt z) | None => Err (Errorf "number must be an int") end
  | _ => Err (Errorf "must be a scalar string, int, or bool")
  end.
Definition range_fields : Struct DataAssetCollectionRange :=
  [("from", into_int (λ x r, mkRange x (rg_Through r))); ("through", into_int (λ x r, mkRange (rg_From r) x))].
(** [Dimension.UnmarshalJSON] and [MaterializedAssetCollectionDimension.UnmarshalJSON];
    a [null] for the values of the former is an error. *)
Definition dimension_fields : Struct DataAssetCollectionDimension :=
  [("parameter", into_string (λ x d, mkDimension x (cd_Values d) (cd_Range d)));
   ("values", λ v d,
      match v with
      | JArray items =>
          values ← traverse_items (λ i x, wrap_err ("collection dimension values[" +:+ pretty i +:+ "]")
                                            (unmarshalCollectionScalar x)) 0 items;
          Ok (mkDimension (cd_Parameter d) (Some values) (cd_Range d))
      | _ => Err (Errorf "collection dimension values must be an array")
      end);
   ("range", into_pointer (decode_struct false range_fields (mkRange 0 0)) (λ x d,
      mkDimension (cd_Parameter d) (cd_Values d) x))].
Definition Dimension_UnmarshalJSON : JSON → result DataAssetCollectionDimension :=
  decode_struct false dimension_fields (mkDimension "" None None).
Definition collection_dimension_fields : Struct MaterializedAssetCollectionDimension :=
  [("type", into_string (λ x d, mkCollectionDimension x (md_Values d)));
   ("values", λ v d,
      match v with
      | JNull => Ok (mkCollectionDimension (md_Type d) [])
      | JArray items =>
          values ← traverse_items (λ i x, wrap_err ("values[" +:+ pretty i +:+ "]") (unmarshalCollectionScalar x)) 0 items;
          Ok (mkCollectionDimension (md_Type d) values)
      | _ => Err json_mismatch
      end)].
Definition CollectionDimension_UnmarshalJSON : JSON → result MaterializedAssetCollectionDimension :=
  decode_struct false collection_dimension_fields (mkCollectionDimension "" []).

Example domain_examples :
  range_values 5 3 6 = Some [PInt 3; PInt 4; PInt 5; PInt 6] ∧ range_values 3 3 6 = None ∧
  range_cardinality (mkRange MinInt64 MaxInt64) (mkParameterDefinition "int") = Err (Errorf "range cardinality overflow") ∧
  range_cardinality (mkRange (-2) 3) (mkParameterDefinition "int") = Ok 6.
Proof. vm_compute. done. Qed.
Example path_template_examples :
  let ps := [("year", PInt 2020)] in
  @NormalizeMaterializationOutputPathTemplate latin1_only plain_formats "in/${asset.year}/t_${asset.tile}.tif" ps
    = Ok ("in/2020/t_${tile}.tif", ["tile"]) ∧
  @NormalizeMaterializationOutputPathTemplate latin1_only plain_formats "in/\${x}/${asset.tile}" ps
    = Ok ("in/${x}/${tile}", ["tile"]) ∧
  @collectionManifestPathBindings latin1_only "in/${x}/${tile}" = Ok ["x"; "tile"].
Proof. vm_compute. done. Qed.
