(* ===== verification/DataAssets.v ===== *)
(** * Data assets and their manifests ([internal/model/data_asset.go],
      [materialization_scope.go], [published_data_asset.go], [artifact_manifest.go])

    An asset bound to a step, with where it comes from, how it is checked, cached and
    materialised; the manifests of materialised and of published assets and of the
    artifacts of an attempt; and the key under which a materialisation is looked up. *)

From S2P Require Import Prelude GoTime GoJson GoStrings GoPath GoJsonLaws GoSha256 Fingerprint GoJsonStruct.
From S2P Require Import Variables StoreData Dependency WorkItem WorkItemCodec GoFmt DataNames DataCollections.
Local Open Scope Z_scope.

(** ** Providers *)

Definition DataProviderHTTP : string := "http".
Definition DataProviderLocalFile : string := "local_file".
Definition DataProviderRegisteredLocation : string := "registered_location".
Definition DataProviderGDriveRclone : string := "gdrive_rclone".
Definition isSupportedDataProvider (provider : string) : bool :=
  bool_decide (provider ∈ [DataProviderHTTP; DataProviderLocalFile; DataProviderRegisteredLocation; DataProviderGDriveRclone]).
Definition isHTTPURI (value : string) : bool := has_prefix "http://" value || has_prefix "https://" value.
Definition validateRcloneRemote (value : string) : result unit :=
  required_trimmed value "gdrive remote is required";;
  trimmed_text value "gdrive remote must not contain leading or trailing whitespace";;
  fail_if (contains_any "\/:" value) (Errorf "gdrive remote must be a remote name, not a path").

(** ** Parts of an asset *)

Definition DataAssetCacheStrategyWorkerCache : string := "worker_cache".
Definition DataAssetCacheStrategyReference : string := "reference".
Record DataAssetLocation := mkAssetLocation {
  al_Type : string; al_URI : string; al_LocationName : string; al_Path : string; al_Remote : string;
  al_DrivePath : string; al_FileID : string }.
Record DataAssetIntegrityTemplate := mkIntegrityTemplate {
  it_SHA256Template : string; it_SizeBytes : option Z; it_Required : bool }.
Record DataAssetIntegrity := mkIntegrity { in_SHA256 : string; in_SizeBytes : option Z; in_Required : bool }.
Record DataAssetCacheTemplate := mkCacheTemplate {
  ct_Strategy : string; ct_CacheKeyTemplate : string; ct_Immutable : option bool }.
Record DataAssetCache := mkCache { ca_Strategy : string; ca_CacheKey : string; ca_Immutable : option bool }.
(** [DataAssetMaterializationTemplate] has the same fields and the same checks. *)
Record DataAssetMaterialization := mkAssetMaterialization {
  am_Scope : string; am_Strategy : string; am_PathTemplate : string }.
Record DataAssetTransferPolicy := mkTransferPolicy {
  tp_MaxConcurrentSourceTransfers : Z; tp_RequestedBandwidthMiBPerSecond : Z; tp_MaxBytesPerSecond : Z;
  tp_ProviderArgs : list (string * string) }.

Record StepDataBinding := mkStepBinding {
  sb_BindingName : string; sb_ProviderName : string; sb_Parameters : metadata; sb_Metadata : metadata }.
(** [ba_Parameters] is [None] when the map is nil: its JSON is [null] then. *)
Record BoundDataAsset := mkBoundAsset {
  ba_DefinitionName : string; ba_BindingName : string; ba_ProviderName : string; ba_Kind : string; ba_Format : string;
  ba_Provider : string; ba_Location : DataAssetLocation; ba_Integrity : DataAssetIntegrity; ba_Cache : DataAssetCache;
  ba_Archive : option DataAssetArchive; ba_Materialization : DataAssetMaterialization;
  ba_TransferPolicy : DataAssetTransferPolicy; ba_Parameters : option metadata; ba_Metadata : metadata }.

Definition DataMaterializationScopeShared : string := "shared".
Definition DataMaterializationScopeWorker : string := "worker".
Definition ErrMaterializationScopeNotImplemented : GoError := Sentinel "materialization scope is not implemented".

Definition validateIntegrity (sha256 : string) (sizeBytes : option Z) (required : bool) : result unit :=
  validateOptionalSHA256 "sha256" sha256;;
  validateOptionalSize "size_bytes" sizeBytes;;
  fail_if (required && is_empty sha256 && bool_decide (sizeBytes = None))
    (Errorf "required integrity needs sha256 or size_bytes").
Definition validateCacheStrategy (strategy : string) : result unit :=
  one_of strategy [""; DataAssetCacheStrategyWorkerCache; DataAssetCacheStrategyReference] "unsupported cache strategy".
Definition validateMaterializationStrategy (strategy : string) : result unit :=
  one_of strategy [""; DataAssetCacheStrategyWorkerCache; DataAssetCacheStrategyReference]
    "unsupported materialization strategy".
Definition ValidateMaterializationScope (scope : string) : result unit :=
  one_of scope [""; DataMaterializationScopeShared; DataMaterializationScopeWorker] "unsupported materialization scope".
(** [Cache.EffectiveImmutable] and [CacheTemplate.EffectiveImmutable] *)
Definition EffectiveImmutable (strategy : string) (immutable : option bool) : bool :=
  default (bool_decide (strategy = DataAssetCacheStrategyWorkerCache)) immutable.

Definition Integrity_Validate (integrity : DataAssetIntegrity) : result unit :=
  validateIntegrity (in_SHA256 integrity) (in_SizeBytes integrity) (in_Required integrity).
Definition CacheTemplate_Validate (cache : DataAssetCacheTemplate) : result unit :=
  validateCacheStrategy (ct_Strategy cache);; optional_path (ct_CacheKeyTemplate cache) "cache_key_template".
Definition Cache_Validate (cache : DataAssetCache) : result unit :=
  validateCacheStrategy (ca_Strategy cache);; optional_path (ca_CacheKey cache) "cache_key".
Definition Materialization_Validate (materialization : DataAssetMaterialization) : result unit :=
  ValidateMaterializationScope (am_Scope materialization);;
  optional_path (am_PathTemplate materialization) "materialization path_template";;
  validateMaterializationStrategy (am_Strategy materialization).
Definition provider_arg (kv : string * string) : result unit :=
  let '(key, value) := kv in
  required_trimmed key "transfer policy provider arg key is required";;
  fail_if (negb (bool_decide (key = "rclone_bwlimit"))) (Errorf ("unsupported transfer policy provider arg " +:+ key));;
  required_trimmed value ("transfer policy provider arg " +:+ key +:+ " value is required");;
  trimmed_text value ("transfer policy provider arg " +:+ key +:+ " must not contain leading or trailing whitespace").
Definition TransferPolicy_Validate (policy : DataAssetTransferPolicy) : result unit :=
  non_negative (tp_MaxConcurrentSourceTransfers policy) "max_concurrent_source_transfers must be non-negative";;
  non_negative (tp_RequestedBandwidthMiBPerSecond policy) "requested_bandwidth_mib_per_second must be non-negative";;
  non_negative (tp_MaxBytesPerSecond policy) "max_bytes_per_second must be non-negative";;
  for_each provider_arg (tp_ProviderArgs policy).

(** ** Materialised assets *)

Definition MaterializedDataAssetManifestSchemaV1 : string := "goet/materialized-data-assets/v1".
Record MaterializedArchiveMember := mkArchiveMember {
  mm_Member : string; mm_LocalPath : string; mm_SizeBytes : option Z; mm_SHA256 : string }.
Record MaterializedDataAsset := mkMaterializedAsset {
  ma_BindingName : string; ma_ProviderName : string; ma_ProviderType : string; ma_Kind : string; ma_Format : string;
  ma_LocalPath : string; ma_MaterializationKey : string; ma_MaterializationDomainID : string;
  ma_DestinationRelativePath : string; ma_DestinationSizeBytes : option Z; ma_DestinationSHA256 : string;
  ma_MaterializationStrategy : string; ma_CacheKey : string; ma_CacheImmutable : option bool;
  ma_SourceSizeBytes : option Z; ma_SourceSHA256 : string; ma_SelectedSizeBytes : option Z; ma_SelectedSHA256 : string;
  ma_ArchiveType : string; ma_ArchiveMembers : list MaterializedArchiveMember; ma_Metadata : metadata;
  ma_CollectionMember : option MaterializedDataAssetCollectionMember }.
Record MaterializedDataAssetManifest := mkMaterializedManifest {
  mf_Schema : string; mf_AssetKey : string; mf_TargetEnvironmentID : string; mf_Assets : list MaterializedDataAsset }.

(** A nil archive or member is not checked. *)
Definition optional_check {A} (check : A → result unit) (x : option A) : result unit :=
  match x with Some a => check a | None => Ok tt end.
(** [EffectiveSchema]: the schema, or the current one when it is blank. *)
Definition EffectiveSchema (schema current : string) : string := if is_empty (TrimSpace schema) then current else schema.

Definition ArchiveMember_Validate (member : MaterializedArchiveMember) : result unit :=
  validateDataRelativePath (mm_Member member) "materialized archive member";;
  required_trimmed (mm_LocalPath member) "materialized archive member local_path is required";;
  validateOptionalSize "archive member size_bytes" (mm_SizeBytes member);;
  validateOptionalSHA256 "archive member sha256" (mm_SHA256 member).

Section assets.
Context `{!Unicode}.

Definition StepDataBinding_Validate (binding : StepDataBinding) : result unit :=
  validateDataName (sb_BindingName binding) "data binding name";;
  validateDataName (sb_ProviderName binding) "data binding provider_name".

Definition AssetLocation_Validate (location : DataAssetLocation) : result unit :=
  let ty := al_Type location in
  fail_if (negb (isSupportedDataProvider ty)) (Errorf ("unsupported data asset location type " +:+ ty));;
  if bool_decide (ty = DataProviderHTTP) then
    required_trimmed (al_URI location) "data asset location uri is required";;
    fail_if (negb (isHTTPURI (al_URI location))) (Errorf "data asset location uri must use http or https")
  else if bool_decide (ty = DataProviderLocalFile ∨ ty = DataProviderRegisteredLocation) then
    validateDataName (al_LocationName location) "data asset location_name";;
    validateDataRelativePath (al_Path location) "data asset location path";;
    Ok tt
  else
    validateRcloneRemote (al_Remote location);;
    validateDataRelativePath (al_DrivePath location) "data asset drive_path";;
    trimmed_text (al_FileID location) "data asset file_id must not contain leading or trailing whitespace".

Definition BoundAsset_Validate (asset : BoundDataAsset) : result unit :=
  optional_name (ba_DefinitionName asset) "bound data asset definition_name";;
  validateDataName (ba_BindingName asset) "bound data asset binding_name";;
  validateDataName (ba_ProviderName asset) "bound data asset provider_name";;
  required_trimmed (ba_Kind asset) "bound data asset kind is required";;
  fail_if (negb (isSupportedDataProvider (ba_Provider asset)))
    (Errorf ("unsupported data provider " +:+ ba_Provider asset));;
  AssetLocation_Validate (ba_Location asset);;
  Integrity_Validate (ba_Integrity asset);;
  Cache_Validate (ba_Cache asset);;
  optional_check Archive_Validate (ba_Archive asset);;
  Materialization_Validate (ba_Materialization asset);;
  TransferPolicy_Validate (ba_TransferPolicy asset).

Definition MaterializedAsset_Validate (asset : MaterializedDataAsset) : result unit :=
  validateDataName (ma_BindingName asset) "materialized data asset binding_name";;
  required_trimmed (ma_Kind asset) "materialized data asset kind is required";;
  fail_if (negb (isSupportedDataProvider (ma_ProviderType asset)))
    (Errorf ("unsupported materialized data asset provider_type " +:+ ma_ProviderType asset));;
  required_trimmed (ma_LocalPath asset) "materialized data asset local_path is required";;
  (if is_empty (ma_MaterializationKey asset) then Ok tt
   else validatePrefixedSHA256 "materialized data asset materialization_key" (ma_MaterializationKey asset));;
  trimmed_text (ma_MaterializationDomainID asset)
    "materialized data asset materialization_domain_id must not contain leading or trailing whitespace";;
  optional_path (ma_DestinationRelativePath asset) "materialized data asset destination_relative_path";;
  optional_path (ma_CacheKey asset) "materialized data asset cache_key";;
  validateOptionalSize "source_size_bytes" (ma_SourceSizeBytes asset);;
  validateOptionalSize "selected_size_bytes" (ma_SelectedSizeBytes asset);;
  validateOptionalSize "destination_size_bytes" (ma_DestinationSizeBytes asset);;
  validateOptionalSHA256 "source_sha256" (ma_SourceSHA256 asset);;
  validateOptionalSHA256 "selected_sha256" (ma_SelectedSHA256 asset);;
  validateOptionalSHA256 "destination_sha256" (ma_DestinationSHA256 asset);;
  (if is_empty (ma_ArchiveType asset) then Ok tt else validateArchiveType (ma_ArchiveType asset));;
  traverse_items (λ i member, wrap_err ("archive member " +:+ pretty i) (ArchiveMember_Validate member)) 0
    (ma_ArchiveMembers asset);;
  optional_check (λ m, wrap_err "collection_member" (CollectionMember_Validate m)) (ma_CollectionMember asset).

Definition MaterializedManifest_Validate (manifest : MaterializedDataAssetManifest) : result unit :=
  fail_if (negb (bool_decide (EffectiveSchema (mf_Schema manifest) MaterializedDataAssetManifestSchemaV1
                              = MaterializedDataAssetManifestSchemaV1)))
    (Errorf ("unsupported materialized data asset manifest schema " +:+ mf_Schema manifest));;
  (if is_empty (mf_AssetKey manifest) then Ok tt else
     fail_if (negb (has_prefix "sha256:" (mf_AssetKey manifest)))
       (Errorf "materialized data asset manifest asset_key must use sha256: prefix");;
     validateOptionalSHA256 "materialized data asset manifest asset_key" (trim_prefix "sha256:" (mf_AssetKey manifest)));;
  trimmed_text (mf_TargetEnvironmentID manifest)
    "materialized data asset manifest target_environment_id must not contain leading or trailing whitespace";;
  fail_if (bool_decide (length (mf_Assets manifest) = 0%nat)) (Errorf "at least one materialized data asset is required");;
  traverse_items (λ i asset, wrap_err ("materialized data asset " +:+ pretty i) (MaterializedAsset_Validate asset)) 0
    (mf_Assets manifest);;
  Ok tt.
End assets.

(** ** Where a materialisation is looked up ([materialization_scope.go]) *)

Record MaterializationDomain := mkDomain { dom_Scope : string; dom_ID : string }.
Definition SharedMaterializationDomain (targetEnvironmentID : string) : result MaterializationDomain :=
  required_trimmed targetEnvironmentID "shared materialization domain id is required";;
  trimmed_text targetEnvironmentID "shared materialization domain id must not contain leading or trailing whitespace";;
  Ok (mkDomain DataMaterializationScopeShared targetEnvironmentID).
(** The text of the error for workers puts the sentinel first. *)
Definition ResolveMaterializationDomain (materialization : DataAssetMaterialization) (targetEnvironmentID : string) :
    result MaterializationDomain :=
  Materialization_Validate materialization;;
  let scope := am_Scope materialization in
  if bool_decide (scope = DataMaterializationScopeShared) then SharedMaterializationDomain targetEnvironmentID else
  if bool_decide (scope = DataMaterializationScopeWorker) then
    Err (Wrapf DataMaterializationScopeWorker ErrMaterializationScopeNotImplemented) else
  if bool_decide (scope = "") then Err (Errorf "materialization scope is required")
  else Err (Errorf ("unsupported materialization scope " +:+ scope)).
Definition MaterializationLookupIdentity (assetKey : string) (materialization : DataAssetMaterialization)
    (targetEnvironmentID : string) : result GoValue :=
  required_trimmed assetKey "asset_key is required";;
  fail_if (negb (has_prefix "sha256:" assetKey)) (Errorf "asset_key must use sha256: prefix");;
  validateOptionalSHA256 "asset_key" (trim_prefix "sha256:" assetKey);;
  domain ← ResolveMaterializationDomain materialization targetEnvironmentID;
  Ok (GMap [("asset_key", GString assetKey); ("materialization_scope", GString (dom_Scope domain));
            ("materialization_domain_id", GString (dom_ID domain))]).
Definition MaterializationLookupKey (assetKey : string) (materialization : DataAssetMaterialization)
    (targetEnvironmentID : string) : result string :=
  identity ← MaterializationLookupIdentity assetKey materialization targetEnvironmentID;
  hashed ← CanonicalJSONSHA256 identity;
  Ok ("sha256:" +:+ hashed.2).

(** ** Published assets *)

Definition PublishedDataAssetManifestSchemaV1 : string := "goet/published-data-assets/v1".
Definition PublishedDataAssetOverwriteFailIfExists : string := "fail_if_exists".
Record PublishedDataAsset := mkPublished {
  pb_Name : string; pb_FromWorkItemID : string; pb_FromArtifact : string; pb_ContentType : string;
  pb_StorageScope : string; pb_LocationName : string; pb_Path : string; pb_SizeBytes : option Z; pb_SHA256 : string;
  pb_OverwritePolicy : string }.
Record PublishedDataAssetManifest := mkPublishedManifest {
  pf_Schema : string; pf_TargetEnvironmentID : string; pf_PublishedAssets : list PublishedDataAsset }.
Definition validateOverwritePolicy (policy : string) : result unit :=
  one_of policy [""; PublishedDataAssetOverwriteFailIfExists] "unsupported published data asset overwrite policy".

Section published.
Context `{!Unicode}.
Definition Published_Validate (asset : PublishedDataAsset) : result unit :=
  validateDataName (pb_Name asset) "published data asset name";;
  fail_if (is_empty (TrimSpace (pb_FromWorkItemID asset)) && negb (is_empty (pb_FromWorkItemID asset)))
    (Errorf "published data asset from_work_item_id must not be empty when set");;
  validateDataName (pb_FromArtifact asset) "published data asset from_artifact";;
  (if bool_decide (pb_StorageScope asset = DataLocationTypeRegistered) then
     validateDataName (pb_LocationName asset) "published data asset location_name";;
     ValidateArtifactRelativePath (pb_Path asset);; Ok tt
   else if bool_decide (pb_StorageScope asset = DataProviderGDriveRclone) then
     wrap_err "published data asset gdrive remote" (validateRcloneRemote (pb_LocationName asset));;
     validateDataRelativePath (pb_Path asset) "published data asset gdrive path";; Ok tt
   else Err (Errorf ("unsupported published data asset storage scope " +:+ pb_StorageScope asset)));;
  validateOptionalSize "published data asset size_bytes" (pb_SizeBytes asset);;
  validateOptionalSHA256 "published data asset sha256" (pb_SHA256 asset);;
  validateOverwritePolicy (pb_OverwritePolicy asset).
Definition validate_published (assets : list PublishedDataAsset) : result unit :=
  traverse_items (λ i asset, wrap_err ("published asset " +:+ pretty i) (Published_Validate asset)) 0 assets;; Ok tt.
Definition PublishedManifest_Validate (manifest : PublishedDataAssetManifest) : result unit :=
  fail_if (negb (bool_decide (EffectiveSchema (pf_Schema manifest) PublishedDataAssetManifestSchemaV1
                              = PublishedDataAssetManifestSchemaV1)))
    (Errorf ("unsupported published data asset manifest schema: " +:+ pf_Schema manifest));;
  required_trimmed (pf_TargetEnvironmentID manifest) "published data asset manifest target_environment_id is required";;
  fail_if (bool_decide (length (pf_PublishedAssets manifest) = 0%nat)) (Errorf "at least one published asset is required");;
  validate_published (pf_PublishedAssets manifest).
End published.

(** ** Artifacts of an attempt ([artifact_manifest.go]) *)

Definition ArtifactManifestSchemaV1 : string := "goet/artifact-manifest/v1".
Definition ArtifactKindFile : string := "file".
Definition ArtifactKindDirectory : string := "directory".
Record ArtifactDescriptor := mkDescriptor {
  ad_Name : string; ad_Kind : string; ad_Format : string; ad_Path : string; ad_ContentType : string;
  ad_SizeBytes : option Z; ad_SHA256 : string; ad_ManifestSHA256 : string; ad_RecordCount : option Z;
  ad_SchemaRef : string; ad_Metadata : option (gmap string any) }.
Record ArtifactManifest := mkManifest {
  af_Schema : string; af_RunID : string; af_StageIndex : option Z; af_StepIndex : option Z; af_WorkItemID : string;
  af_AttemptID : string; af_StorageScope : string; af_Artifacts : list ArtifactDescriptor;
  af_PublishedAssets : list PublishedDataAsset; af_ScriptOutput : any }.

Definition Descriptor_Validate (artifact : ArtifactDescriptor) : result unit :=
  required_trimmed (ad_Name artifact) "artifact name is required";;
  required_trimmed (ad_Kind artifact) "artifact kind is required";;
  required_trimmed (ad_Path artifact) "artifact path is required";;
  ValidateArtifactRelativePath (ad_Path artifact);;
  optional_check (λ z, non_negative z "artifact size bytes must be non-negative") (ad_SizeBytes artifact);;
  optional_check (λ z, non_negative z "artifact record count must be non-negative") (ad_RecordCount artifact);;
  fail_if (negb (bool_decide (ad_Kind artifact ∈ [ArtifactKindFile; ArtifactKindDirectory])))
    (Errorf ("unsupported artifact kind: " +:+ ad_Kind artifact)).
Section manifest.
Context `{!Unicode}.
Definition ArtifactManifest_Validate (manifest : ArtifactManifest) : result unit :=
  fail_if (negb (bool_decide (EffectiveSchema (af_Schema manifest) ArtifactManifestSchemaV1 = ArtifactManifestSchemaV1)))
    (Errorf ("unsupported artifact manifest schema: " +:+ af_Schema manifest));;
  required_trimmed (af_StorageScope manifest) "storage scope is required";;
  optional_check (λ z, non_negative z "stage index must be non-negative") (af_StageIndex manifest);;
  optional_check (λ z, non_negative z "step index must be non-negative") (af_StepIndex manifest);;
  fail_if (bool_decide (length (af_Artifacts manifest) = 0%nat)) (Errorf "at least one artifact is required");;
  traverse_items (λ i artifact, wrap_err ("artifact " +:+ pretty i) (Descriptor_Validate artifact)) 0
    (af_Artifacts manifest);;
  validate_published (af_PublishedAssets manifest).
End manifest.
