(* ===== verification/DataProviders.v ===== *)
(** * Providers and definitions of data assets ([internal/model/data_provider.go],
      [data_definition.go], [published_data_asset.go], [materialized_projection.go])

    A provider is a template: a URL, a registered path or a drive path with
    placeholders [${name}], which binding replaces by the values of the parameters.
    Definitions of inputs and outputs are the form in which workflows declare them.

    [renderTemplate] loops over a Go map, so the parameters are an association list:
    any order of it is one the code may run. *)

From S2P Require Import Prelude GoTime GoJson GoStrings GoPath GoJsonLaws GoSha256 Fingerprint GoJsonStruct.
From S2P Require Import Variables StoreData Dependency WorkItem GoFmt DataNames DataCollections DataAssets.
Local Open Scope Z_scope.

(** ** Templates *)

(** [open]: the name read since the last [${]. *)
Fixpoint names_from (open : option string) (s : string) : list string :=
  match open, s with
  | None, EmptyString => []
  | None, String c s' =>
      match s' with
      | String d s'' =>
          if bool_decide (c = "$"%char ∧ d = "{"%char) then names_from (Some "") s'' else names_from None s'
      | EmptyString => []
      end
  | Some _, EmptyString => [""]
  | Some name, String c s' =>
      if bool_decide (c = "}"%char) then name :: names_from None s' else names_from (Some (name +:+ String c "")) s'
  end.
Definition templateParameterNames (value : string) : list string := names_from None value.

Definition canonicalAssetTemplate (value : string) : string :=
  ReplaceAll (ReplaceAll value "${asset." "${") "${fanout." "${".
Fixpoint firstNonEmpty (values : list string) : string :=
  match values with
  | [] => ""
  | value :: rest => if is_empty value then firstNonEmpty rest else value
  end.

Section rendering.
Context `{!Formats}.
Definition render_parameter (rendered : string) (parameter : string * any) : string :=
  ReplaceAll rendered ("${" +:+ parameter.1 +:+ "}") (Sprint parameter.2).
Definition renderTemplate (value : string) (parameters : metadata) : string := foldl render_parameter value parameters.
Definition renderCanonicalTemplate (value : string) (parameters : metadata) : string :=
  renderTemplate (canonicalAssetTemplate value) parameters.
End rendering.

(** ** Provider templates *)

Record GDriveRcloneTemplate := mkGDrive { gd_Remote : string; gd_PathTemplate : string; gd_FileIDTemplate : string }.
Record DataProviderTemplate := mkProvider {
  dp_Name : string; dp_Kind : string; dp_Format : string; dp_Provider : string; dp_URLTemplate : string;
  dp_URITemplate : string; dp_Location : option DataLocationPathTemplate; dp_GDrive : option GDriveRcloneTemplate;
  dp_Parameters : list string; dp_Integrity : DataAssetIntegrityTemplate; dp_Cache : DataAssetCacheTemplate;
  dp_Archive : option DataAssetArchiveTemplate; dp_Materialization : DataAssetMaterialization;
  dp_TransferPolicy : DataAssetTransferPolicy; dp_Metadata : metadata }.

Definition GDrive_Validate (template : GDriveRcloneTemplate) : result unit :=
  validateRcloneRemote (gd_Remote template);;
  validateDataRelativePath (gd_PathTemplate template) "gdrive path_template";;
  trimmed_text (gd_FileIDTemplate template) "gdrive file_id_template must not contain leading or trailing whitespace".
Definition IntegrityTemplate_Validate (integrity : DataAssetIntegrityTemplate) : result unit :=
  if (0 <? length (templateParameterNames (it_SHA256Template integrity)))%nat then
    validateOptionalSize "size_bytes" (it_SizeBytes integrity);;
    fail_if (it_Required integrity && is_empty (it_SHA256Template integrity) && bool_decide (it_SizeBytes integrity = None))
      (Errorf "required integrity needs sha256 or size_bytes")
  else validateIntegrity (it_SHA256Template integrity) (it_SizeBytes integrity) (it_Required integrity).

(** The fields with templates, in the order in which they are checked. *)
Definition provider_templates (provider : DataProviderTemplate) : list (string * string) :=
  [("url_template", dp_URLTemplate provider); ("uri_template", dp_URITemplate provider);
   ("integrity.sha256", it_SHA256Template (dp_Integrity provider));
   ("cache.cache_key_template", ct_CacheKeyTemplate (dp_Cache provider))]
  ++ match dp_Location provider with Some l => [("location.path_template", lt_PathTemplate l)] | None => [] end
  ++ match dp_GDrive provider with
     | Some g => [("gdrive.path_template", gd_PathTemplate g); ("gdrive.file_id_template", gd_FileIDTemplate g)]
     | None => []
     end
  ++ match dp_Archive provider with
     | Some a =>
         concat (imap (λ i selector,
           [("archive.select[" +:+ pretty i +:+ "].member_template", st_MemberTemplate selector);
            ("archive.select[" +:+ pretty i +:+ "].as", st_As selector)]) (at_Select a))
     | None => []
     end.
Definition validateTemplateReferences (provider : DataProviderTemplate) (declared : gset string) : result unit :=
  for_each (λ template,
    for_each (λ name, fail_if (negb (bool_decide (name ∈ declared)))
                        (Errorf (template.1 +:+ " references undeclared parameter " +:+ name)))
      (templateParameterNames template.2))
    (provider_templates provider).

Section providers.
Context `{!Unicode} `{!Formats}.

Definition declare_parameter (seen : gset string) (name : string) : result (gset string) :=
  validateDataName name "data provider parameter";;
  fail_if (bool_decide (name ∈ seen)) (Errorf ("duplicate data provider parameter " +:+ name));;
  Ok ({[name]} ∪ seen).
Definition validateParameterNames (parameters : list string) : result (gset string) :=
  foldM declare_parameter ∅ parameters.

Definition validateProviderFields (provider : DataProviderTemplate) : result unit :=
  let ty := dp_Provider provider in
  if bool_decide (ty = DataProviderHTTP) then
    fail_if (is_empty (dp_URLTemplate provider) && is_empty (dp_URITemplate provider))
      (Errorf "http data provider url_template or uri_template is required");;
    fail_if (negb (is_empty (dp_URLTemplate provider)) && negb (isHTTPURI (dp_URLTemplate provider)))
      (Errorf "http data provider url_template must use http or https");;
    fail_if (negb (is_empty (dp_URITemplate provider)) && negb (isHTTPURI (dp_URITemplate provider)))
      (Errorf "http data provider uri_template must use http or https")
  else if bool_decide (ty = DataProviderLocalFile ∨ ty = DataProviderRegisteredLocation) then
    match dp_Location provider with
    | None => Err (Errorf (ty +:+ " data provider location is required"))
    | Some location => DataLocationPathTemplate_Validate location
    end
  else if bool_decide (ty = DataProviderGDriveRclone) then
    match dp_GDrive provider with
    | None => Err (Errorf "gdrive_rclone data provider gdrive is required")
    | Some g => GDrive_Validate g
    end
  else Ok tt.

Definition Provider_Validate (provider : DataProviderTemplate) : result unit :=
  validateDataName (dp_Name provider) "data provider name";;
  required_trimmed (dp_Kind provider) "data provider kind is required";;
  fail_if (negb (isSupportedDataProvider (dp_Provider provider)))
    (Errorf ("unsupported data provider " +:+ dp_Provider provider));;
  declared ← validateParameterNames (dp_Parameters provider);
  validateProviderFields provider;;
  validateTemplateReferences provider declared;;
  IntegrityTemplate_Validate (dp_Integrity provider);;
  CacheTemplate_Validate (dp_Cache provider);;
  optional_check ArchiveTemplate_Validate (dp_Archive provider);;
  Materialization_Validate (dp_Materialization provider);;
  TransferPolicy_Validate (dp_TransferPolicy provider).

(** A nil location or drive template would be dereferenced; validation excludes it. *)
Definition boundLocation (provider : DataProviderTemplate) (parameters : metadata) : result DataAssetLocation :=
  let ty := dp_Provider provider in
  if bool_decide (ty = DataProviderHTTP) then
    let uri := if is_empty (dp_URLTemplate provider) then dp_URITemplate provider else dp_URLTemplate provider in
    Ok (mkAssetLocation DataProviderHTTP (renderTemplate uri parameters) "" "" "" "" "")
  else if bool_decide (ty = DataProviderLocalFile ∨ ty = DataProviderRegisteredLocation) then
    let location := default (mkPathTemplate "" "") (dp_Location provider) in
    Ok (mkAssetLocation ty "" (lt_Name location) (renderTemplate (lt_PathTemplate location) parameters) "" "" "")
  else if bool_decide (ty = DataProviderGDriveRclone) then
    let g := default (mkGDrive "" "" "") (dp_GDrive provider) in
    Ok (mkAssetLocation DataProviderGDriveRclone "" "" "" (gd_Remote g) (renderTemplate (gd_PathTemplate g) parameters)
          (renderTemplate (gd_FileIDTemplate g) parameters))
  else Err (Errorf ("unsupported data provider " +:+ ty)).
Definition boundArchive (provider : DataProviderTemplate) (parameters : metadata) : result (option DataAssetArchive) :=
  match dp_Archive provider with
  | None => Ok None
  | Some template =>
      let archive := mkArchive (at_Type template)
        ((λ selector, mkSelect (renderTemplate (st_MemberTemplate selector) parameters)
                        (renderTemplate (st_As selector) parameters) (st_Required selector)) <$> at_Select template)
        (at_Expose template) in
      Archive_Validate archive;;
      Ok (Some archive)
  end.

(** A parameter that is absent or nil. *)
Definition require_parameter (parameters : metadata) (name : string) : result unit :=
  match (list_to_map parameters : gmap string any) !! name with
  | None | Some PNil => Err (Errorf ("required parameter " +:+ name +:+ " is missing"))
  | Some _ => Ok tt
  end.
Definition Bind (provider : DataProviderTemplate) (bindingName : string) (parameters : metadata) : result BoundDataAsset :=
  Provider_Validate provider;;
  validateDataName bindingName "bound data asset binding_name";;
  for_each (require_parameter parameters) (dp_Parameters provider);;
  renderedLocation ← boundLocation provider parameters;
  archive ← boundArchive provider parameters;
  let integrity := dp_Integrity provider in
  let cache := dp_Cache provider in
  let asset := mkBoundAsset "" bindingName (dp_Name provider) (dp_Kind provider) (dp_Format provider) (dp_Provider provider)
    renderedLocation
    (mkIntegrity (renderTemplate (it_SHA256Template integrity) parameters) (it_SizeBytes integrity) (it_Required integrity))
    (mkCache (ct_Strategy cache) (renderTemplate (ct_CacheKeyTemplate cache) parameters) (ct_Immutable cache))
    archive
    (mkAssetMaterialization (am_Scope (dp_Materialization provider)) (am_Strategy (dp_Materialization provider)) "")
    (dp_TransferPolicy provider) (Some parameters) (dp_Metadata provider) in
  BoundAsset_Validate asset;;
  Ok asset.

(** ** Publish targets *)

Record PublishedDataAssetTarget := mkTarget {
  tg_Name : string; tg_Kind : string; tg_Format : string; tg_Location : DataLocationPathTemplate;
  tg_Parameters : list string; tg_OverwritePolicy : string; tg_Metadata : metadata }.
Record BoundPublishTarget := mkBoundTarget {
  bt_Name : string; bt_FromArtifact : string; bt_TargetName : string; bt_Target : string; bt_Location : DataAssetLocation;
  bt_OverwritePolicy : string; bt_Parameters : metadata; bt_Metadata : metadata }.

Definition Target_Validate (target : PublishedDataAssetTarget) : result unit :=
  validateDataName (tg_Name target) "published data asset target name";;
  required_trimmed (tg_Kind target) "published data asset target kind is required";;
  DataLocationPathTemplate_Validate (tg_Location target);;
  declared ← validateParameterNames (tg_Parameters target);
  for_each (λ name, fail_if (negb (bool_decide (name ∈ declared)))
                      (Errorf ("published data asset location path_template references undeclared parameter " +:+ name)))
    (templateParameterNames (lt_PathTemplate (tg_Location target)));;
  validateOverwritePolicy (tg_OverwritePolicy target).
Definition BoundTarget_Validate (target : BoundPublishTarget) : result unit :=
  validateDataName (bt_Name target) "publish binding name";;
  validateDataName (bt_FromArtifact target) "publish binding from_artifact";;
  let effectiveTargetName := if is_empty (bt_TargetName target) then bt_Target target else bt_TargetName target in
  fail_if (negb (is_empty (bt_TargetName target)) && negb (is_empty (bt_Target target))
           && negb (bool_decide (bt_TargetName target = bt_Target target)))
    (Errorf "publish binding target_name does not match target");;
  validateDataName effectiveTargetName "publish binding target_name";;
  AssetLocation_Validate (bt_Location target);;
  validateOverwritePolicy (bt_OverwritePolicy target).
Definition Target_Bind (target : PublishedDataAssetTarget) (name fromArtifact : string) (parameters : metadata) :
    result BoundPublishTarget :=
  Target_Validate target;;
  validateDataName name "publish binding name";;
  validateDataName fromArtifact "publish binding from_artifact";;
  for_each (require_parameter parameters) (tg_Parameters target);;
  let bound := mkBoundTarget name fromArtifact (tg_Name target) ""
    (mkAssetLocation DataProviderRegisteredLocation "" (lt_Name (tg_Location target))
       (renderTemplate (lt_PathTemplate (tg_Location target)) parameters) "" "" "")
    (tg_OverwritePolicy target) parameters (tg_Metadata target) in
  BoundTarget_Validate bound;;
  Ok bound.
End providers.

Example render_examples :
  let ps := [("year", PInt 2020); ("tile", PString "h10v4")] in
  @renderTemplate plain_formats "y/${year}/${tile}_${year}.tif" ps = "y/2020/h10v4_2020.tif" ∧
  templateParameterNames "y/${year}/${tile}_${year" = ["year"; "tile"; ""] ∧
  canonicalAssetTemplate "a/${asset.year}/${fanout.tile}" = "a/${year}/${tile}".
Proof. vm_compute. done. Qed.
