(* ===== verification/DataDefinitions.v ===== *)
(** * Definitions of workflow inputs and outputs ([internal/model/data_definition.go])

    The canonical form in which a workflow declares its data: inputs with parameters,
    file roles, a collection and a binding; outputs with a place to publish to.  A
    definition of an input is compiled to a provider template and bound through it.
    Maps whose order does not matter are [gmap]; a loop over one that can fail reports
    one of the errors ([sorted_keys] is the order of [sort.Strings]).

    [materialized_projection.go]: the paths of a materialised asset that plugins see. *)

From S2P Require Import Prelude GoTime GoJson GoStrings GoPath GoJsonLaws GoSha256 Fingerprint GoJsonStruct.
From S2P Require Import Variables StoreData Dependency WorkItem GoFmt DataNames DataCollections DataAssets DataProviders.
Local Open Scope Z_scope.

Definition sorted_keys {A} (m : gmap string A) : list string := order_by str_leb (map_to_list m).*1.

(** ** Data *)

Record DataFileRoleDefinition := mkFileRole { fr_Member : string; fr_As : string; fr_Required : option bool }.
Record DataDefinitionLocation := mkDefinitionLocation {
  df_URI : string; df_URLTemplate : string; df_URITemplate : string; df_Name : string; df_LocationName : string;
  df_Path : string; df_PathTemplate : string; df_Remote : string; df_DrivePath : string; df_FileID : string }.
Record DataArchiveBindingDefinition := mkArchiveBinding { ab_Type : string; ab_Expose : string }.
Record DataDefinitionCache := mkDefinitionCache {
  dc_Strategy : string; dc_CacheKey : string; dc_CacheKeyTemplate : string; dc_Immutable : option bool }.
(** [DataDefinitionMaterialization] has the fields of [DataAssetMaterialization]. *)
Record DataInputBindingDefinition := mkInputBinding {
  ib_ProviderName : string; ib_Provider : string; ib_Location : DataDefinitionLocation;
  ib_Archive : DataArchiveBindingDefinition; ib_Integrity : DataAssetIntegrityTemplate; ib_Cache : DataDefinitionCache;
  ib_Materialization : DataAssetMaterialization; ib_TransferPolicy : DataAssetTransferPolicy; ib_Metadata : gmap string any }.
Record DataInputDefinition := mkInputDefinition {
  di_Kind : string; di_Format : string; di_Parameters : parameter_definitions;
  di_Collection : option DataAssetCollectionDefinition; di_Files : gmap string DataFileRoleDefinition;
  di_Select : list string; di_Binding : DataInputBindingDefinition; di_Metadata : gmap string any }.
Record DataOutputBindingDefinition := mkOutputBinding {
  ob_Provider : string; ob_Location : DataDefinitionLocation; ob_OverwritePolicy : string; ob_Metadata : gmap string any }.
Record DataOutputDefinition := mkOutputDefinition {
  do_Kind : string; do_Format : string; do_Parameters : parameter_definitions; do_Binding : DataOutputBindingDefinition;
  do_Metadata : gmap string any }.
Record DataDefinitions := mkDefinitions {
  dd_Inputs : gmap string DataInputDefinition; dd_Outputs : gmap string DataOutputDefinition }.

(** The values of the second map win. *)
Definition mergeMetadata (first second : gmap string any) : metadata := map_to_list (second ∪ first).

Definition cacheTemplate (binding : DataInputBindingDefinition) : DataAssetCacheTemplate :=
  let cache := ib_Cache binding in
  let cacheKey := if is_empty (dc_CacheKeyTemplate cache) then dc_CacheKey cache else dc_CacheKeyTemplate cache in
  mkCacheTemplate (dc_Strategy cache) (canonicalAssetTemplate cacheKey) (dc_Immutable cache).
Definition materializationTemplate (binding : DataInputBindingDefinition) : DataAssetMaterialization :=
  let m := ib_Materialization binding in
  mkAssetMaterialization (am_Scope m) (am_Strategy m) (canonicalAssetTemplate (am_PathTemplate m)).
(** The three fields that [applyCanonicalLocation] sets. *)
Definition applyCanonicalLocation (provider : string) (location : DataDefinitionLocation) :
    result (string * option DataLocationPathTemplate * option GDriveRcloneTemplate) :=
  if bool_decide (provider = DataProviderHTTP) then
    Ok (firstNonEmpty [df_URLTemplate location; df_URITemplate location; df_URI location], None, None)
  else if bool_decide (provider = DataProviderLocalFile ∨ provider = DataProviderRegisteredLocation) then
    Ok ("", Some (mkPathTemplate (firstNonEmpty [df_LocationName location; df_Name location])
                    (canonicalAssetTemplate (firstNonEmpty [df_PathTemplate location; df_Path location]))), None)
  else if bool_decide (provider = DataProviderGDriveRclone) then
    Ok ("", None, Some (mkGDrive (df_Remote location)
          (canonicalAssetTemplate (firstNonEmpty [df_DrivePath location; df_PathTemplate location; df_Path location]))
          (canonicalAssetTemplate (df_FileID location))))
  else Err (Errorf ("unsupported data provider " +:+ provider)).

Definition effectiveProviderName (definition : DataInputDefinition) (name : string) : string :=
  if is_empty (ib_ProviderName (di_Binding definition)) then name else ib_ProviderName (di_Binding definition).
Definition archiveTemplate (definition : DataInputDefinition) (selection : list string) :
    result (option DataAssetArchiveTemplate) :=
  let archive := ib_Archive (di_Binding definition) in
  if is_empty (ab_Type archive) then Ok None else
  let select roleName :=
    let role := default (mkFileRole "" "" None) (di_Files definition !! roleName) in
    mkSelectTemplate (canonicalAssetTemplate (fr_Member role)) (canonicalAssetTemplate (fr_As role)) (fr_Required role) in
  let template := mkArchiveTemplate (ab_Type archive) (select <$> selection) (ab_Expose archive) in
  ArchiveTemplate_Validate template;;
  Ok (Some template).

Section definitions.
Context `{!Unicode} `{!Formats}.

(** [parameterNames] of inputs and of outputs. *)
Definition check_parameter (field_ : string) (np : string * DataParameterDefinition) : result unit :=
  validateDataName np.1 field_;;
  fail_if (negb (is_empty (pd_Type np.2)) && negb (bool_decide (pd_Type np.2 ∈ ["string"; "int"; "bool"])))
    (Errorf ("unsupported " +:+ field_ +:+ " " +:+ np.1 +:+ " type " +:+ pd_Type np.2)).
Definition parameterNames (field_ : string) (parameters : parameter_definitions) : result (list string) :=
  for_each (check_parameter field_) (map_to_list parameters);;
  Ok (sorted_keys parameters).

Definition validateCollection (definition : DataInputDefinition) : result unit :=
  optional_check (λ c, wrap_err "collection" (Collection_Validate c (di_Parameters definition))) (di_Collection definition).
Definition CollectionCardinality (definition : DataInputDefinition) : result Z :=
  match di_Collection definition with
  | None => Ok 1
  | Some collection => Cardinality collection (di_Parameters definition)
  end.

Definition validate_role (files : gmap string DataFileRoleDefinition) (name : string) : result unit :=
  validateDataName name "data file role name";;
  let role := default (mkFileRole "" "" None) (files !! name) in
  required_trimmed (fr_Member role) ("file role " +:+ name +:+ " member is required");;
  wrap_err ("file role " +:+ name) (validateDataRelativePath (canonicalAssetTemplate (fr_Member role)) "file role member");;
  if is_empty (fr_As role) then Ok tt else
  wrap_err ("file role " +:+ name) (validateDataRelativePath (canonicalAssetTemplate (fr_As role)) "file role as");;
  Ok tt.
Definition validateFileRoles (definition : DataInputDefinition) : result unit :=
  for_each (validate_role (di_Files definition)) (sorted_keys (di_Files definition)).

Definition select_role (files : gmap string DataFileRoleDefinition) (effective : list string) (role : string) :
    result (list string) :=
  validateDataName role "data select role";;
  fail_if (bool_decide (role ∈ effective)) (Errorf ("duplicate selected role " +:+ role));;
  fail_if (bool_decide (files !! role = None)) (Errorf ("selected role " +:+ role +:+ " is not defined"));;
  Ok (effective ++ [role]).
Definition EffectiveSelection (definition : DataInputDefinition) (selection : list string) : result (list string) :=
  let selection := if bool_decide (selection = []) then di_Select definition else selection in
  if bool_decide (selection = []) then Ok (sorted_keys (di_Files definition))
  else foldM (select_role (di_Files definition)) [] selection.

Definition validateMaterializationPathTemplate (definition : DataInputDefinition) (selection : list string) : result unit :=
  let template := am_PathTemplate (ib_Materialization (di_Binding definition)) in
  let check := wrap_err "materialization path_template"
    (ValidateMaterializationPathTemplate template (di_Parameters definition) (di_Collection definition)) in
  match di_Collection definition with
  | None => if is_empty template then Ok tt else check
  | Some _ =>
      fail_if (is_empty template) (Errorf "collection materialization path_template is required");;
      fail_if (negb (length selection =? 1)%nat)
        (Errorf "collection materialization requires exactly one selected file role");;
      check
  end.

Definition ProviderTemplate (definition : DataInputDefinition) (name : string) (selection : list string) :
    result DataProviderTemplate :=
  validateDataName name "data input definition name";;
  required_trimmed (di_Kind definition) "kind is required";;
  names ← parameterNames "data asset parameter" (di_Parameters definition);
  validateCollection definition;;
  validateFileRoles definition;;
  effectiveSelection ← EffectiveSelection definition selection;
  validateMaterializationPathTemplate definition effectiveSelection;;
  archive ← archiveTemplate definition effectiveSelection;
  let binding := di_Binding definition in
  location ← applyCanonicalLocation (ib_Provider binding) (ib_Location binding);
  let provider := mkProvider (effectiveProviderName definition name) (di_Kind definition) (di_Format definition)
    (ib_Provider binding) location.1.1 "" location.1.2 location.2 names (ib_Integrity binding) (cacheTemplate binding)
    archive (materializationTemplate binding) (ib_TransferPolicy binding)
    (mergeMetadata (di_Metadata definition) (ib_Metadata binding)) in
  Provider_Validate provider;;
  Ok provider.
Definition Input_Validate (definition : DataInputDefinition) (name : string) : result unit :=
  ProviderTemplate definition name [];; Ok tt.
Definition BoundInputAssetWithSelection (definition : DataInputDefinition) (name : string) (selection : list string)
    (parameters : metadata) : result BoundDataAsset :=
  provider ← ProviderTemplate definition name selection;
  Bind provider name parameters.
Definition BoundInputAsset (definition : DataInputDefinition) (name : string) (parameters : metadata) :
    result BoundDataAsset :=
  BoundInputAssetWithSelection definition name [] parameters.

(** ** Outputs *)

Definition output_location (binding : DataOutputBindingDefinition) (parameters : metadata) : result DataAssetLocation :=
  let location := ob_Location binding in
  if bool_decide (ob_Provider binding = DataProviderRegisteredLocation ∨ ob_Provider binding = DataProviderLocalFile) then
    let bound := mkAssetLocation (ob_Provider binding) "" (firstNonEmpty [df_LocationName location; df_Name location])
      (renderCanonicalTemplate (firstNonEmpty [df_PathTemplate location; df_Path location]) parameters) "" "" "" in
    AssetLocation_Validate bound;; Ok bound
  else if bool_decide (ob_Provider binding = DataProviderGDriveRclone) then
    let bound := mkAssetLocation DataProviderGDriveRclone "" "" "" (df_Remote location)
      (renderCanonicalTemplate (firstNonEmpty [df_DrivePath location; df_PathTemplate location; df_Path location]) parameters)
      (renderCanonicalTemplate (df_FileID location) parameters) in
    AssetLocation_Validate bound;; Ok bound
  else Err (Errorf ("unsupported data output provider " +:+ ob_Provider binding)).
Definition BoundOutputTarget (definition : DataOutputDefinition) (name fromArtifact : string) (parameters : metadata) :
    result BoundPublishTarget :=
  validateDataName name "data output definition name";;
  required_trimmed (do_Kind definition) "kind is required";;
  parameterNames "data output parameter" (do_Parameters definition);;
  validateOverwritePolicy (ob_OverwritePolicy (do_Binding definition));;
  location ← output_location (do_Binding definition) parameters;
  let target := mkBoundTarget name fromArtifact name "" location (ob_OverwritePolicy (do_Binding definition)) parameters
    (mergeMetadata (do_Metadata definition) (ob_Metadata (do_Binding definition))) in
  BoundTarget_Validate target;;
  Ok target.
Definition Output_Validate (definition : DataOutputDefinition) (name : string) : result unit :=
  BoundOutputTarget definition name "artifact" [];; Ok tt.

(** One entry of a map of definitions. *)
Definition validate_entry {A} (m : gmap string A) (field_ label : string) (validate : A → string → result unit)
    (name : string) : result unit :=
  validateDataName name field_;;
  match m !! name with
  | Some definition => wrap_err (label +:+ name) (validate definition name)
  | None => Ok tt
  end.
Definition Definitions_Validate (definitions : DataDefinitions) : result unit :=
  for_each (validate_entry (dd_Inputs definitions) "data input definition name" "data input " Input_Validate)
    (sorted_keys (dd_Inputs definitions));;
  for_each (validate_entry (dd_Outputs definitions) "data output definition name" "data output " Output_Validate)
    (sorted_keys (dd_Outputs definitions)).

(** ** The path of a collection ([data_asset_collection.go]) *)

Definition CollectionOutputPathTemplate (definition : DataInputDefinition) (fixedParameters : metadata) :
    result (string * list string) :=
  match di_Collection definition with
  | None => Err (Errorf "collection is required")
  | Some collection =>
      let template := am_PathTemplate (ib_Materialization (di_Binding definition)) in
      ValidateMaterializationPathTemplate template (di_Parameters definition) (Some collection);;
      let dimensions := cd_Parameter <$> cl_Dimensions collection in
      let filteredFixed := List.filter (λ nv, negb (bool_decide (nv.1 ∈ dimensions))) fixedParameters in
      output ← NormalizeMaterializationOutputPathTemplate template filteredFixed;
      for_each (λ name, fail_if (negb (bool_decide (name ∈ dimensions)))
                          (Errorf ("fixed parameter " +:+ name +:+ " is not bound"))) output.2;;
      Ok output
  end.
End definitions.

(** ** Projections ([materialized_projection.go]) *)

Record MaterializedDataFileProjection := mkFileProjection {
  fp_Path : string; fp_Member : string; fp_SizeBytes : option Z; fp_SHA256 : string }.
Record MaterializedDataProjection := mkProjection {
  pj_AssetKey : string; pj_MaterializationDomainID : string; pj_Path : list string;
  pj_Files : gmap string MaterializedDataFileProjection; pj_Metadata : metadata }.

(** [^[A-Za-z_][A-Za-z0-9_]*$] *)
Definition role_start (c : ascii) : bool := in_range 65 90 c || in_range 97 122 c || bool_decide (c = "_"%char).
Fixpoint role_rest (s : string) : bool :=
  match s with
  | EmptyString => true
  | String c s' => (role_start c || GoJson.is_digit c) && role_rest s'
  end.
Definition validMaterializedProjectionRole (name : string) : bool :=
  match name with EmptyString => false | String c s => role_start c && role_rest s end.
Definition materializedArchiveMemberProjectionRole (member : string) : string :=
  if validMaterializedProjectionRole member then member else
  let base := filepath_Base member in
  let ext := Ext base in
  if bool_decide (foldName ext = ".hdr") then "header" else
  let stem := trim_suffix ext base in
  if validMaterializedProjectionRole stem then stem else "".

Section projections.
Context `{!Unicode}.
Definition project_member (projection : MaterializedDataProjection) (member : MaterializedArchiveMember) :
    result MaterializedDataProjection :=
  required_trimmed (mm_LocalPath member) ("archive member " +:+ mm_Member member +:+ " local_path is required");;
  let paths := pj_Path projection ++ [mm_LocalPath member] in
  let with_files files := mkProjection (pj_AssetKey projection) (pj_MaterializationDomainID projection) paths files
    (pj_Metadata projection) in
  let role := materializedArchiveMemberProjectionRole (mm_Member member) in
  if is_empty role then Ok (with_files (pj_Files projection)) else
  fail_if (bool_decide (is_Some (pj_Files projection !! role))) (Errorf ("duplicate projected file role " +:+ role));;
  Ok (with_files (<[role := mkFileProjection (mm_LocalPath member) (mm_Member member) (mm_SizeBytes member)
                              (mm_SHA256 member)]> (pj_Files projection))).
Definition MaterializedDataProjectionForAsset (manifest : MaterializedDataAssetManifest) (asset : MaterializedDataAsset) :
    result MaterializedDataProjection :=
  MaterializedAsset_Validate asset;;
  let projection paths := mkProjection (mf_AssetKey manifest) (mf_TargetEnvironmentID manifest) paths ∅ (ma_Metadata asset) in
  match ma_ArchiveMembers asset with
  | [] => Ok (projection [ma_LocalPath asset])
  | members => foldM project_member (projection []) members
  end.
Definition project_asset (manifest : MaterializedDataAssetManifest)
    (projections : gmap string MaterializedDataProjection) (asset : MaterializedDataAsset) :
    result (gmap string MaterializedDataProjection) :=
  let name := ma_BindingName asset in
  fail_if (bool_decide (is_Some (projections !! name))) (Errorf ("duplicate materialized data binding " +:+ name));;
  projection ← wrap_err ("project materialized data binding " +:+ name) (MaterializedDataProjectionForAsset manifest asset);
  Ok (<[name := projection]> projections).
Definition MaterializedDataProjections (manifest : MaterializedDataAssetManifest) :
    result (gmap string MaterializedDataProjection) :=
  MaterializedManifest_Validate manifest;;
  foldM (project_asset manifest) ∅ (mf_Assets manifest).
End projections.

Example projection_roles :
  materializedArchiveMemberProjectionRole "data/yanroy.HDR" = "header" ∧
  materializedArchiveMemberProjectionRole "data/yan_roy.tif" = "yan_roy" ∧
  materializedArchiveMemberProjectionRole "data/2020.tif" = "".
Proof. vm_compute. done. Qed.
