(* ===== verification/DataLaws.v ===== *)
(** * What the data model guarantees

    A path that validation accepts stays below whatever root it is joined to, and so
    does every path of a bound asset, whatever values the parameters have; rendering a
    template is substitution, in every order of the parameters, as long as no value
    contains part of a placeholder, and depends on the order otherwise. *)

From S2P Require Import Prelude GoTime GoJson GoStrings GoPath GoJsonLaws GoSha256 Fingerprint GoJsonStruct.
From S2P Require Import Variables StoreData Dependency WorkItem FanOut FanOutLaws GoFmt DataNames DataCollections DataAssets DataProviders.
From S2P Require Import DataDefinitions.
Local Open Scope nat_scope.

(** ** Paths *)

(** Joined to a root, the path names something below it. *)
Definition below_root (path : string) : Prop :=
  ∀ root, root ≠ "" →
    ∃ names, names ≠ [] ∧ Forall plain_name names ∧
      components (Join [root; path]) = components root ++ names ∧ rooted (Join [root; path]) = rooted root.

Lemma check_segment_Ok segment : check_segment segment = Ok tt ↔ segment ≠ "" ∧ segment ≠ "." ∧ segment ≠ "..".
Proof. unfold check_segment. repeat case_bool_decide; naive_solver. Qed.
Lemma segments_plain value :
  for_each check_segment (split_byte "/" value) = Ok tt ↔ Forall plain_name (split_byte "/" value).
Proof.
  rewrite for_each_Forall, !Forall_forall. split; intros H s Hs; specialize (H s Hs).
  - apply check_segment_Ok in H as (? & ? & ?). repeat split; try done. by eapply split_byte_parts.
  - destruct H as (? & ? & ? & _). by apply check_segment_Ok.
Qed.

(** A path of plain segments is relative and clean. *)
Lemma plain_split_head value : Forall plain_name (split_byte "/" value) → value ≠ "" ∧ has_prefix "/" value = false.
Proof.
  intros H. destruct value as [|c value].
  { cbn in H. inversion H as [|? ? (Hp & _) _]; subst. done. }
  split; [done|]. cbn [has_prefix]. case_bool_decide as Hc; [|done]. subst c.
  cbn [split_byte] in H. rewrite decide_True in H by done. inversion H as [|? ? (Hp & _) _]; subst. done.
Qed.
Lemma plain_components value : Forall plain_name (split_byte "/" value) → components value = split_byte "/" value.
Proof.
  intros H. unfold components. by rewrite clean_plain, app_nil_r, rev_involutive by done.
Qed.
Lemma plain_Clean value : Forall plain_name (split_byte "/" value) → Clean value = value.
Proof.
  intros H. destruct (plain_split_head value H) as [Hne Hr]. unfold Clean.
  rewrite (plain_components _ H), (join_split_byte "/" value). unfold rooted. rewrite Hr.
  unfold is_empty. by rewrite bool_decide_eq_false_2 by done.
Qed.
Lemma Join_two root path : root ≠ "" → path ≠ "" → Forall plain_name (split_byte "/" path) →
  Join [root; path] = Join (root :: split_byte "/" path).
Proof.
  intros Hr Hp Hs. cbn [Join]. unfold is_empty. rewrite bool_decide_eq_false_2 by done. f_equal.
  destruct (split_byte "/" path) as [|n l] eqn:He; [by destruct (split_byte_nonempty "/" path)|].
  pose proof (join_split_byte "/" path) as Hj. rewrite He in Hj. cbn [str_join]. by rewrite <- Hj.
Qed.
Lemma plain_below_root value : Forall plain_name (split_byte "/" value) → below_root value.
Proof.
  intros H root Hroot. destruct (plain_split_head value H) as [Hne _]. exists (split_byte "/" value).
  split; [apply split_byte_nonempty|]. split; [done|]. rewrite Join_two by done. by apply components_Join.
Qed.

Lemma relative_path_iff value p :
  ValidateArtifactRelativePath value = Ok p ↔
    p = value ∧ TrimSpace value = value ∧ has_byte "\" value = false ∧
    hasArtifactDrivePrefix value = false ∧ Forall plain_name (split_byte "/" value).
Proof.
  unfold ValidateArtifactRelativePath. rewrite contains_byte. split.
  - intros H. result_inv. rewrite orb_false_iff in *.
    match goal with H : for_each _ _ = Ok _ |- _ => apply segments_plain in H as Hs end.
    rewrite (plain_Clean _ Hs) in *. rewrite negb_false_iff, bool_decide_eq_true in *. done.
  - intros (-> & Ht & Hb & Hd & Hs). destruct (plain_split_head value Hs) as [Hne Hr].
    rewrite Ht, (plain_Clean _ Hs), (proj2 (segments_plain value) Hs), contains_byte, Hb, Hd, Hr.
    assert (Hr2 : has_prefix "//" value = false).
    { destruct value as [|c s]; [done|]. cbn [has_prefix] in Hr |- *. by case_bool_decide. }
    assert (Hdot : value ≠ "."). { intros ->. by inversion Hs as [|? ? (_ & ? & _) _]; subst. }
    assert (Hsl : value ≠ "/") by (by intros ->).
    unfold is_empty. by rewrite Hr2, (bool_decide_eq_false_2 (value = "")), (bool_decide_eq_false_2 (value = ".")),
      (bool_decide_eq_false_2 (value = "/")), (bool_decide_eq_true_2 (value = value)) by done.
Qed.
Lemma accepted_below_root value p : ValidateArtifactRelativePath value = Ok p → below_root value.
Proof. intros (_ & _ & _ & _ & H)%relative_path_iff. by apply plain_below_root. Qed.
Lemma optional_path_below value field_ : optional_path value field_ = Ok tt → value = "" ∨ below_root value.
Proof.
  unfold optional_path, is_empty. case_bool_decide; [by left|]. unfold validateDataRelativePath. intros Hv. right.
  result_inv. by eapply accepted_below_root.
Qed.

(** A path is accepted exactly when it has no white space around it, no backslash and
    no drive letter, and every segment between slashes is a plain name: not empty, not
    a period and not two.  It is returned as it is, and joined to any root it names
    something below that root. *)
Theorem relative_path_exact value :
  (∀ p, ValidateArtifactRelativePath value = Ok p ↔
     p = value ∧ TrimSpace value = value ∧ has_byte "\" value = false ∧
     hasArtifactDrivePrefix value = false ∧ Forall plain_name (split_byte "/" value)) ∧
  (∀ p, ValidateArtifactRelativePath value = Ok p → below_root value).
Proof. split; intros p; [apply relative_path_iff|apply accepted_below_root]. Qed.

(** ** Bound assets *)

Section assets.
Context {unicode : Unicode} {formats : Formats}.

Lemma traverse_items_each {A B} (f : nat → A → result B) l i bs :
  traverse_items f i l = Ok bs → ∀ x, x ∈ l → ∃ j b, f j x = Ok b.
Proof.
  revert i bs. induction l as [|a l IH]; intros i bs H x Hx; [by apply elem_of_nil in Hx|].
  cbn [traverse_items] in H. result_inv. apply elem_of_cons in Hx as [->|Hx]; eauto.
Qed.

Lemma location_below location :
  AssetLocation_Validate location = Ok tt →
  (al_Type location = DataProviderHTTP ∧ isHTTPURI (al_URI location) = true) ∨
  ((al_Type location = DataProviderLocalFile ∨ al_Type location = DataProviderRegisteredLocation) ∧
     below_root (al_Path location)) ∨
  (al_Type location = DataProviderGDriveRclone ∧ below_root (al_DrivePath location)).
Proof.
  unfold AssetLocation_Validate. intros H. result_inv.
  rewrite negb_false_iff in *. unfold isSupportedDataProvider in *. rewrite bool_decide_eq_true in *.
  case_bool_decide as H1; [left; result_inv; by rewrite negb_false_iff in *|]. right.
  case_bool_decide as H2; unfold validateDataRelativePath in *; result_inv; [left|right].
  - split; [done|]. by eapply accepted_below_root.
  - split; [set_solver|]. by eapply accepted_below_root.
Qed.

Lemma archive_below archive s :
  Archive_Validate archive = Ok tt → s ∈ ar_Select archive →
  below_root (sl_Member s) ∧ (sl_As s = "" ∨ below_root (sl_As s)).
Proof.
  unfold Archive_Validate, validate_selection. intros H Hs. result_inv.
  match goal with H : traverse_items _ _ _ = Ok _ |- _ => apply traverse_items_each with (x := s) in H as (j & b & Hb) end;
    [|done].
  unfold Select_Validate, validateDataRelativePath in Hb. result_inv.
  split; [by eapply accepted_below_root|]. by eapply optional_path_below.
Qed.

(** C34: Whatever the parameters contain, a bound asset points where its provider may point:
    to an http or https URI, or to a path that stays below any root; the members that
    are selected from an archive, the names they get and the cache key stay below
    their roots too. *)
Theorem bound_asset_stays_below_root provider name parameters asset :
  Bind provider name parameters = Ok asset →
  ((dp_Provider provider = DataProviderHTTP ∧ isHTTPURI (al_URI (ba_Location asset)) = true) ∨
   ((dp_Provider provider = DataProviderLocalFile ∨ dp_Provider provider = DataProviderRegisteredLocation) ∧
      below_root (al_Path (ba_Location asset))) ∨
   (dp_Provider provider = DataProviderGDriveRclone ∧ below_root (al_DrivePath (ba_Location asset)))) ∧
  (∀ archive s, ba_Archive asset = Some archive → s ∈ ar_Select archive →
     below_root (sl_Member s) ∧ (sl_As s = "" ∨ below_root (sl_As s))) ∧
  (ca_CacheKey (ba_Cache asset) = "" ∨ below_root (ca_CacheKey (ba_Cache asset))).
Proof.
  unfold Bind. intros H. result_inv.
  match goal with H : BoundAsset_Validate _ = Ok _ |- _ => unfold BoundAsset_Validate in H; cbn in H end. result_inv.
  match goal with H : boundLocation _ _ = Ok ?l |- _ => assert (Hty : al_Type l = dp_Provider provider);
    [unfold boundLocation in H; repeat case_bool_decide; by simplify_eq/=|] end.
  split; [|split].
  - rewrite <- Hty. by apply location_below.
  - intros archive s -> Hs.
    match goal with H : optional_check _ _ = Ok _ |- _ => cbn in H; by eapply archive_below in H end.
  - match goal with H : Cache_Validate _ = Ok _ |- _ => unfold Cache_Validate in H; cbn in H end. result_inv.
    by eapply optional_path_below.
Qed.
End assets.

(** A registered file below a year, with an archive member named by a parameter. *)
Definition example_provider : DataProviderTemplate :=
  mkProvider "yanroy" "raster" "tif" DataProviderRegisteredLocation "" "" (Some (mkPathTemplate "shared" "in/${year}/${tile}.zip"))
    None ["year"; "tile"] (mkIntegrityTemplate "" None false) (mkCacheTemplate "worker_cache" "k/${tile}" None)
    (Some (mkArchiveTemplate "zip" [mkSelectTemplate "${tile}.tif" "" None] "selected_path")) (mkAssetMaterialization "" "" "")
    (mkTransferPolicy 0 0 0 []) [].
Lemma bound_asset_stays_below_root_witness :
  let parameters := [("year", PInt 2020); ("tile", PString "h10v4")] in
  ∃ asset, @Bind latin1_only plain_formats example_provider "x" parameters = Ok asset ∧
    al_Path (ba_Location asset) = "in/2020/h10v4.zip" ∧ below_root (ca_CacheKey (ba_Cache asset)).
Proof.
  intros parameters.
  destruct (@Bind latin1_only plain_formats example_provider "x" parameters) as [asset|] eqn:Hb;
    [|vm_compute in Hb; discriminate Hb].
  exists asset. split; [reflexivity|].
  destruct (@bound_asset_stays_below_root latin1_only plain_formats _ _ _ _ Hb) as (_ & _ & Hk).
  vm_compute in Hb. injection Hb as <-. split; [reflexivity|]. destruct Hk as [Hk|Hk]; [discriminate Hk|exact Hk].
Defined.

(** * Rendering templates

    [renderTemplate] replaces one parameter after the other, in the order in which Go
    happens to walk its map.  On templates whose placeholders are all parameters, and
    with values that contain no part of a placeholder, this is substitution of all
    placeholders at once ([substitute]), so the order does not matter.  A value that
    looks like a placeholder makes it matter. *)
Local Open Scope nat_scope.

(** ** The reference: all placeholders at once *)

(** The text before the first placeholder, and each placeholder with the text after it. *)
Fixpoint pieces (open : option string) (s : string) : string * list (string * string) :=
  match open, s with
  | None, EmptyString => ("", [])
  | None, String c s' =>
      match s' with
      | String d s'' =>
          if bool_decide (c = "$"%char ∧ d = "{"%char) then pieces (Some "") s''
          else let '(lit, l) := pieces None s' in (String c lit, l)
      | EmptyString => (String c "", [])
      end
  | Some name, EmptyString => ("${" +:+ name, [])
  | Some name, String c s' =>
      if bool_decide (c = "}"%char) then let '(lit, l) := pieces None s' in ("", (name, lit) :: l)
      else pieces (Some (name +:+ String c "")) s'
  end.
Fixpoint fill_holes (f : string → string) (l : list (string * string)) : string :=
  match l with
  | [] => ""
  | (name, lit) :: l' => f name +:+ lit +:+ fill_holes f l'
  end.
Definition fill (f : string → string) (p : string * list (string * string)) : string := p.1 +:+ fill_holes f p.2.
Definition substitute (f : string → string) (template : string) : string := fill f (pieces None template).

(** ** Replacing one placeholder *)

Definition token (name : string) : string := "${" +:+ name +:+ "}".
(** A name of a parameter, as [validateDataName] accepts it, and a value without any
    part of a placeholder. *)
Definition closed_name (name : string) : Prop := name ≠ "" ∧ has_byte "$" name = false ∧ has_byte "}" name = false.
Definition closed_value (value : string) : Prop := value ≠ "" ∧ has_byte "$" value = false ∧ has_byte "{" value = false.

Lemma str_app_cons c s t : String c s +:+ t = String c (s +:+ t).
Proof. reflexivity. Qed.
Lemma str_app_empty s : "" +:+ s = s.
Proof. reflexivity. Qed.

Section replace.
Context (name value : string) (Hname : closed_name name).
Local Notation replace := (replace_from (token name) value).

Lemma replace_skip s rest : replace (slen s) (s +:+ rest) = replace 0 rest.
Proof. induction s as [|c s IH]; [done|]. rewrite str_app_cons. cbn [replace_from slen]. apply IH. Qed.

(** A text in which no placeholder starts, before a text that does not continue one. *)
Lemma replace_literal s rest :
  contains "${" s = false → has_prefix "{" rest = false → replace 0 (s +:+ rest) = s +:+ replace 0 rest.
Proof.
  intros Hs Hr. induction s as [|c s IH]; [done|]. cbn [contains] in Hs. apply orb_false_iff in Hs as [Hp Hs].
  rewrite !str_app_cons. cbn [replace_from].
  replace (has_prefix (token name) (String c (s +:+ rest))) with false; [by rewrite IH|].
  symmetry. apply not_true_is_false. intros [t Ht]%has_prefix_spec. unfold token in Ht. rewrite !str_app_cons in Ht.
  injection Ht as -> Ht. destruct s as [|d s]; rewrite ?str_app_empty, ?str_app_cons in Ht.
  - rewrite Ht in Hr. by destruct name.
  - injection Ht as -> Ht. done.
Qed.

Lemma closed_name_prefix n m rest1 :
  has_byte "}" n = false → has_byte "}" m = false → has_prefix (n +:+ "}") (m +:+ String "}" rest1) = true → n = m.
Proof.
  revert m. induction n as [|c n IH]; intros [|d m] Hn Hm H; [done| | |].
  - exfalso. cbn in H. apply andb_true_iff in H as [H _]. apply bool_decide_eq_true in H. subst d.
    cbn in Hm. by rewrite bool_decide_eq_true_2 in Hm.
  - exfalso. cbn in H. apply andb_true_iff in H as [H _]. apply bool_decide_eq_true in H. subst c.
    cbn in Hn. by rewrite bool_decide_eq_true_2 in Hn.
  - cbn [has_byte] in Hn, Hm. apply orb_false_iff in Hn as [_ Hn]. apply orb_false_iff in Hm as [_ Hm].
    rewrite !str_app_cons in H. cbn [has_prefix] in H. apply andb_true_iff in H as [H1 H2].
    apply bool_decide_eq_true in H1. subst d. f_equal. by eapply IH.
Qed.

Lemma no_token_start c s : bool_decide (c = "$"%char) = false → has_prefix (token name) (String c s) = false.
Proof.
  intros Hc%bool_decide_eq_false. apply not_true_is_false. intros [t Ht]%has_prefix_spec. unfold token in Ht.
  rewrite !str_app_cons in Ht. by injection Ht as -> _.
Qed.
Lemma replace_no_dollar s rest : has_byte "$" s = false → replace 0 (s +:+ rest) = s +:+ replace 0 rest.
Proof.
  induction s as [|c s IH]; [done|]. cbn [has_byte]. intros [H1 H2]%orb_false_iff.
  rewrite !(str_app_cons c s). cbn [replace_from]. by rewrite no_token_start, IH by done.
Qed.
Lemma replace_token n rest :
  closed_name n →
  replace 0 (token n +:+ rest) = (if bool_decide (n = name) then value else token n) +:+ replace 0 rest.
Proof using Hname.
  intros (Hn0 & Hn1 & Hn2). case_bool_decide as Hnm.
  - subst n. unfold token at 2. rewrite !str_app_cons, str_app_empty. cbn [replace_from].
    replace (has_prefix (token name) _) with true; [|symmetry; apply has_prefix_spec; exists rest; reflexivity].
    f_equal. rewrite <- str_app_cons. replace (slen (token name) - 1) with (slen (String "{" (name +:+ "}"))).
    + apply replace_skip.
    + unfold token. rewrite !str_app_cons, str_app_empty. cbn [slen]. lia.
  - assert (H0 : replace 0 (token n +:+ rest) = String "$" (replace 0 (String "{" (n +:+ "}") +:+ rest))).
    { unfold token at 2. rewrite !str_app_cons, str_app_empty. cbn [replace_from].
      destruct (has_prefix (token name) (String "$" (String "{" ((n +:+ "}") +:+ rest)))) eqn:Hp; [|done].
      exfalso. apply has_prefix_spec in Hp as [t Ht]. unfold token in Ht. rewrite !str_app_cons in Ht.
      injection Ht as Ht. rewrite (str_app_assoc n) in Ht. destruct Hname as (_ & _ & Hk).
      apply Hnm. symmetry. apply (closed_name_prefix name n rest); [done|done|]. apply has_prefix_spec. by exists t. }
    rewrite H0, replace_no_dollar; [done|]. cbn [has_byte]. by rewrite has_byte_app, Hn1.
Qed.
Lemma replace_value v rest : closed_value v → replace 0 (v +:+ rest) = v +:+ replace 0 rest.
Proof. intros (_ & Hv & _). by apply replace_no_dollar. Qed.

(** What stands for a placeholder: the placeholder itself, or its value. *)
Definition stands_for (f : string → string) (n : string) : Prop :=
  (closed_name n ∧ f n = token n) ∨ (n ≠ name ∧ closed_value (f n)).
Lemma starts_no_brace f n rest : stands_for f n → has_prefix "{" (f n +:+ rest) = false.
Proof.
  intros [[_ ->]|(_ & Hne & _ & Hb)]; [done|]. destruct (f n) as [|c s]; [done|]. cbn [has_byte] in Hb.
  apply orb_false_iff in Hb as [Hb _]. apply bool_decide_eq_false in Hb. rewrite str_app_cons. cbn [has_prefix].
  by rewrite bool_decide_eq_false_2 by congruence.
Qed.
Lemma replace_holes f l :
  Forall (λ h, stands_for f h.1 ∧ contains "${" h.2 = false) l →
  replace 0 (fill_holes f l) = fill_holes (λ n, if bool_decide (n = name) then value else f n) l ∧
  has_prefix "{" (fill_holes f l) = false.
Proof using Hname.
  induction 1 as [|[n lit] l [Hn Hlit] _ [IH Hb]]; [done|]. cbn [fill_holes fst snd] in *.
  split; [|by apply starts_no_brace].
  assert (Hrest : replace 0 (lit +:+ fill_holes f l)
    = lit +:+ fill_holes (λ n, if bool_decide (n = name) then value else f n) l)
    by (by rewrite replace_literal, IH).
  destruct Hn as [[Hc Hf]|[Hne Hv]].
  - by rewrite Hf, replace_token, Hrest by done.
  - by rewrite replace_value, Hrest, (bool_decide_eq_false_2 (n = name)) by done.
Qed.
End replace.

(** ** The pieces of a template *)

Definition opened (open : option string) : string := match open with None => "" | Some name => "${" +:+ name end.
Lemma pieces_spec n open s :
  slen s ≤ n → "" ∉ names_from open s →
  fill token (pieces open s) = opened open +:+ s ∧ (pieces open s).2.*1 = names_from open s ∧
  contains "${" (pieces open s).1 = false ∧ Forall (λ h, contains "${" h.2 = false) (pieces open s).2.
Proof.
  revert open s. induction n as [|n IH]; intros open [|c s] Hn Hnames; cbn [slen] in Hn; try lia.
  1, 2: destruct open; cbn [names_from] in Hnames; [by destruct Hnames; left|done].
  destruct open as [name|]; cbn [names_from pieces] in *.
  - case_bool_decide as Hc.
    + subst c. destruct (IH None s ltac:(lia)) as (Hf & Hk & Hl & Hr); [set_solver|].
      destruct (pieces None s) as [lit l]. cbn [fill fill_holes opened fst snd] in *. split_and!; [|by cbn; f_equal|done|by constructor].
      unfold fill. cbn [fst snd fill_holes]. unfold fill in Hf. cbn [fst snd] in Hf. rewrite Hf, !str_app_empty.
      unfold token. by rewrite !str_app_assoc.
    + destruct (IH (Some (name +:+ String c "")) s ltac:(lia) Hnames) as (Hf & Hrest). split; [|done].
      rewrite Hf. cbn [opened]. by rewrite !str_app_assoc.
  - destruct s as [|d s].
    { split_and!; [done|done| |done]. cbn. by destruct (bool_decide _). }
    case_bool_decide as Hc.
    + destruct Hc as [-> ->]. cbn [slen] in Hn. destruct (IH (Some "") s ltac:(lia) Hnames) as (Hf & Hrest).
      split; [|done]. by rewrite Hf.
    + destruct (IH None (String d s) ltac:(cbn [slen] in *; lia) Hnames) as (Hf & Hk & Hl & Hr).
      destruct (pieces None (String d s)) as [lit l]. unfold fill in *. cbn [fst snd opened] in *.
      rewrite str_app_empty in *. split_and!; [by rewrite str_app_cons, Hf|done| |done].
      cbn [contains]. rewrite Hl, orb_false_r. apply not_true_is_false. intros [t Ht]%has_prefix_spec.
      injection Ht as -> ->. rewrite str_app_cons in Hf. injection Hf as <- _. by apply Hc.
Qed.

Lemma fill_ext f g p : (∀ n, n ∈ p.2.*1 → f n = g n) → fill f p = fill g p.
Proof.
  intros H. unfold fill. f_equal. destruct p as [lit l]. cbn [snd] in *.
  induction l as [|[n t] l IH]; [done|]. cbn [fill_holes]. cbn in H. rewrite H, IH; [done|set_solver|set_solver].
Qed.

(** ** Rendering *)

Section rendering.
Context {formats : Formats}.

(** What stands for a placeholder once some parameters have been replaced. *)
Definition shown (parameters : metadata) (name : string) : string :=
  default (token name) (Sprint <$> (list_to_map parameters : gmap string any) !! name).

Lemma shown_snoc done k v n :
  k ∉ done.*1 → shown (done ++ [(k, v)]) n = if bool_decide (n = k) then Sprint v else shown done n.
Proof.
  intros Hk. unfold shown. rewrite list_to_map_app, lookup_union. cbn. case_bool_decide as Hn.
  - subst n. rewrite lookup_insert_eq, (not_elem_of_list_to_map_1 done k) by done. done.
  - rewrite lookup_insert_ne, lookup_empty by done. by rewrite (right_id_L None _).
Qed.

Section loop.
Context (all : metadata) (p : string * list (string * string)).
Context (Hnodup : NoDup all.*1) (Hkeys : Forall closed_name all.*1) (Hvalues : Forall (λ v, closed_value (Sprint v)) all.*2).
Context (Hholes : Forall (λ h, h.1 ∈ all.*1 ∧ contains "${" h.2 = false) p.2) (Hlit : contains "${" p.1 = false).

Lemma render_loop done todo :
  all = done ++ todo → foldl render_parameter (fill (shown done) p) todo = fill (shown all) p.
Proof using Hnodup Hkeys Hvalues Hholes Hlit.
  revert done. induction todo as [|[k v] todo IH]; intros done Hall; [by rewrite Hall, app_nil_r|].
  cbn [foldl]. rewrite <- (IH (done ++ [(k, v)])) by (by rewrite <- app_assoc). f_equal.
  assert (Hk : k ∉ done.*1).
  { rewrite Hall, fmap_app in Hnodup. cbn in Hnodup. apply NoDup_app in Hnodup as (_ & H & _). set_solver. }
  assert (Hck : closed_name k).
  { rewrite Forall_forall in Hkeys. apply Hkeys. rewrite Hall, fmap_app. set_solver. }
  unfold render_parameter, ReplaceAll, fill. cbn [fst snd]. change ("${" +:+ k +:+ "}") with (token k).
  destruct (replace_holes k (Sprint v) Hck (shown done) p.2) as [Hr Hb].
  { eapply Forall_impl; [exact Hholes|]. intros [n t] [Hn Ht]. split; [|done]. cbn [fst] in *.
    unfold stands_for, shown. destruct ((list_to_map done : gmap string any) !! n) as [w|] eqn:Hw; [right|left].
    - apply elem_of_list_to_map_2 in Hw. split; [|cbn].
      + intros ->. apply Hk. apply (list_elem_of_fmap_2 fst) in Hw. done.
      + rewrite Forall_forall in Hvalues. apply Hvalues. rewrite Hall, fmap_app. apply elem_of_app. left.
        by apply (list_elem_of_fmap_2 snd) in Hw.
    - split; [|done]. rewrite Forall_forall in Hkeys. by apply Hkeys. }
  rewrite replace_literal, Hr by done. f_equal.
  assert (Hext : ∀ l, fill_holes (λ n, if bool_decide (n = k) then Sprint v else shown done n) l
    = fill_holes (shown (done ++ [(k, v)])) l).
  { induction l as [|[n t] l IHl]; [done|]. cbn [fill_holes]. by rewrite IHl, shown_snoc by done. }
  apply Hext.
Qed.
End loop.

(** C35: Rendering is substitution.  When every placeholder of the template is a parameter,
    names are non-empty and without the characters of a placeholder, and every value is
    printed as a non-empty text without [$] and [{], the rendered text is the template
    with each placeholder replaced by its value, all at once, in whatever order the
    loop meets the parameters. *)
Theorem render_is_substitution template parameters order :
  NoDup parameters.*1 → Forall closed_name parameters.*1 →
  Forall (λ v, closed_value (Sprint v)) parameters.*2 →
  Forall (λ name, name ∈ parameters.*1) (templateParameterNames template) →
  order ≡ₚ parameters →
  renderTemplate template order = substitute (shown parameters) template.
Proof.
  intros Hnd Hk Hv Ht Hp.
  assert (Hsame : ∀ n, shown order n = shown parameters n).
  { intros n. unfold shown. erewrite (list_to_map_proper order parameters); [done| |done]. by rewrite Hp. }
  assert (Hnames : "" ∉ names_from None template).
  { intros Hin. rewrite Forall_forall in Ht. specialize (Ht _ Hin). rewrite Forall_forall in Hk.
    by destruct (Hk _ Ht) as [? _]. }
  destruct (pieces_spec (slen template) None template (le_n _) Hnames) as (Hf & Hkeys & Hl & Hr).
  unfold renderTemplate, substitute. rewrite <- (fill_ext (shown order)) by (intros; apply Hsame).
  rewrite <- (render_loop order (pieces None template)) with (done := []) (todo := order); [|by rewrite Hp..| |done|done].
  - f_equal. symmetry. exact Hf.
  - apply Forall_forall. intros h Hh. rewrite Forall_forall in Hr. split; [|by apply Hr].
    rewrite Hp. rewrite Forall_forall in Ht. apply Ht. unfold templateParameterNames. rewrite <- Hkeys.
    by apply list_elem_of_fmap_2.
Qed.
End rendering.

Lemma render_is_substitution_witness :
  let parameters := [("year", PInt 2020); ("tile", PString "h10v4")] in
  @renderTemplate plain_formats "y/${year}/${tile}_${year}.tif" [("tile", PString "h10v4"); ("year", PInt 2020)]
  = substitute (@shown plain_formats parameters) "y/${year}/${tile}_${year}.tif".
Proof.
  intros parameters. apply (@render_is_substitution plain_formats).
  - apply (bool_decide_eq_true (NoDup _)). vm_compute. reflexivity.
  - repeat constructor; discriminate.
  - repeat constructor; discriminate.
  - apply (bool_decide_eq_true (Forall _ _)). vm_compute. reflexivity.
  - apply perm_swap.
Defined.

(** The order of the parameters can change what is bound.  A registered file whose path
    has a placeholder for a parameter, and a parameter whose value is itself the text
    of a placeholder: one order of the map binds the value of the other parameter,
    another order binds the text of the placeholder.  Both orders are accepted. *)
Theorem binding_depends_on_map_order :
  let provider := mkProvider "p" "raster" "" DataProviderRegisteredLocation "" "" (Some (mkPathTemplate "loc" "in/${a}"))
    None ["a"; "b"] (mkIntegrityTemplate "" None false) (mkCacheTemplate "" "" None) None (mkAssetMaterialization "" "" "")
    (mkTransferPolicy 0 0 0 []) [] in
  let bound parameters := (λ asset, al_Path (ba_Location asset)) <$> @Bind latin1_only plain_formats provider "x" parameters in
  let a := ("a", PString "${b}") in
  let b := ("b", PString "secret") in
  bound [a; b] = Ok "in/secret" ∧ bound [b; a] = Ok "in/${b}".
Proof. vm_compute. done. Qed.

(** * What collections guarantee

    The cardinality of a collection is the number of its members and never wraps; a
    range is expanded in as many rounds as it has members, except that a range up to
    the largest integer is expanded for ever; and the path of a collection has the
    bindings that the manifest of the collection asks for. *)
Local Open Scope Z_scope.

(** ** Ranges *)

Lemma wrap64_int64 z : int64 (wrap64 z).
Proof. unfold int64, wrap64, MinInt64, MaxInt64. pose proof (Z.mod_pos_bound (z + 2 ^ 63) (2 ^ 64)). lia. Qed.

Definition range_list (from : Z) (count : nat) : list any := PInt <$> seqZ from (Z.of_nat count).
Lemma range_values_finish count from through rounds :
  int64 from → through < MaxInt64 → from + Z.of_nat count = through + 1 → (count ≤ rounds)%nat →
  range_values rounds from through = Some (range_list from count).
Proof.
  intros Hf Ht. revert from rounds Hf. induction count as [|count IH]; intros from rounds Hf Hc Hr.
  - assert (Hlt : (through <? from) = true) by lia. destruct rounds; cbn [range_values]; by rewrite Hlt.
  - destruct rounds as [|rounds]; [lia|]. cbn [range_values].
    assert (Hlt : (through <? from) = false) by lia. rewrite Hlt.
    unfold int64, MinInt64, MaxInt64 in *.
    rewrite wrap64_id by (unfold int64, MinInt64, MaxInt64; lia).
    rewrite (IH (from + 1) rounds) by (unfold int64, MinInt64, MaxInt64; lia). cbn.
    unfold range_list. rewrite (seqZ_cons from) by lia. by rewrite Nat2Z.inj_succ, Z.pred_succ, <- Z.add_1_r.
Qed.
Lemma range_values_for_ever rounds value : int64 value → range_values rounds value MaxInt64 = None.
Proof.
  revert value. induction rounds as [|rounds IH]; intros value Hv; cbn [range_values];
    (assert (Hlt : (MaxInt64 <? value) = false) by (unfold int64 in Hv; lia); rewrite Hlt); [done|].
  by rewrite IH by apply wrap64_int64.
Qed.

Definition range_ok (r : DataAssetCollectionRange) : Prop := int64 (rg_From r) ∧ int64 (rg_Through r).
Lemma range_cardinality_Ok r parameter count :
  range_ok r → range_cardinality r parameter = Ok count →
  pd_Type parameter = "int" ∧ rg_From r ≤ rg_Through r ∧ count = rg_Through r - rg_From r + 1 ∧ 0 < count < 2 ^ 64.
Proof.
  intros [Hf Ht]. unfold range_cardinality. intros H. result_inv.
  rewrite negb_false_iff, bool_decide_eq_true, ?Z.ltb_ge in *. split; [done|]. split; [done|].
  unfold int64, MinInt64, MaxInt64, uint64 in *.
  rewrite <- Zminus_mod, Z.add_mod_idemp_l in * by lia.
  assert (Hle : 0 < rg_Through r - rg_From r + 1 ≤ 2 ^ 64) by lia.
  destruct (decide (rg_Through r - rg_From r + 1 = 2 ^ 64)) as [He|Hne].
  - rewrite He, Z.mod_same in * by lia. done.
  - rewrite Z.mod_small in * by lia. lia.
Qed.

(** C36: A range within the limits of the code is expanded to exactly its integers, in as many
    rounds as it has, when it ends below the largest integer; a range that ends at the
    largest integer passes validation and is never done: the counter wraps around. *)
Theorem range_expansion_terminates_iff dimension r parameter count :
  cd_Range dimension = Some r → range_ok r → range_cardinality r parameter = Ok count → count ≤ MaxInt64 →
  ((∃ rounds values, DomainValues rounds dimension parameter = Some values) ↔ rg_Through r < MaxInt64) ∧
  (rg_Through r < MaxInt64 →
     DomainValues (Z.to_nat count) dimension parameter = Some (Ok (range_list (rg_From r) (Z.to_nat count)))).
Proof.
  intros Hr Hok Hcard Hmax. destruct (range_cardinality_Ok _ _ _ Hok Hcard) as (_ & Hle & Hcount & Hpos).
  assert (Hbig : (MaxInt64 <? count) = false) by lia.
  assert (Hdone : rg_Through r < MaxInt64 →
    DomainValues (Z.to_nat count) dimension parameter = Some (Ok (range_list (rg_From r) (Z.to_nat count)))).
  { intros Ht. unfold DomainValues. rewrite Hr, Hcard, Hbig, (range_values_finish (Z.to_nat count));
      [done|apply Hok|done|lia|lia]. }
  split; [|exact Hdone]. split; [|eauto]. intros (rounds & values & Hv).
  destruct (Z.lt_ge_cases (rg_Through r) MaxInt64) as [|Hge]; [done|]. exfalso.
  assert (He : rg_Through r = MaxInt64) by (destruct Hok as [_ [_ ?]]; lia).
  unfold DomainValues in Hv. rewrite Hr, Hcard, Hbig, He, range_values_for_ever in Hv; [done|apply Hok].
Qed.
Lemma range_expansion_terminates_iff_witness :
  let dimension from through := mkDimension "year" None (Some (mkRange from through)) in
  DomainValues 3 (dimension 2019 2021) (mkParameterDefinition "int") = Some (Ok [PInt 2019; PInt 2020; PInt 2021]) ∧
  ¬ ∃ rounds values, DomainValues rounds (dimension (MaxInt64 - 1) MaxInt64) (mkParameterDefinition "int") = Some values.
Proof.
  intros dimension. split.
  - apply (range_expansion_terminates_iff (dimension 2019 2021) (mkRange 2019 2021) (mkParameterDefinition "int") 3);
      [done|done|vm_compute; reflexivity|done|done].
  - intros H. apply (range_expansion_terminates_iff (dimension (MaxInt64 - 1) MaxInt64) (mkRange (MaxInt64 - 1) MaxInt64)
      (mkParameterDefinition "int") 2) in H; [done|done|done|vm_compute; reflexivity|done].
Defined.

(** ** Cardinality *)

(** The values of a dimension, once they are expanded. *)
Definition expands (parameters : parameter_definitions) (dimension : DataAssetCollectionDimension) (values : list any) : Prop :=
  ∃ parameter rounds, parameters !! cd_Parameter dimension = Some parameter ∧
    DomainValues rounds dimension parameter = Some (Ok values).
(** A range of machine integers, no longer than a list can be and not up to the largest. *)
Definition expandable (dimension : DataAssetCollectionDimension) : Prop :=
  ∀ r, cd_Range dimension = Some r →
    range_ok r ∧ rg_Through r < MaxInt64 ∧ rg_Through r - rg_From r < MaxInt64.
(** The number of tuples with one value of each list. *)
Fixpoint tuples (domains : list (list any)) : Z :=
  match domains with [] => 1 | d :: l => Z.of_nat (length d) * tuples l end.

Lemma dimension_expands parameters dimension parameter count :
  parameters !! cd_Parameter dimension = Some parameter → expandable dimension →
  dimension_cardinality dimension parameter = Ok count →
  ∃ values, expands parameters dimension values ∧ Z.of_nat (length values) = count ∧ 0 < count.
Proof.
  intros Hp He. unfold dimension_cardinality. destruct (cd_Values dimension) as [values|] eqn:Hv;
    destruct (cd_Range dimension) as [r|] eqn:Hr; intros H; try discriminate H.
  - result_inv. exists values. split; [|split; [done|]].
    + exists parameter, 0%nat. split; [done|]. unfold DomainValues. rewrite Hr, Hv.
      match goal with H : validateExplicitValues _ _ = Ok _ |- _ => by rewrite H end.
    + match goal with H : validateExplicitValues _ _ = Ok _ |- _ => unfold validateExplicitValues in H; rewrite Hv in H end.
      result_inv. destruct values; [done|]. cbn [length]. lia.
  - destruct (He r Hr) as (Hok & Ht & Hd). destruct (range_cardinality_Ok _ _ _ Hok H) as (_ & Hle & Hc & Hpos).
    exists (range_list (rg_From r) (Z.to_nat count)). split; [|split; [|lia]].
    + exists parameter, (Z.to_nat count). split; [done|]. unfold DomainValues. rewrite Hr, H.
      assert (Hbig : (MaxInt64 <? count) = false) by lia. rewrite Hbig.
      rewrite (range_values_finish (Z.to_nat count)); [done|apply Hok|done|lia|lia].
    + unfold range_list. rewrite length_fmap, length_seqZ. lia.
Qed.

Section cardinality.
Context {unicode : Unicode} {formats : Formats}.

Lemma add_dimensions_count parameters dimensions index seen total acc :
  Forall expandable dimensions → foldM (add_dimension parameters) (index, seen, total) dimensions = Ok acc →
  0 < total ≤ MaxUint64 →
  ∃ domains, Forall2 (expands parameters) dimensions domains ∧ acc.2 = total * tuples domains ∧ 0 < acc.2 ≤ MaxUint64.
Proof.
  intros He. revert index seen total. induction He as [|d dimensions Hd _ IH]; intros index seen total H Htot.
  - cbn in H. result_inv. exists []. split; [constructor|]. cbn. lia.
  - cbn [foldM] in H. apply bind_Ok in H as (mid & Hstep & H). unfold add_dimension in Hstep. result_inv.
    destruct (parameters !! cd_Parameter d) as [parameter|] eqn:Hp; [|done]. result_inv.
    match goal with H : dimension_cardinality _ _ = Ok ?c |- _ =>
      destruct (dimension_expands _ _ _ _ Hp Hd H) as (values & Hx & Hlen & Hpos); rename c into count end.
    rewrite Z.ltb_ge in *.
    assert (Hmul : total * count ≤ MaxUint64).
    { transitivity (MaxUint64 / count * count); [nia|]. rewrite Z.mul_comm. by apply Z.mul_div_le. }
    destruct (IH _ _ _ H) as (domains & Hds & Hacc & Hb); [nia|].
    exists (values :: domains). split; [by constructor|]. split; [|done]. cbn [tuples]. rewrite Hacc, Hlen. lia.
Qed.

(** The cardinality of a collection, computed with 64-bit unsigned arithmetic, is the number
    of tuples of the values its dimensions expand to; the multiplication never wraps. *)
Theorem Cardinality_counts_members collection parameters n :
  Forall expandable (cl_Dimensions collection) → Cardinality collection parameters = Ok n →
  ∃ domains, Forall2 (expands parameters) (cl_Dimensions collection) domains ∧ n = tuples domains ∧ 0 < n ≤ MaxUint64.
Proof.
  intros He H. unfold Cardinality in H. result_inv.
  match goal with H : foldM _ _ _ = Ok _ |- _ => apply add_dimensions_count in H as (domains & Hd & Hn & Hb) end;
    [|done|done].
  exists domains. rewrite Hn in *. split; [done|]. split; lia.
Qed.
End cardinality.
Lemma Cardinality_counts_members_witness :
  let collection := mkCollection [mkDimension "year" None (Some (mkRange 2019 2021));
                                  mkDimension "tile" (Some [PString "h10v4"; PString "h11v4"]) None] in
  let parameters : parameter_definitions :=
    {["year" := mkParameterDefinition "int"; "tile" := mkParameterDefinition "string"]} in
  ∃ domains, Forall2 (expands parameters) (cl_Dimensions collection) domains ∧ 6 = tuples domains ∧ 0 < 6 ≤ MaxUint64.
Proof.
  intros collection parameters. apply (@Cardinality_counts_members latin1_only collection parameters 6).
  - constructor; [|constructor; [|constructor]]; intros r Hr; [injection Hr as <-|discriminate Hr].
    vm_compute. split_and!; intros; try discriminate; reflexivity.
  - vm_compute. reflexivity.
Defined.
