(* ===== verification/DataCodec.v ===== *)
(** * Data assets as JSON ([internal/model])

    How [encoding/json] reads and writes the structs of data assets: the fields with
    their names, those that are left out when empty, and the members of collections,
    whose bindings are read as scalars.  Generated from the struct tags; the encoder
    writes a slice without elements as an empty array (the slices that may be nil
    there are left out when empty, or are never empty once validated). *)

From S2P Require Import Prelude GoTime GoJson GoStrings GoPath GoJsonLaws GoSha256 Fingerprint GoJsonStruct.
From S2P Require Import Variables StoreData Dependency WorkItem GoFmt DataNames DataCollections DataAssets DataProviders.
From S2P Require Import WorkItemCodec.

(** ** Payloads of the data operators ([internal/model/work_item.go])

    What an [asset.materialize] and a [commit_data] work item carry, and when a payload is
    accepted. *)
Local Open Scope Z_scope.

Record DataAssetTransferLimits := mkTransferLimits { tl_MaxBytesPerSecond : Z }.
Record AssetMaterializeWorkItemPayload := mkAssetPayload {
  ap_Operator : string; ap_TargetEnvironmentID : string; ap_AssetKey : string; ap_DedupeKey : string;
  ap_BindingName : string; ap_ProviderName : string; ap_ProviderType : string; ap_Kind : string; ap_Format : string;
  ap_ResolvedLocation : DataAssetLocation; ap_MaterializationDomainID : string; ap_DestinationRelativePath : string;
  ap_MaterializationKey : string; ap_CollectionMember : option MaterializedDataAssetCollectionMember;
  ap_Cache : DataAssetCache; ap_Integrity : DataAssetIntegrity; ap_Archive : option DataAssetArchive;
  ap_ResourceConstraints : list WorkItemResourceConstraint; ap_TransferPolicy : DataAssetTransferPolicy;
  ap_TransferLimits : DataAssetTransferLimits; ap_Parameters : metadata; ap_Metadata : metadata }.
Record CommitDataSource := mkCommitSource { cs_FromWorkItemID : string; cs_FromArtifact : string }.
Record CommitDataWorkItemPayload := mkCommitPayload {
  cp_Operator : string; cp_TargetEnvironmentID : string; cp_Source : CommitDataSource; cp_PublishTarget : BoundPublishTarget;
  cp_ResourceConstraints : list WorkItemResourceConstraint }.

(** The loop over the constraints of a payload; [operator] names it in the errors. *)
Definition validate_payload_constraints (operator : string) (constraints : list WorkItemResourceConstraint) : result unit :=
  traverse_items (λ i constraint,
    let at_ := operator +:+ " resource_constraints[" +:+ pretty i +:+ "]" in
    required_trimmed (wc_ResourceKey constraint) (at_ +:+ " resource_key is required");;
    fail_if (wc_RequestedUnits constraint <=? 0) (Errorf (at_ +:+ " requested_units must be greater than 0"));;
    fail_if (negb (isSupportedWorkItemResourceConstraintOperator (wc_Operator constraint)))
      (Errorf (at_ +:+ " unsupported operator " +:+ wc_Operator constraint));;
    non_negative (wc_TargetUnits constraint) (at_ +:+ " target_units must be non-negative")) 0 constraints;;
  Ok tt.

Section payloads.
Context {unicode : Unicode}.

Definition AssetPayload_Validate (payload : AssetMaterializeWorkItemPayload) : result unit :=
  fail_if (negb (bool_decide (ap_Operator payload = WorkItemTypeAssetMaterialize)))
    (Errorf ("asset_materialize operator must be " +:+ WorkItemTypeAssetMaterialize));;
  required_trimmed (ap_TargetEnvironmentID payload) "asset_materialize target_environment_id is required";;
  fail_if (negb (has_prefix "sha256:" (ap_AssetKey payload)))
    (Errorf "asset_materialize asset_key must use sha256: prefix");;
  validateOptionalSHA256 "asset_materialize asset_key" (trim_prefix "sha256:" (ap_AssetKey payload));;
  required_trimmed (ap_DedupeKey payload) "asset_materialize dedupe_key is required";;
  validateDataName (ap_BindingName payload) "asset_materialize binding_name";;
  validateDataName (ap_ProviderName payload) "asset_materialize provider_name";;
  fail_if (negb (isSupportedDataProvider (ap_ProviderType payload)))
    (Errorf ("unsupported asset_materialize provider_type " +:+ ap_ProviderType payload));;
  required_trimmed (ap_Kind payload) "asset_materialize kind is required";;
  AssetLocation_Validate (ap_ResolvedLocation payload);;
  trimmed_text (ap_MaterializationDomainID payload)
    "asset_materialize materialization_domain_id must not contain leading or trailing whitespace";;
  optional_path (ap_DestinationRelativePath payload) "asset_materialize destination_relative_path";;
  (if is_empty (ap_MaterializationKey payload) then Ok tt
   else validatePrefixedSHA256 "asset_materialize materialization_key" (ap_MaterializationKey payload));;
  optional_check (λ m, wrap_err "asset_materialize collection_member" (CollectionMember_Validate m))
    (ap_CollectionMember payload);;
  Cache_Validate (ap_Cache payload);;
  Integrity_Validate (ap_Integrity payload);;
  optional_check Archive_Validate (ap_Archive payload);;
  validate_payload_constraints "asset_materialize" (ap_ResourceConstraints payload);;
  wrap_err "asset_materialize transfer_policy" (TransferPolicy_Validate (ap_TransferPolicy payload));;
  non_negative (tl_MaxBytesPerSecond (ap_TransferLimits payload))
    "asset_materialize transfer_limits max_bytes_per_second must be non-negative".

Definition CommitPayload_Validate (payload : CommitDataWorkItemPayload) : result unit :=
  fail_if (negb (bool_decide (cp_Operator payload = WorkItemTypeCommitData)))
    (Errorf ("commit_data operator must be " +:+ WorkItemTypeCommitData));;
  required_trimmed (cp_TargetEnvironmentID payload) "commit_data target_environment_id is required";;
  required_trimmed (cs_FromWorkItemID (cp_Source payload)) "commit_data source from_work_item_id is required";;
  validateDataName (cs_FromArtifact (cp_Source payload)) "commit_data source from_artifact";;
  wrap_err "commit_data publish_target" (BoundTarget_Validate (cp_PublishTarget payload));;
  fail_if (negb (bool_decide (bt_FromArtifact (cp_PublishTarget payload) = cs_FromArtifact (cp_Source payload))))
    (Errorf "commit_data publish_target from_artifact must match source from_artifact");;
  validate_payload_constraints "commit_data" (cp_ResourceConstraints payload).
End payloads.
Local Open Scope Z_scope.

Section codec.
Context {floats : JsonFloats}.

(** [data_archive.go] *)
Definition select_fields : Struct DataAssetArchiveSelect :=
  [("member", into_string (λ x '(mkSelect _ a1 a2), mkSelect x a1 a2));
   ("as", into_string (λ x '(mkSelect a0 _ a2), mkSelect a0 x a2));
   ("required", into_pointer bool_item (λ x '(mkSelect a0 a1 _), mkSelect a0 a1 x))].
Definition decode_select : JSON → result DataAssetArchiveSelect :=
  decode_struct false select_fields (mkSelect "" "" None).
Definition encode_select (x : DataAssetArchiveSelect) : result JSON :=
  Ok (JObject (field "member" (JString (sl_Member x)) ++
             omit_string "as" (sl_As x) ++
             omit_nil "required" (JBool <$> sl_Required x))).

Definition archive_fields : Struct DataAssetArchive :=
  [("type", into_string (λ x '(mkArchive _ a1 a2), mkArchive x a1 a2));
   ("select", into_list decode_select (λ x '(mkArchive a0 _ a2), mkArchive a0 x a2));
   ("expose", into_string (λ x '(mkArchive a0 a1 _), mkArchive a0 a1 x))].
Definition decode_archive : JSON → result DataAssetArchive :=
  decode_struct false archive_fields (mkArchive "" [] "").
Definition encode_archive (x : DataAssetArchive) : result JSON :=
  v1 ← encode_list encode_select (ar_Select x);
  Ok (JObject (field "type" (JString (ar_Type x)) ++
             omit_list "select" v1 ++
             omit_string "expose" (ar_Expose x))).

(** [data_asset.go] *)
Definition location_fields : Struct DataAssetLocation :=
  [("type", into_string (λ x '(mkAssetLocation _ a1 a2 a3 a4 a5 a6), mkAssetLocation x a1 a2 a3 a4 a5 a6));
   ("uri", into_string (λ x '(mkAssetLocation a0 _ a2 a3 a4 a5 a6), mkAssetLocation a0 x a2 a3 a4 a5 a6));
   ("location_name", into_string (λ x '(mkAssetLocation a0 a1 _ a3 a4 a5 a6), mkAssetLocation a0 a1 x a3 a4 a5 a6));
   ("path", into_string (λ x '(mkAssetLocation a0 a1 a2 _ a4 a5 a6), mkAssetLocation a0 a1 a2 x a4 a5 a6));
   ("remote", into_string (λ x '(mkAssetLocation a0 a1 a2 a3 _ a5 a6), mkAssetLocation a0 a1 a2 a3 x a5 a6));
   ("drive_path", into_string (λ x '(mkAssetLocation a0 a1 a2 a3 a4 _ a6), mkAssetLocation a0 a1 a2 a3 a4 x a6));
   ("file_id", into_string (λ x '(mkAssetLocation a0 a1 a2 a3 a4 a5 _), mkAssetLocation a0 a1 a2 a3 a4 a5 x))].
Definition decode_location : JSON → result DataAssetLocation :=
  decode_struct false location_fields (mkAssetLocation "" "" "" "" "" "" "").
Definition encode_location (x : DataAssetLocation) : result JSON :=
  Ok (JObject (field "type" (JString (al_Type x)) ++
             omit_string "uri" (al_URI x) ++
             omit_string "location_name" (al_LocationName x) ++
             omit_string "path" (al_Path x) ++
             omit_string "remote" (al_Remote x) ++
             omit_string "drive_path" (al_DrivePath x) ++
             omit_string "file_id" (al_FileID x))).

Definition integrity_fields : Struct DataAssetIntegrity :=
  [("sha256", into_string (λ x '(mkIntegrity _ a1 a2), mkIntegrity x a1 a2));
   ("size_bytes", into_pointer int_item (λ x '(mkIntegrity a0 _ a2), mkIntegrity a0 x a2));
   ("required", into_bool (λ x '(mkIntegrity a0 a1 _), mkIntegrity a0 a1 x))].
Definition decode_integrity : JSON → result DataAssetIntegrity :=
  decode_struct false integrity_fields (mkIntegrity "" None false).
Definition encode_integrity (x : DataAssetIntegrity) : result JSON :=
  Ok (JObject (omit_string "sha256" (in_SHA256 x) ++
             omit_nil "size_bytes" (JInt <$> in_SizeBytes x) ++
             omit_bool "required" (in_Required x))).

Definition cache_fields : Struct DataAssetCache :=
  [("strategy", into_string (λ x '(mkCache _ a1 a2), mkCache x a1 a2));
   ("cache_key", into_string (λ x '(mkCache a0 _ a2), mkCache a0 x a2));
   ("immutable", into_pointer bool_item (λ x '(mkCache a0 a1 _), mkCache a0 a1 x))].
Definition decode_cache : JSON → result DataAssetCache :=
  decode_struct false cache_fields (mkCache "" "" None).
Definition encode_cache (x : DataAssetCache) : result JSON :=
  Ok (JObject (omit_string "strategy" (ca_Strategy x) ++
             omit_string "cache_key" (ca_CacheKey x) ++
             omit_nil "immutable" (JBool <$> ca_Immutable x))).

Definition asset_materialization_fields : Struct DataAssetMaterialization :=
  [("scope", into_string (λ x '(mkAssetMaterialization _ a1 a2), mkAssetMaterialization x a1 a2));
   ("strategy", into_string (λ x '(mkAssetMaterialization a0 _ a2), mkAssetMaterialization a0 x a2));
   ("path_template", into_string (λ x '(mkAssetMaterialization a0 a1 _), mkAssetMaterialization a0 a1 x))].
Definition decode_asset_materialization : JSON → result DataAssetMaterialization :=
  decode_struct false asset_materialization_fields (mkAssetMaterialization "" "" "").
Definition encode_asset_materialization (x : DataAssetMaterialization) : result JSON :=
  Ok (JObject (omit_string "scope" (am_Scope x) ++
             omit_string "strategy" (am_Strategy x) ++
             omit_string "path_template" (am_PathTemplate x))).

Definition transfer_policy_fields : Struct DataAssetTransferPolicy :=
  [("max_concurrent_source_transfers", into_int (λ x '(mkTransferPolicy _ a1 a2 a3), mkTransferPolicy x a1 a2 a3));
   ("requested_bandwidth_mib_per_second", into_int (λ x '(mkTransferPolicy a0 _ a2 a3), mkTransferPolicy a0 x a2 a3));
   ("max_bytes_per_second", into_int (λ x '(mkTransferPolicy a0 a1 _ a3), mkTransferPolicy a0 a1 x a3));
   ("provider_args", into_texts (λ x '(mkTransferPolicy a0 a1 a2 _), mkTransferPolicy a0 a1 a2 x))].
Definition decode_transfer_policy : JSON → result DataAssetTransferPolicy :=
  decode_struct false transfer_policy_fields (mkTransferPolicy 0 0 0 []).
Definition encode_transfer_policy (x : DataAssetTransferPolicy) : result JSON :=
  Ok (JObject (omit_int "max_concurrent_source_transfers" (tp_MaxConcurrentSourceTransfers x) ++
             omit_int "requested_bandwidth_mib_per_second" (tp_RequestedBandwidthMiBPerSecond x) ++
             omit_int "max_bytes_per_second" (tp_MaxBytesPerSecond x) ++
             omit_object "provider_args" ((λ kv, (kv.1, JString kv.2)) <$> order_by by_key (tp_ProviderArgs x)))).

Definition bound_asset_fields : Struct BoundDataAsset :=
  [("definition_name", into_string (λ x '(mkBoundAsset _ a1 a2 a3 a4 a5 a6 a7 a8 a9 a10 a11 a12 a13), mkBoundAsset x a1 a2 a3 a4 a5 a6 a7 a8 a9 a10 a11 a12 a13));
   ("binding_name", into_string (λ x '(mkBoundAsset a0 _ a2 a3 a4 a5 a6 a7 a8 a9 a10 a11 a12 a13), mkBoundAsset a0 x a2 a3 a4 a5 a6 a7 a8 a9 a10 a11 a12 a13));
   ("provider_name", into_string (λ x '(mkBoundAsset a0 a1 _ a3 a4 a5 a6 a7 a8 a9 a10 a11 a12 a13), mkBoundAsset a0 a1 x a3 a4 a5 a6 a7 a8 a9 a10 a11 a12 a13));
   ("kind", into_string (λ x '(mkBoundAsset a0 a1 a2 _ a4 a5 a6 a7 a8 a9 a10 a11 a12 a13), mkBoundAsset a0 a1 a2 x a4 a5 a6 a7 a8 a9 a10 a11 a12 a13));
   ("format", into_string (λ x '(mkBoundAsset a0 a1 a2 a3 _ a5 a6 a7 a8 a9 a10 a11 a12 a13), mkBoundAsset a0 a1 a2 a3 x a5 a6 a7 a8 a9 a10 a11 a12 a13));
   ("provider", into_string (λ x '(mkBoundAsset a0 a1 a2 a3 a4 _ a6 a7 a8 a9 a10 a11 a12 a13), mkBoundAsset a0 a1 a2 a3 a4 x a6 a7 a8 a9 a10 a11 a12 a13));
   ("location", into_struct false location_fields ba_Location (λ x '(mkBoundAsset a0 a1 a2 a3 a4 a5 _ a7 a8 a9 a10 a11 a12 a13), mkBoundAsset a0 a1 a2 a3 a4 a5 x a7 a8 a9 a10 a11 a12 a13));
   ("integrity", into_struct false integrity_fields ba_Integrity (λ x '(mkBoundAsset a0 a1 a2 a3 a4 a5 a6 _ a8 a9 a10 a11 a12 a13), mkBoundAsset a0 a1 a2 a3 a4 a5 a6 x a8 a9 a10 a11 a12 a13));
   ("cache", into_struct false cache_fields ba_Cache (λ x '(mkBoundAsset a0 a1 a2 a3 a4 a5 a6 a7 _ a9 a10 a11 a12 a13), mkBoundAsset a0 a1 a2 a3 a4 a5 a6 a7 x a9 a10 a11 a12 a13));
   ("archive", into_pointer decode_archive (λ x '(mkBoundAsset a0 a1 a2 a3 a4 a5 a6 a7 a8 _ a10 a11 a12 a13), mkBoundAsset a0 a1 a2 a3 a4 a5 a6 a7 a8 x a10 a11 a12 a13));
   ("materialization", into_struct false asset_materialization_fields ba_Materialization (λ x '(mkBoundAsset a0 a1 a2 a3 a4 a5 a6 a7 a8 a9 _ a11 a12 a13), mkBoundAsset a0 a1 a2 a3 a4 a5 a6 a7 a8 a9 x a11 a12 a13));
   ("transfer_policy", into_struct false transfer_policy_fields ba_TransferPolicy (λ x '(mkBoundAsset a0 a1 a2 a3 a4 a5 a6 a7 a8 a9 a10 _ a12 a13), mkBoundAsset a0 a1 a2 a3 a4 a5 a6 a7 a8 a9 a10 x a12 a13));
   ("parameters", into_nil_metadata (λ x '(mkBoundAsset a0 a1 a2 a3 a4 a5 a6 a7 a8 a9 a10 a11 _ a13), mkBoundAsset a0 a1 a2 a3 a4 a5 a6 a7 a8 a9 a10 a11 x a13));
   ("metadata", into_metadata (λ x '(mkBoundAsset a0 a1 a2 a3 a4 a5 a6 a7 a8 a9 a10 a11 a12 _), mkBoundAsset a0 a1 a2 a3 a4 a5 a6 a7 a8 a9 a10 a11 a12 x))].
Definition decode_bound_asset : JSON → result BoundDataAsset :=
  decode_struct false bound_asset_fields (mkBoundAsset "" "" "" "" "" "" (mkAssetLocation "" "" "" "" "" "" "") (mkIntegrity "" None false) (mkCache "" "" None) None (mkAssetMaterialization "" "" "") (mkTransferPolicy 0 0 0 []) None []).
Definition encode_bound_asset (x : BoundDataAsset) : result JSON :=
  v6 ← encode_location (ba_Location x);
  v7 ← encode_integrity (ba_Integrity x);
  v8 ← encode_cache (ba_Cache x);
  v9 ← encode_pointer encode_archive (ba_Archive x);
  v10 ← encode_asset_materialization (ba_Materialization x);
  v11 ← encode_transfer_policy (ba_TransferPolicy x);
  v12 ← encode_fields (default [] (ba_Parameters x));
  v13 ← encode_fields (ba_Metadata x);
  Ok (JObject (omit_string "definition_name" (ba_DefinitionName x) ++
             field "binding_name" (JString (ba_BindingName x)) ++
             field "provider_name" (JString (ba_ProviderName x)) ++
             field "kind" (JString (ba_Kind x)) ++
             omit_string "format" (ba_Format x) ++
             field "provider" (JString (ba_Provider x)) ++
             field "location" v6 ++
             field "integrity" v7 ++
             field "cache" v8 ++
             omit_nil "archive" v9 ++
             field "materialization" v10 ++
             field "transfer_policy" v11 ++
             omit_object "parameters" v12 ++
             omit_object "metadata" v13)).

(** [materialized_asset_collection.go]: [UnmarshalJSON] reads the bindings as scalars. *)
Definition collection_member_fields : Struct MaterializedDataAssetCollectionMember :=
  [("collection_fingerprint", into_string (λ x '(mkCollectionMember _ a1 a2 a3 a4 a5 a6), mkCollectionMember x a1 a2 a3 a4 a5 a6));
   ("member_index", into_int (λ x '(mkCollectionMember a0 _ a2 a3 a4 a5 a6), mkCollectionMember a0 x a2 a3 a4 a5 a6));
   ("member_count", into_int (λ x '(mkCollectionMember a0 a1 _ a3 a4 a5 a6), mkCollectionMember a0 a1 x a3 a4 a5 a6));
   ("dimension_order", into_list text_item (λ x '(mkCollectionMember a0 a1 a2 _ a4 a5 a6), mkCollectionMember a0 a1 a2 x a4 a5 a6));
   ("member_bindings", into_map unmarshalCollectionScalar (λ x '(mkCollectionMember a0 a1 a2 a3 _ a5 a6), mkCollectionMember a0 a1 a2 a3 (default ∅ x) a5 a6));
   ("destination_relative_path", into_string (λ x '(mkCollectionMember a0 a1 a2 a3 a4 _ a6), mkCollectionMember a0 a1 a2 a3 a4 x a6));
   ("path_template_identity", into_string (λ x '(mkCollectionMember a0 a1 a2 a3 a4 a5 _), mkCollectionMember a0 a1 a2 a3 a4 a5 x))].
Definition decode_collection_member : JSON → result MaterializedDataAssetCollectionMember :=
  decode_struct false collection_member_fields (mkCollectionMember "" 0 0 [] ∅ "" "").
Definition encode_collection_member (x : MaterializedDataAssetCollectionMember) : result JSON :=
  v4 ← encode_fields (map_to_list (me_MemberBindings x));
  Ok (JObject (field "collection_fingerprint" (JString (me_CollectionFingerprint x)) ++
             field "member_index" (JInt (me_MemberIndex x)) ++
             field "member_count" (JInt (me_MemberCount x)) ++
             omit_list "dimension_order" (JString <$> me_DimensionOrder x) ++
             omit_object "member_bindings" v4 ++
             omit_string "destination_relative_path" (me_DestinationRelativePath x) ++
             omit_string "path_template_identity" (me_PathTemplateIdentity x))).

Definition archive_member_fields : Struct MaterializedArchiveMember :=
  [("member", into_string (λ x '(mkArchiveMember _ a1 a2 a3), mkArchiveMember x a1 a2 a3));
   ("local_path", into_string (λ x '(mkArchiveMember a0 _ a2 a3), mkArchiveMember a0 x a2 a3));
   ("size_bytes", into_pointer int_item (λ x '(mkArchiveMember a0 a1 _ a3), mkArchiveMember a0 a1 x a3));
   ("sha256", into_string (λ x '(mkArchiveMember a0 a1 a2 _), mkArchiveMember a0 a1 a2 x))].
Definition decode_archive_member : JSON → result MaterializedArchiveMember :=
  decode_struct false archive_member_fields (mkArchiveMember "" "" None "").
Definition encode_archive_member (x : MaterializedArchiveMember) : result JSON :=
  Ok (JObject (field "member" (JString (mm_Member x)) ++
             field "local_path" (JString (mm_LocalPath x)) ++
             omit_nil "size_bytes" (JInt <$> mm_SizeBytes x) ++
             omit_string "sha256" (mm_SHA256 x))).

Definition materialized_asset_fields : Struct MaterializedDataAsset :=
  [("binding_name", into_string (λ x '(mkMaterializedAsset _ a1 a2 a3 a4 a5 a6 a7 a8 a9 a10 a11 a12 a13 a14 a15 a16 a17 a18 a19 a20 a21), mkMaterializedAsset x a1 a2 a3 a4 a5 a6 a7 a8 a9 a10 a11 a12 a13 a14 a15 a16 a17 a18 a19 a20 a21));
   ("provider_name", into_string (λ x '(mkMaterializedAsset a0 _ a2 a3 a4 a5 a6 a7 a8 a9 a10 a11 a12 a13 a14 a15 a16 a17 a18 a19 a20 a21), mkMaterializedAsset a0 x a2 a3 a4 a5 a6 a7 a8 a9 a10 a11 a12 a13 a14 a15 a16 a17 a18 a19 a20 a21));
   ("provider_type", into_string (λ x '(mkMaterializedAsset a0 a1 _ a3 a4 a5 a6 a7 a8 a9 a10 a11 a12 a13 a14 a15 a16 a17 a18 a19 a20 a21), mkMaterializedAsset a0 a1 x a3 a4 a5 a6 a7 a8 a9 a10 a11 a12 a13 a14 a15 a16 a17 a18 a19 a20 a21));
   ("kind", into_string (λ x '(mkMaterializedAsset a0 a1 a2 _ a4 a5 a6 a7 a8 a9 a10 a11 a12 a13 a14 a15 a16 a17 a18 a19 a20 a21), mkMaterializedAsset a0 a1 a2 x a4 a5 a6 a7 a8 a9 a10 a11 a12 a13 a14 a15 a16 a17 a18 a19 a20 a21));
   ("format", into_string (λ x '(mkMaterializedAsset a0 a1 a2 a3 _ a5 a6 a7 a8 a9 a10 a11 a12 a13 a14 a15 a16 a17 a18 a19 a20 a21), mkMaterializedAsset a0 a1 a2 a3 x a5 a6 a7 a8 a9 a10 a11 a12 a13 a14 a15 a16 a17 a18 a19 a20 a21));
   ("local_path", into_string (λ x '(mkMaterializedAsset a0 a1 a2 a3 a4 _ a6 a7 a8 a9 a10 a11 a12 a13 a14 a15 a16 a17 a18 a19 a20 a21), mkMaterializedAsset a0 a1 a2 a3 a4 x a6 a7 a8 a9 a10 a11 a12 a13 a14 a15 a16 a17 a18 a19 a20 a21));
   ("materialization_key", into_string (λ x '(mkMaterializedAsset a0 a1 a2 a3 a4 a5 _ a7 a8 a9 a10 a11 a12 a13 a14 a15 a16 a17 a18 a19 a20 a21), mkMaterializedAsset a0 a1 a2 a3 a4 a5 x a7 a8 a9 a10 a11 a12 a13 a14 a15 a16 a17 a18 a19 a20 a21));
   ("materialization_domain_id", into_string (λ x '(mkMaterializedAsset a0 a1 a2 a3 a4 a5 a6 _ a8 a9 a10 a11 a12 a13 a14 a15 a16 a17 a18 a19 a20 a21), mkMaterializedAsset a0 a1 a2 a3 a4 a5 a6 x a8 a9 a10 a11 a12 a13 a14 a15 a16 a17 a18 a19 a20 a21));
   ("destination_relative_path", into_string (λ x '(mkMaterializedAsset a0 a1 a2 a3 a4 a5 a6 a7 _ a9 a10 a11 a12 a13 a14 a15 a16 a17 a18 a19 a20 a21), mkMaterializedAsset a0 a1 a2 a3 a4 a5 a6 a7 x a9 a10 a11 a12 a13 a14 a15 a16 a17 a18 a19 a20 a21));
   ("destination_size_bytes", into_pointer int_item (λ x '(mkMaterializedAsset a0 a1 a2 a3 a4 a5 a6 a7 a8 _ a10 a11 a12 a13 a14 a15 a16 a17 a18 a19 a20 a21), mkMaterializedAsset a0 a1 a2 a3 a4 a5 a6 a7 a8 x a10 a11 a12 a13 a14 a15 a16 a17 a18 a19 a20 a21));
   ("destination_sha256", into_string (λ x '(mkMaterializedAsset a0 a1 a2 a3 a4 a5 a6 a7 a8 a9 _ a11 a12 a13 a14 a15 a16 a17 a18 a19 a20 a21), mkMaterializedAsset a0 a1 a2 a3 a4 a5 a6 a7 a8 a9 x a11 a12 a13 a14 a15 a16 a17 a18 a19 a20 a21));
   ("materialization_strategy", into_string (λ x '(mkMaterializedAsset a0 a1 a2 a3 a4 a5 a6 a7 a8 a9 a10 _ a12 a13 a14 a15 a16 a17 a18 a19 a20 a21), mkMaterializedAsset a0 a1 a2 a3 a4 a5 a6 a7 a8 a9 a10 x a12 a13 a14 a15 a16 a17 a18 a19 a20 a21));
   ("cache_key", into_string (λ x '(mkMaterializedAsset a0 a1 a2 a3 a4 a5 a6 a7 a8 a9 a10 a11 _ a13 a14 a15 a16 a17 a18 a19 a20 a21), mkMaterializedAsset a0 a1 a2 a3 a4 a5 a6 a7 a8 a9 a10 a11 x a13 a14 a15 a16 a17 a18 a19 a20 a21));
   ("cache_immutable", into_pointer bool_item (λ x '(mkMaterializedAsset a0 a1 a2 a3 a4 a5 a6 a7 a8 a9 a10 a11 a12 _ a14 a15 a16 a17 a18 a19 a20 a21), mkMaterializedAsset a0 a1 a2 a3 a4 a5 a6 a7 a8 a9 a10 a11 a12 x a14 a15 a16 a17 a18 a19 a20 a21));
   ("source_size_bytes", into_pointer int_item (λ x '(mkMaterializedAsset a0 a1 a2 a3 a4 a5 a6 a7 a8 a9 a10 a11 a12 a13 _ a15 a16 a17 a18 a19 a20 a21), mkMaterializedAsset a0 a1 a2 a3 a4 a5 a6 a7 a8 a9 a10 a11 a12 a13 x a15 a16 a17 a18 a19 a20 a21));
   ("source_sha256", into_string (λ x '(mkMaterializedAsset a0 a1 a2 a3 a4 a5 a6 a7 a8 a9 a10 a11 a12 a13 a14 _ a16 a17 a18 a19 a20 a21), mkMaterializedAsset a0 a1 a2 a3 a4 a5 a6 a7 a8 a9 a10 a11 a12 a13 a14 x a16 a17 a18 a19 a20 a21));
   ("selected_size_bytes", into_pointer int_item (λ x '(mkMaterializedAsset a0 a1 a2 a3 a4 a5 a6 a7 a8 a9 a10 a11 a12 a13 a14 a15 _ a17 a18 a19 a20 a21), mkMaterializedAsset a0 a1 a2 a3 a4 a5 a6 a7 a8 a9 a10 a11 a12 a13 a14 a15 x a17 a18 a19 a20 a21));
   ("selected_sha256", into_string (λ x '(mkMaterializedAsset a0 a1 a2 a3 a4 a5 a6 a7 a8 a9 a10 a11 a12 a13 a14 a15 a16 _ a18 a19 a20 a21), mkMaterializedAsset a0 a1 a2 a3 a4 a5 a6 a7 a8 a9 a10 a11 a12 a13 a14 a15 a16 x a18 a19 a20 a21));
   ("archive_type", into_string (λ x '(mkMaterializedAsset a0 a1 a2 a3 a4 a5 a6 a7 a8 a9 a10 a11 a12 a13 a14 a15 a16 a17 _ a19 a20 a21), mkMaterializedAsset a0 a1 a2 a3 a4 a5 a6 a7 a8 a9 a10 a11 a12 a13 a14 a15 a16 a17 x a19 a20 a21));
   ("archive_members", into_list decode_archive_member (λ x '(mkMaterializedAsset a0 a1 a2 a3 a4 a5 a6 a7 a8 a9 a10 a11 a12 a13 a14 a15 a16 a17 a18 _ a20 a21), mkMaterializedAsset a0 a1 a2 a3 a4 a5 a6 a7 a8 a9 a10 a11 a12 a13 a14 a15 a16 a17 a18 x a20 a21));
   ("metadata", into_metadata (λ x '(mkMaterializedAsset a0 a1 a2 a3 a4 a5 a6 a7 a8 a9 a10 a11 a12 a13 a14 a15 a16 a17 a18 a19 _ a21), mkMaterializedAsset a0 a1 a2 a3 a4 a5 a6 a7 a8 a9 a10 a11 a12 a13 a14 a15 a16 a17 a18 a19 x a21));
   ("collection_member", into_pointer decode_collection_member (λ x '(mkMaterializedAsset a0 a1 a2 a3 a4 a5 a6 a7 a8 a9 a10 a11 a12 a13 a14 a15 a16 a17 a18 a19 a20 _), mkMaterializedAsset a0 a1 a2 a3 a4 a5 a6 a7 a8 a9 a10 a11 a12 a13 a14 a15 a16 a17 a18 a19 a20 x))].
Definition decode_materialized_asset : JSON → result MaterializedDataAsset :=
  decode_struct false materialized_asset_fields (mkMaterializedAsset "" "" "" "" "" "" "" "" "" None "" "" "" None None "" None "" "" [] [] None).
Definition encode_materialized_asset (x : MaterializedDataAsset) : result JSON :=
  v19 ← encode_list encode_archive_member (ma_ArchiveMembers x);
  v20 ← encode_fields (ma_Metadata x);
  v21 ← encode_pointer encode_collection_member (ma_CollectionMember x);
  Ok (JObject (field "binding_name" (JString (ma_BindingName x)) ++
             omit_string "provider_name" (ma_ProviderName x) ++
             omit_string "provider_type" (ma_ProviderType x) ++
             field "kind" (JString (ma_Kind x)) ++
             omit_string "format" (ma_Format x) ++
             field "local_path" (JString (ma_LocalPath x)) ++
             omit_string "materialization_key" (ma_MaterializationKey x) ++
             omit_string "materialization_domain_id" (ma_MaterializationDomainID x) ++
             omit_string "destination_relative_path" (ma_DestinationRelativePath x) ++
             omit_nil "destination_size_bytes" (JInt <$> ma_DestinationSizeBytes x) ++
             omit_string "destination_sha256" (ma_DestinationSHA256 x) ++
             omit_string "materialization_strategy" (ma_MaterializationStrategy x) ++
             omit_string "cache_key" (ma_CacheKey x) ++
             omit_nil "cache_immutable" (JBool <$> ma_CacheImmutable x) ++
             omit_nil "source_size_bytes" (JInt <$> ma_SourceSizeBytes x) ++
             omit_string "source_sha256" (ma_SourceSHA256 x) ++
             omit_nil "selected_size_bytes" (JInt <$> ma_SelectedSizeBytes x) ++
             omit_string "selected_sha256" (ma_SelectedSHA256 x) ++
             omit_string "archive_type" (ma_ArchiveType x) ++
             omit_list "archive_members" v19 ++
             omit_object "metadata" v20 ++
             omit_nil "collection_member" v21)).

Definition materialized_manifest_fields : Struct MaterializedDataAssetManifest :=
  [("schema", into_string (λ x '(mkMaterializedManifest _ a1 a2 a3), mkMaterializedManifest x a1 a2 a3));
   ("asset_key", into_string (λ x '(mkMaterializedManifest a0 _ a2 a3), mkMaterializedManifest a0 x a2 a3));
   ("target_environment_id", into_string (λ x '(mkMaterializedManifest a0 a1 _ a3), mkMaterializedManifest a0 a1 x a3));
   ("assets", into_list decode_materialized_asset (λ x '(mkMaterializedManifest a0 a1 a2 _), mkMaterializedManifest a0 a1 a2 x))].
Definition decode_materialized_manifest : JSON → result MaterializedDataAssetManifest :=
  decode_struct false materialized_manifest_fields (mkMaterializedManifest "" "" "" []).
Definition encode_materialized_manifest (x : MaterializedDataAssetManifest) : result JSON :=
  v3 ← encode_list encode_materialized_asset (mf_Assets x);
  Ok (JObject (field "schema" (JString (mf_Schema x)) ++
             omit_string "asset_key" (mf_AssetKey x) ++
             omit_string "target_environment_id" (mf_TargetEnvironmentID x) ++
             field "assets" (JArray v3))).

(** [published_data_asset.go] *)
Definition published_asset_fields : Struct PublishedDataAsset :=
  [("name", into_string (λ x '(mkPublished _ a1 a2 a3 a4 a5 a6 a7 a8 a9), mkPublished x a1 a2 a3 a4 a5 a6 a7 a8 a9));
   ("from_work_item_id", into_string (λ x '(mkPublished a0 _ a2 a3 a4 a5 a6 a7 a8 a9), mkPublished a0 x a2 a3 a4 a5 a6 a7 a8 a9));
   ("from_artifact", into_string (λ x '(mkPublished a0 a1 _ a3 a4 a5 a6 a7 a8 a9), mkPublished a0 a1 x a3 a4 a5 a6 a7 a8 a9));
   ("content_type", into_string (λ x '(mkPublished a0 a1 a2 _ a4 a5 a6 a7 a8 a9), mkPublished a0 a1 a2 x a4 a5 a6 a7 a8 a9));
   ("storage_scope", into_string (λ x '(mkPublished a0 a1 a2 a3 _ a5 a6 a7 a8 a9), mkPublished a0 a1 a2 a3 x a5 a6 a7 a8 a9));
   ("location_name", into_string (λ x '(mkPublished a0 a1 a2 a3 a4 _ a6 a7 a8 a9), mkPublished a0 a1 a2 a3 a4 x a6 a7 a8 a9));
   ("path", into_string (λ x '(mkPublished a0 a1 a2 a3 a4 a5 _ a7 a8 a9), mkPublished a0 a1 a2 a3 a4 a5 x a7 a8 a9));
   ("size_bytes", into_pointer int_item (λ x '(mkPublished a0 a1 a2 a3 a4 a5 a6 _ a8 a9), mkPublished a0 a1 a2 a3 a4 a5 a6 x a8 a9));
   ("sha256", into_string (λ x '(mkPublished a0 a1 a2 a3 a4 a5 a6 a7 _ a9), mkPublished a0 a1 a2 a3 a4 a5 a6 a7 x a9));
   ("overwrite_policy", into_string (λ x '(mkPublished a0 a1 a2 a3 a4 a5 a6 a7 a8 _), mkPublished a0 a1 a2 a3 a4 a5 a6 a7 a8 x))].
Definition decode_published_asset : JSON → result PublishedDataAsset :=
  decode_struct false published_asset_fields (mkPublished "" "" "" "" "" "" "" None "" "").
Definition encode_published_asset (x : PublishedDataAsset) : result JSON :=
  Ok (JObject (field "name" (JString (pb_Name x)) ++
             omit_string "from_work_item_id" (pb_FromWorkItemID x) ++
             field "from_artifact" (JString (pb_FromArtifact x)) ++
             omit_string "content_type" (pb_ContentType x) ++
             field "storage_scope" (JString (pb_StorageScope x)) ++
             field "location_name" (JString (pb_LocationName x)) ++
             field "path" (JString (pb_Path x)) ++
             omit_nil "size_bytes" (JInt <$> pb_SizeBytes x) ++
             omit_string "sha256" (pb_SHA256 x) ++
             omit_string "overwrite_policy" (pb_OverwritePolicy x))).

Definition bound_target_fields : Struct BoundPublishTarget :=
  [("name", into_string (λ x '(mkBoundTarget _ a1 a2 a3 a4 a5 a6 a7), mkBoundTarget x a1 a2 a3 a4 a5 a6 a7));
   ("from_artifact", into_string (λ x '(mkBoundTarget a0 _ a2 a3 a4 a5 a6 a7), mkBoundTarget a0 x a2 a3 a4 a5 a6 a7));
   ("target_name", into_string (λ x '(mkBoundTarget a0 a1 _ a3 a4 a5 a6 a7), mkBoundTarget a0 a1 x a3 a4 a5 a6 a7));
   ("target", into_string (λ x '(mkBoundTarget a0 a1 a2 _ a4 a5 a6 a7), mkBoundTarget a0 a1 a2 x a4 a5 a6 a7));
   ("location", into_struct false location_fields bt_Location (λ x '(mkBoundTarget a0 a1 a2 a3 _ a5 a6 a7), mkBoundTarget a0 a1 a2 a3 x a5 a6 a7));
   ("overwrite_policy", into_string (λ x '(mkBoundTarget a0 a1 a2 a3 a4 _ a6 a7), mkBoundTarget a0 a1 a2 a3 a4 x a6 a7));
   ("parameters", into_metadata (λ x '(mkBoundTarget a0 a1 a2 a3 a4 a5 _ a7), mkBoundTarget a0 a1 a2 a3 a4 a5 x a7));
   ("metadata", into_metadata (λ x '(mkBoundTarget a0 a1 a2 a3 a4 a5 a6 _), mkBoundTarget a0 a1 a2 a3 a4 a5 a6 x))].
Definition decode_bound_target : JSON → result BoundPublishTarget :=
  decode_struct false bound_target_fields (mkBoundTarget "" "" "" "" (mkAssetLocation "" "" "" "" "" "" "") "" [] []).
Definition encode_bound_target (x : BoundPublishTarget) : result JSON :=
  v4 ← encode_location (bt_Location x);
  v6 ← encode_fields (bt_Parameters x);
  v7 ← encode_fields (bt_Metadata x);
  Ok (JObject (field "name" (JString (bt_Name x)) ++
             field "from_artifact" (JString (bt_FromArtifact x)) ++
             omit_string "target_name" (bt_TargetName x) ++
             omit_string "target" (bt_Target x) ++
             field "location" v4 ++
             omit_string "overwrite_policy" (bt_OverwritePolicy x) ++
             omit_object "parameters" v6 ++
             omit_object "metadata" v7)).

(** [artifact_manifest.go] *)
Definition artifact_fields : Struct ArtifactDescriptor :=
  [("name", into_string (λ x '(mkDescriptor _ a1 a2 a3 a4 a5 a6 a7 a8 a9 a10), mkDescriptor x a1 a2 a3 a4 a5 a6 a7 a8 a9 a10));
   ("kind", into_string (λ x '(mkDescriptor a0 _ a2 a3 a4 a5 a6 a7 a8 a9 a10), mkDescriptor a0 x a2 a3 a4 a5 a6 a7 a8 a9 a10));
   ("format", into_string (λ x '(mkDescriptor a0 a1 _ a3 a4 a5 a6 a7 a8 a9 a10), mkDescriptor a0 a1 x a3 a4 a5 a6 a7 a8 a9 a10));
   ("path", into_string (λ x '(mkDescriptor a0 a1 a2 _ a4 a5 a6 a7 a8 a9 a10), mkDescriptor a0 a1 a2 x a4 a5 a6 a7 a8 a9 a10));
   ("content_type", into_string (λ x '(mkDescriptor a0 a1 a2 a3 _ a5 a6 a7 a8 a9 a10), mkDescriptor a0 a1 a2 a3 x a5 a6 a7 a8 a9 a10));
   ("size_bytes", into_pointer int_item (λ x '(mkDescriptor a0 a1 a2 a3 a4 _ a6 a7 a8 a9 a10), mkDescriptor a0 a1 a2 a3 a4 x a6 a7 a8 a9 a10));
   ("sha256", into_string (λ x '(mkDescriptor a0 a1 a2 a3 a4 a5 _ a7 a8 a9 a10), mkDescriptor a0 a1 a2 a3 a4 a5 x a7 a8 a9 a10));
   ("manifest_sha256", into_string (λ x '(mkDescriptor a0 a1 a2 a3 a4 a5 a6 _ a8 a9 a10), mkDescriptor a0 a1 a2 a3 a4 a5 a6 x a8 a9 a10));
   ("record_count", into_pointer int_item (λ x '(mkDescriptor a0 a1 a2 a3 a4 a5 a6 a7 _ a9 a10), mkDescriptor a0 a1 a2 a3 a4 a5 a6 a7 x a9 a10));
   ("schema_ref", into_string (λ x '(mkDescriptor a0 a1 a2 a3 a4 a5 a6 a7 a8 _ a10), mkDescriptor a0 a1 a2 a3 a4 a5 a6 a7 a8 x a10));
   ("metadata", into_map any_value (λ x '(mkDescriptor a0 a1 a2 a3 a4 a5 a6 a7 a8 a9 _), mkDescriptor a0 a1 a2 a3 a4 a5 a6 a7 a8 a9 x))].
Definition decode_artifact : JSON → result ArtifactDescriptor :=
  decode_struct false artifact_fields (mkDescriptor "" "" "" "" "" None "" "" None "" None).
Definition encode_artifact (x : ArtifactDescriptor) : result JSON :=
  v10 ← encode_fields (map_to_list (default ∅ (ad_Metadata x)));
  Ok (JObject (field "name" (JString (ad_Name x)) ++
             field "kind" (JString (ad_Kind x)) ++
             omit_string "format" (ad_Format x) ++
             field "path" (JString (ad_Path x)) ++
             omit_string "content_type" (ad_ContentType x) ++
             omit_nil "size_bytes" (JInt <$> ad_SizeBytes x) ++
             omit_string "sha256" (ad_SHA256 x) ++
             omit_string "manifest_sha256" (ad_ManifestSHA256 x) ++
             omit_nil "record_count" (JInt <$> ad_RecordCount x) ++
             omit_string "schema_ref" (ad_SchemaRef x) ++
             omit_object "metadata" v10)).

Definition artifact_manifest_fields : Struct ArtifactManifest :=
  [("schema", into_string (λ x '(mkManifest _ a1 a2 a3 a4 a5 a6 a7 a8 a9), mkManifest x a1 a2 a3 a4 a5 a6 a7 a8 a9));
   ("run_id", into_string (λ x '(mkManifest a0 _ a2 a3 a4 a5 a6 a7 a8 a9), mkManifest a0 x a2 a3 a4 a5 a6 a7 a8 a9));
   ("stage_index", into_pointer int_item (λ x '(mkManifest a0 a1 _ a3 a4 a5 a6 a7 a8 a9), mkManifest a0 a1 x a3 a4 a5 a6 a7 a8 a9));
   ("step_index", into_pointer int_item (λ x '(mkManifest a0 a1 a2 _ a4 a5 a6 a7 a8 a9), mkManifest a0 a1 a2 x a4 a5 a6 a7 a8 a9));
   ("work_item_id", into_string (λ x '(mkManifest a0 a1 a2 a3 _ a5 a6 a7 a8 a9), mkManifest a0 a1 a2 a3 x a5 a6 a7 a8 a9));
   ("attempt_id", into_string (λ x '(mkManifest a0 a1 a2 a3 a4 _ a6 a7 a8 a9), mkManifest a0 a1 a2 a3 a4 x a6 a7 a8 a9));
   ("storage_scope", into_string (λ x '(mkManifest a0 a1 a2 a3 a4 a5 _ a7 a8 a9), mkManifest a0 a1 a2 a3 a4 a5 x a7 a8 a9));
   ("artifacts", into_list decode_artifact (λ x '(mkManifest a0 a1 a2 a3 a4 a5 a6 _ a8 a9), mkManifest a0 a1 a2 a3 a4 a5 a6 x a8 a9));
   ("published_assets", into_list decode_published_asset (λ x '(mkManifest a0 a1 a2 a3 a4 a5 a6 a7 _ a9), mkManifest a0 a1 a2 a3 a4 a5 a6 a7 x a9));
   ("script_output", into_any (λ x '(mkManifest a0 a1 a2 a3 a4 a5 a6 a7 a8 _), mkManifest a0 a1 a2 a3 a4 a5 a6 a7 a8 x))].
Definition decode_artifact_manifest : JSON → result ArtifactManifest :=
  decode_struct false artifact_manifest_fields (mkManifest "" "" None None "" "" "" [] [] PNil).
Definition encode_artifact_manifest (x : ArtifactManifest) : result JSON :=
  v7 ← encode_list encode_artifact (af_Artifacts x);
  v8 ← encode_list encode_published_asset (af_PublishedAssets x);
  v9 ← encode_any (af_ScriptOutput x);
  Ok (JObject (field "schema" (JString (af_Schema x)) ++
             omit_string "run_id" (af_RunID x) ++
             omit_nil "stage_index" (JInt <$> af_StageIndex x) ++
             omit_nil "step_index" (JInt <$> af_StepIndex x) ++
             omit_string "work_item_id" (af_WorkItemID x) ++
             omit_string "attempt_id" (af_AttemptID x) ++
             field "storage_scope" (JString (af_StorageScope x)) ++
             field "artifacts" (JArray v7) ++
             omit_list "published_assets" v8 ++
             omit (is_nil (af_ScriptOutput x)) "script_output" v9)).

(** [work_item.go] *)
Definition constraint_fields : Struct WorkItemResourceConstraint :=
  [("work_item_id", into_string (λ x '(mkWorkConstraint _ a1 a2 a3 a4 a5 a6), mkWorkConstraint x a1 a2 a3 a4 a5 a6));
   ("constraint_index", into_int (λ x '(mkWorkConstraint a0 _ a2 a3 a4 a5 a6), mkWorkConstraint a0 x a2 a3 a4 a5 a6));
   ("resource_key", into_string (λ x '(mkWorkConstraint a0 a1 _ a3 a4 a5 a6), mkWorkConstraint a0 a1 x a3 a4 a5 a6));
   ("requested_units", into_int (λ x '(mkWorkConstraint a0 a1 a2 _ a4 a5 a6), mkWorkConstraint a0 a1 a2 x a4 a5 a6));
   ("operator", into_string (λ x '(mkWorkConstraint a0 a1 a2 a3 _ a5 a6), mkWorkConstraint a0 a1 a2 a3 x a5 a6));
   ("target_units", into_int (λ x '(mkWorkConstraint a0 a1 a2 a3 a4 _ a6), mkWorkConstraint a0 a1 a2 a3 a4 x a6));
   ("created_at", into_string (λ x '(mkWorkConstraint a0 a1 a2 a3 a4 a5 _), mkWorkConstraint a0 a1 a2 a3 a4 a5 x))].
Definition decode_constraint : JSON → result WorkItemResourceConstraint :=
  decode_struct false constraint_fields (mkWorkConstraint "" 0 "" 0 "" 0 "").
Definition encode_constraint (x : WorkItemResourceConstraint) : result JSON :=
  Ok (JObject (field "work_item_id" (JString (wc_WorkItemID x)) ++
             field "constraint_index" (JInt (wc_ConstraintIndex x)) ++
             field "resource_key" (JString (wc_ResourceKey x)) ++
             field "requested_units" (JInt (wc_RequestedUnits x)) ++
             field "operator" (JString (wc_Operator x)) ++
             field "target_units" (JInt (wc_TargetUnits x)) ++
             field "created_at" (JString (wc_CreatedAt x)))).

Definition commit_source_fields : Struct CommitDataSource :=
  [("from_work_item_id", into_string (λ x '(mkCommitSource _ a1), mkCommitSource x a1));
   ("from_artifact", into_string (λ x '(mkCommitSource a0 _), mkCommitSource a0 x))].
Definition decode_commit_source : JSON → result CommitDataSource :=
  decode_struct false commit_source_fields (mkCommitSource "" "").
Definition encode_commit_source (x : CommitDataSource) : result JSON :=
  Ok (JObject (field "from_work_item_id" (JString (cs_FromWorkItemID x)) ++
             field "from_artifact" (JString (cs_FromArtifact x)))).

Definition commit_payload_fields : Struct CommitDataWorkItemPayload :=
  [("operator", into_string (λ x '(mkCommitPayload _ a1 a2 a3 a4), mkCommitPayload x a1 a2 a3 a4));
   ("target_environment_id", into_string (λ x '(mkCommitPayload a0 _ a2 a3 a4), mkCommitPayload a0 x a2 a3 a4));
   ("source", into_struct false commit_source_fields cp_Source (λ x '(mkCommitPayload a0 a1 _ a3 a4), mkCommitPayload a0 a1 x a3 a4));
   ("publish_target", into_struct false bound_target_fields cp_PublishTarget (λ x '(mkCommitPayload a0 a1 a2 _ a4), mkCommitPayload a0 a1 a2 x a4));
   ("resource_constraints", into_list decode_constraint (λ x '(mkCommitPayload a0 a1 a2 a3 _), mkCommitPayload a0 a1 a2 a3 x))].
Definition decode_commit_payload : JSON → result CommitDataWorkItemPayload :=
  decode_struct false commit_payload_fields (mkCommitPayload "" "" (mkCommitSource "" "") (mkBoundTarget "" "" "" "" (mkAssetLocation "" "" "" "" "" "" "") "" [] []) []).
Definition encode_commit_payload (x : CommitDataWorkItemPayload) : result JSON :=
  v2 ← encode_commit_source (cp_Source x);
  v3 ← encode_bound_target (cp_PublishTarget x);
  v4 ← encode_list encode_constraint (cp_ResourceConstraints x);
  Ok (JObject (field "operator" (JString (cp_Operator x)) ++
             field "target_environment_id" (JString (cp_TargetEnvironmentID x)) ++
             field "source" v2 ++
             field "publish_target" v3 ++
             omit_list "resource_constraints" v4)).

Definition transfer_limits_fields : Struct DataAssetTransferLimits :=
  [("max_bytes_per_second", into_int (λ x '(mkTransferLimits _), mkTransferLimits x))].
Definition decode_transfer_limits : JSON → result DataAssetTransferLimits :=
  decode_struct false transfer_limits_fields (mkTransferLimits 0).
Definition encode_transfer_limits (x : DataAssetTransferLimits) : result JSON :=
  Ok (JObject (omit_int "max_bytes_per_second" (tl_MaxBytesPerSecond x))).

Definition asset_payload_fields : Struct AssetMaterializeWorkItemPayload :=
  [("operator", into_string (λ x '(mkAssetPayload _ a1 a2 a3 a4 a5 a6 a7 a8 a9 a10 a11 a12 a13 a14 a15 a16 a17 a18 a19 a20 a21), mkAssetPayload x a1 a2 a3 a4 a5 a6 a7 a8 a9 a10 a11 a12 a13 a14 a15 a16 a17 a18 a19 a20 a21));
   ("target_environment_id", into_string (λ x '(mkAssetPayload a0 _ a2 a3 a4 a5 a6 a7 a8 a9 a10 a11 a12 a13 a14 a15 a16 a17 a18 a19 a20 a21), mkAssetPayload a0 x a2 a3 a4 a5 a6 a7 a8 a9 a10 a11 a12 a13 a14 a15 a16 a17 a18 a19 a20 a21));
   ("asset_key", into_string (λ x '(mkAssetPayload a0 a1 _ a3 a4 a5 a6 a7 a8 a9 a10 a11 a12 a13 a14 a15 a16 a17 a18 a19 a20 a21), mkAssetPayload a0 a1 x a3 a4 a5 a6 a7 a8 a9 a10 a11 a12 a13 a14 a15 a16 a17 a18 a19 a20 a21));
   ("dedupe_key", into_string (λ x '(mkAssetPayload a0 a1 a2 _ a4 a5 a6 a7 a8 a9 a10 a11 a12 a13 a14 a15 a16 a17 a18 a19 a20 a21), mkAssetPayload a0 a1 a2 x a4 a5 a6 a7 a8 a9 a10 a11 a12 a13 a14 a15 a16 a17 a18 a19 a20 a21));
   ("binding_name", into_string (λ x '(mkAssetPayload a0 a1 a2 a3 _ a5 a6 a7 a8 a9 a10 a11 a12 a13 a14 a15 a16 a17 a18 a19 a20 a21), mkAssetPayload a0 a1 a2 a3 x a5 a6 a7 a8 a9 a10 a11 a12 a13 a14 a15 a16 a17 a18 a19 a20 a21));
   ("provider_name", into_string (λ x '(mkAssetPayload a0 a1 a2 a3 a4 _ a6 a7 a8 a9 a10 a11 a12 a13 a14 a15 a16 a17 a18 a19 a20 a21), mkAssetPayload a0 a1 a2 a3 a4 x a6 a7 a8 a9 a10 a11 a12 a13 a14 a15 a16 a17 a18 a19 a20 a21));
   ("provider_type", into_string (λ x '(mkAssetPayload a0 a1 a2 a3 a4 a5 _ a7 a8 a9 a10 a11 a12 a13 a14 a15 a16 a17 a18 a19 a20 a21), mkAssetPayload a0 a1 a2 a3 a4 a5 x a7 a8 a9 a10 a11 a12 a13 a14 a15 a16 a17 a18 a19 a20 a21));
   ("kind", into_string (λ x '(mkAssetPayload a0 a1 a2 a3 a4 a5 a6 _ a8 a9 a10 a11 a12 a13 a14 a15 a16 a17 a18 a19 a20 a21), mkAssetPayload a0 a1 a2 a3 a4 a5 a6 x a8 a9 a10 a11 a12 a13 a14 a15 a16 a17 a18 a19 a20 a21));
   ("format", into_string (λ x '(mkAssetPayload a0 a1 a2 a3 a4 a5 a6 a7 _ a9 a10 a11 a12 a13 a14 a15 a16 a17 a18 a19 a20 a21), mkAssetPayload a0 a1 a2 a3 a4 a5 a6 a7 x a9 a10 a11 a12 a13 a14 a15 a16 a17 a18 a19 a20 a21));
   ("resolved_location", into_struct false location_fields ap_ResolvedLocation (λ x '(mkAssetPayload a0 a1 a2 a3 a4 a5 a6 a7 a8 _ a10 a11 a12 a13 a14 a15 a16 a17 a18 a19 a20 a21), mkAssetPayload a0 a1 a2 a3 a4 a5 a6 a7 a8 x a10 a11 a12 a13 a14 a15 a16 a17 a18 a19 a20 a21));
   ("materialization_domain_id", into_string (λ x '(mkAssetPayload a0 a1 a2 a3 a4 a5 a6 a7 a8 a9 _ a11 a12 a13 a14 a15 a16 a17 a18 a19 a20 a21), mkAssetPayload a0 a1 a2 a3 a4 a5 a6 a7 a8 a9 x a11 a12 a13 a14 a15 a16 a17 a18 a19 a20 a21));
   ("destination_relative_path", into_string (λ x '(mkAssetPayload a0 a1 a2 a3 a4 a5 a6 a7 a8 a9 a10 _ a12 a13 a14 a15 a16 a17 a18 a19 a20 a21), mkAssetPayload a0 a1 a2 a3 a4 a5 a6 a7 a8 a9 a10 x a12 a13 a14 a15 a16 a17 a18 a19 a20 a21));
   ("materialization_key", into_string (λ x '(mkAssetPayload a0 a1 a2 a3 a4 a5 a6 a7 a8 a9 a10 a11 _ a13 a14 a15 a16 a17 a18 a19 a20 a21), mkAssetPayload a0 a1 a2 a3 a4 a5 a6 a7 a8 a9 a10 a11 x a13 a14 a15 a16 a17 a18 a19 a20 a21));
   ("collection_member", into_pointer decode_collection_member (λ x '(mkAssetPayload a0 a1 a2 a3 a4 a5 a6 a7 a8 a9 a10 a11 a12 _ a14 a15 a16 a17 a18 a19 a20 a21), mkAssetPayload a0 a1 a2 a3 a4 a5 a6 a7 a8 a9 a10 a11 a12 x a14 a15 a16 a17 a18 a19 a20 a21));
   ("cache", into_struct false cache_fields ap_Cache (λ x '(mkAssetPayload a0 a1 a2 a3 a4 a5 a6 a7 a8 a9 a10 a11 a12 a13 _ a15 a16 a17 a18 a19 a20 a21), mkAssetPayload a0 a1 a2 a3 a4 a5 a6 a7 a8 a9 a10 a11 a12 a13 x a15 a16 a17 a18 a19 a20 a21));
   ("integrity", into_struct false integrity_fields ap_Integrity (λ x '(mkAssetPayload a0 a1 a2 a3 a4 a5 a6 a7 a8 a9 a10 a11 a12 a13 a14 _ a16 a17 a18 a19 a20 a21), mkAssetPayload a0 a1 a2 a3 a4 a5 a6 a7 a8 a9 a10 a11 a12 a13 a14 x a16 a17 a18 a19 a20 a21));
   ("archive", into_pointer decode_archive (λ x '(mkAssetPayload a0 a1 a2 a3 a4 a5 a6 a7 a8 a9 a10 a11 a12 a13 a14 a15 _ a17 a18 a19 a20 a21), mkAssetPayload a0 a1 a2 a3 a4 a5 a6 a7 a8 a9 a10 a11 a12 a13 a14 a15 x a17 a18 a19 a20 a21));
   ("resource_constraints", into_list decode_constraint (λ x '(mkAssetPayload a0 a1 a2 a3 a4 a5 a6 a7 a8 a9 a10 a11 a12 a13 a14 a15 a16 _ a18 a19 a20 a21), mkAssetPayload a0 a1 a2 a3 a4 a5 a6 a7 a8 a9 a10 a11 a12 a13 a14 a15 a16 x a18 a19 a20 a21));
   ("transfer_policy", into_struct false transfer_policy_fields ap_TransferPolicy (λ x '(mkAssetPayload a0 a1 a2 a3 a4 a5 a6 a7 a8 a9 a10 a11 a12 a13 a14 a15 a16 a17 _ a19 a20 a21), mkAssetPayload a0 a1 a2 a3 a4 a5 a6 a7 a8 a9 a10 a11 a12 a13 a14 a15 a16 a17 x a19 a20 a21));
   ("transfer_limits", into_struct false transfer_limits_fields ap_TransferLimits (λ x '(mkAssetPayload a0 a1 a2 a3 a4 a5 a6 a7 a8 a9 a10 a11 a12 a13 a14 a15 a16 a17 a18 _ a20 a21), mkAssetPayload a0 a1 a2 a3 a4 a5 a6 a7 a8 a9 a10 a11 a12 a13 a14 a15 a16 a17 a18 x a20 a21));
   ("parameters", into_metadata (λ x '(mkAssetPayload a0 a1 a2 a3 a4 a5 a6 a7 a8 a9 a10 a11 a12 a13 a14 a15 a16 a17 a18 a19 _ a21), mkAssetPayload a0 a1 a2 a3 a4 a5 a6 a7 a8 a9 a10 a11 a12 a13 a14 a15 a16 a17 a18 a19 x a21));
   ("metadata", into_metadata (λ x '(mkAssetPayload a0 a1 a2 a3 a4 a5 a6 a7 a8 a9 a10 a11 a12 a13 a14 a15 a16 a17 a18 a19 a20 _), mkAssetPayload a0 a1 a2 a3 a4 a5 a6 a7 a8 a9 a10 a11 a12 a13 a14 a15 a16 a17 a18 a19 a20 x))].
Definition decode_asset_payload : JSON → result AssetMaterializeWorkItemPayload :=
  decode_struct false asset_payload_fields (mkAssetPayload "" "" "" "" "" "" "" "" "" (mkAssetLocation "" "" "" "" "" "" "") "" "" "" None (mkCache "" "" None) (mkIntegrity "" None false) None [] (mkTransferPolicy 0 0 0 []) (mkTransferLimits 0) [] []).
Definition encode_asset_payload (x : AssetMaterializeWorkItemPayload) : result JSON :=
  v9 ← encode_location (ap_ResolvedLocation x);
  v13 ← encode_pointer encode_collection_member (ap_CollectionMember x);
  v14 ← encode_cache (ap_Cache x);
  v15 ← encode_integrity (ap_Integrity x);
  v16 ← encode_pointer encode_archive (ap_Archive x);
  v17 ← encode_list encode_constraint (ap_ResourceConstraints x);
  v18 ← encode_transfer_policy (ap_TransferPolicy x);
  v19 ← encode_transfer_limits (ap_TransferLimits x);
  v20 ← encode_fields (ap_Parameters x);
  v21 ← encode_fields (ap_Metadata x);
  Ok (JObject (field "operator" (JString (ap_Operator x)) ++
             field "target_environment_id" (JString (ap_TargetEnvironmentID x)) ++
             field "asset_key" (JString (ap_AssetKey x)) ++
             field "dedupe_key" (JString (ap_DedupeKey x)) ++
             field "binding_name" (JString (ap_BindingName x)) ++
             field "provider_name" (JString (ap_ProviderName x)) ++
             field "provider_type" (JString (ap_ProviderType x)) ++
             field "kind" (JString (ap_Kind x)) ++
             omit_string "format" (ap_Format x) ++
             field "resolved_location" v9 ++
             omit_string "materialization_domain_id" (ap_MaterializationDomainID x) ++
             omit_string "destination_relative_path" (ap_DestinationRelativePath x) ++
             omit_string "materialization_key" (ap_MaterializationKey x) ++
             omit_nil "collection_member" v13 ++
             field "cache" v14 ++
             field "integrity" v15 ++
             omit_nil "archive" v16 ++
             omit_list "resource_constraints" v17 ++
             field "transfer_policy" v18 ++
             field "transfer_limits" v19 ++
             omit_object "parameters" v20 ++
             omit_object "metadata" v21)).

End codec.
