(* ===== verification/DataInstances.v ===== *)
(** * Instances of data assets ([internal/workflow/data_instance.go],
      [asset_materialize_plan.go])

    The values of an asset's parameters, the asset bound to them, and the keys under
    which it is known: the key of an instance, the key of its materialisation and the
    resource that its transfer occupies.  Keys are hashes of canonical JSON.

    How a URL is parsed is left to the standard library: the class [Urls]. *)

From S2P Require Import Prelude GoTime GoJson GoStrings GoPath GoJsonLaws GoSha256 Fingerprint GoJsonStruct.
From S2P Require Import Variables Expression Functions Resolver VariableCodec StoreData Dependency WorkItem WorkItemCodec GoFmt FanOut.
From S2P Require Import DataNames DataCollections DataAssets DataProviders DataDefinitions DataCodec.
Local Open Scope Z_scope.

(** [url.Parse(raw)]: [Hostname()], or [Host] without its port when there is none. *)
Class Urls := url_host : string → result string.
(** The text between the slashes, up to a colon. *)
Definition plain_urls : Urls := λ raw,
  match split_byte "/" raw with
  | _ :: _ :: host :: _ => Ok (match index_byte ":" host with Some i => str_take i host | None => host end)
  | _ => Err (Errorf "missing host")
  end.

Definition defaultTargetEnvironmentID : string := "target-local".

(** ** Canonical keys *)

(** [map[string]any] as an object. *)
Definition marshal_map (l : list (string * JSON)) : JSON := JObject (order_by by_key l).
(** [normalizedCanonicalValue]: encoded and read back with its numbers as texts. *)
Definition normalizedCanonicalValue (value : JSON) : GoValue :=
  match json_document (print value) with Ok decoded => of_json decoded | Err _ => of_json value end.
(** The hash of an identity, with its prefix. *)
Definition identity_key (identity : JSON) : result string :=
  hashed ← CanonicalJSONSHA256 (normalizedCanonicalValue identity);
  Ok ("sha256:" +:+ hashed.2).

Definition archiveExposeMode (archive : option DataAssetArchive) : string :=
  match archive with Some a => ar_Expose a | None => "" end.
Definition pointer_json (v : option JSON) : JSON := default JNull v.
Definition strings_json (l : list string) : JSON := JArray (JString <$> l).

Definition effectiveDataAssetCacheStrategy (asset : BoundDataAsset) : string :=
  if negb (is_empty (ca_Strategy (ba_Cache asset))) then ca_Strategy (ba_Cache asset) else
  if negb (is_empty (am_Strategy (ba_Materialization asset))) then am_Strategy (ba_Materialization asset) else
  if bool_decide (ba_Provider asset ∈ [DataProviderHTTP; DataProviderGDriveRclone]) then DataAssetCacheStrategyWorkerCache else
  if bool_decide (ba_Provider asset ∈ [DataProviderLocalFile; DataProviderRegisteredLocation])
  then DataAssetCacheStrategyReference else "".

Section keys.
Context {unicode : Unicode} {floats : JsonFloats}.

(** A nil map is [null]. *)
Definition parameters_json (parameters : option metadata) : result JSON :=
  match parameters with None => Ok JNull | Some l => JObject <$> encode_fields l end.

Definition dataAssetBindingFingerprint (asset : BoundDataAsset) : result string :=
  location ← encode_location (ba_Location asset);
  integrity ← encode_integrity (ba_Integrity asset);
  cache ← encode_cache (ba_Cache asset);
  archive ← encode_pointer encode_archive (ba_Archive asset);
  materialization ← encode_asset_materialization (ba_Materialization asset);
  transfer ← encode_transfer_policy (ba_TransferPolicy asset);
  identity_key (marshal_map
    [("provider_name", JString (ba_ProviderName asset)); ("provider_type", JString (ba_Provider asset));
     ("kind", JString (ba_Kind asset)); ("format", JString (ba_Format asset)); ("location", location);
     ("integrity", integrity); ("cache", cache); ("archive", pointer_json archive);
     ("materialization", materialization); ("transfer_policy", transfer)]).

Definition CanonicalDataAssetInstanceKey (definitionName : string) (selection : list string) (asset : BoundDataAsset) :
    result string :=
  required_trimmed definitionName "asset definition name is required";;
  BoundAsset_Validate asset;;
  bindingFingerprint ← dataAssetBindingFingerprint asset;
  parameters ← parameters_json (ba_Parameters asset);
  location ← encode_location (ba_Location asset);
  integrity ← encode_integrity (ba_Integrity asset);
  cache ← encode_cache (ba_Cache asset);
  archive ← encode_pointer encode_archive (ba_Archive asset);
  transfer ← encode_transfer_policy (ba_TransferPolicy asset);
  identity_key (marshal_map
    [("asset_definition", JString definitionName); ("resolved_parameters", parameters);
     ("selection", strings_json selection); ("provider_name", JString (ba_ProviderName asset));
     ("provider_type", JString (ba_Provider asset)); ("kind", JString (ba_Kind asset));
     ("format", JString (ba_Format asset)); ("resolved_location", location); ("integrity", integrity); ("cache", cache);
     ("archive_selection", pointer_json archive); ("expose_mode", JString (archiveExposeMode (ba_Archive asset)));
     ("transfer_policy", transfer); ("binding_fingerprint", JString bindingFingerprint);
     ("materialization_scope", JString (am_Scope (ba_Materialization asset)))]).

Definition AssetMaterializeAssetKey (asset : BoundDataAsset) (targetEnvironmentID : string) : result string :=
  BoundAsset_Validate asset;;
  required_trimmed targetEnvironmentID "target_environment_id is required";;
  location ← encode_location (ba_Location asset);
  parameters ← parameters_json (ba_Parameters asset);
  integrity ← encode_integrity (ba_Integrity asset);
  archive ← encode_pointer encode_archive (ba_Archive asset);
  identity_key (marshal_map
    [("provider_type", JString (ba_Provider asset)); ("resolved_source_location", location);
     ("resolved_parameters", parameters); ("cache_strategy", JString (effectiveDataAssetCacheStrategy asset));
     ("cache_key", JString (ca_CacheKey (ba_Cache asset)));
     ("immutable", JBool (EffectiveImmutable (ca_Strategy (ba_Cache asset)) (ca_Immutable (ba_Cache asset))));
     ("integrity_expectations", integrity); ("archive_selection", pointer_json archive);
     ("expose_mode", JString (archiveExposeMode (ba_Archive asset)));
     ("target_environment_id", JString targetEnvironmentID)]).

(** [data_collection.go] *)
Definition MaterializationIdentityKey (sourceAssetKey materializationDomainID destinationRelativePath : string) :
    result string :=
  required_trimmed sourceAssetKey "source asset key is required";;
  required_trimmed materializationDomainID "materialization domain id is required";;
  identity_key (marshal_map
    [("source_asset_key", JString sourceAssetKey); ("materialization_domain_id", JString materializationDomainID);
     ("destination_relative_path", JString destinationRelativePath)]).
End keys.

(** ** Resources *)

(** [strings.ToLower]: beside the ASCII letters, only U+0130 and U+212A have an ASCII
    letter as their lower case. *)
Definition lower_chunk (c : chunk) : string :=
  match c with
  | Asc a => String (lower a) ""
  | Rune e => if (rune_of c =? 304)%N then "i" else if (rune_of c =? 8490)%N then "k" else e
  | Bad a => String a ""
  end.
Definition ToLower (s : string) : string := concat_str (lower_chunk <$> chunks s).
Definition safe_chunk (c : chunk) : bool :=
  match c with
  | Asc a => in_range 97 122 a || in_range 48 57 a || bool_decide (a = "."%char ∨ a = "_"%char ∨ a = "-"%char)
  | _ => false
  end.
(** [ReplaceAllString(text, "-")] for the pattern [[^a-z0-9._-]+]. *)
Fixpoint replace_unsafe (inRun : bool) (l : list chunk) : string :=
  match l with
  | [] => ""
  | c :: l' => if safe_chunk c then chunk_bytes c +:+ replace_unsafe false l'
               else (if inRun then "" else "-") +:+ replace_unsafe true l'
  end.
Fixpoint drop_dashes (s : string) : string :=
  match s with String "-" s' => drop_dashes s' | _ => s end.
Definition sanitizeResourceKeySegment (value : string) : string :=
  let trimmed := TrimSpace (ToLower value) in
  if is_empty trimmed then "unknown" else
  let sanitized := str_rev (drop_dashes (str_rev (drop_dashes (replace_unsafe false (chunks trimmed))))) in
  if is_empty sanitized then "unknown" else sanitized.

Example sanitize_examples :
  sanitizeResourceKeySegment "  My Drive!! (x)" = "my-drive-x" ∧ sanitizeResourceKeySegment "***" = "unknown" ∧
  sanitizeResourceKeySegment "data.EXAMPLE_1.org" = "data.example_1.org".
Proof. vm_compute. done. Qed.

Definition transfer_constraint (key : string) (targetUnits : Z) : WorkItemResourceConstraint :=
  mkWorkConstraint "" 0 key 1 "<=" targetUnits "".

Section resources.
Context {unicode : Unicode} {urls : Urls}.

Definition AssetMaterializeProviderResourceKey (asset : BoundDataAsset) : result string :=
  let provider := ba_Provider asset in
  let location := ba_Location asset in
  if bool_decide (provider = DataProviderHTTP) then
    host ← wrap_err "parse http data asset uri" (url_host (al_URI location));
    Ok ("provider:http:" +:+ sanitizeResourceKeySegment host +:+ "/download")
  else if bool_decide (provider = DataProviderGDriveRclone) then
    Ok ("provider:gdrive-rclone:" +:+ sanitizeResourceKeySegment (al_Remote location) +:+ "/download")
  else if bool_decide (provider = DataProviderLocalFile) then
    Ok ("provider:local-file:" +:+ sanitizeResourceKeySegment (al_LocationName location) +:+ "/read")
  else if bool_decide (provider = DataProviderRegisteredLocation) then
    Ok ("provider:registered-location:" +:+ sanitizeResourceKeySegment (al_LocationName location) +:+ "/read")
  else Err (Errorf ("unsupported data provider " +:+ provider)).

Definition AssetMaterializeResourceConstraints (asset : BoundDataAsset) (targetEnvironmentID : string) :
    result (list WorkItemResourceConstraint) :=
  BoundAsset_Validate asset;;
  required_trimmed targetEnvironmentID "target_environment_id is required";;
  sourceKey ← AssetMaterializeProviderResourceKey asset;
  let units := tp_MaxConcurrentSourceTransfers (ba_TransferPolicy asset) in
  Ok [transfer_constraint sourceKey (if units =? 0 then 1 else units)].

Definition CommitDataResourceConstraints (target : BoundPublishTarget) (targetEnvironmentID : string) :
    result (list WorkItemResourceConstraint) :=
  BoundTarget_Validate target;;
  required_trimmed targetEnvironmentID "target_environment_id is required";;
  let location := bt_Location target in
  resourceKey ←
    (if bool_decide (al_Type location = DataProviderRegisteredLocation) then
       Ok ("target:" +:+ sanitizeResourceKeySegment targetEnvironmentID +:+ "/published-data-write:" +:+
           sanitizeResourceKeySegment (al_LocationName location))
     else if bool_decide (al_Type location = DataProviderGDriveRclone) then
       Ok ("provider:gdrive-rclone:" +:+ sanitizeResourceKeySegment (al_Remote location) +:+ "/upload")
     else Err (Errorf ("unsupported commit_data publish target location type " +:+ al_Type location)));
  Ok [transfer_constraint resourceKey 1].

Definition AssetMaterializePayload (asset : BoundDataAsset) (targetEnvironmentID assetKey : string) :
    result (AssetMaterializeWorkItemPayload * list WorkItemResourceConstraint) :=
  constraints ← AssetMaterializeResourceConstraints asset targetEnvironmentID;
  let rate := tp_MaxBytesPerSecond (ba_TransferPolicy asset) in
  Ok (mkAssetPayload WorkItemTypeAssetMaterialize targetEnvironmentID assetKey
        ("asset_materialize:" +:+ targetEnvironmentID +:+ ":" +:+ assetKey) (ba_BindingName asset) (ba_ProviderName asset)
        (ba_Provider asset) (ba_Kind asset) (ba_Format asset) (ba_Location asset) "" "" "" None (ba_Cache asset)
        (ba_Integrity asset) (ba_Archive asset) constraints (ba_TransferPolicy asset)
        (mkTransferLimits (if 0 <? rate then rate else 0)) (default [] (ba_Parameters asset)) (ba_Metadata asset),
      constraints).
End resources.

(** ** Parameters *)

Definition any_of_scalar (v : scalar) : any :=
  match v with
  | VNil => PNil
  | VString s => PString s
  | VInt z => PInt z
  | VBool b => PBool b
  | VTime t => PTime t
  end.
Definition resolvedValueMapAny (values : gmap string ResolvedValue) : metadata :=
  (λ nv, (nv.1, any_of_scalar (rv_Value nv.2))) <$> map_to_list values.

Definition wholeReferenceExpressionText (expression : string) : option string :=
  if has_prefix "\${" expression then None else
  if negb (has_prefix "${" expression) || negb (has_suffix "}" expression) then None else
  let referenceText := TrimSpace (trim_suffix "}" (trim_prefix "${" expression)) in
  if is_empty referenceText || contains "${" referenceText || contains_any "{}" referenceText then None
  else Some referenceText.

Definition scalar_value (ty : VType) (v : scalar) : ResolvedValue := mkRV ty v [] [] false "" "" None.
Definition asset_parameter_literal (ty : VType) (e : expr) : result ResolvedValue :=
  if bool_decide (ty = TypeString ∨ ty = TypePath) then
    match e with
    | EString text => Ok (scalar_value ty (VString text))
    | _ => Err (Errorf (ty +:+ " expression must be a string"))
    end
  else if bool_decide (ty = TypeInt) then
    match e with
    | EInt z => Ok (scalar_value TypeInt (VInt z))
    | _ => Err (Errorf "int expression must be an int or whole-value reference")
    end
  else if bool_decide (ty = TypeBool) then
    match e with
    | EBool b => Ok (scalar_value TypeBool (VBool b))
    | _ => Err (Errorf "bool expression must be a bool or whole-value reference")
    end
  else Err (Errorf ("asset parameter has type " +:+ ty +:+ ", want scalar")).
Definition resolveAssetParameterValue (resolver : Resolver) (context : FanOutItemContext) (expression : TypedExpression) :
    result ResolvedValue :=
  let '(mkTE ty e) := expression in
  match (match e with EString text => wholeReferenceExpressionText text | _ => None end) with
  | Some referenceText => fst <$> FanOutItemContext_Resolve context resolver referenceText
  | None => asset_parameter_literal ty e
  end.

Definition assetParameterAny (value : ResolvedValue) : result any :=
  let ty := rv_Type value in
  if bool_decide (ty = TypeString ∨ ty = TypePath) then
    match rv_Value value with VString s => Ok (PString s) | _ => Err (Errorf "invalid string value") end
  else if bool_decide (ty = TypeInt) then
    match rv_Value value with VInt z => Ok (PInt z) | _ => Err (Errorf "invalid int value") end
  else if bool_decide (ty = TypeBool) then
    match rv_Value value with VBool b => Ok (PBool b) | _ => Err (Errorf "invalid bool value") end
  else Err (Errorf ("has type " +:+ ty +:+ ", want scalar")).

Definition validateAssetParameterType (name : string) (definition : DataParameterDefinition) (value : ResolvedValue) :
    result unit :=
  let ty := rv_Type value in
  let wrong want := Errorf ("asset parameter " +:+ name +:+ " has type " +:+ ty +:+ ", want " +:+ want) in
  let declared := pd_Type definition in
  if bool_decide (declared = "") then Ok tt else
  if bool_decide (declared = "string") then fail_if (negb (bool_decide (ty = TypeString ∨ ty = TypePath))) (wrong "string") else
  if bool_decide (declared = "int") then fail_if (negb (bool_decide (ty = TypeInt))) (wrong "int") else
  if bool_decide (declared = "bool") then fail_if (negb (bool_decide (ty = TypeBool))) (wrong "bool")
  else Err (Errorf ("asset parameter " +:+ name +:+ " has unsupported declared type " +:+ declared)).

(** The two loops that compare the names; [label] is "asset" or "output". *)
Definition check_parameter_names {A B} (label : string) (declared : gmap string A) (bindings : gmap string B) : result unit :=
  for_each (λ nv, fail_if (negb (bool_decide (is_Some (bindings !! nv.1))))
                    (Errorf ("missing " +:+ label +:+ " parameter " +:+ nv.1))) (map_to_list declared);;
  for_each (λ nv, fail_if (negb (bool_decide (is_Some (declared !! nv.1))))
                    (Errorf ("unknown " +:+ label +:+ " parameter " +:+ nv.1))) (map_to_list bindings).
Definition resolve_named_parameter (label : string) (resolver : Resolver) (context : FanOutItemContext)
    (declared : parameter_definitions) (name : string) (expression : TypedExpression) : result any :=
  resolved ← wrap_err (label +:+ " parameter " +:+ name) (resolveAssetParameterValue resolver context expression);
  value ← wrap_err (label +:+ " parameter " +:+ name) (assetParameterAny resolved);
  validateAssetParameterType name (default (mkParameterDefinition "") (declared !! name)) resolved;;
  Ok value.
Definition resolveAssetParameters (resolver : Resolver) (context : FanOutItemContext) (definition : DataInputDefinition)
    (bindings : gmap string TypedExpression) : result metadata :=
  check_parameter_names "asset" (di_Parameters definition) bindings;;
  traverse_fields (resolve_named_parameter "asset" resolver context (di_Parameters definition))
    (order_by by_key (map_to_list bindings)).

(** ** Instances *)

Record DataAssetInstance := mkInstance {
  dn_DefinitionName : string; dn_Selection : list string; dn_Parameters : metadata; dn_BoundAsset : BoundDataAsset;
  dn_AssetKey : string; dn_Diagnostic : string }.

Definition set_ba_DefinitionName (name : string) (a : BoundDataAsset) : BoundDataAsset :=
  mkBoundAsset name (ba_BindingName a) (ba_ProviderName a) (ba_Kind a) (ba_Format a) (ba_Provider a) (ba_Location a)
    (ba_Integrity a) (ba_Cache a) (ba_Archive a) (ba_Materialization a) (ba_TransferPolicy a) (ba_Parameters a) (ba_Metadata a).
Definition set_ba_BindingName (name : string) (a : BoundDataAsset) : BoundDataAsset :=
  mkBoundAsset (ba_DefinitionName a) name (ba_ProviderName a) (ba_Kind a) (ba_Format a) (ba_Provider a) (ba_Location a)
    (ba_Integrity a) (ba_Cache a) (ba_Archive a) (ba_Materialization a) (ba_TransferPolicy a) (ba_Parameters a) (ba_Metadata a).
Definition set_ba_PathTemplate (path : string) (a : BoundDataAsset) : BoundDataAsset :=
  mkBoundAsset (ba_DefinitionName a) (ba_BindingName a) (ba_ProviderName a) (ba_Kind a) (ba_Format a) (ba_Provider a)
    (ba_Location a) (ba_Integrity a) (ba_Cache a) (ba_Archive a)
    (mkAssetMaterialization (am_Scope (ba_Materialization a)) (am_Strategy (ba_Materialization a)) path)
    (ba_TransferPolicy a) (ba_Parameters a) (ba_Metadata a).

Section instances.
Context {unicode : Unicode} {formats : Formats} {floats : JsonFloats}.

Definition dataAssetDiagnostic (definitionName : string) (selection : list string) (parameters : metadata) : string :=
  let parts := (λ nv, nv.1 +:+ "=" +:+ Sprint nv.2) <$> order_by by_key parameters in
  let parts := match selection with [] => parts | _ => parts ++ ["select=" +:+ str_join "," selection] end in
  definitionName +:+ "[" +:+ str_join ";" parts +:+ "]".

(** [data_collection.go] *)
Definition concreteDestinationRelativePathFromParameters (definition : DataInputDefinition) (parameters : metadata) :
    result string :=
  let template := am_PathTemplate (ib_Materialization (di_Binding definition)) in
  if is_empty template then Ok "" else
  output ← NormalizeMaterializationOutputPathTemplate template parameters;
  fail_if (negb (bool_decide (output.2 = [])))
    (Errorf ("destination path has unresolved placeholders [" +:+ str_join " " output.2 +:+ "]"));;
  wrap_err "destination path" (ValidateArtifactRelativePath output.1);;
  Ok output.1.

Definition instantiateDataAssetWithContext (resolver : Resolver) (context : FanOutItemContext) (definitionName : string)
    (definition : DataInputDefinition) (selection : list string) (bindings : gmap string TypedExpression) :
    result DataAssetInstance :=
  parameters ← resolveAssetParameters resolver context definition bindings;
  effectiveSelection ← EffectiveSelection definition selection;
  asset ← BoundInputAssetWithSelection definition definitionName effectiveSelection parameters;
  let asset := set_ba_DefinitionName definitionName asset in
  key ← CanonicalDataAssetInstanceKey definitionName effectiveSelection asset;
  destination ← concreteDestinationRelativePathFromParameters definition parameters;
  let asset := if is_empty destination then asset else set_ba_PathTemplate destination asset in
  Ok (mkInstance definitionName effectiveSelection parameters asset key
        (dataAssetDiagnostic definitionName effectiveSelection parameters)).
Definition InstantiateDataAsset (resolver : Resolver) (fanOutValue : ResolvedValue) (definitionName : string)
    (definition : DataInputDefinition) (selection : list string) (bindings : gmap string TypedExpression) :
    result DataAssetInstance :=
  instantiateDataAssetWithContext resolver (mkFanContext "" 0 fanOutValue) definitionName definition selection bindings.
End instances.
