(* ===== verification/ExplicitData.v ===== *)
(** * Compiling data operators ([internal/workflow/data_collection.go],
      [explicit_data_inputs.go], [explicit_asset_materialize.go], [explicit_commit_data.go])

    The plan of a collection of assets, and what the operators add to a work item: the
    assets that a compute step reads, the payload that materialises an asset (one item
    per member of a collection), and the payload that publishes an artifact.  They are
    the instance [data_operators] of the interface that [FanOut] is proved against.

    A range whose expansion never ends ([DataLaws]) is an error here: the process
    it stands for runs until its memory is exhausted. *)

From S2P Require Import Prelude GoTime GoJson GoStrings GoPath GoJsonLaws GoSha256 Fingerprint GoJsonStruct.
From S2P Require Import Variables Expression Functions Resolver VariableCodec StoreData Dependency WorkItem WorkItemCodec GoFmt FanOut.
From S2P Require Import DataNames DataCollections DataAssets DataProviders DataDefinitions DataCodec DataInstances.
Local Open Scope Z_scope.

(** ** The plan of a collection *)

Record DataAssetCollectionMember := mkPlanMember {
  dm_Index : Z; dm_Bindings : gmap string ResolvedValue; dm_Instance : DataAssetInstance;
  dm_DestinationRelativePath : string; dm_MaterializationKey : string }.
Record DataAssetCollectionPlan := mkCollectionPlan {
  cq_Asset : string; cq_MaterializationDomain : string; cq_DimensionOrder : list string;
  cq_Dimensions : gmap string (list ResolvedValue); cq_FixedParameters : gmap string ResolvedValue;
  cq_Selection : list string; cq_PathTemplate : string; cq_CollectionFingerprint : string;
  cq_Members : list DataAssetCollectionMember }.

Definition collectionDimensionNames (collection : option DataAssetCollectionDefinition) : list string :=
  match collection with Some c => cd_Parameter <$> cl_Dimensions c | None => [] end.

Definition resolveFixedAssetParameters (resolver : Resolver) (context : FanOutItemContext) (definition : DataInputDefinition)
    (bindings : gmap string TypedExpression) (dimensions : list string) : result (gmap string ResolvedValue) :=
  for_each (λ nv,
    fail_if (negb (bool_decide (is_Some (di_Parameters definition !! nv.1)))) (Errorf ("unknown asset parameter " +:+ nv.1));;
    fail_if (bool_decide (nv.1 ∈ dimensions))
      (Errorf ("collection dimension parameter " +:+ nv.1 +:+ " cannot be overridden in phase one"))) (map_to_list bindings);;
  foldM (λ fixed np,
    let '(name, parameter) := np in
    if bool_decide (name ∈ dimensions) then Ok fixed else
    match bindings !! name with
    | None => Err (Errorf ("missing asset parameter " +:+ name))
    | Some expression =>
        resolved ← wrap_err ("asset parameter " +:+ name) (resolveAssetParameterValue resolver context expression);
        validateAssetParameterType name parameter resolved;;
        Ok (<[name := resolved]> fixed)
    end) ∅ (order_by by_key (map_to_list (di_Parameters definition))).

Definition resolvedValueFromCollectionValue (parameter : DataParameterDefinition) (value : any) : result ResolvedValue :=
  let ty := pd_Type parameter in
  if bool_decide (ty = "string") then
    match value with PString s => Ok (scalar_value TypeString (VString s)) | _ => Err (Errorf "invalid string value") end
  else if bool_decide (ty = "int") then
    match value with PInt z => Ok (scalar_value TypeInt (VInt z)) | _ => Err (Errorf "invalid int value") end
  else if bool_decide (ty = "bool") then
    match value with PBool b => Ok (scalar_value TypeBool (VBool b)) | _ => Err (Errorf "invalid bool value") end
  else Err (Errorf ("unsupported parameter type " +:+ ty)).

Definition does_not_end : GoError := Errorf "fatal: the range expansion does not end".
(** As many rounds as the range has integers: if the loop is not done by then, it never is. *)
Definition domain_values (dimension : DataAssetCollectionDimension) (parameter : DataParameterDefinition) :
    result (list any) :=
  let rounds := match cd_Range dimension with Some r => Z.to_nat (rg_Through r - rg_From r + 1) | None => O end in
  default (Err does_not_end) (DomainValues rounds dimension parameter).
Definition dimension_values (definition : DataInputDefinition) (dimension : DataAssetCollectionDimension) :
    result (list ResolvedValue) :=
  let parameter := default (mkParameterDefinition "") (di_Parameters definition !! cd_Parameter dimension) in
  wrap_err ("collection dimension " +:+ cd_Parameter dimension)
    (values ← domain_values dimension parameter;
     traverse_items (λ _ value, resolvedValueFromCollectionValue parameter value) 0 values).
Definition collectionDimensionValues (definition : DataInputDefinition) : result (gmap string (list ResolvedValue)) :=
  match di_Collection definition with
  | None => Ok ∅
  | Some collection =>
      foldM (λ dimensions dimension,
        values ← dimension_values definition dimension;
        let name := cd_Parameter dimension in
        Ok (<[name := default [] (dimensions !! name) ++ values]> dimensions)) ∅ (cl_Dimensions collection)
  end.

(** The tuples of values, the last dimension running fastest. *)
Fixpoint expand_members (order : list string) (dimensions : gmap string (list ResolvedValue))
    (fixed current : gmap string ResolvedValue) : list (gmap string ResolvedValue) :=
  match order with
  | [] => [fixed ∪ current]
  | name :: rest => default [] (dimensions !! name) ≫= λ value, expand_members rest dimensions fixed (<[name := value]> current)
  end.
Definition expandedMemberBindings (order : list string) (dimensions : gmap string (list ResolvedValue))
    (fixed : gmap string ResolvedValue) : list (gmap string ResolvedValue) :=
  expand_members order dimensions fixed ∅.

(** A value as an expression. *)
Definition typed_expression (value : ResolvedValue) : TypedExpression :=
  mkTE (rv_Type value)
    (match rv_Value value with
     | VNil => ENil
     | VString s => EString s
     | VInt z => EInt z
     | VBool b => EBool b
     | VTime t => ETime t
     end).
Definition typedExpressionsFromResolved (values : gmap string ResolvedValue) : gmap string TypedExpression :=
  typed_expression <$> values.

Section plan.
Context {unicode : Unicode} {formats : Formats} {floats : JsonFloats}.

Definition resolvedBindingFingerprint (bindings : gmap string ResolvedValue) : result string :=
  fields ← encode_fields (resolvedValueMapAny bindings);
  identity_key (JObject fields).

Definition CollectionFingerprint (plan : DataAssetCollectionPlan) : result string :=
  let order := cq_DimensionOrder plan in
  dimensions ← encode_entries (λ values, JArray <$> encode_list encode_any ((any_of_scalar ∘ rv_Value) <$> values))
    (map_to_list (list_to_map ((λ name, (name, default [] (cq_Dimensions plan !! name))) <$> order) : gmap string _));
  fixed ← encode_fields (resolvedValueMapAny (cq_FixedParameters plan));
  identity_key (marshal_map
    [("asset_definition", JString (cq_Asset plan)); ("dimension_order", strings_json order);
     ("dimensions", JObject dimensions); ("fixed_parameters", JObject fixed);
     ("selection", strings_json (cq_Selection plan)); ("path_template", JString (cq_PathTemplate plan));
     ("materialization_domain_id", JString (cq_MaterializationDomain plan))]).

Definition concreteDestinationRelativePath (definition : DataInputDefinition) (bindings : gmap string ResolvedValue) :
    result string :=
  concreteDestinationRelativePathFromParameters definition (resolvedValueMapAny bindings).
Definition collectionPlanPathTemplate (definition : DataInputDefinition) (fixed : gmap string ResolvedValue) :
    result string :=
  match di_Collection definition with
  | None => Ok (am_PathTemplate (ib_Materialization (di_Binding definition)))
  | Some _ => fst <$> CollectionOutputPathTemplate definition (resolvedValueMapAny fixed)
  end.

(** The variables of the loop over the members: [seenDestinations] with the key of the
    asset that a destination belongs to. *)
Record planning := mkPlanning {
  pg_seenTuples : gset string; pg_seenDestinations : gmap string string; pg_members : list DataAssetCollectionMember }.
Definition plan_member (resolver : Resolver) (context : FanOutItemContext) (definitionName : string)
    (definition : DataInputDefinition) (selection : list string) (domain : string) (st : planning)
    (ib : nat * gmap string ResolvedValue) : result planning :=
  let '(index, binding) := ib in
  let at_ := "collection member " +:+ pretty index in
  tupleKey ← resolvedBindingFingerprint binding;
  fail_if (bool_decide (tupleKey ∈ pg_seenTuples st))
    (Errorf ("duplicate collection member tuple at index " +:+ pretty index));;
  instance ← wrap_err at_ (instantiateDataAssetWithContext resolver context definitionName definition selection
                             (typedExpressionsFromResolved binding));
  destination ← wrap_err at_ (concreteDestinationRelativePath definition binding);
  key ← wrap_err at_ (MaterializationIdentityKey (dn_AssetKey instance) domain destination);
  (match pg_seenDestinations st !! destination with
   | Some previous =>
       if is_empty destination then Ok tt else
       if negb (bool_decide (previous = dn_AssetKey instance)) then
         Err (Errorf ("destination " +:+ destination +:+ " collision: source asset keys " +:+ previous +:+ " and " +:+
                      dn_AssetKey instance))
       else Err (Errorf ("destination " +:+ destination +:+ " is produced by multiple collection members"))
   | None => Ok tt
   end);;
  Ok (mkPlanning ({[tupleKey]} ∪ pg_seenTuples st) (<[destination := dn_AssetKey instance]> (pg_seenDestinations st))
        (pg_members st ++ [mkPlanMember (Z.of_nat index) binding instance destination key])).

Definition PlanDataAssetCollection (resolver : Resolver) (context : FanOutItemContext) (definitionName : string)
    (definition : DataInputDefinition) (selection : list string) (bindings : gmap string TypedExpression)
    (materializationDomainID : string) : result DataAssetCollectionPlan :=
  required_trimmed materializationDomainID "materialization domain id is required";;
  effectiveSelection ← EffectiveSelection definition selection;
  let order := collectionDimensionNames (di_Collection definition) in
  fixed ← resolveFixedAssetParameters resolver context definition bindings order;
  dimensions ← collectionDimensionValues definition;
  pathTemplate ← collectionPlanPathTemplate definition fixed;
  let plan fingerprint members :=
    mkCollectionPlan definitionName materializationDomainID order dimensions fixed effectiveSelection pathTemplate
      fingerprint members in
  fingerprint ← CollectionFingerprint (plan "" []);
  st ← foldM (plan_member resolver context definitionName definition effectiveSelection materializationDomainID)
         (mkPlanning ∅ ∅ []) (indexed 0 (expandedMemberBindings order dimensions fixed));
  Ok (plan fingerprint (pg_members st)).
End plan.

(** ** Templates and payloads *)

Record DataInputTemplate := mkDataInput {
  xi_Definitions : DataDefinitions; xi_Alias : string; xi_Asset : string; xi_Selection : list string;
  xi_With : gmap string TypedExpression }.
Record AssetMaterializeTemplate := mkMaterializeTemplate {
  xm_Definitions : DataDefinitions; xm_Alias : string; xm_Asset : string; xm_Selection : list string;
  xm_With : gmap string TypedExpression }.
Record CommitDataTemplate := mkCommitTemplate {
  xc_Definitions : DataDefinitions; xc_Alias : string; xc_Target : string; xc_FromStep : string; xc_FromArtifact : string;
  xc_With : gmap string TypedExpression }.

(** The structs that the operators put into parameters. *)
Inductive OperatorPayload :=
  | OpAsset (payload : AssetMaterializeWorkItemPayload)
  | OpCommit (payload : CommitDataWorkItemPayload)
  | OpAssets (assets : list BoundDataAsset).
#[export] Instance operator_payload_JSON {floats : JsonFloats} : PayloadJSON OperatorPayload := λ p,
  match p with
  | OpAsset payload => encode_asset_payload payload
  | OpCommit payload => encode_commit_payload payload
  | OpAssets assets => JArray <$> encode_list encode_bound_asset assets
  end.

Notation OperatorItem := (WorkItem OperatorPayload).
Definition plain_parameter {Payload} (ty : string) (v : PValue Payload) : WorkParameter Payload :=
  mkParameter ty v false "" None None.
Definition set_parameters {Payload} (entries : list (string * WorkParameter Payload)) (i : WorkItem Payload) :
    WorkItem Payload :=
  set_w_Parameters (Some (foldl (λ p e, <[e.1 := e.2]> p) (parameter_map (w_Parameters i)) entries)) i.
Definition set_w_DependsOn {Payload} (dependsOn : list string) (i : WorkItem Payload) : WorkItem Payload :=
  mkItem (w_ID i) (w_AttemptID i) (w_Type i) (w_Source i) (w_OutputFilename i) (w_Parameters i) (w_ExecutionEnvelope i)
    dependsOn (w_ReuseCandidates i) (w_WorkflowDefinitionID i) (w_WorkflowFingerprint i) (w_WorkflowInstanceID i)
    (w_StepDefinitionID i) (w_StepFingerprint i) (w_StepInstanceID i) (w_WorkItemFingerprint i) (w_InputFingerprint i)
    (w_OutputFingerprint i) (w_CodeVersion i).
Definition set_names {Payload} (id output : string) (i : WorkItem Payload) : WorkItem Payload :=
  mkItem id (w_AttemptID i) (w_Type i) (w_Source i) output (w_Parameters i) (w_ExecutionEnvelope i)
    (w_DependsOn i) (w_ReuseCandidates i) (w_WorkflowDefinitionID i) (w_WorkflowFingerprint i) (w_WorkflowInstanceID i)
    (w_StepDefinitionID i) (w_StepFingerprint i) (w_StepInstanceID i) (w_WorkItemFingerprint i) (w_InputFingerprint i)
    (w_OutputFingerprint i) (w_CodeVersion i).

Definition targetEnvironmentIDFromParameters {Payload} (parameters : Parameters Payload) : result string :=
  match parameter_map parameters !! "target_environment_id" with
  | None => Ok defaultTargetEnvironmentID
  | Some parameter =>
      fail_if (negb (bool_decide (pa_Type parameter = "string")))
        (Errorf ("parameter target_environment_id has type " +:+ pa_Type parameter +:+ ", want string"));;
      match pa_Value parameter with
      | PString value =>
          fail_if (is_empty (TrimSpace value)) (Errorf "parameter target_environment_id value must be a non-empty string");;
          fail_if (negb (bool_decide (TrimSpace value = value)))
            (Errorf "parameter target_environment_id must not contain leading or trailing whitespace");;
          Ok value
      | _ => Err (Errorf "parameter target_environment_id value must be a non-empty string")
      end
  end.
(** [rejectAssetMaterializeComputeParameters] and [rejectCommitDataComputeParameters] *)
Definition reject_compute_parameters {Payload} (step : string) (parameters : Parameters Payload) : result unit :=
  for_each (λ np, fail_if (negb (bool_decide (np.1 = "target_environment_id")))
                    (Errorf (step +:+ " step does not accept work parameter " +:+ np.1))) (map_to_list (parameter_map parameters)).
(** [constraints[index].WorkItemID = id; constraints[index].ConstraintIndex = index] *)
Definition number_constraints (id : string) (constraints : list WorkItemResourceConstraint) : list WorkItemResourceConstraint :=
  imap (λ index c, mkWorkConstraint id (Z.of_nat index) (wc_ResourceKey c) (wc_RequestedUnits c) (wc_Operator c)
                     (wc_TargetUnits c) (wc_CreatedAt c)) constraints.
Definition set_ap_ResourceConstraints (constraints : list WorkItemResourceConstraint) (p : AssetMaterializeWorkItemPayload) :
    AssetMaterializeWorkItemPayload :=
  mkAssetPayload (ap_Operator p) (ap_TargetEnvironmentID p) (ap_AssetKey p) (ap_DedupeKey p) (ap_BindingName p)
    (ap_ProviderName p) (ap_ProviderType p) (ap_Kind p) (ap_Format p) (ap_ResolvedLocation p) (ap_MaterializationDomainID p)
    (ap_DestinationRelativePath p) (ap_MaterializationKey p) (ap_CollectionMember p) (ap_Cache p) (ap_Integrity p)
    (ap_Archive p) constraints (ap_TransferPolicy p) (ap_TransferLimits p) (ap_Parameters p) (ap_Metadata p).
(** The fields that a planned member adds to its payload. *)
Definition member_payload (domain : string) (member : DataAssetCollectionMember)
    (collection : option MaterializedDataAssetCollectionMember) (p : AssetMaterializeWorkItemPayload) :
    AssetMaterializeWorkItemPayload :=
  mkAssetPayload (ap_Operator p) (ap_TargetEnvironmentID p) (ap_AssetKey p)
    (if is_empty (dm_MaterializationKey member) then ap_DedupeKey p
     else "asset_materialize:" +:+ domain +:+ ":" +:+ dm_MaterializationKey member)
    (ap_BindingName p) (ap_ProviderName p) (ap_ProviderType p) (ap_Kind p) (ap_Format p) (ap_ResolvedLocation p) domain
    (dm_DestinationRelativePath member) (dm_MaterializationKey member) collection (ap_Cache p) (ap_Integrity p)
    (ap_Archive p) (ap_ResourceConstraints p) (ap_TransferPolicy p) (ap_TransferLimits p) (ap_Parameters p) (ap_Metadata p).

Definition collectionMemberIDToken (order : list string) (bindings : gmap string ResolvedValue) : result string :=
  parts ← traverse_items (λ _ name,
    match bindings !! name with
    | None => Err (Errorf ("missing binding " +:+ name))
    | Some value =>
        token ← wrap_err name (fanOutToken value);
        let part := name +:+ "-" +:+ token in
        validateFanOutRenderedToken part "collection member id";;
        Ok part
    end) 0 order;
  match parts with
  | [] => Ok "scalar"
  | _ => let token := str_join "--" parts in validateFanOutRenderedToken token "collection member id";; Ok token
  end.

Definition appendUniqueString (values : list string) (value : string) : list string :=
  if bool_decide (value ∈ values) then values else values ++ [value].

(** ** The operators *)

Section operators.
Context {unicode : Unicode} {formats : Formats} {floats : JsonFloats} {urls : Urls}.

(** [compileExplicitDataInputs] *)
Definition bind_data_input (resolver : Resolver) (context : FanOutItemContext) (template : DataInputTemplate) :
    result BoundDataAsset :=
  match dd_Inputs (xi_Definitions template) !! xi_Asset template with
  | None => Err (Errorf ("data input " +:+ xi_Asset template +:+ " is not defined"))
  | Some definition =>
      instance ← instantiateDataAssetWithContext resolver context (xi_Asset template) definition (xi_Selection template)
                   (xi_With template);
      Ok (set_ba_BindingName (xi_Alias template) (dn_BoundAsset instance))
  end.
Definition compile_data_inputs (resolver : Resolver) (context : FanOutItemContext) (templates : list DataInputTemplate)
    (item : OperatorItem) : result OperatorItem :=
  match templates with
  | [] => Ok item
  | _ =>
      fail_if (bool_decide (w_Type item = WorkItemTypeAssetMaterialize ∨ w_Type item = WorkItemTypeCommitData))
        (Errorf ("data inputs require compute work, got " +:+ w_Type item));;
      assets ← traverse_items (λ _ template, bind_data_input resolver context template) 0 templates;
      fail_if (bool_decide (is_Some (parameter_map (w_Parameters item) !! "data_assets")))
        (Errorf "data_assets parameter is already set");;
      Ok (set_parameters [("data_assets", plain_parameter "data_assets" (PPayload (OpAssets assets)))] item)
  end.

(** The three parameters of an item that materialises an asset. *)
Definition materialize_parameters (payload : AssetMaterializeWorkItemPayload) (asset : BoundDataAsset)
    (targetEnvironmentID : string) : list (string * WorkParameter OperatorPayload) :=
  [("asset_materialize", plain_parameter "asset_materialize" (PPayload (OpAsset payload)));
   ("data_assets", plain_parameter "data_assets" (PPayload (OpAssets [asset])));
   ("target_environment_id", plain_parameter "string" (PString targetEnvironmentID))].

(** [compileExplicitAssetMaterializeWorkItem] *)
Definition compile_asset_materialize (resolver : Resolver) (context : FanOutItemContext)
    (template : option AssetMaterializeTemplate) (item : OperatorItem) :
    result (OperatorItem * list WorkItemResourceConstraint) :=
  match template with
  | None => Ok (item, [])
  | Some template =>
      fail_if (negb (bool_decide (w_Type item = WorkItemTypeAssetMaterialize)))
        (Errorf ("explicit asset materialize requires work item type " +:+ WorkItemTypeAssetMaterialize));;
      reject_compute_parameters WorkItemTypeAssetMaterialize (w_Parameters item);;
      match dd_Inputs (xm_Definitions template) !! xm_Asset template with
      | None => Err (Errorf ("data input " +:+ xm_Asset template +:+ " is not defined"))
      | Some definition =>
          instance ← instantiateDataAssetWithContext resolver context (xm_Asset template) definition (xm_Selection template)
                       (xm_With template);
          let asset := set_ba_BindingName (xm_Alias template) (dn_BoundAsset instance) in
          targetEnvironmentID ← targetEnvironmentIDFromParameters (w_Parameters item);
          built ← AssetMaterializePayload asset targetEnvironmentID (dn_AssetKey instance);
          let constraints := number_constraints (w_ID item) built.2 in
          Ok (set_parameters
                (materialize_parameters (set_ap_ResourceConstraints constraints built.1) asset targetEnvironmentID) item,
              constraints)
      end
  end.

(** [compileExplicitAssetMaterializeMemberWorkItems]: the loop over the members. *)
Record member_items := mkMemberItems {
  mi_items : list (CompiledFanOutWorkItem OperatorPayload); mi_seenIDs : gmap string nat; mi_seenOutputs : gmap string nat }.
Definition collection_member (plan : DataAssetCollectionPlan) (member : DataAssetCollectionMember) :
    MaterializedDataAssetCollectionMember :=
  mkCollectionMember (cq_CollectionFingerprint plan) (dm_Index member) (Z.of_nat (length (cq_Members plan)))
    (cq_DimensionOrder plan) (list_to_map (resolvedValueMapAny (dm_Bindings member))) (dm_DestinationRelativePath member) "".
Definition compile_member (resolver : Resolver) (context : FanOutItemContext) (baseItem : OperatorItem)
    (outputExtension : string) (template : AssetMaterializeTemplate) (declared : list ResourceConstraintDeclaration)
    (isCollection : bool) (domain targetEnvironmentID : string) (plan : DataAssetCollectionPlan) (st : member_items)
    (im : nat * DataAssetCollectionMember) : result member_items :=
  let '(index, member) := im in
  let at_ := "collection member " +:+ pretty index in
  item ← (if isCollection then
            token ← wrap_err (at_ +:+ " id token") (collectionMemberIDToken (cq_DimensionOrder plan) (dm_Bindings member));
            Ok (set_names (w_ID baseItem +:+ "--" +:+ token)
                  (trim_suffix outputExtension (w_OutputFilename baseItem) +:+ "--" +:+ token +:+ outputExtension) baseItem)
          else Ok baseItem);
  let asset := set_ba_BindingName (xm_Alias template) (dn_BoundAsset (dm_Instance member)) in
  built ← wrap_err at_ (AssetMaterializePayload asset targetEnvironmentID (dn_AssetKey (dm_Instance member)));
  let payload := member_payload domain member (if isCollection then Some (collection_member plan member) else None) built.1 in
  wrap_err at_ (AssetPayload_Validate payload);;
  let constraints := number_constraints (w_ID item) built.2 in
  let item := set_parameters
    (materialize_parameters (set_ap_ResourceConstraints constraints payload) asset targetEnvironmentID) item in
  wrap_err at_ (ValidateForWorkflowCompile item);;
  (match mi_seenIDs st !! w_ID item with
   | Some previous => Err (Errorf (at_ +:+ ": duplicate generated work-item id " +:+ w_ID item +:+
                                   " also produced by member " +:+ pretty previous))
   | None => Ok tt
   end);;
  (match mi_seenOutputs st !! w_OutputFilename item with
   | Some previous => Err (Errorf (at_ +:+ ": duplicate output filename " +:+ w_OutputFilename item +:+
                                   " also produced by member " +:+ pretty previous))
   | None => Ok tt
   end);;
  resolvedDeclared ← wrap_err (at_ +:+ " resource constraints")
    (resolveResourceConstraintDeclarations resolver context (w_ID item) declared);
  Ok (mkMemberItems (mi_items st ++ [mkCompiled item (appendExplicitResourceConstraints constraints resolvedDeclared)])
        (<[w_ID item := index]> (mi_seenIDs st)) (<[w_OutputFilename item := index]> (mi_seenOutputs st))).
Definition compile_asset_members (resolver : Resolver) (context : FanOutItemContext) (baseItem : OperatorItem)
    (outputExtension : string) (template : AssetMaterializeTemplate) (declared : list ResourceConstraintDeclaration) :
    result (list (CompiledFanOutWorkItem OperatorPayload)) :=
  fail_if (negb (bool_decide (w_Type baseItem = WorkItemTypeAssetMaterialize)))
    (Errorf ("explicit asset materialize requires work item type " +:+ WorkItemTypeAssetMaterialize));;
  reject_compute_parameters WorkItemTypeAssetMaterialize (w_Parameters baseItem);;
  match dd_Inputs (xm_Definitions template) !! xm_Asset template with
  | None => Err (Errorf ("data input " +:+ xm_Asset template +:+ " is not defined"))
  | Some definition =>
      targetEnvironmentID ← targetEnvironmentIDFromParameters (w_Parameters baseItem);
      domain ← ResolveMaterializationDomain (ib_Materialization (di_Binding definition)) targetEnvironmentID;
      plan ← PlanDataAssetCollection resolver context (xm_Asset template) definition (xm_Selection template)
               (xm_With template) (dom_ID domain);
      st ← foldM (compile_member resolver context baseItem outputExtension template declared
                    (bool_decide (is_Some (di_Collection definition))) (dom_ID domain) targetEnvironmentID plan)
             (mkMemberItems [] ∅ ∅) (indexed 0 (cq_Members plan));
      Ok (mi_items st)
  end.

(** [compileExplicitCommitDataWorkItem] *)
Definition resolveOutputParameters (resolver : Resolver) (context : FanOutItemContext) (definition : DataOutputDefinition)
    (bindings : gmap string TypedExpression) : result metadata :=
  check_parameter_names "output" (do_Parameters definition) bindings;;
  traverse_fields (resolve_named_parameter "output" resolver context (do_Parameters definition)) (map_to_list bindings).
Definition compile_commit_data (resolver : Resolver) (context : FanOutItemContext) (idToken : string)
    (template : option CommitDataTemplate) (item : OperatorItem) : result (OperatorItem * list WorkItemResourceConstraint) :=
  match template with
  | None => Ok (item, [])
  | Some template =>
      fail_if (negb (bool_decide (w_Type item = WorkItemTypeCommitData)))
        (Errorf ("explicit commit data requires work item type " +:+ WorkItemTypeCommitData));;
      reject_compute_parameters WorkItemTypeCommitData (w_Parameters item);;
      match dd_Outputs (xc_Definitions template) !! xc_Target template with
      | None => Err (Errorf ("data output target " +:+ xc_Target template +:+ " is not defined"))
      | Some definition =>
          parameters ← resolveOutputParameters resolver context definition (xc_With template);
          target ← BoundOutputTarget definition (xc_Target template) (xc_FromArtifact template) parameters;
          targetEnvironmentID ← targetEnvironmentIDFromParameters (w_Parameters item);
          built ← CommitDataResourceConstraints target targetEnvironmentID;
          let constraints := number_constraints (w_ID item) built in
          let sourceWorkItemID := xc_FromStep template +:+ "-" +:+ idToken in
          let payload := mkCommitPayload WorkItemTypeCommitData targetEnvironmentID
            (mkCommitSource sourceWorkItemID (xc_FromArtifact template)) target constraints in
          CommitPayload_Validate payload;;
          Ok (set_parameters [("commit_data", plain_parameter "commit_data" (PPayload (OpCommit payload)));
                              ("target_environment_id", plain_parameter "string" (PString targetEnvironmentID))]
                (set_w_DependsOn (appendUniqueString (w_DependsOn item) sourceWorkItemID) item), constraints)
      end
  end.

(** What [fanout.go] needs of the operators. *)
#[export] Instance data_operators : DataOperators := {|
  DataPayload := OperatorPayload;
  ExplicitDataInputTemplate := DataInputTemplate;
  ExplicitAssetMaterializeTemplate := AssetMaterializeTemplate;
  ExplicitCommitDataTemplate := CommitDataTemplate;
  collection_asset template :=
    match dd_Inputs (xm_Definitions template) !! xm_Asset template with
    | Some definition => bool_decide (is_Some (di_Collection definition))
    | None => false
    end;
  asset_dedupe_key payload := match payload with OpAsset p => Some (ap_DedupeKey p) | _ => None end;
  compileExplicitDataInputs := compile_data_inputs;
  compileExplicitAssetMaterializeWorkItem := compile_asset_materialize;
  compileExplicitCommitDataWorkItem := compile_commit_data;
  compileExplicitAssetMaterializeMemberWorkItems := compile_asset_members |}.
End operators.

(** * The members of a planned collection

    A plan has one member for every choice of a value for each dimension, numbered in
    order, and no two members share a destination. *)
Local Open Scope Z_scope.

Definition values_of (dimensions : gmap string (list ResolvedValue)) (name : string) : list ResolvedValue :=
  default [] (dimensions !! name).

(** ** The product *)

Lemma expand_complete order dimensions fixed current (v : string → ResolvedValue) :
  (∀ name, name ∈ order → v name ∈ values_of dimensions name) →
  ∃ c, fixed ∪ c ∈ expand_members order dimensions fixed current ∧ (∀ name, name ∈ order → c !! name = Some (v name)) ∧
    (∀ name, name ∉ order → c !! name = current !! name).
Proof.
  revert current. induction order as [|name rest IH]; intros current Hv; cbn [expand_members].
  { exists current. split_and!; [by left|by intros ? ?%elem_of_nil|done]. }
  destruct (IH (<[name := v name]> current)) as (c & Hin & Hc & Hout); [intros; apply Hv; by right|].
  exists c. split_and!.
  - apply list_elem_of_bind. exists (v name). split; [done|]. apply Hv. by left.
  - intros n [->|Hn]%elem_of_cons; [|by apply Hc]. destruct (decide (name ∈ rest)) as [Hr|Hr]; [by apply Hc|].
    by rewrite Hout, lookup_insert_eq.
  - intros n Hn. rewrite not_elem_of_cons in Hn. rewrite Hout by tauto. rewrite lookup_insert_ne by (intros ->; tauto). done.
Qed.
Lemma expand_sound order dimensions fixed current b :
  b ∈ expand_members order dimensions fixed current →
  ∃ c, b = fixed ∪ c ∧ (∀ name, name ∈ order → ∃ x, x ∈ values_of dimensions name ∧ c !! name = Some x) ∧
    (∀ name, name ∉ order → c !! name = current !! name).
Proof.
  revert current. induction order as [|name rest IH]; intros current Hb; cbn [expand_members] in Hb.
  { apply list_elem_of_singleton in Hb as ->. exists current. split_and!; [done|by intros ? ?%elem_of_nil|done]. }
  apply list_elem_of_bind in Hb as (x & Hb & Hx). apply IH in Hb as (c & -> & Hc & Hout). exists c. split_and!; [done| |].
  - intros n [->|Hn]%elem_of_cons; [|by apply Hc]. destruct (decide (name ∈ rest)) as [Hr|Hr]; [by apply Hc|].
    exists x. split; [done|]. by rewrite Hout, lookup_insert_eq.
  - intros n Hn. rewrite not_elem_of_cons in Hn. rewrite Hout by tauto. rewrite lookup_insert_ne by (intros ->; tauto). done.
Qed.
Lemma expand_length order dimensions fixed current :
  length (expand_members order dimensions fixed current) =
  foldr (λ name n, length (values_of dimensions name) * n)%nat 1%nat order.
Proof.
  revert current. induction order as [|name rest IH]; intros current; cbn [expand_members foldr]; [done|].
  change (default [] (dimensions !! name)) with (values_of dimensions name).
  induction (values_of dimensions name) as [|x l IHl]; [done|]. csimpl. by rewrite length_app, IH, IHl.
Qed.

(** Fixed parameters are not dimensions. *)
Lemma fixed_apart resolver context definition bindings order fixed name :
  resolveFixedAssetParameters resolver context definition bindings order = Ok fixed → name ∈ order → fixed !! name = None.
Proof.
  unfold resolveFixedAssetParameters. intros H Hin. apply bind_Ok in H as ([] & _ & H). revert H.
  apply (foldM_inv (λ m, m !! name = None)); [|apply lookup_empty].
  intros m [n parameter] m' _ Hm H. case_bool_decide as Hd; [congruence|]. case_match; [|done]. result_inv.
  rewrite lookup_insert_ne; [done|]. by intros ->.
Qed.

(** ** The members *)

Section laws.
Context {unicode : Unicode} {formats : Formats} {floats : JsonFloats}.

Definition named_destinations (members : list DataAssetCollectionMember) : list string :=
  List.filter (λ d, negb (is_empty d)) (dm_DestinationRelativePath <$> members).

(** What the loop has done with the tuples so far. *)
Definition planning_ok (tuples : list (gmap string ResolvedValue)) (st : planning) : Prop :=
  dm_Bindings <$> pg_members st = tuples ∧ dm_Index <$> pg_members st = seqZ 0 (Z.of_nat (length tuples)) ∧
  NoDup (named_destinations (pg_members st)) ∧
  (∀ d, d ∈ named_destinations (pg_members st) → is_Some (pg_seenDestinations st !! d)).

Lemma plan_member_ok resolver context name definition selection domain tuples st b st' :
  planning_ok tuples st → plan_member resolver context name definition selection domain st (length tuples, b) = Ok st' →
  planning_ok (tuples ++ [b]) st'.
Proof.
  intros (Hb & Hi & Hdup & Hseen) H. unfold plan_member in H. cbv zeta in H.
  apply bind_Ok in H as (tuple & _ & H). apply bind_Ok in H as ([] & _ & H). apply bind_Ok in H as (inst & _ & H).
  apply bind_Ok in H as (d & _ & H). apply bind_Ok in H as (key & _ & H). apply bind_Ok in H as ([] & Hd & H).
  match type of H with Ok ?x = _ => assert (Hst : st' = x) by congruence end. rewrite Hst. clear H Hst.
  assert (Hfresh : is_empty d = false → d ∉ named_destinations (pg_members st)).
  { intros Hne Hin. destruct (Hseen d Hin) as [k Hk]. rewrite Hk, Hne in Hd. by case_match. }
  unfold planning_ok, named_destinations in *. cbn [pg_members pg_seenDestinations].
  rewrite !fmap_app, Hb, Hi, List.filter_app, length_app. cbn [fmap list_fmap dm_Bindings dm_Index dm_DestinationRelativePath List.filter length].
  split_and!; [done| | |].
  - rewrite Nat2Z.inj_add, seqZ_app by lia. by rewrite Z.add_0_l.
  - destruct (is_empty d); cbn [negb]; [by rewrite app_nil_r|]. apply NoDup_app. split_and!; [done| |apply NoDup_singleton].
    intros x Hx Hx'. apply list_elem_of_singleton in Hx' as ->. by apply Hfresh.
  - intros x [Hx|Hx]%elem_of_app.
    + destruct (decide (x = d)) as [->|Hne]; [rewrite lookup_insert_eq; eauto|]. rewrite lookup_insert_ne by done. by apply Hseen.
    + destruct (is_empty d); cbn [negb] in Hx; [by apply elem_of_nil in Hx|]. apply list_elem_of_singleton in Hx as ->.
      rewrite lookup_insert_eq. eauto.
Qed.
Lemma plan_members_ok resolver context name definition selection domain todo done_ st st' :
  planning_ok done_ st → foldM (plan_member resolver context name definition selection domain) st (indexed (length done_) todo) = Ok st' →
  planning_ok (done_ ++ todo) st'.
Proof.
  revert done_ st. induction todo as [|b todo IH]; intros done_ st Hst H.
  { injection H as <-. by rewrite app_nil_r. }
  cbn [indexed foldM] in H. apply bind_Ok in H as (st1 & H1 & H2). rewrite (cons_middle b), (assoc_L (++)).
  apply (IH _ st1); [by eapply plan_member_ok|]. by rewrite length_app, Nat.add_1_r.
Qed.

(** C14: a plan has as many members as there are choices of one value for each dimension; for
    every such choice there is a member with these values, every member has a value of each
    dimension besides the fixed parameters, the members are numbered from zero in order, and no
    two are written to the same path. *)
Theorem collection_plan_exact resolver context name definition selection bindings domain plan :
  PlanDataAssetCollection resolver context name definition selection bindings domain = Ok plan →
  let order := cq_DimensionOrder plan in
  let values := values_of (cq_Dimensions plan) in
  let members := cq_Members plan in
  length members = foldr (λ name n, length (values name) * n)%nat 1%nat order ∧
  (∀ v, (∀ name, name ∈ order → v name ∈ values name) →
     ∃ m, m ∈ members ∧ ∀ name, name ∈ order → dm_Bindings m !! name = Some (v name)) ∧
  (∀ m, m ∈ members → cq_FixedParameters plan ⊆ dm_Bindings m ∧
     ∀ name, name ∈ order → ∃ x, x ∈ values name ∧ dm_Bindings m !! name = Some x) ∧
  dm_Index <$> members = seqZ 0 (Z.of_nat (length members)) ∧ NoDup (named_destinations members).
Proof.
  unfold PlanDataAssetCollection. intros H. cbv zeta in H. apply bind_Ok in H as ([] & _ & H). apply bind_Ok in H as (effective & _ & H).
  apply bind_Ok in H as (fixed & Hfixed & H). apply bind_Ok in H as (dimensions & _ & H). apply bind_Ok in H as (template & _ & H).
  apply bind_Ok in H as (fingerprint & _ & H). apply bind_Ok in H as (st & Hst & H).
  match type of H with Ok ?x = _ => assert (Hplan : plan = x) by congruence end. rewrite Hplan. clear H Hplan.
  cbn [cq_DimensionOrder cq_Dimensions cq_Members cq_FixedParameters]. cbv zeta. set (order := collectionDimensionNames _) in *.
  apply (plan_members_ok _ _ _ _ _ _ _ []) in Hst as (Hb & Hi & Hdup & _); [|by split_and!; [..|constructor|intros ? ?%elem_of_nil]].
  rewrite app_nil_l in Hb, Hi. assert (Hlen : length (pg_members st) = length (expandedMemberBindings order dimensions fixed)) by by rewrite <-Hb, length_fmap.
  assert (Hmember : ∀ b, b ∈ expandedMemberBindings order dimensions fixed ↔ ∃ m, m ∈ pg_members st ∧ dm_Bindings m = b).
  { intros b. rewrite <-Hb, list_elem_of_fmap. naive_solver. }
  assert (Hapart : ∀ c n, n ∈ order → (fixed ∪ c) !! n = c !! n).
  { intros c n Hn. by rewrite lookup_union, (fixed_apart _ _ _ _ _ _ _ Hfixed Hn), (left_id_L None _). }
  split_and!; [by rewrite Hlen; apply expand_length| | |by rewrite Hlen|done].
  - intros v Hv. destruct (expand_complete order dimensions fixed ∅ v Hv) as (c & Hin & Hc & _).
    apply Hmember in Hin as (m & Hm & Heq). exists m. split; [done|]. intros n Hn. rewrite Heq, Hapart by done. by apply Hc.
  - intros m Hm. destruct (expand_sound order dimensions fixed ∅ (dm_Bindings m)) as (c & Heq & Hc & _); [apply Hmember; eauto|].
    rewrite Heq. split; [apply map_union_subseteq_l|]. intros n Hn. rewrite Hapart by done. by apply Hc.
Qed.
End laws.

(** Two years and two regions. *)
Section witness.
#[local] Existing Instances latin1_only plain_formats plain_floats.
Definition tiles : DataInputDefinition :=
  mkInputDefinition "raster" "" {["year" := mkParameterDefinition "int"; "region" := mkParameterDefinition "string"]}
    (Some (mkCollection [mkDimension "year" None (Some (mkRange 2008 2009)); mkDimension "region" (Some [PString "north"; PString "south"]) None]))
    {["raster" := mkFileRole "tile.tif" "" None]} []
    (mkInputBinding "" DataProviderLocalFile (mkDefinitionLocation "" "" "" "" "root" "" "in/${asset.year}/${asset.region}.zip" "" "" "")
       (mkArchiveBinding "zip" "") (mkIntegrityTemplate "" None false) (mkDefinitionCache "" "" "" None)
       (mkAssetMaterialization "shared" "" "cdl/${asset.year}/${asset.region}.tif") (mkTransferPolicy 0 0 0 []) ∅) ∅.
Definition tiles_plan : result DataAssetCollectionPlan :=
  PlanDataAssetCollection (NewResolver (NewSet []) (mkConfig 0 None DefaultFunctionRegistry)) zero_fan_context "cdl" tiles [] ∅ "target-local".
Lemma collection_plan_exact_witness :
  ∃ plan, tiles_plan = Ok plan ∧ length (cq_Members plan) = 4%nat ∧ dm_Index <$> cq_Members plan = [0; 1; 2; 3] ∧
    dm_DestinationRelativePath <$> cq_Members plan =
      ["cdl/2008/north.tif"; "cdl/2008/south.tif"; "cdl/2009/north.tif"; "cdl/2009/south.tif"].
Proof.
  destruct tiles_plan as [plan|] eqn:Hp; [|exfalso; vm_compute in Hp; discriminate]. exists plan.
  destruct (collection_plan_exact _ _ _ _ _ _ _ plan Hp) as (_ & _ & _ & Hi & _).
  assert (H : (λ p, (length (cq_Members p), dm_DestinationRelativePath <$> cq_Members p)) <$> tiles_plan =
    Ok (4%nat, ["cdl/2008/north.tif"; "cdl/2008/south.tif"; "cdl/2009/north.tif"; "cdl/2009/south.tif"])) by (vm_compute; reflexivity).
  rewrite Hp in H. injection H as Hl Hd. rewrite Hl in Hi. refine (conj eq_refl (conj Hl (conj Hi Hd))).
Defined.
End witness.
