(* ===== verification/Hydration.v ===== *)
(** * Completing a claimed work item ([cmd/controller/asset_materialize_hydration.go],
      [main.go], [workflow_outputs.go])

    Before a claimed work item goes to a worker, the controller adds what earlier work of
    the run produced: the materialised assets that a compute step reads, the artifacts
    that a commit publishes, and the attempts whose results could be reused.  The
    terminal attempts of the run are an argument: what the query of the store gave.

    The assets that a step gets are described exactly; the key of a materialisation is one of
    those looked for, except, as an example shows, with a path template. *)

From S2P Require Import Prelude GoTime GoJson GoStrings GoPath GoJsonLaws GoSha256 Fingerprint GoJsonStruct.
From S2P Require Import Variables Expression Functions Resolver VariableCodec StoreData StoreSQL StoreOps StoreQueries.
From S2P Require Import Dependency WorkItem WorkItemCodec GoFmt FanOut Dependents.
From S2P Require Import DataNames DataCollections DataAssets DataProviders DataDefinitions DataCodec DataInstances ExplicitData.
Local Open Scope Z_scope.

(** The structs that hydration puts into parameters. *)
Inductive HydratedPayload :=
  | HyMaterialized (manifest : MaterializedDataAssetManifest)
  | HyArtifacts (manifest : ArtifactManifest).
#[export] Instance hydrated_payload_JSON {floats : JsonFloats} : PayloadJSON HydratedPayload := λ p,
  match p with
  | HyMaterialized manifest => encode_materialized_manifest manifest
  | HyArtifacts manifest => encode_artifact_manifest manifest
  end.
Notation HydratedItem := (WorkItem HydratedPayload).

(** ** Manifests in outputs *)

(** [decoder.UseNumber()], one document. *)
Definition output_document (outputJSON : string) : result JSON :=
  match decode_document outputJSON with
  | Malformed => Err (Errorf "decode output JSON")
  | Trailing => Err (Errorf "output JSON must contain one JSON document")
  | Document v => Ok v
  end.
(** [json.Marshal(object)], then [json.Unmarshal] into a struct. *)
Definition remarshal {R} (decode : JSON → result R) (label : string) (object : JSON) : result R :=
  v ← json_document (print (jsort object));
  wrap_err ("decode " +:+ label) (decode v).
Definition object_field (v : JSON) (name : string) : option JSON :=
  match v with
  | JObject fields => snd <$> List.find (λ f, bool_decide (f.1 = name)) fields
  | _ => None
  end.

(** [artifactManifestFromDecodedOutput]: the manifest, or that of [logical_output]. *)
Definition has_schema (v : JSON) (schema : string) : bool :=
  match object_field v "schema" with Some (JString s) => bool_decide (s = schema) | _ => false end.
Fixpoint artifactManifestFromDecodedOutput (decoded : JSON) : result (option ArtifactManifest) :=
  match decoded with
  | JObject fields =>
      if has_schema decoded ArtifactManifestSchemaV1 then Some <$> remarshal decode_artifact_manifest "artifact manifest" decoded
      else (fix find (l : list (string * JSON)) : result (option ArtifactManifest) :=
        match l with
        | [] => Ok None
        | (k, x) :: l' => if bool_decide (k = "logical_output") then artifactManifestFromDecodedOutput x else find l'
        end) fields
  | _ => Ok None
  end.
Definition artifactManifestFromOutputJSON (outputJSON : string) : result (option ArtifactManifest) :=
  decoded ← output_document outputJSON;
  artifactManifestFromDecodedOutput decoded.
Definition validateArtifactManifestOutputJSON {unicode : Unicode} (outputJSON : string) : result unit :=
  found ← artifactManifestFromOutputJSON outputJSON;
  match found with
  | None => Ok tt
  | Some manifest => wrap_err "artifact manifest" (ArtifactManifest_Validate manifest)
  end.

Definition present {A} (l : list (option A)) : list A := omap id l.

Section hydration.
Context {unicode : Unicode} {floats : JsonFloats}.

Definition materializedDataAssetManifestFromOutputJSON (outputJSON : string) :
    result (option MaterializedDataAssetManifest) :=
  decoded ← output_document outputJSON;
  if negb (has_schema decoded MaterializedDataAssetManifestSchemaV1) then Ok None else
  manifest ← remarshal decode_materialized_manifest "materialized data asset manifest" decoded;
  wrap_err "materialized data asset manifest" (MaterializedManifest_Validate manifest);;
  Ok (Some manifest).

(** ** What a compute step requires *)

Record sharedMaterializationRequirement := mkRequirement {
  rq_BindingName : string; rq_AssetKeys : list string; rq_Domain : MaterializationDomain;
  rq_DestinationRelativePath : string; rq_MaterializationKeys : list string }.
Record completedMaterializationCandidate := mkMaterialized {
  mc_WorkItemID : string; mc_Manifest : MaterializedDataAssetManifest; mc_Domain : MaterializationDomain }.

(** [json.Marshal(parameter.Value)], then [json.Unmarshal] *)
Definition decode_parameter_value {R} (decode : JSON → result R) (label : string) (v : PValue HydratedPayload) : result R :=
  encoded ← wrap_err ("encode " +:+ label) (encode_any v);
  v ← json_document (print encoded);
  wrap_err ("decode " +:+ label) (decode v).
Definition decode_bound_assets (v : JSON) : result (list BoundDataAsset) :=
  match v with
  | JNull => Ok []
  | JArray items => traverse_items (λ _ x, decode_bound_asset x) 0 items
  | _ => Err json_mismatch
  end.

Definition boundDataAssetsFromWorkItemParameters (parameters : Parameters HydratedPayload) :
    result (option (list BoundDataAsset)) :=
  match parameter_map parameters !! "data_assets" with
  | None => Ok None
  | Some parameter =>
      fail_if (negb (bool_decide (pa_Type parameter ∈ ["data_assets"; "list"])))
        (Errorf ("parameter data_assets has type " +:+ pa_Type parameter +:+ ", want data_assets or list"));;
      assets ← decode_parameter_value decode_bound_assets "data_assets parameter" (pa_Value parameter);
      traverse_items (λ i asset, wrap_err ("data_assets[" +:+ pretty i +:+ "]") (BoundAsset_Validate asset)) 0 assets;;
      Ok (Some assets)
  end.

Definition stringParameterValue (parameters : Parameters HydratedPayload) (name : string) : result string :=
  match parameter_map parameters !! name with
  | None => Err (Errorf ("parameter " +:+ name +:+ " is required"))
  | Some parameter =>
      fail_if (negb (bool_decide (pa_Type parameter ∈ [""; "string"])))
        (Errorf ("parameter " +:+ name +:+ " has type " +:+ pa_Type parameter +:+ ", want string"));;
      match pa_Value parameter with
      | PString value => required_trimmed value ("parameter " +:+ name +:+ " is required");; Ok value
      | _ => Err (Errorf ("parameter " +:+ name +:+ " value must be a string"))
      end
  end.

Definition materializationAssetKeyCandidates (asset : BoundDataAsset) (targetEnvironmentID : string) :
    result (list string) :=
  let definitionName := if is_empty (ba_DefinitionName asset) then ba_BindingName asset else ba_DefinitionName asset in
  canonicalKey ← CanonicalDataAssetInstanceKey definitionName [] asset;
  cacheKey ← AssetMaterializeAssetKey asset targetEnvironmentID;
  Ok (canonicalKey :: if bool_decide (cacheKey = canonicalKey) then [] else [cacheKey]).
Definition materializationKeyCandidates (assetKeys : list string) (materializationDomainID destinationRelativePath : string) :
    result (list string) :=
  if is_empty (TrimSpace destinationRelativePath) then Ok [] else
  wrap_err "materialization destination_relative_path" (ValidateArtifactRelativePath destinationRelativePath);;
  traverse_items (λ _ assetKey, MaterializationIdentityKey assetKey materializationDomainID destinationRelativePath) 0 assetKeys.

(** One asset; [None] when nothing is required of it. *)
Definition asset_requirement (parameters : Parameters HydratedPayload) (i : nat) (asset : BoundDataAsset) :
    result (option sharedMaterializationRequirement) :=
  let at_ := "shared materialization data_assets[" +:+ pretty i +:+ "]" in
  let scope := am_Scope (ba_Materialization asset) in
  if bool_decide (scope = "") then Ok None else
  if bool_decide (scope = DataMaterializationScopeShared) then
    wrap_err at_
      (targetEnvironmentID ← stringParameterValue parameters "target_environment_id";
       domain ← ResolveMaterializationDomain (ba_Materialization asset) targetEnvironmentID;
       assetKeys ← materializationAssetKeyCandidates asset targetEnvironmentID;
       let destination := am_PathTemplate (ba_Materialization asset) in
       keys ← materializationKeyCandidates assetKeys (dom_ID domain) destination;
       Ok (Some (mkRequirement (ba_BindingName asset) assetKeys domain destination keys)))
  else if bool_decide (scope = DataMaterializationScopeWorker) then
    Err (Wrapf DataMaterializationScopeWorker ErrMaterializationScopeNotImplemented)
  else wrap_err at_ (Materialization_Validate (ba_Materialization asset));; Ok None.
Definition sharedMaterializationRequirements (item : HydratedItem) : result (list sharedMaterializationRequirement) :=
  found ← boundDataAssetsFromWorkItemParameters (w_Parameters item);
  match found with
  | None => Ok []
  | Some assets =>
      requirements ← traverse_items (asset_requirement (w_Parameters item)) 0 assets;
      Ok (present requirements)
  end.

Definition prior_candidate (claim : ClaimedWorkRecord) (dependsOn : list string) (terminal : TerminalAttemptRecord) :
    result (option completedMaterializationCandidate) :=
  let item := ta_WorkItem terminal in
  if negb (bool_decide (ta_TerminalState terminal = "completed")) then Ok None else
  if negb (bool_decide (wi_ID item ∈ dependsOn)) && (wi_StageIndex (cl_WorkItem claim) <=? wi_StageIndex item) then Ok None else
  if is_empty (TrimSpace (ta_OutputJSON terminal)) then Ok None else
  found ← materializedDataAssetManifestFromOutputJSON (ta_OutputJSON terminal);
  match found with
  | None => Ok None
  | Some manifest =>
      domain ← wrap_err ("completed materialized manifest " +:+ wi_ID item)
                 (SharedMaterializationDomain (mf_TargetEnvironmentID manifest));
      Ok (Some (mkMaterialized (wi_ID item) manifest domain))
  end.
Definition completedPriorMaterializationCandidates (terminals : list TerminalAttemptRecord) (claim : ClaimedWorkRecord)
    (dependsOn : list string) : result (list completedMaterializationCandidate) :=
  found ← traverse_items (λ _ terminal, prior_candidate claim dependsOn terminal) 0 terminals;
  Ok (present found).

(** ** Matching requirements with what was materialised *)

Definition domain_eqb (a b : MaterializationDomain) : bool :=
  bool_decide (dom_Scope a = dom_Scope b) && bool_decide (dom_ID a = dom_ID b).
Definition materializationDomainLabel (domain : MaterializationDomain) : string := dom_Scope domain +:+ "/" +:+ dom_ID domain.

Definition materializedCandidateSatisfiesIdentity (requirement : sharedMaterializationRequirement)
    (asset : MaterializedDataAsset) : bool :=
  if negb (is_empty (ma_MaterializationDomainID asset))
     && negb (bool_decide (ma_MaterializationDomainID asset = dom_ID (rq_Domain requirement))) then false else
  if negb (is_empty (rq_DestinationRelativePath requirement))
     && negb (bool_decide (ma_DestinationRelativePath asset = rq_DestinationRelativePath requirement)) then false else
  match rq_MaterializationKeys requirement with
  | [] => true
  | keys => negb (is_empty (ma_MaterializationKey asset)) && containsString keys (ma_MaterializationKey asset)
  end.

(** The candidates whose asset is required, in the domain and elsewhere. *)
Definition with_required_asset (requirement : sharedMaterializationRequirement)
    (candidates : list completedMaterializationCandidate) : list completedMaterializationCandidate :=
  List.filter (λ c, containsString (rq_AssetKeys requirement) (mf_AssetKey (mc_Manifest c))) candidates.
Definition matching (requirement : sharedMaterializationRequirement) (candidate : completedMaterializationCandidate) : bool :=
  domain_eqb (mc_Domain candidate) (rq_Domain requirement) &&
  match mf_Assets (mc_Manifest candidate) with
  | [asset] => materializedCandidateSatisfiesIdentity requirement asset
  | _ => true
  end.

Definition set_ma_BindingName (name : string) (a : MaterializedDataAsset) : MaterializedDataAsset :=
  mkMaterializedAsset name (ma_ProviderName a) (ma_ProviderType a) (ma_Kind a) (ma_Format a) (ma_LocalPath a)
    (ma_MaterializationKey a) (ma_MaterializationDomainID a) (ma_DestinationRelativePath a) (ma_DestinationSizeBytes a)
    (ma_DestinationSHA256 a) (ma_MaterializationStrategy a) (ma_CacheKey a) (ma_CacheImmutable a) (ma_SourceSizeBytes a)
    (ma_SourceSHA256 a) (ma_SelectedSizeBytes a) (ma_SelectedSHA256 a) (ma_ArchiveType a) (ma_ArchiveMembers a)
    (ma_Metadata a) (ma_CollectionMember a).

(** [seenBindings], [combined.TargetEnvironmentID] and [combined.Assets]. *)
Definition combining : Type := gset string * string * list MaterializedDataAsset.
Definition project_requirement (candidates : list completedMaterializationCandidate) (st : combining)
    (requirement : sharedMaterializationRequirement) : result combining :=
  let '(seen, environment, assets) := st in
  let name := rq_BindingName requirement in
  let known := with_required_asset requirement candidates in
  let wrongDomains := List.filter (λ c, negb (domain_eqb (mc_Domain c) (rq_Domain requirement))) known in
  match List.filter (matching requirement) known, wrongDomains with
  | [], wrong :: _ => Err (Errorf ("materialized data asset " +:+ name +:+ " found in domain " +:+
                             materializationDomainLabel (mc_Domain wrong) +:+ ", want " +:+
                             materializationDomainLabel (rq_Domain requirement)))
  | [], [] => Err (Errorf ("no completed shared materialization found for data asset " +:+ name +:+ " in domain " +:+
                     materializationDomainLabel (rq_Domain requirement)))
  | _ :: _ :: _, _ => Err (Errorf ("multiple completed shared materializations found for data asset " +:+ name +:+
                             " in domain " +:+ materializationDomainLabel (rq_Domain requirement)))
  | [match_], _ =>
      match mf_Assets (mc_Manifest match_) with
      | [asset] =>
          fail_if (bool_decide (name ∈ seen)) (Errorf ("duplicate materialized data binding " +:+ name));;
          let target := mf_TargetEnvironmentID (mc_Manifest match_) in
          fail_if (negb (is_empty environment) && negb (bool_decide (target = environment)))
            (Errorf ("shared materialization target_environment_id mismatch: " +:+ target +:+ " != " +:+ environment));;
          Ok ({[name]} ∪ seen, if is_empty environment then target else environment,
              assets ++ [set_ma_BindingName name asset])
      | several => Err (Errorf ("completed shared materialization " +:+ mc_WorkItemID match_ +:+ " has " +:+
                          pretty (length several) +:+ " assets, want 1"))
      end
  end.
Definition projectSharedMaterializationRequirements (requirements : list sharedMaterializationRequirement)
    (candidates : list completedMaterializationCandidate) : result MaterializedDataAssetManifest :=
  st ← foldM (project_requirement candidates) (∅, "", []) requirements;
  let combined := mkMaterializedManifest MaterializedDataAssetManifestSchemaV1 "" st.1.2 st.2 in
  wrap_err "validate shared materialized data assets" (MaterializedManifest_Validate combined);;
  Ok combined.

(** ** The item *)

Definition with_materialized (manifest : MaterializedDataAssetManifest) (item : HydratedItem) : HydratedItem :=
  set_parameters [("materialized_data_assets", plain_parameter "materialized_data_assets" (PPayload (HyMaterialized manifest)))]
    item.

Definition add_dependency_asset (st : gset string * list MaterializedDataAsset) (asset : MaterializedDataAsset) :
    result (gset string * list MaterializedDataAsset) :=
  fail_if (bool_decide (ma_BindingName asset ∈ st.1)) (Errorf ("duplicate materialized data binding " +:+ ma_BindingName asset));;
  Ok ({[ma_BindingName asset]} ∪ st.1, st.2 ++ [asset]).
Definition add_dependency (completed : gmap string TerminalAttemptRecord) (st : combining) (dependencyID : string) :
    result combining :=
  let '(seen, environment, assets) := st in
  match completed !! dependencyID with
  | None => Ok st
  | Some terminal =>
      found ← materializedDataAssetManifestFromOutputJSON (ta_OutputJSON terminal);
      match found with
      | None => Ok st
      | Some manifest =>
          let target := mf_TargetEnvironmentID manifest in
          fail_if (negb (is_empty environment) && negb (is_empty target) && negb (bool_decide (target = environment)))
            (Errorf ("asset_materialize dependency target_environment_id mismatch: " +:+ target +:+ " != " +:+ environment));;
          added ← foldM add_dependency_asset (seen, assets) (mf_Assets manifest);
          Ok (added.1, if is_empty environment then target else environment, added.2)
      end
  end.

Definition hydrateAssetMaterializeDependentWorkItem (listed : result (list TerminalAttemptRecord))
    (claim : ClaimedWorkRecord) (item : HydratedItem) : result HydratedItem :=
  if bool_decide (w_Type item = WorkItemTypeAssetMaterialize ∨ w_Type item = WorkItemTypeCommitData) then Ok item else
  if bool_decide (is_Some (parameter_map (w_Parameters item) !! "materialized_data_assets")) then Ok item else
  terminals ← listed;
  requirements ← sharedMaterializationRequirements item;
  match requirements with
  | _ :: _ =>
      candidates ← completedPriorMaterializationCandidates terminals claim (w_DependsOn item);
      manifest ← projectSharedMaterializationRequirements requirements candidates;
      Ok (with_materialized manifest item)
  | [] =>
      let completed := foldl (λ m t, <[wi_ID (ta_WorkItem t) := t]> m) ∅
        (List.filter (λ t, bool_decide (ta_TerminalState t = "completed")) terminals) in
      st ← foldM (add_dependency completed) (∅, "", []) (w_DependsOn item);
      match st.2 with
      | [] => Ok item
      | assets =>
          let combined := mkMaterializedManifest MaterializedDataAssetManifestSchemaV1 "" st.1.2 assets in
          wrap_err "validate combined materialized data assets" (MaterializedManifest_Validate combined);;
          Ok (with_materialized combined item)
      end
  end.

(** [main.go]: the artifacts that a commit publishes. *)
Definition persistedDependencyID (dependsOn : list string) (sourceWorkItemID : string) : string :=
  default "" (List.find (λ id, bool_decide (id = sourceWorkItemID) || has_suffix (":" +:+ sourceWorkItemID) id) dependsOn).
Definition hydrateCommitDataWorkItem (listed : result (list TerminalAttemptRecord)) (item : HydratedItem) :
    result HydratedItem :=
  let parameters := parameter_map (w_Parameters item) in
  if bool_decide (is_Some (parameters !! "artifact_manifest")) then Ok item else
  match parameters !! "commit_data" with
  | None => Err (Errorf "commit_data parameter is required")
  | Some parameter =>
      payload ← decode_parameter_value decode_commit_payload "commit_data parameter" (pa_Value parameter);
      CommitPayload_Validate payload;;
      let source := cs_FromWorkItemID (cp_Source payload) in
      let sourceID := persistedDependencyID (w_DependsOn item) source in
      fail_if (is_empty sourceID) (Errorf ("commit_data source " +:+ source +:+ " is not listed in depends_on"));;
      terminals ← listed;
      match List.find (λ t, bool_decide (ta_TerminalState t = "completed") && bool_decide (wi_ID (ta_WorkItem t) = sourceID))
              terminals with
      | None => Err (Errorf ("completed source " +:+ sourceID +:+ " not found for commit_data"))
      | Some terminal =>
          found ← artifactManifestFromOutputJSON (ta_OutputJSON terminal);
          match found with
          | None => Err (Errorf ("completed source " +:+ sourceID +:+ " output is not an artifact manifest"))
          | Some manifest =>
              Ok (set_parameters [("artifact_manifest", plain_parameter "artifact_manifest" (PPayload (HyArtifacts manifest)))]
                    item)
          end
      end
  end.
End hydration.

(** ** Attempts to reuse ([main.go]) *)

Record workerObservedHashes := mkHashes { oh_InputSHA256 : string; oh_OutputSHA256 : string }.
Definition hashes_fields : Struct workerObservedHashes :=
  [("input_sha256", into_string (λ x '(mkHashes _ b), mkHashes x b));
   ("output_sha256", into_string (λ x '(mkHashes a _), mkHashes a x))].
Definition workerObservedHashesFromOutputJSON (outputJSON : string) : result workerObservedHashes :=
  if is_empty outputJSON then Ok (mkHashes "" "") else
  wrap_err "decode worker observed hashes"
    (v ← json_document outputJSON; decode_struct false hashes_fields (mkHashes "" "") v).

Definition reusable (claim : ClaimedWorkRecord) (terminal : TerminalAttemptRecord) : bool :=
  let item := ta_WorkItem terminal in
  bool_decide (ta_TerminalState terminal = "completed")
  && negb (bool_decide (ta_AttemptID terminal = cl_AttemptID claim))
  && bool_decide (wi_ResolvedInputsSHA256 item = wi_ResolvedInputsSHA256 (cl_WorkItem claim))
  && bool_decide (wi_WorkerPayloadJSON item = wi_WorkerPayloadJSON (cl_WorkItem claim)).
Definition reuse_candidate (terminal : TerminalAttemptRecord) : result WorkReuseCandidate :=
  hashes ← workerObservedHashesFromOutputJSON (ta_OutputJSON terminal);
  Ok (mkCandidate (ta_AttemptID terminal) (oh_InputSHA256 hashes) (oh_OutputSHA256 hashes) (ta_PreStateSHA256 terminal)
        (ta_PostStateSHA256 terminal) (ta_OutputJSONSHA256 terminal) "" "").
Definition persistedReuseCandidates (listed : result (list TerminalAttemptRecord)) (claim : ClaimedWorkRecord) :
    result (list WorkReuseCandidate) :=
  terminals ← listed;
  traverse_items (λ _ t, reuse_candidate t) 0 (List.filter (reusable claim) terminals).

(** * How a compute step finds what was materialised for it

    The step that materialises an asset and the step that reads it compute the key of the
    asset independently.  The keys agree for an asset without a path template and without
    selected files; with a path template they differ, and the materialisation is not found. *)
Local Open Scope Z_scope.

Section laws.
Context {unicode : Unicode} {formats : Formats} {floats : JsonFloats}.

(** The name a step gives to an asset is not part of its key. *)
Lemma key_without_alias definitionName selection asset alias key key' :
  CanonicalDataAssetInstanceKey definitionName selection asset = Ok key →
  CanonicalDataAssetInstanceKey definitionName selection (set_ba_BindingName alias asset) = Ok key' → key' = key.
Proof.
  unfold CanonicalDataAssetInstanceKey. intros H1 H2.
  apply bind_Ok in H1 as ([] & _ & H1). apply bind_Ok in H1 as ([] & _ & H1).
  apply bind_Ok in H2 as ([] & _ & H2). apply bind_Ok in H2 as ([] & _ & H2).
  change (dataAssetBindingFingerprint (set_ba_BindingName alias asset)) with (dataAssetBindingFingerprint asset) in H2.
  cbn [set_ba_BindingName ba_ProviderName ba_Kind ba_Format ba_Provider ba_Location ba_Integrity ba_Cache ba_Archive
       ba_Materialization ba_TransferPolicy ba_Parameters] in H2. congruence.
Qed.

End laws.

(** ** What a step gets of what was materialised *)

Lemma filter_singleton {A} (f : A → bool) l x :
  List.filter f l = [x] ↔
  ∃ k, l !! k = Some x ∧ f x = true ∧ ∀ j y, l !! j = Some y → f y = true → j = k.
Proof.
  induction l as [|a l IH]; cbn [List.filter]; [split; [done|by intros (k & ? & _)]|]. destruct (f a) eqn:Ha; split.
  - intros [= -> Hnil]. exists 0%nat. split_and!; [done|done|]. intros [|j] y Hy Hf; [done|]. cbn in Hy. exfalso.
    assert (y ∈ List.filter f l) as Hin by (apply list_elem_of_In, List.filter_In; split; [by eapply list_elem_of_In, list_elem_of_lookup_2|done]).
    rewrite Hnil in Hin. by apply elem_of_nil in Hin.
  - intros (k & Hk & Hx & Honly). pose proof (Honly 0%nat a eq_refl Ha) as <-. injection Hk as ->. f_equal.
    destruct (List.filter f l) as [|y r] eqn:E; [done|]. exfalso.
    assert (y ∈ List.filter f l) as [Hy Hf]%list_elem_of_In%List.filter_In by (rewrite E; left).
    apply list_elem_of_In, list_elem_of_lookup in Hy as [j Hj]. by specialize (Honly (S j) y Hj Hf).
  - intros (k & Hk & Hx & Honly)%IH. exists (S k). split_and!; [done|done|]. intros [|j] y Hy Hf.
    + injection Hy as <-. by rewrite Ha in Hf.
    + f_equal. by eapply Honly.
  - intros ([|k] & Hk & Hx & Honly); [injection Hk as ->; by rewrite Ha in Hx|]. apply IH. exists k. split_and!; [done|done|].
    intros j y Hy Hf. specialize (Honly (S j) y Hy Hf). lia.
Qed.
Lemma filter_filter_both {A} (f g : A → bool) l : List.filter g (List.filter f l) = List.filter (λ a, f a && g a) l.
Proof. induction l as [|a l IH]; [done|]. cbn [List.filter]. destruct (f a); cbn [andb List.filter]; [|done]. by rewrite IH. Qed.

Section lookup.
Context {unicode : Unicode}.

(** A completed materialisation is what a step requires: one of its keys, its domain, and, when
    it holds one asset, the destination and one of the materialisation keys. *)
Definition satisfies (q : sharedMaterializationRequirement) (c : completedMaterializationCandidate) : Prop :=
  mf_AssetKey (mc_Manifest c) ∈ rq_AssetKeys q ∧
  dom_Scope (mc_Domain c) = dom_Scope (rq_Domain q) ∧ dom_ID (mc_Domain c) = dom_ID (rq_Domain q) ∧
  ∀ asset, mf_Assets (mc_Manifest c) = [asset] →
    (ma_MaterializationDomainID asset = "" ∨ ma_MaterializationDomainID asset = dom_ID (rq_Domain q)) ∧
    (rq_DestinationRelativePath q = "" ∨ ma_DestinationRelativePath asset = rq_DestinationRelativePath q) ∧
    (rq_MaterializationKeys q = [] ∨ ma_MaterializationKey asset ≠ "" ∧ ma_MaterializationKey asset ∈ rq_MaterializationKeys q).
Definition only_candidate (candidates : list completedMaterializationCandidate) (q : sharedMaterializationRequirement)
    (c : completedMaterializationCandidate) : Prop :=
  ∃ k, candidates !! k = Some c ∧ satisfies q c ∧ ∀ j c', candidates !! j = Some c' → satisfies q c' → j = k.

Lemma identity_spec q asset :
  materializedCandidateSatisfiesIdentity q asset = true ↔
    (ma_MaterializationDomainID asset = "" ∨ ma_MaterializationDomainID asset = dom_ID (rq_Domain q)) ∧
    (rq_DestinationRelativePath q = "" ∨ ma_DestinationRelativePath asset = rq_DestinationRelativePath q) ∧
    (rq_MaterializationKeys q = [] ∨ ma_MaterializationKey asset ≠ "" ∧ ma_MaterializationKey asset ∈ rq_MaterializationKeys q).
Proof.
  unfold materializedCandidateSatisfiesIdentity, is_empty, containsString.
  destruct (rq_MaterializationKeys q) as [|k ks]; repeat case_bool_decide; cbn [negb andb]; naive_solver.
Qed.
Lemma satisfies_spec q c :
  containsString (rq_AssetKeys q) (mf_AssetKey (mc_Manifest c)) && matching q c = true ↔ satisfies q c.
Proof.
  unfold satisfies, matching, domain_eqb, containsString. rewrite !andb_true_iff, !bool_decide_eq_true.
  destruct (mf_Assets (mc_Manifest c)) as [|asset [|a2 l]]; [naive_solver| |naive_solver]. rewrite identity_spec. naive_solver.
Qed.
Lemma only_candidate_spec candidates q c :
  List.filter (matching q) (with_required_asset q candidates) = [c] ↔ only_candidate candidates q c.
Proof.
  unfold with_required_asset. rewrite filter_filter_both, filter_singleton. unfold only_candidate.
  setoid_rewrite satisfies_spec. done.
Qed.

Definition target (f : completedMaterializationCandidate * MaterializedDataAsset) : string := mf_TargetEnvironmentID (mc_Manifest f.1).
(** The environment that the first one decides. *)
Definition common_target (environment : string) (found : list (completedMaterializationCandidate * MaterializedDataAsset)) : string :=
  if is_empty environment then match found with [] => "" | f :: _ => target f end else environment.
Definition bound_under (q : sharedMaterializationRequirement) (f : completedMaterializationCandidate * MaterializedDataAsset) :
    MaterializedDataAsset := set_ma_BindingName (rq_BindingName q) f.2.
Definition found_for (candidates : list completedMaterializationCandidate) (q : sharedMaterializationRequirement)
    (f : completedMaterializationCandidate * MaterializedDataAsset) : Prop :=
  only_candidate candidates q f.1 ∧ mf_Assets (mc_Manifest f.1) = [f.2].

Lemma project_one candidates seen environment assets q st :
  project_requirement candidates (seen, environment, assets) q = Ok st ↔
  ∃ f, found_for candidates q f ∧ rq_BindingName q ∉ seen ∧ (environment = "" ∨ target f = environment) ∧
    st = ({[rq_BindingName q]} ∪ seen, if is_empty environment then target f else environment, assets ++ [bound_under q f]).
Proof.
  unfold project_requirement, found_for. setoid_rewrite <-only_candidate_spec.
  destruct (List.filter (matching q) (with_required_asset q candidates)) as [|c [|c2 l]]; cbn zeta.
  1: { split; [by case_match|by intros (f & (? & _) & _)]. }
  2: { split; [done|by intros (f & (? & _) & _)]. }
  destruct (mf_Assets (mc_Manifest c)) as [|asset [|a2 l]] eqn:Ha.
  1: { split; [done|]. intros (f & ([= <-] & Hf) & _). by rewrite Ha in Hf. }
  2: { split; [done|]. intros (f & ([= <-] & Hf) & _). by rewrite Ha in Hf. }
  rewrite bind_Ok. setoid_rewrite bind_Ok. setoid_rewrite fail_if_Ok. setoid_rewrite bool_decide_eq_false.
  unfold is_empty. split.
  - intros (_ & Hseen & _ & Henv & [= <-]). exists (c, asset). split_and!; [done|done|done| |done].
    unfold target. cbn. destruct (decide (environment = "")) as [->|Hne]; [by left|right].
    rewrite bool_decide_eq_false_2 in Henv by done. cbn in Henv. by apply negb_false_iff, bool_decide_eq_true in Henv.
  - intros ([c' a'] & ([= <-] & Hf) & Hseen & Henv & ->). cbn in Hf. rewrite Ha in Hf. injection Hf as <-.
    exists tt. split; [done|]. exists tt. split; [|done]. unfold target in Henv. cbn in Henv.
    destruct Henv as [-> | ->]; [done|]. by rewrite (bool_decide_eq_true_2 (environment = environment)), andb_false_r.
Qed.

Lemma project_all candidates requirements seen environment assets env' assets' :
  Forall (λ c, mf_TargetEnvironmentID (mc_Manifest c) ≠ "") candidates →
  (∃ seen', foldM (project_requirement candidates) (seen, environment, assets) requirements = Ok (seen', env', assets')) ↔
  ∃ found, Forall2 (found_for candidates) requirements found ∧
    NoDup (rq_BindingName <$> requirements) ∧ Forall (λ q, rq_BindingName q ∉ seen) requirements ∧
    env' = common_target environment found ∧ Forall (λ f, target f = env') found ∧
    assets' = assets ++ zip_with bound_under requirements found.
Proof.
  intros Hne. revert seen environment assets. induction requirements as [|q requirements IH]; intros seen environment assets.
  { cbn [foldM]. split.
    - intros (seen' & [= <- <- <-]). exists []. split_and!; try done; [constructor|unfold common_target, is_empty; by case_bool_decide|by rewrite app_nil_r].
    - intros (found & HF & _ & _ & -> & _ & ->). apply Forall2_nil_inv_l in HF as ->. exists seen. cbn. rewrite app_nil_r.
      unfold common_target, is_empty. by case_bool_decide; subst. }
  split.
  - intros (seen' & H). rewrite foldM_cons in H. apply bind_Ok in H as (st & Hone & Hrest).
    apply project_one in Hone as (f & Hf & Hseen & Henv & ->).
    assert (target f ≠ "") as Htf.
    { destruct Hf as [(k & Hk & _) _]. rewrite Forall_lookup in Hne. by eapply Hne. }
    apply ex_intro with (x := seen') in Hrest. apply IH in Hrest as (found & HF & Hdup & Hfresh & -> & Hall & ->).
    exists (f :: found). assert (common_target (if is_empty environment then target f else environment) found = common_target environment (f :: found)) as Hc.
    { unfold common_target, is_empty. repeat case_bool_decide; congruence. }
    rewrite Hc in *. rewrite fmap_cons, NoDup_cons. split_and!.
    + by constructor.
    + intros (q' & Heq & Hq')%list_elem_of_fmap. rewrite Forall_forall in Hfresh. specialize (Hfresh q' Hq'). rewrite <- Heq in Hfresh. set_solver.
    + done.
    + constructor; [done|]. eapply Forall_impl; [exact Hfresh|]. cbn. set_solver.
    + done.
    + constructor; [|done]. unfold common_target, is_empty. case_bool_decide; [done|]. by destruct Henv.
    + cbn. by rewrite <- app_assoc.
  - intros (found & HF & Hdup & Hfresh & -> & Hall & ->). rewrite fmap_cons, NoDup_cons in Hdup. destruct Hdup as [Hnot Hdup]. apply Forall2_cons_inv_l in HF as (f & found' & Hf & HF & ->).
    apply Forall_cons in Hfresh as [Hseen Hfresh]. apply Forall_cons in Hall as [Hf1 Hall].
    assert (target f ≠ "") as Htf.
    { destruct Hf as [(k & Hk & _) _]. rewrite Forall_lookup in Hne. by eapply Hne. }
    set (env1 := if is_empty environment then target f else environment).
    assert (common_target env1 found' = common_target environment (f :: found')) as Hc.
    { unfold env1, common_target, is_empty. repeat case_bool_decide; congruence. }
    destruct (proj2 (IH ({[rq_BindingName q]} ∪ seen) env1 (assets ++ [bound_under q f]))) as (seen' & Hrest).
    { exists found'. split_and!; [done|done| |by rewrite Hc|done|cbn; by rewrite <- app_assoc].
      apply Forall_forall. intros q' Hq'. rewrite Forall_forall in Hfresh. specialize (Hfresh q' Hq').
      intros [Heq%elem_of_singleton|?]%elem_of_union; [|done]. apply Hnot. rewrite <- Heq. by apply list_elem_of_fmap_2. }
    exists seen'. rewrite foldM_cons, bind_Ok. exists ({[rq_BindingName q]} ∪ seen, env1, assets ++ [bound_under q f]).
    split; [|exact Hrest]. apply project_one. exists f. split_and!; [done|done| |done]. unfold common_target, is_empty in Hf1. case_bool_decide; [by left|by right].
Qed.

(** C39: what a step gets of the assets it requires.  Suppose that every completed materialisation
    names its environment.  The required assets are put together exactly when each of them has
    exactly one completed materialisation, with one of its keys, in its domain and at its
    destination, which holds one asset; when no binding is required twice and all are in one
    environment; and when the result is valid.  It then holds these assets, in the order of the
    requirements, under the names of their bindings. *)
Theorem shared_assets_exact requirements candidates manifest :
  Forall (λ c, mf_TargetEnvironmentID (mc_Manifest c) ≠ "") candidates →
  projectSharedMaterializationRequirements requirements candidates = Ok manifest ↔
  ∃ found, Forall2 (found_for candidates) requirements found ∧ NoDup (rq_BindingName <$> requirements) ∧
    Forall (λ f, target f = mf_TargetEnvironmentID manifest) found ∧
    manifest = mkMaterializedManifest MaterializedDataAssetManifestSchemaV1 "" (common_target "" found) (zip_with bound_under requirements found) ∧
    MaterializedManifest_Validate manifest = Ok tt.
Proof.
  intros Hne. unfold projectSharedMaterializationRequirements. rewrite bind_Ok. split.
  - intros ([[seen env] assets] & Hfold & H). cbn zeta in H. apply bind_Ok in H as ([] & Hv & [= <-]). rewrite wrap_err_Ok in Hv.
    apply ex_intro with (x := seen) in Hfold. apply project_all in Hfold as (found & HF & Hdup & _ & -> & Hall & ->); [|done].
    exists found. by split_and!.
  - intros (found & HF & Hdup & Hall & -> & Hv). cbn [mf_TargetEnvironmentID] in Hall.
    destruct (proj2 (project_all candidates requirements ∅ "" [] (common_target "" found) (zip_with bound_under requirements found) Hne)) as (seen & Hfold).
    { exists found. split_and!; try done. apply Forall_true. intros q. apply not_elem_of_empty. }
    exists (seen, common_target "" found, zip_with bound_under requirements found). split; [done|]. cbn [fst snd]. by rewrite Hv.
Qed.
End lookup.

(** ** A yearly raster *)

Section instances.
#[local] Existing Instances latin1_only plain_formats plain_floats.

Definition yearly (path : string) : DataInputDefinition :=
  mkInputDefinition "raster" "" {["year" := mkParameterDefinition "int"]} None ∅ []
    (mkInputBinding "" DataProviderLocalFile (mkDefinitionLocation "" "" "" "" "root" "" "in/${asset.year}.tif" "" "" "")
       (mkArchiveBinding "" "") (mkIntegrityTemplate "" None false) (mkDefinitionCache "" "" "" None)
       (mkAssetMaterialization "shared" "" path) (mkTransferPolicy 0 0 0 []) ∅) ∅.
Definition yearly_instance (path : string) : result DataAssetInstance :=
  instantiateDataAssetWithContext (NewResolver (NewSet []) (mkConfig 0 None DefaultFunctionRegistry)) zero_fan_context "cdl" (yearly path) []
    {["year" := mkTE TypeInt (EInt 2009)]}.


(** What a worker reports when it has materialised the instance, and what a step that reads
    the instance then gets. *)
Definition materialised (i : DataAssetInstance) : completedMaterializationCandidate :=
  let destination := am_PathTemplate (ba_Materialization (dn_BoundAsset i)) in
  let key := match MaterializationIdentityKey (dn_AssetKey i) "target-local" destination with Ok key => key | Err _ => "" end in
  mkMaterialized "run:fetch"
    (mkMaterializedManifest MaterializedDataAssetManifestSchemaV1 (dn_AssetKey i) "target-local"
       [mkMaterializedAsset "cdl" "cdl" "local_file" "raster" "" ("/data/" +:+ destination) key "target-local" destination None "" "shared"
          "" None None "" None "" "" [] [] None])
    (mkDomain DataMaterializationScopeShared "target-local").
Definition found_for_step (path : string) : result (list string) :=
  i ← yearly_instance path;
  requirement ← asset_requirement (Some {["target_environment_id" := plain_parameter "string" (PString "target-local")]}) 0 (dn_BoundAsset i);
  manifest ← projectSharedMaterializationRequirements (present [requirement]) [materialised i];
  Ok (ma_LocalPath <$> mf_Assets manifest).

(** An asset with a path template is materialised under a key that is computed with the
    template, and looked for under one that is computed with the path: the step that reads it
    is refused although it was materialised in its environment and at its path.  Without the
    template it is found. *)
Example path_template_hides_materialisation :
  found_for_step "" = Ok ["/data/"] ∧
  found_for_step "cdl/${asset.year}.tif" =
    Err (Errorf "no completed shared materialization found for data asset cdl in domain shared/target-local").
Proof. vm_compute. split; reflexivity. Qed.

(** Two materialisations, one of them required. *)
Definition tile (name path : string) : completedMaterializationCandidate :=
  mkMaterialized ("run:" +:+ name)
    (mkMaterializedManifest MaterializedDataAssetManifestSchemaV1 name "target-local"
       [mkMaterializedAsset name name "local_file" "raster" "" path "" "" "" None "" "" "" None None "" None "" "" [] [] None])
    (mkDomain DataMaterializationScopeShared "target-local").
Definition tile_required : sharedMaterializationRequirement :=
  mkRequirement "input" ["north"] (mkDomain DataMaterializationScopeShared "target-local") "" [].
Definition tiles_found : result MaterializedDataAssetManifest :=
  projectSharedMaterializationRequirements [tile_required] [tile "south" "/data/s.tif"; tile "north" "/data/n.tif"].
Lemma shared_assets_exact_witness :
  ∃ manifest, tiles_found = Ok manifest ∧ ma_LocalPath <$> mf_Assets manifest = ["/data/n.tif"] ∧
    ∃ found, Forall2 (found_for [tile "south" "/data/s.tif"; tile "north" "/data/n.tif"]) [tile_required] found.
Proof.
  destruct (is_Ok_exists tiles_found) as [manifest Hm]; [vm_compute; reflexivity|]. exists manifest. split; [exact Hm|]. split.
  - assert ((λ m, ma_LocalPath <$> mf_Assets m) <$> tiles_found = Ok ["/data/n.tif"]) as H by (vm_compute; reflexivity).
    rewrite Hm in H. injection H as H. exact H.
  - destruct (proj1 (shared_assets_exact [tile_required] [tile "south" "/data/s.tif"; tile "north" "/data/n.tif"] manifest
      ltac:(repeat (apply Forall_cons_2; [discriminate|]); apply Forall_nil_2)) Hm) as (found & HF & _).
    exists found. exact HF.
Defined.
End instances.
