(* ===== verification/CollectionManifests.v ===== *)
(** * The output of a step that materialises a collection ([cmd/controller/workflow_outputs.go])

    The outputs of the members are put together into one manifest: the members have to be
    complete, distinct and of one collection, and the template of their paths is recovered
    from the path of each member by putting the names of the dimensions for their values. *)

From S2P Require Import Prelude GoTime GoJson GoStrings GoPath GoJsonLaws GoSha256 Fingerprint GoJsonStruct.
From S2P Require Import Variables Expression Functions Resolver VariableCodec OutputText StoreData StoreSQL StoreOps StoreQueries.
From S2P Require Import Dependency SubmissionContext DependencyStore WorkItem WorkItemCodec GoFmt FanOut Dependents.
From S2P Require Import DataNames DataCollections DataAssets DataProviders DataDefinitions DataCodec DataInstances ExplicitData Hydration.
Local Open Scope Z_scope.

(** The asset is that of the manifest's only entry. *)
Record collectionMemberOutput := mkMemberOutput {
  co_workItemID : string; co_workItemIndex : Z; co_manifest : MaterializedDataAssetManifest; co_asset : MaterializedDataAsset }.

(** The type of a binding and its text. *)
Definition collectionDimensionValue (value : any) : result (string * string) :=
  match value with
  | PString typed =>
      fail_if (is_empty (TrimSpace typed)) (Errorf "string binding must not be empty");; Ok ("string", typed)
  | PInt typed => Ok ("int", pretty typed)
  | PBool typed => Ok ("bool", if typed then "true" else "false")
  | _ => Err (Errorf "unsupported binding type")
  end.
Definition binding_text (bindings : gmap string any) (name : string) : result string :=
  match bindings !! name with
  | None => Err (Errorf ("member binding " +:+ name +:+ " is required"))
  | Some value => typed ← wrap_err ("member binding " +:+ name) (collectionDimensionValue value); Ok typed.2
  end.
Definition hole (name : string) : string := "${" +:+ name +:+ "}".

Definition renderCollectionRelativeTemplate (template : string) (order : list string) (bindings : gmap string any) :
    result string :=
  rendered ← foldM (λ rendered name, text ← binding_text bindings name; Ok (ReplaceAll rendered (hole name) text)) template order;
  fail_if (contains "${" rendered) (Errorf "destination template has unresolved bindings");;
  Ok rendered.

(** The root and the template of a member's path. *)
Definition abstract_binding (asset : MaterializedDataAsset) (member : MaterializedDataAssetCollectionMember)
    (relativeTemplate name : string) : result string :=
  text ← binding_text (me_MemberBindings member) name;
  fail_if (is_empty text || negb (contains text relativeTemplate))
    (Errorf ("destination_relative_path " +:+ ma_DestinationRelativePath asset +:+ " does not contain binding " +:+ name +:+
             " value " +:+ text));;
  Ok (ReplaceAll relativeTemplate text (hole name)).
Definition collectionPathTemplate (asset : MaterializedDataAsset) : result (string * string) :=
  match ma_CollectionMember asset with
  | None => Err (Errorf "collection member metadata is required")
  | Some member =>
      let destination := ma_DestinationRelativePath asset in
      fail_if (is_empty destination) (Errorf "destination_relative_path is required");;
      fail_if (negb (has_suffix destination (ma_LocalPath asset)))
        (Errorf ("local_path " +:+ ma_LocalPath asset +:+ " does not end with destination_relative_path " +:+ destination));;
      let root := trim_suffix destination (ma_LocalPath asset) in
      fail_if (is_empty root) (Errorf "materialization root is required");;
      relativeTemplate ← foldM (abstract_binding asset member) destination (me_DimensionOrder member);
      for_each (λ name, fail_if (negb (contains (hole name) relativeTemplate))
        (Errorf ("destination template " +:+ relativeTemplate +:+ " is missing binding " +:+ name))) (me_DimensionOrder member);;
      Ok (root, relativeTemplate)
  end.

Definition sameStrings (left right : list string) : bool := bool_decide (left = right).

(** The dimensions found so far, with the texts of their values. *)
Definition dimension_map : Type := gmap string (MaterializedAssetCollectionDimension * gset string).
Definition add_binding (member : MaterializedDataAssetCollectionMember) (dimensions : dimension_map) (name : string) :
    result dimension_map :=
  let value := default PNil (me_MemberBindings member !! name) in
  typed ← wrap_err ("member " +:+ pretty (me_MemberIndex member) +:+ " binding " +:+ name) (collectionDimensionValue value);
  let '(dimension, keys) := default (mkCollectionDimension "" [], ∅) (dimensions !! name) in
  fail_if (negb (is_empty (md_Type dimension)) && negb (bool_decide (md_Type dimension = typed.1)))
    (Errorf ("dimension " +:+ name +:+ " type mismatch: " +:+ typed.1 +:+ " != " +:+ md_Type dimension));;
  let dimension := mkCollectionDimension typed.1 (md_Values dimension) in
  Ok (<[name := if bool_decide (typed.2 ∈ keys) then (dimension, keys)
                else (mkCollectionDimension typed.1 (md_Values dimension ++ [value]), {[typed.2]} ∪ keys)]> dimensions).

(** The variables of the loop over the members. *)
Record collection_loop := mkCollectionLoop {
  cl_indexes : gset Z; cl_keys : gset string; cl_destinations : gset string; cl_identity : string;
  cl_dimensions : dimension_map; cl_evidence : list GoValue }.

Definition mismatch (what left right : string) : GoError := Errorf ("collection " +:+ what +:+ " mismatch: " +:+ left +:+ " != " +:+ right).

(** What the members have in common. *)
Definition same_collection (firstAsset asset : MaterializedDataAsset) (firstMember member : MaterializedDataAssetCollectionMember) :
    result unit :=
  fail_if (negb (bool_decide (ma_BindingName asset = ma_BindingName firstAsset)))
    (mismatch "asset" (ma_BindingName asset) (ma_BindingName firstAsset));;
  fail_if (negb (bool_decide (ma_MaterializationDomainID asset = ma_MaterializationDomainID firstAsset)))
    (mismatch "materialization domain" (ma_MaterializationDomainID asset) (ma_MaterializationDomainID firstAsset));;
  fail_if (negb (bool_decide (me_CollectionFingerprint member = me_CollectionFingerprint firstMember)))
    (mismatch "fingerprint" (me_CollectionFingerprint member) (me_CollectionFingerprint firstMember));;
  fail_if (negb (sameStrings (me_DimensionOrder member) (me_DimensionOrder firstMember)))
    (mismatch "dimension order" (str_join " " (me_DimensionOrder member)) (str_join " " (me_DimensionOrder firstMember)));;
  fail_if (negb (me_MemberCount member =? me_MemberCount firstMember))
    (mismatch "member_count" (pretty (me_MemberCount member)) (pretty (me_MemberCount firstMember))).

Section aggregate.
Context {unicode : Unicode} {floats : JsonFloats}.

Definition materializedMemberOutputFromJSON (item : WorkflowDependencyWorkItemMembership) : result (option collectionMemberOutput) :=
  decoded ← output_document (mi_OutputJSON item);
  match decoded with
  | JObject _ | JNull =>
      if negb (has_schema decoded MaterializedDataAssetManifestSchemaV1) then Ok None else
      manifest ← remarshal decode_materialized_manifest "materialized data asset manifest" decoded;
      wrap_err "materialized data asset manifest" (MaterializedManifest_Validate manifest);;
      match mf_Assets manifest with
      | [asset] => Ok (Some (mkMemberOutput (mi_WorkItemID item) (mi_WorkItemIndex item) manifest asset))
      | assets => Err (Errorf ("collection materialization output must contain exactly one asset, got " +:+ pretty (length assets)))
      end
  | _ => Err (Wrapf "decode materialized asset output candidate" json_mismatch)
  end.

Definition member_evidence (asset : MaterializedDataAsset) (member : MaterializedDataAssetCollectionMember) : result GoValue :=
  bindings ← encode_fields (map_to_list (me_MemberBindings member));
  Ok (GMap ([("member_index", GInt (me_MemberIndex member)); ("materialization_key", GString (ma_MaterializationKey asset));
             ("destination_relative_path", GString (ma_DestinationRelativePath asset));
             ("destination_sha256", GString (ma_DestinationSHA256 asset)); ("member_bindings", of_json (JObject bindings))] ++
            match ma_DestinationSizeBytes asset with Some n => [("destination_size_bytes", GInt n)] | None => [] end)).

(** One round of the loop: [first] is the first output after sorting. *)
Definition add_member (firstAsset : MaterializedDataAsset) (firstMember : MaterializedDataAssetCollectionMember)
    (path : string * string) (st : collection_loop) (output : collectionMemberOutput) : result collection_loop :=
  let asset := co_asset output in
  match ma_CollectionMember asset with
  | None => Err (Errorf ("work item " +:+ co_workItemID output +:+ " is missing collection member metadata"))
  | Some member =>
      let index := me_MemberIndex member in
      fail_if (bool_decide (index ∈ cl_indexes st)) (Errorf ("duplicate collection member index " +:+ pretty index));;
      fail_if ((index <? 0) || (me_MemberCount firstMember <=? index))
        (Errorf ("collection member index " +:+ pretty index +:+ " out of range"));;
      same_collection firstAsset asset firstMember member;;
      fail_if (is_empty (ma_DestinationRelativePath asset) ||
               negb (bool_decide (ma_DestinationRelativePath asset = me_DestinationRelativePath member)))
        (Errorf ("collection destination mismatch for member " +:+ pretty index));;
      fail_if (is_empty (ma_MaterializationKey asset))
        (Errorf ("collection member " +:+ pretty index +:+ " missing materialization key"));;
      fail_if (bool_decide (ma_MaterializationKey asset ∈ cl_keys st))
        (Errorf ("duplicate collection materialization key " +:+ ma_MaterializationKey asset));;
      fail_if (bool_decide (ma_DestinationRelativePath asset ∈ cl_destinations st))
        (Errorf ("duplicate collection destination " +:+ ma_DestinationRelativePath asset));;
      fail_if (negb (is_empty (cl_identity st)) && negb (is_empty (me_PathTemplateIdentity member)) &&
               negb (bool_decide (me_PathTemplateIdentity member = cl_identity st)))
        (Errorf "collection path template identity mismatch");;
      memberPath ← wrap_err ("member " +:+ pretty index) (collectionPathTemplate asset);
      fail_if (negb (bool_decide (memberPath.1 = path.1))) (mismatch "materialization root" memberPath.1 path.1);;
      fail_if (negb (bool_decide (memberPath.2 = path.2))) (mismatch "destination template" memberPath.2 path.2);;
      rendered ← wrap_err ("member " +:+ pretty index)
                   (renderCollectionRelativeTemplate path.2 (me_DimensionOrder member) (me_MemberBindings member));
      fail_if (negb (bool_decide (rendered = ma_DestinationRelativePath asset)))
        (Errorf ("member " +:+ pretty index +:+ " destination " +:+ ma_DestinationRelativePath asset +:+
                 " does not conform to template " +:+ path.2));;
      dimensions ← foldM (add_binding member) (cl_dimensions st) (me_DimensionOrder member);
      evidence ← member_evidence asset member;
      Ok (mkCollectionLoop ({[index]} ∪ cl_indexes st) ({[ma_MaterializationKey asset]} ∪ cl_keys st)
            ({[ma_DestinationRelativePath asset]} ∪ cl_destinations st)
            (if is_empty (cl_identity st) then me_PathTemplateIdentity member else cl_identity st)
            dimensions (cl_evidence st ++ [evidence]))
  end.

(** [sort.Slice] by member index and work item *)
Definition member_index (output : collectionMemberOutput) : Z :=
  match ma_CollectionMember (co_asset output) with Some member => me_MemberIndex member | None => 0 end.
Definition by_member (x y : collectionMemberOutput) : bool :=
  if member_index x =? member_index y then str_leb (co_workItemID x) (co_workItemID y) else member_index x <? member_index y.

(** The manifest of the sorted outputs, given the first of them. *)
Definition aggregate_sorted (firstAsset : MaterializedDataAsset) (firstMember : MaterializedDataAssetCollectionMember)
    (outputs : list collectionMemberOutput) : result MaterializedAssetCollectionManifest :=
  let count := me_MemberCount firstMember in
  fail_if (count <=? 0) (Errorf "collection member_count must be positive");;
  fail_if (negb (Z.of_nat (length outputs) =? count))
    (Errorf ("collection member count = " +:+ pretty (length outputs) +:+ ", want " +:+ pretty count));;
  path ← collectionPathTemplate firstAsset;
  st ← foldM (add_member firstAsset firstMember path) (mkCollectionLoop ∅ ∅ ∅ "" ∅ []) outputs;
  for_each (λ index, fail_if (negb (bool_decide (index ∈ cl_indexes st)))
    (Errorf ("missing collection member index " +:+ pretty index))) (seqZ 0 count);;
  hashed ← wrap_err "hash collection member evidence" (CanonicalJSONSHA256 (GList (cl_evidence st)));
  let manifest := mkCollectionManifest MaterializedAssetCollectionManifestSchemaV1 (ma_BindingName firstAsset)
    (ma_MaterializationDomainID firstAsset) (me_DimensionOrder firstMember) (fst <$> cl_dimensions st)
    (path.1 +:+ path.2) (me_DimensionOrder firstMember) count ("sha256:" +:+ hashed.2)
    (me_CollectionFingerprint firstMember) in
  wrap_err "materialized asset collection manifest" (CollectionManifest_Validate manifest);;
  Ok manifest.
Definition aggregate_collection (outputs : list collectionMemberOutput) : result MaterializedAssetCollectionManifest :=
  let outputs := order_by by_member outputs in
  match head outputs with
  | None => Err (Errorf "collection outputs are required")
  | Some first =>
      match ma_CollectionMember (co_asset first) with
      | None => Err (Errorf "collection member metadata is required")
      | Some firstMember => aggregate_sorted (co_asset first) firstMember outputs
      end
  end.

(** [json.Marshal] of the manifest. *)
Definition encode_dimension (dimension : MaterializedAssetCollectionDimension) : result JSON :=
  values ← encode_list encode_any (md_Values dimension);
  Ok (JObject (field "type" (JString (md_Type dimension)) ++ field "values" (JArray values))).
Definition encode_collection_manifest (manifest : MaterializedAssetCollectionManifest) : result JSON :=
  dimensions ← encode_entries encode_dimension (map_to_list (cf_Dimensions manifest));
  Ok (JObject (field "schema" (JString (cf_Schema manifest)) ++ field "asset" (JString (cf_Asset manifest)) ++
               field "materialization_domain_id" (JString (cf_MaterializationDomainID manifest)) ++
               field "dimension_order" (strings_json (cf_DimensionOrder manifest)) ++
               field "dimensions" (JObject dimensions) ++ field "path" (JString (cf_Path manifest)) ++
               field "required_bindings" (strings_json (cf_RequiredBindings manifest)) ++
               field "member_count" (JInt (cf_MemberCount manifest)) ++
               field "members_sha256" (JString (cf_MembersSHA256 manifest)) ++
               field "collection_fingerprint" (JString (cf_CollectionFingerprint manifest)))).

(** The interface of [aggregateStepOutputJSON]. *)
#[export] Instance collection_outputs : CollectionOutputs := {|
  materializedCollectionMemberOutput := collectionMemberOutput;
  materializedCollectionMemberOutputFromJSON := materializedMemberOutputFromJSON;
  isCollectionMember output := bool_decide (is_Some (ma_CollectionMember (co_asset output)));
  aggregateMaterializedCollectionOutput outputs :=
    manifest ← aggregate_collection outputs;
    v ← encode_collection_manifest manifest;
    Ok (print v) |}.
End aggregate.

(** * What the manifest of a collection says of its members

    When the outputs of a step are put together, the path of the manifest, filled with the
    bindings of a member, is the path of that member's file, and the members are exactly
    those numbered below the member count. *)
Local Open Scope Z_scope.

Section laws.
Context {unicode : Unicode} {floats : JsonFloats}.

(** What a round of the loop has established of its output. *)
Definition located (path : string * string) (order : list string) (o : collectionMemberOutput) : Prop :=
  ∃ member, ma_CollectionMember (co_asset o) = Some member ∧
    renderCollectionRelativeTemplate path.2 order (me_MemberBindings member) = Ok (ma_DestinationRelativePath (co_asset o)) ∧
    ma_LocalPath (co_asset o) = path.1 +:+ ma_DestinationRelativePath (co_asset o).

Lemma suffix_split d p : has_suffix d p = true → p = trim_suffix d p +:+ d.
Proof.
  intros H. unfold trim_suffix. rewrite H. apply andb_true_iff in H as [_ Hd%bool_decide_eq_true].
  rewrite <-Hd at 2. by rewrite take_drop_str.
Qed.
Lemma path_template_root asset root template :
  collectionPathTemplate asset = Ok (root, template) → ma_LocalPath asset = root +:+ ma_DestinationRelativePath asset.
Proof. unfold collectionPathTemplate. intros H. case_match; result_inv. apply suffix_split. by apply negb_false_iff. Qed.

(** A round: the index is new and in range, and the member is found by the template. *)
Lemma add_member_Ok fa fm path st o st' : add_member fa fm path st o = Ok st' →
  member_index o ∉ cl_indexes st ∧ 0 ≤ member_index o < me_MemberCount fm ∧ located path (me_DimensionOrder fm) o ∧
  cl_indexes st' = {[member_index o]} ∪ cl_indexes st.
Proof.
  unfold add_member, member_index, located, same_collection. intros H.
  destruct (ma_CollectionMember (co_asset o)) as [member|]; [|done]. result_inv.
  repeat match goal with
    | H : negb _ = false |- _ => apply negb_false_iff in H
    | H : orb _ _ = false |- _ => apply orb_false_iff in H as [? ?]
    | H : sameStrings _ _ = true |- _ => apply bool_decide_eq_true in H
    | H : bool_decide _ = true |- _ => apply bool_decide_eq_true in H
    | H : bool_decide _ = false |- _ => apply bool_decide_eq_false in H
    end.
  match goal with H : collectionPathTemplate _ = Ok ?x |- _ => destruct x; apply path_template_root in H as Hpath end.
  destruct path; simplify_eq/=. split_and!; [done|lia|lia| |done]. exists member. by split_and!; congruence.
Qed.
Lemma add_members_Ok fa fm path outputs st st' : foldM (add_member fa fm path) st outputs = Ok st' →
  Forall (located path (me_DimensionOrder fm)) outputs ∧ NoDup (member_index <$> outputs) ∧
  Forall (λ o, 0 ≤ member_index o < me_MemberCount fm ∧ member_index o ∉ cl_indexes st) outputs.
Proof.
  revert st. induction outputs as [|o outputs IH]; intros st H; [by repeat constructor|].
  cbn [foldM] in H. apply bind_Ok in H as (st1 & (Hnew & Hrange & Hloc & Hst1)%add_member_Ok & (Hlocs & Hdup & Hrest)%IH).
  rewrite Hst1 in Hrest. split_and!; [by constructor| |constructor; [done|]].
  - csimpl. constructor; [|done]. intros (o' & Heq & Hin)%list_elem_of_fmap.
    eapply Forall_forall in Hrest as [_ Hni]; [|done]. set_solver.
  - eapply Forall_impl; [done|]. intros o' [? ?]. set_solver.
Qed.
Lemma perm_of_range (l : list Z) n :
  NoDup l → Forall (λ z, 0 ≤ z < n) l → Z.of_nat (length l) = n → l ≡ₚ seqZ 0 n.
Proof.
  intros Hdup Hrange Hlen. apply NoDup_Permutation; [done|apply NoDup_seqZ|].
  assert (Hsub : l ⊆ seqZ 0 n) by (intros z Hz; apply elem_of_seqZ; eapply Forall_forall in Hrange; [|done]; lia).
  intros z. split; [apply Hsub|]. revert z. apply NoDup_submseteq in Hsub; [|done].
  apply submseteq_length_Permutation in Hsub; [intros z; by rewrite Hsub|]. rewrite length_seqZ. lia.
Qed.

(** C15: when the outputs of the members are put together, there is a root and a template
    that make up the path of the manifest such that filling the template with the bindings of
    any member gives its destination, which below the root is its file; and the members are
    numbered 0, 1, ... up to the count, each exactly once. *)
Theorem manifest_locates_every_member outputs manifest :
  aggregate_collection outputs = Ok manifest →
  member_index <$> outputs ≡ₚ seqZ 0 (cf_MemberCount manifest) ∧
  ∃ root template, cf_Path manifest = root +:+ template ∧
    Forall (located (root, template) (cf_DimensionOrder manifest)) outputs.
Proof.
  unfold aggregate_collection. intros H.
  assert (Hperm : order_by by_member outputs ≡ₚ outputs) by apply merge_sort_Permutation. rewrite <-Hperm at 1.
  generalize dependent (order_by by_member outputs). intros sorted H Hperm.
  destruct (head sorted) as [first|]; [|done]. destruct (ma_CollectionMember _) as [fm|]; [|done].
  unfold aggregate_sorted in H. result_inv.
  match goal with H : foldM _ _ _ = Ok _ |- _ => apply add_members_Ok in H as (Hloc & Hdup & Hrange) end. split.
  - apply perm_of_range; [done| |].
    + apply Forall_fmap. eapply Forall_impl; [done|]. by intros ? [? _].
    + rewrite length_fmap. match goal with H : negb (_ =? _) = false |- _ => by apply negb_false_iff, Z.eqb_eq in H end.
  - match goal with p : string * string, H : collectionPathTemplate _ = Ok ?p |- _ => destruct p as [root template] end.
    exists root, template. split; [done|]. by rewrite <-Hperm.
Qed.
End laws.

(** ** Instances *)

Definition demo_fingerprint : string := "sha256:" +:+ SHA256Hex "collection".
Definition demo_member (path : string → string) (count index tile : Z) : collectionMemberOutput :=
  let destination := path (pretty tile) in
  let asset := mkMaterializedAsset "tiles" "p" "local_file" "raster" "tif" ("/data/" +:+ destination)
    ("key-" +:+ pretty tile) "target-local" destination None "" "shared" "" None None "" None "" "" [] []
    (Some (mkCollectionMember demo_fingerprint index count ["tile"] {["tile" := PInt tile]} destination "")) in
  mkMemberOutput ("item-" +:+ pretty tile) index (mkMaterializedManifest "" "" "" [asset]) asset.
Definition demo_members (path : string → string) : list collectionMemberOutput :=
  [demo_member path 2 1 18; demo_member path 2 0 17].
Definition demo_manifest : result MaterializedAssetCollectionManifest :=
  @aggregate_collection latin1_only plain_floats (demo_members (λ tile, "cdl/tile-" +:+ tile +:+ ".tif")).

Lemma manifest_locates_every_member_witness :
  ∃ manifest, demo_manifest = Ok manifest ∧ cf_Path manifest = "/data/cdl/tile-${tile}.tif" ∧
    member_index <$> demo_members (λ tile, "cdl/tile-" +:+ tile +:+ ".tif") ≡ₚ seqZ 0 (cf_MemberCount manifest).
Proof.
  destruct demo_manifest as [manifest|] eqn:Hm; [|exfalso; vm_compute in Hm; discriminate].
  exists manifest. split; [done|split].
  - assert (Hp : fmap cf_Path demo_manifest = Ok "/data/cdl/tile-${tile}.tif") by (vm_compute; reflexivity).
    rewrite Hm in Hp. injection Hp as Hp. exact Hp.
  - exact (proj1 (@manifest_locates_every_member latin1_only plain_floats _ _ Hm)).
Defined.

(** The template is recovered by putting the name of a dimension for every occurrence of
    its value.  When a value also occurs in the fixed part of the path, as the value 1 in
    [v1/tile-1.tif], the members disagree on the template and a complete collection of
    files at the places its path template gives is refused. *)
Theorem value_in_fixed_path_breaks_collection :
  let path tile := "v1/tile-" +:+ tile +:+ ".tif" in
  let outputs := [demo_member path 2 0 1; demo_member path 2 1 2] in
  (∀ o, o ∈ outputs → located ("/data/", "v1/tile-${tile}.tif") ["tile"] o) ∧
  @aggregate_collection latin1_only plain_floats outputs =
    Err (mismatch "destination template" "v1/tile-${tile}.tif" "v${tile}/tile-${tile}.tif").
Proof.
  split; [|vm_compute; reflexivity].
  intros o Ho. apply elem_of_cons in Ho as [->|[->|[]%not_elem_of_nil]%elem_of_cons]; eexists; vm_compute; done.
Qed.
