(* ===== verification/StageQueue.v ===== *)
(** * Queueing compiled stages ([cmd/controller/workflow_stage_queue.go], [main.go])

    The records that a compiled stage becomes: the work items with their payload, those
    that can be queued at once, the memberships of steps and the resource constraints.
    An item that depends on another of the same batch is stored but not queued. *)

From S2P Require Import Prelude GoTime GoJson GoStrings GoJsonLaws GoSha256 Fingerprint GoJsonStruct.
From S2P Require Import Variables Expression Functions Resolver VariableCodec StoreData StoreSQL StoreOps StoreQueries.
From S2P Require Import Dependency DependencyStore WorkItem WorkItemCodec GoFmt FanOut Stages Compile Dependents.
From S2P Require Import FanOutLaws.
Local Open Scope Z_scope.

(** [hex.EncodeToString(sha256.Sum256(data))] *)
Definition sha256HexBytes (data : string) : string := EncodeToString (Sum256 data).
(** [fingerprint(label, value)]; a value that cannot be written makes the whole item
    impossible to write, so that its own failure does not matter. *)
Definition fingerprint (label : string) (value : JSON) : string := label +:+ ":sha256:" +:+ sha256HexBytes (print value).

(** [canonicalSourceDocument] *)
Definition canonicalSourceDocument (data : string) : result (string * string) :=
  match decode_document data with
  | Malformed => Err json_syntax
  | Trailing => Err (Errorf "source document contains multiple JSON values")
  | Document value => CanonicalJSONSHA256 (of_json value)
  end.

Definition persistenceResourceConstraintRecords (constraints : list WorkItemResourceConstraint) :
    list WorkItemResourceConstraintRecord := persistenceResourceConstraintRecord <$> constraints.

Definition hasCurrentStageDependency (dependsOn : list string) (currentStageWorkItemIDs : gset string) : bool :=
  existsb (λ id, bool_decide (id ∈ currentStageWorkItemIDs)) dependsOn.

Section queue.
Context {ops : DataOperators} {floats : JsonFloats} {payload : PayloadJSON DataPayload}.

(** ** A compiled workflow by stages *)

(** [stepIndexByID] and [stageIndexByID]: a later step hides an earlier one. *)
Definition step_places (stages : list (WorkflowStage FanOutStep)) : gmap string (Z * Z) :=
  foldl (λ m p, <[p.1 := p.2]> m) ∅
    (stages ≫= λ g, (λ s, (wss_StepID s, (wst_Index g, wss_StepIndex s))) <$> wst_Steps g).
Definition place_item (workflowID : string) (places : gmap string (Z * Z))
    (st : gmap string Z * gmap Z (list CompileStageWorkItem)) (item : CompiledWorkItem) :
    result (gmap string Z * gmap Z (list CompileStageWorkItem)) :=
  let '(next, byStage) := st in
  match places !! cw_StepID item with
  | None => Err (Errorf ("compiled work item references unknown step: " +:+ cw_StepID item))
  | Some (stageIndex, stepIndex) =>
      let workItemIndex := default 0 (next !! cw_StepID item) in
      Ok (<[cw_StepID item := workItemIndex + 1]> next,
          <[stageIndex := default [] (byStage !! stageIndex) ++
              [mkStageItem workflowID stageIndex stepIndex (cw_StepID item) workItemIndex (cw_WorkItem item)
                 (cw_ResourceConstraints item)]]> byStage)
  end.
Definition splitCompiledWorkflowByStage (compileResult : CompileResult) (plan : WorkflowPlan FanOutStep) :
    result (list CompileStageResult) :=
  let places := step_places (wp_Stages plan) in
  '(_, byStage) ← foldM (place_item (cm_WorkflowID compileResult) places) (∅, ∅) (cm_WorkItems compileResult);
  let steps index := order_by (λ a b, wss_StepIndex a <=? wss_StepIndex b)
    (wp_Stages plan ≫= λ g, if wst_Index g =? index then wst_Steps g else []) in
  Ok ((order_by Z.leb (wst_Index <$> wp_Stages plan)) ≫= λ index,
        match default [] (byStage !! index) with
        | [] => []
        | items => [mkStageResult (cm_WorkflowID compileResult) index (steps index) items]
        end).

(** ** The records of a stage *)

(** The fields that the controller sets on an item, with its fingerprints; [named] is the
    item's name in an error. *)
Definition with_runtime_metadata (named workflowID workflowFingerprint workflowInstanceID stepID stepInstanceID codeVersion : string)
    (i : WorkItem DataPayload) : result (WorkItem DataPayload) :=
  envelope ← wrap_err ("build execution envelope for work item " +:+ named) (NewExecutionEnvelope i);
  variables ← encode_variables envelope;
  let work_item := fingerprint "work-item"
    (JObject (order_by by_key [("id", JString (w_ID i)); ("type", JString (w_Type i));
       ("output_filename", JString (w_OutputFilename i)); ("variables", variables)])) in
  Ok (mkItem (w_ID i) (w_AttemptID i) (w_Type i) (w_Source i) (w_OutputFilename i) (w_Parameters i) (Some envelope)
        (w_DependsOn i) (w_ReuseCandidates i) workflowID workflowFingerprint workflowInstanceID stepID
        (fingerprint "step" (JObject [("id", JString stepID); ("workflow_fingerprint", JString workflowFingerprint)]))
        stepInstanceID work_item (fingerprint "input" variables)
        (fingerprint "output" (JObject [("output_filename", JString (w_OutputFilename i))])) codeVersion).
Definition workflow_fingerprint (workflowID : string) : string := fingerprint "workflow" (JObject [("id", JString workflowID)]).

(** [runID + ":" + dependencyID], unless it is there already. *)
Definition persisted_dependency (runID dependencyID : string) : string :=
  if negb (is_empty dependencyID) && negb (has_prefix (runID +:+ ":") dependencyID)
  then runID +:+ ":" +:+ dependencyID else dependencyID.
Definition set_dependencies (dependsOn : list string) (i : WorkItem DataPayload) : WorkItem DataPayload :=
  mkItem (w_ID i) (w_AttemptID i) (w_Type i) (w_Source i) (w_OutputFilename i) (w_Parameters i) (w_ExecutionEnvelope i)
    dependsOn (w_ReuseCandidates i) (w_WorkflowDefinitionID i) (w_WorkflowFingerprint i) (w_WorkflowInstanceID i)
    (w_StepDefinitionID i) (w_StepFingerprint i) (w_StepInstanceID i) (w_WorkItemFingerprint i) (w_InputFingerprint i)
    (w_OutputFingerprint i) (w_CodeVersion i).

Record queue_records := mkQueueRecords {
  qs_items : list WorkItemRecord; qs_queued : list QueuedWorkRecord;
  qs_memberships : list compiledStageWorkItemMembership; qs_constraints : list WorkItemResourceConstraintRecord }.

(** The variables of the loop over the items: the next index of a stage, the instance of
    a step, the records, what they depend on, their memberships and constraints. *)
Record stage_loop := mkStageLoop {
  lp_next : gmap Z Z; lp_stepInstances : gmap string string; lp_items : list WorkItemRecord;
  lp_dependsOn : gmap string (list string); lp_memberships : gmap string compiledStageWorkItemMembership;
  lp_constraints : list WorkItemResourceConstraintRecord }.

Definition constraint_record (id timestamp : string) (c : WorkItemResourceConstraint) :
    result WorkItemResourceConstraintRecord :=
  let c := mkWorkConstraint id (wc_ConstraintIndex c) (wc_ResourceKey c) (wc_RequestedUnits c) (wc_Operator c)
             (wc_TargetUnits c) timestamp in
  wrap_err ("validate resource constraint for work item " +:+ id) (WorkItemResourceConstraint_Validate c);;
  Ok (persistenceResourceConstraintRecord c).

Definition add_stage_record (runID workflowFingerprint codeVersion timestamp : string) (st : stage_loop)
    (wi : string * CompileStageWorkItem) : result stage_loop :=
  let '(workflowID, item) := wi in
  let workItemIndex := default 0 (lp_next st !! si_StageIndex item) in
  let stepInstance := default (runID +:+ ":step:" +:+ pretty (si_StepIndex item)) (lp_stepInstances st !! si_StepID item) in
  itemPayload ← with_runtime_metadata (w_ID (si_WorkItem item)) workflowID workflowFingerprint runID (si_StepID item) stepInstance codeVersion
                  (si_WorkItem item);
  let itemPayload := set_dependencies (persisted_dependency runID <$> w_DependsOn itemPayload) itemPayload in
  text ← wrap_err "encode workflow work item" (Marshal_item itemPayload);
  hashed ← wrap_err "hash workflow work item" (canonicalSourceDocument text);
  let id := runID +:+ ":" +:+ w_ID itemPayload in
  constraints ← traverse_items (λ _ c, constraint_record id timestamp c) 0 (si_ResourceConstraints item);
  Ok (mkStageLoop (<[si_StageIndex item := workItemIndex + 1]> (lp_next st))
        (<[si_StepID item := stepInstance]> (lp_stepInstances st))
        (lp_items st ++ [mkWorkItem id runID (si_StageIndex item) workItemIndex text hashed.2 timestamp])
        (<[id := w_DependsOn itemPayload]> (lp_dependsOn st))
        (if bool_decide (w_Type itemPayload = WorkItemTypeAssetMaterialize) then lp_memberships st
         else <[id := mkCompiledMembership (si_StageIndex item) (si_StepIndex item) id workItemIndex]> (lp_memberships st))
        (lp_constraints st ++ constraints)).

Definition stage_items (stageResults : list CompileStageResult) : list (string * CompileStageWorkItem) :=
  stageResults ≫= λ stage, (λ item, (sr_WorkflowID stage, item)) <$> sr_WorkItems stage.
Definition persistenceRecordsFromCompiledStageResults (runID : string) (stageResults : list CompileStageResult)
    (codeVersion : string) (submittedAt : Time) : result queue_records :=
  let timestamp := format_rfc3339 (UTC submittedAt) in
  let workflowID := match stageResults with [] => "" | stage :: _ => sr_WorkflowID stage end in
  st ← foldM (add_stage_record runID (workflow_fingerprint workflowID) codeVersion timestamp)
         (mkStageLoop ∅ ∅ [] ∅ ∅ []) (stage_items stageResults);
  let current : gset string := list_to_set (wi_ID <$> lp_items st) in
  let ready := List.filter (λ r, negb (hasCurrentStageDependency (default [] (lp_dependsOn st !! wi_ID r)) current)) (lp_items st) in
  Ok (mkQueueRecords (lp_items st) ((λ r, mkQueued r timestamp) <$> ready)
        (omap (λ r, lp_memberships st !! wi_ID r) ready) (lp_constraints st)).

(** ** A whole workflow at once ([main.go]) *)

Definition workItemsWithRuntimeMetadata (random : string) (workflowID : string) (compiledItems : list CompiledWorkItem)
    (codeVersion : string) : result (list (WorkItem DataPayload)) :=
  let instance := workflowID +:+ "-instance-" +:+ random in
  traverse_items (λ _ c, with_runtime_metadata "" workflowID (workflow_fingerprint workflowID) instance (cw_StepID c)
                           (instance +:+ "-step-" +:+ cw_StepID c) codeVersion (cw_WorkItem c)) 0 compiledItems.
Definition add_workflow_record (runID timestamp : string) (stageIndexes : gmap string Z)
    (st : gmap Z Z * list WorkItemRecord) (ci : CompiledWorkItem * WorkItem DataPayload) :
    result (gmap Z Z * list WorkItemRecord) :=
  let '(next, records) := st in
  match stageIndexes !! cw_StepID ci.1 with
  | None => Err (Errorf ("compiled work item references unknown step: " +:+ cw_StepID ci.1))
  | Some stageIndex =>
      let workItemIndex := default 0 (next !! stageIndex) in
      text ← wrap_err "encode workflow work item" (Marshal_item ci.2);
      hashed ← wrap_err "hash workflow work item" (canonicalSourceDocument text);
      Ok (<[stageIndex := workItemIndex + 1]> next,
          records ++ [mkWorkItem (runID +:+ ":" +:+ w_ID ci.2) runID stageIndex workItemIndex text hashed.2 timestamp])
  end.
Definition persistenceRecordsFromCompiledWorkflow (random runID : string) (workflowDefinition : Workflow FanOutStep)
    (compileResult : CompileResult) (codeVersion : string) (submittedAt : Time) :
    result (list WorkItemRecord * list QueuedWorkRecord) :=
  items ← workItemsWithRuntimeMetadata random (cm_WorkflowID compileResult) (cm_WorkItems compileResult) codeVersion;
  let stageIndexes := foldl (λ m ns, <[step_ID ns.2 := ns.1]> m) ∅ (enumerate 0 (workflow_Steps workflowDefinition)) in
  let timestamp := format_rfc3339 (UTC submittedAt) in
  '(_, records) ← foldM (add_workflow_record runID timestamp stageIndexes) (∅, []) (zip (cm_WorkItems compileResult) items);
  Ok (records, List.map (λ r, mkQueued r timestamp) records).
End queue.

(** * The records of a compiled stage

    What [persistenceRecordsFromCompiledStageResults] makes of the items of a stage: one
    record for each, numbered within its stage in the order of the items; queued are
    exactly those that depend on no item of the same batch; members of their step are
    exactly the queued ones that do not materialise an asset. *)
Local Open Scope Z_scope.

Section laws.
Context {ops : DataOperators} {floats : JsonFloats} {payload : PayloadJSON DataPayload}.

(** ** Reference definitions *)

Definition record_id (runID : string) (i : CompileStageWorkItem) : string := runID +:+ ":" +:+ w_ID (si_WorkItem i).
Definition dependencies (runID : string) (i : CompileStageWorkItem) : list string :=
  persisted_dependency runID <$> w_DependsOn (si_WorkItem i).
(** The number of an item: how many of the earlier ones are in its stage. *)
Definition number_in_stage (earlier : list CompileStageWorkItem) (i : CompileStageWorkItem) : Z :=
  Z.of_nat (length (List.filter (λ e, si_StageIndex e =? si_StageIndex i) earlier)).
Fixpoint numbered (earlier items : list CompileStageWorkItem) : list (CompileStageWorkItem * Z) :=
  match items with
  | [] => []
  | i :: rest => (i, number_in_stage earlier i) :: numbered (earlier ++ [i]) rest
  end.
Definition place (runID : string) (n : CompileStageWorkItem * Z) : string * string * Z * Z :=
  (record_id runID n.1, runID, si_StageIndex n.1, n.2).
Definition record_place (r : WorkItemRecord) : string * string * Z * Z :=
  (wi_ID r, wi_RunID r, wi_StageIndex r, wi_WorkItemIndex r).
(** Nothing the item depends on is in the batch. *)
Definition independent (runID : string) (items : list CompileStageWorkItem) (i : CompileStageWorkItem) : bool :=
  negb (existsb (λ d, bool_decide (d ∈ record_id runID <$> items)) (dependencies runID i)).
Definition materialises (i : CompileStageWorkItem) : bool := bool_decide (w_Type (si_WorkItem i) = WorkItemTypeAssetMaterialize).
Definition member (runID : string) (n : CompileStageWorkItem * Z) : compiledStageWorkItemMembership :=
  mkCompiledMembership (si_StageIndex n.1) (si_StepIndex n.1) (record_id runID n.1) n.2.
(** The item a record carries for the worker: the compiled one, for this run, step and code
    version, with what it depends on named as the records are. *)
Definition carries (runID codeVersion : string) (i : CompileStageWorkItem) (p : WorkItem DataPayload) : Prop :=
  w_ID p = w_ID (si_WorkItem i) ∧ w_Type p = w_Type (si_WorkItem i) ∧ w_Source p = w_Source (si_WorkItem i) ∧
  w_OutputFilename p = w_OutputFilename (si_WorkItem i) ∧ w_Parameters p = w_Parameters (si_WorkItem i) ∧
  w_ReuseCandidates p = w_ReuseCandidates (si_WorkItem i) ∧ w_DependsOn p = dependencies runID i ∧
  w_WorkflowInstanceID p = runID ∧ w_StepDefinitionID p = si_StepID i ∧ w_CodeVersion p = codeVersion.
Definition carrying (runID codeVersion timestamp : string) (r : WorkItemRecord) (n : CompileStageWorkItem * Z) : Prop :=
  wi_CreatedAt r = timestamp ∧ ∃ p, carries runID codeVersion n.1 p ∧ Marshal_item p = Ok (wi_WorkerPayloadJSON r).
(** The constraints of an item, under the id of its record. *)
Definition stored_constraints (runID timestamp : string) (i : CompileStageWorkItem) : list WorkItemResourceConstraintRecord :=
  (λ c, mkConstraint (record_id runID i) (wc_ConstraintIndex c) (wc_ResourceKey c) (wc_RequestedUnits c) (wc_Operator c)
          (wc_TargetUnits c) timestamp) <$> si_ResourceConstraints i.

(** ** The loop *)

Lemma runtime_metadata_keeps named wid wf runID step stepInst cv i i' :
  with_runtime_metadata named wid wf runID (si_StepID step) stepInst cv i = Ok i' → si_WorkItem step = i →
  carries runID cv step (set_dependencies (persisted_dependency runID <$> w_DependsOn i') i') ∧ w_DependsOn i' = w_DependsOn i.
Proof. unfold with_runtime_metadata. intros H <-. result_inv. split; [|done]. unfold carries. split_and!; done. Qed.
Lemma constraint_records id timestamp n cs records :
  traverse_items (λ _ c, constraint_record id timestamp c) n cs = Ok records →
  records = (λ c, mkConstraint id (wc_ConstraintIndex c) (wc_ResourceKey c) (wc_RequestedUnits c) (wc_Operator c)
          (wc_TargetUnits c) timestamp) <$> cs.
Proof.
  revert n records. induction cs as [|c cs IH]; intros n records H; [by injection H as <-|]. cbn [traverse_items] in H.
  apply bind_Ok in H as (r & Hr & H). apply bind_Ok in H as (rest & Hrest & [= <-]). csimpl. f_equal; [|by eapply IH].
  unfold constraint_record in Hr. cbv zeta in Hr. apply bind_Ok in Hr as (u & _ & Hr). injection Hr as <-. done.
Qed.

(** What the loop has done with the items so far. *)
Definition loop_ok (runID cv ts : string) (items : list CompileStageWorkItem) (st : stage_loop) : Prop :=
  Forall2 (carrying runID cv ts) (lp_items st) (numbered [] items) ∧
  lp_constraints st = (items ≫= stored_constraints runID ts) ∧
  (∀ g, default 0 (lp_next st !! g) = Z.of_nat (length (List.filter (λ e, si_StageIndex e =? g) items))) ∧
  record_place <$> lp_items st = place runID <$> numbered [] items ∧
  (∀ n, n ∈ numbered [] items → lp_dependsOn st !! record_id runID n.1 = Some (dependencies runID n.1) ∧
     lp_memberships st !! record_id runID n.1 = if materialises n.1 then None else Some (member runID n)) ∧
  (∀ id, id ∉ record_id runID <$> items → lp_memberships st !! id = None).

Lemma numbered_app earlier l1 l2 : numbered earlier (l1 ++ l2) = numbered earlier l1 ++ numbered (earlier ++ l1) l2.
Proof.
  revert earlier. induction l1 as [|i l1 IH]; intros earlier; cbn [app numbered]; [by rewrite app_nil_r|].
  by rewrite IH, <-app_assoc.
Qed.
Lemma numbered_fst earlier l : (numbered earlier l).*1 = l.
Proof. revert earlier. induction l as [|i l IH]; intros earlier; csimpl; [done|by rewrite IH]. Qed.

Lemma add_record_ok runID wf cv ts items w st st' :
  record_id runID w.2 ∉ record_id runID <$> items →
  loop_ok runID cv ts items st → add_stage_record runID wf cv ts st w = Ok st' → loop_ok runID cv ts (items ++ [w.2]) st'.
Proof.
  destruct w as [wid item]. cbn [snd]. intros Hnew (Hcarry & Hcons & Hnext & Hitems & Hmaps & Hout) H. unfold add_stage_record in H. cbv zeta in H.
  apply bind_Ok in H as (p & Hp & H). apply bind_Ok in H as (text & Htext & H). apply bind_Ok in H as (hashed & _ & H).
  apply bind_Ok in H as (cs & Hcs & H). apply (runtime_metadata_keeps _ _ _ _ item) in Hp as (Hp & Hdep); [|done].
  rewrite wrap_err_Ok in Htext. apply constraint_records in Hcs. destruct (Hp) as (Hid & Hty & _).
  match type of H with Ok ?x = _ => assert (Hst : st' = x) by congruence end.
  assert (Hrid : runID +:+ ":" +:+ w_ID (set_dependencies (persisted_dependency runID <$> w_DependsOn p) p) = record_id runID item)
    by (by rewrite Hid).
  rewrite Hrid in Hcs. rewrite Hst, Hrid. clear H Hst. unfold loop_ok. cbn [lp_next lp_items lp_dependsOn lp_memberships lp_constraints].
  rewrite Hty. cbn [set_dependencies w_DependsOn]. rewrite Hdep. rewrite numbered_app, bind_app, !fmap_app. cbn [numbered fmap list_fmap app].
  pose proof (Hnext (si_StageIndex item)) as Hhere. split_and!.
  - apply Forall2_app; [done|]. constructor; [|constructor]. split; [done|]. by exists (set_dependencies (persisted_dependency runID <$> w_DependsOn p) p).
  - rewrite Hcons, Hcs. csimpl. by rewrite app_nil_r.
  - intros g. rewrite List.filter_app, length_app. destruct (decide (g = si_StageIndex item)) as [->|Hg].
    + rewrite lookup_insert_eq. cbn [default from_option id List.filter]. rewrite Z.eqb_refl, Hhere. cbn [length]. lia.
    + rewrite lookup_insert_ne, Hnext by done. cbn [List.filter]. rewrite (proj2 (Z.eqb_neq _ _)) by done. cbn [length]. lia.
  - rewrite Hitems. do 2 f_equal. unfold record_place, place, number_in_stage. cbn [wi_ID wi_RunID wi_StageIndex wi_WorkItemIndex fst snd].
    by rewrite Hhere.
  - intros n [Hn|Hn]%elem_of_app.
    + assert (Hne : record_id runID item ≠ record_id runID n.1).
      { intros Heq. apply Hnew. rewrite Heq. apply list_elem_of_fmap_2. rewrite <-(numbered_fst [] items). by apply list_elem_of_fmap_2. }
      destruct (Hmaps n Hn) as [Hd Hm]. rewrite lookup_insert_ne by done. split; [done|].
      case_bool_decide; [done|]. by rewrite lookup_insert_ne.
    + apply list_elem_of_singleton in Hn as ->. cbn [fst]. rewrite lookup_insert_eq. split; [done|]. unfold materialises.
      case_bool_decide; [by apply Hout|]. rewrite lookup_insert_eq. unfold member, number_in_stage. cbn [fst snd app]. by rewrite Hhere.
  - intros id Hid'. rewrite not_elem_of_app in Hid'. destruct Hid' as [Ho Hi]. case_bool_decide; [by apply Hout|].
    rewrite lookup_insert_ne; [by apply Hout|]. intros <-. apply Hi. by left.
Qed.

Lemma records_loop runID wf cv ts todo done_ st st' :
  NoDup (record_id runID <$> done_ ++ todo.*2) → loop_ok runID cv ts done_ st →
  foldM (add_stage_record runID wf cv ts) st todo = Ok st' → loop_ok runID cv ts (done_ ++ todo.*2) st'.
Proof.
  revert done_ st. induction todo as [|w todo IH]; intros done_ st Hdup Hst H.
  { injection H as <-. by rewrite app_nil_r. }
  cbn [foldM] in H. apply bind_Ok in H as (st1 & H1 & H2). csimpl. csimpl in Hdup.
  rewrite (cons_middle w.2), (assoc_L (++)) in Hdup |- *. apply (IH _ st1); [done| |done].
  eapply add_record_ok; [|done|done]. rewrite !fmap_app in Hdup. apply NoDup_app in Hdup as [Hdup _].
  apply NoDup_app in Hdup as (_ & Hdis & _). intros Hin. apply (Hdis _ Hin). by left.
Qed.

(** Two lists that agree through [f] and [g], filtered and mapped by what agrees too. *)
Section agree.
Context {A B C : Type} (f : A → C) (g : B → C).
Lemma agree_filter (P : A → bool) (Q : B → bool) l k :
  f <$> l = g <$> k → (∀ a b, b ∈ k → f a = g b → P a = Q b) → f <$> List.filter P l = g <$> List.filter Q k.
Proof.
  revert k. induction l as [|a l IH]; intros [|b k] H HPQ; try done. csimpl in H. injection H as Hab H. cbn [List.filter].
  rewrite (HPQ a b) by (done || left). assert (IH' := IH k H ltac:(intros; apply HPQ; [by right|done])).
  destruct (Q b); csimpl; [by f_equal|done].
Qed.
Lemma agree_omap {D} (h : A → option D) (h' : B → option D) (l : list A) (k : list B) :
  f <$> l = g <$> k → (∀ a b, b ∈ k → f a = g b → h a = h' b) → omap h l = omap h' k.
Proof.
  revert k. induction l as [|a l IH]; intros [|b k] H Hh; try done. csimpl in H. injection H as Hab H. csimpl.
  rewrite (Hh a b) by (done || left). rewrite (IH k H) by (intros; apply Hh; [by right|done]). done.
Qed.
End agree.
Lemma omap_filter {A B} (P : A → bool) (h : A → option B) (k : A → B) (l : list A) :
  (∀ a, a ∈ l → h a = if P a then Some (k a) else None) → omap h l = k <$> List.filter P l.
Proof.
  induction l as [|a l IH]; intros Hh; [done|]. csimpl. rewrite (Hh a) by left. rewrite IH by (intros; apply Hh; by right).
  by destruct (P a).
Qed.
Lemma existsb_pointwise {A} (f g : A → bool) l : (∀ a, f a = g a) → existsb f l = existsb g l.
Proof. intros H. induction l as [|a l IH]; [done|]. cbn [existsb]. by rewrite H, IH. Qed.
Lemma filter_filter_andb {A} (P Q : A → bool) l : List.filter Q (List.filter P l) = List.filter (λ a, P a && Q a) l.
Proof. induction l as [|a l IH]; [done|]. cbn [List.filter]. destruct (P a); cbn [andb List.filter]; [|done]. by rewrite IH. Qed.

(** Every membership is that of an item that materialises nothing. *)
Lemma membership_source runID stages codeVersion submittedAt r m :
  persistenceRecordsFromCompiledStageResults runID stages codeVersion submittedAt = Ok r → m ∈ qs_memberships r →
  ∃ i, i ∈ (stage_items stages).*2 ∧ materialises i = false ∧
    cm_stageIndex m = si_StageIndex i ∧ cm_stepIndex m = si_StepIndex i.
Proof.
  unfold persistenceRecordsFromCompiledStageResults. cbv zeta. intros H Hm. apply bind_Ok in H as (st & Hst & [= <-]).
  apply list_elem_of_omap in Hm as (w & _ & Hm). cbn [qs_memberships] in Hm.
  set (P := λ st : stage_loop, map_Forall (λ _ m, ∃ i, i ∈ (stage_items stages).*2 ∧ materialises i = false ∧
    cm_stageIndex m = si_StageIndex i ∧ cm_stepIndex m = si_StepIndex i) (lp_memberships st)).
  enough (P st) as HP by exact (HP _ _ Hm).
  refine (foldM_inv P _ _ _ _ _ _ Hst); [|apply map_Forall_empty].
  intros st1 [wid item] st2 Hin HP H. unfold add_stage_record in H. cbv zeta in H.
  apply bind_Ok in H as (p & Hp & H). apply bind_Ok in H as (text & _ & H). apply bind_Ok in H as (hashed & _ & H).
  apply bind_Ok in H as (cs & _ & [= <-]). apply (runtime_metadata_keeps _ _ _ _ item) in Hp as ((_ & Hty & _) & _); [|done].
  unfold P. cbn [lp_memberships]. cbn [set_dependencies w_Type] in Hty |- *. rewrite Hty. case_bool_decide as Ha; [exact HP|]. apply map_Forall_insert_2; [|exact HP].
  exists item. split_and!; [by apply (list_elem_of_fmap_2 snd _ (wid, item))|by apply bool_decide_eq_false_2|done|done].
Qed.

(** C12: suppose that the items of the compiled stages have distinct ids and that records are
    made of them.  Then there is one record for each item, in order, with the run's id before
    its own, numbered within its stage from zero, whose text is the JSON of the compiled item
    for this run, step and code version, depending on the records of what the item depends on;
    the resource constraints are those of the items, under the ids of their records; exactly
    the records that depend on nothing of the same batch are queued; and exactly the queued
    ones that do not materialise an asset are recorded as members of their step. *)
Theorem stage_records_exact runID stages codeVersion submittedAt r :
  let items := (stage_items stages).*2 in
  NoDup (record_id runID <$> items) →
  persistenceRecordsFromCompiledStageResults runID stages codeVersion submittedAt = Ok r →
  let timestamp := format_rfc3339 (UTC submittedAt) in
  record_place <$> qs_items r = place runID <$> numbered [] items ∧
  Forall2 (carrying runID codeVersion timestamp) (qs_items r) (numbered [] items) ∧
  qs_constraints r = (items ≫= stored_constraints runID timestamp) ∧
  (λ q, record_place (qw_WorkItem q)) <$> qs_queued r =
    place runID <$> List.filter (λ n, independent runID items n.1) (numbered [] items) ∧
  qs_memberships r = member runID <$> List.filter (λ n, independent runID items n.1 && negb (materialises n.1)) (numbered [] items).
Proof.
  intros items Hdup H. unfold persistenceRecordsFromCompiledStageResults in H. cbv zeta in H.
  apply bind_Ok in H as (st & Hst & H). match type of H with Ok ?x = _ => assert (Hr : r = x) by congruence end. rewrite Hr. clear H Hr.
  apply (records_loop _ _ _ _ _ []) in Hst as (Hcarry & Hcons & _ & Hplace & Hmaps & _); [|done|].
  2: { split_and!; try done. by intros ? ?%elem_of_nil. }
  rewrite app_nil_l in Hplace, Hmaps. fold items in Hplace, Hmaps. cbv zeta. cbn [qs_items qs_queued qs_memberships qs_constraints].
  set (ready := λ w, negb (hasCurrentStageDependency (default [] (lp_dependsOn st !! wi_ID w)) (list_to_set (wi_ID <$> lp_items st)))).
  assert (Hids : wi_ID <$> lp_items st = record_id runID <$> items).
  { rewrite <-(numbered_fst [] items) at 1. rewrite <-list_fmap_compose. apply (f_equal (fmap (λ q, q.1.1.1))) in Hplace.
    by rewrite <-!list_fmap_compose in Hplace. }
  assert (Hready : ∀ w n, n ∈ numbered [] items → record_place w = place runID n → ready w = independent runID items n.1).
  { intros w n Hn Hw. unfold record_place, place in Hw. injection Hw as Hid _ _ _. unfold ready, independent, hasCurrentStageDependency.
    rewrite Hid, (proj1 (Hmaps n Hn)), Hids. cbn [default from_option id]. f_equal. apply existsb_pointwise. intros d.
    apply bool_decide_ext, elem_of_list_to_set. }
  pose proof (agree_filter record_place (place runID) ready (λ n, independent runID items n.1) _ _ Hplace Hready) as Hq.
  split_and!; [done|exact Hcarry|exact Hcons| |].
  - rewrite <-Hq, <-list_fmap_compose. done.
  - rewrite (agree_omap record_place (place runID) _ (λ n, lp_memberships st !! record_id runID n.1) _ _ Hq).
    + rewrite (omap_filter (λ n, negb (materialises n.1)) _ (member runID)); [by rewrite filter_filter_andb|].
      intros n Hn. apply list_elem_of_In, List.filter_In in Hn as [Hn%list_elem_of_In _]. rewrite (proj2 (Hmaps n Hn)). by destruct (materialises n.1).
    + intros w n _ Hw. unfold record_place, place in Hw. by injection Hw as ->.
Qed.
End laws.

(** An asset, an item that needs it and one that needs nothing. *)
Section witness.
#[local] Existing Instances no_data plain_floats.
#[local] Instance no_data_JSON : PayloadJSON (@DataPayload no_data) := λ p, match p with end.
Definition queue_item (id type : string) (dependsOn : list string) : CompileStageWorkItem :=
  mkStageItem "wf" 0 0 "step" 0 (set_dependencies dependsOn (new_item id type (id +:+ ".json") None)) [].
Definition queue_batch : list CompileStageResult :=
  [mkStageResult "wf" 0 [] [queue_item "fetch" WorkItemTypeAssetMaterialize []; queue_item "crop" "crop" ["fetch"];
                            queue_item "list" "list" []]].
Definition queue_result : result queue_records :=
  persistenceRecordsFromCompiledStageResults "run" queue_batch "v1" (mkTime 2026 1 1 0 0 0 0 0).
Lemma stage_records_exact_witness :
  ∃ r, queue_result = Ok r ∧
    record_place <$> qs_items r = [("run:fetch", "run", 0, 0); ("run:crop", "run", 0, 1); ("run:list", "run", 0, 2)] ∧
    (∃ record p, qs_items r !! 1%nat = Some record ∧ Marshal_item p = Ok (wi_WorkerPayloadJSON record) ∧ w_DependsOn p = ["run:fetch"]) ∧
    (λ q, record_place (qw_WorkItem q)) <$> qs_queued r = [("run:fetch", "run", 0, 0); ("run:list", "run", 0, 2)] ∧
    qs_memberships r = [mkCompiledMembership 0 0 "run:list" 2].
Proof.
  destruct queue_result as [r|] eqn:Hr; [|exfalso; vm_compute in Hr; discriminate]. exists r.
  destruct (stage_records_exact "run" queue_batch "v1" (mkTime 2026 1 1 0 0 0 0 0) r) as (Hi & Hp & _ & Hq & Hm).
  - apply (bool_decide_unpack _). vm_compute. exact I.
  - exact Hr.
  - split; [reflexivity|]. split; [rewrite Hi; reflexivity|]. split; [|rewrite Hq, Hm; vm_compute; split; reflexivity].
    destruct (Forall2_lookup_r _ _ _ 1%nat (queue_item "crop" "crop" ["fetch"], 1) Hp) as (record & Hrec & _ & p & Hcarry & Hp1);
      [reflexivity|].
    destruct Hcarry as (_ & _ & _ & _ & _ & _ & Hdep & _). exists record, p. split; [exact Hrec|]. split; [exact Hp1|]. exact Hdep.
Defined.
End witness.
