(* ===== verification/StageActivation.v ===== *)
(** * Activating the next stage ([cmd/controller/workflow_stage_activation.go])

    When a stage is completed, the next blocked stage is compiled with the outputs of the
    steps before it, its work items are queued and recorded as members, and the stage
    becomes ready; a stage without any work item is completed at once and the one after it
    is tried.  A failure marks the workflow failed.

    The admitted source of a run (the workflow document in the source cache and the
    variables of the submission) and the preparation of script sources are the interface
    [RunSources]. *)

From S2P Require Import Prelude GoTime GoJson GoStrings GoJsonLaws GoSha256 Fingerprint GoJsonStruct.
From S2P Require Import Variables Expression Functions Resolver VariableCodec StoreData StoreSQL StoreOps StoreQueries.
From S2P Require Import Dependency SubmissionContext DependencyStore WorkItem WorkItemCodec GoFmt FanOut Stages Compile.
From S2P Require Import Dependents Lifecycle StageQueue.
Local Open Scope Z_scope.

(** [optionalStringVariable]: [None] when the variable does not resolve. *)
Definition optionalStringVariable (resolver : Resolver) (name : string) : result (option string) :=
  reference ← ParseReference name;
  match Resolve resolver reference with
  | Err _ => Ok None
  | Ok value =>
      fail_if (negb (bool_decide (rv_Type value = TypeString)))
        (Errorf (name +:+ " has type " +:+ Type_String (rv_Type value) +:+ ", want string"));;
      match rv_Value value with
      | VString text => fail_if (is_empty text) (Errorf (name +:+ " is required"));; Ok (Some text)
      | _ => Err (Errorf (name +:+ " is required"))
      end
  end.

(** The workflow of a run with the variables of its source and of its submission; the
    compiled items with their script sources; the version of the program. *)
Class RunSources {ops : DataOperators} := {
  run_source : WorkflowRunRecord → result (Workflow FanOutStep * list Var * list Var);
  prepareCompiledWorkflowForAdmission : WorkflowRunRecord → CompileResult → result CompileResult;
  buildInfoCodeVersion : string }.

Definition controllerCodeVersion {ops : DataOperators} {sources : RunSources} (resolver : Resolver) : result string :=
  configured ← optionalStringVariable resolver "code_version";
  Ok (default buildInfoCodeVersion configured).

Section activation.
Context {ops : DataOperators} {floats : JsonFloats} {payload : PayloadJSON DataPayload} {sources : RunSources}.
Context (now : nat → Time) (eng : Engine).

Definition replace_items (stage : list CompileStageWorkItem) (compiled : list CompiledWorkItem) : list CompileStageWorkItem :=
  zip_with (λ i c, mkStageItem (si_WorkflowID i) (si_StageIndex i) (si_StepIndex i) (si_StepID i) (si_WorkItemIndex i)
                     (cw_WorkItem c) (cw_ResourceConstraints c)) stage compiled.
(** The items of a stage after the preparation of their sources. *)
Definition prepare_stage (run : WorkflowRunRecord) (stepCount : Z) (stage : CompileStageResult) : result CompileStageResult :=
  prepared ← prepareCompiledWorkflowForAdmission run (mkCompileResult (sr_WorkflowID stage) stepCount
    ((λ i, mkCompiledWorkItem (sr_WorkflowID stage) (si_StepID i) (si_WorkItem i) (si_ResourceConstraints i)) <$> sr_WorkItems stage));
  fail_if (negb (bool_decide (length (sr_WorkItems stage) = length (cm_WorkItems prepared))))
    (Errorf ("compile result mismatch: expected " +:+ pretty (length (sr_WorkItems stage)) +:+ " stage items, got " +:+
             pretty (length (cm_WorkItems prepared))));;
  Ok (mkStageResult (sr_WorkflowID stage) (sr_StageIndex stage) (sr_Steps stage)
        (replace_items (sr_WorkItems stage) (cm_WorkItems prepared))).

Definition activation_resolver (source : Workflow FanOutStep * list Var * list Var) (generated : Scope) : result Resolver :=
  workflowScope ← NewScope (workflow_Variables source.1.1);
  sourceScope ← NewScope source.1.2;
  runScope ← NewScope source.2;
  Ok (NewResolver (NewSet [workflowScope; sourceScope; runScope; generated]) (mkConfig 0 None DefaultFunctionRegistry)).

Definition compileActivationStage (runID : string) (plan : WorkflowDependencyPlan) (stageIndex : Z) :
    Op (CompileStageResult * string) :=
  found ← query_store (λ s, wrap_err ("get workflow run " +:+ runID) (GetWorkflowRun runID s));
  match found with
  | None => fail (Errorf ("workflow run " +:+ runID +:+ " not found"))
  | Some run => lift (
      source ← run_source run;
      match (i ← findDependencyStage plan stageIndex; pl_Stages plan !! i) with
      | None => Err (Errorf ("dependency stage " +:+ pretty stageIndex +:+ " not found"))
      | Some nextStage =>
          generated ← workflowStepScope plan (firstDependencyStepIndex nextStage);
          resolver ← activation_resolver source generated;
          codeVersion ← controllerCodeVersion resolver;
          let workflow := source.1.1 in
          workflowPlan ← NormalizeStages workflow;
          compiled ← CompileWorkflowStage resolver workflow workflowPlan stageIndex;
          stage ← prepare_stage run (Z.of_nat (length (workflow_Steps workflow))) compiled;
          Ok (stage, codeVersion)
      end)
  end.

(** [failWorkflowStageActivation]: the workflow is marked failed; the cause is returned
    only when that fails. *)
Definition failWorkflowStageActivation (runID : string) (stageIndex : Z) (cause : GoError) : Op unit := λ c,
  match markWorkflowStageActivationFailed now eng runID stageIndex (error_text cause) c with
  | (Ok _, c') => (Ok tt, c')
  | (Err e, c') => (Err (Wrapf ("additionally failed to mark workflow failed: " +:+ error_text e) cause), c')
  end.
Definition record_memberships (runID : string) (memberships : list compiledStageWorkItemMembership) : Op unit :=
  for_each_op (λ m, wrap_op "record activated stage membership"
    (RecordCompiledWorkItemMembership now eng runID (cm_stageIndex m) (cm_stepIndex m) (cm_workItemID m) (cm_workItemIndex m)))
    memberships.

(** The loop, in at most so many rounds: the flag says whether a stage was activated,
    which the caretaker is told. *)
Fixpoint activate_from (rounds : nat) (runID : string) (plan : WorkflowDependencyPlan) (completedStageIndex : Z)
    (activatedAt : Time) : Op bool :=
  let next := completedStageIndex + 1 in
  let or_stop {A} (m : Op A) (k : A → Op bool) : Op bool := λ c,
    match m c with
    | (Ok a, c') => k a c'
    | (Err e, c') => (failWorkflowStageActivation runID next e;; stop false) c'
    end in
  match rounds, (i ← findDependencyStage plan next; pl_Stages plan !! i) with
  | S n, Some nextStage =>
      if negb (stage_is WorkflowStageStateBlocked nextStage) then stop false else
      or_stop (compileActivationStage runID plan next) (λ compiled,
      or_stop (lift (persistenceRecordsFromCompiledStageResults runID [compiled.1] compiled.2 activatedAt)) (λ records,
      or_stop (markCompiledStageEmptyStepsCompleted now eng runID (sr_StageIndex compiled.1)
                 (si_StepIndex <$> sr_WorkItems compiled.1)) (λ nextStageCompleted : bool,
        if nextStageCompleted then
          found ← query_store (getWorkflowDependencyState runID);
          match found with
          | None => stop false
          | Some nextPlan => activate_from n runID nextPlan next activatedAt
          end
        else
          match qs_items records with
          | [] => stop false
          | items =>
              or_stop (wrap_op "queue activated stage work items"
                 (call_store (QueueWorkItems eng (mkQueueReq items (qs_constraints records) (qs_queued records))))) (λ _,
              or_stop (record_memberships runID (qs_memberships records)) (λ _,
              or_stop (MarkWorkflowStageReady now eng runID next) (λ _, stop true)))
          end)))
  | _, _ => stop false
  end.

Definition activateNextReadyWorkflowStage (runID : string) (completedStageIndex : Z) (activatedAt : Time) : Op bool := λ c,
  if bool_decide (workflowStore c = None) then (Ok false, c) else
  (found ← query_store (getWorkflowDependencyState runID);
   match found with
   | None => stop false
   | Some plan =>
       if negb (bool_decide (pl_State plan = WorkflowStateRunning)) then stop false else
       match (i ← findDependencyStage plan completedStageIndex; pl_Stages plan !! i) with
       | None => stop false
       | Some completedStage =>
           if negb (stage_is WorkflowStageStateCompleted completedStage) then stop false
           else activate_from (length (pl_Stages plan)) runID plan completedStageIndex activatedAt
       end
   end) c.
End activation.
