(* ===== verification/WorkService.v ===== *)
(** * Submitting, handing out and reporting work ([cmd/controller/main.go])

    The handlers of a single work item: submitted without a workflow ([submitWorkHandler]),
    handed to the worker that asks for one ([nextWorkHandler]), and reported completed or
    failed.  A handler answers and leaves the state of the controller; the clock and the
    random bytes are arguments.

    A refused request changes nothing; but an item that is claimed and cannot be made ready
    keeps its worker busy. *)

From S2P Require Import Prelude GoTime GoJson GoStrings GoJsonLaws GoSha256 Fingerprint GoJsonStruct.
From S2P Require Import Variables StoreData Dependency WorkItem WorkItemCodec.
From S2P Require Import GoPath GoHttp GoInstant Resource Expression Functions Resolver VariableCodec.
From S2P Require Import StepOutputs OutputText StoreSQL StoreOps StoreQueries SubmissionContext DependencyStore GoFmt.
From S2P Require Import FanOut Stages Compile WorkerCapacity Caretaker Lifecycle Dependents DataNames DataCollections.
From S2P Require Import DataAssets DataProviders DataDefinitions DataCodec DataInstances ExplicitData Hydration StageQueue.
From S2P Require Import StageActivation.
From S2P Require Import StoreInv StoreLease StoreLifecycle CollectionManifests.

(** ** What workers report ([internal/model/work_item.go])

    The reports of a completed and of a failed attempt as the controller reads them. *)

Section payload.
Context {Payload : Type}.

(** [WorkCompletion] *)
Record WorkCompletion := mkCompletion {
  wk_ID : string; wk_AttemptID : string; wk_WorkerID : string; wk_WorkerSessionID : string; wk_Skipped : bool;
  wk_SkippedParentID : string; wk_SkipReason : string; wk_InputSHA256 : string; wk_OutputSHA256 : string;
  wk_PreStateSHA256 : string; wk_PostStateSHA256 : string; wk_ControllerSHA256 : string; wk_PluginSHA256 : string;
  wk_OutputJSON : string; wk_PreStateJSON : string; wk_PostStateJSON : string; wk_WorkflowDefinitionID : string;
  wk_WorkflowFingerprint : string; wk_WorkflowInstanceID : string; wk_StepDefinitionID : string; wk_StepFingerprint : string;
  wk_StepInstanceID : string; wk_WorkItemFingerprint : string; wk_InputFingerprint : string;
  wk_OutputFingerprint : string; wk_CodeVersion : string; wk_StartedAt : string; wk_CompletedAt : string;
  wk_Parameters : Parameters Payload }.
Definition completion_fields : Struct WorkCompletion :=
  [("id", into_string (λ x '(mkCompletion _ a1 a2 a3 a4 a5 a6 a7 a8 a9 a10 a11 a12 a13 a14 a15 a16 a17 a18 a19 a20 a21 a22 a23 a24 a25 a26 a27 a28),
      mkCompletion x a1 a2 a3 a4 a5 a6 a7 a8 a9 a10 a11 a12 a13 a14 a15 a16 a17 a18 a19 a20 a21 a22 a23 a24 a25 a26 a27 a28));
   ("attempt_id", into_string (λ x '(mkCompletion a0 _ a2 a3 a4 a5 a6 a7 a8 a9 a10 a11 a12 a13 a14 a15 a16 a17 a18 a19 a20 a21 a22 a23 a24 a25 a26 a27 a28),
      mkCompletion a0 x a2 a3 a4 a5 a6 a7 a8 a9 a10 a11 a12 a13 a14 a15 a16 a17 a18 a19 a20 a21 a22 a23 a24 a25 a26 a27 a28));
   ("worker_id", into_string (λ x '(mkCompletion a0 a1 _ a3 a4 a5 a6 a7 a8 a9 a10 a11 a12 a13 a14 a15 a16 a17 a18 a19 a20 a21 a22 a23 a24 a25 a26 a27 a28),
      mkCompletion a0 a1 x a3 a4 a5 a6 a7 a8 a9 a10 a11 a12 a13 a14 a15 a16 a17 a18 a19 a20 a21 a22 a23 a24 a25 a26 a27 a28));
   ("worker_session_id", into_string (λ x '(mkCompletion a0 a1 a2 _ a4 a5 a6 a7 a8 a9 a10 a11 a12 a13 a14 a15 a16 a17 a18 a19 a20 a21 a22 a23 a24 a25 a26 a27 a28),
      mkCompletion a0 a1 a2 x a4 a5 a6 a7 a8 a9 a10 a11 a12 a13 a14 a15 a16 a17 a18 a19 a20 a21 a22 a23 a24 a25 a26 a27 a28));
   ("skipped", into_bool (λ x '(mkCompletion a0 a1 a2 a3 _ a5 a6 a7 a8 a9 a10 a11 a12 a13 a14 a15 a16 a17 a18 a19 a20 a21 a22 a23 a24 a25 a26 a27 a28),
      mkCompletion a0 a1 a2 a3 x a5 a6 a7 a8 a9 a10 a11 a12 a13 a14 a15 a16 a17 a18 a19 a20 a21 a22 a23 a24 a25 a26 a27 a28));
   ("skipped_parent_id", into_string (λ x '(mkCompletion a0 a1 a2 a3 a4 _ a6 a7 a8 a9 a10 a11 a12 a13 a14 a15 a16 a17 a18 a19 a20 a21 a22 a23 a24 a25 a26 a27 a28),
      mkCompletion a0 a1 a2 a3 a4 x a6 a7 a8 a9 a10 a11 a12 a13 a14 a15 a16 a17 a18 a19 a20 a21 a22 a23 a24 a25 a26 a27 a28));
   ("skip_reason", into_string (λ x '(mkCompletion a0 a1 a2 a3 a4 a5 _ a7 a8 a9 a10 a11 a12 a13 a14 a15 a16 a17 a18 a19 a20 a21 a22 a23 a24 a25 a26 a27 a28),
      mkCompletion a0 a1 a2 a3 a4 a5 x a7 a8 a9 a10 a11 a12 a13 a14 a15 a16 a17 a18 a19 a20 a21 a22 a23 a24 a25 a26 a27 a28));
   ("input_sha256", into_string (λ x '(mkCompletion a0 a1 a2 a3 a4 a5 a6 _ a8 a9 a10 a11 a12 a13 a14 a15 a16 a17 a18 a19 a20 a21 a22 a23 a24 a25 a26 a27 a28),
      mkCompletion a0 a1 a2 a3 a4 a5 a6 x a8 a9 a10 a11 a12 a13 a14 a15 a16 a17 a18 a19 a20 a21 a22 a23 a24 a25 a26 a27 a28));
   ("output_sha256", into_string (λ x '(mkCompletion a0 a1 a2 a3 a4 a5 a6 a7 _ a9 a10 a11 a12 a13 a14 a15 a16 a17 a18 a19 a20 a21 a22 a23 a24 a25 a26 a27 a28),
      mkCompletion a0 a1 a2 a3 a4 a5 a6 a7 x a9 a10 a11 a12 a13 a14 a15 a16 a17 a18 a19 a20 a21 a22 a23 a24 a25 a26 a27 a28));
   ("pre_state_sha256", into_string (λ x '(mkCompletion a0 a1 a2 a3 a4 a5 a6 a7 a8 _ a10 a11 a12 a13 a14 a15 a16 a17 a18 a19 a20 a21 a22 a23 a24 a25 a26 a27 a28),
      mkCompletion a0 a1 a2 a3 a4 a5 a6 a7 a8 x a10 a11 a12 a13 a14 a15 a16 a17 a18 a19 a20 a21 a22 a23 a24 a25 a26 a27 a28));
   ("post_state_sha256", into_string (λ x '(mkCompletion a0 a1 a2 a3 a4 a5 a6 a7 a8 a9 _ a11 a12 a13 a14 a15 a16 a17 a18 a19 a20 a21 a22 a23 a24 a25 a26 a27 a28),
      mkCompletion a0 a1 a2 a3 a4 a5 a6 a7 a8 a9 x a11 a12 a13 a14 a15 a16 a17 a18 a19 a20 a21 a22 a23 a24 a25 a26 a27 a28));
   ("controller_sha256", into_string (λ x '(mkCompletion a0 a1 a2 a3 a4 a5 a6 a7 a8 a9 a10 _ a12 a13 a14 a15 a16 a17 a18 a19 a20 a21 a22 a23 a24 a25 a26 a27 a28),
      mkCompletion a0 a1 a2 a3 a4 a5 a6 a7 a8 a9 a10 x a12 a13 a14 a15 a16 a17 a18 a19 a20 a21 a22 a23 a24 a25 a26 a27 a28));
   ("plugin_sha256", into_string (λ x '(mkCompletion a0 a1 a2 a3 a4 a5 a6 a7 a8 a9 a10 a11 _ a13 a14 a15 a16 a17 a18 a19 a20 a21 a22 a23 a24 a25 a26 a27 a28),
      mkCompletion a0 a1 a2 a3 a4 a5 a6 a7 a8 a9 a10 a11 x a13 a14 a15 a16 a17 a18 a19 a20 a21 a22 a23 a24 a25 a26 a27 a28));
   ("output_json", into_string (λ x '(mkCompletion a0 a1 a2 a3 a4 a5 a6 a7 a8 a9 a10 a11 a12 _ a14 a15 a16 a17 a18 a19 a20 a21 a22 a23 a24 a25 a26 a27 a28),
      mkCompletion a0 a1 a2 a3 a4 a5 a6 a7 a8 a9 a10 a11 a12 x a14 a15 a16 a17 a18 a19 a20 a21 a22 a23 a24 a25 a26 a27 a28));
   ("pre_state_json", into_string (λ x '(mkCompletion a0 a1 a2 a3 a4 a5 a6 a7 a8 a9 a10 a11 a12 a13 _ a15 a16 a17 a18 a19 a20 a21 a22 a23 a24 a25 a26 a27 a28),
      mkCompletion a0 a1 a2 a3 a4 a5 a6 a7 a8 a9 a10 a11 a12 a13 x a15 a16 a17 a18 a19 a20 a21 a22 a23 a24 a25 a26 a27 a28));
   ("post_state_json", into_string (λ x '(mkCompletion a0 a1 a2 a3 a4 a5 a6 a7 a8 a9 a10 a11 a12 a13 a14 _ a16 a17 a18 a19 a20 a21 a22 a23 a24 a25 a26 a27 a28),
      mkCompletion a0 a1 a2 a3 a4 a5 a6 a7 a8 a9 a10 a11 a12 a13 a14 x a16 a17 a18 a19 a20 a21 a22 a23 a24 a25 a26 a27 a28));
   ("workflow_definition_id", into_string (λ x '(mkCompletion a0 a1 a2 a3 a4 a5 a6 a7 a8 a9 a10 a11 a12 a13 a14 a15 _ a17 a18 a19 a20 a21 a22 a23 a24 a25 a26 a27 a28),
      mkCompletion a0 a1 a2 a3 a4 a5 a6 a7 a8 a9 a10 a11 a12 a13 a14 a15 x a17 a18 a19 a20 a21 a22 a23 a24 a25 a26 a27 a28));
   ("workflow_fingerprint", into_string (λ x '(mkCompletion a0 a1 a2 a3 a4 a5 a6 a7 a8 a9 a10 a11 a12 a13 a14 a15 a16 _ a18 a19 a20 a21 a22 a23 a24 a25 a26 a27 a28),
      mkCompletion a0 a1 a2 a3 a4 a5 a6 a7 a8 a9 a10 a11 a12 a13 a14 a15 a16 x a18 a19 a20 a21 a22 a23 a24 a25 a26 a27 a28));
   ("workflow_instance_id", into_string (λ x '(mkCompletion a0 a1 a2 a3 a4 a5 a6 a7 a8 a9 a10 a11 a12 a13 a14 a15 a16 a17 _ a19 a20 a21 a22 a23 a24 a25 a26 a27 a28),
      mkCompletion a0 a1 a2 a3 a4 a5 a6 a7 a8 a9 a10 a11 a12 a13 a14 a15 a16 a17 x a19 a20 a21 a22 a23 a24 a25 a26 a27 a28));
   ("step_definition_id", into_string (λ x '(mkCompletion a0 a1 a2 a3 a4 a5 a6 a7 a8 a9 a10 a11 a12 a13 a14 a15 a16 a17 a18 _ a20 a21 a22 a23 a24 a25 a26 a27 a28),
      mkCompletion a0 a1 a2 a3 a4 a5 a6 a7 a8 a9 a10 a11 a12 a13 a14 a15 a16 a17 a18 x a20 a21 a22 a23 a24 a25 a26 a27 a28));
   ("step_fingerprint", into_string (λ x '(mkCompletion a0 a1 a2 a3 a4 a5 a6 a7 a8 a9 a10 a11 a12 a13 a14 a15 a16 a17 a18 a19 _ a21 a22 a23 a24 a25 a26 a27 a28),
      mkCompletion a0 a1 a2 a3 a4 a5 a6 a7 a8 a9 a10 a11 a12 a13 a14 a15 a16 a17 a18 a19 x a21 a22 a23 a24 a25 a26 a27 a28));
   ("step_instance_id", into_string (λ x '(mkCompletion a0 a1 a2 a3 a4 a5 a6 a7 a8 a9 a10 a11 a12 a13 a14 a15 a16 a17 a18 a19 a20 _ a22 a23 a24 a25 a26 a27 a28),
      mkCompletion a0 a1 a2 a3 a4 a5 a6 a7 a8 a9 a10 a11 a12 a13 a14 a15 a16 a17 a18 a19 a20 x a22 a23 a24 a25 a26 a27 a28));
   ("work_item_fingerprint", into_string (λ x '(mkCompletion a0 a1 a2 a3 a4 a5 a6 a7 a8 a9 a10 a11 a12 a13 a14 a15 a16 a17 a18 a19 a20 a21 _ a23 a24 a25 a26 a27 a28),
      mkCompletion a0 a1 a2 a3 a4 a5 a6 a7 a8 a9 a10 a11 a12 a13 a14 a15 a16 a17 a18 a19 a20 a21 x a23 a24 a25 a26 a27 a28));
   ("input_fingerprint", into_string (λ x '(mkCompletion a0 a1 a2 a3 a4 a5 a6 a7 a8 a9 a10 a11 a12 a13 a14 a15 a16 a17 a18 a19 a20 a21 a22 _ a24 a25 a26 a27 a28),
      mkCompletion a0 a1 a2 a3 a4 a5 a6 a7 a8 a9 a10 a11 a12 a13 a14 a15 a16 a17 a18 a19 a20 a21 a22 x a24 a25 a26 a27 a28));
   ("output_fingerprint", into_string (λ x '(mkCompletion a0 a1 a2 a3 a4 a5 a6 a7 a8 a9 a10 a11 a12 a13 a14 a15 a16 a17 a18 a19 a20 a21 a22 a23 _ a25 a26 a27 a28),
      mkCompletion a0 a1 a2 a3 a4 a5 a6 a7 a8 a9 a10 a11 a12 a13 a14 a15 a16 a17 a18 a19 a20 a21 a22 a23 x a25 a26 a27 a28));
   ("code_version", into_string (λ x '(mkCompletion a0 a1 a2 a3 a4 a5 a6 a7 a8 a9 a10 a11 a12 a13 a14 a15 a16 a17 a18 a19 a20 a21 a22 a23 a24 _ a26 a27 a28),
      mkCompletion a0 a1 a2 a3 a4 a5 a6 a7 a8 a9 a10 a11 a12 a13 a14 a15 a16 a17 a18 a19 a20 a21 a22 a23 a24 x a26 a27 a28));
   ("started_at", into_string (λ x '(mkCompletion a0 a1 a2 a3 a4 a5 a6 a7 a8 a9 a10 a11 a12 a13 a14 a15 a16 a17 a18 a19 a20 a21 a22 a23 a24 a25 _ a27 a28),
      mkCompletion a0 a1 a2 a3 a4 a5 a6 a7 a8 a9 a10 a11 a12 a13 a14 a15 a16 a17 a18 a19 a20 a21 a22 a23 a24 a25 x a27 a28));
   ("completed_at", into_string (λ x '(mkCompletion a0 a1 a2 a3 a4 a5 a6 a7 a8 a9 a10 a11 a12 a13 a14 a15 a16 a17 a18 a19 a20 a21 a22 a23 a24 a25 a26 _ a28),
      mkCompletion a0 a1 a2 a3 a4 a5 a6 a7 a8 a9 a10 a11 a12 a13 a14 a15 a16 a17 a18 a19 a20 a21 a22 a23 a24 a25 a26 x a28));
   ("parameters", into_map decode_parameter (λ x '(mkCompletion a0 a1 a2 a3 a4 a5 a6 a7 a8 a9 a10 a11 a12 a13 a14 a15 a16 a17 a18 a19 a20 a21 a22 a23 a24 a25 a26 a27 _),
      mkCompletion a0 a1 a2 a3 a4 a5 a6 a7 a8 a9 a10 a11 a12 a13 a14 a15 a16 a17 a18 a19 a20 a21 a22 a23 a24 a25 a26 a27 x))].
Definition zero_completion : WorkCompletion :=
  mkCompletion "" "" "" "" false "" "" "" "" "" "" "" "" "" "" "" "" "" "" "" "" "" "" "" "" "" "" "" None.

(** [WorkFailure] *)
Record WorkFailure := mkFailure {
  wl_ID : string; wl_AttemptID : string; wl_WorkerID : string; wl_WorkerSessionID : string; wl_FailedAt : string;
  wl_Error : string }.
Definition failure_fields : Struct WorkFailure :=
  [("id", into_string (λ x '(mkFailure _ a1 a2 a3 a4 a5),
      mkFailure x a1 a2 a3 a4 a5));
   ("attempt_id", into_string (λ x '(mkFailure a0 _ a2 a3 a4 a5),
      mkFailure a0 x a2 a3 a4 a5));
   ("worker_id", into_string (λ x '(mkFailure a0 a1 _ a3 a4 a5),
      mkFailure a0 a1 x a3 a4 a5));
   ("worker_session_id", into_string (λ x '(mkFailure a0 a1 a2 _ a4 a5),
      mkFailure a0 a1 a2 x a4 a5));
   ("failed_at", into_string (λ x '(mkFailure a0 a1 a2 a3 _ a5),
      mkFailure a0 a1 a2 a3 x a5));
   ("error", into_string (λ x '(mkFailure a0 a1 a2 a3 a4 _),
      mkFailure a0 a1 a2 a3 a4 x))].
Definition zero_failure : WorkFailure :=
  mkFailure "" "" "" "" "" "".
End payload.
Arguments WorkCompletion : clear implicits.
Local Open Scope Z_scope.

(** ** The state of the handlers *)

(** The service with what the operations on plans use besides: the readings of the clock
    and the log. *)
Record Host := mkHost { hs_service : Service; hs_clock : nat; hs_logSink : option (list LogObservation) }.
Definition host_controller (h : Host) : Controller := mkController (sv_store (hs_service h)) (hs_clock h) (hs_logSink h).
Definition after_op (c : Controller) (h : Host) : Host :=
  let s := hs_service h in
  mkHost (mkService (workflowStore c) (sv_normalAdmission s) (sv_maxRequestBytes s) (sv_launchResolver s)
            (sv_workerExecutor s) (sv_careTaker s)) (clock c) (logSink c).
(** [if err := op(); err != nil { respond } else { continue }] *)
Definition perform {A} (m : Op A) (h : Host) (on_error : GoError → Response) (k : A → Host → Response * Host) : Response * Host :=
  match m (host_controller h) with
  | (Ok a, c) => k a (after_op c h)
  | (Err e, c) => (on_error e, after_op c h)
  end.
Definition signalCareTaker (reason : string) (h : Host) : Host :=
  mkHost (signalWorkerStateChanged reason (hs_service h)) (hs_clock h) (hs_logSink h).
Definition internal (msg : string) : GoError → Response := λ _, http_Error msg StatusInternalServerError.
Definition internal_text (e : GoError) : Response := http_Error (error_text e) StatusInternalServerError.

Definition format_instant (t : Instant) : string := format_rfc3339 (at_UTC t).
Definition live_cutoff (now : Instant) (policy : WorkerHeartbeatPolicy) : string := FormatNano (Add now (- DeadAfter policy)).
Definition error_contains (text : string) (e : GoError) : bool := contains text (error_text e).

(** ** Work without a workflow *)

Definition rawPersistenceProjectID : string := "__raw_project__".
Definition rawPersistenceWorkflowID : string := "__raw_workflow__".
Definition rawPersistenceRunID : string := "__raw_run__".
Definition rawPersistenceStageIndex : Z := 0.
Definition rawPersistenceCreatedAt : string := "1970-01-01T00:00:00Z".

(** The first 31 bits of the hash of the id. *)
Definition rawWorkItemIndex (id : string) : Z :=
  match Z.of_N <$> Sum256 id with
  | a :: b :: c :: d :: _ => Z.lor (Z.shiftl (Z.land a 127) 24) (Z.lor (Z.shiftl b 16) (Z.lor (Z.shiftl c 8) d))
  | _ => 0
  end.
Definition isPersistenceConflict (e : GoError) : bool := error_contains "already exists" e.

Definition empty_resolver : Resolver := NewResolver (NewSet []) (mkConfig 0 None []).

Section raw.
Context {floats : JsonFloats} (eng : Engine).

Definition raw_envelope_fields : Struct (option JSON) := [("work_item", λ v _, Ok (Some v))].
Definition RawWorkSubmission : Type := HydratedItem * list ResourceConstraintDeclaration.
Definition raw_submission_fields : Struct RawWorkSubmission :=
  [("work_item", into_struct false work_item_fields fst (λ i r, (i, r.2)));
   ("resource_constraints", into_list ResourceConstraintDeclaration_UnmarshalJSON (λ l r, (r.1, l)))].

Definition decodeRawWorkSubmission (data : string) (submittedAt : Instant) :
    result (HydratedItem * list WorkItemResourceConstraint) :=
  v ← json_document data;
  envelope ← decode_struct false raw_envelope_fields None v;
  match envelope with
  | None => item ← decode_struct false work_item_fields zero_item v; Ok (item, [])
  | Some _ =>
      submission ← decode_struct false raw_submission_fields (zero_item, []) v;
      WorkItem_Validate submission.1;;
      constraints ← ResolveResourceConstraints empty_resolver (w_ID submission.1) submission.2 (format_instant submittedAt);
      Ok (submission.1, constraints)
  end.

Definition persistenceRecordsFromRawWorkItem (item : HydratedItem) (submittedAt : Instant) :
    result (WorkItemRecord * QueuedWorkRecord) :=
  item ← wrap_err "build execution envelope for raw work item " (WithExecutionEnvelope item);
  payload ← wrap_err "encode raw work item" (Marshal_item item);
  let record := mkWorkItem (w_ID item) rawPersistenceRunID rawPersistenceStageIndex (rawWorkItemIndex (w_ID item)) payload
                  (sha256HexBytes payload) (format_instant submittedAt) in
  Ok (record, mkQueued record (format_instant submittedAt)).

Definition ensureRawPersistenceRun : Op unit :=
  call_store (UpsertProject (mkProject rawPersistenceProjectID "Raw Work" "controller:raw" (Some "raw") "raw" ""
                               (sha256HexBytes "raw-project") rawPersistenceCreatedAt));;
  call_store (UpsertWorkflow eng (mkWorkflow rawPersistenceWorkflowID rawPersistenceProjectID "Raw Work" "controller:raw"
                                (Some "raw") "raw" "" (sha256HexBytes "raw-workflow") rawPersistenceCreatedAt));;
  call_store (CreateWorkflowRun eng (mkRun rawPersistenceRunID rawPersistenceProjectID rawPersistenceWorkflowID
                                   (print (JObject [("source", JString "raw-work")])) rawPersistenceCreatedAt));;
  call_store (InsertStagePlan eng rawPersistenceRunID
    [mkStage rawPersistenceRunID rawPersistenceStageIndex "raw-work" "controller:raw-work" "ready" rawPersistenceCreatedAt
       rawPersistenceCreatedAt "" "" "" "" ""]).

Definition submitRawWorkToStore (item : HydratedItem) (constraints : list WorkItemResourceConstraint) (submittedAt : Instant) :
    Op unit :=
  ensureRawPersistenceRun;;
  records ← lift (persistenceRecordsFromRawWorkItem item submittedAt);
  found ← query_store (GetWorkItem (wi_ID records.1));
  lift (fail_if (bool_decide (is_Some found)) (Errorf ("work item " +:+ wi_ID records.1 +:+ " already exists")));;
  call_store (QueueWorkItems eng
    (mkQueueReq [records.1] (persistenceResourceConstraintRecords constraints) [records.2])).

Definition submitWorkHandler (now : Instant) (r : Request) (h : Host) : Response * Host :=
  if negb (bool_decide (rq_Method r = MethodPost)) then (http_Error "method not allowed" StatusMethodNotAllowed, h) else
  if negb (sv_normalAdmission (hs_service h)) then
    (http_Error "controller is in recovery mode" StatusServiceUnavailable, h) else
  match decodeRawWorkSubmission (rq_Body r) now with
  | Err _ => (http_Error "decode work item" StatusBadRequest, h)
  | Ok (item, constraints) =>
      match WorkItem_Validate item with
      | Err e => (http_Error (error_text e) StatusBadRequest, h)
      | Ok _ =>
          match sv_store (hs_service h) with
          | None => (http_Error "workflow store required" StatusServiceUnavailable, h)
          | Some _ =>
              perform (submitRawWorkToStore item constraints now) h
                (λ e, if isPersistenceConflict e then http_Error "work item id already exists" StatusConflict
                      else http_Error "persist work item" StatusInternalServerError)
                (λ _ h, (http_Status StatusNoContent, signalCareTaker "raw_work_queued" h))
          end
      end
  end.
End raw.

(** ** The next work item of a worker *)

Definition workerIDHeader : string := "X-Goetl-Worker-Id".
Definition workerSessionIDHeader : string := "X-Goetl-Worker-Session-Id".
Record workerSessionIdentity := mkIdentity { id_WorkerID : string; id_WorkerSessionID : string }.
Definition requiredWorkerSessionIdentity (r : Request) : result workerSessionIdentity :=
  let workerID := TrimSpace (Header_Get (rq_Header r) workerIDHeader) in
  let sessionID := TrimSpace (Header_Get (rq_Header r) workerSessionIDHeader) in
  fail_if (is_empty workerID || is_empty sessionID) (Errorf "worker id and worker session id are required");;
  Ok (mkIdentity workerID sessionID).

Definition set_w_claim (attemptID : string) (candidates : list WorkReuseCandidate) (i : HydratedItem) : HydratedItem :=
  mkItem (w_ID i) attemptID (w_Type i) (w_Source i) (w_OutputFilename i) (w_Parameters i) (w_ExecutionEnvelope i)
    (w_DependsOn i) candidates (w_WorkflowDefinitionID i) (w_WorkflowFingerprint i) (w_WorkflowInstanceID i)
    (w_StepDefinitionID i) (w_StepFingerprint i) (w_StepInstanceID i) (w_WorkItemFingerprint i) (w_InputFingerprint i)
    (w_OutputFingerprint i) (w_CodeVersion i).

(** A text of an answer for each step that may fail. *)
Definition or_text {A} (r : result A) (msg : string) : A + string := match r with Ok a => inl a | Err _ => inr msg end.
Notation "x ⇐ r 'else' msg ; k" := (match or_text r msg with inl x => k | inr m => inr m end)
  (at level 100, r at next level, msg at next level, k at level 200, right associativity).

Section next.
Context {unicode : Unicode} {floats : JsonFloats} (eng : Engine).

(** The claimed item as the worker gets it, or the text of the error. *)
Definition claimed_item (listed : result (list TerminalAttemptRecord)) (claim : ClaimedWorkRecord) : HydratedItem + string :=
  item ⇐ Unmarshal_item (wi_WorkerPayloadJSON (cl_WorkItem claim)) else "decode persisted worker payload";
  candidates ⇐ persistedReuseCandidates listed claim else "load reuse candidates";
  let item := set_w_claim (cl_AttemptID claim) candidates item in
  item ⇐ (if bool_decide (w_Type item = WorkItemTypeCommitData) then hydrateCommitDataWorkItem listed item else Ok item)
    else "hydrate commit_data work item";
  item ⇐ (if bool_decide (w_Type item = WorkItemTypeAssetMaterialize ∨ w_Type item = WorkItemTypeCommitData) then Ok item
          else hydrateAssetMaterializeDependentWorkItem listed claim item)
    else "hydrate asset_materialize dependent work item";
  item ⇐ WithExecutionEnvelope item else "build execution envelope";
  _ ⇐ WorkItem_Validate item else "validate persisted worker payload";
  inl item.

Definition claim_request (identity : workerSessionIdentity) (policy : WorkerHeartbeatPolicy) (now : Instant)
    (random : option (list N)) : ClaimWorkRequest :=
  mkClaim ("attempt-" +:+ randomHex random now) (id_WorkerID identity) (id_WorkerSessionID identity) ExecutorTypeWorker
    (format_instant now) (live_cutoff now policy).

Definition nextPersistedWorkHandler (now : Instant) (random : option (list N)) (r : Request) (st : Store) (h : Host) :
    Response * Host :=
  match requiredWorkerSessionIdentity r with
  | Err e => (http_Error (error_text e) StatusBadRequest, h)
  | Ok identity =>
      match workerHeartbeatPolicyConfig (sv_launchResolver (hs_service h)) defaultWorkerHeartbeatPolicy with
      | Err e => (http_Error ("worker heartbeat policy: " +:+ error_text e) StatusInternalServerError, h)
      | Ok policy =>
          let '(claimed, st') := ClaimNextWork eng (claim_request identity policy now random) st in
          let h := mkHost (set_store st' (hs_service h)) (hs_clock h) (hs_logSink h) in
          match claimed with
          | Err e =>
              (if errors_Is e ErrWorkerSessionNotActive then http_Error "worker_session_not_active" StatusConflict
               else if errors_Is e ErrWorkerSessionBusy then http_Error "worker_session_busy" StatusConflict
               else http_Error "claim work" StatusInternalServerError, h)
          | Ok None => (http_Status StatusNoContent, h)
          | Ok (Some claim) =>
              match claimed_item (ListTerminalAttemptsForRun (wi_RunID (cl_WorkItem claim)) st') claim with
              | inr msg => (http_Error msg StatusInternalServerError, h)
              | inl item =>
                  let h := signalCareTaker "work_claimed" h in
                  match encode_item item with
                  | Err _ => (http_Error "encode work item" StatusInternalServerError, h)
                  | Ok v => (http_JSON StatusOK v, h)
                  end
              end
          end
      end
  end.
Definition nextWorkHandler (now : Instant) (random : option (list N)) (r : Request) (h : Host) : Response * Host :=
  if negb (bool_decide (rq_Method r = MethodGet)) then (http_Error "method not allowed" StatusMethodNotAllowed, h) else
  if negb (sv_normalAdmission (hs_service h)) then
    (http_Error "controller is in recovery mode" StatusServiceUnavailable, h) else
  match sv_store (hs_service h) with
  | None => (http_Error "workflow store required" StatusServiceUnavailable, h)
  | Some st => nextPersistedWorkHandler now random r st h
  end.
End next.

(** ** Reports *)

(** [canonicalJSONTextAndHash] *)
Definition canonicalJSONTextAndHash (name value : string) : result (string * string) :=
  fail_if (is_empty (TrimSpace value)) (Errorf (name +:+ " is required"));;
  match decode_document value with
  | Malformed => Err (Errorf ("decode " +:+ name))
  | Trailing => Err (Errorf (name +:+ " must contain one JSON document"))
  | Document decoded => wrap_err ("canonicalize " +:+ name) (CanonicalJSONSHA256 (of_json decoded))
  end.
Definition reportedOrEvidenceSHA256 (name reported evidence : string) : result string :=
  if is_empty reported then Ok evidence else
  wrap_err name (ValidateSHA256Hex reported);; Ok reported.
Definition reportTimestamp (name value : string) (fallback : Instant) : result string :=
  if is_empty value then Ok (format_instant fallback) else
  match parse_rfc3339 value with
  | None => Err (Errorf ("parse " +:+ name))
  | Some parsed => Ok (format_rfc3339 (UTC parsed))
  end.
(** [activationTimeFromCompletedWork] *)
Definition activationTimeFromCompletedWork (completed : CompletedWorkRecord) (now : Instant) : Time :=
  match parse_rfc3339 (cw_CompletedAt completed) with Some t => UTC t | None => at_UTC now end.

Section reports.
Context {unicode : Unicode} {Payload : Type}.

Definition completeAttemptRequestFromCompletion (completion : WorkCompletion Payload) (fallbackCompletedAt : Instant) :
    result CompleteAttemptRequest :=
  required (wk_AttemptID completion) "attempt_id is required";;
  fail_if (wk_Skipped completion && is_empty (wk_SkippedParentID completion))
    (Errorf "skipped_parent_id is required when skipped is true");;
  output ← canonicalJSONTextAndHash "output_json" (wk_OutputJSON completion);
  validateArtifactManifestOutputJSON output.1;;
  preState ← canonicalJSONTextAndHash "pre_state_json" (wk_PreStateJSON completion);
  postState ← canonicalJSONTextAndHash "post_state_json" (wk_PostStateJSON completion);
  preStateSHA256 ← reportedOrEvidenceSHA256 "pre_state_sha256" (wk_PreStateSHA256 completion) preState.2;
  postStateSHA256 ← reportedOrEvidenceSHA256 "post_state_sha256" (wk_PostStateSHA256 completion) postState.2;
  completedAt ← reportTimestamp "completed_at" (wk_CompletedAt completion) fallbackCompletedAt;
  Ok (mkCompleteReq (wk_AttemptID completion) (wk_WorkerID completion) (wk_WorkerSessionID completion) ""
        (wk_SkippedParentID completion) output.1 output.2 preStateSHA256 postStateSHA256 completedAt).
Definition set_ca_LiveSessionCutoff (cutoff : string) (q : CompleteAttemptRequest) : CompleteAttemptRequest :=
  mkCompleteReq (ca_AttemptID q) (ca_WorkerID q) (ca_WorkerSessionID q) cutoff (ca_SkippedParentID q) (ca_OutputJSON q)
    (ca_OutputJSONSHA256 q) (ca_PreStateSHA256 q) (ca_PostStateSHA256 q) (ca_CompletedAt q).
End reports.

(** [workerLiveSessionCutoff]: no cutoff when the policy cannot be read. *)
Definition workerLiveSessionCutoff (now : Instant) (h : Host) : string :=
  match workerHeartbeatPolicyConfig (sv_launchResolver (hs_service h)) defaultWorkerHeartbeatPolicy with
  | Err _ => ""
  | Ok policy => live_cutoff now policy
  end.

(** The answer to an error of [CompleteAttempt] and of [FailAttempt]. *)
Definition report_error (verb : string) (e : GoError) : Response :=
  if errors_Is e ErrAssignmentNoLongerOwned then http_Error "assignment_no_longer_owned" StatusConflict else
  if error_contains "conflicts with existing" e then http_Error (verb +:+ " attempt conflict") StatusConflict
  else http_Error (verb +:+ " persisted attempt") StatusInternalServerError.

Section persisted.
Context {unicode : Unicode} {floats : JsonFloats} {ops : DataOperators} {payload : PayloadJSON DataPayload}.
Context {sources : RunSources} {outputs : CollectionOutputs}.
Context (clock_now : nat → Time) (eng : Engine).

Definition find_work_item (workItemID : string) : Op WorkItemRecord :=
  found ← query_store (λ s, wrap_err ("get work item " +:+ workItemID) (GetWorkItem workItemID s));
  match found with
  | None => fail (Errorf ("work item " +:+ workItemID +:+ " not found"))
  | Some item => stop item
  end.
Definition recordWorkItemDependencyTerminal (workItemID : string) (state : WorkItemMembershipState) : Op unit :=
  item ← find_work_item workItemID;
  RecordWorkItemTerminalState clock_now eng (wi_RunID item) (wi_ID item) state.
Definition recordWorkItemDependencyFailure (workItemID reason : string) : Op unit :=
  item ← find_work_item workItemID;
  RecordWorkItemTerminalFailure clock_now eng (wi_RunID item) (wi_ID item) reason.

(** [workItem, found, err := c.workflowStore.GetWorkItem(...)] *)
Definition with_work_item (state workItemID : string) (h : Host) (k : WorkItemRecord → Response * Host) : Response * Host :=
  match GetWorkItem workItemID (default None (sv_store (hs_service h))) with
  | Err _ => (http_Error ("get " +:+ state +:+ " work item") StatusInternalServerError, h)
  | Ok None => (http_Error (state +:+ " work item not found") StatusInternalServerError, h)
  | Ok (Some item) => k item
  end.

Definition failPersistedWorkHandler (now : Instant) (failure : WorkFailure) (h : Host) : Response * Host :=
  if is_empty (wl_AttemptID failure) then (http_Error "attempt_id is required" StatusBadRequest, h) else
  match reportTimestamp "failed_at" (wl_FailedAt failure) now with
  | Err e => (http_Error (error_text e) StatusBadRequest, h)
  | Ok failedAt =>
      perform (call_store (FailAttempt eng (mkFailReq (wl_AttemptID failure) (wl_WorkerID failure) (wl_WorkerSessionID failure)
                                        (workerLiveSessionCutoff now h) (wl_Error failure) failedAt))) h (report_error "fail")
        (λ found h,
          match found with
          | None => (http_Error "active attempt not found" StatusNotFound, h)
          | Some failed =>
              with_work_item "failed" (fw_WorkItemID failed) h (λ workItem,
                perform (failAssetMaterializeDependents (Payload := HydratedPayload) clock_now eng workItem (wl_Error failure)) h internal_text
                  (λ _ h, perform (recordWorkItemDependencyFailure (fw_WorkItemID failed) (wl_Error failure)) h internal_text
                    (λ _ h, (http_Status StatusNoContent, signalCareTaker "work_failed" h))))
          end)
  end.
Definition failWorkHandler (now : Instant) (r : Request) (h : Host) : Response * Host :=
  if negb (bool_decide (rq_Method r = MethodPost)) then (http_Error "method not allowed" StatusMethodNotAllowed, h) else
  match decode_first failure_fields zero_failure (rq_Body r) with
  | Err _ => (http_Error "decode failure" StatusBadRequest, h)
  | Ok failure =>
      if is_empty (wl_ID failure) || is_empty (wl_Error failure)
      then (http_Error "work item id and error are required" StatusBadRequest, h) else
      match sv_store (hs_service h) with
      | None => (http_Error "workflow store required" StatusServiceUnavailable, h)
      | Some _ => failPersistedWorkHandler now failure h
      end
  end.

(** [RecordCompletedWorkItemOutput]; when it fails, the item is marked failed. *)
Definition record_output (completed : CompletedWorkRecord) (workItem : WorkItemRecord) (h : Host)
    (k : Host → Response * Host) : Response * Host :=
  match RecordCompletedWorkItemOutput clock_now eng (mkOutputRequest (wi_RunID workItem) (wi_ID workItem)
          (cw_OutputJSON completed) (cw_OutputJSONSHA256 completed)) (host_controller h) with
  | (Ok _, c) => k (after_op c h)
  | (Err e, c) =>
      perform (RecordWorkItemTerminalFailure clock_now eng (wi_RunID workItem) (wi_ID workItem) (error_text e)) (after_op c h)
        (λ failErr, http_Error (error_text e +:+ "; additionally failed to mark dependency output capture failure: " +:+
                                error_text failErr) StatusInternalServerError)
        (λ _ h, (internal_text e, h))
  end.

(** What follows the completion of an item: its dependents, its plan, the next stage. *)
Definition settle_completion (now : Instant) (completion : WorkCompletion HydratedPayload) (completed : CompletedWorkRecord)
    (workItem : WorkItemRecord) (h : Host) : Response * Host :=
  let at_ := activationTimeFromCompletedWork completed now in
  let enqueue := enqueueReadyAssetMaterializeDependents (Payload := HydratedPayload) clock_now eng workItem at_ in
  let done h := (http_Status StatusNoContent, signalCareTaker "work_completed" h) in
  match Unmarshal_item (Payload := HydratedPayload) (wi_WorkerPayloadJSON workItem) with
  | Err _ => (http_Error "decode completed worker payload" StatusInternalServerError, h)
  | Ok item =>
      if bool_decide (w_Type item = WorkItemTypeAssetMaterialize) then perform enqueue h internal_text (λ _ h, done h) else
      let continue h :=
        perform (recordWorkItemDependencyTerminal (cw_WorkItemID completed)
                  (if wk_Skipped completion then WorkItemMembershipStateSkipped else WorkItemMembershipStateCompleted)) h
          internal_text
          (λ _ h, perform enqueue h internal_text
            (λ _ h, perform (activateNextReadyWorkflowStage clock_now eng (wi_RunID workItem) (wi_StageIndex workItem) at_) h
              internal_text
              (λ activated h, done (if activated : bool then signalCareTaker "workflow_stage_activated" h else h)))) in
      if is_empty (wk_OutputJSON completion) then continue h else record_output completed workItem h continue
  end.

Definition completePersistedWorkHandler (now : Instant) (completion : WorkCompletion HydratedPayload) (h : Host) :
    Response * Host :=
  let bad e := (http_Error (error_text e) StatusBadRequest, h) in
  match validateCompletedWorkOutputJSONSize (wk_OutputJSON completion) with
  | Err e => bad e
  | Ok _ =>
      match completeAttemptRequestFromCompletion completion now with
      | Err e => bad e
      | Ok request =>
          match validateCompletedWorkOutputJSONSize (ca_OutputJSON request) with
          | Err e => bad e
          | Ok _ =>
              perform (call_store (CompleteAttempt eng (set_ca_LiveSessionCutoff (workerLiveSessionCutoff now h) request))) h
                (report_error "complete")
                (λ found h,
                  match found with
                  | None => (http_Error "active attempt not found" StatusNotFound, h)
                  | Some completed =>
                      with_work_item "completed" (cw_WorkItemID completed) h (λ workItem,
                        settle_completion now completion completed workItem h)
                  end)
          end
      end
  end.
Definition completeWorkHandler (now : Instant) (r : Request) (h : Host) : Response * Host :=
  if negb (bool_decide (rq_Method r = MethodPost)) then (http_Error "method not allowed" StatusMethodNotAllowed, h) else
  match decode_first completion_fields zero_completion (rq_Body r) with
  | Err _ => (http_Error "decode completion" StatusBadRequest, h)
  | Ok completion =>
      if is_empty (wk_ID completion) then (http_Error "work item id is required" StatusBadRequest, h) else
      match sv_store (hs_service h) with
      | None => (http_Error "workflow store required" StatusServiceUnavailable, h)
      | Some _ => completePersistedWorkHandler now completion h
      end
  end.
End persisted.

(** * The handlers of work items: refusals and two traps

    A report or a request for work that is refused leaves the controller as it was.  Two
    accepted submissions that do harm: raw work items are numbered by 31 bits of a hash, so
    that an id can be impossible to submit, and an item that cannot be made ready for its
    worker is leased before that is found out, so that the worker gets no other work. *)
Local Open Scope Z_scope.

(** ** Refusals *)

Lemma transact_Err {A} s v (body : DB → result (A * DB)) e s' : transact s v body = (Err e, s') → s' = s.
Proof.
  unfold transact. destruct s as [db|]; [|congruence]. destruct v; [|congruence].
  destruct (body db) as [[]|]; congruence.
Qed.
Lemma transact_exec_kept {A} s v (body : Exec → result (A * Exec)) a s' :
  (∀ e e', body e = Ok (a, e') → e' = e) → transact s v (on_exec_tx body) = (Ok a, s') → s' = s.
Proof.
  intros Hbody. unfold transact, on_exec_tx. destruct s as [[c e]|]; [|congruence]. destruct v; [|congruence].
  cbn [exec catalog]. destruct (body e) as [[a' e']|] eqn:Hb; cbn; [|congruence].
  intros H. simplify_eq. by rewrite (Hbody _ _ Hb).
Qed.

Lemma unfound_complete eng q e e' : tx_complete eng q e = Ok (None, e') → e' = e.
Proof. unfold tx_complete. intros Htx. repeat case_match; result_inv; congruence. Qed.
Lemma unfound_fail eng q e e' : tx_fail eng q e = Ok (None, e') → e' = e.
Proof. unfold tx_fail. intros Htx. repeat case_match; result_inv; congruence. Qed.

Lemma with_store_kept h s : sv_store (hs_service h) = Some s →
  mkHost (set_store s (hs_service h)) (hs_clock h) (hs_logSink h) = h.
Proof. destruct h as [[]]. cbn. by intros ->. Qed.
Lemma after_store_kept h s : sv_store (hs_service h) = Some s →
  after_op (mkController (Some s) (hs_clock h) (hs_logSink h)) h = h.
Proof. destruct h as [[]]. cbn. by intros ->. Qed.

(** An answer that is neither a success nor a failure of the controller. *)
Definition refused (r : Response) : Prop := rs_Status r ∉ [StatusOK; StatusNoContent; StatusInternalServerError].

(** A host is left alone when the answer refuses. *)
Definition refusal_keeps (h : Host) (answer : Response * Host) : Prop := refused answer.1 → answer.2 = h.

Lemma keeps_same h r : refusal_keeps h (r, h).
Proof. done. Qed.
Lemma keeps_settled h r h' : rs_Status r ∈ [StatusOK; StatusNoContent; StatusInternalServerError] → refusal_keeps h (r, h').
Proof. by intros Hr Hn. Qed.
Lemma keeps_perform {A} h (m : Op A) on_error k h0 :
  (∀ e, rs_Status (on_error e) = StatusInternalServerError) → (∀ a h', refusal_keeps h (k a h')) →
  refusal_keeps h (perform m h0 on_error k).
Proof. intros He Hk. unfold perform. destruct (m _) as [[a|e] c]; [apply Hk|]. apply keeps_settled. rewrite He. set_solver. Qed.
#[local] Hint Resolve keeps_same keeps_perform : core.

Section refusals.
Context {unicode : Unicode} {floats : JsonFloats} {ops : DataOperators} {payload : PayloadJSON DataPayload}.
Context {sources : RunSources} {outputs : CollectionOutputs}.
Context (clock_now : nat → Time) (eng : Engine).

(** The transaction of a report: when it is refused or finds no attempt, nothing was written. *)
Lemma keeps_report {A} h (f : Store → result (option A) * Store) verb st k :
  sv_store (hs_service h) = Some st →
  (∀ e s', f st = (Err e, s') → s' = st) → (∀ s', f st = (Ok None, s') → s' = st) →
  (∀ a h', refusal_keeps h (k (Some a) h')) → (∀ h', (k None h').2 = h') →
  refusal_keeps h (perform (call_store f) h (report_error verb) k).
Proof.
  intros Hst Herr Hnone Hk Hk0. unfold perform, call_store, host_controller. cbn [workflowStore clock logSink]. rewrite Hst.
  destruct (f st) as [[[a|]|e] s'] eqn:Hf; [apply Hk| |]; intros _; cbn [snd].
  - by rewrite Hk0, (Hnone _ eq_refl), after_store_kept.
  - by rewrite (Herr _ _ eq_refl), after_store_kept.
Qed.

Lemma settled_completion now completion completed workItem h h0 :
  refusal_keeps h (settle_completion clock_now eng now completion completed workItem h0).
Proof.
  unfold settle_completion, record_output.
  repeat case_match; try (apply keeps_settled; set_solver); repeat (apply keeps_perform; [done|intros]);
    try (apply keeps_settled; set_solver).
Qed.
Lemma keeps_with_work_item state id h h0 k :
  (∀ i, refusal_keeps h (k i)) → refusal_keeps h (with_work_item state id h0 k).
Proof. intros Hk. unfold with_work_item. repeat case_match; [apply Hk|..]; apply keeps_settled; set_solver. Qed.

Lemma complete_refusal now r h : refusal_keeps h (completeWorkHandler clock_now eng now r h).
Proof.
  unfold completeWorkHandler, completePersistedWorkHandler.
  case_match; [done|]. case_match; [|done]. case_match; [done|]. destruct (sv_store (hs_service h)) as [st|] eqn:Hst; [|done].
  repeat (case_match; [|done]). eapply keeps_report; [done|..].
  - intros e s'. apply transact_Err.
  - intros s'. apply transact_exec_kept. intros ??. apply unfound_complete.
  - intros completed h'. apply keeps_with_work_item. intros i. apply settled_completion.
  - done.
Qed.
Lemma fail_refusal now r h : refusal_keeps h (failWorkHandler clock_now eng now r h).
Proof.
  unfold failWorkHandler, failPersistedWorkHandler.
  case_match; [done|]. case_match; [|done]. case_match; [done|]. destruct (sv_store (hs_service h)) as [st|] eqn:Hst; [|done].
  case_match; [done|]. case_match; [|done]. eapply keeps_report; [done|..].
  - intros e s'. apply transact_Err.
  - intros s'. apply transact_exec_kept. intros ??. apply unfound_fail.
  - intros failed h'. apply keeps_with_work_item. intros i.
    repeat (apply keeps_perform; [done|intros]). apply keeps_settled; set_solver.
  - done.
Qed.
Lemma next_refusal now random r h : refusal_keeps h (nextWorkHandler eng now random r h).
Proof.
  unfold nextWorkHandler, nextPersistedWorkHandler.
  case_match; [done|]. case_match; [done|]. destruct (sv_store (hs_service h)) as [st|] eqn:Hst; [|done].
  case_match; [|done]. case_match; [|done]. destruct (ClaimNextWork _ _ _) as [claimed st'] eqn:Hclaim.
  destruct claimed as [[claim|]|e]; repeat case_match; try (apply keeps_settled; set_solver);
    intros _; apply transact_Err in Hclaim as ->; by apply with_store_kept.
Qed.

(** C16: a request for work, a completion and a failure report that are refused, whatever the
    reason (a wrong method or body, a missing store, a lost assignment, a conflict, an unknown
    attempt), leave the whole controller as it was. *)
Theorem refused_report_changes_nothing now random r h :
  ∀ answer, answer ∈ [nextWorkHandler eng now random r h; completeWorkHandler clock_now eng now r h;
                      failWorkHandler clock_now eng now r h] →
  refused answer.1 → answer.2 = h.
Proof.
  intros answer Hin Hrefused. apply elem_of_cons in Hin as [->|[->|[->|[]%not_elem_of_nil]%elem_of_cons]%elem_of_cons].
  - by apply next_refusal.
  - by apply complete_refusal.
  - by apply fail_refusal.
Qed.

(** ** A lease that its worker cannot use *)

(** A live session with a running attempt is busy, whatever it would claim. *)
Lemma busy_claim request db attempt row session :
  validate_claim request = Ok tt → cr_ExecutorType request = ExecutorTypeWorker →
  running_work (exec db) !! attempt = Some row → rr_worker_session_id row = Some (cr_WorkerSessionID request) →
  worker_sessions (exec db) !! cr_WorkerSessionID request = Some session → sr_worker_id session = cr_WorkerID request →
  sr_status session = WorkerSessionStatusActive →
  str_leb (cr_LiveSessionCutoff request) (sr_last_heartbeat_at session) = true →
  ClaimNextWork eng request (Some db) = (Err ErrWorkerSessionBusy, Some db).
Proof.
  intros Hv Hx Hrun Hsid Hrow Hwid Hact Hlive. unfold ClaimNextWork, transact. rewrite Hv. unfold on_exec_tx, tx_claim.
  rewrite decide_True by done. unfold validateWorkerSessionCanClaim, getWorkerSession. rewrite Hrow, decide_True by done.
  cbn [ws_Status ws_LastHeartbeatAt scanWorkerSession]. rewrite Hact, bool_decide_eq_false_2 by (intros []; done).
  rewrite str_ltb_leb, Hlive, andb_false_r. cbn [fail_if mbind result_bind].
  assert (count_running_for_session (exec db) (cr_WorkerSessionID request) =? 0 = false) as ->; [|done].
  apply Z.eqb_neq. intros Hzero. unfold count_running_for_session in Hzero. rewrite table_count_0 in Hzero.
  by apply Hzero, bool_decide_eq_false in Hrun.
Qed.

(** C37: an item is leased before it is made ready for its worker.  When a request for work
    claims an item that cannot be decoded, hydrated or validated, the worker is answered with an
    internal error, without the item, and the lease stays.  Whatever happens after that, as long as
    the lease is there and the session is active and alive, every further request for work of the
    same worker is answered that its session is busy, and nothing is claimed. *)
Theorem poison_item_blocks_its_worker now random r h db identity policy claim db' msg :
  rq_Method r = MethodGet → sv_normalAdmission (hs_service h) = true → sv_store (hs_service h) = Some (Some db) →
  requiredWorkerSessionIdentity r = Ok identity →
  workerHeartbeatPolicyConfig (sv_launchResolver (hs_service h)) defaultWorkerHeartbeatPolicy = Ok policy →
  ClaimNextWork eng (claim_request identity policy now random) (Some db) = (Ok (Some claim), Some db') →
  claimed_item (ListTerminalAttemptsForRun (wi_RunID (cl_WorkItem claim)) (Some db')) claim = inr msg →
  let answer := nextWorkHandler eng now random r h in
  answer.1 = http_Error msg StatusInternalServerError ∧ sv_store (hs_service answer.2) = Some (Some db') ∧
  (∃ row, running_work (exec db') !! cl_AttemptID claim = Some row ∧
     rr_work_item_id row = wi_ID (cl_WorkItem claim) ∧ rr_worker_session_id row = Some (id_WorkerSessionID identity)) ∧
  ∀ later random2 h2 db2 policy2 row session,
    sv_normalAdmission (hs_service h2) = true → sv_store (hs_service h2) = Some (Some db2) →
    workerHeartbeatPolicyConfig (sv_launchResolver (hs_service h2)) defaultWorkerHeartbeatPolicy = Ok policy2 →
    validate_claim (claim_request identity policy2 later random2) = Ok tt →
    running_work (exec db2) !! cl_AttemptID claim = Some row →
    rr_worker_session_id row = Some (id_WorkerSessionID identity) →
    worker_sessions (exec db2) !! id_WorkerSessionID identity = Some session →
    sr_worker_id session = id_WorkerID identity → sr_status session = WorkerSessionStatusActive →
    str_leb (live_cutoff later policy2) (sr_last_heartbeat_at session) = true →
    nextWorkHandler eng later random2 r h2 = (http_Error "worker_session_busy" StatusConflict, h2).
Proof.
  intros Hget Hadm Hst Hid Hpol Hclaim Hbad answer.
  assert (answer = (http_Error msg StatusInternalServerError, mkHost (set_store (Some db') (hs_service h)) (hs_clock h) (hs_logSink h))) as ->.
  { unfold answer, nextWorkHandler. rewrite bool_decide_eq_true_2, Hadm, Hst by done. cbn [negb].
    unfold nextPersistedWorkHandler. by rewrite Hid, Hpol, Hclaim, Hbad. }
  split; [done|]. split; [done|]. split.
  - destruct (ClaimNextWork_effect _ _ _ _ _ Hclaim) as (Hc & _ & _ & _ & _ & _ & Hrun & _). rewrite Hrun.
    assert (cl_AttemptID claim = cr_AttemptID (claim_request identity policy now random)) as -> by (by rewrite Hc).
    rewrite lookup_insert_eq. eexists. split; [done|]. split; [done|]. cbn [rr_worker_session_id claim_request cr_WorkerSessionID].
    unfold requiredWorkerSessionIdentity in Hid. apply bind_Ok in Hid as (u & Hne%fail_if_Ok & [= <-]).
    apply orb_false_iff in Hne as [_ Hne]. unfold nullString. cbn [id_WorkerSessionID]. by rewrite Hne.
  - intros later random2 h2 db2 policy2 row session Hadm2 Hst2 Hpol2 Hv Hrun Hsid Hrow Hwid Hact Hlive.
    unfold nextWorkHandler. rewrite bool_decide_eq_true_2, Hadm2, Hst2 by done. cbn [negb].
    unfold nextPersistedWorkHandler. rewrite Hid, Hpol2.
    rewrite (busy_claim (claim_request identity policy2 later random2) db2 _ row session) by done. by rewrite with_store_kept.
Qed.
End refusals.

(** ** Raw work items *)

Definition demo_host (db : DB) : Host := mkHost (demo_service db) 0 (Some []).
Definition raw_work (id type : string) : Request :=
  post "/work" (JObject [("id", JString id); ("type", JString type); ("output_filename", JString "o.json")]).
Definition submitted (id type : string) (h : Host) : Response * Host :=
  @submitWorkHandler plain_floats demo_engine race_now (raw_work id type) h.

(** Two ids can share their 31-bit number, and the stage of raw work holds a number only
    once: after the first item the second is answered with an internal error, although its id
    is not in use and it is accepted on its own. *)
Theorem raw_index_collision :
  rawWorkItemIndex "tile-66420" = rawWorkItemIndex "tile-88091" ∧
  let first := submitted "tile-66420" "write_demo_output" (demo_host emptyDB) in
  first.1 = http_Status StatusNoContent ∧
  (submitted "tile-88091" "write_demo_output" (demo_host emptyDB)).1 = http_Status StatusNoContent ∧
  (submitted "tile-88091" "write_demo_output" first.2).1 = http_Error "persist work item" StatusInternalServerError.
Proof. vm_compute. repeat split. Qed.

(** ** An item that cannot be handed out *)

(** A controller with a registered worker, an item that commits data and one that does not. *)
Definition poisoned : Host :=
  let registered := registerWorkerHandler demo_engine race_now (Some [1]%N) (Some [2]%N) demo_registration (demo_service emptyDB) in
  (submitted "write" "write_demo_output" (submitted "commit" WorkItemTypeCommitData (mkHost registered.2 0 (Some []))).2).2.
Definition fetch : Request :=
  mkRequest MethodGet "/work/next" ∅ {[workerIDHeader := ["worker-01"]; workerSessionIDHeader := ["worker-session-02"]]} 0 "".
Definition fetched (random : N) (h : Host) : Response * Host :=
  @nextWorkHandler latin1_only plain_floats demo_engine race_now (Some [random]) fetch h.
(** The item that an attempt is running, and its worker session. *)
Definition leased (attemptID : string) (h : Host) : option (string * string) :=
  match sv_store (hs_service h) with
  | Some (Some db) => (λ r, (rw_workItemID r, rw_workerSessionID r)) <$> getRunningWork (exec db) attemptID
  | _ => None
  end.

(** One such controller: a data commit without its parameter is accepted, leased, and found out
    when it is handed over; the other item stays in the queue. *)
Example poisoned_controller :
  let first := fetched 3 poisoned in
  first.1 = http_Error "hydrate commit_data work item" StatusInternalServerError ∧
  leased "attempt-03" first.2 = Some ("commit", "worker-session-02") ∧
  (fetched 4 first.2).1 = http_Error "worker_session_busy" StatusConflict ∧
  (fetched 4 first.2).2 = first.2.
Proof. vm_compute. repeat split. Qed.

(** The same controller, with the second request of its worker. *)
Section poison_witness.
#[local] Existing Instances latin1_only plain_floats.
Definition poisoned_policy : WorkerHeartbeatPolicy := defaultWorkerHeartbeatPolicy.
Definition worker_identity : workerSessionIdentity := mkIdentity "worker-01" "worker-session-02".
Definition poisoned_db (h : Host) : DB := match sv_store (hs_service h) with Some (Some db) => db | _ => emptyDB end.
Definition poisoned_claim : ClaimedWorkRecord :=
  match ClaimNextWork demo_engine (claim_request worker_identity poisoned_policy race_now (Some [3]%N)) (Some (poisoned_db poisoned)) with
  | (Ok (Some claim), _) => claim
  | _ => mkClaimed "" (mkWorkItem "" "" 0 0 "" "" "") "" "" "" "" ""
  end.
Lemma poison_item_blocks_its_worker_witness :
  (fetched 3 poisoned).1 = http_Error "hydrate commit_data work item" StatusInternalServerError ∧
  fetched 4 (fetched 3 poisoned).2 = (http_Error "worker_session_busy" StatusConflict, (fetched 3 poisoned).2).
Proof.
  set (after := poisoned_db (fetched 3 poisoned).2).
  destruct (poison_item_blocks_its_worker demo_engine race_now (Some [3]%N) fetch poisoned (poisoned_db poisoned)
    worker_identity poisoned_policy poisoned_claim after "hydrate commit_data work item") as (Hanswer & Hst & (row & Hrun & _ & Hsid) & Hbusy).
  - reflexivity.
  - vm_compute. reflexivity.
  - vm_compute. reflexivity.
  - vm_compute. reflexivity.
  - vm_compute. reflexivity.
  - vm_compute. reflexivity.
  - vm_compute. reflexivity.
  - split; [exact Hanswer|].
    destruct (worker_sessions (exec after) !! "worker-session-02") as [session|] eqn:Hsession; [|exfalso; vm_compute in Hsession; discriminate].
    apply (Hbusy race_now (Some [4]%N) (fetched 3 poisoned).2 after poisoned_policy row session).
    + vm_compute. reflexivity.
    + exact Hst.
    + vm_compute. reflexivity.
    + vm_compute. reflexivity.
    + exact Hrun.
    + exact Hsid.
    + exact Hsession.
    + vm_compute in Hsession. injection Hsession as <-. reflexivity.
    + vm_compute in Hsession. injection Hsession as <-. reflexivity.
    + vm_compute in Hsession. injection Hsession as <-. vm_compute. reflexivity.
Defined.
End poison_witness.

(** A failure report for an attempt that nobody has. *)
Section witness.
#[local] Existing Instances latin1_only plain_formats plain_floats plain_urls.
Definition no_sources : RunSources :=
  {| run_source _ := Err (Errorf "no source"); prepareCompiledWorkflowForAdmission _ r := Ok r; buildInfoCodeVersion := "" |}.
Definition lost_report : Request :=
  post "/work/fail" (JObject [("id", JString "commit"); ("attempt_id", JString "attempt-99"); ("error", JString "boom")]).
Definition lost_answer : Response * Host :=
  failWorkHandler (λ _, mkTime 2026 1 1 0 0 20 0 0) demo_engine race_now lost_report poisoned.
Lemma refused_report_changes_nothing_witness :
  lost_answer.1 = http_Error "active attempt not found" StatusNotFound ∧ lost_answer.2 = poisoned.
Proof.
  split; [vm_compute; reflexivity|].
  apply (@refused_report_changes_nothing _ _ _ _ no_sources _ (λ _, mkTime 2026 1 1 0 0 20 0 0) demo_engine race_now
           (Some [3]%N) lost_report poisoned lost_answer).
  - right. right. left.
  - intros Hin. assert (Hs : rs_Status lost_answer.1 = StatusNotFound) by (vm_compute; reflexivity). rewrite Hs in Hin. revert Hin.
    apply (bool_decide_unpack _). vm_compute. exact I.
Defined.
End witness.
