(* ===== verification/RepoSource.v ===== *)
(** * Repository sources and their cache ([internal/reposource])

    The files of a workflow are read from a repository, recorded in a manifest and
    published into a cache of the controller, from where every later reading takes them
    and checks them against the manifest.  The state is the file system, as the contents
    of the files by cleaned path; operations that touch it return it.  What an operating
    system may refuse besides (permissions, space) is not modelled. *)

From S2P Require Import Prelude GoTime GoJson GoStrings GoPath GoJsonLaws GoSha256 Fingerprint GoJsonStruct.
From S2P Require Import GoHttp GoInstant Resource StoreData StoreSQL StoreOps StoreQueries Dependency.
From S2P Require Import Variables Expression Functions Resolver VariableCodec WorkerCapacity Caretaker Lifecycle DataNames.
Local Open Scope Z_scope.

(** ** Data ([model.go], [provider.go], [manifest.go], [source_declaration.go]) *)

Record RepositoryIdentity := mkRepository { ri_Value : string; ri_DisplayName : string }.
Record ResolvedSourceReference := mkResolvedSource {
  rs_Repository : RepositoryIdentity; rs_RequestedRef : string; rs_RevisionID : option string }.
Record SourceFileRequest := mkFileRequest {
  sf_Repository : RepositoryIdentity; sf_RevisionID : option string; sf_SourcePath : string }.
Record SourceFileContent := mkFileContent { sc_Data : string; sc_ObjectID : option string }.
Definition FileRole : Type := string.
Definition FileRoleProject : FileRole := "project".
Definition FileRoleWorkflow : FileRole := "workflow".
Definition FileRolePythonEntrypoint : FileRole := "python_entrypoint".
Definition FileRolePythonEnvironment : FileRole := "python_environment".
Definition FileRoleSupportFile : FileRole := "support_file".
Record AdmittedSourceManifestFile := mkManifestFile {
  mn_Role : FileRole; mn_SourcePath : string; mn_CachePath : string; mn_ObjectID : option string; mn_SizeBytes : Z;
  mn_RawSHA256 : option string; mn_CanonicalJSONSHA256 : option string; mn_ContentType : string }.
Record AdmittedSourceManifest := mkSourceManifest {
  as_Schema : string; as_RunID : string; as_Source : ResolvedSourceReference; as_Files : list AdmittedSourceManifestFile }.
Record ReadFileResult := mkRead {
  rd_Request : SourceFileRequest; rd_Content : SourceFileContent; rd_RawSHA256 : string; rd_SizeBytes : Z }.
Record DeclaredSourceFile := mkDeclared {
  dc_Role : FileRole; dc_SourcePath : string; dc_CachePath : string; dc_ContentType : string;
  dc_CanonicalJSONSHA256 : option string }.
Record SourceManifestFileDeclaration := mkFileDeclaration { fd_Role : FileRole; fd_Path : string; fd_ContentType : string }.
Definition SourceManifestDeclaration : Type := list SourceManifestFileDeclaration.
Definition AdmittedSourceManifestSchemaV1 : string := "goet/admitted-source-manifest/v1".
Definition LocalProvenanceWarning : string :=
  "Local source files do not provide source-control authenticity. Use a source-control provider when provenance must be verifiable.".

Definition newReadFileResult (request : SourceFileRequest) (data : string) (objectID : option string) : ReadFileResult :=
  mkRead request (mkFileContent data objectID) (SHA256Hex data) (Z.of_nat (slen data)).

(** ** Paths ([path.go]) *)

Definition hasDrivePrefix (value : string) : bool :=
  match value with
  | String a (String b _) => bool_decide (b = ":"%char) && latin1_letter (byte_N a)
  | _ => false
  end.
Definition hasOriginalDotDotSegment (value : string) : bool :=
  existsb (λ segment, bool_decide (segment = "..")) (split_byte "/" value).
Definition validateSlashPath (value : string) : result string :=
  fail_if (is_empty value) (Errorf "path is required");;
  fail_if (bool_decide (value = ".")) (Errorf "path is required");;
  fail_if (contains "\" value) (Errorf "path must use forward slashes");;
  fail_if (has_prefix "/" value || has_prefix "//" value) (Errorf "path must be repository-relative");;
  fail_if (hasDrivePrefix value) (Errorf "path must be repository-relative");;
  fail_if (hasOriginalDotDotSegment value) (Errorf "path must not contain .. segments");;
  let clean := Clean value in
  fail_if (bool_decide (clean = ".") || bool_decide (clean = "/") || has_prefix "/" clean)
    (Errorf "path must be repository-relative");;
  fail_if (contains "\" clean) (Errorf "path must use forward slashes");;
  fail_if (hasDrivePrefix clean) (Errorf "path must be repository-relative");;
  Ok clean.
Definition ValidateRepositoryRelativePath (value : string) : result string := validateSlashPath value.
Definition ValidateCacheRelativePath (value : string) : result string := validateSlashPath value.

Definition sourceFileRequests (repository : RepositoryIdentity) (revisionID : option string) (paths : list string) :
    result (list SourceFileRequest) :=
  traverse_items (λ _ value,
    sourcePath ← wrap_err ("validate source path " +:+ value) (ValidateRepositoryRelativePath value);
    Ok (mkFileRequest repository revisionID sourcePath)) 0 paths.

(** ** Declarations of supplemental files *)

Definition FileDeclaration_Validate (f : SourceManifestFileDeclaration) : result unit :=
  fail_if (negb (bool_decide (fd_Role f ∈ [FileRolePythonEntrypoint; FileRolePythonEnvironment; FileRoleSupportFile])))
    (Errorf ("unsupported role " +:+ fd_Role f));;
  ValidateRepositoryRelativePath (fd_Path f);; Ok tt.
Definition validate_declaration (st : Z * gset string) (f : SourceManifestFileDeclaration) : result (Z * gset string) :=
  let at_ := "source_manifest.files[" +:+ pretty st.1 +:+ "]" in
  wrap_err at_ (FileDeclaration_Validate f);;
  path ← wrap_err (at_ +:+ ".path") (ValidateRepositoryRelativePath (fd_Path f));
  fail_if (bool_decide (path ∈ st.2)) (Errorf (at_ +:+ ".path: duplicate path " +:+ path));;
  Ok (st.1 + 1, {[path]} ∪ st.2).
Definition Declaration_Validate (d : SourceManifestDeclaration) : result unit :=
  foldM validate_declaration (0, ∅) d;; Ok tt.
Definition declaration_file (f : SourceManifestFileDeclaration) : DeclaredSourceFile :=
  let path := match ValidateRepositoryRelativePath (fd_Path f) with Ok path => path | Err _ => "" end in
  mkDeclared (fd_Role f) path path (fd_ContentType f) None.
Definition DeclaredSourceFiles (d : SourceManifestDeclaration) : result (list DeclaredSourceFile) :=
  Declaration_Validate d;;
  Ok (declaration_file <$> d).
(** [UnmarshalJSON]: the cache path is not the caller's to choose. *)
Definition file_declaration_fields : Struct SourceManifestFileDeclaration :=
  [("role", into_string (λ x f, mkFileDeclaration x (fd_Path f) (fd_ContentType f)));
   ("path", into_string (λ x f, mkFileDeclaration (fd_Role f) x (fd_ContentType f)));
   ("content_type", into_string (λ x f, mkFileDeclaration (fd_Role f) (fd_Path f) x))].
Definition FileDeclaration_UnmarshalJSON (v : JSON) : result SourceManifestFileDeclaration :=
  match v with
  | JObject fields =>
      fail_if (bool_decide ("cache_path" ∈ fields.*1))
        (Errorf "cache_path is controller-owned and must not be declared");;
      decode_struct false file_declaration_fields (mkFileDeclaration "" "" "") v
  | _ => decode_struct false file_declaration_fields (mkFileDeclaration "" "" "") v
  end.

(** ** The manifest *)

Definition reads_by_path (reads : list ReadFileResult) : result (gmap string ReadFileResult) :=
  foldM (λ m read,
    sourcePath ← wrap_err ("validate read source path " +:+ sf_SourcePath (rd_Request read))
                   (ValidateRepositoryRelativePath (sf_SourcePath (rd_Request read)));
    Ok (<[sourcePath := read]> m)) ∅ reads.
Definition admit_file (readByPath : gmap string ReadFileResult) (st : gset string * list AdmittedSourceManifestFile)
    (item : DeclaredSourceFile) : result (gset string * list AdmittedSourceManifestFile) :=
  let '(seen, files) := st in
  fail_if (is_empty (dc_Role item)) (Errorf "file role is required");;
  sourcePath ← wrap_err ("validate declared source path " +:+ dc_SourcePath item) (ValidateRepositoryRelativePath (dc_SourcePath item));
  cachePath ← wrap_err ("validate declared cache path " +:+ dc_CachePath item) (ValidateCacheRelativePath (dc_CachePath item));
  fail_if (bool_decide (sourcePath ∈ seen)) (Errorf ("duplicate declared source path " +:+ sourcePath));;
  match readByPath !! sourcePath with
  | None => Err (Errorf ("declared source file " +:+ sourcePath +:+ " was not read"))
  | Some read =>
      Ok ({[sourcePath]} ∪ seen,
          files ++ [mkManifestFile (dc_Role item) sourcePath cachePath (sc_ObjectID (rd_Content read)) (rd_SizeBytes read)
                      (Some (rd_RawSHA256 read)) (dc_CanonicalJSONSHA256 item) (dc_ContentType item)])
  end.
Definition BuildAdmittedSourceManifest (runID : string) (source : ResolvedSourceReference) (declared : list DeclaredSourceFile)
    (reads : list ReadFileResult) : result AdmittedSourceManifest :=
  required runID "run id is required";;
  required (ri_Value (rs_Repository source)) "source repository identity is required";;
  readByPath ← reads_by_path reads;
  admitted ← foldM (admit_file readByPath) (∅, []) declared;
  Ok (mkSourceManifest AdmittedSourceManifestSchemaV1 runID source admitted.2).

(** ** The layout of the cache ([cache_layout.go]) *)

Record CacheLayout := mkLayout { layout_root : string }.
Record CachePaths := mkPaths { cp_FilesRoot : string; cp_ManifestPath : string; cp_LocksPath : string; cp_TmpPath : string }.
Definition NewCacheLayout (cacheRoot : string) : result CacheLayout :=
  required cacheRoot "cache root is required";; Ok (mkLayout (Clean cacheRoot)).

(** [[A-Za-z0-9._-]] *)
Definition safe_byte (c : ascii) : bool :=
  let n := byte_N c in
  ((48 <=? n)%N && (n <=? 57)%N) || ((65 <=? n)%N && (n <=? 90)%N) || ((97 <=? n)%N && (n <=? 122)%N) ||
  bool_decide (c = "."%char) || bool_decide (c = "_"%char) || bool_decide (c = "-"%char).
Definition safeCacheKey (name value : string) : result string :=
  fail_if (is_empty value) (Errorf (name +:+ " is required"));;
  fail_if (bool_decide (is_Some (index_where (λ c, negb (safe_byte c)) value))) (Errorf (name +:+ " contains unsafe filename characters"));;
  Ok value.
Definition isGitHubRepository (value : string) : bool := has_prefix "github.com/" value.
Definition GitHubRepositoryKey (repository : RepositoryIdentity) : result string :=
  let value := ri_Value repository in
  fail_if (negb (isGitHubRepository value)) (Errorf "github repository identity must start with github.com/");;
  fail_if (contains_any "@:?" value)
    (Errorf "github repository identity must not contain credentials or URL punctuation");;
  let parts := split_byte "/" value in
  fail_if (negb (bool_decide (length parts = 3%nat)) || existsb is_empty (drop 1 parts))
    (Errorf "github repository identity must be github.com/<owner>/<repo>");;
  safeCacheKey "github repository key" (str_join "_" parts).

Definition localPaths (l : CacheLayout) (runID : string) : CachePaths :=
  let base := Join [layout_root l; "local"; "runs"; runID] in
  mkPaths (Join [base; "files"]) (Join [base; "manifest.json"]) "" "".
Definition githubPaths (l : CacheLayout) (repository : RepositoryIdentity) (revisionID runID : string) : result CachePaths :=
  repositoryKey ← GitHubRepositoryKey repository;
  contentKey ← safeCacheKey "github content key" revisionID;
  let repoBase := Join [layout_root l; "github"; "repos"; repositoryKey] in
  let contentBase := Join [repoBase; contentKey] in
  Ok (mkPaths (Join [contentBase; "files"]) (Join [contentBase; "manifests"; runID +:+ ".json"]) (Join [repoBase; "locks"])
        (Join [repoBase; "tmp"])).
Definition PathsForManifest (l : CacheLayout) (manifest : AdmittedSourceManifest) : result CachePaths :=
  required (layout_root l) "cache root is required";;
  required (as_RunID manifest) "run id is required";;
  if isGitHubRepository (ri_Value (rs_Repository (as_Source manifest))) then
    match rs_RevisionID (as_Source manifest) with
    | None | Some EmptyString => Err (Errorf "github manifest requires revision id")
    | Some revisionID => githubPaths l (rs_Repository (as_Source manifest)) revisionID (as_RunID manifest)
    end
  else Ok (localPaths l (as_RunID manifest)).

(** [filepath.Rel] of two cleaned paths. *)
Fixpoint strip_common (base target : list string) : list string * list string :=
  match base, target with
  | b :: base', t :: target' => if bool_decide (b = t) then strip_common base' target' else (base, target)
  | _, _ => (base, target)
  end.
Definition Rel (base target : string) : result string :=
  let '(b, t) := strip_common (components base) (components target) in
  fail_if (negb (Bool.eqb (rooted base) (rooted target)) || bool_decide (head b = Some ".."))
    (Errorf ("Rel: can't make " +:+ target +:+ " relative to " +:+ base));;
  match (replicate (length b) ".."  ++ t) with
  | [] => Ok "."
  | names => Ok (str_join "/" names)
  end.
Definition joinUnderRoot (root child : string) : result string :=
  let candidate := Join [root; child] in
  rel ← wrap_err "check cache path" (Rel root candidate);
  fail_if (bool_decide (rel = "..") || rooted rel || has_prefix "../" rel) (Errorf "cache path escapes files root");;
  Ok candidate.
Definition Layout_FilePath (l : CacheLayout) (manifest : AdmittedSourceManifest) (cachePath : string) : result string :=
  paths ← PathsForManifest l manifest;
  clean ← ValidateCacheRelativePath cachePath;
  joinUnderRoot (cp_FilesRoot paths) clean.

(** ** Files *)

Notation Files := (gmap string string).
(** Whether the file system takes a file at the path: no directory is there, and no file
    where a directory is needed. *)
Definition under (dir path : string) : bool := has_prefix (dir +:+ "/") path.
Definition obstructed (files : Files) (path : string) : bool :=
  existsb (λ kv, under kv.1 path || under path kv.1) (map_to_list files).
Definition write_file (what : string) (path data : string) (files : Files) : result Files :=
  fail_if (obstructed files path) (Errorf what);;
  Ok (<[path := data]> files).

(** ** Verification ([cache_verify.go]) *)

Definition ErrCacheMiss : GoError := Sentinel "repository cache miss".
Definition ErrCacheCorruption : GoError := Sentinel "repository cache corruption".
Definition corrupt (file : AdmittedSourceManifestFile) (what : string) : GoError :=
  Wrapf (mn_CachePath file +:+ " " +:+ what) ErrCacheCorruption.
Definition cachedCanonicalJSONSHA256 (data : string) : result string :=
  match decode_document data with
  | Malformed => Err json_syntax
  | Trailing => Err (Errorf "multiple json values")
  | Document value => hashed ← CanonicalJSONSHA256 (of_json value); Ok hashed.2
  end.
Definition VerifyCachedFile (file : AdmittedSourceManifestFile) (data : string) : result unit :=
  fail_if ((0 <=? mn_SizeBytes file) && negb (Z.of_nat (slen data) =? mn_SizeBytes file)) (corrupt file "size");;
  fail_if (match mn_RawSHA256 file with Some want => negb (bool_decide (SHA256Hex data = want)) | None => false end)
    (corrupt file "raw sha256 mismatch");;
  match mn_CanonicalJSONSHA256 file with
  | None => Ok tt
  | Some want =>
      match cachedCanonicalJSONSHA256 data with
      | Err e => Err (corrupt file ("canonical json: " +:+ error_text e))
      | Ok got => fail_if (negb (bool_decide (got = want))) (corrupt file "canonical json sha256 mismatch")
      end
  end.

(** ** Reading through the manifest ([cache_access.go]) *)

Record CacheAccess := mkAccess { ac_layout : CacheLayout; ac_manifest : AdmittedSourceManifest }.
Definition NewCacheAccess (layout : CacheLayout) (manifest : AdmittedSourceManifest) : result CacheAccess :=
  PathsForManifest layout manifest;; Ok (mkAccess layout manifest).
Definition access_Paths (a : CacheAccess) : result CachePaths := PathsForManifest (ac_layout a) (ac_manifest a).
Definition same_cache_path (clean : string) (file : AdmittedSourceManifestFile) : bool :=
  match ValidateCacheRelativePath (mn_CachePath file) with Ok path => bool_decide (path = clean) | Err _ => false end.
Definition manifestFile (a : CacheAccess) (cachePath : string) : option AdmittedSourceManifestFile :=
  match ValidateCacheRelativePath cachePath with
  | Err _ => None
  | Ok clean => List.find (same_cache_path clean) (as_Files (ac_manifest a))
  end.
Definition manifestContainsCachePath (a : CacheAccess) (cachePath : string) : bool :=
  bool_decide (is_Some (manifestFile a cachePath)).
Definition not_in_manifest (cachePath : string) : GoError :=
  Errorf ("cache path " +:+ cachePath +:+ " is not in admitted manifest").
Definition access_FilePath (a : CacheAccess) (cachePath : string) : result string :=
  fail_if (negb (manifestContainsCachePath a cachePath)) (not_in_manifest cachePath);;
  Layout_FilePath (ac_layout a) (ac_manifest a) cachePath.
Definition FilePathForManifestFile (a : CacheAccess) (file : AdmittedSourceManifestFile) : result string :=
  access_FilePath a (mn_CachePath file).
Definition access_ReadFile (a : CacheAccess) (cachePath : string) (files : Files) : result string :=
  match manifestFile a cachePath with
  | None => Err (not_in_manifest cachePath)
  | Some file =>
      path ← Layout_FilePath (ac_layout a) (ac_manifest a) (mn_CachePath file);
      match files !! path with
      | None => Err (if obstructed files path then Errorf ("read cached file " +:+ mn_CachePath file)
                     else Wrapf (mn_CachePath file) ErrCacheMiss)
      | Some data => VerifyCachedFile file data;; Ok data
      end
  end.

(** ** Publishing ([cache_publish.go]) *)

Definition publishCacheFile (path : string) (file : AdmittedSourceManifestFile) (data : string) (files : Files) : result Files :=
  match files !! path with
  | Some existing =>
      match VerifyCachedFile file existing with
      | Ok _ => Ok files
      | Err _ => write_file ("create cache parent for " +:+ mn_CachePath file) path data (delete path files)
      end
  | None => write_file ("create cache parent for " +:+ mn_CachePath file) path data files
  end.

(** [json.MarshalIndent(v, "", "  ")] *)
Definition line (indent : string) : string := newline_text +:+ indent.
Fixpoint print_indented (indent : string) (v : JSON) : string :=
  match v with
  | JArray ((_ :: _) as items) =>
      "[" +:+ str_join "," ((λ x, line (indent +:+ "  ") +:+ print_indented (indent +:+ "  ") x) <$> items) +:+ line indent +:+ "]"
  | JObject ((_ :: _) as fields) =>
      "{" +:+ str_join "," ((λ '(k, x), line (indent +:+ "  ") +:+ marshal_string k +:+ ": " +:+
                                        print_indented (indent +:+ "  ") x) <$> fields) +:+ line indent +:+ "}"
  | _ => print v
  end.
Definition nullable_text (v : option string) : JSON := match v with Some s => JString s | None => JNull end.
Definition encode_repository (r : RepositoryIdentity) : JSON :=
  JObject [("Value", JString (ri_Value r)); ("DisplayName", JString (ri_DisplayName r))].
Definition encode_source (s : ResolvedSourceReference) : JSON :=
  JObject [("Repository", encode_repository (rs_Repository s)); ("RequestedRef", JString (rs_RequestedRef s));
           ("RevisionID", nullable_text (rs_RevisionID s))].
Definition encode_manifest_file (f : AdmittedSourceManifestFile) : JSON :=
  JObject [("Role", JString (mn_Role f)); ("SourcePath", JString (mn_SourcePath f)); ("CachePath", JString (mn_CachePath f));
           ("ObjectID", nullable_text (mn_ObjectID f)); ("SizeBytes", JInt (mn_SizeBytes f));
           ("RawSHA256", nullable_text (mn_RawSHA256 f)); ("CanonicalJSONSHA256", nullable_text (mn_CanonicalJSONSHA256 f));
           ("ContentType", JString (mn_ContentType f))].
Definition encode_source_manifest (m : AdmittedSourceManifest) : JSON :=
  JObject [("Schema", JString (as_Schema m)); ("RunID", JString (as_RunID m)); ("Source", encode_source (as_Source m));
           ("Files", JArray (encode_manifest_file <$> as_Files m))].

Definition publishManifest (a : CacheAccess) (manifest : AdmittedSourceManifest) (files : Files) : result Files :=
  paths ← access_Paths a;
  write_file "create manifest parent" (cp_ManifestPath paths) (print_indented "" (encode_source_manifest manifest)) files.
Definition publish_file (a : CacheAccess) (readByPath : gmap string ReadFileResult) (files : Files)
    (file : AdmittedSourceManifestFile) : result Files :=
  match readByPath !! mn_SourcePath file with
  | None => Err (Errorf ("manifest file " +:+ mn_SourcePath file +:+ " has no admitted bytes"))
  | Some read =>
      VerifyCachedFile file (sc_Data (rd_Content read));;
      path ← FilePathForManifestFile a file;
      publishCacheFile path file (sc_Data (rd_Content read)) files
  end.
(** The files written so far stay when a later one fails. *)
Fixpoint publish_files (a : CacheAccess) (readByPath : gmap string ReadFileResult) (l : list AdmittedSourceManifestFile)
    (files : Files) : result unit * Files :=
  match l with
  | [] => (Ok tt, files)
  | file :: rest =>
      match publish_file a readByPath files file with
      | Err e => (Err e, files)
      | Ok files' => publish_files a readByPath rest files'
      end
  end.
Definition PublishAdmittedSource (layout : CacheLayout) (manifest : AdmittedSourceManifest) (reads : list ReadFileResult)
    (files : Files) : result unit * Files :=
  match (access ← NewCacheAccess layout manifest; readByPath ← reads_by_path reads; Ok (access, readByPath)) with
  | Err e => (Err e, files)
  | Ok (access, readByPath) =>
      match publish_files access readByPath (as_Files manifest) files with
      | (Err e, files') => (Err e, files')
      | (Ok _, files') =>
          match publishManifest access manifest files' with
          | Err e => (Err e, files')
          | Ok files'' => (Ok tt, files'')
          end
      end
  end.

(** ** Pins ([cache_pin.go]) *)

Record SourceCachePin := mkPin {
  pin_Schema : string; pin_PinID : string; pin_Reason : string; pin_WorkflowRunID : string; pin_SourceIdentity : string;
  pin_SourceRevisionID : option string; pin_ManifestPath : string; pin_PinnedCachePaths : list string }.
Definition SourceCachePinSchemaV1 : string := "goet/source-cache-pin/v1".
Definition CachePinReasonWorkflowRun : string := "workflow_run".
Definition workflowRunPinID (runID : string) : result string :=
  required runID "run id is required";; safeCacheKey "cache pin id" ("run-" +:+ runID).
Definition cachePinPath (layout : CacheLayout) (manifest : AdmittedSourceManifest) (pinID : string) : result string :=
  required (layout_root layout) "cache root is required";;
  required pinID "pin id is required";;
  if isGitHubRepository (ri_Value (rs_Repository (as_Source manifest))) then
    match rs_RevisionID (as_Source manifest) with
    | None | Some EmptyString => Err (Errorf "github manifest requires revision id")
    | Some revisionID =>
        repositoryKey ← GitHubRepositoryKey (rs_Repository (as_Source manifest));
        contentKey ← safeCacheKey "github content key" revisionID;
        Ok (Join [layout_root layout; "github"; "repos"; repositoryKey; contentKey; "pins"; pinID +:+ ".json"])
    end
  else Ok (Join [layout_root layout; "local"; "runs"; as_RunID manifest; "pins"; pinID +:+ ".json"]).
Definition CachePinForManifest (layout : CacheLayout) (manifest : AdmittedSourceManifest) : result (SourceCachePin * string) :=
  paths ← PathsForManifest layout manifest;
  pinID ← workflowRunPinID (as_RunID manifest);
  pinned ← traverse_items (λ _ file, wrap_err ("validate pin cache path " +:+ mn_CachePath file)
                                       (ValidateCacheRelativePath (mn_CachePath file))) 0 (as_Files manifest);
  pinPath ← cachePinPath layout manifest pinID;
  Ok (mkPin SourceCachePinSchemaV1 pinID CachePinReasonWorkflowRun (as_RunID manifest)
        (ri_Value (rs_Repository (as_Source manifest))) (rs_RevisionID (as_Source manifest)) (cp_ManifestPath paths) pinned, pinPath).
Definition encode_pin (p : SourceCachePin) : JSON :=
  JObject [("schema", JString (pin_Schema p)); ("pin_id", JString (pin_PinID p)); ("reason", JString (pin_Reason p));
           ("workflow_run_id", JString (pin_WorkflowRunID p)); ("source_identity", JString (pin_SourceIdentity p));
           ("source_revision_id", nullable_text (pin_SourceRevisionID p)); ("manifest_path", JString (pin_ManifestPath p));
           ("pinned_cache_paths", JArray (JString <$> pin_PinnedCachePaths p))].
Definition WriteCachePin (layout : CacheLayout) (manifest : AdmittedSourceManifest) (files : Files) :
    result ((SourceCachePin * string) * Files) :=
  built ← CachePinForManifest layout manifest;
  files' ← write_file "create cache pin parent" built.2 (print_indented "" (encode_pin built.1)) files;
  Ok (built, files').
Definition add_pin (layout : CacheLayout) (st : list (SourceCachePin * string) * Files) (manifest : AdmittedSourceManifest) :
    result (list (SourceCachePin * string) * Files) :=
  written ← WriteCachePin layout manifest st.2;
  Ok (st.1 ++ [written.1], written.2).
Definition ReconstructCachePins (layout : CacheLayout) (manifests : list AdmittedSourceManifest) (files : Files) :
    result (list (SourceCachePin * string) * Files) := foldM (add_pin layout) ([], files) manifests.

(** ** Materialising a manifest ([materialize.go]) *)

Definition materializedFilePath (destinationRoot cachePath : string) : result string :=
  target ← wrap_err "materialized path escapes destination" (joinUnderRoot destinationRoot cachePath);
  rel ← wrap_err "check materialized path" (Rel destinationRoot target);
  fail_if (bool_decide (rel = ".") || has_prefix "../" rel || bool_decide (rel = "..") || rooted rel)
    (Errorf "materialized path escapes destination");;
  Ok target.
Definition materialize_file (a : CacheAccess) (destination : string) (files : Files) (file : AdmittedSourceManifestFile) :
    result Files :=
  cachePath ← wrap_err ("validate materialized cache path " +:+ mn_CachePath file) (ValidateCacheRelativePath (mn_CachePath file));
  data ← access_ReadFile a cachePath files;
  target ← materializedFilePath destination cachePath;
  wrap_err ("materialize " +:+ cachePath) (write_file "create parent directories" target data files).
(** [destination] is absolute. *)
Definition MaterializeManifest (a : CacheAccess) (destination : string) (files : Files) : result Files :=
  required destination "destination is required";;
  foldM (λ files file, materialize_file a (Clean destination) files file) files (as_Files (ac_manifest a)).
