(* ===== verification/RepoSourceLaws.v ===== *)
(** * The cache of admitted sources: below its root, and read as admitted

    Every path of the cache stays below the root of its files, and a source that was
    published is read back, whatever the cache held before: stale and corrupt files are
    replaced, and what is read has the size and the hashes of the manifest. *)

From S2P Require Import Prelude GoTime GoJson GoStrings GoPath GoJsonLaws GoSha256 Fingerprint GoJsonStruct.
From S2P Require Import GoHttp GoInstant Resource StoreData StoreSQL StoreOps StoreQueries Dependency.
From S2P Require Import Variables Expression Functions Resolver VariableCodec WorkerCapacity Caretaker Lifecycle WorkItem.
From S2P Require Import DataNames DataCollections DataAssets DataProviders DataDefinitions DataLaws RepoSource.
Local Open Scope Z_scope.

(** ** Paths *)

Lemma no_up_plain root l out : Forall (λ e, has_byte "/" e = false ∧ e ≠ "..") l → Forall plain_name out →
  Forall plain_name (foldl (clean_step root) out l).
Proof.
  intros Hl. revert out. induction Hl as [|e l [Hs Hup] _ IH]; intros out Hout; [done|]. cbn [foldl]. apply IH.
  unfold clean_step. case_bool_decide as H1; [done|]. rewrite bool_decide_eq_false_2 by done.
  constructor; [|done]. by split_and!; auto.
Qed.
Lemma no_up_components v : hasOriginalDotDotSegment v = false → Forall plain_name (components v).
Proof.
  intros H. unfold components. apply Forall_rev, no_up_plain; [|done]. apply Forall_forall. intros e He. split.
  - by eapply split_byte_parts.
  - intros ->. unfold hasOriginalDotDotSegment in H. by rewrite (proj2 (existsb_elem _ _)) in H by (exists ".."; eauto using bool_decide_eq_true_2).
Qed.

Lemma validateSlashPath_Ok v clean : validateSlashPath v = Ok clean →
  is_empty v = false ∧ has_prefix "/" v = false ∧ hasOriginalDotDotSegment v = false ∧ Clean v ≠ "." ∧ clean = Clean v.
Proof.
  unfold validateSlashPath. cbv zeta. intros H.
  repeat (let Hg := fresh "Hg" in apply bind_Ok in H as ([] & Hg & H); apply fail_if_Ok in Hg).
  repeat match goal with H : orb _ _ = false |- _ => apply orb_false_iff in H as [? ?] end.
  match goal with H : bool_decide (Clean v = ".") = false |- _ => apply bool_decide_eq_false in H end.
  injection H as H. by split_and!.
Qed.
(** An accepted path is made of plain names. *)
Lemma validated_plain v clean : validateSlashPath v = Ok clean → Forall plain_name (split_byte "/" clean).
Proof.
  intros (He & Hr & Hup & Hdot & ->)%validateSlashPath_Ok. pose proof (no_up_components v Hup) as Hp.
  revert Hdot. unfold Clean, rooted. rewrite He, Hr. intros Hdot.
  destruct (components v) as [|n l] eqn:Hc; [done|]. inversion Hp as [|? ? Hn Hl]; subst.
  assert (is_empty (str_join "/" (n :: l)) = false) as ->.
  { unfold is_empty. apply bool_decide_eq_false. destruct Hn as (? & _). destruct n; [done|]. by destruct l. }
  rewrite split_join by (eapply Forall_impl; [exact Hl|]; by intros ? (_ & _ & _ & ?)).
  rewrite split_byte_none by apply Hn. by constructor.
Qed.
Lemma validated_again v clean : validateSlashPath v = Ok clean → Clean clean = clean.
Proof. intros H. by apply plain_Clean, (validated_plain v). Qed.

Lemma strip_common_app base names : strip_common base (base ++ names) = ([], names).
Proof. induction base as [|b base IH]; cbn [strip_common app]; [by destruct names|]. by rewrite bool_decide_eq_true_2. Qed.
Lemma join_plain_head names : names ≠ [] → Forall plain_name names →
  split_byte "/" (str_join "/" names) = names.
Proof.
  intros Hne Hp. destruct names as [|n l]; [done|]. inversion Hp as [|? ? Hn Hl]; subst.
  rewrite split_join by (eapply Forall_impl; [exact Hl|]; by intros ? (_ & _ & _ & ?)). by rewrite split_byte_none by apply Hn.
Qed.
(** Names that were joined to a root are what [Rel] finds. *)
Lemma Rel_below root candidate names : names ≠ [] → Forall plain_name names →
  components candidate = components root ++ names → rooted candidate = rooted root →
  Rel root candidate = Ok (str_join "/" names).
Proof.
  intros Hne Hp Hc Hr. unfold Rel. rewrite Hc, strip_common_app, Hr. destruct (rooted root); cbn; by destruct names.
Qed.
Lemma not_escaping names : names ≠ [] → Forall plain_name names →
  bool_decide (str_join "/" names = "..") || rooted (str_join "/" names) || has_prefix "../" (str_join "/" names) = false.
Proof.
  intros Hne Hp. pose proof (join_plain_head names Hne Hp) as Hs. set (path := str_join "/" names) in *.
  assert (Hpath : Forall plain_name (split_byte "/" path)) by by rewrite Hs.
  destruct (plain_split_head path Hpath) as [_ Hroot]. rewrite orb_false_iff, orb_false_iff. split_and!.
  - apply bool_decide_eq_false. intros Hd. rewrite Hd in Hpath. inversion Hpath as [|? ? (_ & _ & Hx & _) _]. done.
  - exact Hroot.
  - destruct (has_prefix "../" path) eqn:Hd; [|done]. apply has_prefix_spec in Hd as [rest Hd]. rewrite Hd in Hpath.
    change ("../" +:+ rest) with (".." +:+ String "/" rest) in Hpath. rewrite split_byte_sep in Hpath.
    apply Forall_app in Hpath as [Hx _]. inversion Hx as [|? ? (_ & _ & Hy & _) _]. done.
Qed.
Lemma joinUnderRoot_below root child names : root ≠ "" → child ≠ "" → split_byte "/" child = names → Forall plain_name names →
  joinUnderRoot root child = Ok (Join [root; child]) ∧ components (Join [root; child]) = components root ++ names.
Proof.
  intros Hr Hne Hs Hp. assert (Hn : names ≠ []) by (rewrite <-Hs; apply split_byte_nonempty).
  rewrite <-Hs in Hp. rewrite (Join_two root child) by done. rewrite Hs in *.
  destruct (components_Join root names Hr Hp) as [Hc Hroot]. split; [|done]. unfold joinUnderRoot.
  rewrite (Join_two root child) by (rewrite ?Hs; done). rewrite Hs, (Rel_below _ _ names) by done. cbn [wrap_err mbind result_bind].
  by rewrite not_escaping.
Qed.

Lemma Clean_nonempty p : Clean p ≠ "".
Proof.
  unfold Clean. destruct (is_empty p) eqn:He; [done|]. destruct (rooted p); [done|].
  destruct (is_empty (str_join "/" (components p))) eqn:Hj; [done|]. by apply bool_decide_eq_false in Hj.
Qed.
Lemma Join_not_empty e l : e ≠ "" → Join (e :: l) ≠ "".
Proof. intros He. cbn [Join]. unfold is_empty. rewrite bool_decide_eq_false_2 by done. apply Clean_nonempty. Qed.

Lemma paths_root l m paths : PathsForManifest l m = Ok paths → cp_FilesRoot paths ≠ "".
Proof.
  unfold PathsForManifest, required. intros H. apply bind_Ok in H as ([] & Hr & H). apply bind_Ok in H as ([] & _ & H).
  apply fail_if_Ok, bool_decide_eq_false in Hr.
  destruct (isGitHubRepository _).
  - destruct (rs_RevisionID (as_Source m)) as [[|c rev]|]; [done| |done]. unfold githubPaths in H. cbv zeta in H.
    apply bind_Ok in H as (key & _ & H). apply bind_Ok in H as (content & _ & H).
    match type of H with Ok ?x = _ => assert (Hp : paths = x) by congruence end.
    rewrite Hp. cbn [cp_FilesRoot]. by repeat apply Join_not_empty.
  - assert (Hp : paths = localPaths l (as_RunID m)) by congruence. rewrite Hp. cbn [localPaths cp_FilesRoot]. by repeat apply Join_not_empty.
Qed.

(** The path of a file in the cache, and what it is made of. *)
Lemma file_path_spec l m p path : Layout_FilePath l m p = Ok path ↔
  ∃ paths clean, PathsForManifest l m = Ok paths ∧ ValidateCacheRelativePath p = Ok clean ∧
    path = Join [cp_FilesRoot paths; clean].
Proof.
  unfold Layout_FilePath. split.
  - intros H. apply bind_Ok in H as (paths & Hp & H). apply bind_Ok in H as (clean & Hc & H).
    exists paths, clean. split_and!; [done|done|]. pose proof (validated_plain p clean Hc) as Hplain.
    destruct (joinUnderRoot_below (cp_FilesRoot paths) clean _ (paths_root _ _ _ Hp) (proj1 (plain_split_head _ Hplain)) eq_refl Hplain)
      as [Hj _]. rewrite Hj in H. by injection H as <-.
  - intros (paths & clean & Hp & Hc & ->). rewrite Hp. cbn [mbind result_bind]. rewrite Hc. cbn [mbind result_bind].
    pose proof (validated_plain p clean Hc) as Hplain.
    by apply (joinUnderRoot_below (cp_FilesRoot paths) clean _ (paths_root _ _ _ Hp) (proj1 (plain_split_head _ Hplain)) eq_refl Hplain).
Qed.
Lemma joined_components root clean v : root ≠ "" → validateSlashPath v = Ok clean →
  components (Join [root; clean]) = components root ++ split_byte "/" clean ∧ rooted (Join [root; clean]) = rooted root.
Proof.
  intros Hr Hc%validated_plain. rewrite (Join_two root clean) by (done || apply (plain_split_head _ Hc)). by apply components_Join.
Qed.
Lemma joined_inj root c1 c2 v1 v2 : root ≠ "" → validateSlashPath v1 = Ok c1 → validateSlashPath v2 = Ok c2 →
  Join [root; c1] = Join [root; c2] → c1 = c2.
Proof.
  intros Hr H1 H2 Heq. destruct (joined_components root c1 v1 Hr H1) as [E1 _], (joined_components root c2 v2 Hr H2) as [E2 _].
  rewrite Heq, E2 in E1. apply app_inv_head in E1. by rewrite <-(join_split_byte "/" c1), <-(join_split_byte "/" c2), E1.
Qed.

(** C18: a path of the cache is computed for every relative path without [..], and it stays
    below the directory of the files: its components are those of the directory, followed by
    plain names. *)
Theorem cache_file_stays_below_root l m p :
  (∀ paths clean, PathsForManifest l m = Ok paths → ValidateCacheRelativePath p = Ok clean → ∃ path, Layout_FilePath l m p = Ok path) ∧
  (∀ path, Layout_FilePath l m p = Ok path →
     ∃ paths names, PathsForManifest l m = Ok paths ∧ names ≠ [] ∧ Forall plain_name names ∧
       components path = components (cp_FilesRoot paths) ++ names ∧ rooted path = rooted (cp_FilesRoot paths)).
Proof.
  split.
  - intros paths clean Hp Hc. eexists. apply file_path_spec. eauto.
  - intros path (paths & clean & Hp & Hc & ->)%file_path_spec. exists paths, (split_byte "/" clean).
    destruct (joined_components (cp_FilesRoot paths) clean p (paths_root _ _ _ Hp) Hc) as [-> ->].
    split_and!; [done|apply split_byte_nonempty|by eapply validated_plain|done|done].
Qed.

(** ** Publishing and reading back *)

Lemma validated_fixed v c : validateSlashPath v = Ok c → validateSlashPath c = Ok c.
Proof.
  intros Hv. pose proof (validated_plain v c Hv) as Hp. destruct (plain_split_head c Hp) as [Hne Hr].
  pose proof (plain_Clean c Hp) as Hc.
  apply validateSlashPath_Ok in Hv as Hs. destruct Hs as (_ & _ & _ & Hdot & Heq). rewrite <-Heq in Hdot.
  assert (Hup : hasOriginalDotDotSegment c = false).
  { unfold hasOriginalDotDotSegment. destruct (existsb _ _) eqn:He; [|done]. apply existsb_elem in He as (s & Hs & Hd).
    apply bool_decide_eq_true in Hd as ->. eapply Forall_forall in Hp as (_ & _ & Hx & _); [|done]. done. }
  assert (Hr2 : has_prefix "//" c = false).
  { destruct (has_prefix "//" c) eqn:Hx; [|done]. apply has_prefix_spec in Hx as [t ->]. done. }
  assert (Hslash : bool_decide (c = "/") = false) by (apply bool_decide_eq_false; intros ->; done).
  unfold validateSlashPath in Hv |- *. cbv zeta in *. rewrite Hc.
  repeat (let Hg := fresh "Hg" in apply bind_Ok in Hv as ([] & Hg & Hv); apply fail_if_Ok in Hg).
  rewrite <-Heq in *. rewrite Hr, Hr2, Hup, Hslash.
  unfold is_empty. rewrite !bool_decide_eq_false_2 by done. cbn [orb]. 
  match goal with H : contains "\" c = false |- _ => rewrite H end.
  match goal with H : hasDrivePrefix c = false |- _ => rewrite H end. done.
Qed.

Lemma write_file_Ok what path data fs fs' : write_file what path data fs = Ok fs' → fs' = <[path := data]> fs.
Proof. unfold write_file. intros H. result_inv. done. Qed.
Lemma publishCacheFile_Ok path file data fs fs' :
  VerifyCachedFile file data = Ok tt → publishCacheFile path file data fs = Ok fs' →
  (∃ d, fs' !! path = Some d ∧ VerifyCachedFile file d = Ok tt) ∧ (∀ q, q ≠ path → fs' !! q = fs !! q).
Proof.
  intros Hv. unfold publishCacheFile. destruct (fs !! path) as [existing|] eqn:He; [destruct (VerifyCachedFile file existing) as [[]|] eqn:Hx|].
  - intros [= <-]. eauto.
  - intros ->%write_file_Ok. split; [exists data; by rewrite lookup_insert_eq|]. intros q Hq. by rewrite lookup_insert_ne, ?lookup_delete_ne by done.
  - intros ->%write_file_Ok. split; [exists data; by rewrite lookup_insert_eq|]. intros q Hq. by rewrite lookup_insert_ne, ?lookup_delete_ne by done.
Qed.
Lemma publish_files_Ok a readByPath l fs fs' :
  NoDup (FilePathForManifestFile a <$> l) → publish_files a readByPath l fs = (Ok tt, fs') →
  (∀ file, file ∈ l → ∃ read path d, readByPath !! mn_SourcePath file = Some read ∧
     VerifyCachedFile file (sc_Data (rd_Content read)) = Ok tt ∧
     FilePathForManifestFile a file = Ok path ∧ fs' !! path = Some d ∧ VerifyCachedFile file d = Ok tt) ∧
  (∀ q, Ok q ∉ FilePathForManifestFile a <$> l → fs' !! q = fs !! q).
Proof.
  revert fs. induction l as [|file l IH]; intros fs Hdup H.
  { injection H as ->. split; [by intros ? ?%elem_of_nil|done]. }
  cbn [publish_files] in H. destruct (publish_file a readByPath fs file) as [fs1|] eqn:Hf; [|done].
  csimpl in *. apply NoDup_cons in Hdup as [Hnew Hdup]. destruct (IH fs1 Hdup H) as [Hin Hout].
  unfold publish_file in Hf. destruct (readByPath !! mn_SourcePath file) as [read|] eqn:Hread; [|done].
  apply bind_Ok in Hf as ([] & Hv & Hf). apply bind_Ok in Hf as (path & Hp & Hf).
  destruct (publishCacheFile_Ok _ _ _ _ _ Hv Hf) as [(d & Hd & Hvd) Hother]. rewrite Hp in Hnew. split.
  - intros f [->|Hl]%elem_of_cons; [|by apply Hin]. exists read, path, d. split_and!; try done. by rewrite Hout.
  - intros q Hq. rewrite not_elem_of_cons in Hq. destruct Hq as [Hne Hq]. rewrite Hout by done. apply Hother. congruence.
Qed.

(** The files of a manifest that was built from declarations whose cache path is their
    source path: cleaned, equal and distinct. *)
Definition well_placed (file : AdmittedSourceManifestFile) : Prop :=
  mn_CachePath file = mn_SourcePath file ∧ validateSlashPath (mn_SourcePath file) = Ok (mn_SourcePath file).
Lemma admit_files_Ok readByPath declared st st' :
  (∀ d, d ∈ declared → dc_CachePath d = dc_SourcePath d) →
  Forall well_placed st.2 → NoDup (mn_SourcePath <$> st.2) → (∀ p, p ∈ mn_SourcePath <$> st.2 → p ∈ st.1) →
  foldM (admit_file readByPath) st declared = Ok st' →
  Forall well_placed st'.2 ∧ NoDup (mn_SourcePath <$> st'.2).
Proof.
  intros Hsame Hw Hdup Hseen H.
  cut (Forall well_placed st'.2 ∧ NoDup (mn_SourcePath <$> st'.2) ∧ (∀ p, p ∈ mn_SourcePath <$> st'.2 → p ∈ st'.1)); [tauto|].
  refine (foldM_inv (λ st, Forall well_placed st.2 ∧ NoDup (mn_SourcePath <$> st.2) ∧ (∀ p, p ∈ mn_SourcePath <$> st.2 → p ∈ st.1))
            _ declared st st' _ _ H); [|done].
  clear -Hsame. intros [seen files] d [seen' files'] Hd (Hw & Hdup & Hseen) H. unfold admit_file in H. cbn [fst snd] in *.
  apply bind_Ok in H as ([] & _ & H). apply bind_Ok in H as (source & Hsource & H). apply bind_Ok in H as (cache & Hcache & H).
  apply bind_Ok in H as ([] & Hnew & H). rewrite wrap_err_Ok in Hsource, Hcache. apply fail_if_Ok, bool_decide_eq_false in Hnew.
  rewrite (Hsame d Hd) in Hcache. unfold ValidateCacheRelativePath, ValidateRepositoryRelativePath in *. assert (cache = source) as -> by congruence.
  destruct (readByPath !! source) as [read|]; [|done]. injection H as <- <-. rewrite fmap_app. cbn [fmap list_fmap mn_SourcePath].
  split_and!.
  - apply Forall_app. split; [done|]. constructor; [|done]. split; [done|]. by eapply validated_fixed.
  - apply NoDup_app. split_and!; [done| |apply NoDup_singleton]. intros p Hp Hq. apply list_elem_of_singleton in Hq as ->. auto.
  - intros p [Hp| ->%list_elem_of_singleton]%elem_of_app; set_solver.
Qed.

(** The place of a file in the cache, and where the manifest is. *)
Lemma well_placed_path l m file : well_placed file → file ∈ as_Files m →
  FilePathForManifestFile (mkAccess l m) file = Layout_FilePath l m (mn_SourcePath file).
Proof.
  intros [Hc Hv] Hin. unfold FilePathForManifestFile, access_FilePath. rewrite Hc. cbn [ac_layout ac_manifest].
  assert (manifestContainsCachePath (mkAccess l m) (mn_SourcePath file) = true) as ->; [|done].
  apply bool_decide_eq_true_2. unfold manifestFile, ValidateCacheRelativePath. rewrite Hv. cbn [ac_manifest].
  destruct (List.find _ _) eqn:Hf; [done|]. apply find_none with (x := file) in Hf; [|by apply list_elem_of_In].
  unfold same_cache_path, ValidateCacheRelativePath in Hf. rewrite Hc, Hv, bool_decide_eq_true_2 in Hf by done. done.
Qed.
Lemma paths_distinct l m paths files :
  PathsForManifest l m = Ok paths → Forall well_placed files → NoDup (mn_SourcePath <$> files) → files ⊆ as_Files m →
  NoDup (FilePathForManifestFile (mkAccess l m) <$> files).
Proof.
  intros Hp Hw. induction Hw as [|file files Hf Hw IH]; csimpl; intros Hdup Hsub; [constructor|].
  apply NoDup_cons in Hdup as [Hnew Hdup]. constructor; [|apply IH; set_solver]. intros (g & Heq & Hg)%list_elem_of_fmap.
  eapply Forall_forall in Hw as Hwg; [|done]. rewrite !well_placed_path in Heq by (done || set_solver).
  destruct Hf as [_ Hvf], Hwg as [_ Hvg].
  assert (E : ∀ p, validateSlashPath p = Ok p → Layout_FilePath l m p = Ok (Join [cp_FilesRoot paths; p])) by (intros; apply file_path_spec; eauto).
  rewrite !E in Heq by done. injection Heq as Heq. apply (joined_inj _ _ _ _ _ (paths_root _ _ _ Hp) Hvf Hvg) in Heq.
  apply Hnew. rewrite Heq. by apply list_elem_of_fmap_2.
Qed.
Lemma siblings_apart base p rest first :
  base ≠ "" → validateSlashPath p = Ok p → first ≠ "files" → Forall plain_name (first :: rest) →
  Join (base :: first :: rest) ≠ Join [Join [base; "files"]; p].
Proof.
  intros Hb Hp Hf Hplain Heq. assert (Hfiles : Forall plain_name ["files"]) by by repeat constructor.
  destruct (joined_components (Join [base; "files"]) p p) as [Hc _]; [by apply Join_not_empty|done|].
  rewrite <-Heq in Hc. rewrite (proj1 (components_Join base _ Hb Hplain)), (proj1 (components_Join base _ Hb Hfiles)) in Hc.
  rewrite <-app_assoc in Hc. apply app_inv_head in Hc. by injection Hc.
Qed.
Lemma manifest_apart l m paths p :
  PathsForManifest l m = Ok paths → plain_name (as_RunID m +:+ ".json") → validateSlashPath p = Ok p →
  cp_ManifestPath paths ≠ Join [cp_FilesRoot paths; p].
Proof.
  unfold PathsForManifest, required. intros H Hrun Hp. apply bind_Ok in H as ([] & Hr & H). apply bind_Ok in H as ([] & _ & H).
  apply fail_if_Ok, bool_decide_eq_false in Hr. destruct (isGitHubRepository _).
  - destruct (rs_RevisionID (as_Source m)) as [[|c rev]|]; [done| |done]. unfold githubPaths in H. cbv zeta in H.
    apply bind_Ok in H as (key & _ & H). apply bind_Ok in H as (content & _ & H).
    match type of H with Ok ?x = _ => assert (Hpaths : paths = x) by congruence end. rewrite Hpaths. cbn [cp_FilesRoot cp_ManifestPath].
    apply siblings_apart; [by repeat apply Join_not_empty|done|done|]. repeat constructor; done || apply Hrun.
  - assert (Hpaths : paths = localPaths l (as_RunID m)) by congruence. rewrite Hpaths. cbn [localPaths cp_FilesRoot cp_ManifestPath].
    apply siblings_apart; [by repeat apply Join_not_empty|done|done|]. by repeat constructor.
Qed.

Lemma reads_by_path_elem reads readByPath p read :
  reads_by_path reads = Ok readByPath → readByPath !! p = Some read → read ∈ reads.
Proof.
  intros H. revert p read. unfold reads_by_path in H.
  refine (foldM_inv (λ m, ∀ p read, m !! p = Some read → read ∈ reads) _ reads ∅ readByPath _ _ H).
  - intros m r m' Hr IH Hm p read Hp. result_inv. destruct (decide (x = p)) as [->|Hne].
    + rewrite lookup_insert_eq in Hp. congruence.
    + rewrite lookup_insert_ne in Hp by done. eauto.
  - intros p read. by rewrite lookup_empty.
Qed.
Lemma verified_hash file data : VerifyCachedFile file data = Ok tt → ∀ sha, mn_RawSHA256 file = Some sha → SHA256Hex data = sha.
Proof.
  unfold VerifyCachedFile. intros H sha Hsha. rewrite Hsha in H. apply bind_Ok in H as ([] & _ & H). apply bind_Ok in H as ([] & Hg & _).
  by apply fail_if_Ok, negb_false_iff, bool_decide_eq_true in Hg.
Qed.
Lemma admitted_raw readByPath declared st st' :
  Forall (λ f, is_Some (mn_RawSHA256 f)) st.2 → foldM (admit_file readByPath) st declared = Ok st' →
  Forall (λ f, is_Some (mn_RawSHA256 f)) st'.2.
Proof.
  intros Hst. apply (foldM_inv (λ st, Forall (λ f, is_Some (mn_RawSHA256 f)) st.2)); [|done]. clear.
  intros [seen files] d [seen' files'] _ Hf H. unfold admit_file in H.
  apply bind_Ok in H as ([] & _ & H). apply bind_Ok in H as (source & _ & H). apply bind_Ok in H as (cache & _ & H).
  apply bind_Ok in H as ([] & _ & H). destruct (readByPath !! source); [|done]. injection H as <- <-.
  apply Forall_app. split; [done|]. repeat constructor. by eexists.
Qed.

Lemma built_manifest runID source declared reads m :
  (∀ d, d ∈ declared → dc_CachePath d = dc_SourcePath d) → BuildAdmittedSourceManifest runID source declared reads = Ok m →
  as_RunID m = runID ∧ Forall well_placed (as_Files m) ∧ NoDup (mn_SourcePath <$> as_Files m) ∧
  Forall (λ f, is_Some (mn_RawSHA256 f)) (as_Files m).
Proof.
  intros Hsame H. unfold BuildAdmittedSourceManifest in H. apply bind_Ok in H as ([] & _ & H). apply bind_Ok in H as ([] & _ & H).
  apply bind_Ok in H as (byPath & _ & H). apply bind_Ok in H as (admitted & Hadm & H).
  match type of H with Ok ?x = _ => assert (Hm : m = x) by congruence end. rewrite Hm. cbn [as_RunID as_Files].
  edestruct (admit_files_Ok byPath declared (∅, []) admitted) as [Hw Hdup]; [done|constructor|constructor|by intros ? ?%elem_of_nil|done|].
  split_and!; try done. by eapply (admitted_raw byPath declared (∅, []) admitted); [constructor|].
Qed.
Lemma published_files layout m reads files files' : PublishAdmittedSource layout m reads files = (Ok tt, files') →
  ∃ paths byPath fs, PathsForManifest layout m = Ok paths ∧ reads_by_path reads = Ok byPath ∧
    publish_files (mkAccess layout m) byPath (as_Files m) files = (Ok tt, fs) ∧
    ∃ text, files' = <[cp_ManifestPath paths := text]> fs.
Proof.
  unfold PublishAdmittedSource, NewCacheAccess. intros H. destruct (PathsForManifest layout m) as [paths|] eqn:Hp; [|done].
  destruct (reads_by_path reads) as [byPath|]; [|done]. cbn [mbind result_bind] in H.
  destruct (publish_files _ _ _ _) as [[[]|] fs] eqn:Hfs; [|done]. exists paths, byPath, fs. split_and!; [done..|].
  destruct (publishManifest _ m fs) as [fs2|] eqn:Hman; [|done]. injection H as <-. unfold publishManifest, access_Paths in Hman.
  cbn [ac_layout ac_manifest] in Hman. rewrite Hp in Hman. cbn [mbind result_bind] in Hman. apply write_file_Ok in Hman. eauto.
Qed.
Lemma found_in_manifest l m file : Forall well_placed (as_Files m) → NoDup (mn_SourcePath <$> as_Files m) → file ∈ as_Files m →
  manifestFile (mkAccess l m) (mn_CachePath file) = Some file.
Proof.
  intros Hw Hdup Hin. assert (Hf : well_placed file) by by eapply Forall_forall in Hw. destruct Hf as [Hc Hv].
  unfold manifestFile, ValidateCacheRelativePath. rewrite Hc, Hv. cbn [ac_manifest].
  destruct (List.find _ _) as [g|] eqn:Hg.
  - apply find_some in Hg as [Hgin%list_elem_of_In Hsame]. assert (Hwg : well_placed g) by by eapply Forall_forall in Hw.
    destruct Hwg as [Hgc Hgv]. unfold same_cache_path, ValidateCacheRelativePath in Hsame. rewrite Hgc, Hgv in Hsame.
    apply bool_decide_eq_true in Hsame. apply list_elem_of_lookup in Hin as [i Hi], Hgin as [j Hj]. f_equal.
    assert (j = i) as ->; [|congruence].
    apply (NoDup_lookup (mn_SourcePath <$> as_Files m) j i (mn_SourcePath file)); [done|by rewrite list_lookup_fmap, Hj; cbn; rewrite Hsame|by rewrite list_lookup_fmap, Hi].
  - apply find_none with (x := file) in Hg; [|by apply list_elem_of_In].
    unfold same_cache_path, ValidateCacheRelativePath in Hg. rewrite Hc, Hv, bool_decide_eq_true_2 in Hg by done. done.
Qed.

(** C13: a source that was admitted and published is read back file by file, whatever the
    cache held before: reading succeeds, and what is read has the hash of the bytes that
    were admitted and passes every check of the manifest.  The declarations name the same
    path in the cache as in the repository, as the controller makes them. *)
Theorem published_source_is_read_back layout runID source declared reads m files files' :
  (∀ d, d ∈ declared → dc_CachePath d = dc_SourcePath d) → plain_name (runID +:+ ".json") →
  BuildAdmittedSourceManifest runID source declared reads = Ok m →
  PublishAdmittedSource layout m reads files = (Ok tt, files') →
  ∀ file, file ∈ as_Files m →
  ∃ data read, access_ReadFile (mkAccess layout m) (mn_CachePath file) files' = Ok data ∧ read ∈ reads ∧
    SHA256Hex data = SHA256Hex (sc_Data (rd_Content read)) ∧ VerifyCachedFile file data = Ok tt.
Proof.
  intros Hsame Hrun (Hid & Hw & Hdup & Hraw)%built_manifest Hpub file Hin; [|done].
  apply published_files in Hpub as (paths & byPath & fs & Hpaths & Hby & Hfs & text & ->).
  destruct (publish_files_Ok _ _ _ _ _ (paths_distinct _ _ _ _ Hpaths Hw Hdup ltac:(done)) Hfs) as [Hok _].
  destruct (Hok file Hin) as (read & path & d & Hread & Hvr & Hpath & Hd & Hvd). exists d, read.
  assert (Hwf : well_placed file) by by eapply Forall_forall in Hw.
  rewrite (well_placed_path _ _ _ Hwf Hin) in Hpath. destruct (proj1 (file_path_spec _ _ _ _) Hpath) as (paths' & clean & Hp' & Hclean & Heq).
  assert (paths' = paths) as -> by congruence. destruct Hwf as [Hcache Hvalid].
  assert (clean = mn_SourcePath file) as -> by (unfold ValidateCacheRelativePath in Hclean; congruence).
  assert (Hne : cp_ManifestPath paths ≠ path) by (rewrite Heq; apply (manifest_apart layout m); [done|by rewrite Hid|done]).
  split_and!; [|by eapply reads_by_path_elem| |done].
  - unfold access_ReadFile. rewrite found_in_manifest by done. cbn [ac_layout ac_manifest]. rewrite Hcache, Hpath. cbn [mbind result_bind].
    by rewrite lookup_insert_ne, Hd, Hvd by done.
  - eapply Forall_forall in Hraw as [sha Hsha]; [|done]. by rewrite (verified_hash _ _ Hvd _ Hsha), (verified_hash _ _ Hvr _ Hsha).
Qed.

(** ** Instances *)

Definition demo_source : ResolvedSourceReference := mkResolvedSource (mkRepository "github.com/acme/etl" "") "main" (Some "abc123").
Definition demo_layout : CacheLayout := mkLayout "/cache".
Definition demo_read (path data : string) : ReadFileResult :=
  newReadFileResult (mkFileRequest (rs_Repository demo_source) (rs_RevisionID demo_source) path) data None.
Definition demo_reads : list ReadFileResult := [demo_read "project.json" "{}"; demo_read "src/run.py" "pass"].
Definition demo_declared : list DeclaredSourceFile :=
  [mkDeclared FileRoleProject "project.json" "project.json" "application/json"
     (match cachedCanonicalJSONSHA256 "{}" with Ok sha => Some sha | Err _ => None end);
   mkDeclared FileRolePythonEntrypoint "src/run.py" "src/run.py" "" None].
Definition demo_source_manifest : result AdmittedSourceManifest :=
  BuildAdmittedSourceManifest "run-01" demo_source demo_declared demo_reads.
(** A cache with a damaged copy of the project file. *)
Definition damaged : Files := {["/cache/github/repos/github.com_acme_etl/abc123/files/project.json" := "{"]}.

Lemma cache_file_stays_below_root_witness :
  ∃ paths names, PathsForManifest demo_layout (mkSourceManifest "" "run-01" demo_source []) = Ok paths ∧ names ≠ [] ∧
    Forall plain_name names ∧
    components "/cache/github/repos/github.com_acme_etl/abc123/files/src/run.py" = components (cp_FilesRoot paths) ++ names.
Proof.
  destruct (proj2 (cache_file_stays_below_root demo_layout (mkSourceManifest "" "run-01" demo_source []) "src//run.py")
    "/cache/github/repos/github.com_acme_etl/abc123/files/src/run.py") as (paths & names & Hp & Hn & Hf & Hc & _).
  - vm_compute. reflexivity.
  - exists paths, names. exact (conj Hp (conj Hn (conj Hf Hc))).
Defined.

Lemma published_source_is_read_back_witness :
  ∃ m files' file data, demo_source_manifest = Ok m ∧ PublishAdmittedSource demo_layout m demo_reads damaged = (Ok tt, files') ∧
    file ∈ as_Files m ∧ mn_CachePath file = "project.json" ∧
    access_ReadFile (mkAccess demo_layout m) (mn_CachePath file) files' = Ok data ∧ SHA256Hex data = SHA256Hex "{}".
Proof.
  destruct demo_source_manifest as [m|] eqn:Hm; [|exfalso; vm_compute in Hm; discriminate].
  destruct (PublishAdmittedSource demo_layout m demo_reads damaged) as [r files'] eqn:Hpub.
  assert (Hr : r = Ok tt).
  { assert (H : match demo_source_manifest with Ok m => bool_decide ((PublishAdmittedSource demo_layout m demo_reads damaged).1 = Ok tt) | Err _ => false end = true)
      by (vm_compute; reflexivity). rewrite Hm, Hpub in H. by apply bool_decide_eq_true in H. }
  assert (Hfile : ∃ file, head (as_Files m) = Some file ∧ mn_CachePath file = "project.json").
  { assert (H : (λ m, mn_CachePath <$> head (as_Files m)) <$> demo_source_manifest = Ok (Some "project.json")) by (vm_compute; reflexivity).
    rewrite Hm in H. cbn in H. unfold fmap, result_fmap in H. destruct (head (as_Files m)) as [file|]; [|discriminate]. exists file. injection H as H. split; [reflexivity|exact H]. }
  destruct Hfile as (file & Hhead & Hcache). rewrite Hr in Hpub.
  assert (Hin : file ∈ as_Files m) by (destruct (as_Files m); [discriminate|]; injection Hhead as ->; apply list_elem_of_here).
  assert (Hsame : ∀ d, d ∈ demo_declared → dc_CachePath d = dc_SourcePath d).
  { intros d Hd. unfold demo_declared in Hd. apply elem_of_cons in Hd as [->|Hd]; [reflexivity|].
    apply list_elem_of_singleton in Hd as ->. reflexivity. }
  assert (Hrun : plain_name ("run-01" +:+ ".json")) by (apply (bool_decide_unpack _); vm_compute; exact I).
  destruct (published_source_is_read_back demo_layout "run-01" demo_source demo_declared demo_reads m damaged files'
    Hsame Hrun Hm Hpub file Hin) as (data & read & Hdata & Hread & Hsha & Hv).
  exists m, files', file, data.
  refine (conj eq_refl (conj Hpub (conj Hin (conj Hcache (conj Hdata _))))).
  assert (H : (λ m, head (as_Files m) ≫= mn_RawSHA256) <$> demo_source_manifest = Ok (Some (SHA256Hex "{}"))) by (vm_compute; reflexivity).
  rewrite Hm in H. unfold fmap, result_fmap in H. rewrite Hhead in H. injection H as H. exact (verified_hash file data Hv _ H).
Defined.

(** A key of the cache may be a single or a double period: a revision named [..] puts the
    files of a repository above its directory, where they are no repository's. *)
Theorem dots_pass_as_cache_key :
  let m := mkSourceManifest "" "run-01" (mkResolvedSource (mkRepository "github.com/acme/etl" "") "main" (Some "..")) [] in
  safeCacheKey "github content key" ".." = Ok ".." ∧
  cp_FilesRoot <$> PathsForManifest demo_layout m = Ok "/cache/github/repos/files".
Proof. vm_compute. split; reflexivity. Qed.
