(* ===== verification/Admission.v ===== *)
(** * Admitting a workflow ([cmd/controller/main.go], [python_workitem.go], [source_reload.go])

    A submitted workflow is read from its repository, published into the cache, compiled
    up to its first stage and stored: the project, the workflow, the run, its stages, its
    dependency plan, the work items of the first stage and their memberships.  When the
    controller restarts, the cached sources of the active runs are verified and, when
    they come from GitHub, repaired.

    Interfaces: [SourceDocuments] decodes the texts of a submission, of a workflow and of
    a project; [Providers] reads repositories. *)

From S2P Require Import Prelude GoTime GoJson GoStrings GoPath GoJsonLaws GoSha256 Fingerprint GoJsonStruct.
From S2P Require Import GoHttp GoInstant Resource Variables Expression Functions Resolver VariableCodec StepOutputs OutputText.
From S2P Require Import StoreData StoreSQL StoreOps StoreQueries Dependency SubmissionContext DependencyStore.
From S2P Require Import WorkItem WorkItemCodec GoFmt FanOut Stages Compile WorkerCapacity Caretaker Lifecycle Dependents.
From S2P Require Import DataNames DataCollections DataAssets DataProviders DataDefinitions DataCodec DataInstances ExplicitData.
From S2P Require Import Hydration StageQueue StageActivation WorkService RepoSource.
Local Open Scope Z_scope.

(** ** Submissions *)

Record SourceDocumentReference := mkReference { sd_Repository : string; sd_Ref : string; sd_Path : string }.
Record WorkflowRunSubmission := mkRunSubmission {
  wr_Project : SourceDocumentReference; wr_Workflow : SourceDocumentReference; wr_Variables : list Var }.
Record InlineSourceFile := mkInlineFile { il_Path : string; il_Content : string }.
Record InlineWorkflowRunSubmission := mkInline {
  in_Project : string; in_Workflow : string; in_Files : list InlineSourceFile; in_Variables : list Var }.
Record workflowAdmissionRequest := mkAdmissionRequest {
  aq_Source : option WorkflowRunSubmission; aq_Inline : option InlineWorkflowRunSubmission }.
Record WorkflowSubmission {ops : DataOperators} := mkWorkflowSubmission {
  wb_Workflow : Workflow FanOutStep; wb_SourceManifest : SourceManifestDeclaration; wb_Variables : list Var }.
Record SubmissionAcknowledgement := mkAck { ak_SubmissionID : string; ak_WorkflowID : string; ak_InitialWorkItemCount : Z }.

Definition Reference_validate (name : string) (r : SourceDocumentReference) : result unit :=
  fail_if (is_empty (TrimSpace (sd_Repository r))) (Errorf (name +:+ " repository is required"));;
  fail_if (is_empty (TrimSpace (sd_Ref r))) (Errorf (name +:+ " ref is required"));;
  fail_if (is_empty (TrimSpace (sd_Path r))) (Errorf (name +:+ " path is required")).
Definition RunSubmission_validate (s : WorkflowRunSubmission) : result unit :=
  Reference_validate "project" (wr_Project s);; Reference_validate "workflow" (wr_Workflow s).

Class SourceDocuments {ops : DataOperators} := {
  decodeWorkflowAdmissionRequest : string → result workflowAdmissionRequest;
  decodeWorkflowSourceSubmission : string → result WorkflowSubmission;
  projectVariablesFromJSON : string → result (list Var) }.

(** ** Files of a submission *)

Definition inlineReadFileResult (repository : RepositoryIdentity) (sourcePath data : string) : ReadFileResult :=
  newReadFileResult (mkFileRequest repository None sourcePath) data None.
Definition requiredReadByPath (reads : list ReadFileResult) (path : string) : result ReadFileResult :=
  clean ← ValidateRepositoryRelativePath path;
  match List.find (λ read, bool_decide (sf_SourcePath (rd_Request read) = clean)) reads with
  | Some read => Ok read
  | None => Err (Errorf ("source file " +:+ clean +:+ " was not read"))
  end.
Definition declaredSourceFiles (projectPath projectSHA256 workflowPath workflowSHA256 : string)
    (sourceManifest : SourceManifestDeclaration) : result (list DeclaredSourceFile) :=
  projectPath ← wrap_err "project path" (ValidateRepositoryRelativePath projectPath);
  workflowPath ← wrap_err "workflow path" (ValidateRepositoryRelativePath workflowPath);
  supplemental ← DeclaredSourceFiles sourceManifest;
  Ok ([mkDeclared FileRoleProject projectPath projectPath "application/json" (Some projectSHA256);
       mkDeclared FileRoleWorkflow workflowPath workflowPath "application/json" (Some workflowSHA256)] ++ supplemental).
Definition supplementalSourcePaths (declared : list DeclaredSourceFile) : list string :=
  dc_SourcePath <$> List.filter (λ f, negb (bool_decide (dc_Role f = FileRoleProject ∨ dc_Role f = FileRoleWorkflow))) declared.
Definition manifestFileByRole (manifest : AdmittedSourceManifest) (role : FileRole) : result AdmittedSourceManifestFile :=
  match List.find (λ f, bool_decide (mn_Role f = role)) (as_Files manifest) with
  | Some file => Ok file
  | None => Err (Errorf ("admitted manifest missing " +:+ role +:+ " file"))
  end.

Definition add_inline_file (repository : RepositoryIdentity) (required_ : gset string) (byPath : gmap string ReadFileResult)
    (file : InlineSourceFile) : result (gmap string ReadFileResult) :=
  clean ← ValidateRepositoryRelativePath (il_Path file);
  fail_if (bool_decide (is_Some (byPath !! clean))) (Errorf ("duplicate inline source file " +:+ clean));;
  fail_if (negb (bool_decide (clean ∈ required_))) (Errorf ("inline source file " +:+ clean +:+ " is not declared in source_manifest"));;
  Ok (<[clean := inlineReadFileResult repository clean (il_Content file)]> byPath).
Definition inlineSupplementalReadFileResults (repository : RepositoryIdentity) (requiredPaths : list string)
    (files : list InlineSourceFile) : result (list ReadFileResult) :=
  required_ ← traverse_items (λ _ path, ValidateRepositoryRelativePath path) 0 requiredPaths;
  byPath ← foldM (add_inline_file repository (list_to_set required_)) ∅ files;
  traverse_items (λ _ path,
    clean ← ValidateRepositoryRelativePath path;
    match byPath !! clean with
    | Some read => Ok read
    | None => Err (Errorf ("inline source file " +:+ clean +:+ " is required by source_manifest"))
    end) 0 requiredPaths.

(** ** Records *)

Definition deterministicSourceID (kind : string) (parts : list string) : string :=
  kind +:+ ":" +:+ sha256HexBytes (str_join newline_text parts).
Definition sourceRevisionIDValue (value : option string) : string := default "" value.
Definition stringValue (value : option string) : string := default "" value.
Definition workflowRunSubmissionContextSchemaV1 : string := "goet/workflow-run-submission-context/v1".
Definition localUnversionedCommit : string := "local-unversioned".
Definition sourceRecordCreatedAt (revisionID : option string) : string :=
  match revisionID with
  | None | Some EmptyString => localUnversionedCommit
  | Some revision => "source:" +:+ revision
  end.
Definition sourceProvenanceWarning (source : ResolvedSourceReference) : string :=
  match rs_RevisionID source with None => LocalProvenanceWarning | Some _ => "" end.

Definition projectRecordFromAdmittedSource (source : ResolvedSourceReference) (file : AdmittedSourceManifestFile)
    (configSHA256 : string) : ProjectRecord :=
  let repository := ri_Value (rs_Repository source) in
  mkProject (deterministicSourceID "project" [repository; sourceRevisionIDValue (rs_RevisionID source); mn_SourcePath file; configSHA256])
    (mn_SourcePath file) repository (rs_RevisionID source) (mn_SourcePath file) (stringValue (mn_ObjectID file)) configSHA256
    (sourceRecordCreatedAt (rs_RevisionID source)).
Definition workflowRecordFromAdmittedSource (projectID : string) (source : ResolvedSourceReference)
    (file : AdmittedSourceManifestFile) (workflowSHA256 : string) : WorkflowRecord :=
  let repository := ri_Value (rs_Repository source) in
  mkWorkflow (deterministicSourceID "workflow" [projectID; repository; sourceRevisionIDValue (rs_RevisionID source); mn_SourcePath file;
                                                workflowSHA256])
    projectID (mn_SourcePath file) repository (rs_RevisionID source) (mn_SourcePath file) (stringValue (mn_ObjectID file)) workflowSHA256
    (sourceRecordCreatedAt (rs_RevisionID source)).

Definition admission_file (file : AdmittedSourceManifestFile) : workflowRunSourceAdmissionFile :=
  mkAdmissionFile (mn_Role file) (mn_SourcePath file) (mn_CachePath file) (stringValue (mn_ObjectID file))
    (match mn_CanonicalJSONSHA256 file with Some sha => sha | None => stringValue (mn_RawSHA256 file) end).
Definition workflowRunRecordFromAdmittedManifest (runID projectID workflowID : string) (manifest : AdmittedSourceManifest)
    (variables : list Var) (createdAt : Time) (layout : CacheLayout) : result WorkflowRunRecord :=
  paths ← PathsForManifest layout manifest;
  variables ← safeWorkflowRunSubmissionVariables variables;
  let source := as_Source manifest in
  let admission := mkAdmission (as_Schema manifest) (cp_ManifestPath paths)
    (SubmissionContext.mkIdentity (ri_Value (rs_Repository source)) (rs_RequestedRef source) (sourceProvenanceWarning source))
    (rs_RevisionID source) (Some (List.map admission_file (as_Files manifest))) in
  text ← wrap_err "encode submission context"
    (Marshal_context (mkContext workflowRunSubmissionContextSchemaV1 admission (Some variables) None));
  Ok (mkRun runID projectID workflowID text (format_rfc3339 (UTC createdAt))).

Definition stageRecordsFromWorkflow {F} (runID workflowPath : string) (workflowDefinition : Workflow F) (createdAt : Time) :
    list WorkflowStageRecord :=
  let timestamp := format_rfc3339 (UTC createdAt) in
  (λ '(index, step), mkStage runID index (step_ID step) (workflowPath +:+ "#" +:+ step_ID step) "ready" timestamp timestamp "" "" "" "" "")
    <$> enumerate 0 (workflow_Steps workflowDefinition).

(** ** Script sources of compiled items ([python_workitem.go]) *)

Definition workItemSourceSchemaV1 : string := "goet/work-item-source/v1".

Section python.
Context {ops : DataOperators}.

Definition normalizePythonSourcePathParameter (parameter : WorkParameter DataPayload) (name : string) : result string :=
  fail_if (negb (bool_decide (pa_Type parameter = "string" ∨ pa_Type parameter = "path")))
    (Errorf ("parameter " +:+ name +:+ " has type " +:+ pa_Type parameter +:+ ", want string or path"));;
  match pa_Value parameter with
  | PString value =>
      fail_if (is_empty (TrimSpace value)) (Errorf ("parameter " +:+ name +:+ " value must be a non-empty string"));;
      wrap_err ("parameter " +:+ name) (ValidateRepositoryRelativePath value)
  | _ => Err (Errorf ("parameter " +:+ name +:+ " value must be a non-empty string"))
  end.
Definition requiredPythonSourcePathParameter (item : WorkItem DataPayload) (name : string) : result string :=
  match parameter_map (w_Parameters item) !! name with
  | None => Err (Errorf ("parameter " +:+ name +:+ " is required"))
  | Some parameter => normalizePythonSourcePathParameter parameter name
  end.
Definition optionalPythonSourcePathParameter (item : WorkItem DataPayload) (name : string) : result (option string) :=
  match parameter_map (w_Parameters item) !! name with
  | None => Ok None
  | Some parameter => path ← normalizePythonSourcePathParameter parameter name; Ok (Some path)
  end.
Definition requireAdmittedSourceRole (admittedByPath : gmap string AdmittedSourceManifestFile) (path : string) (wantRole : FileRole)
    (parameterName : string) : result unit :=
  match admittedByPath !! path with
  | None => Err (Errorf ("parameter " +:+ parameterName +:+ " path " +:+ path +:+ " is not declared in admitted source_manifest"))
  | Some file =>
      fail_if (negb (bool_decide (mn_Role file = wantRole)))
        (Errorf ("parameter " +:+ parameterName +:+ " path " +:+ path +:+ " has role " +:+ mn_Role file +:+ ", want " +:+ wantRole))
  end.
Definition set_w_Source (source : WorkItemSource) (i : WorkItem DataPayload) : WorkItem DataPayload :=
  mkItem (w_ID i) (w_AttemptID i) (w_Type i) (Some source) (w_OutputFilename i) (w_Parameters i) (w_ExecutionEnvelope i)
    (w_DependsOn i) (w_ReuseCandidates i) (w_WorkflowDefinitionID i) (w_WorkflowFingerprint i) (w_WorkflowInstanceID i)
    (w_StepDefinitionID i) (w_StepFingerprint i) (w_StepInstanceID i) (w_WorkItemFingerprint i) (w_InputFingerprint i)
    (w_OutputFingerprint i) (w_CodeVersion i).
Definition python_source (runID manifestPath : string) (admittedByPath : gmap string AdmittedSourceManifestFile)
    (item : WorkItem DataPayload) : result (WorkItem DataPayload) :=
  entrypoint ← requiredPythonSourcePathParameter item "python_entrypoint";
  requireAdmittedSourceRole admittedByPath entrypoint FileRolePythonEntrypoint "python_entrypoint";;
  environment ← optionalPythonSourcePathParameter item "python_environment";
  match environment with
  | None => Ok tt
  | Some path => requireAdmittedSourceRole admittedByPath path FileRolePythonEnvironment "python_environment"
  end;;
  Ok (set_w_Source (mkSource workItemSourceSchemaV1 runID manifestPath) item).
Definition prepare_item (runID manifestPath : string) (admittedByPath : gmap string AdmittedSourceManifestFile)
    (c : CompiledWorkItem) : result CompiledWorkItem :=
  item ← wrap_err ("compiled work item " +:+ w_ID (cw_WorkItem c))
    (item ← (if bool_decide (w_Type (cw_WorkItem c) = WorkItemTypePythonScript)
             then python_source runID manifestPath admittedByPath (cw_WorkItem c) else Ok (cw_WorkItem c));
     WorkItem_Validate item;;
     Ok item);
  Ok (mkCompiledWorkItem (cw_WorkflowID c) (cw_StepID c) item (cw_ResourceConstraints c)).
Definition prepareCompiledItems (layout : CacheLayout) (manifest : AdmittedSourceManifest) (compileResult : CompileResult) :
    result CompileResult :=
  paths ← PathsForManifest layout manifest;
  let admittedByPath : gmap string AdmittedSourceManifestFile :=
    foldl (λ m file, <[mn_SourcePath file := file]> m) ∅ (as_Files manifest) in
  items ← traverse_items (λ _ c, prepare_item (as_RunID manifest) (cp_ManifestPath paths) admittedByPath c) 0 (cm_WorkItems compileResult);
  Ok (mkCompileResult (cm_WorkflowID compileResult) (cm_StepCount compileResult) items).
End python.

(** ** Sources of a stored run ([source_reload.go]) *)

(** The run's context, when it names an admitted source. *)
Definition workflowRunSourceContext (run : WorkflowRunRecord) : result (option workflowRunSubmissionContext) :=
  context ← wrap_err ("reload run " +:+ run_ID run +:+ " submission context") (Unmarshal_context (run_SubmissionContextJSON run));
  Ok (if bool_decide (cx_Schema context = workflowRunSubmissionContextSchemaV1) &&
         negb (is_empty (ad_ManifestRef (cx_SourceAdmission context))) then Some context else None).

(** The manifest file, as [json.Unmarshal] reads it. *)
Definition repository_fields : Struct RepositoryIdentity :=
  [("Value", into_string (λ x r, mkRepository x (ri_DisplayName r)));
   ("DisplayName", into_string (λ x r, mkRepository (ri_Value r) x))].
Definition into_text (v : JSON) : result string := match v with JString s => Ok s | _ => Err json_mismatch end.
Definition source_fields : Struct ResolvedSourceReference :=
  [("Repository", into_struct false repository_fields rs_Repository (λ x s, mkResolvedSource x (rs_RequestedRef s) (rs_RevisionID s)));
   ("RequestedRef", into_string (λ x s, mkResolvedSource (rs_Repository s) x (rs_RevisionID s)));
   ("RevisionID", into_pointer into_text (λ x s, mkResolvedSource (rs_Repository s) (rs_RequestedRef s) x))].
Definition manifest_file_fields : Struct AdmittedSourceManifestFile :=
  [("Role", into_string (λ x '(mkManifestFile _ a b c d e f g), mkManifestFile x a b c d e f g));
   ("SourcePath", into_string (λ x '(mkManifestFile a _ b c d e f g), mkManifestFile a x b c d e f g));
   ("CachePath", into_string (λ x '(mkManifestFile a b _ c d e f g), mkManifestFile a b x c d e f g));
   ("ObjectID", into_pointer into_text (λ x '(mkManifestFile a b c _ d e f g), mkManifestFile a b c x d e f g));
   ("SizeBytes", into_int (λ x '(mkManifestFile a b c d _ e f g), mkManifestFile a b c d x e f g));
   ("RawSHA256", into_pointer into_text (λ x '(mkManifestFile a b c d e _ f g), mkManifestFile a b c d e x f g));
   ("CanonicalJSONSHA256", into_pointer into_text (λ x '(mkManifestFile a b c d e f _ g), mkManifestFile a b c d e f x g));
   ("ContentType", into_string (λ x '(mkManifestFile a b c d e f g _), mkManifestFile a b c d e f g x))].
Definition zero_source : ResolvedSourceReference := mkResolvedSource (mkRepository "" "") "" None.
Definition source_manifest_fields : Struct AdmittedSourceManifest :=
  [("Schema", into_string (λ x m, mkSourceManifest x (as_RunID m) (as_Source m) (as_Files m)));
   ("RunID", into_string (λ x m, mkSourceManifest (as_Schema m) x (as_Source m) (as_Files m)));
   ("Source", into_struct false source_fields as_Source (λ x m, mkSourceManifest (as_Schema m) (as_RunID m) x (as_Files m)));
   ("Files", into_list (decode_struct false manifest_file_fields (mkManifestFile "" "" "" None 0 None None ""))
               (λ x m, mkSourceManifest (as_Schema m) (as_RunID m) (as_Source m) x))].
Definition readAdmittedSourceManifest (path : string) (files : Files) : result AdmittedSourceManifest :=
  match files !! Clean path with
  | None => Err (Errorf "read admitted source manifest")
  | Some data =>
      v ← json_document data;
      wrap_err "decode admitted source manifest"
        (decode_struct false source_manifest_fields (mkSourceManifest "" "" zero_source []) v)
  end.

Definition verifyCachedJSONHash (access : CacheAccess) (file : AdmittedSourceManifestFile) (want : string) (files : Files) :
    result unit :=
  data ← access_ReadFile access (mn_CachePath file) files;
  got ← wrap_err "canonical json" (canonicalSourceDocument data);
  fail_if (negb (bool_decide (got.2 = want))) (Errorf ("canonical sha256 " +:+ got.2 +:+ " != " +:+ want)).
Definition verifyCachedRunSource (layout : CacheLayout) (project : ProjectRecord) (workflow : WorkflowRecord)
    (manifest : AdmittedSourceManifest) (files : Files) : result unit :=
  access ← NewCacheAccess layout manifest;
  projectFile ← manifestFileByRole manifest FileRoleProject;
  workflowFile ← manifestFileByRole manifest FileRoleWorkflow;
  wrap_err ("project " +:+ pr_ConfigPath project) (verifyCachedJSONHash access projectFile (pr_ConfigSHA256 project) files);;
  wrap_err ("workflow " +:+ wf_WorkflowPath workflow) (verifyCachedJSONHash access workflowFile (wf_WorkflowSHA256 workflow) files).
Definition isRepairableGitHubSource (source : ResolvedSourceReference) : bool :=
  match rs_RevisionID source with
  | None | Some EmptyString => false
  | Some _ => has_prefix "github.com/" (ri_Value (rs_Repository source))
  end.

(** ** Repositories *)

Record Provider := mkProvider {
  pv_Resolve : string → result ResolvedSourceReference;
  pv_ReadFiles : ResolvedSourceReference → list string → result (list ReadFileResult) }.
Class Providers := {
  repoSourceProviders : gmap string Provider;
  NewLocalProvider : RepositoryIdentity → string → Provider;
  NewGitHubProvider : string → string → Provider }.

Definition localRepositoryRoot (cacheRoot repository : string) : result string :=
  fail_if (is_empty cacheRoot)
    (Errorf ("controller repository cache is required for local source repository " +:+ repository));;
  let alias := TrimSpace (trim_prefix "local:" repository) in
  fail_if (is_empty alias) (Errorf "local repository alias is required");;
  fail_if (bool_decide (alias = ".") || bool_decide (alias = "..") || contains_any "/\:" alias)
    (Errorf ("local repository alias " +:+ alias +:+ " must be a single safe path segment"));;
  Ok (Join [cacheRoot; "local"; "sources"; alias; "files"]).
Definition repositorySourceProvider {providers : Providers} (layout : CacheLayout) (repository : string) : result Provider :=
  match repoSourceProviders !! repository with
  | Some provider => Ok provider
  | None =>
      if has_prefix "local:" repository then
        root ← localRepositoryRoot (layout_root layout) repository;
        Ok (NewLocalProvider (mkRepository repository "") root)
      else if has_prefix "github.com/" repository then
        match split_byte "/" repository with
        | [_; owner; repo] =>
            fail_if (is_empty owner || is_empty repo) (Errorf "github repository identity must be github.com/<owner>/<repo>");;
            Ok (NewGitHubProvider owner repo)
        | _ => Err (Errorf "github repository identity must be github.com/<owner>/<repo>")
        end
      else Err (Errorf ("unknown source repository: " +:+ repository))
  end.

(** The files of the manifest, read again. *)
Definition repairGitHubRunSource {providers : Providers} (layout : CacheLayout) (manifest : AdmittedSourceManifest) (files : Files) :
    result unit * Files :=
  match (provider ← repositorySourceProvider layout (ri_Value (rs_Repository (as_Source manifest)));
         pv_ReadFiles provider (as_Source manifest) (List.map mn_SourcePath (as_Files manifest))) with
  | Err e => (Err e, files)
  | Ok reads => PublishAdmittedSource layout manifest reads files
  end.

Section admission.
Context {ops : DataOperators} {floats : JsonFloats} {payload : PayloadJSON DataPayload}.
Context {documents : SourceDocuments} {providers : Providers}.
Context (codeVersion : string) (now : nat → Time) (eng : Engine) (layout : CacheLayout).

(** *** Verification of the sources of active runs *)

Definition verifyWorkflowRunSource (st : Store) (run : WorkflowRunRecord) (files : Files) : result unit * Files :=
  let at_ := "reload run " +:+ run_ID run in
  match (context ← workflowRunSourceContext run;
         match context with
         | None => Ok None
         | Some context =>
             project ← wrap_err (at_ +:+ " project " +:+ run_ProjectID run) (GetProject (run_ProjectID run) st);
             workflow ← wrap_err (at_ +:+ " workflow " +:+ run_WorkflowID run) (GetWorkflow (run_WorkflowID run) st);
             match project, workflow with
             | None, _ => Err (Errorf (at_ +:+ " project " +:+ run_ProjectID run +:+ " was not found"))
             | _, None => Err (Errorf (at_ +:+ " workflow " +:+ run_WorkflowID run +:+ " was not found"))
             | Some project, Some workflow =>
                 manifest ← wrap_err (at_ +:+ " source") (readAdmittedSourceManifest (ad_ManifestRef (cx_SourceAdmission context)) files);
                 Ok (Some (project, workflow, manifest))
             end
         end) with
  | Err e => (Err e, files)
  | Ok None => (Ok tt, files)
  | Ok (Some (project, workflow, manifest)) =>
      match verifyCachedRunSource layout project workflow manifest files with
      | Ok _ => (Ok tt, files)
      | Err e =>
          if negb (isRepairableGitHubSource (as_Source manifest))
          then (Err (Wrapf (at_ +:+ " source: local source cache cannot be repaired") e), files) else
          match repairGitHubRunSource layout manifest files with
          | (Err e, files') => (Err (Wrapf (at_ +:+ " source repair") e), files')
          | (Ok _, files') =>
              (wrap_err (at_ +:+ " source repaired cache failed verification")
                 (verifyCachedRunSource layout project workflow manifest files'), files')
          end
      end
  end.
Fixpoint verify_runs (st : Store) (runs : list WorkflowRunRecord) (files : Files) : result unit * Files :=
  match runs with
  | [] => (Ok tt, files)
  | run :: rest =>
      match verifyWorkflowRunSource st run files with
      | (Ok _, files') => verify_runs st rest files'
      | failed => failed
      end
  end.
Definition verifyActiveRunSources (store : option Store) (files : Files) : result unit * Files :=
  match store with
  | None => (Ok tt, files)
  | Some st =>
      match wrap_err "list active workflow runs" (ListActiveWorkflowRuns st) with
      | Err e => (Err e, files)
      | Ok runs => verify_runs st runs files
      end
  end.

(** *** What activation reads of a run *)

Definition run_manifest (run : WorkflowRunRecord) (files : Files) : result (workflowRunSubmissionContext * AdmittedSourceManifest) :=
  found ← workflowRunSourceContext run;
  match found with
  | None => Err (Errorf ("workflow run " +:+ run_ID run +:+ " missing source-admission context"))
  | Some context =>
      manifest ← readAdmittedSourceManifest (ad_ManifestRef (cx_SourceAdmission context)) files;
      Ok (context, manifest)
  end.
Definition cached_sources (files : Files) : RunSources := {|
  run_source run :=
    found ← run_manifest run files;
    access ← NewCacheAccess layout found.2;
    workflowFile ← manifestFileByRole found.2 FileRoleWorkflow;
    data ← access_ReadFile access (mn_CachePath workflowFile) files;
    submission ← wrap_err "decode cached workflow source" (decodeWorkflowSourceSubmission data);
    Ok (wb_Workflow submission, wb_Variables submission, default [] (cx_Variables found.1));
  prepareCompiledWorkflowForAdmission run compileResult :=
    found ← run_manifest run files;
    prepareCompiledItems layout found.2 compileResult;
  buildInfoCodeVersion := codeVersion |}.

(** *** Admission *)

(** The admitted files, read back from the cache. *)
Record admitted_source := mkAdmitted {
  at_manifest : AdmittedSourceManifest; at_projectHash : string; at_workflowHash : string; at_submission : WorkflowSubmission }.
Definition declared_manifest (submission : WorkflowRunSubmission) (resolved : ResolvedSourceReference)
    (allReads : list ReadFileResult) (runID : string) : result AdmittedSourceManifest :=
  projectRead ← requiredReadByPath allReads (sd_Path (wr_Project submission));
  workflowRead ← requiredReadByPath allReads (sd_Path (wr_Workflow submission));
  project ← wrap_err "canonicalize project source" (canonicalSourceDocument (sc_Data (rd_Content projectRead)));
  workflow ← wrap_err "canonicalize workflow source" (canonicalSourceDocument (sc_Data (rd_Content workflowRead)));
  decoded ← wrap_err "decode workflow source" (decodeWorkflowSourceSubmission (sc_Data (rd_Content workflowRead)));
  declared ← declaredSourceFiles (sd_Path (wr_Project submission)) project.2 (sd_Path (wr_Workflow submission)) workflow.2
               (wb_SourceManifest decoded);
  wrap_err "build admitted source manifest" (BuildAdmittedSourceManifest runID resolved declared allReads).
Definition cached_submission (submission : WorkflowRunSubmission) (manifest : AdmittedSourceManifest) (files : Files) :
    result admitted_source :=
  access ← wrap_err "open admitted source cache" (NewCacheAccess layout manifest);
  projectData ← wrap_err "read cached project source" (access_ReadFile access (sd_Path (wr_Project submission)) files);
  workflowData ← wrap_err "read cached workflow source" (access_ReadFile access (sd_Path (wr_Workflow submission)) files);
  project ← wrap_err "canonicalize cached project source" (canonicalSourceDocument projectData);
  workflow ← wrap_err "canonicalize cached workflow source" (canonicalSourceDocument workflowData);
  decoded ← wrap_err "decode cached workflow source" (decodeWorkflowSourceSubmission workflowData);
  Ok (mkAdmitted manifest project.2 workflow.2 decoded).
Definition admit_sources (submission : WorkflowRunSubmission) (resolved : ResolvedSourceReference) (allReads : list ReadFileResult)
    (runID : string) (files : Files) : result admitted_source * Files :=
  match declared_manifest submission resolved allReads runID with
  | Err e => (Err e, files)
  | Ok manifest =>
      match PublishAdmittedSource layout manifest allReads files with
      | (Err e, files') => (Err (Wrapf "publish admitted source" e), files')
      | (Ok _, files') => (cached_submission submission manifest files', files')
      end
  end.

(** The first stage, compiled. *)
Definition compile_initial (resolver : Resolver) (workflow : Workflow FanOutStep) :
    result (option (WorkflowPlan FanOutStep * CompileStageResult)) :=
  match workflow_Steps workflow with
  | [] => Ok None
  | _ =>
      plan ← wrap_err "normalize workflow stages" (NormalizeStages workflow);
      stage ← wrap_err "compile initial workflow stage" (CompileWorkflowStage resolver workflow plan 0);
      Ok (Some (plan, stage))
  end.
Definition initial_items (stage : option (WorkflowPlan FanOutStep * CompileStageResult)) : list CompiledWorkItem :=
  match stage with
  | None => []
  | Some (_, g) => (λ i, mkCompiledWorkItem (sr_WorkflowID g) (si_StepID i) (si_WorkItem i) (si_ResourceConstraints i)) <$> sr_WorkItems g
  end.
Definition prepare_initial (manifest : AdmittedSourceManifest) (workflow : Workflow FanOutStep)
    (stage : option (WorkflowPlan FanOutStep * CompileStageResult)) : result (option (WorkflowPlan FanOutStep * CompileStageResult)) :=
  prepared ← prepareCompiledItems layout manifest
    (mkCompileResult (workflow_ID workflow) (Z.of_nat (length (workflow_Steps workflow))) (initial_items stage));
  match stage with
  | None => Ok None
  | Some (plan, g) =>
      fail_if (negb (bool_decide (length (sr_WorkItems g) = length (cm_WorkItems prepared))))
        (Errorf ("compile result mismatch: expected " +:+ pretty (length (sr_WorkItems g)) +:+ " stage items, got " +:+
                 pretty (length (cm_WorkItems prepared))));;
      Ok (Some (plan, mkStageResult (sr_WorkflowID g) (sr_StageIndex g) (sr_Steps g)
                        (replace_items (sr_WorkItems g) (cm_WorkItems prepared))))
  end.

Definition submission_resolver (workflow : WorkflowSubmission) (variables : list Var) : result Resolver :=
  workflowScope ← NewScope (workflow_Variables (wb_Workflow workflow));
  sourceScope ← NewScope (wb_Variables workflow);
  runScope ← NewScope variables;
  Ok (NewResolver (NewSet [workflowScope; sourceScope; runScope]) (mkConfig 0 None DefaultFunctionRegistry)).

(** The first stage queued, its memberships recorded, and what is empty completed: the
    number of items, and whether a later stage was activated, which the caretaker is told. *)
Definition start_run (run : WorkflowRunRecord) (stage : option (WorkflowPlan FanOutStep * CompileStageResult))
    (version : string) (submittedAt : Time) (sources : RunSources) : Op (Z * bool) :=
  match stage with
  | Some (plan, _) =>
      match wp_Stages plan with
      | [] => stop tt
      | stages => wrap_op "create workflow dependency plan" (CreateWorkflowDependencyPlan now eng (run_ID run) (run_WorkflowID run) stages)
      end
  | None => stop tt
  end;;
  records ← lift (persistenceRecordsFromCompiledStageResults (run_ID run)
                    (match stage with Some (_, g) => [g] | None => [] end) version submittedAt);
  match qs_items records with
  | [] => stop tt
  | items => wrap_op "queue work items" (call_store (QueueWorkItems eng (mkQueueReq items (qs_constraints records) (qs_queued records))))
  end;;
  for_each_op (λ m, wrap_op "record compiled work item membership"
    (RecordCompiledWorkItemMembership now eng (run_ID run) (cm_stageIndex m) (cm_stepIndex m) (cm_workItemID m) (cm_workItemIndex m)))
    (qs_memberships records);;
  activated ← match stage with
  | None => stop false
  | Some (_, g) =>
      match qs_queued records with
      | [] => stop tt
      | _ => emitDependencyObservation now (run_ID run) (run_WorkflowID run) "info" ("queued stage " +:+ pretty (sr_StageIndex g))
      end;;
      stageCompleted ← markCompiledStageEmptyStepsCompleted now eng (run_ID run) (sr_StageIndex g) (si_StepIndex <$> sr_WorkItems g);
      if stageCompleted : bool then
        activateNextReadyWorkflowStage (sources := sources) now eng (run_ID run) (sr_StageIndex g) submittedAt
      else stop false
  end;
  stop (Z.of_nat (length (qs_items records)), activated).

Definition store_run (admitted : admitted_source) (variables : list Var) (runID : string) (submittedAt : Time) (files : Files) :
    Op (SubmissionAcknowledgement * bool) :=
  let manifest := at_manifest admitted in
  let workflow := wb_Workflow (at_submission admitted) in
  projectFile ← lift (manifestFileByRole manifest FileRoleProject);
  workflowFile ← lift (manifestFileByRole manifest FileRoleWorkflow);
  let project := projectRecordFromAdmittedSource (as_Source manifest) projectFile (at_projectHash admitted) in
  wrap_op "upsert project" (call_store (UpsertProject project));;
  let record := workflowRecordFromAdmittedSource (pr_ID project) (as_Source manifest) workflowFile (at_workflowHash admitted) in
  wrap_op "upsert workflow" (call_store (UpsertWorkflow eng record));;
  resolver ← lift (submission_resolver (at_submission admitted) variables);
  version ← lift (@controllerCodeVersion _ (cached_sources files) resolver);
  compiled ← lift (compile_initial resolver workflow);
  stage ← lift (prepare_initial manifest workflow compiled);
  run ← lift (workflowRunRecordFromAdmittedManifest runID (pr_ID project) (wf_ID record) manifest variables submittedAt layout);
  wrap_op "create workflow run" (call_store (CreateWorkflowRun eng run));;
  match stageRecordsFromWorkflow runID (mn_SourcePath workflowFile) workflow submittedAt with
  | [] => stop tt
  | stages => wrap_op "insert stage plan" (call_store (InsertStagePlan eng runID stages))
  end;;
  started ← start_run run stage version submittedAt (cached_sources files);
  stop (mkAck (run_ID run) (workflow_ID workflow) started.1, started.2).

(** The controller with its files. *)
Record Site := mkSite { st_controller : Controller; st_files : Files }.
Definition submitAdmittedWorkflowReadsToStore (submission : WorkflowRunSubmission) (resolved : ResolvedSourceReference)
    (allReads : list ReadFileResult) (runID : string) (submittedAt : Time) (s : Site) : result (SubmissionAcknowledgement * bool) * Site :=
  match admit_sources submission resolved allReads runID (st_files s) with
  | (Err e, files) => (Err e, mkSite (st_controller s) files)
  | (Ok admitted, files) =>
      let '(r, c) := store_run admitted (wr_Variables submission) runID submittedAt files (st_controller s) in
      (r, mkSite c files)
  end.

(** What is read for a submission from a repository, and for an inline submission. *)
Definition repository_reads (submission : WorkflowRunSubmission) :
    result (WorkflowRunSubmission * ResolvedSourceReference * list ReadFileResult) :=
  let project := wr_Project submission in
  let workflow := wr_Workflow submission in
  provider ← repositorySourceProvider layout (sd_Repository project);
  fail_if (negb (bool_decide (sd_Repository workflow = sd_Repository project)))
    (Errorf ("workflow repository " +:+ sd_Repository workflow +:+ " does not match project repository " +:+ sd_Repository project));;
  fail_if (negb (bool_decide (sd_Ref workflow = sd_Ref project)))
    (Errorf ("workflow ref " +:+ sd_Ref workflow +:+ " does not match project ref " +:+ sd_Ref project));;
  resolved ← wrap_err "resolve repository source" (pv_Resolve provider (sd_Ref project));
  initialReads ← wrap_err "read project/workflow source" (pv_ReadFiles provider resolved [sd_Path project; sd_Path workflow]);
  projectRead ← requiredReadByPath initialReads (sd_Path project);
  workflowRead ← requiredReadByPath initialReads (sd_Path workflow);
  projectVariables ← wrap_err "decode project source" (projectVariablesFromJSON (sc_Data (rd_Content projectRead)));
  projectHash ← wrap_err "canonicalize project source" (canonicalSourceDocument (sc_Data (rd_Content projectRead)));
  workflowHash ← wrap_err "canonicalize workflow source" (canonicalSourceDocument (sc_Data (rd_Content workflowRead)));
  decoded ← wrap_err "decode workflow source" (decodeWorkflowSourceSubmission (sc_Data (rd_Content workflowRead)));
  declared ← declaredSourceFiles (sd_Path project) projectHash.2 (sd_Path workflow) workflowHash.2 (wb_SourceManifest decoded);
  supplemental ← wrap_err "read supplemental source" (pv_ReadFiles provider resolved (supplementalSourcePaths declared));
  Ok (mkRunSubmission project workflow (projectVariables ++ wr_Variables submission), resolved, initialReads ++ supplemental).
Definition inline_source : ResolvedSourceReference := mkResolvedSource (mkRepository "inline:submission" "") "submitted-json" None.
Definition inline_reads (submission : InlineWorkflowRunSubmission) :
    result (WorkflowRunSubmission * ResolvedSourceReference * list ReadFileResult) :=
  projectVariables ← wrap_err "decode inline project source" (projectVariablesFromJSON (in_Project submission));
  projectHash ← wrap_err "canonicalize inline project source" (canonicalSourceDocument (in_Project submission));
  workflowHash ← wrap_err "canonicalize inline workflow source" (canonicalSourceDocument (in_Workflow submission));
  decoded ← wrap_err "decode inline workflow source" (decodeWorkflowSourceSubmission (in_Workflow submission));
  declared ← declaredSourceFiles "project.json" projectHash.2 "workflow.json" workflowHash.2 (wb_SourceManifest decoded);
  let repository := rs_Repository inline_source in
  supplemental ← inlineSupplementalReadFileResults repository (supplementalSourcePaths declared) (in_Files submission);
  let reference path := mkReference (ri_Value repository) (rs_RequestedRef inline_source) path in
  Ok (mkRunSubmission (reference "project.json") (reference "workflow.json") (projectVariables ++ in_Variables submission), inline_source,
      [inlineReadFileResult repository "project.json" (in_Project submission);
       inlineReadFileResult repository "workflow.json" (in_Workflow submission)] ++ supplemental).

Definition submit_reads (found : result (WorkflowRunSubmission * ResolvedSourceReference * list ReadFileResult)) (runID : string)
    (submittedAt : Time) (s : Site) : result (SubmissionAcknowledgement * bool) * Site :=
  match found with
  | Err e => (Err e, s)
  | Ok (submission, resolved, reads) => submitAdmittedWorkflowReadsToStore submission resolved reads runID submittedAt s
  end.
Definition submitWorkflowRunToStore (submission : WorkflowRunSubmission) := submit_reads (repository_reads submission).
Definition submitInlineWorkflowRunToStore (submission : InlineWorkflowRunSubmission) := submit_reads (inline_reads submission).
Definition submitWorkflowAdmissionToStore (request : workflowAdmissionRequest) (runID : string) (submittedAt : Time) (s : Site) :
    result (SubmissionAcknowledgement * bool) * Site :=
  match aq_Source request, aq_Inline request with
  | Some source, _ => submitWorkflowRunToStore source runID submittedAt s
  | None, Some inline => submitInlineWorkflowRunToStore inline runID submittedAt s
  | None, None => (Err (Errorf "workflow admission request is empty"), s)
  end.

Definition StatusAccepted : nat := 202.
Definition StatusNotImplemented : nat := 501.
Definition errSourceReferenceAdmissionNotImplemented : GoError := Sentinel "source-reference workflow admission is not implemented".
Definition encode_ack (ack : SubmissionAcknowledgement) : JSON :=
  JObject [("submission_id", JString (ak_SubmissionID ack)); ("workflow_id", JString (ak_WorkflowID ack));
           ("initial_work_item_count", JInt (ak_InitialWorkItemCount ack))].
Definition submitWorkflowHandler (at_ : Instant) (random : option (list N)) (r : Request) (h : Host) (files : Files) :
    Response * (Host * Files) :=
  if negb (bool_decide (rq_Method r = MethodPost)) then (http_Error "method not allowed" StatusMethodNotAllowed, (h, files)) else
  if negb (sv_normalAdmission (hs_service h)) then
    (http_Error "controller is in recovery mode" StatusServiceUnavailable, (h, files)) else
  match sv_store (hs_service h) with
  | None => (http_Error "workflow store required" StatusServiceUnavailable, (h, files))
  | Some _ =>
      match decodeWorkflowAdmissionRequest (rq_Body r) with
      | Err _ => (http_Error "decode workflow run submission" StatusBadRequest, (h, files))
      | Ok request =>
          let '(answer, s) := submitWorkflowAdmissionToStore request ("run-" +:+ randomHex random at_) (at_UTC at_)
                                (mkSite (host_controller h) files) in
          let h := after_op (st_controller s) h in
          match answer with
          | Ok (ack, activated) =>
              let h := if activated : bool then signalCareTaker "workflow_stage_activated" h else h in
              (http_JSON StatusAccepted (encode_ack ack), (signalCareTaker "workflow_work_queued" h, st_files s))
          | Err e =>
              (if errors_Is e errSourceReferenceAdmissionNotImplemented then http_Error (error_text e) StatusNotImplemented
               else http_Error ("workflow admission: " +:+ error_text e) StatusInternalServerError, (h, st_files s))
          end
      end
  end.
End admission.
