(* ===== verification/Documents.v ===== *)
(** * Source documents ([src/internal/document])

    Workflows, projects and overrides are written in JSON or YAML.  Both are decoded to
    the same values, texts, 64-bit integers, booleans, lists and objects, without nulls,
    fractions and repeated keys; from such values come the variables of a document, the
    canonical workflow and the overlay of data definitions.

    [decodeJSONValue] reads tokens as [json.Decoder.Token] gives them; its fuel, two
    rounds for each chunk of the text, is that of the reader of [GoJson].  The YAML
    parser is third-party code: its nodes are a type here, and the class [Yaml] gives
    the documents of a text.  Of the position of an error only the path of the source is
    kept. *)

From S2P Require Import Prelude GoTime GoStrings GoJson GoJsonLaws GoSha256 Fingerprint GoJsonStruct.
From S2P Require Import Variables Expression GoFmt DataNames GoPath StoreData Dependency WorkItem WorkItemCodec DataInstances.
Local Open Scope nat_scope.

(** ** Values *)

Inductive DocValue :=
  | DocNull
  | DocString (s : string)
  | DocInt (z : Z)
  | DocBool (b : bool)
  | DocList (items : list DocValue)
  | DocObject (fields : list (string * DocValue)).
Notation DocFields := (list (string * DocValue)).

Section DocValue_induction.
Context (P : DocValue → Prop).
Context (Hlist : ∀ items, Forall P items → P (DocList items)).
Context (Hobject : ∀ fields, Forall (λ f, P f.2) fields → P (DocObject fields)).
Context (Hleaf : ∀ v, (∀ l, v ≠ DocList l) → (∀ l, v ≠ DocObject l) → P v).

Lemma DocValue_ind' : ∀ v, P v.
Proof using Hlist Hobject Hleaf.
  fix IH 1. intros [| | | |items|fields]; try (apply Hleaf; intros; discriminate).
  - apply Hlist. induction items as [|v l IHl]; constructor; [apply IH|exact IHl].
  - apply Hobject. induction fields as [|[k v] l IHl]; constructor; [apply IH|exact IHl].
Qed.
End DocValue_induction.

(** [fields[name]] *)
Definition doc_field (fields : DocFields) (name : string) : option DocValue :=
  snd <$> List.find (λ f, bool_decide (f.1 = name)) fields.
Definition has_field (fields : DocFields) (name : string) : bool := bool_decide (is_Some (doc_field fields name)).
(** [sort.Strings] of the keys. *)
Definition sorted_fields (fields : DocFields) : DocFields := order_by by_key fields.
(** [json.Marshal(value)], as a tree. *)
Fixpoint doc_json (v : DocValue) : JSON :=
  match v with
  | DocNull => JNull
  | DocString s => JString s
  | DocInt z => JInt z
  | DocBool b => JBool b
  | DocList items => JArray (doc_json <$> items)
  | DocObject fields => JObject (order_by by_key ((λ '(k, x), (k, doc_json x)) <$> fields))
  end.

(** ** Formats and errors ([value.go], [decode.go]) *)

Notation SourceFormat := string (only parsing).
Definition SourceFormatJSON : SourceFormat := "json".
Definition SourceFormatYAML : SourceFormat := "yaml".
Record DecodeOptions := mkDecodeOptions { op_Path : string; op_MediaType : string; op_Format : SourceFormat }.

Definition sourceError (path format : string) (e : GoError) : GoError :=
  Wrapf (if is_empty path then "<source>" else path) (if is_empty format then e else Wrapf format e).
Definition valuePath (parent field : string) : string :=
  let parent := if is_empty parent then "$" else parent in
  if is_empty field then parent else parent +:+ "." +:+ field.
Definition indexPath (parent : string) (index : nat) : string :=
  (if is_empty parent then "$" else parent) +:+ "[" +:+ pretty index +:+ "]".

Fixpoint all_digits (s : string) : bool :=
  match s with EmptyString => true | String c s' => GoJson.is_digit c && all_digits s' end.
Definition isJSONIntegerText (text : string) : bool :=
  if is_empty text || contains_any ".eE" text then false else
  let digits := if has_prefix "-" text then str_drop 1 text else text in
  if is_empty digits then false else
  if (1 <? slen digits) && has_prefix "0" digits then false else all_digits digits.

(** [mime.ParseMediaType]: the type before its parameters; a text it refuses is used as
    it is. *)
Class MediaTypes := { ParseMediaType : string → result string }.
Definition formatFromMediaType {media : MediaTypes} (value : string) : option SourceFormat :=
  let mediaType := match ParseMediaType value with Ok t => t | Err _ => value end in
  let mediaType := ToLower (TrimSpace mediaType) in
  if bool_decide (mediaType ∈ ["application/json"; "text/json"]) || has_suffix "+json" mediaType then Some SourceFormatJSON else
  if bool_decide (mediaType ∈ ["application/yaml"; "application/x-yaml"; "application/vnd.yaml"; "text/yaml"; "text/x-yaml"])
  then Some SourceFormatYAML else None.
Definition SourceFormatFor {media : MediaTypes} (options : DecodeOptions) : result SourceFormat :=
  if negb (is_empty (op_Format options)) then
    (if bool_decide (op_Format options ∈ [SourceFormatJSON; SourceFormatYAML]) then Ok (op_Format options)
     else Err (Errorf ("unsupported source format " +:+ op_Format options)))
  else if negb (is_empty (TrimSpace (op_MediaType options))) then
    match formatFromMediaType (op_MediaType options) with
    | Some format => Ok format
    | None => Err (Errorf ("unsupported source media type " +:+ op_MediaType options))
    end
  else
    let ext := ToLower (Ext (op_Path options)) in
    if bool_decide (ext = ".json") then Ok SourceFormatJSON else
    if bool_decide (ext ∈ [".yaml"; ".yml"]) then Ok SourceFormatYAML else
    Err (Errorf "source format requires an explicit format, media type, or .json/.yaml/.yml path").

(** ** JSON ([decode.go]) *)

Definition out_of_fuel : GoError := Errorf "out of fuel".

Section json.
Context (sourcePath : string).
Definition json_error (what : string) : GoError := sourceError sourcePath "json" (Errorf what).
Definition token_error : GoError := sourceError sourcePath "json" json_syntax.
Definition token {A} (t : option A) : result A := match t with Some a => Ok a | None => Err token_error end.

Definition decodeJSONInteger (path text : string) : result DocValue :=
  fail_if (negb (isJSONIntegerText text))
    (json_error (path +:+ ": unsupported number " +:+ text +:+ "; only JSON integer numbers are supported"));;
  match Atoi text with
  | Some z => Ok (DocInt z)
  | None => Err (json_error (path +:+ ": integer " +:+ text +:+ " is outside int64 range"))
  end.

Fixpoint decodeJSONValue (fuel : nat) (path : string) (s : list chunk) : result (DocValue * list chunk) :=
  match fuel with
  | O => Err out_of_fuel
  | S fuel' =>
      match skip_space s with
      | Asc c :: r =>
          if bool_decide (c = "{"%char) then
            match skip_space r with
            | Asc "}" :: rest => Ok (DocObject [], rest)
            | _ => '(fields, rest) ← decodeJSONObject fuel' path [] r; Ok (DocObject fields, rest)
            end
          else if bool_decide (c = "["%char) then
            match skip_space r with
            | Asc "]" :: rest => Ok (DocList [], rest)
            | _ => '(items, rest) ← decodeJSONArray fuel' path 0 r; Ok (DocList items, rest)
            end
          else if bool_decide (c = quote_byte) then '(text, rest) ← token (parse_string r); Ok (DocString text, rest)
          else if bool_decide (c = "t"%char) then rest ← token (expect "rue" r); Ok (DocBool true, rest)
          else if bool_decide (c = "f"%char) then rest ← token (expect "alse" r); Ok (DocBool false, rest)
          else if bool_decide (c = "n"%char) then
            token (expect "ull" r);; Err (json_error (path +:+ ": null values are unsupported"))
          else '(text, rest) ← token (lex_number (Asc c :: r)); v ← decodeJSONInteger path text; Ok (v, rest)
      | _ => Err token_error
      end
  end
(** The members after those already read; [values] are their fields. *)
with decodeJSONObject (fuel : nat) (path : string) (values : DocFields) (s : list chunk) {struct fuel} :
    result (DocFields * list chunk) :=
  match fuel with
  | O => Err out_of_fuel
  | S fuel' =>
      match skip_space s with
      | Asc q :: r =>
          if bool_decide (q = quote_byte) then
            '(key, s1) ← token (parse_string r);
            fail_if (has_field values key) (json_error (path +:+ ": duplicate object key " +:+ key));;
            match skip_space s1 with
            | Asc ":" :: r1 =>
                '(v, s2) ← decodeJSONValue fuel' (valuePath path key) r1;
                let values := values ++ [(key, v)] in
                match skip_space s2 with
                | Asc "," :: r2 => decodeJSONObject fuel' path values r2
                | Asc "}" :: r2 => Ok (values, r2)
                | _ => Err token_error
                end
            | _ => Err token_error
            end
          else Err token_error
      | _ => Err token_error
      end
  end
with decodeJSONArray (fuel : nat) (path : string) (index : nat) (s : list chunk) {struct fuel} :
    result (list DocValue * list chunk) :=
  match fuel with
  | O => Err out_of_fuel
  | S fuel' =>
      '(v, s1) ← decodeJSONValue fuel' (indexPath path index) s;
      match skip_space s1 with
      | Asc "," :: r => '(vs, rest) ← decodeJSONArray fuel' path (S index) r; Ok (v :: vs, rest)
      | Asc "]" :: r => Ok ([v], r)
      | _ => Err token_error
      end
  end.

Definition decodeJSONSource (data : string) : result DocValue :=
  let s := chunks data in
  '(v, rest) ← decodeJSONValue (parse_fuel s) "$" s;
  match skip_space rest with
  | [] => Ok v
  | _ => Err (json_error "source document contains multiple JSON values")
  end.
End json.

(** ** YAML ([yaml.go]) *)

Inductive YamlKind := DocumentNode | SequenceNode | MappingNode | ScalarNode | AliasNode | NoNode.
#[export] Instance YamlKind_eq_dec : EqDecision YamlKind.
Proof. solve_decision. Defined.
Inductive YamlNode := mkNode (kind : YamlKind) (tag value anchor : string) (content : list YamlNode).
Definition yn_Kind (n : YamlNode) : YamlKind := let 'mkNode k _ _ _ _ := n in k.
Definition yn_Tag (n : YamlNode) : string := let 'mkNode _ t _ _ _ := n in t.
Definition yn_Value (n : YamlNode) : string := let 'mkNode _ _ v _ _ := n in v.

(** The results of [Decode] until the end of the input. *)
Class Yaml := { yaml_documents : string → list (result YamlNode) }.

Section yaml.
Context (sourcePath : string).
Definition yaml_error (what : string) : GoError := sourceError sourcePath "yaml" (Errorf what).

Definition decodeYAMLStringKey (node : YamlNode) (path : string) : result string :=
  fail_if (negb (bool_decide (yn_Kind node = ScalarNode)) || negb (bool_decide (yn_Tag node = "!!str")))
    (yaml_error (path +:+ ": mapping keys must be strings"));;
  Ok (yn_Value node).
Definition decodeYAMLScalar (tag value path : string) : result DocValue :=
  if bool_decide (tag ∈ ["!!str"; "!!timestamp"]) then Ok (DocString value) else
  if bool_decide (tag = "!!bool") then
    (if bool_decide (value = "true") then Ok (DocBool true) else
     if bool_decide (value = "false") then Ok (DocBool false) else
     Err (yaml_error (path +:+ ": boolean values must be true or false"))) else
  if bool_decide (tag = "!!int") then
    (fail_if (negb (isJSONIntegerText value))
       (yaml_error (path +:+ ": unsupported integer " +:+ value +:+ "; only JSON-compatible decimal integers are supported"));;
     match Atoi value with
     | Some z => Ok (DocInt z)
     | None => Err (yaml_error (path +:+ ": integer " +:+ value +:+ " is outside int64 range"))
     end) else
  if bool_decide (tag = "!!null") then Err (yaml_error (path +:+ ": null values are unsupported")) else
  if bool_decide (tag = "!!float") then
    Err (yaml_error (path +:+ ": unsupported number " +:+ value +:+ "; fractional numbers are unsupported")) else
  Err (yaml_error (path +:+ ": unsupported YAML tag " +:+ tag)).

(** The content of a mapping alternates between keys and values; a missing last value is
    an index out of range. *)
Fixpoint decodeYAMLNode (node : YamlNode) (path : string) : result DocValue :=
  let 'mkNode kind tag value anchor content := node in
  fail_if (bool_decide (kind = NoNode)) (yaml_error (path +:+ ": empty documents are unsupported"));;
  fail_if (negb (is_empty anchor)) (yaml_error (path +:+ ": YAML anchors are unsupported"));;
  match kind with
  | DocumentNode =>
      match content with
      | [root] => decodeYAMLNode root path
      | _ => Err (yaml_error (path +:+ ": document must contain one root value"))
      end
  | MappingNode =>
      let fix decodeYAMLMap (values : DocFields) (l : list YamlNode) : result DocFields :=
        match l with
        | [] => Ok values
        | [_] => Err (Errorf "index out of range")
        | keyNode :: valueNode :: l' =>
            key ← decodeYAMLStringKey keyNode path;
            fail_if (has_field values key) (yaml_error (path +:+ ": duplicate mapping key " +:+ key));;
            v ← decodeYAMLNode valueNode (valuePath path key);
            decodeYAMLMap (values ++ [(key, v)]) l'
        end in
      DocObject <$> decodeYAMLMap [] content
  | SequenceNode =>
      let fix decodeYAMLSequence (index : nat) (l : list YamlNode) : result (list DocValue) :=
        match l with
        | [] => Ok []
        | item :: l' =>
            v ← decodeYAMLNode item (indexPath path index); rest ← decodeYAMLSequence (S index) l'; Ok (v :: rest)
        end in
      DocList <$> decodeYAMLSequence 0 content
  | ScalarNode => decodeYAMLScalar tag value path
  | AliasNode => Err (yaml_error (path +:+ ": YAML aliases are unsupported"))
  | NoNode => Err (yaml_error (path +:+ ": empty documents are unsupported"))
  end.

Definition decodeYAMLSource {yaml : Yaml} (data : string) : result DocValue :=
  match yaml_documents data with
  | [] => Err (sourceError sourcePath "yaml" (Errorf "EOF"))
  | Err e :: _ => Err (sourceError sourcePath "yaml" e)
  | [Ok document] => decodeYAMLNode document "$"
  | Ok _ :: Err e :: _ => Err (sourceError sourcePath "yaml" e)
  | Ok _ :: Ok _ :: _ => Err (yaml_error "source document contains multiple YAML documents")
  end.
End yaml.

Definition DecodeSource {media : MediaTypes} {yaml : Yaml} (data : string) (options : DecodeOptions) : result DocValue :=
  format ← SourceFormatFor options;
  if bool_decide (format = SourceFormatJSON) then decodeJSONSource (op_Path options) data else
  if bool_decide (format = SourceFormatYAML) then decodeYAMLSource (op_Path options) data else
  Err (Errorf ("unsupported source format " +:+ format)).

(** ** Variables ([expression_directive.go], [variables.go]) *)

Definition expressionDirectiveKeys : list string := ["$args"; "$call"; "$expr"; "$ref"; "$type"].
Definition hasExpressionDirectiveKey (fields : DocFields) : bool :=
  existsb (λ f, bool_decide (f.1 ∈ expressionDirectiveKeys)) fields.
Definition requireExactDirectiveKeys (fields : DocFields) (keys : list string) : result unit :=
  fail_if (negb (bool_decide (length fields = length keys)))
    (Errorf ("expression directive must contain exactly [" +:+ str_join " " keys +:+ "]"));;
  for_each (λ key, fail_if (negb (has_field fields key)) (Errorf ("expression directive missing " +:+ key))) keys.
Definition requiredDirectiveString (fields : DocFields) (key : string) : result string :=
  match doc_field fields key with
  | None => Err (Errorf ("expression directive missing " +:+ key))
  | Some (DocString (String _ _ as text)) => Ok text
  | Some _ => Err (Errorf ("expression directive " +:+ key +:+ " must be a non-empty string"))
  end.
Definition directive_argument (index : nat) (item : DocValue) : result FunctionArgumentReference :=
  let at_ := "expression directive $args[" +:+ pretty index +:+ "]" in
  match item with
  | DocObject fields =>
      wrap_err at_ (requireExactDirectiveKeys fields ["$ref"]);;
      ref ← wrap_err at_ (requiredDirectiveString fields "$ref");
      wrap_err at_ (NewFunctionArgumentReference ref)
  | _ => Err (Errorf (at_ +:+ " must be an object"))
  end.
Definition directiveArgumentReferences (value : option DocValue) : result (list FunctionArgumentReference) :=
  match value with
  | Some (DocList []) => Err (Errorf "expression directive $args must not be empty")
  | Some (DocList items) => traverse_items directive_argument 0 items
  | _ => Err (Errorf "expression directive $args must be a list")
  end.
(** [None] when the object is no directive. *)
Definition typedExpressionDirectiveFromObject (fields : DocFields) : option (result TypedExpression) :=
  if negb (hasExpressionDirectiveKey fields) then None else
  Some (fail_if (has_field fields "$expr") (Errorf "$expr is not supported; use $call with $type and $args");;
        fail_if (has_field fields "$ref") (Errorf "$ref is only valid inside $args");;
        requireExactDirectiveKeys fields ["$type"; "$call"; "$args"];;
        typeName ← requiredDirectiveString fields "$type";
        resultType ← ParseType typeName;
        functionNameText ← requiredDirectiveString fields "$call";
        functionName ← ParseFunctionName functionNameText;
        args ← directiveArgumentReferences (doc_field fields "$args");
        call ← NewFunctionCallExpression functionName resultType args;
        Ok (mkTE resultType (ECall call))).

Fixpoint TypedExpressionFromValue (value : DocValue) : result TypedExpression :=
  match value with
  | DocString text => Ok (mkTE TypeString (EString text))
  | DocInt z => Ok (mkTE TypeInt (EInt z))
  | DocBool b => Ok (mkTE TypeBool (EBool b))
  | DocObject fields =>
      match typedExpressionDirectiveFromObject fields with
      | Some directive => directive
      | None =>
          expressions ← traverse_fields (λ key child, wrap_err ("object field " +:+ key) (TypedExpressionFromValue child)) fields;
          Ok (mkTE TypeObject (EObject expressions))
      end
  | DocList items =>
      expressions ← traverse_items (λ index child, wrap_err ("list item " +:+ pretty index) (TypedExpressionFromValue child)) 0 items;
      Ok (mkTE TypeList (EList expressions))
  | DocNull => Err (Errorf "null is not supported")
  end.

Definition NamespaceControllerConfig : Namespace := "controller_config".
Definition NamespaceProjectConfig : Namespace := "project_config".
Definition NamespaceWorkflow : Namespace := "workflow".
Definition NamespaceOverride : Namespace := "override".
Definition validateVariableNamespace (namespace : Namespace) : result unit :=
  fail_if (negb (bool_decide (namespace ∈ [NamespaceControllerConfig; NamespaceProjectConfig; NamespaceWorkflow; NamespaceOverride])))
    (Errorf ("unsupported variable source namespace " +:+ namespace)).
Definition load_variable (namespace : Namespace) (key : string) (value : DocValue) : result Var :=
  expression ← wrap_err ("field " +:+ key) (TypedExpressionFromValue value);
  Ok (mkVar (mkName namespace key) expression false None).
Definition LoadVariables (values : DocFields) (namespace : Namespace) : result (list Var) :=
  validateVariableNamespace namespace;;
  variables ← traverse_items (λ _ f, load_variable namespace f.1 f.2) 0 (sorted_fields values);
  NewScope variables;;
  Ok variables.

(** ** Workflow documents ([workflow.go]) *)

Definition APIVersionV1Alpha1 : string := "goet/v1alpha1".
Definition KindController : string := "Controller".
Definition KindProject : string := "Project".
Definition KindWorkflow : string := "Workflow".
Definition KindSubmissionOverrides : string := "SubmissionOverrides".
Definition ErrNotCanonicalWorkflow : GoError := Sentinel "not a canonical workflow document".

Record CanonicalFanOut := mkFanOut { cf_Over : string; cf_As : string; cf_ID : string; cf_Output : string }.
(** A nil map has no fields. *)
Record CanonicalWork := mkWork {
  ck_Type : string; ck_OutputPrefix : string; ck_OutputExtension : string; ck_Parameters : DocFields;
  ck_ParameterAccessors : list (string * string); ck_ResourceConstraints : list DocValue }.
Record CanonicalWorkflowStep := mkCanonicalStep {
  ct_ID : string; ct_ParallelWith : string; ct_FanOut : CanonicalFanOut; ct_Data : DocFields; ct_Work : CanonicalWork }.
Record CanonicalWorkflowDocument := mkCanonicalWorkflow {
  cw_APIVersion : string; cw_Kind : string; cw_ID : string; cw_Variables : list Var; cw_Data : DocFields;
  cw_Steps : list CanonicalWorkflowStep; cw_SourceManifest : DocFields }.

Definition requiredString (fields : DocFields) (name context : string) : result string :=
  match doc_field fields name with
  | None => Err (Errorf (context +:+ " " +:+ name +:+ " is required"))
  | Some (DocString text) =>
      fail_if (is_empty (TrimSpace text)) (Errorf (context +:+ " " +:+ name +:+ " must be a non-empty string"));; Ok text
  | Some _ => Err (Errorf (context +:+ " " +:+ name +:+ " must be a non-empty string"))
  end.
Definition string_of (value : DocValue) (name context : string) : result string :=
  match value with
  | DocString text => Ok text
  | _ => Err (Errorf (context +:+ " " +:+ name +:+ " must be a string"))
  end.
Definition object_of (value : DocValue) (name context : string) : result DocFields :=
  match value with
  | DocObject fields => Ok fields
  | _ => Err (Errorf (context +:+ " " +:+ name +:+ " must be an object"))
  end.
Definition requiredRawString (fields : DocFields) (name context : string) : result string :=
  match doc_field fields name with
  | None => Err (Errorf (context +:+ " " +:+ name +:+ " is required"))
  | Some value => string_of value name context
  end.
Definition optionalString (fields : DocFields) (name context : string) : result string :=
  match doc_field fields name with None => Ok "" | Some value => string_of value name context end.
Definition requiredObject (fields : DocFields) (name context : string) : result DocFields :=
  match doc_field fields name with
  | None => Err (Errorf (context +:+ " " +:+ name +:+ " is required"))
  | Some value => object_of value name context
  end.
Definition optionalObject (fields : DocFields) (name context : string) : result DocFields :=
  match doc_field fields name with None => Ok [] | Some value => object_of value name context end.
Definition optionalStringMap (fields : DocFields) (name context : string) : result (list (string * string)) :=
  object ← optionalObject fields name context;
  traverse_fields (λ key value, string_of value (name +:+ "." +:+ key) context) object.
Definition optionalList (fields : DocFields) (name context : string) : result (list DocValue) :=
  match doc_field fields name with
  | None => Ok []
  | Some (DocList items) => Ok items
  | Some _ => Err (Errorf (context +:+ " " +:+ name +:+ " must be a list"))
  end.

Definition goCased : list string :=
  ["ID"; "Variables"; "Steps"; "FanOut"; "WorkItem"; "FanOutExpression"; "TokenAccessor"; "IDTokenAccessor"; "OutputAccessor";
   "Type"; "Parameters"; "ParameterAccessors"].
Definition rejectGoCasedFields (fields : DocFields) (context : string) : result unit :=
  for_each (λ name, fail_if (has_field fields name)
    (Errorf (context +:+ " mixes canonical snake_case with Go field " +:+ name))) goCased.
Definition rejectUnknownFields (fields : DocFields) (context : string) (allowed : list string) : result unit :=
  for_each (λ f, fail_if (negb (bool_decide (f.1 ∈ allowed))) (Errorf (context +:+ " has unknown field " +:+ f.1))) fields.

Definition reserved_aliases : list Namespace := ["workflow"; "override"; "step"; "fanout"; "asset"; "data"; "work_item"; "runtime"].
Definition alias_start {unicode : Unicode} (c : chunk) : bool := (rune_of c =? 95)%N || IsLetter (rune_of c).
Definition validFanOutAlias {unicode : Unicode} (alias : string) : bool :=
  match chunks alias with
  | [] => false
  | c :: rest =>
      alias_start c && forallb (λ c, alias_start c || IsDigit (rune_of c)) rest && negb (bool_decide (alias ∈ reserved_aliases))
  end.

Section workflow.
Context {unicode : Unicode}.

Definition canonicalFanOut (fields : DocFields) (context : string) : result CanonicalFanOut :=
  rejectGoCasedFields fields context;;
  rejectUnknownFields fields context ["over"; "as"; "id"; "output"];;
  over ← requiredString fields "over" context;
  as_ ← requiredRawString fields "as" context;
  fail_if (negb (validFanOutAlias as_)) (Errorf (context +:+ ".as must be a valid non-reserved identifier"));;
  id ← requiredString fields "id" context;
  output ← optionalString fields "output" context;
  Ok (mkFanOut over as_ id output).
Definition canonicalWork (fields : DocFields) (context : string) : result CanonicalWork :=
  rejectGoCasedFields fields context;;
  workType ← requiredString fields "type" context;
  outputPrefix ← optionalString fields "output_prefix" context;
  outputExtension ← optionalString fields "output_extension" context;
  parameters ← optionalObject fields "parameters" context;
  parameterAccessors ← optionalStringMap fields "parameter_accessors" context;
  resourceConstraints ← optionalList fields "resource_constraints" context;
  Ok (mkWork workType outputPrefix outputExtension parameters parameterAccessors resourceConstraints).
Definition canonicalWorkflowStep (index : nat) (fields : DocFields) : result CanonicalWorkflowStep :=
  let context := "workflow document steps[" +:+ pretty index +:+ "]" in
  rejectGoCasedFields fields context;;
  id ← requiredString fields "id" context;
  parallelWith ← optionalString fields "parallel_with" context;
  workFields ← requiredObject fields "work" context;
  work ← canonicalWork workFields (context +:+ ".work");
  fanOut ← match doc_field fields "fan_out" with
           | Some (DocObject fanOutObject) => canonicalFanOut fanOutObject (context +:+ ".fan_out")
           | Some _ => Err (Errorf (context +:+ " fan_out must be an object"))
           | None => fail_if (negb (bool_decide (ck_Type work = "asset.materialize"))) (Errorf (context +:+ " fan_out is required"));;
                     Ok (mkFanOut "" "" "" "")
           end;
  dataSection ← optionalObject fields "data" context;
  Ok (mkCanonicalStep id parallelWith fanOut dataSection work).
Definition requiredWorkflowSteps (root : DocFields) : result (list CanonicalWorkflowStep) :=
  match doc_field root "steps" with
  | None => Err (Errorf "workflow document steps is required")
  | Some (DocList items) =>
      traverse_items (λ index item,
        match item with
        | DocObject fields => canonicalWorkflowStep index fields
        | _ => Err (Errorf ("workflow document steps[" +:+ pretty index +:+ "] must be an object"))
        end) 0 items
  | Some _ => Err (Errorf "workflow document steps must be a list")
  end.
Definition optionalVariables (root : DocFields) (namespace : Namespace) : result (list Var) :=
  match doc_field root "variables" with
  | None => Ok []
  | Some (DocObject fields) => LoadVariables fields namespace
  | Some _ => Err (Errorf "workflow document variables must be an object")
  end.

Definition legacyWorkflowWrapperMigrationError : GoError :=
  Errorf "legacy workflow wrapper is not supported in canonical Workflow documents; move workflow.ID/Steps into top-level id/steps and use canonical fan_out, work, and data fields".
(** [None]: the keys are those of a canonical document. *)
Definition not_canonical (has : string → bool) : option GoError :=
  if has "workflow" then
    Some (if has "api_version" || has "kind" then legacyWorkflowWrapperMigrationError else ErrNotCanonicalWorkflow)
  else if has "api_version" || has "kind" then None else Some ErrNotCanonicalWorkflow.
Definition CanonicalWorkflowFromValue (root : DocFields) : result CanonicalWorkflowDocument :=
  match not_canonical (has_field root) with
  | Some e => Err e
  | None =>
      let context := "workflow document" in
      rejectGoCasedFields root context;;
      apiVersion ← requiredString root "api_version" context;
      kind ← requiredString root "kind" context;
      id ← requiredString root "id" context;
      fail_if (negb (bool_decide (apiVersion = APIVersionV1Alpha1)))
        (Errorf ("api_version must be " +:+ APIVersionV1Alpha1 +:+ ", got " +:+ apiVersion));;
      fail_if (negb (bool_decide (kind = KindWorkflow))) (Errorf ("kind must be " +:+ KindWorkflow +:+ ", got " +:+ kind));;
      variables ← optionalVariables root NamespaceWorkflow;
      steps ← requiredWorkflowSteps root;
      dataSection ← optionalObject root "data" context;
      sourceManifest ← optionalObject root "source_manifest" context;
      Ok (mkCanonicalWorkflow apiVersion kind id variables dataSection steps sourceManifest)
  end.

Context {media : MediaTypes} {yaml : Yaml}.

(** [json.Unmarshal] into [map[string]json.RawMessage]; a [null] is an empty map. *)
Definition jsonSourceIsNotCanonicalWorkflow (data : string) (options : DecodeOptions) : result bool :=
  format ← SourceFormatFor options;
  if negb (bool_decide (format = SourceFormatJSON)) then Ok false else
  match decode_document data with
  | Document (JObject fields) => Ok (bool_decide (not_canonical (λ name, bool_decide (name ∈ fields.*1)) = Some ErrNotCanonicalWorkflow))
  | Document JNull => Ok true
  | _ => Ok false
  end.
Definition DecodeCanonicalWorkflowSource (data : string) (options : DecodeOptions) : result CanonicalWorkflowDocument :=
  notCanonical ← jsonSourceIsNotCanonicalWorkflow data options;
  if notCanonical : bool then Err ErrNotCanonicalWorkflow else
  value ← DecodeSource data options;
  match value with
  | DocObject root => CanonicalWorkflowFromValue root
  | _ => Err (sourceError (op_Path options) (op_Format options) (Errorf "workflow document must be an object"))
  end.
End workflow.

(** ** Overlays of data trees ([overlay.go], [data.go]) *)

Definition DataLayerProject : string := "project.data".
Definition DataLayerWorkflow : string := "workflow.data".
Definition DataLayerSubmission : string := "submission.data".
(** [ov_Tree] is nil when the layer has no data. *)
Record DataOverlaySource := mkOverlaySource { ov_Layer : string; ov_Tree : option DocFields }.

Definition escape_chunk (c : chunk) : string :=
  match c with
  | Asc "~" => "~0"
  | Asc "/" => "~1"
  | Bad _ => ReplacementChar
  | _ => chunk_bytes c
  end.
Definition jsonPointerEscape (segment : string) : string := concat_str (escape_chunk <$> chunks segment).
Definition appendDataPath (parent segment : string) : string := parent +:+ "/" +:+ jsonPointerEscape segment.
Definition dataShapeName (value : DocValue) : string :=
  match value with DocObject _ => "object" | DocList _ => "list" | _ => "scalar" end.

(** Objects with their fields in the order of their keys, as the loops visit them; the
    second leaves the items of lists as they are. *)
Fixpoint sort_doc (v : DocValue) : DocValue :=
  match v with
  | DocList items => DocList (sort_doc <$> items)
  | DocObject fields => DocObject (sorted_fields ((λ '(k, x), (k, sort_doc x)) <$> fields))
  | _ => v
  end.
Fixpoint sort_objects (v : DocValue) : DocValue :=
  match v with
  | DocObject fields => DocObject (sorted_fields ((λ '(k, x), (k, sort_objects x)) <$> fields))
  | _ => v
  end.
(** [target[key] = value] *)
Fixpoint put_field (key : string) (value : DocValue) (fields : DocFields) : DocFields :=
  match fields with
  | [] => [(key, value)]
  | (k, v) :: rest => if bool_decide (k = key) then (key, value) :: rest else (k, v) :: put_field key value rest
  end.

(** Where the copying loop meets the first null. *)
Fixpoint null_at (value : DocValue) (path : string) : option string :=
  match value with
  | DocNull => Some path
  | DocObject fields =>
      foldr (λ '(key, child) later, match null_at child (appendDataPath path key) with Some p => Some p | None => later end) None fields
  | DocList items =>
      (fix loop (index : nat) (l : list DocValue) : option string :=
         match l with
         | [] => None
         | item :: l' =>
             match null_at item (path +:+ "/" +:+ pretty index) with Some p => Some p | None => loop (S index) l' end
         end) 0 items
  | _ => None
  end.
(** A copy is the value. *)
Definition cloneDataValue (value : DocValue) (layer path : string) : result DocValue :=
  match null_at (sort_doc value) path with
  | Some at_ => Err (Errorf ("data overlay at " +:+ at_ +:+ " from " +:+ layer +:+ ": null cannot delete or replace data"))
  | None => Ok value
  end.
Notation Provenance := (gmap string string).
Fixpoint markDataProvenance (value : DocValue) (layer path : string) (provenance : Provenance) : Provenance :=
  let provenance := <[path := layer]> provenance in
  match value with
  | DocObject fields => foldl (λ p '(key, child), markDataProvenance child layer (appendDataPath path key) p) provenance fields
  | _ => provenance
  end.

Definition is_object (v : DocValue) : bool := match v with DocObject _ => true | _ => false end.
Definition overlay_conflict (layer itemPath : string) (provenance : Provenance) (old next : DocValue) : GoError :=
  Errorf ("data overlay at " +:+ itemPath +:+ " from " +:+ layer +:+ " conflicts with " +:+
          default "earlier data layer" (provenance !! itemPath) +:+ ": cannot replace " +:+ dataShapeName old +:+ " with " +:+
          dataShapeName next).
(** One key of the loop; [merge] is the recursive call on its value. *)
Definition overlay_field (merge : string → DocFields * Provenance → result (DocFields * Provenance)) (layer path key : string)
    (value : DocValue) (st : DocFields * Provenance) : result (DocFields * Provenance) :=
  let '(target, provenance) := st in
  let itemPath := appendDataPath path key in
  next ← cloneDataValue value layer itemPath;
  let put := (put_field key next target, markDataProvenance next layer itemPath provenance) in
  match doc_field target key with
  | None => Ok put
  | Some (DocObject current as old) =>
      if is_object next then
        merged ← merge itemPath (current, provenance);
        Ok (put_field key (DocObject merged.1) target, merged.2)
      else Err (overlay_conflict layer itemPath provenance old next)
  | Some old => if is_object next then Err (overlay_conflict layer itemPath provenance old next) else Ok put
  end.
Fixpoint overlayDataObject (source : DocValue) (layer path : string) (st : DocFields * Provenance) :
    result (DocFields * Provenance) :=
  match source with
  | DocObject fields =>
      (fix loop (fields : DocFields) (st : DocFields * Provenance) : result (DocFields * Provenance) :=
         match fields with
         | [] => Ok st
         | (key, value) :: rest => st' ← overlay_field (overlayDataObject value layer) layer path key value st; loop rest st'
         end) fields st
  | _ => Ok st
  end.
Definition overlay_layer (st : DocFields * Provenance) (source : nat * DataOverlaySource) : result (DocFields * Provenance) :=
  let layer := if is_empty (ov_Layer source.2) then "data layer " +:+ pretty source.1 else ov_Layer source.2 in
  match ov_Tree source.2 with
  | None => Ok st
  | Some tree => overlayDataObject (sort_objects (DocObject tree)) layer "" st
  end.
Definition OverlayDataTrees (sources : list DataOverlaySource) : result DocFields :=
  st ← foldM overlay_layer ([], ∅) (zip (seq 0 (length sources)) sources);
  Ok st.1.
Definition EffectiveDataTree (projectData workflowData submissionData : option DocFields) : result DocFields :=
  OverlayDataTrees [mkOverlaySource DataLayerProject projectData; mkOverlaySource DataLayerWorkflow workflowData;
                    mkOverlaySource DataLayerSubmission submissionData].

(** ** Strict documents ([schema.go])

    A [json.RawMessage] is the value it holds, [None] when it is absent. *)

Notation RawMessage := (option JSON).
Record ControllerDocument := mkControllerDocument {
  ce_APIVersion : string; ce_Kind : string; ce_ID : string; ce_Variables : gmap string JSON; ce_ExecutionEnvironment : RawMessage }.
Record ProjectDocument := mkProjectDocument {
  pe_APIVersion : string; pe_Kind : string; pe_ID : string; pe_Variables : gmap string JSON; pe_Data : RawMessage;
  pe_SourceManifest : RawMessage }.
Record WorkflowStepDocument := mkStepDocument {
  se_ID : string; se_ParallelWith : RawMessage; se_FanOut : RawMessage; se_Data : RawMessage; se_Work : RawMessage }.
Record WorkflowDocument := mkWorkflowDocument {
  we_APIVersion : string; we_Kind : string; we_ID : string; we_Variables : gmap string JSON; we_Data : RawMessage;
  we_Steps : list WorkflowStepDocument; we_SourceManifest : RawMessage }.
Record SubmissionOverridesDocument := mkOverridesDocument {
  oe_APIVersion : string; oe_Kind : string; oe_ID : string; oe_Overrides : gmap string JSON; oe_Data : RawMessage }.

Definition into_raw {R} (set : RawMessage → R → R) : Setter R := λ v r, Ok (set (Some v) r).
Definition into_values {R} (set : gmap string JSON → R → R) : Setter R := λ v r,
  m ← decode_map Ok v; Ok (set (default ∅ m) r).
Definition controller_document_fields : Struct ControllerDocument :=
  [("api_version", into_string (λ x '(mkControllerDocument _ b c d e), mkControllerDocument x b c d e));
   ("kind", into_string (λ x '(mkControllerDocument a _ c d e), mkControllerDocument a x c d e));
   ("id", into_string (λ x '(mkControllerDocument a b _ d e), mkControllerDocument a b x d e));
   ("variables", into_values (λ x '(mkControllerDocument a b c _ e), mkControllerDocument a b c x e));
   ("execution_environment", into_raw (λ x '(mkControllerDocument a b c d _), mkControllerDocument a b c d x))].
Definition project_document_fields : Struct ProjectDocument :=
  [("api_version", into_string (λ x '(mkProjectDocument _ b c d e f), mkProjectDocument x b c d e f));
   ("kind", into_string (λ x '(mkProjectDocument a _ c d e f), mkProjectDocument a x c d e f));
   ("id", into_string (λ x '(mkProjectDocument a b _ d e f), mkProjectDocument a b x d e f));
   ("variables", into_values (λ x '(mkProjectDocument a b c _ e f), mkProjectDocument a b c x e f));
   ("data", into_raw (λ x '(mkProjectDocument a b c d _ f), mkProjectDocument a b c d x f));
   ("source_manifest", into_raw (λ x '(mkProjectDocument a b c d e _), mkProjectDocument a b c d e x))].
Definition step_document_fields : Struct WorkflowStepDocument :=
  [("id", into_string (λ x '(mkStepDocument _ b c d e), mkStepDocument x b c d e));
   ("parallel_with", into_raw (λ x '(mkStepDocument a _ c d e), mkStepDocument a x c d e));
   ("fan_out", into_raw (λ x '(mkStepDocument a b _ d e), mkStepDocument a b x d e));
   ("data", into_raw (λ x '(mkStepDocument a b c _ e), mkStepDocument a b c x e));
   ("work", into_raw (λ x '(mkStepDocument a b c d _), mkStepDocument a b c d x))].
Definition workflow_document_fields : Struct WorkflowDocument :=
  [("api_version", into_string (λ x '(mkWorkflowDocument _ b c d e f g), mkWorkflowDocument x b c d e f g));
   ("kind", into_string (λ x '(mkWorkflowDocument a _ c d e f g), mkWorkflowDocument a x c d e f g));
   ("id", into_string (λ x '(mkWorkflowDocument a b _ d e f g), mkWorkflowDocument a b x d e f g));
   ("variables", into_values (λ x '(mkWorkflowDocument a b c _ e f g), mkWorkflowDocument a b c x e f g));
   ("data", into_raw (λ x '(mkWorkflowDocument a b c d _ f g), mkWorkflowDocument a b c d x f g));
   ("steps", into_list (decode_struct false step_document_fields (mkStepDocument "" None None None None))
               (λ x '(mkWorkflowDocument a b c d e _ g), mkWorkflowDocument a b c d e x g));
   ("source_manifest", into_raw (λ x '(mkWorkflowDocument a b c d e f _), mkWorkflowDocument a b c d e f x))].
Definition overrides_document_fields : Struct SubmissionOverridesDocument :=
  [("api_version", into_string (λ x '(mkOverridesDocument _ b c d e), mkOverridesDocument x b c d e));
   ("kind", into_string (λ x '(mkOverridesDocument a _ c d e), mkOverridesDocument a x c d e));
   ("id", into_string (λ x '(mkOverridesDocument a b _ d e), mkOverridesDocument a b x d e));
   ("overrides", into_values (λ x '(mkOverridesDocument a b c _ e), mkOverridesDocument a b c x e));
   ("data", into_raw (λ x '(mkOverridesDocument a b c d _), mkOverridesDocument a b c d x))].

Definition validateEnvelope (apiVersion kind wantKind id : string) : result unit :=
  fail_if (negb (bool_decide (apiVersion = APIVersionV1Alpha1)))
    (Errorf ("api_version must be " +:+ APIVersionV1Alpha1 +:+ ", got " +:+ apiVersion));;
  fail_if (negb (bool_decide (kind = wantKind))) (Errorf ("kind must be " +:+ wantKind +:+ ", got " +:+ kind));;
  fail_if (is_empty id) (Errorf "id is required").
(** The names of the fields are the allowed ones. *)
Definition decodeStrictTopLevel {R} (fields : Struct R) (zero : R) (data : string) : result R :=
  match parse_value (parse_fuel (chunks data)) 0 (chunks data) with
  | None => Err (Errorf "decode document")
  | Some (v, rest) =>
      kvs ← match v with JObject kvs => Ok kvs | JNull => Ok [] | _ => Err (Errorf "decode document") end;
      match skip_space rest with
      | _ :: _ => Err (Errorf "document must contain one JSON document")
      | [] =>
          for_each (λ kv, fail_if (negb (bool_decide (kv.1 ∈ fields.*1))) (Errorf ("unknown top-level field " +:+ kv.1))) kvs;;
          wrap_err "decode document fields" (decode_struct false fields zero v)
      end
  end.
Definition DecodeStrictController (data : string) : result ControllerDocument :=
  d ← decodeStrictTopLevel controller_document_fields (mkControllerDocument "" "" "" ∅ None) data;
  validateEnvelope (ce_APIVersion d) (ce_Kind d) KindController (ce_ID d);; Ok d.
Definition DecodeStrictProject (data : string) : result ProjectDocument :=
  d ← decodeStrictTopLevel project_document_fields (mkProjectDocument "" "" "" ∅ None None) data;
  validateEnvelope (pe_APIVersion d) (pe_Kind d) KindProject (pe_ID d);; Ok d.
Definition DecodeStrictWorkflow (data : string) : result WorkflowDocument :=
  d ← decodeStrictTopLevel workflow_document_fields (mkWorkflowDocument "" "" "" ∅ None [] None) data;
  validateEnvelope (we_APIVersion d) (we_Kind d) KindWorkflow (we_ID d);; Ok d.
Definition DecodeStrictSubmissionOverrides (data : string) : result SubmissionOverridesDocument :=
  d ← decodeStrictTopLevel overrides_document_fields (mkOverridesDocument "" "" "" ∅ None) data;
  validateEnvelope (oe_APIVersion d) (oe_Kind d) KindSubmissionOverrides (oe_ID d);; Ok d.
