(* ===== verification/DocumentLaws.v ===== *)
(** * Laws of source documents

    The overlay of data trees, described by what is found at each path: the last layer
    that says something about a path decides, and the overlay is refused exactly when a
    layer has a null or two layers disagree whether there is an object at a path.  Decoded JSON
    documents have no null and no repeated key. *)

From S2P Require Import Prelude GoTime GoStrings GoJson GoJsonLaws GoSha256 Fingerprint GoJsonStruct.
From S2P Require Import Variables Expression DataNames Documents.
Local Open Scope nat_scope.

(** ** Reading trees *)

Fixpoint at_path (p : list string) (v : DocValue) : option DocValue :=
  match p with
  | [] => Some v
  | k :: p' => match v with DocObject fields => doc_field fields k ≫= at_path p' | _ => None end
  end.
(** What a path leads to: nothing, an object ([Some None]) or another value. *)
Definition leaf (v : DocValue) : option DocValue := match v with DocObject _ => None | _ => Some v end.
Definition found_at (p : list string) (v : DocValue) : option (option DocValue) := leaf <$> at_path p v.

(** Objects without repeated keys, as the decoders make them. *)
Fixpoint distinct_keys (v : DocValue) : bool :=
  match v with
  | DocObject fields => bool_decide (NoDup fields.*1) && forallb (λ '(_, x), distinct_keys x) fields
  | _ => true
  end.
Fixpoint no_nulls (v : DocValue) : bool :=
  match v with
  | DocNull => false
  | DocObject fields => forallb (λ '(_, x), no_nulls x) fields
  | DocList items => forallb no_nulls items
  | _ => true
  end.

Lemma found_at_cons k p fields : found_at (k :: p) (DocObject fields) = doc_field fields k ≫= found_at p.
Proof. unfold found_at. cbn [at_path]. by destruct (doc_field fields k). Qed.
Lemma found_at_leaf k p v : is_object v = false → found_at (k :: p) v = None.
Proof. by destruct v. Qed.
Lemma found_at_self v : found_at [] v = Some (leaf v).
Proof. done. Qed.

(** ** Fields *)

Lemma doc_field_cons k v fields name :
  doc_field ((k, v) :: fields) name = if bool_decide (k = name) then Some v else doc_field fields name.
Proof. unfold doc_field. cbn [List.find fst]. by case_bool_decide. Qed.
Lemma doc_field_put k v fields name :
  doc_field (put_field k v fields) name = if bool_decide (k = name) then Some v else doc_field fields name.
Proof.
  induction fields as [|[k' v'] fields IH]; cbn [put_field]; [by rewrite doc_field_cons|].
  destruct (decide (k' = k)) as [->|Hne].
  - rewrite (bool_decide_eq_true_2 (k = k)), !doc_field_cons by done. by case_bool_decide.
  - rewrite (bool_decide_eq_false_2 (k' = k)), !doc_field_cons, IH by done. repeat case_bool_decide; congruence.
Qed.
Lemma doc_field_elem fields name v : NoDup fields.*1 → doc_field fields name = Some v ↔ (name, v) ∈ fields.
Proof.
  induction fields as [|[k x] fields IH]; intros Hdup.
  { split; [done|]. by intros ?%elem_of_nil. }
  cbn in Hdup. apply NoDup_cons in Hdup as [Hk Hdup]. rewrite doc_field_cons, elem_of_cons. case_bool_decide as Heq.
  - subst k. split; [intros [= ->]; by left|]. intros [[= ->]|Hin]; [done|]. destruct Hk. apply list_elem_of_fmap. by exists (name, v).
  - rewrite IH by done. naive_solver.
Qed.
Lemma doc_field_None fields name : doc_field fields name = None ↔ name ∉ fields.*1.
Proof.
  induction fields as [|[k x] fields IH]; [split; [by intros _ ?%elem_of_nil|done]|].
  rewrite doc_field_cons. cbn [fmap list_fmap fst]. rewrite not_elem_of_cons. case_bool_decide; naive_solver.
Qed.
Lemma doc_field_Permutation l1 l2 name : NoDup l1.*1 → l1 ≡ₚ l2 → doc_field l1 name = doc_field l2 name.
Proof.
  intros Hdup Hp. assert (Hdup2 : NoDup l2.*1) by by rewrite <-Hp.
  apply option_eq. intros v. by rewrite !doc_field_elem, Hp by done.
Qed.
Lemma doc_field_sorted fields name : NoDup fields.*1 → doc_field (sorted_fields fields) name = doc_field fields name.
Proof. intros Hdup. symmetry. apply doc_field_Permutation; [done|]. unfold sorted_fields. symmetry. apply order_by_perm. Qed.
Lemma doc_field_fmap (f : DocValue → DocValue) fields name :
  doc_field ((λ '(k, x), (k, f x)) <$> fields) name = f <$> doc_field fields name.
Proof.
  induction fields as [|[k x] fields IH]; [done|]. rewrite fmap_cons, !doc_field_cons, IH. by case_bool_decide.
Qed.
Lemma keys_fmap (f : DocValue → DocValue) (fields : DocFields) : ((λ '(k, x), (k, f x)) <$> fields).*1 = fields.*1.
Proof. induction fields as [|[k x] fields IH]; [done|]. cbn [fmap list_fmap fst]. f_equal. apply IH. Qed.

(** ** Nulls *)

Lemma null_at_None v path : null_at v path = None ↔ no_nulls v = true.
Proof.
  revert path. induction v as [items IH|fields IH|v Hl Ho] using DocValue_ind'; intros path.
  - cbn [null_at no_nulls]. generalize 0. induction IH as [|x l Hx _ IHl]; intros n; [done|].
    cbn [forallb]. rewrite andb_true_iff. specialize (Hx (path +:+ "/" +:+ pretty n)).
    destruct (null_at x _); [naive_solver|]. rewrite IHl. naive_solver.
  - cbn [null_at no_nulls]. induction IH as [|[k x] l Hx _ IHl]; [done|].
    cbn [foldr forallb]. rewrite andb_true_iff. specialize (Hx (appendDataPath path k)). cbn [snd] in Hx.
    destruct (null_at x _); [naive_solver|]. rewrite IHl. naive_solver.
  - destruct v; cbn; naive_solver.
Qed.
Lemma forallb_Permutation {A} (f : A → bool) l1 l2 : l1 ≡ₚ l2 → forallb f l1 = forallb f l2.
Proof. induction 1; cbn; [done|by f_equal| |congruence]. by destruct (f x), (f y). Qed.
Lemma no_nulls_fields (f : DocValue → DocValue) fields : Forall (λ x, no_nulls (f x.2) = no_nulls x.2) fields →
  forallb (λ '(_, x), no_nulls x) (sorted_fields ((λ '(k, x), (k, f x)) <$> fields)) = forallb (λ '(_, x), no_nulls x) fields.
Proof.
  intros H. unfold sorted_fields. rewrite (forallb_Permutation _ _ _ (order_by_perm _ _)).
  induction H as [|[k x] l Hx _ IH]; [done|]. csimpl. cbn [snd] in Hx. by rewrite IH, Hx.
Qed.
Lemma no_nulls_sort v : no_nulls (sort_doc v) = no_nulls v.
Proof.
  induction v as [items IH|fields IH|v Hl Ho] using DocValue_ind'; [| |by destruct v; (done || naive_solver)].
  - cbn [sort_doc no_nulls]. induction IH as [|x l Hx _ IHl]; [done|]. csimpl. by rewrite Hx, IHl.
  - cbn [sort_doc no_nulls]. by apply no_nulls_fields.
Qed.
Lemma no_nulls_sort_objects v : no_nulls (sort_objects v) = no_nulls v.
Proof.
  induction v as [items _|fields IH|v Hl Ho] using DocValue_ind'; [done| |by destruct v; (done || naive_solver)].
  cbn [sort_objects no_nulls]. by apply no_nulls_fields.
Qed.
Lemma clone_Ok value layer path next : cloneDataValue value layer path = Ok next ↔ no_nulls value = true ∧ next = value.
Proof.
  unfold cloneDataValue. pose proof (null_at_None (sort_doc value) path) as H. rewrite no_nulls_sort in H.
  destruct (null_at _ _); naive_solver.
Qed.

(** ** Sorting the fields changes nothing that is found *)

Lemma sort_objects_leaf v : leaf (sort_objects v) = leaf v.
Proof. by destruct v. Qed.
Lemma found_at_sort v p : distinct_keys v = true → found_at p (sort_objects v) = found_at p v.
Proof.
  revert p. induction v as [items _|fields IH|v Hl Ho] using DocValue_ind'; intros p Hd; [done| |by destruct v; (done || naive_solver)].
  cbn [distinct_keys] in Hd. apply andb_true_iff in Hd as [Hdup%bool_decide_eq_true Hall].
  destruct p as [|k p]; [done|]. cbn [sort_objects]. rewrite !found_at_cons, doc_field_sorted by by rewrite keys_fmap.
  rewrite doc_field_fmap. destruct (doc_field fields k) as [x|] eqn:Hx; [|done]. cbn [fmap option_fmap option_map mbind option_bind].
  apply doc_field_elem in Hx; [|done]. eapply Forall_forall in IH; [|done]. apply IH.
  eapply forallb_elem in Hall; [|done]. done.
Qed.
Lemma distinct_sort v : distinct_keys v = true → distinct_keys (sort_objects v) = true.
Proof.
  induction v as [items _|fields IH|v Hl Ho] using DocValue_ind'; intros Hd; [done| |by destruct v; (done || naive_solver)].
  cbn [sort_objects distinct_keys] in *. apply andb_true_iff in Hd as [Hdup%bool_decide_eq_true Hall].
  apply andb_true_iff. split.
  - apply bool_decide_eq_true. unfold sorted_fields. rewrite order_by_perm, keys_fmap. done.
  - unfold sorted_fields. rewrite (forallb_Permutation _ _ _ (order_by_perm _ _)). clear Hdup.
    induction IH as [|[k x] l Hx _ IHl]; [done|]. csimpl. cbn [forallb] in Hall. apply andb_true_iff in Hall as [H1 H2].
    apply andb_true_iff. split; [by apply Hx|by apply IHl].
Qed.

(** ** One layer *)

(** Where both trees have something, both have an object or neither has. *)
Definition same_shapes (a b : DocValue) : Prop :=
  ∀ p x y, found_at p a = Some x → found_at p b = Some y → (x = None ↔ y = None).
(** What the later tree says, else what the earlier one says. *)
Definition later (x y : option (option DocValue)) : option (option DocValue) := match y with Some _ => y | None => x end.
Definition overlay_ok (source : DocValue) : Prop := ∀ layer path target provenance,
  (no_nulls source = true → same_shapes (DocObject target) source →
   ∃ r, overlayDataObject source layer path (target, provenance) = Ok r) ∧
  (∀ r, overlayDataObject source layer path (target, provenance) = Ok r →
   no_nulls source = true ∧ same_shapes (DocObject target) source ∧
   ∀ k p, found_at (k :: p) (DocObject r.1) = later (found_at (k :: p) (DocObject target)) (found_at (k :: p) source)).

Lemma overlay_cons key value rest layer path st :
  overlayDataObject (DocObject ((key, value) :: rest)) layer path st =
  overlay_field (overlayDataObject value layer) layer path key value st ≫= overlayDataObject (DocObject rest) layer path.
Proof. done. Qed.

Lemma later_id x : later x None = x. Proof. done. Qed.
Lemma found_in k p fields : found_at (k :: p) (DocObject fields) = doc_field fields k ≫= found_at p.
Proof. apply found_at_cons. Qed.
Lemma same_shapes_field target key value current :
  doc_field target key = Some current → (same_shapes current value ↔
    ∀ p x y, found_at (key :: p) (DocObject target) = Some x → found_at p value = Some y → (x = None ↔ y = None)).
Proof. intros H. unfold same_shapes. split; intros Hs p x y; specialize (Hs p x y); rewrite found_in, H in *; done. Qed.

(** Of one field of the source. *)
Lemma overlay_field_spec key value layer path target provenance :
  (is_object value = true → overlay_ok value) →
  (no_nulls value = true → (∀ current, doc_field target key = Some current → same_shapes current value) →
   ∃ r, overlay_field (overlayDataObject value layer) layer path key value (target, provenance) = Ok r) ∧
  (∀ r, overlay_field (overlayDataObject value layer) layer path key value (target, provenance) = Ok r →
   no_nulls value = true ∧ (∀ current, doc_field target key = Some current → same_shapes current value) ∧
   ∀ k p, found_at (k :: p) (DocObject r.1) =
     if bool_decide (key = k) then later (found_at (k :: p) (DocObject target)) (found_at p value) else found_at (k :: p) (DocObject target)).
Proof.
  intros Hmerge. unfold overlay_field. cbv zeta.
  assert (Hput : ∀ v k p, found_at (k :: p) (DocObject (put_field key v target)) =
                   if bool_decide (key = k) then found_at p v else found_at (k :: p) (DocObject target)).
  { intros v k p. rewrite !found_in, doc_field_put. by case_bool_decide. }
  split.
  - intros Hn Hs. rewrite (proj2 (clone_Ok value layer (appendDataPath path key) value)) by done. cbn [mbind result_bind].
    destruct (doc_field target key) as [current|] eqn:Hc; [|by eexists]. specialize (Hs _ eq_refl).
    pose proof (Hs [] (leaf current) (leaf value) eq_refl eq_refl) as Hroot.
    destruct (is_object value) eqn:Ho.
    + destruct value as [| | | | |fields]; try done. destruct current as [| | | | |cur]; try discriminate (proj2 Hroot eq_refl).
      destruct (proj1 (Hmerge eq_refl layer (appendDataPath path key) cur provenance) Hn Hs) as [r ->]. by eexists.
    + destruct current as [| | | | |cur]; try (by eexists). exfalso. pose proof (proj1 Hroot eq_refl). by destruct value.
  - intros r H. apply bind_Ok in H as (next & [Hn ->]%clone_Ok & H). split; [done|].
    destruct (doc_field target key) as [current|] eqn:Hc.
    2: { injection H as <-. split; [done|]. intros k p. cbn [fst]. rewrite Hput. case_bool_decide; [|done]. subst k.
         rewrite found_in, Hc. cbn [mbind option_bind]. by destruct (found_at p value). }
    destruct (is_object value) eqn:Ho.
    + destruct value as [| | | | |fields]; try done. destruct current as [| | | | |cur]; try done.
      apply bind_Ok in H as (merged & Hm & H). injection H as <-.
      destruct (proj2 (Hmerge eq_refl layer (appendDataPath path key) cur provenance) merged Hm) as (_ & Hs & Hf).
      split; [by intros ? [= <-]|]. intros k p. cbn [fst]. rewrite Hput. case_bool_decide; [|done]. subst k.
      rewrite found_in, Hc. cbn [mbind option_bind]. destruct p as [|k p]; [done|]. apply Hf.
    + assert (Hold : is_object current = false ∧ r.1 = put_field key value target).
      { destruct current; try done; by injection H as <-. }
      destruct Hold as [Hold Hr]. split.
      * intros ? [= <-] p x y Hx Hy. destruct p as [|k p]; [|by rewrite found_at_leaf in Hx].
        injection Hx as <-. injection Hy as <-. destruct current, value; done || naive_solver.
      * intros k p. rewrite Hr, Hput. case_bool_decide; [|done]. subst k. rewrite found_in, Hc. cbn [mbind option_bind].
        destruct p as [|k p]; [done|]. by rewrite !(found_at_leaf k p).
Qed.

Lemma found_head key value rest k p :
  found_at (k :: p) (DocObject ((key, value) :: rest)) =
  if bool_decide (key = k) then found_at p value else found_at (k :: p) (DocObject rest).
Proof. rewrite !found_in, doc_field_cons. by case_bool_decide. Qed.
Lemma found_fresh key rest p : key ∉ rest.*1 → found_at (key :: p) (DocObject rest) = None.
Proof. intros H%doc_field_None. by rewrite found_in, H. Qed.
Lemma same_shapes_objects a b : (∀ k p x y, found_at (k :: p) (DocObject a) = Some x → found_at (k :: p) (DocObject b) = Some y →
  (x = None ↔ y = None)) → same_shapes (DocObject a) (DocObject b).
Proof. intros H [|k p] x y Hx Hy; [|by eapply H]. injection Hx as <-. by injection Hy as <-. Qed.

Lemma same_shapes_cons target key value rest : key ∉ rest.*1 →
  same_shapes (DocObject target) (DocObject ((key, value) :: rest)) ↔
  (∀ current, doc_field target key = Some current → same_shapes current value) ∧ same_shapes (DocObject target) (DocObject rest).
Proof.
  intros Hfresh. split.
  - intros Hs. split.
    + intros current Hc. apply (same_shapes_field target key); [done|]. intros p x y Hx Hy. apply (Hs (key :: p)); [done|].
      by rewrite found_head, bool_decide_eq_true_2.
    + apply same_shapes_objects. intros k p x y Hx Hy. apply (Hs (k :: p)); [done|]. rewrite found_head.
      case_bool_decide; [|done]. subst k. by rewrite found_fresh in Hy.
  - intros [Hv Hr]. apply same_shapes_objects. intros k p x y Hx Hy. rewrite found_head in Hy. case_bool_decide.
    + subst k. rewrite found_in in Hx. destruct (doc_field target key) as [current|] eqn:Hc; [|done]. by apply (Hv current eq_refl p).
    + by apply (Hr (k :: p)).
Qed.

Lemma overlay_object_ok source : distinct_keys source = true → is_object source = true → overlay_ok source.
Proof.
  induction source as [items _|fields IH|v Hl Ho] using DocValue_ind'; [done| |by destruct v; (done || naive_solver)].
  intros Hd _. cbn [distinct_keys] in Hd. apply andb_true_iff in Hd as [Hdup%bool_decide_eq_true Hall].
  induction IH as [|[key value] rest Hvalue _ IHrest]; intros layer path target provenance.
  { split; [by eexists|]. intros r [= <-]. split_and!; [done| |done]. apply same_shapes_objects. by intros k p x y _ [=]. }
  cbn [fmap list_fmap fst] in Hdup. apply NoDup_cons in Hdup as [Hfresh Hdup]. cbn [forallb] in Hall. apply andb_true_iff in Hall as [Hdv Hall].
  specialize (IHrest Hdup Hall). cbn [snd] in Hvalue.
  destruct (overlay_field_spec key value layer path target provenance (Hvalue Hdv)) as [Hstep1 Hstep2].
  assert (Hkeep : ∀ r1, (∀ k p, found_at (k :: p) (DocObject r1) =
      if bool_decide (key = k) then later (found_at (k :: p) (DocObject target)) (found_at p value) else found_at (k :: p) (DocObject target)) →
      same_shapes (DocObject r1) (DocObject rest) ↔ same_shapes (DocObject target) (DocObject rest)).
  { intros r1 Hr1. split; intros Hs; apply same_shapes_objects; intros k p x y Hx Hy; apply (Hs (k :: p) x y); try done;
      specialize (Hr1 k p); case_bool_decide; subst; try (by rewrite found_fresh in Hy); congruence. }
  cbn [no_nulls forallb]. rewrite overlay_cons. split.
  - intros [Hn Hns]%andb_true_iff [Hv Hr]%same_shapes_cons; [|done]. destruct (Hstep1 Hn Hv) as [[r1 pv] Hr1]. rewrite Hr1. cbn [mbind result_bind].
    destruct (Hstep2 _ Hr1) as (_ & _ & Hf). apply (IHrest layer path r1 pv); [done|]. by apply (Hkeep r1).
  - intros r H. apply bind_Ok in H as ([r1 pv] & Hr1 & H). destruct (Hstep2 _ Hr1) as (Hn & Hv & Hf). cbn [fst] in Hf.
    destruct (proj2 (IHrest layer path r1 pv) _ H) as (Hns & Hs & Hfr). split; [by apply andb_true_iff|]. split; [apply same_shapes_cons; [done|]; split; [done|by apply (Hkeep r1)]|].
    intros k p. rewrite Hfr, Hf, found_head. case_bool_decide; [|done]. subst k. by rewrite (found_fresh key rest).
Qed.

(** ** All layers *)

Definition trees (sources : list DataOverlaySource) : list DocValue := DocObject <$> omap ov_Tree sources.
Definition all_agree (l : list DocValue) : Prop := ∀ a b, a ∈ l → b ∈ l → same_shapes a b.

Lemma same_shapes_sym a b : same_shapes a b → same_shapes b a.
Proof. intros H p x y Hx Hy. symmetry. by apply (H p). Qed.
Lemma same_shapes_refl a : same_shapes a a.
Proof. intros p x y Hx Hy. assert (x = y) as -> by congruence. done. Qed.
Lemma same_shapes_sort a b : distinct_keys b = true → same_shapes a (sort_objects b) ↔ same_shapes a b.
Proof. intros Hd. unfold same_shapes. by setoid_rewrite (found_at_sort b) . Qed.

Lemma later_Some x y z : later x y = Some z → y = Some z ∨ (y = None ∧ x = Some z).
Proof. destruct y; naive_solver. Qed.

(** A tree that combines two agrees with what both agree with. *)
Lemma combined_agree a b c : (∀ p, found_at p c = later (found_at p a) (found_at p b)) → same_shapes a b → ∀ l,
  all_agree (c :: l) ↔ all_agree (a :: b :: l).
Proof.
  intros Hc Hab l. assert (Hu : ∀ u, same_shapes c u ↔ same_shapes a u ∧ same_shapes b u).
  { intros u. split.
    - intros Hs. split; intros p x y Hx Hy; specialize (Hc p); rewrite Hx in Hc.
      + destruct (found_at p b) as [z|] eqn:Hb; cbn [later] in Hc; [|by apply (Hs p)].
        rewrite (Hab p x z Hx Hb). by apply (Hs p).
      + by apply (Hs p).
    - intros [H1 H2] p x y Hx Hy. rewrite Hc in Hx. apply later_Some in Hx as [Hb|[_ Ha]]; [by apply (H2 p)|by apply (H1 p)]. }
  split.
  - intros H x y Hx Hy. assert (Hl : ∀ u, u ∈ l → same_shapes a u ∧ same_shapes b u) by (intros u Hin; apply Hu, H; set_solver).
    apply elem_of_cons in Hx as [->|[->|Hx]%elem_of_cons], Hy as [->|[->|Hy]%elem_of_cons];
      try apply same_shapes_refl; try (by apply Hl); try (by apply same_shapes_sym, Hl); [done|by apply same_shapes_sym|apply H; set_solver].
  - intros H x y Hx Hy. apply elem_of_cons in Hx as [->|Hx], Hy as [->|Hy].
    + apply same_shapes_refl.
    + apply Hu. split; apply H; set_solver.
    + apply same_shapes_sym, Hu. split; apply H; set_solver.
    + apply H; set_solver.
Qed.

Lemma overlay_tree_spec tree layer target provenance : distinct_keys (DocObject tree) = true →
  (no_nulls (DocObject tree) = true → same_shapes (DocObject target) (DocObject tree) →
   ∃ r, overlayDataObject (sort_objects (DocObject tree)) layer "" (target, provenance) = Ok r) ∧
  (∀ r, overlayDataObject (sort_objects (DocObject tree)) layer "" (target, provenance) = Ok r →
   no_nulls (DocObject tree) = true ∧ same_shapes (DocObject target) (DocObject tree) ∧
   ∀ p, found_at p (DocObject r.1) = later (found_at p (DocObject target)) (found_at p (DocObject tree))).
Proof.
  intros Hd. destruct (overlay_object_ok (sort_objects (DocObject tree)) (distinct_sort _ Hd) eq_refl layer "" target provenance) as [H1 H2].
  rewrite no_nulls_sort_objects, same_shapes_sort in H1 by done. split; [done|]. intros r Hr.
  destruct (H2 r Hr) as (Hn & Hs & Hf). rewrite no_nulls_sort_objects in Hn. apply (same_shapes_sort _ (DocObject tree) Hd) in Hs.
  split_and!; [done|done|]. intros [|k p]; [done|]. rewrite Hf. by rewrite found_at_sort.
Qed.

Lemma overlay_layers l target provenance :
  Forall (λ s, distinct_keys (DocObject (default [] (ov_Tree s.2))) = true) l →
  let ts := trees l.*2 in
  (forallb no_nulls ts = true → all_agree (DocObject target :: ts) → ∃ r, foldM overlay_layer (target, provenance) l = Ok r) ∧
  (∀ r, foldM overlay_layer (target, provenance) l = Ok r → forallb no_nulls ts = true ∧ all_agree (DocObject target :: ts) ∧
     ∀ p, found_at p (DocObject r.1) = foldl (λ acc t, later acc (found_at p t)) (found_at p (DocObject target)) ts).
Proof.
  intros Hd. revert target provenance. induction Hd as [|[i [name tree]] l Hd _ IH]; intros target provenance ts.
  { split; [by eexists|]. intros r [= <-]. split_and!; [done| |done]. intros a b ->%list_elem_of_singleton ->%list_elem_of_singleton. apply same_shapes_refl. }
  cbn [foldM]. cbn [snd ov_Tree] in Hd. destruct tree as [tree|]; [|by apply IH].
  change ts with (DocObject tree :: trees l.*2). cbn [default from_option id] in Hd.
  destruct (overlay_tree_spec tree (if is_empty name then "data layer " +:+ pretty i else name) target provenance Hd) as [H1 H2].
  cbn [forallb foldl]. split.
  - intros [Hn Hns]%andb_true_iff Hall. destruct (H1 Hn) as [[r pv] Hr]; [apply Hall; set_solver|]. setoid_rewrite Hr. cbn [mbind result_bind].
    destruct (H2 _ Hr) as (_ & Hs & Hf). apply (IH r pv); [done|]. by apply (combined_agree (DocObject target) (DocObject tree)).
  - intros r' H. apply bind_Ok in H as ([r pv] & Hr & H). destruct (H2 _ Hr) as (Hn & Hs & Hf). cbn [fst] in Hf.
    destruct (proj2 (IH r pv) _ H) as (Hns & Hall & Hfold). split_and!; [by apply andb_true_iff| |].
    + by apply (combined_agree (DocObject target) (DocObject tree) (DocObject r)).
    + intros p. by rewrite Hfold, Hf.
Qed.

Lemma foldl_later {A} (f : A → option (option DocValue)) ts :
  foldl (λ acc t, later acc (f t)) None ts = last (omap f ts).
Proof.
  induction ts as [|t ts IH] using rev_ind; [done|]. rewrite foldl_app, omap_app, IH. cbn [foldl omap list_omap].
  destruct (f t); [by rewrite last_snoc|by rewrite app_nil_r].
Qed.
Lemma zip_snd {A B} (l1 : list A) (l2 : list B) : length l1 = length l2 → (zip l1 l2).*2 = l2.
Proof. intros H. apply snd_zip. lia. Qed.

(** ** Decoded documents *)

(** What the JSON decoder makes of a text has no null and no repeated key, as the overlay
    needs it, and the decoder does not stop for want of fuel. *)
Definition decoded_ok (v : DocValue) : Prop := distinct_keys v = true ∧ no_nulls v = true.
(** The answer of a reader on a text of [n] chunks. *)
Definition reads {A} (n : nat) (P : A → Prop) (r : result (A * list chunk)) : Prop :=
  match r with Ok (v, rest) => length rest < n ∧ P v | Err e => e ≠ out_of_fuel end.

Lemma reads_token {A B} (P : B → Prop) n m sourcePath (t : option (A * list chunk)) (f : A * list chunk → result (B * list chunk)) :
  (∀ a rest, t = Some (a, rest) → length rest < m) →
  (∀ a rest, length rest < m → reads n P (f (a, rest))) → reads n P (token sourcePath t ≫= f).
Proof. intros Ht Hf. destruct t as [[a rest]|]; [|done]. cbn. eauto. Qed.
Lemma reads_bind {A B} (P : A → Prop) (Q : B → Prop) n m (r : result (A * list chunk)) (f : A * list chunk → result (B * list chunk)) :
  reads n P r → (∀ a rest, length rest < n → P a → reads m Q (f (a, rest))) → reads m Q (r ≫= f).
Proof. destruct r as [[a rest]|e]; [|done]. intros [H1 H2] Hf. by apply Hf. Qed.

Lemma decoded_field values key v : decoded_ok (DocObject values) → has_field values key = false → decoded_ok v →
  decoded_ok (DocObject (values ++ [(key, v)])).
Proof.
  unfold decoded_ok, has_field. cbn [distinct_keys no_nulls]. intros [Hd Hn] Hk%bool_decide_eq_false [Hdv Hnv].
  apply andb_true_iff in Hd as [Hdup%bool_decide_eq_true Hd]. rewrite !forallb_app, Hd, Hn. cbn [forallb]. rewrite Hdv, Hnv.
  split; [|done]. rewrite andb_true_r. apply bool_decide_eq_true. rewrite fmap_app. apply NoDup_app. split_and!; [done| |apply NoDup_singleton].
  intros k Hin ->%list_elem_of_singleton. destruct (doc_field values key) eqn:E; [by destruct Hk|]. by apply doc_field_None in E.
Qed.

Section reading.
Context (sourcePath : string).

Definition reading (fuel : nat) : Prop :=
  (∀ path s, 2 * length s < fuel → reads (length s) decoded_ok (decodeJSONValue sourcePath fuel path s)) ∧
  (∀ path values s, 2 * length s < fuel → decoded_ok (DocObject values) →
     reads (length s) (λ fields, decoded_ok (DocObject fields)) (decodeJSONObject sourcePath fuel path values s)) ∧
  (∀ path index s, S (2 * length s) < fuel →
     reads (length s) (λ items, forallb no_nulls items = true) (decodeJSONArray sourcePath fuel path index s)).

Lemma reads_value fuel path s : reading fuel → 2 * length s < S fuel →
  reads (length s) decoded_ok (decodeJSONValue sourcePath (S fuel) path s).
Proof.
  intros (_ & IHo & IHa) Hf. cbn [decodeJSONValue]. pose proof (skip_space_length s) as Hs.
  destruct (skip_space s) as [|[c|e|c] r]; try done. cbn [length] in Hs.
  assert (Hrest : ∀ c' rest, skip_space r = Asc c' :: rest → length rest < length s).
  { intros c' rest E. pose proof (skip_space_length r) as Hr. rewrite E in Hr. cbn [length] in Hr. lia. }
  assert (Hobj : reads (length s) decoded_ok ('(fields, rest) ← decodeJSONObject sourcePath fuel path [] r; Ok (DocObject fields, rest))).
  { eapply reads_bind; [by apply IHo; [lia|]|]. intros fields rest Hl H. split; [lia|done]. }
  assert (Harr : reads (length s) decoded_ok ('(items, rest) ← decodeJSONArray sourcePath fuel path 0 r; Ok (DocList items, rest))).
  { eapply reads_bind; [apply IHa; lia|]. intros items rest Hl H. split; [lia|done]. }
  case_bool_decide. { repeat (case_match; try exact Hobj). subst. split; [by eapply Hrest|done]. }
  case_bool_decide. { repeat (case_match; try exact Harr). subst. split; [by eapply Hrest|done]. }
  case_bool_decide.
  { eapply (reads_token _ _ (length r)); [intros ? ?; apply parse_string_length|]. intros text rest Hl. split; [lia|done]. }
  case_bool_decide. { destruct (expect _ r) as [k|] eqn:E; [|done]. apply expect_length in E. split; [lia|done]. }
  case_bool_decide. { destruct (expect _ r) as [k|] eqn:E; [|done]. apply expect_length in E. split; [lia|done]. }
  case_bool_decide. { by destruct (expect _ r). }
  eapply (reads_token _ _ (length s)).
  { intros text rest E%lex_number_length. cbn [length] in E. lia. }
  intros text rest Hl. unfold decodeJSONInteger. destruct (negb _); [done|]. by destruct (Atoi text).
Qed.

Lemma reads_object fuel path values s : reading fuel → 2 * length s < S fuel → decoded_ok (DocObject values) →
  reads (length s) (λ fields, decoded_ok (DocObject fields)) (decodeJSONObject sourcePath (S fuel) path values s).
Proof.
  intros (IHv & IHo & _) Hf Hok. cbn [decodeJSONObject]. pose proof (skip_space_length s) as Hs.
  destruct (skip_space s) as [|[q|e|q] r]; try done. cbn [length] in Hs. case_bool_decide; [|done].
  eapply (reads_token _ _ (length r)); [intros ? ?; apply parse_string_length|]. intros key s1 Hl1.
  destruct (has_field values key) eqn:Hkey; [done|]. cbn [fail_if mbind result_bind]. pose proof (skip_space_length s1) as Hs1.
  repeat (case_match; try done). subst. cbn [length] in Hs1.
  eapply reads_bind; [apply IHv; lia|]. intros v s2 Hl2 Hv. pose proof (skip_space_length s2) as Hs2. cbv zeta.
  pose proof (decoded_field values key v Hok Hkey Hv) as Hnew.
  match goal with |- reads ?n ?P (match skip_space s2 with _ => _ end) =>
    destruct (skip_space s2) as [|[c|e|c] r2]; try done; cbn [length] in Hs2;
    assert (Hmore : reads n P (decodeJSONObject sourcePath fuel path (values ++ [(key, v)]) r2)) end.
  { pose proof (IHo path _ r2 ltac:(lia) Hnew) as Hread. destruct (decodeJSONObject _ _ _ _ _) as [[fields rest]|]; [|done].
    destruct Hread as [Hl ?]. split; [lia|done]. }
  repeat (case_match; try done). split; [lia|done].
Qed.

Lemma reads_array fuel path index s : reading fuel → S (2 * length s) < S fuel →
  reads (length s) (λ items, forallb no_nulls items = true) (decodeJSONArray sourcePath (S fuel) path index s).
Proof.
  intros (IHv & _ & IHa) Hf. cbn [decodeJSONArray]. eapply reads_bind; [apply IHv; lia|].
  intros v s1 Hl [_ Hv]. pose proof (skip_space_length s1) as Hs1.
  match goal with |- reads ?n ?P (match skip_space s1 with _ => _ end) =>
    destruct (skip_space s1) as [|[c|e|c] r]; try done; cbn [length] in Hs1;
    assert (Hmore : reads n P ('(vs, rest) ← decodeJSONArray sourcePath fuel path (S index) r; Ok (v :: vs, rest))) end.
  { eapply reads_bind; [apply IHa; lia|]. intros vs rest Hl2 Hvs. split; [lia|]. cbn [forallb]. by rewrite Hv. }
  repeat (case_match; try done). split; [lia|]. cbn [forallb]. by rewrite Hv.
Qed.

Lemma reading_all fuel : reading fuel.
Proof.
  induction fuel as [|fuel IH]; [split_and!; intros; lia|].
  split_and!; intros; [by apply reads_value|by apply reads_object|by apply reads_array].
Qed.

Lemma decoded_source data :
  match decodeJSONSource sourcePath data with Ok v => decoded_ok v | Err e => e ≠ out_of_fuel end.
Proof.
  unfold decodeJSONSource. cbv zeta. pose proof (proj1 (reading_all (parse_fuel (chunks data))) "$" (chunks data)) as H.
  unfold parse_fuel in *. specialize (H ltac:(lia)). destruct (decodeJSONValue _ _ _ _) as [[v rest]|]; [|done].
  cbn [mbind result_bind]. by destruct (skip_space rest), H.
Qed.
End reading.

(** ** The overlay *)

(** C17: layers of data trees, whose objects have distinct keys as Go maps do, can be overlaid
    exactly when none contains a null and any two
    that both have something at a path both have an object there or neither has.  At every path
    the result then has what the last layer that has something there has: an object, or the
    same text, number, boolean or list. *)
Theorem overlay_exact sources :
  Forall (λ s, distinct_keys (DocObject (default [] (ov_Tree s))) = true) sources →
  ((∃ effective, OverlayDataTrees sources = Ok effective) ↔ forallb no_nulls (trees sources) = true ∧ all_agree (trees sources)) ∧
  (∀ effective, OverlayDataTrees sources = Ok effective →
   ∀ k p, found_at (k :: p) (DocObject effective) = last (omap (found_at (k :: p)) (trees sources))).
Proof.
  intros Hd. set (l := zip (seq 0 (length sources)) sources).
  assert (Hl : l.*2 = sources) by (apply zip_snd; by rewrite length_seq).
  destruct (overlay_layers l [] ∅) as [H1 H2].
  { apply Forall_forall. intros [i s] Hin%elem_of_zip_r. by eapply Forall_forall in Hd. }
  rewrite Hl in H1, H2. unfold OverlayDataTrees. fold l.
  assert (Hempty : ∀ ts, all_agree (DocObject [] :: (DocObject <$> ts)) ↔ all_agree (DocObject <$> ts)).
  { intros ts. split; [intros H a b Ha Hb; apply H; by right|]. intros H a b Ha Hb.
    assert (He : ∀ u, u ∈ DocObject <$> ts → same_shapes (DocObject []) u).
    { intros u (fields & -> & _)%list_elem_of_fmap. apply same_shapes_objects. by intros. }
    apply elem_of_cons in Ha as [->|Ha], Hb as [->|Hb]; [apply same_shapes_refl|by apply He|by apply same_shapes_sym, He|by apply H]. }
  split; [split|].
  - intros [effective H]. apply bind_Ok in H as (st & Hst & _). destruct (H2 _ Hst) as (Hn & Hall & _). split; [done|]. by apply Hempty.
  - intros [Hn Hall]. destruct (H1 Hn) as [r Hr]; [by apply Hempty|]. rewrite Hr. by eexists.
  - intros effective H k p. apply bind_Ok in H as (st & Hst & H). injection H as <-.
    destruct (H2 _ Hst) as (_ & _ & Hf). rewrite Hf. apply foldl_later.
Qed.

Definition dem (fields : DocFields) : option DocFields := Some [("inputs", DocObject [("dem", DocObject fields)])].
Definition demo_layers : list DataOverlaySource :=
  [mkOverlaySource DataLayerProject (dem [("kind", DocString "raster"); ("format", DocString "tif")]);
   mkOverlaySource DataLayerWorkflow None; mkOverlaySource DataLayerSubmission (dem [("kind", DocString "vector")])].
Lemma overlay_exact_witness :
  ∃ effective, OverlayDataTrees demo_layers = Ok effective ∧
    found_at ["inputs"; "dem"; "kind"] (DocObject effective) = Some (Some (DocString "vector")) ∧
    found_at ["inputs"; "dem"; "format"] (DocObject effective) = Some (Some (DocString "tif")).
Proof.
  assert (H : Forall (λ s, distinct_keys (DocObject (default [] (ov_Tree s))) = true) demo_layers) by repeat constructor.
  exists (default [] (dem [("format", DocString "tif"); ("kind", DocString "vector")])).
  assert (He : OverlayDataTrees demo_layers = Ok (default [] (dem [("format", DocString "tif"); ("kind", DocString "vector")])))
    by (vm_compute; reflexivity).
  split; [exact He|]. split; rewrite (proj2 (overlay_exact demo_layers H) _ He); vm_compute; reflexivity.
Defined.
